(* ===== verification/_CoqProject ===== *)
-Q . S2P
Prelude.v
GoStrings.v
GoFloat.v
GoURL.v
GoPath.v
GoHash.v
GoGlob.v
GoJSON.v
GoUTF8.v
JSONPrint.v
GoCrypto.v
GoBase64.v
AuthzTypes.v
AuthzCodec.v
Evaluator.v
PolicyKernel.v
ExternalEvaluator.v
WacEvaluator.v
AcpEvaluator.v
RDFIndex.v
RuntimeStorage.v
EventStream.v
SubscriptionRegistry.v
PolicyParsers.v
GoMime.v
GoSort.v
RequestBuilder.v
PolicySources.v
PolicyDiscovery.v
Safety.v
Middleware.v
Backoff.v
DecisionCache.v
CachingEvaluator.v
EnforcementGate.v
GateLocks.v
RateLimit.v
ReplayCache.v
DPoP.v
Identity.v
Issuer.v
Authn.v
Gateway.v
StorageTypes.v
MemoryBackend.v
StorageBackend.v
StorageEngine.v
StorageTransaction.v
StorageIntegrity.v
CacheInvalidator.v
GoTime.v
SaiTypes.v
SaiStorage.v
SaiService.v
SaiHandler.v
