(* ===== verification/Prelude.v ===== *)
(** * solid-sidecar, verified

    The sidecar is a gateway in front of a Solid server (CSS).  A request passes a chain of
    handlers: request identifier, response headers, safety checks, origin policy, rate limit,
    enforcement gate, shadow authorization, authentication; then it goes to the routes of the
    server.  Authorization evaluators (WAC, ACP, an external kernel written in Rust) sit behind
    wrappers for backoff and caching.  Beside this chain are a storage engine with its backends,
    a layer of RDF graphs, a stream of resource changes with its subscriptions, and the endpoints
    of Solid Application Interoperability (SAI).  This library translates these parts to
    executable definitions, one file per part, and proves what each promises.  Paths are relative
    to [src/].

    ** Conventions

    - A Go [(T, error)] is a [result]; a method on a struct is a function on a record that
      returns the new record.  Code that fails, panics or blocks in many places is written in a
      monad of its file ([PM], [SM], [IM], [M]).
    - Integers are [Z]; where the code can overflow, [wrap64] is written out.  Strings are byte
      strings.  A time is the number of nanoseconds since Go's zero time, and readings of the
      clock are arguments.
    - Go maps are [gmap]s.  A [range] over a map visits it in the order of an oracle, and the
      theorems hold for every oracle.
    - Third-party code, processes and the network are parameters; what is assumed of them are
      hypotheses of the theorems, and the witnesses instantiate them.

    ** The Go standard library

    [GoStrings], [GoFloat], [GoURL], [GoPath], [GoHash], [GoGlob] (which also has [matchPattern]
    of [internal/authz/enforcement_gate.go]), [GoJSON], [GoUTF8], [JSONPrint], [GoCrypto],
    [GoBase64], [GoMime], [GoSort] and [GoTime] follow the packages the sidecar calls: strings,
    float64, URLs, paths, SHA-256, globs, JSON reading and writing, UTF-8, RSA and P-256
    verification, base64, media types, sorting and the layout RFC 3339 of times.

    ** The request chain

    - [Gateway]: [New] and the handlers of [internal/gateway/server.go], and [RequestID] of
      [internal/observability/logging.go].  [gateway_admits_only] composes the parts: which
      guards a forwarded request has passed, those that its configuration asks for, with the rate
      limiter in the state that the calls so far have left.  [gateway_evaluates_anonymously]:
      authorization runs before authentication and sees no agent.
    - [Safety]: [internal/safety].  A path that passes stays in its storage root when decoded.
    - [RateLimit]: [internal/ratelimit/limiter.go]; how many calls of a client are admitted.
    - [Authn]: [internal/authn/middleware.go].  [DPoP], [ReplayCache]: proofs of possession are
      accepted only when in time and new, signed if signatures are checked, and made with the key
      the access token is bound to, if it is.
      [Identity], [Issuer]: [identity.go], [jwt.go], [issuer.go], [webid.go], [verifier.go]; a
      verified identity is genuine whatever the network answers: each document it relies on was
      fetched from the network in one of the calls so far, at a time that is recorded with it, and
      keys and metadata are used for an hour at most.
    - [EnforcementGate], [GateLocks]: the modes of [internal/authz/enforcement_gate.go] with
      their guardrails over sequences of operations: a gate that starts in a shadow mode enforces
      only if allowed to, and if thresholds are required, after they were met and before they
      were taken back; and the interleavings of the lock operations as a
      step relation.
    - [Middleware]: [middleware.go] and [metrics.go] of [internal/authz]; shadow authorization
      serves every request, and counts exactly what the evaluators answered.
      [RequestBuilder]: [policy_input.go] and [builder.go]; built requests are valid and
      independent of the order of the documents.

    ** Authorization

    - [AuthzTypes], [AuthzCodec]: requests, decisions, validation, audit hashes, and the wire
      format with its round trip.
    - [Evaluator]: the interface, a class with the contract of decisions, and the shadow
      evaluator.  [WacEvaluator] and [AcpEvaluator]: closed forms, and where the two agree.
    - [PolicyKernel], [ExternalEvaluator]: the Rust kernel with its command line, and the process
      that runs it; for which requests they answer as the shadow evaluator does.
    - [Backoff], [DecisionCache], [CachingEvaluator]: wrappers over any evaluator; spacing of
      calls, and the justification of every cached answer.
    - [PolicySources], [PolicyDiscovery]: [policy_source.go], [policy_loading.go],
      [policy_refresh.go], [policy_cached_loader.go], [policy_discovery.go] and
      [policy_discovery_middleware.go]; cached loads are justified, plans complete with the
      time of every next check, attached documents loaded, and which requests go without them.
    - [PolicyParsers], [RDFIndex]: the rules read from policy documents in closed form, and
      [internal/runtime/rdf.go] with its round trip and the soundness of its queries.

    ** Storage

    - [StorageTypes], [MemoryBackend], [StorageBackend]: data, the memory backend as a refinement
      of a map, and the interface with its laws.
    - [StorageEngine], [StorageTransaction], [StorageIntegrity], [CacheInvalidator]: the engine
      over any lawful backend, transactions, scan and repair, and the calls by which an
      invalidator answers writes and deletions.
    - [RuntimeStorage]: [internal/runtime/storage.go] and [storage_conditional.go]; retries end,
      with bounded waits unless the delay overflows, generated validators prevent lost updates, and validators that are written back do not.

    ** Events

    - [EventStream]: [internal/runtime/event_stream.go] as a system of callers, goroutines and
      consumers; what is delivered was accepted and fits the filter, the one panic is a catch-up
      on a closed channel, and a consumer that does not read freezes the stream.
    - [SubscriptionRegistry]: [internal/runtime/subscription_registry.go]; deliveries are
      justified by the providers, index lookups are exact, and expiry shuts a WebID out.

    ** Application interoperability

    - [SaiTypes]: [types.go] and [validation.go] of [internal/sai].  [SaiStorage]: [storage.go],
      and the interface of storages as a class; what is read back, and which copies are not.
    - [SaiService]: [service.go] over any storage.  On the memory storage every operation fails
      without effect or keeps the storage well formed, and none panics; repeated grants, deletions
      and equal readings of the clock break the listings.
    - [SaiHandler]: [handler.go], [middleware.go], the routes, and their construction in
      [internal/gateway/server.go].  Only verified identities reach a handler, answers are
      hardened, the limit is shared, and a grant is made for whom the body names.

    ** Bounds

    Recursion that is not structural runs on fuel.  The readers of strings and JSON, the media
    types and the blocks of SHA-256 take the length of their input, of which every round consumes
    a byte at least; the pieces of a media type parameter are as many as the rounds that join
    them.  For UTF-8 and printed JSON the round trips show that this is enough.  The extended
    Euclidean algorithm has 600 rounds, and numbers of 256 bits need fewer than 400.  The
    eviction loop of the decision cache has as many rounds as entries: [cache_hit_justified]
    includes that it ends, on every cache the constructor accepts.  The retry
    loop of the runtime's storage has one round more than attempts, and [retry_terminates] shows
    that it returns.

    ** Not modelled

    - Network, disk and process I/O: the reverse proxy, health probes, file-system and S3
      backends, backup streams, policy transports, migration, the distributed replay cache.
    - Output only: logs, spans, metric exporters.  Test drivers, command line programs, SDKs.
    - The gateway's compression, which is off by default.  Of SAI, the JSON of bodies and answers,
      which are values here, and the middlewares and retries no route uses.
    - Not yet: the OIDC client and trust policies, which the gateway does not use; policy
      bundles and fixtures; the comparison with CSS; the evaluator of SAI grants; the DID
      parser; the notification, event log and tenant parts of [internal/runtime]; description resources. *)

From stdpp Require Export base gmap strings list fin_maps option sorting.
From Stdlib Require Export ZArith Lia Ascii.

(** ** Scope and notations *)

Declare Scope sidecar_scope.
Delimit Scope sidecar_scope with sidecar.

(** Go's [(T, error)] results: a value or an error, never both. *)
Inductive result (E A : Type) : Type :=
| Ok (a : A)
| Err (e : E).
Arguments Ok {E A} a.
Arguments Err {E A} e.

Definition result_bind {E A B : Type} (m : result E A) (k : A -> result E B) : result E B :=
  match m with
  | Ok a => k a
  | Err e => Err e
  end.

Definition result_map_err {E F A : Type} (f : E -> F) (m : result E A) : result F A :=
  match m with
  | Ok a => Ok a
  | Err e => Err (f e)
  end.

Definition is_ok {E A : Type} (m : result E A) : bool :=
  match m with Ok _ => true | Err _ => false end.

Definition result_ok {E A : Type} (m : result E A) : option A :=
  match m with Ok a => Some a | Err _ => None end.

(** [let! x := c in k]: an early return of the error of [c].
    [fail! e when b in k]: [if b { return e }] followed by [k]. *)
Notation "'let!' x ':=' c 'in' k" := (result_bind c (fun x => k))
  (at level 10, x pattern, c at level 100, k at level 200) : sidecar_scope.
Notation "'fail!' e 'when' b 'in' k" := (if b then Err e else k)
  (at level 10, e at level 100, b at level 100, k at level 200) : sidecar_scope.
Open Scope sidecar_scope.

(** ** Machine integers and time *)

(** An [int64]: the Go operators wrap around modulo [2^64]. *)
Definition int64_min : Z := - 2 ^ 63.
Definition int64_max : Z := 2 ^ 63 - 1.
Definition wrap64 (z : Z) : Z := ((z + 2 ^ 63) `mod` 2 ^ 64 - 2 ^ 63)%Z.
Definition in_int64 (z : Z) : Prop := (int64_min <= z <= int64_max)%Z.

(** A [time.Time] is the number of nanoseconds since Go's zero time, so that the
    zero value of the type is [0]; a [time.Duration] is a number of nanoseconds. *)
Definition time_IsZero (t : Z) : bool := (t =? 0)%Z.
Definition time_After (t u : Z) : bool := (u <? t)%Z.
Definition time_Before (t u : Z) : bool := (t <? u)%Z.
(** [t.Sub(u)] saturates at the bounds of a duration. *)
Definition time_Sub (t u : Z) : Z := Z.max int64_min (Z.min int64_max (t - u)).
Definition nanosecond : Z := 1.
Definition millisecond : Z := 1000000.
Definition second : Z := 1000 * millisecond.
Definition minute : Z := 60 * second.
Definition hour : Z := 60 * minute.

(** Seconds from the zero time (1 January of year 1) to the Unix epoch. *)
Definition unix_epoch_seconds : Z := 62135596800.
Definition time_Unix (sec : Z) : Z := ((sec + unix_epoch_seconds) * second)%Z.

(** ** Iteration over a Go map

    The order in which [range] visits a map is not specified: an operation that
    depends on it takes the order as an argument, and its theorems hold for every
    order that visits each key once. *)
Definition iter_order {V : Type} (ks : list string) (m : gmap string V) : Prop :=
  NoDup ks /\ (forall k, k ∈ ks <-> is_Some (m !! k)).

(** Deleting a list of keys, one after the other. *)
Definition delete_keys {V : Type} (ks : list string) (m : gmap string V) : gmap string V :=
  foldl (fun acc k => delete k acc) m ks.

(** ** Tactics *)

(** Case analysis on the boolean tests of the code, with their specifications. *)
Ltac break_if :=
  match goal with
  | |- context [if ?b then _ else _] =>
      lazymatch b with
      | context [if _ then _ else _] => fail
      | _ => let E := fresh "Hb" in destruct b eqn:E
      end
  | H : context [if ?b then _ else _] |- _ =>
      lazymatch b with
      | context [if _ then _ else _] => fail
      | _ => let E := fresh "Hb" in destruct b eqn:E
      end
  end.

(** Boolean comparisons and connectives in hypotheses, as propositions. *)
Ltac bool_prop :=
  repeat match goal with
  | H : (_ && _)%bool = true |- _ => apply andb_true_iff in H as [? ?]
  | H : (_ || _)%bool = false |- _ => apply orb_false_iff in H as [? ?]
  | H : negb _ = true |- _ => apply negb_true_iff in H
  | H : negb _ = false |- _ => apply negb_false_iff in H
  | H : bool_decide _ = true |- _ => apply bool_decide_eq_true in H
  | H : bool_decide _ = false |- _ => apply bool_decide_eq_false in H
  | H : (_ <? _)%Z = true |- _ => apply Z.ltb_lt in H
  | H : (_ <? _)%Z = false |- _ => apply Z.ltb_ge in H
  | H : (_ <=? _)%Z = true |- _ => apply Z.leb_le in H
  | H : (_ <=? _)%Z = false |- _ => apply Z.leb_gt in H
  | H : (_ =? _)%Z = true |- _ => apply Z.eqb_eq in H
  | H : (_ =? _)%Z = false |- _ => apply Z.eqb_neq in H
  | H : String.eqb _ _ = true |- _ => apply String.eqb_eq in H
  | H : String.eqb _ _ = false |- _ => apply String.eqb_neq in H
  end.

(** Unfolds the comparisons on times down to [Z]. *)
Ltac time_unfold :=
  unfold time_After, time_Before, time_IsZero in *; bool_prop.

(** [result] hypotheses: discard the impossible ones, open the others. *)
Ltac result_inv :=
  repeat match goal with
  | H : Ok _ = Ok _ |- _ => injection H as H
  | H : Err _ = Err _ |- _ => injection H as H
  | H : Ok _ = Err _ |- _ => discriminate H
  | H : Err _ = Ok _ |- _ => discriminate H
  | H : result_bind ?m _ = Ok _ |- _ =>
      let E := fresh "Hr" in destruct m eqn:E; simpl in H
  end.

Create HintDb sidecar.

(** ** Generic lemmas *)

Lemma wrap64_id (z : Z) : in_int64 z -> wrap64 z = z.
Proof.
  unfold in_int64, wrap64, int64_min, int64_max. intros Hz.
  rewrite Z.mod_small; lia.
Qed.

Lemma wrap64_add_l (a b : Z) : wrap64 (wrap64 a + b) = wrap64 (a + b).
Proof.
  unfold wrap64. replace ((a + 2 ^ 63) mod 2 ^ 64 - 2 ^ 63 + b + 2 ^ 63)%Z with ((a + 2 ^ 63) mod 2 ^ 64 + b)%Z by lia.
  rewrite Z.add_mod_idemp_l by lia. by replace (a + 2 ^ 63 + b)%Z with (a + b + 2 ^ 63)%Z by lia.
Qed.

Lemma wrap64_range (z : Z) : in_int64 (wrap64 z).
Proof.
  unfold in_int64, wrap64, int64_min, int64_max.
  pose proof (Z.mod_pos_bound (z + 2 ^ 63) (2 ^ 64)). lia.
Qed.

Lemma wrap64_wrap64 (z : Z) : wrap64 (wrap64 z) = wrap64 z.
Proof. apply wrap64_id, wrap64_range. Qed.

Lemma delete_keys_lookup {V : Type} (ks : list string) (m : gmap string V) (k : string) :
  delete_keys ks m !! k = if decide (k ∈ ks) then None else m !! k.
Proof.
  unfold delete_keys. revert m. induction ks as [|k' ks IH]; intros m; cbn [foldl].
  - by rewrite decide_False by apply not_elem_of_nil.
  - rewrite IH. destruct (decide (k ∈ ks)), (decide (k ∈ k' :: ks)) as [Hin|Hin]; try done.
    + set_solver.
    + apply elem_of_cons in Hin as [->|Hin]; [by rewrite lookup_delete_eq|done].
    + rewrite lookup_delete_ne; [done|set_solver].
Qed.

Lemma delete_keys_subseteq {V : Type} (ks : list string) (m : gmap string V) :
  delete_keys ks m ⊆ m.
Proof.
  apply map_subseteq_spec. intros k v. rewrite delete_keys_lookup.
  by case_decide.
Qed.

Lemma delete_keys_size {V : Type} (ks : list string) (m : gmap string V) :
  NoDup ks -> (forall k, k ∈ ks -> is_Some (m !! k)) ->
  size (delete_keys ks m) + length ks = size m.
Proof.
  unfold delete_keys. revert m. induction ks as [|k ks IH]; intros m Hnd Hin;
    cbn [foldl length]; [lia|].
  apply NoDup_cons in Hnd as [Hk Hnd].
  destruct (Hin k) as [v Hv]; [set_solver|].
  rewrite Nat.add_succ_r, IH; [|done|].
  - rewrite <- (map_size_insert_None k v) by apply lookup_delete_eq.
    by rewrite insert_delete_id.
  - intros k' Hk'. rewrite lookup_delete_ne; [apply Hin; set_solver|set_solver].
Qed.

Lemma iter_order_length {V : Type} (ks : list string) (m : gmap string V) :
  iter_order ks m -> length ks = size m.
Proof.
  intros [Hnd Hin].
  rewrite <- (size_list_to_set (C := gset string) ks Hnd), <- size_dom.
  f_equal. apply set_eq. intros k. rewrite elem_of_list_to_set, elem_of_dom. apply Hin.
Qed.

(** Every map has a visiting order, so the theorems that quantify over it are not vacuous. *)
Lemma iter_order_keys {V : Type} (m : gmap string V) :
  iter_order (map_to_list m).*1 m.
Proof.
  split; [apply NoDup_fst_map_to_list|].
  intros k. rewrite list_elem_of_fmap. split.
  - intros [[k' v] [-> Hkv]]. apply elem_of_map_to_list in Hkv. by eauto.
  - intros [v Hv]. exists (k, v). by rewrite elem_of_map_to_list.
Qed.

#[export] Hint Resolve wrap64_range iter_order_keys delete_keys_subseteq : sidecar.
