(* ===== verification/GoStrings.v ===== *)
(** * Go's [strings] package, as the sidecar uses it

    A Go string is a byte string, here a [string] whose characters are bytes.  A
    [for _, r := range s] loop that only compares runes with ASCII bounds is a loop
    over bytes: every byte of a multi-byte rune is at least [0x80], and so is the
    rune (or the replacement rune of an invalid byte).  [ToLower] and [ToUpper] are
    exact on ASCII and keep the bytes from [0x80] on, and [EqualFold] is exact when one
    of its arguments is ASCII; [TrimSpace] knows the white space of Unicode by its UTF-8
    bytes. *)

From Stdlib Require DecimalString.
From S2P Require Import Prelude.

Local Open Scope Z_scope.

(** ** Bytes *)

Definition byte_of (c : ascii) : Z := Z.of_N (N_of_ascii c).
Definition chr (n : Z) : ascii := ascii_of_N (Z.to_N n).

Definition in_range (lo hi : Z) (c : ascii) : bool := (lo <=? byte_of c) && (byte_of c <=? hi).
Definition is_lower (c : ascii) : bool := in_range 97 122 c.
Definition is_upper (c : ascii) : bool := in_range 65 90 c.
Definition is_digit (c : ascii) : bool := in_range 48 57 c.
Definition is_alpha (c : ascii) : bool := is_lower c || is_upper c.
Definition is_alnum (c : ascii) : bool := is_alpha c || is_digit c.

Definition lower_byte (c : ascii) : ascii := if is_upper c then chr (byte_of c + 32) else c.
Definition upper_byte (c : ascii) : ascii := if is_lower c then chr (byte_of c - 32) else c.

(** The double quote, which a literal cannot hold. *)
Definition dquote : string := String (chr 34) "".

(** ** Characters of a string *)

Fixpoint string_forallb (p : ascii -> bool) (s : string) : bool :=
  match s with
  | EmptyString => true
  | String c s' => p c && string_forallb p s'
  end.

Definition string_existsb (p : ascii -> bool) (s : string) : bool :=
  negb (string_forallb (fun c => negb (p c)) s).

Fixpoint string_map (f : ascii -> ascii) (s : string) : string :=
  match s with
  | EmptyString => EmptyString
  | String c s' => String (f c) (string_map f s')
  end.

Definition len (s : string) : Z := Z.of_nat (String.length s).

Definition string_bytes (s : string) : list Z := map byte_of (String.list_ascii_of_string s).

Fixpoint stake (n : nat) (s : string) : string :=
  match n, s with
  | O, _ => EmptyString
  | S _, EmptyString => EmptyString
  | S n', String c s' => String c (stake n' s')
  end.

Fixpoint sdrop (n : nat) (s : string) : string :=
  match n, s with
  | O, _ => s
  | S _, EmptyString => EmptyString
  | S n', String _ s' => sdrop n' s'
  end.

(** ** Searching *)

Definition HasPrefix (s p : string) : bool := String.prefix p s.

Definition HasSuffix (s p : string) : bool :=
  (String.length p <=? String.length s)%nat &&
  String.eqb (sdrop (String.length s - String.length p) s) p.

(** [strings.Index]: the first position of [sub], [None] for [-1]. *)
Fixpoint Index (s sub : string) : option nat :=
  if String.prefix sub s then Some 0%nat
  else match s with
       | EmptyString => None
       | String _ s' => S <$> Index s' sub
       end.

Definition Contains (s sub : string) : bool :=
  match Index s sub with Some _ => true | None => false end.

(** [strings.LastIndex]: the last position of [sub]. *)
Fixpoint LastIndex (s sub : string) : option nat :=
  match s with
  | EmptyString => if String.prefix sub s then Some 0%nat else None
  | String _ s' =>
      match LastIndex s' sub with
      | Some i => Some (S i)
      | None => if String.prefix sub s then Some 0%nat else None
      end
  end.

Definition char_in (cs : string) (c : ascii) : bool :=
  string_existsb (Ascii.eqb c) cs.

(** [strings.ContainsAny] for a set of ASCII characters. *)
Definition ContainsAny (s chars : string) : bool := string_existsb (char_in chars) s.

(** ** Cutting and replacing *)

Definition TrimPrefix (s p : string) : string :=
  if HasPrefix s p then sdrop (String.length p) s else s.

Definition TrimSuffix (s p : string) : string :=
  if HasSuffix s p then stake (String.length s - String.length p) s else s.

(** [strings.Cut]: what stands before and after the first [sep]. *)
Definition Cut (s sep : string) : string * string * bool :=
  match Index s sep with
  | Some i => (stake i s, sdrop (i + String.length sep) s, true)
  | None => (s, "", false)
  end.

(** [strings.ReplaceAll] for a non-empty [old]: scan from the left; an occurrence is
    replaced and skipped ([skip] counts the bytes of it still to drop). *)
Fixpoint replace_scan (old new : string) (skip : nat) (s : string) : string :=
  match s with
  | EmptyString => EmptyString
  | String c s' =>
      match skip with
      | S k => replace_scan old new k s'
      | O =>
          if String.prefix old s
          then String.append new (replace_scan old new (String.length old - 1) s')
          else String c (replace_scan old new 0 s')
      end
  end.

Definition ReplaceAll (s old new : string) : string := replace_scan old new 0 s.

(** [strings.Split] at a one-byte separator. *)
Fixpoint split_char (sep : ascii) (cur : string) (s : string) : list string :=
  match s with
  | EmptyString => [cur]
  | String c s' =>
      if Ascii.eqb c sep then cur :: split_char sep "" s'
      else split_char sep (String.append cur (String c "")) s'
  end.

Definition Split (s : string) (sep : ascii) : list string := split_char sep "" s.

Fixpoint Join (parts : list string) (sep : string) : string :=
  match parts with
  | [] => ""
  | [p] => p
  | p :: ps => String.append p (String.append sep (Join ps sep))
  end.

(** ** Trimming *)

Fixpoint trim_left_by (p : ascii -> bool) (s : string) : string :=
  match s with
  | EmptyString => EmptyString
  | String c s' => if p c then trim_left_by p s' else s
  end.

Fixpoint trim_right_by (p : ascii -> bool) (s : string) : string :=
  match s with
  | EmptyString => EmptyString
  | String c s' =>
      match trim_right_by p s' with
      | EmptyString => if p c then EmptyString else String c EmptyString
      | t => String c t
      end
  end.

Definition TrimLeft (s cutset : string) : string := trim_left_by (char_in cutset) s.
Definition TrimRight (s cutset : string) : string := trim_right_by (char_in cutset) s.

Definition is_ascii_space (c : ascii) : bool :=
  in_range 9 13 c || Ascii.eqb c " ".

Definition bytes (l : list Z) : string := String.string_of_list_ascii (map chr l).

(** The white space of Unicode outside ASCII, by its UTF-8 bytes. *)
Definition wide_spaces : list string :=
  [bytes [194; 133]; bytes [194; 160]; bytes [225; 154; 128]] ++
  map (fun k => bytes [226; 128; 128 + Z.of_nat k]) (seq 0 11) ++
  [bytes [226; 128; 168]; bytes [226; 128; 169]; bytes [226; 128; 175];
   bytes [226; 129; 159]; bytes [227; 128; 128]].

(** One white-space rune at the left (right) end: its length in bytes. *)
Definition space_left (s : string) : option nat :=
  match s with
  | EmptyString => None
  | String c _ =>
      if is_ascii_space c then Some 1%nat
      else String.length <$> List.find (fun w => HasPrefix s w) wide_spaces
  end.

Definition last_byte (s : string) : option ascii := last (String.list_ascii_of_string s).

Definition space_right (s : string) : option nat :=
  match last_byte s with
  | None => None
  | Some c =>
      if is_ascii_space c then Some 1%nat
      else String.length <$> List.find (fun w => HasSuffix s w) wide_spaces
  end.

Fixpoint trim_space_left (fuel : nat) (s : string) : string :=
  match fuel with
  | O => s
  | S f => match space_left s with
           | Some n => trim_space_left f (sdrop n s)
           | None => s
           end
  end.

Fixpoint trim_space_right (fuel : nat) (s : string) : string :=
  match fuel with
  | O => s
  | S f => match space_right s with
           | Some n => trim_space_right f (stake (String.length s - n) s)
           | None => s
           end
  end.

(** [strings.TrimSpace]; each step removes a byte at least, so the length is fuel enough. *)
Definition TrimSpace (s : string) : string :=
  let l := trim_space_left (String.length s) s in
  trim_space_right (String.length l) l.

(** [strings.Fields]; each step takes a byte at least. *)
Fixpoint fields_go (fuel : nat) (cur : string) (s : string) : list string :=
  match fuel with
  | O => []
  | S f =>
      match s with
      | EmptyString => if String.eqb cur "" then [] else [cur]
      | String c s' =>
          match space_left s with
          | Some n => (if String.eqb cur "" then [] else [cur]) ++ fields_go f "" (sdrop n s)
          | None => fields_go f (String.append cur (String c "")) s'
          end
      end
  end.
Definition Fields (s : string) : list string := fields_go (S (String.length s)) "" s.

Definition ToLower (s : string) : string := string_map lower_byte s.
Definition ToUpper (s : string) : string := string_map upper_byte s.

(** ASCII letters in upper case, and the two other runes that fold to one. *)
Definition foldName (key : string) : string :=
  let kelvin := String (chr 226) (String (chr 132) (String (chr 170) EmptyString)) in
  let long_s := String (chr 197) (String (chr 191) EmptyString) in
  ToUpper (ReplaceAll (ReplaceAll key kelvin "K") long_s "S").
Definition EqualFold (s t : string) : bool := String.eqb (foldName s) (foldName t).

(** ** Facts *)

Lemma len_nonneg (s : string) : 0 <= len s.
Proof. unfold len. lia. Qed.

Lemma str_app_nil_l (t : string) : String.append "" t = t.
Proof. reflexivity. Qed.

Lemma str_app_cons (c : ascii) (s t : string) :
  String.append (String c s) t = String c (String.append s t).
Proof. reflexivity. Qed.

Lemma str_length_app (s t : string) :
  String.length (String.append s t) = (String.length s + String.length t)%nat.
Proof. induction s as [|c s IH]; [done|]. rewrite str_app_cons. cbn. by rewrite IH. Qed.

Lemma str_app_assoc (s t u : string) :
  String.append (String.append s t) u = String.append s (String.append t u).
Proof. induction s as [|c s IH]; [done|]. by rewrite !str_app_cons, IH. Qed.

Lemma str_app_nil_r (s : string) : String.append s "" = s.
Proof. induction s as [|c s IH]; [done|]. by rewrite str_app_cons, IH. Qed.

Lemma prefix_app (p s : string) : String.prefix p (String.append p s) = true.
Proof.
  induction p as [|c p IH]; [by destruct s|]. rewrite str_app_cons. cbn.
  destruct (ascii_dec c c); [done|congruence].
Qed.

Lemma prefix_spec (p s : string) :
  String.prefix p s = true <-> exists t, s = String.append p t.
Proof.
  split.
  - revert s. induction p as [|c p IH]; intros s Hp; [by exists s|].
    destruct s as [|d s]; cbn in Hp; [done|].
    destruct (ascii_dec c d) as [->|]; [|done].
    destruct (IH s Hp) as [t ->]. by exists t.
  - intros [t ->]. apply prefix_app.
Qed.

Lemma sdrop_app (s t : string) : sdrop (String.length s) (String.append s t) = t.
Proof. induction s as [|c s IH]; [done|]. by rewrite str_app_cons. Qed.

Lemma stake_app (s t : string) : stake (String.length s) (String.append s t) = s.
Proof. induction s as [|c s IH]; [by destruct t|]. rewrite str_app_cons. cbn. by rewrite IH. Qed.

Lemma stake_sdrop (n : nat) (s : string) : String.append (stake n s) (sdrop n s) = s.
Proof.
  revert s. induction n as [|n IH]; intros [|c s]; try done. cbn [stake sdrop]. by rewrite str_app_cons, IH.
Qed.

Lemma stake_length (n : nat) (s : string) :
  String.length (stake n s) = Nat.min n (String.length s).
Proof. revert s. induction n as [|n IH]; intros [|c s]; try done. cbn. by rewrite IH. Qed.

Lemma HasSuffix_spec (s p : string) :
  HasSuffix s p = true <-> exists t, s = String.append t p.
Proof.
  unfold HasSuffix. split.
  - intros H. bool_prop. exists (stake (String.length s - String.length p) s).
    rewrite <- (stake_sdrop (String.length s - String.length p) s) at 1. by f_equal.
  - intros [t ->]. rewrite str_length_app.
    replace (String.length t + String.length p - String.length p)%nat
      with (String.length t) by lia.
    rewrite sdrop_app, String.eqb_refl, andb_true_r. apply Nat.leb_le. lia.
Qed.

Lemma string_forallb_app (p : ascii -> bool) (s t : string) :
  string_forallb p (String.append s t) = string_forallb p s && string_forallb p t.
Proof. induction s as [|c s IH]; [done|]. rewrite str_app_cons. cbn. by rewrite IH, andb_assoc. Qed.

Lemma string_existsb_cons (p : ascii -> bool) (c : ascii) (s : string) :
  string_existsb p (String c s) = p c || string_existsb p s.
Proof. unfold string_existsb. cbn. by rewrite negb_andb, negb_involutive. Qed.

Lemma string_existsb_app (p : ascii -> bool) (s t : string) :
  string_existsb p (String.append s t) = string_existsb p s || string_existsb p t.
Proof. unfold string_existsb. by rewrite string_forallb_app, negb_andb. Qed.

Lemma string_forallb_weaken (p q : ascii -> bool) (s : string) :
  (forall c, p c = true -> q c = true) -> string_forallb p s = true -> string_forallb q s = true.
Proof.
  intros Hpq. induction s as [|c s IH]; [done|]. cbn. intros H. bool_prop.
  rewrite Hpq, IH by done. done.
Qed.

Lemma str_app_inj_l (s t u : string) : String.append s t = String.append s u -> t = u.
Proof. induction s as [|c s IH]; [done|]. rewrite !str_app_cons. intros [= H]. auto. Qed.

Lemma str_app_eq_nil (s t : string) : String.append s t = "" -> s = "" /\ t = "".
Proof. destruct s; [done|]. by intros [=]. Qed.

Create Rewrite HintDb gostrings.
#[export] Hint Rewrite str_app_assoc str_app_nil_r str_length_app : gostrings.
#[export] Hint Resolve len_nonneg prefix_app : sidecar.

(** ** [strconv.FormatInt] in base 10 *)

Definition FormatInt (z : Z) : string := DecimalString.NilZero.string_of_int (Z.to_int z).

(** ** Lemmas on [ReplaceAll] *)

Lemma Index_cons (c : ascii) (s sub : string) :
  String.prefix sub (String c s) = false -> Index (String c s) sub = S <$> Index s sub.
Proof. intros H. cbn [Index]. by rewrite H. Qed.

Lemma Contains_cons (c : ascii) (s sub : string) :
  Contains (String c s) sub = String.prefix sub (String c s) || Contains s sub.
Proof. unfold Contains. cbn [Index]. destruct (String.prefix _ _); [done|]. by destruct (Index s sub). Qed.

Lemma replace_scan_absent (old new s : string) :
  Contains s old = false -> replace_scan old new 0 s = s.
Proof.
  induction s as [|c s IH]; intros H; [done|]. rewrite Contains_cons in H.
  apply orb_false_iff in H as [H1 H2]. cbn [replace_scan]. by rewrite H1, IH.
Qed.

Lemma prefix_length (p s : string) :
  String.prefix p s = true -> (String.length p <= String.length s)%nat.
Proof. intros [t ->]%prefix_spec. rewrite str_length_app. lia. Qed.

Lemma replace_scan_length (old new : string) (skip : nat) (s : string) :
  (String.length new < String.length old)%nat ->
  (String.length (replace_scan old new skip s) + skip `min` String.length s <= String.length s)%nat.
Proof.
  intros Hl. revert skip. induction s as [|c s IH]; intros skip; cbn [replace_scan String.length]; [lia|].
  destruct skip as [|skip]; [|specialize (IH skip); lia].
  destruct (String.prefix old (String c s)) eqn:E.
  - apply prefix_length in E. cbn [String.length] in E. rewrite str_length_app.
    specialize (IH (String.length old - 1)%nat). lia.
  - cbn [String.length]. specialize (IH 0%nat). lia.
Qed.

Lemma ReplaceAll_shrinks (s old new : string) :
  (String.length new < String.length old)%nat -> Contains s old = true ->
  (String.length (ReplaceAll s old new) < String.length s)%nat.
Proof.
  intros Hl. unfold ReplaceAll. induction s as [|c s IH]; intros H.
  - destruct old; [cbn in Hl; lia|discriminate H].
  - rewrite Contains_cons in H. cbn [replace_scan]. destruct (String.prefix old (String c s)) eqn:E.
    + apply prefix_length in E. cbn [String.length] in E |- *. rewrite str_length_app.
      pose proof (replace_scan_length old new (String.length old - 1) s Hl). lia.
    + cbn [orb] in H. cbn [String.length]. specialize (IH H). lia.
Qed.

(** ** Lemmas on [TrimSpace], [Fields] and [Split] *)

(** The printable characters of ASCII, without the space. *)
Definition graphic (c : ascii) : bool := in_range 33 126 c.

Lemma wide_head (w : string) : w ∈ wide_spaces -> exists c w', w = String c w' /\ 128 <= byte_of c.
Proof.
  intros Hw. assert (forallb (fun w => match w with String c _ => 128 <=? byte_of c | _ => false end) wide_spaces = true)
    as Hall by (vm_compute; reflexivity).
  rewrite forallb_forall in Hall. specialize (Hall w). rewrite <- list_elem_of_In in Hall. specialize (Hall Hw).
  destruct w as [|c w']; [done|]. exists c, w'. split; [done|]. lia.
Qed.

Lemma wide_last (w : string) : w ∈ wide_spaces -> exists c, last_byte w = Some c /\ 128 <= byte_of c.
Proof.
  intros Hw. assert (forallb (fun w => match last_byte w with Some c => 128 <=? byte_of c | _ => false end) wide_spaces = true)
    as Hall by (vm_compute; reflexivity).
  rewrite forallb_forall in Hall. specialize (Hall w). rewrite <- list_elem_of_In in Hall. specialize (Hall Hw).
  destruct (last_byte w) as [c|]; [|done]. exists c. split; [done|]. lia.
Qed.

Lemma graphic_range (c : ascii) : graphic c = true -> 33 <= byte_of c <= 126.
Proof. unfold graphic, in_range. intros. bool_prop. lia. Qed.

Lemma graphic_not_space (c : ascii) : graphic c = true -> is_ascii_space c = false.
Proof.
  intros Hg%graphic_range. unfold is_ascii_space, in_range. destruct (Ascii.eqb_spec c " ") as [->|]; [change (byte_of " ") with 32 in Hg; lia|].
  rewrite orb_false_r. apply andb_false_iff. right. lia.
Qed.

Lemma find_none {A} (f : A -> bool) (l : list A) : (forall x, x ∈ l -> f x = false) -> List.find f l = None.
Proof.
  induction l as [|x l IH]; intros Hf; [done|]. cbn. rewrite Hf by (apply list_elem_of_here).
  apply IH. intros y Hy. apply Hf. by apply list_elem_of_further.
Qed.

Lemma space_left_graphic (c : ascii) (s : string) : graphic c = true -> space_left (String c s) = None.
Proof.
  intros Hg. unfold space_left. rewrite (graphic_not_space c Hg), find_none; [done|].
  intros w (a & w' & -> & Ha)%wide_head. unfold HasPrefix. cbn.
  destruct (ascii_dec a c) as [->|]; [|done]. apply graphic_range in Hg. lia.
Qed.

Lemma last_byte_app (s t : string) (c : ascii) : last_byte t = Some c -> last_byte (String.append s t) = Some c.
Proof.
  unfold last_byte. intros Ht. induction s as [|d s IH]; [done|].
  rewrite str_app_cons. cbn [String.list_ascii_of_string]. rewrite last_cons, IH. done.
Qed.

Lemma space_right_graphic (s : string) (c : ascii) : last_byte s = Some c -> graphic c = true -> space_right s = None.
Proof.
  intros Hl Hg. unfold space_right. rewrite Hl, (graphic_not_space c Hg), find_none; [done|].
  intros w (a & Ha & Hb)%wide_last. destruct (HasSuffix s w) eqn:E; [|done].
  apply HasSuffix_spec in E as [t ->]. rewrite (last_byte_app t w a Ha) in Hl. injection Hl as ->.
  apply graphic_range in Hg. lia.
Qed.

(** A string with graphic ends. *)
Definition graphic_ends (s : string) : Prop :=
  (exists c t, s = String c t /\ graphic c = true) /\ exists c, last_byte s = Some c /\ graphic c = true.

Lemma TrimSpace_graphic (s : string) : graphic_ends s -> TrimSpace s = s.
Proof.
  intros [(c & t & -> & Hc) (d & Hd & Hg)]. unfold TrimSpace. cbn [String.length trim_space_left].
  rewrite (space_left_graphic c t Hc). cbn [String.length trim_space_right].
  by rewrite (space_right_graphic _ d Hd Hg).
Qed.

Lemma TrimSpace_space (s : string) : graphic_ends s -> TrimSpace (String.append s " ") = s.
Proof.
  intros Hs. pose proof Hs as [(c & t & -> & Hc) (d & Hd & Hg)]. unfold TrimSpace. rewrite str_app_cons.
  cbn [String.length trim_space_left]. rewrite (space_left_graphic c _ Hc), <- str_app_cons.
  replace (String.length (String.append (String c t) " ")) with (S (String.length (String c t)))
    by (rewrite str_length_app; cbn; lia).
  cbn [trim_space_right]. unfold space_right at 1. rewrite (last_byte_app (String c t) " " " "%char eq_refl).
  cbn [is_ascii_space]. change (is_ascii_space " ") with true. cbv iota.
  rewrite str_length_app. replace (String.length (String c t) + String.length " " - 1)%nat with (String.length (String c t)) by (cbn; lia).
  rewrite stake_app. cbn [String.length trim_space_right]. by rewrite (space_right_graphic _ d Hd Hg).
Qed.

(** A word of graphic characters. *)
Definition word (s : string) : Prop := s <> "" /\ string_forallb graphic s = true.

Lemma word_ends (s : string) : word s -> graphic_ends s.
Proof.
  intros [Hne Hs]. split.
  - destruct s as [|c t]; [done|]. cbn in Hs. bool_prop. eauto.
  - revert Hne Hs. induction s as [|c t IH]; [done|]. intros _ Hs. cbn in Hs. bool_prop.
    destruct t as [|d t]; [by exists c|]. destruct IH as (e & He & Hg); [done|done|].
    exists e. split; [|done]. by apply (last_byte_app (String c "") (String d t)).
Qed.

(** A word is read into the current field. *)
Lemma fields_word (w : string) (fuel : nat) (cur s : string) :
  string_forallb graphic w = true ->
  fields_go (String.length w + fuel) cur (String.append w s) = fields_go fuel (String.append cur w) s.
Proof.
  revert cur. induction w as [|c w IH]; intros cur Hw; [by rewrite str_app_nil_r|].
  cbn in Hw. bool_prop. rewrite str_app_cons. cbn [String.length Nat.add fields_go].
  rewrite space_left_graphic by done. rewrite IH by done. by rewrite str_app_assoc.
Qed.

Lemma Fields_words (ws : list string) (w : string) :
  word w -> Forall word ws -> Fields (Join (w :: ws) " ") = w :: ws.
Proof.
  intros Hw Hws. unfold Fields. revert w Hw. induction Hws as [|w' ws Hw' Hws IH]; intros w [Hne Hw].
  - cbn [Join]. rewrite <- (str_app_nil_r w) at 2.
    replace (S (String.length w)) with (String.length w + 1)%nat by lia.
    rewrite fields_word, str_app_nil_l by done. cbn [fields_go]. apply String.eqb_neq in Hne. by rewrite Hne.
  - cbn [Join]. rewrite !str_length_app. specialize (IH w' Hw'). cbn [Join] in IH.
    set (rest := match ws with [] => w' | _ => _ end) in *.
    replace (S (String.length w + (String.length " " + String.length rest)))
      with (String.length w + S (S (String.length rest)))%nat by (cbn; lia).
    rewrite fields_word by done. rewrite str_app_nil_l, (str_app_cons " " "" rest), str_app_nil_l.
    change (fields_go (S (S (String.length rest))) w (String " " rest))
      with ((if String.eqb w "" then [] else [w]) ++ fields_go (S (String.length rest)) "" rest).
    rewrite IH. apply String.eqb_neq in Hne. by rewrite Hne.
Qed.

Lemma split_char_app (sep : ascii) (l cur s : string) :
  string_forallb (fun c => negb (Ascii.eqb c sep)) l = true ->
  split_char sep cur (String.append l (String sep s)) = String.append cur l :: split_char sep "" s.
Proof.
  revert cur. induction l as [|c l IH]; intros cur Hl; rewrite ?str_app_nil_l, ?str_app_cons; cbn [split_char].
  - by rewrite Ascii.eqb_refl, str_app_nil_r.
  - cbn in Hl. bool_prop. destruct (Ascii.eqb c sep); [done|]. rewrite IH by done. by rewrite str_app_assoc.
Qed.
