(* ===== verification/GoFloat.v ===== *)
(** * float64

    The IEEE 754 binary64 operations the sidecar uses (percentages, durations in
    seconds), over the executable [SpecFloat] of the standard library. *)

From Stdlib Require Import SpecFloat.
From S2P Require Import Prelude GoStrings.

Local Open Scope Z_scope.

Definition float64 : Type := spec_float.
Definition f64_prec : Z := 53.
Definition f64_emax : Z := 1024.

(** The conversion [float64(z)], rounding to nearest even. *)
Definition f64_of_Z (z : Z) : float64 := binary_normalize f64_prec f64_emax z 0 false.
Definition f64_add (x y : float64) : float64 := SFadd f64_prec f64_emax x y.
Definition f64_mul (x y : float64) : float64 := SFmul f64_prec f64_emax x y.
Definition f64_div (x y : float64) : float64 := SFdiv f64_prec f64_emax x y.
Definition f64_lt (x y : float64) : bool := SFltb x y.
Definition f64_le (x y : float64) : bool := SFleb x y.

(** The conversion [int(x)] of a value in range: truncation towards zero. *)
Definition f64_to_int (x : float64) : Z :=
  match x with
  | S754_finite s m e =>
      let mag := if 0 <=? e then Z.pos m * 2 ^ e else Z.pos m / 2 ^ (- e) in
      if s then - mag else mag
  | _ => 0
  end.

(** [Duration.Seconds()]. *)
Definition duration_Seconds (d : Z) : float64 :=
  f64_add (f64_of_Z (Z.quot d second))
          (f64_div (f64_of_Z (Z.rem d second)) (f64_of_Z 1000000000)).

Example f64_seconds_example : f64_to_int (duration_Seconds (300 * second + 7)) = 300.
Proof. reflexivity. Qed.

(** 29/100*100 is below 29. *)
Example f64_percent_example :
  f64_lt (f64_mul (f64_div (f64_of_Z 29) (f64_of_Z 100)) (f64_of_Z 100)) (f64_of_Z 29) = true.
Proof. vm_compute. reflexivity. Qed.

(** [%.2f]: the exact value times 100, rounded half to even, with a decimal point. *)
Definition round_half_even_div (n d : Z) : Z :=
  let q := n / d in
  let r := n mod d in
  if 2 * r <? d then q else if d <? 2 * r then q + 1 else if Z.even q then q else q + 1.

Definition FormatFloat2 (x : float64) : string :=
  match x with
  | S754_nan => "NaN"
  | S754_infinity s => if s then "-Inf" else "+Inf"
  | S754_zero s => if s then "-0.00" else "0.00"
  | S754_finite s m e =>
      let hundredths := if 0 <=? e then Z.pos m * 100 * 2 ^ e
                        else round_half_even_div (Z.pos m * 100) (2 ^ (- e)) in
      let frac := hundredths mod 100 in
      String.append (if s then "-" else "")
        (String.append (FormatInt (hundredths / 100))
           (String.append (if frac <? 10 then ".0" else ".") (FormatInt frac)))
  end.

Example format_percent : FormatFloat2 (f64_div (f64_of_Z 200) (f64_of_Z 3)) = "66.67".
Proof. vm_compute. reflexivity. Qed.
