(* ===== verification/GoURL.v ===== *)
(** * Go's [net/url.Parse]

    The sidecar validates every URI it handles with [url.Parse] and then looks at the
    scheme, the host, the user part, the path, the query and the fragment.  This file
    follows the parser of Go's [net/url] step by step: the fragment and the query
    are cut off, the scheme is read, the authority is split into user and host, and
    every component is percent-decoded with the rules of its mode. *)

From S2P Require Import Prelude GoStrings.

Local Open Scope Z_scope.

Record URL := mkURL {
  Scheme : string;
  Opaque : string;
  User : option (string * option string);
  Host : string;
  Path : string;
  RawPath : string;
  OmitHost : bool;
  ForceQuery : bool;
  RawQuery : string;
  Fragment : string
}.

Inductive url_error :=
| URLControlCharacter
| URLMissingScheme
| URLColonInFirstSegment
| URLBadPort
| URLMissingBracket
| URLBadUserinfo
| URLBadEscape
| URLBadHostByte.

(** ** Percent-decoding *)

Inductive encoding := encodeHost | encodeZone | encodeUserPassword | encodePath | encodeFragment.

Definition unhex (c : ascii) : option Z :=
  if is_digit c then Some (byte_of c - 48)
  else if in_range 97 102 c then Some (byte_of c - 97 + 10)
  else if in_range 65 70 c then Some (byte_of c - 65 + 10)
  else None.

(** [shouldEscape] in the host and zone modes: the bytes a host cannot hold as they are. *)
Definition shouldEscapeHost (c : ascii) : bool :=
  negb (is_alnum c || char_in "!$&'()*+,;=:[]<>-_.~" c || (byte_of c =? 34)).

(** One well-formed escape, under the mode's restriction. *)
Definition escape_allowed (mode : encoding) (h1 h2 : ascii) : option ascii :=
  match unhex h1, unhex h2 with
  | Some a, Some b =>
      let v := chr (a * 16 + b) in
      let is25 := Ascii.eqb h1 "2" && Ascii.eqb h2 "5" in
      match mode with
      | encodeHost => if (a <? 8) && negb is25 then None else Some v
      | encodeZone =>
          if negb is25 && negb (Ascii.eqb v " ") && shouldEscapeHost v then None else Some v
      | _ => Some v
      end
  | _, _ => None
  end.

Fixpoint unescape (mode : encoding) (s : string) : result url_error string :=
  match s with
  | EmptyString => Ok ""
  | String c s' =>
      if Ascii.eqb c "%" then
        match s' with
        | String h1 (String h2 s'') =>
            match escape_allowed mode h1 h2 with
            | Some v => let! t := unescape mode s'' in Ok (String v t)
            | None => Err URLBadEscape
            end
        | _ => Err URLBadEscape
        end
      else
        match mode with
        | encodeHost | encodeZone =>
            if (byte_of c <? 128) && shouldEscapeHost c then Err URLBadHostByte
            else let! t := unescape mode s' in Ok (String c t)
        | _ => let! t := unescape mode s' in Ok (String c t)
        end
  end.

(** ** Percent-encoding *)

(** [shouldEscape], without the query-component mode. *)
Definition shouldEscape (mode : encoding) (c : ascii) : bool :=
  if is_alnum c then false
  else
    let hostLike := match mode with encodeHost | encodeZone => true | _ => false end in
    if hostLike && (char_in "!$&'()*+,;=:[]<>" c || (byte_of c =? 34)) then false
    else if char_in "-_.~" c then false
    else if char_in "$&+,/:;=?@" c then
      match mode with
      | encodePath => Ascii.eqb c "?"
      | encodeUserPassword => char_in "@/?:" c
      | encodeFragment => false
      | encodeHost | encodeZone => true
      end
    else match mode with
         | encodeFragment => negb (char_in "!()*" c)
         | _ => true
         end.

Definition upper_hex (n : Z) : ascii := chr (if n <? 10 then 48 + n else 55 + n).

Fixpoint escape (mode : encoding) (s : string) : string :=
  match s with
  | EmptyString => EmptyString
  | String c s' =>
      if shouldEscape mode c
      then String "%" (String (upper_hex (byte_of c / 16))
             (String (upper_hex (byte_of c mod 16)) (escape mode s')))
      else String c (escape mode s')
  end.

Definition validEncoded (mode : encoding) (s : string) : bool :=
  string_forallb (fun c => char_in "!$&'()*+,;=:@[]%" c || negb (shouldEscape mode c)) s.

(** ** Scheme and authority *)

(** [getScheme]: [(scheme, rest)]; no scheme gives the whole input as the rest. *)
Fixpoint getScheme_go (raw acc s : string) : result url_error (string * string) :=
  match s with
  | EmptyString => Ok ("", raw)
  | String c s' =>
      if is_alpha c then getScheme_go raw (String.append acc (String c "")) s'
      else if is_digit c || char_in "+-." c then
        if String.eqb acc "" then Ok ("", raw)
        else getScheme_go raw (String.append acc (String c "")) s'
      else if Ascii.eqb c ":" then
        if String.eqb acc "" then Err URLMissingScheme else Ok (acc, s')
      else Ok ("", raw)
  end.
Definition getScheme (raw : string) : result url_error (string * string) :=
  getScheme_go raw "" raw.

Definition validOptionalPort (port : string) : bool :=
  match port with
  | EmptyString => true
  | String c p => Ascii.eqb c ":" && string_forallb is_digit p
  end.

Definition parseHost (host : string) : result url_error string :=
  if HasPrefix host "[" then
    match LastIndex host "]" with
    | None => Err URLMissingBracket
    | Some i =>
        fail! URLBadPort when negb (validOptionalPort (sdrop (i + 1) host)) in
        match Index (stake i host) "%25" with
        | Some zone =>
            let! h1 := unescape encodeHost (stake zone host) in
            let! h2 := unescape encodeZone (sdrop zone (stake i host)) in
            let! h3 := unescape encodeHost (sdrop i host) in
            Ok (String.append h1 (String.append h2 h3))
        | None => unescape encodeHost host
        end
    end
  else
    match LastIndex host ":" with
    | Some i =>
        fail! URLBadPort when negb (validOptionalPort (sdrop i host)) in
        unescape encodeHost host
    | None => unescape encodeHost host
    end.

Definition validUserinfo (s : string) : bool :=
  string_forallb (fun c => is_alnum c || char_in "-._:~!$&'()*+,;=%@" c) s.

Definition parseAuthority (authority : string)
  : result url_error (option (string * option string) * string) :=
  match LastIndex authority "@" with
  | None => let! h := parseHost authority in Ok (None, h)
  | Some i =>
      let! h := parseHost (sdrop (i + 1) authority) in
      let userinfo := stake i authority in
      fail! URLBadUserinfo when negb (validUserinfo userinfo) in
      let '(name, pass, hasPassword) := Cut userinfo ":" in
      let! u := unescape encodeUserPassword name in
      let! p := unescape encodeUserPassword pass in
      Ok (Some (u, if hasPassword : bool then Some p else None), h)
  end.

(** ** The parser *)

Definition is_ctl (c : ascii) : bool := (byte_of c <? 32) || (byte_of c =? 127).

(** The query: a lone trailing [?] only sets [ForceQuery], otherwise it is cut at the first. *)
Definition cut_query (rest : string) : string * bool * string :=
  let '(a, b, found) := Cut rest "?" in
  (a, (found : bool) && String.eqb b "", b).

(** [setPath]: the raw path is kept when it is not the default encoding of the path. *)
Definition setPath (p : string) : result url_error (string * string) :=
  let! path := unescape encodePath p in
  Ok (path, if String.eqb p (escape encodePath path) then "" else p).

Definition parse (raw : string) : result url_error URL :=
  fail! URLControlCharacter when string_existsb is_ctl raw in
  if String.eqb raw "*" then Ok (mkURL "" "" None "" "*" "" false false "" "")
  else
    let! (scheme0, rest0) := getScheme raw in
    let scheme := ToLower scheme0 in
    let '(rest, force, query) := cut_query rest0 in
    if negb (HasPrefix rest "/") && negb (String.eqb scheme "") then
      Ok (mkURL scheme rest None "" "" "" false force query "")
    else
      let '(segment, _, _) := Cut rest "/" in
      fail! URLColonInFirstSegment
        when negb (HasPrefix rest "/") && Contains segment ":" in
      if (negb (String.eqb scheme "") || negb (HasPrefix rest "///")) && HasPrefix rest "//"
      then
        let authority := sdrop 2 rest in
        let '(auth, path) :=
          match Index authority "/" with
          | Some i => (stake i authority, sdrop i authority)
          | None => (authority, "")
          end in
        let! (user, host) := parseAuthority auth in
        let! (p, rawp) := setPath path in
        Ok (mkURL scheme "" user host p rawp false force query "")
      else
        let! (p, rawp) := setPath rest in
        Ok (mkURL scheme "" None "" p rawp
              (negb (String.eqb scheme "") && HasPrefix rest "/") force query "").

Definition with_fragment (u : URL) (f : string) : URL :=
  mkURL (Scheme u) (Opaque u) (User u) (Host u) (Path u) (RawPath u) (OmitHost u) (ForceQuery u)
    (RawQuery u) f.

Definition Parse (raw : string) : result url_error URL :=
  let '(u, frag, _) := Cut raw "#" in
  let! url := parse u in
  if String.eqb frag "" then Ok url
  else
    let! f := unescape encodeFragment frag in
    Ok (with_fragment url f).

(** ** Printing *)

Definition EscapedPath (u : URL) : string :=
  if negb (String.eqb (RawPath u) "") && validEncoded encodePath (RawPath u) &&
     match unescape encodePath (RawPath u) with
     | Ok p => String.eqb p (Path u)
     | Err _ => false
     end
  then RawPath u
  else if String.eqb (Path u) "*" then "*" else escape encodePath (Path u).

Definition userinfo_String (u : string * option string) : string :=
  match u with
  | (name, None) => escape encodeUserPassword name
  | (name, Some pass) =>
      String.append (escape encodeUserPassword name)
        (String.append ":" (escape encodeUserPassword pass))
  end.

(** [URL.String]; a fragment is written in its default encoding. *)
Definition URL_String (u : URL) : string :=
  let scheme := if String.eqb (Scheme u) "" then "" else String.append (Scheme u) ":" in
  let hasUser := match User u with Some _ => true | None => false end in
  let head :=
    if negb (String.eqb (Opaque u) "") then String.append scheme (Opaque u)
    else
      let authority :=
        if negb (String.eqb (Scheme u) "") || negb (String.eqb (Host u) "") || hasUser then
          if OmitHost u && String.eqb (Host u) "" && negb hasUser then ""
          else
            String.append
              (if negb (String.eqb (Host u) "") || negb (String.eqb (Path u) "") || hasUser
               then "//" else "")
              (String.append
                 (match User u with
                  | Some ui => String.append (userinfo_String ui) "@"
                  | None => ""
                  end)
                 (escape encodeHost (Host u)))
        else "" in
      let path := EscapedPath u in
      let slash := if negb (String.eqb path "") && negb (HasPrefix path "/") &&
                      negb (String.eqb (Host u) "") then "/" else "" in
      let before := String.append scheme (String.append authority slash) in
      let '(segment, _, _) := Cut path "/" in
      let dot := if String.eqb before "" && Contains segment ":" then "./" else "" in
      String.append before (String.append dot path) in
  let query := if ForceQuery u || negb (String.eqb (RawQuery u) "")
               then String.append "?" (RawQuery u) else "" in
  let fragment := if negb (String.eqb (Fragment u) "")
                  then String.append "#" (escape encodeFragment (Fragment u)) else "" in
  String.append head (String.append query fragment).

(** [parsed.Scheme == http or https && parsed.Host != ""], the test of every validator. *)
Definition http_with_host (value : string) : bool :=
  match Parse value with
  | Err _ => false
  | Ok u =>
      (String.eqb (Scheme u) "http" || String.eqb (Scheme u) "https") &&
      negb (String.eqb (Host u) "")
  end.

(** ** Checked examples *)

Example parse_https :
  Parse "https://alice@pod.example:8443/a%20b?q=1#me" =
  Ok (mkURL "https" "" (Some ("alice", None)) "pod.example:8443" "/a b" "" false false "q=1" "me").
Proof. vm_compute. reflexivity. Qed.

Example parse_opaque : http_with_host "http:pod.example/a" = false.
Proof. vm_compute. reflexivity. Qed.

Example parse_bad_port : Parse "http://pod:80a/" = Err URLBadPort.
Proof. vm_compute. reflexivity. Qed.

Example parse_ipv6 : http_with_host "http://[fe80::1%25en0]:8080/" = true.
Proof. vm_compute. reflexivity. Qed.

Example string_roundtrip :
  match Parse "https://alice:pw@pod.example:8443/a%20b/c%2Fd?q=1#me" with
  | Ok u => URL_String u
  | Err _ => ""
  end = "https://alice:pw@pod.example:8443/a%20b/c%2Fd?q=1#me".
Proof. vm_compute. reflexivity. Qed.
