(* ===== verification/GoPath.v ===== *)
(** * Slash-separated paths

    [path.Clean] and [path.Join], over the segments of a path, and the facts about segments that
    percent-decoding preserves.  A cleaned absolute path is [abs] of its segments. *)

From S2P Require Import Prelude GoStrings GoURL.

Local Open Scope Z_scope.

(** ** Cleaning *)

Definition is_dot (seg : string) : bool := String.eqb seg ".".
Definition is_dotdot (seg : string) : bool := String.eqb seg "..".

(** One segment, with the segments kept so far in reverse: empty segments and dots are dropped,
    a double dot removes the last segment, and stays only at the start of a relative path. *)
Definition clean_step (rooted : bool) (kept : list string) (seg : string) : list string :=
  if String.eqb seg "" || is_dot seg then kept
  else if is_dotdot seg then
    match kept with
    | [] => if rooted then [] else [seg]
    | last :: rest => if is_dotdot last then seg :: kept else rest
    end
  else seg :: kept.

Definition clean_segments (rooted : bool) (path : string) : list string :=
  rev (fold_left (clean_step rooted) (Split path "/") []).

Definition abs (segs : list string) : string := String "/" (Join segs "/").

Definition Clean (path : string) : string :=
  if String.eqb path "" then "."
  else if HasPrefix path "/" then abs (clean_segments true path)
  else match clean_segments false path with
       | [] => "."
       | segs => Join segs "/"
       end.

(** [path.Join]: the elements that are not empty, cleaned. *)
Definition path_Join (elems : list string) : string :=
  match filter (fun e => e <> "") elems with
  | [] => ""
  | elems => Clean (Join elems "/")
  end.

(** ** Segments *)

Definition slash_free (s : string) : bool := string_forallb (fun c => negb (Ascii.eqb c "/")) s.
Definition segment (s : string) : Prop := s <> "" /\ slash_free s = true.

(** The segments of a path that are not empty. *)
Definition segments (path : string) : list string := filter (fun s => s <> "") (Split path "/").

Lemma Split_slash (a b : string) : Split (String.append a (String "/" b)) "/" = Split a "/" ++ Split b "/".
Proof.
  unfold Split. generalize ""%string at 1 2. induction a as [|c a IH]; intros cur; rewrite ?str_app_nil_l, ?str_app_cons; cbn [split_char].
  - by rewrite Ascii.eqb_refl.
  - destruct (Ascii.eqb c "/"); [|apply IH]. cbn. f_equal. apply IH.
Qed.

Lemma split_free (cur s : string) : slash_free s = true -> split_char "/" cur s = [String.append cur s].
Proof.
  revert cur. induction s as [|c s IH]; intros cur Hs; cbn [split_char]; [by rewrite str_app_nil_r|].
  unfold slash_free in Hs. cbn in Hs. bool_prop. destruct (Ascii.eqb c "/"); [done|]. rewrite IH by done. by rewrite str_app_assoc.
Qed.
Lemma Split_free (s : string) : slash_free s = true -> Split s "/" = [s].
Proof. apply split_free. Qed.

Lemma split_segments_free (cur s : string) : slash_free cur = true -> Forall (fun x => slash_free x = true) (split_char "/" cur s).
Proof.
  revert cur. induction s as [|c s IH]; intros cur Hc; cbn [split_char]; [by repeat constructor|].
  destruct (Ascii.eqb c "/") eqn:E; [by constructor; auto|].
  apply IH. unfold slash_free. rewrite string_forallb_app. cbn. rewrite E. unfold slash_free in Hc. by rewrite Hc.
Qed.
Lemma Split_segments_free (s : string) : Forall (fun x => slash_free x = true) (Split s "/").
Proof. by apply split_segments_free. Qed.

Lemma segments_ok (path : string) : Forall segment (segments path).
Proof.
  apply Forall_forall. intros s [Hne Hin]%list_elem_of_filter. split; [done|].
  pose proof (Split_segments_free path) as Hf. rewrite Forall_forall in Hf. auto.
Qed.

Lemma segments_slash (a b : string) : segments (String.append a (String "/" b)) = segments a ++ segments b.
Proof. unfold segments. by rewrite Split_slash, filter_app. Qed.

Lemma segments_lead (s : string) : segments (String "/" s) = segments s.
Proof. apply (segments_slash "" s). Qed.

Lemma segments_segment (s : string) : segment s -> segments s = [s].
Proof. intros [Hne Hf]. unfold segments. rewrite Split_free by done. by rewrite filter_cons_True. Qed.

Lemma Join_cons2 (s t : string) (l : list string) (sep : string) :
  Join (s :: t :: l) sep = String.append s (String.append sep (Join (t :: l) sep)).
Proof. done. Qed.

Lemma segments_Join (l : list string) : Forall segment l -> segments (Join l "/") = l.
Proof.
  induction 1 as [|s l Hs Hl IH]; [done|]. destruct l as [|t l]; [by apply segments_segment|].
  rewrite Join_cons2. change (String.append "/" (Join (t :: l) "/")) with (String "/" (Join (t :: l) "/")).
  by rewrite segments_slash, IH, segments_segment.
Qed.

Lemma segments_abs (l : list string) : Forall segment l -> segments (abs l) = l.
Proof. intros Hl. unfold abs. rewrite segments_lead. by apply segments_Join. Qed.

(** ** Cleaned paths *)

Lemma clean_step_ok (rooted : bool) (kept : list string) (seg : string) :
  Forall segment kept -> slash_free seg = true -> Forall segment (clean_step rooted kept seg).
Proof.
  intros Hk Hs. unfold clean_step. destruct (String.eqb_spec seg "") as [|Hne]; cbn [orb]; [done|].
  assert (segment seg) by done. break_if; [done|]. break_if; [|by constructor].
  destruct kept as [|k kept]; [destruct rooted; by repeat constructor|].
  break_if; [by constructor|]. by inversion Hk.
Qed.

Lemma clean_segments_ok (rooted : bool) (path : string) : Forall segment (clean_segments rooted path).
Proof.
  unfold clean_segments. apply Forall_rev. generalize (Split_segments_free path). generalize (Split path "/").
  assert (Forall segment []) as Hk by constructor. revert Hk. generalize (@nil string).
  intros kept Hk l Hl. revert kept Hk. induction Hl as [|s l Hs Hl IH]; intros kept Hk; cbn; [done|].
  apply IH. by apply clean_step_ok.
Qed.

(** No segment is a dot or a double dot. *)
Definition dot_free (path : string) : bool := forallb (fun s => negb (is_dot s || is_dotdot s)) (Split path "/").

Lemma clean_dot_free (rooted : bool) (path : string) : dot_free path = true -> clean_segments rooted path = segments path.
Proof.
  unfold clean_segments, segments, dot_free. generalize (Split path "/"). intros l Hl.
  assert (forall kept, rev (fold_left (clean_step rooted) l kept) = rev kept ++ filter (fun s => s <> "") l) as Hg; [|apply Hg].
  induction l as [|s l IH]; intros kept; cbn [fold_left]; [by rewrite app_nil_r|].
  cbn in Hl. bool_prop. rewrite IH by done. unfold clean_step. destruct (String.eqb_spec s "") as [->|Hne]; cbn [orb].
  - by rewrite filter_cons_False by tauto.
  - rewrite filter_cons_True by done. destruct (is_dot s), (is_dotdot s); try done. cbn. by rewrite <- (assoc_L (++)).
Qed.

Lemma Split_lead (s : string) : Split (String "/" s) "/" = "" :: Split s "/".
Proof. apply (Split_slash "" s). Qed.

Lemma Clean_rooted (s : string) : Clean (String "/" s) = abs (clean_segments true (String "/" s)).
Proof. unfold Clean. by destruct s. Qed.

Lemma Clean_dot_free (s : string) : dot_free (String "/" s) = true -> Clean (String "/" s) = abs (segments s).
Proof. intros Hd. rewrite Clean_rooted, clean_dot_free by done. by rewrite segments_lead. Qed.

(** The prefix order of cleaned paths is the one of their segments. *)
Lemma abs_app (l x : list string) : l <> [] -> x <> [] -> abs (l ++ x) = String.append (abs l) (String "/" (Join x "/")).
Proof.
  intros Hl Hx. unfold abs. rewrite str_app_cons. f_equal. destruct l as [|s l]; [done|]. clear Hl. revert s.
  induction l as [|t l IH]; intros s.
  - destruct x as [|y x]; [done|]. cbn [app]. by rewrite Join_cons2.
  - change ((s :: t :: l) ++ x) with (s :: (t :: l) ++ x). cbn [app]. rewrite !Join_cons2.
    specialize (IH t). cbn [app] in IH. rewrite IH. by rewrite !str_app_assoc.
Qed.

Lemma abs_prefix (l r : list string) :
  Forall segment l -> Forall segment r -> r <> [] ->
  HasPrefix (abs l) (String.append (abs r) "/") = true <-> exists x, x <> [] /\ l = r ++ x.
Proof.
  intros Hl Hr Hne. unfold HasPrefix. split.
  - intros [t Ht]%prefix_spec. rewrite str_app_assoc, (str_app_cons "/" ""), str_app_nil_l in Ht.
    apply (f_equal segments) in Ht as Hs. rewrite segments_slash, !segments_abs in Hs by done.
    exists (segments t). split; [|done]. intros Hn. rewrite Hn, app_nil_r in Hs. subst l.
    apply (f_equal String.length) in Ht. rewrite str_length_app in Ht. cbn in Ht. lia.
  - intros (x & Hx & ->). rewrite abs_app by done. change (String "/" (Join x "/")) with (String.append "/" (Join x "/")).
    rewrite <- str_app_assoc. apply prefix_app.
Qed.

Lemma abs_inj (l r : list string) : Forall segment l -> Forall segment r -> abs l = abs r -> l = r.
Proof. intros Hl Hr H. by rewrite <- (segments_abs l), <- (segments_abs r), H. Qed.

(** ** Decoding *)

Lemma escape_byte (c : ascii) :
  escape_allowed encodePath (upper_hex (byte_of c / 16)) (upper_hex (byte_of c mod 16)) = Some c.
Proof. by destruct c as [[] [] [] [] [] [] [] []]. Qed.

Lemma unescape_escape (s : string) : unescape encodePath (escape encodePath s) = Ok s.
Proof.
  induction s as [|c s IH]; [done|]. cbn [escape]. destruct (shouldEscape encodePath c) eqn:E; cbn [unescape].
  - by rewrite escape_byte, IH.
  - destruct (Ascii.eqb_spec c "%") as [->|]; [done|]. by rewrite IH.
Qed.

(** The escaped path of a URL decodes to its path. *)
Lemma unescape_EscapedPath (u : URL) : unescape encodePath (EscapedPath u) = Ok (Path u).
Proof.
  unfold EscapedPath. destruct (_ && _ && _) eqn:E.
  - bool_prop. destruct (unescape encodePath (RawPath u)); [|done]. f_equal. by apply String.eqb_eq.
  - destruct (String.eqb_spec (Path u) "*") as [->|]; [done|]. apply unescape_escape.
Qed.

(** Decoding goes slash by slash: a slash is no part of an escape. *)
Lemma unescape_slash (a b d : string) :
  unescape encodePath (String.append a (String "/" b)) = Ok d ->
  exists da db, unescape encodePath a = Ok da /\ unescape encodePath b = Ok db /\ d = String.append da (String "/" db).
Proof.
  remember (String.length a) as n eqn:Hn. revert a Hn d. induction (lt_wf n) as [n _ IH]. intros a -> d Hd.
  destruct a as [|c a]; rewrite ?str_app_nil_l, ?str_app_cons in Hd; cbn [unescape] in Hd |- *.
  - destruct (unescape encodePath b) as [db|]; [|discriminate Hd]. injection Hd as <-. by exists "", db.
  - destruct (Ascii.eqb c "%").
    + destruct a as [|h1 [|h2 a]]; rewrite ?str_app_nil_l, ?str_app_cons, ?str_app_nil_l in Hd.
      * destruct b; [discriminate Hd|]. cbn in Hd. discriminate Hd.
      * unfold escape_allowed in Hd. cbn in Hd. destruct (unhex h1); discriminate Hd.
      * destruct (escape_allowed encodePath h1 h2) as [v|]; [|discriminate Hd].
        destruct (unescape encodePath (String.append a (String "/" b))) as [t|] eqn:E; [|discriminate Hd]. injection Hd as <-.
        apply (IH (String.length a)) in E as (da & db & -> & -> & ->); [|cbn; lia|done]. by exists (String v da), db.
    + destruct (unescape encodePath (String.append a (String "/" b))) as [t|] eqn:E; [|discriminate Hd]. injection Hd as <-.
      apply (IH (String.length a)) in E as (da & db & -> & -> & ->); [|cbn; lia|done]. by exists (String c da), db.
Qed.

Definition no_percent (s : string) : bool := string_forallb (fun c => negb (Ascii.eqb c "%")) s.

Lemma unescape_plain (s : string) : no_percent s = true -> unescape encodePath s = Ok s.
Proof.
  induction s as [|c s IH]; [done|]. unfold no_percent. cbn. intros H. bool_prop.
  destruct (Ascii.eqb c "%"); [done|]. by rewrite IH.
Qed.

(** The text of a segment once decoded. *)
Definition decoded (s : string) : string := match unescape encodePath s with Ok d => d | Err _ => "" end.

(** The parts of a decoded path are the parts of its decoded parts. *)
Lemma Split_decoded (e d : string) :
  unescape encodePath e = Ok d -> Split d "/" = concat (map (fun s => Split (decoded s) "/") (Split e "/")).
Proof.
  remember (String.length e) as n eqn:Hn. revert e Hn d. induction (lt_wf n) as [n _ IH]. intros e -> d Hd.
  destruct (slash_free e) eqn:Ef.
  { rewrite (Split_free e Ef). cbn. unfold decoded. by rewrite Hd, app_nil_r. }
  assert (exists a b, e = String.append a (String "/" b) /\ slash_free a = true) as (a & b & -> & Ha).
  { clear -Ef. induction e as [|c e IH]; [done|]. unfold slash_free in Ef. cbn in Ef.
    destruct (Ascii.eqb_spec c "/") as [->|Hc]; [by exists "", e|].
    destruct IH as (a & b & -> & Ha); [done|]. exists (String c a), b. split; [done|].
    unfold slash_free. cbn. by apply Ascii.eqb_neq in Hc as ->. }
  apply unescape_slash in Hd as (da & db & Ea & Eb & ->). rewrite !Split_slash, map_app, concat_app.
  f_equal; [rewrite (Split_free a Ha); cbn; unfold decoded; by rewrite Ea, app_nil_r|].
  apply (IH (String.length b)); [rewrite str_length_app; cbn; lia|done|done].
Qed.

Lemma segments_decoded (e d : string) :
  unescape encodePath e = Ok d -> segments d = concat (map (fun s => segments (decoded s)) (segments e)).
Proof.
  intros Hd. unfold segments at 1. rewrite (Split_decoded e d Hd). unfold segments at 2. generalize (Split e "/").
  induction l as [|s l IH]; [done|]. cbn [map concat]. rewrite filter_app, IH. destruct (decide (s = "")) as [->|Hne].
  - by rewrite filter_cons_False by tauto.
  - by rewrite filter_cons_True.
Qed.

Lemma dot_free_decoded (e d : string) : unescape encodePath e = Ok d -> dot_free d = true -> dot_free e = true.
Proof.
  intros Hd. unfold dot_free. rewrite (Split_decoded e d Hd), !forallb_forall. setoid_rewrite in_concat.
  intros H s Hs. destruct (is_dot s || is_dotdot s) eqn:E; [|done].
  assert (Split (decoded s) "/" = [s]) as Hsplit.
  { unfold is_dot, is_dotdot in E. apply orb_true_iff in E as [->%String.eqb_eq| ->%String.eqb_eq]; reflexivity. }
  specialize (H s). rewrite E in H. apply H. exists [s]. split; [|by left].
  rewrite <- Hsplit. apply in_map_iff. by exists s.
Qed.

(** Segments without escapes at the start of a path are still there once it is decoded. *)
Lemma decoded_prefix (e d : string) (r x : list string) :
  unescape encodePath e = Ok d -> Forall segment r -> Forall (fun s => no_percent s = true) r ->
  segments e = r ++ x -> exists y, segments d = r ++ y.
Proof.
  intros Hd Hr Hp He. rewrite (segments_decoded e d Hd), He, map_app, concat_app. eexists. f_equal.
  clear He. induction Hr as [|s r Hs Hr IH]; [done|]. inversion Hp; subst. cbn. rewrite IH by done.
  unfold decoded. rewrite unescape_plain by done. by rewrite segments_segment.
Qed.
