(* ===== verification/GoHash.v ===== *)
(** * SHA-256, hexadecimal and base64url

    [crypto/sha256], [encoding/hex] and [encoding/base64] (raw URL alphabet), as the
    sidecar uses them for audit hashes, cache keys, replay keys and ETags.  The
    compression function works on 32-bit words kept as [Z] below [2^32]. *)

From S2P Require Import Prelude GoStrings.

Local Open Scope Z_scope.

(** ** SHA-256 *)

Definition w32 (z : Z) : Z := Z.land z 4294967295.
Definition rotr (n x : Z) : Z := w32 (Z.lor (Z.shiftr x n) (Z.shiftl x (32 - n))).
Definition bigSigma0 (x : Z) : Z := Z.lxor (rotr 2 x) (Z.lxor (rotr 13 x) (rotr 22 x)).
Definition bigSigma1 (x : Z) : Z := Z.lxor (rotr 6 x) (Z.lxor (rotr 11 x) (rotr 25 x)).
Definition smallSigma0 (x : Z) : Z := Z.lxor (rotr 7 x) (Z.lxor (rotr 18 x) (Z.shiftr x 3)).
Definition smallSigma1 (x : Z) : Z := Z.lxor (rotr 17 x) (Z.lxor (rotr 19 x) (Z.shiftr x 10)).
Definition ch (e f g : Z) : Z := Z.lxor (Z.land e f) (Z.land (Z.lxor e 4294967295) g).
Definition maj (a b c : Z) : Z := Z.lxor (Z.land a b) (Z.lxor (Z.land a c) (Z.land b c)).

(** The round constants and the initial state are the first 32 bits of the fractional
    parts of the cube and square roots of the first primes. *)
Definition is_prime (n : Z) : bool :=
  forallb (fun d => negb (n mod Z.of_nat d =? 0)) (seq 2 (Z.to_nat n - 2)).
Definition primes (n : nat) : list Z :=
  firstn n (List.filter is_prime (map Z.of_nat (seq 2 312))).

(** The integer cube root, one bit of the result at a time. *)
Fixpoint cbrt_bits (n : nat) (r z : Z) : Z :=
  match n with
  | O => r
  | S n' => let r' := r + 2 ^ Z.of_nat n' in
            cbrt_bits n' (if r' * r' * r' <=? z then r' else r) z
  end.

Definition sha_k : list Z :=
  Eval vm_compute in map (fun p => w32 (cbrt_bits 36 0 (p * 2 ^ 96))) (primes 64).

Definition sha_init : list Z :=
  Eval vm_compute in map (fun p => w32 (Z.sqrt (p * 2 ^ 64))) (primes 8).

(** The message schedule, kept as the reversed list of the words so far. *)
Fixpoint schedule (n : nat) (rev_w : list Z) : list Z :=
  match n with
  | O => rev rev_w
  | S n' =>
      let w i := nth i rev_w 0 in
      schedule n'
        (w32 (smallSigma1 (w 1%nat) + w 6%nat + smallSigma0 (w 14%nat) + w 15%nat) :: rev_w)
  end.

Definition sha_round (st : list Z) (kw : Z * Z) : list Z :=
  match st with
  | [a; b; c; d; e; f; g; h] =>
      let t1 := h + bigSigma1 e + ch e f g + fst kw + snd kw in
      let t2 := bigSigma0 a + maj a b c in
      [w32 (t1 + t2); a; b; c; w32 (d + t1); e; f; g]
  | _ => st
  end.

Definition compress (st : list Z) (block : list Z) : list Z :=
  let w := schedule 48 (rev block) in
  let st' := fold_left sha_round (combine sha_k w) st in
  map (fun xy => w32 (fst xy + snd xy)) (combine st st').

Definition be_word (l : list Z) : Z := fold_left (fun acc b => acc * 256 + b) l 0.

Fixpoint chunks (n fuel : nat) (l : list Z) : list (list Z) :=
  match fuel with
  | O => []
  | S f => match l with
           | [] => []
           | _ => firstn n l :: chunks n f (skipn n l)
           end
  end.

Definition be_bytes (n : nat) (z : Z) : list Z :=
  rev (map (fun i => Z.land (Z.shiftr z (8 * Z.of_nat i)) 255) (seq 0 n)).

(** Padding to a multiple of 64 bytes, with the bit length at the end. *)
Definition pad (msg : list Z) : list Z :=
  let l := Z.of_nat (List.length msg) in
  let zeros := Z.to_nat ((55 - l) mod 64) in
  msg ++ [128] ++ repeat 0 zeros ++ be_bytes 8 (8 * l).

Definition sha256_bytes (msg : list Z) : list Z :=
  let p := pad msg in
  let blocks := chunks 64 (List.length p) p in
  let words b := map be_word (chunks 4 16 b) in
  concat (map (be_bytes 4) (fold_left (fun st b => compress st (words b)) blocks sha_init)).

Definition Sum256 (s : string) : list Z := sha256_bytes (string_bytes s).

(** ** Hexadecimal and base64url *)

Definition hex_digit (n : Z) : ascii := if n <? 10 then chr (48 + n) else chr (87 + n).

Fixpoint hex_EncodeToString (l : list Z) : string :=
  match l with
  | [] => ""
  | b :: l' => String (hex_digit (b / 16)) (String (hex_digit (b mod 16)) (hex_EncodeToString l'))
  end.

Definition b64_char (n : Z) : ascii :=
  if n <? 26 then chr (65 + n)
  else if n <? 52 then chr (97 + (n - 26))
  else if n <? 62 then chr (48 + (n - 52))
  else if n =? 62 then "-"%char else "_"%char.

Fixpoint base64_RawURL_EncodeToString (l : list Z) : string :=
  match l with
  | [] => ""
  | [a] => String (b64_char (a / 4)) (String (b64_char (a mod 4 * 16)) "")
  | [a; b] =>
      String (b64_char (a / 4)) (String (b64_char (a mod 4 * 16 + b / 16))
        (String (b64_char (b mod 16 * 4)) ""))
  | a :: b :: c :: l' =>
      String (b64_char (a / 4)) (String (b64_char (a mod 4 * 16 + b / 16))
        (String (b64_char (b mod 16 * 4 + c / 64)) (String (b64_char (c mod 64))
          (base64_RawURL_EncodeToString l'))))
  end.

Definition sha256Hex (value : string) : string := hex_EncodeToString (Sum256 value).

(** ** Test vectors *)

Example sha256_empty :
  sha256Hex "" = "e3b0c44298fc1c149afbf4c8996fb92427ae41e4649b934ca495991b7852b855".
Proof. vm_compute. reflexivity. Qed.

Example sha256_abc :
  sha256Hex "abc" = "ba7816bf8f01cfea414140de5dae2223b00361a396177a9cb410ff61f20015ad".
Proof. vm_compute. reflexivity. Qed.

Example sha256_two_blocks :
  sha256Hex "abcdbcdecdefdefgefghfghighijhijkijkljklmklmnlmnomnopnopq" =
  "248d6a61d20638b8e5c026930c3e6039a33ce45964ff2167f6ecedd419db06c1".
Proof. vm_compute. reflexivity. Qed.

Example base64_ex : base64_RawURL_EncodeToString (string_bytes "light wor") = "bGlnaHQgd29y".
Proof. vm_compute. reflexivity. Qed.

(** ** The shape of a digest *)

Lemma be_bytes_length (n : nat) (z : Z) : length (be_bytes n z) = n.
Proof. unfold be_bytes. by rewrite length_rev, length_map, length_seq. Qed.

Lemma be_bytes_range (n : nat) (z : Z) : Forall (fun b => 0 <= b < 256) (be_bytes n z).
Proof.
  unfold be_bytes. apply Forall_rev, Forall_forall. intros b Hb.
  apply list_elem_of_In, in_map_iff in Hb as [i [<- _]].
  change 255 with (Z.ones 8). rewrite Z.land_ones by lia.
  pose proof (Z.mod_pos_bound (Z.shiftr z (8 * Z.of_nat i)) (2 ^ 8)). lia.
Qed.

Lemma sha_round_length (st : list Z) (kw : Z * Z) :
  length st = 8%nat -> length (sha_round st kw) = 8%nat.
Proof. by do 9 (destruct st as [|? st]; try done). Qed.

Lemma sha_rounds_length (kws : list (Z * Z)) (st : list Z) :
  length st = 8%nat -> length (fold_left sha_round kws st) = 8%nat.
Proof. revert st. induction kws; intros st Hst; [done|]. cbn. auto using sha_round_length. Qed.

Lemma compress_length (st block : list Z) :
  length st = 8%nat -> length (compress st block) = 8%nat.
Proof.
  intros Hst. unfold compress. rewrite length_map, length_combine, sha_rounds_length by done. lia.
Qed.

Lemma sha_blocks_length (bs : list (list Z)) (f : list Z -> list Z) (st : list Z) :
  length st = 8%nat -> length (fold_left (fun st b => compress st (f b)) bs st) = 8%nat.
Proof. revert st. induction bs; intros st Hst; [done|]. cbn. auto using compress_length. Qed.

Lemma Sum256_length (s : string) : length (Sum256 s) = 32%nat.
Proof.
  unfold Sum256, sha256_bytes. cbv zeta.
  pose proof (sha_blocks_length (chunks 64 (length (pad (string_bytes s))) (pad (string_bytes s)))
                (fun b => map be_word (chunks 4 16 b)) sha_init eq_refl) as Hl.
  cbv beta in Hl. revert Hl. generalize (fold_left (fun st b => compress st (map be_word (chunks 4 16 b)))
    (chunks 64 (length (pad (string_bytes s))) (pad (string_bytes s))) sha_init).
  intros l Hl. do 9 (destruct l as [|? l]; try done).
Qed.

Lemma Sum256_range (s : string) : Forall (fun b => 0 <= b < 256) (Sum256 s).
Proof.
  unfold Sum256, sha256_bytes. apply Forall_concat. apply Forall_forall. intros l Hl.
  apply list_elem_of_In, in_map_iff in Hl as [i [<- _]]. apply be_bytes_range.
Qed.

Lemma hex_length (l : list Z) :
  String.length (hex_EncodeToString l) = (2 * length l)%nat.
Proof. induction l as [|b l IH]; [done|]. cbn. rewrite IH. lia. Qed.

Definition is_hex (c : ascii) : bool := is_digit c || in_range 97 102 c || in_range 65 70 c.

Lemma hex_digit_is_hex (n : Z) : 0 <= n < 16 -> is_hex (hex_digit n) = true.
Proof.
  intros Hn.
  assert (forallb (fun i => is_hex (hex_digit (Z.of_nat i))) (seq 0 16) = true) as Hall
    by reflexivity.
  rewrite forallb_forall in Hall. specialize (Hall (Z.to_nat n)). rewrite Z2Nat.id in Hall by lia.
  apply Hall, in_seq. lia.
Qed.

Lemma hex_is_hex (l : list Z) :
  Forall (fun b => 0 <= b < 256) l -> string_forallb is_hex (hex_EncodeToString l) = true.
Proof.
  induction 1 as [|b l Hb _ IH]; [done|]. cbn [hex_EncodeToString string_forallb].
  pose proof (Z.mod_pos_bound b 16). pose proof (Z.div_lt_upper_bound b 16 16).
  pose proof (Z.div_pos b 16).
  by rewrite !hex_digit_is_hex, IH by lia.
Qed.

Lemma sha256Hex_length (s : string) : len (sha256Hex s) = 64.
Proof. unfold len, sha256Hex. by rewrite hex_length, Sum256_length. Qed.

Lemma sha256Hex_is_hex (s : string) : string_forallb is_hex (sha256Hex s) = true.
Proof. apply hex_is_hex, Sum256_range. Qed.

#[global] Opaque Sum256.
#[export] Hint Resolve sha256Hex_length sha256Hex_is_hex : sidecar.
