(* ===== verification/GoGlob.v ===== *)
(** * UTF-8 and glob patterns

    The rune decoding of [unicode/utf8], and [matchPattern] of
    [internal/authz/enforcement_gate.go]: a glob translated to an anchored regular
    expression, in which [*] became [.*] and [?] became [.], neither of which matches a
    line feed.  The regular expression is given by its meaning on runes. *)

From S2P Require Import Prelude GoStrings.

Local Open Scope Z_scope.

(** ** Runes *)

Definition RuneError : Z := 65533.

Definition cont (b : Z) : bool := (128 <=? b) && (b <=? 191).

(** [utf8.DecodeRune] on a non-empty input: the rune, its width, and whether the bytes were
    valid. *)
Definition DecodeRune (l : list Z) : Z * nat * bool :=
  match l with
  | [] => (RuneError, 0%nat, false)
  | b0 :: rest =>
      if b0 <? 128 then (b0, 1%nat, true)
      else match rest with
      | b1 :: rest1 =>
          if (194 <=? b0) && (b0 <=? 223) then
            if cont b1 then ((b0 - 192) * 64 + (b1 - 128), 2%nat, true) else (RuneError, 1%nat, false)
          else match rest1 with
          | b2 :: rest2 =>
              let lo3 := if b0 =? 224 then 160 else 128 in
              let hi3 := if b0 =? 237 then 159 else 191 in
              if (224 <=? b0) && (b0 <=? 239) then
                if (lo3 <=? b1) && (b1 <=? hi3) && cont b2
                then ((b0 - 224) * 4096 + (b1 - 128) * 64 + (b2 - 128), 3%nat, true)
                else (RuneError, 1%nat, false)
              else match rest2 with
              | b3 :: _ =>
                  let lo4 := if b0 =? 240 then 144 else 128 in
                  let hi4 := if b0 =? 244 then 143 else 191 in
                  if (240 <=? b0) && (b0 <=? 244) && (lo4 <=? b1) && (b1 <=? hi4) &&
                     cont b2 && cont b3
                  then ((b0 - 240) * 262144 + (b1 - 128) * 4096 + (b2 - 128) * 64 + (b3 - 128),
                        4%nat, true)
                  else (RuneError, 1%nat, false)
              | [] => (RuneError, 1%nat, false)
              end
          | [] => (RuneError, 1%nat, false)
          end
      | [] => (RuneError, 1%nat, false)
      end
  end.

(** The runes of a string with their validity; each step consumes a byte at least. *)
Fixpoint decode_fuel (fuel : nat) (l : list Z) : list (Z * bool) :=
  match fuel, l with
  | S f, _ :: _ =>
      let '(r, w, ok) := DecodeRune l in (r, ok) :: decode_fuel f (drop w l)
  | _, _ => []
  end.

Definition decode (s : string) : list (Z * bool) :=
  decode_fuel (length (string_bytes s)) (string_bytes s).
Definition runes (s : string) : list Z := (decode s).*1.
Definition ValidString (s : string) : bool := forallb snd (decode s).

(** ** Globs *)

Definition star : Z := 42.
Definition question : Z := 63.
Definition newline : Z := 10.

Fixpoint glob (p : list Z) : list Z -> bool :=
  match p with
  | [] => fun s => match s with [] => true | _ => false end
  | c :: p' =>
      if c =? star then
        fix many (s : list Z) : bool :=
          glob p' s || match s with
                       | [] => false
                       | r :: s' => negb (r =? newline) && many s'
                       end
      else fun s =>
        match s with
        | [] => false
        | r :: s' => (if c =? question then negb (r =? newline) else r =? c) && glob p' s'
        end
  end.

(** [matchPattern]; a pattern that is not valid UTF-8 does not compile and matches nothing. *)
Definition matchPattern (pattern s : string) : bool :=
  if ValidString pattern then glob (runes pattern) (runes s) else false.

(** [validatePattern]: letters, digits and [- _ . / * ?]. *)
Definition pattern_byte (c : ascii) : bool := is_alnum c || char_in "-_./*?" c.
Definition validatePattern (pattern : string) : bool := string_forallb pattern_byte pattern.

(** ** What a glob means *)

Inductive glob_matches : list Z -> list Z -> Prop :=
| gm_nil : glob_matches [] []
| gm_star p s1 s2 :
    Forall (fun r => r <> newline) s1 -> glob_matches p s2 -> glob_matches (star :: p) (s1 ++ s2)
| gm_any p r s : r <> newline -> glob_matches p s -> glob_matches (question :: p) (r :: s)
| gm_lit c p s : c <> star -> c <> question -> glob_matches p s -> glob_matches (c :: p) (c :: s).

Lemma glob_star (p s : list Z) :
  glob (star :: p) s =
  glob p s || match s with [] => false | r :: s' => negb (r =? newline) && glob (star :: p) s' end.
Proof. by destruct s. Qed.

Lemma glob_cons (c : Z) (p s : list Z) :
  c <> star -> glob (c :: p) s =
  match s with
  | [] => false
  | r :: s' => (if c =? question then negb (r =? newline) else r =? c) && glob p s'
  end.
Proof. intros Hc. cbn [glob]. apply Z.eqb_neq in Hc as ->. done. Qed.

Lemma glob_sound (p s : list Z) : glob p s = true -> glob_matches p s.
Proof.
  revert s. induction p as [|c p IH]; intros s; [by destruct s; [constructor|]|].
  destruct (Z.eq_dec c star) as [->|Hc].
  - induction s as [|r s IHs]; rewrite glob_star.
    + rewrite orb_false_r. intros Hg. apply (gm_star p [] []); [done|auto].
    + rewrite orb_true_iff, andb_true_iff, negb_true_iff, Z.eqb_neq. intros [Hg|[Hr Hg]].
      * apply (gm_star p [] (r :: s)); [done|auto].
      * apply IHs in Hg. inversion Hg as [|p' s1 s2 Hs1 Hs2 Hp Heq| |]; subst; [|done].
        apply (gm_star p (r :: s1) s2); [by constructor|done].
  - rewrite glob_cons by done. destruct s as [|r s]; [done|].
    destruct (Z.eqb_spec c question) as [->|Hq]; rewrite andb_true_iff.
    + rewrite negb_true_iff, Z.eqb_neq. intros [Hr Hg]. constructor; auto.
    + rewrite Z.eqb_eq. intros [-> Hg]. constructor; auto.
Qed.

Lemma glob_complete (p s : list Z) : glob_matches p s -> glob p s = true.
Proof.
  induction 1 as [|p s1 s2 Hs1 _ IH|p r s Hr _ IH|c p s Hc Hq _ IH].
  - done.
  - induction Hs1 as [|r s1 Hr Hs1 IHs]; cbn [app]; rewrite glob_star.
    + by rewrite IH.
    + apply Z.eqb_neq in Hr as ->. cbn [negb andb]. rewrite IHs. by rewrite orb_true_r.
  - rewrite glob_cons by done. apply Z.eqb_neq in Hr as ->. by rewrite IH.
  - rewrite glob_cons by done. apply Z.eqb_neq in Hq as ->. by rewrite Z.eqb_refl, IH.
Qed.

(** ** Properties *)

(** [matchPattern] decides exactly the glob language: [*] stands for any run of runes
    and [?] for any single rune, line feeds excepted, and every other rune for itself. *)
Theorem matchPattern_spec (pattern s : string) :
  matchPattern pattern s = true <->
  ValidString pattern = true /\ glob_matches (runes pattern) (runes s).
Proof.
  unfold matchPattern. destruct (ValidString pattern); [|naive_solver].
  split; [intros Hg; split; [done|by apply glob_sound]|intros [_ Hg]; by apply glob_complete].
Qed.
