(* ===== verification/GoJSON.v ===== *)
(** * JSON

    [encoding/json] as the sidecar uses it: the validity check, decoding into structs of
    strings, integers, raw messages and nested structs (keys matched exactly, then up to
    case; later members win; [null] leaves a field alone; a value of the wrong type is an
    error), and [json.Marshal] of a [map[string]string]. *)

From S2P Require Import Prelude GoStrings GoGlob.

Local Open Scope Z_scope.

(** ** Values *)

Inductive JValue :=
| JNull
| JBool (b : bool)
| JNumber (literal : string)
| JString (s : string)
| JArray (elements : list JValue)
| JObject (members : list (string * JValue * string)).
(** A member carries the text of its value, as [json.RawMessage] receives it. *)

Definition is_json_space (c : ascii) : bool :=
  (byte_of c =? 32) || (byte_of c =? 9) || (byte_of c =? 13) || (byte_of c =? 10).

Fixpoint skip_space (s : string) : string :=
  match s with
  | String c s' => if is_json_space c then skip_space s' else s
  | EmptyString => s
  end.

(** ** Strings *)

Definition hex_value (c : ascii) : option Z :=
  if is_digit c then Some (byte_of c - 48)
  else if in_range 97 102 c then Some (byte_of c - 87)
  else if in_range 65 70 c then Some (byte_of c - 55)
  else None.

Definition hex4 (s : string) : option (Z * string) :=
  match s with
  | String a (String b (String c (String d rest))) =>
      match hex_value a, hex_value b, hex_value c, hex_value d with
      | Some x, Some y, Some z, Some w => Some (x * 4096 + y * 256 + z * 16 + w, rest)
      | _, _, _, _ => None
      end
  | _ => None
  end.

(** [utf8.AppendRune]. *)
Definition encode_rune (r : Z) : string :=
  let b := fun z => String (chr z) EmptyString in
  if r <? 128 then b r
  else if r <? 2048 then String.append (b (192 + r / 64)) (b (128 + r mod 64))
  else if r <? 65536 then
    String.append (b (224 + r / 4096))
      (String.append (b (128 + (r / 64) mod 64)) (b (128 + r mod 64)))
  else
    String.append (b (240 + r / 262144)) (String.append (b (128 + (r / 4096) mod 64))
      (String.append (b (128 + (r / 64) mod 64)) (b (128 + r mod 64)))).

(** The text between the quotes: the bytes and the runes of escapes, in order, with what
    follows the closing quote. *)
Inductive str_piece := PByte (b : Z) | PRune (r : Z).

Fixpoint scan_string (fuel : nat) (s : string) : option (list str_piece * string) :=
  match fuel with
  | O => None
  | S f =>
      match s with
      | EmptyString => None
      | String c s' =>
          let b := byte_of c in
          if b =? 34 then Some ([], s')
          else if b <? 32 then None
          else if b =? 92 then
            match s' with
            | EmptyString => None
            | String e s'' =>
                let simple r := match scan_string f s'' with
                                | Some (ps, rest) => Some (PRune r :: ps, rest)
                                | None => None
                                end in
                let x := byte_of e in
                if x =? 34 then simple 34 else if x =? 92 then simple 92
                else if x =? 47 then simple 47 else if x =? 98 then simple 8
                else if x =? 102 then simple 12 else if x =? 110 then simple 10
                else if x =? 114 then simple 13 else if x =? 116 then simple 9
                else if x =? 117 then
                  match hex4 s'' with
                  | None => None
                  | Some (r, rest) =>
                      match scan_string f rest with
                      | Some (ps, rest') => Some (PRune (65536 + r) :: ps, rest')
                      | None => None
                      end
                  end
                else None
            end
          else match scan_string f s' with
               | Some (ps, rest) => Some (PByte b :: ps, rest)
               | None => None
               end
      end
  end.

Definition is_surrogate (r : Z) : bool := (55296 <=? r) && (r <=? 57343).

(** [unquote]: escapes become runes, a surrogate pair one rune, a lone surrogate and an
    invalid byte the replacement rune.  A [\u] escape is marked by adding [65536]. *)
Fixpoint unquote (fuel : nat) (ps : list str_piece) : string :=
  match fuel with
  | O => EmptyString
  | S f =>
      match ps with
      | [] => EmptyString
      | PRune r :: rest =>
          if r <? 65536 then String.append (encode_rune r) (unquote f rest)
          else
            let u := r - 65536 in
            if is_surrogate u then
              match rest with
              | PRune r2 :: rest2 =>
                  let u2 := r2 - 65536 in
                  if (u <? 56320) && (56320 <=? u2) && (u2 <=? 57343) then
                    String.append
                      (encode_rune ((u - 55296) * 1024 + (u2 - 56320) + 65536)) (unquote f rest2)
                  else String.append (encode_rune RuneError) (unquote f rest)
              | _ => String.append (encode_rune RuneError) (unquote f rest)
              end
            else String.append (encode_rune u) (unquote f rest)
      | PByte _ :: _ =>
          let run := fix run l := match l with PByte b :: l' => b :: run l' | _ => [] end in
          let '(r, w, _) := DecodeRune (run ps) in
          String.append (encode_rune r) (unquote f (drop w ps))
      end
  end.

Definition parse_string (s : string) : option (string * string) :=
  match scan_string (S (String.length s)) s with
  | Some (ps, rest) => Some (unquote (S (length ps)) ps, rest)
  | None => None
  end.

(** ** Numbers *)

Fixpoint take_digits (s : string) : string * string :=
  match s with
  | String c s' =>
      if is_digit c then let '(ds, rest) := take_digits s' in (String c ds, rest)
      else (EmptyString, s)
  | EmptyString => (EmptyString, s)
  end.

(** What is left after a number literal. *)
Definition skip_number (s : string) : option string :=
  let s1 := TrimPrefix s "-" in
  let after_int :=
    match s1 with
    | String c s' =>
        if byte_of c =? 48 then Some s'
        else if is_digit c then Some (snd (take_digits s1)) else None
    | EmptyString => None
    end in
  match after_int with
  | None => None
  | Some s2 =>
      let after_frac :=
        if HasPrefix s2 "." then
          let '(ds, rest) := take_digits (sdrop 1 s2) in
          if String.eqb ds "" then None else Some rest
        else Some s2 in
      match after_frac with
      | None => None
      | Some s3 =>
          if HasPrefix s3 "e" || HasPrefix s3 "E" then
            let s4 := sdrop 1 s3 in
            let s5 := if HasPrefix s4 "+" || HasPrefix s4 "-" then sdrop 1 s4 else s4 in
            let '(ds, rest) := take_digits s5 in
            if String.eqb ds "" then None else Some rest
          else Some s3
      end
  end.

(** The text of a value, given its start and what follows it. *)
Definition text_between (start rest : string) : string :=
  stake (String.length start - String.length rest) start.

(** ** Values, to a nesting of 10000 *)

Definition max_depth : nat := N.to_nat 10000.

(** The elements of an array and the members of an object up to the closing bracket, given
    the reader of a value; the first argument bounds their number. *)
Fixpoint parse_elements (value : string -> option (JValue * string)) (n : nat) (s : string)
  : option (list JValue * string) :=
  match n with
  | O => None
  | S n' =>
      match value (skip_space s) with
      | None => None
      | Some (v, rest) =>
          let rest := skip_space rest in
          if HasPrefix rest "," then
            match parse_elements value n' (sdrop 1 rest) with
            | Some (vs, rest') => Some (v :: vs, rest')
            | None => None
            end
          else if HasPrefix rest "]" then Some ([v], sdrop 1 rest) else None
      end
  end.

Fixpoint parse_members (value : string -> option (JValue * string)) (n : nat) (s : string)
  : option (list (string * JValue * string) * string) :=
  match n with
  | O => None
  | S n' =>
      let s := skip_space s in
      if negb (HasPrefix s dquote) then None
      else match parse_string (sdrop 1 s) with
      | None => None
      | Some (k, rest) =>
          let rest := skip_space rest in
          if negb (HasPrefix rest ":") then None
          else
            let start := skip_space (sdrop 1 rest) in
            match value start with
            | None => None
            | Some (v, rest) =>
                let m := (k, v, text_between start rest) in
                let rest := skip_space rest in
                if HasPrefix rest "," then
                  match parse_members value n' (sdrop 1 rest) with
                  | Some (ms, rest') => Some (m :: ms, rest')
                  | None => None
                  end
                else if HasPrefix rest "}" then Some ([m], sdrop 1 rest) else None
            end
      end
  end.

(** The fuel bounds the number of tokens; the length of the input is enough. *)
Fixpoint parse_value (fuel depth : nat) (s : string) : option (JValue * string) :=
  match fuel with
  | O => None
  | S f =>
      let value := parse_value f (pred depth) in
      if HasPrefix s "{" then
        if bool_decide (depth = 0)%nat then None
        else
          let s' := skip_space (sdrop 1 s) in
          if HasPrefix s' "}" then Some (JObject [], sdrop 1 s')
          else match parse_members value f s' with
               | Some (ms, rest) => Some (JObject ms, rest)
               | None => None
               end
      else if HasPrefix s "[" then
        if bool_decide (depth = 0)%nat then None
        else
          let s' := skip_space (sdrop 1 s) in
          if HasPrefix s' "]" then Some (JArray [], sdrop 1 s')
          else match parse_elements value f s' with
               | Some (vs, rest) => Some (JArray vs, rest)
               | None => None
               end
      else if HasPrefix s dquote then
        match parse_string (sdrop 1 s) with
        | Some (str, rest) => Some (JString str, rest)
        | None => None
        end
      else if HasPrefix s "true" then Some (JBool true, sdrop 4 s)
      else if HasPrefix s "false" then Some (JBool false, sdrop 5 s)
      else if HasPrefix s "null" then Some (JNull, sdrop 4 s)
      else match skip_number s with
           | Some rest => Some (JNumber (text_between s rest), rest)
           | None => None
           end
  end.

(** A whole document: one value, and white space around it. *)
Definition parse_json (s : string) : option JValue :=
  match parse_value (S (String.length s)) max_depth (skip_space s) with
  | Some (v, rest) => if String.eqb (skip_space rest) "" then Some v else None
  | None => None
  end.

(** ** Decoding into a struct *)

(** Whether a key names the field with this JSON name. *)
Definition names_field (name key : string) : bool := String.eqb (foldName key) (ToUpper name).

Definition set_string (v : JValue) (old : string) : option string :=
  match v with
  | JString s => Some s
  | JNull => Some old
  | _ => None
  end.

Fixpoint digits_value (s : string) (acc : Z) : option Z :=
  match s with
  | EmptyString => Some acc
  | String c s' => if is_digit c then digits_value s' (acc * 10 + (byte_of c - 48)) else None
  end.

(** [strconv.ParseInt] in base 10, on the text of a JSON number. *)
Definition parse_int64 (s : string) : option Z :=
  let neg := HasPrefix s "-" in
  let ds := TrimPrefix s "-" in
  if String.eqb ds "" then None
  else match digits_value ds 0 with
       | Some n => let z := if neg then - n else n in
                   if (int64_min <=? z) && (z <=? int64_max) then Some z else None
       | None => None
       end.

Definition set_int64 (v : JValue) (old : Z) : option Z :=
  match v with
  | JNumber lit => parse_int64 lit
  | JNull => Some old
  | _ => None
  end.

(** The members of an object, in order, each handed to the struct's field setter. *)
Definition decode_members {T} (set : string -> JValue -> string -> T -> option T)
    (ms : list (string * JValue * string)) (init : T) : option T :=
  foldl (fun acc m => match acc with
                      | Some t => let '(k, v, raw) := m in set k v raw t
                      | None => None
                      end) (Some init) ms.

Definition set_struct {T} (set : string -> JValue -> string -> T -> option T)
    (v : JValue) (old : T) : option T :=
  match v with
  | JObject ms => decode_members set ms old
  | JNull => Some old
  | _ => None
  end.

(** [json.Unmarshal] into a struct. *)
Definition Unmarshal {T} (set : string -> JValue -> string -> T -> option T) (init : T)
    (data : string) : option T :=
  match parse_json data with
  | Some v => set_struct set v init
  | None => None
  end.

(** The texts of the elements of an array, as a slice of [json.RawMessage] receives them. *)
Fixpoint raw_elements_go (value : string -> option (JValue * string)) (n : nat) (s : string) : option (list string) :=
  match n with
  | O => None
  | S n' =>
      let start := skip_space s in
      match value start with
      | None => None
      | Some (_, rest) =>
          let raw := text_between start rest in
          let rest := skip_space rest in
          if HasPrefix rest "," then option_map (cons raw) (raw_elements_go value n' (sdrop 1 rest)) else Some [raw]
      end
  end.
Definition raw_elements (text : string) : option (list string) :=
  let s := skip_space (sdrop 1 text) in
  if HasPrefix s "]" then Some []
  else raw_elements_go (parse_value (S (String.length text)) max_depth) (S (String.length text)) s.

(** A field of type [[]json.RawMessage]. *)
Definition set_raw_list (v : JValue) (raw : string) (old : list string) : option (list string) :=
  match v with
  | JArray _ => raw_elements raw
  | JNull => Some []
  | _ => None
  end.

(** ** [json.Marshal] of a [map[string]string] *)

Definition hex_lower (n : Z) : string :=
  String (chr (if n <? 10 then 48 + n else 87 + n)) EmptyString.

Definition u00 (b : Z) : string :=
  String.append "\u00" (String.append (hex_lower (b / 16)) (hex_lower (b mod 16))).

(** [appendString] with HTML escaping: one rune, with the validity of its bytes. *)
Definition quote_rune (ro : Z * bool) : string :=
  let '(r, ok) := ro in
  if negb ok then "\ufffd"
  else if r =? 34 then String.append "\" dquote
  else if r =? 92 then "\\"
  else if r =? 8 then "\b" else if r =? 12 then "\f" else if r =? 10 then "\n"
  else if r =? 13 then "\r" else if r =? 9 then "\t"
  else if (r <? 32) || (r =? 60) || (r =? 62) || (r =? 38) then u00 r
  else if r =? 8232 then "\u2028" else if r =? 8233 then "\u2029"
  else encode_rune r.

Fixpoint quote_runes (rs : list (Z * bool)) : string :=
  match rs with
  | [] => EmptyString
  | ro :: rest => String.append (quote_rune ro) (quote_runes rest)
  end.

Definition quote (s : string) : string :=
  String.append dquote (String.append (quote_runes (decode s)) dquote).

(** The members in the order of their keys, which the caller lists sorted. *)
Definition Marshal_sorted (kvs : list (string * string)) : string :=
  String.append "{" (String.append
    (Join (map (fun kv => String.append (quote kv.1) (String.append ":" (quote kv.2))) kvs) ",") "}").

(** ** Examples *)

Definition q (s : string) : string := String.append dquote (String.append s dquote).

Example json_object_example :
  let doc := Join ["{ "; q "a"; " : [1, -2.5e3, "; q "x\u0041\ud83d\ude00"; "], "; q "b"; ":null}"] "" in
  parse_json doc =
  Some (JObject [("a", JArray [JNumber "1"; JNumber "-2.5e3";
                     JString (String.append "xA" (encode_rune 128512))],
                  Join ["[1, -2.5e3, "; q "x\u0041\ud83d\ude00"; "]"] "");
                 ("b", JNull, "null")]).
Proof. vm_compute. reflexivity. Qed.

Example json_marshal_example :
  Marshal_sorted [("crv", "P-256"); ("kty", "EC")] =
  Join ["{"; q "crv"; ":"; q "P-256"; ","; q "kty"; ":"; q "EC"; "}"] "".
Proof. vm_compute. reflexivity. Qed.

Example json_trailing_garbage : parse_json "{} x" = None.
Proof. vm_compute. reflexivity. Qed.
