(* ===== verification/GoUTF8.v ===== *)
(** * UTF-8

    Encoding and decoding of runes are inverse to each other: what [utf8.DecodeRune]
    accepts is the encoding of the rune it returns, and the encoding of a valid rune
    decodes to it, whatever follows. *)

From S2P Require Import Prelude GoStrings GoGlob GoJSON.

Local Open Scope Z_scope.

Definition valid_rune (r : Z) : bool :=
  (0 <=? r) && (r <=? 1114111) && negb (is_surrogate r).

Definition is_byte (b : Z) : Prop := 0 <= b < 256.

Lemma byte_of_range (c : ascii) : is_byte (byte_of c).
Proof. unfold is_byte, byte_of. pose proof (N_ascii_bounded c). lia. Qed.

Lemma byte_of_chr (b : Z) : is_byte b -> byte_of (chr b) = b.
Proof. unfold is_byte, byte_of, chr. intros H. rewrite N_ascii_embedding by lia. lia. Qed.

Lemma chr_byte_of (c : ascii) : chr (byte_of c) = c.
Proof. unfold chr, byte_of. rewrite N2Z.id. apply ascii_N_embedding. Qed.

Lemma string_bytes_app (s t : string) :
  string_bytes (String.append s t) = string_bytes s ++ string_bytes t.
Proof.
  unfold string_bytes. induction s as [|c s IH]; [by rewrite str_app_nil_l|].
  rewrite str_app_cons. cbn. by f_equal.
Qed.

Lemma string_bytes_length (s : string) : length (string_bytes s) = String.length s.
Proof. unfold string_bytes. induction s as [|c s IH]; [done|]. cbn. by f_equal. Qed.

Lemma string_bytes_inj (s t : string) : string_bytes s = string_bytes t -> s = t.
Proof.
  unfold string_bytes. revert t. induction s as [|c s IH]; intros [|d t]; try done.
  cbn. intros [= Hc Hs]. rewrite (IH _ Hs). f_equal. by rewrite <- (chr_byte_of c), Hc, chr_byte_of.
Qed.

Lemma string_bytes_range (s : string) : Forall is_byte (string_bytes s).
Proof. unfold string_bytes. induction s as [|c s IH]; constructor; [apply byte_of_range|done]. Qed.

(** The bytes of the encoding, in the four lengths. *)
Definition encode_bytes (r : Z) : list Z :=
  if r <? 128 then [r]
  else if r <? 2048 then [192 + r / 64; 128 + r mod 64]
  else if r <? 65536 then [224 + r / 4096; 128 + (r / 64) mod 64; 128 + r mod 64]
  else [240 + r / 262144; 128 + (r / 4096) mod 64; 128 + (r / 64) mod 64; 128 + r mod 64].

(** Division by 64, once per continuation byte. *)
Lemma split64 (r : Z) : 0 <= r ->
  exists a b c d, 0 <= b < 64 /\ 0 <= c < 64 /\ 0 <= d < 64 /\ 0 <= a /\
    r = ((a * 64 + b) * 64 + c) * 64 + d /\
    r / 262144 = a /\ (r / 4096) mod 64 = b /\ r / 4096 = a * 64 + b /\
    (r / 64) mod 64 = c /\ r / 64 = (a * 64 + b) * 64 + c /\ r mod 64 = d.
Proof.
  intros Hr. exists (r / 262144), ((r / 4096) mod 64), ((r / 64) mod 64), (r mod 64).
  change 262144 with (64 * 64 * 64). change 4096 with (64 * 64).
  rewrite <- !Z.div_div by lia. set (x := r / 64). set (y := x / 64). set (z := y / 64).
  pose proof (Z.div_mod r 64). pose proof (Z.div_mod x 64). pose proof (Z.div_mod y 64).
  pose proof (Z.mod_pos_bound r 64). pose proof (Z.mod_pos_bound x 64). pose proof (Z.mod_pos_bound y 64).
  assert (0 <= x) by (apply Z.div_pos; lia). assert (0 <= y) by (apply Z.div_pos; lia).
  assert (0 <= z) by (apply Z.div_pos; lia).
  split_and!; lia.
Qed.

Lemma encode_rune_bytes (r : Z) :
  valid_rune r = true -> string_bytes (encode_rune r) = encode_bytes r.
Proof.
  unfold valid_rune. intros H. bool_prop.
  destruct (split64 r) as (a & b & c & d & ? & ? & ? & ? & Hr & E1 & E2 & E3 & E4 & E5 & E6); [done|].
  unfold encode_rune, encode_bytes. rewrite E1, E2, E4, E6.
  repeat case_match; bool_prop; rewrite ?string_bytes_app;
    unfold string_bytes; cbn [String.list_ascii_of_string map app];
    rewrite ?E3, ?E5, ?byte_of_chr by (unfold is_byte; lia); reflexivity.
Qed.

(** Decides the comparisons of the decoder one after the other. *)
Ltac decide_tests :=
  repeat match goal with
  | |- context [?x <? ?y] => first
      [ replace (x <? y) with true by (symmetry; apply Z.ltb_lt; lia)
      | replace (x <? y) with false by (symmetry; apply Z.ltb_ge; lia) ]
  | |- context [?x <=? ?y] => first
      [ replace (x <=? y) with true by (symmetry; apply Z.leb_le; lia)
      | replace (x <=? y) with false by (symmetry; apply Z.leb_gt; lia) ]
  | |- context [?x =? ?y] => first
      [ replace (x =? y) with true by (symmetry; apply Z.eqb_eq; lia)
      | replace (x =? y) with false by (symmetry; apply Z.eqb_neq; lia)
      | destruct (Z.eqb_spec x y) ]
  | |- context [andb] => progress cbn [andb]
  end.

Lemma decode_encode (r : Z) (rest : list Z) :
  valid_rune r = true ->
  DecodeRune (encode_bytes r ++ rest) = (r, length (encode_bytes r), true).
Proof.
  unfold valid_rune, is_surrogate. intros H. bool_prop.
  apply andb_false_iff in H0 as [Hs|Hs]; bool_prop;
  destruct (split64 r) as (a & b & c & d & ? & ? & ? & ? & Hr & E1 & E2 & E3 & E4 & E5 & E6); try done;
  unfold encode_bytes; rewrite E1, E2, E3, E4, E5, E6;
  repeat case_match; bool_prop; cbn [app length DecodeRune]; unfold cont;
  decide_tests; cbn [andb]; repeat f_equal; lia.
Qed.

(** The outermost test of the goal. *)
Ltac test E := match goal with |- (if ?b then _ else _) = _ -> _ => destruct b eqn:E end.

(** What the decoder accepts is an encoding. *)
Lemma encode_decode (l : list Z) (r : Z) (w : nat) :
  Forall is_byte l -> DecodeRune l = (r, w, true) ->
  valid_rune r = true /\ l = encode_bytes r ++ drop w l /\ (0 < w)%nat.
Proof.
  intros Hl. unfold DecodeRune, cont. destruct l as [|b0 l]; [done|].
  apply Forall_cons in Hl as [Hb0 Hl]. unfold is_byte in Hb0. destruct (b0 <? 128) eqn:E0.
  { intros [= <- <-]. bool_prop. unfold valid_rune, is_surrogate, encode_bytes.
    decide_tests. split_and!; [done|done|lia]. }
  destruct l as [|b1 l]; [done|]. apply Forall_cons in Hl as [Hb1 Hl]. unfold is_byte in Hb1.
  destruct ((194 <=? b0) && (b0 <=? 223)) eqn:E1.
  { test E2; [|done]. intros [= <- <-]. bool_prop.
    set (r := (b0 - 192) * 64 + (b1 - 128)).
    destruct (split64 r) as (a & b & c & d & ? & ? & ? & ? & Hr & D1 & D2 & D3 & D4 & D5 & D6); [lia|].
    unfold valid_rune, is_surrogate, encode_bytes. rewrite D5, D6. decide_tests.
    split_and!; [done| |lia]. cbn [drop app]. repeat f_equal; lia. }
  destruct l as [|b2 l]; [done|]. apply Forall_cons in Hl as [Hb2 Hl]. unfold is_byte in Hb2.
  destruct ((224 <=? b0) && (b0 <=? 239)) eqn:E2.
  { test E3; [|done]. intros [= <- <-]. bool_prop.
    set (r := (b0 - 224) * 4096 + (b1 - 128) * 64 + (b2 - 128)).
    destruct (split64 r) as (a & b & c & d & ? & ? & ? & ? & Hr & D1 & D2 & D3 & D4 & D5 & D6);
      [destruct (b0 =? 224) eqn:?, (b0 =? 237) eqn:?; bool_prop; lia|].
    unfold valid_rune, is_surrogate, encode_bytes. rewrite D3, D4, D6.
    destruct (b0 =? 224) eqn:?, (b0 =? 237) eqn:?; bool_prop; try lia; decide_tests; cbn [negb andb orb];
      (split_and!; [| |lia]); try (cbn [drop app]; repeat f_equal; lia); try reflexivity.
    all: apply andb_true_iff; split; [done|]; apply negb_true_iff, andb_false_iff;
      rewrite !Z.leb_gt; lia. }
  destruct l as [|b3 l]; [done|]. apply Forall_cons in Hl as [Hb3 Hl]. unfold is_byte in Hb3.
  test E3; [|done]. intros [= <- <-]. bool_prop.
  set (r := (b0 - 240) * 262144 + (b1 - 128) * 4096 + (b2 - 128) * 64 + (b3 - 128)).
  destruct (split64 r) as (a & b & c & d & ? & ? & ? & ? & Hr & D1 & D2 & D3 & D4 & D5 & D6);
    [destruct (b0 =? 240) eqn:?, (b0 =? 244) eqn:?; bool_prop; lia|].
  unfold valid_rune, is_surrogate, encode_bytes. rewrite D1, D2, D4, D6.
  destruct (b0 =? 240) eqn:?, (b0 =? 244) eqn:?; bool_prop; try lia; decide_tests;
    (split_and!; [done| |lia]); cbn [drop app]; repeat f_equal; lia.
Qed.

Lemma decode_fuel_valid (fuel : nat) (l : list Z) :
  Forall is_byte l -> (length l <= fuel)%nat -> forallb snd (decode_fuel fuel l) = true ->
  exists rs, Forall (fun r => valid_rune r = true) rs /\
    decode_fuel fuel l = map (fun r => (r, true)) rs /\ l = flat_map encode_bytes rs.
Proof.
  revert l. induction fuel as [|fuel IH]; intros l Hl Hlen Hok.
  { destruct l; [|cbn in Hlen; lia]. by exists []. }
  destruct l as [|b l]; [by exists []|]. cbn [decode_fuel] in *.
  destruct (DecodeRune (b :: l)) as [[r w] ok] eqn:Ed. cbn [forallb snd] in Hok.
  apply andb_true_iff in Hok as [-> Hok].
  destruct (encode_decode _ _ _ Hl Ed) as (Hr & Hsplit & Hw).
  destruct (IH (drop w (b :: l))) as (rs & Hrs & Hd & Hbytes); [by apply Forall_drop| |done|].
  { rewrite length_drop. cbn [length] in *. lia. }
  exists (r :: rs). rewrite Hd. split_and!; [by constructor|done|].
  cbn [flat_map]. by rewrite <- Hbytes.
Qed.

(** A valid string is the sequence of the encodings of its runes. *)
Lemma ValidString_runes (s : string) :
  ValidString s = true ->
  exists rs, Forall (fun r => valid_rune r = true) rs /\
    decode s = map (fun r => (r, true)) rs /\ string_bytes s = flat_map encode_bytes rs.
Proof. intros H. by apply decode_fuel_valid; [apply string_bytes_range| |]. Qed.

Lemma decode_fuel_encode (rs : list Z) (fuel : nat) :
  Forall (fun r => valid_rune r = true) rs -> (length (flat_map encode_bytes rs) <= fuel)%nat ->
  decode_fuel fuel (flat_map encode_bytes rs) = map (fun r => (r, true)) rs.
Proof.
  intros Hrs. revert fuel. induction Hrs as [|r rs Hr Hrs IH]; intros fuel Hf; [by destruct fuel|].
  cbn [flat_map map] in *. rewrite length_app in Hf.
  assert (exists b l, encode_bytes r = b :: l) as (b & l & Hbl)
    by (unfold encode_bytes; repeat case_match; eauto).
  destruct fuel as [|fuel]; [rewrite Hbl in Hf; cbn in Hf; lia|].
  pose proof (decode_encode r (flat_map encode_bytes rs) Hr) as Hd.
  rewrite Hbl in *. cbn [app decode_fuel length] in *. rewrite Hd. f_equal.
  cbn [drop]. rewrite drop_app_length. apply IH. lia.
Qed.

(** The valid strings are the encodings of sequences of valid runes. *)
Lemma ValidString_iff (s : string) :
  ValidString s = true <->
  exists rs, Forall (fun r => valid_rune r = true) rs /\ string_bytes s = flat_map encode_bytes rs.
Proof.
  split.
  - intros (rs & ? & _ & ?)%ValidString_runes. eauto.
  - intros (rs & Hrs & Hs). unfold ValidString, decode. rewrite Hs, decode_fuel_encode by done.
    clear; by induction rs.
Qed.

Lemma ValidString_app (s t : string) :
  ValidString s = true -> ValidString t = true -> ValidString (String.append s t) = true.
Proof.
  rewrite !ValidString_iff. intros (rs & Hrs & Hs) (rt & Hrt & Ht). exists (rs ++ rt).
  rewrite string_bytes_app, flat_map_app, Hs, Ht. split; [by apply Forall_app|done].
Qed.

Lemma ValidString_rune (r : Z) : valid_rune r = true -> ValidString (encode_rune r) = true.
Proof.
  intros Hr. apply ValidString_iff. exists [r]. rewrite encode_rune_bytes by done.
  cbn [flat_map]. rewrite app_nil_r. by split; [repeat constructor|].
Qed.

(** ASCII text is valid. *)
Lemma ascii_valid (s : string) :
  string_forallb (fun c => byte_of c <? 128) s = true -> ValidString s = true.
Proof.
  unfold ValidString, decode. rewrite string_bytes_length. unfold string_bytes.
  induction s as [|c s IH]; [done|]. cbn [string_forallb String.length String.list_ascii_of_string map decode_fuel].
  intros H. apply andb_true_iff in H as [Hc Hs]. cbn [DecodeRune]. rewrite Hc. cbn [forallb snd drop].
  by apply IH.
Qed.
