(* ===== verification/JSONPrint.v ===== *)
(** * Printing JSON, and reading it back

    What [json.Marshal] writes for a struct: objects with the members in the order of the
    fields, arrays, strings, integers and booleans, without white space.  The reader of
    [GoJSON] returns every tree whose strings are valid UTF-8 unchanged. *)

From Stdlib Require Import DecimalFacts DecimalN DecimalZ DecimalString.
From S2P Require Import Prelude GoStrings GoGlob GoJSON GoUTF8.

Local Open Scope Z_scope.

Inductive json :=
| TNull
| TBool (b : bool)
| TInt (z : Z)
| TStr (s : string)
| TArr (elements : list json)
| TObj (members : list (string * json)).

Section json_ind.
Variable P : json -> Prop.
Hypothesis Hnull : P TNull.
Hypothesis Hbool : forall b, P (TBool b).
Hypothesis Hint : forall z, P (TInt z).
Hypothesis Hstr : forall s, P (TStr s).
Hypothesis Harr : forall l, Forall P l -> P (TArr l).
Hypothesis Hobj : forall ms, Forall (fun m => P m.2) ms -> P (TObj ms).

Fixpoint json_nested_ind (j : json) : P j :=
  match j with
  | TNull => Hnull
  | TBool b => Hbool b
  | TInt z => Hint z
  | TStr s => Hstr s
  | TArr l => Harr l ((fix go l : Forall P l :=
      match l with [] => Forall_nil_2 P | x :: l => Forall_cons_2 P x l (json_nested_ind x) (go l) end) l)
  | TObj ms => Hobj ms ((fix go ms : Forall (fun m => P m.2) ms :=
      match ms with
      | [] => Forall_nil_2 _
      | m :: ms => Forall_cons_2 _ m ms (json_nested_ind m.2) (go ms)
      end) ms)
  end.
End json_ind.

Fixpoint print (j : json) : string :=
  match j with
  | TNull => "null"
  | TBool true => "true"
  | TBool false => "false"
  | TInt z => FormatInt z
  | TStr s => quote s
  | TArr l => String.append "[" (String.append (Join (map print l) ",") "]")
  | TObj ms =>
      String.append "{" (String.append
        (Join (map (fun m => String.append (quote m.1) (String.append ":" (print m.2))) ms) ",") "}")
  end.

(** The value a reader sees: the text of a member's value is what was printed. *)
Fixpoint value (j : json) : JValue :=
  match j with
  | TNull => JNull
  | TBool b => JBool b
  | TInt z => JNumber (FormatInt z)
  | TStr s => JString s
  | TArr l => JArray (map value l)
  | TObj ms => JObject (map (fun m => (m.1, value m.2, print m.2)) ms)
  end.

Fixpoint height (j : json) : nat :=
  match j with
  | TArr l => S (foldr Nat.max 0%nat (map height l))
  | TObj ms => S (foldr Nat.max 0%nat (map (fun m => height m.2) ms))
  | _ => 0%nat
  end.

(** Every string of the tree, keys included, is valid UTF-8. *)
Fixpoint valid_text (j : json) : bool :=
  match j with
  | TStr s => ValidString s
  | TArr l => forallb valid_text l
  | TObj ms => forallb (fun m => ValidString m.1 && valid_text m.2) ms
  | _ => true
  end.

(** ** Strings *)

(** What the scanner makes of a printed rune. *)
Definition pieces (r : Z) : list str_piece :=
  if existsb (Z.eqb r) [34; 92; 8; 12; 10; 13; 9] then [PRune r]
  else if (r <? 32) || existsb (Z.eqb r) [60; 62; 38; 8232; 8233] then [PRune (65536 + r)]
  else map PByte (encode_bytes r).

(** The scanner's result on [tail] with any sufficient fuel. *)
Definition scans (n : nat) (tail : string) (ps : list str_piece) (rest : string) : Prop :=
  forall f, (n <= f)%nat -> scan_string f tail = Some (ps, rest).

Definition plain (c : ascii) : bool :=
  (32 <=? byte_of c) && negb (byte_of c =? 34) && negb (byte_of c =? 92).

Lemma scans_plain (s tail rest : string) (n : nat) (ps : list str_piece) :
  string_forallb plain s = true -> scans n tail ps rest ->
  scans (String.length s + n) (String.append s tail) (map PByte (string_bytes s) ++ ps) rest.
Proof.
  induction s as [|c s IH]; intros Hp Ht.
  { by rewrite str_app_nil_l. }
  cbn [string_forallb] in Hp. apply andb_true_iff in Hp as [Hc Hp].
  rewrite str_app_cons. intros [|f] Hf; [cbn in Hf; lia|].
  cbn [scan_string]. unfold plain in Hc. bool_prop. decide_tests.
  rewrite (IH Hp Ht f) by (cbn in Hf; lia). done.
Qed.

Lemma scans_escape (e : ascii) (r : Z) (tail rest : string) (n : nat) (ps : list str_piece) :
  (byte_of e, r) ∈ [(34, 34); (92, 92); (98, 8); (102, 12); (110, 10); (114, 13); (116, 9)] ->
  scans n tail ps rest -> scans (2 + n) (String "\" (String e tail)) (PRune r :: ps) rest.
Proof.
  intros He Ht [|f] Hf; [lia|]. cbn [scan_string]. change (byte_of "\") with 92. cbn [Z.eqb Z.ltb Z.compare Pos.compare Pos.compare_cont Pos.eqb].
  rewrite (Ht f) by lia.
  repeat (apply elem_of_cons in He as [He|He]; [injection He as -> ->; reflexivity|]).
  by apply elem_of_nil in He.
Qed.

Lemma hex_value_lower (n : Z) (c : ascii) :
  0 <= n < 16 -> hex_lower n = String c EmptyString -> hex_value c = Some n.
Proof.
  intros Hn [= <-]. unfold hex_value, is_digit, in_range.
  destruct (n <? 10) eqn:E; bool_prop; rewrite byte_of_chr by (unfold is_byte; lia);
    decide_tests; f_equal; lia.
Qed.

Lemma scans_u (a b c d : ascii) (r : Z) (tail rest : string) (n : nat) (ps : list str_piece) :
  hex4 (String a (String b (String c (String d tail)))) = Some (r, tail) ->
  scans n tail ps rest ->
  scans (6 + n) (String "\" (String "u" (String a (String b (String c (String d tail))))))
    (PRune (65536 + r) :: ps) rest.
Proof.
  intros Hh Ht [|f] Hf; [lia|]. cbn [scan_string].
  change (byte_of "\") with 92. change (byte_of "u") with 117.
  cbn [Z.eqb Z.ltb Z.compare Pos.compare Pos.compare_cont Pos.eqb]. rewrite Hh, (Ht f) by lia. done.
Qed.

Lemma u00_scans (r : Z) (tail rest : string) (n : nat) (ps : list str_piece) :
  0 <= r < 256 -> scans n tail ps rest ->
  scans (6 + n) (String.append (u00 r) tail) (PRune (65536 + r) :: ps) rest.
Proof.
  intros Hr Ht. unfold u00, hex_lower. rewrite !str_app_cons, str_app_nil_l.
  set (a := chr _). set (b := chr (if r mod 16 <? 10 then _ else _)).
  assert (hex_value a = Some (r / 16)) as Ha
    by (apply hex_value_lower; [pose proof (Z.div_mod r 16); pose proof (Z.mod_pos_bound r 16); lia|done]).
  assert (hex_value b = Some (r mod 16)) as Hb
    by (apply hex_value_lower; [pose proof (Z.mod_pos_bound r 16); lia|done]).
  rewrite !str_app_nil_l. apply scans_u; [|done].
  cbn [hex4]. rewrite Ha, Hb. change (hex_value "0") with (Some 0). cbv iota beta. do 2 f_equal.
  pose proof (Z.div_mod r 16). lia.
Qed.

Lemma encode_bytes_plain (r : Z) :
  valid_rune r = true -> (32 <=? r) = true -> r <> 34 -> r <> 92 ->
  string_forallb plain (encode_rune r) = true.
Proof.
  intros Hv Hr H34 H92.
  assert (Forall (fun b => 32 <= b /\ b <> 34 /\ b <> 92) (string_bytes (encode_rune r))) as Hf.
  { rewrite encode_rune_bytes by done. unfold valid_rune in Hv. bool_prop.
    destruct (split64 r) as (a & b & c & d & ? & ? & ? & ? & ? & D1 & D2 & D3 & D4 & D5 & D6); [done|].
    unfold encode_bytes. rewrite D1, D2, D3, D4, D5, D6. repeat case_match; repeat constructor; lia. }
  revert Hf. generalize (encode_rune r). clear. unfold string_bytes.
  induction s as [|c s IH]; [done|]. cbn [String.list_ascii_of_string map string_forallb].
  intros [(H1 & H2 & H3) Hs]%Forall_cons. rewrite (IH Hs), andb_true_r. unfold plain. by decide_tests.
Qed.

Lemma quote_rune_scans (r : Z) (tail rest : string) (n : nat) (ps : list str_piece) :
  valid_rune r = true -> scans n tail ps rest ->
  scans (String.length (quote_rune (r, true)) + n) (String.append (quote_rune (r, true)) tail)
    (pieces r ++ ps) rest.
Proof.
  intros Hv Ht. unfold pieces. assert (0 <= r) as Hr by (unfold valid_rune in Hv; by bool_prop).
  destruct (existsb _ [34; _; _; _; _; _; _]) eqn:E1.
  { assert (exists e, quote_rune (r, true) = String "\" (String e EmptyString) /\ (byte_of e, r) ∈
      [(34, 34); (92, 92); (98, 8); (102, 12); (110, 10); (114, 13); (116, 9)]) as (e & -> & He).
    { cbn [existsb] in E1. repeat (apply orb_true_iff in E1 as [E1|E1]; [apply Z.eqb_eq in E1 as ->;
        eexists; split; [reflexivity|]; apply (bool_decide_unpack _); vm_compute; exact I|]). done. }
    rewrite !str_app_cons, str_app_nil_l. by apply scans_escape. }
  cbn [existsb] in E1. bool_prop.
  destruct (Z_lt_le_dec r 32) as [Hc|Hc].
  { unfold quote_rune. cbn [negb existsb]. decide_tests. apply (u00_scans r _ _ _ _ ltac:(lia) Ht). }
  destruct (existsb _ [60; _; _; _; _]) eqn:E2.
  { rewrite orb_true_r. cbn [existsb] in E2.
    do 3 (apply orb_true_iff in E2 as [E2|E2];
      [apply Z.eqb_eq in E2 as ->; refine (u00_scans _ _ _ _ _ _ Ht); lia|]).
    do 2 (apply orb_true_iff in E2 as [E2|E2]; [apply Z.eqb_eq in E2 as ->;
      match goal with |- scans _ (String.append (quote_rune ?x) _) _ _ =>
        let q := eval vm_compute in (quote_rune x) in change (quote_rune x) with q end;
      rewrite !str_app_cons, str_app_nil_l; apply scans_u; [reflexivity|done]|]). done. }
  cbn [existsb] in E2. bool_prop. unfold quote_rune. cbn [negb]. decide_tests. cbn [orb].
  rewrite <- encode_rune_bytes by done. apply scans_plain; [|done].
  apply encode_bytes_plain; try done. by apply Z.leb_le.
Qed.

Lemma quote_runes_scans (rs : list Z) (rest : string) :
  Forall (fun r => valid_rune r = true) rs ->
  let text := quote_runes (map (fun r => (r, true)) rs) in
  scans (String.length text + 1) (String.append text (String.append dquote rest))
    (flat_map pieces rs) rest.
Proof.
  cbv zeta. induction 1 as [|r rs Hr Hrs IH]; cbn [map quote_runes flat_map].
  - rewrite str_app_nil_l. intros [|f] Hf; [cbn in Hf; lia|]. reflexivity.
  - rewrite str_length_app, <- Nat.add_assoc, str_app_assoc. by apply quote_rune_scans.
Qed.

Lemma pieces_unquote (r : Z) (ps : list str_piece) (fuel : nat) :
  valid_rune r = true ->
  unquote (S fuel) (pieces r ++ ps) = String.append (encode_rune r) (unquote fuel ps).
Proof.
  intros Hv. unfold pieces. destruct (existsb _ _) eqn:E1.
  { assert (r < 65536) as Hr.
    { cbn [existsb] in E1. repeat (apply orb_true_iff in E1 as [E1|E1]; bool_prop; [lia|]). done. }
    cbn [app unquote]. by decide_tests. }
  destruct (_ || _) eqn:E2.
  { assert (0 <= r < 55296) as Hr.
    { unfold valid_rune in Hv. bool_prop. cbn [existsb] in E2.
      repeat (apply orb_true_iff in E2 as [E2|E2]; bool_prop; [lia|]). done. }
    cbn [app unquote]. replace (65536 + r - 65536) with r by lia. unfold is_surrogate. by decide_tests. }
  assert (forall l, (fix run l := match l with PByte b :: l' => b :: run l' | _ => [] end)
    (map PByte l ++ ps) = l ++ (fix run l := match l with PByte b :: l' => b :: run l' | _ => [] end) ps) as Hrun.
  { induction l as [|b l IH]; [done|]. cbn. by f_equal. }
  assert (exists b l, encode_bytes r = b :: l) as (b & l & Hbl)
    by (unfold encode_bytes; repeat case_match; eauto).
  specialize (Hrun (encode_bytes r)). pose proof (decode_encode r) as Hd.
  rewrite Hbl in *. cbn [map app] in *. cbn [unquote]. rewrite Hrun, Hd by done.
  f_equal. f_equal. rewrite app_comm_cons. change (PByte b :: map PByte l) with (map PByte (b :: l)).
  apply drop_app_length'. by rewrite length_map.
Qed.

Lemma unquote_runes (rs : list Z) (fuel : nat) :
  Forall (fun r => valid_rune r = true) rs -> (length rs <= fuel)%nat ->
  string_bytes (unquote fuel (flat_map pieces rs)) = flat_map encode_bytes rs.
Proof.
  intros Hrs. revert fuel. induction Hrs as [|r rs Hr Hrs IH]; intros [|fuel] Hf; cbn [flat_map];
    try done; try (cbn in Hf; lia).
  rewrite pieces_unquote, string_bytes_app, encode_rune_bytes, IH; cbn in Hf; done || lia.
Qed.

Lemma pieces_length (rs : list Z) : (length rs <= length (flat_map pieces rs))%nat.
Proof.
  induction rs as [|r rs IH]; cbn [flat_map length]; [lia|]. rewrite length_app.
  assert (1 <= length (pieces r))%nat; [|lia].
  unfold pieces, encode_bytes. repeat case_match; cbn; lia.
Qed.

(** A printed string is read back. *)
Lemma parse_string_quote (s rest : string) :
  ValidString s = true ->
  parse_string (String.append (quote_runes (decode s)) (String.append dquote rest)) = Some (s, rest).
Proof.
  intros (rs & Hrs & Hd & Hs)%ValidString_runes. unfold parse_string. rewrite Hd.
  rewrite (quote_runes_scans rs rest Hrs) by (rewrite !str_length_app; cbn; lia).
  do 2 f_equal. apply string_bytes_inj. rewrite Hs. apply unquote_runes; [done|].
  pose proof (pieces_length rs). lia.
Qed.

(** ** Integers *)

Fixpoint uint_value (acc : Z) (d : Decimal.uint) : Z :=
  match d with
  | Decimal.Nil => acc
  | Decimal.D0 d => uint_value (acc * 10) d
  | Decimal.D1 d => uint_value (acc * 10 + 1) d
  | Decimal.D2 d => uint_value (acc * 10 + 2) d
  | Decimal.D3 d => uint_value (acc * 10 + 3) d
  | Decimal.D4 d => uint_value (acc * 10 + 4) d
  | Decimal.D5 d => uint_value (acc * 10 + 5) d
  | Decimal.D6 d => uint_value (acc * 10 + 6) d
  | Decimal.D7 d => uint_value (acc * 10 + 7) d
  | Decimal.D8 d => uint_value (acc * 10 + 8) d
  | Decimal.D9 d => uint_value (acc * 10 + 9) d
  end.

Lemma digits_value_uint (d : Decimal.uint) (acc : Z) :
  digits_value (NilEmpty.string_of_uint d) acc = Some (uint_value acc d).
Proof.
  revert acc. induction d as [|d IH|d IH|d IH|d IH|d IH|d IH|d IH|d IH|d IH|d IH]; intros acc; [done|..];
    cbn [NilEmpty.string_of_uint digits_value uint_value]; unfold is_digit, in_range;
    match goal with |- context [byte_of ?c] =>
      let b := eval vm_compute in (byte_of c) in change (byte_of c) with b end;
    cbn [Z.leb Z.compare Pos.compare Pos.compare_cont andb]; rewrite IH; f_equal; f_equal; lia.
Qed.

Lemma uint_value_pos (d : Decimal.uint) (p : positive) :
  uint_value (Zpos p) d = Zpos (Pos.of_uint_acc d p).
Proof.
  revert p. induction d as [|d IH|d IH|d IH|d IH|d IH|d IH|d IH|d IH|d IH|d IH]; intros p; [done|..];
    cbn [uint_value Pos.of_uint_acc]; rewrite <- IH; f_equal; lia.
Qed.

Lemma uint_value_of (d : Decimal.uint) : uint_value 0 d = Z.of_uint d.
Proof.
  unfold Z.of_uint. induction d as [|d IH|d IH|d IH|d IH|d IH|d IH|d IH|d IH|d IH|d IH]; [done|..];
    cbn [uint_value Pos.of_uint Z.of_N]; [exact IH|..]; apply uint_value_pos.
Qed.

Lemma uint_digits (d : Decimal.uint) : string_forallb is_digit (NilEmpty.string_of_uint d) = true.
Proof.
  induction d as [|d IH|d IH|d IH|d IH|d IH|d IH|d IH|d IH|d IH|d IH]; [done|..];
    cbn [NilEmpty.string_of_uint string_forallb]; rewrite IH; reflexivity.
Qed.

(** The digits of a positive number start with a digit other than zero. *)
Lemma to_uint_head (p : positive) :
  exists c ds, NilEmpty.string_of_uint (Pos.to_uint p) = String c ds /\ byte_of c <> 48.
Proof.
  assert (N.of_uint (Pos.to_uint p) = Npos p) as Ho by apply (DecimalN.Unsigned.of_to (Npos p)).
  assert (Decimal.unorm (Pos.to_uint p) = Pos.to_uint p) as Hu
    by (rewrite <- (DecimalN.Unsigned.to_of (Pos.to_uint p)), Ho; done).
  revert Ho Hu. generalize (Pos.to_uint p) as d. intros d Ho Hu.
  destruct d as [|e|e|e|e|e|e|e|e|e|e]; [done| |eexists _, _; split; [reflexivity|done]..].
  exfalso. unfold Decimal.unorm in Hu. cbn [Decimal.nzhead] in Hu.
  pose proof (nzhead_nonzero e) as Hn. destruct (Decimal.nzhead e) as [|u|u|u|u|u|u|u|u|u|u] eqn:Ez;
    try discriminate Hu.
  - injection Hu as <-. discriminate Ho.
  - by apply (Hn u).
Qed.

Lemma FormatInt_nonneg (n : Z) :
  0 <= n -> exists c ds, FormatInt n = String c ds /\ string_forallb is_digit (String c ds) = true /\
    (byte_of c = 48 -> ds = "") /\ digits_value (String c ds) 0 = Some n.
Proof.
  intros Hn. destruct n as [|p|p]; [|unfold FormatInt, Z.to_int|lia].
  { by exists (chr 48), "". }
  destruct (to_uint_head p) as (c & ds & Hs & Hc). exists c, ds.
  assert (NilZero.string_of_int (Decimal.Pos (Pos.to_uint p)) = String c ds) as ->.
  { cbn [NilZero.string_of_int NilZero.string_of_uint]. by destruct (Pos.to_uint p). }
  rewrite <- Hs. split_and!; [done|apply uint_digits|done|].
  rewrite digits_value_uint, uint_value_of. f_equal.
  change (Z.of_int (Z.to_int (Zpos p)) = Zpos p). apply DecimalZ.of_to.
Qed.

Lemma FormatInt_neg (n : Z) : n < 0 -> FormatInt n = String "-" (FormatInt (- n)).
Proof.
  intros Hn. destruct n as [|p|p]; try lia. reflexivity.
Qed.

Lemma FormatInt_ascii (z : Z) : string_forallb (fun c => byte_of c <? 128) (FormatInt z) = true.
Proof.
  assert (forall n, 0 <= n -> string_forallb (fun c => byte_of c <? 128) (FormatInt n) = true) as Hn.
  { intros n Hn. destruct (FormatInt_nonneg n Hn) as (c & ds & -> & Hd & _).
    eapply string_forallb_weaken; [|exact Hd]. intros x Hx. unfold is_digit, in_range in Hx.
    bool_prop. apply Z.ltb_lt. lia. }
  destruct (Z_lt_le_dec z 0) as [Hz|Hz]; [|by apply Hn]. rewrite FormatInt_neg by done.
  cbn [string_forallb]. rewrite Hn by lia. reflexivity.
Qed.

(** What may follow a number: nothing that continues it. *)
Definition ends_number (rest : string) : bool :=
  match rest with
  | EmptyString => true
  | String c _ => negb (is_digit c) && negb (existsb (Z.eqb (byte_of c)) [46; 101; 69])
  end.

Lemma take_digits_app (ds rest : string) :
  string_forallb is_digit ds = true -> ends_number rest = true ->
  take_digits (String.append ds rest) = (ds, rest).
Proof.
  intros Hd Hr. induction ds as [|c ds IH].
  - rewrite str_app_nil_l. destruct rest as [|c rest]; [done|]. cbn [ends_number take_digits] in *.
    apply andb_true_iff in Hr as [Hr _]. apply negb_true_iff in Hr. by rewrite Hr.
  - rewrite str_app_cons. cbn [string_forallb] in Hd. apply andb_true_iff in Hd as [Hc Hd].
    cbn [take_digits]. by rewrite Hc, IH.
Qed.

Lemma skip_digits (c : ascii) (ds rest : string) :
  string_forallb is_digit (String c ds) = true -> (byte_of c = 48 -> ds = "") ->
  ends_number rest = true -> skip_number (String c (String.append ds rest)) = Some rest.
Proof.
  intros Hd Hz Hr. unfold skip_number, TrimPrefix.
  assert (is_digit c = true) as Hc by (cbn in Hd; by bool_prop).
  assert (byte_of c <> 45 /\ 48 <= byte_of c <= 57) as [Hm Hcr]
    by (unfold is_digit, in_range in Hc; bool_prop; lia).
  assert (HasPrefix (String c (String.append ds rest)) "-" = false) as ->.
  { unfold HasPrefix. cbn [String.prefix]. destruct (ascii_dec _ _) as [<-|]; [|done]. by destruct Hm. }
  assert ((if byte_of c =? 48 then Some (String.append ds rest)
           else if is_digit c then Some (take_digits (String c (String.append ds rest))).2 else None)
          = Some rest) as ->.
  { rewrite Hc. destruct (byte_of c =? 48) eqn:E; bool_prop.
    - by rewrite (Hz E), str_app_nil_l.
    - rewrite <- str_app_cons, take_digits_app; done. }
  destruct rest as [|x rest]; [done|]. cbn [ends_number] in Hr. apply andb_true_iff in Hr as [_ Hr].
  cbn [existsb] in Hr. bool_prop.
  assert (forall y, byte_of y <> byte_of x -> HasPrefix (String x rest) (String y "") = false) as Hp.
  { intros y Hy. unfold HasPrefix. cbn [String.prefix]. by destruct (ascii_dec _ _) as [->|]. }
  rewrite !Hp; [done|vm_compute (byte_of _) in *; congruence..].
Qed.

Lemma skip_FormatInt (z : Z) (rest : string) :
  ends_number rest = true -> skip_number (String.append (FormatInt z) rest) = Some rest.
Proof.
  intros Hr. destruct (Z_lt_le_dec z 0) as [Hz|Hz].
  - rewrite (FormatInt_neg z Hz). destruct (FormatInt_nonneg (- z)) as (c & ds & -> & Hd & H0 & _); [lia|].
    rewrite !str_app_cons. pose proof (skip_digits c ds rest Hd H0 Hr) as Hs.
    unfold skip_number in *. unfold TrimPrefix at 1. cbn [HasPrefix].
    assert (TrimPrefix (String c (String.append ds rest)) "-" = String c (String.append ds rest)) as Ht.
    { unfold TrimPrefix, HasPrefix. cbn [String.prefix]. destruct (ascii_dec _ _) as [<-|]; [|done].
      cbn in Hd. discriminate Hd. }
    rewrite Ht in Hs. exact Hs.
  - destruct (FormatInt_nonneg z Hz) as (c & ds & -> & Hd & H0 & _). rewrite str_app_cons.
    by apply skip_digits.
Qed.

(** A printed [int64] is read back. *)
Lemma parse_FormatInt (z : Z) : in_int64 z -> parse_int64 (FormatInt z) = Some z.
Proof.
  unfold in_int64. intros Hr.
  assert ((int64_min <=? z) && (z <=? int64_max) = true) as Hin by (apply andb_true_iff; rewrite !Z.leb_le; lia).
  unfold parse_int64, TrimPrefix. destruct (Z_lt_le_dec z 0) as [Hz|Hz].
  - rewrite (FormatInt_neg z Hz). destruct (FormatInt_nonneg (- z)) as (c & ds & -> & Hd & _ & Hv); [lia|].
    change (HasPrefix (String "-" (String c ds)) "-") with true. cbv iota.
    change (sdrop (String.length "-") (String "-" (String c ds))) with (String c ds).
    cbn [String.eqb]. rewrite Hv, Z.opp_involutive, Hin. done.
  - destruct (FormatInt_nonneg z Hz) as (c & ds & -> & Hd & _ & Hv).
    assert (HasPrefix (String c ds) "-" = false) as ->.
    { unfold HasPrefix. cbn [String.prefix]. destruct (ascii_dec _ _) as [<-|]; [|done]. cbn in Hd. discriminate Hd. }
    cbn [String.eqb]. by rewrite Hv, Hin.
Qed.

(** ** Trees *)

Lemma HasPrefix_head (c d : ascii) (s : string) :
  HasPrefix (String c s) (String d "") = Ascii.eqb d c.
Proof.
  unfold HasPrefix. cbn [String.prefix]. destruct (ascii_dec d c) as [->|Hn].
  - rewrite Ascii.eqb_refl. by destruct s.
  - symmetry. by apply Ascii.eqb_neq.
Qed.

Lemma HasPrefix_other (c d : ascii) (s p : string) :
  Ascii.eqb d c = false -> HasPrefix (String c s) (String d p) = false.
Proof. intros H%Ascii.eqb_neq. unfold HasPrefix. cbn [String.prefix]. by destruct (ascii_dec d c). Qed.

(** How a printed value starts: not with a space, a closing bracket or a comma. *)
Definition starts_value (c : ascii) : bool :=
  negb (is_json_space c) && negb (existsb (Z.eqb (byte_of c)) [93; 125; 44]).

Lemma print_head (j : json) : exists c s, print j = String c s /\ starts_value c = true.
Proof.
  destruct j as [|[]|z|s|l|ms]; try (eexists _, _; split; [reflexivity|reflexivity]).
  cbn [print]. destruct (Z_lt_le_dec z 0) as [Hz|Hz].
  - rewrite FormatInt_neg by done. eexists _, _. split; reflexivity.
  - destruct (FormatInt_nonneg z Hz) as (c & ds & -> & Hd & _). exists c, ds. split; [done|].
    cbn in Hd. apply andb_true_iff in Hd as [Hd _]. unfold is_digit, in_range in Hd. bool_prop.
    unfold starts_value, is_json_space. cbn [existsb]. by decide_tests.
Qed.

Lemma skip_space_value (c : ascii) (s : string) :
  starts_value c = true -> skip_space (String c s) = String c s.
Proof. unfold starts_value. intros H. bool_prop. cbn [skip_space]. by rewrite H. Qed.

(** The reader returns the printed tree, whatever follows it. *)
Definition reads (read : string -> option (JValue * string)) (j : json) : Prop :=
  forall rest, ends_number rest = true -> read (String.append (print j) rest) = Some (value j, rest).

Lemma skip_space_print (j : json) (rest : string) :
  skip_space (String.append (print j) rest) = String.append (print j) rest.
Proof.
  destruct (print_head j) as (c & s & -> & Hc). rewrite str_app_cons. by apply skip_space_value.
Qed.

Lemma text_between_app (s rest : string) : text_between (String.append s rest) rest = s.
Proof. unfold text_between. rewrite str_length_app, Nat.add_sub. apply stake_app. Qed.

Lemma Join_cons (p : string) (ps : list string) (sep : string) :
  ps <> [] -> Join (p :: ps) sep = String.append p (String.append sep (Join ps sep)).
Proof. by destruct ps. Qed.

(** Reads a delimiter [c] in front of the rest of the input. *)
Ltac delimiter c :=
  change (skip_space (String c ?s)) with (String c s); rewrite !HasPrefix_head;
  cbn [Ascii.eqb Bool.eqb negb]; change (sdrop 1 (String c ?s)) with s.

Lemma parse_elements_print (read : string -> option (JValue * string)) (l : list json)
    (n : nat) (rest : string) :
  Forall (reads read) l -> l <> [] -> (length l <= n)%nat ->
  parse_elements read n (String.append (Join (map print l) ",") (String "]" rest)) =
    Some (map value l, rest).
Proof.
  intros Hl. revert n. induction Hl as [|j l Hj Hl IH]; intros n Hne Hn; [done|].
  destruct n as [|n]; [cbn in Hn; lia|]. cbn [map]. destruct l as [|j2 l].
  - cbn [map Join parse_elements]. rewrite skip_space_print, Hj by done. cbv zeta. by delimiter "]"%char.
  - rewrite Join_cons, !str_app_assoc by done. cbn [parse_elements].
    rewrite skip_space_print, Hj by done. rewrite !str_app_cons, str_app_nil_l.
    cbv zeta. delimiter ","%char.
    rewrite IH by (done || cbn in Hn |- *; lia). done.
Qed.

Definition print_member (m : string * json) : string :=
  String.append (quote m.1) (String.append ":" (print m.2)).

Lemma parse_members_print (read : string -> option (JValue * string)) (ms : list (string * json))
    (n : nat) (rest : string) :
  Forall (fun m => ValidString m.1 = true /\ reads read m.2) ms -> ms <> [] -> (length ms <= n)%nat ->
  parse_members read n (String.append (Join (map print_member ms) ",") (String "}" rest)) =
    Some (map (fun m => (m.1, value m.2, print m.2)) ms, rest).
Proof.
  intros Hl. revert n. induction Hl as [|[k j] ms [Hk Hj] Hl IH]; intros n Hne Hn; [done|].
  destruct n as [|n]; [cbn in Hn; lia|]. cbn [fst snd] in *.
  assert (forall tail, ends_number tail = true ->
    parse_members read (S n) (String.append (print_member (k, j)) tail) =
    (let tail := skip_space tail in
     if HasPrefix tail "," then
       match parse_members read n (sdrop 1 tail) with
       | Some (ms, rest') => Some ((k, value j, print j) :: ms, rest')
       | None => None
       end
     else if HasPrefix tail "}" then Some ([(k, value j, print j)], sdrop 1 tail) else None)) as Hone.
  { intros tail Ht. unfold print_member, quote. cbn [fst snd]. rewrite !str_app_assoc.
    change (String.append dquote ?s) with (String (chr 34) s).
    cbn [parse_members]. change (skip_space (String (chr 34) ?s)) with (String (chr 34) s).
    assert (forall t, HasPrefix (String (chr 34) t) dquote = true) as -> by (by intros t; apply HasPrefix_head).
    cbn [negb]. change (sdrop 1 (String (chr 34) ?s)) with s.
    rewrite parse_string_quote by done. rewrite str_app_cons, str_app_nil_l.
    delimiter ":"%char.
    rewrite skip_space_print, Hj, text_between_app by done. reflexivity. }
  cbn [map]. destruct ms as [|m2 ms].
  - cbn [map Join]. rewrite Hone by done. cbv zeta. by delimiter "}"%char.
  - rewrite Join_cons, !str_app_assoc, Hone by done. cbv zeta. rewrite !str_app_cons, str_app_nil_l.
    cbv zeta. delimiter ","%char.
    rewrite IH by (done || cbn in Hn |- *; lia). done.
Qed.

Lemma print_obj (ms : list (string * json)) :
  print (TObj ms) = String "{" (String.append (Join (map print_member ms) ",") "}").
Proof. reflexivity. Qed.

Lemma Join_length (ps : list string) (sep : string) (p : string) :
  p ∈ ps -> (String.length p <= String.length (Join ps sep))%nat.
Proof.
  induction ps as [|x ps IH]; [by intros []%elem_of_nil|]. intros Hp.
  destruct (decide (ps = [])) as [->|Hne].
  { apply list_elem_of_singleton in Hp as ->. done. }
  rewrite Join_cons, !str_length_app by done.
  apply elem_of_cons in Hp as [->|Hp]; [lia|]. specialize (IH Hp). lia.
Qed.

Lemma Join_count (ps : list string) (sep : string) :
  Forall (fun p => 1 <= String.length p)%nat ps -> (length ps <= String.length (Join ps sep))%nat.
Proof.
  induction 1 as [|x ps Hx Hps IH]; [cbn; lia|]. destruct (decide (ps = [])) as [->|Hne]; [cbn; lia|].
  rewrite Join_cons, !str_length_app by done. cbn [length]. lia.
Qed.

Lemma print_length (j : json) : (1 <= String.length (print j))%nat.
Proof. destruct (print_head j) as (c & s & -> & _). cbn. lia. Qed.

Lemma foldr_max_le {A} (f : A -> nat) (l : list A) (n : nat) :
  (foldr Nat.max 0%nat (map f l) <= n)%nat -> Forall (fun x => (f x <= n)%nat) l.
Proof. induction l as [|x l IH]; constructor; cbn in *; [|apply IH]; lia. Qed.

Lemma Join_head (ps : list string) (rest : string) :
  ps <> [] -> Forall (fun p => exists c s, p = String c s /\ starts_value c = true) ps ->
  exists c t, String.append (Join ps ",") rest = String c t /\ starts_value c = true.
Proof.
  intros Hne Hps. destruct Hps as [|p ps (c & s & -> & Hc) Hps]; [done|].
  destruct ps as [|p2 ps]; cbn [Join]; rewrite ?str_app_cons, ?str_app_assoc; eauto.
Qed.

Lemma starts_value_close (c d : ascii) :
  starts_value c = true -> existsb (Z.eqb (byte_of d)) [93; 125; 44] = true -> Ascii.eqb d c = false.
Proof.
  intros Hc Hd. apply Ascii.eqb_neq. intros ->. unfold starts_value in Hc. rewrite Hd in Hc.
  by rewrite andb_false_r in Hc.
Qed.

Lemma print_heads (l : list json) :
  Forall (fun p => exists c s, p = String c s /\ starts_value c = true) (map print l).
Proof. apply Forall_fmap, Forall_true. intros j. apply print_head. Qed.

Lemma member_heads (ms : list (string * json)) :
  Forall (fun p => exists c s, p = String c s /\ starts_value c = true) (map print_member ms).
Proof. apply Forall_fmap, Forall_true. intros m. eexists _, _. split; reflexivity. Qed.

(** The printed parts of a tree are shorter than the tree. *)
Lemma elements_shorter (l : list json) (n : nat) :
  (String.length (Join (map print l) ",") < n)%nat ->
  (length l <= n)%nat /\ Forall (fun j => String.length (print j) < n)%nat l.
Proof.
  intros Hn. split.
  - pose proof (Join_count (map print l) ",") as H. rewrite length_map in H.
    specialize (H ltac:(apply Forall_fmap, Forall_true; intros j; apply print_length)). lia.
  - apply Forall_forall. intros j Hj.
    pose proof (Join_length (map print l) "," (print j) ltac:(by apply list_elem_of_fmap_2)). lia.
Qed.

Lemma members_shorter (ms : list (string * json)) (n : nat) :
  (String.length (Join (map print_member ms) ",") < n)%nat ->
  (length ms <= n)%nat /\ Forall (fun m => String.length (print m.2) < n)%nat ms.
Proof.
  assert (forall m, String.length (print m.2) <= String.length (print_member m))%nat as Hm.
  { intros [k j]. unfold print_member. rewrite !str_length_app. cbn. lia. }
  intros Hn. split.
  - pose proof (Join_count (map print_member ms) ",") as H. rewrite length_map in H.
    specialize (H ltac:(apply Forall_fmap, Forall_true; intros m; specialize (Hm m);
      pose proof (print_length m.2); cbn; lia)). lia.
  - apply Forall_forall. intros m Hin. specialize (Hm m).
    pose proof (Join_length (map print_member ms) "," (print_member m) ltac:(by apply list_elem_of_fmap_2)). lia.
Qed.

(** Skips the tests for the other kinds of values. *)
Ltac other_heads := rewrite ?HasPrefix_other by reflexivity.

(** A literal in front of the rest of the input. *)
Ltac literal :=
  let Hlit := fresh "Hlit" in let Hdrop := fresh "Hdrop" in
  match goal with |- context [String.append (String ?c ?s) ?rest] =>
    pose proof (prefix_app (String c s) rest) as Hlit; pose proof (sdrop_app (String c s) rest) as Hdrop
  end;
  rewrite str_app_cons in *; unfold dquote; other_heads; unfold HasPrefix; rewrite Hlit;
  cbn [String.length] in Hdrop; by rewrite Hdrop.

(** Reading inverts printing, to any depth the reader accepts. *)
Lemma parse_value_print (j : json) (fuel depth : nat) :
  valid_text j = true -> (String.length (print j) < fuel)%nat -> (height j <= depth)%nat ->
  reads (parse_value fuel depth) j.
Proof.
  revert fuel depth. induction j as [|b|z|s|l Hl|ms Hms] using json_nested_ind;
    intros [|fuel] depth Hv Hf Hd rest Hr; try (cbn in Hf; lia).
  - cbn [parse_value print]. literal.
  - destruct b; cbn [parse_value print]; literal.
  - cbn [print value parse_value].
    assert (HasPrefix (String.append (FormatInt z) rest) "{" = false /\
      HasPrefix (String.append (FormatInt z) rest) "[" = false /\
      HasPrefix (String.append (FormatInt z) rest) dquote = false /\
      HasPrefix (String.append (FormatInt z) rest) "true" = false /\
      HasPrefix (String.append (FormatInt z) rest) "false" = false /\
      HasPrefix (String.append (FormatInt z) rest) "null" = false) as (-> & -> & -> & -> & -> & ->).
    { destruct (Z_lt_le_dec z 0) as [Hz|Hz].
      - rewrite FormatInt_neg, str_app_cons by done. unfold dquote. split_and!; by apply HasPrefix_other.
      - destruct (FormatInt_nonneg z Hz) as (c & ds & -> & Hdig & _). rewrite str_app_cons.
        cbn in Hdig. apply andb_true_iff in Hdig as [Hc _]. unfold is_digit, in_range in Hc. bool_prop.
        unfold dquote. split_and!; apply HasPrefix_other, Ascii.eqb_neq; intros <-;
          vm_compute in H, H0; congruence. }
    rewrite skip_FormatInt, text_between_app by done. done.
  - cbn [print value valid_text] in *. unfold quote. rewrite !str_app_assoc.
    change (String.append dquote ?s) with (String (chr 34) s). cbn [parse_value]. other_heads.
    assert (forall t, HasPrefix (String (chr 34) t) dquote = true) as -> by (by intros t; apply HasPrefix_head).
    change (sdrop 1 (String (chr 34) ?s)) with s.
    rewrite parse_string_quote by done. done.
  - assert (1 <= depth)%nat as Hd1 by (cbn in Hd; lia). cbn [value].
    change (print (TArr l)) with (String "[" (String.append (Join (map print l) ",") "]")) in *.
    cbn [String.length] in Hf. rewrite str_length_app in Hf. rewrite str_app_cons, str_app_assoc, str_app_cons, str_app_nil_l.
    cbn [parse_value]. other_heads. rewrite HasPrefix_head, Ascii.eqb_refl, bool_decide_false by lia.
    change (sdrop 1 (String "[" ?s)) with s. destruct (decide (l = [])) as [->|Hne].
    { cbn [map Join]. rewrite str_app_nil_l. by delimiter "]"%char. }
    destruct (Join_head (map print l) (String "]" rest)) as (c & t & Heq & Hc);
      [by destruct l|apply print_heads|].
    rewrite Heq, (skip_space_value c t Hc), HasPrefix_other by by apply starts_value_close.
    destruct (elements_shorter l fuel) as [Hn Hlens]; [cbn in Hf; lia|].
    rewrite <- Heq, parse_elements_print; [done| |done|done].
    cbn in Hd, Hv. destruct depth as [|depth]; [lia|]. cbn [pred].
    pose proof (foldr_max_le height l depth ltac:(lia)) as Hh. apply Is_true_true, forallb_True in Hv.
    rewrite Forall_forall in *. intros j Hj. apply Hl; [done| |by apply Hlens|by apply Hh].
    apply Is_true_true. by apply Hv.
  - assert (1 <= depth)%nat as Hd1 by (cbn in Hd; lia). cbn [value]. rewrite print_obj in *.
    cbn [String.length] in Hf. rewrite str_length_app in Hf.
    rewrite str_app_cons, str_app_assoc, str_app_cons, str_app_nil_l.
    cbn [parse_value]. rewrite HasPrefix_head, Ascii.eqb_refl, bool_decide_false by lia.
    change (sdrop 1 (String "{" ?s)) with s. destruct (decide (ms = [])) as [->|Hne].
    { cbn [map Join]. rewrite str_app_nil_l. by delimiter "}"%char. }
    destruct (Join_head (map print_member ms) (String "}" rest)) as (c & t & Heq & Hc);
      [by destruct ms|apply member_heads|].
    rewrite Heq, (skip_space_value c t Hc), HasPrefix_other by by apply starts_value_close.
    destruct (members_shorter ms fuel) as [Hn Hlens]; [cbn in Hf; lia|].
    rewrite <- Heq, parse_members_print; [done| |done|done].
    cbn in Hd, Hv. destruct depth as [|depth]; [lia|]. cbn [pred].
    pose proof (foldr_max_le (fun m => height m.2) ms depth ltac:(lia)) as Hh. apply Is_true_true, forallb_True in Hv.
    rewrite Forall_forall in *. intros m Hm. specialize (Hv m Hm). apply Is_true_true, andb_true_iff in Hv as [Hk Hv].
    split; [done|]. apply Hms; [done|done|by apply Hlens|by apply Hh].
Qed.

(** Printing and reading a document gives its value back. *)
Lemma parse_print (j : json) :
  valid_text j = true -> (height j <= max_depth)%nat -> parse_json (print j) = Some (value j).
Proof.
  intros Hv Hh. unfold parse_json.
  pose proof (skip_space_print j "") as Hs. rewrite str_app_nil_r in Hs. rewrite Hs.
  pose proof (parse_value_print j (S (String.length (print j))) max_depth Hv ltac:(lia) Hh "" eq_refl) as Hp.
  rewrite str_app_nil_r in Hp. by rewrite Hp.
Qed.

(** A printed tree is valid UTF-8. *)
Lemma quote_valid (s : string) : ValidString s = true -> ValidString (quote s) = true.
Proof.
  intros (rs & Hrs & Hd & _)%ValidString_runes. unfold quote. rewrite Hd. clear Hd.
  apply ValidString_app; [reflexivity|]. apply ValidString_app; [|reflexivity].
  induction Hrs as [|r rs Hr Hrs IH]; [reflexivity|]. cbn [map quote_runes].
  apply ValidString_app; [|exact IH]. unfold quote_rune. cbn [negb].
  assert (0 <= r) as Hr0 by (unfold valid_rune in Hr; by bool_prop).
  repeat case_match; try reflexivity; [|by apply ValidString_rune].
  assert (r < 64) as Hlt
    by (repeat match goal with H : _ || _ = true |- _ => apply orb_true_iff in H as [H|H] end; bool_prop; lia).
  assert (0 <= r / 16 < 16 /\ 0 <= r mod 16 < 16) as [Hd1 Hd2].
  { pose proof (Z.div_mod r 16). pose proof (Z.mod_pos_bound r 16). lia. }
  assert (forall n, 0 <= n < 16 -> ValidString (hex_lower n) = true) as Hx.
  { intros n Hn. apply ascii_valid. unfold hex_lower. cbn [string_forallb].
    rewrite andb_true_r. apply Z.ltb_lt. rewrite byte_of_chr; unfold is_byte; destruct (n <? 10) eqn:E; bool_prop; lia. }
  unfold u00. repeat apply ValidString_app; [reflexivity|by apply Hx..].
Qed.

Lemma Join_valid (ps : list string) (sep : string) :
  ValidString sep = true -> Forall (fun p => ValidString p = true) ps -> ValidString (Join ps sep) = true.
Proof.
  intros Hs. induction 1 as [|p ps Hp Hps IH]; [reflexivity|]. destruct ps as [|p2 ps]; [exact Hp|].
  rewrite Join_cons by done. by repeat apply ValidString_app.
Qed.

Lemma print_valid (j : json) : valid_text j = true -> ValidString (print j) = true.
Proof.
  induction j as [|b|z|s|l Hl|ms Hms] using json_nested_ind; intros Hv.
  - reflexivity.
  - by destruct b.
  - apply ascii_valid. cbn [print]. apply FormatInt_ascii.
  - by apply quote_valid.
  - change (print (TArr l)) with (String.append "[" (String.append (Join (map print l) ",") "]")).
    apply ValidString_app; [reflexivity|]. apply ValidString_app; [|reflexivity].
    apply Join_valid; [reflexivity|]. cbn in Hv. apply Is_true_true, forallb_True in Hv.
    apply Forall_fmap. rewrite Forall_forall in *. intros j Hj. apply Hl; [done|]. by apply Is_true_true, Hv.
  - rewrite print_obj. change (String "{" ?s) with (String.append "{" s).
    apply ValidString_app; [reflexivity|]. apply ValidString_app; [|reflexivity].
    apply Join_valid; [reflexivity|]. cbn in Hv. apply Is_true_true, forallb_True in Hv.
    apply Forall_fmap. rewrite Forall_forall in *. intros m Hm. specialize (Hv m Hm).
    apply Is_true_true, andb_true_iff in Hv as [Hk Hv]. unfold compose, print_member.
    apply ValidString_app; [by apply quote_valid|]. apply ValidString_app; [reflexivity|]. by apply Hms.
Qed.
