(* ===== verification/GoCrypto.v ===== *)
(** * Base64url decoding and signature verification

    [encoding/base64] (raw URL alphabet, decoding), [math/big]'s [SetBytes], the P-256
    verification of [crypto/ecdsa] and the PKCS #1 v1.5 verification of [crypto/rsa], as
    the DPoP verifier uses them. *)

From S2P Require Import Prelude GoStrings GoHash.

Local Open Scope Z_scope.

(** ** Base64url *)

Definition base64_value (c : ascii) : option Z :=
  if is_upper c then Some (byte_of c - 65)
  else if is_lower c then Some (byte_of c - 71)
  else if is_digit c then Some (byte_of c + 4)
  else if Ascii.eqb c "-" then Some 62
  else if Ascii.eqb c "_" then Some 63
  else None.

(** The six-bit groups; line feeds and carriage returns are skipped. *)
Fixpoint base64_groups (s : string) : option (list Z) :=
  match s with
  | EmptyString => Some []
  | String c s' =>
      if (byte_of c =? 10) || (byte_of c =? 13) then base64_groups s'
      else match base64_value c, base64_groups s' with
           | Some v, Some vs => Some (v :: vs)
           | _, _ => None
           end
  end.

Fixpoint base64_bytes (vs : list Z) : option (list Z) :=
  match vs with
  | [] => Some []
  | [_] => None
  | [a; b] => Some [a * 4 + b / 16]
  | [a; b; c] => Some [a * 4 + b / 16; (b mod 16) * 16 + c / 4]
  | a :: b :: c :: d :: rest =>
      match base64_bytes rest with
      | Some bs => Some (a * 4 + b / 16 :: (b mod 16) * 16 + c / 4 :: (c mod 4) * 64 + d :: bs)
      | None => None
      end
  end.

(** [base64.RawURLEncoding.DecodeString]. *)
Definition base64_RawURL_DecodeString (s : string) : option (list Z) :=
  match base64_groups s with
  | Some vs => base64_bytes vs
  | None => None
  end.

Definition bytes_to_string (l : list Z) : string := String.string_of_list_ascii (map chr l).

Example base64_decode_example :
  option_map bytes_to_string (base64_RawURL_DecodeString "eyJhIjoxfQ") =
  Some (String.append "{" (String.append dquote (String.append "a" (String.append dquote ":1}")))).
Proof. reflexivity. Qed.

(** [new(big.Int).SetBytes]. *)
Definition SetBytes (l : list Z) : Z := fold_left (fun acc b => acc * 256 + b) l 0.

(** [base^e mod m] by squaring. *)
Fixpoint powmod_pos (base : Z) (e : positive) (m : Z) : Z :=
  match e with
  | xH => base mod m
  | xO e' => powmod_pos ((base * base) mod m) e' m
  | xI e' => (base * powmod_pos ((base * base) mod m) e' m) mod m
  end.
Definition powmod (base e m : Z) : Z :=
  match e with
  | Z0 => 1 mod m
  | Zpos p => powmod_pos (base mod m) p m
  | Zneg _ => 0
  end.

(** ** P-256 *)

Module P256.
Definition p : Z := 2 ^ 256 - 2 ^ 224 + 2 ^ 192 + 2 ^ 96 - 1.
Definition n : Z := 115792089210356248762697446949407573529996955224135760342422259061068512044369.
Definition b : Z := 41058363725152142129326129780047268409114441015993725554835256314039467401291.
Definition gx : Z := 48439561293906451759052585252797914202762949526041747995844080717082404635286.
Definition gy : Z := 36134250956749795798585127919587881956611106672985015071877198253568414405109.

(** The inverse modulo a prime, by the extended Euclidean algorithm; the remainders halve
    every two rounds, so 600 rounds are enough for 256 bits. *)
Fixpoint euclid (fuel : nat) (r0 r1 t0 t1 : Z) : Z :=
  match fuel with
  | O => t0
  | S f => if r1 =? 0 then t0 else euclid f r1 (r0 mod r1) t1 (t0 - (r0 / r1) * t1)
  end.
Definition inv (m x : Z) : Z := (euclid 600 m (x mod m) 0 1) mod m.

(** [IsOnCurve], which refuses coordinates out of range and the point [(0, 0)]. *)
Definition IsOnCurve (x y : Z) : bool :=
  if (x =? 0) && (y =? 0) then false
  else (0 <=? x) && (x <? p) && (0 <=? y) && (y <? p) &&
       ((y * y) mod p =? (x * x * x - 3 * x + b) mod p).

(** Affine points, [None] at infinity. *)
Definition point : Type := option (Z * Z).

Definition add (P Q : point) : point :=
  match P, Q with
  | None, _ => Q
  | _, None => P
  | Some (x1, y1), Some (x2, y2) =>
      if x1 =? x2 then
        if (y1 + y2) mod p =? 0 then None
        else
          let l := ((3 * x1 * x1 - 3) * inv p (2 * y1)) mod p in
          let x3 := (l * l - 2 * x1) mod p in
          Some (x3, (l * (x1 - x3) - y1) mod p)
      else
        let l := ((y2 - y1) * inv p (x2 - x1)) mod p in
        let x3 := (l * l - x1 - x2) mod p in
        Some (x3, (l * (x1 - x3) - y1) mod p)
  end.

Fixpoint mul_pos (k : positive) (P : point) : point :=
  match k with
  | xH => P
  | xO k' => mul_pos k' (add P P)
  | xI k' => add P (mul_pos k' (add P P))
  end.
Definition mul (k : Z) (P : point) : point :=
  match k with Zpos k' => mul_pos k' P | _ => None end.

(** [ecdsa.Verify] on a digest of 32 bytes. *)
Definition Verify (x y : Z) (digest : list Z) (r s : Z) : bool :=
  if (r <=? 0) || (s <=? 0) || (n <=? r) || (n <=? s) then false
  else
    let e := SetBytes digest mod n in
    let w := inv n s in
    let u1 := (e * w) mod n in
    let u2 := (r * w) mod n in
    match add (mul u1 (Some (gx, gy))) (mul u2 (Some (x, y))) with
    | None => false
    | Some (x1, _) => (x1 mod n) =? r
    end.
End P256.

(** ** RSA *)

Module RSA.
(** The DER prefix of a SHA-256 digest. *)
Definition sha256_prefix : list Z :=
  [48; 49; 48; 13; 6; 9; 96; 134; 72; 1; 101; 3; 4; 2; 1; 5; 0; 4; 32].

Definition bitlen (z : Z) : Z := if z <=? 0 then 0 else Z.log2 z + 1.

(** The big-endian bytes of a number below [256^k]. *)
Definition FillBytes (k : Z) (z : Z) : list Z :=
  map (fun i => Z.shiftr z (8 * (k - 1 - Z.of_nat i)) mod 256) (seq 0 (Z.to_nat k)).

(** [rsa.VerifyPKCS1v15] for SHA-256: the key checks (an odd modulus of 1024 bits at least,
    an odd exponent), the length of the signature, and the padded digest. *)
Definition VerifyPKCS1v15 (N E : Z) (digest signature : list Z) : bool :=
  let k := (bitlen N + 7) / 8 in
  if (bitlen N <? 1024) || Z.even N || (E <? 2) || Z.even E || (2 ^ 31 - 1 <? E) then false
  else if negb (Z.of_nat (length signature) =? k) then false
  else
    let s := SetBytes signature in
    if N <=? s then false
    else
      let em := FillBytes k (powmod s E N) in
      let tLen := Z.of_nat (length sha256_prefix + length digest) in
      if k <? tLen + 11 then false
      else bool_decide (em = [0; 1] ++ repeat 255 (Z.to_nat (k - tLen - 3)) ++ [0] ++
                             sha256_prefix ++ digest).
End RSA.
