(* ===== verification/GoBase64.v ===== *)
(** * Standard base64

    [base64.StdEncoding], the form in which [encoding/json] writes a byte slice: padded
    quanta of four characters; the decoder skips line breaks and does not look at the
    trailing bits.  Decoding inverts encoding. *)

From S2P Require Import Prelude GoStrings GoGlob GoJSON GoUTF8.

Local Open Scope Z_scope.

Definition std_char (n : Z) : ascii :=
  if n <? 26 then chr (65 + n)
  else if n <? 52 then chr (97 + (n - 26))
  else if n <? 62 then chr (48 + (n - 52))
  else if n =? 62 then "+"%char else "/"%char.

Fixpoint base64_Std_Encode (l : list Z) : string :=
  match l with
  | [] => ""
  | [a] => String (std_char (a / 4)) (String (std_char (a mod 4 * 16)) "==")
  | [a; b] =>
      String (std_char (a / 4)) (String (std_char (a mod 4 * 16 + b / 16))
        (String (std_char (b mod 16 * 4)) "="))
  | a :: b :: c :: l' =>
      String (std_char (a / 4)) (String (std_char (a mod 4 * 16 + b / 16))
        (String (std_char (b mod 16 * 4 + c / 64)) (String (std_char (c mod 64))
          (base64_Std_Encode l'))))
  end.

Definition std_value (c : ascii) : option Z :=
  if is_upper c then Some (byte_of c - 65)
  else if is_lower c then Some (byte_of c - 71)
  else if is_digit c then Some (byte_of c + 4)
  else if Ascii.eqb c "+" then Some 62
  else if Ascii.eqb c "/" then Some 63
  else None.

Definition is_pad (c : ascii) : bool := Ascii.eqb c "=".

Definition line_break (c : ascii) : bool := (byte_of c =? 10) || (byte_of c =? 13).

Fixpoint strip_breaks (s : string) : string :=
  match s with
  | EmptyString => EmptyString
  | String c s' => if line_break c then strip_breaks s' else String c (strip_breaks s')
  end.

(** [decodeQuantum], four characters at a time. *)
Fixpoint std_quanta (s : string) : option (list Z) :=
  match s with
  | EmptyString => Some []
  | String a (String b (String c (String d rest))) =>
      match std_value a, std_value b with
      | Some x, Some y =>
          if is_pad c then
            if is_pad d && String.eqb rest "" then Some [x * 4 + y / 16] else None
          else match std_value c with
          | None => None
          | Some z =>
              if is_pad d then
                if String.eqb rest "" then Some [x * 4 + y / 16; y mod 16 * 16 + z / 4] else None
              else match std_value d, std_quanta rest with
              | Some w, Some bs =>
                  Some (x * 4 + y / 16 :: y mod 16 * 16 + z / 4 :: z mod 4 * 64 + w :: bs)
              | _, _ => None
              end
          end
      | _, _ => None
      end
  | _ => None
  end.

Definition base64_Std_Decode (s : string) : option (list Z) := std_quanta (strip_breaks s).

Definition sextet (n : Z) : Prop := 0 <= n < 64.

Definition std_char_ok (n : Z) : bool :=
  bool_decide (std_value (std_char n) = Some n) && negb (is_pad (std_char n)) &&
  negb (line_break (std_char n)) && (byte_of (std_char n) <? 128).

Lemma std_chars_ok : forallb std_char_ok (map Z.of_nat (seq 0 64)) = true.
Proof. vm_compute. reflexivity. Qed.

(** A character of the alphabet is read back, and is neither padding nor a line break. *)
Lemma std_char_spec (n : Z) :
  sextet n ->
  std_value (std_char n) = Some n /\ is_pad (std_char n) = false /\ line_break (std_char n) = false /\
  byte_of (std_char n) < 128.
Proof.
  unfold sextet. intros Hn. pose proof std_chars_ok as H. rewrite forallb_forall in H.
  specialize (H n). rewrite in_map_iff in H.
  assert (std_char_ok n = true) as Hok.
  { apply H. exists (Z.to_nat n). rewrite in_seq. lia. }
  unfold std_char_ok in Hok. by bool_prop.
Qed.

(** Division of a byte by a power of two. *)
Lemma byte_split (a k : Z) : 0 < k -> a = k * (a / k) + a mod k /\ 0 <= a mod k < k.
Proof. intros Hk. pose proof (Z.div_mod a k). pose proof (Z.mod_pos_bound a k). lia. Qed.

(** Dividing a sextet made of two parts gives the parts back. *)
Lemma sextet_div (h l k : Z) : 0 <= l < k -> (h * k + l) / k = h /\ (h * k + l) mod k = l.
Proof.
  intros H. split.
  - rewrite Z.add_comm, Z.div_add by lia. rewrite Z.div_small; lia.
  - rewrite Z.add_comm, Z_mod_plus_full, Z.mod_small; lia.
Qed.

Lemma std_quanta_encode (l : list Z) :
  Forall is_byte l -> base64_Std_Decode (base64_Std_Encode l) = Some l.
Proof.
  unfold base64_Std_Decode. remember (length l) as n eqn:Hn. revert l Hn.
  induction n as [n IH] using lt_wf_ind. intros l Hn Hl.
  destruct l as [|a l]; [done|]. apply Forall_cons in Hl as [Ha Hl]. unfold is_byte in Ha.
  pose proof (byte_split a 4 ltac:(lia)) as [Ea Ra]. set (ah := a / 4) in *. set (al := a mod 4) in *.
  destruct (std_char_spec ah) as (V1 & P1 & B1 & _); [unfold sextet; lia|].
  destruct l as [|b l].
  { cbn [base64_Std_Encode]. fold ah al.
    destruct (std_char_spec (al * 16)) as (V2 & P2 & B2 & _); [unfold sextet; lia|].
    cbn [strip_breaks]. rewrite B1, B2. change (line_break "=") with false. cbn [std_quanta].
    rewrite V1, V2. cbn [is_pad Ascii.eqb Bool.eqb andb String.eqb].
    pose proof (sextet_div al 0 16 ltac:(lia)) as [D _]. rewrite Z.add_0_r in D. rewrite D.
    do 2 f_equal. lia. }
  apply Forall_cons in Hl as [Hb Hl]. unfold is_byte in Hb.
  pose proof (byte_split b 16 ltac:(lia)) as [Eb Rb]. set (bh := b / 16) in *. set (bl := b mod 16) in *.
  destruct (std_char_spec (al * 16 + bh)) as (V2 & P2 & B2 & _); [unfold sextet; lia|].
  pose proof (sextet_div al bh 16 ltac:(lia)) as [D1 D2].
  destruct l as [|c l].
  { cbn [base64_Std_Encode]. fold ah al bh bl.
    destruct (std_char_spec (bl * 4)) as (V3 & P3 & B3 & _); [unfold sextet; lia|].
    cbn [strip_breaks]. rewrite B1, B2, B3. change (line_break "=") with false. cbn [std_quanta].
    rewrite V1, V2, P3, V3, D1, D2. cbn [is_pad Ascii.eqb Bool.eqb andb String.eqb].
    pose proof (sextet_div bl 0 4 ltac:(lia)) as [D _]. rewrite Z.add_0_r in D. rewrite D.
    do 2 f_equal; [lia|]. f_equal. lia. }
  apply Forall_cons in Hl as [Hc Hl]. unfold is_byte in Hc.
  pose proof (byte_split c 64 ltac:(lia)) as [Ec Rc].
  destruct (std_char_spec (bl * 4 + c / 64)) as (V3 & P3 & B3 & _); [unfold sextet; lia|].
  destruct (std_char_spec (c mod 64)) as (V4 & P4 & B4 & _); [unfold sextet; lia|].
  pose proof (sextet_div bl (c / 64) 4 ltac:(lia)) as [D3 D4].
  specialize (IH (length l) ltac:(subst n; cbn; lia) l eq_refl Hl).
  cbn [base64_Std_Encode]. fold ah al bh bl. cbn [strip_breaks]. rewrite B1, B2, B3, B4.
  cbn [std_quanta]. rewrite V1, V2, P3, V3, P4, V4, IH, D1, D2, D3, D4. do 2 f_equal; [lia|].
  f_equal; [lia|]. f_equal. lia.
Qed.

Lemma std_encode_ascii (l : list Z) :
  Forall is_byte l -> string_forallb (fun c => byte_of c <? 128) (base64_Std_Encode l) = true.
Proof.
  assert (forall n, sextet n -> (byte_of (std_char n) <? 128) = true) as Hc.
  { intros n Hn. apply Z.ltb_lt. by apply std_char_spec. }
  unfold sextet in Hc. remember (length l) as n eqn:Hn. revert l Hn.
  induction n as [n IH] using lt_wf_ind. intros l Hn Hl.
  destruct l as [|a l]; [done|]. apply Forall_cons in Hl as [Ha Hl]. unfold is_byte in Ha.
  pose proof (byte_split a 4 ltac:(lia)) as [Ea Ra].
  destruct l as [|b l]; [cbn [base64_Std_Encode string_forallb]; rewrite !Hc by lia; done|].
  apply Forall_cons in Hl as [Hb Hl]. unfold is_byte in Hb. pose proof (byte_split b 16 ltac:(lia)) as [Eb Rb].
  destruct l as [|c l]; [cbn [base64_Std_Encode string_forallb]; rewrite !Hc by lia; done|].
  apply Forall_cons in Hl as [Hc0 Hl]. unfold is_byte in Hc0. pose proof (byte_split c 64 ltac:(lia)) as [Ec Rc].
  cbn [base64_Std_Encode string_forallb]. rewrite !Hc by lia.
  by rewrite (IH (length l) ltac:(subst n; cbn; lia) l eq_refl Hl).
Qed.
