(* ===== verification/AuthzTypes.v ===== *)
(** * Authorization requests and decisions

    The data of [internal/authz/types.go], the validators of [validation.go], the
    method table of [builder.go] and the audit hashes of [audit.go].  Access modes,
    decision values and reason codes are strings in the code, with a validator each;
    they are strings here as well, so that an invalid value can be written. *)

From S2P Require Import Prelude GoStrings GoURL GoHash.

Local Open Scope Z_scope.

(** ** Data *)

Definition SchemaVersion : string := "authz.v1".

Definition AccessModeRead : string := "read".
Definition AccessModeAppend : string := "append".
Definition AccessModeWrite : string := "write".
Definition AccessModeControl : string := "control".

Definition DecisionAllow : string := "allow".
Definition DecisionDeny : string := "deny".
Definition DecisionAbstain : string := "abstain".

Definition ReasonKernelAbstainShadowMode : string := "kernel_abstain_shadow_mode".
Definition ReasonInvalidRequest : string := "invalid_request".
Definition ReasonUnsupportedSchema : string := "unsupported_schema_version".
Definition ReasonMissingRequestedModes : string := "missing_requested_modes".
Definition ReasonUnsafeResourceURI : string := "unsafe_resource_uri".
Definition ReasonPolicyNotLoaded : string := "policy_not_loaded".
Definition ReasonPolicyAllow : string := "policy_allow".
Definition ReasonPolicyDeny : string := "policy_deny".
Definition ReasonKernelError : string := "kernel_error".
Definition ReasonCachedDecision : string := "cached_decision".

Record PolicyDocument := mkPolicyDocument {
  pd_URI : string;
  pd_SHA256 : string;
  pd_ContentType : string;
  pd_Content : string
}.

Record Request := mkRequest {
  rq_SchemaVersion : string;
  rq_RequestID : string;
  rq_Method : string;
  rq_ResourceURI : string;
  rq_AgentWebID : string;
  rq_ClientID : string;
  rq_Issuer : string;
  rq_Origin : string;
  rq_RequestedModes : list string;
  rq_ResourceVersion : string;
  rq_PolicyVersion : string;
  rq_ParserVersion : string;
  rq_EvaluatorVersion : string;
  rq_ResourceMetadata : gmap string string;
  rq_PolicyDocuments : list PolicyDocument;
  rq_NowUnix : Z
}.

Record AuditFields := mkAudit {
  au_RequestHash : string;
  au_PolicyHash : string
}.

Record Decision := mkDecision {
  dc_SchemaVersion : string;
  dc_RequestID : string;
  dc_Decision : string;
  dc_ReasonCode : string;
  dc_StatusHint : Z;
  dc_CacheTTLSeconds : Z;
  dc_PolicyVersion : string;
  dc_ResourceVersion : string;
  dc_Audit : AuditFields;
  dc_TraceID : string;
  dc_AuthorityMode : string;
  dc_EnforcementMode : string;
  dc_StrictMode : bool;
  dc_FallbackToCSS : bool
}.

(** [Decision{}], which the code returns beside an error. *)
Definition zeroDecision : Decision := 
  mkDecision "" "" "" "" 0 0 "" "" (mkAudit "" "") "" "" "" false false.

(** [errors.New] values with their detail. *)
Inductive authz_error :=
| ErrInvalidRequest (detail : string)
| ErrInvalidDecision (detail : string).

(** ** Access modes *)

(** [ModesMatch]: the granted set is built first, then every requested mode looked up. *)
Definition ModesMatch (granted requested : list string) : bool :=
  match requested with
  | [] => true
  | _ => let grantedSet : gset string := list_to_set granted in
         forallb (fun m => bool_decide (m ∈ grantedSet)) requested
  end.

Definition validAccessMode (mode : string) : bool :=
  String.eqb mode AccessModeRead || String.eqb mode AccessModeAppend ||
  String.eqb mode AccessModeWrite || String.eqb mode AccessModeControl.

Definition validDecisionValue (value : string) : bool :=
  String.eqb value DecisionAllow || String.eqb value DecisionDeny ||
  String.eqb value DecisionAbstain.

Definition validReasonCode (value : string) : bool :=
  existsb (String.eqb value)
    [ReasonKernelAbstainShadowMode; ReasonInvalidRequest; ReasonUnsupportedSchema;
     ReasonMissingRequestedModes; ReasonUnsafeResourceURI; ReasonPolicyNotLoaded;
     ReasonPolicyAllow; ReasonPolicyDeny; ReasonKernelError].

(** [modesForMethod] of builder.go; [None] is the "unsupported authz method" error. *)
Definition modesForMethod (method : string) : option (list string) :=
  if existsb (String.eqb method) ["GET"; "HEAD"; "OPTIONS"] then Some [AccessModeRead]
  else if String.eqb method "POST" then Some [AccessModeAppend]
  else if existsb (String.eqb method) ["PUT"; "PATCH"] then Some [AccessModeWrite]
  else if String.eqb method "DELETE" then Some [AccessModeWrite]
  else None.

Definition supportedMethod (method : string) : bool :=
  match modesForMethod method with Some _ => true | None => false end.

(** ** Validators *)

Definition is_control (c : ascii) : bool := (byte_of c <? 32) || (byte_of c =? 127).
Definition containsControlRune (value : string) : bool := string_existsb is_control value.

Definition validResourceURI (value : string) : bool :=
  if String.eqb value "" || (4096 <? len value) then false
  else if ContainsAny value "\#" then false
  else if string_existsb is_control value then false
  else http_with_host value.

Definition validToken (value : string) (maxLen : Z) : bool :=
  if String.eqb value "" || (maxLen <? len value) then false
  else string_forallb (fun c => (33 <=? byte_of c) && (byte_of c <=? 126)) value.

Definition validSHA256Hex (value : string) : bool :=
  if negb (len value =? 64) then false else string_forallb is_hex value.

Definition validatePolicyDocument (d : PolicyDocument) : result authz_error unit :=
  fail! ErrInvalidRequest "invalid policy document uri"
    when negb (validResourceURI (pd_URI d)) in
  fail! ErrInvalidRequest "invalid policy document hash"
    when negb (validSHA256Hex (pd_SHA256 d)) in
  fail! ErrInvalidRequest "policy document content type is required"
    when String.eqb (TrimSpace (pd_ContentType d)) "" in
  Ok tt.

(** The loop over the requested modes, with the set of the modes seen so far. *)
Fixpoint validateModes (seen : gset string) (modes : list string) : result authz_error unit :=
  match modes with
  | [] => Ok tt
  | mode :: rest =>
      fail! ErrInvalidRequest "invalid requested mode" when negb (validAccessMode mode) in
      fail! ErrInvalidRequest "duplicate requested mode" when bool_decide (mode ∈ seen) in
      validateModes ({[mode]} ∪ seen) rest
  end.

Fixpoint validatePolicyDocuments (docs : list PolicyDocument) : result authz_error unit :=
  match docs with
  | [] => Ok tt
  | d :: rest => let! _ := validatePolicyDocument d in validatePolicyDocuments rest
  end.

Definition ValidateRequest (r : Request) : result authz_error unit :=
  fail! ErrInvalidRequest "unsupported schema version"
    when negb (String.eqb (rq_SchemaVersion r) SchemaVersion) in
  fail! ErrInvalidRequest "invalid request id"
    when negb (validToken (rq_RequestID r) 128) in
  fail! ErrInvalidRequest "unsupported method"
    when negb (supportedMethod (rq_Method r)) in
  fail! ErrInvalidRequest "invalid resource uri"
    when negb (validResourceURI (rq_ResourceURI r)) in
  fail! ErrInvalidRequest "requested modes are required"
    when bool_decide (rq_RequestedModes r = []) in
  let! _ := validateModes ∅ (rq_RequestedModes r) in
  fail! ErrInvalidRequest "now_unix must be non-negative" when rq_NowUnix r <? 0 in
  validatePolicyDocuments (rq_PolicyDocuments r).

Definition ValidateDecision (d : Decision) : result authz_error unit :=
  fail! ErrInvalidDecision "unsupported schema version"
    when negb (String.eqb (dc_SchemaVersion d) SchemaVersion) in
  fail! ErrInvalidDecision "invalid request id"
    when negb (validToken (dc_RequestID d) 128) in
  fail! ErrInvalidDecision "invalid decision"
    when negb (validDecisionValue (dc_Decision d)) in
  fail! ErrInvalidDecision "invalid reason code"
    when negb (validReasonCode (dc_ReasonCode d)) in
  fail! ErrInvalidDecision "invalid status hint"
    when negb (dc_StatusHint d =? 0) && ((dc_StatusHint d <? 100) || (599 <? dc_StatusHint d)) in
  fail! ErrInvalidDecision "invalid cache ttl"
    when (dc_CacheTTLSeconds d <? 0) || (300 <? dc_CacheTTLSeconds d) in
  fail! ErrInvalidDecision "invalid request hash"
    when negb (validSHA256Hex (au_RequestHash (dc_Audit d))) in
  fail! ErrInvalidDecision "invalid policy hash"
    when negb (validSHA256Hex (au_PolicyHash (dc_Audit d))) in
  Ok tt.

(** ** Audit hashes *)

(** [sort.Slice] by insertion, as the library sorts short slices: an element moves left
    over its predecessors as long as it is less. *)
Fixpoint insert_by {A} (less : A -> A -> bool) (x : A) (l : list A) : list A :=
  match l with
  | [] => [x]
  | y :: l' => if less x y then x :: y :: l' else y :: insert_by less x l'
  end.
Definition sort_by {A} (less : A -> A -> bool) (l : list A) : list A :=
  foldl (fun acc x => insert_by less x acc) [] l.

Definition field_sep : string := String (chr 31) "".
Definition record_sep : string := String (chr 30) "".

Definition pushField (name value : string) : string :=
  String.append name (String.append field_sep (String.append value record_sep)).

Definition pushOptionalField (name value : string) : string :=
  if String.eqb value "" then "" else pushField name value.

Definition accessModeRank (mode : string) : Z :=
  if String.eqb mode AccessModeRead then 0
  else if String.eqb mode AccessModeAppend then 1
  else if String.eqb mode AccessModeWrite then 2
  else if String.eqb mode AccessModeControl then 3
  else 99.

Definition concat_str (l : list string) : string := foldr String.append "" l.

Definition pushModes (modes : list string) : string :=
  let sorted := sort_by (fun a b => accessModeRank a <? accessModeRank b) modes in
  concat_str (map (fun m => pushField "requested_mode" m) sorted).

Definition canonicalRequest (r : Request) : string :=
  let metadataKeys := sort_by String.ltb (map_to_list (rq_ResourceMetadata r)).*1 in
  concat_str
    ([pushField "schema_version" (rq_SchemaVersion r);
      pushField "request_id" (rq_RequestID r);
      pushField "method" (rq_Method r);
      pushField "resource_uri" (rq_ResourceURI r);
      pushOptionalField "agent_webid" (rq_AgentWebID r);
      pushOptionalField "client_id" (rq_ClientID r);
      pushOptionalField "issuer" (rq_Issuer r);
      pushOptionalField "origin" (rq_Origin r);
      pushModes (rq_RequestedModes r);
      pushOptionalField "resource_version" (rq_ResourceVersion r);
      pushOptionalField "policy_version" (rq_PolicyVersion r)] ++
     map (fun key =>
            String.append (pushField "resource_metadata_key" key)
              (pushField "resource_metadata_value"
                 (default "" (rq_ResourceMetadata r !! key)))) metadataKeys ++
     [pushField "now_unix" (FormatInt (rq_NowUnix r))]).

(** The comparison of [canonicalPolicyDocuments]: by URI, then hash, then content type. *)
Definition policyDocumentLess (l r : PolicyDocument) : bool :=
  if negb (String.eqb (pd_URI l) (pd_URI r)) then String.ltb (pd_URI l) (pd_URI r)
  else if negb (String.eqb (pd_SHA256 l) (pd_SHA256 r))
       then String.ltb (pd_SHA256 l) (pd_SHA256 r)
  else String.ltb (pd_ContentType l) (pd_ContentType r).

Definition pushPolicyDocument (d : PolicyDocument) : string :=
  String.append (pushField "policy_uri" (pd_URI d))
    (String.append (pushField "policy_sha256" (pd_SHA256 d))
       (pushField "policy_content_type" (pd_ContentType d))).

Definition canonicalPolicyDocuments (docs : list PolicyDocument) : string :=
  concat_str (map pushPolicyDocument (sort_by policyDocumentLess docs)).

Definition AuditForRequest (r : Request) : AuditFields :=
  mkAudit (sha256Hex (canonicalRequest r))
          (sha256Hex (canonicalPolicyDocuments (rq_PolicyDocuments r))).

(** ** Facts about the validators *)

Lemma ModesMatch_spec (granted requested : list string) :
  ModesMatch granted requested = true <-> (forall m, m ∈ requested -> m ∈ granted).
Proof.
  unfold ModesMatch. destruct requested as [|m0 ms]; [set_solver|].
  rewrite forallb_forall. setoid_rewrite bool_decide_eq_true.
  setoid_rewrite elem_of_list_to_set. setoid_rewrite <- list_elem_of_In. done.
Qed.

Lemma validateModes_spec (modes : list string) (seen : gset string) :
  validateModes seen modes = Ok tt <->
  Forall (fun m => validAccessMode m = true /\ m ∉ seen) modes /\ NoDup modes.
Proof.
  revert seen. induction modes as [|m ms IH]; intros seen; cbn [validateModes].
  { split; [|done]. by split; constructor. }
  rewrite Forall_cons, NoDup_cons.
  destruct (validAccessMode m) eqn:Hv; cbn [negb]; [|naive_solver].
  destruct (bool_decide (m ∈ seen)) eqn:Hs; [apply bool_decide_eq_true in Hs|
    apply bool_decide_eq_false in Hs]; [naive_solver|].
  rewrite IH. rewrite !Forall_forall. set_solver.
Qed.

Lemma validSHA256Hex_sha256Hex (s : string) : validSHA256Hex (sha256Hex s) = true.
Proof. unfold validSHA256Hex. rewrite sha256Hex_length. apply sha256Hex_is_hex. Qed.

Lemma AuditForRequest_valid (r : Request) :
  validSHA256Hex (au_RequestHash (AuditForRequest r)) = true /\
  validSHA256Hex (au_PolicyHash (AuditForRequest r)) = true.
Proof. split; apply validSHA256Hex_sha256Hex. Qed.

#[export] Hint Resolve validSHA256Hex_sha256Hex : sidecar.

(** What [ValidateRequest] accepts, spelled out. *)
Lemma ValidateRequest_Ok (r : Request) :
  ValidateRequest r = Ok tt ->
  rq_SchemaVersion r = SchemaVersion /\
  validToken (rq_RequestID r) 128 = true /\
  supportedMethod (rq_Method r) = true /\
  validResourceURI (rq_ResourceURI r) = true /\
  rq_RequestedModes r <> [] /\
  Forall (fun m => validAccessMode m = true) (rq_RequestedModes r) /\
  NoDup (rq_RequestedModes r) /\
  0 <= rq_NowUnix r.
Proof.
  unfold ValidateRequest. intros H. repeat break_if; try discriminate H.
  all: destruct (validateModes _ _) as [[]|] eqn:Hm; try discriminate H.
  apply validateModes_spec in Hm as [Hm Hnd].
  bool_prop. split_and!; try done.
  eapply Forall_impl; [exact Hm|]. by intros m [? _].
Qed.

(** ** Sorting *)

Section sorting.
Context {A : Type} (less : A -> A -> bool).

Lemma insert_by_perm (x : A) (l : list A) : insert_by less x l ≡ₚ x :: l.
Proof.
  induction l as [|y l IH]; [done|]. cbn. break_if; [done|].
  rewrite IH. apply Permutation_swap.
Qed.

Lemma sort_by_perm_acc (l acc : list A) :
  foldl (fun acc x => insert_by less x acc) acc l ≡ₚ acc ++ l.
Proof.
  revert acc. induction l as [|x l IH]; intros acc; cbn; [by rewrite app_nil_r|].
  rewrite IH, insert_by_perm. apply Permutation_middle.
Qed.

Lemma sort_by_perm (l : list A) : sort_by less l ≡ₚ l.
Proof. unfold sort_by. by rewrite sort_by_perm_acc. Qed.

Definition not_less (a b : A) : Prop := less b a = false.

Context (Htotal : forall a b, less a b = true -> not_less a b).
Context (Htrans : forall a b c, not_less a b -> not_less b c -> not_less a c).

Lemma insert_by_sorted (x : A) (l : list A) :
  StronglySorted not_less l -> StronglySorted not_less (insert_by less x l).
Proof.
  induction 1 as [|y l Hl IH Hy]; cbn; [repeat constructor|].
  break_if.
  - apply Htotal in Hb. constructor; [by constructor|].
    constructor; [done|]. eapply Forall_impl; [exact Hy|]. eauto.
  - constructor; [done|]. rewrite insert_by_perm. by constructor.
Qed.

Lemma sort_by_sorted (l : list A) : StronglySorted not_less (sort_by less l).
Proof.
  unfold sort_by.
  assert (forall acc, StronglySorted not_less acc ->
    StronglySorted not_less (foldl (fun acc x => insert_by less x acc) acc l)) as Hg.
  { induction l as [|x l IH]; intros acc Hacc; cbn; auto using insert_by_sorted. }
  apply Hg. constructor.
Qed.

(** Sorting forgets the order of its input when the order is antisymmetric. *)
Lemma sort_by_unique (Hanti : forall a b, not_less a b -> not_less b a -> a = b)
  (l1 l2 : list A) : l1 ≡ₚ l2 -> sort_by less l1 = sort_by less l2.
Proof.
  intros Hp. assert (AntiSymm (=) not_less) by (intros ??; auto).
  apply (StronglySorted_unique not_less); auto using sort_by_sorted.
  by rewrite !sort_by_perm.
Qed.
End sorting.

Lemma insert_by_map {A B} (f : A -> B) (less : B -> B -> bool) (x : A) (l : list A) :
  map f (insert_by (fun a b => less (f a) (f b)) x l) = insert_by less (f x) (map f l).
Proof. induction l as [|y l IH]; [done|]. cbn. break_if; cbn; by rewrite ?IH. Qed.

Lemma sort_by_map {A B} (f : A -> B) (less : B -> B -> bool) (l : list A) :
  map f (sort_by (fun a b => less (f a) (f b)) l) = sort_by less (map f l).
Proof.
  unfold sort_by.
  enough (forall acc, map f (foldl (fun acc x =>
     insert_by (fun a b => less (f a) (f b)) x acc) acc l) =
     foldl (fun acc x => insert_by less x acc) (map f acc) (map f l)) as Hg by apply (Hg []).
  induction l as [|x l IH]; intros acc; cbn; [done|]. by rewrite IH, insert_by_map.
Qed.

(** The byte order on strings. *)
Lemma ltb_false_leb (a b : string) : String.ltb b a = false <-> String.leb a b = true.
Proof.
  unfold String.ltb, String.leb. rewrite (String.compare_antisym a b).
  destruct (String.compare b a); cbn; by split.
Qed.

Lemma str_leb_trans (a b c : string) :
  String.leb a b = true -> String.leb b c = true -> String.leb a c = true.
Proof.
  intros H1 H2. apply Is_true_true_1. apply (transitivity (R := String.le) (x := a) (y := b) (z := c)); unfold String.le; by apply Is_true_true_2.
Qed.

Lemma str_ltb_asym (a b : string) : String.ltb a b = true -> String.ltb b a = false.
Proof.
  unfold String.ltb. rewrite (String.compare_antisym a b). by destruct (String.compare b a).
Qed.

Lemma str_leb_refl (a : string) : String.leb a a = true.
Proof. apply Is_true_true_1. exact (reflexivity (R := String.le) a). Qed.

(** The key a policy document is sorted by, and written with. *)
Definition docKey (d : PolicyDocument) : string * string * string :=
  (pd_URI d, pd_SHA256 d, pd_ContentType d).
Definition keyLess (a b : string * string * string) : bool :=
  let '(a1, a2, a3) := a in let '(b1, b2, b3) := b in
  if negb (String.eqb a1 b1) then String.ltb a1 b1
  else if negb (String.eqb a2 b2) then String.ltb a2 b2
  else String.ltb a3 b3.

Lemma policyDocumentLess_key (l r : PolicyDocument) :
  policyDocumentLess l r = keyLess (docKey l) (docKey r).
Proof. done. Qed.

Lemma keyLess_total (a b : string * string * string) :
  keyLess a b = true -> not_less keyLess a b.
Proof.
  destruct a as [[a1 a2] a3], b as [[b1 b2] b3]. unfold not_less, keyLess.
  rewrite (String.eqb_sym b1 a1), (String.eqb_sym b2 a2). repeat break_if; apply str_ltb_asym.
Qed.

(** The order as a lexicographic comparison. *)
Lemma not_less_key (a1 a2 a3 b1 b2 b3 : string) :
  not_less keyLess (a1, a2, a3) (b1, b2, b3) <->
  (a1 <> b1 /\ String.leb a1 b1 = true) \/
  (a1 = b1 /\ ((a2 <> b2 /\ String.leb a2 b2 = true) \/
              (a2 = b2 /\ String.leb a3 b3 = true))).
Proof.
  unfold not_less, keyLess. rewrite (String.eqb_sym b1 a1), (String.eqb_sym b2 a2).
  destruct (String.eqb_spec a1 b1), (String.eqb_spec a2 b2); cbn [negb];
    rewrite ltb_false_leb; tauto.
Qed.

Lemma leb_strict_trans (a b c : string) :
  a <> b /\ String.leb a b = true -> String.leb b c = true ->
  a <> c /\ String.leb a c = true.
Proof.
  intros [Hne Hab] Hbc. split; [|by eapply str_leb_trans].
  intros ->. by apply Hne, String.leb_antisym.
Qed.

Lemma keyLess_trans (a b c : string * string * string) :
  not_less keyLess a b -> not_less keyLess b c -> not_less keyLess a c.
Proof.
  destruct a as [[a1 a2] a3], b as [[b1 b2] b3], c as [[c1 c2] c3].
  rewrite !not_less_key.
  intros [H1|[-> H1]] [H2|[-> H2]]; auto.
  - left. destruct H2. by eapply leb_strict_trans.
  - right. split; [done|].
    destruct H1 as [H1|[-> H1]], H2 as [H2|[-> H2]]; auto.
    + left. destruct H2. by eapply leb_strict_trans.
    + right. split; [done|]. by eapply str_leb_trans.
Qed.

Lemma keyLess_antisym (a b : string * string * string) :
  not_less keyLess a b -> not_less keyLess b a -> a = b.
Proof.
  destruct a as [[a1 a2] a3], b as [[b1 b2] b3]. rewrite !not_less_key.
  pose proof (fun x y => String.leb_antisym x y) as Hanti.
  intros [[H1 H2]|[-> H1]] [[H3 H4]|[? H3]]; try congruence; [by destruct H1; auto|].
  destruct H1 as [[H1 H2]|[-> H1]], H3 as [[H3 H4]|[? H3]]; try congruence.
  - by destruct H1; auto.
  - f_equal. auto.
Qed.

Lemma canonicalPolicyDocuments_keys (docs : list PolicyDocument) :
  canonicalPolicyDocuments docs =
  concat_str (map (fun k => pushPolicyDocument
                      (mkPolicyDocument k.1.1 k.1.2 k.2 "")) (sort_by keyLess (map docKey docs))).
Proof.
  unfold canonicalPolicyDocuments.
  rewrite <- (sort_by_map docKey keyLess), map_map. done.
Qed.

(** The policy hash does not depend on the order the documents were loaded in. *)
Lemma canonicalPolicyDocuments_perm (d1 d2 : list PolicyDocument) :
  d1 ≡ₚ d2 -> canonicalPolicyDocuments d1 = canonicalPolicyDocuments d2.
Proof.
  intros Hp. rewrite !canonicalPolicyDocuments_keys.
  rewrite (sort_by_unique keyLess keyLess_total keyLess_trans keyLess_antisym
             (map docKey d1) (map docKey d2)); [done|].
  by apply Permutation_map.
Qed.

(** A valid mode is determined by its rank. *)
Definition modeOfRank (r : Z) : string :=
  if r =? 0 then AccessModeRead else if r =? 1 then AccessModeAppend
  else if r =? 2 then AccessModeWrite else AccessModeControl.

Lemma modeOfRank_rank (m : string) :
  validAccessMode m = true -> modeOfRank (accessModeRank m) = m.
Proof.
  unfold validAccessMode. intros H. repeat apply orb_true_iff in H as [H|H];
    apply String.eqb_eq in H as ->; reflexivity.
Qed.

Lemma pushModes_ranks (modes : list string) :
  Forall (fun m => validAccessMode m = true) modes ->
  pushModes modes = concat_str (map (fun r => pushField "requested_mode" (modeOfRank r))
                                  (sort_by Z.ltb (map accessModeRank modes))).
Proof.
  intros Hv. unfold pushModes. rewrite <- (sort_by_map accessModeRank Z.ltb), map_map.
  f_equal. apply map_ext_in. intros m Hm. f_equal. symmetry. apply modeOfRank_rank.
  rewrite Forall_forall in Hv. apply Hv. rewrite <- (sort_by_perm (fun a b => accessModeRank a <? accessModeRank b) modes).
  by apply list_elem_of_In.
Qed.

Lemma pushModes_perm (m1 m2 : list string) :
  m1 ≡ₚ m2 -> Forall (fun m => validAccessMode m = true) m1 -> pushModes m1 = pushModes m2.
Proof.
  intros Hp H1. assert (Forall (fun m => validAccessMode m = true) m2) as H2 by (by rewrite <- Hp).
  rewrite !pushModes_ranks by done.
  rewrite (sort_by_unique Z.ltb) with (l2 := map accessModeRank m2); [done|..];
    unfold not_less; intros; bool_prop; try (apply Z.ltb_ge); try lia.
  by apply Permutation_map.
Qed.

(** ** Properties *)

Definition with_lists (r : Request) (modes : list string) (docs : list PolicyDocument) : Request :=
  mkRequest (rq_SchemaVersion r) (rq_RequestID r) (rq_Method r) (rq_ResourceURI r)
    (rq_AgentWebID r) (rq_ClientID r) (rq_Issuer r) (rq_Origin r) modes (rq_ResourceVersion r)
    (rq_PolicyVersion r) (rq_ParserVersion r) (rq_EvaluatorVersion r) (rq_ResourceMetadata r)
    docs (rq_NowUnix r).

(** The audit fields of a valid request do not depend on the order in which its
    policy documents were loaded or its access modes were listed. *)
Theorem audit_order_independent (r : Request) (modes : list string) (docs : list PolicyDocument) :
  ValidateRequest r = Ok tt ->
  rq_RequestedModes r ≡ₚ modes -> rq_PolicyDocuments r ≡ₚ docs ->
  AuditForRequest (with_lists r modes docs) = AuditForRequest r.
Proof.
  intros Hv Hm Hd. apply ValidateRequest_Ok in Hv as (_ & _ & _ & _ & _ & Hmodes & _).
  unfold AuditForRequest, canonicalRequest, with_lists.
  cbn [rq_SchemaVersion rq_RequestID rq_Method rq_ResourceURI rq_AgentWebID rq_ClientID rq_Issuer
    rq_Origin rq_RequestedModes rq_ResourceVersion rq_PolicyVersion rq_ResourceMetadata
    rq_PolicyDocuments rq_NowUnix].
  by rewrite (pushModes_perm _ _ Hm Hmodes), (canonicalPolicyDocuments_perm _ _ Hd).
Qed.

Definition auditSample (modes : list string) (docs : list PolicyDocument) : Request :=
  mkRequest SchemaVersion "req-1" "PUT" "https://pod.example/notes/1" "" "" "" ""
    modes "" "" "" "" ∅ docs 1700000000.

Lemma audit_order_independent_witness :
  let hash := "0123456789abcdef0123456789abcdef0123456789abcdef0123456789abcdef" in
  let d1 := mkPolicyDocument "https://pod.example/a.acl" hash "text/turtle" "" in
  let d2 := mkPolicyDocument "https://pod.example/b.acl" hash "text/turtle" "" in
  let r := auditSample [AccessModeRead; AccessModeWrite] [d1; d2] in
  AuditForRequest (with_lists r [AccessModeWrite; AccessModeRead] [d2; d1]) = AuditForRequest r.
Proof.
  intros hash d1 d2 r. apply audit_order_independent.
  - vm_compute. reflexivity.
  - apply Permutation_swap.
  - apply Permutation_swap.
Defined.
