(* ===== verification/AuthzCodec.v ===== *)
(** * The wire format of requests and decisions

    [internal/authz/codec.go]: [EncodeRequest], [DecodeRequest], [EncodeDecision] and
    [DecodeDecision], over [encoding/json] with the struct tags of [types.go].  The decoder
    disallows unknown fields; it decodes an array over the elements that are already in the
    slice, so a target carries the backing array beside the value. *)

From S2P Require Import Prelude GoStrings GoURL GoHash GoGlob GoJSON GoUTF8 JSONPrint GoBase64 AuthzTypes.

Local Open Scope Z_scope.

Inductive codec_error :=
| ErrValidation (e : authz_error)
| ErrDecode (what : string)
| ErrTrailingData (what : string).

(** ** Struct decoding with [DisallowUnknownFields] *)

(** A struct's fields by their JSON names, each with its setter. *)
Definition known_fields {T} (fields : list (string * (JValue -> T -> option T)))
    (key : string) (v : JValue) (raw : string) (t : T) : option T :=
  match List.find (fun f => names_field f.1 key) fields with
  | Some f => f.2 v t
  | None => None
  end.

(** Decoding an array: the element [i] is decoded over the [i]-th element of the backing
    array.  [null] and an empty array make a new slice. *)
Fixpoint set_elements {T} (elem : JValue -> T -> option T) (zero : T) (vs : list JValue)
    (backing : list T) : option (list T * list T) :=
  match vs with
  | [] => Some ([], backing)
  | v :: vs' =>
      match elem v (default zero (head backing)), set_elements elem zero vs' (tail backing) with
      | Some x, Some (xs, bs) => Some (x :: xs, x :: bs)
      | _, _ => None
      end
  end.

(** The new slice, and its backing array. *)
Definition set_slice {T} (elem : JValue -> T -> option T) (zero : T) (v : JValue) (backing : list T)
  : option (list T * list T) :=
  match v with
  | JNull | JArray [] => Some ([], [])
  | JArray vs => set_elements elem zero vs backing
  | _ => None
  end.

(** A [map[string]string]: members are added to the map there is, [null] makes it nil. *)
Fixpoint set_entries (ms : list (string * JValue * string)) (m : gmap string string)
  : option (gmap string string) :=
  match ms with
  | [] => Some m
  | (k, v, _) :: ms' =>
      match set_string v "" with
      | Some s => set_entries ms' (<[k := s]> m)
      | None => None
      end
  end.

Definition set_map (v : JValue) (m : gmap string string) : option (gmap string string) :=
  match v with
  | JNull => Some ∅
  | JObject ms => set_entries ms m
  | _ => None
  end.

(** A [[]byte]: the base64 text of its bytes. *)
Definition set_bytes (v : JValue) (old : string) : option string :=
  match v with
  | JNull => Some ""
  | JString s => option_map bytes (base64_Std_Decode s)
  | _ => None
  end.

Definition set_bool (v : JValue) (old : bool) : option bool :=
  match v with
  | JBool b => Some b
  | JNull => Some old
  | _ => None
  end.

(** [json.NewDecoder(...).Decode] into a struct and [ensureEOF]: one value, and after it
    nothing but white space. *)
Definition decode_document {T} (what : string) (set : string -> JValue -> string -> T -> option T)
    (init : T) (input : string) : result codec_error T :=
  match parse_value (S (String.length input)) max_depth (skip_space input) with
  | None => Err (ErrDecode what)
  | Some (v, rest) =>
      match set_struct set v init with
      | None => Err (ErrDecode what)
      | Some t => if String.eqb (skip_space rest) "" then Ok t else Err (ErrTrailingData what)
      end
  end.

(** ** Encoding *)

(** A member with [omitempty]. *)
Definition optional_str (name value : string) : list (string * json) :=
  if String.eqb value "" then [] else [(name, TStr value)].
Definition optional_bool (name : string) (b : bool) : list (string * json) :=
  if b then [(name, TBool true)] else [].

Definition document_json (d : PolicyDocument) : json :=
  TObj ([("uri", TStr (pd_URI d)); ("sha256", TStr (pd_SHA256 d)); ("content_type", TStr (pd_ContentType d))]
    ++ (if String.eqb (pd_Content d) "" then []
        else [("content", TStr (base64_Std_Encode (string_bytes (pd_Content d))))])).

(** The members of a map, in the order of the keys. *)
Definition map_json (m : gmap string string) : json :=
  TObj (map (fun k => (k, TStr (default "" (m !! k)))) (sort_by String.ltb (map_to_list m).*1)).

Definition request_members (r : Request) : list (string * json) :=
  ([("schema_version", TStr (rq_SchemaVersion r)); ("request_id", TStr (rq_RequestID r));
         ("method", TStr (rq_Method r)); ("resource_uri", TStr (rq_ResourceURI r))]
    ++ optional_str "agent_webid" (rq_AgentWebID r) ++ optional_str "client_id" (rq_ClientID r)
    ++ optional_str "issuer" (rq_Issuer r) ++ optional_str "origin" (rq_Origin r)
    ++ [("requested_modes", TArr (map TStr (rq_RequestedModes r)))]
    ++ optional_str "resource_version" (rq_ResourceVersion r)
    ++ optional_str "policy_version" (rq_PolicyVersion r)
    ++ optional_str "parser_version" (rq_ParserVersion r)
    ++ optional_str "evaluator_version" (rq_EvaluatorVersion r)
    ++ (if bool_decide (rq_ResourceMetadata r = ∅) then []
        else [("resource_metadata", map_json (rq_ResourceMetadata r))])
    ++ (if bool_decide (rq_PolicyDocuments r = []) then []
        else [("policy_documents", TArr (map document_json (rq_PolicyDocuments r)))])
    ++ [("now_unix", TInt (rq_NowUnix r))]).

Definition request_json (r : Request) : json := TObj (request_members r).

Definition EncodeRequest (r : Request) : result codec_error string :=
  let! _ := result_map_err ErrValidation (ValidateRequest r) in Ok (print (request_json r)).

Definition audit_json (a : AuditFields) : json :=
  TObj [("request_hash", TStr (au_RequestHash a)); ("policy_hash", TStr (au_PolicyHash a))].

Definition decision_members (d : Decision) : list (string * json) :=
  ([("schema_version", TStr (dc_SchemaVersion d)); ("request_id", TStr (dc_RequestID d));
         ("decision", TStr (dc_Decision d)); ("reason_code", TStr (dc_ReasonCode d))]
    ++ (if dc_StatusHint d =? 0 then [] else [("status_hint", TInt (dc_StatusHint d))])
    ++ [("cache_ttl_seconds", TInt (dc_CacheTTLSeconds d))]
    ++ optional_str "policy_version" (dc_PolicyVersion d)
    ++ optional_str "resource_version" (dc_ResourceVersion d)
    ++ [("audit", audit_json (dc_Audit d))]
    ++ optional_str "trace_id" (dc_TraceID d) ++ optional_str "authority_mode" (dc_AuthorityMode d)
    ++ optional_str "enforcement_mode" (dc_EnforcementMode d)
    ++ optional_bool "strict_mode" (dc_StrictMode d)
    ++ optional_bool "fallback_to_css" (dc_FallbackToCSS d)).

Definition decision_json (d : Decision) : json := TObj (decision_members d).

Definition EncodeDecision (d : Decision) : result codec_error string :=
  let! _ := result_map_err ErrValidation (ValidateDecision d) in Ok (print (decision_json d)).

(** ** Decoding *)

Definition set_rq_SchemaVersion (v : string) (r : Request) : Request :=
  mkRequest v (rq_RequestID r) (rq_Method r) (rq_ResourceURI r) (rq_AgentWebID r) (rq_ClientID
    r) (rq_Issuer r) (rq_Origin r) (rq_RequestedModes r) (rq_ResourceVersion r)
    (rq_PolicyVersion r) (rq_ParserVersion r) (rq_EvaluatorVersion r) (rq_ResourceMetadata r)
    (rq_PolicyDocuments r) (rq_NowUnix r).
Definition set_rq_RequestID (v : string) (r : Request) : Request :=
  mkRequest (rq_SchemaVersion r) v (rq_Method r) (rq_ResourceURI r) (rq_AgentWebID r)
    (rq_ClientID r) (rq_Issuer r) (rq_Origin r) (rq_RequestedModes r) (rq_ResourceVersion r)
    (rq_PolicyVersion r) (rq_ParserVersion r) (rq_EvaluatorVersion r) (rq_ResourceMetadata r)
    (rq_PolicyDocuments r) (rq_NowUnix r).
Definition set_rq_Method (v : string) (r : Request) : Request :=
  mkRequest (rq_SchemaVersion r) (rq_RequestID r) v (rq_ResourceURI r) (rq_AgentWebID r)
    (rq_ClientID r) (rq_Issuer r) (rq_Origin r) (rq_RequestedModes r) (rq_ResourceVersion r)
    (rq_PolicyVersion r) (rq_ParserVersion r) (rq_EvaluatorVersion r) (rq_ResourceMetadata r)
    (rq_PolicyDocuments r) (rq_NowUnix r).
Definition set_rq_ResourceURI (v : string) (r : Request) : Request :=
  mkRequest (rq_SchemaVersion r) (rq_RequestID r) (rq_Method r) v (rq_AgentWebID r) (rq_ClientID
    r) (rq_Issuer r) (rq_Origin r) (rq_RequestedModes r) (rq_ResourceVersion r)
    (rq_PolicyVersion r) (rq_ParserVersion r) (rq_EvaluatorVersion r) (rq_ResourceMetadata r)
    (rq_PolicyDocuments r) (rq_NowUnix r).
Definition set_rq_AgentWebID (v : string) (r : Request) : Request :=
  mkRequest (rq_SchemaVersion r) (rq_RequestID r) (rq_Method r) (rq_ResourceURI r) v
    (rq_ClientID r) (rq_Issuer r) (rq_Origin r) (rq_RequestedModes r) (rq_ResourceVersion r)
    (rq_PolicyVersion r) (rq_ParserVersion r) (rq_EvaluatorVersion r) (rq_ResourceMetadata r)
    (rq_PolicyDocuments r) (rq_NowUnix r).
Definition set_rq_ClientID (v : string) (r : Request) : Request :=
  mkRequest (rq_SchemaVersion r) (rq_RequestID r) (rq_Method r) (rq_ResourceURI r)
    (rq_AgentWebID r) v (rq_Issuer r) (rq_Origin r) (rq_RequestedModes r) (rq_ResourceVersion r)
    (rq_PolicyVersion r) (rq_ParserVersion r) (rq_EvaluatorVersion r) (rq_ResourceMetadata r)
    (rq_PolicyDocuments r) (rq_NowUnix r).
Definition set_rq_Issuer (v : string) (r : Request) : Request :=
  mkRequest (rq_SchemaVersion r) (rq_RequestID r) (rq_Method r) (rq_ResourceURI r)
    (rq_AgentWebID r) (rq_ClientID r) v (rq_Origin r) (rq_RequestedModes r) (rq_ResourceVersion
    r) (rq_PolicyVersion r) (rq_ParserVersion r) (rq_EvaluatorVersion r) (rq_ResourceMetadata r)
    (rq_PolicyDocuments r) (rq_NowUnix r).
Definition set_rq_Origin (v : string) (r : Request) : Request :=
  mkRequest (rq_SchemaVersion r) (rq_RequestID r) (rq_Method r) (rq_ResourceURI r)
    (rq_AgentWebID r) (rq_ClientID r) (rq_Issuer r) v (rq_RequestedModes r) (rq_ResourceVersion
    r) (rq_PolicyVersion r) (rq_ParserVersion r) (rq_EvaluatorVersion r) (rq_ResourceMetadata r)
    (rq_PolicyDocuments r) (rq_NowUnix r).
Definition set_rq_RequestedModes (v : list string) (r : Request) : Request :=
  mkRequest (rq_SchemaVersion r) (rq_RequestID r) (rq_Method r) (rq_ResourceURI r)
    (rq_AgentWebID r) (rq_ClientID r) (rq_Issuer r) (rq_Origin r) v (rq_ResourceVersion r)
    (rq_PolicyVersion r) (rq_ParserVersion r) (rq_EvaluatorVersion r) (rq_ResourceMetadata r)
    (rq_PolicyDocuments r) (rq_NowUnix r).
Definition set_rq_ResourceVersion (v : string) (r : Request) : Request :=
  mkRequest (rq_SchemaVersion r) (rq_RequestID r) (rq_Method r) (rq_ResourceURI r)
    (rq_AgentWebID r) (rq_ClientID r) (rq_Issuer r) (rq_Origin r) (rq_RequestedModes r) v
    (rq_PolicyVersion r) (rq_ParserVersion r) (rq_EvaluatorVersion r) (rq_ResourceMetadata r)
    (rq_PolicyDocuments r) (rq_NowUnix r).
Definition set_rq_PolicyVersion (v : string) (r : Request) : Request :=
  mkRequest (rq_SchemaVersion r) (rq_RequestID r) (rq_Method r) (rq_ResourceURI r)
    (rq_AgentWebID r) (rq_ClientID r) (rq_Issuer r) (rq_Origin r) (rq_RequestedModes r)
    (rq_ResourceVersion r) v (rq_ParserVersion r) (rq_EvaluatorVersion r) (rq_ResourceMetadata
    r) (rq_PolicyDocuments r) (rq_NowUnix r).
Definition set_rq_ParserVersion (v : string) (r : Request) : Request :=
  mkRequest (rq_SchemaVersion r) (rq_RequestID r) (rq_Method r) (rq_ResourceURI r)
    (rq_AgentWebID r) (rq_ClientID r) (rq_Issuer r) (rq_Origin r) (rq_RequestedModes r)
    (rq_ResourceVersion r) (rq_PolicyVersion r) v (rq_EvaluatorVersion r) (rq_ResourceMetadata
    r) (rq_PolicyDocuments r) (rq_NowUnix r).
Definition set_rq_EvaluatorVersion (v : string) (r : Request) : Request :=
  mkRequest (rq_SchemaVersion r) (rq_RequestID r) (rq_Method r) (rq_ResourceURI r)
    (rq_AgentWebID r) (rq_ClientID r) (rq_Issuer r) (rq_Origin r) (rq_RequestedModes r)
    (rq_ResourceVersion r) (rq_PolicyVersion r) (rq_ParserVersion r) v (rq_ResourceMetadata r)
    (rq_PolicyDocuments r) (rq_NowUnix r).
Definition set_rq_ResourceMetadata (v : gmap string string) (r : Request) : Request :=
  mkRequest (rq_SchemaVersion r) (rq_RequestID r) (rq_Method r) (rq_ResourceURI r)
    (rq_AgentWebID r) (rq_ClientID r) (rq_Issuer r) (rq_Origin r) (rq_RequestedModes r)
    (rq_ResourceVersion r) (rq_PolicyVersion r) (rq_ParserVersion r) (rq_EvaluatorVersion r) v
    (rq_PolicyDocuments r) (rq_NowUnix r).
Definition set_rq_PolicyDocuments (v : list PolicyDocument) (r : Request) : Request :=
  mkRequest (rq_SchemaVersion r) (rq_RequestID r) (rq_Method r) (rq_ResourceURI r)
    (rq_AgentWebID r) (rq_ClientID r) (rq_Issuer r) (rq_Origin r) (rq_RequestedModes r)
    (rq_ResourceVersion r) (rq_PolicyVersion r) (rq_ParserVersion r) (rq_EvaluatorVersion r)
    (rq_ResourceMetadata r) v (rq_NowUnix r).
Definition set_rq_NowUnix (v : Z) (r : Request) : Request :=
  mkRequest (rq_SchemaVersion r) (rq_RequestID r) (rq_Method r) (rq_ResourceURI r)
    (rq_AgentWebID r) (rq_ClientID r) (rq_Issuer r) (rq_Origin r) (rq_RequestedModes r)
    (rq_ResourceVersion r) (rq_PolicyVersion r) (rq_ParserVersion r) (rq_EvaluatorVersion r)
    (rq_ResourceMetadata r) (rq_PolicyDocuments r) v.

(** What a request is decoded into: the request, and the backing arrays of its slices. *)
Record request_target := mkRequestTarget {
  rt_request : Request;
  rt_modes : list string;
  rt_documents : list PolicyDocument
}.

Definition zeroDocument : PolicyDocument := mkPolicyDocument "" "" "" "".
Definition zeroRequest : Request := mkRequest "" "" "" "" "" "" "" "" [] "" "" "" "" ∅ [] 0.
Definition newTarget : request_target := mkRequestTarget zeroRequest [] [].

Definition document_fields : list (string * (JValue -> PolicyDocument -> option PolicyDocument)) :=
  [("uri", fun v d => (fun s => mkPolicyDocument s (pd_SHA256 d) (pd_ContentType d) (pd_Content d))
                        <$> set_string v (pd_URI d));
   ("sha256", fun v d => (fun s => mkPolicyDocument (pd_URI d) s (pd_ContentType d) (pd_Content d))
                           <$> set_string v (pd_SHA256 d));
   ("content_type", fun v d => (fun s => mkPolicyDocument (pd_URI d) (pd_SHA256 d) s (pd_Content d))
                                 <$> set_string v (pd_ContentType d));
   ("content", fun v d => (fun s => mkPolicyDocument (pd_URI d) (pd_SHA256 d) (pd_ContentType d) s)
                            <$> set_bytes v (pd_Content d))].

Definition set_document : JValue -> PolicyDocument -> option PolicyDocument :=
  set_struct (known_fields document_fields).

(** A setter of the request inside the target. *)
Definition in_request {A} (set : JValue -> A -> option A) (get : Request -> A) (put : A -> Request -> Request)
    (v : JValue) (t : request_target) : option request_target :=
  (fun x => mkRequestTarget (put x (rt_request t)) (rt_modes t) (rt_documents t))
    <$> set v (get (rt_request t)).

Definition request_fields : list (string * (JValue -> request_target -> option request_target)) :=
  [("schema_version", in_request set_string rq_SchemaVersion set_rq_SchemaVersion);
   ("request_id", in_request set_string rq_RequestID set_rq_RequestID);
   ("method", in_request set_string rq_Method set_rq_Method);
   ("resource_uri", in_request set_string rq_ResourceURI set_rq_ResourceURI);
   ("agent_webid", in_request set_string rq_AgentWebID set_rq_AgentWebID);
   ("client_id", in_request set_string rq_ClientID set_rq_ClientID);
   ("issuer", in_request set_string rq_Issuer set_rq_Issuer);
   ("origin", in_request set_string rq_Origin set_rq_Origin);
   ("requested_modes", fun v t =>
      (fun ms => mkRequestTarget (set_rq_RequestedModes ms.1 (rt_request t)) ms.2 (rt_documents t))
        <$> set_slice set_string "" v (rt_modes t));
   ("resource_version", in_request set_string rq_ResourceVersion set_rq_ResourceVersion);
   ("policy_version", in_request set_string rq_PolicyVersion set_rq_PolicyVersion);
   ("parser_version", in_request set_string rq_ParserVersion set_rq_ParserVersion);
   ("evaluator_version", in_request set_string rq_EvaluatorVersion set_rq_EvaluatorVersion);
   ("resource_metadata", in_request set_map rq_ResourceMetadata set_rq_ResourceMetadata);
   ("policy_documents", fun v t =>
      (fun ds => mkRequestTarget (set_rq_PolicyDocuments ds.1 (rt_request t)) (rt_modes t) ds.2)
        <$> set_slice set_document zeroDocument v (rt_documents t));
   ("now_unix", in_request set_int64 rq_NowUnix set_rq_NowUnix)].

Definition DecodeRequest (input : string) : result codec_error Request :=
  let! t := decode_document "authz request" (known_fields request_fields) newTarget input in
  let! _ := result_map_err ErrValidation (ValidateRequest (rt_request t)) in
  Ok (rt_request t).

Definition set_dc_SchemaVersion (v : string) (r : Decision) : Decision :=
  mkDecision v (dc_RequestID r) (dc_Decision r) (dc_ReasonCode r) (dc_StatusHint r)
    (dc_CacheTTLSeconds r) (dc_PolicyVersion r) (dc_ResourceVersion r) (dc_Audit r) (dc_TraceID
    r) (dc_AuthorityMode r) (dc_EnforcementMode r) (dc_StrictMode r) (dc_FallbackToCSS r).
Definition set_dc_RequestID (v : string) (r : Decision) : Decision :=
  mkDecision (dc_SchemaVersion r) v (dc_Decision r) (dc_ReasonCode r) (dc_StatusHint r)
    (dc_CacheTTLSeconds r) (dc_PolicyVersion r) (dc_ResourceVersion r) (dc_Audit r) (dc_TraceID
    r) (dc_AuthorityMode r) (dc_EnforcementMode r) (dc_StrictMode r) (dc_FallbackToCSS r).
Definition set_dc_Decision (v : string) (r : Decision) : Decision :=
  mkDecision (dc_SchemaVersion r) (dc_RequestID r) v (dc_ReasonCode r) (dc_StatusHint r)
    (dc_CacheTTLSeconds r) (dc_PolicyVersion r) (dc_ResourceVersion r) (dc_Audit r) (dc_TraceID
    r) (dc_AuthorityMode r) (dc_EnforcementMode r) (dc_StrictMode r) (dc_FallbackToCSS r).
Definition set_dc_ReasonCode (v : string) (r : Decision) : Decision :=
  mkDecision (dc_SchemaVersion r) (dc_RequestID r) (dc_Decision r) v (dc_StatusHint r)
    (dc_CacheTTLSeconds r) (dc_PolicyVersion r) (dc_ResourceVersion r) (dc_Audit r) (dc_TraceID
    r) (dc_AuthorityMode r) (dc_EnforcementMode r) (dc_StrictMode r) (dc_FallbackToCSS r).
Definition set_dc_StatusHint (v : Z) (r : Decision) : Decision :=
  mkDecision (dc_SchemaVersion r) (dc_RequestID r) (dc_Decision r) (dc_ReasonCode r) v
    (dc_CacheTTLSeconds r) (dc_PolicyVersion r) (dc_ResourceVersion r) (dc_Audit r) (dc_TraceID
    r) (dc_AuthorityMode r) (dc_EnforcementMode r) (dc_StrictMode r) (dc_FallbackToCSS r).
Definition set_dc_CacheTTLSeconds (v : Z) (r : Decision) : Decision :=
  mkDecision (dc_SchemaVersion r) (dc_RequestID r) (dc_Decision r) (dc_ReasonCode r)
    (dc_StatusHint r) v (dc_PolicyVersion r) (dc_ResourceVersion r) (dc_Audit r) (dc_TraceID r)
    (dc_AuthorityMode r) (dc_EnforcementMode r) (dc_StrictMode r) (dc_FallbackToCSS r).
Definition set_dc_PolicyVersion (v : string) (r : Decision) : Decision :=
  mkDecision (dc_SchemaVersion r) (dc_RequestID r) (dc_Decision r) (dc_ReasonCode r)
    (dc_StatusHint r) (dc_CacheTTLSeconds r) v (dc_ResourceVersion r) (dc_Audit r) (dc_TraceID
    r) (dc_AuthorityMode r) (dc_EnforcementMode r) (dc_StrictMode r) (dc_FallbackToCSS r).
Definition set_dc_ResourceVersion (v : string) (r : Decision) : Decision :=
  mkDecision (dc_SchemaVersion r) (dc_RequestID r) (dc_Decision r) (dc_ReasonCode r)
    (dc_StatusHint r) (dc_CacheTTLSeconds r) (dc_PolicyVersion r) v (dc_Audit r) (dc_TraceID r)
    (dc_AuthorityMode r) (dc_EnforcementMode r) (dc_StrictMode r) (dc_FallbackToCSS r).
Definition set_dc_Audit (v : AuditFields) (r : Decision) : Decision :=
  mkDecision (dc_SchemaVersion r) (dc_RequestID r) (dc_Decision r) (dc_ReasonCode r)
    (dc_StatusHint r) (dc_CacheTTLSeconds r) (dc_PolicyVersion r) (dc_ResourceVersion r) v
    (dc_TraceID r) (dc_AuthorityMode r) (dc_EnforcementMode r) (dc_StrictMode r)
    (dc_FallbackToCSS r).
Definition set_dc_TraceID (v : string) (r : Decision) : Decision :=
  mkDecision (dc_SchemaVersion r) (dc_RequestID r) (dc_Decision r) (dc_ReasonCode r)
    (dc_StatusHint r) (dc_CacheTTLSeconds r) (dc_PolicyVersion r) (dc_ResourceVersion r)
    (dc_Audit r) v (dc_AuthorityMode r) (dc_EnforcementMode r) (dc_StrictMode r)
    (dc_FallbackToCSS r).
Definition set_dc_AuthorityMode (v : string) (r : Decision) : Decision :=
  mkDecision (dc_SchemaVersion r) (dc_RequestID r) (dc_Decision r) (dc_ReasonCode r)
    (dc_StatusHint r) (dc_CacheTTLSeconds r) (dc_PolicyVersion r) (dc_ResourceVersion r)
    (dc_Audit r) (dc_TraceID r) v (dc_EnforcementMode r) (dc_StrictMode r) (dc_FallbackToCSS r).
Definition set_dc_EnforcementMode (v : string) (r : Decision) : Decision :=
  mkDecision (dc_SchemaVersion r) (dc_RequestID r) (dc_Decision r) (dc_ReasonCode r)
    (dc_StatusHint r) (dc_CacheTTLSeconds r) (dc_PolicyVersion r) (dc_ResourceVersion r)
    (dc_Audit r) (dc_TraceID r) (dc_AuthorityMode r) v (dc_StrictMode r) (dc_FallbackToCSS r).
Definition set_dc_StrictMode (v : bool) (r : Decision) : Decision :=
  mkDecision (dc_SchemaVersion r) (dc_RequestID r) (dc_Decision r) (dc_ReasonCode r)
    (dc_StatusHint r) (dc_CacheTTLSeconds r) (dc_PolicyVersion r) (dc_ResourceVersion r)
    (dc_Audit r) (dc_TraceID r) (dc_AuthorityMode r) (dc_EnforcementMode r) v (dc_FallbackToCSS
    r).
Definition set_dc_FallbackToCSS (v : bool) (r : Decision) : Decision :=
  mkDecision (dc_SchemaVersion r) (dc_RequestID r) (dc_Decision r) (dc_ReasonCode r)
    (dc_StatusHint r) (dc_CacheTTLSeconds r) (dc_PolicyVersion r) (dc_ResourceVersion r)
    (dc_Audit r) (dc_TraceID r) (dc_AuthorityMode r) (dc_EnforcementMode r) (dc_StrictMode r) v.

Definition audit_fields : list (string * (JValue -> AuditFields -> option AuditFields)) :=
  [("request_hash", fun v a => (fun s => mkAudit s (au_PolicyHash a)) <$> set_string v (au_RequestHash a));
   ("policy_hash", fun v a => (fun s => mkAudit (au_RequestHash a) s) <$> set_string v (au_PolicyHash a))].

Definition in_decision {A} (set : JValue -> A -> option A) (get : Decision -> A)
    (put : A -> Decision -> Decision) (v : JValue) (d : Decision) : option Decision :=
  (fun x => put x d) <$> set v (get d).

Definition decision_fields : list (string * (JValue -> Decision -> option Decision)) :=
  [("schema_version", in_decision set_string dc_SchemaVersion set_dc_SchemaVersion);
   ("request_id", in_decision set_string dc_RequestID set_dc_RequestID);
   ("decision", in_decision set_string dc_Decision set_dc_Decision);
   ("reason_code", in_decision set_string dc_ReasonCode set_dc_ReasonCode);
   ("status_hint", in_decision set_int64 dc_StatusHint set_dc_StatusHint);
   ("cache_ttl_seconds", in_decision set_int64 dc_CacheTTLSeconds set_dc_CacheTTLSeconds);
   ("policy_version", in_decision set_string dc_PolicyVersion set_dc_PolicyVersion);
   ("resource_version", in_decision set_string dc_ResourceVersion set_dc_ResourceVersion);
   ("audit", in_decision (set_struct (known_fields audit_fields)) dc_Audit set_dc_Audit);
   ("trace_id", in_decision set_string dc_TraceID set_dc_TraceID);
   ("authority_mode", in_decision set_string dc_AuthorityMode set_dc_AuthorityMode);
   ("enforcement_mode", in_decision set_string dc_EnforcementMode set_dc_EnforcementMode);
   ("strict_mode", in_decision set_bool dc_StrictMode set_dc_StrictMode);
   ("fallback_to_css", in_decision set_bool dc_FallbackToCSS set_dc_FallbackToCSS)].

Definition DecodeDecision (input : string) : result codec_error Decision :=
  let! d := decode_document "authz decision" (known_fields decision_fields) zeroDecision input in
  let! _ := result_map_err ErrValidation (ValidateDecision d) in
  Ok d.

(** ** Reading back what was written *)

Definition member_value (m : string * json) : string * JValue * string := (m.1, value m.2, print m.2).

(** Decoding the members of a printed object. *)
Definition decode_tree {T} (set : string -> JValue -> string -> T -> option T)
    (ms : list (string * json)) (t : T) : option T :=
  decode_members set (map member_value ms) t.
Arguments decode_tree : simpl never.

Lemma decode_tree_nil {T} (set : string -> JValue -> string -> T -> option T) (t : T) :
  decode_tree set [] t = Some t.
Proof. done. Qed.

Lemma decode_tree_app {T} (set : string -> JValue -> string -> T -> option T)
    (ms ms' : list (string * json)) (t : T) :
  decode_tree set (ms ++ ms') t = decode_tree set ms t ≫= decode_tree set ms'.
Proof.
  unfold decode_tree, decode_members. rewrite map_app, foldl_app. destruct (foldl _ (Some t) _) as [u|]; [done|].
  cbn. by induction (map member_value ms').
Qed.

Lemma decode_tree_cons {T} (set : string -> JValue -> string -> T -> option T)
    (m : string * json) (ms : list (string * json)) (t : T) :
  decode_tree set (m :: ms) t = set m.1 (value m.2) (print m.2) t ≫= decode_tree set ms.
Proof. apply (decode_tree_app set [m] ms t). Qed.

Lemma decode_printed {T} (what : string) (set : string -> JValue -> string -> T -> option T) (init : T)
    (ms : list (string * json)) :
  valid_text (TObj ms) = true -> (height (TObj ms) <= max_depth)%nat ->
  decode_document what set init (print (TObj ms)) =
    match decode_tree set ms init with Some t => Ok t | None => Err (ErrDecode what) end.
Proof.
  intros Hv Hh. unfold decode_document.
  pose proof (skip_space_print (TObj ms) "") as Hs. rewrite str_app_nil_r in Hs. rewrite Hs.
  pose proof (parse_value_print _ (S (String.length (print (TObj ms)))) max_depth Hv ltac:(lia) Hh "" eq_refl) as Hp.
  rewrite str_app_nil_r in Hp. rewrite Hp. cbn [value set_struct]. unfold decode_tree.
  by destruct (decode_members _ _ _).
Qed.

(** No two names of a table are equal up to case. *)
Definition distinct_names (names : list string) : bool :=
  bool_decide (NoDup (map ToUpper names)) && forallb (fun n => String.eqb (foldName n) (ToUpper n)) names.

Lemma known_field {T} (fields : list (string * (JValue -> T -> option T))) (i : nat) (name : string)
    (set : JValue -> T -> option T) (v : JValue) (raw : string) (t : T) :
  distinct_names (map fst fields) = true -> fields !! i = Some (name, set) ->
  known_fields fields name v raw t = set v t.
Proof.
  unfold distinct_names. intros Hd Hi. apply andb_true_iff in Hd as [Hnd Hf]. bool_prop.
  assert (foldName name = ToUpper name) as Hn.
  { rewrite forallb_forall in Hf. apply String.eqb_eq, Hf. apply list_elem_of_In, list_elem_of_fmap.
    exists (name, set). split; [done|]. by eapply list_elem_of_lookup_2. }
  unfold known_fields, names_field. rewrite Hn. clear Hf Hn.
  revert i Hi. induction fields as [|[n s] fields IH]; intros i Hi; [done|].
  cbn [map fst] in Hnd. apply NoDup_cons in Hnd as [Hx Hnd]. cbn [List.find fst].
  destruct i as [|i]; cbn in Hi.
  { injection Hi as -> ->. by rewrite String.eqb_refl. }
  rewrite (proj2 (String.eqb_neq (ToUpper name) (ToUpper n))); [by apply (IH Hnd i)|].
  intros Heq. apply Hx. rewrite <- Heq. apply list_elem_of_fmap. exists name. split; [done|].
  apply list_elem_of_fmap. exists (name, set). split; [done|]. by eapply list_elem_of_lookup_2.
Qed.

Lemma decode_field {T} (fields : list (string * (JValue -> T -> option T))) (i : nat) (name : string)
    (set : JValue -> T -> option T) (j : json) (ms : list (string * json)) (t : T) :
  distinct_names (map fst fields) = true -> fields !! i = Some (name, set) ->
  decode_tree (known_fields fields) ((name, j) :: ms) t =
    set (value j) t ≫= decode_tree (known_fields fields) ms.
Proof. intros Hd Hi. rewrite decode_tree_cons. cbn [fst snd]. by rewrite (known_field _ i _ set). Qed.

Lemma set_elements_fresh {A T} (elem : JValue -> T -> option T) (zero : T) (f : A -> JValue)
    (g : A -> T) (l : list A) :
  Forall (fun x => elem (f x) zero = Some (g x)) l ->
  set_elements elem zero (map f l) [] = Some (map g l, map g l).
Proof. induction 1 as [|x l Hx Hl IH]; [done|]. cbn [map set_elements head tail default]. cbn. by rewrite Hx, IH. Qed.

Lemma set_entries_spec (m acc : gmap string string) (ks : list string) :
  exists acc', set_entries (map (fun k => (k, JString (default "" (m !! k)), quote (default "" (m !! k)))) ks) acc
      = Some acc' /\
    forall k, acc' !! k = if decide (k ∈ ks) then Some (default "" (m !! k)) else acc !! k.
Proof.
  revert acc. induction ks as [|k ks IH]; intros acc; cbn [map set_entries set_string].
  { exists acc. split; [done|]. intros k. by rewrite decide_False by apply not_elem_of_nil. }
  destruct (IH (<[k := default "" (m !! k)]> acc)) as (acc' & -> & Hacc). exists acc'. split; [done|].
  intros k'. rewrite Hacc. destruct (decide (k' ∈ ks)), (decide (k' ∈ k :: ks)) as [Hin|Hin]; try done.
  - set_solver.
  - apply elem_of_cons in Hin as [->|]; [|done]. by rewrite lookup_insert_eq.
  - rewrite lookup_insert_ne; [done|set_solver].
Qed.

Lemma set_map_printed (m : gmap string string) : set_map (value (map_json m)) ∅ = Some m.
Proof.
  unfold map_json. cbn [value set_map]. rewrite map_map. cbn [fst snd value print].
  destruct (set_entries_spec m ∅ (sort_by String.ltb (map_to_list m).*1)) as (acc & -> & Hacc).
  f_equal. apply map_eq. intros k. rewrite Hacc, lookup_empty.
  assert (k ∈ sort_by String.ltb (map_to_list m).*1 <-> is_Some (m !! k)) as Hk.
  { rewrite (sort_by_perm String.ltb (map_to_list m).*1). apply (iter_order_keys m). }
  destruct (decide _) as [Hin|Hin].
  - apply Hk in Hin as [x ->]. done.
  - destruct (m !! k) eqn:E; [|done]. destruct Hin. apply Hk. eauto.
Qed.

Lemma bytes_string_bytes (s : string) : bytes (string_bytes s) = s.
Proof.
  unfold bytes, string_bytes. rewrite map_map. rewrite (map_ext _ (fun c => c)) by apply chr_byte_of.
  rewrite map_id. apply String.string_of_list_ascii_of_string.
Qed.

(** The tables have no ambiguous names. *)
Lemma document_names : distinct_names (map fst document_fields) = true.
Proof. vm_compute. reflexivity. Qed.
Lemma request_names : distinct_names (map fst request_fields) = true.
Proof. vm_compute. reflexivity. Qed.
Lemma audit_names : distinct_names (map fst audit_fields) = true.
Proof. vm_compute. reflexivity. Qed.
Lemma decision_names : distinct_names (map fst decision_fields) = true.
Proof. vm_compute. reflexivity. Qed.

(** Decodes the member with the [i]-th name of a table. *)
Ltac field names i := erewrite (decode_field _ i _ _ _ _ _ names eq_refl).

Lemma set_document_printed (d : PolicyDocument) :
  set_document (value (document_json d)) zeroDocument = Some d.
Proof.
  destruct d as [uri sha ct content]. unfold set_document, document_json. cbn [value set_struct pd_URI pd_SHA256 pd_ContentType pd_Content].
  change (decode_tree (known_fields document_fields) ([("uri", TStr uri); ("sha256", TStr sha); ("content_type", TStr ct)] ++
    (if String.eqb content "" then [] else [("content", TStr (base64_Std_Encode (string_bytes content)))])) zeroDocument = Some (mkPolicyDocument uri sha ct content)).
  cbn [app]. field document_names 0%nat. cbn. field document_names 1%nat. cbn. field document_names 2%nat. cbn.
  destruct (String.eqb_spec content "") as [->|Hne]; [done|]. field document_names 3%nat. cbn [value set_bytes].
  rewrite std_quanta_encode by apply string_bytes_range. cbn. by rewrite bytes_string_bytes.
Qed.

(** An optional string of the request, decoded over the empty one. *)
Lemma request_optional (i : nat) (name s : string) (get : Request -> string)
    (put : string -> Request -> Request) (t : request_target) :
  request_fields !! i = Some (name, in_request set_string get put) ->
  put "" (rt_request t) = rt_request t ->
  decode_tree (known_fields request_fields) (optional_str name s) t =
    Some (mkRequestTarget (put s (rt_request t)) (rt_modes t) (rt_documents t)).
Proof.
  intros Hi Hput. unfold optional_str. destruct (String.eqb_spec s "") as [->|Hne].
  - rewrite decode_tree_nil, Hput. by destruct t.
  - rewrite decode_tree_cons. cbn [fst snd]. by rewrite (known_field _ i _ _ _ _ _ request_names Hi).
Qed.

Lemma set_slice_printed {A T} (elem : JValue -> T -> option T) (zero : T) (f : A -> json) (g : A -> T)
    (l : list A) :
  Forall (fun x => elem (value (f x)) zero = Some (g x)) l ->
  set_slice elem zero (value (TArr (map f l))) [] = Some (map g l, map g l).
Proof.
  intros Hl. cbn [value]. rewrite map_map. destruct l as [|x l]; [done|].
  exact (set_elements_fresh elem zero (fun x => value (f x)) g (x :: l) Hl).
Qed.

Lemma set_modes_printed (modes : list string) :
  set_slice set_string "" (value (TArr (map TStr modes))) [] = Some (modes, modes).
Proof.
  rewrite (set_slice_printed set_string "" TStr (fun s => s)) by (by apply Forall_true). by rewrite map_id.
Qed.

Lemma set_documents_printed (docs : list PolicyDocument) :
  set_slice set_document zeroDocument (value (TArr (map document_json docs))) [] = Some (docs, docs).
Proof.
  rewrite (set_slice_printed set_document zeroDocument document_json (fun d => d));
    [by rewrite map_id|]. apply Forall_true, set_document_printed.
Qed.

(** Reads the goal's decoding state after a step. *)
Ltac decoded := cbv [mbind option_bind fmap option_fmap option_map value set_string in_request
  rt_request rt_modes rt_documents fst snd set_rq_SchemaVersion set_rq_RequestID set_rq_Method
  set_rq_ResourceURI set_rq_AgentWebID set_rq_ClientID set_rq_Issuer set_rq_Origin
  set_rq_RequestedModes set_rq_ResourceVersion set_rq_PolicyVersion set_rq_ParserVersion
  set_rq_EvaluatorVersion set_rq_ResourceMetadata set_rq_PolicyDocuments set_rq_NowUnix
  rq_SchemaVersion rq_RequestID rq_Method rq_ResourceURI rq_AgentWebID rq_ClientID rq_Issuer
  rq_Origin rq_RequestedModes rq_ResourceVersion rq_PolicyVersion rq_ParserVersion
  rq_EvaluatorVersion rq_ResourceMetadata rq_PolicyDocuments rq_NowUnix].

Ltac optional i := rewrite decode_tree_app; erewrite (request_optional i) by reflexivity; decoded.

Lemma decode_request_tree (r : Request) :
  in_int64 (rq_NowUnix r) ->
  rt_request <$> decode_tree (known_fields request_fields) (request_members r) newTarget = Some r.
Proof.
  intros Hnow. unfold request_members. rewrite decode_tree_app.
  assert (decode_tree (known_fields request_fields)
    [("schema_version", TStr (rq_SchemaVersion r)); ("request_id", TStr (rq_RequestID r));
     ("method", TStr (rq_Method r)); ("resource_uri", TStr (rq_ResourceURI r))] newTarget =
    Some (mkRequestTarget (mkRequest (rq_SchemaVersion r) (rq_RequestID r) (rq_Method r)
      (rq_ResourceURI r) "" "" "" "" [] "" "" "" "" ∅ [] 0) [] [])) as ->.
  { field request_names 0%nat. decoded. field request_names 1%nat. decoded.
    field request_names 2%nat. decoded. field request_names 3%nat. decoded. done. }
  decoded. optional 4%nat. optional 5%nat. optional 6%nat. optional 7%nat.
  rewrite decode_tree_app. field request_names 8%nat.
  rewrite set_modes_printed. decoded. rewrite decode_tree_nil. decoded.
  optional 9%nat. optional 10%nat. optional 11%nat. optional 12%nat.
  assert (forall a b c d e f g h i j k l m modes,
    decode_tree (known_fields request_fields)
      (if bool_decide (rq_ResourceMetadata r = ∅) then []
       else [("resource_metadata", map_json (rq_ResourceMetadata r))])
      (mkRequestTarget (mkRequest a b c d e f g h modes i j k l ∅ [] m) modes []) =
    Some (mkRequestTarget (mkRequest a b c d e f g h modes i j k l (rq_ResourceMetadata r) [] m) modes []))
    as Hmeta.
  { intros. case_bool_decide as Hm; [by rewrite Hm|]. field request_names 13%nat. unfold in_request.
    rewrite set_map_printed. by decoded. }
  rewrite decode_tree_app, Hmeta. decoded. clear Hmeta. rewrite decode_tree_app.
  assert (forall a b c d e f g h i j k l m n modes,
    decode_tree (known_fields request_fields)
      (if bool_decide (rq_PolicyDocuments r = []) then []
       else [("policy_documents", TArr (map document_json (rq_PolicyDocuments r)))])
      (mkRequestTarget (mkRequest a b c d e f g h modes i j k l m [] n) modes []) =
    Some (mkRequestTarget (mkRequest a b c d e f g h modes i j k l m (rq_PolicyDocuments r) n) modes
      (rq_PolicyDocuments r))) as Hdocs.
  { intros. case_bool_decide as Hm; [by rewrite Hm|]. field request_names 14%nat.
    cbn [rt_documents]. rewrite set_documents_printed. by decoded. }
  rewrite Hdocs. decoded. clear Hdocs. field request_names 15%nat. unfold in_request.
  cbn [value set_int64]. rewrite parse_FormatInt by done. decoded. rewrite decode_tree_nil.
  by destruct r.
Qed.

(** The same for decisions. *)
Ltac decided := cbv [mbind option_bind fmap option_fmap option_map value set_string set_bool
  in_decision fst snd zeroDecision set_dc_SchemaVersion set_dc_RequestID set_dc_Decision
  set_dc_ReasonCode set_dc_StatusHint set_dc_CacheTTLSeconds set_dc_PolicyVersion
  set_dc_ResourceVersion set_dc_Audit set_dc_TraceID set_dc_AuthorityMode set_dc_EnforcementMode
  set_dc_StrictMode set_dc_FallbackToCSS dc_SchemaVersion dc_RequestID dc_Decision dc_ReasonCode
  dc_StatusHint dc_CacheTTLSeconds dc_PolicyVersion dc_ResourceVersion dc_Audit dc_TraceID
  dc_AuthorityMode dc_EnforcementMode dc_StrictMode dc_FallbackToCSS].

Lemma decision_optional (i : nat) (name s : string) (get : Decision -> string)
    (put : string -> Decision -> Decision) (d : Decision) :
  decision_fields !! i = Some (name, in_decision set_string get put) -> put "" d = d ->
  decode_tree (known_fields decision_fields) (optional_str name s) d = Some (put s d).
Proof.
  intros Hi Hput. unfold optional_str. destruct (String.eqb_spec s "") as [->|Hne].
  - by rewrite decode_tree_nil, Hput.
  - rewrite decode_tree_cons. cbn [fst snd]. by rewrite (known_field _ i _ _ _ _ _ decision_names Hi).
Qed.

Lemma decision_flag (i : nat) (name : string) (b : bool) (get : Decision -> bool)
    (put : bool -> Decision -> Decision) (d : Decision) :
  decision_fields !! i = Some (name, in_decision set_bool get put) -> put false d = d ->
  decode_tree (known_fields decision_fields) (optional_bool name b) d = Some (put b d).
Proof.
  intros Hi Hput. destruct b; cbn [optional_bool].
  - rewrite decode_tree_cons. cbn [fst snd]. by rewrite (known_field _ i _ _ _ _ _ decision_names Hi).
  - by rewrite decode_tree_nil, Hput.
Qed.

Ltac opt_string i := rewrite decode_tree_app; erewrite (decision_optional i) by reflexivity; decided.

Lemma set_audit_printed (a : AuditFields) :
  set_struct (known_fields audit_fields) (value (audit_json a)) (mkAudit "" "") = Some a.
Proof.
  destruct a as [x y]. change (decode_tree (known_fields audit_fields)
    [("request_hash", TStr x); ("policy_hash", TStr y)] (mkAudit "" "") = Some (mkAudit x y)).
  field audit_names 0%nat. cbn. field audit_names 1%nat. cbn. done.
Qed.

Lemma decode_decision_tree (d : Decision) :
  in_int64 (dc_StatusHint d) -> in_int64 (dc_CacheTTLSeconds d) ->
  decode_tree (known_fields decision_fields) (decision_members d) zeroDecision = Some d.
Proof.
  intros Hhint Httl. unfold decision_members. rewrite decode_tree_app.
  field decision_names 0%nat. decided. field decision_names 1%nat. decided.
  field decision_names 2%nat. decided. field decision_names 3%nat. decided. rewrite decode_tree_nil. decided.
  assert (forall a b c e, decode_tree (known_fields decision_fields)
      (if dc_StatusHint d =? 0 then [] else [("status_hint", TInt (dc_StatusHint d))])
      (mkDecision a b c e 0 0 "" "" (mkAudit "" "") "" "" "" false false) =
    Some (mkDecision a b c e (dc_StatusHint d) 0 "" "" (mkAudit "" "") "" "" "" false false)) as Hh.
  { intros. destruct (Z.eqb_spec (dc_StatusHint d) 0) as [->|Hne]; [done|].
    field decision_names 4%nat. unfold in_decision. cbn [value set_int64].
    rewrite parse_FormatInt by done. by decided. }
  rewrite decode_tree_app, Hh. decided. clear Hh. rewrite decode_tree_app.
  field decision_names 5%nat. unfold in_decision at 1. cbn [value set_int64].
  rewrite parse_FormatInt by done. decided. rewrite decode_tree_nil. decided.
  opt_string 6%nat. opt_string 7%nat. rewrite decode_tree_app. field decision_names 8%nat.
  unfold in_decision at 1. cbn [dc_Audit]. rewrite set_audit_printed. decided. rewrite decode_tree_nil. decided.
  opt_string 9%nat. opt_string 10%nat. opt_string 11%nat. rewrite decode_tree_app.
  erewrite (decision_flag 12%nat) by reflexivity. decided.
  erewrite (decision_flag 13%nat) by reflexivity. decided. by destruct d.
Qed.

Ltac flat_members := repeat (apply Forall_cons_2; [cbn; lia|]); apply Forall_nil_2.

Lemma height_obj (ms : list (string * json)) (n : nat) :
  Forall (fun m => height m.2 <= n)%nat ms -> (height (TObj ms) <= S n)%nat.
Proof. intros H. cbn [height]. apply le_n_S. induction H as [|m ms Hm Hms IH]; cbn; lia. Qed.

Lemma height_arr (l : list json) (n : nat) :
  Forall (fun j => height j <= n)%nat l -> (height (TArr l) <= S n)%nat.
Proof. intros H. cbn [height]. apply le_n_S. induction H as [|m ms Hm Hms IH]; cbn; lia. Qed.

Lemma document_height (d : PolicyDocument) : (height (document_json d) <= 1)%nat.
Proof. unfold document_json. apply height_obj. destruct (String.eqb _ _); flat_members. Qed.

Lemma optional_flat (name s : string) (n : nat) :
  Forall (fun m => height m.2 <= n)%nat (optional_str name s).
Proof. unfold optional_str. destruct (String.eqb _ _); flat_members. Qed.

Lemma request_height (r : Request) : (height (request_json r) <= 3)%nat.
Proof.
  apply height_obj. unfold request_members.
  repeat (apply Forall_app_2; [first [apply optional_flat|idtac]|]).
  - flat_members.
  - apply Forall_singleton; cbn [snd]. etransitivity; [apply (height_arr _ 0%nat)|lia].
    apply Forall_fmap, Forall_true. cbn. lia.
  - case_bool_decide; [apply Forall_nil_2|]. apply Forall_singleton; cbn [snd]. etransitivity; [apply (height_obj _ 0%nat)|lia].
    apply Forall_fmap, Forall_true. cbn. lia.
  - case_bool_decide; [apply Forall_nil_2|]. apply Forall_singleton; cbn [snd]. apply height_arr, Forall_fmap, Forall_true. apply document_height.
  - flat_members.
Qed.

Lemma decision_height (d : Decision) : (height (decision_json d) <= max_depth)%nat.
Proof.
  assert (2 <= max_depth)%nat as Hm by (unfold max_depth; lia). etransitivity; [|exact Hm].
  apply height_obj. unfold decision_members, optional_bool.
  repeat (apply Forall_app_2; [first [apply optional_flat|idtac]|]); repeat case_match; flat_members.
Qed.

Lemma decision_ints (d : Decision) :
  ValidateDecision d = Ok tt -> in_int64 (dc_StatusHint d) /\ in_int64 (dc_CacheTTLSeconds d).
Proof.
  unfold ValidateDecision, in_int64, int64_min, int64_max. intros Hd.
  destruct (dc_StatusHint d =? 0) eqn:E0; repeat break_if; try discriminate Hd; bool_prop;
    cbn [negb andb orb] in *; bool_prop; lia.
Qed.

(** C8: The wire format loses nothing: every valid request and every valid decision whose
    strings are UTF-8 is encoded, and decoding the text returns it, whatever fields are empty
    and left out, with the metadata and the bytes of the policy documents. *)
Theorem codec_roundtrip (r : Request) (d : Decision) :
  ValidateRequest r = Ok tt -> in_int64 (rq_NowUnix r) -> valid_text (request_json r) = true ->
  ValidateDecision d = Ok tt -> valid_text (decision_json d) = true ->
  (exists text, EncodeRequest r = Ok text /\ DecodeRequest text = Ok r) /\
  (exists text, EncodeDecision d = Ok text /\ DecodeDecision text = Ok d).
Proof.
  intros Hr Hnow Hrt Hd Hdt. split.
  - exists (print (request_json r)). unfold EncodeRequest, DecodeRequest. rewrite Hr. split; [done|].
    pose proof (decode_request_tree r Hnow) as Htree. unfold request_json in *.
    rewrite decode_printed by (done || (pose proof (request_height r); unfold request_json, max_depth in *; lia)).
    destruct (decode_tree _ _ _) as [t|]; [|done]. injection Htree as <-. cbn. by rewrite Hr.
  - exists (print (decision_json d)). unfold EncodeDecision, DecodeDecision. rewrite Hd. split; [done|].
    destruct (decision_ints d Hd) as [Hh Ht].
    unfold decision_json in *. rewrite decode_printed by (done || apply decision_height).
    rewrite (decode_decision_tree d Hh Ht). cbn. by rewrite Hd.
Qed.

Definition wireRequest : Request :=
  mkRequest SchemaVersion "req-1" "GET" "https://pod.example/alice/card" "https://pod.example/bob#me" "" "" ""
    [AccessModeRead] "" "v1" "" "" {["k" := "a<b"; "note" := "line"]}
    [mkPolicyDocument "https://pod.example/alice/card.acl"
       "e3b0c44298fc1c149afbf4c8996fb92427ae41e4649b934ca495991b7852b855" "text/turtle" "<#a> a <#b>."] 1700000000.

Definition wireDecision : Decision :=
  mkDecision SchemaVersion "req-1" DecisionDeny ReasonPolicyDeny 403 30 "v1" ""
    (mkAudit "e3b0c44298fc1c149afbf4c8996fb92427ae41e4649b934ca495991b7852b855"
             "e3b0c44298fc1c149afbf4c8996fb92427ae41e4649b934ca495991b7852b855") "t-1" "" "" true false.

Lemma codec_roundtrip_witness :
  (exists text, EncodeRequest wireRequest = Ok text /\ DecodeRequest text = Ok wireRequest) /\
  (exists text, EncodeDecision wireDecision = Ok text /\ DecodeDecision text = Ok wireDecision).
Proof.
  apply (codec_roundtrip wireRequest wireDecision).
  - vm_compute. reflexivity.
  - vm_compute. split; discriminate.
  - vm_compute. reflexivity.
  - vm_compute. reflexivity.
  - vm_compute. reflexivity.
Defined.

(** Empty documents, trailing data and unknown fields are refused. *)
Example decode_errors :
  let dq := dquote in
  let extra := Join ["{"; dq; "surprise"; dq; ":1}"] "" in
  DecodeRequest "" = Err (ErrDecode "authz request") /\
  DecodeRequest extra = Err (ErrDecode "authz request") /\
  DecodeRequest "{} {}" = Err (ErrTrailingData "authz request") /\
  DecodeRequest "{}" = Err (ErrValidation (ErrInvalidRequest "unsupported schema version")).
Proof. vm_compute. auto. Qed.
