(* ===== verification/Evaluator.v ===== *)
(** * The evaluator interface and the shadow evaluator

    [internal/authz/evaluator.go].  An evaluator is a state with an [Evaluate]
    operation; the interface carries the contract the shadow middleware relies on:
    every decision returned without an error passes [ValidateDecision]. *)

From S2P Require Import Prelude GoStrings GoURL GoHash AuthzTypes.

Local Open Scope Z_scope.

(** ** Calling environment

    What an evaluation observes of the outside: the value of [ctx.Err()] and the
    successive readings of the clock ([clock 0] is the first [time.Now()]). *)
Inductive ctx_error := Canceled | DeadlineExceeded.

Record Env := mkEnv {
  env_ctx : option ctx_error;
  env_clock : nat -> Z
}.

(** The environment seen by a callee after [n] readings of the clock. *)
Definition env_after (n : nat) (e : Env) : Env :=
  mkEnv (env_ctx e) (fun i => env_clock e (n + i)%nat).

Inductive eval_error :=
| ErrContext (e : ctx_error)
| ErrEvaluatorBackoffActive
| ErrEvaluationFailed (e : eval_error)
| ErrExternal (detail : string).

(** ** Interface *)

Class Evaluator (S : Type) :=
  Evaluate : Env -> S -> Request -> S * result eval_error Decision.

(** What an evaluator promises its callers. *)
Class EvaluatorSound (S : Type) `{Evaluator S} :=
  evaluate_valid : forall env s rq s' d,
    Evaluate env s rq = (s', Ok d) -> ValidateDecision d = Ok tt.

(** ** Shared construction of decisions *)

Definition httpBadRequestStatus : Z := 400.
Definition StatusOK : Z := 200.
Definition StatusForbidden : Z := 403.

Definition decisionRequestID (rq : Request) (audit : AuditFields) : string :=
  if validToken (rq_RequestID rq) 128 then rq_RequestID rq
  else
    let prefix := if 32 <? len (au_RequestHash audit) then stake 32 (au_RequestHash audit)
                  else au_RequestHash audit in
    String.append "invalid-request-" prefix.

Definition shadowDecision (rq : Request) (audit : AuditFields)
    (decision reason : string) (statusHint : Z) : Decision :=
  {| dc_SchemaVersion := SchemaVersion;
     dc_RequestID := decisionRequestID rq audit;
     dc_Decision := decision;
     dc_ReasonCode := reason;
     dc_StatusHint := statusHint;
     dc_CacheTTLSeconds := 0;
     dc_PolicyVersion := rq_PolicyVersion rq;
     dc_ResourceVersion := rq_ResourceVersion rq;
     dc_Audit := audit;
     dc_TraceID := "";
     dc_AuthorityMode := "";
     dc_EnforcementMode := "";
     dc_StrictMode := false;
     dc_FallbackToCSS := false |}.

(** The checks every evaluator makes before it looks at a policy: the deny reason of
    the first one that fails. *)
Definition requestCheck (rq : Request) : option string :=
  if negb (String.eqb (rq_SchemaVersion rq) SchemaVersion) then Some ReasonUnsupportedSchema
  else if negb (validToken (rq_RequestID rq) 128) || negb (supportedMethod (rq_Method rq))
       then Some ReasonInvalidRequest
  else if bool_decide (rq_RequestedModes rq = []) then Some ReasonMissingRequestedModes
  else if negb (validResourceURI (rq_ResourceURI rq)) then Some ReasonUnsafeResourceURI
  else if negb (is_ok (ValidateRequest rq)) then Some ReasonInvalidRequest
  else None.

Definition ShouldContinueToCSS (d : Decision) : bool :=
  String.eqb (dc_Decision d) "" || String.eqb (dc_Decision d) DecisionAbstain.

(** ** The shadow evaluator *)

Inductive ShadowEvaluator := NewShadowEvaluator.

Definition ShadowEvaluator_Evaluate (env : Env) (s : ShadowEvaluator) (rq : Request)
  : ShadowEvaluator * result eval_error Decision :=
  match env_ctx env with
  | Some e => (s, Err (ErrContext e))
  | None =>
      let audit := AuditForRequest rq in
      match requestCheck rq with
      | Some reason =>
          (s, Ok (shadowDecision rq audit DecisionDeny reason httpBadRequestStatus))
      | None =>
          (s, Ok (shadowDecision rq audit DecisionAbstain ReasonKernelAbstainShadowMode 0))
      end
  end.

#[export] Instance ShadowEvaluator_Evaluator : Evaluator ShadowEvaluator :=
  ShadowEvaluator_Evaluate.

(** ** Lemmas shared by the evaluators *)

Lemma is_hex_token (c : ascii) :
  is_hex c = true -> ((33 <=? byte_of c) && (byte_of c <=? 126)) = true.
Proof.
  unfold is_hex, is_digit, in_range. intros H.
  apply orb_true_iff in H as [H|H]; [apply orb_true_iff in H as [H|H]|]; bool_prop;
    apply andb_true_iff; split; apply Z.leb_le; lia.
Qed.

Lemma decisionRequestID_valid (rq : Request) :
  validToken (decisionRequestID rq (AuditForRequest rq)) 128 = true.
Proof.
  unfold decisionRequestID. break_if; [done|].
  cbn [au_RequestHash AuditForRequest]. rewrite sha256Hex_length.
  change (32 <? 64) with true. cbv iota.
  set (h := sha256Hex (canonicalRequest rq)).
  assert (string_forallb is_hex (stake 32 h) = true) as Hh.
  { pose proof (sha256Hex_is_hex (canonicalRequest rq)) as Hx. fold h in Hx.
    rewrite <- (stake_sdrop 32 h), string_forallb_app in Hx. by bool_prop. }
  assert (len (stake 32 h) <= 32) as Hl by (unfold len; rewrite stake_length; lia).
  unfold validToken. rewrite str_app_cons. cbn [String.eqb orb].
  unfold len in *. rewrite <- str_app_cons, str_length_app.
  change (String.length "invalid-request-") with 16%nat.
  destruct (128 <? _) eqn:Hb1; bool_prop; [lia|].
  rewrite string_forallb_app.
  rewrite (string_forallb_weaken is_hex _ (stake 32 h) is_hex_token Hh).
  reflexivity.
Qed.

Lemma shadowDecision_valid (rq : Request) (decision reason : string) (hint : Z) :
  validDecisionValue decision = true -> validReasonCode reason = true ->
  hint = 0 \/ 100 <= hint <= 599 ->
  ValidateDecision (shadowDecision rq (AuditForRequest rq) decision reason hint) = Ok tt.
Proof.
  intros Hd Hr Hh. unfold ValidateDecision.
  cbn [shadowDecision dc_SchemaVersion dc_RequestID dc_Decision dc_ReasonCode dc_StatusHint
       dc_CacheTTLSeconds dc_Audit AuditForRequest au_RequestHash au_PolicyHash].
  rewrite decisionRequestID_valid, Hd, Hr, !validSHA256Hex_sha256Hex, String.eqb_refl. cbn [negb].
  destruct (negb (hint =? 0) && _) eqn:Hb; [|done].
  bool_prop. apply orb_true_iff in H0 as [?|?]; bool_prop; lia.
Qed.

(** The request checks deny with a valid reason, and pass exactly the valid requests. *)
Lemma requestCheck_reason (rq : Request) (reason : string) :
  requestCheck rq = Some reason -> validReasonCode reason = true.
Proof. unfold requestCheck. repeat break_if; intros [= <-]; reflexivity. Qed.

Lemma requestCheck_None (rq : Request) :
  requestCheck rq = None <-> ValidateRequest rq = Ok tt.
Proof.
  unfold requestCheck. split.
  - repeat break_if; try done. destruct (ValidateRequest rq) as [[]|]; [done|discriminate Hb3].
  - intros H. pose proof (ValidateRequest_Ok rq H) as (-> & -> & -> & -> & Hm & _).
    rewrite String.eqb_refl, bool_decide_false, H by done. done.
Qed.

#[export] Hint Resolve decisionRequestID_valid : sidecar.

Lemma ShadowEvaluator_valid (env : Env) (s : ShadowEvaluator) (rq : Request) s' d :
  Evaluate env s rq = (s', Ok d) -> ValidateDecision d = Ok tt.
Proof.
  unfold Evaluate, ShadowEvaluator_Evaluator, ShadowEvaluator_Evaluate.
  destruct (env_ctx env); [discriminate|].
  destruct (requestCheck rq) eqn:Hc; intros ?; simplify_eq; apply shadowDecision_valid;
    try reflexivity; [by eapply requestCheck_reason|unfold httpBadRequestStatus; lia|lia].
Qed.

#[export] Instance ShadowEvaluator_Sound : EvaluatorSound ShadowEvaluator :=
  ShadowEvaluator_valid.

(** ** A concrete request, for the witnesses *)

Definition sampleEnv : Env := mkEnv None (fun i => time_Unix 1700000000 + Z.of_nat i).

Definition sampleDocument (uri : string) : PolicyDocument :=
  mkPolicyDocument uri
    "0123456789abcdef0123456789abcdef0123456789abcdef0123456789abcdef" "text/turtle" "".

Definition sampleRequest (agent : string) (modes : list string) (docs : list PolicyDocument)
  : Request :=
  {| rq_SchemaVersion := SchemaVersion; rq_RequestID := "req-1"; rq_Method := "GET";
     rq_ResourceURI := "https://pod.example/notes/1"; rq_AgentWebID := agent;
     rq_ClientID := ""; rq_Issuer := ""; rq_Origin := ""; rq_RequestedModes := modes;
     rq_ResourceVersion := ""; rq_PolicyVersion := "v1"; rq_ParserVersion := "";
     rq_EvaluatorVersion := ""; rq_ResourceMetadata := ∅; rq_PolicyDocuments := docs;
     rq_NowUnix := 1700000000 |}.

Definition sampleDocs : list PolicyDocument :=
  [sampleDocument "https://pod.example/notes/1.acl"].
