(* ===== verification/PolicyKernel.v ===== *)
(** * The policy kernel

    [rust/crates/solid-policy-kernel]: the types of [types.rs], [evaluate] and its helpers of
    [kernel.rs], and the command line program [bin/solid-policy-kernel-eval.rs] that reads a
    request from its standard input.  The [sha2], [hex] and [serde_json] crates are parameters
    of the sections that use them. *)

From S2P Require Import Prelude GoStrings GoURL GoHash GoGlob GoJSON GoUTF8 JSONPrint AuthzTypes Evaluator.

Local Open Scope Z_scope.

Module Kernel.

(** ** Types *)

Definition SCHEMA_VERSION : string := "authz.v1".

Inductive AccessMode := Read | Append | Write | Control.

#[export] Instance AccessMode_eq_dec : EqDecision AccessMode.
Proof. solve_decision. Defined.

Record PolicyDocument := mkPolicyDocument {
  uri : string;
  sha256 : string;
  content_type : string
}.

Record AuthzRequest := mkAuthzRequest {
  schema_version : string;
  request_id : string;
  method : string;
  resource_uri : string;
  agent_webid : option string;
  client_id : option string;
  issuer : option string;
  origin : option string;
  requested_modes : list AccessMode;
  resource_version : option string;
  policy_version : option string;
  resource_metadata : gmap string string;
  policy_documents : list PolicyDocument;
  now_unix : Z
}.

Inductive Decision := Allow | Deny | Abstain.

Inductive ReasonCode :=
| KernelAbstainShadowMode | InvalidRequest | UnsupportedSchemaVersion | MissingRequestedModes
| UnsafeResourceUri | PolicyNotLoaded | PolicyAllow | PolicyDeny | KernelError.

Record AuditFields := mkAuditFields { request_hash : string; policy_hash : string }.

Record AuthzDecision := mkAuthzDecision {
  dec_schema_version : string;
  dec_request_id : string;
  dec_decision : Decision;
  dec_reason_code : ReasonCode;
  dec_status_hint : option Z;
  dec_cache_ttl_seconds : Z;
  dec_policy_version : option string;
  dec_resource_version : option string;
  dec_audit : AuditFields
}.

Record KernelConfig := mkKernelConfig {
  shadow_mode : bool;
  max_request_id_len : Z;
  max_resource_uri_len : Z
}.

Definition default_config : KernelConfig := mkKernelConfig true 128 4096.

(** ** Checks *)

Definition is_ascii_graphic (c : ascii) : bool := (33 <=? byte_of c) && (byte_of c <=? 126).
Definition is_ascii_control (c : ascii) : bool := (byte_of c <=? 31) || (byte_of c =? 127).

Definition is_valid_request_id (request_id : string) (max_len : Z) : bool :=
  negb (String.eqb request_id "") && (len request_id <=? max_len) && string_forallb is_ascii_graphic request_id.

Definition is_supported_method (method : string) : bool :=
  existsb (String.eqb method) ["GET"; "HEAD"; "OPTIONS"; "POST"; "PUT"; "PATCH"; "DELETE"].

Definition is_safe_resource_uri (resource_uri : string) (max_len : Z) : bool :=
  if String.eqb resource_uri "" || (max_len <? len resource_uri) then false
  else if string_existsb (fun c => is_ascii_control c || Ascii.eqb c "\") resource_uri then false
  else if Contains resource_uri "#" then false
  else HasPrefix resource_uri "https://" || HasPrefix resource_uri "http://".

(** ** Canonical texts *)

Definition push_field (name value : string) : string :=
  String.append name (String.append (String (chr 31) "") (String.append value (String (chr 30) ""))).

Definition push_option (name : string) (value : option string) : string :=
  match value with Some v => push_field name v | None => "" end.

(** The derived order of the enum is the order of its constructors. *)
Definition mode_index (m : AccessMode) : Z :=
  match m with Read => 0 | Append => 1 | Write => 2 | Control => 3 end.

Definition mode_name (m : AccessMode) : string :=
  match m with Read => "read" | Append => "append" | Write => "write" | Control => "control" end.

(** [sort] and [sort_by] are stable, as insertion sort is. *)
Definition push_modes (modes : list AccessMode) : string :=
  concat_str (map (fun m => push_field "requested_mode" (mode_name m))
    (sort_by (fun a b => mode_index a <? mode_index b) modes)).

(** A [BTreeMap] is visited in the order of its keys. *)
Definition btree_iter (m : gmap string string) : list (string * string) :=
  map (fun k => (k, default "" (m !! k))) (sort_by String.ltb (map_to_list m).*1).

Definition canonical_request (r : AuthzRequest) : string :=
  concat_str
    ([push_field "schema_version" (schema_version r);
      push_field "request_id" (request_id r);
      push_field "method" (method r);
      push_field "resource_uri" (resource_uri r);
      push_option "agent_webid" (agent_webid r);
      push_option "client_id" (client_id r);
      push_option "issuer" (issuer r);
      push_option "origin" (origin r);
      push_modes (requested_modes r);
      push_option "resource_version" (resource_version r);
      push_option "policy_version" (policy_version r)] ++
     map (fun kv => String.append (push_field "resource_metadata_key" kv.1)
                      (push_field "resource_metadata_value" kv.2)) (btree_iter (resource_metadata r)) ++
     [push_field "now_unix" (FormatInt (now_unix r))]).

(** [left.cmp(right)] is [Less]. *)
Definition document_less (l r : PolicyDocument) : bool :=
  match String.compare (uri l) (uri r) with
  | Lt => true
  | Gt => false
  | Eq => match String.compare (sha256 l) (sha256 r) with
          | Lt => true
          | Gt => false
          | Eq => match String.compare (content_type l) (content_type r) with Lt => true | _ => false end
          end
  end.

Definition push_document (d : PolicyDocument) : string :=
  String.append (push_field "policy_uri" (uri d))
    (String.append (push_field "policy_sha256" (sha256 d))
       (push_field "policy_content_type" (content_type d))).

Definition canonical_policy_documents (docs : list PolicyDocument) : string :=
  concat_str (map push_document (sort_by document_less docs)).

(** ** Evaluation *)

Section evaluate.
(** [Sha256::digest] of the [sha2] crate and [hex::encode] of the [hex] crate. *)
Variable Sha256_digest : string -> list Z.
Variable hex_encode : list Z -> string.

Definition sha256_hex (input : string) : string := hex_encode (Sha256_digest input).

Definition audit_fields (r : AuthzRequest) : AuditFields :=
  mkAuditFields (sha256_hex (canonical_request r))
    (sha256_hex (canonical_policy_documents (policy_documents r))).

Definition decision_request_id (r : AuthzRequest) (audit : AuditFields) (config : KernelConfig) : string :=
  if is_valid_request_id (request_id r) (max_request_id_len config) then request_id r
  else
    let prefix_len := Z.min (len (request_hash audit)) 32 in
    String.append "invalid-request-" (stake (Z.to_nat prefix_len) (request_hash audit)).

Definition decision (r : AuthzRequest) (audit : AuditFields) (d : Decision) (reason : ReasonCode)
    (status_hint : option Z) (cache_ttl_seconds : Z) (config : KernelConfig) : AuthzDecision :=
  {| dec_schema_version := SCHEMA_VERSION;
     dec_request_id := decision_request_id r audit config;
     dec_decision := d;
     dec_reason_code := reason;
     dec_status_hint := status_hint;
     dec_cache_ttl_seconds := cache_ttl_seconds;
     dec_policy_version := policy_version r;
     dec_resource_version := resource_version r;
     dec_audit := audit |}.

Definition evaluate (r : AuthzRequest) (config : KernelConfig) : AuthzDecision :=
  let audit := audit_fields r in
  if negb (String.eqb (schema_version r) SCHEMA_VERSION)
  then decision r audit Deny UnsupportedSchemaVersion (Some 400) 0 config
  else if negb (is_valid_request_id (request_id r) (max_request_id_len config))
          || negb (is_supported_method (method r))
  then decision r audit Deny InvalidRequest (Some 400) 0 config
  else if bool_decide (requested_modes r = [])
  then decision r audit Deny MissingRequestedModes (Some 400) 0 config
  else if negb (is_safe_resource_uri (resource_uri r) (max_resource_uri_len config))
  then decision r audit Deny UnsafeResourceUri (Some 400) 0 config
  else if shadow_mode config
  then decision r audit Abstain KernelAbstainShadowMode None 0 config
  else decision r audit Abstain PolicyNotLoaded None 0 config.

(** ** The program *)

(** [serde_json::from_str] and [serde_json::to_writer_pretty]. *)
Variable from_str : string -> option AuthzRequest.
Variable to_writer_pretty : AuthzDecision -> string.

(** What the program writes to its standard output, or the text of its failure. *)
Definition evaluate_json (input : string) : result string string :=
  match from_str input with
  | None => Err "failed to decode authz request JSON"
  | Some request =>
      Ok (String.append (to_writer_pretty (evaluate request default_config)) (String (chr 10) ""))
  end.

Definition evaluate_stdin (stdin : string) : result string string :=
  if ValidString stdin then evaluate_json stdin else Err "failed to read request from stdin".

(** The content of a file, where there is one that can be read. *)
Variable read_file : string -> option string.

Definition evaluate_file (path : string) : result string string :=
  match read_file path with
  | Some input => if ValidString input then evaluate_json input else Err "failed to read request file"
  | None => Err "failed to read request file"
  end.

Definition usage : string := "usage: solid-policy-kernel-eval [REQUEST_JSON_FILE]".

Definition print_usage : string :=
  foldr String.append ""
    [usage; String (chr 10) ""; String (chr 10) "";
     "Reads an authz.v1 request JSON document from a file or stdin and writes the deterministic shadow decision JSON to stdout.";
     String (chr 10) ""].

Definition run (args : list string) (stdin : string) : result string string :=
  match args with
  | [] => evaluate_stdin stdin
  | [arg] => if String.eqb arg "-h" || String.eqb arg "--help" then Ok print_usage else evaluate_file arg
  | _ => Err usage
  end.

(** [main]: the exit code, the standard output and whether an error was reported. *)
Definition main (args : list string) (stdin : string) : Z * string * bool :=
  match run args stdin with
  | Ok out => (0, out, false)
  | Err _ => (1, "", true)
  end.
End evaluate.

End Kernel.

(** ** Agreement with the shadow evaluator *)

(** An empty string of the Go request is an absent option of the kernel's. *)
Definition opt (s : string) : option string := if String.eqb s "" then None else Some s.

Definition kernel_document (d : PolicyDocument) : Kernel.PolicyDocument :=
  Kernel.mkPolicyDocument (pd_URI d) (pd_SHA256 d) (pd_ContentType d).

(** The same request on both sides. *)
Record same_request (g : Request) (k : Kernel.AuthzRequest) : Prop := {
  same_schema : Kernel.schema_version k = rq_SchemaVersion g;
  same_id : Kernel.request_id k = rq_RequestID g;
  same_method : Kernel.method k = rq_Method g;
  same_uri : Kernel.resource_uri k = rq_ResourceURI g;
  same_agent : Kernel.agent_webid k = opt (rq_AgentWebID g);
  same_client : Kernel.client_id k = opt (rq_ClientID g);
  same_issuer : Kernel.issuer k = opt (rq_Issuer g);
  same_origin : Kernel.origin k = opt (rq_Origin g);
  same_modes : map Kernel.mode_name (Kernel.requested_modes k) = rq_RequestedModes g;
  same_rversion : Kernel.resource_version k = opt (rq_ResourceVersion g);
  same_pversion : Kernel.policy_version k = opt (rq_PolicyVersion g);
  same_metadata : Kernel.resource_metadata k = rq_ResourceMetadata g;
  same_documents : Kernel.policy_documents k = map kernel_document (rq_PolicyDocuments g);
  same_now : Kernel.now_unix k = rq_NowUnix g
}.

Definition decision_name (d : Kernel.Decision) : string :=
  match d with Kernel.Allow => "allow" | Kernel.Deny => "deny" | Kernel.Abstain => "abstain" end.

Definition reason_name (r : Kernel.ReasonCode) : string :=
  match r with
  | Kernel.KernelAbstainShadowMode => "kernel_abstain_shadow_mode"
  | Kernel.InvalidRequest => "invalid_request"
  | Kernel.UnsupportedSchemaVersion => "unsupported_schema_version"
  | Kernel.MissingRequestedModes => "missing_requested_modes"
  | Kernel.UnsafeResourceUri => "unsafe_resource_uri"
  | Kernel.PolicyNotLoaded => "policy_not_loaded"
  | Kernel.PolicyAllow => "policy_allow"
  | Kernel.PolicyDeny => "policy_deny"
  | Kernel.KernelError => "kernel_error"
  end.

(** A decision of the kernel in Go's terms: the enums by their names, an absent option as the
    zero value. *)
Definition go_decision (d : Kernel.AuthzDecision) : Decision :=
  mkDecision (Kernel.dec_schema_version d) (Kernel.dec_request_id d)
    (decision_name (Kernel.dec_decision d)) (reason_name (Kernel.dec_reason_code d))
    (default 0 (Kernel.dec_status_hint d)) (Kernel.dec_cache_ttl_seconds d)
    (default "" (Kernel.dec_policy_version d)) (default "" (Kernel.dec_resource_version d))
    (mkAudit (Kernel.request_hash (Kernel.dec_audit d)) (Kernel.policy_hash (Kernel.dec_audit d)))
    "" "" "" false false.

Lemma push_option_opt (name s : string) : Kernel.push_option name (opt s) = pushOptionalField name s.
Proof. unfold opt, pushOptionalField. by destruct (String.eqb s ""). Qed.

Lemma default_opt (s : string) : default "" (opt s) = s.
Proof. unfold opt. by destruct (String.eqb_spec s "") as [->|]. Qed.

Lemma sort_by_ext {A} (less less' : A -> A -> bool) (l : list A) :
  (forall a b, less a b = less' a b) -> sort_by less l = sort_by less' l.
Proof.
  intros Hl. unfold sort_by. generalize (@nil A) as acc. induction l as [|x l IH]; intros acc; [done|].
  cbn [foldl]. rewrite IH. f_equal. clear IH. induction acc as [|y acc IHa]; [done|].
  cbn [insert_by]. by rewrite Hl, IHa.
Qed.

Lemma push_modes_agree (modes : list Kernel.AccessMode) :
  Kernel.push_modes modes = pushModes (map Kernel.mode_name modes).
Proof.
  unfold Kernel.push_modes, pushModes.
  rewrite <- (sort_by_map Kernel.mode_name (fun a b => accessModeRank a <? accessModeRank b)), map_map.
  do 2 f_equal. apply sort_by_ext. by intros [] [].
Qed.

Lemma document_less_agree (a b : PolicyDocument) :
  Kernel.document_less (kernel_document a) (kernel_document b) = policyDocumentLess a b.
Proof.
  unfold Kernel.document_less, policyDocumentLess, kernel_document.
  cbn [Kernel.uri Kernel.sha256 Kernel.content_type].
  assert (forall s t X, match String.compare s t with Lt => true | Gt => false | Eq => X end =
    if negb (String.eqb s t) then String.ltb s t else X) as Hc.
  { intros s t X. unfold String.ltb. destruct (String.eqb_spec s t) as [->|Hne]; cbn [negb].
    - pose proof (String.compare_antisym t t) as Ha. by destruct (String.compare t t).
    - destruct (String.compare s t) eqn:E; try done. by apply String.compare_eq_iff in E. }
  rewrite (Hc (pd_URI a)), (Hc (pd_SHA256 a)). done.
Qed.

Lemma canonical_documents_agree (docs : list PolicyDocument) :
  Kernel.canonical_policy_documents (map kernel_document docs) = canonicalPolicyDocuments docs.
Proof.
  unfold Kernel.canonical_policy_documents, canonicalPolicyDocuments.
  rewrite <- (sort_by_map kernel_document Kernel.document_less), map_map.
  rewrite (sort_by_ext _ policyDocumentLess) by apply document_less_agree. done.
Qed.

(** Both sides hash the same text. *)
Lemma canonical_request_agree (g : Request) (k : Kernel.AuthzRequest) :
  same_request g k -> Kernel.canonical_request k = canonicalRequest g.
Proof.
  intros [E1 E2 E3 E4 E5 E6 E7 E8 E9 E10 E11 E12 E13 E14].
  unfold Kernel.canonical_request, canonicalRequest, Kernel.btree_iter.
  rewrite E1, E2, E3, E4, E5, E6, E7, E8, E10, E11, E12, E14, !push_option_opt, push_modes_agree, E9, map_map.
  reflexivity.
Qed.

Lemma request_id_agree (s : string) : Kernel.is_valid_request_id s 128 = validToken s 128.
Proof.
  unfold Kernel.is_valid_request_id, validToken. rewrite Z.leb_antisym.
  destruct (String.eqb s ""), (128 <? len s); done.
Qed.

Lemma method_agree (s : string) : Kernel.is_supported_method s = supportedMethod s.
Proof.
  unfold Kernel.is_supported_method, supportedMethod, modesForMethod. cbn [existsb].
  destruct (String.eqb s "GET"), (String.eqb s "HEAD"), (String.eqb s "OPTIONS"), (String.eqb s "POST"),
    (String.eqb s "PUT"), (String.eqb s "PATCH"), (String.eqb s "DELETE"); reflexivity.
Qed.

Section agreement.
Variable Sha256_digest : string -> list Z.
Variable hex_encode : list Z -> string.
Hypothesis digest_spec : forall s, Sha256_digest s = Sum256 s.
Hypothesis hex_spec : forall l, hex_encode l = hex_EncodeToString l.

Lemma audit_agree (g : Request) (k : Kernel.AuthzRequest) :
  same_request g k ->
  Kernel.audit_fields Sha256_digest hex_encode k =
    Kernel.mkAuditFields (au_RequestHash (AuditForRequest g)) (au_PolicyHash (AuditForRequest g)).
Proof.
  intros Hs. unfold Kernel.audit_fields, Kernel.sha256_hex. rewrite !hex_spec, !digest_spec.
  rewrite (canonical_request_agree g k Hs), (same_documents _ _ Hs), canonical_documents_agree. done.
Qed.

Lemma decision_agree (g : Request) (k : Kernel.AuthzRequest) (d : Kernel.Decision)
    (reason : Kernel.ReasonCode) (hint : option Z) :
  same_request g k ->
  go_decision (Kernel.decision k (Kernel.audit_fields Sha256_digest hex_encode k) d reason hint 0
                 Kernel.default_config) =
    shadowDecision g (AuditForRequest g) (decision_name d) (reason_name reason) (default 0 hint).
Proof.
  intros Hs. rewrite (audit_agree g k Hs). unfold Kernel.decision, go_decision, shadowDecision.
  cbn [Kernel.dec_schema_version Kernel.dec_request_id Kernel.dec_decision Kernel.dec_reason_code
       Kernel.dec_status_hint Kernel.dec_cache_ttl_seconds Kernel.dec_policy_version
       Kernel.dec_resource_version Kernel.dec_audit Kernel.request_hash Kernel.policy_hash].
  rewrite (same_pversion _ _ Hs), (same_rversion _ _ Hs), !default_opt. f_equal; try done.
  unfold Kernel.decision_request_id, decisionRequestID. cbn [Kernel.max_request_id_len Kernel.default_config Kernel.request_hash].
  rewrite (same_id _ _ Hs), request_id_agree. destruct (validToken _ _); [done|].
  cbn [au_RequestHash AuditForRequest]. rewrite sha256Hex_length. done.
Qed.

(** A URI with the scheme in lower case, as the kernel compares it. *)
Definition lower_scheme (uri : string) : bool := HasPrefix uri "https://" || HasPrefix uri "http://".

Lemma contains_any (uri : string) :
  ContainsAny uri "\#" = false ->
  string_existsb (fun c => Ascii.eqb c "\") uri = false /\ Contains uri "#" = false.
Proof.
  unfold ContainsAny. induction uri as [|c uri IH]; [done|]. rewrite !string_existsb_cons, Contains_cons.
  intros H. apply orb_false_iff in H as [Hc Hu]. destruct (IH Hu) as [-> ->].
  unfold char_in in Hc. rewrite !string_existsb_cons in Hc. rewrite !orb_false_r.
  apply orb_false_iff in Hc as [H1 H2]. apply orb_false_iff in H2 as [H2 _].
  change (String.prefix "#" (String c uri)) with (HasPrefix (String c uri) "#"). rewrite HasPrefix_head.
  by rewrite H1, Ascii.eqb_sym, H2.
Qed.

Lemma safe_uri_agree (uri : string) :
  validResourceURI uri = true -> Kernel.is_safe_resource_uri uri 4096 = lower_scheme uri.
Proof.
  unfold validResourceURI, Kernel.is_safe_resource_uri. intros H.
  destruct (String.eqb uri "" || (4096 <? len uri)); [done|].
  destruct (ContainsAny uri "\#") eqn:Ha; [done|]. apply contains_any in Ha as [Hb ->].
  destruct (string_existsb is_control uri) eqn:Hc; [done|].
  assert (string_existsb (fun c => Kernel.is_ascii_control c || Ascii.eqb c "\") uri = false) as ->; [|done].
  clear H. induction uri as [|c uri IH]; [done|]. rewrite string_existsb_cons in *.
  apply orb_false_iff in Hb as [Hb1 Hb2], Hc as [Hc1 Hc2]. rewrite IH, Hb1, !orb_false_r by done.
  unfold is_control in Hc1. unfold Kernel.is_ascii_control. bool_prop. by decide_tests.
Qed.

(** The checks both sides make, apart from the URI. *)
Definition shared_failure (g : Request) : bool :=
  negb (String.eqb (rq_SchemaVersion g) SchemaVersion) || negb (validToken (rq_RequestID g) 128)
  || negb (supportedMethod (rq_Method g)) || bool_decide (rq_RequestedModes g = []).

Lemma no_modes_agree (g : Request) (k : Kernel.AuthzRequest) :
  same_request g k -> bool_decide (Kernel.requested_modes k = []) = bool_decide (rq_RequestedModes g = []).
Proof.
  intros Hs. rewrite <- (same_modes _ _ Hs). by destruct (Kernel.requested_modes k).
Qed.

Lemma kernel_decides (env : Env) (g : Request) (k : Kernel.AuthzRequest) :
  env_ctx env = None -> same_request g k ->
  let kd := Kernel.evaluate Sha256_digest hex_encode k Kernel.default_config in
  dc_Audit (go_decision kd) = AuditForRequest g /\
  (shared_failure g = true \/ requestCheck g = None /\ lower_scheme (rq_ResourceURI g) = true ->
     (ShadowEvaluator_Evaluate env NewShadowEvaluator g).2 = Ok (go_decision kd)) /\
  (requestCheck g = None -> lower_scheme (rq_ResourceURI g) = false ->
     go_decision kd = shadowDecision g (AuditForRequest g) DecisionDeny ReasonUnsafeResourceURI 400).
Proof.
  intros Hctx Hs kd. pose proof (decision_agree g k) as Hd.
  subst kd. unfold Kernel.evaluate, ShadowEvaluator_Evaluate. rewrite Hctx.
  rewrite (same_schema _ _ Hs), (same_id _ _ Hs), (same_method _ _ Hs), (same_uri _ _ Hs), (no_modes_agree g k Hs).
  cbn [Kernel.max_request_id_len Kernel.max_resource_uri_len Kernel.shadow_mode Kernel.default_config].
  rewrite request_id_agree, method_agree. change Kernel.SCHEMA_VERSION with SchemaVersion.
  unfold requestCheck, shared_failure.
  destruct (String.eqb (rq_SchemaVersion g) SchemaVersion); cbn [negb orb];
    [|rewrite Hd by done; split_and!; [reflexivity|reflexivity|discriminate]].
  destruct (validToken (rq_RequestID g) 128); cbn [negb orb];
    [|rewrite Hd by done; split_and!; [reflexivity|reflexivity|discriminate]].
  destruct (supportedMethod (rq_Method g)); cbn [negb orb];
    [|rewrite Hd by done; split_and!; [reflexivity|reflexivity|discriminate]].
  destruct (bool_decide (rq_RequestedModes g = []));
    [rewrite Hd by done; split_and!; [reflexivity|reflexivity|discriminate]|].
  destruct (validResourceURI (rq_ResourceURI g)) eqn:Hu; cbn [negb].
  - rewrite (safe_uri_agree _ Hu). destruct (lower_scheme (rq_ResourceURI g)); cbn [negb].
    + rewrite Hd by done. split; [reflexivity|]. split; [|intros _; discriminate].
      destruct (is_ok (ValidateRequest g)); cbn [negb]; [reflexivity|]. intros [|[? _]]; discriminate.
    + rewrite Hd by done. split; [reflexivity|]. split; [|reflexivity].
      intros [|[_ ?]]; discriminate.
  - split; [|split; [intros [|[? _]]; discriminate|discriminate]].
    destruct (negb _); rewrite Hd by done; reflexivity.
Qed.

(** The check the kernel makes, as the reason of its refusal. *)
Definition kernelCheck (g : Request) : option string :=
  if negb (String.eqb (rq_SchemaVersion g) SchemaVersion) then Some ReasonUnsupportedSchema
  else if negb (validToken (rq_RequestID g) 128) || negb (supportedMethod (rq_Method g)) then Some ReasonInvalidRequest
  else if bool_decide (rq_RequestedModes g = []) then Some ReasonMissingRequestedModes
  else if negb (Kernel.is_safe_resource_uri (rq_ResourceURI g) 4096) then Some ReasonUnsafeResourceURI
  else None.

(** The decision for a check. *)
Definition checked (g : Request) (check : option string) : Decision :=
  match check with
  | Some reason => shadowDecision g (AuditForRequest g) DecisionDeny reason 400
  | None => shadowDecision g (AuditForRequest g) DecisionAbstain ReasonKernelAbstainShadowMode 0
  end.

Lemma checked_inj (g : Request) (c c' : option string) : checked g c = checked g c' -> c = c'.
Proof. intros H. destruct c, c'; try discriminate; [|done]. by injection H as ->. Qed.

Lemma shadow_checked (env : Env) (g : Request) :
  env_ctx env = None -> (ShadowEvaluator_Evaluate env NewShadowEvaluator g).2 = Ok (checked g (requestCheck g)).
Proof. intros Hctx. unfold ShadowEvaluator_Evaluate, checked. rewrite Hctx. by destruct (requestCheck g). Qed.

Lemma kernel_checked (g : Request) (k : Kernel.AuthzRequest) :
  same_request g k -> go_decision (Kernel.evaluate Sha256_digest hex_encode k Kernel.default_config) = checked g (kernelCheck g).
Proof.
  intros Hs. pose proof (fun d reason hint => decision_agree g k d reason hint Hs) as Hd. unfold Kernel.evaluate, kernelCheck.
  rewrite (same_schema _ _ Hs), (same_id _ _ Hs), (same_method _ _ Hs), (same_uri _ _ Hs), (no_modes_agree g k Hs).
  cbn [Kernel.max_request_id_len Kernel.max_resource_uri_len Kernel.shadow_mode Kernel.default_config].
  rewrite request_id_agree, method_agree. change Kernel.SCHEMA_VERSION with SchemaVersion.
  by repeat (break_if; [apply Hd|]).
Qed.

(** The requests on which both sides decide alike: a check they share fails; or the sidecar finds
    the request valid and its URI has the scheme in lower case; or both refuse the URI. *)
Definition sides_agree (g : Request) : bool :=
  shared_failure g ||
  (if validResourceURI (rq_ResourceURI g) then is_ok (ValidateRequest g) && lower_scheme (rq_ResourceURI g)
   else negb (Kernel.is_safe_resource_uri (rq_ResourceURI g) 4096)).

Lemma checks_agree (g : Request) : requestCheck g = kernelCheck g <-> sides_agree g = true.
Proof.
  unfold requestCheck, kernelCheck, sides_agree, shared_failure.
  destruct (String.eqb (rq_SchemaVersion g) SchemaVersion); [|done]. destruct (validToken (rq_RequestID g) 128); [|done].
  destruct (supportedMethod (rq_Method g)); [|done]. destruct (bool_decide (rq_RequestedModes g = [])); [done|]. cbn [negb orb].
  destruct (validResourceURI (rq_ResourceURI g)) eqn:Hu; cbn [negb].
  - rewrite (safe_uri_agree _ Hu). by destruct (is_ok (ValidateRequest g)), (lower_scheme (rq_ResourceURI g)).
  - by destruct (Kernel.is_safe_resource_uri _ _).
Qed.

(** C7: For the same request the kernel, written in Rust, and the shadow evaluator of the sidecar,
    written in Go, compute the same audit hashes, and return the same decision exactly when a check
    they share fails, or the sidecar finds the request valid and its URI has the scheme in lower
    case, or both refuse the URI.  On all other requests they differ: where the kernel finds the
    URI safe, it abstains and the sidecar denies; where it does not, it denies the URI, and the
    sidecar abstains or denies for another reason. *)
Theorem kernel_agrees_with_shadow (env : Env) (g : Request) (k : Kernel.AuthzRequest) :
  env_ctx env = None -> same_request g k ->
  let kd := go_decision (Kernel.evaluate Sha256_digest hex_encode k Kernel.default_config) in
  let shadow := (ShadowEvaluator_Evaluate env NewShadowEvaluator g).2 in
  dc_Audit kd = AuditForRequest g /\
  (shadow = Ok kd <-> sides_agree g = true) /\
  (sides_agree g = false -> exists d, shadow = Ok d /\
     if Kernel.is_safe_resource_uri (rq_ResourceURI g) 4096
     then dc_Decision kd = DecisionAbstain /\ dc_Decision d = DecisionDeny
     else dc_Decision kd = DecisionDeny /\ dc_ReasonCode kd = ReasonUnsafeResourceURI /\
          (requestCheck g = None /\ dc_Decision d = DecisionAbstain \/
           dc_Decision d = DecisionDeny /\ dc_ReasonCode d <> ReasonUnsafeResourceURI)).
Proof.
  intros Hctx Hs kd shadow. subst kd shadow. rewrite (kernel_checked g k Hs), (shadow_checked env g Hctx). split; [by destruct (kernelCheck g)|].
  split. { rewrite <- checks_agree. split; [intros [= H%checked_inj]; done|by intros ->]. }
  intros Hno. eexists. split; [done|]. assert (requestCheck g <> kernelCheck g) as Hne by (rewrite checks_agree, Hno; done).
  assert (shared_failure g = false) as Hf by (unfold sides_agree in Hno; by apply orb_false_iff in Hno as [? _]).
  unfold shared_failure in Hf. bool_prop. unfold requestCheck, kernelCheck in Hne |- *. repeat match goal with H : _ = true |- _ => rewrite H in * | H : _ = false |- _ => rewrite H in * end.
  cbn [negb orb] in *. destruct (Kernel.is_safe_resource_uri _ _); cbn [negb] in *; repeat break_if; cbn; naive_solver.
Qed.
End agreement.

Definition go_sample (uri : string) : Request :=
  mkRequest SchemaVersion "req-1" "GET" uri "https://pod.example/bob#me" "" "" "" [AccessModeWrite; AccessModeRead]
    "" "v1" "" "" {["k" := "v"]} [] 1700000000.

Definition kernel_sample (uri : string) : Kernel.AuthzRequest :=
  Kernel.mkAuthzRequest "authz.v1" "req-1" "GET" uri (Some "https://pod.example/bob#me") None None None
    [Kernel.Write; Kernel.Read] None (Some "v1") {["k" := "v"]} [] 1700000000.

Lemma samples_same (uri : string) : same_request (go_sample uri) (kernel_sample uri).
Proof. by constructor. Qed.

(** Decisions on a usual URI, on one with another spelling of the scheme, and on one without a
    host. *)
Lemma kernel_agrees_with_shadow_witness :
  let kd uri := go_decision (Kernel.evaluate Sum256 hex_EncodeToString (kernel_sample uri) Kernel.default_config) in
  let env := mkEnv None (fun _ => 0) in
  (ShadowEvaluator_Evaluate env NewShadowEvaluator (go_sample "https://pod.example/a")).2 =
    Ok (kd "https://pod.example/a") /\
  dc_Decision (kd "HTTPS://pod.example/a") = DecisionDeny /\
  dc_Decision (kd "https:///a") = DecisionAbstain.
Proof.
  intros kd env.
  assert (forall uri, env_ctx env = None /\ same_request (go_sample uri) (kernel_sample uri)) as Hs by (intros uri; split; [reflexivity|apply samples_same]).
  split; [|split].
  - apply (kernel_agrees_with_shadow Sum256 hex_EncodeToString (fun _ => eq_refl) (fun _ => eq_refl) env _ _ (proj1 (Hs ""))
      (proj2 (Hs "https://pod.example/a"))).
    vm_compute; reflexivity.
  - destruct (kernel_agrees_with_shadow Sum256 hex_EncodeToString (fun _ => eq_refl) (fun _ => eq_refl) env _ _ (proj1 (Hs ""))
      (proj2 (Hs "HTTPS://pod.example/a"))) as (_ & _ & H).
    destruct (H ltac:(vm_compute; reflexivity)) as (d & _ & Hd & _). exact Hd.
  - destruct (kernel_agrees_with_shadow Sum256 hex_EncodeToString (fun _ => eq_refl) (fun _ => eq_refl) env _ _ (proj1 (Hs ""))
      (proj2 (Hs "https:///a"))) as (_ & _ & H).
    destruct (H ltac:(vm_compute; reflexivity)) as (d & _ & Hd & _). exact Hd.
Defined.
