(* ===== verification/ExternalEvaluator.v ===== *)
(** * The external evaluator

    [internal/authz/external_evaluator.go]: an evaluator that runs a command, writes the
    request to its standard input and reads the decision from its standard output, with
    bounded buffers.  Running a command is a parameter.  Run with the policy kernel, the
    external evaluator returns the decisions of the shadow evaluator. *)

From S2P Require Import Prelude GoStrings GoURL GoHash GoGlob GoJSON GoUTF8 JSONPrint GoBase64.
From S2P Require Import AuthzTypes AuthzCodec Evaluator PolicyKernel.

Local Open Scope Z_scope.

(** ** Bounded buffers *)

Record limitedBuffer := mkBuffer { lb_buf : string; lb_limit : Z; lb_full : bool }.

Definition newLimitedBuffer (limit : Z) : limitedBuffer := mkBuffer "" limit false.

(** [Write]: the new buffer, and whether the writer is told to go on. *)
Definition Write (p : string) (b : limitedBuffer) : limitedBuffer * bool :=
  if lb_full b then (b, false)
  else if lb_limit b <? len (lb_buf b) + len p then
    let remaining := lb_limit b - len (lb_buf b) in
    let buf := if 0 <? remaining then String.append (lb_buf b) (stake (Z.to_nat remaining) p) else lb_buf b in
    (mkBuffer buf (lb_limit b) true, false)
  else (mkBuffer (String.append (lb_buf b) p) (lb_limit b) false, true).

(** [io.Copy] of the pieces a command writes: the first error ends it. *)
Fixpoint copy (chunks : list string) (b : limitedBuffer) : limitedBuffer :=
  match chunks with
  | [] => b
  | p :: rest => let '(b', go) := Write p b in if go then copy rest b' else b'
  end.

(** ** Construction *)

Definition DefaultExternalEvaluatorTimeout : Z := 2 * second.
Definition DefaultExternalEvaluatorMaxOutputBytes : Z := 64 * 1024.

Record ExternalCLIEvaluatorOptions := mkExternalOptions {
  eo_Command : string;
  eo_Args : list string;
  eo_Timeout : Z;
  eo_MaxOutputBytes : Z
}.

Record ExternalCLIEvaluator := mkExternal {
  ex_command : string;
  ex_args : list string;
  ex_timeout : Z;
  ex_maxOutputBytes : Z
}.

Definition containsControlCharacter (value : string) : bool := string_existsb is_control value.

Definition NewExternalCLIEvaluator (o : ExternalCLIEvaluatorOptions) : result string ExternalCLIEvaluator :=
  let command := TrimSpace (eo_Command o) in
  fail! "command is required" when String.eqb command "" || containsControlCharacter command in
  fail! "command arguments must not contain control characters"
    when existsb containsControlCharacter (eo_Args o) in
  let timeout := if eo_Timeout o =? 0 then DefaultExternalEvaluatorTimeout else eo_Timeout o in
  fail! "timeout must be positive" when timeout <=? 0 in
  let maxOutputBytes := if eo_MaxOutputBytes o =? 0 then DefaultExternalEvaluatorMaxOutputBytes
                        else eo_MaxOutputBytes o in
  fail! "max output bytes must be positive" when maxOutputBytes <=? 0 in
  Ok (mkExternal command (eo_Args o) timeout maxOutputBytes).

(** ** Evaluation *)

(** What running a command produced: the pieces written to its two outputs, its exit code
    ([None] when it was not started or was killed), and whether the deadline had passed. *)
Record run := mkRun {
  run_stdout : list string;
  run_stderr : list string;
  run_exit : option Z;
  run_expired : bool
}.

Definition ErrExternalEvaluatorOutputSize : eval_error := ErrExternal "output too large".
Definition ErrExternalEvaluatorExecution (detail : string) : eval_error :=
  ErrExternal (String.append "execution failed" detail).
Definition ErrExternalEvaluatorOutput (detail : string) : eval_error :=
  ErrExternal (String.append "output invalid" detail).

Section evaluate.
(** Runs the command with the arguments, the standard input and the timeout. *)
Variable execute : string -> list string -> string -> Z -> run.

Definition External_Evaluate (env : Env) (e : ExternalCLIEvaluator) (rq : Request)
  : ExternalCLIEvaluator * result eval_error Decision :=
  (e, match env_ctx env with
      | Some err => Err (ErrContext err)
      | None =>
          match EncodeRequest rq with
          | Err _ => Err (ErrExternalEvaluatorOutput ": encode request")
          | Ok encoded =>
              let r := execute (ex_command e) (ex_args e) (String.append encoded (String (chr 10) "")) (ex_timeout e) in
              let stdout := copy (run_stdout r) (newLimitedBuffer (ex_maxOutputBytes e)) in
              let stderr := copy (run_stderr r) (newLimitedBuffer 4096) in
              if lb_full stdout || lb_full stderr then Err ErrExternalEvaluatorOutputSize
              else if negb (bool_decide (run_exit r = Some 0)) then
                if run_expired r then Err (ErrExternalEvaluatorExecution ": timeout")
                else Err (ErrExternalEvaluatorExecution "")
              else
                let decisionBytes := TrimSpace (lb_buf stdout) in
                if String.eqb decisionBytes "" then Err (ErrExternalEvaluatorOutput ": empty decision")
                else match DecodeDecision decisionBytes with
                     | Err _ => Err (ErrExternalEvaluatorOutput ": decode decision")
                     | Ok d => Ok d
                     end
          end
      end).
End evaluate.

(** ** Buffers *)

Lemma copy_within (chunks : list string) (limit : Z) (buf : string) :
  len buf + len (concat_str chunks) <= limit ->
  copy chunks (mkBuffer buf limit false) = mkBuffer (String.append buf (concat_str chunks)) limit false.
Proof.
  revert buf. induction chunks as [|p chunks IH]; intros buf Hlen.
  { cbn [copy concat_str foldr]. by rewrite str_app_nil_r. }
  cbn [concat_str foldr] in *. fold (concat_str chunks) in *. unfold len in *. rewrite str_length_app in Hlen.
  cbn [copy]. unfold Write. cbn [lb_full lb_limit lb_buf]. unfold len.
  destruct (_ <? _) eqn:E; bool_prop; [lia|]. rewrite IH, str_app_assoc; [done|].
  unfold len. rewrite str_length_app. lia.
Qed.

(** More output than the limit fills the buffer, which never holds more. *)
Lemma copy_over (chunks : list string) (limit : Z) (buf : string) :
  len buf <= limit -> limit < len buf + len (concat_str chunks) ->
  lb_full (copy chunks (mkBuffer buf limit false)) = true /\
  len (lb_buf (copy chunks (mkBuffer buf limit false))) <= limit.
Proof.
  revert buf. induction chunks as [|p chunks IH]; intros buf Hb Hlen.
  { cbn in Hlen. unfold len in *. cbn in Hlen. lia. }
  cbn [concat_str foldr] in *. fold (concat_str chunks) in *. unfold len in Hlen. rewrite str_length_app in Hlen.
  cbn [copy]. unfold Write. cbn [lb_full lb_limit lb_buf]. destruct (limit <? len buf + len p) eqn:E; bool_prop.
  - cbn [lb_full lb_buf]. split; [done|]. destruct (0 <? limit - len buf) eqn:E2; bool_prop; [|done].
    unfold len in *. rewrite str_length_app, stake_length. lia.
  - apply IH; unfold len in *; rewrite str_length_app; lia.
Qed.

(** ** The evaluator keeps the contract of the interface *)

#[export] Instance External_Evaluator (execute : string -> list string -> string -> Z -> run) :
  Evaluator ExternalCLIEvaluator := External_Evaluate execute.

Lemma DecodeDecision_valid (input : string) (d : Decision) :
  DecodeDecision input = Ok d -> ValidateDecision d = Ok tt.
Proof.
  unfold DecodeDecision. destruct (decode_document _ _ _ _) as [x|]; [|done]. cbn.
  destruct (ValidateDecision x) as [[]|] eqn:E; [|done]. by intros [= <-].
Qed.

#[export] Instance External_sound (execute : string -> list string -> string -> Z -> run) :
  @EvaluatorSound ExternalCLIEvaluator (External_Evaluator execute).
Proof.
  intros env e rq e' d. unfold Evaluate, External_Evaluator, External_Evaluate. intros [= _ H].
  destruct (env_ctx env); [done|]. destruct (EncodeRequest rq); [|done]. cbv zeta in H.
  repeat (match type of H with (if ?b then _ else _) = _ => destruct b; try discriminate H end).
  destruct (DecodeDecision _) as [d'|] eqn:E; [|done]. injection H as <-. by eapply DecodeDecision_valid.
Qed.

(** ** What [serde] promises *)

(** The member with a name. *)
Definition field (ms : list (string * json)) (name : string) : option json :=
  snd <$> List.find (fun m => String.eqb m.1 name) ms.

Definition kernel_fields : list string :=
  ["schema_version"; "request_id"; "method"; "resource_uri"; "agent_webid"; "client_id"; "issuer"; "origin";
   "requested_modes"; "resource_version"; "policy_version"; "resource_metadata"; "policy_documents"; "now_unix"].

(** The text of a map or a list; a field with a default may be absent. *)
Definition metadata_member (j : option json) (m : gmap string string) : Prop :=
  match j with
  | None => m = ∅
  | Some (TObj kvs) => NoDup kvs.*1 /\ (forall k v, (k, v) ∈ kvs <-> exists s, v = TStr s /\ m !! k = Some s)
  | _ => False
  end.

Definition document_member (j : json) (d : Kernel.PolicyDocument) : Prop :=
  j = TObj [("uri", TStr (Kernel.uri d)); ("sha256", TStr (Kernel.sha256 d));
            ("content_type", TStr (Kernel.content_type d))].

Definition documents_member (j : option json) (ds : list Kernel.PolicyDocument) : Prop :=
  match j with
  | None => ds = []
  | Some (TArr js) => Forall2 document_member js ds
  | _ => False
  end.

(** The members of an object that the derived [Deserialize] of [AuthzRequest] reads as [r]. *)
Record deserializes (ms : list (string * json)) (r : Kernel.AuthzRequest) : Prop := {
  de_distinct : NoDup ms.*1;
  de_known : forall k, k ∈ ms.*1 -> k ∈ kernel_fields;
  de_schema : field ms "schema_version" = Some (TStr (Kernel.schema_version r));
  de_id : field ms "request_id" = Some (TStr (Kernel.request_id r));
  de_method : field ms "method" = Some (TStr (Kernel.method r));
  de_uri : field ms "resource_uri" = Some (TStr (Kernel.resource_uri r));
  de_agent : field ms "agent_webid" = TStr <$> Kernel.agent_webid r;
  de_client : field ms "client_id" = TStr <$> Kernel.client_id r;
  de_issuer : field ms "issuer" = TStr <$> Kernel.issuer r;
  de_origin : field ms "origin" = TStr <$> Kernel.origin r;
  de_modes : field ms "requested_modes" =
    Some (TArr (map (fun m => TStr (Kernel.mode_name m)) (Kernel.requested_modes r)));
  de_rversion : field ms "resource_version" = TStr <$> Kernel.resource_version r;
  de_pversion : field ms "policy_version" = TStr <$> Kernel.policy_version r;
  de_metadata : metadata_member (field ms "resource_metadata") (Kernel.resource_metadata r);
  de_documents : documents_member (field ms "policy_documents") (Kernel.policy_documents r);
  de_now : field ms "now_unix" = Some (TInt (Kernel.now_unix r)) /\ 0 <= Kernel.now_unix r < 2 ^ 64
}.

(** The members the derived [Serialize] of [AuthzDecision] writes, in the order of the
    fields and without the absent options. *)
Definition serialized (d : Kernel.AuthzDecision) : list (string * json) :=
  [("schema_version", TStr (Kernel.dec_schema_version d)); ("request_id", TStr (Kernel.dec_request_id d));
   ("decision", TStr (decision_name (Kernel.dec_decision d)));
   ("reason_code", TStr (reason_name (Kernel.dec_reason_code d)))]
  ++ match Kernel.dec_status_hint d with Some h => [("status_hint", TInt h)] | None => [] end
  ++ [("cache_ttl_seconds", TInt (Kernel.dec_cache_ttl_seconds d))]
  ++ match Kernel.dec_policy_version d with Some v => [("policy_version", TStr v)] | None => [] end
  ++ match Kernel.dec_resource_version d with Some v => [("resource_version", TStr v)] | None => [] end
  ++ [("audit", TObj [("request_hash", TStr (Kernel.request_hash (Kernel.dec_audit d)));
                      ("policy_hash", TStr (Kernel.policy_hash (Kernel.dec_audit d)))])].

(** A member of a document without the text of its value. *)
Definition bare (m : string * JValue * string) : string * JValue := (m.1.1, m.1.2).

Class Serde := {
  from_str : string -> option Kernel.AuthzRequest;
  to_writer_pretty : Kernel.AuthzDecision -> string;
  (* [#[derive(Deserialize)]] on a JSON object within the recursion limit, a line feed after it *)
  from_str_ok : forall ms r,
    valid_text (TObj ms) = true -> (height (TObj ms) <= 127)%nat -> deserializes ms r ->
    from_str (String.append (print (TObj ms)) (String (chr 10) "")) = Some r;
  (* [#[serde(deny_unknown_fields)]] *)
  from_str_unknown : forall ms k,
    valid_text (TObj ms) = true -> (height (TObj ms) <= 127)%nat -> k ∈ ms.*1 -> k ∉ kernel_fields ->
    from_str (String.append (print (TObj ms)) (String (chr 10) "")) = None;
  (* one JSON object, from its opening to its closing bracket *)
  to_writer_shape : forall d, exists inner,
    to_writer_pretty d = String "{" (String.append inner "}");
  to_writer_ok : forall d,
    valid_text (TObj (serialized d)) = true ->
    exists ms, parse_json (to_writer_pretty d) = Some (JObject ms) /\
      map bare ms = map (fun m => (m.1, value m.2)) (serialized d)
}.

(** ** The kernel reads what the evaluator writes *)

Definition mode_of (s : string) : option Kernel.AccessMode :=
  if String.eqb s "read" then Some Kernel.Read
  else if String.eqb s "append" then Some Kernel.Append
  else if String.eqb s "write" then Some Kernel.Write
  else if String.eqb s "control" then Some Kernel.Control else None.

Definition kernel_request (g : Request) : Kernel.AuthzRequest :=
  Kernel.mkAuthzRequest (rq_SchemaVersion g) (rq_RequestID g) (rq_Method g) (rq_ResourceURI g)
    (opt (rq_AgentWebID g)) (opt (rq_ClientID g)) (opt (rq_Issuer g)) (opt (rq_Origin g))
    (omap mode_of (rq_RequestedModes g)) (opt (rq_ResourceVersion g)) (opt (rq_PolicyVersion g))
    (rq_ResourceMetadata g) (map kernel_document (rq_PolicyDocuments g)) (rq_NowUnix g).

Lemma mode_of_name (s : string) :
  validAccessMode s = true -> exists m, mode_of s = Some m /\ Kernel.mode_name m = s.
Proof.
  unfold validAccessMode, mode_of, AccessModeRead, AccessModeAppend, AccessModeWrite, AccessModeControl.
  repeat match goal with |- context [String.eqb s ?x] =>
    destruct (String.eqb_spec s x) as [->|]; [by eexists|] end. done.
Qed.

Lemma modes_of_names (modes : list string) :
  Forall (fun m => validAccessMode m = true) modes -> map Kernel.mode_name (omap mode_of modes) = modes.
Proof.
  induction 1 as [|s modes Hs Hm IH]; [done|]. destruct (mode_of_name s Hs) as (m & Em & En).
  cbn. rewrite Em. cbn. by rewrite En, IH.
Qed.

Lemma kernel_request_same (g : Request) :
  ValidateRequest g = Ok tt -> same_request g (kernel_request g).
Proof.
  intros H. destruct (ValidateRequest_Ok g H) as (_ & _ & _ & _ & _ & Hm & _).
  constructor; try reflexivity. by apply modes_of_names.
Qed.

Lemma field_app (ms ms' : list (string * json)) (name : string) :
  field (ms ++ ms') name = match field ms name with Some j => Some j | None => field ms' name end.
Proof.
  unfold field. induction ms as [|m ms IH]; [done|]. cbn [app List.find].
  by destruct (String.eqb m.1 name).
Qed.

Lemma field_optional (name s k : string) :
  field (optional_str name s) k = if String.eqb name k then TStr <$> opt s else None.
Proof.
  unfold field, optional_str, opt. destruct (String.eqb s ""); cbn [List.find].
  - by destruct (String.eqb name k).
  - cbn [fst]. by destruct (String.eqb name k).
Qed.

(** The request carries nothing the kernel does not know. *)
Definition kernel_compatible (g : Request) : bool :=
  String.eqb (rq_ParserVersion g) "" && String.eqb (rq_EvaluatorVersion g) "" &&
  forallb (fun d => String.eqb (pd_Content d) "") (rq_PolicyDocuments g).

(** The names of the members, as far as they are present, are a part of the names there are. *)
Lemma optional_names (name s : string) : (optional_str name s).*1 `sublist_of` [name].
Proof. unfold optional_str. destruct (String.eqb s ""); [apply sublist_nil_l|done]. Qed.

Lemma request_names_sublist (g : Request) :
  kernel_compatible g = true -> (request_members g).*1 `sublist_of` kernel_fields.
Proof.
  unfold kernel_compatible. intros H. bool_prop. unfold request_members, kernel_fields. rewrite H, H1.
  rewrite !fmap_app.
  change ["schema_version"; "request_id"; "method"; "resource_uri"; "agent_webid"; "client_id"; "issuer"; "origin";
   "requested_modes"; "resource_version"; "policy_version"; "resource_metadata"; "policy_documents"; "now_unix"]
    with (["schema_version"; "request_id"; "method"; "resource_uri"] ++ ["agent_webid"] ++ ["client_id"] ++
      ["issuer"] ++ ["origin"] ++ ["requested_modes"] ++ ["resource_version"] ++ ["policy_version"] ++ [] ++ [] ++
      ["resource_metadata"] ++ ["policy_documents"] ++ ["now_unix"]).
  repeat (apply sublist_app; [first [apply optional_names | done | case_bool_decide; [apply sublist_nil_l|done]]|]).
  done.
Qed.

Lemma metadata_printed (m : gmap string string) :
  metadata_member (if bool_decide (m = ∅) then None else Some (map_json m)) m.
Proof.
  case_bool_decide as Hm; [done|]. unfold map_json. cbn [metadata_member].
  set (ks := sort_by String.ltb (map_to_list m).*1).
  assert (ks ≡ₚ (map_to_list m).*1) as Hp by apply sort_by_perm.
  assert (iter_order ks m) as [Hnd Hin].
  { destruct (iter_order_keys m) as [H1 H2]. split; [by rewrite Hp|]. intros k. by rewrite Hp. }
  split.
  - rewrite <- list_fmap_compose. unfold compose. cbn. by rewrite list_fmap_id.
  - intros k v. rewrite list_elem_of_fmap. split.
    + intros (k' & [= -> ->] & Hk). apply Hin in Hk as [s Hs]. exists s. by rewrite Hs.
    + intros (s & -> & Hs). exists k. rewrite Hs. split; [done|]. apply Hin. eauto.
Qed.

Lemma documents_printed (docs : list PolicyDocument) :
  forallb (fun d => String.eqb (pd_Content d) "") docs = true ->
  documents_member (if bool_decide (docs = []) then None else Some (TArr (map document_json docs)))
    (map kernel_document docs).
Proof.
  intros Hd. case_bool_decide as Hm; [by rewrite Hm|]. clear Hm. cbn [documents_member].
  induction docs as [|d docs IH]; [constructor|]. cbn [forallb map] in *. bool_prop.
  constructor; [|by apply IH]. unfold document_member, document_json. by rewrite H.
Qed.

Lemma field_one (name k : string) (j : json) :
  field [(name, j)] k = if String.eqb name k then Some j else None.
Proof. unfold field. cbn [List.find fst]. by destruct (String.eqb name k). Qed.

Lemma field_unless (b : bool) (name k : string) (j : json) :
  field (if b then [] else [(name, j)]) k = if b then None else if String.eqb name k then Some j else None.
Proof. destruct b; [done|apply field_one]. Qed.

(** The value of a field of the encoded request. *)
Ltac encoded_field :=
  unfold request_members; rewrite !field_app, !field_optional, !field_unless, !field_one;
  cbn [String.eqb Ascii.eqb Bool.eqb field List.find fst snd fmap option_fmap option_map].

Lemma request_deserializes (g : Request) :
  ValidateRequest g = Ok tt -> in_int64 (rq_NowUnix g) -> kernel_compatible g = true ->
  deserializes (request_members g) (kernel_request g).
Proof.
  intros Hv Hnow Hk. pose proof (request_names_sublist g Hk) as Hsub.
  unfold kernel_compatible in Hk. apply andb_true_iff in Hk as [Hk Hdocs].
  destruct (ValidateRequest_Ok g Hv) as (_ & _ & _ & _ & _ & Hm & _ & Hnow0).
  constructor; try (encoded_field; repeat case_match; done || congruence).
  - eapply sublist_NoDup; [|exact Hsub]. apply (bool_decide_unpack _). vm_compute. exact I.
  - intros k Hin. by eapply elem_of_sublist.
  - encoded_field. do 2 f_equal. cbn [kernel_request Kernel.requested_modes].
    rewrite <- (modes_of_names (rq_RequestedModes g) Hm) at 1. by rewrite map_map.
  - assert (field (request_members g) "resource_metadata" =
      if bool_decide (rq_ResourceMetadata g = ∅) then None else Some (map_json (rq_ResourceMetadata g))) as ->
      by (encoded_field; by repeat case_match). apply metadata_printed.
  - assert (field (request_members g) "policy_documents" =
      if bool_decide (rq_PolicyDocuments g = []) then None
      else Some (TArr (map document_json (rq_PolicyDocuments g)))) as ->
      by (encoded_field; by repeat case_match). by apply documents_printed.
  - split; [encoded_field; by repeat case_match|]. cbn [kernel_request Kernel.now_unix].
    unfold in_int64, int64_max in Hnow. lia.
Qed.

(** ** The evaluator reads what the kernel writes *)

Lemma space_right_bracket (s : string) : space_right (String.append s "}") = None.
Proof. apply (space_right_graphic _ "}"); [by apply last_byte_app|reflexivity]. Qed.

Lemma space_right_newline (s : string) : space_right (String.append s (String (chr 10) "")) = Some 1%nat.
Proof. unfold space_right. by rewrite (last_byte_app s _ (chr 10)). Qed.

Lemma TrimSpace_object (inner : string) :
  TrimSpace (String.append (String "{" (String.append inner "}")) (String (chr 10) "")) =
    String "{" (String.append inner "}").
Proof.
  set (obj := String "{" (String.append inner "}")). unfold TrimSpace.
  assert (forall n, trim_space_left n (String.append obj (String (chr 10) "")) =
    String.append obj (String (chr 10) "")) as Hl.
  { intros [|n]; [done|]. unfold obj. rewrite !str_app_cons. reflexivity. }
  cbv zeta. rewrite Hl.
  set (n := String.length _).
  assert (exists k, n = S (S k)) as [k ->].
  { exists (String.length obj - 1)%nat. unfold n. rewrite str_length_app. unfold obj. cbn. lia. }
  cbn [trim_space_right]. rewrite space_right_newline.
  assert (stake (String.length (String.append obj (String (chr 10) "")) - 1) (String.append obj (String (chr 10) "")) = obj) as ->.
  { rewrite str_length_app. cbn [String.length]. rewrite Nat.add_sub. apply stake_app. }
  unfold obj. rewrite <- str_app_cons, space_right_bracket. done.
Qed.

Lemma decode_document_parsed {T} (what : string) (set : string -> JValue -> string -> T -> option T) (init : T)
    (text : string) (v : JValue) :
  parse_json text = Some v ->
  decode_document what set init text =
    match set_struct set v init with Some t => Ok t | None => Err (ErrDecode what) end.
Proof.
  unfold parse_json, decode_document. destruct (parse_value _ _ _) as [[v' rest]|]; [|done].
  destruct (String.eqb _ _) eqn:E; [|done]. intros [= <-]. done.
Qed.

(** A table of fields does not look at the text of a value. *)
Lemma decode_members_bare {T} (fields : list (string * (JValue -> T -> option T)))
    (ms : list (string * JValue * string)) (tree : list (string * json)) (t : T) :
  map bare ms = map (fun m => (m.1, value m.2)) tree ->
  decode_members (known_fields fields) ms t = decode_tree (known_fields fields) tree t.
Proof.
  revert tree t. induction ms as [|[[k v] raw] ms IH]; intros [|[k' j] tree] t Hm; try done.
  injection Hm as -> -> Hm. rewrite decode_tree_cons. cbn [fst snd].
  change (decode_members (known_fields fields) ((k', value j, raw) :: ms) t) with
    (foldl (fun acc m => match acc with
                      | Some t => let '(k, v, raw) := m in known_fields fields k v raw t
                      | None => None
                      end) (known_fields fields k' (value j) raw t) ms).
  change (known_fields fields k' (value j) raw t) with (known_fields fields k' (value j) (print j) t).
  destruct (known_fields fields k' (value j) (print j) t) as [u|].
  - by apply IH.
  - cbn. clear. by induction ms.
Qed.

(** The kernel's decision is written as the evaluator would write it. *)
Lemma serialized_go (d : Kernel.AuthzDecision) :
  Kernel.dec_status_hint d <> Some 0 -> Kernel.dec_policy_version d <> Some "" ->
  Kernel.dec_resource_version d <> Some "" -> serialized d = decision_members (go_decision d).
Proof.
  intros Hh Hp Hr. destruct d as [a b c e h ttl pv rv au].
  cbn [Kernel.dec_status_hint Kernel.dec_policy_version Kernel.dec_resource_version] in *.
  unfold serialized, decision_members, go_decision, optional_str.
  cbn [Kernel.dec_schema_version Kernel.dec_request_id Kernel.dec_decision Kernel.dec_reason_code
       Kernel.dec_status_hint Kernel.dec_cache_ttl_seconds Kernel.dec_policy_version
       Kernel.dec_resource_version Kernel.dec_audit dc_SchemaVersion dc_RequestID dc_Decision dc_ReasonCode
       dc_StatusHint dc_CacheTTLSeconds dc_PolicyVersion dc_ResourceVersion dc_Audit dc_TraceID
       dc_AuthorityMode dc_EnforcementMode dc_StrictMode dc_FallbackToCSS optional_bool].
  assert (match h with Some h => [("status_hint", TInt h)] | None => [] end =
    if default 0 h =? 0 then [] else [("status_hint", TInt (default 0 h))]) as ->.
  { destruct h as [h|]; [|done]. cbn. destruct (Z.eqb_spec h 0) as [->|]; done. }
  assert (forall (n : string) (v : option string), v <> Some "" -> match v with Some v => [(n, TStr v)] | None => [] end =
    if String.eqb (default "" v) "" then [] else [(n, TStr (default "" v))]) as Hv.
  { intros n [v|] Hv; [|done]. cbn. destruct (String.eqb_spec v "") as [->|]; done. }
  rewrite !Hv by done. reflexivity.
Qed.

Lemma opt_some (s : string) : opt s <> Some "".
Proof. unfold opt. destruct (String.eqb_spec s ""); congruence. Qed.

Lemma evaluate_no_empty (digest : string -> list Z) (hex : list Z -> string) (g : Request)
    (k : Kernel.AuthzRequest) (config : Kernel.KernelConfig) :
  same_request g k ->
  let d := Kernel.evaluate digest hex k config in
  Kernel.dec_status_hint d <> Some 0 /\ Kernel.dec_policy_version d <> Some "" /\
  Kernel.dec_resource_version d <> Some "".
Proof.
  intros Hs. cbv zeta. unfold Kernel.evaluate.
  repeat match goal with |- context [if ?b then Kernel.decision _ _ _ _ _ _ _ else _] => destruct b end;
    unfold Kernel.decision; cbn [Kernel.dec_status_hint Kernel.dec_policy_version Kernel.dec_resource_version];
    rewrite (same_pversion _ _ Hs), (same_rversion _ _ Hs); (split; [discriminate|]); split; apply opt_some.
Qed.

(** ** The texts are valid UTF-8 *)

Lemma member_text (ms : list (string * json)) (k s : string) :
  valid_text (TObj ms) = true -> (k, TStr s) ∈ ms -> ValidString s = true.
Proof.
  cbn [valid_text]. rewrite forallb_forall. intros H Hin.
  specialize (H (k, TStr s) ltac:(by apply list_elem_of_In)). cbn in H. by bool_prop.
Qed.

Lemma optional_in (k s : string) : s <> "" -> (k, TStr s) ∈ optional_str k s.
Proof. intros Hs. unfold optional_str. apply String.eqb_neq in Hs. rewrite Hs. left. Qed.

Lemma optional_text (ms : list (string * json)) (k s : string) :
  valid_text (TObj ms) = true -> (forall m, m ∈ optional_str k s -> m ∈ ms) -> ValidString s = true.
Proof.
  intros Hv Hin. destruct (String.eqb_spec s "") as [->|Hne]; [reflexivity|].
  by apply (member_text ms k s Hv), Hin, optional_in.
Qed.

Lemma hex_text (s : string) : ValidString (sha256Hex s) = true.
Proof.
  apply ascii_valid. eapply string_forallb_weaken; [|apply sha256Hex_is_hex].
  intros c Hc. apply is_hex_token in Hc. bool_prop. apply Z.ltb_lt. lia.
Qed.

Lemma token_text (s : string) (n : Z) : validToken s n = true -> ValidString s = true.
Proof.
  unfold validToken. destruct (_ || _); [done|]. intros H. apply ascii_valid.
  eapply string_forallb_weaken; [|exact H]. intros c Hc. cbv beta in *. bool_prop. apply Z.ltb_lt. lia.
Qed.

Lemma shadow_text (g : Request) (decision reason : string) (hint : Z) :
  valid_text (request_json g) = true -> ValidString decision = true -> ValidString reason = true ->
  valid_text (decision_json (shadowDecision g (AuditForRequest g) decision reason hint)) = true.
Proof.
  intros Hv Hd Hr.
  assert (ValidString (rq_PolicyVersion g) = true) as Hpv.
  { apply (optional_text _ "policy_version" _ Hv). intros m Hm. unfold request_members. rewrite !elem_of_app. by do 7 right; left. }
  assert (ValidString (rq_ResourceVersion g) = true) as Hrv.
  { apply (optional_text _ "resource_version" _ Hv). intros m Hm. unfold request_members. rewrite !elem_of_app. by do 6 right; left. }
  assert (ValidString (decisionRequestID g (AuditForRequest g)) = true) as Hid
    by (eapply token_text, decisionRequestID_valid).
  assert (forall k s, ValidString k = true -> ValidString s = true ->
    forallb (fun m => ValidString m.1 && valid_text m.2) (optional_str k s) = true) as Hopt.
  { intros k s Hk Hs. unfold optional_str. destruct (String.eqb s ""); [done|]. cbn [forallb fst snd valid_text]. by rewrite Hk, Hs. }
  unfold decision_json, decision_members, shadowDecision. cbn [valid_text dc_SchemaVersion dc_RequestID dc_Decision
    dc_ReasonCode dc_StatusHint dc_CacheTTLSeconds dc_PolicyVersion dc_ResourceVersion dc_Audit dc_TraceID
    dc_AuthorityMode dc_EnforcementMode dc_StrictMode dc_FallbackToCSS optional_bool].
  rewrite !forallb_app, !Hopt by (done || reflexivity).
  cbn [forallb fst snd valid_text audit_json AuditForRequest au_RequestHash au_PolicyHash]. rewrite Hid, Hd, Hr, !hex_text. by destruct (hint =? 0).
Qed.

(** ** The sidecar with the kernel as its evaluator *)

Section composition.
Context {serde : Serde}.
Variable Sha256_digest : string -> list Z.
Variable hex_encode : list Z -> string.
Hypothesis digest_spec : forall s, Sha256_digest s = Sum256 s.
Hypothesis hex_spec : forall l, hex_encode l = hex_EncodeToString l.

(** The command is the kernel's program, on some files: within the time it is given it writes its
    output in any number of pieces and a short message on the other output, and returns its exit
    code. *)
Variable read_file : string -> option string.
Variable execute : string -> list string -> string -> Z -> run.
Definition runs_kernel : Prop := forall command args stdin timeout,
  let r := execute command args stdin timeout in
  let '(code, out, _) := Kernel.main Sha256_digest hex_encode from_str to_writer_pretty read_file args stdin in
  concat_str (run_stdout r) = out /\ len (concat_str (run_stderr r)) <= 4096 /\
  run_exit r = Some code /\ run_expired r = false.
Hypothesis kernel : runs_kernel.

Lemma kernel_stdin_valid (g : Request) :
  valid_text (request_json g) = true ->
  ValidString (String.append (print (request_json g)) (String (chr 10) "")) = true.
Proof. intros Hv. apply ValidString_app; [by apply print_valid|reflexivity]. Qed.

(** The evaluator's result from what the kernel printed. *)
Lemma kernel_output_decoded (d : Kernel.AuthzDecision) (gd : Decision) :
  serialized d = decision_members gd -> valid_text (decision_json gd) = true -> ValidateDecision gd = Ok tt ->
  DecodeDecision (TrimSpace (String.append (to_writer_pretty d) (String (chr 10) ""))) = Ok gd.
Proof.
  intros Hs Ht Hv. destruct (to_writer_shape d) as [inner Hi]. rewrite Hi, TrimSpace_object, <- Hi.
  unfold decision_json in Ht. rewrite <- Hs in Ht. destruct (to_writer_ok d Ht) as (ms & Hp & Hb).
  unfold DecodeDecision. rewrite (decode_document_parsed _ _ _ _ _ Hp). cbn [set_struct].
  rewrite (decode_members_bare decision_fields ms (serialized d) zeroDecision Hb), Hs.
  assert (in_int64 (dc_StatusHint gd) /\ in_int64 (dc_CacheTTLSeconds gd)) as [H1 H2] by by apply decision_ints.
  rewrite (decode_decision_tree gd H1 H2). cbn. by rewrite Hv.
Qed.

(** C6: The sidecar that runs the policy kernel decides as its shadow evaluator does.  Let the
    external evaluator start the kernel's program without arguments, and let it finish in time.
    Take a valid request of UTF-8 text, with a live context, its scheme in lower case, and an
    answer shorter than the evaluator's limit.  If it names no parser or evaluator version and
    its policy documents have no content, the external evaluator returns the shadow evaluator's
    decision, through both encoders and both decoders.  If it names one of the versions, which the
    kernel does not know, the evaluation fails. *)
Theorem external_kernel_is_shadow (env : Env) (e : ExternalCLIEvaluator) (g : Request) :
  ex_args e = [] -> env_ctx env = None -> ValidateRequest g = Ok tt -> in_int64 (rq_NowUnix g) ->
  valid_text (request_json g) = true -> lower_scheme (rq_ResourceURI g) = true ->
  len (to_writer_pretty (Kernel.evaluate Sha256_digest hex_encode (kernel_request g) Kernel.default_config))
    < ex_maxOutputBytes e ->
  (kernel_compatible g = true ->
     (External_Evaluate execute env e g).2 = (ShadowEvaluator_Evaluate env NewShadowEvaluator g).2) /\
  (rq_ParserVersion g <> "" \/ rq_EvaluatorVersion g <> "" ->
     (External_Evaluate execute env e g).2 = Err (ErrExternalEvaluatorExecution "")).
Proof.
  intros Hargs Hctx Hv Hnow Ht Hlow Hfit. unfold External_Evaluate at 1 2, EncodeRequest. rewrite Hctx, Hv.
  cbn [result_map_err result_bind snd]. set (stdin := String.append (print (request_json g)) _).
  pose proof (kernel (ex_command e) (ex_args e) stdin (ex_timeout e)) as Hk.
  set (r := execute _ _ _ _) in *. rewrite Hargs in Hk. unfold Kernel.main, Kernel.run, Kernel.evaluate_stdin in Hk. cbv zeta in Hk.
  unfold stdin in Hk at 1. rewrite kernel_stdin_valid in Hk by done. unfold Kernel.evaluate_json in Hk. split.
  - intros Hc. unfold stdin in Hk.
    pose proof (request_height g) as Hh. change (request_json g) with (TObj (request_members g)) in Hk, Hh.
    rewrite (from_str_ok _ (kernel_request g) Ht ltac:(lia) (request_deserializes g Hv Hnow Hc)) in Hk.
    pose proof (kernel_request_same g Hv) as Hs.
    set (kd := Kernel.evaluate _ _ _ _) in Hk. destruct Hk as (Hout & Herr & Hexit & _).
    destruct (evaluate_no_empty Sha256_digest hex_encode g (kernel_request g) Kernel.default_config Hs)
      as (N1 & N2 & N3).
    destruct (kernel_decides Sha256_digest hex_encode digest_spec hex_spec env g (kernel_request g) Hctx Hs)
      as (_ & Hshadow & _). fold kd in Hshadow, N1, N2, N3, Hfit.
    apply requestCheck_None in Hv as Hok. specialize (Hshadow ltac:(right; by split)).
    unfold ShadowEvaluator_Evaluate in Hshadow |- *. rewrite Hctx, Hok in Hshadow |- *. cbn [snd] in Hshadow |- *.
    set (gd := shadowDecision g _ _ _ _) in *.
    pose proof (f_equal (fun r => match r with Ok d => d | Err _ => gd end) Hshadow) as Hgd. cbv beta iota in Hgd.
    unfold newLimitedBuffer. rewrite !copy_within; cbn [lb_full lb_buf orb].
    + rewrite Hexit, bool_decide_true by done. cbn [negb]. rewrite str_app_nil_l, Hout.
      rewrite (kernel_output_decoded kd gd).
      * destruct (to_writer_shape kd) as [inner Hi]. by rewrite Hi, TrimSpace_object.
      * rewrite Hgd. by apply serialized_go.
      * by apply shadow_text.
      * apply shadowDecision_valid; [reflexivity|reflexivity|lia].
    + unfold len in *. cbn [String.length]. lia.
    + unfold len in *. cbn [String.length]. rewrite Hout, str_length_app. cbn [String.length]. lia.
  - intros Hun. unfold stdin in Hk.
    assert (exists k, k ∈ (request_members g).*1 /\ k ∉ kernel_fields) as (k & Hin & Hout).
    { destruct Hun as [Hp|Hp]; [exists "parser_version"|exists "evaluator_version"];
        (split; [apply list_elem_of_fmap|by apply (bool_decide_unpack _)]).
      - exists ("parser_version", TStr (rq_ParserVersion g)). split; [done|].
        unfold request_members. rewrite !elem_of_app. do 8 right; left. by apply optional_in.
      - exists ("evaluator_version", TStr (rq_EvaluatorVersion g)). split; [done|].
        unfold request_members. rewrite !elem_of_app. do 9 right; left. by apply optional_in. }
    pose proof (request_height g) as Hh. change (request_json g) with (TObj (request_members g)) in Hk, Hh.
    rewrite (from_str_unknown _ k Ht ltac:(lia) Hin Hout) in Hk.
    destruct Hk as (Hout' & Herr & Hexit & Hexp).
    unfold newLimitedBuffer. rewrite !copy_within; cbn [lb_full lb_buf orb].
    + rewrite Hexit, Hexp. reflexivity.
    + unfold len in *. cbn [String.length]. lia.
    + rewrite Hout'. unfold len in *. cbn [String.length]. destruct (to_writer_shape (Kernel.evaluate Sha256_digest
        hex_encode (kernel_request g) Kernel.default_config)) as [inner Hi]. rewrite Hi in Hfit. cbn [String.length] in Hfit. lia.
Qed.
End composition.

(** ** A deserializer and a serializer that keep the promises *)

Definition vfield (ms : list (string * JValue * string)) (name : string) : option JValue :=
  (fun m => m.1.2) <$> List.find (fun m => String.eqb m.1.1 name) ms.

Definition req_str (ms : list (string * JValue * string)) (name : string) : option string :=
  match vfield ms name with Some (JString s) => Some s | _ => None end.
Definition opt_str (ms : list (string * JValue * string)) (name : string) : option (option string) :=
  match vfield ms name with Some (JString s) => Some (Some s) | None => Some None | _ => None end.

Definition read_mode (v : JValue) : option Kernel.AccessMode :=
  match v with JString s => mode_of s | _ => None end.
Definition read_modes (v : option JValue) : option (list Kernel.AccessMode) :=
  match v with Some (JArray vs) => mapM read_mode vs | _ => None end.

Definition read_entry (m : string * JValue * string) : option (string * string) :=
  match m with (k, JString s, _) => Some (k, s) | _ => None end.
Definition read_metadata (v : option JValue) : option (gmap string string) :=
  match v with
  | None => Some ∅
  | Some (JObject ms) => list_to_map <$> mapM read_entry ms
  | _ => None
  end.

Definition read_document (v : JValue) : option Kernel.PolicyDocument :=
  match v with
  | JObject [("uri", JString a, _); ("sha256", JString b, _); ("content_type", JString c, _)] =>
      Some (Kernel.mkPolicyDocument a b c)
  | _ => None
  end.
Definition read_documents (v : option JValue) : option (list Kernel.PolicyDocument) :=
  match v with
  | None => Some []
  | Some (JArray vs) => mapM read_document vs
  | _ => None
  end.

Definition read_u64 (v : option JValue) : option Z :=
  match v with Some (JNumber lit) => digits_value lit 0 | _ => None end.

Definition read_request (ms : list (string * JValue * string)) : option Kernel.AuthzRequest :=
  if forallb (fun m => bool_decide (m.1.1 ∈ kernel_fields)) ms then
    schema ← req_str ms "schema_version"; id ← req_str ms "request_id"; meth ← req_str ms "method";
    uri ← req_str ms "resource_uri"; agent ← opt_str ms "agent_webid"; client ← opt_str ms "client_id";
    iss ← opt_str ms "issuer"; org ← opt_str ms "origin"; modes ← read_modes (vfield ms "requested_modes");
    rv ← opt_str ms "resource_version"; pv ← opt_str ms "policy_version";
    meta ← read_metadata (vfield ms "resource_metadata"); docs ← read_documents (vfield ms "policy_documents");
    now ← read_u64 (vfield ms "now_unix");
    Some (Kernel.mkAuthzRequest schema id meth uri agent client iss org modes rv pv meta docs now)
  else None.

Definition sample_from_str (text : string) : option Kernel.AuthzRequest :=
  match parse_json text with Some (JObject ms) => read_request ms | _ => None end.

Lemma vfield_value (ms : list (string * json)) (name : string) :
  vfield (map member_value ms) name = value <$> field ms name.
Proof.
  unfold vfield, field. induction ms as [|m ms IH]; [done|]. cbn [map List.find]. cbn [member_value fst snd].
  by destruct (String.eqb m.1 name).
Qed.

Lemma parse_json_newline (j : json) :
  valid_text j = true -> (height j <= max_depth)%nat ->
  parse_json (String.append (print j) (String (chr 10) "")) = Some (value j).
Proof.
  intros Hv Hh. unfold parse_json. rewrite skip_space_print.
  rewrite (parse_value_print j _ max_depth Hv); [reflexivity| |done|reflexivity].
  rewrite str_length_app. cbn. lia.
Qed.

Lemma mapM_map {A B C} (f : B -> option C) (g : A -> B) (h : A -> C) (l : list A) :
  (forall x, f (g x) = Some (h x)) -> mapM f (map g l) = Some (map h l).
Proof. intros H. induction l as [|x l IH]; [done|]. cbn. by rewrite H, IH. Qed.

Lemma read_metadata_ok (j : option json) (m : gmap string string) :
  metadata_member j m -> read_metadata (value <$> j) = Some m.
Proof.
  destruct j as [[| | | | |kvs]|]; cbn [metadata_member]; try done; [|by intros ->].
  intros [Hnd Hin]. cbn [fmap option_fmap option_map value read_metadata].
  assert (mapM read_entry (map (fun x => (x.1, value x.2, print x.2)) kvs) =
    Some (map (fun x => (x.1, default "" (m !! x.1))) kvs)) as ->.
  { assert (forall k v, (k, v) ∈ kvs -> exists s, v = TStr s /\ m !! k = Some s) as Hs by (intros; by apply Hin).
    clear Hin Hnd. induction kvs as [|[k v] kvs IH]; [done|].
    destruct (Hs k v) as (s & -> & Hk); [left|]. cbn. rewrite Hk. rewrite IH; [done|].
    intros k' v' Hin. apply Hs. by right. }
  cbn. f_equal. apply map_eq. intros k.
  assert (NoDup (map (fun x => (x.1, default "" (m !! x.1))) kvs).*1) as Hnd'.
  { rewrite <- list_fmap_compose. unfold compose. cbn. exact Hnd. }
  destruct (m !! k) as [s|] eqn:Hk.
  - apply elem_of_list_to_map; [done|]. apply list_elem_of_fmap. exists (k, TStr s). cbn. rewrite Hk.
    split; [done|]. apply Hin. eauto.
  - apply not_elem_of_list_to_map. intros Hk'. rewrite <- list_fmap_compose in Hk'. unfold compose in Hk'. cbn in Hk'.
    apply list_elem_of_fmap in Hk' as ([k' v] & -> & Hv). apply Hin in Hv as (s & _ & Hs). cbn in Hk. congruence.
Qed.

Lemma read_documents_ok (j : option json) (ds : list Kernel.PolicyDocument) :
  documents_member j ds -> read_documents (value <$> j) = Some ds.
Proof.
  destruct j as [[| | | |js|]|]; cbn [documents_member]; try done; [|by intros ->].
  intros H. cbn [fmap option_fmap option_map value read_documents].
  induction H as [|j d js ds Hj Hd IH]; [done|]. rewrite Hj. cbn. rewrite IH. by destruct d.
Qed.

Lemma field_in (ms : list (string * json)) (name : string) (j : json) :
  field ms name = Some j -> (name, j) ∈ ms.
Proof.
  unfold field. induction ms as [|[k v] ms IH]; [done|]. cbn [List.find fst].
  destruct (String.eqb_spec k name) as [->|]; cbn; [intros [= ->]; left|]. intros H. right. by apply IH.
Qed.

Lemma read_request_ok (ms : list (string * json)) (r : Kernel.AuthzRequest) :
  deserializes ms r -> read_request (map member_value ms) = Some r.
Proof.
  intros [Hnd Hk E1 E2 E3 E4 E5 E6 E7 E8 E9 E10 E11 E12 E13 [E14 H14]]. unfold read_request.
  assert (forallb (fun m => bool_decide (m.1.1 ∈ kernel_fields)) (map member_value ms) = true) as ->.
  { apply forallb_forall. intros x Hx. apply in_map_iff in Hx as (m & <- & Hm). apply bool_decide_eq_true, Hk.
    apply list_elem_of_fmap. exists m. split; [done|]. by apply list_elem_of_In. }
  unfold req_str, opt_str. rewrite !vfield_value, E1, E2, E3, E4, E5, E6, E7, E8, E9, E10, E11, E14.
  rewrite (read_metadata_ok _ _ E12), (read_documents_ok _ _ E13).
  destruct r as [f1 f2 f3 f4 f5 f6 f7 f8 modes f10 f11 meta docs now].
  cbn [Kernel.schema_version Kernel.request_id Kernel.method Kernel.resource_uri Kernel.agent_webid
    Kernel.client_id Kernel.issuer Kernel.origin Kernel.requested_modes Kernel.resource_version
    Kernel.policy_version Kernel.resource_metadata Kernel.policy_documents Kernel.now_unix] in *.
  cbn [fmap option_fmap option_map value read_modes read_u64]. rewrite map_map.
  rewrite (mapM_map read_mode _ (fun m => m)), map_id by (by intros []).
  destruct (FormatInt_nonneg now ltac:(lia)) as (c & ds & -> & _ & _ & Hd). rewrite Hd.
  by destruct f5, f6, f7, f8, f10, f11.
Qed.

#[export] Instance sample_serde : Serde.
Proof.
  refine {| from_str := sample_from_str; to_writer_pretty := fun d => print (TObj (serialized d)) |}.
  - intros ms r Hv Hh Hd. unfold sample_from_str.
    rewrite parse_json_newline by (done || unfold max_depth; lia). cbn [value].
    by apply read_request_ok.
  - intros ms k Hv Hh Hin Hout. unfold sample_from_str.
    rewrite parse_json_newline by (done || unfold max_depth; lia). cbn [value]. unfold read_request.
    destruct (forallb _ _) eqn:Hf; [|done]. exfalso. rewrite forallb_forall in Hf.
    apply list_elem_of_fmap in Hin as (m & -> & Hm).
    specialize (Hf (member_value m) ltac:(apply in_map, list_elem_of_In, Hm)). bool_prop. done.
  - intros d. eexists. apply print_obj.
  - intros d Hv. exists (map member_value (serialized d)). split.
    + apply (parse_print (TObj (serialized d)) Hv). etransitivity; [apply (height_obj _ 1%nat)|unfold max_depth; lia].
      unfold serialized. repeat (apply Forall_app_2; [repeat case_match; flat_members|]). flat_members.
    + rewrite map_map. done.
Defined.

(** The command writes its output in two pieces. *)
Definition sample_execute (command : string) (args : list string) (stdin : string) (timeout : Z) : run :=
  let '(code, out, failed) := Kernel.main Sum256 hex_EncodeToString from_str to_writer_pretty (fun _ => None) args stdin in
  mkRun [stake 10 out; sdrop 10 out] (if failed then ["solid-policy-kernel-eval: error"] else []) (Some code) false.

Definition sample_external : ExternalCLIEvaluator := mkExternal "solid-policy-kernel-eval" [] second 65536.

Lemma external_kernel_is_shadow_witness :
  (External_Evaluate sample_execute sampleEnv sample_external (go_sample "https://pod.example/a")).2 =
    (ShadowEvaluator_Evaluate sampleEnv NewShadowEvaluator (go_sample "https://pod.example/a")).2.
Proof.
  apply (external_kernel_is_shadow (serde := sample_serde) Sum256 hex_EncodeToString (fun _ => eq_refl) (fun _ => eq_refl) (fun _ => None) sample_execute).
  - intros command args stdin timeout. unfold sample_execute.
    destruct (Kernel.main _ _ _ _ _ _ _) as [[code out] failed]. cbn [run_stdout run_stderr run_exit run_expired].
    split_and!; [|by destruct failed|done|done].
    unfold concat_str. cbn [foldr]. rewrite str_app_nil_r. apply stake_sdrop.
  - reflexivity.
  - reflexivity.
  - vm_compute. reflexivity.
  - vm_compute. split; discriminate.
  - vm_compute. reflexivity.
  - vm_compute. reflexivity.
  - vm_compute. reflexivity.
  - vm_compute. reflexivity.
Defined.
