(* ===== verification/WacEvaluator.v ===== *)
(** * The WAC evaluator

    [internal/authz/wac_evaluator.go]: request checks, the policy-count limit, the
    rules derived from the policy documents, the first-match evaluation, and the
    shadow mode that hides its outcome. *)

From S2P Require Import Prelude GoStrings GoURL GoHash AuthzTypes Evaluator.

Local Open Scope Z_scope.

(** ** Data *)

Record WACRule := mkWACRule {
  Authorization : string;
  AccessTo : string;
  Agent : string;
  AgentClass : string;
  Modes : list string;
  DefaultAccess : bool;
  Origin : string
}.

Record WACPolicy := mkWACPolicy {
  wp_ResourceURI : string;
  wp_AuthorizationURI : string;
  wp_Rules : list WACRule;
  wp_Owner : string
}.

(** decision_trace.go's [FailClosedPolicy]; the evaluators carry it and never read it. *)
Inductive FailClosedPolicy :=
| mkFailClosedPolicy (Enabled DenyOnError DenyOnTimeout DenyOnPolicyFetchError
    DenyOnParserError : bool) (PerEndpointClass : list (string * FailClosedPolicy)).

Definition DefaultFailClosedPolicy : FailClosedPolicy :=
  mkFailClosedPolicy true true true true true [].

Record WACEvaluatorOptions := mkWACEvaluatorOptions {
  MaxPolicies : Z;
  Timeout : Z;
  ShadowMode : bool;
  EnforcementMode : bool;
  DecisionTraceIDsEnabled : bool;
  opt_FailClosedPolicy : FailClosedPolicy
}.

Definition DefaultWACEvaluatorOptions : WACEvaluatorOptions :=
  mkWACEvaluatorOptions 10 (30 * second) true false false DefaultFailClosedPolicy.

(** The evaluator is its options: the parser it also holds is only asked for its
    content types, a constant list. *)
Record WACEvaluator := mkWACEvaluator { options : WACEvaluatorOptions }.

(** [NewWACEvaluator]: a parser is created when none is given, which needs an RDF
    registry; zero limits take their defaults. *)
Definition NewWACEvaluator (hasParser hasRDFRegistry : bool) (o : WACEvaluatorOptions)
  : option WACEvaluator :=
  if negb hasParser && negb hasRDFRegistry then None
  else
    let mp := if MaxPolicies o =? 0 then 10 else MaxPolicies o in
    let tm := if Timeout o =? 0 then 30 * second else Timeout o in
    Some (mkWACEvaluator
            (mkWACEvaluatorOptions mp tm (ShadowMode o) (EnforcementMode o)
               (DecisionTraceIDsEnabled o) (opt_FailClosedPolicy o))).

(** ** From documents to rules *)

(** [WACParser.SupportedContentTypes] of wac_parser.go. *)
Definition SupportedContentTypes : list string :=
  ["text/turtle"; "application/ld+json"; "application/n-triples"; "application/rdf+xml";
   "application/sparql-results+json"].

Definition isWACContentType (contentType : string) : bool :=
  let ct := ToLower (TrimSpace contentType) in
  existsb (String.eqb ct) SupportedContentTypes ||
  (Contains ct "turtle" || Contains ct "json").

Definition ownerWebID : string := "https://example.org/owner#webid".
Definition publicAgent : string := "https://www.w3.org/ns/solid/interop#PublicAgent".

(** The resource a document URI controls: the URI without its [.acl] ending. *)
Definition aclBase (uri : string) : string := TrimSuffix uri ".acl".

Definition createSampleRulesForResource (resourceURI : string) : list WACRule :=
  let baseURI := aclBase resourceURI in
  [mkWACRule (String.append baseURI ".acl") baseURI ownerWebID ""
     [AccessModeRead; AccessModeWrite; AccessModeControl] false "";
   mkWACRule (String.append baseURI ".acl") baseURI publicAgent ""
     [AccessModeRead] false ""].

Definition createPolicyFromDocument (d : PolicyDocument) : result eval_error WACPolicy :=
  Ok (mkWACPolicy (pd_URI d) (pd_URI d) (createSampleRulesForResource (pd_URI d)) "").

Fixpoint parsePoliciesFromDocuments (docs : list PolicyDocument)
  : result eval_error (list WACPolicy) :=
  match docs with
  | [] => Ok []
  | d :: rest =>
      if negb (isWACContentType (pd_ContentType d)) then parsePoliciesFromDocuments rest
      else
        let! p := result_map_err ErrEvaluationFailed (createPolicyFromDocument d) in
        let! ps := parsePoliciesFromDocuments rest in
        Ok (p :: ps)
  end.

(** ** Matching *)

Definition ruleMatchesRequest (rule : WACRule) (rq : Request) : bool :=
  if negb (String.eqb (AccessTo rule) (rq_ResourceURI rq)) then false
  else if negb (String.eqb (Agent rule) "") && negb (String.eqb (Agent rule) (rq_AgentWebID rq))
       then false
  else if negb (String.eqb (AgentClass rule) "") then false
  else true.

Definition ruleAllowsModes (rule : WACRule) (requestedModes : list string) : bool :=
  match Modes rule with
  | [] => true
  | ms => forallb (fun r => existsb (fun m => String.eqb m r) ms) requestedModes
  end.

Definition evaluateRequestAgainstPolicies (rq : Request) (policies : list WACPolicy)
  : string * string * Z :=
  let allRules := concat (map wp_Rules policies) in
  if bool_decide (length allRules = 0%nat) then (DecisionAbstain, ReasonPolicyNotLoaded, 0)
  else if String.eqb (rq_AgentWebID rq) "" then (DecisionAbstain, ReasonPolicyNotLoaded, 0)
  else if existsb (fun rule => ruleMatchesRequest rule rq &&
                               ruleAllowsModes rule (rq_RequestedModes rq)) allRules
       then (DecisionAllow, ReasonPolicyAllow, StatusOK)
       else (DecisionDeny, ReasonPolicyDeny, StatusForbidden).

(** ** [Evaluate] *)

Definition WACEvaluator_Evaluate (env : Env) (e : WACEvaluator) (rq : Request)
  : WACEvaluator * result eval_error Decision :=
  match (if 0 <? Timeout (options e) then env_ctx env else None) with
  | Some err => (e, Err (ErrContext err))
  | None =>
      let audit := AuditForRequest rq in
      match requestCheck rq with
      | Some reason =>
          (e, Ok (shadowDecision rq audit DecisionDeny reason httpBadRequestStatus))
      | None =>
          let docs := rq_PolicyDocuments rq in
          if bool_decide (docs = []) then
            (e, Ok (shadowDecision rq audit DecisionAbstain ReasonPolicyNotLoaded 0))
          else if MaxPolicies (options e) <? Z.of_nat (length docs) then
            (e, Ok (shadowDecision rq audit DecisionAbstain ReasonPolicyNotLoaded 0))
          else
            match parsePoliciesFromDocuments docs with
            | Err _ =>
                (e, Ok (shadowDecision rq audit DecisionAbstain ReasonPolicyNotLoaded 0))
            | Ok policies =>
                let '(value, reason, hint) := evaluateRequestAgainstPolicies rq policies in
                if ShadowMode (options e) then
                  (e, Ok (shadowDecision rq audit DecisionAbstain
                            ReasonKernelAbstainShadowMode 0))
                else (e, Ok (shadowDecision rq audit value reason hint))
            end
      end
  end.

#[export] Instance WACEvaluator_Evaluator : Evaluator WACEvaluator := WACEvaluator_Evaluate.

(** ** Lemmas *)

Lemma ruleAllowsModes_spec (rule : WACRule) (modes : list string) :
  ruleAllowsModes rule modes = true <->
  Modes rule = [] \/ (forall m, m ∈ modes -> m ∈ Modes rule).
Proof.
  unfold ruleAllowsModes. destruct (Modes rule) as [|m0 ms] eqn:Hm; [naive_solver|].
  rewrite forallb_forall. setoid_rewrite existsb_exists.
  setoid_rewrite <- list_elem_of_In. setoid_rewrite String.eqb_eq.
  split; [intros H; right; naive_solver|intros [?|H]; naive_solver].
Qed.

Lemma ruleMatchesRequest_spec (rule : WACRule) (rq : Request) :
  ruleMatchesRequest rule rq = true <->
  AccessTo rule = rq_ResourceURI rq /\
  (Agent rule = "" \/ Agent rule = rq_AgentWebID rq) /\ AgentClass rule = "".
Proof.
  unfold ruleMatchesRequest.
  destruct (String.eqb_spec (AccessTo rule) (rq_ResourceURI rq)); cbn [negb]; [|naive_solver].
  destruct (String.eqb_spec (Agent rule) ""), (String.eqb_spec (Agent rule) (rq_AgentWebID rq)),
    (String.eqb_spec (AgentClass rule) ""); cbn; naive_solver.
Qed.

(** A rule grants a request: it is about the resource and the agent, and covers the modes. *)
Definition grants (rule : WACRule) (rq : Request) : Prop :=
  AccessTo rule = rq_ResourceURI rq /\
  (Agent rule = "" \/ Agent rule = rq_AgentWebID rq) /\ AgentClass rule = "" /\
  (Modes rule = [] \/ (forall m, m ∈ rq_RequestedModes rq -> m ∈ Modes rule)).

Lemma grants_spec (rule : WACRule) (rq : Request) :
  (ruleMatchesRequest rule rq && ruleAllowsModes rule (rq_RequestedModes rq)) = true <->
  grants rule rq.
Proof.
  rewrite andb_true_iff, ruleMatchesRequest_spec, ruleAllowsModes_spec. unfold grants. tauto.
Qed.

(** The evaluation, outcome by outcome. *)
Lemma evaluate_policies_outcome (rq : Request) (ps : list WACPolicy) v r h :
  evaluateRequestAgainstPolicies rq ps = (v, r, h) ->
  let rules := concat (map wp_Rules ps) in
  (v = DecisionAllow <-> rq_AgentWebID rq <> "" /\ exists r, r ∈ rules /\ grants r rq) /\
  (v = DecisionDeny <-> rules <> [] /\ rq_AgentWebID rq <> "" /\
                        ~ exists r, r ∈ rules /\ grants r rq) /\
  (v = DecisionAbstain <-> rules = [] \/ rq_AgentWebID rq = "").
Proof.
  intros He rules. unfold evaluateRequestAgainstPolicies in He. fold rules in He.
  assert (existsb (fun rule => ruleMatchesRequest rule rq &&
    ruleAllowsModes rule (rq_RequestedModes rq)) rules = true <->
    exists r, r ∈ rules /\ grants r rq) as Hex.
  { rewrite existsb_exists. setoid_rewrite <- list_elem_of_In. by setoid_rewrite grants_spec. }
  assert ((exists r, r ∈ rules /\ grants r rq) -> rules <> []) as Hne.
  { intros (r0 & Hr0 & _) Hnil. rewrite Hnil in Hr0. by apply elem_of_nil in Hr0. }
  assert (length rules = 0%nat <-> rules = []) as Hlen by (split; [apply nil_length_inv|by intros ->]).
  set (P := exists r, r ∈ rules /\ grants r rq) in *.
  assert (DecisionAllow <> DecisionDeny /\ DecisionAllow <> DecisionAbstain /\
          DecisionDeny <> DecisionAbstain) as Hv by (by split_and!).
  case_bool_decide as Hl; rewrite Hlen in Hl; [injection He as <- _ _; intuition congruence|].
  destruct (String.eqb_spec (rq_AgentWebID rq) ""); [injection He as <- _ _; intuition congruence|].
  destruct (existsb _ rules); [assert P as HP by tauto|assert (~ P) as HP by (rewrite <- Hex; done)];
    injection He as <- _ _; clear Hex; intuition congruence.
Qed.

Lemma evaluate_policies_valid (rq : Request) (ps : list WACPolicy) v r h :
  evaluateRequestAgainstPolicies rq ps = (v, r, h) ->
  validDecisionValue v = true /\ validReasonCode r = true /\ (h = 0 \/ 100 <= h <= 599).
Proof.
  unfold evaluateRequestAgainstPolicies, StatusOK, StatusForbidden.
  repeat break_if; intros [= <- <- <-]; split_and!; try reflexivity; lia.
Qed.

Lemma WACEvaluator_valid (env : Env) (e : WACEvaluator) (rq : Request) e' d :
  Evaluate env e rq = (e', Ok d) -> ValidateDecision d = Ok tt.
Proof.
  unfold Evaluate, WACEvaluator_Evaluator, WACEvaluator_Evaluate.
  destruct (if 0 <? Timeout _ then _ else _); [discriminate|].
  destruct (requestCheck rq) eqn:Hc.
  { intros [= <- <-]. apply shadowDecision_valid; try reflexivity;
      [by eapply requestCheck_reason|unfold httpBadRequestStatus; lia]. }
  destruct (parsePoliciesFromDocuments _).
  2: repeat break_if; intros [= <- <-]; by apply shadowDecision_valid; auto.
  destruct (evaluateRequestAgainstPolicies rq a) as [[v r] h] eqn:He.
  apply evaluate_policies_valid in He as (Hv & Hr & Hh).
  repeat break_if; intros [= <- <-]; apply shadowDecision_valid; auto.
Qed.

#[export] Instance WACEvaluator_Sound : EvaluatorSound WACEvaluator := WACEvaluator_valid.

(** The policies the documents give: one per document with a WAC content type. *)
Lemma parse_documents_ok (docs : list PolicyDocument) :
  exists ps, parsePoliciesFromDocuments docs = Ok ps /\
    forall r, r ∈ concat (map wp_Rules ps) <->
      exists d, d ∈ docs /\ isWACContentType (pd_ContentType d) = true /\
                r ∈ createSampleRulesForResource (pd_URI d).
Proof.
  induction docs as [|d docs (ps & Hps & Hr)]; cbn [parsePoliciesFromDocuments].
  { exists []. split; [done|]. intros r. split; [by intros ?%elem_of_nil|].
    intros (d & Hd & _). by apply elem_of_nil in Hd. }
  destruct (isWACContentType (pd_ContentType d)) eqn:Hd; cbn [negb].
  - rewrite Hps. eexists. split; [reflexivity|]. intros r.
    cbn [map concat wp_Rules]. rewrite elem_of_app, Hr. setoid_rewrite elem_of_cons. split.
    + intros [Hin|(d' & Hd' & Hin)]; [by exists d; auto|exists d'; auto].
    + intros (d' & [->|Hd'] & Hct & Hin); [by left|right; eauto].
  - rewrite Hps. exists ps. split; [done|]. intros r. rewrite Hr. setoid_rewrite elem_of_cons.
    split; [intros (d' & Hd' & Hin); exists d'; auto|].
    intros (d' & [->|Hd'] & Hct & Hin); [congruence|eauto].
Qed.

Lemma rules_nonempty_spec (docs : list PolicyDocument) ps :
  parsePoliciesFromDocuments docs = Ok ps ->
  concat (map wp_Rules ps) <> [] <->
  exists doc, doc ∈ docs /\ isWACContentType (pd_ContentType doc) = true.
Proof.
  intros Hps. destruct (parse_documents_ok docs) as (ps' & Hps' & Hr).
  assert (ps' = ps) as -> by congruence. split.
  - intros Hne. destruct (concat _) as [|r rs] eqn:E; [done|].
    destruct (proj1 (Hr r)) as (d & Hd & Hct & _); [apply elem_of_cons; by left|]. by exists d.
  - intros (d & Hd & Hct) Hnil. rewrite Hnil in Hr. eapply not_elem_of_nil, Hr.
    exists d. split_and!; [done|done|]. apply elem_of_cons. by left.
Qed.

(** What the two rules the code makes up for a document grant an agent on a resource. *)
Definition sample_grant (uri agent : string) (modes : list string) (d : PolicyDocument) : Prop :=
  isWACContentType (pd_ContentType d) = true /\ aclBase (pd_URI d) = uri /\
  ((agent = ownerWebID /\
      forall m, m ∈ modes -> m ∈ [AccessModeRead; AccessModeWrite; AccessModeControl]) \/
   (agent = publicAgent /\ forall m, m ∈ modes -> m ∈ [AccessModeRead])).

Lemma sample_grant_spec (rq : Request) (docs : list PolicyDocument) ps :
  parsePoliciesFromDocuments docs = Ok ps ->
  (exists r, r ∈ concat (map wp_Rules ps) /\ grants r rq) <->
  exists d, d ∈ docs /\
    sample_grant (rq_ResourceURI rq) (rq_AgentWebID rq) (rq_RequestedModes rq) d.
Proof.
  intros Hps. destruct (parse_documents_ok docs) as (ps' & Hps' & Hr).
  assert (ps' = ps) as -> by congruence. unfold sample_grant.
  split.
  - intros (r & Hin & Hg). apply Hr in Hin as (d & Hd & Hct & Hin). exists d. split; [done|].
    unfold createSampleRulesForResource, grants in *. rewrite !elem_of_cons in Hin.
    destruct Hin as [->|[->|Hin]]; [| |set_solver]; cbn in Hg;
      destruct Hg as (-> & [Ha|Ha] & _ & [Hm|Hm]); try discriminate; auto.
  - intros (d & Hd & Hct & Hu & Hg).
    destruct Hg as [[Ha Hm]|[Ha Hm]].
    + eexists (mkWACRule _ _ _ _ _ _ _). split.
      * apply Hr. exists d. split_and!; [done|done|]. apply elem_of_cons. by left.
      * unfold grants. cbn. auto.
    + eexists (mkWACRule _ _ _ _ _ _ _). split.
      * apply Hr. exists d. split_and!; [done|done|]. apply elem_of_cons. right.
        apply elem_of_cons. by left.
      * unfold grants. cbn. auto.
Qed.

(** [Evaluate] on a valid request that is not cut off by its context. *)
Lemma wac_evaluate_valid_request (env : Env) (e : WACEvaluator) (rq : Request) :
  (0 < Timeout (options e) -> env_ctx env = None) ->
  ValidateRequest rq = Ok tt ->
  exists ps, parsePoliciesFromDocuments (rq_PolicyDocuments rq) = Ok ps /\
  Evaluate env e rq =
    (e, Ok (if bool_decide (rq_PolicyDocuments rq = []) ||
               (MaxPolicies (options e) <? Z.of_nat (length (rq_PolicyDocuments rq)))
            then shadowDecision rq (AuditForRequest rq) DecisionAbstain ReasonPolicyNotLoaded 0
            else if ShadowMode (options e)
            then shadowDecision rq (AuditForRequest rq) DecisionAbstain
                   ReasonKernelAbstainShadowMode 0
            else let '(v, r, h) := evaluateRequestAgainstPolicies rq ps in
                 shadowDecision rq (AuditForRequest rq) v r h)).
Proof.
  intros Hctx Hv. destruct (parse_documents_ok (rq_PolicyDocuments rq)) as (ps & Hps & _).
  exists ps. split; [done|].
  unfold Evaluate, WACEvaluator_Evaluator, WACEvaluator_Evaluate.
  apply requestCheck_None in Hv. rewrite Hv, Hps.
  destruct (0 <? Timeout (options e)) eqn:Ht; [rewrite Hctx by (by bool_prop)|];
    destruct (evaluateRequestAgainstPolicies rq ps) as [[v r] h];
    destruct (bool_decide _), (MaxPolicies _ <? _), (ShadowMode _); done.
Qed.

(** ** Properties *)

(** C20: An enforcing WAC evaluator decides a valid request with a live context, and its answer
    has a closed form, which does not depend on what the documents say: the code gives each
    document of a WAC content type two fixed rules for the resource its URI belongs to, one
    that lets the owner of the example read, write and control, and one that lets the public
    agent read.  The evaluator allows exactly when at most [MaxPolicies] documents were loaded
    and such a rule of one of them is for the requested resource and the agent and covers every
    requested mode; it denies when there are WAC documents within the limit and a named agent,
    and no rule grants; it abstains in every other case. *)
Theorem wac_decision_closed_form (env : Env) (e : WACEvaluator) (rq : Request) :
  ShadowMode (options e) = false ->
  (0 < Timeout (options e) -> env_ctx env = None) ->
  ValidateRequest rq = Ok tt ->
  let docs := rq_PolicyDocuments rq in
  let within := Z.of_nat (length docs) <= MaxPolicies (options e) in
  let grant := exists doc, doc ∈ docs /\
    sample_grant (rq_ResourceURI rq) (rq_AgentWebID rq) (rq_RequestedModes rq) doc in
  let wac := exists doc, doc ∈ docs /\ isWACContentType (pd_ContentType doc) = true in
  exists d, Evaluate env e rq = (e, Ok d) /\
    (dc_Decision d = DecisionAllow <-> within /\ grant) /\
    (dc_Decision d = DecisionDeny <-> within /\ wac /\ rq_AgentWebID rq <> "" /\ ~ grant) /\
    (dc_Decision d = DecisionAbstain <-> ~ within \/ ~ wac \/ rq_AgentWebID rq = "").
Proof.
  intros Hsh Hctx Hv docs within grant wac.
  destruct (wac_evaluate_valid_request env e rq Hctx Hv) as (ps & Hps & ->).
  eexists. split; [reflexivity|]. rewrite Hsh.
  pose proof (sample_grant_spec rq _ _ Hps) as Hgr. fold docs grant in Hgr.
  pose proof (rules_nonempty_spec docs ps Hps) as Hwac. fold wac in Hwac.
  assert (grant -> wac /\ rq_AgentWebID rq <> "") as Hgw.
  { intros (d & Hd & Hct & _ & [[-> _]|[-> _]]); split; try done; by exists d. }
  assert (docs = [] -> ~ wac) as Hwd by (intros -> (d & Hd & _); by apply elem_of_nil in Hd).
  destruct (evaluateRequestAgainstPolicies rq ps) as [[v r] h] eqn:He.
  apply evaluate_policies_outcome in He as (Ha & Hd & Hab). cbv zeta in Ha, Hd, Hab.
  rewrite Hgr in Ha, Hd. fold docs.
  assert (DecisionAbstain <> DecisionAllow /\ DecisionAbstain <> DecisionDeny) as Hne by done.
  destruct (bool_decide (docs = [])) eqn:Hnil; [apply bool_decide_eq_true in Hnil|].
  { specialize (Hwd Hnil). clear - Hwd Hgw Hne. cbn. tauto. }
  destruct (MaxPolicies _ <? _) eqn:Hmax; bool_prop.
  { assert (~ within) as Hw by (unfold within; lia). clear - Hw Hne. cbn. tauto. }
  assert within as Hw by (unfold within; lia). cbn. rewrite Ha, Hd, Hab.
  destruct (concat (map wp_Rules ps)) as [|r0 rs].
  - assert (~ wac) as Hn by (rewrite <- Hwac; auto). clear - Hw Hn Hgw. tauto.
  - assert wac as Hy by (by apply Hwac). clear - Hw Hy Hgw. split_and!; intuition discriminate.
Qed.

Definition enforcingWAC : WACEvaluator :=
  mkWACEvaluator (mkWACEvaluatorOptions 10 (30 * second) false true false DefaultFailClosedPolicy).

Lemma wac_decision_closed_form_witness :
  exists d, Evaluate sampleEnv enforcingWAC
              (sampleRequest ownerWebID [AccessModeWrite] sampleDocs) = (enforcingWAC, Ok d) /\
            dc_Decision d = DecisionAllow.
Proof.
  destruct (wac_decision_closed_form sampleEnv enforcingWAC
    (sampleRequest ownerWebID [AccessModeWrite] sampleDocs)) as (d & Hd & Ha & _).
  - reflexivity.
  - intros _. reflexivity.
  - vm_compute. reflexivity.
  - exists d. split; [exact Hd|]. apply Ha. split; [vm_compute; discriminate|].
    exists (sampleDocument "https://pod.example/notes/1.acl").
    split; [apply elem_of_cons; left; reflexivity|].
    split; [vm_compute; reflexivity|]. split; [vm_compute; reflexivity|].
    left. split; [reflexivity|]. intros m Hm. apply list_elem_of_singleton in Hm as ->.
    apply elem_of_cons. right. apply elem_of_cons. left. reflexivity.
Defined.

(** In shadow mode the WAC evaluator never grants or refuses on the strength of a
    policy: whatever the policies say, a decision it returns is not an allow, and the
    request continues to CSS exactly when it is a well-formed request. *)
Theorem wac_shadow_mode_is_inert (env : Env) (e e' : WACEvaluator) (rq : Request) (d : Decision) :
  ShadowMode (options e) = true -> Evaluate env e rq = (e', Ok d) ->
  dc_Decision d <> DecisionAllow /\
  (ShouldContinueToCSS d = true <-> ValidateRequest rq = Ok tt).
Proof.
  intros Hsh. destruct (requestCheck rq) as [reason|] eqn:Hc.
  - unfold Evaluate, WACEvaluator_Evaluator, WACEvaluator_Evaluate. rewrite Hc.
    destruct (if 0 <? _ then env_ctx env else None); [discriminate|]. intros [= <- <-].
    split; [discriminate|]. rewrite <- requestCheck_None, Hc. by split.
  - apply requestCheck_None in Hc. intros He.
    destruct (wac_evaluate_valid_request env e rq) as (ps & _ & He').
    { intros Ht. revert He. unfold Evaluate, WACEvaluator_Evaluator, WACEvaluator_Evaluate.
      apply Z.ltb_lt in Ht as ->. by destruct (env_ctx env). }
    { done. }
    rewrite He, Hsh in He'. injection He' as _ ->. break_if; by split.
Qed.

Lemma wac_shadow_mode_is_inert_witness :
  let rq := sampleRequest ownerWebID [AccessModeWrite] sampleDocs in
  exists d, Evaluate sampleEnv (mkWACEvaluator DefaultWACEvaluatorOptions) rq =
    (mkWACEvaluator DefaultWACEvaluatorOptions, Ok d) /\ dc_Decision d <> DecisionAllow.
Proof.
  intros rq. eexists. split; [vm_compute; reflexivity|].
  eapply (wac_shadow_mode_is_inert sampleEnv (mkWACEvaluator DefaultWACEvaluatorOptions) _ rq);
    vm_compute; reflexivity.
Defined.

(** The evaluator's fail-closed policy and enforcement switch have no effect: two
    evaluators with the same limits and shadow flag answer alike, and a request with more
    documents than [MaxPolicies] is passed on to CSS, also under a strict fail-closed
    policy. *)
Theorem wac_fail_closed_policy_ignored (env : Env) (e1 e2 : WACEvaluator) (rq : Request) :
  MaxPolicies (options e1) = MaxPolicies (options e2) ->
  Timeout (options e1) = Timeout (options e2) ->
  ShadowMode (options e1) = ShadowMode (options e2) ->
  snd (Evaluate env e1 rq) = snd (Evaluate env e2 rq) /\
  (forall d, snd (Evaluate env e1 rq) = Ok d -> ValidateRequest rq = Ok tt ->
     MaxPolicies (options e1) < Z.of_nat (length (rq_PolicyDocuments rq)) ->
     ShouldContinueToCSS d = true).
Proof.
  intros Hm Ht Hs. split.
  - unfold Evaluate, WACEvaluator_Evaluator, WACEvaluator_Evaluate. rewrite Hm, Ht, Hs.
    destruct (if 0 <? _ then env_ctx env else None); [done|]. destruct (requestCheck rq); [done|].
    destruct (parsePoliciesFromDocuments _); repeat break_if; try done.
    all: destruct (evaluateRequestAgainstPolicies rq a) as [[??]?]; done.
  - intros d. unfold Evaluate, WACEvaluator_Evaluator, WACEvaluator_Evaluate.
    intros Hd Hv Hlt. apply requestCheck_None in Hv. rewrite Hv in Hd.
    destruct (if 0 <? Timeout _ then _ else _); [discriminate|].
    apply Z.ltb_lt in Hlt. rewrite Hlt in Hd. break_if; cbn [snd] in Hd; by injection Hd as <-.
Qed.

Lemma wac_fail_closed_policy_ignored_witness :
  let rq := sampleRequest ownerWebID [AccessModeWrite] sampleDocs in
  snd (Evaluate sampleEnv enforcingWAC rq) =
  snd (Evaluate sampleEnv
         (mkWACEvaluator (mkWACEvaluatorOptions 10 (30 * second) false false false
            (mkFailClosedPolicy false false false false false []))) rq).
Proof. intros rq. apply wac_fail_closed_policy_ignored; reflexivity. Defined.
