(* ===== verification/AcpEvaluator.v ===== *)
(** * The ACP evaluator

    [internal/authz/acp_evaluator.go] with the rule types of [acp_parser.go]: the same
    pipeline as the WAC evaluator over access grants, compared with it at the end. *)

From S2P Require Import Prelude GoStrings GoURL GoHash AuthzTypes Evaluator WacEvaluator.

Local Open Scope Z_scope.

(** ** Data *)

Record ACPAccess := mkACPAccess {
  ac_AccessTo : string;
  ac_Allows : bool;
  ac_Agent : string;
  ac_AgentClass : string;
  ac_Modes : list string;
  ac_Origin : string;
  ac_Inherit : bool
}.

Record ACPRule := mkACPRule {
  ar_Access : ACPAccess;
  ar_Resource : string;
  ar_Policy : string
}.

Record ACPPolicy := mkACPPolicy {
  ap_ResourceURI : string;
  ap_PolicyURI : string;
  ap_Rules : list ACPRule;
  ap_Owner : string;
  ap_Inherit : bool
}.

Record ACPEvaluatorOptions := mkACPEvaluatorOptions {
  acp_MaxPolicies : Z;
  acp_Timeout : Z;
  acp_ShadowMode : bool;
  acp_EnforcementMode : bool;
  acp_DecisionTraceIDsEnabled : bool;
  acp_FailClosedPolicy : FailClosedPolicy
}.

Definition DefaultACPEvaluatorOptions : ACPEvaluatorOptions :=
  mkACPEvaluatorOptions 10 (30 * second) true false false DefaultFailClosedPolicy.

Record ACPEvaluator := mkACPEvaluator { acp_options : ACPEvaluatorOptions }.

Definition NewACPEvaluator (hasParser hasRDFRegistry : bool) (o : ACPEvaluatorOptions)
  : option ACPEvaluator :=
  if negb hasParser && negb hasRDFRegistry then None
  else
    let mp := if acp_MaxPolicies o =? 0 then 10 else acp_MaxPolicies o in
    let tm := if acp_Timeout o =? 0 then 30 * second else acp_Timeout o in
    Some (mkACPEvaluator
            (mkACPEvaluatorOptions mp tm (acp_ShadowMode o) (acp_EnforcementMode o)
               (acp_DecisionTraceIDsEnabled o) (acp_FailClosedPolicy o))).

(** ** From documents to rules *)

(** [ACPParser.SupportedContentTypes] of acp_parser.go. *)
Definition acpSupportedContentTypes : list string :=
  ["text/turtle"; "application/ld+json"; "application/n-triples"; "application/rdf+xml";
   "application/sparql-results+json"].

Definition isACPContentType (contentType : string) : bool :=
  let ct := ToLower (TrimSpace contentType) in
  existsb (String.eqb ct) acpSupportedContentTypes ||
  (Contains ct "turtle" || Contains ct "json").

Definition acpCreateSampleRules (resourceURI : string) : list ACPRule :=
  let baseURI := aclBase resourceURI in
  [mkACPRule
     (mkACPAccess baseURI true ownerWebID ""
        [AccessModeRead; AccessModeWrite; AccessModeControl; AccessModeAppend] "" false)
     baseURI (String.append baseURI ".acl");
   mkACPRule (mkACPAccess baseURI true publicAgent "" [AccessModeRead] "" false)
     baseURI (String.append baseURI ".acl")].

Definition acpCreatePolicy (d : PolicyDocument) : result eval_error ACPPolicy :=
  Ok (mkACPPolicy (pd_URI d) (pd_URI d) (acpCreateSampleRules (pd_URI d)) "" false).

Fixpoint acpParsePolicies (docs : list PolicyDocument) : result eval_error (list ACPPolicy) :=
  match docs with
  | [] => Ok []
  | d :: rest =>
      if negb (isACPContentType (pd_ContentType d)) then acpParsePolicies rest
      else
        let! p := result_map_err ErrEvaluationFailed (acpCreatePolicy d) in
        let! ps := acpParsePolicies rest in
        Ok (p :: ps)
  end.

(** ** Matching *)

Definition acpRuleMatchesRequest (rule : ACPRule) (rq : Request) : bool :=
  let access := ar_Access rule in
  if negb (String.eqb (ac_AccessTo access) (rq_ResourceURI rq)) then false
  else if negb (String.eqb (ac_Agent access) "") &&
          negb (String.eqb (ac_Agent access) (rq_AgentWebID rq)) then false
  else if negb (String.eqb (ac_AgentClass access) "") then false
  else true.

Definition acpRuleAllowsModes (rule : ACPRule) (requestedModes : list string) : bool :=
  if negb (ac_Allows (ar_Access rule)) then false
  else match ac_Modes (ar_Access rule) with
       | [] => true
       | ms => forallb (fun r => existsb (fun m => String.eqb m r) ms) requestedModes
       end.

Definition acpEvaluateRequest (rq : Request) (policies : list ACPPolicy) : string * string * Z :=
  let allRules := concat (map ap_Rules policies) in
  if bool_decide (length allRules = 0%nat) then (DecisionAbstain, ReasonPolicyNotLoaded, 0)
  else if String.eqb (rq_AgentWebID rq) "" then (DecisionAbstain, ReasonPolicyNotLoaded, 0)
  else if existsb (fun rule => acpRuleMatchesRequest rule rq &&
                               acpRuleAllowsModes rule (rq_RequestedModes rq)) allRules
       then (DecisionAllow, ReasonPolicyAllow, StatusOK)
       else (DecisionDeny, ReasonPolicyDeny, StatusForbidden).

(** ** [Evaluate] *)

Definition ACPEvaluator_Evaluate (env : Env) (e : ACPEvaluator) (rq : Request)
  : ACPEvaluator * result eval_error Decision :=
  match (if 0 <? acp_Timeout (acp_options e) then env_ctx env else None) with
  | Some err => (e, Err (ErrContext err))
  | None =>
      let audit := AuditForRequest rq in
      match requestCheck rq with
      | Some reason =>
          (e, Ok (shadowDecision rq audit DecisionDeny reason httpBadRequestStatus))
      | None =>
          let docs := rq_PolicyDocuments rq in
          if bool_decide (docs = []) then
            (e, Ok (shadowDecision rq audit DecisionAbstain ReasonPolicyNotLoaded 0))
          else if acp_MaxPolicies (acp_options e) <? Z.of_nat (length docs) then
            (e, Ok (shadowDecision rq audit DecisionAbstain ReasonPolicyNotLoaded 0))
          else
            match acpParsePolicies docs with
            | Err _ =>
                (e, Ok (shadowDecision rq audit DecisionAbstain ReasonPolicyNotLoaded 0))
            | Ok policies =>
                let '(value, reason, hint) := acpEvaluateRequest rq policies in
                if acp_ShadowMode (acp_options e) then
                  (e, Ok (shadowDecision rq audit DecisionAbstain
                            ReasonKernelAbstainShadowMode 0))
                else (e, Ok (shadowDecision rq audit value reason hint))
            end
      end
  end.

#[export] Instance ACPEvaluator_Evaluator : Evaluator ACPEvaluator := ACPEvaluator_Evaluate.

(** ** Lemmas *)

Lemma acp_evaluate_policies_valid (rq : Request) (ps : list ACPPolicy) v r h :
  acpEvaluateRequest rq ps = (v, r, h) ->
  validDecisionValue v = true /\ validReasonCode r = true /\ (h = 0 \/ 100 <= h <= 599).
Proof.
  unfold acpEvaluateRequest, StatusOK, StatusForbidden.
  repeat break_if; intros [= <- <- <-]; split_and!; try reflexivity; lia.
Qed.

Lemma ACPEvaluator_valid (env : Env) (e : ACPEvaluator) (rq : Request) e' d :
  Evaluate env e rq = (e', Ok d) -> ValidateDecision d = Ok tt.
Proof.
  unfold Evaluate, ACPEvaluator_Evaluator, ACPEvaluator_Evaluate.
  destruct (if 0 <? acp_Timeout _ then _ else _); [discriminate|].
  destruct (requestCheck rq) eqn:Hc.
  { intros [= <- <-]. apply shadowDecision_valid; try reflexivity;
      [by eapply requestCheck_reason|unfold httpBadRequestStatus; lia]. }
  destruct (acpParsePolicies _).
  2: repeat break_if; intros [= <- <-]; by apply shadowDecision_valid; auto.
  destruct (acpEvaluateRequest rq a) as [[v r] h] eqn:He.
  apply acp_evaluate_policies_valid in He as (Hv & Hr & Hh).
  repeat break_if; intros [= <- <-]; apply shadowDecision_valid; auto.
Qed.

#[export] Instance ACPEvaluator_Sound : EvaluatorSound ACPEvaluator := ACPEvaluator_valid.

(** The rules each evaluator derives from a list of documents. *)
Definition wac_rules_of (docs : list PolicyDocument) : list WACRule :=
  flat_map (fun d => if isWACContentType (pd_ContentType d)
                     then createSampleRulesForResource (pd_URI d) else []) docs.

Definition acp_rules_of (docs : list PolicyDocument) : list ACPRule :=
  flat_map (fun d => if isACPContentType (pd_ContentType d)
                     then acpCreateSampleRules (pd_URI d) else []) docs.

Lemma wac_parse_rules (docs : list PolicyDocument) :
  exists ps, parsePoliciesFromDocuments docs = Ok ps /\
             concat (map wp_Rules ps) = wac_rules_of docs.
Proof.
  induction docs as [|d docs (ps & Hps & Hr)]; [by exists []|].
  cbn [parsePoliciesFromDocuments wac_rules_of flat_map].
  destruct (isWACContentType (pd_ContentType d)); cbn [negb]; rewrite Hps; eexists;
    (split; [reflexivity|]); cbn [map concat wp_Rules]; by rewrite Hr.
Qed.

Lemma acp_parse_rules (docs : list PolicyDocument) :
  exists ps, acpParsePolicies docs = Ok ps /\ concat (map ap_Rules ps) = acp_rules_of docs.
Proof.
  induction docs as [|d docs (ps & Hps & Hr)]; [by exists []|].
  cbn [acpParsePolicies acp_rules_of flat_map].
  destruct (isACPContentType (pd_ContentType d)); cbn [negb]; rewrite Hps; eexists;
    (split; [reflexivity|]); cbn [map concat ap_Rules]; by rewrite Hr.
Qed.

(** The outcome both evaluators read off their rules. *)
Definition outcome (norules : bool) (agent : string) (granted : bool) : string * string * Z :=
  if norules then (DecisionAbstain, ReasonPolicyNotLoaded, 0)
  else if String.eqb agent "" then (DecisionAbstain, ReasonPolicyNotLoaded, 0)
  else if granted then (DecisionAllow, ReasonPolicyAllow, StatusOK)
  else (DecisionDeny, ReasonPolicyDeny, StatusForbidden).

Definition wac_granted (rq : Request) : bool :=
  existsb (fun rule => ruleMatchesRequest rule rq && ruleAllowsModes rule (rq_RequestedModes rq))
    (wac_rules_of (rq_PolicyDocuments rq)).

Definition acp_granted (rq : Request) : bool :=
  existsb (fun rule => acpRuleMatchesRequest rule rq &&
                       acpRuleAllowsModes rule (rq_RequestedModes rq))
    (acp_rules_of (rq_PolicyDocuments rq)).

Definition has_append (rq : Request) : bool :=
  existsb (String.eqb AccessModeAppend) (rq_RequestedModes rq).

Lemma existsb_flat_map {A B} (f : B -> bool) (g : A -> list B) (l : list A) :
  existsb f (flat_map g l) = existsb (fun a => existsb f (g a)) l.
Proof.
  induction l as [|a l IH]; [done|]. cbn [flat_map existsb]. by rewrite existsb_app, IH.
Qed.

(** The mode lists of the owner rules agree on a request without append. *)
Lemma owner_modes (ms : list string) :
  forallb (fun r => existsb (fun m => String.eqb m r)
    [AccessModeRead; AccessModeWrite; AccessModeControl]) ms =
  forallb (fun r => existsb (fun m => String.eqb m r)
    [AccessModeRead; AccessModeWrite; AccessModeControl; AccessModeAppend]) ms &&
  negb (existsb (String.eqb AccessModeAppend) ms).
Proof.
  induction ms as [|m ms IH]; [done|]. cbn [forallb existsb] in *. rewrite IH.
  destruct (String.eqb_spec AccessModeAppend m) as [<-|]; [by rewrite !andb_false_r|].
  by rewrite !orb_false_r, !orb_false_l, andb_assoc.
Qed.

Lemma existsb_ext' {A} (f g : A -> bool) (l : list A) :
  (forall a, f a = g a) -> existsb f l = existsb g l.
Proof. intros H. induction l as [|a l IH]; [done|]. cbn. by rewrite H, IH. Qed.

Lemma acp_granted_no_append (rq : Request) :
  has_append rq = false -> acp_granted rq = wac_granted rq.
Proof.
  intros Happ. unfold acp_granted, wac_granted, acp_rules_of, wac_rules_of.
  rewrite !existsb_flat_map. apply existsb_ext'. intros d.
  change (isACPContentType (pd_ContentType d)) with (isWACContentType (pd_ContentType d)).
  destruct (isWACContentType _); [|done].
  unfold acpCreateSampleRules, createSampleRulesForResource, acpRuleMatchesRequest,
    ruleMatchesRequest, acpRuleAllowsModes, ruleAllowsModes.
  cbn [existsb ar_Access ac_AccessTo ac_Agent ac_AgentClass ac_Allows ac_Modes
       AccessTo Agent AgentClass Modes negb].
  rewrite owner_modes. unfold has_append in Happ. by rewrite Happ, andb_true_r.
Qed.

Lemma public_modes_append (ms : list string) :
  forallb (fun r => existsb (fun m => String.eqb m r) [AccessModeRead]) ms = true ->
  existsb (String.eqb AccessModeAppend) ms = false.
Proof.
  induction ms as [|m ms IH]; [done|]. cbn [forallb existsb]. intros [Hm Hms]%andb_true_iff.
  rewrite IH by done. rewrite orb_false_r in *. apply String.eqb_eq in Hm as <-. reflexivity.
Qed.

Lemma wac_granted_no_append (rq : Request) : wac_granted rq = true -> has_append rq = false.
Proof.
  unfold wac_granted, wac_rules_of, has_append. rewrite existsb_flat_map.
  intros (d & _ & Hd)%existsb_exists. destruct (isWACContentType _); [|done].
  unfold createSampleRulesForResource, ruleAllowsModes in Hd. cbn [existsb Modes] in Hd.
  rewrite orb_false_r in Hd. apply orb_true_iff in Hd as [[_ Hd]%andb_true_iff|[_ Hd]%andb_true_iff].
  - rewrite owner_modes in Hd. apply andb_true_iff in Hd as [_ Hd]. by apply negb_true_iff in Hd.
  - by apply public_modes_append.
Qed.

Lemma rules_of_empty (docs : list PolicyDocument) :
  bool_decide (length (acp_rules_of docs) = 0%nat) = bool_decide (length (wac_rules_of docs) = 0%nat).
Proof.
  assert (length (acp_rules_of docs) = length (wac_rules_of docs)) as ->; [|done].
  induction docs as [|d docs IH]; [done|]. unfold acp_rules_of, wac_rules_of in *.
  cbn [flat_map]. rewrite !length_app, IH.
  change (isACPContentType (pd_ContentType d)) with (isWACContentType (pd_ContentType d)).
  by destruct (isWACContentType _).
Qed.

(** Both evaluators as one computation, over their own notion of a grant. *)
Definition evaluate_with (env : Env) (timeout max : Z) (shadow granted : bool) (rq : Request)
  : result eval_error Decision :=
  match (if 0 <? timeout then env_ctx env else None) with
  | Some err => Err (ErrContext err)
  | None =>
      let audit := AuditForRequest rq in
      match requestCheck rq with
      | Some reason => Ok (shadowDecision rq audit DecisionDeny reason httpBadRequestStatus)
      | None =>
          let docs := rq_PolicyDocuments rq in
          if bool_decide (docs = []) || (max <? Z.of_nat (length docs)) then
            Ok (shadowDecision rq audit DecisionAbstain ReasonPolicyNotLoaded 0)
          else if shadow then
            Ok (shadowDecision rq audit DecisionAbstain ReasonKernelAbstainShadowMode 0)
          else
            let '(v, r, h) := outcome (bool_decide (length (wac_rules_of docs) = 0%nat))
                                (rq_AgentWebID rq) granted in
            Ok (shadowDecision rq audit v r h)
      end
  end.

Lemma wac_evaluate_with (env : Env) (w : WACEvaluator) (rq : Request) :
  snd (Evaluate env w rq) =
  evaluate_with env (Timeout (options w)) (MaxPolicies (options w)) (ShadowMode (options w))
    (wac_granted rq) rq.
Proof.
  unfold Evaluate, WACEvaluator_Evaluator, WACEvaluator_Evaluate, evaluate_with, wac_granted.
  destruct (if 0 <? _ then env_ctx env else None); [done|]. destruct (requestCheck rq); [done|].
  destruct (wac_parse_rules (rq_PolicyDocuments rq)) as (ps & -> & Hr).
  unfold evaluateRequestAgainstPolicies, outcome. rewrite Hr.
  by repeat (break_if; cbn [orb snd]).
Qed.

Lemma acp_evaluate_with (env : Env) (a : ACPEvaluator) (rq : Request) :
  snd (Evaluate env a rq) =
  evaluate_with env (acp_Timeout (acp_options a)) (acp_MaxPolicies (acp_options a))
    (acp_ShadowMode (acp_options a)) (acp_granted rq) rq.
Proof.
  unfold Evaluate, ACPEvaluator_Evaluator, ACPEvaluator_Evaluate, evaluate_with, acp_granted.
  destruct (if 0 <? _ then env_ctx env else None); [done|]. destruct (requestCheck rq); [done|].
  destruct (acp_parse_rules (rq_PolicyDocuments rq)) as (ps & -> & Hr).
  unfold acpEvaluateRequest, outcome. rewrite Hr, <- rules_of_empty.
  by repeat (break_if; cbn [orb snd]).
Qed.

Lemma evaluate_with_allow (env : Env) timeout max shadow granted (rq : Request) d :
  evaluate_with env timeout max shadow granted rq = Ok d -> dc_Decision d = DecisionAllow ->
  granted = true.
Proof.
  unfold evaluate_with, outcome. destruct (if 0 <? _ then _ else _); [done|].
  destruct (requestCheck rq); [by intros [= <-]|].
  repeat break_if; intros [= <-]; try discriminate; reflexivity.
Qed.

(** ** Properties *)

(** The WAC and the ACP evaluator are interchangeable up to append: with the same
    limits and shadow flag they return the same decision, field by field, on every request
    that does not ask for append; and the WAC evaluator allows no request that does. *)
Theorem wac_acp_agree_without_append
    (env : Env) (w : WACEvaluator) (a : ACPEvaluator) (rq : Request) :
  MaxPolicies (options w) = acp_MaxPolicies (acp_options a) ->
  Timeout (options w) = acp_Timeout (acp_options a) ->
  ShadowMode (options w) = acp_ShadowMode (acp_options a) ->
  (AccessModeAppend ∉ rq_RequestedModes rq ->
     snd (Evaluate env a rq) = snd (Evaluate env w rq)) /\
  (forall d, snd (Evaluate env w rq) = Ok d -> dc_Decision d = DecisionAllow ->
     AccessModeAppend ∉ rq_RequestedModes rq).
Proof.
  intros Hm Ht Hs.
  assert (has_append rq = false <-> AccessModeAppend ∉ rq_RequestedModes rq) as Happ.
  { unfold has_append. rewrite <- not_true_iff_false, existsb_exists.
    setoid_rewrite <- list_elem_of_In. setoid_rewrite String.eqb_eq. naive_solver. }
  rewrite acp_evaluate_with, wac_evaluate_with, Hm, Ht, Hs. split.
  - intros Hno%Happ. by rewrite acp_granted_no_append.
  - intros d Hd Ha. apply Happ.
    by apply wac_granted_no_append, (evaluate_with_allow _ _ _ _ _ _ _ Hd Ha).
Qed.

Definition enforcingACP : ACPEvaluator :=
  mkACPEvaluator (mkACPEvaluatorOptions 10 (30 * second) false true false DefaultFailClosedPolicy).

(** The owner's append is where they differ. *)
Lemma wac_acp_agree_without_append_witness :
  (let rq := sampleRequest ownerWebID [AccessModeWrite] sampleDocs in
   snd (Evaluate sampleEnv enforcingACP rq) = snd (Evaluate sampleEnv enforcingWAC rq)) /\
  (let rq := sampleRequest ownerWebID [AccessModeAppend] sampleDocs in
   option_map dc_Decision (result_ok (snd (Evaluate sampleEnv enforcingACP rq)))
     = Some DecisionAllow /\
   option_map dc_Decision (result_ok (snd (Evaluate sampleEnv enforcingWAC rq)))
     = Some DecisionDeny).
Proof.
  split; [|vm_compute; split; reflexivity].
  apply (wac_acp_agree_without_append sampleEnv enforcingWAC enforcingACP
           (sampleRequest ownerWebID [AccessModeWrite] sampleDocs)); try reflexivity.
  intros H. apply list_elem_of_singleton in H. discriminate.
Defined.
