(* ===== verification/RDFIndex.v ===== *)
(** * The RDF layer of the runtime

    [internal/runtime/rdf.go]: the line-based reader of triples, the store of graphs and its
    four indexes, with the validators of [internal/runtime/validation.go] it calls.  The
    layer's lock is part of the state: a goroutine that asks for a lock it holds waits for
    itself, for ever.  Graphs are not changed once they are stored, so the pointers in the
    indexes are modelled by the graphs they point to.  The counters are [int64]s that are
    counted up one at a time, and are kept as integers. *)

From S2P Require Import Prelude GoStrings GoURL GoHash AuthzTypes.

Local Open Scope Z_scope.

Module Runtime.

(** ** Validators *)

Definition MaxURILength : Z := 4096.
Definition MaxResourceSize : Z := 10 * 1024 * 1024.
Definition MaxWebIDLength : Z := 4096.
Definition MaxContentTypeLength : Z := 256.

Inductive error :=
| ErrInvalidURI
| ErrURITooLong
| ErrInvalidURIScheme (scheme : string)
| ErrInvalidURICharacters
| ErrResourceTooLarge
| ErrInvalidWebID
| ErrInvalidContentType
| ErrText (text : string)
| ErrWrapped (prefix : string) (e : error)
| ParseError (message : string) (line column : Z) (input : string).

Definition allowedSchemes : list string :=
  ["http"; "https"; "boundary"; "file"; "memory"; "internal"; "test"].

Definition ValidateURI (uri : string) : result error unit :=
  fail! ErrInvalidURI when String.eqb uri "" in
  fail! ErrURITooLong when MaxURILength <? len uri in
  fail! ErrInvalidURICharacters when string_existsb is_control uri in
  fail! ErrInvalidURICharacters when ContainsAny uri "\#" in
  match Parse uri with
  | Err _ => Err ErrInvalidURI
  | Ok parsed =>
      fail! ErrInvalidURIScheme (Scheme parsed) when negb (existsb (String.eqb (Scheme parsed)) allowedSchemes) in
      fail! ErrInvalidURI
        when (String.eqb (Scheme parsed) "http" || String.eqb (Scheme parsed) "https") && String.eqb (Host parsed) "" in
      Ok tt
  end.

Definition ValidateResourceSize (size : Z) : result error unit :=
  fail! ErrResourceTooLarge when MaxResourceSize <? size in Ok tt.

Definition ValidateWebID (webID : string) : result error unit :=
  fail! ErrInvalidWebID when String.eqb webID "" in
  fail! ErrURITooLong when MaxWebIDLength <? len webID in
  fail! ErrInvalidURICharacters when string_existsb is_control webID in
  match Parse webID with
  | Err _ => Err ErrInvalidWebID
  | Ok parsed =>
      fail! ErrInvalidURIScheme (Scheme parsed)
        when negb (String.eqb (Scheme parsed) "http") && negb (String.eqb (Scheme parsed) "https") in
      fail! ErrInvalidWebID when String.eqb (Host parsed) "" in
      Ok tt
  end.

Definition ValidateContentType (contentType : string) : result error unit :=
  fail! ErrInvalidContentType when String.eqb contentType "" in
  fail! ErrText "content type exceeds maximum length" when MaxContentTypeLength <? len contentType in
  fail! ErrInvalidURICharacters when string_existsb is_control contentType in
  Ok tt.

Definition ValidateContainerURI (uri : string) : result error unit :=
  fail! ErrInvalidURI when String.eqb uri "" in
  ValidateURI uri.

Definition ValidateTenantID (tenantID : string) : result error unit :=
  fail! ErrText "tenant ID cannot be empty" when String.eqb tenantID "" in
  fail! ErrText "tenant ID exceeds maximum length" when 256 <? len tenantID in
  fail! ErrInvalidURICharacters when string_existsb is_control tenantID in
  fail! ErrText "tenant ID contains invalid characters"
    when negb (string_forallb (fun c => is_alnum c || char_in "-_." c) tenantID) in
  Ok tt.

Definition ValidatePolicyURI (uri : string) : result error unit := ValidateURI uri.

Definition ValidateRDFTerm (term : string) : result error unit :=
  fail! ErrText "RDF term cannot be empty" when String.eqb term "" in
  fail! ErrInvalidURICharacters when string_existsb is_control term in
  fail! ErrInvalidURICharacters
    when (HasPrefix term "http://" || HasPrefix term "https://") && ContainsAny term "\#" in
  Ok tt.

(** ** Data *)

Definition RDFObjectTypeURI : string := "uri".
Definition RDFObjectTypeBlank : string := "blank".
Definition RDFObjectTypeLiteral : string := "literal".

Definition RDFFormatTurtle : string := "text/turtle".
Definition RDFFormatNTriples : string := "application/n-triples".
Definition RDFFormatJSONLD : string := "application/ld+json".
Definition RDFFormatUnknown : string := "unknown".

Record RDFTriple := mkTriple {
  Subject : string;
  Predicate : string;
  Object : string;
  ObjectType : string;
  Language : string;
  Datatype : string
}.

Record RDFGraph := mkGraph {
  g_URI : string;
  g_Triples : list RDFTriple;
  g_Format : string;
  g_Hash : string;
  g_Size : Z;
  g_LastModified : string
}.

Record ParseResult := mkParseResult {
  pr_Graph : RDFGraph;
  pr_Triples : list RDFTriple;
  pr_Format : string;
  pr_Warnings : list string
}.

Record RDFGraphIndexConfig := mkIndexConfig {
  MaxGraphSize : Z;
  MaxGraphs : Z;
  EnableCaching : bool;
  CacheSize : Z
}.

Definition DefaultRDFGraphIndexConfig : RDFGraphIndexConfig :=
  mkIndexConfig (1024 * 1024) 10000 true 1000.

Record RDFGraphIndexMetrics := mkMetrics {
  TotalParses : Z;
  SuccessfulParses : Z;
  FailedParses : Z;
  IndexUpdates : Z;
  SubjectQueries : Z;
  PredicateQueries : Z;
  ObjectQueries : Z;
  TypeQueries : Z;
  GraphCount : Z;
  TripleCount : Z;
  CacheHits : Z;
  CacheMisses : Z
}.

Notation index := (gmap string (gmap string RDFGraph)).

Record RDFGraphIndexLayer := mkLayer {
  held : bool; (** the lock [mu] is held *)
  config : RDFGraphIndexConfig;
  graphs : gmap string RDFGraph;
  subjectIndex : index;
  predicateIndex : index;
  objectIndex : index;
  typeIndex : gmap string (list string);
  metrics : RDFGraphIndexMetrics;
  closed : bool
}.

(** ** Effects *)

(** What a call does: it returns, it panics, or it waits for ever. *)
Inductive outcome (A : Type) :=
| Returns (a : A)
| Panics
| Blocks.
Arguments Returns {A} _.
Arguments Panics {A}.
Arguments Blocks {A}.

Definition RM (A : Type) : Type := RDFGraphIndexLayer -> outcome (RDFGraphIndexLayer * A).

#[global] Instance RM_ret : MRet RM := fun A a l => Returns (l, a).
#[global] Instance RM_bind : MBind RM := fun A C k m l =>
  match m l with
  | Returns (l', a) => k a l'
  | Panics => Panics
  | Blocks => Blocks
  end.

Definition get : RM RDFGraphIndexLayer := fun l => Returns (l, l).
Definition modify (f : RDFGraphIndexLayer -> RDFGraphIndexLayer) : RM unit := fun l => Returns (f l, tt).

Definition set_held (b : bool) (l : RDFGraphIndexLayer) : RDFGraphIndexLayer :=
  mkLayer b (config l) (graphs l) (subjectIndex l) (predicateIndex l) (objectIndex l) (typeIndex l) (metrics l) (closed l).
Definition set_typeIndex (t : gmap string (list string)) (l : RDFGraphIndexLayer) : RDFGraphIndexLayer :=
  mkLayer (held l) (config l) (graphs l) (subjectIndex l) (predicateIndex l) (objectIndex l) t (metrics l) (closed l).
Definition set_metrics (f : RDFGraphIndexMetrics -> RDFGraphIndexMetrics) (l : RDFGraphIndexLayer) : RDFGraphIndexLayer :=
  mkLayer (held l) (config l) (graphs l) (subjectIndex l) (predicateIndex l) (objectIndex l) (typeIndex l)
    (f (metrics l)) (closed l).
Definition set_indexes (gs : gmap string RDFGraph) (s p o : index) (l : RDFGraphIndexLayer) : RDFGraphIndexLayer :=
  mkLayer (held l) (config l) gs s p o (typeIndex l) (metrics l) (closed l).

Definition panic {A} : RM A := fun _ => Panics.

(** [mu.Lock()] with its deferred [mu.Unlock()]. *)
Definition with_lock {A} (body : RM A) : RM A := fun l =>
  if held l then Blocks
  else match body (set_held true l) with
       | Returns (l', a) => Returns (set_held false l', a)
       | Panics => Panics
       | Blocks => Blocks
       end.

(** [mu.RLock()] with its [mu.RUnlock()]: the bodies take no other lock of the layer. *)
Definition with_rlock {A} (body : RM A) : RM A := fun l => if held l then Blocks else body l.

(** ** Metrics *)

Definition RecordParse (success : bool) (m : RDFGraphIndexMetrics) : RDFGraphIndexMetrics :=
  mkMetrics (wrap64 (TotalParses m + 1)) (if success then wrap64 (SuccessfulParses m + 1) else SuccessfulParses m)
    (if success then FailedParses m else wrap64 (FailedParses m + 1)) (IndexUpdates m) (SubjectQueries m)
    (PredicateQueries m) (ObjectQueries m) (TypeQueries m) (GraphCount m) (TripleCount m) (CacheHits m) (CacheMisses m).
Definition RecordIndexUpdate (m : RDFGraphIndexMetrics) : RDFGraphIndexMetrics :=
  mkMetrics (TotalParses m) (SuccessfulParses m) (FailedParses m) (wrap64 (IndexUpdates m + 1)) (SubjectQueries m)
    (PredicateQueries m) (ObjectQueries m) (TypeQueries m) (GraphCount m) (TripleCount m) (CacheHits m) (CacheMisses m).
Definition RecordSubjectQuery (m : RDFGraphIndexMetrics) : RDFGraphIndexMetrics :=
  mkMetrics (TotalParses m) (SuccessfulParses m) (FailedParses m) (IndexUpdates m) (wrap64 (SubjectQueries m + 1))
    (PredicateQueries m) (ObjectQueries m) (TypeQueries m) (GraphCount m) (TripleCount m) (CacheHits m) (CacheMisses m).
Definition RecordPredicateQuery (m : RDFGraphIndexMetrics) : RDFGraphIndexMetrics :=
  mkMetrics (TotalParses m) (SuccessfulParses m) (FailedParses m) (IndexUpdates m) (SubjectQueries m)
    (wrap64 (PredicateQueries m + 1)) (ObjectQueries m) (TypeQueries m) (GraphCount m) (TripleCount m) (CacheHits m) (CacheMisses m).
Definition RecordObjectQuery (m : RDFGraphIndexMetrics) : RDFGraphIndexMetrics :=
  mkMetrics (TotalParses m) (SuccessfulParses m) (FailedParses m) (IndexUpdates m) (SubjectQueries m)
    (PredicateQueries m) (wrap64 (ObjectQueries m + 1)) (TypeQueries m) (GraphCount m) (TripleCount m) (CacheHits m) (CacheMisses m).
Definition RecordTypeQuery (m : RDFGraphIndexMetrics) : RDFGraphIndexMetrics :=
  mkMetrics (TotalParses m) (SuccessfulParses m) (FailedParses m) (IndexUpdates m) (SubjectQueries m)
    (PredicateQueries m) (ObjectQueries m) (wrap64 (TypeQueries m + 1)) (GraphCount m) (TripleCount m) (CacheHits m) (CacheMisses m).
Definition addCounts (graphs triples : Z) (m : RDFGraphIndexMetrics) : RDFGraphIndexMetrics :=
  mkMetrics (TotalParses m) (SuccessfulParses m) (FailedParses m) (IndexUpdates m) (SubjectQueries m)
    (PredicateQueries m) (ObjectQueries m) (TypeQueries m) (wrap64 (GraphCount m + graphs)) (wrap64 (TripleCount m + triples))
    (CacheHits m) (CacheMisses m).

Definition NewRDFGraphIndexLayer (c : RDFGraphIndexConfig) : RDFGraphIndexLayer :=
  mkLayer false c ∅ ∅ ∅ ∅ ∅ (mkMetrics 0 0 0 0 0 0 0 0 0 0 0 0) false.

(** ** Reading triples *)

Definition detectRDFFormat (contentType content : string) : string :=
  let contentType := ToLower contentType in
  if Contains contentType "text/turtle" then RDFFormatTurtle
  else if Contains contentType "application/n-triples" then RDFFormatNTriples
  else if Contains contentType "application/ld+json" || Contains contentType "application/json" then RDFFormatJSONLD
  else
    let content := TrimSpace content in
    if HasPrefix content "@prefix" || HasPrefix content "PREFIX" then RDFFormatTurtle
    else if HasPrefix content "<" || HasPrefix content "_" then RDFFormatNTriples
    else if HasPrefix content "{" then RDFFormatJSONLD
    else RDFFormatTurtle.

Definition cleanRDFTerm (term : string) : string :=
  let term := TrimSpace term in
  let term := TrimPrefix term "<" in
  let term := TrimSuffix term ">" in
  let term := TrimPrefix term dquote in
  let term := TrimSuffix term dquote in
  TrimSpace term.

Definition determineObjectType (obj : string) : string :=
  if HasPrefix obj "<" && HasSuffix obj ">" then RDFObjectTypeURI
  else if HasPrefix obj "_" then RDFObjectTypeBlank
  else RDFObjectTypeLiteral.

Definition hashGraph (triples : list RDFTriple) : string :=
  hex_EncodeToString (firstn 16 (Sum256 (Join (map (fun t =>
    String.append (Subject t) (String.append (Predicate t) (String.append (Object t) (ObjectType t)))) triples) ""))).

(** The triple of a line, if it has one. *)
Definition turtleLine (line : string) : option RDFTriple :=
  let line := TrimSpace line in
  if String.eqb line "" || HasPrefix line "#" || HasPrefix line "@prefix" || HasPrefix line "PREFIX" then None
  else if HasSuffix line "." then
    match Fields (TrimSpace (TrimSuffix line ".")) with
    | subject :: predicate :: part :: parts =>
        let object := cleanRDFTerm (Join (part :: parts) " ") in
        Some (mkTriple (cleanRDFTerm subject) (cleanRDFTerm predicate) object (determineObjectType object) "" "")
    | _ => None
    end
  else None.

Definition newline : ascii := chr 10.

Definition turtleTriples (content : string) : list RDFTriple := omap turtleLine (Split content newline).

Definition isTypePredicate (predicate : string) : bool :=
  String.eqb predicate "<http://www.w3.org/1999/02/22-rdf-syntax-ns#type>" || String.eqb predicate "a".

Definition indexType (uri : string) (types : gmap string (list string)) (t : RDFTriple) : gmap string (list string) :=
  if isTypePredicate (Predicate t)
  then <[Object t := default [] (types !! Object t) ++ [uri]]> types else types.

(** ** Indexing *)

Definition isClosed {A} : result error A := Err (ErrText "RDF graph/index layer is closed").

Definition ensure (k : string) (ix : index) : index :=
  match ix !! k with Some _ => ix | None => <[k := ∅]> ix end.
Definition put_index (k1 k2 : string) (g : RDFGraph) (ix : index) : index :=
  <[k1 := <[k2 := g]> (default ∅ (ix !! k1))]> ix.
Definition remove_index (k1 k2 : string) (ix : index) : index :=
  match ix !! k1 with
  | None => ix
  | Some m => if bool_decide (size (delete k2 m) = 0%nat) then delete k1 ix else <[k1 := delete k2 m]> ix
  end.

Definition index_all (key1 key2 : RDFTriple -> string) (g : RDFGraph) (ix : index) : index :=
  foldl (fun ix t => put_index (key1 t) (key2 t) g ix) (ensure (g_URI g) ix) (g_Triples g).
Definition unindex_all (key1 key2 : RDFTriple -> string) (g : RDFGraph) (ix : index) : index :=
  foldl (fun ix t => remove_index (key1 t) (key2 t) ix) ix (g_Triples g).

Definition addToIndexes (g : RDFGraph) : RM unit :=
  with_lock (fun l =>
    if closed l then Returns (l, tt)
    else if MaxGraphs (config l) <=? Z.of_nat (size (graphs l)) then Returns (l, tt)
    else
      Returns (set_metrics (addCounts 1 (Z.of_nat (length (g_Triples g))))
        (set_indexes (<[g_URI g := g]> (graphs l))
           (index_all Subject Predicate g (subjectIndex l))
           (index_all Predicate Object g (predicateIndex l))
           (index_all Object Subject g (objectIndex l)) l), tt)).

(** A content of at most 99 bytes over the limit is cut at its hundredth byte: a panic (of a
    slice without spare capacity). *)
Definition parseTurtle (uri content : string) : RM (result error ParseResult) :=
  l ← get;
  if MaxGraphSize (config l) <? len content then
    if len content <? 100 then panic
    else mret (Err (ParseError "graph exceeds maximum size" 0 0 (String.append (stake 100 content) "...")))
  else
    let triples := turtleTriples content in
    let graph := mkGraph uri triples RDFFormatTurtle (hashGraph triples) (len content) "" in
    _ ← modify (fun l => set_typeIndex (foldl (indexType uri) (typeIndex l) triples) l);
    _ ← addToIndexes graph;
    mret (Ok (mkParseResult graph triples RDFFormatTurtle [])).

Definition parseNTriples (uri content : string) : RM (result error ParseResult) := parseTurtle uri content.
Definition parseJSONLD (uri content : string) : RM (result error ParseResult) := parseTurtle uri content.

Definition validateInput (uri content contentType : string) : result error unit :=
  let! _ := result_map_err (ErrWrapped "invalid URI: ") (ValidateURI uri) in
  let! _ := result_map_err (ErrWrapped "invalid content type: ") (ValidateContentType contentType) in
  result_map_err (ErrWrapped "content validation failed: ") (ValidateResourceSize (len content)).

Definition Parse (uri content contentType : string) : RM (result error ParseResult) :=
  match validateInput uri content contentType with
  | Err e => mret (Err e)
  | Ok _ =>
      isclosed ← with_rlock (fun l => Returns (l, closed l));
      if isclosed : bool then mret isClosed
      else
        _ ← modify (set_metrics (RecordParse false));
        let format := detectRDFFormat contentType content in
        r ← (if String.eqb format RDFFormatTurtle then parseTurtle uri content
             else if String.eqb format RDFFormatNTriples then parseNTriples uri content
             else if String.eqb format RDFFormatJSONLD then parseJSONLD uri content
             else mret (Err (ErrText (String.append "unsupported RDF format: " format))));
        match r with
        | Err e => _ ← modify (set_metrics (RecordParse false)); mret (Err e)
        | Ok result =>
            _ ← modify (set_metrics (RecordParse true));
            _ ← modify (set_metrics RecordIndexUpdate);
            mret (Ok result)
        end
  end.

(** ** Queries *)

Definition copyGraph (g : RDFGraph) : RDFGraph :=
  mkGraph (g_URI g)
    (map (fun t => mkTriple (Subject t) (Predicate t) (Object t) (ObjectType t) (Language t) (Datatype t)) (g_Triples g))
    (g_Format g) (g_Hash g) (g_Size g) (g_LastModified g).

Definition GetGraph (uri : string) : RM (result error RDFGraph) :=
  match ValidateURI uri with
  | Err e => mret (Err (ErrWrapped "invalid URI: " e))
  | Ok _ => with_rlock (fun l => Returns (l,
      if closed l then isClosed
      else match graphs l !! uri with
           | None => Err (ErrText (String.append "graph " (String.append uri " not found")))
           | Some g => Ok (copyGraph g)
           end))
  end.

(** The graphs under a key of an index, in the order the map is visited. *)
Definition graph_order : Type := gmap string RDFGraph -> list string.

Definition queryIndex (what : string) (record : RDFGraphIndexMetrics -> RDFGraphIndexMetrics)
    (ix : RDFGraphIndexLayer -> index) (order : graph_order) (term : string) : RM (result error (list RDFGraph)) :=
  match ValidateRDFTerm term with
  | Err e => mret (Err (ErrWrapped what e))
  | Ok _ => with_rlock (fun l =>
      if closed l then Returns (l, isClosed)
      else Returns (set_metrics record l,
        match ix l !! term with
        | None => Ok []
        | Some m => Ok (omap (fun k => copyGraph <$> m !! k) (order m))
        end))
  end.

Definition QueryBySubject : graph_order -> string -> RM (result error (list RDFGraph)) :=
  queryIndex "invalid subject: " RecordSubjectQuery subjectIndex.
Definition QueryByPredicate : graph_order -> string -> RM (result error (list RDFGraph)) :=
  queryIndex "invalid predicate: " RecordPredicateQuery predicateIndex.
Definition QueryByObject : graph_order -> string -> RM (result error (list RDFGraph)) :=
  queryIndex "invalid object: " RecordObjectQuery objectIndex.

Definition QueryByType (rdfType : string) : RM (result error (list string)) :=
  match ValidateRDFTerm rdfType with
  | Err e => mret (Err (ErrWrapped "invalid RDF type: " e))
  | Ok _ => with_rlock (fun l =>
      if closed l then Returns (l, isClosed)
      else Returns (set_metrics RecordTypeQuery l, Ok (default [] (typeIndex l !! rdfType))))
  end.

(** ** Adding and removing graphs *)

(** [addToIndexes] asks for the lock that [AddGraph] holds. *)
Definition AddGraph (graph : option RDFGraph) : RM (result error unit) :=
  with_lock (
    l ← get;
    if closed l then mret isClosed
    else match graph with
    | None => mret (Err (ErrText "graph cannot be nil"))
    | Some g =>
        if MaxGraphSize (config l) <? g_Size g then mret (Err (ErrText "graph exceeds maximum size"))
        else if MaxGraphs (config l) <=? Z.of_nat (size (graphs l)) then
          mret (Err (ErrText "maximum graph count reached"))
        else _ ← addToIndexes g; mret (Ok tt)
    end).

Definition unindexType (uri : string) (types : gmap string (list string)) (t : RDFTriple) : gmap string (list string) :=
  if isTypePredicate (Predicate t) then
    match types !! Object t with
    | None => types
    | Some uris =>
        match filter (fun u => u <> uri) uris with
        | [] => delete (Object t) types
        | newURIs => <[Object t := newURIs]> types
        end
    end
  else types.

Definition RemoveGraph (uri : string) : RM (result error unit) :=
  with_lock (fun l =>
    if closed l then Returns (l, isClosed)
    else match graphs l !! uri with
    | None => Returns (l, Ok tt)
    | Some g =>
        Returns (set_metrics (addCounts (-1) (- Z.of_nat (length (g_Triples g))))
          (set_typeIndex (foldl (unindexType uri) (typeIndex l) (g_Triples g))
            (set_indexes (delete uri (graphs l))
               (unindex_all Subject Predicate g (subjectIndex l))
               (unindex_all Predicate Object g (predicateIndex l))
               (unindex_all Object Subject g (objectIndex l)) l)), Ok tt)
    end).

Definition notFound (e : error) : bool := match e with ErrText t => Contains t "not found" | _ => false end.

Definition UpdateGraph (graph : option RDFGraph) : RM (result error unit) :=
  match graph with
  | None => mret (Err (ErrText "graph cannot be nil"))
  | Some g =>
      r ← RemoveGraph (g_URI g);
      match r with
      | Err e => if notFound e then AddGraph (Some g) else mret (Err e)
      | Ok _ => AddGraph (Some g)
      end
  end.

Definition GetMetrics : RM RDFGraphIndexMetrics := with_rlock (fun l => Returns (l, metrics l)).
Definition Size : RM (Z * Z) :=
  with_rlock (fun l => Returns (l, (Z.of_nat (size (graphs l)), TripleCount (metrics l)))).
Definition IsClosed : RM bool := with_rlock (fun l => Returns (l, closed l)).

Definition Close : RM unit :=
  with_lock (fun l =>
    if closed l then Returns (l, tt)
    else Returns (mkLayer (held l) (config l) ∅ ∅ ∅ ∅ ∅ (metrics l) true, tt)).

(** ** Printing N-Triples *)

Definition printTerm (s : string) : string := String.append "<" (String.append s ">").
Definition printLine (t : RDFTriple) : string :=
  String.append (printTerm (Subject t)) (String.append " " (String.append (printTerm (Predicate t))
    (String.append " " (String.append (printTerm (Object t)) " .")))).
Fixpoint printNTriples (ts : list RDFTriple) : string :=
  match ts with
  | [] => ""
  | t :: rest => String.append (printLine t) (String newline (printNTriples rest))
  end.

(** Terms the reader keeps: graphic ASCII characters, no brackets, no quotes. *)
Definition plain_char (c : ascii) : bool := graphic c && negb (char_in "<>" c) && negb (Ascii.eqb c (chr 34)).
Definition plain (s : string) : bool := negb (String.eqb s "") && string_forallb plain_char s.
Definition plain_triple (t : RDFTriple) : Prop :=
  plain (Subject t) = true /\ plain (Predicate t) = true /\ plain (Object t) = true.

(** What the reader makes of a printed triple. *)
Definition reread (t : RDFTriple) : RDFTriple :=
  mkTriple (Subject t) (Predicate t) (Object t)
    (if HasPrefix (Object t) "_" then RDFObjectTypeBlank else RDFObjectTypeLiteral) "" "".

(** *** Reading a printed line *)

Lemma plain_word (s : string) : plain s = true -> word s.
Proof.
  unfold plain, word. intros H. bool_prop. split; [done|].
  eapply string_forallb_weaken; [|done]. intros c Hc. unfold plain_char in Hc. by bool_prop.
Qed.

Lemma printTerm_word (s : string) : plain s = true -> word (printTerm s).
Proof.
  intros [_ Hs]%plain_word. split; [done|]. unfold printTerm. rewrite !string_forallb_app. by rewrite Hs.
Qed.

(** No plain term starts or ends with a quote. *)
Lemma plain_no_quote (s : string) : plain s = true -> TrimPrefix s dquote = s /\ TrimSuffix s dquote = s.
Proof.
  unfold plain, TrimPrefix, TrimSuffix. intros H. bool_prop. split.
  - destruct (HasPrefix s dquote) eqn:E; [|done]. apply prefix_spec in E as [t ->].
    unfold dquote in *. rewrite string_forallb_app in *. bool_prop. discriminate.
  - destruct (HasSuffix s dquote) eqn:E; [|done]. apply HasSuffix_spec in E as [t ->].
    rewrite string_forallb_app in *. bool_prop. discriminate.
Qed.

Lemma TrimSuffix_app (s p : string) : TrimSuffix (String.append s p) p = s.
Proof.
  unfold TrimSuffix. assert (HasSuffix (String.append s p) p = true) as -> by (apply HasSuffix_spec; eauto).
  rewrite str_length_app. replace (_ + _ - _)%nat with (String.length s) by lia. apply stake_app.
Qed.

Lemma TrimPrefix_app (s p : string) : TrimPrefix (String.append p s) p = s.
Proof. unfold TrimPrefix, HasPrefix. rewrite prefix_app. apply sdrop_app. Qed.

Lemma cleanRDFTerm_print (s : string) : plain s = true -> cleanRDFTerm (printTerm s) = s.
Proof.
  intros Hs. unfold cleanRDFTerm.
  rewrite (TrimSpace_graphic (printTerm s)) by (by apply word_ends, printTerm_word).
  unfold printTerm at 1. rewrite TrimPrefix_app, TrimSuffix_app.
  destruct (plain_no_quote s Hs) as [-> ->]. by apply TrimSpace_graphic, word_ends, plain_word.
Qed.

Lemma determineObjectType_plain (s : string) : plain s = true ->
  determineObjectType s = if HasPrefix s "_" then RDFObjectTypeBlank else RDFObjectTypeLiteral.
Proof.
  intros Hs. unfold determineObjectType. destruct (HasPrefix s "<") eqn:E; [|done].
  apply prefix_spec in E as [t ->]. unfold plain in Hs. rewrite string_forallb_app in Hs. bool_prop. discriminate.
Qed.

Lemma turtleLine_print (t : RDFTriple) : plain_triple t -> turtleLine (printLine t) = Some (reread t).
Proof.
  intros (Hs & Hp & Ho). set (body := Join [printTerm (Subject t); printTerm (Predicate t); printTerm (Object t)] " ").
  assert (printLine t = String.append (String.append body " ") ".") as Hl.
  { unfold body, printLine. cbn [Join]. by rewrite !str_app_assoc. }
  assert (exists x, printLine t = String "<" x) as [x Hx] by (eexists; reflexivity).
  assert (graphic_ends (printLine t)) as Hg.
  { split; [by exists "<"%char, x|]. exists "."%char. split; [|done]. rewrite Hl. by apply last_byte_app. }
  assert (graphic_ends body) as Hb.
  { split; [by eexists "<"%char, _|]. unfold body. cbn [Join].
    destruct (word_ends _ (printTerm_word _ Ho)) as [_ (d & Hd & Hgd)]. exists d. split; [|done].
    do 4 apply last_byte_app. exact Hd. }
  unfold turtleLine. rewrite (TrimSpace_graphic _ Hg). rewrite Hx at 1 2 3 4. cbn [String.eqb HasPrefix].
  change (HasPrefix (String "<" x) "#") with false. change (HasPrefix (String "<" x) "@prefix") with false.
  change (HasPrefix (String "<" x) "PREFIX") with false. cbn [orb].
  assert (HasSuffix (printLine t) "." = true) as -> by (apply HasSuffix_spec; eauto).
  rewrite Hl, TrimSuffix_app, (TrimSpace_space _ Hb). unfold body.
  rewrite Fields_words by (repeat constructor; by apply printTerm_word). cbn [Join].
  by rewrite !cleanRDFTerm_print, determineObjectType_plain.
Qed.

Lemma printLine_no_newline (t : RDFTriple) : plain_triple t ->
  string_forallb (fun c => negb (Ascii.eqb c newline)) (printLine t) = true.
Proof.
  intros (Hs & Hp & Ho). unfold printLine, printTerm. rewrite !string_forallb_app.
  assert (forall s, plain s = true -> string_forallb (fun c => negb (Ascii.eqb c newline)) s = true) as Hn.
  { intros s [_ Hw]%plain_word. eapply string_forallb_weaken; [|exact Hw]. intros c Hc%graphic_range.
    destruct (Ascii.eqb_spec c newline) as [->|]; [change (byte_of newline) with 10 in Hc; lia|done]. }
  rewrite (Hn _ Hs), (Hn _ Hp), (Hn _ Ho). reflexivity.
Qed.

Lemma turtleTriples_print (ts : list RDFTriple) :
  Forall plain_triple ts -> turtleTriples (printNTriples ts) = map reread ts.
Proof.
  unfold turtleTriples, Split. induction 1 as [|t ts Ht Hts IH]; [reflexivity|]. cbn [printNTriples].
  rewrite split_char_app by (by apply printLine_no_newline). rewrite str_app_nil_l. cbn [omap list_omap].
  rewrite turtleLine_print by done. cbn [map]. by rewrite <- IH.
Qed.

(** ** Histories *)

Inductive op :=
| OParse (uri content contentType : string)
| OGetGraph (uri : string)
| OQueryBySubject (order : graph_order) (term : string)
| OQueryByPredicate (order : graph_order) (term : string)
| OQueryByObject (order : graph_order) (term : string)
| OQueryByType (rdfType : string)
| OAddGraph (g : option RDFGraph)
| ORemoveGraph (uri : string)
| OUpdateGraph (g : option RDFGraph)
| OClose.

Definition ignore {A} (m : RM A) : RM unit := _ ← m; mret tt.

Definition step (o : op) : RM unit :=
  match o with
  | OParse uri content contentType => ignore (Parse uri content contentType)
  | OGetGraph uri => ignore (GetGraph uri)
  | OQueryBySubject order term => ignore (QueryBySubject order term)
  | OQueryByPredicate order term => ignore (QueryByPredicate order term)
  | OQueryByObject order term => ignore (QueryByObject order term)
  | OQueryByType rdfType => ignore (QueryByType rdfType)
  | OAddGraph g => ignore (AddGraph g)
  | ORemoveGraph uri => ignore (RemoveGraph uri)
  | OUpdateGraph g => ignore (UpdateGraph g)
  | OClose => ignore Close
  end.

Fixpoint run (ops : list op) : RM unit :=
  match ops with
  | [] => mret tt
  | o :: rest => _ ← step o; run rest
  end.

(** Every graph in an index has a triple with the two terms it stands under. *)
Definition sound_index (key1 key2 : RDFTriple -> string) (ix : index) : Prop :=
  forall a m b g, ix !! a = Some m -> m !! b = Some g ->
    exists t, t ∈ g_Triples g /\ key1 t = a /\ key2 t = b.

Record layer_inv (l : RDFGraphIndexLayer) : Prop := {
  inv_held : held l = false;
  inv_graphs : forall u g, graphs l !! u = Some g -> g_URI g = u;
  inv_subject : sound_index Subject Predicate (subjectIndex l);
  inv_predicate : sound_index Predicate Object (predicateIndex l);
  inv_object : sound_index Object Subject (objectIndex l)
}.

Section indexes.
Context (key1 key2 : RDFTriple -> string).

Lemma sound_put (g : RDFGraph) (t : RDFTriple) (ix : index) :
  t ∈ g_Triples g -> sound_index key1 key2 ix -> sound_index key1 key2 (put_index (key1 t) (key2 t) g ix).
Proof.
  intros Ht Hs a m b g' Ha Hb. unfold put_index in Ha.
  apply lookup_insert_Some in Ha as [[<- <-]|[_ Ha]]; [|eauto].
  apply lookup_insert_Some in Hb as [[<- <-]|[_ Hb]]; [eauto|].
  destruct (ix !! key1 t) as [m'|] eqn:E; cbn in Hb; [eauto|]. by rewrite lookup_empty in Hb.
Qed.

Lemma sound_ensure (k : string) (ix : index) : sound_index key1 key2 ix -> sound_index key1 key2 (ensure k ix).
Proof.
  intros Hs. unfold ensure. destruct (ix !! k) eqn:E; [done|]. intros a m b g Ha Hb.
  apply lookup_insert_Some in Ha as [[<- <-]|[_ Ha]]; [by rewrite lookup_empty in Hb|eauto].
Qed.

Lemma sound_remove (k1 k2 : string) (ix : index) :
  sound_index key1 key2 ix -> sound_index key1 key2 (remove_index k1 k2 ix).
Proof.
  intros Hs. unfold remove_index. destruct (ix !! k1) as [m0|] eqn:E; [|done]. case_bool_decide; intros a m b g Ha Hb.
  - apply lookup_delete_Some in Ha as [_ Ha]. eauto.
  - apply lookup_insert_Some in Ha as [[<- <-]|[_ Ha]]; [|eauto]. apply lookup_delete_Some in Hb as [_ Hb]. eauto.
Qed.

Lemma sound_index_all (g : RDFGraph) (ix : index) :
  sound_index key1 key2 ix -> sound_index key1 key2 (index_all key1 key2 g ix).
Proof.
  intros Hs%(sound_ensure (g_URI g)). unfold index_all. revert Hs. generalize (ensure (g_URI g) ix).
  assert (forall t, t ∈ g_Triples g -> t ∈ g_Triples g) as Hin by done. revert Hin.
  generalize (g_Triples g) at 1 3. intros ts. induction ts as [|t ts IH]; intros Hin ix' Hs; [done|].
  apply IH; [intros t' Ht'; apply Hin; by apply list_elem_of_further|].
  apply sound_put; [apply Hin, list_elem_of_here|done].
Qed.

Lemma sound_unindex_all (g : RDFGraph) (ix : index) :
  sound_index key1 key2 ix -> sound_index key1 key2 (unindex_all key1 key2 g ix).
Proof.
  unfold unindex_all. generalize (g_Triples g). intros ts. revert ix.
  induction ts as [|t ts IH]; intros ix Hs; [done|]. by apply IH, sound_remove.
Qed.

Lemma sound_empty : sound_index key1 key2 ∅.
Proof. intros a m b g Ha. by rewrite lookup_empty in Ha. Qed.
End indexes.

(** *** Invariants of computations *)

(** A call that never waits for ever and keeps the invariant. *)
Definition safe {A} (m : RM A) : Prop :=
  forall l, layer_inv l -> m l = Panics \/ exists l' a, m l = Returns (l', a) /\ layer_inv l'.

Lemma safe_ret {A} (a : A) : safe (mret a).
Proof. intros l Hl. right. by exists l, a. Qed.
Lemma safe_bind {A C} (m : RM A) (k : A -> RM C) : safe m -> (forall a, safe (k a)) -> safe (m ≫= k).
Proof.
  intros Hm Hk l Hl. unfold mbind, RM_bind. destruct (Hm l Hl) as [->|(l1 & a & -> & Hl1)]; [by left|].
  by apply Hk.
Qed.
Lemma safe_modify f : (forall l, layer_inv l -> layer_inv (f l)) -> safe (modify f).
Proof. intros Hf l Hl. right. exists (f l), tt. auto. Qed.
Lemma safe_rlock {A} (f : RDFGraphIndexLayer -> RDFGraphIndexLayer) (r : RDFGraphIndexLayer -> A) :
  (forall l, layer_inv l -> layer_inv (f l)) -> safe (with_rlock (fun l => Returns (f l, r l))).
Proof. intros Hf l Hl. unfold with_rlock. rewrite (inv_held _ Hl). right. eauto. Qed.

Lemma metrics_inv f (l : RDFGraphIndexLayer) : layer_inv l -> layer_inv (set_metrics f l).
Proof. intros []. by split. Qed.
Lemma typeIndex_inv f (l : RDFGraphIndexLayer) : layer_inv l -> layer_inv (set_typeIndex f l).
Proof. intros []. by split. Qed.
Lemma unlock_inv (l : RDFGraphIndexLayer) : layer_inv l -> set_held false (set_held true l) = l.
Proof. intros [Hh _ _ _ _]. destruct l. cbn in *. by subst. Qed.

(** *** The calls *)

Lemma addToIndexes_returns (g : RDFGraph) (l : RDFGraphIndexLayer) :
  layer_inv l -> exists l', addToIndexes g l = Returns (l', tt) /\ layer_inv l' /\
    (closed l = false -> Z.of_nat (size (graphs l)) < MaxGraphs (config l) -> graphs l' = <[g_URI g := g]> (graphs l)) /\
    closed l' = closed l /\ config l' = config l.
Proof.
  intros Hl. pose proof Hl as [Hh Hg Hs Hp Ho]. unfold addToIndexes, with_lock. rewrite Hh.
  change (closed (set_held true l)) with (closed l). change (graphs (set_held true l)) with (graphs l).
  change (config (set_held true l)) with (config l).
  destruct (closed l) eqn:Ec.
  { rewrite (unlock_inv l Hl). by exists l. }
  destruct (_ <=? _) eqn:Em.
  { rewrite (unlock_inv l Hl). exists l. split_and!; try done. lia. }
  eexists. split; [reflexivity|]. split_and!; try done. split; cbn; [done| | | |].
  - intros u g' [[<- <-]|[_ Hu]]%lookup_insert_Some; [done|eauto].
  - by apply sound_index_all.
  - by apply sound_index_all.
  - by apply sound_index_all.
Qed.

(** The outcome of [AddGraph] on a layer nobody has locked. *)
Lemma AddGraph_outcome (graph : option RDFGraph) (l : RDFGraphIndexLayer) :
  layer_inv l ->
  AddGraph graph l =
    (if closed l then Returns (l, isClosed)
     else match graph with
     | None => Returns (l, Err (ErrText "graph cannot be nil"))
     | Some g =>
         if MaxGraphSize (config l) <? g_Size g then Returns (l, Err (ErrText "graph exceeds maximum size"))
         else if MaxGraphs (config l) <=? Z.of_nat (size (graphs l)) then
           Returns (l, Err (ErrText "maximum graph count reached"))
         else Blocks
     end).
Proof.
  intros Hl. unfold AddGraph, with_lock. rewrite (inv_held _ Hl).
  unfold mbind, RM_bind, get, mret, RM_ret.
  change (closed (set_held true l)) with (closed l). change (graphs (set_held true l)) with (graphs l).
  change (config (set_held true l)) with (config l).
  destruct (closed l); [by rewrite (unlock_inv l Hl)|]. destruct graph as [g|]; [|by rewrite (unlock_inv l Hl)].
  destruct (_ <? _); [by rewrite (unlock_inv l Hl)|]. destruct (_ <=? _); [by rewrite (unlock_inv l Hl)|]. reflexivity.
Qed.

Lemma RemoveGraph_inv (uri : string) (l : RDFGraphIndexLayer) :
  layer_inv l -> exists l', RemoveGraph uri l = Returns (l', if closed l then isClosed else Ok tt) /\ layer_inv l' /\
    closed l' = closed l /\ config l' = config l /\ (closed l = false -> graphs l' = delete uri (graphs l)).
Proof.
  intros Hl. pose proof Hl as [Hh Hg Hs Hp Ho]. unfold RemoveGraph, with_lock. rewrite Hh.
  change (closed (set_held true l)) with (closed l). change (graphs (set_held true l)) with (graphs l).
  destruct (closed l) eqn:Ec; [rewrite (unlock_inv l Hl); by exists l|].
  destruct (graphs l !! uri) as [g|] eqn:Eg.
  2: { rewrite (unlock_inv l Hl). exists l. split_and!; try done. by rewrite delete_id. }
  eexists. split; [reflexivity|]. split_and!; try done. split; cbn; [done| | | |].
  - intros u g' [_ Hu]%lookup_delete_Some. eauto.
  - by apply sound_unindex_all.
  - by apply sound_unindex_all.
  - by apply sound_unindex_all.
Qed.

(** The reader returns or panics. *)
Lemma parseTurtle_safe (uri content : string) : safe (parseTurtle uri content).
Proof.
  intros l Hl. unfold parseTurtle, mbind, RM_bind, get, modify. destruct (_ <? _).
  { destruct (_ <? _); [by left|]. right. unfold mret, RM_ret. eauto. }
  right. cbv zeta.
  match goal with |- context [addToIndexes ?g ?l] => destruct (addToIndexes_returns g l) as (l1 & -> & Hl1 & _) end.
  { by apply typeIndex_inv. }
  unfold mret, RM_ret. eauto.
Qed.

Lemma Parse_safe (uri content contentType : string) : safe (Parse uri content contentType).
Proof.
  unfold Parse, parseNTriples, parseJSONLD. destruct (validateInput _ _ _) as [?|?]; [|apply safe_ret].
  apply safe_bind; [by apply (safe_rlock id)|]. intros [|]; [apply safe_ret|].
  apply safe_bind; [apply safe_modify, metrics_inv|]. intros _. cbv zeta. apply safe_bind.
  - repeat break_if; auto using parseTurtle_safe, safe_ret.
  - intros [r|e].
    + do 2 (apply safe_bind; [apply safe_modify, metrics_inv|]; intros _). apply safe_ret.
    + apply safe_bind; [apply safe_modify, metrics_inv|]. intros _. apply safe_ret.
Qed.

Lemma queryIndex_safe what record ix (order : graph_order) (term : string) : safe (queryIndex what record ix order term).
Proof.
  unfold queryIndex. destruct (ValidateRDFTerm term); [|apply safe_ret]. intros l Hl. unfold with_rlock.
  rewrite (inv_held _ Hl). right. destruct (closed l); eexists _, _; (split; [reflexivity|]); auto using metrics_inv.
Qed.

Lemma Close_safe : safe Close.
Proof.
  intros l Hl. unfold Close, with_lock. rewrite (inv_held _ Hl). right. cbn. destruct (closed l).
  - rewrite (unlock_inv l Hl). eauto.
  - eexists _, _. split; [reflexivity|]. split; cbn; [done|..].
    + intros u g Hu. by rewrite lookup_empty in Hu.
    + apply sound_empty.
    + apply sound_empty.
    + apply sound_empty.
Qed.

(** The calls that add a graph given by the caller. *)
Definition adds (o : op) : bool := match o with OAddGraph _ | OUpdateGraph _ => true | _ => false end.

Lemma step_safe (o : op) : adds o = false -> safe (step o).
Proof.
  intros Ho. destruct o; try discriminate; cbn [step]; apply safe_bind; try (intros _; apply safe_ret).
  - apply Parse_safe.
  - unfold GetGraph. destruct (ValidateURI _); [by apply (safe_rlock id)|apply safe_ret].
  - apply queryIndex_safe.
  - apply queryIndex_safe.
  - apply queryIndex_safe.
  - unfold QueryByType. destruct (ValidateRDFTerm _); [|apply safe_ret]. intros l Hl. unfold with_rlock.
    rewrite (inv_held _ Hl). right. destruct (closed l); eexists _, _; (split; [reflexivity|]); auto using metrics_inv.
  - intros l Hl. right. destruct (RemoveGraph_inv uri l Hl) as (l' & -> & Hl' & _). eauto.
  - apply Close_safe.
Qed.

(** Adding returns, if at all, with an error, and the layer as it was. *)
Lemma rdf_step_inv (o : op) (l l' : RDFGraphIndexLayer) (u : unit) :
  layer_inv l -> step o l = Returns (l', u) -> layer_inv l'.
Proof.
  intros Hl Hs. assert (forall g l l' r, layer_inv l -> AddGraph g l = Returns (l', r) -> l' = l) as Hadd.
  { intros g l0 l0' r Hl0 Hr. rewrite (AddGraph_outcome g l0 Hl0) in Hr.
    repeat case_match; try discriminate; by injection Hr as <- _. }
  destruct (adds o) eqn:Ho.
  - destruct o; try discriminate; cbn [step] in Hs; unfold ignore, mbind, RM_bind in Hs.
    + destruct (AddGraph g l) as [[l1 r]| |] eqn:E; try discriminate. injection Hs as <- _.
      by rewrite (Hadd _ _ _ _ Hl E).
    + unfold UpdateGraph in Hs. destruct g as [g|]; [|injection Hs as <- _; done]. unfold mbind, RM_bind in Hs.
      destruct (RemoveGraph_inv (g_URI g) l Hl) as (l1 & Er & Hl1 & _). rewrite Er in Hs.
      destruct (closed l); [by injection Hs as <- _|].
      destruct (AddGraph (Some g) l1) as [[l2 r2]| |] eqn:E; try discriminate. injection Hs as <- _.
      by rewrite (Hadd _ _ _ _ Hl1 E).
  - destruct (step_safe o Ho l Hl) as [Hp|(l1 & a & Hr & Hl1)]; rewrite Hs in *; [discriminate|].
    by injection Hr as -> _.
Qed.

Lemma rdf_run_inv (ops : list op) (l l' : RDFGraphIndexLayer) (u : unit) :
  layer_inv l -> run ops l = Returns (l', u) -> layer_inv l'.
Proof.
  revert l. induction ops as [|o ops IH]; intros l Hl; cbn [run]; [by intros [= <- _]|].
  unfold mbind, RM_bind. destruct (step o l) as [[l1 a]| |] eqn:E; try discriminate.
  intros Hr. by eapply IH; [eapply rdf_step_inv|].
Qed.

Lemma new_inv (c : RDFGraphIndexConfig) : layer_inv (NewRDFGraphIndexLayer c).
Proof.
  split; cbn; [done| |apply sound_empty|apply sound_empty|apply sound_empty].
  intros u g Hu. by rewrite lookup_empty in Hu.
Qed.

Lemma copyGraph_id (g : RDFGraph) : copyGraph g = g.
Proof.
  destruct g as [u ts f h z m]. unfold copyGraph. cbn. f_equal. induction ts as [|[] ts IH]; [done|]. cbn. by rewrite IH.
Qed.

(** What a query returns stands in the index under its term. *)
Lemma queryIndex_Ok what record ix (order : graph_order) (term : string) (l l' : RDFGraphIndexLayer) gs (g : RDFGraph) :
  queryIndex what record ix order term l = Returns (l', Ok gs) -> g ∈ gs ->
  exists m k, ix l !! term = Some m /\ m !! k = Some g.
Proof.
  unfold queryIndex. destruct (ValidateRDFTerm term); [|discriminate]. unfold with_rlock.
  destruct (held l); [discriminate|]. destruct (closed l); [discriminate|]. intros [= _ Hgs] Hg.
  destruct (ix l !! term) as [m|] eqn:Em; injection Hgs as <-; [|by apply elem_of_nil in Hg].
  apply list_elem_of_omap in Hg as (k & Hk & Hg). apply fmap_Some in Hg as (g' & Hg' & ->).
  rewrite copyGraph_id. eauto.
Qed.

(** Every format is read by the same reader. *)
Lemma detectRDFFormat_known (contentType content : string) :
  let f := detectRDFFormat contentType content in
  f = RDFFormatTurtle \/ f = RDFFormatNTriples \/ f = RDFFormatJSONLD.
Proof. unfold detectRDFFormat. repeat break_if; auto. Qed.

(** A valid input within the limits is read and stored. *)
Lemma Parse_returns (uri content contentType : string) (l : RDFGraphIndexLayer) :
  layer_inv l -> closed l = false -> validateInput uri content contentType = Ok tt ->
  len content <= MaxGraphSize (config l) ->
  exists l' r, Parse uri content contentType l = Returns (l', Ok r) /\ pr_Triples r = turtleTriples content /\
    g_URI (pr_Graph r) = uri /\ g_Triples (pr_Graph r) = turtleTriples content /\ layer_inv l' /\ closed l' = false /\
    (Z.of_nat (size (graphs l)) < MaxGraphs (config l) -> graphs l' !! uri = Some (pr_Graph r)).
Proof.
  intros Hl Hc Hv Hlen. unfold Parse. rewrite Hv. unfold mbind at 1, RM_bind at 1, with_rlock.
  rewrite (inv_held _ Hl), Hc. unfold mbind at 1, RM_bind at 1, modify at 1. cbv zeta.
  set (l0 := set_metrics (RecordParse false) l).
  assert (exists l' r, parseTurtle uri content l0 = Returns (l', Ok r) /\ pr_Triples r = turtleTriples content /\
    g_URI (pr_Graph r) = uri /\ g_Triples (pr_Graph r) = turtleTriples content /\ layer_inv l' /\ closed l' = false /\
    (Z.of_nat (size (graphs l)) < MaxGraphs (config l) -> graphs l' !! uri = Some (pr_Graph r)))
    as (l1 & r & Hp & Ht & Hu & Hgt & Hl1 & Hc1 & Hg1).
  { unfold parseTurtle, mbind, RM_bind, get, modify. change (config l0) with (config l).
    rewrite (proj2 (Z.ltb_ge (MaxGraphSize (config l)) (len content))) by lia. cbv zeta.
    match goal with |- context [addToIndexes ?g ?l] =>
      destruct (addToIndexes_returns g l) as (l1 & -> & Hl1 & Hg1 & Hc1 & _) end.
    { by apply typeIndex_inv, metrics_inv. }
    unfold mret, RM_ret. eexists _, _. split_and!; try done; [rewrite Hc1; exact Hc|]. intros Hs. rewrite Hg1 by done. apply lookup_insert_eq. }
  exists (set_metrics RecordIndexUpdate (set_metrics (RecordParse true) l1)), r.
  split_and!; try done; [|by repeat apply metrics_inv].
  unfold mbind, RM_bind, parseNTriples, parseJSONLD.
  destruct (detectRDFFormat_known contentType content) as [->|[->| ->]]; cbn; by rewrite Hp.
Qed.

(** ** Properties *)

(** C27: Written triples are read back, up to the type of their objects.  After any calls that left
    the layer open and with room for one more graph, N-Triples text printed from triples of plain
    terms and within the size limits is parsed, under a valid URI, into triples with the same
    subjects, predicates and objects in the same order, and [GetGraph] returns them.  An object
    that starts with an underscore comes back as a blank node and every other one as a literal,
    also an IRI, without a language and a datatype. *)
Theorem rdf_parse_roundtrip (c : RDFGraphIndexConfig) (ops : list op) (uri : string) (ts : list RDFTriple)
    (l : RDFGraphIndexLayer) :
  run ops (NewRDFGraphIndexLayer c) = Returns (l, tt) -> closed l = false -> ValidateURI uri = Ok tt -> Forall plain_triple ts ->
  len (printNTriples ts) <= Z.min (MaxGraphSize (config l)) MaxResourceSize ->
  Z.of_nat (size (graphs l)) < MaxGraphs (config l) ->
  exists l' r, Parse uri (printNTriples ts) RDFFormatNTriples l = Returns (l', Ok r) /\
    pr_Triples r = map reread ts /\
    exists g, GetGraph uri l' = Returns (l', Ok g) /\ g_Triples g = map reread ts.
Proof.
  intros Hl%rdf_run_inv Hc Hu Hts Hlen Hsize; [|apply new_inv].
  destruct (Parse_returns uri (printNTriples ts) RDFFormatNTriples l Hl Hc) as
    (l' & r & Hp & Ht & Hru & Hgt & Hl' & Hc' & Hg'); [|lia|].
  { unfold validateInput, ValidateResourceSize. rewrite Hu. cbn.
    by rewrite (proj2 (Z.ltb_ge MaxResourceSize (len (printNTriples ts)))) by lia. }
  rewrite (turtleTriples_print ts Hts) in *. exists l', r. split_and!; [done|done|]. exists (pr_Graph r).
  split; [|done]. unfold GetGraph, with_rlock. rewrite Hu, (inv_held _ Hl'), Hc', Hg' by done.
  by rewrite copyGraph_id.
Qed.

Definition sampleTriples : list RDFTriple :=
  [mkTriple "https://pod.example/card#me" "http://xmlns.com/foaf/0.1/knows" "https://pod.example/bob" "uri" "" "";
   mkTriple "https://pod.example/card#me" "a" "_:person" "blank" "" ""].

Lemma rdf_parse_roundtrip_witness :
  exists l' r, Parse "https://pod.example/card" (printNTriples sampleTriples) RDFFormatNTriples
      (NewRDFGraphIndexLayer DefaultRDFGraphIndexConfig) = Returns (l', Ok r) /\
    pr_Triples r = map reread sampleTriples.
Proof.
  destruct (rdf_parse_roundtrip DefaultRDFGraphIndexConfig [] "https://pod.example/card" sampleTriples
    (NewRDFGraphIndexLayer DefaultRDFGraphIndexConfig)) as (l' & r & Hp & Hr & _).
  - reflexivity.
  - reflexivity.
  - vm_compute. reflexivity.
  - repeat constructor.
  - vm_compute. discriminate.
  - vm_compute. reflexivity.
  - eauto.
Defined.

(** Queries are sound.  After any calls, the graphs that [QueryBySubject], [QueryByPredicate]
    and [QueryByObject] return contain a triple with the term that was asked for, and the graph
    of [GetGraph] has the URI that was asked for. *)
Theorem rdf_queries_sound (c : RDFGraphIndexConfig) (ops : list op) (l : RDFGraphIndexLayer) :
  run ops (NewRDFGraphIndexLayer c) = Returns (l, tt) ->
  (forall order term l' gs g, QueryBySubject order term l = Returns (l', Ok gs) -> g ∈ gs ->
     exists t, t ∈ g_Triples g /\ Subject t = term) /\
  (forall order term l' gs g, QueryByPredicate order term l = Returns (l', Ok gs) -> g ∈ gs ->
     exists t, t ∈ g_Triples g /\ Predicate t = term) /\
  (forall order term l' gs g, QueryByObject order term l = Returns (l', Ok gs) -> g ∈ gs ->
     exists t, t ∈ g_Triples g /\ Object t = term) /\
  (forall uri l' g, GetGraph uri l = Returns (l', Ok g) -> g_URI g = uri).
Proof.
  intros Hl%rdf_run_inv; [|apply new_inv]. destruct Hl as [Hh Hg Hs Hp Ho]. split_and!.
  - intros order term l' gs g Hq Hin. destruct (queryIndex_Ok _ _ _ _ _ _ _ _ _ Hq Hin) as (m & k & Hm & Hk).
    destruct (Hs _ _ _ _ Hm Hk) as (t & Ht & <- & _). eauto.
  - intros order term l' gs g Hq Hin. destruct (queryIndex_Ok _ _ _ _ _ _ _ _ _ Hq Hin) as (m & k & Hm & Hk).
    destruct (Hp _ _ _ _ Hm Hk) as (t & Ht & <- & _). eauto.
  - intros order term l' gs g Hq Hin. destruct (queryIndex_Ok _ _ _ _ _ _ _ _ _ Hq Hin) as (m & k & Hm & Hk).
    destruct (Ho _ _ _ _ Hm Hk) as (t & Ht & <- & _). eauto.
  - intros uri l' g. unfold GetGraph. destruct (ValidateURI uri); [|discriminate]. unfold with_rlock. rewrite Hh.
    destruct (closed l); [discriminate|]. destruct (graphs l !! uri) as [g'|] eqn:E; [|discriminate].
    rewrite copyGraph_id. intros [= _ <-]. by apply Hg.
Qed.

(** Adding a graph never returns.  After any calls, a call waits for ever exactly when it is
    an [AddGraph], or an [UpdateGraph], of a graph within the limits on an open layer:
    [addToIndexes] asks for the lock its caller holds. *)
Theorem rdf_add_graph_blocks (c : RDFGraphIndexConfig) (ops : list op) (l : RDFGraphIndexLayer) (o : op) :
  run ops (NewRDFGraphIndexLayer c) = Returns (l, tt) ->
  step o l = Blocks <->
  closed l = false /\ exists g gs, (o = OAddGraph (Some g) /\ gs = graphs l \/
    o = OUpdateGraph (Some g) /\ gs = delete (g_URI g) (graphs l)) /\
    g_Size g <= MaxGraphSize (config l) /\ Z.of_nat (size gs) < MaxGraphs (config l).
Proof.
  intros Hl%rdf_run_inv; [|apply new_inv]. destruct (adds o) eqn:Ho.
  2: { split.
    - intros Hs. destruct (step_safe o Ho l Hl) as [Hp|(l1 & a & Hr & _)]; rewrite Hs in *; discriminate.
    - intros (_ & g & gs & [[-> _]|[-> _]] & _); discriminate. }
  assert (forall l g, layer_inv l -> ignore (AddGraph (Some g)) l = Blocks <->
    closed l = false /\ g_Size g <= MaxGraphSize (config l) /\ Z.of_nat (size (graphs l)) < MaxGraphs (config l)) as Hadd.
  { intros l0 g Hl0. unfold ignore, mbind, RM_bind. rewrite (AddGraph_outcome (Some g) l0 Hl0).
    destruct (closed l0); [naive_solver|]. destruct (Z.ltb_spec (MaxGraphSize (config l0)) (g_Size g)); [naive_solver lia|].
    destruct (Z.leb_spec (MaxGraphs (config l0)) (Z.of_nat (size (graphs l0)))); naive_solver lia. }
  destruct o as [| | | | | |[g|]| |[g|]|]; try discriminate; cbn [step].
  - rewrite (Hadd l g Hl). split.
    + intros (Hc & Hz & Hn). split; [done|]. exists g, (graphs l). auto.
    + intros (Hc & g' & gs & [[[= ->] ->]|[[=] _]] & Hz & Hn). auto.
  - unfold ignore, mbind, RM_bind. rewrite (AddGraph_outcome None l Hl). split; [by destruct (closed l)|].
    intros (_ & g & gs & [[[=] _]|[[=] _]] & _).
  - destruct (RemoveGraph_inv (g_URI g) l Hl) as (l1 & Hr & Hl1 & Hc1 & Hcf1 & Hg1).
    specialize (Hadd l1 g Hl1). unfold ignore, UpdateGraph, mbind, RM_bind in *. rewrite Hr.
    destruct (closed l); [split; [discriminate|by intros [? _]]|]. rewrite Hadd, Hc1, Hcf1, Hg1 by done. split.
    + intros (Hc & Hz & Hn). split; [done|]. exists g, (delete (g_URI g) (graphs l)). auto.
    + intros (Hc & g' & gs & [[[=] _]|[[= ->] ->]] & Hz & Hn). auto.
  - split; [discriminate|]. intros (_ & g & gs & [[[=] _]|[[=] _]] & _).
Qed.

Definition sampleOps : list op :=
  [OParse "https://pod.example/card" (printNTriples sampleTriples) RDFFormatNTriples].
Definition sampleLayer : RDFGraphIndexLayer :=
  match run sampleOps (NewRDFGraphIndexLayer DefaultRDFGraphIndexConfig) with
  | Returns (l, _) => l
  | _ => NewRDFGraphIndexLayer DefaultRDFGraphIndexConfig
  end.
Definition keysOrder : graph_order := fun m => (map_to_list m).*1.

Lemma rdf_queries_sound_witness :
  exists l' gs, QueryByPredicate keysOrder "a" sampleLayer = Returns (l', Ok gs) /\ length gs = 1%nat /\
    forall g, g ∈ gs -> exists t, t ∈ g_Triples g /\ Predicate t = "a".
Proof.
  destruct (rdf_queries_sound DefaultRDFGraphIndexConfig sampleOps sampleLayer) as (_ & Hp & _).
  { vm_compute. reflexivity. }
  assert (match QueryByPredicate keysOrder "a" sampleLayer with Returns (_, Ok gs) => length gs | _ => 0%nat end = 1%nat)
    as Hlen by (vm_compute; reflexivity).
  destruct (QueryByPredicate keysOrder "a" sampleLayer) as [[l' [gs|e]]| |] eqn:E; try discriminate Hlen.
  exists l', gs. split; [reflexivity|]. split; [exact Hlen|]. intros g Hg. exact (Hp keysOrder "a" l' gs g E Hg).
Defined.

Definition sampleGraph : RDFGraph := mkGraph "https://pod.example/card" sampleTriples RDFFormatTurtle "" 100 "".

Lemma rdf_add_graph_blocks_witness :
  step (OAddGraph (Some sampleGraph)) (NewRDFGraphIndexLayer DefaultRDFGraphIndexConfig) = Blocks.
Proof.
  apply (rdf_add_graph_blocks DefaultRDFGraphIndexConfig []); [reflexivity|]. split; [reflexivity|].
  exists sampleGraph, ∅. split; [left; split; reflexivity|]. split; vm_compute; [discriminate|reflexivity].
Defined.
End Runtime.
