(* ===== verification/RuntimeStorage.v ===== *)
(** * The storage layer of the runtime

    [internal/runtime/storage.go] and [internal/runtime/storage_conditional.go]: the layer that
    routes operations to named backends and retries them, the in-memory backend, and the writes
    with [If-Match] and [If-None-Match].  The HTTP backend is not modelled: a backend is any
    instance of [StorageBackend].

    Backends are pointers: the layer maps names to references, so one backend may have two
    names.  The map of custom metadata is a pointer as well, into a heap the callers share; bodies
    are copied by the code and are values here, as is the metadata [Head] returns.  A call
    returns, panics, or diverges.  Calls on the layer are sequential; the clock and the choice
    between a cancelled context and the end of a delay are arguments, by attempt. *)

From S2P Require Import Prelude GoStrings GoURL GoHash RDFIndex.

Local Open Scope Z_scope.

(** ** Errors *)

(** Errors whose text quotes the name of a backend carry the name. *)
Inductive serror :=
| Plain (text : string)
| Invalid (e : Runtime.error)
| ErrStoragePreconditionFailed
| ErrStorageConditionalUnsupported (backend : string)
| BackendNotFound (name : string)
| DefaultBackendNotFound (name : string)
| BackendRegistered (name : string)
| HTTPError (StatusCode : Z) (Message : string)
| ErrEOF
| ErrUnexpectedEOF
| DeadlineExceeded
| Canceled
| NetworkError (timeout : bool) (inner : serror)
| Wrapf (before : string) (e : serror) (after : string).

(** The first error of a chain with a [Timeout] method. *)
Fixpoint asTimeout (e : serror) : option bool :=
  match e with
  | DeadlineExceeded => Some true
  | NetworkError timeout _ => Some timeout
  | Wrapf _ e' _ => asTimeout e'
  | _ => None
  end.

(** The last error of a chain. *)
Fixpoint root (e : serror) : serror :=
  match e with
  | NetworkError _ e' | Wrapf _ e' _ => root e'
  | _ => e
  end.

Definition shouldRetry (e : serror) : bool :=
  match asTimeout e with
  | Some true => true
  | _ =>
      match root e with
      | DeadlineExceeded | ErrEOF | ErrUnexpectedEOF => true
      | HTTPError status _ => (500 <=? status) && (status <? 600)
      | _ => false
      end
  end.

(** ** Calls *)

Inductive run (A : Type) :=
| Done (a : A)
| Panicked
| Diverges.
Arguments Done {A} _.
Arguments Panicked {A}.
Arguments Diverges {A}.

(** A call on a state of type [S]. *)
Definition call (S A : Type) : Type := S -> run (S * result serror A).

(** ** Resources *)

(** The maps of custom metadata, by their address. *)
Definition Heap : Type := gmap nat (gmap string string).

Record StorageResourceMetadata := mkSMetadata {
  sm_Size : Z;
  sm_ContentType : string;
  sm_ETag : string;
  sm_LastModified : Z;
  sm_Created : Z;
  sm_Custom : option nat
}.

Record StorageResource := mkSResource {
  sr_URI : string;
  sr_ContentType : string;
  sr_Body : string;
  sr_Metadata : StorageResourceMetadata;
  sr_ETag : string;
  sr_LastModified : Z
}.

Record StoragePreconditions := mkPreconditions { IfMatch : list string; IfNoneMatch : list string }.

Definition StoragePreconditions_IsEmpty (p : StoragePreconditions) : bool :=
  bool_decide (IfMatch p = []) && bool_decide (IfNoneMatch p = []).

(** The order in which [range] visits a backend's map. *)
Definition data_order : Type := gmap string StorageResource -> list string.

(** The interface; [be_conditional] is the type assertion to [ConditionalStorageBackend].  A
    [*StorageResource] is an option, [None] for nil. *)
Record conditional_ops (B : Type) := mkConditional {
  co_Put : Z -> string -> option StorageResource -> StoragePreconditions -> call (Heap * B) unit;
  co_Delete : string -> StoragePreconditions -> call (Heap * B) unit
}.
Arguments mkConditional {B} _ _.
Arguments co_Put {B} _ _ _ _ _ _.
Arguments co_Delete {B} _ _ _ _.

Class StorageBackend (B : Type) := {
  be_Get : string -> call (Heap * B) StorageResource;
  be_Put : Z -> string -> option StorageResource -> call (Heap * B) unit;
  be_Delete : string -> call (Heap * B) unit;
  be_List : data_order -> string -> call (Heap * B) (list StorageResource);
  be_Exists : string -> call (Heap * B) bool;
  be_Head : string -> call (Heap * B) StorageResourceMetadata;
  be_Close : call (Heap * B) unit;
  be_HealthCheck : call (Heap * B) unit;
  be_conditional : B -> option (conditional_ops B)
}.

(** ** Preconditions *)

Fixpoint etagListMatches (values : list string) (current : string) (exist : bool) : bool :=
  match values with
  | [] => false
  | value :: rest =>
      if String.eqb value "*" then exist
      else if exist && negb (String.eqb value "") && String.eqb value current then true
      else etagListMatches rest current exist
  end.

Definition evaluateStoragePreconditions (current : string) (exist : bool) (p : StoragePreconditions)
  : result serror unit :=
  fail! Wrapf "" ErrStoragePreconditionFailed ": If-Match did not match current validator"
    when negb (bool_decide (IfMatch p = [])) && (negb exist || negb (etagListMatches (IfMatch p) current exist)) in
  fail! Wrapf "" ErrStoragePreconditionFailed ": If-None-Match matched current validator"
    when negb (bool_decide (IfNoneMatch p = [])) && etagListMatches (IfNoneMatch p) current exist in
  Ok tt.

Definition currentETag (resource : option StorageResource) : string :=
  match resource with
  | None => ""
  | Some r => if negb (String.eqb (sr_ETag r) "") then sr_ETag r else sm_ETag (sr_Metadata r)
  end.

Definition quote : string := String (chr 34) "".
Definition strongStorageETag (body : string) : string :=
  String.append quote (String.append "sha256-" (String.append (hex_EncodeToString (Sum256 body)) quote)).

(** The copy has a map of its own, at a new address. *)
Definition copyStorageResource (h : Heap) (r : StorageResource) : Heap * StorageResource :=
  let m := sr_Metadata r in
  let with_custom c := mkSResource (sr_URI r) (sr_ContentType r) (sr_Body r)
    (mkSMetadata (sm_Size m) (sm_ContentType m) (sm_ETag m) (sm_LastModified m) (sm_Created m) c)
    (sr_ETag r) (sr_LastModified r) in
  match sm_Custom m with
  | None => (h, with_custom None)
  | Some l => let l' := fresh (dom h) in (<[l' := default ∅ (h !! l)]> h, with_custom (Some l'))
  end.

(** ** The in-memory backend *)

Record InMemoryStorageBackend := mkInMemory {
  im_data : gmap string StorageResource;
  im_name : string;
  im_closed : bool
}.

Definition NewInMemoryStorageBackend (name : string) : InMemoryStorageBackend := mkInMemory ∅ name false.

Definition set_data (d : gmap string StorageResource) (b : InMemoryStorageBackend) : InMemoryStorageBackend :=
  mkInMemory d (im_name b) (im_closed b).

Definition closedError : serror := Plain "in-memory backend is closed".
Definition notFound : serror := HTTPError 404 "resource not found".

Definition InMemory_Get (uri : string) : call (Heap * InMemoryStorageBackend) StorageResource := fun s =>
  Done (s, if im_closed s.2 then Err closedError
           else match im_data s.2 !! uri with None => Err notFound | Some r => Ok r end).

Definition InMemory_Put (now : Z) (uri : string) (resource : option StorageResource)
  : call (Heap * InMemoryStorageBackend) unit := fun '(h, b) =>
  if im_closed b then Done ((h, b), Err closedError)
  else match resource with
  | None => Panicked
  | Some r =>
      let stored := mkSResource (sr_URI r) (sr_ContentType r) (sr_Body r) (sr_Metadata r) (sr_ETag r) now in
      Done ((h, set_data (<[uri := stored]> (im_data b)) b), Ok tt)
  end.

Definition InMemory_Delete (uri : string) : call (Heap * InMemoryStorageBackend) unit := fun '(h, b) =>
  if im_closed b then Done ((h, b), Err closedError)
  else Done ((h, set_data (delete uri (im_data b)) b), Ok tt).

Definition InMemory_List (order : data_order) (containerURI : string)
  : call (Heap * InMemoryStorageBackend) (list StorageResource) := fun s =>
  Done (s, if im_closed s.2 then Err closedError
           else Ok (omap (fun uri => if HasPrefix uri containerURI then im_data s.2 !! uri else None) (order (im_data s.2)))).

Definition InMemory_Exists (uri : string) : call (Heap * InMemoryStorageBackend) bool := fun s =>
  Done (s, if im_closed s.2 then Err closedError else Ok (bool_decide (is_Some (im_data s.2 !! uri)))).

Definition InMemory_Head (uri : string) : call (Heap * InMemoryStorageBackend) StorageResourceMetadata := fun s =>
  Done (s, if im_closed s.2 then Err closedError
           else match im_data s.2 !! uri with None => Err notFound | Some r => Ok (sr_Metadata r) end).

Definition InMemory_Close : call (Heap * InMemoryStorageBackend) unit := fun '(h, b) =>
  Done ((h, if im_closed b then b else mkInMemory ∅ (im_name b) true), Ok tt).

Definition InMemory_HealthCheck : call (Heap * InMemoryStorageBackend) unit := fun s =>
  Done (s, if im_closed s.2 then Err closedError else Ok tt).

(** What [PutConditional] stores for a copy of the resource. *)
Definition conditionalResource (now : Z) (uri : string) (current : option StorageResource) (c : StorageResource)
  : StorageResource :=
  let m := sr_Metadata c in
  let etag := if String.eqb (sr_ETag c) "" then strongStorageETag (sr_Body c) else sr_ETag c in
  let contentType := if String.eqb (sm_ContentType m) "" then sr_ContentType c else sm_ContentType m in
  let created := match current with
                 | Some r => if time_IsZero (sm_Created m) then sm_Created (sr_Metadata r) else sm_Created m
                 | None => sm_Created m
                 end in
  let created := if time_IsZero created then now else created in
  mkSResource uri (sr_ContentType c) (sr_Body c)
    (mkSMetadata (len (sr_Body c)) contentType etag now created (sm_Custom m)) etag now.

Definition InMemory_PutConditional (now : Z) (uri : string) (resource : option StorageResource) (p : StoragePreconditions)
  : call (Heap * InMemoryStorageBackend) unit := fun '(h, b) =>
  if im_closed b then Done ((h, b), Err closedError)
  else
    let current := im_data b !! uri in
    match evaluateStoragePreconditions (currentETag current) (bool_decide (is_Some current)) p with
    | Err e => Done ((h, b), Err e)
    | Ok _ =>
        match resource with
        | None => Panicked
        | Some r =>
            let '(h', c) := copyStorageResource h r in
            Done ((h', set_data (<[uri := conditionalResource now uri current c]> (im_data b)) b), Ok tt)
        end
    end.

Definition InMemory_DeleteConditional (uri : string) (p : StoragePreconditions)
  : call (Heap * InMemoryStorageBackend) unit := fun '(h, b) =>
  if im_closed b then Done ((h, b), Err closedError)
  else
    let current := im_data b !! uri in
    match evaluateStoragePreconditions (currentETag current) (bool_decide (is_Some current)) p with
    | Err e => Done ((h, b), Err e)
    | Ok _ => Done ((h, set_data (delete uri (im_data b)) b), Ok tt)
    end.

#[export] Instance InMemory_StorageBackend : StorageBackend InMemoryStorageBackend := {
  be_Get := InMemory_Get;
  be_Put := InMemory_Put;
  be_Delete := InMemory_Delete;
  be_List := InMemory_List;
  be_Exists := InMemory_Exists;
  be_Head := InMemory_Head;
  be_Close := InMemory_Close;
  be_HealthCheck := InMemory_HealthCheck;
  be_conditional := fun _ => Some (mkConditional InMemory_PutConditional InMemory_DeleteConditional)
}.

(** ** The layer *)

Record StorageAbstractionConfig := mkLayerConfig {
  DefaultStorage : string;
  MaxRetries : Z;
  BackoffBase : Z;
  BackoffMax : Z
}.

Definition DefaultStorageAbstractionConfig : StorageAbstractionConfig := mkLayerConfig "default" 3 100 5000.

Record StorageAbstractionMetrics := mkLayerMetrics {
  TotalOperations : Z;
  SuccessfulOperations : Z;
  FailedOperations : Z;
  ReadOperations : Z;
  WriteOperations : Z;
  DeleteOperations : Z;
  ListOperations : Z;
  RetryAttempts : Z;
  MaxRetriesHit : Z;
  ValidationFailures : Z;
  ValidationFailuresByType : gmap string Z;
  BackendOperations : gmap string Z
}.

Definition incr (k : string) (m : gmap string Z) : gmap string Z := <[k := wrap64 (default 0 (m !! k) + 1)]> m.

Definition RecordOperation (operation backend : string) (success : bool) (m : StorageAbstractionMetrics)
  : StorageAbstractionMetrics :=
  let one b := if b : bool then 1 else 0 in
  mkLayerMetrics (wrap64 (TotalOperations m + 1)) (wrap64 (SuccessfulOperations m + one success)) (wrap64 (FailedOperations m + one (negb success)))
    (wrap64 (ReadOperations m + one (String.eqb operation "read"))) (wrap64 (WriteOperations m + one (String.eqb operation "write")))
    (wrap64 (DeleteOperations m + one (String.eqb operation "delete"))) (wrap64 (ListOperations m + one (String.eqb operation "list")))
    (RetryAttempts m) (MaxRetriesHit m) (ValidationFailures m) (ValidationFailuresByType m)
    (incr backend (BackendOperations m)).

Definition RecordRetry (m : StorageAbstractionMetrics) : StorageAbstractionMetrics :=
  mkLayerMetrics (TotalOperations m) (SuccessfulOperations m) (FailedOperations m) (ReadOperations m) (WriteOperations m)
    (DeleteOperations m) (ListOperations m) (wrap64 (RetryAttempts m + 1)) (MaxRetriesHit m) (ValidationFailures m)
    (ValidationFailuresByType m) (BackendOperations m).

Definition RecordMaxRetriesHit (m : StorageAbstractionMetrics) : StorageAbstractionMetrics :=
  mkLayerMetrics (TotalOperations m) (SuccessfulOperations m) (FailedOperations m) (ReadOperations m) (WriteOperations m)
    (DeleteOperations m) (ListOperations m) (RetryAttempts m) (wrap64 (MaxRetriesHit m + 1)) (ValidationFailures m)
    (ValidationFailuresByType m) (BackendOperations m).

Definition RecordValidationFailure (failureType : string) (m : StorageAbstractionMetrics) : StorageAbstractionMetrics :=
  mkLayerMetrics (TotalOperations m) (SuccessfulOperations m) (FailedOperations m) (ReadOperations m) (WriteOperations m)
    (DeleteOperations m) (ListOperations m) (RetryAttempts m) (MaxRetriesHit m) (wrap64 (ValidationFailures m + 1))
    (incr failureType (ValidationFailuresByType m)) (BackendOperations m).

(** Go's [1 << n] on [int]. *)
Definition shl1 (n : Z) : Z := if 64 <=? n then 0 else wrap64 (Z.shiftl 1 n).

(** In milliseconds. *)
Definition calculateBackoff (cfg : StorageAbstractionConfig) (attempt : Z) : Z :=
  let backoff := wrap64 (BackoffBase cfg * shl1 (attempt - 1)) in
  if BackoffMax cfg <? backoff then BackoffMax cfg else backoff.

(** The delay before an attempt: [time.Duration(backoff) * time.Millisecond]. *)
Definition backoffDelay (cfg : StorageAbstractionConfig) (attempt : Z) : Z := wrap64 (calculateBackoff cfg attempt * millisecond).

(** The layer; the backends are references into [w_store]. *)
Record StorageAbstractionLayer := mkLayer {
  l_config : StorageAbstractionConfig;
  l_backends : gmap string nat;
  l_defaultBackend : string;
  l_metrics : StorageAbstractionMetrics;
  l_closed : bool
}.

Definition NewStorageAbstractionLayer (config : StorageAbstractionConfig) : StorageAbstractionLayer :=
  mkLayer config ∅ (DefaultStorage config) (mkLayerMetrics 0 0 0 0 0 0 0 0 0 0 ∅ ∅) false.

Definition set_metrics (m : StorageAbstractionMetrics) (l : StorageAbstractionLayer) : StorageAbstractionLayer :=
  mkLayer (l_config l) (l_backends l) (l_defaultBackend l) m (l_closed l).
Definition set_backends (b : gmap string nat) (l : StorageAbstractionLayer) : StorageAbstractionLayer :=
  mkLayer (l_config l) b (l_defaultBackend l) (l_metrics l) (l_closed l).

Definition layerClosed : serror := Plain "storage layer is closed".

Definition GetBackend (name : string) (l : StorageAbstractionLayer) : result serror nat :=
  fail! layerClosed when l_closed l in
  match l_backends l !! name with None => Err (BackendNotFound name) | Some ref => Ok ref end.

Definition getDefaultBackend (l : StorageAbstractionLayer) : result serror nat :=
  fail! layerClosed when l_closed l in
  match l_backends l !! l_defaultBackend l with
  | None => Err (DefaultBackendNotFound (l_defaultBackend l))
  | Some ref => Ok ref
  end.

(** ** Retries *)

(** The error after the last attempt; without any attempt the code wraps a nil error. *)
Definition exceeded (last : option serror) : serror :=
  match last with
  | Some e => Wrapf "max retries exceeded: " e ""
  | None => Plain "max retries exceeded: %!w(<nil>)"
  end.

Section retry.
Context {S A : Type} (cfg : StorageAbstractionConfig) (operation backend : string).

(** [cancel i d] is the error of the context when it ends the delay [d] before attempt [i]. *)
Context (cancel : Z -> Z -> option serror) (fn : Z -> call S A).

(** The loop from an attempt on; [attempt] is an [int], and [Diverges] is fuel that ran out. *)
Fixpoint retryLoop (fuel : nat) (attempt : Z) (last : option serror) (m : StorageAbstractionMetrics) (s : S)
  : run (StorageAbstractionMetrics * S * result serror A) :=
  match fuel with
  | O => Diverges
  | Datatypes.S fuel' =>
      if MaxRetries cfg <? attempt
      then Done (RecordMaxRetriesHit (RecordOperation operation backend false m), s, Err (exceeded last))
      else
        let m := if 0 <? attempt then RecordRetry m else m in
        match (if 0 <? attempt then cancel attempt (backoffDelay cfg attempt) else None) with
        | Some e => Done (RecordOperation operation backend false m, s, Err (Wrapf "context cancelled: " e ""))
        | None =>
            match fn attempt s with
            | Done (s', Ok a) => Done (RecordOperation operation backend true m, s', Ok a)
            | Done (s', Err e) =>
                if shouldRetry e then retryLoop fuel' (wrap64 (attempt + 1)) (Some e) m s'
                else Done (RecordOperation operation backend false m, s', Err e)
            | Panicked => Panicked
            | Diverges => Diverges
            end
        end
  end.

(** Attempts [0] to [MaxRetries] and the test that ends the loop. *)
Definition doWithRetry (m : StorageAbstractionMetrics) (s : S) : run (StorageAbstractionMetrics * S * result serror A) :=
  retryLoop (Datatypes.S (Z.to_nat (MaxRetries cfg + 1))) 0 None m s.
End retry.

Definition doWithRetryBool {S} := doWithRetry (S := S) (A := bool).
Definition doWithRetryMetadata {S} := doWithRetry (S := S) (A := StorageResourceMetadata).

(** ** Operations of the layer *)

(** What an operation reads of the outside, by attempt. *)
Record layer_env := mkLayerEnv {
  le_now : Z -> Z;
  le_cancel : Z -> Z -> option serror;
  le_order : Z -> data_order
}.

Section layer.
Context {B : Type} `{StorageBackend B}.

(** The heap and the backends. *)
Definition Stores : Type := Heap * (nat -> B).
Definition World : Type := StorageAbstractionLayer * Stores.

Definition on {A} (ref : nat) (c : call (Heap * B) A) : call Stores A := fun '(h, st) =>
  match c (h, st ref) with
  | Done ((h', b), r) => Done ((h', fun i => if decide (i = ref) then b else st i), r)
  | Panicked => Panicked
  | Diverges => Diverges
  end.

Definition retrying {A} (operation backend : string) (cancel : Z -> Z -> option serror) (fn : Z -> call Stores A) : call World A :=
  fun '(l, s) =>
  match doWithRetry (l_config l) operation backend cancel fn (l_metrics l) s with
  | Done (m, s', r) => Done ((set_metrics m l, s'), r)
  | Panicked => Panicked
  | Diverges => Diverges
  end.

Definition RegisterBackend (name : string) (ref : nat) (l : StorageAbstractionLayer)
  : StorageAbstractionLayer * result serror unit :=
  if l_closed l then (l, Err (Plain "cannot register backend: storage layer is closed"))
  else match l_backends l !! name with
  | Some _ => (l, Err (BackendRegistered name))
  | None => (set_backends (<[name := ref]> (l_backends l)) l, Ok tt)
  end.

(** An error of [Close] is logged only. *)
Definition UnregisterBackend (name : string) : call World unit := fun '(l, s) =>
  if l_closed l then Done ((l, s), Err (Plain "cannot unregister backend: storage layer is closed"))
  else match l_backends l !! name with
  | None => Done ((l, s), Err (BackendNotFound name))
  | Some ref =>
      match on ref be_Close s with
      | Done (s', _) => Done ((set_backends (delete name (l_backends l)) l, s'), Ok tt)
      | Panicked => Panicked
      | Diverges => Diverges
      end
  end.

Definition SetDefaultBackend (name : string) (l : StorageAbstractionLayer) : StorageAbstractionLayer * result serror unit :=
  if l_closed l then (l, Err (Plain "cannot set default backend: storage layer is closed"))
  else match l_backends l !! name with
  | None => (l, Err (BackendNotFound name))
  | Some _ => (mkLayer (l_config l) (l_backends l) name (l_metrics l) (l_closed l), Ok tt)
  end.

(** The operation on a named backend. *)
Definition fromBackend {A} (operation name : string) (cancel : Z -> Z -> option serror) (fn : Z -> call (Heap * B) A) : call World A :=
  fun '(l, s) =>
  match GetBackend name l with
  | Err e => Done ((l, s), Err e)
  | Ok ref => retrying operation name cancel (fun i => on ref (fn i)) (l, s)
  end.

Definition GetFromBackend (e : layer_env) (name uri : string) : call World StorageResource :=
  fromBackend "read" name (le_cancel e) (fun _ => be_Get uri).
Definition PutToBackend (e : layer_env) (name uri : string) (resource : option StorageResource) : call World unit :=
  fromBackend "write" name (le_cancel e) (fun i => be_Put (le_now e i) uri resource).
Definition DeleteFromBackend (e : layer_env) (name uri : string) : call World unit :=
  fromBackend "delete" name (le_cancel e) (fun _ => be_Delete uri).
Definition ExistsInBackend (e : layer_env) (name uri : string) : call World bool :=
  fromBackend "exists" name (le_cancel e) (fun _ => be_Exists uri).
Definition HeadFromBackend (e : layer_env) (name uri : string) : call World StorageResourceMetadata :=
  fromBackend "head" name (le_cancel e) (fun _ => be_Head uri).

(** The loop of [List] sleeps, whatever the context. *)
Definition ListFromBackend (e : layer_env) (name containerURI : string) : call World (list StorageResource) :=
  fromBackend "list" name (fun _ _ => None) (fun i => be_List (le_order e i) containerURI).

Definition conditionally {A} (operation name : string) (e : layer_env) (fn : conditional_ops B -> Z -> call (Heap * B) A)
  : call World A := fun '(l, s) =>
  match GetBackend name l with
  | Err err => Done ((l, s), Err err)
  | Ok ref =>
      match be_conditional (s.2 ref) with
      | None => Done ((l, s), Err (ErrStorageConditionalUnsupported name))
      | Some ops => retrying operation name (le_cancel e) (fun i => on ref (fn ops i)) (l, s)
      end
  end.

Definition PutConditionalToBackend (e : layer_env) (name uri : string) (resource : option StorageResource) (p : StoragePreconditions)
  : call World unit :=
  conditionally "conditional_write" name e (fun ops i => co_Put ops (le_now e i) uri resource p).
Definition DeleteConditionalFromBackend (e : layer_env) (name uri : string) (p : StoragePreconditions) : call World unit :=
  conditionally "conditional_delete" name e (fun ops _ => co_Delete ops uri p).

(** A refusal counts as a validation failure. *)
Definition refuse {A} (failureType prefix : string) (e : Runtime.error) : call World A := fun '(l, s) =>
  Done ((set_metrics (RecordValidationFailure failureType (l_metrics l)) l, s), Err (Wrapf prefix (Invalid e) "")).

(** The checks all operations on the default backend begin and end with. *)
Definition checkedURI {A} (prefix uri : string) (k : call World A) : call World A :=
  match Runtime.ValidateURI uri with Err e => refuse "uri" prefix e | Ok _ => k end.
Definition onDefault {A} (k : string -> call World A) : call World A := fun '(l, s) =>
  match getDefaultBackend l with Err e => Done ((l, s), Err e) | Ok _ => k (l_defaultBackend l) (l, s) end.
Definition checkedSize {A} (r : StorageResource) (k : call World A) : call World A :=
  match Runtime.ValidateResourceSize (len (sr_Body r)) with
  | Err e => refuse "size" "resource validation failed: " e
  | Ok _ => k
  end.

Definition Get (e : layer_env) (uri : string) : call World StorageResource :=
  checkedURI "invalid URI: " uri (onDefault (fun name => GetFromBackend e name uri)).
Definition Put (e : layer_env) (uri : string) (resource : option StorageResource) : call World unit :=
  checkedURI "invalid URI: " uri
    (match resource with
     | None => fun _ => Panicked
     | Some r => checkedSize r (onDefault (fun name => PutToBackend e name uri resource))
     end).
Definition Delete (e : layer_env) (uri : string) : call World unit :=
  checkedURI "invalid URI: " uri (onDefault (fun name => DeleteFromBackend e name uri)).
Definition List (e : layer_env) (containerURI : string) : call World (list StorageResource) :=
  checkedURI "invalid container URI: " containerURI (onDefault (fun name => ListFromBackend e name containerURI)).
Definition Exists (e : layer_env) (uri : string) : call World bool :=
  checkedURI "invalid URI: " uri (onDefault (fun name => ExistsInBackend e name uri)).
Definition Head (e : layer_env) (uri : string) : call World StorageResourceMetadata :=
  checkedURI "invalid URI: " uri (onDefault (fun name => HeadFromBackend e name uri)).

Definition PutConditional (e : layer_env) (uri : string) (resource : option StorageResource) (p : StoragePreconditions) : call World unit :=
  checkedURI "invalid URI: " uri
    (match resource with
     | None => fun '(l, s) =>
         Done ((set_metrics (RecordValidationFailure "resource" (l_metrics l)) l, s), Err (Plain "resource must not be nil"))
     | Some r => checkedSize r (onDefault (fun name => PutConditionalToBackend e name uri resource p))
     end).
Definition DeleteConditional (e : layer_env) (uri : string) (p : StoragePreconditions) : call World unit :=
  checkedURI "invalid URI: " uri (onDefault (fun name => DeleteConditionalFromBackend e name uri p)).

(** [Close] visits the backends in the order [names]; their errors are logged only. *)
Fixpoint closeAll (refs : list nat) (s : Stores) : run Stores :=
  match refs with
  | [] => Done s
  | ref :: refs' =>
      match on ref be_Close s with
      | Done (s', _) => closeAll refs' s'
      | Panicked => Panicked
      | Diverges => Diverges
      end
  end.

Definition Close (names : list string) : call World unit := fun '(l, s) =>
  if l_closed l then Done ((l, s), Ok tt)
  else match closeAll (omap (fun name => l_backends l !! name) names) s with
  | Done s' => Done ((mkLayer (l_config l) (l_backends l) (l_defaultBackend l) (l_metrics l) true, s'), Ok tt)
  | Panicked => Panicked
  | Diverges => Diverges
  end.
End layer.

(** ** Retries end *)

Section retries.
Context {S A : Type} (cfg : StorageAbstractionConfig) (operation backend : string).
Context (cancel : Z -> Z -> option serror) (fn : Z -> call S A).

(** The first [n] attempts failed, each with an error worth a retry; [last] is the last one. *)
Inductive failing (s0 : S) : nat -> option serror -> S -> Prop :=
| failing_0 : failing s0 0 None s0
| failing_S n last s s' e :
    failing s0 n last s -> ((0 < n)%nat -> cancel (Z.of_nat n) (backoffDelay cfg (Z.of_nat n)) = None) ->
    fn (Z.of_nat n) s = Done (s', Err e) -> shouldRetry e = true -> failing s0 (Datatypes.S n) (Some e) s'.

Definition settled (r : result serror A) : Prop := match r with Ok _ => True | Err e => shouldRetry e = false end.

(** How a call ends after [n] failures: no attempt is left, the context is cancelled in the delay,
    or attempt [n] settles it. *)
Inductive ends (s0 : S) (n : nat) : S -> result serror A -> Z -> Prop :=
| ends_exceeded last s :
    failing s0 n last s -> Z.of_nat n = Z.max 0 (MaxRetries cfg + 1) ->
    ends s0 n s (Err (exceeded last)) (Z.max 0 (MaxRetries cfg))
| ends_cancelled last s e :
    failing s0 n last s -> 0 < Z.of_nat n <= MaxRetries cfg -> cancel (Z.of_nat n) (backoffDelay cfg (Z.of_nat n)) = Some e ->
    ends s0 n s (Err (Wrapf "context cancelled: " e "")) (Z.of_nat n)
| ends_settled last s s' r :
    failing s0 n last s -> Z.of_nat n <= MaxRetries cfg -> ((0 < n)%nat -> cancel (Z.of_nat n) (backoffDelay cfg (Z.of_nat n)) = None) ->
    fn (Z.of_nat n) s = Done (s', r) -> settled r -> ends s0 n s' r (Z.of_nat n).

Lemma retryLoop_ends (s0 : S) (fuel n : nat) last m s :
  (forall i s, exists s' r, fn i s = Done (s', r)) -> MaxRetries cfg < int64_max ->
  failing s0 n last s -> Z.of_nat n <= Z.max 0 (MaxRetries cfg + 1) ->
  (Z.to_nat (MaxRetries cfg + 1) < n + fuel)%nat -> in_int64 (RetryAttempts m) ->
  exists k m' s' r retries,
    retryLoop cfg operation backend cancel fn fuel (Z.of_nat n) last m s = Done (m', s', r) /\ ends s0 k s' r retries /\
    TotalOperations m' = wrap64 (TotalOperations m + 1) /\
    RetryAttempts m' = wrap64 (RetryAttempts m + (retries - Z.max 0 (Z.of_nat n - 1))).
Proof.
  intros Hfn Hmax. revert n last m s. induction fuel as [|fuel IH]; intros n last m s Hf Hn Hfuel Hi; [lia|].
  cbn [retryLoop]. destruct (MaxRetries cfg <? Z.of_nat n) eqn:Em; bool_prop.
  { eexists n, _, s, _, _. split_and!; [reflexivity|eapply ends_exceeded; [done|lia]|done|cbn].
    replace (_ - _) with 0 by lia. by rewrite Z.add_0_r, wrap64_id. }
  set (m1 := if 0 <? Z.of_nat n then RecordRetry m else m).
  assert (TotalOperations m1 = TotalOperations m /\
    RetryAttempts m1 = wrap64 (RetryAttempts m + (Z.of_nat n - Z.max 0 (Z.of_nat n - 1)))) as [Ht Hr].
  { unfold m1. destruct (0 <? Z.of_nat n) eqn:E; bool_prop; cbn; (split; [done|]); [f_equal; lia|].
    replace (_ - _) with 0 by lia. by rewrite Z.add_0_r, wrap64_id. }
  destruct (if 0 <? Z.of_nat n then cancel _ _ else None) as [e|] eqn:Ec.
  { destruct (0 <? Z.of_nat n) eqn:E; [|discriminate Ec]. bool_prop. eexists n, _, s, _, _.
    split_and!; [reflexivity|eapply ends_cancelled; [done|lia|done]|exact (f_equal (fun x => wrap64 (x + 1)) Ht)|exact Hr]. }
  assert ((0 < n)%nat -> cancel (Z.of_nat n) (backoffDelay cfg (Z.of_nat n)) = None) as Hc
    by (intros; destruct (0 <? Z.of_nat n) eqn:E; bool_prop; [done|lia]).
  destruct (Hfn (Z.of_nat n) s) as (s' & [a|e] & Hs); rewrite Hs.
  { eexists n, _, s', _, _. split_and!; [reflexivity|by eapply ends_settled|exact (f_equal (fun x => wrap64 (x + 1)) Ht)|exact Hr]. }
  destruct (shouldRetry e) eqn:Ee.
  - rewrite wrap64_id by (unfold in_int64, int64_min, int64_max in *; lia).
    replace (Z.of_nat n + 1) with (Z.of_nat (Datatypes.S n)) by lia.
    destruct (IH (Datatypes.S n) (Some e) m1 s') as (k & m' & s'' & r & retries & Hl & He & H1 & H2); [by eapply failing_S|lia|lia|rewrite Hr; apply wrap64_range|].
    exists k, m', s'', r, retries. split_and!; [done|done|congruence|].
    rewrite H2, Hr, wrap64_add_l. f_equal. lia.
  - eexists n, _, s', _, _. split_and!; [reflexivity|by eapply ends_settled|exact (f_equal (fun x => wrap64 (x + 1)) Ht)|exact Hr].
Qed.
End retries.

Lemma calculateBackoff_max cfg attempt : calculateBackoff cfg attempt <= BackoffMax cfg.
Proof. unfold calculateBackoff. destruct (_ <? _) eqn:E; bool_prop; lia. Qed.

(** The exponential delay before an attempt fits in an [int]. *)
Definition delay_fits (cfg : StorageAbstractionConfig) (attempt : Z) : Prop :=
  0 <= BackoffBase cfg /\ BackoffBase cfg * 2 ^ (attempt - 1) <= int64_max.

Lemma calculateBackoff_fits cfg attempt : 1 <= attempt -> 0 <= BackoffMax cfg -> delay_fits cfg attempt ->
  calculateBackoff cfg attempt = Z.min (BackoffMax cfg) (BackoffBase cfg * 2 ^ (attempt - 1)).
Proof.
  intros Ha Hm [Hb Hfit]. unfold calculateBackoff, shl1. destruct (decide (BackoffBase cfg = 0)) as [->|Hne].
  { rewrite !Z.mul_0_l. change (wrap64 0) with 0. destruct (_ <? _) eqn:E; bool_prop; lia. }
  assert (attempt <= 63).
  { destruct (decide (attempt <= 63)) as [|Hgt]; [done|].
    assert (2 ^ 63 <= 2 ^ (attempt - 1)) by (apply Z.pow_le_mono_r; lia). unfold int64_max in Hfit. nia. }
  assert (64 <=? attempt - 1 = false) as -> by lia.
  rewrite Z.shiftl_mul_pow2 by lia. rewrite Z.mul_1_l.
  assert (0 < 2 ^ (attempt - 1)) by (apply Z.pow_pos_nonneg; lia).
  assert (2 ^ (attempt - 1) <= 2 ^ 62) by (apply Z.pow_le_mono_r; lia).
  rewrite (wrap64_id (2 ^ _)) by (unfold in_int64, int64_min, int64_max in *; lia).
  rewrite wrap64_id by (unfold in_int64, int64_min, int64_max in *; nia).
  destruct (_ <? _) eqn:E; bool_prop; lia.
Qed.

(** Then the wait is at most the configured maximum. *)
Lemma backoffDelay_max cfg attempt : 1 <= attempt -> 0 <= BackoffMax cfg -> delay_fits cfg attempt ->
  backoffDelay cfg attempt <= Z.min (BackoffMax cfg) (BackoffBase cfg * 2 ^ (attempt - 1)) * millisecond.
Proof.
  intros Ha Hm Hf. unfold backoffDelay. rewrite (calculateBackoff_fits cfg attempt Ha Hm Hf). destruct Hf as [Hb _].
  set (x := Z.min _ _). assert (0 < 2 ^ (attempt - 1)) by (apply Z.pow_pos_nonneg; lia). assert (0 <= x) by (subst x; nia).
  pose proof (wrap64_range (x * millisecond)) as Hr. unfold in_int64, int64_max, int64_min in Hr.
  destruct (decide (x * millisecond <= int64_max)) as [Hle|Hgt]; [|unfold int64_max in Hgt; lia].
  rewrite wrap64_id; [done|]. unfold in_int64, int64_max, int64_min, millisecond in *. lia.
Qed.

(** Without the bound on [MaxRetries] the counter wraps around before it passes the bound. *)
Lemma retry_unbounded {S A} cfg operation backend (fn : Z -> call S A) fuel attempt last m s e :
  MaxRetries cfg = int64_max -> in_int64 attempt -> shouldRetry e = true -> (forall i s, fn i s = Done (s, Err e)) ->
  retryLoop cfg operation backend (fun _ _ => None) fn fuel attempt last m s = Diverges.
Proof.
  intros Hm Ha He Hfn. revert attempt last m s Ha. induction fuel as [|fuel IH]; intros attempt last m s Ha; [done|].
  cbn [retryLoop]. rewrite Hm. destruct (int64_max <? attempt) eqn:E; bool_prop; [unfold in_int64 in Ha; lia|].
  replace (if 0 <? attempt then None else None) with (None : option serror) by (by destruct (0 <? attempt)).
  rewrite Hfn, He. apply IH, wrap64_range.
Qed.

(** C13: an operation of the layer ends.  When the backend's calls return and [MaxRetries] is not
    the largest [int], the retry loop returns after at most [MaxRetries + 1] calls: with the
    outcome of the first call that settles it, with the context's error, or with the last error
    when no attempt is left; earlier calls all failed with errors worth a retry.  It counts one
    operation and its retries, in counters that wrap around.  Before each retry it waits at most
    [BackoffMax], and at most the exponential delay of the retry, if that delay fits in an [int]. *)
Theorem retry_terminates {S A} (cfg : StorageAbstractionConfig) (operation backend : string) (cancel : Z -> Z -> option serror)
    (fn : Z -> call S A) (m : StorageAbstractionMetrics) (s : S) :
  (forall i s, exists s' r, fn i s = Done (s', r)) -> MaxRetries cfg < int64_max -> in_int64 (RetryAttempts m) ->
  exists n m' s' r retries,
    doWithRetry cfg operation backend cancel fn m s = Done (m', s', r) /\ ends cfg cancel fn s n s' r retries /\
    TotalOperations m' = wrap64 (TotalOperations m + 1) /\ RetryAttempts m' = wrap64 (RetryAttempts m + retries) /\
    0 <= retries <= Z.max 0 (MaxRetries cfg) /\
    (forall i, 1 <= i <= retries -> 0 <= BackoffMax cfg -> delay_fits cfg i ->
       backoffDelay cfg i <= Z.min (BackoffMax cfg) (BackoffBase cfg * 2 ^ (i - 1)) * millisecond).
Proof.
  intros Hfn Hmax Hint. unfold doWithRetry.
  destruct (retryLoop_ends cfg operation backend cancel fn s (Datatypes.S (Z.to_nat (MaxRetries cfg + 1))) 0 None m s)
    as (n & m' & s' & r & retries & Hl & He & Ht & Hr); [done|done|apply failing_0|lia|lia|done|].
  exists n, m', s', r, retries. change (Z.of_nat 0) with 0 in *.
  assert (0 <= retries <= Z.max 0 (MaxRetries cfg)) as Hb by (destruct He; lia).
  split_and!; [done|done|done|rewrite Hr; f_equal; lia|lia|lia|]. intros i Hi. apply backoffDelay_max. lia.
Qed.

(** A backend that answers at the third attempt; the state counts the calls. *)
Definition flaky (i : Z) : call nat unit := fun calls =>
  Done (Datatypes.S calls, if i <? 2 then Err (HTTPError 503 "Service Unavailable") else Ok tt).

Lemma retry_terminates_witness :
  let m := l_metrics (NewStorageAbstractionLayer DefaultStorageAbstractionConfig) in
  exists m', doWithRetry DefaultStorageAbstractionConfig "write" "css" (fun _ _ => None) flaky m 0%nat = Done (m', 3%nat, Ok tt) /\
    RetryAttempts m' = 2 /\ backoffDelay DefaultStorageAbstractionConfig 2 <= 200 * millisecond.
Proof.
  intros m. destruct (retry_terminates DefaultStorageAbstractionConfig "write" "css" (fun _ _ => None) flaky m 0%nat)
    as (n & m' & s' & r & retries & H & _ & _ & Hr & Hb & Hd).
  - intros i s. unfold flaky. eauto.
  - reflexivity.
  - vm_compute. split; discriminate.
  - vm_compute in H. injection H as <- <- <-. eexists. split; [vm_compute; reflexivity|]. split; [reflexivity|].
    cbn in Hb, Hr. rewrite wrap64_id in Hr by (unfold in_int64, int64_min, int64_max; lia).
    assert (retries = 2) as -> by lia.
    apply (Hd 2); vm_compute; (split || idtac); discriminate.
Defined.

(** The exponential delay can overflow twice: before the 57th retry it is a negative number of
    milliseconds, which is not limited, and a wait of 146 years in nanoseconds. *)
Example delay_overflows : backoffDelay (mkLayerConfig "default" 60 129 5000) 57 = 2 ^ 62.
Proof. vm_compute. reflexivity. Qed.

(** ** Conditional writes *)

Inductive mem_op :=
| MPut (now : Z) (uri : string) (r : StorageResource)
| MDelete (uri : string)
| MPutConditional (now : Z) (uri : string) (r : StorageResource) (p : StoragePreconditions)
| MDeleteConditional (uri : string) (p : StoragePreconditions)
| MClose.

Definition mem_call (op : mem_op) : call (Heap * InMemoryStorageBackend) unit :=
  match op with
  | MPut now uri r => InMemory_Put now uri (Some r)
  | MDelete uri => InMemory_Delete uri
  | MPutConditional now uri r p => InMemory_PutConditional now uri (Some r) p
  | MDeleteConditional uri p => InMemory_DeleteConditional uri p
  | MClose => InMemory_Close
  end.

(** The calls of several clients, one after the other. *)
Definition mem_run (ops : list mem_op) (s : Heap * InMemoryStorageBackend) : Heap * InMemoryStorageBackend :=
  foldl (fun s op => match mem_call op s with Done (s', _) => s' | _ => s end) s ops.

(** The call leaves the validator of [uri] to the backend. *)
Definition generated (uri : string) (op : mem_op) : Prop :=
  match op with
  | MPut _ u _ => u <> uri
  | MPutConditional _ u r _ => u = uri -> sr_ETag r = ""
  | _ => True
  end.

Definition tagged (uri : string) (b : InMemoryStorageBackend) : Prop :=
  forall r, im_data b !! uri = Some r -> sr_ETag r = strongStorageETag (sr_Body r).

Lemma copy_fields h r :
  let c := (copyStorageResource h r).2 in sr_Body c = sr_Body r /\ sr_ETag c = sr_ETag r.
Proof. unfold copyStorageResource. by destruct (sm_Custom _). Qed.

Lemma tagged_step uri op s : generated uri op -> tagged uri s.2 ->
  tagged uri (match mem_call op s with Done (s', _) => s' | _ => s end).2.
Proof.
  destruct s as [h b]. intros Hg Ht. destruct op as [now u r|u|now u r p|u p|]; cbn [mem_call generated] in *.
  - unfold InMemory_Put. destruct (im_closed b); [done|]. intros r'. cbn. rewrite lookup_insert_ne by done. apply Ht.
  - unfold InMemory_Delete. destruct (im_closed b); [done|]. intros r'. cbn. intros [_ Hr]%lookup_delete_Some. by apply Ht.
  - unfold InMemory_PutConditional. destruct (im_closed b); [done|]. destruct (evaluateStoragePreconditions _ _ _); [|done].
    pose proof (copy_fields h r) as [Hb He]. destruct (copyStorageResource h r) as [h' c]. cbn in *. intros r'. cbn.
    destruct (decide (u = uri)) as [->|Hne]; [|rewrite lookup_insert_ne by done; apply Ht].
    rewrite lookup_insert_eq. intros [= <-]. cbn. by rewrite He, Hg.
  - unfold InMemory_DeleteConditional. destruct (im_closed b); [done|]. destruct (evaluateStoragePreconditions _ _ _); [|done].
    intros r'. cbn. intros [_ Hr]%lookup_delete_Some. by apply Ht.
  - intros r'. cbn. destruct (im_closed b); [apply Ht|]. cbn. by rewrite lookup_empty.
Qed.

Lemma tagged_run uri ops s : Forall (generated uri) ops -> tagged uri s.2 -> tagged uri (mem_run ops s).2.
Proof.
  intros Hops. unfold mem_run. revert s. induction Hops as [|op ops Hg _ IH]; intros s Hs; cbn [foldl]; [done|].
  by apply IH, tagged_step.
Qed.

Lemma hex_digit_inj a b : 0 <= a < 16 -> 0 <= b < 16 -> hex_digit a = hex_digit b -> a = b.
Proof.
  intros Ha Hb H. assert (forallb (fun x => forallb (fun y => implb (Ascii.eqb (hex_digit x) (hex_digit y)) (x =? y))
    (map Z.of_nat (seq 0 16))) (map Z.of_nat (seq 0 16)) = true) as Hall by (vm_compute; reflexivity).
  assert (forall z, 0 <= z < 16 -> In z (map Z.of_nat (seq 0 16))) as Hin.
  { intros z Hz. apply in_map_iff. exists (Z.to_nat z). rewrite in_seq. lia. }
  rewrite forallb_forall in Hall. specialize (Hall a (Hin a Ha)). rewrite forallb_forall in Hall. specialize (Hall b (Hin b Hb)).
  rewrite H, Ascii.eqb_refl in Hall. cbn in Hall. lia.
Qed.

Lemma hex_inj l l' : Forall (fun b => 0 <= b < 256) l -> Forall (fun b => 0 <= b < 256) l' ->
  hex_EncodeToString l = hex_EncodeToString l' -> l = l'.
Proof.
  intros Hl. revert l'. induction Hl as [|b l Hb _ IH]; intros l' Hl' H; destruct Hl' as [|b' l' Hb' Hl']; try discriminate H; [done|].
  cbn [hex_EncodeToString] in H. injection H as H1 H2 H3.
  apply hex_digit_inj in H1, H2; try (apply Z.mod_pos_bound; lia); try (split; [apply Z.div_pos; lia|apply Z.div_lt_upper_bound; lia]).
  f_equal; [|by apply IH]. rewrite (Z.div_mod b 16), (Z.div_mod b' 16) by lia. congruence.
Qed.

Lemma str_app_inj_length (s s' t : string) :
  String.length s = String.length s' -> String.append s t = String.append s' t -> s = s'.
Proof.
  revert s'. induction s as [|c s IH]; intros [|c' s'] Hl H; try discriminate Hl; [done|].
  rewrite !str_app_cons in H. injection H as -> H. injection Hl as Hl. f_equal. by apply IH.
Qed.

Lemma strongStorageETag_inj body body' : strongStorageETag body = strongStorageETag body' -> Sum256 body = Sum256 body'.
Proof.
  unfold strongStorageETag. intros H. do 2 apply str_app_inj_l in H. apply str_app_inj_length in H.
  - by apply hex_inj in H; try apply Sum256_range.
  - by rewrite !hex_length, !Sum256_length.
Qed.

Lemma strongStorageETag_not_star body : strongStorageETag body <> "*".
Proof. unfold strongStorageETag, quote. rewrite str_app_cons. discriminate. Qed.

(** A write that matches one validator found the resource with it. *)
Lemma PutConditional_matched now uri r e none s s' :
  e <> "*" -> InMemory_PutConditional now uri (Some r) (mkPreconditions [e] none) s = Done (s', Ok tt) ->
  exists cur, im_data s.2 !! uri = Some cur /\ currentETag (Some cur) = e /\
    exists new, im_data s'.2 = <[uri := new]> (im_data s.2) /\ sr_Body new = sr_Body r.
Proof.
  destruct s as [h b]. intros Hstar H. unfold InMemory_PutConditional in H. destruct (im_closed b); [discriminate H|].
  unfold evaluateStoragePreconditions in H. cbn [IfMatch IfNoneMatch etagListMatches] in H.
  apply String.eqb_neq in Hstar as Hs. rewrite Hs in H. cbn [snd].
  destruct (im_data b !! uri) as [cur|] eqn:Ecur; [|cbn in H; discriminate H]. cbn -[currentETag copyStorageResource conditionalResource] in H.
  destruct (negb (String.eqb e "") && String.eqb e (currentETag (Some cur))) eqn:Em; cbn -[currentETag copyStorageResource conditionalResource] in H; [|discriminate H].
  destruct (_ && etagListMatches _ _ _); [discriminate H|].
  pose proof (copy_fields h r) as [Hb _]. destruct (copyStorageResource h r) as [h' c]. injection H as <-. bool_prop.
  exists cur. split_and!; [done|done|]. eexists. split; [reflexivity|]. done.
Qed.

(** C10: validators that the backend generates prevent lost updates.  A client reads a resource;
    then other clients make any calls, in which writes to the resource leave the validator to
    the backend; then a write with [If-Match] and the validator that was read succeeds only if
    the body it replaces has the SHA-256 digest of the body that was read. *)
Theorem generated_tags_prevent_lost_updates (h : Heap) (name uri : string) (before between : list mem_op) s0 r0
    (now : Z) (r : StorageResource) (none : list string) s' :
  Forall (generated uri) before -> Forall (generated uri) between ->
  InMemory_Get uri (mem_run before (h, NewInMemoryStorageBackend name)) = Done (s0, Ok r0) ->
  InMemory_PutConditional now uri (Some r) (mkPreconditions [sr_ETag r0] none) (mem_run between s0) = Done (s', Ok tt) ->
  exists cur, im_data (mem_run between s0).2 !! uri = Some cur /\ Sum256 (sr_Body cur) = Sum256 (sr_Body r0) /\
    exists new, im_data s'.2 !! uri = Some new /\ sr_Body new = sr_Body r.
Proof.
  intros Hb Hbw Hget Hput.
  assert (tagged uri (mem_run before (h, NewInMemoryStorageBackend name)).2) as Ht by (apply tagged_run; [done|intros ? [=]]).
  unfold InMemory_Get in Hget. injection Hget as <- Hr. destruct (im_closed _); [discriminate Hr|].
  destruct (im_data _ !! uri) as [r1|] eqn:E; [|discriminate Hr]. injection Hr as ->.
  apply Ht in E as He. rewrite He in Hput.
  apply PutConditional_matched in Hput as (cur & Hcur & Htag & new & Hnew & Hbody); [|apply strongStorageETag_not_star].
  assert (sr_ETag cur = strongStorageETag (sr_Body cur)) as Hc by (by apply (tagged_run uri between _ Hbw Ht)).
  exists cur. split_and!; [done| |].
  - apply strongStorageETag_inj. rewrite <- Hc, <- Htag. unfold currentETag. rewrite Hc. reflexivity.
  - exists new. by rewrite Hnew, lookup_insert_eq.
Qed.

Definition note (body etag : string) : StorageResource :=
  mkSResource "http://pod.example/n" "text/plain" body (mkSMetadata 0 "" "" 0 0 None) etag 0.

Lemma generated_tags_prevent_lost_updates_witness :
  let before := [MPutConditional 1 "http://pod.example/n" (note "one" "") (mkPreconditions [] ["*"])] in
  let between := [MPutConditional 2 "http://pod.example/m" (note "two" "v2") (mkPreconditions [] [])] in
  let s0 := mem_run before (∅, NewInMemoryStorageBackend "m") in
  exists r0 s' cur,
    InMemory_PutConditional 3 "http://pod.example/n" (Some (note "three" "")) (mkPreconditions [sr_ETag r0] []) (mem_run between s0)
      = Done (s', Ok tt) /\
    im_data (mem_run between s0).2 !! "http://pod.example/n" = Some cur /\ Sum256 (sr_Body cur) = Sum256 (sr_Body r0).
Proof.
  intros before between s0.
  destruct (im_data s0.2 !! "http://pod.example/n") as [r0|] eqn:Er; [|vm_compute in Er; discriminate Er].
  assert (InMemory_Get "http://pod.example/n" s0 = Done (s0, Ok r0)) as Hget.
  { unfold InMemory_Get. rewrite Er. reflexivity. }
  destruct (InMemory_PutConditional 3 "http://pod.example/n" (Some (note "three" "")) (mkPreconditions [sr_ETag r0] []) (mem_run between s0))
    as [[s' [[]|]]| |] eqn:Ep; [|vm_compute in Er; injection Er as <-; vm_compute in Ep; discriminate Ep..].
  destruct (generated_tags_prevent_lost_updates ∅ "m" "http://pod.example/n" before between s0 r0 3 (note "three" "") [] s')
    as (cur & Hcur & Hsum & _).
  - constructor; [intros _; reflexivity|constructor].
  - constructor; [intros H; discriminate H|constructor].
  - exact Hget.
  - exact Ep.
  - exists r0, s', cur. split_and!; [exact Ep|exact Hcur|exact Hsum].
Defined.

(** ** Read, modify, write *)

(** The layer works on a memory backend. *)
Record serving (ref : nat) (w : World (B := InMemoryStorageBackend)) : Prop := {
  sv_open : l_closed w.1 = false;
  sv_default : l_backends w.1 !! l_defaultBackend w.1 = Some ref;
  sv_retries : 0 <= MaxRetries (l_config w.1);
  sv_backend : im_closed (w.2.2 ref) = false
}.

(** A call that settles at once is made once. *)
Lemma retrying_once {B} `{StorageBackend B} {A} operation name cancel (fn : Z -> call Stores A) l (s s' : Stores (B := B)) a :
  0 <= MaxRetries (l_config l) -> fn 0 s = Done (s', Ok a) ->
  retrying operation name cancel fn (l, s) = Done ((set_metrics (RecordOperation operation name true (l_metrics l)) l, s'), Ok a).
Proof.
  intros Hm Hfn. unfold retrying, doWithRetry. cbn [retryLoop]. destruct (MaxRetries _ <? 0) eqn:E; bool_prop; [lia|].
  cbn. by rewrite Hfn.
Qed.

Lemma Get_serving ref e uri w r :
  serving ref w -> Runtime.ValidateURI uri = Ok tt -> im_data (w.2.2 ref) !! uri = Some r ->
  exists w', Get e uri w = Done (w', Ok r) /\ serving ref w' /\ im_data (w'.2.2 ref) = im_data (w.2.2 ref).
Proof.
  destruct w as [l [h st]]. intros [Ho Hd Hm Hb] Hu Hr. cbn in Ho, Hd, Hm, Hb, Hr.
  unfold Get, checkedURI. rewrite Hu. unfold onDefault, getDefaultBackend. rewrite Ho, Hd. cbn [result_bind].
  unfold GetFromBackend, fromBackend, GetBackend. rewrite Ho, Hd. cbn [result_bind].
  erewrite retrying_once; [|done|unfold on; cbn; unfold InMemory_Get; cbn [snd]; rewrite Hb, Hr; reflexivity].
  eexists. split; [reflexivity|]. split; [split|]; cbn; by rewrite ?decide_True by done.
Qed.

Lemma PutConditional_serving ref e uri w cur r p :
  serving ref w -> Runtime.ValidateURI uri = Ok tt -> len (sr_Body r) <= Runtime.MaxResourceSize ->
  im_data (w.2.2 ref) !! uri = Some cur -> evaluateStoragePreconditions (currentETag (Some cur)) true p = Ok tt ->
  exists w' new, PutConditional e uri (Some r) p w = Done (w', Ok tt) /\ serving ref w' /\
    im_data (w'.2.2 ref) = <[uri := new]> (im_data (w.2.2 ref)) /\ sr_Body new = sr_Body r /\
    (sr_ETag r <> "" -> sr_ETag new = sr_ETag r).
Proof.
  destruct w as [l [h st]]. intros [Ho Hd Hm Hb] Hu Hlen Hcur Hp. cbn in Ho, Hd, Hm, Hb, Hcur.
  unfold PutConditional, checkedURI. rewrite Hu. unfold checkedSize, Runtime.ValidateResourceSize.
  destruct (Runtime.MaxResourceSize <? _) eqn:El; bool_prop; [lia|].
  unfold onDefault, getDefaultBackend. rewrite Ho, Hd. cbn [result_bind].
  unfold PutConditionalToBackend, conditionally, GetBackend. rewrite Ho, Hd. cbn [result_bind snd be_conditional InMemory_StorageBackend].
  pose proof (copy_fields h r) as [Hbody Htag]. destruct (copyStorageResource h r) as [h' c] eqn:Ec. cbn in Hbody, Htag.
  erewrite retrying_once; [|done|].
  2: { unfold on. cbn [co_Put]. unfold InMemory_PutConditional. rewrite Hb, Hcur, bool_decide_true by eauto.
       rewrite Hp, Ec. reflexivity. }
  eexists _, _. split; [reflexivity|]. split; [split; cbn; by rewrite ?decide_True by done|].
  cbn. rewrite decide_True by done. split_and!; [reflexivity|done|].
  intros Hne. cbn. rewrite Htag. by apply String.eqb_neq in Hne as ->.
Qed.

Definition with_body (r : StorageResource) (body : string) : StorageResource :=
  mkSResource (sr_URI r) (sr_ContentType r) body (sr_Metadata r) (sr_ETag r) (sr_LastModified r).

Lemma matches_own_tag cur e : currentETag (Some cur) = e -> e <> "" ->
  evaluateStoragePreconditions (currentETag (Some cur)) true (mkPreconditions [e] []) = Ok tt.
Proof.
  intros -> He. unfold evaluateStoragePreconditions. cbn. destruct (String.eqb e "*"); cbn; [done|].
  apply String.eqb_neq in He as ->. by rewrite String.eqb_refl.
Qed.

(** a read, modify, write through the layer loses an update in spite of [If-Match].  The
    resource that [Get] returns has its validator, and [PutConditional] stores the validator of
    the resource it is given: two clients that read the same resource, change its body and write
    it back under the validator they read both succeed, and the body of the first is gone. *)
Theorem read_modify_write_loses_update (ref : nat) (e0 e1 e2 e3 : layer_env) (uri body1 body2 : string)
    (w : World (B := InMemoryStorageBackend)) (r : StorageResource) :
  serving ref w -> Runtime.ValidateURI uri = Ok tt -> im_data (w.2.2 ref) !! uri = Some r -> sr_ETag r <> "" ->
  len body1 <= Runtime.MaxResourceSize -> len body2 <= Runtime.MaxResourceSize ->
  exists w0 w1 w2 w3 r',
    Get e0 uri w = Done (w0, Ok r) /\
    PutConditional e1 uri (Some (with_body r body1)) (mkPreconditions [sr_ETag r] []) w0 = Done (w1, Ok tt) /\
    PutConditional e2 uri (Some (with_body r body2)) (mkPreconditions [sr_ETag r] []) w1 = Done (w2, Ok tt) /\
    Get e3 uri w2 = Done (w3, Ok r') /\ sr_Body r' = body2.
Proof.
  intros Hs Hu Hr He Hl1 Hl2.
  assert (forall c, sr_ETag c = sr_ETag r -> currentETag (Some c) = sr_ETag r) as Hcur.
  { intros c Hc. unfold currentETag. rewrite Hc. by apply String.eqb_neq in He as ->. }
  destruct (Get_serving ref e0 uri w r Hs Hu Hr) as (w0 & H0 & Hs0 & Hd0). rewrite <- Hd0 in Hr.
  destruct (PutConditional_serving ref e1 uri w0 r (with_body r body1) (mkPreconditions [sr_ETag r] []))
    as (w1 & n1 & H1 & Hs1 & Hd1 & _ & Ht1); [done..|apply matches_own_tag; auto|].
  destruct (PutConditional_serving ref e2 uri w1 n1 (with_body r body2) (mkPreconditions [sr_ETag r] []))
    as (w2 & n2 & H2 & Hs2 & Hd2 & Hb2 & _); [done|done|done|by rewrite Hd1, lookup_insert_eq|apply matches_own_tag; auto|].
  destruct (Get_serving ref e3 uri w2 n2 Hs2 Hu) as (w3 & H3 & _); [by rewrite Hd2, lookup_insert_eq|].
  by exists w0, w1, w2, w3, n2.
Qed.

Definition sampleWorld : World (B := InMemoryStorageBackend) :=
  (mkLayer DefaultStorageAbstractionConfig {[ "default" := 0%nat ]} "default"
     (l_metrics (NewStorageAbstractionLayer DefaultStorageAbstractionConfig)) false,
   (∅, fun _ => mkInMemory {[ "http://pod.example/n" := note "one" "v1" ]} "memory" false)).
Definition sampleLayerEnv : layer_env := mkLayerEnv (fun _ => 1) (fun _ _ => None) (fun _ m => (map_to_list m).*1).

Lemma read_modify_write_loses_update_witness :
  let uri := "http://pod.example/n" in let e := sampleLayerEnv in let p := mkPreconditions ["v1"] [] in
  exists w0 w1 w2 w3 r',
    Get e uri sampleWorld = Done (w0, Ok (note "one" "v1")) /\
    PutConditional e uri (Some (note "from Alice" "v1")) p w0 = Done (w1, Ok tt) /\
    PutConditional e uri (Some (note "from Bob" "v1")) p w1 = Done (w2, Ok tt) /\
    Get e uri w2 = Done (w3, Ok r') /\ sr_Body r' = "from Bob".
Proof.
  intros uri e p. apply (read_modify_write_loses_update 0 e e e e uri "from Alice" "from Bob" sampleWorld (note "one" "v1")).
  - split; reflexivity || (cbn; lia).
  - vm_compute. reflexivity.
  - reflexivity.
  - discriminate.
  - vm_compute. discriminate.
  - vm_compute. discriminate.
Defined.
