(* ===== verification/EventStream.v ===== *)
(** * The event stream of the runtime

    [internal/runtime/event_stream.go], with the rate limiter of [internal/runtime/gateway.go] and
    the event types of [internal/runtime/notification.go]: events are checked, buffered and
    delivered to the channels of subscribers.

    The layer starts goroutines: one delivers an accepted event to all subscribers, one sends the
    recent events to a new subscriber.  The system is the layer with its goroutines, and [step] is
    one move of it: a call, a move of a goroutine, a receive of a consumer, or the cancellation of
    a consumer's context.  A delivery holds the read lock from its start to its end; a call that
    takes the write lock runs at once, its checks included, when no delivery is under way.
    Subscribers are pointers: the layer maps identifiers to references.  Clock readings, new
    identifiers and the orders of maps are arguments. *)

From S2P Require Import Prelude GoStrings GoURL GoFloat AuthzTypes RDFIndex.

Local Open Scope Z_scope.

(** ** Events *)

Definition EventTypes_known : list string :=
  ["create"; "update"; "delete"; "move"; "copy"; "access"; "policy"; "container"; "custom"].
Definition isValidNotificationEventType (eventType : string) : bool := existsb (String.eqb eventType) EventTypes_known.

Record NotificationEvent := mkNotificationEvent {
  ne_EventID : string;
  ne_EventType : string;
  ne_ResourceURI : string;
  ne_ContainerURI : string;
  ne_Timestamp : Z;
  ne_Agent : string;
  ne_AgentType : string;
  ne_Action : string;
  ne_Metadata : gmap string string;
  ne_SequenceNumber : Z
}.

Record StreamEvent := mkStreamEvent {
  se_EventID : string;
  se_EventType : string;
  se_ResourceURI : string;
  se_ContainerURI : string;
  se_Timestamp : Z;
  se_Agent : string;
  se_AgentType : string;
  se_Action : string;
  se_Metadata : gmap string string;
  se_SequenceNumber : Z;
  se_StreamTimestamp : Z;
  se_PrivacyLevel : string
}.

Definition PrivacyLevelPublic : string := "public".
Definition PrivacyLevelMetadata : string := "metadata".
Definition PrivacyLevelSensitive : string := "sensitive".
Definition PrivacyLevelPrivate : string := "private".

Definition isValidPrivacyLevel (level : string) : bool :=
  existsb (String.eqb level) [PrivacyLevelPublic; PrivacyLevelMetadata; PrivacyLevelSensitive; PrivacyLevelPrivate].

Definition sensitiveKeys : list string :=
  ["authorization"; "token"; "password"; "secret"; "private"; "credential"; "api_key"; "access_token"; "refresh_token"].
Definition isSensitiveMetadataKey (key : string) : bool := existsb (Contains (ToLower key)) sensitiveKeys.

Definition determinePrivacyLevel (event : NotificationEvent) : string :=
  match ne_Metadata event !! "privacy-level" with
  | Some privacy => if isValidPrivacyLevel privacy then privacy else PrivacyLevelMetadata
  | None => PrivacyLevelMetadata
  end.

Definition ConvertNotificationToStreamEvent (now : Z) (n : NotificationEvent) : StreamEvent :=
  mkStreamEvent (ne_EventID n) (ne_EventType n) (ne_ResourceURI n) (ne_ContainerURI n) (ne_Timestamp n) (ne_Agent n)
    (ne_AgentType n) (ne_Action n) (ne_Metadata n) (ne_SequenceNumber n) now (determinePrivacyLevel n).

Record StreamFilter := mkStreamFilter {
  sf_ResourceURIs : list string;
  sf_ResourcePatterns : list string;
  sf_ContainerURIs : list string;
  sf_EventTypes : list string;
  sf_Agents : list string;
  sf_MinPrivacyLevel : string;
  sf_MaxPrivacyLevel : string
}.

(** A criterion of a filter: an empty list accepts everything. *)
Definition oneOf (l : list string) (p : string -> bool) : bool := bool_decide (l = []) || existsb p l.

(** Levels are strings, compared byte by byte. *)
Definition eventMatchesStreamFilter (event : StreamEvent) (filter : StreamFilter) : bool :=
  oneOf (sf_EventTypes filter) (String.eqb (se_EventType event)) &&
  negb (negb (String.eqb (sf_MinPrivacyLevel filter) "") && String.ltb (se_PrivacyLevel event) (sf_MinPrivacyLevel filter)) &&
  negb (negb (String.eqb (sf_MaxPrivacyLevel filter) "") && String.ltb (sf_MaxPrivacyLevel filter) (se_PrivacyLevel event)) &&
  oneOf (sf_ResourceURIs filter) (String.eqb (se_ResourceURI event)) &&
  oneOf (sf_ResourcePatterns filter)
    (fun pattern => negb (String.eqb pattern "") && HasPrefix (se_ResourceURI event) pattern) &&
  oneOf (sf_ContainerURIs filter) (String.eqb (se_ContainerURI event)) &&
  oneOf (sf_Agents filter) (String.eqb (se_Agent event)).

(** ** Circuit breaker and rate limiter *)

Record CircuitBreaker := mkBreaker {
  cb_failures : Z;
  cb_threshold : Z;
  cb_resetTimeout : Z;
  cb_lastFailure : Z;
  cb_state : bool
}.

Definition NewCircuitBreaker (threshold resetTimeout : Z) : CircuitBreaker := mkBreaker 0 threshold resetTimeout 0 false.

Definition CircuitBreaker_Check (now : Z) (cb : CircuitBreaker) : bool :=
  negb (cb_state cb) || (cb_resetTimeout cb <=? now - cb_lastFailure cb).

Definition CircuitBreaker_RecordFailure (now : Z) (cb : CircuitBreaker) : CircuitBreaker :=
  let failures := wrap64 (cb_failures cb + 1) in
  mkBreaker failures (cb_threshold cb) (cb_resetTimeout cb) now ((cb_threshold cb <=? failures) || cb_state cb).

Definition CircuitBreaker_RecordSuccess (cb : CircuitBreaker) : CircuitBreaker :=
  mkBreaker 0 (cb_threshold cb) (cb_resetTimeout cb) (cb_lastFailure cb) false.

Definition CircuitBreaker_Reset (cb : CircuitBreaker) : CircuitBreaker :=
  mkBreaker 0 (cb_threshold cb) (cb_resetTimeout cb) 0 false.

Record RateLimiter := mkRateLimiter { rl_tokens : float64; rl_maxTokens : float64; rl_rate : float64; rl_lastUpdate : Z }.

Definition NewRateLimiter (now : Z) (rate : float64) (bucketSize : Z) : RateLimiter :=
  mkRateLimiter (f64_of_Z bucketSize) (f64_of_Z bucketSize) rate now.

Definition RateLimiter_Allow (now : Z) (rl : RateLimiter) : RateLimiter * bool :=
  let elapsed := duration_Seconds (now - rl_lastUpdate rl) in
  let tokens := f64_add (rl_tokens rl) (f64_mul elapsed (rl_rate rl)) in
  let tokens := if f64_lt (rl_maxTokens rl) tokens then rl_maxTokens rl else tokens in
  if f64_le (f64_of_Z 1) tokens
  then (mkRateLimiter (f64_add tokens (f64_of_Z (-1))) (rl_maxTokens rl) (rl_rate rl) now, true)
  else (mkRateLimiter tokens (rl_maxTokens rl) (rl_rate rl) now, false).

(** ** The layer *)

Record EventStreamHardeningConfig := mkHardening {
  MaxMetadataSize : Z;
  MaxMetadataKeys : Z;
  MaxMetadataKeyLength : Z;
  MaxMetadataValueLength : Z;
  MaxSubscriberBufferSize : Z;
  MaxSubscriberInactivityTime : Z;
  MaxEventsPerSecond : float64;
  EventBurstLimit : Z;
  CircuitBreakerFailureThreshold : Z;
  CircuitBreakerResetTimeout : Z
}.

Definition DefaultEventStreamHardeningConfig : EventStreamHardeningConfig :=
  mkHardening 4096 50 256 1024 1000 0 (f64_of_Z 1000) 2000 5 (30 * second).

Record EventStreamConfig := mkStreamConfig {
  MaxStreamBufferSize : Z;
  EventRetentionTime : Z;
  MaxStreamSubscribers : Z;
  EnableObservability : bool;
  HardeningConfig : EventStreamHardeningConfig
}.

Definition DefaultEventStreamConfig : EventStreamConfig := mkStreamConfig 10000 0 1000 true DefaultEventStreamHardeningConfig.

Record EventStreamMetrics := mkStreamMetrics {
  TotalEventsAdded : Z;
  TotalEventsStreamed : Z;
  EventsDroppedDueToLimit : Z;
  TotalSubscribers : Z;
  ActiveSubscribers : Z;
  SubscriberErrors : Z;
  LastStreamTime : Z;
  AverageEventLatency : Z
}.

Definition RecordEventAdded (now : Z) (m : EventStreamMetrics) : EventStreamMetrics :=
  mkStreamMetrics (wrap64 (TotalEventsAdded m + 1)) (TotalEventsStreamed m) (EventsDroppedDueToLimit m) (TotalSubscribers m)
    (ActiveSubscribers m) (SubscriberErrors m) now (AverageEventLatency m).
(** The division would fail for a count that has wrapped around to 0. *)
Definition RecordEventStreamed (latency : Z) (m : EventStreamMetrics) : EventStreamMetrics :=
  let n := wrap64 (TotalEventsStreamed m + 1) in
  mkStreamMetrics (TotalEventsAdded m) n (EventsDroppedDueToLimit m) (TotalSubscribers m) (ActiveSubscribers m)
    (SubscriberErrors m) (LastStreamTime m) (wrap64 (Z.quot (wrap64 (wrap64 (AverageEventLatency m * wrap64 (n - 1)) + latency)) n)).
Definition RecordEventDropped (m : EventStreamMetrics) : EventStreamMetrics :=
  mkStreamMetrics (TotalEventsAdded m) (TotalEventsStreamed m) (wrap64 (EventsDroppedDueToLimit m + 1)) (TotalSubscribers m)
    (ActiveSubscribers m) (SubscriberErrors m) (LastStreamTime m) (AverageEventLatency m).
Definition RecordSubscriber (added : bool) (m : EventStreamMetrics) : EventStreamMetrics :=
  mkStreamMetrics (TotalEventsAdded m) (TotalEventsStreamed m) (EventsDroppedDueToLimit m)
    (wrap64 (TotalSubscribers m + if added then 1 else 0)) (wrap64 (ActiveSubscribers m + if added then 1 else -1))
    (SubscriberErrors m) (LastStreamTime m) (AverageEventLatency m).
Definition RecordSubscriberError (m : EventStreamMetrics) : EventStreamMetrics :=
  mkStreamMetrics (TotalEventsAdded m) (TotalEventsStreamed m) (EventsDroppedDueToLimit m) (TotalSubscribers m)
    (ActiveSubscribers m) (wrap64 (SubscriberErrors m + 1)) (LastStreamTime m) (AverageEventLatency m).

(** A buffered Go channel. *)
Record channel := mkChannel { ch_cap : nat; ch_buf : list StreamEvent; ch_closed : bool }.

(** [ss_ctxDone] is the context of the caller, [ss_cancelled] the one [Subscribe] derives. *)
Record StreamSubscriber := mkSubscriber {
  ss_SubscriberID : string;
  ss_EventChannel : channel;
  ss_ctxDone : bool;
  ss_cancelled : bool;
  ss_Filter : StreamFilter;
  ss_LastSent : Z;
  ss_Active : bool;
  ss_MinPrivacyLevel : string;
  ss_WebID : string
}.

Record EventStreamLayer := mkStream {
  es_config : EventStreamConfig;
  es_buffer : list StreamEvent;
  es_subscribers : gmap string nat;
  es_objects : list StreamSubscriber;
  es_metrics : EventStreamMetrics;
  es_limiter : option RateLimiter;
  es_breaker : option CircuitBreaker;
  es_globalEventCount : Z;
  es_closed : bool
}.

Definition hardening (e : EventStreamLayer) : EventStreamHardeningConfig := HardeningConfig (es_config e).

Definition NewEventStreamLayer (now : Z) (config : EventStreamConfig) : EventStreamLayer :=
  let h := HardeningConfig config in
  mkStream config [] ∅ [] (mkStreamMetrics 0 0 0 0 0 0 0 0)
    (if f64_lt (f64_of_Z 0) (MaxEventsPerSecond h) then Some (NewRateLimiter now (MaxEventsPerSecond h) (EventBurstLimit h)) else None)
    (if 0 <? CircuitBreakerFailureThreshold h
     then Some (NewCircuitBreaker (CircuitBreakerFailureThreshold h) (CircuitBreakerResetTimeout h)) else None)
    0 false.

Definition set_buffer (b : list StreamEvent) (e : EventStreamLayer) : EventStreamLayer :=
  mkStream (es_config e) b (es_subscribers e) (es_objects e) (es_metrics e) (es_limiter e) (es_breaker e) (es_globalEventCount e) (es_closed e).
Definition set_subscribers (s : gmap string nat) (e : EventStreamLayer) : EventStreamLayer :=
  mkStream (es_config e) (es_buffer e) s (es_objects e) (es_metrics e) (es_limiter e) (es_breaker e) (es_globalEventCount e) (es_closed e).
Definition set_objects (o : list StreamSubscriber) (e : EventStreamLayer) : EventStreamLayer :=
  mkStream (es_config e) (es_buffer e) (es_subscribers e) o (es_metrics e) (es_limiter e) (es_breaker e) (es_globalEventCount e) (es_closed e).
Definition set_limiter (l : option RateLimiter) (e : EventStreamLayer) : EventStreamLayer :=
  mkStream (es_config e) (es_buffer e) (es_subscribers e) (es_objects e) (es_metrics e) l (es_breaker e) (es_globalEventCount e) (es_closed e).
Definition set_breaker (b : option CircuitBreaker) (e : EventStreamLayer) : EventStreamLayer :=
  mkStream (es_config e) (es_buffer e) (es_subscribers e) (es_objects e) (es_metrics e) (es_limiter e) b (es_globalEventCount e) (es_closed e).
Definition count_event (e : EventStreamLayer) : EventStreamLayer :=
  mkStream (es_config e) (es_buffer e) (es_subscribers e) (es_objects e) (es_metrics e) (es_limiter e) (es_breaker e)
    (wrap64 (es_globalEventCount e + 1)) (es_closed e).

(** Metrics are kept when observability is enabled. *)
Definition observe (f : EventStreamMetrics -> EventStreamMetrics) (e : EventStreamLayer) : EventStreamLayer :=
  if EnableObservability (es_config e)
  then mkStream (es_config e) (es_buffer e) (es_subscribers e) (es_objects e) (f (es_metrics e)) (es_limiter e) (es_breaker e)
         (es_globalEventCount e) (es_closed e)
  else e.

(** Of a formatted message, the constant part. *)
Inductive stream_error :=
| ErrEventStreamClosed
| ErrInvalidEventData (text : string)
| ErrRateLimitExceeded
| ErrSubscriberLimitReached
| ErrCircuitBreakerOpen
| ErrInvalidPrivacyLevel (text : string)
| SubscriberNotFound (id : string)
| StreamText (text : string).

(** ** Adding an event *)

(** The checks on the metadata, whose keys are visited in the order [keys]. *)
Fixpoint checkMetadata (h : EventStreamHardeningConfig) (keys : list string) (m : gmap string string) : result stream_error unit :=
  match keys with
  | [] => Ok tt
  | key :: rest =>
      let value := default "" (m !! key) in
      fail! ErrInvalidEventData "metadata key exceeds maximum length" when MaxMetadataKeyLength h <? len key in
      fail! ErrInvalidEventData "metadata value exceeds maximum length" when MaxMetadataValueLength h <? len value in
      fail! ErrInvalidEventData "metadata key contains control characters" when string_existsb is_control key in
      fail! ErrInvalidEventData "metadata value contains control characters" when string_existsb is_control value in
      fail! ErrInvalidEventData "sensitive metadata key not allowed" when isSensitiveMetadataKey key in
      checkMetadata h rest m
  end.

Definition metadataSize (m : gmap string string) : Z := map_fold (fun key value acc => len key + len value + acc) 0 m.

(** The checks before the rate limiter. *)
Definition checkEvent (h : EventStreamHardeningConfig) (keys : list string) (event : StreamEvent) : result stream_error unit :=
  let invalid (r : result Runtime.error unit) text := match r with Err _ => Err (ErrInvalidEventData text) | Ok _ => Ok tt end in
  let! _ := invalid (Runtime.ValidateURI (se_ResourceURI event)) "invalid resource URI" in
  let! _ := if String.eqb (se_ContainerURI event) "" then Ok tt
            else invalid (Runtime.ValidateContainerURI (se_ContainerURI event)) "invalid container URI" in
  fail! ErrInvalidEventData "invalid event type" when negb (isValidNotificationEventType (se_EventType event)) in
  let! _ := if String.eqb (se_Agent event) "" then Ok tt
            else invalid (Runtime.ValidateWebID (se_Agent event)) "invalid agent WebID" in
  fail! ErrInvalidEventData "metadata exceeds maximum keys limit" when MaxMetadataKeys h <? Z.of_nat (size (se_Metadata event)) in
  let! _ := checkMetadata h keys (se_Metadata event) in
  fail! ErrInvalidEventData "total metadata size exceeds limit" when MaxMetadataSize h <? metadataSize (se_Metadata event) in
  Ok tt.

(** What a call reads of the outside: the clock, and the order in which it visits a map. *)
Record stream_env := mkStreamEnv { ev_now : Z; ev_order : list string }.

(** The keys are an order of the map. *)
Definition is_order {V : Type} (keys : list string) (m : gmap string V) : bool :=
  bool_decide (NoDup keys) && bool_decide (list_to_set keys = dom m).

Definition unixNano (t : Z) : Z := t - time_Unix 0.
Definition generateStreamEventID (now : Z) : string := String.append "stream-" (FormatInt (unixNano now)).
Definition generateStreamSubscriberID (now : Z) : string := String.append "stream-sub-" (FormatInt (unixNano now)).

Definition completeEvent (now : Z) (event : StreamEvent) : result stream_error StreamEvent :=
  let! level := if String.eqb (se_PrivacyLevel event) "" then Ok PrivacyLevelMetadata
                else if isValidPrivacyLevel (se_PrivacyLevel event) then Ok (se_PrivacyLevel event)
                else Err (ErrInvalidPrivacyLevel (se_PrivacyLevel event)) in
  Ok (mkStreamEvent (if String.eqb (se_EventID event) "" then generateStreamEventID now else se_EventID event)
        (se_EventType event) (se_ResourceURI event) (se_ContainerURI event)
        (if time_IsZero (se_Timestamp event) then now else se_Timestamp event) (se_Agent event) (se_AgentType event)
        (se_Action event) (se_Metadata event) (se_SequenceNumber event)
        (if time_IsZero (se_StreamTimestamp event) then now else se_StreamTimestamp event) level).

(** The event that is buffered; its delivery is a goroutine the caller of this definition starts. *)
Definition AddEvent (env : stream_env) (event : StreamEvent) (e : EventStreamLayer)
  : EventStreamLayer * result stream_error StreamEvent :=
  if es_closed e then (e, Err ErrEventStreamClosed)
  else match checkEvent (hardening e) (ev_order env) event with
  | Err err => (e, Err err)
  | Ok _ =>
      let '(e, allowed) := match es_limiter e with
                           | Some rl => let '(rl', ok) := RateLimiter_Allow (ev_now env) rl in (set_limiter (Some rl') e, ok)
                           | None => (e, true)
                           end in
      if negb allowed then (observe RecordEventDropped e, Err ErrRateLimitExceeded)
      else if negb (from_option (CircuitBreaker_Check (ev_now env)) true (es_breaker e))
      then (observe RecordEventDropped e, Err ErrCircuitBreakerOpen)
      else match completeEvent (ev_now env) event with
      | Err err => (e, Err err)
      | Ok event' =>
          let buffer := es_buffer e ++ [event'] in
          let e := count_event (set_buffer buffer e) in
          let e := if MaxStreamBufferSize (es_config e) <? Z.of_nat (length buffer)
                   then observe RecordEventDropped (set_buffer (tail buffer) e) else e in
          (observe (RecordEventAdded (ev_now env)) e, Ok event')
      end
  end.

(** ** Subscribing *)

Fixpoint allOk (check : string -> bool) (err : stream_error) (l : list string) : result stream_error unit :=
  match l with
  | [] => Ok tt
  | x :: rest => fail! err when negb (check x) in allOk check err rest
  end.

Definition checkStreamFilter (h : EventStreamHardeningConfig) (filter : StreamFilter) : result stream_error unit :=
  let minimum := sf_MinPrivacyLevel filter in let maximum := sf_MaxPrivacyLevel filter in
  fail! ErrInvalidEventData "too many resource URIs in filter" when MaxMetadataKeys h <? Z.of_nat (length (sf_ResourceURIs filter)) in
  let! _ := allOk (fun u => is_ok (Runtime.ValidateURI u)) (ErrInvalidEventData "invalid resource URI in filter") (sf_ResourceURIs filter) in
  let! _ := allOk (fun u => is_ok (Runtime.ValidateContainerURI u)) (ErrInvalidEventData "invalid container URI in filter") (sf_ContainerURIs filter) in
  let! _ := allOk isValidNotificationEventType (ErrInvalidEventData "invalid event type in filter") (sf_EventTypes filter) in
  fail! ErrInvalidPrivacyLevel "min privacy level cannot be greater than max privacy level"
    when negb (String.eqb minimum "") && negb (String.eqb maximum "") && String.ltb maximum minimum in
  fail! ErrInvalidPrivacyLevel "invalid min privacy level" when negb (String.eqb minimum "") && negb (isValidPrivacyLevel minimum) in
  fail! ErrInvalidPrivacyLevel "invalid max privacy level" when negb (String.eqb maximum "") && negb (isValidPrivacyLevel maximum) in
  Ok tt.

(** The reference of the new subscriber; the goroutine that sends it the recent events is started
    by the caller of this definition.  [ctxDone] is the state of the caller's context, [None] nil. *)
Definition Subscribe (env : stream_env) (ctxDone : option bool) (filter : StreamFilter) (webID minPrivacyLevel : string)
    (e : EventStreamLayer) : EventStreamLayer * result stream_error nat :=
  if es_closed e then (e, Err ErrEventStreamClosed)
  else
    let checks :=
      let! _ := checkStreamFilter (hardening e) filter in
      fail! ErrInvalidEventData "invalid WebID" when negb (String.eqb webID "") && negb (is_ok (Runtime.ValidateWebID webID)) in
      fail! ErrInvalidPrivacyLevel "invalid minPrivacyLevel parameter" when negb (isValidPrivacyLevel minPrivacyLevel) in
      match ctxDone with None => Err (ErrInvalidEventData "nil context provided") | Some done => Ok done end in
    match checks with
    | Err err => (e, Err err)
    | Ok done =>
        if MaxStreamSubscribers (es_config e) <=? Z.of_nat (size (es_subscribers e))
        then (set_breaker (CircuitBreaker_RecordFailure (ev_now env) <$> es_breaker e) e, Err ErrSubscriberLimitReached)
        else
          let bufferSize := if MaxSubscriberBufferSize (hardening e) <=? 0 then 100 else MaxSubscriberBufferSize (hardening e) in
          let id := generateStreamSubscriberID (ev_now env) in
          let subscriber := mkSubscriber id (mkChannel (Z.to_nat bufferSize) [] false) done false filter 0 true minPrivacyLevel webID in
          let ref := length (es_objects e) in
          let e := set_subscribers (<[id := ref]> (es_subscribers e)) (set_objects (es_objects e ++ [subscriber]) e) in
          (observe (RecordSubscriber true) e, Ok ref)
    end.

Definition getRecentEvents (count : Z) (e : EventStreamLayer) : list StreamEvent :=
  if es_closed e || (count <=? 0) then [] else drop (length (es_buffer e) - Z.to_nat count) (es_buffer e).

(** Closes the channel and cancels the derived context.  Closing a closed channel panics: [None]. *)
Definition closeSubscriber (s : StreamSubscriber) : option StreamSubscriber :=
  let c := ss_EventChannel s in
  if ch_closed c then None
  else Some (mkSubscriber (ss_SubscriberID s) (mkChannel (ch_cap c) (ch_buf c) true) (ss_ctxDone s) true (ss_Filter s)
               (ss_LastSent s) (ss_Active s) (ss_MinPrivacyLevel s) (ss_WebID s)).

Definition closeRef (ref : nat) (e : EventStreamLayer) : option EventStreamLayer :=
  match es_objects e !! ref with
  | Some s => match closeSubscriber s with Some s' => Some (set_objects (<[ref := s']> (es_objects e)) e) | None => None end
  | None => None
  end.

(** [id] is the identifier of the subscriber passed in; [None] is a panic. *)
Definition Unsubscribe (id : string) (e : EventStreamLayer) : option (EventStreamLayer * result stream_error unit) :=
  if es_closed e then Some (e, Err (StreamText "event stream layer is closed"))
  else match es_subscribers e !! id with
  | None => Some (e, Err (SubscriberNotFound id))
  | Some ref =>
      match closeRef ref e with
      | Some e' => Some (observe (RecordSubscriber false) (set_subscribers (delete id (es_subscribers e')) e'), Ok tt)
      | None => None
      end
  end.

(** ** Cleaning up and closing *)

Definition cleanOldEvents (now retentionTime : Z) (e : EventStreamLayer) : EventStreamLayer :=
  if es_closed e then e
  else set_buffer (filter (fun ev => time_After (se_StreamTimestamp ev) (now - retentionTime) = true) (es_buffer e)) e.

(** The subscribers are visited in the order [ids]. *)
Fixpoint cleanInactiveSubscribers (cutoff : Z) (ids : list string) (e : EventStreamLayer) : option EventStreamLayer :=
  match ids with
  | [] => Some e
  | id :: rest =>
      match es_subscribers e !! id ≫= fun ref => pair ref <$> es_objects e !! ref with
      | Some (ref, s) =>
          if time_Before (ss_LastSent s) cutoff && negb (time_IsZero (ss_LastSent s)) then
            match closeRef ref e with
            | Some e' => cleanInactiveSubscribers cutoff rest (observe (RecordSubscriber false) (set_subscribers (delete id (es_subscribers e')) e'))
            | None => None
            end
          else cleanInactiveSubscribers cutoff rest e
      | None => cleanInactiveSubscribers cutoff rest e
      end
  end.

Fixpoint closeAllRefs (refs : list nat) (e : EventStreamLayer) : option EventStreamLayer :=
  match refs with
  | [] => Some e
  | ref :: rest => match closeRef ref e with Some e' => closeAllRefs rest e' | None => None end
  end.

(** The subscribers are visited in the order [ids]. *)
Definition Close (ids : list string) (e : EventStreamLayer) : option EventStreamLayer :=
  if es_closed e then Some e
  else match closeAllRefs (omap (fun id => es_subscribers e !! id) ids) e with
  | Some e' => Some (mkStream (es_config e') [] ∅ (es_objects e') (es_metrics e') (es_limiter e') (es_breaker e') (es_globalEventCount e') true)
  | None => None
  end.

Definition ResetCircuitBreaker (e : EventStreamLayer) : EventStreamLayer :=
  set_breaker (CircuitBreaker_Reset <$> es_breaker e) e.

(** ** The goroutines *)

(** [Delivering] holds the read lock and has the subscribers [todo] left; [CatchingUp] has the
    events [todo] left to send to the subscriber [ref]. *)
Inductive goroutine :=
| DeliverStart (event : StreamEvent)
| Delivering (event : StreamEvent) (todo : list nat)
| CatchUpStart (ref : nat) (filter : StreamFilter) (minPrivacyLevel : string)
| CatchingUp (ref : nat) (filter : StreamFilter) (minPrivacyLevel : string) (todo : list StreamEvent)
| Finished.

Record system := mkSystem { sy_layer : EventStreamLayer; sy_gos : list goroutine; sy_crashed : bool }.

(** The choice a [select] makes among its cases. *)
Inductive choice := ChooseSend | ChooseDone | ChooseClosed.

Definition wanted (event : StreamEvent) (s : StreamSubscriber) : bool :=
  ss_Active s && eventMatchesStreamFilter event (ss_Filter s) &&
  negb (String.ltb (se_PrivacyLevel event) (ss_MinPrivacyLevel s)) &&
  negb (negb (String.eqb (ss_WebID s) "") && negb (String.eqb (se_Agent event) "") && negb (String.eqb (ss_WebID s) (se_Agent event))).

Definition set_channel (c : channel) (s : StreamSubscriber) : StreamSubscriber :=
  mkSubscriber (ss_SubscriberID s) c (ss_ctxDone s) (ss_cancelled s) (ss_Filter s) (ss_LastSent s) (ss_Active s) (ss_MinPrivacyLevel s) (ss_WebID s).
Definition set_sent (now : Z) (s : StreamSubscriber) : StreamSubscriber :=
  mkSubscriber (ss_SubscriberID s) (ss_EventChannel s) (ss_ctxDone s) (ss_cancelled s) (ss_Filter s) now (ss_Active s) (ss_MinPrivacyLevel s) (ss_WebID s).
Definition deactivate (s : StreamSubscriber) : StreamSubscriber :=
  mkSubscriber (ss_SubscriberID s) (ss_EventChannel s) (ss_ctxDone s) (ss_cancelled s) (ss_Filter s) (ss_LastSent s) false (ss_MinPrivacyLevel s) (ss_WebID s).
Definition cancelContext (s : StreamSubscriber) : StreamSubscriber :=
  mkSubscriber (ss_SubscriberID s) (ss_EventChannel s) true (ss_cancelled s) (ss_Filter s) (ss_LastSent s) (ss_Active s) (ss_MinPrivacyLevel s) (ss_WebID s).

(** A send in a [select]: it blocks on a full channel and panics on a closed one. *)
Inductive sent := Sent (c : channel) | Blocked | SendPanics.
Definition send (event : StreamEvent) (c : channel) : sent :=
  if ch_closed c then SendPanics
  else if (length (ch_buf c) <? ch_cap c)%nat then Sent (mkChannel (ch_cap c) (ch_buf c ++ [event]) false)
  else Blocked.

Definition put_object (ref : nat) (s : StreamSubscriber) (e : EventStreamLayer) : EventStreamLayer :=
  set_objects (<[ref := s]> (es_objects e)) e.

(** One subscriber of [deliverToStreamSubscribers]; [None] when the choice is not ready, a
    [None] layer when the send panics. *)
Definition deliverOne (ch : choice) (now latency : Z) (event : StreamEvent) (ref : nat) (todo : list nat) (e : EventStreamLayer)
  : option (option EventStreamLayer * goroutine) :=
  match es_objects e !! ref with
  | None => None
  | Some s =>
      if negb (wanted event s) then Some (Some e, Delivering event todo)
      else match ch with
      | ChooseSend =>
          match send event (ss_EventChannel s) with
          | Sent c => Some (Some (put_object ref (set_sent now (set_channel c s)) (observe (RecordEventStreamed latency) e)), Delivering event todo)
          | Blocked => None
          | SendPanics => Some (None, Finished)
          end
      | ChooseDone =>
          if ss_ctxDone s then Some (Some (observe RecordSubscriberError (put_object ref (deactivate s) e)), Delivering event todo) else None
      | ChooseClosed => if es_closed e then Some (Some e, Finished) else None
      end
  end.

(** One event of the goroutine of [Subscribe]. *)
Definition catchUpOne (ch : choice) (ref : nat) (filter : StreamFilter) (minimum : string) (event : StreamEvent) (todo : list StreamEvent)
    (e : EventStreamLayer) : option (option EventStreamLayer * goroutine) :=
  match es_objects e !! ref with
  | None => None
  | Some s =>
      if negb (eventMatchesStreamFilter event filter && negb (String.ltb (se_PrivacyLevel event) minimum))
      then Some (Some e, CatchingUp ref filter minimum todo)
      else match ch with
      | ChooseSend =>
          match send event (ss_EventChannel s) with
          | Sent c => Some (Some (put_object ref (set_channel c s) e), CatchingUp ref filter minimum todo)
          | Blocked => None
          | SendPanics => Some (None, Finished)
          end
      | ChooseDone => if ss_ctxDone s || ss_cancelled s then Some (Some e, Finished) else None
      | ChooseClosed => None
      end
  end.

(** A move of a goroutine; [ids] is the order in which a delivery visits the subscribers. *)
Definition moveGo (ch : choice) (now latency : Z) (ids : list string) (g : goroutine) (e : EventStreamLayer)
  : option (option EventStreamLayer * goroutine) :=
  match g with
  | DeliverStart event =>
      if is_order ids (es_subscribers e)
      then Some (Some e, if es_closed e then Finished else Delivering event (omap (fun id => es_subscribers e !! id) ids))
      else None
  | Delivering event [] => Some (Some e, Finished)
  | Delivering event (ref :: todo) => deliverOne ch now latency event ref todo e
  | CatchUpStart ref filter minimum => Some (Some e, CatchingUp ref filter minimum (getRecentEvents 100 e))
  | CatchingUp ref filter minimum [] => Some (Some e, Finished)
  | CatchingUp ref filter minimum (event :: todo) => catchUpOne ch ref filter minimum event todo e
  | Finished => None
  end.

(** ** The system *)

Inductive label :=
| LAdd (env : stream_env) (event : StreamEvent)
| LSubscribe (env : stream_env) (ctxDone : option bool) (filter : StreamFilter) (webID minPrivacyLevel : string)
| LUnsubscribe (id : string)
| LCleanEvents (now retentionTime : Z)
| LCleanSubscribers (cutoff : Z) (ids : list string)
| LReset
| LClose (ids : list string)
| LGo (i : nat) (ch : choice) (now latency : Z) (ids : list string)
| LReceive (ref : nat)
| LCancel (ref : nat).

(** A delivery under way holds the read lock. *)
Definition holdsRLock (g : goroutine) : bool := match g with Delivering _ _ => true | _ => false end.
Definition locked (sy : system) : bool := existsb holdsRLock (sy_gos sy).

Definition after (sy : system) (r : option EventStreamLayer) (gos : list goroutine) : system :=
  match r with Some e => mkSystem e gos false | None => mkSystem (sy_layer sy) gos true end.

(** The calls that take the write lock. *)
Definition callStep (l : label) (sy : system) : option system :=
  let e := sy_layer sy in let gos := sy_gos sy in
  match l with
  | LAdd env event =>
      if is_order (ev_order env) (se_Metadata event) then
        let '(e', r) := AddEvent env event e in
        Some (mkSystem e' (match r with Ok event' => gos ++ [DeliverStart event'] | Err _ => gos end) false)
      else None
  | LSubscribe env ctxDone filter webID minimum =>
      let '(e', r) := Subscribe env ctxDone filter webID minimum e in
      Some (mkSystem e' (match r with Ok ref => gos ++ [CatchUpStart ref filter minimum] | Err _ => gos end) false)
  | LUnsubscribe id => Some (after sy (fst <$> Unsubscribe id e) gos)
  | LCleanEvents now retentionTime => Some (mkSystem (cleanOldEvents now retentionTime e) gos false)
  | LCleanSubscribers cutoff ids =>
      if is_order ids (es_subscribers e)
      then Some (if es_closed e then sy else after sy (cleanInactiveSubscribers cutoff ids e) gos) else None
  | LClose ids => if is_order ids (es_subscribers e) then Some (after sy (Close ids e) gos) else None
  | _ => None
  end.

Definition on_object (ref : nat) (f : StreamSubscriber -> option StreamSubscriber) (sy : system) : option system :=
  match es_objects (sy_layer sy) !! ref ≫= f with
  | Some s => Some (mkSystem (put_object ref s (sy_layer sy)) (sy_gos sy) false)
  | None => None
  end.

(** One move of the system, [None] when it is not possible; nothing moves after a crash. *)
Definition step (l : label) (sy : system) : option system :=
  if sy_crashed sy then None
  else match l with
  | LReset => Some (mkSystem (ResetCircuitBreaker (sy_layer sy)) (sy_gos sy) false)
  | LGo i ch now latency ids =>
      match sy_gos sy !! i ≫= fun g => moveGo ch now latency ids g (sy_layer sy) with
      | Some (r, g') => Some (after sy r (<[i := g']> (sy_gos sy)))
      | None => None
      end
  | LReceive ref => on_object ref (fun s =>
      let c := ss_EventChannel s in
      match ch_buf c with [] => None | _ :: rest => Some (set_channel (mkChannel (ch_cap c) rest (ch_closed c)) s) end) sy
  | LCancel ref => on_object ref (fun s => Some (cancelContext s)) sy
  | _ => if locked sy then None else callStep l sy
  end.

Fixpoint steps (ls : list label) (sy : system) : option system :=
  match ls with
  | [] => Some sy
  | l :: rest => match step l sy with Some sy' => steps rest sy' | None => None end
  end.

Definition start (now : Z) (config : EventStreamConfig) : system := mkSystem (NewEventStreamLayer now config) [] false.

(** ** The invariant *)

(** An event the layer accepted. *)
Record accepted (h : EventStreamHardeningConfig) (ev : StreamEvent) : Prop := {
  ac_resource : Runtime.ValidateURI (se_ResourceURI ev) = Ok tt;
  ac_type : isValidNotificationEventType (se_EventType ev) = true;
  ac_agent : se_Agent ev <> "" -> Runtime.ValidateWebID (se_Agent ev) = Ok tt;
  ac_level : isValidPrivacyLevel (se_PrivacyLevel ev) = true;
  ac_size : metadataSize (se_Metadata ev) <= MaxMetadataSize h;
  ac_metadata : map_Forall (fun key value => isSensitiveMetadataKey key = false /\
    string_existsb is_control key = false /\ string_existsb is_control value = false) (se_Metadata ev)
}.

(** An event that may be in the channel of a subscriber. *)
Definition deliverable (h : EventStreamHardeningConfig) (s : StreamSubscriber) (ev : StreamEvent) : Prop :=
  accepted h ev /\ eventMatchesStreamFilter ev (ss_Filter s) = true /\
  String.ltb (se_PrivacyLevel ev) (ss_MinPrivacyLevel s) = false.

Definition subscriber_ok (h : EventStreamHardeningConfig) (s : StreamSubscriber) : Prop :=
  (length (ch_buf (ss_EventChannel s)) <= ch_cap (ss_EventChannel s))%nat /\
  Forall (deliverable h s) (ch_buf (ss_EventChannel s)).

Definition registered (e : EventStreamLayer) (id : string) (ref : nat) : Prop :=
  exists s, es_objects e !! ref = Some s /\ ss_SubscriberID s = id /\ ch_closed (ss_EventChannel s) = false.

Record layer_ok (cfg : EventStreamConfig) (e : EventStreamLayer) : Prop := {
  lo_config : es_config e = cfg;
  lo_buffer : Forall (accepted (HardeningConfig cfg)) (es_buffer e);
  lo_bound : Z.of_nat (length (es_buffer e)) <= MaxStreamBufferSize cfg;
  lo_objects : Forall (subscriber_ok (HardeningConfig cfg)) (es_objects e);
  lo_subscribers : map_Forall (registered e) (es_subscribers e);
  lo_limit : Z.of_nat (size (es_subscribers e)) <= MaxStreamSubscribers cfg
}.

(** The subscriber of a goroutine. *)
Definition serves (e : EventStreamLayer) (ref : nat) (f : StreamFilter) (minimum : string) : Prop :=
  exists s, es_objects e !! ref = Some s /\ ss_Filter s = f /\ ss_MinPrivacyLevel s = minimum.
Definition open_ref (e : EventStreamLayer) (ref : nat) : Prop :=
  exists s, es_objects e !! ref = Some s /\ ch_closed (ss_EventChannel s) = false.

Definition go_ok (h : EventStreamHardeningConfig) (e : EventStreamLayer) (g : goroutine) : Prop :=
  match g with
  | DeliverStart ev => accepted h ev
  | Delivering ev todo => accepted h ev /\ Forall (open_ref e) todo
  | CatchUpStart ref f minimum => serves e ref f minimum
  | CatchingUp ref f minimum todo => serves e ref f minimum /\ Forall (accepted h) todo
  | Finished => True
  end.

Definition system_ok (cfg : EventStreamConfig) (sy : system) : Prop :=
  layer_ok cfg (sy_layer sy) /\ Forall (go_ok (HardeningConfig cfg) (sy_layer sy)) (sy_gos sy).

(** ** Metrics change nothing else *)

Lemma observe_fields f e :
  es_config (observe f e) = es_config e /\ es_buffer (observe f e) = es_buffer e /\ es_subscribers (observe f e) = es_subscribers e /\
  es_objects (observe f e) = es_objects e /\ es_closed (observe f e) = es_closed e /\
  es_limiter (observe f e) = es_limiter e /\ es_breaker (observe f e) = es_breaker e.
Proof. unfold observe. by destruct (EnableObservability _). Qed.

(** Layers that agree on everything the invariant speaks of. *)
Definition alike (e e' : EventStreamLayer) : Prop :=
  es_config e' = es_config e /\ es_buffer e' = es_buffer e /\ es_subscribers e' = es_subscribers e /\ es_objects e' = es_objects e.

Lemma alike_ok cfg e e' : alike e e' -> layer_ok cfg e -> layer_ok cfg e'.
Proof.
  intros (Hc & Hb & Hs & Ho) [H1 H2 H3 H4 H5 H6]. split; rewrite ?Hc, ?Hb, ?Hs, ?Ho; try done.
  eapply map_Forall_impl; [exact H5|]. intros id ref (s & Hr & H). exists s. by rewrite Ho.
Qed.

Lemma alike_observe f e : alike e (observe f e).
Proof. destruct (observe_fields f e) as (? & ? & ? & ? & _). by repeat split. Qed.

(** ** Objects *)

(** Every subscriber keeps its identifier, filter and level. *)
Definition keeps (e e' : EventStreamLayer) : Prop :=
  forall ref s, es_objects e !! ref = Some s -> exists s', es_objects e' !! ref = Some s' /\
    ss_SubscriberID s' = ss_SubscriberID s /\ ss_Filter s' = ss_Filter s /\ ss_MinPrivacyLevel s' = ss_MinPrivacyLevel s.
(** And no channel is closed. *)
Definition keeps_open (e e' : EventStreamLayer) : Prop :=
  forall ref s, es_objects e !! ref = Some s -> exists s', es_objects e' !! ref = Some s' /\
    ch_closed (ss_EventChannel s') = ch_closed (ss_EventChannel s).

Lemma keeps_alike e e' : es_objects e' = es_objects e -> keeps e e' /\ keeps_open e e'.
Proof. intros H. split; intros ref s Hs; exists s; by rewrite H. Qed.

Lemma keeps_trans e1 e2 e3 : keeps e1 e2 -> keeps e2 e3 -> keeps e1 e3.
Proof.
  intros H1 H2 ref s Hs. destruct (H1 _ _ Hs) as (s2 & Hs2 & ? & ? & ?). destruct (H2 _ _ Hs2) as (s3 & Hs3 & ? & ? & ?).
  exists s3. split_and!; congruence.
Qed.

Lemma serves_keeps e e' ref f m : keeps e e' -> serves e ref f m -> serves e' ref f m.
Proof. intros Hk (s & Hs & Hf & Hm). destruct (Hk _ _ Hs) as (s' & Hs' & _ & Hf' & Hm'). exists s'. split_and!; congruence. Qed.

Lemma open_keeps e e' ref : keeps_open e e' -> open_ref e ref -> open_ref e' ref.
Proof. intros Hk (s & Hs & Hc). destruct (Hk _ _ Hs) as (s' & Hs' & Hc'). exists s'. split; congruence. Qed.

Lemma go_ok_keeps h e e' g : keeps e e' -> (holdsRLock g = true -> keeps_open e e') -> go_ok h e g -> go_ok h e' g.
Proof.
  intros Hk Ho Hg. destruct g as [ev|ev todo|ref f m|ref f m todo|]; cbn in *; [done| | | |done].
  - destruct Hg as [Ha Ht]. split; [done|]. eapply Forall_impl; [exact Ht|]. intros ref. apply open_keeps. auto.
  - by eapply serves_keeps.
  - destruct Hg as [Hs Ht]. split; [by eapply serves_keeps|done].
Qed.

(** Replacing a subscriber by one with the same identifier, filter and level. *)
Lemma put_object_ok cfg e ref s s' :
  layer_ok cfg e -> es_objects e !! ref = Some s -> subscriber_ok (HardeningConfig cfg) s' ->
  ss_SubscriberID s' = ss_SubscriberID s -> ss_Filter s' = ss_Filter s -> ss_MinPrivacyLevel s' = ss_MinPrivacyLevel s ->
  ch_closed (ss_EventChannel s') = ch_closed (ss_EventChannel s) ->
  layer_ok cfg (put_object ref s' e) /\ keeps e (put_object ref s' e) /\ keeps_open e (put_object ref s' e).
Proof.
  intros [H1 H2 H3 H4 H5 H6] Hs Hok Hi Hf Hm Hc.
  assert (forall r t, es_objects e !! r = Some t -> exists t', es_objects (put_object ref s' e) !! r = Some t' /\
    ss_SubscriberID t' = ss_SubscriberID t /\ ss_Filter t' = ss_Filter t /\ ss_MinPrivacyLevel t' = ss_MinPrivacyLevel t /\
    ch_closed (ss_EventChannel t') = ch_closed (ss_EventChannel t)) as Hall.
  { intros r t Ht. cbn. destruct (decide (r = ref)) as [->|Hne].
    - exists s'. rewrite list_lookup_insert_eq by (by eapply lookup_lt_Some). assert (t = s) as -> by congruence. done.
    - exists t. by rewrite list_lookup_insert_ne. }
  split_and!.
  - split; try done; cbn.
    + apply Forall_insert; done.
    + eapply map_Forall_impl; [exact H5|]. intros id r (t & Ht & Hid & Hcl).
      destruct (Hall _ _ Ht) as (t' & Ht' & Hid' & _ & _ & Hcl'). exists t'. split_and!; [exact Ht'|congruence|congruence].
  - intros r t Ht. destruct (Hall _ _ Ht) as (t' & ? & ? & ? & ? & ?). by exists t'.
  - intros r t Ht. destruct (Hall _ _ Ht) as (t' & ? & ? & ? & ? & ?). by exists t'.
Qed.

(** ** Adding events *)

Lemma is_order_elem {V} keys (m : gmap string V) k v : is_order keys m = true -> m !! k = Some v -> k ∈ keys.
Proof.
  unfold is_order. intros H Hk. bool_prop. apply (elem_of_list_to_set (C := gset string)).
  match goal with H : list_to_set _ = _ |- _ => rewrite H end. by apply elem_of_dom_2 in Hk.
Qed.

Lemma checkMetadata_Ok h keys m key value :
  checkMetadata h keys m = Ok tt -> key ∈ keys -> m !! key = Some value ->
  isSensitiveMetadataKey key = false /\ string_existsb is_control key = false /\ string_existsb is_control value = false.
Proof.
  induction keys as [|k keys IH]; intros H Hin Hv; [by apply elem_of_nil in Hin|]. cbn [checkMetadata] in H.
  destruct (_ <? len k) eqn:E1; [discriminate H|]. destruct (_ <? len (default "" (m !! k))) eqn:E2; [discriminate H|].
  destruct (string_existsb is_control k) eqn:E3; [discriminate H|].
  destruct (string_existsb is_control (default "" (m !! k))) eqn:E4; [discriminate H|].
  destruct (isSensitiveMetadataKey k) eqn:E5; [discriminate H|].
  apply elem_of_cons in Hin as [->|Hin]; [|by apply IH]. by rewrite Hv in E4.
Qed.

Lemma checkEvent_accepted h keys now ev ev' :
  is_order keys (se_Metadata ev) = true -> checkEvent h keys ev = Ok tt -> completeEvent now ev = Ok ev' -> accepted h ev'.
Proof.
  intros Hord Hc Hf. unfold completeEvent in Hf.
  destruct (if String.eqb (se_PrivacyLevel ev) "" then _ else _) as [level|] eqn:El; cbn [result_bind] in Hf; [|discriminate Hf].
  injection Hf as <-. unfold checkEvent in Hc.
  destruct (Runtime.ValidateURI (se_ResourceURI ev)) as [[]|] eqn:Eu; cbn [result_bind] in Hc; [|discriminate Hc].
  destruct (if String.eqb (se_ContainerURI ev) "" then _ else _) as [[]|]; cbn [result_bind] in Hc; [|discriminate Hc].
  destruct (isValidNotificationEventType (se_EventType ev)) eqn:Et; cbn [negb] in Hc; [|discriminate Hc].
  destruct (if String.eqb (se_Agent ev) "" then _ else _) as [[]|] eqn:Ea; cbn [result_bind] in Hc; [|discriminate Hc].
  destruct (MaxMetadataKeys h <? _); [discriminate Hc|].
  destruct (checkMetadata h keys (se_Metadata ev)) as [[]|] eqn:Em; cbn [result_bind] in Hc; [|discriminate Hc].
  destruct (MaxMetadataSize h <? _) eqn:Es; [discriminate Hc|]. bool_prop.
  split; cbn; [done|done| | |lia|].
  - intros Hne. apply String.eqb_neq in Hne. rewrite Hne in Ea. by destruct (Runtime.ValidateWebID (se_Agent ev)) as [[]|].
  - destruct (String.eqb (se_PrivacyLevel ev) ""); [by injection El as <-|].
    destruct (isValidPrivacyLevel (se_PrivacyLevel ev)) eqn:E; [|discriminate El]. by injection El as <-.
  - intros key value Hv. eapply checkMetadata_Ok; [exact Em|by eapply is_order_elem|exact Hv].
Qed.

(** A limiter changes nothing the invariant speaks of. *)
Lemma set_limiter_alike l e : alike e (set_limiter l e).
Proof. done. Qed.

Lemma buffer_ok cfg e ev :
  layer_ok cfg e -> 0 <= MaxStreamBufferSize cfg -> accepted (HardeningConfig cfg) ev ->
  let buffer := es_buffer e ++ [ev] in
  layer_ok cfg (if MaxStreamBufferSize (es_config e) <? Z.of_nat (length buffer)
                then observe RecordEventDropped (set_buffer (tail buffer) (count_event (set_buffer buffer e)))
                else count_event (set_buffer buffer e)).
Proof.
  intros [H1 H2 H3 H4 H5 H6] Hmax Hev buffer. rewrite H1.
  assert (Forall (accepted (HardeningConfig cfg)) buffer) as Hb by (apply Forall_app; auto).
  assert (length buffer = S (length (es_buffer e))) as Hl by (unfold buffer; rewrite length_app; cbn; lia).
  destruct (MaxStreamBufferSize cfg <? Z.of_nat (length buffer)) eqn:E; bool_prop.
  - eapply alike_ok; [apply alike_observe|]. split; cbn [set_buffer count_event es_config es_buffer es_objects es_subscribers]; try done.
    + destruct buffer; [done|]. by inversion Hb.
    + destruct buffer as [|x b]; [discriminate Hl|]. cbn [tail length] in *. lia.
  - split; cbn [set_buffer count_event es_config es_buffer es_objects es_subscribers]; done.
Qed.

Lemma AddEvent_ok cfg env ev e e' r :
  layer_ok cfg e -> 0 <= MaxStreamBufferSize cfg -> is_order (ev_order env) (se_Metadata ev) = true -> AddEvent env ev e = (e', r) ->
  layer_ok cfg e' /\ es_objects e' = es_objects e /\ (forall ev', r = Ok ev' -> accepted (HardeningConfig cfg) ev').
Proof.
  intros Hok Hmax Hord H. unfold AddEvent in H.
  destruct (es_closed e); [injection H as <- <-; split_and!; done|].
  destruct (checkEvent _ _ _) as [[]|] eqn:Ec; [|injection H as <- <-; split_and!; done].
  assert (hardening e = HardeningConfig cfg) as Hh by (unfold hardening; by rewrite (lo_config _ _ Hok)). rewrite Hh in Ec.
  destruct (match es_limiter e with Some _ => _ | None => _ end) as [e1 allowed] eqn:El.
  assert (alike e e1 /\ es_breaker e1 = es_breaker e) as [Ha _].
  { destruct (es_limiter e) as [rl|]; [|by injection El as <- _]. destruct (RateLimiter_Allow _ rl). by injection El as <- _. }
  assert (layer_ok cfg e1) as Hok1 by (by eapply alike_ok).
  assert (forall f, layer_ok cfg (observe f e1) /\ es_objects (observe f e1) = es_objects e) as Hobs.
  { intros f. split; [eapply alike_ok; [apply alike_observe|done]|]. destruct (observe_fields f e1) as (_ & _ & _ & -> & _). apply Ha. }
  destruct allowed; cbn [negb] in H; [|injection H as <- <-; split_and!; try done; apply Hobs].
  destruct (from_option _ _ _); cbn [negb] in H; [|injection H as <- <-; split_and!; try done; apply Hobs].
  destruct (completeEvent (ev_now env) ev) as [ev'|] eqn:Ef; [|injection H as <- <-; split_and!; try done; apply Ha].
  assert (accepted (HardeningConfig cfg) ev') as Hev by (by eapply checkEvent_accepted).
  pose proof (buffer_ok cfg e1 ev' Hok1 Hmax Hev) as Hb. cbv zeta in H, Hb. cbn [count_event set_buffer es_config] in H.
  injection H as <- <-. split_and!.
  - eapply alike_ok; [apply alike_observe|exact Hb].
  - destruct (observe_fields (RecordEventAdded (ev_now env)) (if MaxStreamBufferSize (es_config e1) <? Z.of_nat (length (es_buffer e1 ++ [ev']))
      then observe RecordEventDropped (set_buffer (tail (es_buffer e1 ++ [ev'])) (count_event (set_buffer (es_buffer e1 ++ [ev']) e1)))
      else count_event (set_buffer (es_buffer e1 ++ [ev']) e1))) as (_ & _ & _ & -> & _).
    destruct (_ <? _); [|apply Ha]. match goal with |- es_objects (observe ?f ?x) = _ => destruct (observe_fields f x) as (_ & _ & _ & -> & _) end. apply Ha.
  - intros ev'' [= <-]. done.
Qed.

(** ** Subscribing and closing *)

Lemma Subscribe_ok cfg env done f webID minimum e e' r :
  layer_ok cfg e -> Subscribe env done f webID minimum e = (e', r) ->
  layer_ok cfg e' /\ keeps e e' /\ (forall ref, r = Ok ref -> serves e' ref f minimum).
Proof.
  intros Hok H. unfold Subscribe in H.
  assert (keeps e e) as Hrefl by (by apply keeps_alike).
  destruct (es_closed e); [by injection H as <- <-|]. cbv zeta in H.
  destruct (result_bind _ _) as [d|]; [|by injection H as <- <-].
  destruct (MaxStreamSubscribers (es_config e) <=? _) eqn:El.
  { injection H as <- <-. split_and!; [by apply (alike_ok cfg e)|by apply keeps_alike|done]. }
  bool_prop. match type of H with (observe ?g ?x, _) = _ => set (e1 := x) in *; set (m := g) in * end. injection H as <- <-.
  destruct Hok as [H1 H2 H3 H4 H5 H6]. rewrite H1 in El.
  assert (forall ref t, es_objects e !! ref = Some t -> es_objects e1 !! ref = Some t) as Hold.
  { intros ref t Ht. cbn. rewrite lookup_app_l by (by eapply lookup_lt_Some). done. }
  assert (exists t, es_objects e1 !! length (es_objects e) = Some t /\ ss_SubscriberID t = generateStreamSubscriberID (ev_now env) /\
    ch_closed (ss_EventChannel t) = false /\ ss_Filter t = f /\ ss_MinPrivacyLevel t = minimum) as (t & Ht & Hid & Hc & Hf & Hm).
  { eexists. cbn. rewrite lookup_app_r, Nat.sub_diag by lia. split; [reflexivity|]. done. }
  assert (layer_ok cfg e1) as Hok1.
  { split; try done.
    - cbn. apply Forall_app. split; [done|]. constructor; [|constructor]. split; cbn; [lia|constructor].
    - apply map_Forall_insert_2; [by exists t|]. eapply map_Forall_impl; [exact H5|].
      intros id ref (t' & Ht' & H'). exists t'. split; [by apply Hold|exact H'].
    - cbn. rewrite map_size_insert. destruct (es_subscribers e !! _); cbn; lia. }
  pose proof (alike_observe m e1) as Ha. pose proof Ha as (_ & _ & _ & Ho). split_and!.
  - by eapply alike_ok.
  - intros ref t' Ht'. exists t'. rewrite Ho. split; [by apply Hold|done].
  - intros ref [= <-]. exists t. rewrite Ho. done.
Qed.

Lemma closeRef_ok cfg id ref e :
  layer_ok cfg e -> es_subscribers e !! id = Some ref ->
  exists e', closeRef ref e = Some e' /\ keeps e e' /\ es_closed e' = es_closed e /\ es_subscribers e' = es_subscribers e /\
    layer_ok cfg (set_subscribers (delete id (es_subscribers e)) e').
Proof.
  intros [H1 H2 H3 H4 H5 H6] Hid. destruct (H5 _ _ Hid) as (s & Hs & Hi & Hc). unfold closeRef. rewrite Hs. unfold closeSubscriber. rewrite Hc.
  eexists. split; [reflexivity|]. assert (subscriber_ok (HardeningConfig cfg) s) as [Hl Hd] by (by eapply Forall_lookup_1).
  split_and!; [|done|done|].
  - intros r t Ht. cbn. destruct (decide (r = ref)) as [->|Hne].
    + rewrite list_lookup_insert_eq by (by eapply lookup_lt_Some). assert (t = s) as -> by congruence. by eexists.
    + exists t. by rewrite list_lookup_insert_ne.
  - split; cbn; try done.
    + apply Forall_insert; [done|]. by split.
    + intros id' ref' [Hne Hr]%lookup_delete_Some. destruct (H5 _ _ Hr) as (t & Ht & Hit & Hct).
      exists t. split_and!; try done. cbn. rewrite list_lookup_insert_ne; [done|]. intros ->. congruence.
    + rewrite map_size_delete_Some by eauto. lia.
Qed.

Lemma Unsubscribe_ok cfg id e :
  layer_ok cfg e -> exists e' r, Unsubscribe id e = Some (e', r) /\ layer_ok cfg e' /\ keeps e e'.
Proof.
  intros Hok. unfold Unsubscribe. assert (keeps e e) as Hrefl by (by apply keeps_alike).
  destruct (es_closed e); [by eexists _, _|]. destruct (es_subscribers e !! id) as [ref|] eqn:Hid; [|by eexists _, _].
  destruct (closeRef_ok cfg id ref e Hok Hid) as (e' & -> & Hk & _ & Hs & Hok'). eexists _, _. split; [reflexivity|]. rewrite Hs.
  split; [eapply alike_ok; [apply alike_observe|done]|]. eapply keeps_trans; [exact Hk|]. apply keeps_alike.
  by destruct (observe_fields (RecordSubscriber false) (set_subscribers (delete id (es_subscribers e)) e')) as (_ & _ & _ & -> & _).
Qed.

Lemma cleanInactive_ok cfg cutoff ids e :
  layer_ok cfg e -> exists e', cleanInactiveSubscribers cutoff ids e = Some e' /\ layer_ok cfg e' /\ keeps e e'.
Proof.
  revert e. induction ids as [|id ids IH]; intros e Hok; cbn [cleanInactiveSubscribers].
  { exists e. split_and!; [done|done|by apply keeps_alike]. }
  destruct (es_subscribers e !! id) as [ref|] eqn:Hid; cbn [mbind option_bind]; [|by apply IH].
  destruct (es_objects e !! ref) as [s|] eqn:Hs; cbn [fmap option_fmap option_map]; [|by apply IH].
  destruct (_ && _); [|by apply IH].
  destruct (closeRef_ok cfg id ref e Hok Hid) as (e1 & -> & Hk & _ & Hsub & Hok1). rewrite Hsub.
  destruct (IH (observe (RecordSubscriber false) (set_subscribers (delete id (es_subscribers e)) e1))) as (e' & He' & Hok' & Hk').
  { eapply alike_ok; [apply alike_observe|done]. }
  exists e'. split_and!; [done|done|]. eapply keeps_trans; [exact Hk|]. eapply keeps_trans; [|exact Hk'].
  apply keeps_alike. by destruct (observe_fields (RecordSubscriber false) (set_subscribers (delete id (es_subscribers e)) e1)) as (_ & _ & _ & -> & _).
Qed.

Lemma closeAll_ok cfg (subs : gmap string nat) ids e :
  NoDup ids -> (forall id, id ∈ ids -> exists ref, subs !! id = Some ref /\ registered e id ref) ->
  es_config e = cfg -> Forall (subscriber_ok (HardeningConfig cfg)) (es_objects e) ->
  exists e', closeAllRefs (omap (fun id => subs !! id) ids) e = Some e' /\ es_config e' = cfg /\
    Forall (subscriber_ok (HardeningConfig cfg)) (es_objects e') /\ keeps e e'.
Proof.
  intros Hnd. revert e. induction Hnd as [|id ids Hid _ IH]; intros e Hreg Hcfg Hobj.
  { exists e. split_and!; [done|done|done|by apply keeps_alike]. }
  destruct (Hreg id) as (ref & Hr & s & Hs & Hi & Hc); [set_solver|]. cbn [omap list_omap]. rewrite Hr. cbn [closeAllRefs].
  unfold closeRef at 1. rewrite Hs. unfold closeSubscriber. rewrite Hc.
  match goal with |- context [set_objects (<[ref := ?x]> _) e] => set (s' := x); set (e1 := set_objects (<[ref := s']> (es_objects e)) e) end.
  assert (keeps e e1) as Hk.
  { intros r t Ht. cbn. destruct (decide (r = ref)) as [->|Hne].
    - rewrite list_lookup_insert_eq by (by eapply lookup_lt_Some). assert (t = s) as -> by congruence. by eexists.
    - exists t. by rewrite list_lookup_insert_ne. }
  destruct (IH e1) as (e' & He & Hcfg' & Hobj' & Hk'); [|done| |].
  - intros id' Hid'. destruct (Hreg id') as (ref' & Hr' & s2 & Hs2 & Hi2 & Hc2); [set_solver|]. exists ref'. split; [done|].
    exists s2. split_and!; [|done|done]. cbn. rewrite list_lookup_insert_ne; [done|]. intros ->.
    assert (s2 = s) as -> by congruence. assert (id' = id) as -> by congruence. done.
  - apply Forall_insert; [done|]. by apply (Forall_lookup_1 _ _ _ _ Hobj) in Hs.
  - exists e'. split_and!; [exact He|done|done|]. by eapply keeps_trans.
Qed.

Lemma Close_ok cfg ids e :
  layer_ok cfg e -> 0 <= MaxStreamBufferSize cfg -> 0 <= MaxStreamSubscribers cfg -> is_order ids (es_subscribers e) = true ->
  exists e', Close ids e = Some e' /\ layer_ok cfg e' /\ keeps e e'.
Proof.
  intros Hok Hb Hm Hord. unfold Close. destruct (es_closed e).
  { exists e. split_and!; [done|done|by apply keeps_alike]. }
  unfold is_order in Hord. apply andb_true_iff in Hord as [Hnd Hdom]. bool_prop.
  destruct (closeAll_ok cfg (es_subscribers e) ids e) as (e' & -> & Hcfg & Hobj & Hk); [done| |apply Hok|apply Hok|].
  - intros id Hid. assert (id ∈ dom (es_subscribers e)) as [ref Hr]%elem_of_dom by (rewrite <- Hdom; by apply elem_of_list_to_set).
    exists ref. split; [done|]. by apply (lo_subscribers _ _ Hok).
  - eexists. split; [reflexivity|]. split; [split; cbn; try done; by rewrite map_size_empty|]. exact Hk.
Qed.

Lemma cleanOldEvents_ok cfg now retention e : layer_ok cfg e -> layer_ok cfg (cleanOldEvents now retention e).
Proof.
  intros Hok. unfold cleanOldEvents. destruct (es_closed e); [done|]. destruct Hok as [H1 H2 H3 H4 H5 H6].
  split; cbn [set_buffer es_config es_buffer es_objects es_subscribers]; try done.
  - apply Forall_forall. intros ev [_ Hev]%list_elem_of_filter. rewrite Forall_forall in H2. by apply H2.
  - etrans; [|exact H3]. pose proof (length_filter (fun ev => time_After (se_StreamTimestamp ev) (now - retention) = true) (es_buffer e)). lia.
Qed.

(** ** Goroutines *)

Lemma send_ok h s ev c :
  subscriber_ok h s -> deliverable h s ev -> send ev (ss_EventChannel s) = Sent c ->
  subscriber_ok h (set_channel c s) /\ ch_closed c = ch_closed (ss_EventChannel s).
Proof.
  intros [Hl Hd] Hev H. unfold send in H. destruct (ch_closed (ss_EventChannel s)) eqn:Ec; [discriminate H|].
  destruct (_ <? _)%nat eqn:E; [|discriminate H]. injection H as <-. apply Nat.ltb_lt in E. split; [|done]. split; cbn.
  - rewrite length_app. cbn. lia.
  - apply Forall_app. split; [exact Hd|]. by constructor.
Qed.

(** What a move of a goroutine does: it keeps the invariant, or it is a catch-up that sends on a
    closed channel. *)
Definition moved (cfg : EventStreamConfig) (e : EventStreamLayer) (g : goroutine) (r : option EventStreamLayer) (g' : goroutine) : Prop :=
  match r with
  | Some e' => layer_ok cfg e' /\ keeps e e' /\ keeps_open e e' /\ go_ok (HardeningConfig cfg) e' g'
  | None => g' = Finished /\ exists ref f m ev todo s, g = CatchingUp ref f m (ev :: todo) /\ es_objects e !! ref = Some s /\
              ch_closed (ss_EventChannel s) = true
  end.

Lemma deliverOne_moved cfg ch now latency ev ref todo e r g' :
  layer_ok cfg e -> go_ok (HardeningConfig cfg) e (Delivering ev (ref :: todo)) ->
  deliverOne ch now latency ev ref todo e = Some (r, g') -> moved cfg e (Delivering ev (ref :: todo)) r g'.
Proof.
  intros Hok [Hev Ht] H. apply Forall_cons in Ht as [(s & Hs & Hc) Ht]. unfold deliverOne in H. rewrite Hs in H.
  assert (forall e', keeps_open e e' -> go_ok (HardeningConfig cfg) e' (Delivering ev todo)) as Hgo.
  { intros e' Hk. split; [done|]. eapply Forall_impl; [exact Ht|]. intros x. by apply open_keeps. }
  assert (moved cfg e (Delivering ev (ref :: todo)) (Some e) (Delivering ev todo)) as Hskip.
  { destruct (keeps_alike e e eq_refl). split_and!; auto. }
  destruct (wanted ev s) eqn:Ew; cbn [negb] in H; [|by injection H as <- <-].
  assert (subscriber_ok (HardeningConfig cfg) s) as Hsok by (eapply Forall_lookup_1; [apply Hok|exact Hs]).
  destruct ch.
  - destruct (send ev (ss_EventChannel s)) as [c| |] eqn:Es; [|discriminate H|].
    2: { unfold send in Es. rewrite Hc in Es. by destruct (_ <? _)%nat. }
    injection H as <- <-. unfold wanted in Ew. bool_prop.
    assert (deliverable (HardeningConfig cfg) s ev) as Hd by (by split_and!).
    destruct (send_ok _ _ _ _ Hsok Hd Es) as [Hsok' Hcc].
    pose proof (alike_observe (RecordEventStreamed latency) e) as Ha. pose proof Ha as (_ & _ & _ & Hobj).
    destruct (put_object_ok cfg (observe (RecordEventStreamed latency) e) ref s (set_sent now (set_channel c s))) as (Hok' & Hk & Ho); try done.
    { by eapply alike_ok. } { by rewrite Hobj. }
    assert (keeps e (put_object ref (set_sent now (set_channel c s)) (observe (RecordEventStreamed latency) e))) as Hk1.
    { intros x t Hx. apply Hk. by rewrite Hobj. }
    assert (keeps_open e (put_object ref (set_sent now (set_channel c s)) (observe (RecordEventStreamed latency) e))) as Ho1.
    { intros x t Hx. apply Ho. by rewrite Hobj. }
    split_and!; auto; by apply Hgo.
  - destruct (ss_ctxDone s); [|discriminate H]. injection H as <- <-.
    destruct (put_object_ok cfg e ref s (deactivate s)) as (Hok' & Hk & Ho); try done.
    pose proof (alike_observe RecordSubscriberError (put_object ref (deactivate s) e)) as Ha. pose proof Ha as (_ & _ & _ & Hobj).
    assert (keeps_open e (observe RecordSubscriberError (put_object ref (deactivate s) e))) as Ho1.
    { intros x t Hx. rewrite Hobj. by apply Ho. }
    split_and!; [by eapply alike_ok| |done|by apply Hgo]. intros x t Hx. rewrite Hobj. by apply Hk.
  - destruct (es_closed e); [|discriminate H]. injection H as <- <-. destruct (keeps_alike e e eq_refl). by split_and!.
Qed.

Lemma catchUpOne_moved cfg ch ref f m ev todo e r g' :
  layer_ok cfg e -> go_ok (HardeningConfig cfg) e (CatchingUp ref f m (ev :: todo)) ->
  catchUpOne ch ref f m ev todo e = Some (r, g') -> moved cfg e (CatchingUp ref f m (ev :: todo)) r g'.
Proof.
  intros Hok [(s & Hs & Hf & Hm) Ht] H. apply Forall_cons in Ht as [Hev Ht]. unfold catchUpOne in H. rewrite Hs in H.
  destruct (keeps_alike e e eq_refl) as [Hk0 Ho0].
  assert (forall e', keeps e e' -> go_ok (HardeningConfig cfg) e' (CatchingUp ref f m todo)) as Hgo.
  { intros e' Hk. split; [|done]. eapply serves_keeps; [exact Hk|]. by exists s. }
  destruct (_ && _) eqn:Ew; cbn [negb] in H; [|injection H as <- <-; split_and!; auto; by apply Hgo].
  assert (subscriber_ok (HardeningConfig cfg) s) as Hsok by (eapply Forall_lookup_1; [apply Hok|exact Hs]).
  destruct ch; [|destruct (_ || _); [|discriminate H]; injection H as <- <-; by split_and!|discriminate H].
  destruct (send ev (ss_EventChannel s)) as [c| |] eqn:Es; [|discriminate H|].
  - injection H as <- <-. bool_prop. assert (deliverable (HardeningConfig cfg) s ev) as Hd by (split_and!; congruence).
    destruct (send_ok _ _ _ _ Hsok Hd Es) as [Hsok' Hcc].
    destruct (put_object_ok cfg e ref s (set_channel c s)) as (Hok' & Hk & Ho); try done. split_and!; auto; by apply Hgo.
  - injection H as <- <-. split; [done|]. exists ref, f, m, ev, todo, s. split_and!; [done|done|].
    unfold send in Es. destruct (ch_closed _); [done|]. by destruct (_ <? _)%nat.
Qed.

Lemma moveGo_moved cfg ch now latency ids g e r g' :
  layer_ok cfg e -> go_ok (HardeningConfig cfg) e g -> moveGo ch now latency ids g e = Some (r, g') -> moved cfg e g r g'.
Proof.
  intros Hok Hg H. destruct (keeps_alike e e eq_refl) as [Hk0 Ho0].
  destruct g as [ev|ev [|ref todo]|ref f m|ref f m [|ev todo]|]; cbn [moveGo] in H.
  - destruct (is_order _ _); [|discriminate H]. injection H as <- <-. destruct (es_closed e); [by split_and!|].
    split_and!; [done..|]. split; [exact Hg|]. apply Forall_forall. intros ref (id & _ & Hr)%list_elem_of_omap.
    destruct (lo_subscribers _ _ Hok _ _ Hr) as (s & Hs & _ & Hc). by exists s.
  - injection H as <- <-. by split_and!.
  - by eapply deliverOne_moved.
  - injection H as <- <-. split_and!; [done..|]. split; [exact Hg|]. unfold getRecentEvents. destruct (_ || _); [constructor|].
    apply Forall_drop, Hok.
  - injection H as <- <-. by split_and!.
  - by eapply catchUpOne_moved.
  - discriminate H.
Qed.

(** ** Steps *)

(** The step is a catch-up that sends on the closed channel of its subscriber. *)
Definition catch_up_panics (l : label) (sy : system) : Prop :=
  exists i ch now latency ids ref f m ev todo s, l = LGo i ch now latency ids /\
    sy_gos sy !! i = Some (CatchingUp ref f m (ev :: todo)) /\ es_objects (sy_layer sy) !! ref = Some s /\
    ch_closed (ss_EventChannel s) = true.

Lemma unlocked_go sy g : locked sy = false -> g ∈ sy_gos sy -> holdsRLock g = false.
Proof.
  unfold locked. intros H Hg. destruct (holdsRLock g) eqn:E; [|done]. rewrite <- H. symmetry. apply existsb_exists.
  exists g. split; [by apply list_elem_of_In|done].
Qed.

Lemma call_ok cfg sy e' gos :
  system_ok cfg sy -> locked sy = false -> layer_ok cfg e' -> keeps (sy_layer sy) e' ->
  Forall (go_ok (HardeningConfig cfg) e') gos -> system_ok cfg (mkSystem e' (sy_gos sy ++ gos) false).
Proof.
  intros [_ Hgos] Hl Hok Hk Hnew. split; [done|]. cbn. apply Forall_app. split; [|done].
  rewrite Forall_forall in Hgos |- *. intros g Hg. eapply go_ok_keeps; [exact Hk| |by apply Hgos].
  intros Hr. by rewrite (unlocked_go sy g) in Hr.
Qed.

Section config.
Context (cfg : EventStreamConfig) (Hbuf : 0 <= MaxStreamBufferSize cfg) (Hsub : 0 <= MaxStreamSubscribers cfg).

Lemma callStep_ok l sy sy' :
  system_ok cfg sy -> sy_crashed sy = false -> locked sy = false -> callStep l sy = Some sy' ->
  system_ok cfg sy' /\ sy_crashed sy' = false.
Proof using Hbuf Hsub.
  intros Hsy Hnc Hl H. pose proof Hsy as [Hok _]. pose proof (call_ok cfg sy) as Hcall.
  assert (forall e', layer_ok cfg e' -> keeps (sy_layer sy) e' -> system_ok cfg (mkSystem e' (sy_gos sy) false)) as Hcall0.
  { intros e' H1 H2. specialize (Hcall e' [] Hsy Hl H1 H2). rewrite app_nil_r in Hcall. by apply Hcall. }
  destruct l as [env ev|env d f w m|id|now rt|cutoff ids| |ids|i ch now lat ids|ref|ref]; cbn [callStep] in H; try discriminate H.
  - destruct (is_order _ _) eqn:Eo; [|discriminate H]. destruct (AddEvent env ev (sy_layer sy)) as [e' r] eqn:E.
    destruct (AddEvent_ok _ _ _ _ _ _ Hok Hbuf Eo E) as (Hok' & Hobj & Hev). destruct (keeps_alike _ _ Hobj) as [Hk _].
    injection H as <-. split; [|done]. destruct r as [ev'|]; [|by apply Hcall0]. apply Hcall; try done. constructor; [by apply Hev|constructor].
  - destruct (Subscribe env d f w m (sy_layer sy)) as [e' r] eqn:E. destruct (Subscribe_ok _ _ _ _ _ _ _ _ _ Hok E) as (Hok' & Hk & Hs).
    injection H as <-. split; [|done]. destruct r as [ref|]; [|by apply Hcall0]. apply Hcall; try done. constructor; [by apply Hs|constructor].
  - destruct (Unsubscribe_ok cfg id (sy_layer sy) Hok) as (e' & r & Hu & Hok' & Hk). rewrite Hu in H. injection H as <-. split; [by apply Hcall0|done].
  - injection H as <-. split; [|done]. apply Hcall0; [by apply cleanOldEvents_ok|]. apply keeps_alike. unfold cleanOldEvents. by destruct (es_closed _).
  - destruct (is_order _ _); [|discriminate H]. injection H as <-. destruct (es_closed _); [done|].
    destruct (cleanInactive_ok cfg cutoff ids (sy_layer sy) Hok) as (e' & -> & Hok' & Hk). split; [by apply Hcall0|done].
  - destruct (is_order _ _) eqn:Eo; [|discriminate H]. destruct (Close_ok cfg ids (sy_layer sy)) as (e' & He & Hok' & Hk); try done.
    rewrite He in H. injection H as <-. split; [by apply Hcall0|done].
Qed.

(** A step of the environment on one subscriber. *)
Lemma on_object_ok ref f sy sy' :
  system_ok cfg sy -> on_object ref f sy = Some sy' ->
  (forall s s', subscriber_ok (HardeningConfig cfg) s -> f s = Some s' -> subscriber_ok (HardeningConfig cfg) s' /\
    ss_SubscriberID s' = ss_SubscriberID s /\ ss_Filter s' = ss_Filter s /\ ss_MinPrivacyLevel s' = ss_MinPrivacyLevel s /\
    ch_closed (ss_EventChannel s') = ch_closed (ss_EventChannel s)) ->
  system_ok cfg sy' /\ sy_crashed sy' = false.
Proof using Type.
  intros [Hok Hgos] H Hf. unfold on_object in H. destruct (es_objects (sy_layer sy) !! ref) as [s|] eqn:Hs; cbn in H; [|discriminate H].
  destruct (f s) as [s'|] eqn:Ef; [|discriminate H]. injection H as <-.
  assert (subscriber_ok (HardeningConfig cfg) s) as Hsok by (eapply Forall_lookup_1; [apply Hok|exact Hs]).
  destruct (Hf s s' Hsok Ef) as (Hok' & Hi & Hfl & Hm & Hc). destruct (put_object_ok cfg _ ref s s' Hok Hs Hok' Hi Hfl Hm Hc) as (Hl & Hk & Ho).
  split; [|done]. split; [done|]. eapply Forall_impl; [exact Hgos|]. intros g. by apply go_ok_keeps.
Qed.

Lemma step_ok l sy sy' :
  system_ok cfg sy -> step l sy = Some sy' -> system_ok cfg sy' /\ (sy_crashed sy' = true -> catch_up_panics l sy).
Proof using Hbuf Hsub.
  intros Hsy H. pose proof Hsy as [Hok Hgos]. unfold step in H. destruct (sy_crashed sy) eqn:Hnc; [discriminate H|].
  assert ((if locked sy then None else callStep l sy) = Some sy' -> system_ok cfg sy' /\ (sy_crashed sy' = true -> catch_up_panics l sy)) as Hcall.
  { destruct (locked sy) eqn:Hl; [done|]. intros Hc. destruct (callStep_ok l sy sy' Hsy Hnc Hl Hc) as [? ->]. done. }
  destruct l as [env ev|env d f w m|id|now rt|cutoff ids| |ids|i ch now lat ids|ref|ref]; try (by apply Hcall).
  - injection H as <-. split; [|done]. split; [by apply (alike_ok cfg (sy_layer sy))|]. eapply Forall_impl; [exact Hgos|].
    intros g. destruct (keeps_alike (sy_layer sy) (ResetCircuitBreaker (sy_layer sy)) eq_refl). by apply go_ok_keeps.
  - destruct (sy_gos sy !! i) as [g|] eqn:Hg; cbn in H; [|discriminate H].
    destruct (moveGo ch now lat ids g (sy_layer sy)) as [[r g']|] eqn:Em; [|discriminate H]. injection H as <-.
    assert (go_ok (HardeningConfig cfg) (sy_layer sy) g) as Hgo by (by eapply Forall_lookup_1).
    apply (moveGo_moved cfg) in Em; [|done|done]. destruct r as [e'|]; cbn [after].
    + destruct Em as (Hok' & Hk & Ho & Hgo'). split; [|done]. split; [done|]. apply Forall_insert; [|done].
      eapply Forall_impl; [exact Hgos|]. intros x. by apply go_ok_keeps.
    + destruct Em as (-> & ref & f & m & ev & todo & s & -> & Hs & Hc). split; [|intros _; by exists i, ch, now, lat, ids, ref, f, m, ev, todo, s].
      split; [done|]. by apply Forall_insert.
  - apply on_object_ok in H as [Hs ->]; [done|done|]. intros s s' [Hlen Hd] Hf. destruct (ch_buf (ss_EventChannel s)) as [|x rest] eqn:Eb; [discriminate Hf|].
    injection Hf as <-. split_and!; try done. split; cbn in *; [lia|]. by apply Forall_cons in Hd as [_ Hd].
  - apply on_object_ok in H as [Hs ->]; [done|done|]. intros s s' Hs' [= <-]. done.
Qed.

Lemma steps_ok ls sy sy' : system_ok cfg sy -> steps ls sy = Some sy' -> system_ok cfg sy'.
Proof using Hbuf Hsub.
  revert sy. induction ls as [|l ls IH]; intros sy Hsy H; cbn [steps] in H; [by injection H as <-|].
  destruct (step l sy) as [sy1|] eqn:E; [|discriminate H]. eapply IH; [|exact H]. by eapply step_ok.
Qed.

Lemma start_ok now : system_ok cfg (start now cfg).
Proof using Hbuf Hsub. split; [|constructor]. by split. Qed.
End config.

(** C14: after any moves of the callers, the goroutines and the consumers, the stream keeps its
    bounds, and delivers only what it may: the buffer and the set of subscribers are within their
    limits; a channel holds no more than its capacity, and only events that were accepted (valid
    addresses, types and agents, bounded metadata without sensitive keys or control characters),
    that match the filter of the subscriber and are not below its level in the order of strings.
    No call and no delivery panics; the one panic is a catch-up that sends on a channel that was
    closed under it. *)
Theorem stream_delivers_accepted (now : Z) (cfg : EventStreamConfig) (ls : list label) (sy : system) :
  0 <= MaxStreamBufferSize cfg -> 0 <= MaxStreamSubscribers cfg -> steps ls (start now cfg) = Some sy ->
  let e := sy_layer sy in
  Z.of_nat (length (es_buffer e)) <= MaxStreamBufferSize cfg /\
  Z.of_nat (size (es_subscribers e)) <= MaxStreamSubscribers cfg /\
  (forall ref s, es_objects e !! ref = Some s ->
    (length (ch_buf (ss_EventChannel s)) <= ch_cap (ss_EventChannel s))%nat /\
    Forall (deliverable (HardeningConfig cfg) s) (ch_buf (ss_EventChannel s))) /\
  (forall l sy', step l sy = Some sy' -> sy_crashed sy' = true -> catch_up_panics l sy).
Proof.
  intros Hb Hs H e. pose proof (steps_ok cfg Hb Hs ls _ _ (start_ok cfg Hb Hs now) H) as Hok. pose proof Hok as [Hl _].
  split_and!; [apply Hl|apply Hl| |].
  - intros ref s Href. eapply (Forall_lookup_1 (subscriber_ok _)); [apply Hl|exact Href].
  - intros l sy' Hstep. by eapply step_ok.
Qed.

Definition sampleEvent (agent level : string) : StreamEvent :=
  mkStreamEvent "" "update" "https://pod.example/notes/1" "" 0 agent "" "" ∅ 0 0 level.
Definition anything : StreamFilter := mkStreamFilter [] [] [] [] [] "" "".
Definition sampleStreamEnv (seconds : Z) : stream_env := mkStreamEnv (time_Unix seconds) [].
Definition bob : string := "https://bob.example/#me".
Definition alice : string := "https://alice.example/#me".

(** Alice changes a note, Bob subscribes, and the goroutine that catches Bob up has begun. *)
Definition sampleRun : list label :=
  [LAdd (sampleStreamEnv 10) (sampleEvent alice "sensitive"); LSubscribe (sampleStreamEnv 11) (Some false) anything bob "private";
   LGo 1 ChooseSend 0 0 []].

Lemma stream_delivers_accepted_witness :
  exists sy, steps (sampleRun ++ [LGo 1 ChooseSend 0 0 []]) (start 0 DefaultEventStreamConfig) = Some sy /\
    (* the change is sent to Bob, whom a live delivery would pass over *)
    (exists s ev, es_objects (sy_layer sy) !! 0%nat = Some s /\ ch_buf (ss_EventChannel s) = [ev] /\ wanted ev s = false) /\
    forall l sy', step l sy = Some sy' -> sy_crashed sy' = true -> catch_up_panics l sy.
Proof.
  destruct (steps (sampleRun ++ [LGo 1 ChooseSend 0 0 []]) (start 0 DefaultEventStreamConfig)) as [sy|] eqn:E;
    [|vm_compute in E; discriminate E].
  exists sy. split; [reflexivity|]. split.
  - assert (match steps (sampleRun ++ [LGo 1 ChooseSend 0 0 []]) (start 0 DefaultEventStreamConfig) with
      | Some sy => match es_objects (sy_layer sy) !! 0%nat with
                   | Some s => match ch_buf (ss_EventChannel s) with [ev] => negb (wanted ev s) | _ => false end
                   | None => false end
      | None => false end = true) as H by (vm_compute; reflexivity).
    rewrite E in H. destruct (es_objects (sy_layer sy) !! 0%nat) as [s|]; [|discriminate H]. exists s.
    destruct (ch_buf (ss_EventChannel s)) as [|ev [|]]; [discriminate H| |discriminate H]. exists ev. apply negb_true_iff in H. split; [reflexivity|]. split; [reflexivity|exact H].
  - apply (stream_delivers_accepted 0 DefaultEventStreamConfig (sampleRun ++ [LGo 1 ChooseSend 0 0 []]) sy); [discriminate|discriminate|exact E].
Defined.

(** ** A subscriber that leaves while it is caught up *)

(** unsubscribing can crash the process.  While the goroutine that sends the recent events to
    a new subscriber still has an event for it, [Unsubscribe] succeeds and closes the channel; the
    goroutine may then choose the send, and a send on a closed channel panics. *)
Theorem unsubscribe_crashes_catch_up (now : Z) (cfg : EventStreamConfig) (ls : list label) (sy : system) (i ref : nat)
    (f : StreamFilter) (m : string) (ev : StreamEvent) (todo : list StreamEvent) (s : StreamSubscriber) :
  0 <= MaxStreamBufferSize cfg -> 0 <= MaxStreamSubscribers cfg -> steps ls (start now cfg) = Some sy ->
  sy_crashed sy = false -> locked sy = false -> es_closed (sy_layer sy) = false ->
  sy_gos sy !! i = Some (CatchingUp ref f m (ev :: todo)) -> es_objects (sy_layer sy) !! ref = Some s ->
  es_subscribers (sy_layer sy) !! ss_SubscriberID s = Some ref ->
  eventMatchesStreamFilter ev f = true -> String.ltb (se_PrivacyLevel ev) m = false ->
  exists e' sy1 sy2, Unsubscribe (ss_SubscriberID s) (sy_layer sy) = Some (e', Ok tt) /\
    step (LUnsubscribe (ss_SubscriberID s)) sy = Some sy1 /\ sy_crashed sy1 = false /\
    step (LGo i ChooseSend 0 0 []) sy1 = Some sy2 /\ sy_crashed sy2 = true.
Proof.
  intros Hb Hs H Hnc Hl Hcl Hg Ho Hid Hm Hp.
  pose proof (steps_ok cfg Hb Hs ls _ _ (start_ok cfg Hb Hs now) H) as [Hok _].
  destruct (lo_subscribers _ _ Hok _ _ Hid) as (s0 & Hs0 & _ & Hc). assert (s0 = s) as -> by congruence.
  unfold Unsubscribe. rewrite Hcl, Hid. unfold closeRef. rewrite Ho. unfold closeSubscriber. rewrite Hc.
  match goal with |- context [observe ?g ?x] => set (e1 := x); set (g1 := g) end.
  exists (observe g1 e1), (mkSystem (observe g1 e1) (sy_gos sy) false). eexists. split_and!; [reflexivity| |done| |].
  - unfold step. rewrite Hnc, Hl. cbn [callStep]. unfold Unsubscribe. rewrite Hcl, Hid. unfold closeRef. rewrite Ho. unfold closeSubscriber. by rewrite Hc.
  - unfold step. cbn [sy_crashed sy_gos sy_layer]. rewrite Hg. cbn [mbind option_bind moveGo]. unfold catchUpOne.
    destruct (observe_fields g1 e1) as (_ & _ & _ & -> & _). unfold e1. cbn [set_subscribers set_objects es_objects].
    rewrite list_lookup_insert_eq by (by eapply lookup_lt_Some). rewrite Hm, Hp. cbn. reflexivity.
  - done.
Qed.

Lemma unsubscribe_crashes_catch_up_witness :
  exists sy id, steps sampleRun (start 0 DefaultEventStreamConfig) = Some sy /\
    exists e' sy1 sy2, Unsubscribe id (sy_layer sy) = Some (e', Ok tt) /\ step (LUnsubscribe id) sy = Some sy1 /\ sy_crashed sy1 = false /\
    step (LGo 1 ChooseSend 0 0 []) sy1 = Some sy2 /\ sy_crashed sy2 = true.
Proof.
  destruct (steps sampleRun (start 0 DefaultEventStreamConfig)) as [sy|] eqn:E; [|vm_compute in E; discriminate E].
  assert (match steps sampleRun (start 0 DefaultEventStreamConfig) with
    | Some sy => match sy_gos sy !! 1%nat, es_objects (sy_layer sy) !! 0%nat with
      | Some (CatchingUp 0 f m (ev :: todo)), Some s =>
          negb (sy_crashed sy) && negb (locked sy) && negb (es_closed (sy_layer sy)) &&
          bool_decide (es_subscribers (sy_layer sy) !! ss_SubscriberID s = Some 0%nat) &&
          eventMatchesStreamFilter ev f && negb (String.ltb (se_PrivacyLevel ev) m)
      | _, _ => false end
    | None => false end = true) as H by (vm_compute; reflexivity).
  rewrite E in H. destruct (sy_gos sy !! 1%nat) as [[| | |[|ref] f m [|ev todo]|]|] eqn:Eg; try discriminate H.
  destruct (es_objects (sy_layer sy) !! 0%nat) as [s|] eqn:Es; [|discriminate H]. bool_prop.
  exists sy, (ss_SubscriberID s). split; [reflexivity|].
  apply (unsubscribe_crashes_catch_up 0 DefaultEventStreamConfig sampleRun sy 1 0 f m ev todo s); done.
Defined.

(** ** A subscriber that does not read *)

Definition is_call (l : label) : bool :=
  match l with
  | LAdd _ _ | LSubscribe _ _ _ _ _ | LUnsubscribe _ | LCleanEvents _ _ | LCleanSubscribers _ _ | LClose _ => true
  | LReset | LGo _ _ _ _ _ | LReceive _ | LCancel _ => false
  end.

(** The consumer of [ref] reads, or gives up. *)
Definition frees (ref : nat) (l : label) : Prop := l = LReceive ref \/ l = LCancel ref.

(** A delivery waits for room in a full channel. *)
Record stuck (i ref : nat) (ev : StreamEvent) (todo : list nat) (s : StreamSubscriber) (sy : system) : Prop := {
  sk_go : sy_gos sy !! i = Some (Delivering ev (ref :: todo));
  sk_object : es_objects (sy_layer sy) !! ref = Some s;
  sk_wanted : wanted ev s = true;
  sk_full : (ch_cap (ss_EventChannel s) <= length (ch_buf (ss_EventChannel s)))%nat;
  sk_open : ch_closed (ss_EventChannel s) = false;
  sk_context : ss_ctxDone s = false /\ ss_cancelled s = false;
  sk_layer : es_closed (sy_layer sy) = false
}.

Lemma stuck_locked i ref ev todo s sy : stuck i ref ev todo s sy -> locked sy = true.
Proof.
  intros Hk. apply existsb_exists. exists (Delivering ev (ref :: todo)). split; [|done].
  apply list_elem_of_In, list_elem_of_lookup. exists i. apply Hk.
Qed.

Lemma full_blocks ev c : ch_closed c = false -> (ch_cap c <= length (ch_buf c))%nat -> send ev c = Blocked.
Proof. intros Hc Hf. unfold send. rewrite Hc. destruct (_ <? _)%nat eqn:E; [apply Nat.ltb_lt in E; lia|done]. Qed.

(** A move of a goroutine leaves a subscriber with a full channel as it is. *)
Lemma moveGo_full ch now lat ids g e r g' ref s :
  es_objects e !! ref = Some s -> (forall ev, send ev (ss_EventChannel s) = Blocked) -> ss_ctxDone s = false ->
  moveGo ch now lat ids g e = Some (r, g') ->
  match r with Some e' => es_objects e' !! ref = Some s /\ es_buffer e' = es_buffer e /\ es_subscribers e' = es_subscribers e /\ es_closed e' = es_closed e | None => True end.
Proof.
  intros Hs Hfull Hctx H.
  assert (forall x y f, y <> ref -> match Some (put_object y x (observe f e)) with
    Some e' => es_objects e' !! ref = Some s /\ es_buffer e' = es_buffer e /\ es_subscribers e' = es_subscribers e /\ es_closed e' = es_closed e | None => True end) as Hput.
  { intros x y f Hne. cbn. destruct (observe_fields f e) as (_ & -> & -> & -> & -> & _). by rewrite list_lookup_insert_ne. }
  destruct g as [ev|ev [|r0 todo]|r0 f m|r0 f m [|ev todo]|]; cbn [moveGo] in H; try (injection H as <- _; done); try discriminate H.
  - destruct (is_order _ _); [|discriminate H]. by injection H as <- _.
  - unfold deliverOne in H. destruct (es_objects e !! r0) as [s0|] eqn:E0; [|discriminate H].
    destruct (negb (wanted ev s0)); [by injection H as <- _|]. destruct ch.
    + destruct (decide (r0 = ref)) as [->|Hne]; [assert (s0 = s) as -> by congruence; rewrite Hfull in H; discriminate H|].
      destruct (send ev _); [injection H as <- _; by apply Hput|discriminate H|by injection H as <- _].
    + destruct (decide (r0 = ref)) as [->|Hne]; [assert (s0 = s) as -> by congruence; rewrite Hctx in H; discriminate H|].
      destruct (ss_ctxDone s0); [|discriminate H]. injection H as <- _.
      destruct (observe_fields RecordSubscriberError (put_object r0 (deactivate s0) e)) as (_ & -> & -> & -> & -> & _). cbn. by rewrite list_lookup_insert_ne.
    + destruct (es_closed e) eqn:Ec; [|discriminate H]. injection H as <- _. done.
  - unfold catchUpOne in H. destruct (es_objects e !! r0) as [s0|] eqn:E0; [|discriminate H].
    destruct (negb _); [by injection H as <- _|]. destruct ch; [|destruct (_ || _); [by injection H as <- _|discriminate H]|discriminate H].
    destruct (decide (r0 = ref)) as [->|Hne]; [assert (s0 = s) as -> by congruence; rewrite Hfull in H; discriminate H|].
    destruct (send ev _); [injection H as <- _; cbn; by rewrite list_lookup_insert_ne|discriminate H|by injection H as <- _].
Qed.

Definition same_layer (e e' : EventStreamLayer) : Prop :=
  es_buffer e' = es_buffer e /\ es_subscribers e' = es_subscribers e /\ es_closed e' = es_closed e.

Lemma stuck_step i ref ev todo s l sy sy' :
  stuck i ref ev todo s sy -> ~ frees ref l -> step l sy = Some sy' ->
  is_call l = false /\ stuck i ref ev todo s sy' /\ same_layer (sy_layer sy) (sy_layer sy').
Proof.
  intros Hk Hl H. pose proof (stuck_locked _ _ _ _ _ _ Hk) as Hlock. destruct Hk as [Hg Ho Hw Hf Hc [Hx Hy] Hcl].
  assert (forall x, send x (ss_EventChannel s) = Blocked) as Hfull by (intros; by apply full_blocks).
  assert (forall r f sy1, r <> ref -> on_object r f sy = Some sy1 -> stuck i ref ev todo s sy1 /\ same_layer (sy_layer sy) (sy_layer sy1)) as Hobj.
  { intros r f sy1 Hne H1. unfold on_object in H1. destruct (es_objects (sy_layer sy) !! r ≫= f) as [t|]; [|discriminate H1]. injection H1 as <-.
    split; [|done]. split; try done. cbn. by rewrite list_lookup_insert_ne. }
  unfold step in H. destruct (sy_crashed sy); [discriminate H|].
  destruct l as [env x|env d f w m|id|now rt|cutoff ids| |ids|j ch now lat ids|r|r]; try (rewrite Hlock in H; discriminate H); (split; [done|]).
  - injection H as <-. by split.
  - destruct (sy_gos sy !! j) as [g|] eqn:Ej; cbn in H; [|discriminate H].
    destruct (moveGo ch now lat ids g (sy_layer sy)) as [[r g']|] eqn:Em; [|discriminate H]. injection H as <-.
    assert (j <> i) as Hne.
    { intros ->. assert (g = Delivering ev (ref :: todo)) as -> by congruence. cbn [moveGo] in Em. unfold deliverOne in Em.
      rewrite Ho, Hw in Em. cbn [negb] in Em. rewrite Hfull, Hx, Hcl in Em. by destruct ch. }
    pose proof (moveGo_full ch now lat ids g (sy_layer sy) r g' ref s Ho Hfull Hx Em) as Hm.
    destruct r as [e'|]; cbn [after].
    + destruct Hm as (Ho' & Hb & Hs & Hc'). split; [|by split_and!]. split; cbn; try done; [by rewrite list_lookup_insert_ne|congruence].
    + split; [|done]. split; cbn; try done. by rewrite list_lookup_insert_ne.
  - apply (Hobj r) in H; [done|]. intros ->. apply Hl. by left.
  - apply (Hobj r) in H; [done|]. intros ->. apply Hl. by right.
Qed.

(** C37: a subscriber that does not read stops the whole stream.  Once a delivery waits for room in
    a full channel, then whatever else happens, as long as its consumer neither reads nor cancels
    its context: the delivery still waits, no event is added, nobody subscribes or leaves, and the
    layer is not closed, because the delivery holds the read lock. *)
Theorem slow_subscriber_freezes_stream (i ref : nat) (ev : StreamEvent) (todo : list nat) (s : StreamSubscriber)
    (ls : list label) (sy sy' : system) :
  stuck i ref ev todo s sy -> Forall (fun l => ~ frees ref l) ls -> steps ls sy = Some sy' ->
  Forall (fun l => is_call l = false) ls /\ stuck i ref ev todo s sy' /\ same_layer (sy_layer sy) (sy_layer sy').
Proof.
  intros Hk Hls. revert sy Hk. induction Hls as [|l ls Hl _ IH]; intros sy Hk H; cbn [steps] in H.
  { injection H as <-. by split_and!. }
  destruct (step l sy) as [sy1|] eqn:E; [|discriminate H]. destruct (stuck_step _ _ _ _ _ _ _ _ Hk Hl E) as (Hc & Hk1 & Hs1).
  destruct (IH sy1 Hk1 H) as (Hcs & Hk' & Hs'). split_and!; [by constructor|done|].
  destruct Hs1 as (? & ? & ?), Hs' as (? & ? & ?). split_and!; congruence.
Qed.

(** A channel of capacity one, and two events for it; the second delivery waits. *)
Definition tinyStream : EventStreamConfig :=
  mkStreamConfig 10 0 10 true (mkHardening 4096 50 256 1024 1 0 (f64_of_Z 1000) 2000 5 (30 * second)).
Definition bobs : list string := [generateStreamSubscriberID (time_Unix 1)].
Definition stuckRun : list label :=
  [LSubscribe (sampleStreamEnv 1) (Some false) anything bob "metadata"; LAdd (sampleStreamEnv 2) (sampleEvent bob "");
   LAdd (sampleStreamEnv 3) (sampleEvent bob ""); LGo 1 ChooseSend 0 0 bobs; LGo 2 ChooseSend 0 0 bobs; LGo 1 ChooseSend (time_Unix 4) 0 []].

Lemma slow_subscriber_freezes_stream_witness :
  exists sy, steps stuckRun (start 0 tinyStream) = Some sy /\
    forall ls sy', Forall (fun l => ~ frees 0 l) ls -> steps ls sy = Some sy' -> Forall (fun l => is_call l = false) ls.
Proof.
  destruct (steps stuckRun (start 0 tinyStream)) as [sy|] eqn:E; [|vm_compute in E; discriminate E].
  assert (match steps stuckRun (start 0 tinyStream) with
    | Some sy => match sy_gos sy !! 2%nat, es_objects (sy_layer sy) !! 0%nat with
      | Some (Delivering ev (0%nat :: todo)), Some s =>
          wanted ev s && (ch_cap (ss_EventChannel s) <=? length (ch_buf (ss_EventChannel s)))%nat && negb (ch_closed (ss_EventChannel s)) &&
          negb (ss_ctxDone s) && negb (ss_cancelled s) && negb (es_closed (sy_layer sy))
      | _, _ => false end
    | None => false end = true) as H by (vm_compute; reflexivity).
  rewrite E in H. destruct (sy_gos sy !! 2%nat) as [[|ev [|[|ref] todo]| | |]|] eqn:Eg; try discriminate H.
  destruct (es_objects (sy_layer sy) !! 0%nat) as [s|] eqn:Es; [|discriminate H]. bool_prop.
  match goal with H : (_ <=? _)%nat = true |- _ => apply Nat.leb_le in H end.
  exists sy. split; [reflexivity|]. intros ls sy' Hls Hrun.
  apply (slow_subscriber_freezes_stream 2 0 ev todo s ls sy sy'); [|exact Hls|exact Hrun]. split; try assumption. split; assumption.
Defined.
