(* ===== verification/SubscriptionRegistry.v ===== *)
(** * The subscription registry of the runtime

    [internal/runtime/subscription_registry.go]: subscriptions to resource changes, found by
    identifier and through two indexes, by WebID and by channel; creation with authentication and
    authorization; the life of a subscription; statistics of its deliveries; and the check whether
    it may receive an event.

    Every method runs under the registry's lock, so a history is a list of calls.  The two
    providers are interfaces: records of functions, whose answers depend on the time of the call.
    A call reads the clock, the random bytes and the cursor of the event log from its environment,
    and the orders of maps are arguments.  A method that dereferences a missing subscription
    panics; the deferred unlock leaves the registry usable. *)

From stdpp Require Import sorting.
From S2P Require Import Prelude GoStrings GoHash GoURL AuthzTypes RDFIndex EventStream.
Import Runtime (outcome, Returns, Panics).

Local Open Scope Z_scope.

(** ** Configuration *)

Record SubscriptionRegistryConfig := mkRegistryConfig {
  MaxSubscriptions : Z;
  MaxSubscriptionsPerWebID : Z;
  MaxSubscriptionAge : Z;
  SubscriptionTimeout : Z;
  EnableBackpressure : bool;
  MaxBackpressureBufferSize : Z;
  EnableMetrics : bool
}.

Definition DefaultSubscriptionRegistryConfig : SubscriptionRegistryConfig :=
  mkRegistryConfig 10000 100 (24 * 60 * 60 * second) (30 * second) true 1000 true.

(** ** Statistics of deliveries *)

Record DeliveryStatistics := mkDeliveryStatistics {
  EventsDelivered : Z;
  EventsFailed : Z;
  LastDeliveryTime : Z;
  FirstDeliveryTime : Z;
  TotalDeliveryLatency : Z;
  MinDeliveryLatency : Z;
  MaxDeliveryLatency : Z;
  RetryCount : Z;
  LastRetryTime : Z
}.

Definition noDeliveries : DeliveryStatistics := mkDeliveryStatistics 0 0 0 0 0 0 0 0 0.

Definition Stats_RecordDelivery (now latency : Z) (d : DeliveryStatistics) : DeliveryStatistics :=
  mkDeliveryStatistics (wrap64 (EventsDelivered d + 1)) (EventsFailed d) now
    (if time_IsZero (FirstDeliveryTime d) then now else FirstDeliveryTime d)
    (wrap64 (TotalDeliveryLatency d + latency))
    (if (MinDeliveryLatency d =? 0) || (latency <? MinDeliveryLatency d) then latency else MinDeliveryLatency d)
    (if MaxDeliveryLatency d <? latency then latency else MaxDeliveryLatency d)
    (RetryCount d) (LastRetryTime d).

Definition Stats_RecordFailure (d : DeliveryStatistics) : DeliveryStatistics :=
  mkDeliveryStatistics (EventsDelivered d) (wrap64 (EventsFailed d + 1)) (LastDeliveryTime d) (FirstDeliveryTime d)
    (TotalDeliveryLatency d) (MinDeliveryLatency d) (MaxDeliveryLatency d) (RetryCount d) (LastRetryTime d).

Definition Stats_RecordRetry (now : Z) (d : DeliveryStatistics) : DeliveryStatistics :=
  mkDeliveryStatistics (EventsDelivered d) (EventsFailed d) (LastDeliveryTime d) (FirstDeliveryTime d)
    (TotalDeliveryLatency d) (MinDeliveryLatency d) (MaxDeliveryLatency d) (wrap64 (RetryCount d + 1)) now.

Definition GetAverageLatency (d : DeliveryStatistics) : Z :=
  if EventsDelivered d =? 0 then 0 else wrap64 (Z.quot (TotalDeliveryLatency d) (EventsDelivered d)).

(** ** Subscriptions *)

Definition SubscriptionStatusActive : string := "active".
Definition SubscriptionStatusPaused : string := "paused".
Definition SubscriptionStatusCancelled : string := "cancelled".
Definition SubscriptionStatusExpired : string := "expired".
Definition SubscriptionStatusError : string := "error".

(** A nil map of metadata is [None]. *)
Record Subscription := mkSubscription {
  SubscriptionID : string;
  sb_WebID : string;
  sb_ClientID : string;
  sb_ChannelID : string;
  sb_Filter : StreamFilter;
  sb_Endpoint : string;
  sb_Protocol : string;
  sb_Status : string;
  sb_Created : Z;
  sb_LastActivity : Z;
  sb_LastCursor : Z;
  sb_ResumeCursor : Z;
  sb_Priority : Z;
  sb_Metadata : option (gmap string string);
  sb_ErrorCount : Z;
  sb_LastError : string;
  sb_LastErrorTime : Z;
  sb_DeliveryStats : DeliveryStatistics
}.

Definition set_Status (status : string) (s : Subscription) : Subscription :=
  mkSubscription (SubscriptionID s) (sb_WebID s) (sb_ClientID s) (sb_ChannelID s) (sb_Filter s) (sb_Endpoint s) (sb_Protocol s)
    status (sb_Created s) (sb_LastActivity s) (sb_LastCursor s) (sb_ResumeCursor s) (sb_Priority s) (sb_Metadata s)
    (sb_ErrorCount s) (sb_LastError s) (sb_LastErrorTime s) (sb_DeliveryStats s).
Definition set_LastActivity (now : Z) (s : Subscription) : Subscription :=
  mkSubscription (SubscriptionID s) (sb_WebID s) (sb_ClientID s) (sb_ChannelID s) (sb_Filter s) (sb_Endpoint s) (sb_Protocol s)
    (sb_Status s) (sb_Created s) now (sb_LastCursor s) (sb_ResumeCursor s) (sb_Priority s) (sb_Metadata s)
    (sb_ErrorCount s) (sb_LastError s) (sb_LastErrorTime s) (sb_DeliveryStats s).
Definition set_settings (filter : StreamFilter) (priority : Z) (metadata : option (gmap string string)) (s : Subscription) : Subscription :=
  mkSubscription (SubscriptionID s) (sb_WebID s) (sb_ClientID s) (sb_ChannelID s) filter (sb_Endpoint s) (sb_Protocol s)
    (sb_Status s) (sb_Created s) (sb_LastActivity s) (sb_LastCursor s) (sb_ResumeCursor s) priority metadata
    (sb_ErrorCount s) (sb_LastError s) (sb_LastErrorTime s) (sb_DeliveryStats s).
Definition set_cursor (cursor : Z) (s : Subscription) : Subscription :=
  mkSubscription (SubscriptionID s) (sb_WebID s) (sb_ClientID s) (sb_ChannelID s) (sb_Filter s) (sb_Endpoint s) (sb_Protocol s)
    (sb_Status s) (sb_Created s) (sb_LastActivity s) cursor cursor (sb_Priority s) (sb_Metadata s)
    (sb_ErrorCount s) (sb_LastError s) (sb_LastErrorTime s) (sb_DeliveryStats s).
Definition set_errors (count : Z) (text : string) (at_ : Z) (s : Subscription) : Subscription :=
  mkSubscription (SubscriptionID s) (sb_WebID s) (sb_ClientID s) (sb_ChannelID s) (sb_Filter s) (sb_Endpoint s) (sb_Protocol s)
    (sb_Status s) (sb_Created s) (sb_LastActivity s) (sb_LastCursor s) (sb_ResumeCursor s) (sb_Priority s) (sb_Metadata s)
    count text at_ (sb_DeliveryStats s).
Definition set_stats (d : DeliveryStatistics) (s : Subscription) : Subscription :=
  mkSubscription (SubscriptionID s) (sb_WebID s) (sb_ClientID s) (sb_ChannelID s) (sb_Filter s) (sb_Endpoint s) (sb_Protocol s)
    (sb_Status s) (sb_Created s) (sb_LastActivity s) (sb_LastCursor s) (sb_ResumeCursor s) (sb_Priority s) (sb_Metadata s)
    (sb_ErrorCount s) (sb_LastError s) (sb_LastErrorTime s) d.

(** ** Metrics *)

Record SubscriptionRegistryMetrics := mkRegistryMetrics {
  TotalSubscriptions : Z;
  ActiveSubscriptions : Z;
  PausedSubscriptions : Z;
  CancelledSubscriptions : Z;
  ExpiredSubscriptions : Z;
  ErrorSubscriptions : Z;
  SubscriptionsByProtocol : gmap string Z;
  TotalDeliveryAttempts : Z;
  TotalDeliveries : Z;
  TotalDeliveryFailures : Z;
  TotalRetries : Z;
  AuthenticationFailures : Z;
  AuthorizationFailures : Z;
  SubscriptionCreations : Z;
  SubscriptionCancellations : Z
}.

Definition bump (b : bool) (n : Z) : Z := if b then wrap64 (n + 1) else n.

(** Of the status counters, the ones of the given status. *)
Definition RecordSubscription (status : string) (m : SubscriptionRegistryMetrics) : SubscriptionRegistryMetrics :=
  mkRegistryMetrics (bump true (TotalSubscriptions m))
    (bump (String.eqb status SubscriptionStatusActive) (ActiveSubscriptions m))
    (bump (String.eqb status SubscriptionStatusPaused) (PausedSubscriptions m))
    (bump (String.eqb status SubscriptionStatusCancelled) (CancelledSubscriptions m))
    (bump (String.eqb status SubscriptionStatusExpired) (ExpiredSubscriptions m))
    (bump (String.eqb status SubscriptionStatusError) (ErrorSubscriptions m))
    (SubscriptionsByProtocol m) (TotalDeliveryAttempts m) (TotalDeliveries m) (TotalDeliveryFailures m) (TotalRetries m)
    (AuthenticationFailures m) (AuthorizationFailures m) (SubscriptionCreations m) (SubscriptionCancellations m).

Definition RecordProtocolUsage (protocol : string) (m : SubscriptionRegistryMetrics) : SubscriptionRegistryMetrics :=
  mkRegistryMetrics (TotalSubscriptions m) (ActiveSubscriptions m) (PausedSubscriptions m) (CancelledSubscriptions m)
    (ExpiredSubscriptions m) (ErrorSubscriptions m)
    (<[protocol := bump true (default 0 (SubscriptionsByProtocol m !! protocol))]> (SubscriptionsByProtocol m))
    (TotalDeliveryAttempts m) (TotalDeliveries m) (TotalDeliveryFailures m) (TotalRetries m)
    (AuthenticationFailures m) (AuthorizationFailures m) (SubscriptionCreations m) (SubscriptionCancellations m).

Definition Metrics_RecordDelivery (success retried : bool) (m : SubscriptionRegistryMetrics) : SubscriptionRegistryMetrics :=
  mkRegistryMetrics (TotalSubscriptions m) (ActiveSubscriptions m) (PausedSubscriptions m) (CancelledSubscriptions m)
    (ExpiredSubscriptions m) (ErrorSubscriptions m) (SubscriptionsByProtocol m)
    (bump true (TotalDeliveryAttempts m)) (bump success (TotalDeliveries m)) (bump (negb success) (TotalDeliveryFailures m))
    (bump retried (TotalRetries m))
    (AuthenticationFailures m) (AuthorizationFailures m) (SubscriptionCreations m) (SubscriptionCancellations m).

(** The four methods that count one thing, and the decrements of the status changes. *)
Definition count (authn authz creation cancellation : bool) (m : SubscriptionRegistryMetrics) : SubscriptionRegistryMetrics :=
  mkRegistryMetrics (TotalSubscriptions m) (ActiveSubscriptions m) (PausedSubscriptions m) (CancelledSubscriptions m)
    (ExpiredSubscriptions m) (ErrorSubscriptions m) (SubscriptionsByProtocol m)
    (TotalDeliveryAttempts m) (TotalDeliveries m) (TotalDeliveryFailures m) (TotalRetries m)
    (bump authn (AuthenticationFailures m)) (bump authz (AuthorizationFailures m)) (bump creation (SubscriptionCreations m))
    (bump cancellation (SubscriptionCancellations m)).
Definition RecordAuthenticationFailure : SubscriptionRegistryMetrics -> SubscriptionRegistryMetrics := count true false false false.
Definition RecordAuthorizationFailure : SubscriptionRegistryMetrics -> SubscriptionRegistryMetrics := count false true false false.
Definition RecordCreation : SubscriptionRegistryMetrics -> SubscriptionRegistryMetrics := count false false true false.
Definition RecordCancellation : SubscriptionRegistryMetrics -> SubscriptionRegistryMetrics := count false false false true.
Definition uncount (active paused : bool) (m : SubscriptionRegistryMetrics) : SubscriptionRegistryMetrics :=
  mkRegistryMetrics (TotalSubscriptions m)
    (if active then wrap64 (ActiveSubscriptions m - 1) else ActiveSubscriptions m)
    (if paused then wrap64 (PausedSubscriptions m - 1) else PausedSubscriptions m) (CancelledSubscriptions m)
    (ExpiredSubscriptions m) (ErrorSubscriptions m) (SubscriptionsByProtocol m)
    (TotalDeliveryAttempts m) (TotalDeliveries m) (TotalDeliveryFailures m) (TotalRetries m)
    (AuthenticationFailures m) (AuthorizationFailures m) (SubscriptionCreations m) (SubscriptionCancellations m).

(** ** The registry *)

Definition AccessModeRead : string := "Read".

(** The interfaces of the providers; the registry does not call [GetAccessModes]. *)
Record Authenticator := mkAuthenticator {
  Authenticate : Z -> string -> string -> result string string;
  ValidateWebID : string -> result string unit
}.
Record Authorizer := mkAuthorizer {
  CheckAccess : Z -> string -> string -> string -> result string bool
}.

Record SubscriptionRegistry := mkRegistry {
  rg_config : SubscriptionRegistryConfig;
  rg_subscriptions : gmap string Subscription;
  rg_byWebID : gmap string (list string);
  rg_byChannel : gmap string (list string);
  rg_authProvider : option Authenticator;
  rg_authzProvider : option Authorizer;
  rg_closed : bool;
  rg_metrics : SubscriptionRegistryMetrics
}.

Definition NewSubscriptionRegistry (config : SubscriptionRegistryConfig) : SubscriptionRegistry :=
  mkRegistry config ∅ ∅ ∅ None None false (mkRegistryMetrics 0 0 0 0 0 0 ∅ 0 0 0 0 0 0 0 0).

Definition set_subscriptions (m : gmap string Subscription) (r : SubscriptionRegistry) : SubscriptionRegistry :=
  mkRegistry (rg_config r) m (rg_byWebID r) (rg_byChannel r) (rg_authProvider r) (rg_authzProvider r) (rg_closed r) (rg_metrics r).
Definition set_indexes (w c : gmap string (list string)) (r : SubscriptionRegistry) : SubscriptionRegistry :=
  mkRegistry (rg_config r) (rg_subscriptions r) w c (rg_authProvider r) (rg_authzProvider r) (rg_closed r) (rg_metrics r).
Definition measure (f : SubscriptionRegistryMetrics -> SubscriptionRegistryMetrics) (r : SubscriptionRegistry) : SubscriptionRegistry :=
  mkRegistry (rg_config r) (rg_subscriptions r) (rg_byWebID r) (rg_byChannel r) (rg_authProvider r) (rg_authzProvider r) (rg_closed r)
    (f (rg_metrics r)).

Definition SetAuthProvider (p : option Authenticator) (r : SubscriptionRegistry) : SubscriptionRegistry :=
  mkRegistry (rg_config r) (rg_subscriptions r) (rg_byWebID r) (rg_byChannel r) p (rg_authzProvider r) (rg_closed r) (rg_metrics r).
Definition SetAuthzProvider (p : option Authorizer) (r : SubscriptionRegistry) : SubscriptionRegistry :=
  mkRegistry (rg_config r) (rg_subscriptions r) (rg_byWebID r) (rg_byChannel r) (rg_authProvider r) p (rg_closed r) (rg_metrics r).

(** Of a formatted message, the wrapped error and the text of the provider. *)
Inductive registry_error :=
| ErrDurableLogClosed
| ErrMaxSubscriptionsReached
| MaxPerWebIDReached
| ErrAuthenticationRequired (text : string)
| ErrInvalidSubscriptionFilter
| ErrAccessDenied (text : string)
| ErrSubscriptionAlreadyExists
| ErrSubscriptionNotFound
| ProviderError (text : string).

(** What a call reads of the outside: the clock, the same clock printed in the local zone, the
    random bytes if there are any, and the cursor of the event log if there is one. *)
Record registry_env := mkRegistryEnv {
  rv_now : Z;
  rv_nowText : string;
  rv_random : option (list Z);
  rv_cursor : option Z
}.

(** ** Indexes *)

(** [append(l[:i], l[i+1:]...)] at the first occurrence. *)
Fixpoint removeFirst (id : string) (l : list string) : list string :=
  match l with
  | [] => []
  | x :: rest => if String.eqb x id then rest else x :: removeFirst id rest
  end.

Definition removeFromIndex (key id : string) (index : gmap string (list string)) : gmap string (list string) :=
  match index !! key with
  | Some ids => let ids' := removeFirst id ids in if bool_decide (ids' = []) then delete key index else <[key := ids']> index
  | None => index
  end.

Definition addToIndex (key id : string) (index : gmap string (list string)) : gmap string (list string) :=
  <[key := default [] (index !! key) ++ [id]]> index.

Definition removeFromIndexes (id : string) (r : SubscriptionRegistry) : SubscriptionRegistry :=
  match rg_subscriptions r !! id with
  | Some sub => set_indexes (removeFromIndex (sb_WebID sub) id (rg_byWebID r)) (removeFromIndex (sb_ChannelID sub) id (rg_byChannel r)) r
  | None => r
  end.

(** ** Expiry *)

(** The first loop, over the subscriptions in the order [ids]: the expired ones. *)
Fixpoint markStale (cutoff : Z) (ids : list string) (r : SubscriptionRegistry) : SubscriptionRegistry * list string :=
  match ids with
  | [] => (r, [])
  | id :: rest =>
      match rg_subscriptions r !! id with
      | Some sub =>
          if String.eqb (sb_Status sub) SubscriptionStatusActive && time_Before (sb_LastActivity sub) cutoff then
            let r := measure (RecordSubscription SubscriptionStatusExpired)
                       (set_subscriptions (<[id := set_Status SubscriptionStatusExpired sub]> (rg_subscriptions r)) r) in
            let '(r', toRemove) := markStale cutoff rest r in (r', id :: toRemove)
          else markStale cutoff rest r
      | None => markStale cutoff rest r
      end
  end.

(** The second loop. *)
Fixpoint removeStale (toRemove : list string) (r : SubscriptionRegistry) : SubscriptionRegistry :=
  match toRemove with
  | [] => r
  | id :: rest => removeStale rest (removeFromIndexes id (set_subscriptions (delete id (rg_subscriptions r)) r))
  end.

Definition cleanupStaleSubscriptions (now : Z) (ids : list string) (r : SubscriptionRegistry) : SubscriptionRegistry :=
  if rg_closed r then r
  else let '(r', toRemove) := markStale (now - MaxSubscriptionAge (rg_config r)) ids r in removeStale toRemove r'.

(** ** Creation *)

Definition generateSubscriptionID (env : registry_env) (r : SubscriptionRegistry) : string :=
  match rv_random env with
  | Some b => String.append "sub-" (hex_EncodeToString b)
  | None => String.append "sub-" (String.append (FormatInt (unixNano (rv_now env)))
              (String.append "-" (FormatInt (Z.of_nat (size (rg_subscriptions r))))))
  end.

Definition filtersEqual (a b : StreamFilter) : bool :=
  String.eqb (sf_MinPrivacyLevel a) (sf_MinPrivacyLevel b) && String.eqb (sf_MaxPrivacyLevel a) (sf_MaxPrivacyLevel b) &&
  bool_decide (length (sf_EventTypes a) = length (sf_EventTypes b)) &&
  bool_decide (length (sf_ResourceURIs a) = length (sf_ResourceURIs b)) &&
  bool_decide (length (sf_ContainerURIs a) = length (sf_ContainerURIs b)).

Definition validateSubscriptionFilter (filter : StreamFilter) : result registry_error unit :=
  let minimum := sf_MinPrivacyLevel filter in
  let maximum := sf_MaxPrivacyLevel filter in
  fail! ErrInvalidSubscriptionFilter when negb (String.eqb minimum "") && negb (String.eqb maximum "") && String.ltb maximum minimum in
  fail! ErrInvalidSubscriptionFilter when negb (String.eqb minimum "") && negb (isValidPrivacyLevel minimum) in
  fail! ErrInvalidSubscriptionFilter when negb (String.eqb maximum "") && negb (isValidPrivacyLevel maximum) in
  Ok tt.

(** The WebID the subscription is for. *)
Definition authenticate (env : registry_env) (webID token : string) (r : SubscriptionRegistry) : result registry_error string :=
  match rg_authProvider r with
  | None => Ok webID
  | Some p =>
      match ValidateWebID p webID with
      | Err text => Err (ErrAuthenticationRequired text)
      | Ok _ => match Authenticate p (rv_now env) webID token with
                | Err text => Err (ErrAuthenticationRequired text)
                | Ok authenticatedWebID => Ok authenticatedWebID
                end
      end
  end.

Fixpoint checkAll (env : registry_env) (p : Authorizer) (webID : string) (uris : list string) : result registry_error unit :=
  match uris with
  | [] => Ok tt
  | uri :: rest =>
      match CheckAccess p (rv_now env) webID uri AccessModeRead with
      | Err text => Err (ErrAccessDenied text)
      | Ok hasAccess => if hasAccess then checkAll env p webID rest else Err (ErrAccessDenied "no read access")
      end
  end.

Definition authorize (env : registry_env) (webID : string) (filter : StreamFilter) (r : SubscriptionRegistry) : result registry_error unit :=
  match rg_authzProvider r with
  | None => Ok tt
  | Some p => let! _ := checkAll env p webID (sf_ResourceURIs filter) in checkAll env p webID (sf_ContainerURIs filter)
  end.

(** The loop over the subscriptions of the WebID: whether one is the same; [None] is a panic. *)
Fixpoint findSame (subs : gmap string Subscription) (clientID channelID : string) (filter : StreamFilter) (ids : list string) : option bool :=
  match ids with
  | [] => Some false
  | id :: rest =>
      match subs !! id with
      | None => None
      | Some sub =>
          if String.eqb (sb_ClientID sub) clientID && String.eqb (sb_ChannelID sub) channelID && filtersEqual (sb_Filter sub) filter
          then Some true else findSame subs clientID channelID filter rest
      end
  end.

Record creation := mkCreation {
  cn_webID : string;
  cn_token : string;
  cn_clientID : string;
  cn_channelID : string;
  cn_filter : StreamFilter;
  cn_endpoint : string;
  cn_protocol : string;
  cn_priority : Z;
  cn_metadata : option (gmap string string)
}.

(** The subscription that is stored and returned. *)
Definition newSubscription (env : registry_env) (webID : string) (c : creation) (r : SubscriptionRegistry) : Subscription :=
  let initialCursor := default 0 (rv_cursor env) in
  mkSubscription (generateSubscriptionID env r) webID (cn_clientID c) (cn_channelID c) (cn_filter c) (cn_endpoint c) (cn_protocol c)
    SubscriptionStatusActive (rv_now env) (rv_now env) initialCursor initialCursor (cn_priority c) (cn_metadata c) 0 "" 0 noDeliveries.

Definition storeSubscription (sub : Subscription) (r : SubscriptionRegistry) : SubscriptionRegistry :=
  let r := set_subscriptions (<[SubscriptionID sub := sub]> (rg_subscriptions r)) r in
  let r := set_indexes (addToIndex (sb_WebID sub) (SubscriptionID sub) (rg_byWebID r))
             (addToIndex (sb_ChannelID sub) (SubscriptionID sub) (rg_byChannel r)) r in
  measure RecordCreation (measure (RecordProtocolUsage (sb_Protocol sub)) (measure (RecordSubscription SubscriptionStatusActive) r)).

Definition CreateSubscription (env : registry_env) (c : creation) (r : SubscriptionRegistry)
  : SubscriptionRegistry * outcome (result registry_error Subscription) :=
  if rg_closed r then (r, Returns (Err ErrDurableLogClosed))
  else if MaxSubscriptions (rg_config r) <=? Z.of_nat (size (rg_subscriptions r)) then (r, Returns (Err ErrMaxSubscriptionsReached))
  else if MaxSubscriptionsPerWebID (rg_config r) <=? Z.of_nat (length (default [] (rg_byWebID r !! cn_webID c)))
  then (r, Returns (Err MaxPerWebIDReached))
  else match authenticate env (cn_webID c) (cn_token c) r with
  | Err e => (measure RecordAuthenticationFailure r, Returns (Err e))
  | Ok webID =>
      match validateSubscriptionFilter (cn_filter c) with
      | Err e => (r, Returns (Err e))
      | Ok _ =>
          match authorize env webID (cn_filter c) r with
          | Err e => (measure RecordAuthorizationFailure r, Returns (Err e))
          | Ok _ =>
              let same := if 0 <? MaxSubscriptionsPerWebID (rg_config r)
                          then findSame (rg_subscriptions r) (cn_clientID c) (cn_channelID c) (cn_filter c) (default [] (rg_byWebID r !! webID))
                          else Some false in
              match same with
              | None => (r, Panics)
              | Some true => (r, Returns (Err ErrSubscriptionAlreadyExists))
              | Some false => let sub := newSubscription env webID c r in (storeSubscription sub r, Returns (Ok sub))
              end
          end
      end
  end.

(** ** Lookups *)

Definition GetSubscription (id : string) (r : SubscriptionRegistry) : result registry_error Subscription :=
  fail! ErrDurableLogClosed when rg_closed r in
  match rg_subscriptions r !! id with Some sub => Ok sub | None => Err ErrSubscriptionNotFound end.

Definition GetSubscriptionsByWebID (webID : string) (r : SubscriptionRegistry) : result registry_error (list Subscription) :=
  fail! ErrDurableLogClosed when rg_closed r in
  Ok (omap (fun id => rg_subscriptions r !! id) (default [] (rg_byWebID r !! webID))).

Definition GetSubscriptionsByChannel (channelID : string) (r : SubscriptionRegistry) : result registry_error (list Subscription) :=
  fail! ErrDurableLogClosed when rg_closed r in
  Ok (omap (fun id => rg_subscriptions r !! id) (default [] (rg_byChannel r !! channelID))).

Definition listed (webID channelID status protocol : string) (sub : Subscription) : bool :=
  negb (negb (String.eqb webID "") && negb (String.eqb (sb_WebID sub) webID)) &&
  negb (negb (String.eqb channelID "") && negb (String.eqb (sb_ChannelID sub) channelID)) &&
  negb (negb (String.eqb status "") && negb (String.eqb (sb_Status sub) status)) &&
  negb (negb (String.eqb protocol "") && negb (String.eqb (sb_Protocol sub) protocol)).

(** The subscriptions are visited in the order [ids]; a slice with bad bounds panics. *)
Definition ListSubscriptions (ids : list string) (webID channelID status protocol : string) (limit offset : Z) (r : SubscriptionRegistry)
  : outcome (result registry_error (list Subscription * Z)) :=
  if rg_closed r then Returns (Err ErrDurableLogClosed)
  else
    let all := filter (fun sub => listed webID channelID status protocol sub = true) (omap (fun id => rg_subscriptions r !! id) ids) in
    let total := Z.of_nat (length all) in
    if total <=? offset then Returns (Ok ([], total))
    else
      let end_ := wrap64 (offset + limit) in
      let end_ := if (limit =? 0) || (total <? end_) then total else end_ in
      if (offset <? 0) || (end_ <? offset) then Panics
      else Returns (Ok (take (Z.to_nat (end_ - offset)) (drop (Z.to_nat offset) all), total)).

(** ** Changes *)

(** A method on one subscription. *)
Definition on_subscription (id : string) (f : Subscription -> SubscriptionRegistry -> SubscriptionRegistry * result registry_error unit)
    (r : SubscriptionRegistry) : SubscriptionRegistry * result registry_error unit :=
  if rg_closed r then (r, Err ErrDurableLogClosed)
  else match rg_subscriptions r !! id with
  | None => (r, Err ErrSubscriptionNotFound)
  | Some sub => f sub r
  end.

Definition put (id : string) (sub : Subscription) (r : SubscriptionRegistry) : SubscriptionRegistry :=
  set_subscriptions (<[id := sub]> (rg_subscriptions r)) r.

(** The updated subscription is the one found under [id] afterwards. *)
Definition UpdateSubscription (env : registry_env) (id : string) (filter : option StreamFilter) (priority : option Z)
    (metadata : option (gmap string string)) : SubscriptionRegistry -> SubscriptionRegistry * result registry_error unit :=
  on_subscription id (fun sub r =>
    match from_option validateSubscriptionFilter (Ok tt) filter with
    | Err e => (r, Err e)
    | Ok _ =>
        let merged := match metadata with None => sb_Metadata sub | Some m => Some (m ∪ default ∅ (sb_Metadata sub)) end in
        (put id (set_LastActivity (rv_now env) (set_settings (default (sb_Filter sub) filter) (default (sb_Priority sub) priority) merged sub)) r, Ok tt)
    end).

Definition UpdateCursor (env : registry_env) (id : string) (cursor : Z) : SubscriptionRegistry -> SubscriptionRegistry * result registry_error unit :=
  on_subscription id (fun sub r =>
    (put id (set_errors 0 "" (sb_LastErrorTime sub) (set_LastActivity (rv_now env) (set_cursor cursor sub))) r, Ok tt)).

Definition PauseSubscription (env : registry_env) (id : string) : SubscriptionRegistry -> SubscriptionRegistry * result registry_error unit :=
  on_subscription id (fun sub r =>
    if String.eqb (sb_Status sub) SubscriptionStatusPaused then (r, Ok tt)
    else (measure (uncount (String.eqb (sb_Status sub) SubscriptionStatusActive) false) (measure (RecordSubscription SubscriptionStatusPaused)
            (put id (set_LastActivity (rv_now env) (set_Status SubscriptionStatusPaused sub)) r)), Ok tt)).

Definition ResumeSubscription (env : registry_env) (id : string) : SubscriptionRegistry -> SubscriptionRegistry * result registry_error unit :=
  on_subscription id (fun sub r =>
    if String.eqb (sb_Status sub) SubscriptionStatusActive then (r, Ok tt)
    else (measure (uncount false (String.eqb (sb_Status sub) SubscriptionStatusPaused)) (measure (RecordSubscription SubscriptionStatusActive)
            (put id (set_LastActivity (rv_now env) (set_Status SubscriptionStatusActive sub)) r)), Ok tt)).

Definition CancelSubscription (env : registry_env) (id reason : string) : SubscriptionRegistry -> SubscriptionRegistry * result registry_error unit :=
  on_subscription id (fun sub r =>
    let r := put id (set_errors (sb_ErrorCount sub) reason (sb_LastErrorTime sub)
               (set_LastActivity (rv_now env) (set_Status SubscriptionStatusCancelled sub))) r in
    let r := measure (uncount (String.eqb (sb_Status sub) SubscriptionStatusActive) false)
               (measure RecordCancellation (measure (RecordSubscription SubscriptionStatusCancelled) r)) in
    let r := removeFromIndexes id r in
    (set_subscriptions (delete id (rg_subscriptions r)) r, Ok tt)).

Definition RecordDelivery (env : registry_env) (id : string) (success : bool) (latency : Z) (retried : bool)
  : SubscriptionRegistry -> SubscriptionRegistry * result registry_error unit :=
  on_subscription id (fun sub r =>
    let stats := Stats_RecordDelivery (rv_now env) latency (sb_DeliveryStats sub) in
    let stats := if success then stats else Stats_RecordFailure stats in
    let stats := if retried then Stats_RecordRetry (rv_now env) stats else stats in
    let sub := if success then sub
               else set_errors (wrap64 (sb_ErrorCount sub + 1)) (String.append "delivery failed at " (rv_nowText env)) (rv_now env) sub in
    (measure (Metrics_RecordDelivery success retried) (put id (set_LastActivity (rv_now env) (set_stats stats sub)) r), Ok tt)).

Definition Registry_Close (r : SubscriptionRegistry) : SubscriptionRegistry :=
  if rg_closed r then r
  else mkRegistry (rg_config r) ∅ ∅ ∅ (rg_authProvider r) (rg_authzProvider r) true (rg_metrics r).

(** ** Delivery *)

Definition isInContainer (resourceURI containerURI : string) : bool :=
  (len containerURI <? len resourceURI) && HasPrefix resourceURI containerURI.

(** The checks of the filter. *)
Definition admits (filter : StreamFilter) (resourceURI privacyLevel : string) : bool :=
  negb (negb (String.eqb (sf_MinPrivacyLevel filter) "") && String.ltb privacyLevel (sf_MinPrivacyLevel filter)) &&
  negb (negb (String.eqb (sf_MaxPrivacyLevel filter) "") && String.ltb (sf_MaxPrivacyLevel filter) privacyLevel) &&
  oneOf (sf_ResourceURIs filter) (String.eqb resourceURI) &&
  (oneOf (sf_ContainerURIs filter) (String.eqb resourceURI) || existsb (isInContainer resourceURI) (sf_ContainerURIs filter)).

Definition CheckAccessForSubscription (env : registry_env) (id resourceURI privacyLevel : string) (r : SubscriptionRegistry)
  : result registry_error bool :=
  fail! ErrDurableLogClosed when rg_closed r in
  match rg_subscriptions r !! id with
  | None => Err ErrSubscriptionNotFound
  | Some sub =>
      if negb (String.eqb (sb_Status sub) SubscriptionStatusActive) then Ok false
      else if negb (admits (sb_Filter sub) resourceURI privacyLevel) then Ok false
      else match rg_authzProvider r with
      | Some p =>
          if String.eqb (sb_WebID sub) "" then Ok true
          else match CheckAccess p (rv_now env) (sb_WebID sub) resourceURI AccessModeRead with
               | Err text => Err (ProviderError text)
               | Ok hasAccess => Ok hasAccess
               end
      | None => Ok true
      end
  end.

(** ** Histories *)

Inductive registry_call :=
| CreateCall (env : registry_env) (c : creation)
| UpdateCall (env : registry_env) (id : string) (filter : option StreamFilter) (priority : option Z) (metadata : option (gmap string string))
| CursorCall (env : registry_env) (id : string) (cursor : Z)
| PauseCall (env : registry_env) (id : string)
| ResumeCall (env : registry_env) (id : string)
| CancelCall (env : registry_env) (id reason : string)
| DeliveryCall (env : registry_env) (id : string) (success : bool) (latency : Z) (retried : bool)
| CleanupCall (now : Z) (ids : list string)
| SetAuthCall (p : option Authenticator)
| SetAuthzCall (p : option Authorizer)
| CloseCall.

(** [None] when the order given to a cleanup is not an order of the subscriptions. *)
Definition apply_call (c : registry_call) (r : SubscriptionRegistry) : option SubscriptionRegistry :=
  match c with
  | CreateCall env cn => Some (fst (CreateSubscription env cn r))
  | UpdateCall env id f p m => Some (fst (UpdateSubscription env id f p m r))
  | CursorCall env id cursor => Some (fst (UpdateCursor env id cursor r))
  | PauseCall env id => Some (fst (PauseSubscription env id r))
  | ResumeCall env id => Some (fst (ResumeSubscription env id r))
  | CancelCall env id reason => Some (fst (CancelSubscription env id reason r))
  | DeliveryCall env id success latency retried => Some (fst (RecordDelivery env id success latency retried r))
  | CleanupCall now ids => if is_order ids (rg_subscriptions r) then Some (cleanupStaleSubscriptions now ids r) else None
  | SetAuthCall p => Some (SetAuthProvider p r)
  | SetAuthzCall p => Some (SetAuthzProvider p r)
  | CloseCall => Some (Registry_Close r)
  end.

Fixpoint calls (l : list registry_call) (r : SubscriptionRegistry) : option SubscriptionRegistry :=
  match l with
  | [] => Some r
  | c :: rest => match apply_call c r with Some r' => calls rest r' | None => None end
  end.

(** ** What a call does to the subscriptions *)

(** A subscription after a call was there before, with the same identity and a filter that only an
    update changes, or the call created it. *)
Definition kept (c : registry_call) (id : string) (sub sub' : Subscription) : Prop :=
  SubscriptionID sub' = SubscriptionID sub /\ sb_WebID sub' = sb_WebID sub /\ sb_ChannelID sub' = sb_ChannelID sub /\
  (sb_Filter sub' = sb_Filter sub \/ exists env p m, c = UpdateCall env id (Some (sb_Filter sub')) p m).

Definition created (c : registry_call) (id : string) (r : SubscriptionRegistry) (sub' : Subscription) : Prop :=
  exists env cn w, c = CreateCall env cn /\ id = generateSubscriptionID env r /\ sub' = newSubscription env w cn r /\
    authenticate env (cn_webID cn) (cn_token cn) r = Ok w /\ authorize env w (cn_filter cn) r = Ok tt.

Lemma kept_refl c id sub : kept c id sub sub.
Proof. repeat split. by left. Qed.

Lemma kept_same c id sub sub' :
  SubscriptionID sub' = SubscriptionID sub -> sb_WebID sub' = sb_WebID sub -> sb_ChannelID sub' = sb_ChannelID sub ->
  sb_Filter sub' = sb_Filter sub -> kept c id sub sub'.
Proof. intros. repeat split; try done. by left. Qed.

(** What an operation on one subscription leaves. *)
Definition edits (c : registry_call) (id : string) (r r' : SubscriptionRegistry) : Prop :=
  r' = r \/ exists sub sub' f, rg_subscriptions r !! id = Some sub /\ kept c id sub sub' /\ r' = measure f (put id sub' r).

Lemma measure_id r : measure (fun m => m) r = r.
Proof. by destruct r. Qed.

Lemma on_subscription_edits c id f r :
  (forall sub, rg_subscriptions r !! id = Some sub -> edits c id r (fst (f sub r))) -> edits c id r (fst (on_subscription id f r)).
Proof.
  intros H. unfold on_subscription. destruct (rg_closed r); [by left|]. destruct (rg_subscriptions r !! id) eqn:E; [by apply H|by left].
Qed.

Definition edited (c : registry_call) : option string :=
  match c with
  | UpdateCall _ id _ _ _ | CursorCall _ id _ | PauseCall _ id | ResumeCall _ id | DeliveryCall _ id _ _ _ => Some id
  | _ => None
  end.

Lemma edited_edits c id r r' : edited c = Some id -> apply_call c r = Some r' -> edits c id r r'.
Proof.
  intros Hc H. destruct c; try discriminate Hc; injection Hc as ->; injection H as <-; apply on_subscription_edits; intros sub Hs.
  - destruct filter as [f|]; cbn [from_option].
    + destruct (validateSubscriptionFilter f); [|by left]. right. eexists sub, _, (fun m => m). split; [done|].
      split; [|by rewrite measure_id]. repeat split. right. by eexists _, _, _.
    + right. eexists sub, _, (fun m => m). split; [done|]. split; [|by rewrite measure_id]. by apply kept_same.
  - right. eexists sub, _, (fun m => m). split; [done|]. split; [|by rewrite measure_id]. by apply kept_same.
  - destruct (String.eqb _ _); [by left|]. right. eexists sub, _, (fun m => uncount _ _ (RecordSubscription _ m)).
    split; [done|]. split; [|reflexivity]. by apply kept_same.
  - destruct (String.eqb _ _); [by left|]. right. eexists sub, _, (fun m => uncount _ _ (RecordSubscription _ m)).
    split; [done|]. split; [|reflexivity]. by apply kept_same.
  - right. eexists sub, _, _. split; [done|]. split; [|reflexivity]. by destruct success; apply kept_same.
Qed.

(** The effects of the two loops of a cleanup: statuses change, and then subscriptions go. *)
Lemma markStale_spec cutoff ids r :
  let '(r', gone) := markStale cutoff ids r in
  (exists m f, r' = measure f (set_subscriptions m r)) /\
  (forall id, is_Some (rg_subscriptions r' !! id) <-> is_Some (rg_subscriptions r !! id)) /\
  (forall id sub', rg_subscriptions r' !! id = Some sub' -> exists sub, rg_subscriptions r !! id = Some sub /\ forall c, kept c id sub sub') /\
  (NoDup ids -> forall id sub, id ∈ ids -> rg_subscriptions r !! id = Some sub -> sb_Status sub = SubscriptionStatusActive ->
     sb_LastActivity sub < cutoff -> id ∈ gone).
Proof.
  revert r. induction ids as [|id ids IH]; intros r; cbn [markStale].
  { split_and!; [exists (rg_subscriptions r), (fun m => m); by destruct r|done| |intros; by apply not_elem_of_nil in H0].
    intros id sub' H. exists sub'. split; [done|]. intros. apply kept_refl. }
  destruct (rg_subscriptions r !! id) as [s|] eqn:E.
  - destruct (_ && _) eqn:Eb.
    + set (r1 := measure _ _). specialize (IH r1). destruct (markStale cutoff ids r1) as [r' gone].
      destruct IH as ((m & f & ->) & Hdom & Hk & Hg). split_and!.
      * exists m, (fun x => f (RecordSubscription SubscriptionStatusExpired x)). reflexivity.
      * intros x. rewrite Hdom. cbn. destruct (decide (x = id)) as [->|Hne]; [rewrite lookup_insert_eq, E; split; by eexists|by rewrite lookup_insert_ne].
      * intros x sub' Hx. destruct (Hk x sub' Hx) as (s1 & Hs1 & Hks). cbn in Hs1.
        destruct (decide (x = id)) as [->|Hne]; [|rewrite lookup_insert_ne in Hs1 by done; by exists s1].
        rewrite lookup_insert_eq in Hs1. injection Hs1 as <-. exists s. split; [done|]. intros c. exact (Hks c).
      * intros [Hni Hnd]%NoDup_cons x sub Hx Hs Ha Hl. apply elem_of_cons in Hx as [->|Hx]; [apply elem_of_cons; by left|].
        apply elem_of_cons; right. apply (Hg Hnd x sub Hx); [|done|done]. cbn. rewrite lookup_insert_ne; [done|]. by intros ->.
    + specialize (IH r). destruct (markStale cutoff ids r) as [r' gone]. destruct IH as (? & ? & ? & Hg). split_and!; try done.
      intros [Hni Hnd]%NoDup_cons x sub Hx Hs Ha Hl. apply elem_of_cons in Hx as [->|Hx]; [|by eapply Hg].
      exfalso. replace s with sub in Eb by congruence. rewrite Ha in Eb. cbn in Eb. unfold time_Before in Eb. apply Z.ltb_ge in Eb. lia.
  - specialize (IH r). destruct (markStale cutoff ids r) as [r' gone]. destruct IH as (? & ? & ? & Hg). split_and!; try done.
    intros [Hni Hnd]%NoDup_cons x sub Hx Hs Ha Hl. apply elem_of_cons in Hx as [->|Hx]; [congruence|by eapply Hg].
Qed.

(** The second loop deletes, and changes no index. *)
Lemma removeStale_spec gone r :
  removeStale gone r = set_subscriptions (foldl (fun m id => delete id m) (rg_subscriptions r) gone) r.
Proof.
  revert r. induction gone as [|id gone IH]; intros r; cbn [removeStale foldl]; [by destruct r|].
  rewrite IH. unfold removeFromIndexes. cbn [rg_subscriptions set_subscriptions]. by rewrite lookup_delete_eq.
Qed.

Lemma foldl_delete_Some gone (m : gmap string Subscription) id sub :
  foldl (fun m id => delete id m) m gone !! id = Some sub <-> m !! id = Some sub /\ id ∉ gone.
Proof.
  revert m. induction gone as [|x gone IH]; intros m; cbn; [set_solver|].
  rewrite IH, lookup_delete_Some. set_solver.
Qed.

Lemma put_lookup id sub' r x s :
  rg_subscriptions (put id sub' r) !! x = Some s -> (x = id /\ s = sub') \/ (x <> id /\ rg_subscriptions r !! x = Some s).
Proof. cbn. intros [[-> ->]|[? ?]]%lookup_insert_Some; [by left|right; by split]. Qed.

(** What a creation does. *)
Lemma Create_cases env cn r :
  let '(r', o) := CreateSubscription env cn r in
  (rg_subscriptions r' = rg_subscriptions r /\ (exists f, r' = measure f r) /\ (forall s, o <> Returns (Ok s))) \/
  (exists w, authenticate env (cn_webID cn) (cn_token cn) r = Ok w /\ authorize env w (cn_filter cn) r = Ok tt /\
     Z.of_nat (size (rg_subscriptions r)) < MaxSubscriptions (rg_config r) /\ rg_closed r = false /\
     findSame (rg_subscriptions r) (cn_clientID cn) (cn_channelID cn) (cn_filter cn) (default [] (rg_byWebID r !! w)) = Some false /\
     r' = storeSubscription (newSubscription env w cn r) r /\ o = Returns (Ok (newSubscription env w cn r))).
Proof.
  unfold CreateSubscription. assert (exists f, r = measure f r) as Hid by (exists (fun m => m); by destruct r).
  destruct (rg_closed r) eqn:Ec; [by left|]. destruct (MaxSubscriptions _ <=? _) eqn:Em; [by left|].
  destruct (MaxSubscriptionsPerWebID _ <=? _) eqn:Ew; [by left|].
  destruct (authenticate env _ _ r) as [w|e] eqn:Ea; [|left; split_and!; [done|by eexists|done]].
  destruct (validateSubscriptionFilter _); [|by left].
  destruct (authorize env w _ r) as [[]|e] eqn:Ez; [|left; split_and!; [done|by eexists|done]].
  assert (0 <? MaxSubscriptionsPerWebID (rg_config r) = true) as -> by (apply Z.ltb_lt; apply Z.leb_gt in Ew; lia).
  destruct (findSame _ _ _ _ _) as [[]|] eqn:Es; [by left| |by left]. right. exists w. apply Z.leb_gt in Em. by split_and!.
Qed.

(** A cancellation, when the subscription is there. *)
Lemma Cancel_cases env id reason r :
  let r' := fst (CancelSubscription env id reason r) in
  r' = r \/ exists sub f, rg_subscriptions r !! id = Some sub /\
    r' = measure f (set_indexes (removeFromIndex (sb_WebID sub) id (rg_byWebID r)) (removeFromIndex (sb_ChannelID sub) id (rg_byChannel r))
           (set_subscriptions (delete id (rg_subscriptions r)) r)).
Proof.
  unfold CancelSubscription, on_subscription. destruct (rg_closed r); [by left|].
  destruct (rg_subscriptions r !! id) as [sub|] eqn:E; [|by left]. right.
  exists sub, (fun m => uncount (String.eqb (sb_Status sub) SubscriptionStatusActive) false (RecordCancellation (RecordSubscription SubscriptionStatusCancelled m))).
  split; [done|]. unfold removeFromIndexes. cbn. rewrite lookup_insert_eq. cbn. unfold measure, set_indexes, set_subscriptions. cbn.
  by rewrite delete_insert_eq.
Qed.

(** A cleanup, when the registry is open. *)
Lemma Cleanup_cases now ids r :
  let r' := cleanupStaleSubscriptions now ids r in
  (exists m f, r' = measure f (set_subscriptions m r)) /\
  (forall id sub', rg_subscriptions r' !! id = Some sub' -> exists sub, rg_subscriptions r !! id = Some sub /\ forall c, kept c id sub sub') /\
  (rg_closed r = false -> NoDup ids -> forall id sub, id ∈ ids -> rg_subscriptions r !! id = Some sub -> sb_Status sub = SubscriptionStatusActive ->
     sb_LastActivity sub < now - MaxSubscriptionAge (rg_config r) -> rg_subscriptions r' !! id = None).
Proof.
  unfold cleanupStaleSubscriptions. destruct (rg_closed r) eqn:Ec.
  { split_and!; [exists (rg_subscriptions r), (fun m => m); by destruct r| |done]. intros id sub' H. exists sub'. split; [done|]. intros. apply kept_refl. }
  pose proof (markStale_spec (now - MaxSubscriptionAge (rg_config r)) ids r) as H. destruct (markStale _ ids r) as [r1 gone].
  destruct H as ((m & f & ->) & _ & Hk & Hg). rewrite removeStale_spec. split_and!.
  - by eexists _, f.
  - intros id sub' H. cbn in H. apply foldl_delete_Some in H as [H _]. by apply Hk.
  - intros _ Hnd id sub Hin Hs Ha Hl. cbn. destruct (foldl _ _ _ !! id) as [s|] eqn:E; [|done]. exfalso.
    apply foldl_delete_Some in E as [_ Hni]. apply Hni. by eapply Hg.
Qed.

Lemma apply_call_subs c r r' id sub' :
  apply_call c r = Some r' -> rg_subscriptions r' !! id = Some sub' ->
  (exists sub, rg_subscriptions r !! id = Some sub /\ kept c id sub sub') \/ created c id r sub'.
Proof.
  intros H Hs. assert (rg_subscriptions r' = rg_subscriptions r -> exists sub, rg_subscriptions r !! id = Some sub /\ kept c id sub sub') as Hsame.
  { intros Hr. exists sub'. rewrite <- Hr. split; [done|apply kept_refl]. }
  destruct (edited c) as [i|] eqn:Ei.
  - destruct (edited_edits c i r r' Ei H) as [->|(s & s' & f & Hs0 & Hk & ->)]; [left; by apply Hsame|].
    cbn [rg_subscriptions measure] in Hs. apply put_lookup in Hs as [[-> ->]|[Hne Hs]]; [left; by exists s|]. left. exists sub'. split; [done|apply kept_refl].
  - destruct c; try discriminate Ei; try (injection H as <-).
    + pose proof (Create_cases env c r) as Hc. destruct (CreateSubscription env c r) as [r1 o]. cbn in Hs, Hsame.
      destruct Hc as [(Hr & _)|(w & Ha & Hz & _ & _ & _ & -> & _)]; [left; by apply Hsame|].
      cbn in Hs. apply lookup_insert_Some in Hs as [[<- <-]|[Hne Hs]].
      * right. exists env, c, w. by split_and!.
      * left. exists sub'. split; [done|apply kept_refl].
    + destruct (Cancel_cases env id0 reason r) as [Hr|(s & f & Hs0 & Hr)]; rewrite Hr in Hs; [left; exists sub'; split; [done|apply kept_refl]|].
      cbn in Hs. apply lookup_delete_Some in Hs as [_ Hs]. left. exists sub'. split; [done|apply kept_refl].
    + cbn in H. destruct (is_order ids _); [|discriminate H]. injection H as <-. left.
      destruct (Cleanup_cases now ids r) as (_ & Hk & _). destruct (Hk id sub' Hs) as (sub & ? & ?). by exists sub.
    + left. by apply Hsame.
    + left. by apply Hsame.
    + unfold Registry_Close in *. destruct (rg_closed r); [left; by apply Hsame|]. cbn in Hs. by rewrite lookup_empty in Hs.
Qed.

(** ** Delivery is justified *)

Definition provides (a : option Authenticator) (z : option Authorizer) (r : SubscriptionRegistry) : Prop :=
  rg_authProvider r = a /\ rg_authzProvider r = z.
Definition keeps_providers (c : registry_call) : Prop := match c with SetAuthCall _ | SetAuthzCall _ => False | _ => True end.

Lemma apply_call_provides a z c r r' : keeps_providers c -> provides a z r -> apply_call c r = Some r' -> provides a z r'.
Proof.
  intros Hc Hp H. destruct (edited c) as [i|] eqn:Ei.
  { destruct (edited_edits c i r r' Ei H) as [->|(s & s' & f & _ & _ & ->)]; done. }
  destruct c; try discriminate Ei; try done.
  - injection H as <-. pose proof (Create_cases env c r) as H. destruct (CreateSubscription env c r) as [r1 o].
    by destruct H as [(_ & [f ->] & _)|(w & _ & _ & _ & _ & _ & -> & _)].
  - injection H as <-. destruct (Cancel_cases env id reason r) as [->|(s & f & _ & ->)]; done.
  - cbn in H. destruct (is_order ids _); [|discriminate H]. injection H as <-. by destruct (Cleanup_cases now ids r) as ((m & f & ->) & _).
  - injection H as <-. unfold Registry_Close. by destruct (rg_closed r).
Qed.

(** The providers accepted the creation [cn] for the WebID. *)
Definition approved (a : option Authenticator) (z : option Authorizer) (env : registry_env) (cn : creation) (webID : string) : Prop :=
  match a with
  | Some p => ValidateWebID p (cn_webID cn) = Ok tt /\ Authenticate p (rv_now env) (cn_webID cn) (cn_token cn) = Ok webID
  | None => webID = cn_webID cn
  end /\
  match z with
  | Some p => Forall (fun uri => CheckAccess p (rv_now env) webID uri AccessModeRead = Ok true) (sf_ResourceURIs (cn_filter cn) ++ sf_ContainerURIs (cn_filter cn))
  | None => True
  end.

Lemma checkAll_Ok env p w uris : checkAll env p w uris = Ok tt <-> Forall (fun uri => CheckAccess p (rv_now env) w uri AccessModeRead = Ok true) uris.
Proof.
  induction uris as [|uri uris IH]; cbn; [split; [constructor|done]|]. rewrite Forall_cons.
  destruct (CheckAccess p (rv_now env) w uri AccessModeRead) as [[]|]; [rewrite IH; by split; [intros ?|intros [_ ?]]|by split; [|intros [? _]]|by split; [|intros [? _]]].
Qed.

Lemma approved_intro a z env cn r w :
  provides a z r -> authenticate env (cn_webID cn) (cn_token cn) r = Ok w -> authorize env w (cn_filter cn) r = Ok tt -> approved a z env cn w.
Proof.
  intros [<- <-] Ha Hz. unfold approved, authenticate, authorize in *. split.
  - destruct (rg_authProvider r) as [p|]; [|congruence]. destruct (ValidateWebID p _) as [[]|]; [|done]. by destruct (Authenticate p _ _ _); [|done]; simplify_eq.
  - destruct (rg_authzProvider r) as [p|]; [|done]. apply Forall_app. destruct (checkAll env p w (sf_ResourceURIs _)) as [[]|] eqn:E; [|done].
    split; by apply checkAll_Ok.
Qed.

(** Where a stored subscription comes from. *)
Definition origin (a : option Authenticator) (z : option Authorizer) (ls : list registry_call) (id : string) (sub : Subscription) : Prop :=
  exists env cn, CreateCall env cn ∈ ls /\ approved a z env cn (sb_WebID sub) /\
    (sb_Filter sub = cn_filter cn \/ exists env' p m, UpdateCall env' id (Some (sb_Filter sub)) p m ∈ ls).

Lemma calls_origin a z ls r r' :
  provides a z r -> Forall keeps_providers ls -> calls ls r = Some r' ->
  forall pre, (forall id sub, rg_subscriptions r !! id = Some sub -> origin a z pre id sub) ->
  provides a z r' /\ forall id sub, rg_subscriptions r' !! id = Some sub -> origin a z (pre ++ ls) id sub.
Proof.
  intros Hp Hls. revert r Hp. induction Hls as [|c ls Hc _ IH]; intros r Hp H pre Hpre; cbn [calls] in H.
  { injection H as <-. rewrite app_nil_r. by split. }
  destruct (apply_call c r) as [r1|] eqn:E; [|discriminate H].
  assert (pre ++ c :: ls = (pre ++ [c]) ++ ls) as -> by (by rewrite <- app_assoc).
  apply (IH r1 (apply_call_provides a z c r r1 Hc Hp E) H). intros id sub' Hs.
  destruct (apply_call_subs c r r1 id sub' E Hs) as [(sub & Hs0 & _ & Hw & _ & Hf)|(env & cn & w & -> & _ & -> & Ha & Hz)].
  - destruct (Hpre id sub Hs0) as (env & cn & Hin & Hap & Hfil). exists env, cn. rewrite Hw.
    split_and!; [apply elem_of_app; by left|done|]. destruct Hf as [->|(env' & p & m & ->)].
    + destruct Hfil as [?|(env' & p & m & ?)]; [by left|]. right. exists env', p, m. apply elem_of_app. by left.
    + right. exists env', p, m. apply elem_of_app. right. by apply list_elem_of_singleton.
  - exists env, cn. split_and!; [apply elem_of_app; right; by apply list_elem_of_singleton| |by left].
    by apply (approved_intro a z env cn r).
Qed.

(** C15: a subscription may receive an event exactly when it is active, its filter admits the
    resource and the level, and the authorization provider, if there is one and the subscription
    has a WebID, grants that WebID read access to the resource at that moment.  After any calls
    under fixed providers, that WebID is the one the authentication provider returned for the
    claim and the token of a creation whose addresses were all granted, and the filter is that of
    the creation or of a later update. *)
Theorem delivery_access_justified (a : option Authenticator) (z : option Authorizer) (cfg : SubscriptionRegistryConfig)
    (ls : list registry_call) (r : SubscriptionRegistry) (env : registry_env) (id resourceURI level : string) :
  calls ls (SetAuthzProvider z (SetAuthProvider a (NewSubscriptionRegistry cfg))) = Some r -> Forall keeps_providers ls ->
  (CheckAccessForSubscription env id resourceURI level r = Ok true <->
   rg_closed r = false /\ exists sub, rg_subscriptions r !! id = Some sub /\ sb_Status sub = SubscriptionStatusActive /\
     admits (sb_Filter sub) resourceURI level = true /\
     (forall p, z = Some p -> sb_WebID sub <> "" -> CheckAccess p (rv_now env) (sb_WebID sub) resourceURI AccessModeRead = Ok true)) /\
  (forall sub, rg_subscriptions r !! id = Some sub -> origin a z ls id sub).
Proof.
  intros H Hls. destruct (calls_origin a z ls (SetAuthzProvider z (SetAuthProvider a (NewSubscriptionRegistry cfg))) r (conj eq_refl eq_refl) Hls H []) as [[_ Hz] Ho].
  { intros i s Hs. cbn in Hs. by rewrite lookup_empty in Hs. }
  split; [|intros sub; by apply Ho]. unfold CheckAccessForSubscription. rewrite Hz. destruct (rg_closed r); [by split; [|intros [? _]]|].
  destruct (rg_subscriptions r !! id) as [sub|]; [|by split; [|intros (_ & s & ? & _)]].
  destruct (String.eqb_spec (sb_Status sub) SubscriptionStatusActive) as [Hst|Hst]; cbn [negb]; [|split; [done|intros (_ & s & ? & ? & _); by simplify_eq]].
  destruct (admits (sb_Filter sub) resourceURI level) eqn:Ead; cbn [negb]; [|split; [done|intros (_ & s & ? & _ & ? & _); simplify_eq; congruence]].
  destruct z as [p|]; [|by split; [intros _; split; [done|]; exists sub|]].
  destruct (String.eqb_spec (sb_WebID sub) "") as [Hw|Hw]; [split; [intros _; split; [done|]; exists sub; split_and!; try done; intros p' _; by rewrite Hw|done]|].
  split.
  - intros Hc. split; [done|]. exists sub. split_and!; try done. intros p' [= <-] _. by destruct (CheckAccess p _ _ _ _) as [[]|].
  - intros (_ & s & [= <-] & _ & _ & Hp). by rewrite (Hp p eq_refl Hw).
Qed.

(** ** The indexes *)

Notation listing index k := (default [] (index !! k)).

(** An index lists every subscription once, under its key; it may list identifiers of no
    subscription. *)
Record tracks (key : Subscription -> string) (subs : gmap string Subscription) (index : gmap string (list string)) : Prop := {
  tr_once : forall k, NoDup (listing index k);
  tr_all : forall id sub, subs !! id = Some sub -> id ∈ listing index (key sub);
  tr_key : forall k id sub, id ∈ listing index k -> subs !! id = Some sub -> key sub = k
}.

Lemma removeFirst_elem x id l : NoDup l -> x ∈ removeFirst id l <-> x ∈ l /\ x <> id.
Proof.
  induction 1 as [|y l Hy _ IH]; cbn; [set_solver|]. destruct (String.eqb_spec y id) as [->|Hne]; rewrite !elem_of_cons; [|rewrite IH]; set_solver.
Qed.

Lemma removeFirst_NoDup id l : NoDup l -> NoDup (removeFirst id l).
Proof.
  induction 1 as [|y l Hy Hl IH]; cbn; [constructor|]. destruct (String.eqb y id); [done|].
  apply NoDup_cons. split; [|done]. rewrite removeFirst_elem by done. by intros [? _].
Qed.

Lemma removeFromIndex_listing key id index k :
  listing (removeFromIndex key id index) k = if decide (k = key) then removeFirst id (listing index k) else listing index k.
Proof.
  unfold removeFromIndex. destruct (index !! key) as [ids|] eqn:E.
  - case_bool_decide as Hn; destruct (decide (k = key)) as [->|Hne].
    + by rewrite lookup_delete_eq, E, <- Hn.
    + by rewrite lookup_delete_ne.
    + by rewrite lookup_insert_eq, E.
    + by rewrite lookup_insert_ne.
  - destruct (decide (k = key)) as [->|Hne]; [by rewrite E|done].
Qed.

Lemma addToIndex_listing key id index k :
  listing (addToIndex key id index) k = if decide (k = key) then listing index k ++ [id] else listing index k.
Proof.
  unfold addToIndex. destruct (decide (k = key)) as [->|Hne]; [by rewrite lookup_insert_eq|by rewrite lookup_insert_ne].
Qed.

Section tracking.
Context (key : Subscription -> string).
Implicit Types (subs : gmap string Subscription) (index : gmap string (list string)).

Lemma tracks_shrink subs subs' index :
  (forall id sub', subs' !! id = Some sub' -> exists sub, subs !! id = Some sub /\ key sub' = key sub) ->
  tracks key subs index -> tracks key subs' index.
Proof using Type.
  intros H [Ho Ha Hk]. split; [done| |].
  - intros id sub' Hs. destruct (H id sub' Hs) as (sub & Hs0 & ->). by apply Ha.
  - intros k id sub' Hin Hs. destruct (H id sub' Hs) as (sub & Hs0 & ->). by eapply Hk.
Qed.

Lemma tracks_add id sub subs index :
  (forall k, id ∉ listing index k) -> subs !! id = None -> tracks key subs index ->
  tracks key (<[id := sub]> subs) (addToIndex (key sub) id index).
Proof using Type.
  intros Hnew Hnone [Ho Ha Hk]. split.
  - intros k. rewrite addToIndex_listing. destruct (decide _); [|done]. apply NoDup_app. split_and!; [done| |apply NoDup_singleton].
    intros x Hx Hxid%list_elem_of_singleton. subst x. by apply (Hnew k).
  - intros x s [[<- <-]|[Hne Hs]]%lookup_insert_Some; rewrite addToIndex_listing; [rewrite decide_True by done; set_solver|].
    destruct (decide _); [apply elem_of_app; left|]; by apply Ha.
  - intros k x s Hx Hs. rewrite addToIndex_listing in Hx. apply lookup_insert_Some in Hs as [[<- <-]|[Hne Hs]].
    + destruct (decide _) as [->|]; [done|]. by apply Hnew in Hx.
    + apply (Hk k x s); [|done]. destruct (decide _); [|done]. apply elem_of_app in Hx as [?|Hx%list_elem_of_singleton]; [done|congruence].
Qed.

Lemma tracks_remove id sub subs index :
  subs !! id = Some sub -> tracks key subs index -> tracks key (delete id subs) (removeFromIndex (key sub) id index).
Proof using Type.
  intros Hsub [Ho Ha Hk]. split.
  - intros k. rewrite removeFromIndex_listing. destruct (decide _); [by apply removeFirst_NoDup|done].
  - intros x s [Hne Hs]%lookup_delete_Some. rewrite removeFromIndex_listing. destruct (decide _); [|by apply Ha].
    apply removeFirst_elem; [done|]. split; [by apply Ha|done].
  - intros k x s Hx [_ Hs]%lookup_delete_Some. apply (Hk k x s); [|done]. rewrite removeFromIndex_listing in Hx.
    destruct (decide _); [|done]. by apply removeFirst_elem in Hx as [? _].
Qed.

(** A lookup through the index finds the subscriptions with the key. *)
Lemma tracks_lookup subs index k :
  (forall id sub, subs !! id = Some sub -> SubscriptionID sub = id) -> tracks key subs index ->
  omap (fun id => subs !! id) (listing index k) ≡ₚ filter (fun sub => key sub = k) (map_to_list subs).*2.
Proof using Type.
  intros Hid [Ho Ha Hk]. assert (forall x y sub, subs !! x = Some sub -> subs !! y = Some sub -> x = y) as Hinj.
  { intros x y sub Hx Hy. by rewrite <- (Hid x sub Hx), <- (Hid y sub Hy). }
  apply NoDup_Permutation.
  - pose proof (Ho k) as Hn. induction Hn as [|x l Hx _ IH]; cbn; [constructor|]. destruct (subs !! x) as [sub|] eqn:E; [|done].
    apply NoDup_cons. split; [|done]. intros (y & Hy & Hs)%list_elem_of_omap. by rewrite (Hinj x y sub E Hs) in Hx.
  - apply NoDup_filter. apply NoDup_fmap_2_strong; [|apply NoDup_map_to_list].
    intros [x s] [y t] Hx%elem_of_map_to_list Hy%elem_of_map_to_list. cbn. intros ->. by rewrite (Hinj x y t Hx Hy).
  - intros sub. rewrite list_elem_of_omap, list_elem_of_filter, list_elem_of_fmap. split.
    + intros (x & Hx & Hs). split; [by eapply Hk|]. exists (x, sub). split; [done|]. by apply elem_of_map_to_list.
    + intros (<- & [x s] & -> & Hx%elem_of_map_to_list). exists x. split; [by apply Ha|done].
Qed.
End tracking.

Ltac fields := cbn [rg_subscriptions rg_byWebID rg_byChannel rg_config rg_closed measure set_indexes set_subscriptions storeSubscription
  newSubscription sb_WebID sb_ChannelID].

(** What holds of a registry whose creations drew the identifiers [drawn]. *)
Record registry_ok (drawn : list string) (r : SubscriptionRegistry) : Prop := {
  ro_webID : tracks sb_WebID (rg_subscriptions r) (rg_byWebID r);
  ro_channel : tracks sb_ChannelID (rg_subscriptions r) (rg_byChannel r);
  ro_ids : forall id sub, rg_subscriptions r !! id = Some sub -> SubscriptionID sub = id /\ id ∈ drawn;
  ro_drawn : forall k id, id ∈ listing (rg_byWebID r) k \/ id ∈ listing (rg_byChannel r) k -> id ∈ drawn;
  ro_bound : Z.of_nat (size (rg_subscriptions r)) <= Z.max 0 (MaxSubscriptions (rg_config r))
}.

Definition drawn_id (c : registry_call) : option string :=
  match c with CreateCall env _ => (fun b => String.append "sub-" (hex_EncodeToString b)) <$> rv_random env | _ => None end.
(** Random bytes were to be had, and no identifier was drawn twice. *)
Definition random_read (c : registry_call) : Prop := match c with CreateCall env _ => is_Some (rv_random env) | _ => True end.
Definition distinct_ids (ls : list registry_call) : Prop := Forall random_read ls /\ NoDup (omap drawn_id ls).

Lemma size_shrink (m m' : gmap string Subscription) : (forall id, is_Some (m' !! id) -> is_Some (m !! id)) -> (size m' <= size m)%nat.
Proof. intros H. rewrite <- !size_dom. apply subseteq_size. intros id. rewrite !elem_of_dom. apply H. Qed.

Lemma empty_ok drawn cfg a z closed m : registry_ok drawn (mkRegistry cfg ∅ ∅ ∅ a z closed m).
Proof.
  assert (forall key, tracks key ∅ ∅) as Ht.
  { split; [intros k; rewrite lookup_empty; constructor|intros id s H; by rewrite lookup_empty in H|intros k id s _ H; by rewrite lookup_empty in H]. }
  split; fields; [apply Ht|apply Ht|intros id s H; by rewrite lookup_empty in H| |rewrite map_size_empty; lia].
  intros k id. rewrite lookup_empty. set_solver.
Qed.

(** A call that drops or edits subscriptions and leaves the indexes. *)
Lemma shrink_ok drawn r m f :
  (forall id sub', m !! id = Some sub' -> exists sub, rg_subscriptions r !! id = Some sub /\ exists c, kept c id sub sub') ->
  registry_ok drawn r -> registry_ok drawn (measure f (set_subscriptions m r)).
Proof.
  intros Hm [Hw Hc Hi Hd Hb]. split; fields.
  - apply (tracks_shrink _ (rg_subscriptions r)); [|done]. intros id sub' Hs. destruct (Hm id sub' Hs) as (sub & ? & c & _ & ? & _). by exists sub.
  - apply (tracks_shrink _ (rg_subscriptions r)); [|done]. intros id sub' Hs. destruct (Hm id sub' Hs) as (sub & ? & c & _ & _ & ? & _). by exists sub.
  - intros id sub' Hs. destruct (Hm id sub' Hs) as (sub & H0 & c & -> & _). by apply Hi.
  - done.
  - enough (size m <= size (rg_subscriptions r))%nat by lia. apply size_shrink. intros id [sub' Hs]. destruct (Hm id sub' Hs) as (sub & ? & _). by exists sub.
Qed.

Lemma registry_ok_weaken drawn drawn' r : (forall id, id ∈ drawn -> id ∈ drawn') -> registry_ok drawn r -> registry_ok drawn' r.
Proof. intros H [Hw Hc Hi Hd Hb]. split; try done; [intros id sub Hs; destruct (Hi id sub Hs); by split; [|apply H]|intros k id Hin; by eapply H, Hd]. Qed.

Lemma store_ok drawn env w cn b r :
  rv_random env = Some b -> String.append "sub-" (hex_EncodeToString b) ∉ drawn ->
  Z.of_nat (size (rg_subscriptions r)) < MaxSubscriptions (rg_config r) -> registry_ok drawn r ->
  registry_ok (String.append "sub-" (hex_EncodeToString b) :: drawn) (storeSubscription (newSubscription env w cn r) r).
Proof.
  intros Hb Hnew Hlt [Hw Hc Hi Hd Hbd]. set (id := String.append _ _) in *.
  assert (SubscriptionID (newSubscription env w cn r) = id) as Hid by (cbn; unfold generateSubscriptionID; by rewrite Hb).
  assert (rg_subscriptions r !! id = None) as Hnone.
  { destruct (rg_subscriptions r !! id) as [s|] eqn:E; [|done]. by destruct (Hi id s E). }
  split; fields; rewrite ?Hid.
  - apply tracks_add; [|done|done]. intros k Hin. apply Hnew, (Hd k). by left.
  - apply (tracks_add sb_ChannelID id (newSubscription env w cn r)); [|done|done]. intros k Hin. apply Hnew, (Hd k). by right.
  - intros x s [[<- <-]|[Hne Hs]]%lookup_insert_Some; [split; [done|apply elem_of_cons; by left]|].
    destruct (Hi x s Hs). split; [done|]. apply elem_of_cons. by right.
  - intros k x. rewrite !addToIndex_listing. intros Hx. rewrite elem_of_cons.
    assert (x = id \/ x ∈ listing (rg_byWebID r) k \/ x ∈ listing (rg_byChannel r) k) as [?|Hx'].
    { destruct (decide _), (decide _); set_solver. }
    + by left.
    + right. by apply (Hd k).
  - rewrite map_size_insert_None by done. lia.
Qed.

Lemma apply_call_ok drawn c r r' :
  random_read c -> (forall id, drawn_id c = Some id -> id ∉ drawn) -> registry_ok drawn r -> apply_call c r = Some r' ->
  registry_ok (option_list (drawn_id c) ++ drawn) r'.
Proof.
  intros Hr Hnew Hok H. destruct (edited c) as [i|] eqn:Ei.
  { assert (drawn_id c = None) as -> by (by destruct c).
    destruct (edited_edits c i r r' Ei H) as [->|(s & s' & f & Hs & Hk & ->)]; [done|]. apply (shrink_ok drawn r); [|done].
    intros id sub' [[<- <-]|[Hne Hs']]%lookup_insert_Some; [by exists s; eauto|]. exists sub'. split; [done|]. exists c. apply kept_refl. }
  destruct c; try discriminate Ei; cbn [drawn_id option_list app] in *; try (injection H as <-).
  - destruct Hr as [b Hb]. rewrite Hb. cbn [fmap option_fmap option_map option_list app]. pose proof (Create_cases env c r) as H.
    destruct (CreateSubscription env c r) as [r1 o]. destruct H as [(_ & [f ->] & _)|(w & _ & _ & Hlt & _ & _ & -> & _)]; cbn [fst].
    + apply (registry_ok_weaken drawn); [intros id ?; apply elem_of_cons; by right|]. destruct Hok; by split.
    + apply store_ok; [done| |done|done]. apply Hnew. by rewrite Hb.
  - destruct (Cancel_cases env id reason r) as [->|(s & f & Hs & ->)]; [done|]. destruct Hok as [Hw Hc Hi Hd Hb]. split; fields.
    + by apply tracks_remove.
    + by apply (tracks_remove sb_ChannelID).
    + intros x s' [_ Hs']%lookup_delete_Some. by apply Hi.
    + intros k x. rewrite !removeFromIndex_listing. intros Hx. apply (Hd k).
      destruct (decide _), (decide _); rewrite ?(removeFirst_elem _ _ _ (tr_once _ _ _ Hw k)), ?(removeFirst_elem _ _ _ (tr_once _ _ _ Hc k)) in Hx; tauto.
    + rewrite map_size_delete_Some by (by exists s). lia.
  - cbn in H. destruct (is_order ids _); [|discriminate H]. injection H as <-.
    destruct (Cleanup_cases now ids r) as ((m & f & Heq) & Hk & _). rewrite Heq in *. apply (shrink_ok drawn r); [|done].
    intros id sub' Hs. destruct (Hk id sub' Hs) as (sub & ? & Hkc). exists sub. split; [done|]. by exists CloseCall.
  - destruct Hok; by split.
  - destruct Hok; by split.
  - unfold Registry_Close. destruct (rg_closed r); [done|]. by apply empty_ok.
Qed.

Lemma omap_drawn_cons c ls : omap drawn_id (c :: ls) = option_list (drawn_id c) ++ omap drawn_id ls.
Proof. cbn. by destruct (drawn_id c). Qed.

Lemma drawn_swap c ls (drawn : list string) :
  (option_list (drawn_id c) ++ omap drawn_id ls) ++ drawn ≡ₚ omap drawn_id ls ++ option_list (drawn_id c) ++ drawn.
Proof. rewrite !(assoc_L (++)). f_equiv. by rewrite (comm (++)). Qed.

Lemma calls_ok ls r r' drawn :
  Forall random_read ls -> NoDup (omap drawn_id ls ++ drawn) -> registry_ok drawn r -> calls ls r = Some r' ->
  exists drawn', registry_ok drawn' r' /\ drawn' ≡ₚ omap drawn_id ls ++ drawn.
Proof.
  revert r drawn. induction ls as [|c ls IH]; intros r drawn Hr Hn Hok H; cbn [calls] in H; [injection H as <-; by exists drawn|].
  apply Forall_cons in Hr as [Hc Hr]. destruct (apply_call c r) as [r1|] eqn:E; [|discriminate H].
  rewrite omap_drawn_cons in *.
  rewrite drawn_swap in Hn. setoid_rewrite drawn_swap. apply (IH r1); try done. apply (apply_call_ok drawn c r); try done.
  intros id Hid. rewrite Hid in Hn. cbn in Hn. apply NoDup_app in Hn as (_ & _ & [Hn _]%NoDup_cons). done.
Qed.

(** C16: a lookup through an index finds exactly what a scan would: after any calls, the
    subscriptions returned for a WebID and for a channel are, up to order, those of the registry
    that have it, and there are never more subscriptions than the limit.  The identifiers drawn
    are assumed to be distinct. *)
Theorem index_lookups_exact (cfg : SubscriptionRegistryConfig) (ls : list registry_call) (r : SubscriptionRegistry) (webID channelID : string) :
  calls ls (NewSubscriptionRegistry cfg) = Some r -> distinct_ids ls -> rg_closed r = false ->
  Z.of_nat (size (rg_subscriptions r)) <= Z.max 0 (MaxSubscriptions (rg_config r)) /\
  (exists l, GetSubscriptionsByWebID webID r = Ok l /\ l ≡ₚ filter (fun sub => sb_WebID sub = webID) (map_to_list (rg_subscriptions r)).*2) /\
  (exists l, GetSubscriptionsByChannel channelID r = Ok l /\ l ≡ₚ filter (fun sub => sb_ChannelID sub = channelID) (map_to_list (rg_subscriptions r)).*2).
Proof.
  intros H [Hr Hn] Hc. destruct (calls_ok ls (NewSubscriptionRegistry cfg) r [] Hr) as (drawn & [Hw Hch Hi _ Hb] & _);
    [by rewrite app_nil_r|apply empty_ok|done|].
  split; [done|]. unfold GetSubscriptionsByWebID, GetSubscriptionsByChannel. rewrite Hc.
  split; (eexists; split; [reflexivity|]); apply tracks_lookup; try done; intros id sub Hs; by apply Hi.
Qed.

(** ** Expiry *)

(** An identifier in the index of a WebID that is no subscription. *)
Definition dangling (webID id : string) (r : SubscriptionRegistry) : Prop :=
  id ∈ listing (rg_byWebID r) webID /\ rg_subscriptions r !! id = None.

Lemma apply_call_dangling drawn w id c r r' :
  random_read c -> (forall x, drawn_id c = Some x -> x ∉ drawn) -> registry_ok drawn r -> apply_call c r = Some r' ->
  dangling w id r -> dangling w id r' \/ rg_closed r' = true.
Proof.
  intros Hr Hnew Hok H [Hin Hnone]. assert (id ∈ drawn) as Hdr by (apply (ro_drawn _ _ Hok w); by left).
  destruct (edited c) as [i|] eqn:Ei.
  { left. destruct (edited_edits c i r r' Ei H) as [->|(s & s' & f & Hs & Hk & ->)]; [by split|]. split; fields; [done|].
    cbn. rewrite lookup_insert_ne; [done|congruence]. }
  destruct c; try discriminate Ei; try (injection H as <-).
  - left. destruct Hr as [b Hb]. pose proof (Create_cases env c r) as H. destruct (CreateSubscription env c r) as [r1 o]. cbn [fst].
    destruct H as [(_ & [f ->] & _)|(w' & _ & _ & _ & _ & _ & -> & _)]; [by split|]. split; fields.
    + rewrite addToIndex_listing. destruct (decide _); [apply elem_of_app; by left|done].
    + rewrite lookup_insert_ne; [done|]. intros Hid. apply (Hnew id); [|done]. cbn. rewrite Hb, <- Hid. cbn. unfold generateSubscriptionID. by rewrite Hb.
  - left. destruct (Cancel_cases env id0 reason r) as [->|(s & f & Hs & ->)]; [by split|]. split; fields.
    + rewrite removeFromIndex_listing. destruct (decide _); [|done].
      apply removeFirst_elem; [apply (ro_webID _ _ Hok)|]. split; [done|congruence].
    + by rewrite lookup_delete_None; right.
  - cbn in H. destruct (is_order ids _); [|discriminate H]. injection H as <-. left.
    destruct (Cleanup_cases now ids r) as ((m & f & Heq) & Hk & _). rewrite Heq in *. split; fields; [done|].
    destruct (m !! id) as [s|] eqn:E; [|done]. destruct (Hk id s E) as (s0 & ? & _). congruence.
  - by left.
  - by left.
  - unfold Registry_Close. destruct (rg_closed r) eqn:E; [right; by rewrite E|by right].
Qed.

Lemma closed_stays c r r' : apply_call c r = Some r' -> rg_closed r = true -> rg_closed r' = true.
Proof.
  intros H Hc. destruct (edited c) as [i|] eqn:Ei; [by destruct (edited_edits c i r r' Ei H) as [->|(s & s' & f & _ & _ & ->)]|].
  destruct c; try discriminate Ei; try (injection H as <-); try done.
  - unfold apply_call, CreateSubscription. by rewrite Hc.
  - by destruct (Cancel_cases env id reason r) as [->|(s & f & _ & ->)].
  - cbn in H. destruct (is_order ids _); [|discriminate H]. injection H as <-. by destruct (Cleanup_cases now ids r) as ((m & f & ->) & _).
  - unfold Registry_Close. by rewrite Hc.
Qed.

Lemma calls_dangling ls r r' drawn w id :
  Forall random_read ls -> NoDup (omap drawn_id ls ++ drawn) -> registry_ok drawn r -> calls ls r = Some r' ->
  dangling w id r \/ rg_closed r = true -> dangling w id r' \/ rg_closed r' = true.
Proof.
  revert r drawn. induction ls as [|c ls IH]; intros r drawn Hr Hn Hok H Hd; cbn [calls] in H; [by injection H as <-|].
  apply Forall_cons in Hr as [Hc Hr]. destruct (apply_call c r) as [r1|] eqn:E; [|discriminate H]. rewrite omap_drawn_cons in Hn.
  assert (forall x, drawn_id c = Some x -> x ∉ drawn) as Hnew.
  { intros x Hx Hin. rewrite Hx in Hn. cbn in Hn. apply NoDup_cons in Hn as [Hn _]. apply Hn, elem_of_app. by right. }
  apply (IH r1 (option_list (drawn_id c) ++ drawn)); try done.
  - by rewrite <- drawn_swap.
  - by apply (apply_call_ok drawn c r).
  - destruct Hd as [Hd|Hd]; [by apply (apply_call_dangling drawn w id c r)|right; by apply (closed_stays c r)].
Qed.

Lemma findSame_dangling subs client channel f ids id :
  id ∈ ids -> subs !! id = None ->
  findSame subs client channel f ids <> Some false /\
  ((forall x s, subs !! x = Some s -> sb_ClientID s <> client) -> findSame subs client channel f ids = None).
Proof.
  intros Hin Hnone. induction ids as [|x ids IH]; [by apply not_elem_of_nil in Hin|]. cbn [findSame].
  apply elem_of_cons in Hin as [<-|Hin]; [by rewrite Hnone|]. destruct (IH Hin) as [IH1 IH2].
  destruct (subs !! x) as [s|] eqn:E; [|done]. split; [by destruct (_ && _)|]. intros Hcl.
  destruct (String.eqb_spec (sb_ClientID s) client) as [Hs|_]; [by apply Hcl in E|]. by apply IH2.
Qed.

(** C38: the expiry of a subscription shuts its WebID out.  Once a cleanup has removed an inactive
    subscription of a WebID, then after any further calls no creation authenticated as that WebID
    succeeds; one with a new client that passes all checks panics.  The cleanup deletes the
    subscription before it looks it up to update the indexes. *)
Theorem expired_webid_locked_out (cfg : SubscriptionRegistryConfig) (ls ls' : list registry_call) (r r1 r2 : SubscriptionRegistry)
    (now : Z) (ids : list string) (id : string) (sub : Subscription) (env : registry_env) (cn : creation) :
  calls ls (NewSubscriptionRegistry cfg) = Some r -> rg_closed r = false -> rg_subscriptions r !! id = Some sub ->
  sb_Status sub = SubscriptionStatusActive -> sb_LastActivity sub < now - MaxSubscriptionAge (rg_config r) ->
  apply_call (CleanupCall now ids) r = Some r1 -> calls ls' r1 = Some r2 -> distinct_ids (ls ++ ls') ->
  authenticate env (cn_webID cn) (cn_token cn) r2 = Ok (sb_WebID sub) ->
  (forall s, snd (CreateSubscription env cn r2) <> Returns (Ok s)) /\
  (rg_closed r2 = false -> Z.of_nat (size (rg_subscriptions r2)) < MaxSubscriptions (rg_config r2) ->
   Z.of_nat (length (listing (rg_byWebID r2) (cn_webID cn))) < MaxSubscriptionsPerWebID (rg_config r2) ->
   validateSubscriptionFilter (cn_filter cn) = Ok tt -> authorize env (sb_WebID sub) (cn_filter cn) r2 = Ok tt ->
   (forall x s, rg_subscriptions r2 !! x = Some s -> sb_ClientID s <> cn_clientID cn) ->
   snd (CreateSubscription env cn r2) = Panics).
Proof.
  intros H Hc Hs Hact Hold Hclean H' [Hr Hn] Ha. rewrite omap_app in Hn. apply Forall_app in Hr as [Hr Hr'].
  destruct (calls_ok ls (NewSubscriptionRegistry cfg) r [] Hr) as (drawn & Hok & Hdr); [rewrite app_nil_r; by apply NoDup_app in Hn as [? _]|apply empty_ok|done|].
  rewrite app_nil_r in Hdr. pose proof (apply_call_ok drawn (CleanupCall now ids) r r1 I ltac:(done) Hok Hclean) as Hok1. cbn [drawn_id option_list app] in Hok1.
  assert (dangling (sb_WebID sub) id r1) as Hd1.
  { cbn in Hclean. destruct (is_order ids (rg_subscriptions r)) eqn:Eo; [|discriminate Hclean]. injection Hclean as <-.
    destruct (Cleanup_cases now ids r) as ((m & f & Heq) & _ & Hgone). split.
    - rewrite Heq. fields. by apply (ro_webID _ _ Hok).
    - apply (Hgone Hc) with (sub := sub); try done; [|by eapply is_order_elem]. unfold is_order in Eo. apply andb_true_iff in Eo as [Eo _]. by apply bool_decide_eq_true in Eo. }
  destruct (calls_dangling ls' r1 r2 drawn (sb_WebID sub) id) as [[Hin Hnone]|Hcl]; [done| |done|done|by left| |].
  - rewrite Hdr, (comm (++)). exact Hn.
  - destruct (findSame_dangling (rg_subscriptions r2) (cn_clientID cn) (cn_channelID cn) (cn_filter cn) _ id Hin Hnone) as [Hf1 Hf2]. split.
    + intros s Hsnd. pose proof (Create_cases env cn r2) as Hcase. destruct (CreateSubscription env cn r2) as [r3 o].
      destruct Hcase as [(_ & _ & Ho)|(w & Hw & _ & _ & _ & Hf & _)]; [by apply (Ho s)|]. congruence.
    + intros Hop Hmax Hper Hval Haz Hcl. unfold CreateSubscription. rewrite Hop, Ha, Hval, Haz, (Hf2 Hcl).
      apply Z.leb_gt in Hmax, Hper. rewrite Hmax, Hper. apply Z.leb_gt in Hper. by rewrite (proj2 (Z.ltb_lt 0 _)) by lia.
  - unfold CreateSubscription. rewrite Hcl. by split.
Qed.

(** ** Examples *)

(** Tokens that name their owner, and read access to everything below one's own origin. *)
Definition sampleAuth : Authenticator :=
  mkAuthenticator (fun _ webID token => if String.eqb token webID then Ok webID else Err "wrong token") (fun _ => Ok tt).
Definition sampleAuthz : Authorizer :=
  mkAuthorizer (fun _ agent uri _ => Ok (HasPrefix uri "https://bob.example/" && String.eqb agent bob)).
Definition sampleRegistryEnv (seconds : Z) (b : Z) : registry_env := mkRegistryEnv (time_Unix seconds) "" (Some [b]) None.
Definition bobsNotes : StreamFilter := mkStreamFilter [] [] ["https://bob.example/notes/"] [] [] "" "".
Definition subscribeTo (webID client : string) (f : StreamFilter) : creation := mkCreation webID webID client "main" f "" "websocket" 0 None.
Definition bobSubscribes : registry_call := CreateCall (sampleRegistryEnv 10 1) (subscribeTo bob "app" bobsNotes).
Definition aliceSubscribes : registry_call := CreateCall (sampleRegistryEnv 20 2) (subscribeTo alice "app" anything).

Definition after_calls (ls : list registry_call) (r : SubscriptionRegistry) : SubscriptionRegistry := default r (calls ls r).
Definition guarded : SubscriptionRegistry :=
  SetAuthzProvider (Some sampleAuthz) (SetAuthProvider (Some sampleAuth) (NewSubscriptionRegistry DefaultSubscriptionRegistryConfig)).

Lemma delivery_access_justified_witness :
  let r := after_calls [bobSubscribes] guarded in
  CheckAccessForSubscription (sampleRegistryEnv 30 0) "sub-01" "https://bob.example/notes/1" "public" r = Ok true /\
  CheckAccessForSubscription (sampleRegistryEnv 30 0) "sub-01" "https://alice.example/notes/1" "public" r = Ok false /\
  (forall sub, rg_subscriptions r !! "sub-01" = Some sub -> origin (Some sampleAuth) (Some sampleAuthz) [bobSubscribes] "sub-01" sub).
Proof.
  intros r. split; [vm_compute; reflexivity|]. split; [vm_compute; reflexivity|].
  apply (delivery_access_justified (Some sampleAuth) (Some sampleAuthz) DefaultSubscriptionRegistryConfig [bobSubscribes] r
           (sampleRegistryEnv 30 0) "sub-01" "https://bob.example/notes/1" "public"); [reflexivity|repeat constructor].
Defined.

Definition bobAndAlice : SubscriptionRegistry := after_calls [bobSubscribes; aliceSubscribes] (NewSubscriptionRegistry DefaultSubscriptionRegistryConfig).

Lemma index_lookups_exact_witness :
  exists l, GetSubscriptionsByChannel "main" bobAndAlice = Ok l /\
    l ≡ₚ filter (fun sub => sb_ChannelID sub = "main") (map_to_list (rg_subscriptions bobAndAlice)).*2 /\ length l = 2%nat.
Proof.
  destruct (index_lookups_exact DefaultSubscriptionRegistryConfig [bobSubscribes; aliceSubscribes] bobAndAlice bob "main") as (_ & _ & l & Hl & Hp);
    [vm_compute; reflexivity| |vm_compute; reflexivity|].
  - split; [repeat constructor; eexists; reflexivity|]. apply (bool_decide_unpack _). vm_compute. exact I.
  - exists l. split; [exact Hl|]. split; [exact Hp|].
    assert (match GetSubscriptionsByChannel "main" bobAndAlice with Ok l => length l | Err _ => 0%nat end = 2%nat) as H by (vm_compute; reflexivity).
    rewrite Hl in H. exact H.
Defined.

Definition bobOnly : SubscriptionRegistry := after_calls [bobSubscribes] (NewSubscriptionRegistry DefaultSubscriptionRegistryConfig).
Definition aDayLater : SubscriptionRegistry := after_calls [CleanupCall (time_Unix 90000) ["sub-01"]] bobOnly.
Definition thenAlice : SubscriptionRegistry := after_calls [aliceSubscribes] aDayLater.

(** A day after Bob's subscription it expires; Alice subscribes; and Bob's next creation panics. *)
Lemma expired_webid_locked_out_witness :
  snd (CreateSubscription (sampleRegistryEnv 90001 3) (subscribeTo bob "other" anything) thenAlice) = Panics.
Proof.
  apply (expired_webid_locked_out DefaultSubscriptionRegistryConfig [bobSubscribes] [aliceSubscribes] bobOnly aDayLater thenAlice (time_Unix 90000)
           ["sub-01"] "sub-01"
           (newSubscription (sampleRegistryEnv 10 1) bob (subscribeTo bob "app" bobsNotes) (NewSubscriptionRegistry DefaultSubscriptionRegistryConfig)));
    try (vm_compute; reflexivity).
  - split; [repeat constructor; eexists; reflexivity|]. apply (bool_decide_unpack _). vm_compute. exact I.
  - intros x s. apply (proj1 (map_Forall_lookup (fun _ s => sb_ClientID s <> "other") _)). apply (bool_decide_unpack _). vm_compute. exact I.
Defined.
