(* ===== verification/PolicyParsers.v ===== *)
(** * Reading policies

    [internal/authz/rdf_parser.go] (the registry of RDF parsers),
    [internal/authz/rdf_parser_boundary.go] (the boundary to the runtime's RDF layer),
    [internal/authz/wac_parser.go] and [internal/authz/acp_parser.go] (the rules of WAC and ACP
    documents).  A parser is a record of functions over a world [W] it may change; a call
    returns, panics or waits for ever, as in the runtime's layer.  Whether a context is
    cancelled at the points where the code asks for it is an argument. *)

From S2P Require Import Prelude GoStrings GoURL GoHash AuthzTypes Evaluator WacEvaluator AcpEvaluator RDFIndex.

Local Open Scope Z_scope.

(** ** Data *)

Inductive parse_error :=
| ErrRDFParseFailed (e : parse_error)
| ErrRDFParserNotFound (contentType : string)
| ErrRDFContentTypeNotSupported (contentType : string)
| ErrRDFInputTooLarge (size limit : Z)
| ErrRDFParserBoundaryNotAvailable
| ErrRDFParserBoundaryClosed
| ErrHealthCheck (e : parse_error)
| ErrRuntime (e : Runtime.error)
| ErrTriple (what : string)
| ErrContextDone (what : string)
| ErrRegistryRequired
| ErrWACParseFailed (e : parse_error)
| ErrWACInvalidRule (what : string)
| ErrWACMissingRequiredField (what : string)
| ErrACPParseFailed (e : parse_error)
| ErrACPInvalidRule (what : string)
| ErrACPMissingRequiredField (what : string)
| ErrTooManyRules (count max : Z)
| ErrNoPolicyFound (resource : string).

Definition RDFTermTypeIRI : string := "IRI".
Definition RDFTermTypeLiteral : string := "Literal".
Definition RDFTermTypeBlankNode : string := "BlankNode".

Record RDFTriple := mkRDFTriple {
  tr_Subject : string;
  tr_Predicate : string;
  tr_Object : string;
  tr_ObjectType : string;
  tr_Language : string;
  tr_Datatype : string
}.

Record RDFParseResult := mkRDFParseResult {
  rr_Triples : list RDFTriple;
  rr_NamedGraphs : gmap string (list RDFTriple);
  rr_BaseURI : string;
  rr_ContentType : string;
  rr_SHA256 : string
}.

(** Calls over a world. *)
Definition PM (W A : Type) : Type := W -> Runtime.outcome (W * A).
#[export] Instance PM_ret W : MRet (PM W) := fun A a w => Runtime.Returns (w, a).
#[export] Instance PM_bind W : MBind (PM W) := fun A C k m w =>
  match m w with
  | Runtime.Returns (w', a) => k a w'
  | Runtime.Panics => Runtime.Panics
  | Runtime.Blocks => Runtime.Blocks
  end.

Definition panics {W A} : PM W A := fun _ => Runtime.Panics.

(** The interface [RDFParser]. *)
Record RDFParser (W : Type) := mkRDFParser {
  rp_Parse : string -> string -> PM W (result parse_error RDFParseResult);
  rp_SupportedContentTypes : list string
}.
Arguments mkRDFParser {W} _ _.
Arguments rp_Parse {W} _ _ _.
Arguments rp_SupportedContentTypes {W} _.

(** ** The registry *)

Record RDFParserOptions := mkRDFParserOptions {
  ro_MaxInputSize : Z;
  ro_Timeout : Z;
  ro_AllowedContentTypes : list string;
  ro_DisallowedContentTypes : list string
}.

Definition DefaultRDFParserOptions : RDFParserOptions :=
  mkRDFParserOptions 1048576 (30 * second)
    ["text/turtle"; "application/ld+json"; "application/n-triples"; "application/rdf+xml";
     "application/sparql-results+json"]
    ["text/html"; "text/javascript"; "application/javascript"; "application/x-javascript"; "application/ecmascript"].

Record RDFParserRegistry (W : Type) := mkRegistry {
  reg_options : RDFParserOptions;
  reg_parsers : list (RDFParser W);
  reg_contentTypeMap : gmap string (RDFParser W)
}.
Arguments mkRegistry {W} _ _ _.
Arguments reg_options {W} _.
Arguments reg_parsers {W} _.
Arguments reg_contentTypeMap {W} _.

(** The registry takes the options before their defaults are filled in. *)
Definition NewRDFParserRegistry {W} (options : RDFParserOptions) : RDFParserRegistry W :=
  mkRegistry options [] ∅.

Definition Register {W} (parser : RDFParser W) (r : RDFParserRegistry W) : RDFParserRegistry W :=
  mkRegistry (reg_options r) (reg_parsers r ++ [parser])
    (foldl (fun m ct => <[ToLower (TrimSpace ct) := parser]> m) (reg_contentTypeMap r)
       (rp_SupportedContentTypes parser)).

Definition isAllowedContentType (o : RDFParserOptions) (contentType : string) : bool :=
  existsb (fun a => String.eqb (ToLower (TrimSpace a)) (ToLower (TrimSpace contentType))) (ro_AllowedContentTypes o).
Definition isDisallowedContentType (o : RDFParserOptions) (contentType : string) : bool :=
  existsb (fun d => String.eqb (ToLower (TrimSpace d)) (ToLower (TrimSpace contentType))) (ro_DisallowedContentTypes o).

Definition detectRDFContentType (content : string) : string :=
  if len content =? 0 then ""
  else if Contains content "@context" && (Contains content "{" || Contains content "}") then "application/ld+json"
  else if Contains content "@prefix" || Contains content "@base" then "text/turtle"
  else if Contains content "<rdf:RDF" then "application/rdf+xml"
  else if Contains content "<" && Contains content ">" && Contains content " ." then "application/n-triples"
  else "".

Definition tripleHasControl (t : RDFTriple) : bool :=
  containsControlRune (tr_Subject t) || containsControlRune (tr_Predicate t) || containsControlRune (tr_Object t).

Fixpoint validateTriples (ts : list RDFTriple) : result parse_error unit :=
  match ts with
  | [] => Ok tt
  | t :: rest =>
      fail! ErrTriple "RDF triple contains control characters" when tripleHasControl t in
      fail! ErrTriple "RDF triple has empty components"
        when String.eqb (tr_Subject t) "" || String.eqb (tr_Predicate t) "" || String.eqb (tr_Object t) "" in
      validateTriples rest
  end.

(** The named graphs, in the order the map is visited. *)
Definition graphs_order : Type := gmap string (list RDFTriple) -> list string.

Fixpoint validateGraphs (graphs : gmap string (list RDFTriple)) (uris : list string) : result parse_error unit :=
  match uris with
  | [] => Ok tt
  | uri :: rest =>
      fail! ErrTriple "named graph URI contains control characters" when containsControlRune uri in
      fail! ErrTriple "named graph triple contains control characters"
        when existsb tripleHasControl (default [] (graphs !! uri)) in
      validateGraphs graphs rest
  end.

Definition validateParseResult (order : graphs_order) (r : RDFParseResult) : result parse_error unit :=
  let! _ := validateTriples (rr_Triples r) in
  validateGraphs (rr_NamedGraphs r) (order (rr_NamedGraphs r)).

Definition Registry_Parse {W} (order : graphs_order) (r : RDFParserRegistry W) (content contentType : string)
  : PM W (result parse_error RDFParseResult) :=
  if ro_MaxInputSize (reg_options r) <? len content then
    mret (Err (ErrRDFInputTooLarge (len content) (ro_MaxInputSize (reg_options r))))
  else
    let contentType := ToLower (TrimSpace contentType) in
    let contentType :=
      if (String.eqb contentType "" || String.eqb contentType "application/octet-stream")
         && negb (String.eqb (detectRDFContentType content) "")
      then detectRDFContentType content else contentType in
    if isDisallowedContentType (reg_options r) contentType then
      mret (Err (ErrRDFContentTypeNotSupported contentType))
    else if (0 <? Z.of_nat (length (ro_AllowedContentTypes (reg_options r))))
            && negb (isAllowedContentType (reg_options r) contentType) then
      mret (Err (ErrRDFContentTypeNotSupported contentType))
    else match reg_contentTypeMap r !! contentType with
    | None => mret (Err (ErrRDFParserNotFound contentType))
    | Some parser =>
        result ← rp_Parse parser content contentType;
        match result with
        | Err e => mret (Err (ErrRDFParseFailed e))
        | Ok result =>
            match validateParseResult order result with
            | Err e => mret (Err (ErrRDFParseFailed e))
            | Ok _ => mret (Ok result)
            end
        end
    end.

Definition maxRDFInputSize : Z := 10485760.
Definition ValidateRDFInputSize (content : string) : result parse_error unit :=
  fail! ErrRDFInputTooLarge (len content) maxRDFInputSize when maxRDFInputSize <? len content in Ok tt.

(** Strings are values: the copy of the content is the content. *)
Definition CopyRDFContent (content : string) : result parse_error string :=
  let! _ := ValidateRDFInputSize content in Ok content.

(** A parser behind a limit on the input. *)
Definition NewStreamRDFParser {W} (parser : RDFParser W) (maxSize : Z) : RDFParser W :=
  let maxSize := if maxSize =? 0 then 1048576 else maxSize in
  mkRDFParser
    (fun content contentType =>
       if maxSize <? len content then mret (Err (ErrRDFInputTooLarge (len content) maxSize))
       else rp_Parse parser content contentType)
    (rp_SupportedContentTypes parser).

(** ** The boundary to the runtime's RDF layer *)

Record RDFParserBoundaryOptions := mkBoundaryOptions {
  bo_EnableCanonicalization : bool;
  bo_MaxInputSize : Z;
  bo_Timeout : Z
}.

Definition DefaultRDFParserBoundaryOptions : RDFParserBoundaryOptions :=
  mkBoundaryOptions true 1048576 (30 * second).

(** The boundary, with the layer it shares. *)
Record RDFParserBoundary := mkBoundary {
  bd_layer : Runtime.RDFGraphIndexLayer;
  bd_closed : bool;
  bd_options : RDFParserBoundaryOptions
}.

Definition NewRDFParserBoundary (rdfLayer : option Runtime.RDFGraphIndexLayer) (options : RDFParserBoundaryOptions)
  : result parse_error RDFParserBoundary :=
  match rdfLayer with
  | None => Err ErrRDFParserBoundaryNotAvailable
  | Some layer => Ok (mkBoundary layer false options)
  end.

Definition convertObjectType (rtType : string) : string :=
  if String.eqb rtType Runtime.RDFObjectTypeURI then RDFTermTypeIRI
  else if String.eqb rtType Runtime.RDFObjectTypeBlank then RDFTermTypeBlankNode
  else if String.eqb rtType Runtime.RDFObjectTypeLiteral then RDFTermTypeLiteral
  else RDFTermTypeIRI.

Definition convertTriple (rt : Runtime.RDFTriple) : RDFTriple :=
  mkRDFTriple (Runtime.Subject rt) (Runtime.Predicate rt) (Runtime.Object rt)
    (convertObjectType (Runtime.ObjectType rt)) (Runtime.Language rt) (Runtime.Datatype rt).

Definition convertRuntimeGraphToNamedGraphs (g : Runtime.RDFGraph) : gmap string (list RDFTriple) :=
  let converted := map convertTriple (Runtime.g_Triples g) in
  if negb (String.eqb (Runtime.g_URI g) "") then {[Runtime.g_URI g := converted]} else {["default" := converted]}.

Definition convertToRDFParseResult (r : Runtime.ParseResult) : RDFParseResult :=
  mkRDFParseResult (map convertTriple (Runtime.pr_Triples r))
    (convertRuntimeGraphToNamedGraphs (Runtime.pr_Graph r))
    (Runtime.g_URI (Runtime.pr_Graph r))
    (if String.eqb (Runtime.pr_Format r) Runtime.RDFFormatUnknown then "" else Runtime.pr_Format r)
    (Runtime.g_Hash (Runtime.pr_Graph r)).

(** [term[1 : len(term)-1]]: a string of one byte is too short for it. *)
Definition cutEnds (term : string) : option string :=
  if len term <? 2 then None else Some (stake (String.length term - 2) (sdrop 1 term)).

(** [None] is a panic. *)
Definition normalizeRDFTerm (term : string) : option string :=
  let term := TrimSpace term in
  if HasPrefix term "<" && HasSuffix term ">" then cutEnds term
  else if (HasPrefix term dquote && HasSuffix term dquote) || (HasPrefix term "'" && HasSuffix term "'") then cutEnds term
  else Some term.

Definition normalizeLanguageTag (tag : string) : string := ToLower (TrimSpace tag).

Definition normalizeDatatypeURI (uri : string) : option string :=
  let uri := TrimSpace uri in
  if HasPrefix uri "<" && HasSuffix uri ">" then cutEnds uri else Some uri.

Definition canonicalizeTriple (t : RDFTriple) : option RDFTriple :=
  s ← normalizeRDFTerm (tr_Subject t);
  p ← normalizeRDFTerm (tr_Predicate t);
  o ← normalizeRDFTerm (tr_Object t);
  d ← normalizeDatatypeURI (tr_Datatype t);
  Some (mkRDFTriple s p o (tr_ObjectType t) (normalizeLanguageTag (tr_Language t)) d).

(** The order of the triples: by subject, predicate and object. *)
Definition tripleLess (a b : RDFTriple) : bool :=
  if negb (String.eqb (tr_Subject a) (tr_Subject b)) then String.ltb (tr_Subject a) (tr_Subject b)
  else if negb (String.eqb (tr_Predicate a) (tr_Predicate b)) then String.ltb (tr_Predicate a) (tr_Predicate b)
  else String.ltb (tr_Object a) (tr_Object b).

(** [sort.Slice] is not stable: it returns some sorted permutation. *)
Definition triple_sorter : Type := list RDFTriple -> list RDFTriple.
Definition sorts (sorter : triple_sorter) : Prop :=
  forall ts, sorter ts ≡ₚ ts /\ StronglySorted (fun a b => tripleLess b a = false) (sorter ts).

Definition canonicalizeTriples (sorter : triple_sorter) (triples : list RDFTriple) : option (list RDFTriple) :=
  if bool_decide (triples = []) then Some triples
  else canonical ← mapM canonicalizeTriple triples; Some (sorter canonical).

Definition with_layer {A} (m : Runtime.RM A) : PM RDFParserBoundary A := fun b =>
  match m (bd_layer b) with
  | Runtime.Returns (l, a) => Runtime.Returns (mkBoundary l (bd_closed b) (bd_options b), a)
  | Runtime.Panics => Runtime.Panics
  | Runtime.Blocks => Runtime.Blocks
  end.

(** What the boundary makes of the layer's result. *)
Definition Boundary_result (sorter : triple_sorter) (o : RDFParserBoundaryOptions)
    (r : result Runtime.error Runtime.ParseResult) : PM RDFParserBoundary (result parse_error RDFParseResult) :=
  match r with
  | Err e => mret (Err (ErrRDFParseFailed (ErrRuntime e)))
  | Ok parsed =>
      let result := convertToRDFParseResult parsed in
      if bo_EnableCanonicalization o then
        match canonicalizeTriples sorter (rr_Triples result) with
        | None => panics
        | Some triples =>
            mret (Ok (mkRDFParseResult triples (rr_NamedGraphs result) (rr_BaseURI result)
                        (rr_ContentType result) (rr_SHA256 result)))
        end
      else mret (Ok result)
  end.

Definition Boundary_Parse (sorter : triple_sorter) (content contentType : string)
  : PM RDFParserBoundary (result parse_error RDFParseResult) := fun b =>
  if bd_closed b then Runtime.Returns (b, Err ErrRDFParserBoundaryClosed)
  else if bo_MaxInputSize (bd_options b) <? len content then
    Runtime.Returns (b, Err (ErrRDFInputTooLarge (len content) (bo_MaxInputSize (bd_options b))))
  else
    mbind (M := PM RDFParserBoundary) (Boundary_result sorter (bd_options b))
      (with_layer (Runtime.Parse "boundary://parse" content contentType)) b.

Definition boundaryContentTypes : list string :=
  ["text/turtle"; "application/ld+json"; "application/n-triples"; "application/rdf+xml"; "application/n-quads";
   "application/n-triples"].

Definition boundaryParser (sorter : triple_sorter) : RDFParser RDFParserBoundary :=
  mkRDFParser (Boundary_Parse sorter) boundaryContentTypes.

Definition Boundary_Close (b : RDFParserBoundary) : RDFParserBoundary := mkBoundary (bd_layer b) true (bd_options b).
Definition Boundary_IsClosed (b : RDFParserBoundary) : bool := bd_closed b.

Definition healthCheckContent : string :=
  "<http://example.org/subject> <http://example.org/predicate> <http://example.org/object> .".

Definition Boundary_HealthCheck (sorter : triple_sorter) : PM RDFParserBoundary (result parse_error unit) := fun b =>
  if bd_closed b then Runtime.Returns (b, Err ErrRDFParserBoundaryClosed)
  else
    mbind (M := PM RDFParserBoundary)
      (fun r => mret (match r with Err e => Err (ErrHealthCheck e) | Ok _ => Ok tt end))
      (Boundary_Parse sorter healthCheckContent "text/turtle") b.

Record RDFParserBoundaryStats := mkBoundaryStats {
  bs_Closed : bool;
  bs_CanonicalizationEnabled : bool;
  bs_MaxInputSize : Z
}.
Definition Boundary_Stats (b : RDFParserBoundary) : RDFParserBoundaryStats :=
  mkBoundaryStats (bd_closed b) (bo_EnableCanonicalization (bd_options b)) (bo_MaxInputSize (bd_options b)).

(** ** The WAC parser *)

Record WACParserOptions := mkWACParserOptions {
  wo_MaxRules : Z;
  wo_Timeout : Z;
  wo_EnforcementMode : bool
}.

Definition DefaultWACParserOptions : WACParserOptions := mkWACParserOptions 100 (30 * second) false.

Record WACParser (W : Type) := mkWACParser {
  wac_options : WACParserOptions;
  wac_rdfParser : RDFParserRegistry W
}.
Arguments mkWACParser {W} _ _.
Arguments wac_options {W} _.
Arguments wac_rdfParser {W} _.

Definition NewWACParser {W} (o : WACParserOptions) (rdfParser : option (RDFParserRegistry W))
  : result parse_error (WACParser W) :=
  match rdfParser with
  | None => Err ErrRegistryRequired
  | Some reg =>
      Ok (mkWACParser (mkWACParserOptions (if wo_MaxRules o =? 0 then 100 else wo_MaxRules o)
            (if wo_Timeout o =? 0 then 30 * second else wo_Timeout o) (wo_EnforcementMode o)) reg)
  end.

Definition IsEnforcementModeEnabled {W} (p : WACParser W) : bool := wo_EnforcementMode (wac_options p).

(** The text after the last [sep]. *)
Definition afterLast (s sep : string) : string :=
  match LastIndex s sep with Some i => sdrop (i + 1) s | None => s end.

Definition parseAccessMode (modeStr : string) : string :=
  let modeStr := ToLower (TrimSpace modeStr) in
  let modeStr := if HasPrefix modeStr "<" && HasSuffix modeStr ">"
                 then stake (String.length modeStr - 2) (sdrop 1 modeStr) else modeStr in
  let modeStr := afterLast modeStr "#" in
  let modeStr := afterLast modeStr "/" in
  let modeStr := if negb (Contains modeStr "/") && Contains modeStr ":" then afterLast modeStr ":" else modeStr in
  if String.eqb modeStr "read" then AccessModeRead
  else if String.eqb modeStr "write" then AccessModeWrite
  else if String.eqb modeStr "append" then AccessModeAppend
  else if String.eqb modeStr "control" then AccessModeControl
  else "".

(** The subjects declared to be of a type, each once, in their order. *)
Definition declares (qualified local : string) (t : RDFTriple) : bool :=
  Contains (tr_Predicate t) "type" && (Contains (tr_Object t) qualified || Contains (tr_Object t) local).

Definition declaredStep (qualified local : string) (acc : list string * gset string) (t : RDFTriple)
  : list string * gset string :=
  let '(uris, seen) := acc in
  let subject := TrimSpace (tr_Subject t) in
  if declares qualified local t && (negb (String.eqb subject "") && negb (bool_decide (subject ∈ seen)))
  then (uris ++ [subject], {[subject]} ∪ seen) else (uris, seen).

Definition declaredURIs (qualified local : string) (triples : list RDFTriple) : list string :=
  (foldl (declaredStep qualified local) ([], ∅) triples).1.

Definition findAuthorizationURIs (triples : list RDFTriple) : list string :=
  declaredURIs "acl:Authorization" "Authorization" triples.

Definition findTriplesForSubject (triples : list RDFTriple) (subject : string) : list RDFTriple :=
  filter (fun t => TrimSpace (tr_Subject t) = subject) triples.

(** One triple of an authorization. *)
Definition ruleTriple (rule : WACRule) (t : RDFTriple) : WACRule :=
  if Contains (tr_Predicate t) "accessTo" then
    mkWACRule (Authorization rule) (TrimSpace (tr_Object t)) (Agent rule) (AgentClass rule) (Modes rule)
      (DefaultAccess rule) (Origin rule)
  else if Contains (tr_Predicate t) "agent" || Contains (tr_Predicate t) "agentClass" then
    if Contains (tr_Predicate t) "agentClass" then
      mkWACRule (Authorization rule) (AccessTo rule) (Agent rule) (TrimSpace (tr_Object t)) (Modes rule)
        (DefaultAccess rule) (Origin rule)
    else
      mkWACRule (Authorization rule) (AccessTo rule) (TrimSpace (tr_Object t)) (AgentClass rule) (Modes rule)
        (DefaultAccess rule) (Origin rule)
  else if Contains (tr_Predicate t) "mode" then
    let mode := parseAccessMode (tr_Object t) in
    if negb (String.eqb mode "") then
      mkWACRule (Authorization rule) (AccessTo rule) (Agent rule) (AgentClass rule) (Modes rule ++ [mode])
        (DefaultAccess rule) (Origin rule)
    else rule
  else if Contains (tr_Predicate t) "default" then
    mkWACRule (Authorization rule) (AccessTo rule) (Agent rule) (AgentClass rule) (Modes rule)
      (String.eqb (ToLower (TrimSpace (tr_Object t))) "true") (Origin rule)
  else if Contains (tr_Predicate t) "origin" then
    mkWACRule (Authorization rule) (AccessTo rule) (Agent rule) (AgentClass rule) (Modes rule)
      (DefaultAccess rule) (TrimSpace (tr_Object t))
  else rule.

Definition extractRulesForAuthorization (triples : list RDFTriple) (authURI : string)
  : result parse_error (list WACRule) :=
  let rule := foldl ruleTriple (mkWACRule authURI "" "" "" [] false "") (findTriplesForSubject triples authURI) in
  let hasAgent := negb (String.eqb (Agent rule) "") || negb (String.eqb (AgentClass rule) "") in
  let hasModes := negb (bool_decide (Modes rule = [])) in
  if negb (String.eqb (AccessTo rule) "") && hasAgent && hasModes then Ok [rule]
  else if String.eqb (AccessTo rule) "" && negb hasAgent && negb hasModes then Ok []
  else Err (ErrWACMissingRequiredField (String.append "incomplete WAC rule for authorization " authURI)).

Fixpoint extractAll (triples : list RDFTriple) (uris : list string) : result parse_error (list WACRule) :=
  match uris with
  | [] => Ok []
  | uri :: rest =>
      let! rules := extractRulesForAuthorization triples uri in
      let! more := extractAll triples rest in
      Ok (rules ++ more)
  end.

Definition extractWACRulesFromTriples (ctx : option string) (triples : list RDFTriple)
  : result parse_error (list WACRule) :=
  match ctx with
  | Some e => Err (ErrContextDone e)
  | None => extractAll triples (findAuthorizationURIs triples)
  end.

Definition validWACResourceURI (value : string) : bool :=
  if String.eqb value "" || (4096 <? len value) then false
  else if Contains value "\" then false
  else if string_existsb is_control value then false
  else http_with_host value.

Definition validateWACRule (rule : WACRule) : result parse_error unit :=
  fail! ErrWACInvalidRule "missing authorization" when String.eqb (Authorization rule) "" in
  fail! ErrWACInvalidRule "missing accessTo" when String.eqb (AccessTo rule) "" in
  fail! ErrWACInvalidRule "missing agent or agentClass"
    when String.eqb (Agent rule) "" && String.eqb (AgentClass rule) "" in
  fail! ErrWACInvalidRule "missing modes" when bool_decide (Modes rule = []) in
  fail! ErrWACInvalidRule "invalid authorization URI" when negb (validWACResourceURI (Authorization rule)) in
  fail! ErrWACInvalidRule "invalid accessTo URI" when negb (validWACResourceURI (AccessTo rule)) in
  fail! ErrWACInvalidRule "invalid agent URI"
    when negb (String.eqb (Agent rule) "") && negb (validWACResourceURI (Agent rule)) in
  fail! ErrWACInvalidRule "invalid origin URI"
    when negb (String.eqb (Origin rule) "") && negb (validWACResourceURI (Origin rule)) in
  fail! ErrWACInvalidRule "agentClass contains control characters"
    when negb (String.eqb (AgentClass rule) "") && containsControlRune (AgentClass rule) in
  Ok tt.

Fixpoint validateAll {A} (f : A -> result parse_error unit) (l : list A) : result parse_error unit :=
  match l with
  | [] => Ok tt
  | x :: rest => let! _ := f x in validateAll f rest
  end.

(** The checks after the triples were read. *)
Definition WAC_check {W} (p : WACParser W) (ctx : option string) (triples : list RDFTriple)
  : result parse_error (list WACRule) :=
  let! rules := extractWACRulesFromTriples ctx triples in
  fail! ErrTooManyRules (Z.of_nat (length rules)) (wo_MaxRules (wac_options p))
    when wo_MaxRules (wac_options p) <? Z.of_nat (length rules) in
  let! _ := validateAll validateWACRule rules in
  Ok rules.

Definition WAC_Parse {W} (order : graphs_order) (ctx : option string) (p : WACParser W) (content contentType : string)
  : PM W (result parse_error RDFParseResult) :=
  match ValidateRDFInputSize content with
  | Err e => mret (Err e)
  | Ok _ =>
      r ← Registry_Parse order (wac_rdfParser p) content contentType;
      mret (result_map_err ErrWACParseFailed (
        let! rdfResult := r in
        let! _ := WAC_check p ctx (rr_Triples rdfResult) in
        Ok (mkRDFParseResult (rr_Triples rdfResult) (rr_NamedGraphs rdfResult) (rr_BaseURI rdfResult) contentType
              (sha256Hex content))))
  end.

(** No rule is reconstructed from the triples. *)
Definition filterRulesForResource (r : RDFParseResult) (resourceURI : string) : list WACRule := [].

Fixpoint findAuthorizationForResource (triples : list RDFTriple) (resourceURI : string) : string :=
  match triples with
  | [] => ""
  | t :: rest =>
      if Contains (tr_Predicate t) "accessTo" && String.eqb (TrimSpace (tr_Object t)) resourceURI
      then TrimSpace (tr_Subject t) else findAuthorizationForResource rest resourceURI
  end.

Definition findOwner (r : RDFParseResult) (resourceURI : string) : string := "".

Definition ParseWACPolicy {W} (order : graphs_order) (ctx : option string) (p : WACParser W)
    (content contentType resourceURI : string) : PM W (result parse_error WACPolicy) :=
  r ← WAC_Parse order ctx p content contentType;
  mret (let! rdfResult := r in
        Ok (mkWACPolicy resourceURI (findAuthorizationForResource (rr_Triples rdfResult) resourceURI)
              (filterRulesForResource rdfResult resourceURI) (findOwner rdfResult resourceURI))).

(** ** The ACP parser *)

Record ACPParserOptions := mkACPParserOptions {
  ao_MaxRules : Z;
  ao_Timeout : Z;
  ao_EnforcementMode : bool
}.

Definition DefaultACPParserOptions : ACPParserOptions := mkACPParserOptions 100 (30 * second) false.

Record ACPParser (W : Type) := mkACPParser {
  acpp_options : ACPParserOptions;
  acpp_rdfParser : RDFParserRegistry W
}.
Arguments mkACPParser {W} _ _.
Arguments acpp_options {W} _.
Arguments acpp_rdfParser {W} _.

Definition NewACPParser {W} (o : ACPParserOptions) (rdfParser : option (RDFParserRegistry W))
  : result parse_error (ACPParser W) :=
  match rdfParser with
  | None => Err ErrRegistryRequired
  | Some reg =>
      Ok (mkACPParser (mkACPParserOptions (if ao_MaxRules o =? 0 then 100 else ao_MaxRules o)
            (if ao_Timeout o =? 0 then 30 * second else ao_Timeout o) (ao_EnforcementMode o)) reg)
  end.

Definition findPolicyURIs (triples : list RDFTriple) : list string := declaredURIs "acp:Policy" "Policy" triples.

Definition findAccessTriples (triples : list RDFTriple) (policyURI : string) : list RDFTriple :=
  filter (fun t => TrimSpace (tr_Subject t) = policyURI /\
    (Contains (tr_Predicate t) "allow" || Contains (tr_Predicate t) "deny" || Contains (tr_Predicate t) "access") = true)
    triples.

(** One triple of an access: any of the three tests may hold of it. *)
Definition accessStep (a : ACPAccess) (t : RDFTriple) : ACPAccess :=
  let a := if Contains (tr_Predicate t) "appliesTo" || Contains (tr_Predicate t) "accessTo"
           then mkACPAccess (TrimSpace (tr_Object t)) (ac_Allows a) (ac_Agent a) (ac_AgentClass a) (ac_Modes a)
                  (ac_Origin a) (ac_Inherit a) else a in
  let a := if Contains (tr_Predicate t) "agent" || Contains (tr_Predicate t) "agentClass" then
             if Contains (tr_Predicate t) "agentClass"
             then mkACPAccess (ac_AccessTo a) (ac_Allows a) (ac_Agent a) (TrimSpace (tr_Object t)) (ac_Modes a)
                    (ac_Origin a) (ac_Inherit a)
             else mkACPAccess (ac_AccessTo a) (ac_Allows a) (TrimSpace (tr_Object t)) (ac_AgentClass a) (ac_Modes a)
                    (ac_Origin a) (ac_Inherit a)
           else a in
  if Contains (tr_Predicate t) "mode" && negb (String.eqb (parseAccessMode (tr_Object t)) "")
  then mkACPAccess (ac_AccessTo a) (ac_Allows a) (ac_Agent a) (ac_AgentClass a)
         (ac_Modes a ++ [parseAccessMode (tr_Object t)]) (ac_Origin a) (ac_Inherit a)
  else a.

Definition parseACPRuleFromTriples (triples : list RDFTriple) (accessTriple : RDFTriple) : result parse_error ACPRule :=
  let start := mkACPAccess "" (negb (Contains (tr_Predicate accessTriple) "deny")) "" "" [] "" false in
  let access := foldl accessStep start (findTriplesForSubject triples (TrimSpace (tr_Object accessTriple))) in
  fail! ErrACPMissingRequiredField "missing accessTo" when String.eqb (ac_AccessTo access) "" in
  fail! ErrACPMissingRequiredField "missing agent or agentClass"
    when String.eqb (ac_Agent access) "" && String.eqb (ac_AgentClass access) "" in
  Ok (mkACPRule access (ac_AccessTo access) (tr_Subject accessTriple)).

Fixpoint parseRules (triples accesses : list RDFTriple) : result parse_error (list ACPRule) :=
  match accesses with
  | [] => Ok []
  | a :: rest =>
      let! rule := parseACPRuleFromTriples triples a in
      let! rules := parseRules triples rest in
      Ok (rule :: rules)
  end.

Definition policyStep (p : string * bool) (t : RDFTriple) : string * bool :=
  if Contains (tr_Predicate t) "appliesTo" then (TrimSpace (tr_Object t), p.2)
  else if Contains (tr_Predicate t) "inherit" then (p.1, String.eqb (ToLower (TrimSpace (tr_Object t))) "true")
  else p.

Definition extractPolicyFromTriples (triples : list RDFTriple) (policyURI : string) : result parse_error ACPPolicy :=
  let '(resourceURI, inherit) := foldl policyStep (policyURI, true) (findTriplesForSubject triples policyURI) in
  let! rules := parseRules triples (findAccessTriples triples policyURI) in
  Ok (mkACPPolicy resourceURI policyURI rules "" inherit).

Fixpoint extractPolicies (triples : list RDFTriple) (uris : list string) : result parse_error (list ACPPolicy) :=
  match uris with
  | [] => Ok []
  | uri :: rest =>
      let! policy := extractPolicyFromTriples triples uri in
      let! policies := extractPolicies triples rest in
      Ok (policy :: policies)
  end.

Definition extractACPPoliciesFromTriples (ctx : option string) (triples : list RDFTriple)
  : result parse_error (list ACPPolicy) :=
  match ctx with
  | Some e => Err (ErrContextDone e)
  | None => extractPolicies triples (findPolicyURIs triples)
  end.

Definition validateACPRule (rule : ACPRule) : result parse_error unit :=
  let a := ar_Access rule in
  fail! ErrACPInvalidRule "missing accessTo" when String.eqb (ac_AccessTo a) "" in
  fail! ErrACPInvalidRule "missing agent or agentClass" when String.eqb (ac_Agent a) "" && String.eqb (ac_AgentClass a) "" in
  fail! ErrACPInvalidRule "missing modes" when bool_decide (ac_Modes a = []) in
  fail! ErrACPInvalidRule "invalid accessTo URI" when negb (validWACResourceURI (ac_AccessTo a)) in
  fail! ErrACPInvalidRule "invalid agent URI"
    when negb (String.eqb (ac_Agent a) "") && negb (validWACResourceURI (ac_Agent a)) in
  fail! ErrACPInvalidRule "invalid origin URI"
    when negb (String.eqb (ac_Origin a) "") && negb (validWACResourceURI (ac_Origin a)) in
  fail! ErrACPInvalidRule "agentClass contains control characters"
    when negb (String.eqb (ac_AgentClass a) "") && containsControlRune (ac_AgentClass a) in
  Ok tt.

Definition validateACPPolicy (policy : ACPPolicy) : result parse_error unit :=
  fail! ErrACPInvalidRule "missing policy URI" when String.eqb (ap_PolicyURI policy) "" in
  fail! ErrACPInvalidRule "invalid policy URI" when negb (validWACResourceURI (ap_PolicyURI policy)) in
  fail! ErrACPInvalidRule "invalid resource URI"
    when negb (String.eqb (ap_ResourceURI policy) "") && negb (validWACResourceURI (ap_ResourceURI policy)) in
  validateAll validateACPRule (ap_Rules policy).

Definition ACP_check {W} (p : ACPParser W) (ctx : option string) (triples : list RDFTriple)
  : result parse_error (list ACPPolicy) :=
  let! policies := extractACPPoliciesFromTriples ctx triples in
  let totalRules := Z.of_nat (length (concat (map ap_Rules policies))) in
  fail! ErrTooManyRules totalRules (ao_MaxRules (acpp_options p)) when ao_MaxRules (acpp_options p) <? totalRules in
  let! _ := validateAll validateACPPolicy policies in
  Ok policies.

(** The context is asked at the start, when there is a timeout, and before the extraction. *)
Definition ACP_Parse {W} (order : graphs_order) (ctx0 ctx : option string) (p : ACPParser W)
    (content contentType : string) : PM W (result parse_error RDFParseResult) :=
  match (if 0 <? ao_Timeout (acpp_options p) then ctx0 else None) with
  | Some e => mret (Err (ErrContextDone e))
  | None =>
      match ValidateRDFInputSize content with
      | Err e => mret (Err e)
      | Ok _ =>
          r ← Registry_Parse order (acpp_rdfParser p) content contentType;
          mret (result_map_err ErrACPParseFailed (
            let! rdfResult := r in
            let! _ := ACP_check p ctx (rr_Triples rdfResult) in
            Ok (mkRDFParseResult (rr_Triples rdfResult) (rr_NamedGraphs rdfResult) (rr_BaseURI rdfResult) contentType
                  (sha256Hex content))))
      end
  end.

Definition filterPoliciesForResource (r : RDFParseResult) (resourceURI : string) : list ACPPolicy := [].

Definition ParseACPPolicy {W} (order : graphs_order) (ctx0 ctx : option string) (p : ACPParser W)
    (content contentType resourceURI : string) : PM W (result parse_error ACPPolicy) :=
  r ← ACP_Parse order ctx0 ctx p content contentType;
  mret (let! rdfResult := r in
        match filterPoliciesForResource rdfResult resourceURI with
        | [] => Err (ErrACPParseFailed (ErrNoPolicyFound resourceURI))
        | policy :: _ => Ok policy
        end).

(** ** Lemmas *)

(** *** The rules of a WAC document *)

(** The kinds of predicates, by what they contain; the first that applies counts. *)
Definition is_accessTo (t : RDFTriple) : bool := Contains (tr_Predicate t) "accessTo".
Definition is_agentClass (t : RDFTriple) : bool := negb (is_accessTo t) && Contains (tr_Predicate t) "agentClass".
Definition is_agent (t : RDFTriple) : bool := negb (is_accessTo t || is_agentClass t) && Contains (tr_Predicate t) "agent".
Definition is_mode (t : RDFTriple) : bool := negb (is_accessTo t || is_agentClass t || is_agent t) && Contains (tr_Predicate t) "mode".
Definition is_default (t : RDFTriple) : bool :=
  negb (is_accessTo t || is_agentClass t || is_agent t || is_mode t) && Contains (tr_Predicate t) "default".
Definition is_origin (t : RDFTriple) : bool :=
  negb (is_accessTo t || is_agentClass t || is_agent t || is_mode t || is_default t) && Contains (tr_Predicate t) "origin".

(** The object of the last triple of a kind, and what all of them say. *)
Definition lastObject (kind : RDFTriple -> bool) (ts : list RDFTriple) : string :=
  from_option (fun t => TrimSpace (tr_Object t)) "" (last (List.filter kind ts)).
Definition statedModes (ts : list RDFTriple) : list string :=
  List.filter (fun m => negb (String.eqb m "")) (map (fun t => parseAccessMode (tr_Object t)) (List.filter is_mode ts)).

(** The rule the triples of an authorization state. *)
Definition statedRule (auth : string) (ts : list RDFTriple) : WACRule :=
  mkWACRule auth (lastObject is_accessTo ts) (lastObject is_agent ts) (lastObject is_agentClass ts) (statedModes ts)
    (String.eqb (ToLower (lastObject is_default ts)) "true") (lastObject is_origin ts).

Lemma lastObject_snoc kind ts t : lastObject kind (ts ++ [t]) = if kind t then TrimSpace (tr_Object t) else lastObject kind ts.
Proof.
  unfold lastObject. rewrite List.filter_app. cbn [List.filter]. destruct (kind t); [by rewrite last_snoc|by rewrite app_nil_r].
Qed.

Lemma statedModes_snoc ts t : statedModes (ts ++ [t]) =
  statedModes ts ++ if is_mode t && negb (String.eqb (parseAccessMode (tr_Object t)) "") then [parseAccessMode (tr_Object t)] else [].
Proof.
  unfold statedModes. rewrite List.filter_app, map_app, List.filter_app. f_equal. cbn [List.filter].
  destruct (is_mode t); cbn [map List.filter andb]; [|done]. by destruct (String.eqb _ "").
Qed.

Lemma ruleTriple_stated auth ts t : ruleTriple (statedRule auth ts) t = statedRule auth (ts ++ [t]).
Proof.
  unfold statedRule. rewrite !lastObject_snoc, statedModes_snoc. unfold ruleTriple. cbn [Authorization AccessTo Agent AgentClass Modes DefaultAccess Origin].
  unfold is_origin, is_default, is_mode, is_agent, is_agentClass, is_accessTo.
  destruct (Contains (tr_Predicate t) "accessTo"); cbn [negb andb orb]; [by rewrite app_nil_r|].
  destruct (Contains (tr_Predicate t) "agentClass"); cbn [negb andb orb]; [rewrite orb_true_r; by rewrite app_nil_r|].
  rewrite orb_false_r. destruct (Contains (tr_Predicate t) "agent"); cbn [negb andb orb]; [by rewrite app_nil_r|].
  destruct (Contains (tr_Predicate t) "mode"); cbn [negb andb orb].
  { destruct (String.eqb (parseAccessMode (tr_Object t)) ""); cbn [negb]; by rewrite ?app_nil_r. }
  destruct (Contains (tr_Predicate t) "default"); cbn [negb andb orb]; [by rewrite app_nil_r|].
  destruct (Contains (tr_Predicate t) "origin"); cbn [negb andb orb]; by rewrite app_nil_r.
Qed.

Lemma foldl_stated auth ts : foldl ruleTriple (mkWACRule auth "" "" "" [] false "") ts = statedRule auth ts.
Proof. induction ts as [|t ts IH] using rev_ind; [done|]. rewrite foldl_app, IH. apply ruleTriple_stated. Qed.

(** The declared subjects. *)
Definition declared (q loc : string) (ts : list RDFTriple) (u : string) : Prop :=
  u <> "" /\ exists t, t ∈ ts /\ declares q loc t = true /\ TrimSpace (tr_Subject t) = u.

Lemma declared_snoc (q loc : string) (ts : list RDFTriple) (t : RDFTriple) (u : string) :
  declared q loc (ts ++ [t]) u <->
  declared q loc ts u \/ (u <> "" /\ declares q loc t = true /\ TrimSpace (tr_Subject t) = u).
Proof.
  unfold declared. split.
  - intros (Hu & x & [Hx| ->%list_elem_of_singleton]%elem_of_app & Hd & Hs); [left; eauto|auto].
  - intros [(Hu & x & Hx & HP)|(Hu & HP)]; (split; [done|]);
      [exists x; split; [apply elem_of_app; by left|done]|exists t; split; [apply elem_of_app; right; apply list_elem_of_here|done]].
Qed.

Lemma declaredStep_spec (q loc : string) (ds : list RDFTriple) (t : RDFTriple) (acc : list string * gset string) :
  NoDup acc.1 /\ (forall u, u ∈ acc.1 <-> u ∈ acc.2) /\ (forall u, u ∈ acc.1 <-> declared q loc ds u) ->
  let acc' := declaredStep q loc acc t in
  NoDup acc'.1 /\ (forall u, u ∈ acc'.1 <-> u ∈ acc'.2) /\ (forall u, u ∈ acc'.1 <-> declared q loc (ds ++ [t]) u).
Proof.
  destruct acc as [uris seen]. cbn [fst snd]. intros (Hnd & Hs & Hu). unfold declaredStep. cbv zeta.
  set (subject := TrimSpace (tr_Subject t)).
  assert (forall u, declared q loc (ds ++ [t]) u <-> u ∈ uris \/ (u <> "" /\ declares q loc t = true /\ subject = u)) as Hd.
  { intros u. by rewrite declared_snoc, Hu. }
  destruct (declares q loc t) eqn:Ed; cbn [andb].
  2: { cbn [fst snd]. split_and!; [done|done|]. intros u. rewrite Hd. split; [auto|intros [?|(_ & [=] & _)]; done]. }
  destruct (String.eqb_spec subject "") as [Hn|Hn]; cbn [negb andb].
  { cbn [fst snd]. split_and!; [done|done|]. intros u. rewrite Hd. split; [auto|intros [?|(? & _ & ?)]; [done|congruence]]. }
  case_bool_decide as Hin; cbn [negb fst snd].
  { split_and!; [done|done|]. intros u. rewrite Hd. split; [auto|intros [?|(_ & _ & <-)]; [done|by apply Hs]]. }
  split_and!.
  - apply NoDup_app. split_and!; [done| |apply NoDup_singleton]. intros x Hx ->%list_elem_of_singleton. by apply Hin, Hs.
  - intros u. rewrite elem_of_app, list_elem_of_singleton, elem_of_union, elem_of_singleton, Hs. tauto.
  - intros u. rewrite elem_of_app, list_elem_of_singleton, Hd. split; [intros [?| ->]; auto|intros [?|(_ & _ & <-)]; auto].
Qed.

Lemma declaredURIs_spec (q loc : string) (ts : list RDFTriple) :
  NoDup (declaredURIs q loc ts) /\ forall u, u ∈ declaredURIs q loc ts <-> declared q loc ts u.
Proof.
  unfold declaredURIs. enough (NoDup (foldl (declaredStep q loc) ([], ∅) ts).1 /\
    (forall u, u ∈ (foldl (declaredStep q loc) ([], ∅) ts).1 <-> u ∈ (foldl (declaredStep q loc) ([], ∅) ts).2) /\
    (forall u, u ∈ (foldl (declaredStep q loc) ([], ∅) ts).1 <-> declared q loc ts u)) by tauto.
  induction ts as [|t ts IH] using rev_ind.
  - cbn. split_and!; [constructor|set_solver|]. intros u. split; [by intros ?%elem_of_nil|].
    intros (_ & t & Ht & _). by apply elem_of_nil in Ht.
  - rewrite foldl_app. cbn [foldl]. by apply declaredStep_spec.
Qed.

(** An authorization of which nothing is stated. *)
Definition nothing_stated (r : WACRule) : Prop := AccessTo r = "" /\ Agent r = "" /\ AgentClass r = "" /\ Modes r = [].

(** The rules that are extracted, one per complete authorization. *)
Lemma extractRules_inv (ts : list RDFTriple) (uri : string) (rules : list WACRule) :
  extractRulesForAuthorization ts uri = Ok rules ->
  let r := statedRule uri (findTriplesForSubject ts uri) in
  rules = [] /\ nothing_stated r \/
  rules = [r] /\ AccessTo r <> "" /\ (Agent r <> "" \/ AgentClass r <> "") /\ Modes r <> [].
Proof.
  unfold extractRulesForAuthorization. rewrite foldl_stated. cbv zeta. set (r := statedRule _ _). clearbody r.
  destruct (String.eqb_spec (AccessTo r) "") as [E1|E1], (String.eqb_spec (Agent r) "") as [E2|E2],
    (String.eqb_spec (AgentClass r) "") as [E3|E3]; case_bool_decide as E4; cbn [negb andb orb]; intros [= <-];
    first [left; by split_and!|right; split_and!; auto].
Qed.

Lemma extractAll_spec (ts : list RDFTriple) (uris : list string) (rules : list WACRule) :
  extractAll ts uris = Ok rules -> NoDup uris ->
  NoDup (map Authorization rules) /\
  (forall r, r ∈ rules -> Authorization r ∈ uris /\ r = statedRule (Authorization r) (findTriplesForSubject ts (Authorization r)) /\
    AccessTo r <> "" /\ (Agent r <> "" \/ AgentClass r <> "") /\ Modes r <> []) /\
  (forall u, u ∈ uris -> nothing_stated (statedRule u (findTriplesForSubject ts u)) \/ u ∈ map Authorization rules).
Proof.
  revert rules. induction uris as [|uri uris IH]; intros rules He Hnd; cbn [extractAll] in He.
  { injection He as <-. split_and!; [constructor|by intros r ?%elem_of_nil|by intros u ?%elem_of_nil]. }
  apply NoDup_cons in Hnd as [Hni Hnd]. result_inv. subst rules. destruct (IH _ eq_refl Hnd) as (Hn & Hrest & Hall). clear IH.
  apply extractRules_inv in Hr as [[-> Hnone]|(-> & H1 & H2 & H3)]; cbn [app map].
  - split_and!; [done| |].
    + intros r Hin. destruct (Hrest r Hin) as (? & ?). split; [by apply list_elem_of_further|done].
    + intros u [->|Hu]%elem_of_cons; auto.
  - split_and!.
    + apply NoDup_cons. split; [|done]. intros (r & Heq & Hin)%list_elem_of_fmap. apply Hni.
      change (Authorization (statedRule uri _)) with uri in Heq. rewrite Heq. by apply Hrest.
    + intros r [->|Hin]%elem_of_cons; [by split_and!; try apply list_elem_of_here|].
      destruct (Hrest r Hin) as (? & ?). split; [by apply list_elem_of_further|done].
    + intros u [->|Hu]%elem_of_cons; [right; apply list_elem_of_here|].
      destruct (Hall u Hu); [by left|right; by apply list_elem_of_further].
Qed.

Lemma validateAll_Ok {A} (f : A -> result parse_error unit) (l : list A) :
  validateAll f l = Ok tt -> forall x, x ∈ l -> f x = Ok tt.
Proof.
  induction l as [|y l IH]; cbn [validateAll]; intros Hv x Hx; [by apply elem_of_nil in Hx|].
  destruct (f y) as [[]|] eqn:E; cbn in Hv; [|discriminate]. apply elem_of_cons in Hx as [->|Hx]; auto.
Qed.

Lemma validateWACRule_Ok (r : WACRule) : validateWACRule r = Ok tt ->
  validWACResourceURI (AccessTo r) = true /\ (Agent r <> "" -> validWACResourceURI (Agent r) = true) /\
  (Origin r <> "" -> validWACResourceURI (Origin r) = true).
Proof.
  unfold validateWACRule. repeat (break_if; [discriminate|]). intros _. bool_prop.
  split_and!; [by destruct (validWACResourceURI (AccessTo r))|..]; intros Hn%String.eqb_neq.
  - rewrite Hn in *. by destruct (validWACResourceURI (Agent r)).
  - rewrite Hn in *. by destruct (validWACResourceURI (Origin r)).
Qed.

(** *** Canonical triples *)

(** The key of a triple in the order. *)
Definition tripleKey (t : RDFTriple) : string * string * string := (tr_Subject t, tr_Predicate t, tr_Object t).

Lemma tripleLess_key (a b : RDFTriple) : tripleLess a b = keyLess (tripleKey a) (tripleKey b).
Proof. done. Qed.

Lemma sorts_exists : sorts (sort_by tripleLess).
Proof.
  intros ts. split; [apply sort_by_perm|]. apply (sort_by_sorted tripleLess).
  - intros a b. apply (keyLess_total (tripleKey a) (tripleKey b)).
  - intros a b c. apply (keyLess_trans (tripleKey a) (tripleKey b) (tripleKey c)).
Qed.

Lemma mapM_perm {A B} (f : A -> option B) (l l' : list A) (k : list B) :
  l ≡ₚ l' -> mapM f l = Some k -> exists k', mapM f l' = Some k' /\ k ≡ₚ k'.
Proof.
  intros Hp. revert k. induction Hp as [|x l l' Hp IH|x y l|l1 l2 l3 Hp1 IH1 Hp2 IH2]; intros k.
  - intros [= <-]. by exists [].
  - cbn. intros (y & Hy & Hk)%bind_Some. apply bind_Some in Hk as (k0 & Hk0 & [= <-]).
    destruct (IH k0 Hk0) as (k' & Hk' & Hpk). exists (y :: k'). rewrite Hy. cbn. rewrite Hk'. split; [done|by constructor].
  - cbn. intros (b & Hb & Hk)%bind_Some. apply bind_Some in Hk as (k1 & Hk1 & [= <-]).
    apply bind_Some in Hk1 as (a & Ha & Hk1). apply bind_Some in Hk1 as (k0 & Hk0 & [= <-]).
    exists (a :: b :: k0). rewrite Ha. cbn. rewrite Hb. cbn. rewrite Hk0. split; [done|constructor].
  - intros Hk. destruct (IH1 k Hk) as (k2 & Hk2 & Hp12). destruct (IH2 k2 Hk2) as (k3 & Hk3 & Hp23).
    exists k3. split; [done|by etrans].
Qed.

(** A term the normalisation cannot cut. *)
Definition lone_quote (s : string) : Prop := TrimSpace s = dquote \/ TrimSpace s = "'".

Lemma cutEnds_None (s : string) : cutEnds s = None <-> len s < 2.
Proof. unfold cutEnds. destruct (Z.ltb_spec (len s) 2); split; done || lia. Qed.

Lemma short_brackets (s : string) : len s < 2 -> HasPrefix s "<" && HasSuffix s ">" = false.
Proof.
  unfold len. destruct s as [|c [|d s]]; intros Hl; [done| |cbn in Hl; lia].
  destruct (HasPrefix (String c "") "<") eqn:E; [|done]. apply prefix_spec in E as [t Ht].
  rewrite str_app_cons in Ht. injection Ht as -> _. reflexivity.
Qed.

Lemma short_quote (q : ascii) (s : string) : len s < 2 ->
  HasPrefix s (String q "") && HasSuffix s (String q "") = true <-> s = String q "".
Proof.
  unfold len. destruct s as [|c [|d s]]; intros Hl; [| |cbn in Hl; lia].
  - split; [done|discriminate].
  - split.
    + intros H. bool_prop. apply prefix_spec in H as [t Ht]. rewrite str_app_cons in Ht. by injection Ht as -> _.
    + intros [= ->]. apply andb_true_iff. split; [apply prefix_spec; by exists ""|apply HasSuffix_spec; by exists ""].
Qed.

Lemma normalizeRDFTerm_None (s : string) : normalizeRDFTerm s = None <-> lone_quote s.
Proof.
  unfold normalizeRDFTerm, lone_quote. set (t := TrimSpace s). clearbody t.
  destruct (Z.ltb_spec (len t) 2) as [Hl|Hl].
  - rewrite (short_brackets t Hl).
    pose proof (short_quote (chr 34) t Hl) as Hq1. pose proof (short_quote "'" t Hl) as Hq2. fold dquote in Hq1.
    destruct (HasPrefix t dquote && HasSuffix t dquote); cbn [orb].
    { rewrite cutEnds_None. split; [intros _; left; by apply Hq1|done]. }
    destruct (HasPrefix t "'" && HasSuffix t "'").
    { rewrite cutEnds_None. split; [intros _; right; by apply Hq2|done]. }
    split; [discriminate|]. intros [H|H]; [by apply Hq1 in H|by apply Hq2 in H].
  - assert (cutEnds t <> None) as Hc by (rewrite cutEnds_None; lia).
    assert (t <> dquote /\ t <> "'") as [Hd Hs] by (split; intros ->; unfold len in Hl; cbn in Hl; lia).
    repeat break_if; split; intros Hx; try done; destruct Hx; done.
Qed.

Lemma normalizeDatatypeURI_Some (s : string) : is_Some (normalizeDatatypeURI s).
Proof.
  unfold normalizeDatatypeURI. set (t := TrimSpace s). clearbody t. destruct (HasPrefix t "<" && HasSuffix t ">") eqn:E; [|eauto].
  destruct (cutEnds t) eqn:Ec; [eauto|]. apply cutEnds_None, short_brackets in Ec. congruence.
Qed.

Lemma canonicalizeTriple_None (t : RDFTriple) :
  canonicalizeTriple t = None <-> lone_quote (tr_Subject t) \/ lone_quote (tr_Predicate t) \/ lone_quote (tr_Object t).
Proof.
  unfold canonicalizeTriple. rewrite <- !normalizeRDFTerm_None.
  destruct (normalizeRDFTerm (tr_Subject t)); cbn; [|naive_solver].
  destruct (normalizeRDFTerm (tr_Predicate t)); cbn; [|naive_solver].
  destruct (normalizeRDFTerm (tr_Object t)); cbn; [|naive_solver].
  destruct (normalizeDatatypeURI_Some (tr_Datatype t)) as [d ->]. cbn. naive_solver.
Qed.

Lemma canonicalizeTriples_None (sorter : triple_sorter) (ts : list RDFTriple) :
  canonicalizeTriples sorter ts = None <-> exists t, t ∈ ts /\ canonicalizeTriple t = None.
Proof.
  unfold canonicalizeTriples. case_bool_decide as Hn.
  { subst. split; [discriminate|]. intros (t & Ht & _). by apply elem_of_nil in Ht. }
  destruct (mapM canonicalizeTriple ts) as [k|] eqn:E; cbn.
  - split; [discriminate|]. intros (t & Ht & Hc). apply mapM_Some_1 in E.
    apply (Forall2_Forall_l _ (fun t => canonicalizeTriple t <> None)) in E.
    + rewrite Forall_forall in E. by apply E in Ht.
    + apply Forall_forall. intros y _ x Hx. congruence.
  - split; [intros _|done]. apply mapM_None_1, Exists_exists in E. exact E.
Qed.

(** ** Properties *)


Definition sampleACL : list RDFTriple :=
  let a p o := mkRDFTriple "https://pod.example/.acl#owner" p o RDFTermTypeIRI "" "" in
  [a "http://www.w3.org/1999/02/22-rdf-syntax-ns#type" "http://www.w3.org/ns/auth/acl#Authorization";
   a "http://www.w3.org/ns/auth/acl#accessTo" "https://pod.example/notes";
   a "http://www.w3.org/ns/auth/acl#agent" "https://pod.example/card#me";
   a "http://www.w3.org/ns/auth/acl#mode" "http://www.w3.org/ns/auth/acl#Read"].


(** No rule ever leaves the parsers.  Whatever the content, the RDF parser and the
    resource: a policy that [ParseWACPolicy] returns has no rules and no owner, and
    [ParseACPPolicy] returns no policy. *)
Theorem policy_parsers_yield_no_rules {W} (order : graphs_order) (ctx0 ctx : option string) (wac : WACParser W)
    (acp : ACPParser W) (content contentType resourceURI : string) (w w' : W) :
  (forall p, ParseWACPolicy order ctx wac content contentType resourceURI w = Runtime.Returns (w', Ok p) ->
     wp_Rules p = [] /\ wp_Owner p = "") /\
  (forall p, ParseACPPolicy order ctx0 ctx acp content contentType resourceURI w <> Runtime.Returns (w', Ok p)).
Proof.
  split; intros p; unfold ParseWACPolicy, ParseACPPolicy, mbind, PM_bind.
  - destruct (WAC_Parse _ _ _ _ _ w) as [[w1 [r|e]]| |]; intros [= _ <-]. done.
  - destruct (ACP_Parse _ _ _ _ _ _ w) as [[w1 [r|e]]| |]; discriminate.
Qed.

(** Canonical triples do not depend on the order of the input.  Whatever two sorting
    routines do with ties, the canonical forms of two orderings of the same triples are equal,
    unless two different canonical triples have the same subject, predicate and object. *)
Theorem canonical_triples_deterministic (sorter sorter' : triple_sorter) (ts ts' k : list RDFTriple) :
  sorts sorter -> sorts sorter' -> ts ≡ₚ ts' -> canonicalizeTriples sorter ts = Some k ->
  (forall a b, a ∈ k -> b ∈ k -> tripleKey a = tripleKey b -> a = b) ->
  canonicalizeTriples sorter' ts' = Some k.
Proof.
  unfold canonicalizeTriples. intros Hs Hs' Hp Hk Hties. case_bool_decide as Hn.
  { subst. apply Permutation_nil_l in Hp. subst. by injection Hk as <-. }
  case_bool_decide as Hn'; [by subst; apply Permutation_nil_r in Hp|].
  apply bind_Some in Hk as (c & Hc & [= <-]). destruct (mapM_perm _ _ _ _ Hp Hc) as (c' & -> & Hcc). cbn. f_equal.
  destruct (Hs c) as [Hp1 Hs1], (Hs' c') as [Hp2 Hs2].
  apply (StronglySorted_unique_strong (fun a b => tripleLess b a = false)); [|done|done|by rewrite Hp1, Hp2].
  intros a b Ha Hb H1 H2. apply Hties; [by rewrite Hp1, Hcc, <- Hp2|exact Hb|].
  by apply keyLess_antisym.
Qed.

Lemma canonical_triples_deterministic_witness :
  canonicalizeTriples (sort_by tripleLess) (rev sampleACL) =
  canonicalizeTriples (sort_by tripleLess) sampleACL.
Proof.
  destruct (canonicalizeTriples (sort_by tripleLess) sampleACL) as [k|] eqn:E; [|vm_compute in E; discriminate E].
  apply (canonical_triples_deterministic (sort_by tripleLess) (sort_by tripleLess) sampleACL (rev sampleACL) k).
  - apply sorts_exists.
  - apply sorts_exists.
  - apply Permutation_rev.
  - exact E.
  - vm_compute in E. injection E as <-. intros a b Ha Hb.
    repeat match goal with H : _ ∈ _ :: _ |- _ => apply elem_of_cons in H as [->|H] | H : _ ∈ [] |- _ => by apply elem_of_nil in H end;
      intros H; first [reflexivity | discriminate H].
Defined.

(** A lone quote crashes the boundary.  On an open boundary that canonicalises, a content
    within the limits makes [Parse] panic exactly when it has a triple one of whose terms is a
    single quotation mark; any other content is parsed. *)
Theorem boundary_lone_quote_panics (c : Runtime.RDFGraphIndexConfig) (ops : list Runtime.op) (sorter : triple_sorter)
    (b : RDFParserBoundary) (content contentType : string) :
  Runtime.run ops (Runtime.NewRDFGraphIndexLayer c) = Runtime.Returns (bd_layer b, tt) ->
  Runtime.closed (bd_layer b) = false -> bd_closed b = false -> bo_EnableCanonicalization (bd_options b) = true ->
  Runtime.ValidateContentType contentType = Ok tt ->
  len content <= Z.min (bo_MaxInputSize (bd_options b))
    (Z.min (Runtime.MaxGraphSize (Runtime.config (bd_layer b))) Runtime.MaxResourceSize) ->
  let bad := exists t, t ∈ Runtime.turtleTriples content /\
    (lone_quote (Runtime.Subject t) \/ lone_quote (Runtime.Predicate t) \/ lone_quote (Runtime.Object t)) in
  (bad -> Boundary_Parse sorter content contentType b = Runtime.Panics) /\
  (~ bad -> exists b' r, Boundary_Parse sorter content contentType b = Runtime.Returns (b', Ok r)).
Proof.
  intros Hl%Runtime.rdf_run_inv Hlc Hbc Hen Hct Hlen bad; [|apply Runtime.new_inv].
  destruct (Runtime.Parse_returns "boundary://parse" content contentType (bd_layer b) Hl Hlc)
    as (l' & r & Hp & Ht & _); [|lia|].
  { unfold Runtime.validateInput, Runtime.ValidateResourceSize. rewrite Hct. cbn.
    by rewrite (proj2 (Z.ltb_ge Runtime.MaxResourceSize (len content))) by lia. }
  assert (bad <-> canonicalizeTriples sorter (rr_Triples (convertToRDFParseResult r)) = None) as Hbad.
  { rewrite canonicalizeTriples_None. unfold bad. cbn. rewrite Ht. setoid_rewrite list_elem_of_fmap.
    setoid_rewrite canonicalizeTriple_None. split.
    - intros (t & Hin & Hq). exists (convertTriple t). split; [eauto|exact Hq].
    - intros (t & (t0 & -> & Hin) & Hq). exists t0. split; [exact Hin|exact Hq]. }
  unfold Boundary_Parse. rewrite Hbc, (proj2 (Z.ltb_ge (bo_MaxInputSize (bd_options b)) (len content))) by lia.
  unfold mbind, PM_bind, with_layer. rewrite Hp. cbn [Boundary_result]. rewrite Hen. rewrite Hbad.
  destruct (canonicalizeTriples sorter (rr_Triples (convertToRDFParseResult r))); split; intros Hx; try done.
  unfold mret, PM_ret. eauto.
Qed.

Definition sampleBoundary : RDFParserBoundary :=
  mkBoundary (Runtime.NewRDFGraphIndexLayer Runtime.DefaultRDFGraphIndexConfig) false DefaultRDFParserBoundaryOptions.

Lemma boundary_lone_quote_panics_witness :
  Boundary_Parse (sort_by tripleLess) "<urn:a> <urn:b> ' ." "text/turtle" sampleBoundary = Runtime.Panics /\
  exists b' r, Boundary_Parse (sort_by tripleLess) "<urn:a> <urn:b> <urn:c> ." "text/turtle" sampleBoundary =
    Runtime.Returns (b', Ok r).
Proof.
  split.
  - apply (boundary_lone_quote_panics Runtime.DefaultRDFGraphIndexConfig [] (sort_by tripleLess) sampleBoundary);
      try reflexivity; [vm_compute; discriminate|].
    eexists. split; [vm_compute; apply list_elem_of_here|]. right; right; right. vm_compute. reflexivity.
  - apply (boundary_lone_quote_panics Runtime.DefaultRDFGraphIndexConfig [] (sort_by tripleLess) sampleBoundary);
      try reflexivity; [vm_compute; discriminate|].
    intros (t & Ht & Hq). vm_compute in Ht. apply list_elem_of_singleton in Ht as ->.
    destruct Hq as [[H|H]|[[H|H]|[H|H]]]; vm_compute in H; discriminate H.
Defined.
