(* ===== verification/GoMime.v ===== *)
(** * Go's [mime.ParseMediaType]

    Media types with their parameters: tokens, quoted values, and the continuations and
    character sets of RFC 2231.  A parameter map is a [gmap]. *)

From S2P Require Import Prelude GoStrings GoURL.

Local Open Scope Z_scope.

Inductive mime_error :=
| MimeNoMediaType
| MimeExpectedSlash
| MimeExpectedToken
| MimeUnexpectedContent
| MimeInvalidParameter
| MimeDuplicateParameter.

(** ** Tokens *)

Definition isTSpecial (c : ascii) : bool := char_in "()<>@,;:\/[]?=" c || Ascii.eqb c (chr 34).
Definition isTokenChar (c : ascii) : bool := (32 <? byte_of c) && (byte_of c <? 127) && negb (isTSpecial c).

(** The longest prefix of token characters, and the rest. *)
Fixpoint consumeToken (s : string) : string * string :=
  match s with
  | EmptyString => ("", "")
  | String c s' => if isTokenChar c then let '(t, r) := consumeToken s' in (String c t, r) else ("", s)
  end.

(** The inside of a quoted string, after the opening quote; [None] when it is not closed. *)
Fixpoint quotedValue (s : string) : option (string * string) :=
  match s with
  | EmptyString => None
  | String c s' =>
      if Ascii.eqb c (chr 34) then Some ("", s')
      else if Ascii.eqb c "\" then
        match s' with
        | String d s'' =>
            if isTSpecial d then '(v, r) ← quotedValue s''; Some (String d v, r)
            else '(v, r) ← quotedValue s'; Some (String c v, r)
        | EmptyString => None
        end
      else if Ascii.eqb c (chr 13) || Ascii.eqb c (chr 10) then None
      else '(v, r) ← quotedValue s'; Some (String c v, r)
  end.

Definition consumeValue (v : string) : string * string :=
  match v with
  | String c rest =>
      if Ascii.eqb c (chr 34) then default ("", v) (quotedValue rest) else consumeToken v
  | EmptyString => ("", "")
  end.

Definition trimSpaceLeft (s : string) : string := trim_space_left (String.length s) s.

Definition CutPrefix (s p : string) : option string :=
  if HasPrefix s p then Some (sdrop (String.length p) s) else None.

(** A parameter with its value; [None] when there is none. *)
Definition consumeMediaParam (v : string) : option (string * string * string) :=
  rest ← CutPrefix (trimSpaceLeft v) ";";
  let '(param, rest) := consumeToken (trimSpaceLeft rest) in
  if String.eqb param "" then None
  else
    rest ← CutPrefix (trimSpaceLeft rest) "=";
    let rest := trimSpaceLeft rest in
    let '(value, rest2) := consumeValue rest in
    if String.eqb value "" && String.eqb rest2 rest then None else Some (ToLower param, value, rest2).

Definition checkMediaTypeDisposition (s : string) : result mime_error unit :=
  let '(typ, rest) := consumeToken s in
  fail! MimeNoMediaType when String.eqb typ "" in
  if String.eqb rest "" then Ok tt
  else
    match CutPrefix rest "/" with
    | None => Err MimeExpectedSlash
    | Some rest =>
        let '(subtype, rest) := consumeToken rest in
        fail! MimeExpectedToken when String.eqb subtype "" in
        fail! MimeUnexpectedContent when negb (String.eqb rest "") in
        Ok tt
    end.

(** ** Continuations *)

Definition ishex (c : ascii) : bool := match unhex c with Some _ => true | None => false end.

Fixpoint percentHexUnescape (s : string) : option string :=
  match s with
  | EmptyString => Some ""
  | String c s' =>
      if Ascii.eqb c "%" then
        match s' with
        | String h1 (String h2 s'') =>
            a ← unhex h1; b ← unhex h2; t ← percentHexUnescape s''; Some (String (chr (a * 16 + b)) t)
        | _ => None
        end
      else t ← percentHexUnescape s'; Some (String c t)
  end.

Definition decode2231Enc (v : string) : option string :=
  let '(charset, rest, ok1) := Cut v "'" in
  let '(_, encoded, ok2) := Cut rest "'" in
  if negb (ok1 && ok2) then None
  else if String.eqb (ToLower charset) "us-ascii" || String.eqb (ToLower charset) "utf-8"
  then percentHexUnescape encoded else None.

(** The pieces of a continued value, from the [n]th on; a piece is a key of the map, so its
    size bounds their number. *)
Fixpoint stitch (fuel : nat) (pieces : gmap string string) (key : string) (n : nat) : option string :=
  match fuel with
  | O => None
  | S f =>
      let simplePart := String.append key (String.append "*" (FormatInt (Z.of_nat n))) in
      match pieces !! simplePart with
      | Some v => Some (String.append v (default "" (stitch f pieces key (S n))))
      | None =>
          match pieces !! String.append simplePart "*" with
          | None => None
          | Some v =>
              let piece := if Nat.eqb n 0 then default "" (decode2231Enc v) else default "" (percentHexUnescape v) in
              Some (String.append piece (default "" (stitch f pieces key (S n))))
          end
      end
  end.

Definition addContinuation (key : string) (pieces : gmap string string) (params : gmap string string)
  : gmap string string :=
  match pieces !! String.append key "*" with
  | Some v => match decode2231Enc v with Some decv => <[key := decv]> params | None => params end
  | None =>
      match stitch (S (size pieces)) pieces key 0 with
      | Some v => <[key := v]> params
      | None => params
      end
  end.

(** ** The parser *)

Definition pieces_map : Type := gmap string (gmap string string).

(** The parameters; each one takes a byte at least. *)
Fixpoint mediaParams (fuel : nat) (v : string) (params : gmap string string) (continuation : pieces_map)
  : result mime_error (gmap string string * pieces_map) :=
  match fuel with
  | O => Ok (params, continuation)
  | S f =>
      let v := trimSpaceLeft v in
      if String.eqb v "" then Ok (params, continuation)
      else
        match consumeMediaParam v with
        | None => if String.eqb (TrimSpace v) ";" then Ok (params, continuation) else Err MimeInvalidParameter
        | Some (key, value, rest) =>
            let '(baseName, _, star) := Cut key "*" in
            let pmap := if star : bool then default ∅ (continuation !! baseName) else params in
            fail! MimeDuplicateParameter
              when match pmap !! key with Some v0 => negb (String.eqb v0 value) | None => false end in
            if star then mediaParams f rest params (<[baseName := <[key := value]> pmap]> continuation)
            else mediaParams f rest (<[key := value]> params) continuation
        end
  end.

Definition ParseMediaType (v : string) : result mime_error (string * gmap string string) :=
  let '(base, _, _) := Cut v ";" in
  let mediatype := TrimSpace (ToLower base) in
  let! _ := checkMediaTypeDisposition mediatype in
  let rest := sdrop (String.length base) v in
  let! (params, continuation) := mediaParams (S (String.length rest)) rest ∅ ∅ in
  Ok (mediatype, map_fold addContinuation params continuation).
