(* ===== verification/GoSort.v ===== *)
(** * Comparisons, and lists made canonical

    The comparison functions given to [sort.Slice] compare a field, and the next one where it is
    equal.  Such chains are lawful comparisons, and sorting by one forgets the order of its input.
    [collectBy] is the loop of the functions that make a list canonical: they normalise every
    item, keep one for each key, and refuse items that disagree. *)

From S2P Require Import Prelude GoStrings AuthzTypes.

Local Open Scope Z_scope.

(** ** Comparisons *)

Class Lawful {A} (c : A -> A -> comparison) : Prop := {
  cmp_antisym : forall a b, c b a = CompOpp (c a b);
  cmp_eq : forall a b d, c a b = Eq -> c a d = c b d;
  cmp_lt_trans : forall a b d, c a b = Lt -> c b d = Lt -> c a d = Lt
}.

(** The comparison of a field, and of the next where the first is equal. *)
Definition cmp_on {A B} (f : A -> B) (c : B -> B -> comparison) (a b : A) : comparison := c (f a) (f b).
Definition cmp_then {A} (c1 c2 : A -> A -> comparison) (a b : A) : comparison :=
  match c1 a b with Eq => c2 a b | r => r end.
Definition is_Lt (r : comparison) : bool := match r with Lt => true | _ => false end.
Definition cmp_less {A} (c : A -> A -> comparison) (a b : A) : bool := is_Lt (c a b).

#[global] Instance Z_lawful : Lawful Z.compare.
Proof.
  split.
  - intros a b. apply Z.compare_antisym.
  - intros a b d ->%Z.compare_eq. done.
  - intros a b d. rewrite !Z.compare_lt_iff. lia.
Qed.

Lemma str_compare_refl a : String.compare a a = Eq.
Proof. pose proof (String.compare_antisym a a) as H. by destruct (String.compare a a). Qed.

Lemma str_compare_lt a b : String.compare a b = Lt <-> String.leb a b = true /\ a <> b.
Proof.
  unfold String.leb. destruct (String.compare a b) eqn:E.
  - apply String.compare_eq_iff in E. split; [done|]. by intros [_ ?].
  - split; [|done]. intros _. split; [done|]. intros ->. by rewrite str_compare_refl in E.
  - split; [done|]. by intros [? _].
Qed.

#[global] Instance string_lawful : Lawful String.compare.
Proof.
  split.
  - intros a b. apply String.compare_antisym.
  - intros a b d ->%String.compare_eq_iff. done.
  - intros a b d [H1 N1]%str_compare_lt [H2 N2]%str_compare_lt. apply str_compare_lt.
    split; [by eapply str_leb_trans|]. intros ->. apply N1. by apply String.leb_antisym.
Qed.

#[global] Instance cmp_on_lawful {A B} (f : A -> B) c : Lawful c -> Lawful (cmp_on f c).
Proof. intros [Ha He Ht]. split; unfold cmp_on; eauto. Qed.

#[global] Instance cmp_then_lawful {A} (c1 c2 : A -> A -> comparison) : Lawful c1 -> Lawful c2 -> Lawful (cmp_then c1 c2).
Proof.
  intros [A1 E1 T1] [A2 E2 T2]. unfold cmp_then. split.
  - intros a b. rewrite (A1 a b), (A2 a b). by destruct (c1 a b).
  - intros a b d. destruct (c1 a b) eqn:E; try discriminate. intros Heq. rewrite (E1 a b d E). destruct (c1 b d); [by apply E2|done|done].
  - intros a b d. destruct (c1 a b) eqn:Eab; try discriminate.
    + rewrite (E1 a b d Eab). intros Hab. destruct (c1 b d) eqn:Ebd; try done. by apply T2.
    + intros _. destruct (c1 b d) eqn:Ebd; try discriminate; [|by rewrite (T1 a b d Eab Ebd)].
      assert (c1 a d = Lt) as ->; [|done]. assert (c1 d b = Eq) as Edb by (by rewrite A1, Ebd).
      rewrite A1, (E1 d b a Edb), A1, Eab. done.
Qed.

Section lawful.
Context {A : Type} (c : A -> A -> comparison) `{!Lawful c}.

Lemma less_total a b : cmp_less c a b = true -> not_less (cmp_less c) a b.
Proof using All. unfold not_less, cmp_less. rewrite (cmp_antisym a b). by destruct (c a b). Qed.

Lemma not_less_iff a b : not_less (cmp_less c) a b <-> c a b <> Gt.
Proof using All. unfold not_less, cmp_less. rewrite (cmp_antisym a b). by destruct (c a b). Qed.

Lemma not_less_trans a b d : not_less (cmp_less c) a b -> not_less (cmp_less c) b d -> not_less (cmp_less c) a d.
Proof using All.
  rewrite !not_less_iff. destruct (c a b) eqn:Eab; [by rewrite (cmp_eq a b d Eab)| |done]. intros _.
  destruct (c b d) eqn:Ebd; [|by rewrite (cmp_lt_trans a b d Eab Ebd)|done]. intros _.
  assert (c d b = Eq) as Edb by (by rewrite (cmp_antisym b d), Ebd).
  rewrite (cmp_antisym d a), (cmp_eq d b a Edb), (cmp_antisym a b), Eab. done.
Qed.

Lemma sort_sorted (l : list A) : StronglySorted (not_less (cmp_less c)) (sort_by (cmp_less c) l).
Proof using All. apply sort_by_sorted; [exact less_total|exact not_less_trans]. Qed.

(** Lists that agree up to order sort alike when no two of their elements compare equal. *)
Lemma sort_unique (l1 l2 : list A) :
  (forall a b, a ∈ l1 -> b ∈ l1 -> c a b = Eq -> a = b) -> l1 ≡ₚ l2 -> sort_by (cmp_less c) l1 = sort_by (cmp_less c) l2.
Proof using All.
  intros Heq Hp. refine (StronglySorted_unique_strong (not_less (cmp_less c)) _ _ _ (sort_sorted l1) (sort_sorted l2) _).
  - intros a b Ha Hb. rewrite !not_less_iff, (cmp_antisym (c := c) a b). intros H1 H2.
    assert (a ∈ l1) as Ha1 by (by rewrite <- (sort_by_perm (cmp_less c) l1)).
    assert (b ∈ l1) as Hb1 by (rewrite Hp; by rewrite <- (sort_by_perm (cmp_less c) l2)).
    apply Heq; [done|done|]. by destruct (c a b).
  - by rewrite !sort_by_perm.
Qed.
End lawful.

(** Comparisons that agree on the elements sort alike. *)
Lemma insert_by_ext {A} (P : A -> Prop) (f g : A -> A -> bool) x l :
  (forall a b, P a -> P b -> f a b = g a b) -> P x -> Forall P l -> insert_by f x l = insert_by g x l.
Proof. intros Hfg Hx. induction 1 as [|y l Hy _ IH]; [done|]. cbn. by rewrite (Hfg x y Hx Hy), IH. Qed.

Lemma sort_by_ext_on {A} (P : A -> Prop) (f g : A -> A -> bool) l :
  (forall a b, P a -> P b -> f a b = g a b) -> Forall P l -> sort_by f l = sort_by g l.
Proof.
  intros Hfg Hl. unfold sort_by. assert (Forall P []) as Hnil by constructor. revert Hnil. generalize (@nil A).
  induction Hl as [|x l Hx _ IH]; intros acc Hacc; [done|]. cbn [foldl]. rewrite (insert_by_ext P f g x acc Hfg Hx Hacc).
  apply IH. rewrite insert_by_perm. by constructor.
Qed.

(** The tests of the source. *)
Lemma if_string_compare (x y : string) (r : bool) :
  (if negb (String.eqb x y) then String.ltb x y else r) = match String.compare x y with Eq => r | Lt => true | Gt => false end.
Proof.
  unfold String.ltb. destruct (String.eqb_spec x y) as [->|Hne]; [by rewrite str_compare_refl|]. cbn [negb].
  destruct (String.compare x y) eqn:E; [|done|done]. by apply String.compare_eq_iff in E.
Qed.

Lemma if_Z_compare (x y : Z) (r : bool) :
  (if negb (x =? y) then x <? y else r) = match Z.compare x y with Eq => r | Lt => true | Gt => false end.
Proof.
  unfold Z.ltb. destruct (Z.eqb_spec x y) as [->|Hne]; [by rewrite Z.compare_refl|]. cbn [negb].
  destruct (Z.compare x y) eqn:E; [|done|done]. by apply Z.compare_eq in E.
Qed.

(** ** Collecting *)

Section collect.
Context {E A : Type} (norm : A -> result E A) (key : A -> string) (same : A -> A -> bool) (conflict : E).

Fixpoint collectBy (input : list A) (seen : gmap string A) : result E (gmap string A) :=
  match input with
  | [] => Ok seen
  | item :: rest =>
      let! normalized := norm item in
      match seen !! key normalized with
      | Some existing => fail! conflict when negb (same existing normalized) in collectBy rest seen
      | None => collectBy rest (<[key normalized := normalized]> seen)
      end
  end.

(** [d] is the normal form of an input. *)
Definition normalOf (input : list A) (d : A) : Prop := exists i, i ∈ input /\ norm i = Ok d.

Lemma normalOf_cons i input n d : norm i = Ok n -> normalOf (i :: input) d <-> d = n \/ normalOf input d.
Proof using Type.
  intros Hn. unfold normalOf. setoid_rewrite elem_of_cons. split.
  - intros (x & [->|Hx] & Hd); [left; congruence|eauto].
  - intros [->|(x & Hx & Hd)]; eauto.
Qed.

(** Every input has a normal form; what is kept is one of them, under its key; and every normal
    form is represented by one that is the same. *)
Lemma collectBy_spec (input : list A) (seen m : gmap string A) :
  map_Forall (fun k d => key d = k) seen -> collectBy input seen = Ok m ->
  map_Forall (fun k d => key d = k) m /\ (forall i, i ∈ input -> exists d, norm i = Ok d) /\
  (forall k d, m !! k = Some d -> seen !! k = Some d \/ normalOf input d) /\
  (forall k d, seen !! k = Some d -> m !! k = Some d) /\
  (forall d, normalOf input d -> exists e, m !! key d = Some e /\ (e = d \/ same e d = true)).
Proof using Type.
  revert seen. induction input as [|i input IH]; intros seen Hs H; cbn [collectBy] in H.
  { injection H as <-. split_and!; [done|set_solver|by left|done|]. intros d (x & Hx & _). by apply not_elem_of_nil in Hx. }
  destruct (norm i) as [n|] eqn:En; [|discriminate H]. cbn [result_bind] in H.
  setoid_rewrite elem_of_cons. setoid_rewrite (normalOf_cons i input n _ En). destruct (seen !! key n) as [e|] eqn:Ee.
  - destruct (same e n) eqn:Esame; cbn [negb] in H; [|discriminate H].
    apply IH in H as (Hm & Hall & Hfrom & Hkeep & Hrep); [|done]. split_and!; [done|intros x [->|]; eauto|naive_solver|done|].
    intros d [->|Hd]; [|by apply Hrep]. exists e. split; [by apply Hkeep|by right].
  - apply IH in H as (Hm & Hall & Hfrom & Hkeep & Hrep); [|by apply map_Forall_insert_2].
    split_and!; [done|intros x [->|]; eauto| | |].
    + intros k d Hd. destruct (Hfrom k d Hd) as [[[<- <-]|[_ ?]]%lookup_insert_Some|?]; naive_solver.
    + intros k d Hd. apply Hkeep. rewrite lookup_insert_ne; [done|]. intros <-. congruence.
    + intros d [->|Hd]; [|by apply Hrep]. exists n. split; [|by left]. apply Hkeep. apply lookup_insert_eq.
Qed.

(** It succeeds when inputs with the same key are the same. *)
Lemma collectBy_ok (input : list A) (seen : gmap string A) :
  (forall i, i ∈ input -> exists d, norm i = Ok d) ->
  (forall d e, normalOf input d -> normalOf input e \/ seen !! key e = Some e -> key e = key d -> same e d = true) ->
  map_Forall (fun k d => key d = k) seen ->
  exists m, collectBy input seen = Ok m.
Proof using Type.
  revert seen. induction input as [|i input IH]; intros seen Hall Hsame Hs; cbn [collectBy]; [eauto|].
  destruct (Hall i) as [n En]; [set_solver|]. rewrite En. cbn [result_bind].
  setoid_rewrite (normalOf_cons i input n _ En) in Hsame. destruct (seen !! key n) as [e|] eqn:Ee.
  - pose proof (Hs _ _ Ee) as He. cbn in He. rewrite (Hsame n e); [|by left|right; by rewrite He|done]. cbn [negb].
    apply IH; [set_solver|naive_solver|done].
  - apply IH; [set_solver| |by apply map_Forall_insert_2]. intros d e Hd He Hk. apply Hsame; [by right| |done].
    destruct He as [?|[[_ ->]|[_ ?]]%lookup_insert_Some]; naive_solver.
Qed.
End collect.
