(* ===== verification/RequestBuilder.v ===== *)
(** * Building authorization requests

    [internal/authz/policy_input.go] (normalisation of policy documents and resource metadata)
    and [internal/authz/builder.go] (the request for an HTTP request).  Of an [http.Request] the
    record has what the builder reads: method, URL, host, TLS, headers, and the values other
    middlewares left in its context. *)

From S2P Require Import Prelude GoStrings GoURL GoHash GoMime AuthzTypes.

Local Open Scope Z_scope.

(** ** Policy input *)

Inductive build_error :=
| ErrInvalidPolicyInput (detail : string)
| ErrBuild (detail : string).

Definition lineBreaks : string := String (chr 0) (String (chr 13) (String (chr 10) "")).

Definition badParameter (kv : string * string) : bool :=
  String.eqb (ToLower (TrimSpace kv.1)) "" || ContainsAny (ToLower (TrimSpace kv.1)) lineBreaks || containsControlRune kv.2.

(** The media type, and its parameters in the order of their keys.  The keys that
    [ParseMediaType] returns are lower-case tokens, so the canonical ones are distinct. *)
Definition normalizeContentType (value : string) : result build_error string :=
  let value := TrimSpace value in
  fail! ErrInvalidPolicyInput "policy document content type is required" when String.eqb value "" in
  match ParseMediaType value with
  | Err _ => Err (ErrInvalidPolicyInput "invalid policy document content type")
  | Ok (mediaType, params) =>
      let mediaType := ToLower (TrimSpace mediaType) in
      fail! ErrInvalidPolicyInput "invalid policy document content type"
        when String.eqb mediaType "" || ContainsAny mediaType lineBreaks in
      if bool_decide (params = ∅) then Ok mediaType
      else
        fail! ErrInvalidPolicyInput "invalid policy document content type parameter"
          when existsb badParameter (map_to_list params) in
        let canonical := map (fun kv => (ToLower (TrimSpace kv.1), kv.2)) (map_to_list params) in
        let canonicalParams : gmap string string := list_to_map canonical in
        Ok (Join (mediaType :: map (fun key => String.append key (String.append "=" (default "" (canonicalParams !! key))))
                                 (sort_by String.ltb canonical.*1)) ";")
  end.

(** The content of the document is not kept. *)
Definition normalizePolicyDocument (input : PolicyDocument) : result build_error PolicyDocument :=
  let uri := TrimSpace (pd_URI input) in
  fail! ErrInvalidPolicyInput "invalid policy document uri" when negb (validResourceURI uri) in
  let sha := ToLower (TrimSpace (pd_SHA256 input)) in
  fail! ErrInvalidPolicyInput "invalid policy document hash" when negb (validSHA256Hex sha) in
  let! contentType := normalizeContentType (pd_ContentType input) in
  Ok (mkPolicyDocument uri sha contentType "").

(** The documents by URI. *)
Fixpoint collectDocuments (input : list PolicyDocument) (seen : gmap string PolicyDocument)
  : result build_error (gmap string PolicyDocument) :=
  match input with
  | [] => Ok seen
  | document :: rest =>
      let! normalized := normalizePolicyDocument document in
      match seen !! pd_URI normalized with
      | Some existing =>
          fail! ErrInvalidPolicyInput "conflicting policy document metadata for uri"
            when negb (String.eqb (pd_SHA256 existing) (pd_SHA256 normalized))
              || negb (String.eqb (pd_ContentType existing) (pd_ContentType normalized)) in
          collectDocuments rest seen
      | None => collectDocuments rest (<[pd_URI normalized := normalized]> seen)
      end
  end.

(** The documents are sorted, so the order in which the map is visited does not show. *)
Definition sortPolicyDocuments (documents : list PolicyDocument) : list PolicyDocument :=
  sort_by policyDocumentLess documents.

Definition NormalizePolicyDocuments (input : list PolicyDocument) : result build_error (list PolicyDocument) :=
  if bool_decide (input = []) then Ok []
  else
    let! seen := collectDocuments input ∅ in
    Ok (sortPolicyDocuments (map_to_list seen).*2).

Definition PolicyVersionForDocuments (documents : list PolicyDocument) : string :=
  match NormalizePolicyDocuments documents with
  | Err _ => ""
  | Ok [] => ""
  | Ok normalized => String.append "sha256:" (sha256Hex (canonicalPolicyDocuments normalized))
  end.

(** The metadata, in the order in which the map is visited. *)
Definition metadata_order : Type := gmap string string -> list string.

Fixpoint collectMetadata (input : gmap string string) (keys : list string) (out : gmap string string)
  : result build_error (gmap string string) :=
  match keys with
  | [] => Ok out
  | k :: rest =>
      let key := TrimSpace k in
      let value := TrimSpace (default "" (input !! k)) in
      fail! ErrInvalidPolicyInput "invalid resource metadata key"
        when String.eqb key "" || (128 <? len key) || containsControlRune key in
      fail! ErrInvalidPolicyInput "invalid resource metadata value"
        when (1024 <? len value) || containsControlRune value in
      collectMetadata input rest (<[key := value]> out)
  end.

Definition NormalizeResourceMetadata (order : metadata_order) (input : gmap string string)
  : result build_error (gmap string string) :=
  if bool_decide (input = ∅) then Ok ∅ else collectMetadata input (order input) ∅.

(** ** The HTTP request *)

Record TrustedIdentity := mkIdentity {
  id_Issuer : string;
  id_WebID : string;
  id_ClientID : string;
  id_Audience : list string;
  id_ExpiresAt : Z
}.

Record http_Request := mkHTTPRequest {
  r_Method : string;
  r_URL : option URL;
  r_Host : string;
  r_TLS : bool;
  r_Header : gmap string (list string);
  ctx_RequestID : string;
  ctx_Identity : TrustedIdentity;
  ctx_PolicyDocuments : list PolicyDocument
}.

(** [Header.Get] of a key in its canonical form: the first value. *)
Definition Header_Get (r : http_Request) (key : string) : string :=
  match r_Header r !! key with Some (v :: _) => v | _ => "" end.

Record BuildOptions := mkBuildOptions {
  bo_PublicBaseURL : string;
  bo_Now : option Z;
  bo_PolicyDocuments : list PolicyDocument;
  bo_PolicyVersion : string;
  bo_ResourceMetadata : gmap string string;
  bo_ResourceVersion : string
}.

(** ** The resource URI *)

Definition joinBaseAndRequestPath (basePath requestPath : string) : string :=
  let basePath := TrimRight basePath "/" in
  if String.eqb basePath "" then
    if String.eqb requestPath "" then "/" else requestPath
  else if String.eqb requestPath "" || String.eqb requestPath "/" then basePath
  else String.append basePath (String.append "/" (TrimLeft requestPath "/")).

(** The query up to its first [#]. *)
Definition cutQuery (rawQuery : string) : string :=
  match Index rawQuery "#" with Some i => stake i rawQuery | None => rawQuery end.

Definition resourceURIForRequest (r : http_Request) (publicBaseURL : string) : result build_error string :=
  match r_URL r with
  | None => Err (ErrBuild "request url is required")
  | Some u =>
      let base := TrimSpace publicBaseURL in
      if negb (String.eqb base "") then
        match Parse base with
        | Err _ => Err (ErrBuild "public base url is invalid")
        | Ok parsedBase =>
            fail! ErrBuild "public base url is invalid"
              when String.eqb (Scheme parsedBase) "" || String.eqb (Host parsedBase) "" in
            Ok (URL_String (mkURL (Scheme parsedBase) (Opaque parsedBase) (User parsedBase) (Host parsedBase)
                  (joinBaseAndRequestPath (EscapedPath parsedBase) (EscapedPath u)) (RawPath parsedBase)
                  (OmitHost parsedBase) (ForceQuery parsedBase) (cutQuery (RawQuery u)) ""))
        end
      else
        let scheme := if String.eqb (Scheme u) "" then if r_TLS r then "https" else "http" else Scheme u in
        let host := if String.eqb (Host u) "" then r_Host r else Host u in
        fail! ErrBuild "request host is required" when String.eqb host "" in
        Ok (URL_String (mkURL scheme (Opaque u) (User u) host (Path u) (RawPath u) (OmitHost u) (ForceQuery u)
              (cutQuery (RawQuery u)) ""))
  end.

(** ** The request *)

(** [clock] is the time in seconds, for options without one. *)
Definition BuildRequest (clock : Z) (order : metadata_order) (source : option http_Request) (o : BuildOptions)
  : result build_error Request :=
  match source with
  | None => Err (ErrBuild "authz request source is nil")
  | Some r =>
      let requestID := ctx_RequestID r in
      let requestID := if String.eqb requestID "" then TrimSpace (Header_Get r "X-Request-Id") else requestID in
      fail! ErrBuild "authz request id is required" when String.eqb requestID "" in
      let! resourceURI := resourceURIForRequest r (bo_PublicBaseURL o) in
      match modesForMethod (r_Method r) with
      | None => Err (ErrBuild "unsupported authz method")
      | Some modes =>
          let! policyDocuments := NormalizePolicyDocuments (bo_PolicyDocuments o) in
          let! resourceMetadata := NormalizeResourceMetadata order (bo_ResourceMetadata o) in
          let policyVersion := TrimSpace (bo_PolicyVersion o) in
          let policyVersion := if String.eqb policyVersion "" then PolicyVersionForDocuments policyDocuments
                               else policyVersion in
          let identity := ctx_Identity r in
          Ok (mkRequest SchemaVersion requestID (r_Method r) resourceURI (id_WebID identity) (id_ClientID identity)
                (id_Issuer identity) (TrimSpace (Header_Get r "Origin")) modes (TrimSpace (bo_ResourceVersion o))
                policyVersion "" "" resourceMetadata policyDocuments (default clock (bo_Now o)))
      end
  end.

(** ** Content types *)

Lemma stake_head (n : nat) (c : ascii) (t : string) : (0 < n)%nat -> exists t', stake n (String c t) = String c t'.
Proof. destruct n; [lia|]. cbn. eauto. Qed.

Lemma space_right_head (c : ascii) (t : string) (n : nat) :
  graphic c = true -> space_right (String c t) = Some n -> (n <= String.length t)%nat.
Proof.
  intros Hc Hs. unfold space_right in Hs. destruct (last_byte (String c t)) as [d|] eqn:El; [|discriminate Hs].
  destruct (is_ascii_space d) eqn:Ed.
  - injection Hs as <-. destruct t as [|e t]; [|cbn; lia]. cbn in El. injection El as ->.
    by rewrite (graphic_not_space d Hc) in Ed.
  - destruct (List.find _ wide_spaces) as [w|] eqn:Ew; [|discriminate Hs]. injection Hs as <-.
    apply List.find_some in Ew as [Hin [u Hu]%HasSuffix_spec].
    apply list_elem_of_In, wide_head in Hin as (a & w' & -> & Ha).
    destruct u as [|b u].
    + cbn in Hu. injection Hu as -> _. apply graphic_range in Hc. lia.
    + rewrite str_app_cons in Hu. injection Hu as _ ->. rewrite str_length_app. lia.
Qed.

Lemma trim_right_head (fuel : nat) (c : ascii) (t : string) :
  graphic c = true -> exists t', trim_space_right fuel (String c t) = String c t'.
Proof.
  intros Hc. revert t. induction fuel as [|fuel IH]; intros t; cbn [trim_space_right]; [eauto|].
  destruct (space_right (String c t)) as [n|] eqn:E; [|eauto].
  apply (space_right_head c t n Hc) in E. cbn [String.length].
  destruct (stake_head (S (String.length t) - n) c t) as [t' ->]; [lia|]. apply IH.
Qed.

(** A string that starts with a visible character still does once trimmed. *)
Lemma TrimSpace_head (c : ascii) (t : string) :
  graphic c = true -> exists t', TrimSpace (String c t) = String c t'.
Proof.
  intros Hc. unfold TrimSpace. cbn [String.length trim_space_left]. rewrite (space_left_graphic c t Hc).
  by apply trim_right_head.
Qed.

Lemma consumeToken_head (s : string) :
  (consumeToken s).1 <> "" -> exists c t, s = String c t /\ graphic c = true.
Proof.
  destruct s as [|c t]; intros H; [done|]. cbn [consumeToken] in H.
  destruct (isTokenChar c) eqn:E; [|done]. clear H. exists c, t. split; [done|].
  unfold isTokenChar in E. unfold graphic, in_range. bool_prop. lia.
Qed.

Lemma lower_graphic (c : ascii) : graphic c = true -> graphic (lower_byte c) = true.
Proof. by destruct c as [[] [] [] [] [] [] [] []]; vm_compute. Qed.

Lemma ParseMediaType_head (v mediaType : string) params :
  ParseMediaType v = Ok (mediaType, params) -> exists c t, mediaType = String c t /\ graphic c = true.
Proof.
  unfold ParseMediaType. destruct (Cut v ";") as [[base aft] found]. cbv zeta.
  destruct (checkMediaTypeDisposition _) eqn:Hr; cbn [result_bind]; [|discriminate]. intros H.
  destruct (mediaParams _ _ _ _) as [[ps cont]|]; [|discriminate H]. injection H as <- _.
  apply consumeToken_head. unfold checkMediaTypeDisposition in Hr.
  destruct (consumeToken (TrimSpace (ToLower base))) as [typ rest]. cbn [fst]. intros ->. discriminate Hr.
Qed.

Lemma Join_cons_head (c : ascii) (t : string) (parts : list string) (sep : string) :
  exists t', Join (String c t :: parts) sep = String c t'.
Proof. destruct parts; cbn [Join]; [|rewrite str_app_cons]; eauto. Qed.

Lemma normalizeContentType_nonempty (value contentType : string) :
  normalizeContentType value = Ok contentType -> TrimSpace contentType <> "".
Proof.
  unfold normalizeContentType. cbv zeta. intros H. break_if; [discriminate H|].
  destruct (ParseMediaType (TrimSpace value)) as [[mediaType params]|] eqn:E; [|discriminate H].
  apply ParseMediaType_head in E as (c & t & -> & Hc).
  destruct (TrimSpace_head c t Hc) as [t' Ht]. rewrite Ht in H. cbn [ToLower string_map] in H.
  break_if; [discriminate H|]. apply lower_graphic in Hc.
  assert (exists u, contentType = String (lower_byte c) u) as [u ->].
  { break_if; [injection H as <-; eauto|]. break_if; [discriminate H|]. injection H as <-. apply Join_cons_head. }
  destruct (TrimSpace_head _ u Hc) as [u' ->]. discriminate.
Qed.

(** ** Policy documents *)

Lemma normalizePolicyDocument_valid (input d : PolicyDocument) :
  normalizePolicyDocument input = Ok d -> validatePolicyDocument d = Ok tt /\ pd_Content d = "".
Proof.
  unfold normalizePolicyDocument. cbv zeta. intros H.
  break_if; [discriminate H|]. break_if; [discriminate H|].
  destruct (normalizeContentType (pd_ContentType input)) as [contentType|] eqn:E; [|discriminate H].
  injection H as <-. cbn [pd_URI pd_SHA256 pd_ContentType pd_Content]. split; [|reflexivity].
  unfold validatePolicyDocument. cbn [pd_URI pd_SHA256 pd_ContentType].
  repeat match goal with H : negb _ = false |- _ => rewrite H; clear H end.
  apply normalizeContentType_nonempty in E. by destruct (String.eqb_spec (TrimSpace contentType) "").
Qed.

(** [d] is the normal form of one of the inputs. *)
Definition normal_of (input : list PolicyDocument) (d : PolicyDocument) : Prop :=
  exists i, i ∈ input /\ normalizePolicyDocument i = Ok d.

(** Every input has a normal form, and no two of them differ on one URI. *)
Definition consistent (input : list PolicyDocument) : Prop :=
  (forall i, i ∈ input -> exists d, normalizePolicyDocument i = Ok d) /\
  (forall d d', normal_of input d -> normal_of input d' -> pd_URI d = pd_URI d' -> d = d').

(** A map of documents without contents, by their URI. *)
Definition by_uri (m : gmap string PolicyDocument) : Prop :=
  map_Forall (fun uri d => pd_URI d = uri /\ pd_Content d = "") m.

Lemma same_document (d d' : PolicyDocument) :
  pd_Content d = "" -> pd_Content d' = "" -> pd_URI d = pd_URI d' ->
  String.eqb (pd_SHA256 d) (pd_SHA256 d') = true -> String.eqb (pd_ContentType d) (pd_ContentType d') = true -> d = d'.
Proof. destruct d, d'; cbn. intros -> -> -> ->%String.eqb_eq ->%String.eqb_eq. done. Qed.

Lemma collectDocuments_spec (input : list PolicyDocument) (seen m : gmap string PolicyDocument) :
  by_uri seen -> collectDocuments input seen = Ok m ->
  by_uri m /\ (forall i, i ∈ input -> exists d, normalizePolicyDocument i = Ok d) /\
  (forall uri d, m !! uri = Some d <-> seen !! uri = Some d \/ (pd_URI d = uri /\ normal_of input d)).
Proof.
  revert seen. induction input as [|i input IH]; intros seen Hs H; cbn [collectDocuments] in H.
  { injection H as <-. split_and!; [done|set_solver|]. unfold normal_of. set_solver. }
  destruct (normalizePolicyDocument i) as [n|] eqn:En; [|discriminate H]. cbn [result_bind] in H.
  pose proof (normalizePolicyDocument_valid i n En) as [_ Hn].
  assert (forall d, normal_of (i :: input) d <-> d = n \/ normal_of input d) as Hnorm.
  { intros d. unfold normal_of. setoid_rewrite elem_of_cons. split.
    - intros (x & [->|Hx] & Hd); [left; congruence|eauto].
    - intros [->|(x & Hx & Hd)]; eauto. }
  setoid_rewrite elem_of_cons. setoid_rewrite Hnorm. destruct (seen !! pd_URI n) as [e|] eqn:Ee.
  - destruct (negb _ || negb _) eqn:Eq in H; [discriminate H|].
    apply orb_false_iff in Eq as [H1%negb_false_iff H2%negb_false_iff].
    destruct (Hs _ _ Ee) as [He1 He2]. assert (e = n) as -> by (by apply same_document).
    apply IH in H as (Hm & Hall & Hspec); [|done]. split_and!; [done|intros x [->|]; eauto|].
    intros uri d. rewrite Hspec. naive_solver.
  - apply IH in H as (Hm & Hall & Hspec); [|by apply map_Forall_insert_2].
    split_and!; [done|intros x [->|]; eauto|]. intros uri d. rewrite Hspec, lookup_insert_Some. naive_solver.
Qed.

Lemma collectDocuments_ok (input : list PolicyDocument) (seen : gmap string PolicyDocument) :
  by_uri seen -> (forall i, i ∈ input -> exists d, normalizePolicyDocument i = Ok d) ->
  (forall d d', normal_of input d -> normal_of input d' -> pd_URI d = pd_URI d' -> d = d') ->
  (forall d e, normal_of input d -> seen !! pd_URI d = Some e -> e = d) ->
  exists m, collectDocuments input seen = Ok m.
Proof.
  revert seen. induction input as [|i input IH]; intros seen Hs Hall Hcons Hseen; cbn [collectDocuments]; [eauto|].
  destruct (Hall i) as [n En]; [set_solver|]. rewrite En. cbn [result_bind].
  pose proof (normalizePolicyDocument_valid i n En) as [_ Hn].
  assert (normal_of (i :: input) n) as Hin by (exists i; set_solver).
  assert (forall d, normal_of input d -> normal_of (i :: input) d) as Hmono.
  { intros d (x & Hx & Hd). exists x. set_solver. }
  destruct (seen !! pd_URI n) as [e|] eqn:Ee.
  - rewrite (Hseen n e Hin Ee), !String.eqb_refl. cbn [negb orb]. apply IH; [done|set_solver|eauto|eauto].
  - apply IH; [by apply map_Forall_insert_2|set_solver|eauto|].
    intros d e Hd [[Hu <-]|[_ He]]%lookup_insert_Some; eauto.
Qed.

(** Documents in the order of their URIs, one for each. *)
Definition increasing (out : list PolicyDocument) : Prop :=
  StronglySorted (fun a b => pd_URI a <> pd_URI b /\ String.leb (pd_URI a) (pd_URI b) = true) out.

Lemma by_uri_keys (m : gmap string PolicyDocument) : by_uri m -> pd_URI <$> (map_to_list m).*2 = (map_to_list m).*1.
Proof.
  intros Hm. rewrite <- list_fmap_compose. apply list_fmap_ext. intros i [uri d] Hi.
  apply list_elem_of_lookup_2, elem_of_map_to_list in Hi. by destruct (Hm uri d Hi).
Qed.

Lemma sorted_increasing (out : list PolicyDocument) :
  StronglySorted (not_less policyDocumentLess) out -> NoDup (pd_URI <$> out) -> increasing out.
Proof.
  induction 1 as [|d out Hs IH Hd]; cbn; [constructor|]. intros [Hn Hnd]%NoDup_cons. constructor; [by apply IH|].
  apply Forall_forall. intros e He. rewrite Forall_forall in Hd. specialize (Hd e He).
  assert (pd_URI d <> pd_URI e) as Hne.
  { intros Heq. apply Hn. rewrite Heq. by apply list_elem_of_fmap_2. }
  split; [done|]. unfold not_less in Hd. rewrite policyDocumentLess_key in Hd.
  destruct d, e. apply not_less_key in Hd. cbn in *. naive_solver.
Qed.

Lemma sortPolicyDocuments_sorted (l : list PolicyDocument) :
  StronglySorted (not_less policyDocumentLess) (sortPolicyDocuments l).
Proof.
  apply sort_by_sorted; intros a b; unfold not_less; rewrite !policyDocumentLess_key; [apply keyLess_total|].
  intros c. rewrite policyDocumentLess_key. apply keyLess_trans.
Qed.

Lemma NormalizePolicyDocuments_collect (input : list PolicyDocument) :
  NormalizePolicyDocuments input =
  let! seen := collectDocuments input ∅ in Ok (sortPolicyDocuments (map_to_list seen).*2).
Proof. unfold NormalizePolicyDocuments. case_bool_decide as Hi; [by subst|done]. Qed.

Lemma NormalizePolicyDocuments_spec (input out : list PolicyDocument) :
  NormalizePolicyDocuments input = Ok out ->
  consistent input /\ increasing out /\ forall d, d ∈ out <-> normal_of input d.
Proof.
  rewrite NormalizePolicyDocuments_collect.
  destruct (collectDocuments input ∅) as [m|] eqn:E; cbn [result_bind]; [|discriminate]. intros H. injection H as <-.
  apply collectDocuments_spec in E as (Hm & Hall & Hspec); [|apply map_Forall_empty].
  setoid_rewrite lookup_empty in Hspec. pose proof (sort_by_perm policyDocumentLess (map_to_list m).*2) as Hp.
  assert (forall d, m !! pd_URI d = Some d <-> normal_of input d) as Hd by (intros d; rewrite Hspec; naive_solver).
  split_and!.
  - split; [done|]. intros d d' H1%Hd H2%Hd Heq. congruence.
  - apply sorted_increasing; [apply sortPolicyDocuments_sorted|]. unfold sortPolicyDocuments. rewrite Hp, by_uri_keys by done.
    apply NoDup_fst_map_to_list.
  - intros d. unfold sortPolicyDocuments. rewrite Hp, list_elem_of_fmap, <- Hd. split.
    + intros ([uri d'] & -> & Hi%elem_of_map_to_list). cbn. by destruct (Hm uri d' Hi) as [-> _].
    + intros Hi. exists (pd_URI d, d). by rewrite elem_of_map_to_list.
Qed.

Lemma NormalizePolicyDocuments_ok (input : list PolicyDocument) :
  consistent input -> exists out, NormalizePolicyDocuments input = Ok out.
Proof.
  intros [Hall Hcons]. rewrite NormalizePolicyDocuments_collect.
  destruct (collectDocuments_ok input ∅) as [m ->]; [apply map_Forall_empty|done|done|set_solver|]. cbn. eauto.
Qed.

Lemma increasing_unique (l1 l2 : list PolicyDocument) :
  increasing l1 -> increasing l2 -> (forall d, d ∈ l1 <-> d ∈ l2) -> l1 = l2.
Proof.
  intros H1 H2 Heq.
  assert (forall l, increasing l -> NoDup l) as Hnd.
  { intros l. induction 1 as [|d l Hl IH Hd]; constructor; [|done]. intros Hin. rewrite Forall_forall in Hd.
    by destruct (Hd d Hin). }
  refine (StronglySorted_unique_strong _ l1 l2 _ H1 H2 _); [|by apply NoDup_Permutation; auto].
  intros d d' _ _ [Hne Hle] [_ Hle']. by destruct Hne; apply String.leb_antisym.
Qed.

(** C30: normalising the policy documents succeeds exactly when every document has a normal
    form and no URI has two; the result has each normal form once, in increasing order of URI,
    and neither it nor the policy version depends on the order or the repetitions of the input. *)
Theorem documents_canonical (input : list PolicyDocument) :
  ((exists out, NormalizePolicyDocuments input = Ok out) <-> consistent input) /\
  forall out, NormalizePolicyDocuments input = Ok out ->
    increasing out /\ (forall d, d ∈ out <-> normal_of input d) /\
    forall input', (forall i, i ∈ input' <-> i ∈ input) ->
      NormalizePolicyDocuments input' = Ok out /\ PolicyVersionForDocuments input' = PolicyVersionForDocuments input.
Proof.
  split.
  { split; [|apply NormalizePolicyDocuments_ok]. by intros [out (H & _)%NormalizePolicyDocuments_spec]. }
  intros out Hout. pose proof (NormalizePolicyDocuments_spec input out Hout) as ([Hall Hcons] & Hinc & Hmem).
  split_and!; [done|done|]. intros input' Hin.
  assert (forall d, normal_of input' d <-> normal_of input d) as Hnorm by (intros d; unfold normal_of; set_solver).
  destruct (NormalizePolicyDocuments_ok input') as [out' Hout'].
  { split; [set_solver|]. intros d d' H1%Hnorm H2%Hnorm. by apply Hcons. }
  pose proof (NormalizePolicyDocuments_spec input' out' Hout') as (_ & Hinc' & Hmem').
  assert (out' = out) as -> by (apply increasing_unique; [done..|]; intros d; by rewrite Hmem', Hmem, Hnorm).
  split; [done|]. unfold PolicyVersionForDocuments. by rewrite Hout, Hout'.
Qed.

Definition rawDocuments : list PolicyDocument :=
  let hash := "0123456789ABCDEF0123456789abcdef0123456789abcdef0123456789abcdef" in
  [mkPolicyDocument " https://pod.example/b.acl" hash "Text/Turtle; charset=utf-8" "<a> <b> <c> .";
   mkPolicyDocument "https://pod.example/a.acl " hash "text/turtle" ""].

Lemma documents_canonical_witness :
  exists out, NormalizePolicyDocuments rawDocuments = Ok out /\
    map (fun d => (pd_URI d, pd_ContentType d)) out =
      [("https://pod.example/a.acl", "text/turtle"); ("https://pod.example/b.acl", "text/turtle;charset=utf-8")] /\
    NormalizePolicyDocuments (reverse rawDocuments ++ rawDocuments) = Ok out.
Proof.
  assert (exists out, NormalizePolicyDocuments rawDocuments = Ok out /\
    map (fun d => (pd_URI d, pd_ContentType d)) out =
      [("https://pod.example/a.acl", "text/turtle"); ("https://pod.example/b.acl", "text/turtle;charset=utf-8")])
    as (out & Hout & Hmap) by (vm_compute; eexists; split; reflexivity).
  exists out. split_and!; [exact Hout|exact Hmap|].
  destruct (proj2 (documents_canonical rawDocuments) out Hout) as (_ & _ & H).
  apply (H (reverse rawDocuments ++ rawDocuments)).
  intros i. rewrite elem_of_app, elem_of_reverse. tauto.
Defined.

(** ** Built requests *)

Lemma validatePolicyDocuments_all (docs : list PolicyDocument) :
  (forall d, d ∈ docs -> validatePolicyDocument d = Ok tt) -> validatePolicyDocuments docs = Ok tt.
Proof.
  induction docs as [|d docs IH]; intros H; cbn [validatePolicyDocuments]; [done|].
  rewrite (H d (list_elem_of_here _ _)). cbn [result_bind]. apply IH. intros e He. by apply H, list_elem_of_further.
Qed.

Lemma NormalizePolicyDocuments_valid (input out : list PolicyDocument) :
  NormalizePolicyDocuments input = Ok out -> validatePolicyDocuments out = Ok tt.
Proof.
  intros (_ & _ & Hmem)%NormalizePolicyDocuments_spec. apply validatePolicyDocuments_all.
  intros d (i & _ & Hi)%Hmem. by apply normalizePolicyDocument_valid in Hi as [? _].
Qed.

Lemma modesForMethod_valid (method : string) (modes : list string) :
  modesForMethod method = Some modes -> modes <> [] /\ validateModes ∅ modes = Ok tt.
Proof. unfold modesForMethod. intros H. repeat break_if; try discriminate H; injection H as <-; by vm_compute. Qed.

(** What the request is built from. *)
Record built (clock : Z) (r : http_Request) (o : BuildOptions) (rq : Request) : Prop := {
  built_schema : rq_SchemaVersion rq = SchemaVersion;
  built_method : rq_Method rq = r_Method r;
  built_modes : modesForMethod (r_Method r) = Some (rq_RequestedModes rq);
  built_uri : resourceURIForRequest r (bo_PublicBaseURL o) = Ok (rq_ResourceURI rq);
  built_documents : NormalizePolicyDocuments (bo_PolicyDocuments o) = Ok (rq_PolicyDocuments rq);
  built_agent : rq_AgentWebID rq = id_WebID (ctx_Identity r) /\ rq_ClientID rq = id_ClientID (ctx_Identity r) /\
                rq_Issuer rq = id_Issuer (ctx_Identity r);
  built_now : rq_NowUnix rq = default clock (bo_Now o)
}.

Lemma BuildRequest_inv (clock : Z) (order : metadata_order) (r : http_Request) (o : BuildOptions) (rq : Request) :
  BuildRequest clock order (Some r) o = Ok rq -> built clock r o rq.
Proof.
  unfold BuildRequest. cbv zeta. intros H. destruct (String.eqb _ "") in H; [discriminate H|].
  destruct (resourceURIForRequest r _) as [uri|] eqn:Eu; [|discriminate H]. cbn [result_bind] in H.
  destruct (modesForMethod (r_Method r)) as [modes|] eqn:Em; [|discriminate H].
  destruct (NormalizePolicyDocuments (bo_PolicyDocuments o)) as [docs|] eqn:Ed; [|discriminate H]. cbn [result_bind] in H.
  destruct (NormalizeResourceMetadata order (bo_ResourceMetadata o)) as [md|]; [|discriminate H]. cbn [result_bind] in H.
  injection H as <-. by split.
Qed.

(** C31: a built request carries the identity the authentication left in the context, the mode
    of its method and the normalised policy documents, and nothing of these makes it invalid:
    validation accepts it exactly when its request identifier is a token, its resource URI is
    well formed and its time is not negative. *)
Theorem built_request_valid (clock : Z) (order : metadata_order) (r : http_Request) (o : BuildOptions) (rq : Request) :
  BuildRequest clock order (Some r) o = Ok rq ->
  built clock r o rq /\
  (ValidateRequest rq = Ok tt <->
   validToken (rq_RequestID rq) 128 = true /\ validResourceURI (rq_ResourceURI rq) = true /\ 0 <= rq_NowUnix rq).
Proof.
  intros Hb%BuildRequest_inv. split; [exact Hb|]. destruct Hb as [Hs Hm Hmodes Hu Hd _ _].
  pose proof (modesForMethod_valid _ _ Hmodes) as [Hne Hv]. apply NormalizePolicyDocuments_valid in Hd.
  unfold ValidateRequest, supportedMethod. rewrite Hs, Hm, Hmodes, Hv, Hd, (bool_decide_false _ Hne), String.eqb_refl.
  cbn [negb result_bind].
  destruct (validToken _ _); cbn [negb]; [|by split; [discriminate|intros [? _]]].
  destruct (validResourceURI _); cbn [negb]; [|by split; [discriminate|intros (_ & ? & _)]].
  destruct (Z.ltb_spec (rq_NowUnix rq) 0); split; [discriminate|lia|done|done].
Qed.

Definition sampleHTTPRequest (method host : string) : http_Request :=
  mkHTTPRequest method (match Parse "/notes/1?x=1" with Ok u => Some u | Err _ => None end) host false
    {[ "X-Request-Id" := ["req-1"] ]} "" (mkIdentity "https://idp.example" "https://alice.example/card#me" "app" [] 0) [].
Definition sampleBuildOptions : BuildOptions := mkBuildOptions "https://pod.example/base/" (Some 1700000000) rawDocuments "" ∅ "".

Lemma built_request_valid_witness :
  exists rq, BuildRequest 0 (fun m => (map_to_list m).*1) (Some (sampleHTTPRequest "PUT" "pod.example")) sampleBuildOptions = Ok rq /\
    rq_ResourceURI rq = "https://pod.example/base/notes/1?x=1" /\ ValidateRequest rq = Ok tt.
Proof.
  destruct (BuildRequest 0 (fun m => (map_to_list m).*1) (Some (sampleHTTPRequest "PUT" "pod.example")) sampleBuildOptions)
    as [rq|] eqn:E; [|vm_compute in E; discriminate E].
  exists rq. assert (rq_RequestID rq = "req-1" /\ rq_ResourceURI rq = "https://pod.example/base/notes/1?x=1") as [Hid Hu]
    by (vm_compute in E; injection E as <-; split; reflexivity).
  split; [reflexivity|]. split; [exact Hu|]. pose proof (built_request_valid _ _ _ _ _ E) as [Hb Hv].
  apply Hv. rewrite Hid, Hu, (built_now _ _ _ _ Hb). split_and!; [vm_compute; reflexivity..|]. cbn. lia.
Defined.
