(* ===== verification/PolicySources.v ===== *)
(** * Policy sources: loading, caching and refreshing

    [internal/authz/policy_source.go] (sources and the documents made of them),
    [policy_loading.go] (cache records and the in-memory loader), [policy_refresh.go] (the cache
    store and the refresh plan) and [policy_cached_loader.go] (a loader with a cache in front).

    Times are Unix seconds.  The loader behind the cache is arbitrary: it has a state of its own,
    and may answer anything.  Whether a context is done is an argument of the calls that ask. *)

From S2P Require Import Prelude GoStrings GoFloat GoURL GoHash GoMime AuthzTypes GoSort RequestBuilder.

Local Open Scope Z_scope.

(** ** Sources *)

(** The errors, with the constant part of their message; [InputError] is an error of the policy
    documents, and [LoaderError] one of the loader behind. *)
Inductive policy_error :=
| ErrInvalidPolicySource (text : string)
| ErrInvalidPolicyDiscovery (text : string)
| ErrInvalidPolicyLoad (text : string)
| ErrInvalidPolicyRefresh (text : string)
| InputError (e : build_error)
| ContextDone
| ErrPolicyFetchUnsafeURI
| ErrPolicyFetchInvalidContentType
| LoaderError (text : string).

Definition lift {A} (r : result build_error A) : result policy_error A :=
  match r with Ok a => Ok a | Err e => Err (InputError e) end.

Definition PolicySourceExplicit : string := "explicit".
Definition PolicySourceLink : string := "link".
Definition PolicySourceDerived : string := "derived".

Record PolicySource := mkPolicySource {
  ps_URI : string;
  ps_Kind : string;
  ps_Priority : Z;
  ps_ContentType : string
}.

Record LoadedPolicySource := mkLoaded { ld_Source : PolicySource; ld_Content : string }.

Definition MaxLoadedPolicyDocumentBytes : Z := 1048576.

Definition validPolicySourceKind (kind : string) : bool :=
  String.eqb kind PolicySourceExplicit || String.eqb kind PolicySourceLink || String.eqb kind PolicySourceDerived.

Definition normalizePolicySource (input : PolicySource) : result policy_error PolicySource :=
  let uri := TrimSpace (ps_URI input) in
  fail! ErrInvalidPolicySource "invalid policy source uri" when negb (validResourceURI uri) in
  let kind := if String.eqb (ps_Kind input) "" then PolicySourceExplicit else ps_Kind input in
  fail! ErrInvalidPolicySource "invalid policy source kind" when negb (validPolicySourceKind kind) in
  fail! ErrInvalidPolicySource "invalid policy source priority" when (ps_Priority input <? 0) || (10000 <? ps_Priority input) in
  let contentType := TrimSpace (ps_ContentType input) in
  if String.eqb contentType "" then Ok (mkPolicySource uri kind (ps_Priority input) contentType)
  else match normalizeContentType contentType with
  | Err _ => Err (ErrInvalidPolicySource "invalid policy source content type")
  | Ok normalized => Ok (mkPolicySource uri kind (ps_Priority input) normalized)
  end.

Definition policySourceLess (l r : PolicySource) : bool :=
  if negb (ps_Priority l =? ps_Priority r) then ps_Priority l <? ps_Priority r
  else if negb (String.eqb (ps_URI l) (ps_URI r)) then String.ltb (ps_URI l) (ps_URI r)
  else if negb (String.eqb (ps_Kind l) (ps_Kind r)) then String.ltb (ps_Kind l) (ps_Kind r)
  else String.ltb (ps_ContentType l) (ps_ContentType r).

Definition sortPolicySources (sources : list PolicySource) : list PolicySource := sort_by policySourceLess sources.

Definition sameSource (a b : PolicySource) : bool :=
  String.eqb (ps_Kind a) (ps_Kind b) && (ps_Priority a =? ps_Priority b) && String.eqb (ps_ContentType a) (ps_ContentType b).

Definition NormalizePolicySources (input : list PolicySource) : result policy_error (list PolicySource) :=
  if bool_decide (input = []) then Ok []
  else
    let! seen := collectBy normalizePolicySource ps_URI sameSource
                   (ErrInvalidPolicySource "conflicting policy source metadata for uri") input ∅ in
    Ok (sortPolicySources (map_to_list seen).*2).

(** A document has the hash of the content, and not the content. *)
Definition documentOf (loaded : LoadedPolicySource) : result policy_error PolicyDocument :=
  let! source := normalizePolicySource (ld_Source loaded) in
  fail! ErrInvalidPolicySource "empty loaded policy source content" when String.eqb (ld_Content loaded) "" in
  fail! ErrInvalidPolicySource "loaded policy source content too large" when MaxLoadedPolicyDocumentBytes <? len (ld_Content loaded) in
  fail! ErrInvalidPolicySource "loaded policy source content type is required" when String.eqb (ps_ContentType source) "" in
  Ok (mkPolicyDocument (ps_URI source) (sha256Hex (ld_Content loaded)) (ps_ContentType source) "").

Fixpoint documentsOf (input : list LoadedPolicySource) : result policy_error (list PolicyDocument) :=
  match input with
  | [] => Ok []
  | loaded :: rest => let! d := documentOf loaded in let! ds := documentsOf rest in Ok (d :: ds)
  end.

Definition PolicyDocumentsFromLoadedSources (input : list LoadedPolicySource) : result policy_error (list PolicyDocument) :=
  if bool_decide (input = []) then Ok []
  else let! documents := documentsOf input in lift (NormalizePolicyDocuments documents).

(** [%0wd] *)
Definition zeros (n : nat) : string := Nat.iter n (String "0") "".
Definition FormatPadded (w : nat) (n : Z) : string :=
  if n <? 0 then String.append "-" (let d := FormatInt (- n) in String.append (zeros (w - 1 - String.length d)) d)
  else let d := FormatInt n in String.append (zeros (w - String.length d)) d.

Definition PolicySourceSetVersion (input : list PolicySource) : string :=
  match NormalizePolicySources input with
  | Err _ => ""
  | Ok [] => ""
  | Ok normalized =>
      let entry s := concat_str [ps_URI s; field_sep; ps_Kind s; field_sep; FormatPadded 10 (ps_Priority s); field_sep; ps_ContentType s; record_sep] in
      String.append "sha256:" (sha256Hex (concat_str (map entry normalized)))
  end.

(** ** Cache records *)

Definition PolicyCacheFresh : string := "fresh".
Definition PolicyCacheStale : string := "stale".
Definition PolicyCacheExpired : string := "expired".

Record PolicySourceCacheRecord := mkRecord {
  rc_CacheKey : string;
  rc_Source : PolicySource;
  rc_Document : PolicyDocument;
  rc_Content : string;
  rc_LoadedAtUnix : Z;
  rc_ExpiresAtUnix : Z;
  rc_State : string;
  rc_Version : string
}.

Record PolicySourceLoadResult := mkLoadResult { lr_Loaded : LoadedPolicySource; lr_Metadata : PolicySourceCacheRecord }.

Definition validPolicyCacheVersion (version : string) (allowEmpty : bool) : bool :=
  if String.eqb version "" then allowEmpty else (len version <=? 256) && negb (containsControlRune version).

Definition PolicySourceCacheKey (source : PolicySource) : string :=
  match normalizePolicySource source with
  | Err _ => ""
  | Ok n => String.append "policy-source:"
              (sha256Hex (Join [ps_URI n; ps_Kind n; FormatPadded 10 (ps_Priority n); ps_ContentType n] field_sep))
  end.

Definition PolicySourceCacheVersion (source : PolicySource) (document : PolicyDocument) (loadedAtUnix expiresAtUnix : Z) : string :=
  match normalizePolicySource source, NormalizePolicyDocuments [document] with
  | Ok n, Ok [d] =>
      if negb (String.eqb (pd_URI d) (ps_URI n)) then ""
      else String.append "sha256:"
             (sha256Hex (Join [ps_URI n; ps_Kind n; FormatPadded 10 (ps_Priority n); ps_ContentType n; pd_URI d; pd_SHA256 d;
                               pd_ContentType d; FormatPadded 20 loadedAtUnix; FormatPadded 20 expiresAtUnix] field_sep))
  | _, _ => ""
  end.

Definition PolicyCacheStateAt (loadedAtUnix expiresAtUnix nowUnix : Z) : string :=
  if loadedAtUnix <=? 0 then PolicyCacheStale
  else if (0 <? expiresAtUnix) && (expiresAtUnix <=? nowUnix) then PolicyCacheExpired
  else PolicyCacheFresh.

Definition PolicyCacheRecordForLoadedSource (loaded : LoadedPolicySource) (loadedAtUnix expiresAtUnix : Z) (version : string)
  : result policy_error PolicySourceCacheRecord :=
  fail! ErrInvalidPolicyLoad "policy source timestamps must be non-negative" when (loadedAtUnix <? 0) || (expiresAtUnix <? 0) in
  let! documents := PolicyDocumentsFromLoadedSources [loaded] in
  match documents with
  | [document] =>
      let! source := normalizePolicySource (ld_Source loaded) in
      let version := TrimSpace version in
      let version := if String.eqb version "" then PolicySourceCacheVersion source document loadedAtUnix expiresAtUnix else version in
      fail! ErrInvalidPolicyLoad "invalid policy source cache version" when negb (validPolicyCacheVersion version false) in
      Ok (mkRecord (PolicySourceCacheKey source) source document (ld_Content loaded) loadedAtUnix expiresAtUnix
            (PolicyCacheStateAt loadedAtUnix expiresAtUnix loadedAtUnix) version)
  | _ => Err (ErrInvalidPolicyLoad "expected one loaded policy document")
  end.

Definition normalizePolicyCacheRecord (nowUnix : Z) (record : PolicySourceCacheRecord) : result policy_error PolicySourceCacheRecord :=
  fail! ErrInvalidPolicyLoad "policy source timestamps must be non-negative" when (rc_LoadedAtUnix record <? 0) || (rc_ExpiresAtUnix record <? 0) in
  let! source := normalizePolicySource (rc_Source record) in
  match NormalizePolicyDocuments [rc_Document record] with
  | Ok [document] =>
      fail! ErrInvalidPolicyLoad "policy cache document uri does not match source" when negb (String.eqb (pd_URI document) (ps_URI source)) in
      let cacheKey := TrimSpace (rc_CacheKey record) in
      let cacheKey := if String.eqb cacheKey "" then PolicySourceCacheKey source else cacheKey in
      fail! ErrInvalidPolicyLoad "cache key does not match source" when negb (String.eqb cacheKey (PolicySourceCacheKey source)) in
      let version := TrimSpace (rc_Version record) in
      let version := if String.eqb version "" then PolicySourceCacheVersion source document (rc_LoadedAtUnix record) (rc_ExpiresAtUnix record) else version in
      fail! ErrInvalidPolicyLoad "invalid policy cache version" when negb (validPolicyCacheVersion version false) in
      Ok (mkRecord cacheKey source document (rc_Content record) (rc_LoadedAtUnix record) (rc_ExpiresAtUnix record)
            (PolicyCacheStateAt (rc_LoadedAtUnix record) (rc_ExpiresAtUnix record) nowUnix) version)
  | _ => Err (ErrInvalidPolicyLoad "invalid policy cache document")
  end.

Definition cacheRecordLess (l r : PolicySourceCacheRecord) : bool :=
  if negb (String.eqb (rc_CacheKey l) (rc_CacheKey r)) then String.ltb (rc_CacheKey l) (rc_CacheKey r)
  else String.ltb (rc_Version l) (rc_Version r).

Definition sameRecord (a b : PolicySourceCacheRecord) : bool :=
  String.eqb (rc_Version a) (rc_Version b) && String.eqb (pd_SHA256 (rc_Document a)) (pd_SHA256 (rc_Document b)).

Definition NormalizePolicyCacheRecords (input : list PolicySourceCacheRecord) (nowUnix : Z) : result policy_error (list PolicySourceCacheRecord) :=
  if bool_decide (input = []) then Ok []
  else
    let! seen := collectBy (normalizePolicyCacheRecord nowUnix) rc_CacheKey sameRecord
                   (ErrInvalidPolicyLoad "conflicting policy source cache record") input ∅ in
    Ok (sort_by cacheRecordLess (map_to_list seen).*2).

Definition recordsByKey (records : list PolicySourceCacheRecord) : gmap string PolicySourceCacheRecord :=
  foldl (fun m r => <[rc_CacheKey r := r]> m) ∅ records.

(** ** The in-memory loader *)

Record InMemoryPolicySourceEntry := mkEntry {
  en_Content : string;
  en_ContentType : string;
  en_LoadedAtUnix : Z;
  en_ExpiresAtUnix : Z;
  en_Version : string
}.

Definition memory_loader : Type := gmap string InMemoryPolicySourceEntry.

Definition normalizeInMemoryPolicySourceEntry (source : PolicySource) (entry : InMemoryPolicySourceEntry) : result policy_error InMemoryPolicySourceEntry :=
  fail! ErrInvalidPolicyLoad "empty policy source content" when String.eqb (en_Content entry) "" in
  fail! ErrInvalidPolicyLoad "policy source content too large" when MaxLoadedPolicyDocumentBytes <? len (en_Content entry) in
  fail! ErrInvalidPolicyLoad "policy source timestamps must be non-negative" when (en_LoadedAtUnix entry <? 0) || (en_ExpiresAtUnix entry <? 0) in
  let contentType := TrimSpace (en_ContentType entry) in
  let contentType := if String.eqb contentType "" then ps_ContentType source else contentType in
  fail! ErrInvalidPolicyLoad "policy source content type is required" when String.eqb contentType "" in
  match normalizeContentType contentType with
  | Err _ => Err (ErrInvalidPolicyLoad "invalid policy source content type")
  | Ok normalizedContentType =>
      let version := TrimSpace (en_Version entry) in
      fail! ErrInvalidPolicyLoad "invalid policy source cache version" when negb (validPolicyCacheVersion version true) in
      Ok (mkEntry (en_Content entry) normalizedContentType (en_LoadedAtUnix entry) (en_ExpiresAtUnix entry) version)
  end.

Definition Store (source : PolicySource) (entry : InMemoryPolicySourceEntry) (l : memory_loader) : result policy_error memory_loader :=
  let! normalized := normalizePolicySource source in
  let! entry := normalizeInMemoryPolicySourceEntry normalized entry in
  Ok (<[PolicySourceCacheKey normalized := entry]> l).

(** The entries in the order in which the map is visited. *)
Fixpoint NewInMemoryPolicySourceLoader (entries : list (PolicySource * InMemoryPolicySourceEntry)) (l : memory_loader) : result policy_error memory_loader :=
  match entries with
  | [] => Ok l
  | (source, entry) :: rest => let! l' := Store source entry l in NewInMemoryPolicySourceLoader rest l'
  end.

Definition InMemory_LoadPolicySource (done : bool) (source : PolicySource) (l : memory_loader) : result policy_error PolicySourceLoadResult :=
  fail! ContextDone when done in
  let! normalized := normalizePolicySource source in
  match l !! PolicySourceCacheKey normalized with
  | None => Err (ErrInvalidPolicyLoad "policy source not found")
  | Some entry =>
      let! entry := normalizeInMemoryPolicySourceEntry normalized entry in
      let loaded := mkLoaded normalized (en_Content entry) in
      let! metadata := PolicyCacheRecordForLoadedSource loaded (en_LoadedAtUnix entry) (en_ExpiresAtUnix entry) (en_Version entry) in
      Ok (mkLoadResult loaded metadata)
  end.

(** ** The cache store *)

Record InMemoryPolicyCacheStore := mkStore { st_records : gmap string PolicySourceCacheRecord; st_nowUnix : Z }.

Definition NewInMemoryPolicyCacheStore (records : list PolicySourceCacheRecord) (nowUnix : Z) : result policy_error InMemoryPolicyCacheStore :=
  let! normalized := NormalizePolicyCacheRecords records nowUnix in
  Ok (mkStore (recordsByKey normalized) nowUnix).

Definition GetPolicyCacheRecord (done : bool) (source : PolicySource) (s : InMemoryPolicyCacheStore) : result policy_error (option PolicySourceCacheRecord) :=
  fail! ContextDone when done in
  let key := PolicySourceCacheKey source in
  fail! ErrInvalidPolicySource "" when String.eqb key "" in
  match st_records s !! key with
  | None => Ok None
  | Some record => let! normalized := normalizePolicyCacheRecord (st_nowUnix s) record in Ok (Some normalized)
  end.

Definition PutPolicyCacheRecord (done : bool) (record : PolicySourceCacheRecord) (s : InMemoryPolicyCacheStore) : result policy_error InMemoryPolicyCacheStore :=
  fail! ContextDone when done in
  let! normalized := normalizePolicyCacheRecord (st_nowUnix s) record in
  Ok (mkStore (<[rc_CacheKey normalized := normalized]> (st_records s)) (st_nowUnix s)).

Definition ListPolicyCacheRecords (done : bool) (s : InMemoryPolicyCacheStore) : result policy_error (list PolicySourceCacheRecord) :=
  fail! ContextDone when done in
  NormalizePolicyCacheRecords (map_to_list (st_records s)).*2 (st_nowUnix s).

(** ** The refresh plan *)

Definition PolicyRefreshNow : string := "refresh_now".
Definition PolicyRefreshLater : string := "refresh_later".
Definition PolicyRefreshSkip : string := "skip".

Record PolicyRefreshPlanOptions := mkPlanOptions {
  po_Sources : list PolicySource;
  po_Records : list PolicySourceCacheRecord;
  po_NowUnix : Z;
  po_RefreshWindowSec : Z
}.

Record PolicyRefreshItem := mkItem {
  it_Source : PolicySource;
  it_CacheKey : string;
  it_Action : string;
  it_Reason : string;
  it_NextCheckAt : Z;
  it_RecordState : string;
  it_RecordVersion : string
}.

Record PolicyRefreshPlan := mkPlan { pl_PlanVersion : string; pl_CreatedAt : Z; pl_Items : list PolicyRefreshItem }.

Definition nextCheckForRecord (record : PolicySourceCacheRecord) (nowUnix : Z) : Z :=
  if 0 <? rc_ExpiresAtUnix record then rc_ExpiresAtUnix record else if 0 <? nowUnix then nowUnix else 0.

(** The item of one source, whose record is in [records] or missing. *)
Definition refreshItem (now window : Z) (records : gmap string PolicySourceCacheRecord) (source : PolicySource) : PolicyRefreshItem :=
  let key := PolicySourceCacheKey source in
  match records !! key with
  | None => mkItem source key PolicyRefreshNow "missing" now "" ""
  | Some record =>
      let item action reason next := mkItem source key action reason next (rc_State record) (rc_Version record) in
      if String.eqb (rc_State record) PolicyCacheExpired then item PolicyRefreshNow "expired" now
      else if String.eqb (rc_State record) PolicyCacheStale then item PolicyRefreshNow "stale" now
      else if (0 <? rc_ExpiresAtUnix record) && (rc_ExpiresAtUnix record - now <=? window)
           then item PolicyRefreshLater "fresh" (rc_ExpiresAtUnix record)
      else item PolicyRefreshSkip "fresh" (nextCheckForRecord record now)
  end.

Fixpoint refreshItems (now window : Z) (records : gmap string PolicySourceCacheRecord) (sources : list PolicySource)
  : result policy_error (list PolicyRefreshItem) :=
  match sources with
  | [] => Ok []
  | source :: rest =>
      fail! ErrInvalidPolicyRefresh "invalid policy source cache key" when String.eqb (PolicySourceCacheKey source) "" in
      let! items := refreshItems now window records rest in
      Ok (refreshItem now window records source :: items)
  end.

Definition refreshActionRank (action : string) : Z :=
  if String.eqb action PolicyRefreshNow then 0
  else if String.eqb action PolicyRefreshLater then 1
  else if String.eqb action PolicyRefreshSkip then 2
  else 3.

Definition refreshItemLess (l r : PolicyRefreshItem) : bool :=
  if negb (String.eqb (it_Action l) (it_Action r)) then refreshActionRank (it_Action l) <? refreshActionRank (it_Action r)
  else if negb (it_NextCheckAt l =? it_NextCheckAt r) then it_NextCheckAt l <? it_NextCheckAt r
  else String.ltb (it_CacheKey l) (it_CacheKey r).

Definition PolicyRefreshPlanVersion (items : list PolicyRefreshItem) (createdAt : Z) : string :=
  let entry i := concat_str [it_CacheKey i; field_sep; it_Action i; field_sep; it_Reason i; field_sep; FormatPadded 20 (it_NextCheckAt i);
                             field_sep; it_RecordState i; field_sep; it_RecordVersion i; record_sep] in
  String.append "sha256:" (sha256Hex (String.append (FormatPadded 20 createdAt) (String.append record_sep (concat_str (map entry items))))).

Definition BuildPolicyRefreshPlan (o : PolicyRefreshPlanOptions) : result policy_error PolicyRefreshPlan :=
  fail! ErrInvalidPolicyRefresh "negative refresh timing" when (po_NowUnix o <? 0) || (po_RefreshWindowSec o <? 0) in
  let! sources := NormalizePolicySources (po_Sources o) in
  let! records := NormalizePolicyCacheRecords (po_Records o) (po_NowUnix o) in
  let! items := refreshItems (po_NowUnix o) (po_RefreshWindowSec o) (recordsByKey records) sources in
  let items := sort_by refreshItemLess items in
  Ok (mkPlan (PolicyRefreshPlanVersion items (po_NowUnix o)) (po_NowUnix o) items).

(** ** The cached loader *)

(** Counters of [PolicyCacheMetrics]. *)
Record PolicyCacheMetrics := mkCacheMetrics {
  Hits : Z;
  Misses : Z;
  Expiries : Z;
  Errors : Z;
  StoreErrors : Z;
  LoadSuccesses : Z;
  LoadErrors : Z
}.

Definition RecordCacheHit (m : PolicyCacheMetrics) := mkCacheMetrics (wrap64 (Hits m + 1)) (Misses m) (Expiries m) (Errors m) (StoreErrors m) (LoadSuccesses m) (LoadErrors m).
Definition RecordCacheMiss (m : PolicyCacheMetrics) := mkCacheMetrics (Hits m) (wrap64 (Misses m + 1)) (Expiries m) (Errors m) (StoreErrors m) (LoadSuccesses m) (LoadErrors m).
Definition RecordCacheExpiry (m : PolicyCacheMetrics) := mkCacheMetrics (Hits m) (Misses m) (wrap64 (Expiries m + 1)) (Errors m) (StoreErrors m) (LoadSuccesses m) (LoadErrors m).
Definition RecordCacheError (m : PolicyCacheMetrics) := mkCacheMetrics (Hits m) (Misses m) (Expiries m) (wrap64 (Errors m + 1)) (StoreErrors m) (LoadSuccesses m) (LoadErrors m).
Definition RecordCacheStoreError (m : PolicyCacheMetrics) := mkCacheMetrics (Hits m) (Misses m) (Expiries m) (Errors m) (wrap64 (StoreErrors m + 1)) (LoadSuccesses m) (LoadErrors m).
Definition RecordLoadSuccess (m : PolicyCacheMetrics) := mkCacheMetrics (Hits m) (Misses m) (Expiries m) (Errors m) (StoreErrors m) (wrap64 (LoadSuccesses m + 1)) (LoadErrors m).
Definition RecordLoadError (m : PolicyCacheMetrics) := mkCacheMetrics (Hits m) (Misses m) (Expiries m) (Errors m) (StoreErrors m) (LoadSuccesses m) (wrap64 (LoadErrors m + 1)).

(** The loader behind, over a state of its own: the time of the call and the source. *)
Definition policy_loader (W : Type) : Type := Z -> PolicySource -> W -> W * result policy_error PolicySourceLoadResult.

(** Of the options, what the loader uses; [MaxCacheSize] is set and not read. *)
Record CachedPolicyLoader (W : Type) := mkCached {
  cl_world : W;
  cl_store : InMemoryPolicyCacheStore;
  cl_DefaultExpiryDuration : Z;
  cl_metrics : PolicyCacheMetrics
}.
Arguments mkCached {W} _ _ _ _.
Arguments cl_world {W} _.
Arguments cl_store {W} _.
Arguments cl_DefaultExpiryDuration {W} _.
Arguments cl_metrics {W} _.

Section cached.
Context {W : Type} (loader : policy_loader W).
Implicit Types (l : CachedPolicyLoader W).

Definition NewCachedPolicyLoader (w : W) (store : InMemoryPolicyCacheStore) (expiry : Z) : CachedPolicyLoader W :=
  mkCached w store (if expiry =? 0 then 300 * second else expiry) (mkCacheMetrics 0 0 0 0 0 0 0).

Definition meter (f : PolicyCacheMetrics -> PolicyCacheMetrics) l : CachedPolicyLoader W :=
  mkCached (cl_world l) (cl_store l) (cl_DefaultExpiryDuration l) (f (cl_metrics l)).

(** A call of the loader behind. *)
Definition direct (now : Z) (source : PolicySource) l : CachedPolicyLoader W * result policy_error PolicySourceLoadResult :=
  let '(w, r) := loader now source (cl_world l) in (mkCached w (cl_store l) (cl_DefaultExpiryDuration l) (cl_metrics l), r).

Definition expiryAt (now : Z) l : Z :=
  if 0 <? cl_DefaultExpiryDuration l then wrap64 (now + f64_to_int (duration_Seconds (cl_DefaultExpiryDuration l))) else 0.

(** [loadedAt] is the clock after the load. *)
Definition storeInCache (done : bool) (loadedAt : Z) (res : PolicySourceLoadResult) l : result policy_error InMemoryPolicyCacheStore :=
  let! record := PolicyCacheRecordForLoadedSource (lr_Loaded res) loadedAt (expiryAt loadedAt l) "" in
  PutPolicyCacheRecord done record (cl_store l).

(** What a call reads: whether the context is done when the cache is asked and when it is
    written, and the clock at the lookup, the load and the store. *)
Record load_env := mkLoadEnv { le_doneGet : bool; le_donePut : bool; le_now : Z; le_loadNow : Z; le_storeNow : Z }.

(** The part after a miss. *)
Definition loadAndStore (env : load_env) (source : PolicySource) l : CachedPolicyLoader W * result policy_error PolicySourceLoadResult :=
  let '(l, res) := direct (le_loadNow env) source l in
  match res with
  | Err e => (meter RecordLoadError l, Err e)
  | Ok res =>
      let l := match storeInCache (le_donePut env) (le_storeNow env) res l with
               | Ok store => mkCached (cl_world l) store (cl_DefaultExpiryDuration l) (cl_metrics l)
               | Err _ => meter RecordCacheStoreError l
               end in
      (meter RecordLoadSuccess l, Ok res)
  end.

Definition LoadPolicySource (env : load_env) (source : PolicySource) l : CachedPolicyLoader W * result policy_error PolicySourceLoadResult :=
  if String.eqb (PolicySourceCacheKey source) "" then direct (le_loadNow env) source (meter RecordCacheError l)
  else match GetPolicyCacheRecord (le_doneGet env) source (cl_store l) with
  | Err _ => direct (le_loadNow env) source (meter RecordCacheError l)
  | Ok found =>
      let state := match found with Some r => PolicyCacheStateAt (rc_LoadedAtUnix r) (rc_ExpiresAtUnix r) (le_now env) | None => "" end in
      match found, String.eqb state PolicyCacheFresh with
      | Some r, true => (meter RecordCacheHit l, Ok (mkLoadResult (mkLoaded (rc_Source r) (rc_Content r)) r))
      | _, _ =>
          let l := match found with
                   | Some _ => meter (if String.eqb state PolicyCacheExpired then RecordCacheExpiry else RecordCacheMiss) l
                   | None => l
                   end in
          loadAndStore env source (meter RecordCacheMiss l)
      end
  end.

(** Nothing is invalidated. *)
Definition InvalidateCache (source : PolicySource) l : CachedPolicyLoader W := l.

Definition CacheSize (done : bool) l : result policy_error Z :=
  let! records := ListPolicyCacheRecords done (cl_store l) in Ok (Z.of_nat (length records)).

End cached.

(** ** Canonical sources *)

Definition source_cmp : PolicySource -> PolicySource -> comparison :=
  cmp_then (cmp_on ps_Priority Z.compare) (cmp_then (cmp_on ps_URI String.compare)
    (cmp_then (cmp_on ps_Kind String.compare) (cmp_on ps_ContentType String.compare))).

Lemma policySourceLess_cmp a b : policySourceLess a b = cmp_less source_cmp a b.
Proof.
  unfold policySourceLess, cmp_less, source_cmp, cmp_then, cmp_on. rewrite if_Z_compare, !if_string_compare.
  destruct (Z.compare _ _); [|done|done]. destruct (String.compare (ps_URI a) _); [|done|done].
  by destruct (String.compare (ps_Kind a) _).
Qed.

Lemma sortPolicySources_cmp l : sortPolicySources l = sort_by (cmp_less source_cmp) l.
Proof. apply (sort_by_ext_on (fun _ => True)); [intros; apply policySourceLess_cmp|by apply Forall_forall]. Qed.

Lemma same_source a b : ps_URI a = ps_URI b -> sameSource a b = true -> a = b.
Proof. destruct a, b. unfold sameSource. cbn. intros -> H. bool_prop. by subst. Qed.

Lemma sameSource_refl a : sameSource a a = true.
Proof. unfold sameSource. by rewrite !String.eqb_refl, Z.eqb_refl. Qed.

(** Every source has a normal form, and no URI has two. *)
Definition consistentSources (input : list PolicySource) : Prop :=
  (forall i, i ∈ input -> exists s, normalizePolicySource i = Ok s) /\
  (forall s t, normalOf normalizePolicySource input s -> normalOf normalizePolicySource input t -> ps_URI s = ps_URI t -> s = t).

Lemma NormalizePolicySources_spec (input out : list PolicySource) :
  NormalizePolicySources input = Ok out ->
  consistentSources input /\ (forall s, s ∈ out <-> normalOf normalizePolicySource input s) /\ NoDup (ps_URI <$> out) /\
  StronglySorted (not_less (cmp_less source_cmp)) out.
Proof.
  unfold NormalizePolicySources. case_bool_decide as Hi.
  { intros [= <-]. subst. unfold consistentSources, normalOf.
    split_and!; [set_solver|set_solver|set_solver|constructor|constructor]. }
  destruct (collectBy _ _ _ _ _ _) as [m|] eqn:E; cbn [result_bind]; [|discriminate]. intros [= <-].
  apply collectBy_spec in E as (Hm & Hall & Hfrom & _ & Hrep); [|apply map_Forall_empty].
  assert (forall s, m !! ps_URI s = Some s <-> normalOf normalizePolicySource input s) as Hs.
  { intros s. split.
    - intros H. destruct (Hfrom _ _ H) as [H'|H']; [by rewrite lookup_empty in H'|done].
    - intros H. destruct (Hrep s H) as (e & He & [->|Hsame]); [done|].
      rewrite (same_source e s) in He; [done| |done]. by apply Hm in He. }
  rewrite sortPolicySources_cmp. pose proof (sort_by_perm (cmp_less source_cmp) (map_to_list m).*2) as Hp. split_and!.
  - split; [done|]. intros s t H1%Hs H2%Hs Heq. congruence.
  - intros s. rewrite Hp, list_elem_of_fmap, <- Hs. split.
    + intros ([uri s'] & -> & Hin%elem_of_map_to_list). cbn. by rewrite (Hm uri s' Hin).
    + intros Hin. exists (ps_URI s, s). by rewrite elem_of_map_to_list.
  - rewrite Hp. assert (ps_URI <$> (map_to_list m).*2 = (map_to_list m).*1) as ->; [|apply NoDup_fst_map_to_list].
    rewrite <- list_fmap_compose. apply list_fmap_ext. intros i [uri s] Hin. apply list_elem_of_lookup_2, elem_of_map_to_list in Hin. by apply Hm in Hin.
  - apply sort_sorted, _.
Qed.

Lemma NormalizePolicySources_ok (input : list PolicySource) :
  consistentSources input -> exists out, NormalizePolicySources input = Ok out.
Proof.
  intros [Hall Hcons]. unfold NormalizePolicySources. case_bool_decide; [by eexists|].
  destruct (collectBy_ok normalizePolicySource ps_URI sameSource (ErrInvalidPolicySource "conflicting policy source metadata for uri") input ∅)
    as [m ->]; [done| |apply map_Forall_empty|by eexists].
  intros s t Hs [Ht|Ht] Hu; [|by rewrite lookup_empty in Ht]. rewrite (Hcons t s Ht Hs Hu). apply sameSource_refl.
Qed.

(** The canonical list depends on the set of inputs. *)
Lemma NormalizePolicySources_set (input input' out : list PolicySource) :
  NormalizePolicySources input = Ok out -> (forall i, i ∈ input' <-> i ∈ input) -> NormalizePolicySources input' = Ok out.
Proof.
  intros H Hin. pose proof (NormalizePolicySources_spec input out H) as ([Hall Hcons] & Hmem & Hnd & Hsort).
  assert (forall s, normalOf normalizePolicySource input' s <-> normalOf normalizePolicySource input s) as Hn by (intros s; unfold normalOf; set_solver).
  destruct (NormalizePolicySources_ok input') as [out' H'].
  { split; [set_solver|]. intros s t Hs%Hn Ht%Hn. by apply Hcons. }
  rewrite H'. f_equal. pose proof (NormalizePolicySources_spec input' out' H') as (_ & Hmem' & Hnd' & Hsort').
  assert (out' ≡ₚ out) as Hp.
  { apply NoDup_Permutation; [by apply NoDup_fmap_1 in Hnd'|by apply NoDup_fmap_1 in Hnd|]. intros s. by rewrite Hmem', Hmem, Hn. }
  refine (StronglySorted_unique_strong _ out' out _ Hsort' Hsort Hp). intros s t Hs Ht. rewrite !not_less_iff by apply _.
  rewrite (cmp_antisym (c := source_cmp) s t). intros H1 H2. assert (source_cmp s t = Eq) as Heq by (by destruct (source_cmp s t)).
  unfold source_cmp, cmp_then, cmp_on in Heq. destruct (Z.compare _ _); try discriminate Heq.
  destruct (String.compare (ps_URI s) _) eqn:Eu; try discriminate Heq. apply String.compare_eq_iff in Eu.
  apply Hcons; [by apply Hn, Hmem'|by apply Hmem|done].
Qed.

(** ** The refresh plan is complete *)

(** The records by key. *)
Lemma foldl_insert_lookup (l : list PolicySourceCacheRecord) (m : gmap string PolicySourceCacheRecord) k :
  NoDup (rc_CacheKey <$> l) ->
  foldl (fun m r => <[rc_CacheKey r := r]> m) m l !! k =
  match list_find (fun r => rc_CacheKey r = k) l with Some (_, r) => Some r | None => m !! k end.
Proof.
  revert m. induction l as [|r l IH]; intros m Hn; [done|]. cbn [foldl list_find]. apply NoDup_cons in Hn as [Hn Hl]. rewrite IH by done.
  destruct (decide (rc_CacheKey r = k)) as [Hk|Hk].
  - destruct (list_find _ l) as [[i r']|] eqn:E; [|by rewrite Hk, lookup_insert_eq].
    apply list_find_Some in E as (Hi & Hr' & _). exfalso. apply Hn. rewrite Hk, <- Hr'. apply list_elem_of_fmap_2. by eapply list_elem_of_lookup_2.
  - rewrite lookup_insert_ne by done. by destruct (list_find _ l) as [[i r']|].
Qed.

(** A record given to the plan, in its normal form. *)
Definition currentRecord (o : PolicyRefreshPlanOptions) (key : string) (r : PolicySourceCacheRecord) : Prop :=
  normalOf (normalizePolicyCacheRecord (po_NowUnix o)) (po_Records o) r /\ rc_CacheKey r = key.

Lemma recordsByKey_spec o records k :
  NormalizePolicyCacheRecords (po_Records o) (po_NowUnix o) = Ok records ->
  match recordsByKey records !! k with
  | Some r => currentRecord o k r
  | None => forall r, ~ currentRecord o k r
  end.
Proof.
  unfold NormalizePolicyCacheRecords, currentRecord, recordsByKey. case_bool_decide as Hi.
  { intros [= <-]. cbn. rewrite lookup_empty. rewrite Hi. intros r [(i & Hin & _) _]. by apply not_elem_of_nil in Hin. }
  destruct (collectBy _ _ _ _ _ _) as [m|] eqn:E; cbn [result_bind]; [|discriminate]. intros [= <-].
  apply collectBy_spec in E as (Hm & _ & Hfrom & _ & Hrep); [|apply map_Forall_empty].
  pose proof (sort_by_perm cacheRecordLess (map_to_list m).*2) as Hp. rewrite foldl_insert_lookup.
  - destruct (list_find _ _) as [[i r]|] eqn:Ef.
    + apply list_find_Some in Ef as (Hr & <- & _). apply list_elem_of_lookup_2 in Hr. rewrite Hp in Hr.
      apply list_elem_of_fmap in Hr as ([k' r'] & -> & Hin%elem_of_map_to_list). cbn. split; [|done].
      destruct (Hfrom k' r' Hin) as [H|H]; [by rewrite lookup_empty in H|done].
    + rewrite lookup_empty. intros r [Hr <-]. destruct (Hrep r Hr) as (e & He & _).
      apply list_find_None in Ef. rewrite Hp, Forall_forall in Ef. apply (Ef e); [|by apply Hm in He].
      apply list_elem_of_fmap. exists (rc_CacheKey r, e). by rewrite elem_of_map_to_list.
  - rewrite Hp. assert (rc_CacheKey <$> (map_to_list m).*2 = (map_to_list m).*1) as ->; [|apply NoDup_fst_map_to_list].
    rewrite <- list_fmap_compose. apply list_fmap_ext. intros i [k' r] Hin. apply list_elem_of_lookup_2, elem_of_map_to_list in Hin. by apply Hm in Hin.
Qed.

Lemma refreshItems_map now window records sources items :
  refreshItems now window records sources = Ok items -> items = map (refreshItem now window records) sources.
Proof.
  revert items. induction sources as [|s sources IH]; cbn; intros items H; [by injection H as <-|].
  break_if; [discriminate H|]. destruct (refreshItems now window records sources) as [rest|]; [|discriminate H]. injection H as <-. by rewrite (IH rest eq_refl).
Qed.

(** A record that can be used at the time. *)
Definition fresh (now : Z) (r : PolicySourceCacheRecord) : Prop :=
  0 < rc_LoadedAtUnix r /\ (rc_ExpiresAtUnix r = 0 \/ now < rc_ExpiresAtUnix r).

(** What the plan has to say of a source. *)
Definition planned (o : PolicyRefreshPlanOptions) (i : PolicyRefreshItem) : Prop :=
  it_CacheKey i = PolicySourceCacheKey (it_Source i) /\
  (it_Action i = PolicyRefreshNow /\ it_NextCheckAt i = po_NowUnix o /\ (forall r, ~ currentRecord o (it_CacheKey i) r) \/
   exists r, currentRecord o (it_CacheKey i) r /\
     (it_Action i = PolicyRefreshNow /\ it_NextCheckAt i = po_NowUnix o /\ ~ fresh (po_NowUnix o) r \/
      it_Action i = PolicyRefreshLater /\ it_NextCheckAt i = rc_ExpiresAtUnix r /\ fresh (po_NowUnix o) r /\
        0 < rc_ExpiresAtUnix r <= po_NowUnix o + po_RefreshWindowSec o \/
      it_Action i = PolicyRefreshSkip /\ fresh (po_NowUnix o) r /\
        (rc_ExpiresAtUnix r = 0 /\ it_NextCheckAt i = Z.max 0 (po_NowUnix o) \/
         po_NowUnix o + po_RefreshWindowSec o < rc_ExpiresAtUnix r /\ it_NextCheckAt i = rc_ExpiresAtUnix r))).

Lemma normal_record_state now raw r :
  normalizePolicyCacheRecord now raw = Ok r ->
  rc_State r = PolicyCacheStateAt (rc_LoadedAtUnix r) (rc_ExpiresAtUnix r) now /\ 0 <= rc_LoadedAtUnix r /\ 0 <= rc_ExpiresAtUnix r.
Proof.
  unfold normalizePolicyCacheRecord. cbv zeta. break_if; [discriminate|]. destruct (normalizePolicySource _); cbn [result_bind]; [|discriminate].
  destruct (NormalizePolicyDocuments _) as [[|d []]|]; try discriminate. repeat (break_if; try discriminate). all: intros [= <-]; cbn; bool_prop; lia || (split; [done|lia]).
Qed.

Lemma state_fresh now r :
  rc_State r = PolicyCacheStateAt (rc_LoadedAtUnix r) (rc_ExpiresAtUnix r) now -> 0 <= rc_ExpiresAtUnix r ->
  if String.eqb (rc_State r) PolicyCacheExpired || String.eqb (rc_State r) PolicyCacheStale then ~ fresh now r else fresh now r.
Proof.
  intros -> H. unfold PolicyCacheStateAt, fresh. destruct (Z.leb_spec (rc_LoadedAtUnix r) 0); [cbn; lia|].
  destruct (Z.ltb_spec 0 (rc_ExpiresAtUnix r)), (Z.leb_spec (rc_ExpiresAtUnix r) now); cbn; lia.
Qed.

Lemma refreshItem_planned o records s :
  NormalizePolicyCacheRecords (po_Records o) (po_NowUnix o) = Ok records ->
  planned o (refreshItem (po_NowUnix o) (po_RefreshWindowSec o) (recordsByKey records) s).
Proof.
  intros Hr. pose proof (recordsByKey_spec o records (PolicySourceCacheKey s) Hr) as H. unfold refreshItem.
  destruct (_ !! PolicySourceCacheKey s) as [r|]; [|split; [done|by left]].
  destruct H as [(raw & Hin & Hraw) Hk]. pose proof (normal_record_state _ _ _ Hraw) as (Hst & Hl & He).
  pose proof (state_fresh (po_NowUnix o) r Hst He) as Hf. set (now := po_NowUnix o) in *.
  assert (currentRecord o (PolicySourceCacheKey s) r) as Hc by (split; [by exists raw|done]).
  destruct (String.eqb (rc_State r) PolicyCacheExpired); [split; [done|]; right; exists r; split; [done|]; by left|].
  destruct (String.eqb (rc_State r) PolicyCacheStale); [split; [done|]; right; exists r; split; [done|]; by left|]. cbn in Hf.
  destruct (Z.ltb_spec 0 (rc_ExpiresAtUnix r)), (Z.leb_spec (rc_ExpiresAtUnix r - now) (po_RefreshWindowSec o)); cbn [andb];
    (split; [done|]; right; exists r; split; [done|]; right); [left; split_and!; try done; cbn; lia|right; split; [done|]; (split; [done|])..];
    unfold nextCheckForRecord; cbn [it_NextCheckAt];
    destruct (Z.ltb_spec 0 (rc_ExpiresAtUnix r)), (Z.ltb_spec 0 now); first [left; split; lia|right; split; lia].
Qed.

(** Items in the order in which they are due. *)
Definition due_before (a b : PolicyRefreshItem) : Prop :=
  refreshActionRank (it_Action a) < refreshActionRank (it_Action b) \/
  (refreshActionRank (it_Action a) = refreshActionRank (it_Action b) /\ it_NextCheckAt a <= it_NextCheckAt b).

Definition item_cmp : PolicyRefreshItem -> PolicyRefreshItem -> comparison :=
  cmp_then (cmp_on (fun i => refreshActionRank (it_Action i)) Z.compare)
    (cmp_then (cmp_on it_NextCheckAt Z.compare) (cmp_on it_CacheKey String.compare)).

Definition knownAction (i : PolicyRefreshItem) : Prop :=
  it_Action i = PolicyRefreshNow \/ it_Action i = PolicyRefreshLater \/ it_Action i = PolicyRefreshSkip.

Lemma refreshItemLess_cmp a b : knownAction a -> knownAction b -> refreshItemLess a b = cmp_less item_cmp a b.
Proof.
  intros Ha Hb. unfold refreshItemLess, cmp_less, item_cmp, cmp_then, cmp_on. rewrite if_Z_compare.
  unfold String.ltb. generalize (Z.compare (it_NextCheckAt a) (it_NextCheckAt b)) (String.compare (it_CacheKey a) (it_CacheKey b)). intros x y.
  by destruct Ha as [->|[->| ->]], Hb as [->|[->| ->]], x, y.
Qed.

Lemma planned_known o i : planned o i -> knownAction i.
Proof. unfold knownAction. intros (_ & [(? & _)|(r & _ & [(? & _)|[(? & _)|(? & _)]])]); auto. Qed.

Lemma items_sorted o items :
  Forall (planned o) items -> StronglySorted due_before (sort_by refreshItemLess items).
Proof.
  intros Hp. rewrite (sort_by_ext_on knownAction _ (cmp_less item_cmp)); [|apply refreshItemLess_cmp|by eapply Forall_impl, planned_known].
  pose proof (sort_sorted item_cmp items) as Hs. revert Hs. generalize (sort_by (cmp_less item_cmp) items).
  intros l. induction 1 as [|x l _ IH Hx]; constructor; [done|]. eapply Forall_impl; [exact Hx|]. intros y. rewrite not_less_iff by apply _.
  unfold item_cmp, cmp_then, cmp_on, due_before.
  destruct (Z.compare_spec (refreshActionRank (it_Action x)) (refreshActionRank (it_Action y))); [|intros; lia|done].
  destruct (Z.compare_spec (it_NextCheckAt x) (it_NextCheckAt y)); [intros; lia|intros; lia|done].
Qed.


(** ** Cached loads are justified *)

Lemma sha256Hex_word (s : string) : word (sha256Hex s).
Proof.
  split.
  - intros H. pose proof (sha256Hex_length s) as Hl. by rewrite H in Hl.
  - eapply string_forallb_weaken; [|apply sha256Hex_is_hex]. intros c Hc. unfold is_hex, is_digit, graphic, in_range in *.
    apply orb_true_iff in Hc as [[Hc|Hc]%orb_true_iff|Hc]; bool_prop; apply andb_true_iff; split; apply Z.leb_le; lia.
Qed.

Lemma hex_digit_lower (n : Z) : 0 <= n < 16 -> lower_byte (hex_digit n) = hex_digit n.
Proof.
  intros H. assert (forallb (fun i => Ascii.eqb (lower_byte (hex_digit (Z.of_nat i))) (hex_digit (Z.of_nat i))) (seq 0 16) = true) as Hall by reflexivity.
  rewrite forallb_forall in Hall. specialize (Hall (Z.to_nat n)). rewrite Z2Nat.id in Hall by lia.
  apply Ascii.eqb_eq, Hall, in_seq. lia.
Qed.

Lemma sha256Hex_lower (s : string) : ToLower (TrimSpace (sha256Hex s)) = sha256Hex s.
Proof.
  rewrite TrimSpace_graphic by apply word_ends, sha256Hex_word. unfold sha256Hex, ToLower. pose proof (Sum256_range s) as H.
  induction H as [|b l Hb _ IH]; [done|]. cbn [hex_EncodeToString string_map]. cbn in Hb. rewrite IH, !hex_digit_lower; [done|apply Z.mod_pos_bound; lia|].
  split; [apply Z.div_pos; lia|apply Z.div_lt_upper_bound; lia].
Qed.

Lemma cacheKey_trim (s : PolicySource) : TrimSpace (PolicySourceCacheKey s) = PolicySourceCacheKey s.
Proof.
  unfold PolicySourceCacheKey. destruct (normalizePolicySource s) as [n|]; [|done]. set (h := sha256Hex _).
  apply TrimSpace_graphic, word_ends. destruct (sha256Hex_word (Join [ps_URI n; ps_Kind n; FormatPadded 10 (ps_Priority n); ps_ContentType n] field_sep)) as [_ Hw].
  split; [done|]. rewrite string_forallb_app. fold h in Hw. by rewrite Hw.
Qed.

Lemma single_document d d' : NormalizePolicyDocuments [d] = Ok [d'] -> normalizePolicyDocument d = Ok d'.
Proof.
  intros H. apply NormalizePolicyDocuments_spec in H as (_ & _ & H). destruct (proj1 (H d')) as (i & Hi & Hd); [set_solver|].
  by apply list_elem_of_singleton in Hi as ->.
Qed.

Lemma normal_document_sha d d' : normalizePolicyDocument d = Ok d' -> pd_SHA256 d' = ToLower (TrimSpace (pd_SHA256 d)).
Proof.
  unfold normalizePolicyDocument. cbv zeta. break_if; [done|]. break_if; [done|]. destruct (normalizeContentType _); [|done]. by intros [= <-].
Qed.

(** The version and the key of a record were accepted. *)
Ltac accepted :=
  repeat match goal with
  | |- context [validPolicyCacheVersion ?v false] => destruct (validPolicyCacheVersion v false); cbn [negb]; [|discriminate]
  | |- context [negb (String.eqb ?k (PolicySourceCacheKey ?s))] => destruct (String.eqb k (PolicySourceCacheKey s)); cbn [negb]; [|discriminate]
  end.

(** What a record made of a load has. *)
Lemma record_for_loaded loaded at_ expires r :
  PolicyCacheRecordForLoadedSource loaded at_ expires "" = Ok r ->
  rc_Content r = ld_Content loaded /\ rc_LoadedAtUnix r = at_ /\ rc_ExpiresAtUnix r = expires /\
  pd_SHA256 (rc_Document r) = sha256Hex (ld_Content loaded) /\
  exists n, normalizePolicySource (ld_Source loaded) = Ok n /\ rc_Source r = n /\ rc_CacheKey r = PolicySourceCacheKey n.
Proof.
  unfold PolicyCacheRecordForLoadedSource, PolicyDocumentsFromLoadedSources. break_if; [discriminate|]. cbn [documentsOf].
  rewrite bool_decide_false by done. unfold documentOf at 1. destruct (normalizePolicySource (ld_Source loaded)) as [n|] eqn:En; cbn [result_bind]; [|discriminate].
  break_if; [discriminate|]. break_if; [discriminate|]. break_if; [discriminate|]. cbn [result_bind].
  destruct (NormalizePolicyDocuments _) as [[|d []]|] eqn:Ed; cbn [lift result_bind]; try discriminate.
  apply single_document, normal_document_sha in Ed. cbn [pd_SHA256] in Ed. rewrite sha256Hex_lower in Ed.
  accepted. intros [= <-]. cbn. split_and!; try done. by exists n.
Qed.

Lemma normal_record_keeps now raw r :
  normalizePolicyCacheRecord now raw = Ok r ->
  rc_Content r = rc_Content raw /\ rc_LoadedAtUnix r = rc_LoadedAtUnix raw /\ rc_ExpiresAtUnix r = rc_ExpiresAtUnix raw /\
  pd_SHA256 (rc_Document r) = ToLower (TrimSpace (pd_SHA256 (rc_Document raw))) /\
  (TrimSpace (rc_CacheKey raw) <> "" -> rc_CacheKey r = TrimSpace (rc_CacheKey raw)).
Proof.
  unfold normalizePolicyCacheRecord. break_if; [discriminate|]. destruct (normalizePolicySource _) as [n|]; cbn [result_bind]; [|discriminate].
  destruct (NormalizePolicyDocuments _) as [[|d []]|] eqn:Ed; try discriminate. apply single_document, normal_document_sha in Ed.
  break_if; [discriminate|]. accepted. intros [= <-]. cbn. split_and!; try done.
  intros Hne. by destruct (String.eqb_spec (TrimSpace (rc_CacheKey raw)) "").
Qed.

Section justified.
Context {W : Type} (loader : policy_loader W).

Fixpoint loads (h : list (load_env * PolicySource)) (l : CachedPolicyLoader W) : CachedPolicyLoader W :=
  match h with
  | [] => l
  | (env, source) :: rest => loads rest (fst (LoadPolicySource loader env source l))
  end.

Lemma loads_app h1 h2 l : loads (h1 ++ h2) l = loads h2 (loads h1 l).
Proof using Type. revert l. induction h1 as [|[env s] h1 IH]; intros l; [done|]. cbn. apply IH. Qed.

(** A load in the history [h] from [l0] that the loader answered with [res0] is what the record
    keeps. *)
Definition recorded (l0 : CachedPolicyLoader W) (h : list (load_env * PolicySource)) (key : string) (r : PolicySourceCacheRecord) : Prop :=
  exists pre env0 s0 post res0 w, h = pre ++ (env0, s0) :: post /\
    loader (le_loadNow env0) s0 (cl_world (loads pre l0)) = (w, Ok res0) /\
    rc_Content r = ld_Content (lr_Loaded res0) /\ pd_SHA256 (rc_Document r) = sha256Hex (ld_Content (lr_Loaded res0)) /\
    rc_LoadedAtUnix r = le_storeNow env0 /\ rc_ExpiresAtUnix r = expiryAt (le_storeNow env0) l0 /\
    exists n, normalizePolicySource (ld_Source (lr_Loaded res0)) = Ok n /\ PolicySourceCacheKey n = key.

Lemma recorded_more l0 h h' key r : recorded l0 h key r -> recorded l0 (h ++ h') key r.
Proof using Type.
  intros (pre & env0 & s0 & post & res0 & w & -> & H). exists pre, env0, s0, (post ++ h'), res0, w. by rewrite <- app_assoc, <- app_comm_cons.
Qed.

(** A call either leaves the store, or stores what the loader answered. *)
Definition answered (env : load_env) (source : PolicySource) (l : CachedPolicyLoader W) (out : CachedPolicyLoader W * result policy_error PolicySourceLoadResult) : Prop :=
  cl_DefaultExpiryDuration (fst out) = cl_DefaultExpiryDuration l /\
  exists w, loader (le_loadNow env) source (cl_world l) = (w, snd out) /\
    (cl_store (fst out) = cl_store l \/
     exists res record, snd out = Ok res /\
       PolicyCacheRecordForLoadedSource (lr_Loaded res) (le_storeNow env) (expiryAt (le_storeNow env) l) "" = Ok record /\
       PutPolicyCacheRecord (le_donePut env) record (cl_store l) = Ok (cl_store (fst out))).

Definition hit (env : load_env) (source : PolicySource) (l : CachedPolicyLoader W) (out : CachedPolicyLoader W * result policy_error PolicySourceLoadResult) : Prop :=
  cl_DefaultExpiryDuration (fst out) = cl_DefaultExpiryDuration l /\ cl_store (fst out) = cl_store l /\
  exists raw rec, st_records (cl_store l) !! PolicySourceCacheKey source = Some raw /\
    normalizePolicyCacheRecord (st_nowUnix (cl_store l)) raw = Ok rec /\
    PolicyCacheStateAt (rc_LoadedAtUnix rec) (rc_ExpiresAtUnix rec) (le_now env) = PolicyCacheFresh /\
    snd out = Ok (mkLoadResult (mkLoaded (rc_Source rec) (rc_Content rec)) rec).

Lemma direct_answered env source f l : answered env source l (direct loader (le_loadNow env) source (meter f l)).
Proof using Type.
  unfold answered, direct. cbn. destruct (loader _ source (cl_world l)) as [w r]. split; [done|]. exists w. split; [done|by left].
Qed.

Lemma loadAndStore_answered env source f l : answered env source l (loadAndStore loader env source (meter f l)).
Proof using Type.
  unfold answered, loadAndStore, direct. cbn [cl_world cl_store cl_DefaultExpiryDuration cl_metrics meter].
  destruct (loader _ source (cl_world l)) as [w [res|e]]; [|split; [done|]; exists w; split; [done|by left]].
  unfold storeInCache. change (expiryAt (le_storeNow env) _) with (expiryAt (le_storeNow env) l).
  destruct (PolicyCacheRecordForLoadedSource _ _ _ _) as [record|] eqn:Er; cbn [result_bind]; [|split; [done|]; exists w; split; [done|by left]].
  cbn [cl_store]. destruct (PutPolicyCacheRecord _ record (cl_store l)) as [store|] eqn:Ep; (split; [done|]; exists w; split; [done|]).
  - right. by exists res, record.
  - by left.
Qed.

Lemma Load_cases env source l : answered env source l (LoadPolicySource loader env source l) \/ hit env source l (LoadPolicySource loader env source l).
Proof using Type.
  unfold LoadPolicySource. break_if; [left; apply direct_answered|]. unfold GetPolicyCacheRecord. rewrite Hb.
  destruct (le_doneGet env); [left; apply direct_answered|].
  destruct (st_records (cl_store l) !! PolicySourceCacheKey source) as [raw|] eqn:Eraw; cbn [result_bind]; [|left; apply loadAndStore_answered].
  destruct (normalizePolicyCacheRecord _ raw) as [rec|] eqn:En; cbn [result_bind]; [|left; apply direct_answered].
  set (state := PolicyCacheStateAt _ _ _). destruct (String.eqb_spec state PolicyCacheFresh) as [Hf|Hf].
  - right. split_and!; [done|done|]. by exists raw, rec.
  - left. apply (loadAndStore_answered env source (fun m => RecordCacheMiss ((if String.eqb state PolicyCacheExpired then RecordCacheExpiry else RecordCacheMiss) m))).
Qed.

(** What the store holds after the history [h]. *)
Definition store_ok (l0 : CachedPolicyLoader W) (h : list (load_env * PolicySource)) (l : CachedPolicyLoader W) : Prop :=
  cl_DefaultExpiryDuration l = cl_DefaultExpiryDuration l0 /\
  forall key r, st_records (cl_store l) !! key = Some r -> key = rc_CacheKey r /\ recorded l0 h key r.

Lemma expiryAt_same t (l l0 : CachedPolicyLoader W) : cl_DefaultExpiryDuration l = cl_DefaultExpiryDuration l0 -> expiryAt t l = expiryAt t l0.
Proof using Type. unfold expiryAt. by intros ->. Qed.

Lemma put_recorded l0 pre env source l store record res w :
  l = loads pre l0 -> cl_DefaultExpiryDuration l = cl_DefaultExpiryDuration l0 -> loader (le_loadNow env) source (cl_world l) = (w, Ok res) ->
  PolicyCacheRecordForLoadedSource (lr_Loaded res) (le_storeNow env) (expiryAt (le_storeNow env) l) "" = Ok record ->
  PutPolicyCacheRecord (le_donePut env) record (cl_store l) = Ok store ->
  exists r, st_records store = <[rc_CacheKey r := r]> (st_records (cl_store l)) /\ recorded l0 (pre ++ [(env, source)]) (rc_CacheKey r) r.
Proof using Type.
  intros -> Hexp Hload Hrec Hput. unfold PutPolicyCacheRecord in Hput. destruct (le_donePut env); [discriminate Hput|].
  destruct (normalizePolicyCacheRecord _ record) as [r|] eqn:En; cbn [result_bind] in Hput; [|discriminate Hput]. injection Hput as <-.
  apply record_for_loaded in Hrec as (Hc & Ha & He & Hs & n & Hn & Hsrc & Hk). pose proof En as En'.
  apply normal_record_keeps in En as (Hc' & Ha' & He' & Hs' & Hk'). exists r. split; [done|].
  exists pre, env, source, [], res, w. split_and!; try done; try congruence.
  - rewrite Hs', Hs. apply sha256Hex_lower.
  - rewrite He', He. by apply expiryAt_same.
  - exists n. split; [done|]. rewrite Hk', Hk; [|rewrite Hk, cacheKey_trim]; [by rewrite cacheKey_trim|].
    intros Hnil. unfold normalizePolicyCacheRecord in En'. rewrite Hsrc in En'. unfold PolicySourceCacheKey in Hnil.
    destruct (normalizePolicySource n); [done|]. destruct (_ || _); discriminate En'.
Qed.

Lemma load_store_ok l0 pre env source l : l = loads pre l0 -> store_ok l0 pre l -> store_ok l0 (pre ++ [(env, source)]) (fst (LoadPolicySource loader env source l)).
Proof using Type.
  intros Hl [Hexp Hok]. destruct (Load_cases env source l) as [(Hd & w & Hload & Hst)|(Hd & Hst & _)].
  - split; [congruence|]. intros key r Hr. destruct Hst as [Hst|(res & record & Hres & Hrec & Hput)].
    + rewrite Hst in Hr. destruct (Hok key r Hr) as [? ?]. split; [done|by apply recorded_more].
    + rewrite Hres in Hload. destruct (put_recorded l0 pre env source l _ record res w Hl Hexp Hload Hrec Hput) as (r' & Hst & Hr').
      rewrite Hst in Hr. apply lookup_insert_Some in Hr as [[<- <-]|[_ Hr]]; [done|]. destruct (Hok key r Hr) as [? ?]. split; [done|by apply recorded_more].
  - split; [congruence|]. intros key r Hr. rewrite Hst in Hr. destruct (Hok key r Hr) as [? ?]. split; [done|by apply recorded_more].
Qed.

Lemma loads_store_ok l0 h : st_records (cl_store l0) = ∅ -> store_ok l0 h (loads h l0).
Proof using Type.
  intros Hempty. induction h as [|[env source] h IH] using rev_ind.
  - split; [done|]. intros key r Hr. cbn in Hr. by rewrite Hempty, lookup_empty in Hr.
  - rewrite loads_app. cbn. by apply load_store_ok.
Qed.
End justified.

(** C18: what the cached loader returns was loaded.  After any loads from an empty cache, and
    whatever the loader behind answers, a result is what that loader answers now; or it has the
    content of an earlier answer, with its hash, whose source has the same cache key, and which
    was stored at a positive time and has not reached its expiry. *)
Theorem cached_load_justified {W : Type} (loader : policy_loader W) (w0 : W) (storeNow expiry : Z) (h : list (load_env * PolicySource))
    (env : load_env) (source : PolicySource) (l' : CachedPolicyLoader W) (res : PolicySourceLoadResult) :
  let l0 := NewCachedPolicyLoader w0 (mkStore ∅ storeNow) expiry in
  LoadPolicySource loader env source (loads loader h l0) = (l', Ok res) ->
  (exists w, loader (le_loadNow env) source (cl_world (loads loader h l0)) = (w, Ok res)) \/
  exists pre env0 s0 post res0 w n, h = pre ++ (env0, s0) :: post /\
    loader (le_loadNow env0) s0 (cl_world (loads loader pre l0)) = (w, Ok res0) /\
    ld_Content (lr_Loaded res) = ld_Content (lr_Loaded res0) /\
    pd_SHA256 (rc_Document (lr_Metadata res)) = sha256Hex (ld_Content (lr_Loaded res)) /\
    normalizePolicySource (ld_Source (lr_Loaded res0)) = Ok n /\ PolicySourceCacheKey n = PolicySourceCacheKey source /\
    0 < le_storeNow env0 /\ (expiryAt (le_storeNow env0) l0 <= 0 \/ le_now env < expiryAt (le_storeNow env0) l0).
Proof.
  intros l0 H. destruct (loads_store_ok loader l0 h eq_refl) as [_ Hok].
  destruct (Load_cases loader env source (loads loader h l0)) as [(_ & w & Hload & _)|(_ & _ & raw & rec & Hraw & Hn & Hf & Hout)]; rewrite H in *; cbn [fst snd] in *; [left; eauto|].
  injection Hout as ->. right. destruct (Hok _ _ Hraw) as [_ (pre & env0 & s0 & post & res0 & w & -> & Hload & Hc & Hs & Ha & He & n & Hnn & Hk)].
  exists pre, env0, s0, post, res0, w, n. apply normal_record_keeps in Hn as (Hc' & Ha' & He' & Hs' & _). cbn [lr_Loaded ld_Content lr_Metadata].
  split_and!; try done; [congruence|rewrite Hs', Hs, sha256Hex_lower; congruence|..].
  all: unfold PolicyCacheStateAt in Hf; rewrite Ha', Ha, He', He in Hf;
    destruct (Z.leb_spec (le_storeNow env0) 0); [discriminate Hf|]; try lia;
    destruct (Z.ltb_spec 0 (expiryAt (le_storeNow env0) l0)), (Z.leb_spec (expiryAt (le_storeNow env0) l0) (le_now env)); cbn in Hf; try discriminate Hf; lia.
Qed.

(** ** Cached loads hit *)

(** A source in normal form, whose content type is one as well. *)
Record stable (n : PolicySource) : Prop := {
  sb_source : normalizePolicySource n = Ok n;
  sb_type : normalizeContentType (ps_ContentType n) = Ok (ps_ContentType n);
  sb_typed : ps_ContentType n <> ""
}.

Lemma stable_uri n : normalizePolicySource n = Ok n -> TrimSpace (ps_URI n) = ps_URI n /\ validResourceURI (ps_URI n) = true.
Proof.
  unfold normalizePolicySource. cbv zeta. intros H. destruct (validResourceURI (TrimSpace (ps_URI n))) eqn:Hv; cbn [negb] in H; [|discriminate H].
  destruct (negb (validPolicySourceKind _)); [discriminate H|]. destruct (_ || _); [discriminate H|].
  assert (TrimSpace (ps_URI n) = ps_URI n) as Hu.
  { destruct (String.eqb _ ""); [|destruct (normalizeContentType _); [|discriminate H]]; injection H as H; by apply (f_equal ps_URI) in H. }
  split; [done|]. by rewrite <- Hu.
Qed.

Definition documentFor (n : PolicySource) (content : string) : PolicyDocument := mkPolicyDocument (ps_URI n) (sha256Hex content) (ps_ContentType n) "".

Lemma normalize_documentFor n content : stable n -> NormalizePolicyDocuments [documentFor n content] = Ok [documentFor n content].
Proof.
  intros [Hs Ht _]. destruct (stable_uri n Hs) as [Hu Hv]. unfold NormalizePolicyDocuments. rewrite bool_decide_false by done.
  cbn [collectDocuments]. unfold normalizePolicyDocument. cbn [documentFor pd_URI pd_SHA256 pd_ContentType].
  rewrite Hu, Hv, sha256Hex_lower, validSHA256Hex_sha256Hex, Ht. cbn [negb result_bind]. rewrite lookup_empty. cbn [collectDocuments result_bind pd_URI].
  by rewrite insert_empty, map_to_list_singleton.
Qed.

Lemma prefixed_word p h : string_forallb graphic p = true -> word h -> word (String.append p h).
Proof.
  intros Hp [Hne Hh]. split; [|by rewrite string_forallb_app, Hp, Hh]. by destruct p.
Qed.

Lemma version_valid s : let v := String.append "sha256:" (sha256Hex s) in
  TrimSpace v = v /\ validPolicyCacheVersion v false = true /\ String.eqb v "" = false.
Proof.
  intros v. assert (word v) as Hw by (apply prefixed_word; [done|apply sha256Hex_word]).
  split; [by apply TrimSpace_graphic, word_ends|]. split; [|done]. unfold validPolicyCacheVersion.
  destruct (String.eqb_spec v ""); [by destruct Hw|]. apply andb_true_iff. split.
  - unfold v, len. rewrite str_length_app, Nat2Z.inj_add. pose proof (sha256Hex_length s) as Hl. unfold len in Hl. rewrite Hl. done.
  - apply negb_true_iff. unfold containsControlRune. destruct Hw as [_ Hg]. revert Hg. generalize v. clear.
    intros v. induction v as [|c v IH]; [done|]. cbn [string_forallb]. intros H. bool_prop.
    rewrite string_existsb_cons, IH by done. rewrite orb_false_r. unfold is_control, graphic, in_range in *. bool_prop.
    destruct (_ || _) eqn:E; [|done]. bool_prop. lia.
Qed.

(** The record that is stored for a stable source. *)
Definition recordFor (n : PolicySource) (content : string) (at_ expires now : Z) : PolicySourceCacheRecord :=
  mkRecord (PolicySourceCacheKey n) n (documentFor n content) content at_ expires (PolicyCacheStateAt at_ expires now)
    (PolicySourceCacheVersion n (documentFor n content) at_ expires).

Lemma recordFor_version n content at_ expires : stable n ->
  let v := PolicySourceCacheVersion n (documentFor n content) at_ expires in
  TrimSpace v = v /\ validPolicyCacheVersion v false = true /\ String.eqb v "" = false.
Proof.
  intros Hs. unfold PolicySourceCacheVersion. rewrite (sb_source n Hs), (normalize_documentFor n content Hs).
  cbn [documentFor pd_URI]. rewrite String.eqb_refl. cbn [negb]. apply version_valid.
Qed.

Lemma record_for_stable loaded n at_ expires :
  normalizePolicySource (ld_Source loaded) = Ok n -> stable n -> ld_Content loaded <> "" -> len (ld_Content loaded) <= MaxLoadedPolicyDocumentBytes ->
  0 <= at_ -> 0 <= expires -> PolicyCacheRecordForLoadedSource loaded at_ expires "" = Ok (recordFor n (ld_Content loaded) at_ expires at_).
Proof.
  intros Hn Hs Hc Hl Ha He. unfold PolicyCacheRecordForLoadedSource, PolicyDocumentsFromLoadedSources.
  rewrite (proj2 (Z.ltb_ge at_ 0) Ha), (proj2 (Z.ltb_ge expires 0) He). cbn [orb]. rewrite bool_decide_false by done. cbn [documentsOf].
  unfold documentOf. rewrite Hn. cbn [result_bind]. destruct (String.eqb_spec (ld_Content loaded) ""); [done|].
  rewrite (proj2 (Z.ltb_ge _ _) Hl). destruct (String.eqb_spec (ps_ContentType n) "") as [E|_]; [by apply (sb_typed n Hs) in E|]. cbn [result_bind].
  fold (documentFor n (ld_Content loaded)). rewrite (normalize_documentFor n _ Hs). cbn [lift result_bind]. change (String.eqb (TrimSpace "") "") with true. cbv iota zeta.
  destruct (recordFor_version n (ld_Content loaded) at_ expires Hs) as (_ & -> & _). done.
Qed.

Lemma normalize_recordFor n content at_ expires old now :
  stable n -> 0 <= at_ -> 0 <= expires ->
  normalizePolicyCacheRecord now (recordFor n content at_ expires old) = Ok (recordFor n content at_ expires now).
Proof.
  intros Hs Ha He. unfold normalizePolicyCacheRecord, recordFor. cbn [rc_LoadedAtUnix rc_ExpiresAtUnix rc_Source rc_Document rc_CacheKey rc_Version rc_Content].
  rewrite (proj2 (Z.ltb_ge at_ 0) Ha), (proj2 (Z.ltb_ge expires 0) He), (sb_source n Hs), (normalize_documentFor n content Hs). cbn [orb result_bind].
  change (pd_URI (documentFor n content)) with (ps_URI n). rewrite String.eqb_refl, cacheKey_trim. cbn [negb].
  destruct (recordFor_version n content at_ expires Hs) as (-> & Hv & ->). rewrite Hv.
  assert ((if String.eqb (PolicySourceCacheKey n) "" then PolicySourceCacheKey n else PolicySourceCacheKey n) = PolicySourceCacheKey n) as -> by (by case_match).
  by rewrite String.eqb_refl.
Qed.

(** the cache answers for the loader.  After a miss that the loader answered, with a content
    that can be a document and a stable source of the same cache key, the next load of the source
    before the expiry returns that content, and does not ask the loader. *)
Theorem cached_load_hits {W : Type} (loader : policy_loader W) (l : CachedPolicyLoader W) (env env' : load_env) (source n : PolicySource)
    (w : W) (res : PolicySourceLoadResult) :
  let content := ld_Content (lr_Loaded res) in
  let expires := expiryAt (le_storeNow env) l in
  GetPolicyCacheRecord (le_doneGet env) source (cl_store l) = Ok None -> loader (le_loadNow env) source (cl_world l) = (w, Ok res) ->
  normalizePolicySource (ld_Source (lr_Loaded res)) = Ok n -> stable n -> PolicySourceCacheKey n = PolicySourceCacheKey source ->
  content <> "" -> len content <= MaxLoadedPolicyDocumentBytes ->
  le_donePut env = false -> le_doneGet env' = false -> 0 < le_storeNow env -> 0 <= expires -> expires = 0 \/ le_now env' < expires ->
  exists l1 l2 res2, LoadPolicySource loader env source l = (l1, Ok res) /\
    LoadPolicySource loader env' source l1 = (l2, Ok res2) /\ lr_Loaded res2 = mkLoaded n content /\
    cl_world l2 = w /\ cl_store l2 = cl_store l1 /\ Hits (cl_metrics l2) = wrap64 (Hits (cl_metrics l1) + 1).
Proof.
  intros content expires Hmiss Hload Hn Hs Hk Hc Hlen Hput Hget Hat Hexp Hnow.
  assert (String.eqb (PolicySourceCacheKey source) "" = false) as Hkey.
  { rewrite <- Hk. unfold PolicySourceCacheKey. by rewrite (sb_source n Hs). }
  unfold LoadPolicySource at 1. rewrite Hkey, Hmiss. unfold loadAndStore, direct. cbn [meter cl_world cl_store cl_DefaultExpiryDuration cl_metrics].
  rewrite Hload. unfold storeInCache. change (expiryAt (le_storeNow env) _) with expires. cbn [cl_store].
  rewrite (record_for_stable (lr_Loaded res) n), Hput by (done || lia). cbn [result_bind]. unfold PutPolicyCacheRecord.
  rewrite normalize_recordFor by (done || lia). cbn [result_bind meter cl_world cl_store cl_DefaultExpiryDuration cl_metrics].
  eexists _, _, _. split; [reflexivity|]. unfold LoadPolicySource. rewrite Hkey. unfold GetPolicyCacheRecord. rewrite Hget, Hkey.
  cbn [cl_store st_records st_nowUnix]. rewrite <- Hk.
  match goal with |- context [?m !! PolicySourceCacheKey n] => assert (m !! PolicySourceCacheKey n = Some (recordFor n content (le_storeNow env) expires (st_nowUnix (cl_store l)))) as -> by apply lookup_insert_eq end.
  rewrite normalize_recordFor by (done || lia). cbn [result_bind recordFor rc_LoadedAtUnix rc_ExpiresAtUnix].
  assert (PolicyCacheStateAt (le_storeNow env) expires (le_now env') = PolicyCacheFresh) as ->; [|done].
  unfold PolicyCacheStateAt. rewrite (proj2 (Z.leb_gt _ _) Hat).
  destruct (Z.ltb_spec 0 expires), (Z.leb_spec expires (le_now env')); cbn; try done; lia.
Qed.

(** ** Examples *)

Definition notesACL : PolicySource := mkPolicySource "https://pod.example/notes/.acl" PolicySourceLink 200 "text/turtle".

(** A server whose document changes with every request. *)
Definition sampleLoader : policy_loader nat := fun now source k =>
  (S k, Ok (mkLoadResult (mkLoaded source (String.append "version " (FormatInt (Z.of_nat k)))) (recordFor source "" 0 0 0))).
Definition at_second (t : Z) : load_env := mkLoadEnv false false t t t.
Definition sampleCached : CachedPolicyLoader nat := NewCachedPolicyLoader 1%nat (mkStore ∅ 0) 0.

Lemma notesACL_stable : stable notesACL.
Proof. split; [vm_compute; reflexivity|vm_compute; reflexivity|discriminate]. Qed.

Lemma cached_load_hits_witness :
  exists l1 l2 res res2, LoadPolicySource sampleLoader (at_second 1000) notesACL sampleCached = (l1, Ok res) /\
    LoadPolicySource sampleLoader (at_second 1299) notesACL l1 = (l2, Ok res2) /\
    ld_Content (lr_Loaded res) = "version 1" /\ lr_Loaded res2 = mkLoaded notesACL "version 1".
Proof.
  destruct (cached_load_hits sampleLoader sampleCached (at_second 1000) (at_second 1299) notesACL notesACL 2%nat
    (mkLoadResult (mkLoaded notesACL "version 1") (recordFor notesACL "" 0 0 0))) as (l1 & l2 & res2 & H1 & H2 & H3 & _).
  - reflexivity.
  - reflexivity.
  - vm_compute. reflexivity.
  - exact notesACL_stable.
  - reflexivity.
  - discriminate.
  - discriminate.
  - reflexivity.
  - reflexivity.
  - reflexivity.
  - vm_compute. discriminate.
  - right. vm_compute. reflexivity.
  - exists l1, l2, (mkLoadResult (mkLoaded notesACL "version 1") (recordFor notesACL "" 0 0 0)), res2. split; [exact H1|]. split; [exact H2|]. split; [reflexivity|exact H3].
Defined.

(** Five minutes after the first load the document is asked for again. *)
Lemma cached_load_justified_witness :
  let l := loads sampleLoader [(at_second 1000, notesACL); (at_second 1100, notesACL)] sampleCached in
  exists l' res, LoadPolicySource sampleLoader (at_second 1299) notesACL l = (l', Ok res) /\ ld_Content (lr_Loaded res) = "version 1" /\
    ((exists w, sampleLoader 1299 notesACL (cl_world l) = (w, Ok res)) \/
     exists env0 n, (env0, notesACL) ∈ [(at_second 1000, notesACL); (at_second 1100, notesACL)] /\
       PolicySourceCacheKey n = PolicySourceCacheKey notesACL /\ 0 < le_storeNow env0).
Proof.
  intros l. destruct (LoadPolicySource sampleLoader (at_second 1299) notesACL l) as [l' [res|]] eqn:E.
  - exists l', res. split; [reflexivity|]. split.
    + assert (match snd (LoadPolicySource sampleLoader (at_second 1299) notesACL l) with Ok res => ld_Content (lr_Loaded res) | Err _ => "" end = "version 1") as H
        by (vm_compute; reflexivity). rewrite E in H. exact H.
    + destruct (cached_load_justified sampleLoader 1%nat 0 0 [(at_second 1000, notesACL); (at_second 1100, notesACL)] (at_second 1299) notesACL l' res E)
        as [H|(pre & env0 & s0 & post & res0 & w & n & Hh & Hl & _ & _ & _ & Hk & Hpos & _)]; [left; exact H|right].
      exists env0, n. split; [|split; [exact Hk|exact Hpos]]. clear -Hh.
      destruct pre as [|p [|p' [|p2 pre]]]; [injection Hh as -> _ _|injection Hh as _ -> _ _|discriminate Hh|discriminate Hh].
      * apply list_elem_of_here.
      * apply list_elem_of_further, list_elem_of_here.
  - exfalso. assert (match snd (LoadPolicySource sampleLoader (at_second 1299) notesACL l) with Ok _ => true | Err _ => false end = true) as H
      by (vm_compute; reflexivity). rewrite E in H. discriminate H.
Defined.

(** The notes are fresh and expire within the window; the diary was never loaded. *)
Definition diaryACL : PolicySource := mkPolicySource " https://pod.example/diary/.acl" "" 100 "".
Definition notesRecord : PolicySourceCacheRecord := recordFor notesACL "version 1" 1000 1300 1000.
Definition samplePlan : PolicyRefreshPlanOptions := mkPlanOptions [notesACL; diaryACL; notesACL] [notesRecord] 1290 60.

