(* ===== verification/PolicyDiscovery.v ===== *)
(** * Policy discovery

    [internal/authz/policy_discovery.go] (the policy sources of a resource: given ones, those of
    [Link] headers, and those derived from its URI) and
    [internal/authz/policy_discovery_middleware.go] (the handler that discovers and loads the
    policies of a request and puts the documents into its context).

    The loader, the context and the waiting of the middleware are functions over a world: a load
    and a wait change it, and whether the context is done is read from it. *)

From S2P Require Import Prelude GoStrings GoURL GoHash GoGlob GoJSON GoMime AuthzTypes GoSort RequestBuilder PolicySources.

Local Open Scope Z_scope.

(** ** Resolving references *)

(** [resolvePath]: the loop over the elements of a path.  [dst] is what is written after the
    first slash, [first] whether the next element is written without a slash. *)
Fixpoint resolveElems (elems : list string) (dst : string) (first : bool) : string :=
  match elems with
  | [] => dst
  | elem :: rest =>
      if String.eqb elem "." then resolveElems rest dst false
      else if String.eqb elem ".." then
        match LastIndex dst "/" with
        | None => resolveElems rest "" true
        | Some i => resolveElems rest (stake i dst) first
        end
      else resolveElems rest (String.append dst (if first then elem else String.append "/" elem)) false
  end.

Definition resolvePath (base ref : string) : string :=
  let full := if String.eqb ref "" then base
              else if HasPrefix ref "/" then ref
              else String.append (match LastIndex base "/" with Some i => stake (i + 1) base | None => "" end) ref in
  if String.eqb full "" then ""
  else
    let elems := Split full "/" in
    let dst := String.append "/" (resolveElems elems "" true) in
    let elem := default "" (last elems) in
    let r := if String.eqb elem "." || String.eqb elem ".." then String.append dst "/" else dst in
    if HasPrefix r "//" then sdrop 1 r else r.

(** [setPath] of a path that is validly encoded; an error leaves the path as it is. *)
Definition withPath (u : URL) (p : string) : URL :=
  match setPath p with
  | Ok (path, raw) => mkURL (Scheme u) (Opaque u) (User u) (Host u) path raw (OmitHost u) (ForceQuery u) (RawQuery u) (Fragment u)
  | Err _ => u
  end.

Definition ResolveReference (u ref : URL) : URL :=
  let url := mkURL (if String.eqb (Scheme ref) "" then Scheme u else Scheme ref) (Opaque ref) (User ref) (Host ref) (Path ref) (RawPath ref)
               (OmitHost ref) (ForceQuery ref) (RawQuery ref) (Fragment ref) in
  if negb (String.eqb (Scheme ref) "") || negb (String.eqb (Host ref) "") || match User ref with Some _ => true | None => false end
  then withPath url (resolvePath (EscapedPath ref) "")
  else if negb (String.eqb (Opaque ref) "")
  then mkURL (Scheme url) (Opaque url) None "" "" (RawPath url) (OmitHost url) (ForceQuery url) (RawQuery url) (Fragment url)
  else
    let inherits := String.eqb (Path ref) "" && negb (ForceQuery ref) && String.eqb (RawQuery ref) "" in
    let query := if inherits then RawQuery u else RawQuery ref in
    let fragment := if inherits && String.eqb (Fragment ref) "" then Fragment u else Fragment ref in
    if String.eqb (Path ref) "" && negb (String.eqb (Opaque u) "")
    then mkURL (Scheme url) (Opaque u) None "" (Path url) (RawPath url) (OmitHost url) (ForceQuery url) query fragment
    else withPath (mkURL (Scheme url) (Opaque url) (User u) (Host u) (Path url) (RawPath url) (OmitHost url) (ForceQuery url) query fragment)
           (resolvePath (EscapedPath u) (EscapedPath ref)).

(** ** Links *)

(** A [range] over the header writes every rune back: invalid bytes become U+FFFD. *)
Definition rewriteRunes (s : string) : string := concat_str (map (fun ro => encode_rune (fst ro)) (decode s)).

Fixpoint splitQuoted (inQuote : bool) (cur s : string) : list string :=
  match s with
  | EmptyString => [cur]
  | String c rest =>
      if Ascii.eqb c (chr 34) then splitQuoted (negb inQuote) (String.append cur (String c "")) rest
      else if Ascii.eqb c "," && negb inQuote then cur :: splitQuoted inQuote "" rest
      else splitQuoted inQuote (String.append cur (String c "")) rest
  end.

Definition splitLinkHeader (header : string) : list string := splitQuoted false "" (rewriteRunes header).

Definition unquoted (raw : string) : string :=
  let q := String (chr 34) "" in
  if (2 <=? len raw) && HasPrefix raw q && HasSuffix raw q then stake (String.length raw - 2) (sdrop 1 raw) else raw.

Definition addAttribute (attrs : gmap string string) (part : string) : gmap string string :=
  let part := TrimSpace part in
  if String.eqb part "" then attrs
  else let '(key, raw, ok) := Cut part "=" in
       if ok : bool then <[ToLower (TrimSpace key) := unquoted (TrimSpace raw)]> attrs else attrs.

Definition parseLinkAttributes (value : string) : gmap string string := foldl addAttribute ∅ (Split value ";").

Definition normalizeAllowedLinkRels (input : list string) : gset string :=
  list_to_set (filter (fun rel => rel <> "") (map (fun rel => ToLower (TrimSpace rel)) input)).

Definition sortedAllowedLinkRels (input : list string) : list string := sort_by String.ltb (elements (normalizeAllowedLinkRels input)).

Definition linkRelAllowed (relValue : string) (allowed : gset string) : bool :=
  existsb (fun rel => bool_decide (rel ∈ allowed)) (Fields (ToLower relValue)).

Definition resolveLinkTarget (base : URL) (target : string) : result policy_error string :=
  fail! ErrInvalidPolicyDiscovery "unsafe link target" when ContainsAny target lineBreaks || Contains target "#" in
  match Parse target with
  | Err _ => Err (ErrInvalidPolicyDiscovery "invalid link target")
  | Ok parsed =>
      let resolved := URL_String (with_fragment (ResolveReference base parsed) "") in
      fail! ErrInvalidPolicyDiscovery "invalid resolved link target" when negb (validResourceURI resolved) in
      Ok resolved
  end.

Definition policySourceFromLinkValue (base : URL) (allowed : gset string) (defaultContentType value : string) : result policy_error (option PolicySource) :=
  let value := TrimSpace value in
  if String.eqb value "" then Ok None
  else
    fail! ErrInvalidPolicyDiscovery "malformed link header value" when negb (HasPrefix value "<") in
    match Index value ">" with
    | None => Err (ErrInvalidPolicyDiscovery "malformed link target")
    | Some end_ =>
        fail! ErrInvalidPolicyDiscovery "malformed link target" when (end_ <=? 1)%nat in
        let target := TrimSpace (stake (end_ - 1) (sdrop 1 value)) in
        let attrs := parseLinkAttributes (sdrop (end_ + 1) value) in
        if negb (linkRelAllowed (default "" (attrs !! "rel")) allowed) then Ok None
        else
          let! resolved := resolveLinkTarget base target in
          let contentType := TrimSpace (default "" (attrs !! "type")) in
          let contentType := if String.eqb contentType "" then defaultContentType else contentType in
          Ok (Some (mkPolicySource resolved PolicySourceLink 200 contentType))
    end.

Definition parseDiscoveryBaseURI (resourceURI : string) : result policy_error URL :=
  let resourceURI := TrimSpace resourceURI in
  fail! ErrInvalidPolicyDiscovery "invalid resource uri" when negb (validResourceURI resourceURI) in
  match Parse resourceURI with
  | Err _ => Err (ErrInvalidPolicyDiscovery "invalid resource uri")
  | Ok parsed => Ok (with_fragment parsed "")
  end.

Fixpoint linkSources (base : URL) (allowed : gset string) (defaultContentType : string) (parts : list string) : result policy_error (list PolicySource) :=
  match parts with
  | [] => Ok []
  | part :: rest =>
      let! source := policySourceFromLinkValue base allowed defaultContentType part in
      let! sources := linkSources base allowed defaultContentType rest in
      Ok (option_list source ++ sources)
  end.

Definition PolicySourcesFromLinkHeaders (headers : list string) (resourceURI : string) (allowedRels : list string) (defaultContentType : string)
  : result policy_error (list PolicySource) :=
  if bool_decide (headers = []) then Ok []
  else
    let! base := parseDiscoveryBaseURI resourceURI in
    let! sources := linkSources base (normalizeAllowedLinkRels allowedRels) (TrimSpace defaultContentType) (headers ≫= splitLinkHeader) in
    NormalizePolicySources sources.

(** ** Derived sources *)

(** The escaped path of the resource becomes part of an unescaped one. *)
Definition derivedSource (base : URL) (defaultContentType tail : string) : result policy_error PolicySource :=
  let tail := TrimSpace tail in
  fail! ErrInvalidPolicyDiscovery "invalid derived policy source tail"
    when String.eqb tail "" || ContainsAny tail lineBreaks || Contains tail "#" in
  let derived := mkURL (Scheme base) (Opaque base) (User base) (Host base)
                   (String.append (TrimRight (EscapedPath base) "/") (String.append "/" (TrimLeft tail "/"))) (RawPath base)
                   (OmitHost base) (ForceQuery base) "" "" in
  Ok (mkPolicySource (URL_String derived) PolicySourceDerived 300 defaultContentType).

Fixpoint derivedSources (base : URL) (defaultContentType : string) (tails : list string) : result policy_error (list PolicySource) :=
  match tails with
  | [] => Ok []
  | tail :: rest =>
      let! source := derivedSource base defaultContentType tail in
      let! sources := derivedSources base defaultContentType rest in
      Ok (source :: sources)
  end.

Definition DerivedPolicySources (resourceURI : string) (tails : list string) (defaultContentType : string) : result policy_error (list PolicySource) :=
  if bool_decide (tails = []) then Ok []
  else
    let! base := parseDiscoveryBaseURI resourceURI in
    let! sources := derivedSources base (TrimSpace defaultContentType) tails in
    NormalizePolicySources sources.

(** ** Discovery *)

Record PolicyDiscoveryOptions := mkDiscoveryOptions {
  do_ResourceURI : string;
  do_ExplicitSources : list PolicySource;
  do_LinkHeaders : list string;
  do_AllowedLinkRels : list string;
  do_DerivedURITails : list string;
  do_DefaultContentType : string
}.

Definition explicitSource (source : PolicySource) : PolicySource :=
  mkPolicySource (ps_URI source) (if String.eqb (ps_Kind source) "" then PolicySourceExplicit else ps_Kind source)
    (if ps_Priority source =? 0 then 100 else ps_Priority source) (ps_ContentType source).

Definition DiscoverPolicySources (o : PolicyDiscoveryOptions) : result policy_error (list PolicySource) :=
  let! links := PolicySourcesFromLinkHeaders (do_LinkHeaders o) (do_ResourceURI o) (do_AllowedLinkRels o) (do_DefaultContentType o) in
  let! derived := DerivedPolicySources (do_ResourceURI o) (do_DerivedURITails o) (do_DefaultContentType o) in
  NormalizePolicySources (map explicitSource (do_ExplicitSources o) ++ links ++ derived).

Definition PolicyDiscoveryVersion (o : PolicyDiscoveryOptions) : string :=
  match DiscoverPolicySources o with
  | Err _ | Ok [] => ""
  | Ok sources =>
      let version := PolicySourceSetVersion sources in
      if String.eqb version "" then ""
      else String.append version (String.append ":" (sha256Hex (Join (sortedAllowedLinkRels (do_AllowedLinkRels o)) field_sep)))
  end.

(** ** The middleware *)

Record PolicyDiscoveryMiddlewareOptions := mkDiscoveryMiddleware {
  mo_AllowedLinkRels : list string;
  mo_DerivedURITails : list string;
  mo_DefaultContentType : string;
  mo_Timeout : Z;
  mo_MaxRetries : Z;
  mo_RetryDelay : Z;
  mo_MaxPolicySources : Z;
  mo_MaxTotalBodySize : Z
}.

(** The options with their defaults filled in; the cache in front of the loader, if there is a
    store, is that of [PolicySources]. *)
Definition NewPolicyDiscoveryMiddleware (o : PolicyDiscoveryMiddlewareOptions) : PolicyDiscoveryMiddlewareOptions :=
  let or_default d x := if x =? 0 then d else x in
  mkDiscoveryMiddleware
    (if bool_decide (mo_AllowedLinkRels o = []) then ["acl"; "describedby"; "access-control"; "policy"] else mo_AllowedLinkRels o)
    (if bool_decide (mo_DerivedURITails o = []) then [".acl"; ".meta"; ".well-known/solid"] else mo_DerivedURITails o)
    (if String.eqb (mo_DefaultContentType o) "" then "text/turtle" else mo_DefaultContentType o)
    (or_default (5 * second) (mo_Timeout o)) (or_default 2 (mo_MaxRetries o)) (or_default (100 * 1000000) (mo_RetryDelay o))
    (or_default 10 (mo_MaxPolicySources o)) (or_default (10 * 1024 * 1024) (mo_MaxTotalBodySize o)).

(** The outside: a load, whether the context is done, and a wait, which says whether the context
    was done first. *)
Record discovery_world (W : Type) := mkWorld {
  dw_load : PolicySource -> W -> W * result policy_error PolicySourceLoadResult;
  dw_done : W -> bool;
  dw_wait : Z -> W -> W * bool
}.
Arguments mkWorld {W} _ _ _.
Arguments dw_load {W} _ _ _.
Arguments dw_done {W} _ _.
Arguments dw_wait {W} _ _ _.

Definition permanent (e : policy_error) : bool :=
  match e with ErrPolicyFetchUnsafeURI | ErrPolicyFetchInvalidContentType => true | _ => false end.

Section middleware.
Context {W : Type} (d : discovery_world W) (o : PolicyDiscoveryMiddlewareOptions).

Definition emptyLoaded : LoadedPolicySource := mkLoaded (mkPolicySource "" "" 0 "") "".

(** The attempts that are left; the loop ends with the zero value and the last error, if any. *)
Fixpoint retryLoad (left : nat) (backoff maxBackoff : Z) (lastErr : option policy_error) (source : PolicySource) (w : W)
  : W * result policy_error LoadedPolicySource :=
  match left with
  | O => (w, match lastErr with Some e => Err e | None => Ok emptyLoaded end)
  | S left' =>
      if dw_done d w then (w, Err ContextDone)
      else
        let '(w, res) := dw_load d source w in
        match res with
        | Ok r => (w, Ok (lr_Loaded r))
        | Err e =>
            if permanent e || (left' =? 0)%nat then (w, Err e)
            else
              let '(w, done) := dw_wait d backoff w in
              if done : bool then (w, Err ContextDone)
              else
                let backoff := wrap64 (backoff * 2) in
                retryLoad left' (if maxBackoff <? backoff then maxBackoff else backoff) maxBackoff (Some e) source w
        end
  end.

Definition loadPolicySourceWithRetry (source : PolicySource) (w : W) : W * result policy_error LoadedPolicySource :=
  retryLoad (Z.to_nat (mo_MaxRetries o + 1)) (mo_RetryDelay o) (wrap64 (mo_RetryDelay o * mo_MaxRetries o)) None source w.

(** The sources that loaded, and the errors of the others. *)
Fixpoint loadEach (sources : list PolicySource) (w : W) : W * (list LoadedPolicySource * list policy_error) :=
  match sources with
  | [] => (w, ([], []))
  | source :: rest =>
      if dw_done d w then (w, ([], []))
      else
        let '(w, r) := loadPolicySourceWithRetry source w in
        let '(w, (loaded, errs)) := loadEach rest w in
        (w, match r with Ok l => (l :: loaded, errs) | Err e => (loaded, e :: errs) end)
  end.

Definition loadPolicySources (sources : list PolicySource) (w : W) : W * result policy_error (list LoadedPolicySource) :=
  let '(w, (loaded, errs)) := loadEach sources w in
  (w, match loaded, errs with
      | [], e :: _ => Err e
      | _, _ => Ok loaded
      end).

Definition resourceURIFromRequest (r : http_Request) : string :=
  match r_URL r with
  | None => ""
  | Some u => let uri := URL_String u in match Index uri "#" with Some i => stake i uri | None => uri end
  end.

Definition withPolicyDocuments (r : http_Request) (docs : list PolicyDocument) : http_Request :=
  mkHTTPRequest (r_Method r) (r_URL r) (r_Host r) (r_TLS r) (r_Header r) (ctx_RequestID r) (ctx_Identity r) docs.

(** The options of a request: its own [Link] headers are followed. *)
Definition discoveryOptions (r : http_Request) (resourceURI : string) : PolicyDiscoveryOptions :=
  mkDiscoveryOptions resourceURI [] (filter (fun h => h <> "") (default [] (r_Header r !! "Link")))
    (mo_AllowedLinkRels o) (mo_DerivedURITails o) (mo_DefaultContentType o).

(** The request the next handler serves; [None] is a panic: a request without a URL, or a slice
    to a negative number of sources. *)
Definition discover (r : http_Request) (w : W) : option (W * http_Request) :=
  match r_URL r with
  | None => None
  | Some u =>
      if String.eqb (Path u) "/healthz" || String.eqb (Path u) "/readyz" then Some (w, r)
      else
        let resourceURI := resourceURIFromRequest r in
        if String.eqb resourceURI "" || negb (validResourceURI resourceURI) then Some (w, r)
        else match DiscoverPolicySources (discoveryOptions r resourceURI) with
        | Err _ => Some (w, r)
        | Ok sources =>
            if mo_MaxPolicySources o <? 0 then None else
            let sources := if mo_MaxPolicySources o <? Z.of_nat (length sources) then take (Z.to_nat (mo_MaxPolicySources o)) sources else sources in
            let '(w, loaded) := loadPolicySources sources w in
            match loaded with
            | Err _ => Some (w, r)
            | Ok loaded =>
                match PolicyDocumentsFromLoadedSources loaded with
                | Err _ => Some (w, r)
                | Ok docs => Some (w, withPolicyDocuments r docs)
                end
            end
        end
  end.
End middleware.

(** ** What a server sees of a request *)

Lemma slash_cons s : HasPrefix s "/" = true -> exists t, s = String "/" t.
Proof. intros [t ->]%prefix_spec. by exists t. Qed.

Lemma Index_slash t : Index (String "/" t) "/" = Some 0%nat.
Proof. by destruct t. Qed.

Lemma slash_no_host s : HasPrefix s "/" = true -> http_with_host s = false.
Proof.
  intros [t ->]%slash_cons. unfold http_with_host, Parse. destruct (Cut (String "/" t) "#") as [[a frag] b] eqn:Ec.
  assert (a = "" \/ exists a', a = String "/" a') as Ha.
  { unfold Cut in Ec. destruct (Index (String "/" t) "#") as [i|] eqn:Ei; injection Ec as <- _ _; [|right; by eexists].
    destruct i as [|i]; [by left|]. right. by eexists. }
  destruct (parse a) as [u|] eqn:Ep; cbn [result_bind]; [|done].
  assert (Scheme u = "") as Hs.
  { unfold parse in Ep. break_if; [discriminate Ep|]. break_if; [by injection Ep as <-|].
    assert (getScheme a = Ok ("", a)) as Hg by (destruct Ha as [->|[a' ->]]; [done|]; by destruct a'). rewrite Hg in Ep. cbn [result_bind] in Ep.
    destruct (cut_query a) as [[rest force] query]. cbn [ToLower string_map String.eqb negb andb orb] in Ep. rewrite andb_false_r in Ep.
    destruct (Cut rest "/") as [[segment ?] ?]. break_if; [discriminate Ep|]. break_if.
    - destruct (match Index (sdrop 2 rest) "/" with Some i => _ | None => _ end) as [auth path].
      destruct (parseAuthority auth) as [[user host]|]; cbn [result_bind] in Ep; [|discriminate Ep].
      destruct (setPath path) as [[p rawp]|]; cbn [result_bind] in Ep; [|discriminate Ep]. by injection Ep as <-.
    - destruct (setPath rest) as [[p rawp]|]; cbn [result_bind] in Ep; [|discriminate Ep]. by injection Ep as <-. }
  destruct (String.eqb frag ""); [by rewrite Hs|]. destruct (unescape encodeFragment frag); cbn [result_bind with_fragment Scheme]; [by rewrite Hs|done].
Qed.

Lemma origin_form_string u :
  Scheme u = "" -> Opaque u = "" -> User u = None -> Host u = "" -> HasPrefix (EscapedPath u) "/" = true -> HasPrefix (URL_String u) "/" = true.
Proof.
  intros Hs Ho Hu Hh [t Ht]%slash_cons. unfold URL_String. rewrite Hs, Ho, Hu, Hh, Ht. cbn [String.eqb negb orb andb].
  rewrite !andb_false_r. cbn [String.append]. unfold Cut. rewrite Index_slash. cbn [stake String.eqb]. apply prefix_spec. eexists. reflexivity.
Qed.

(** discovery does nothing for the requests a server gets.  A request in origin form has a
    URL with a path and no host, which is no valid resource URI: it is served without documents,
    and no source is loaded. *)
Theorem origin_form_skips_discovery {W : Type} (d : discovery_world W) (o : PolicyDiscoveryMiddlewareOptions) (r : http_Request) (u : URL) (w : W) :
  r_URL r = Some u -> Scheme u = "" -> Opaque u = "" -> User u = None -> Host u = "" -> HasPrefix (EscapedPath u) "/" = true ->
  discover d o r w = Some (w, r).
Proof.
  intros Hr Hs Ho Hu Hh Hp. unfold discover, resourceURIFromRequest. rewrite Hr. break_if; [done|].
  destruct (slash_cons _ (origin_form_string u Hs Ho Hu Hh Hp)) as [t Ht]. rewrite Ht.
  set (uri := match Index _ "#" with Some i => _ | None => _ end).
  assert (uri = "" \/ HasPrefix uri "/" = true) as [->|Huri]; [|done|].
  { unfold uri. destruct (Index (String "/" t) "#") as [[|i]|]; [by left|right..]; apply prefix_spec; by eexists. }
  assert (validResourceURI uri = false) as ->; [|by rewrite orb_true_r].
  unfold validResourceURI. rewrite (slash_no_host uri Huri). by repeat case_match.
Qed.

(** ** Links against derived sources *)

Lemma linkSources_elem base allowed ct parts sources part l :
  linkSources base allowed ct parts = Ok sources -> part ∈ parts -> policySourceFromLinkValue base allowed ct part = Ok (Some l) -> l ∈ sources.
Proof.
  revert sources. induction parts as [|p parts IH]; intros sources H Hin Hl; [by apply not_elem_of_nil in Hin|]. cbn [linkSources] in H.
  destruct (policySourceFromLinkValue base allowed ct p) as [s|] eqn:Es; cbn [result_bind] in H; [|discriminate H].
  destruct (linkSources base allowed ct parts) as [rest|]; cbn [result_bind] in H; [|discriminate H]. injection H as <-.
  apply elem_of_cons in Hin as [->|Hin]; apply elem_of_app; [left|right; by apply IH]. rewrite Es in Hl. injection Hl as ->. cbn. apply list_elem_of_here.
Qed.

Lemma derivedSources_elem base ct tails sources tail v :
  derivedSources base ct tails = Ok sources -> tail ∈ tails -> derivedSource base ct tail = Ok v -> v ∈ sources.
Proof.
  revert sources. induction tails as [|t tails IH]; intros sources H Hin Hv; [by apply not_elem_of_nil in Hin|]. cbn [derivedSources] in H.
  destruct (derivedSource base ct t) as [s|] eqn:Es; cbn [result_bind] in H; [|discriminate H].
  destruct (derivedSources base ct tails) as [rest|]; cbn [result_bind] in H; [|discriminate H]. injection H as <-.
  apply elem_of_cons in Hin as [->|Hin]; [|apply elem_of_cons; right; by apply IH]. rewrite Es in Hv. injection Hv as ->. apply list_elem_of_here.
Qed.

Lemma normal_source_fields s n :
  normalizePolicySource s = Ok n -> ps_URI n = TrimSpace (ps_URI s) /\ (ps_Kind s <> "" -> ps_Kind n = ps_Kind s).
Proof.
  unfold normalizePolicySource. cbv zeta. destruct (validResourceURI _); cbn [negb]; [|discriminate].
  destruct (negb (validPolicySourceKind _)); [discriminate|]. destruct (_ || _); [discriminate|].
  assert (ps_Kind s <> "" -> (if String.eqb (ps_Kind s) "" then PolicySourceExplicit else ps_Kind s) = ps_Kind s) as Hk.
  { intros Hne. by destruct (String.eqb_spec (ps_Kind s) ""). }
  destruct (String.eqb (TrimSpace (ps_ContentType s)) ""); [|destruct (normalizeContentType _); [|discriminate]]; intros [= <-]; by split.
Qed.

Lemma link_kind base allowed ct part l : policySourceFromLinkValue base allowed ct part = Ok (Some l) -> ps_Kind l = PolicySourceLink.
Proof.
  unfold policySourceFromLinkValue. cbv zeta. break_if; [discriminate|]. break_if; [discriminate|]. destruct (Index _ ">"); [|discriminate].
  break_if; [discriminate|]. break_if; [discriminate|]. destruct (resolveLinkTarget _ _); cbn [result_bind]; [|discriminate]. by intros [= <-].
Qed.

Lemma derived_kind base ct tail v : derivedSource base ct tail = Ok v -> ps_Kind v = PolicySourceDerived.
Proof. unfold derivedSource. cbv zeta. break_if; [discriminate|]. by intros [= <-]. Qed.

(** Sources of one URI and two kinds can not be normalised together. *)
Lemma mixed_sources_refused input a b na nb out :
  NormalizePolicySources input = Ok out -> a ∈ input -> b ∈ input -> normalizePolicySource a = Ok na -> normalizePolicySource b = Ok nb ->
  ps_URI na = ps_URI nb -> ps_Kind na = ps_Kind nb.
Proof.
  intros H Ha Hb Hna Hnb Hu. apply NormalizePolicySources_spec in H as ([_ Hcons] & _).
  rewrite (Hcons na nb); [done|by exists a|by exists b|done].
Qed.

Lemma normalized_elem input out s : NormalizePolicySources input = Ok out -> s ∈ input -> exists n, n ∈ out /\ normalizePolicySource s = Ok n.
Proof.
  intros H Hs. apply NormalizePolicySources_spec in H as ([Hall _] & Hmem & _). destruct (Hall s Hs) as [n Hn]. exists n. split; [|done].
  apply Hmem. by exists s.
Qed.

Lemma discover_conflict o base part l tail v sources :
  parseDiscoveryBaseURI (do_ResourceURI o) = Ok base ->
  part ∈ do_LinkHeaders o ≫= splitLinkHeader ->
  policySourceFromLinkValue base (normalizeAllowedLinkRels (do_AllowedLinkRels o)) (TrimSpace (do_DefaultContentType o)) part = Ok (Some l) ->
  tail ∈ do_DerivedURITails o -> derivedSource base (TrimSpace (do_DefaultContentType o)) tail = Ok v -> ps_URI l = ps_URI v ->
  DiscoverPolicySources o <> Ok sources.
Proof.
  intros Hbase Hpart Hl Htail Hv Hu H. unfold DiscoverPolicySources, PolicySourcesFromLinkHeaders, DerivedPolicySources in H.
  rewrite bool_decide_false, bool_decide_false, Hbase in H by (intros E; rewrite E in *; set_solver). cbn [result_bind] in H.
  destruct (linkSources _ _ _ _) as [ls|] eqn:Els; cbn [result_bind] in H; [|discriminate H].
  destruct (NormalizePolicySources ls) as [L|] eqn:EL; cbn [result_bind] in H; [|discriminate H].
  destruct (derivedSources _ _ _) as [ds|] eqn:Eds; cbn [result_bind] in H; [|discriminate H].
  destruct (NormalizePolicySources ds) as [D|] eqn:ED; cbn [result_bind] in H; [|discriminate H].
  destruct (normalized_elem ls L l EL (linkSources_elem _ _ _ _ _ _ _ Els Hpart Hl)) as (l1 & Hl1 & Hn1).
  destruct (normalized_elem ds D v ED (derivedSources_elem _ _ _ _ _ _ Eds Htail Hv)) as (v1 & Hv1 & Hm1).
  destruct (normalized_elem _ sources l1 H ltac:(set_solver)) as (l2 & _ & Hn2). destruct (normalized_elem _ sources v1 H ltac:(set_solver)) as (v2 & _ & Hm2).
  apply normal_source_fields in Hn1 as [Hu1 Hk1], Hm1 as [Hw1 Hj1]. pose proof (normal_source_fields _ _ Hn2) as [Hu2 Hk2]. pose proof (normal_source_fields _ _ Hm2) as [Hw2 Hj2].
  rewrite (link_kind _ _ _ _ _ Hl) in Hk1. rewrite (derived_kind _ _ _ _ Hv) in Hj1. specialize (Hk1 ltac:(done)). specialize (Hj1 ltac:(done)).
  assert (ps_Kind l2 = ps_Kind v2) as Heq.
  { apply (mixed_sources_refused _ l1 v1 l2 v2 sources H); [set_solver|set_solver|done|done|congruence]. }
  rewrite Hk1 in Hk2. rewrite Hj1 in Hj2. rewrite (Hk2 ltac:(done)), (Hj2 ltac:(done)) in Heq. discriminate Heq.
Qed.

(** a client can switch the policies of its request off.  The links followed are those of the
    request itself; when one of them names a source that is also derived from the resource, the
    two kinds conflict, discovery fails, and the request is served without documents. *)
Theorem link_header_suppresses_policies {W : Type} (d : discovery_world W) (o : PolicyDiscoveryMiddlewareOptions) (r : http_Request) (u base : URL)
    (header part tail : string) (l v : PolicySource) (w : W) :
  r_URL r = Some u -> parseDiscoveryBaseURI (resourceURIFromRequest r) = Ok base ->
  header ∈ default [] (r_Header r !! "Link") -> header <> "" -> part ∈ splitLinkHeader header ->
  policySourceFromLinkValue base (normalizeAllowedLinkRels (mo_AllowedLinkRels o)) (TrimSpace (mo_DefaultContentType o)) part = Ok (Some l) ->
  tail ∈ mo_DerivedURITails o -> derivedSource base (TrimSpace (mo_DefaultContentType o)) tail = Ok v -> ps_URI l = ps_URI v ->
  discover d o r w = Some (w, r).
Proof.
  intros Hr Hbase Hh Hne Hpart Hl Htail Hv Hu. unfold discover. rewrite Hr. break_if; [done|]. break_if; [done|].
  destruct (DiscoverPolicySources _) as [sources|] eqn:E; [|done]. exfalso. revert E. apply discover_conflict with base part l tail v; try done.
  cbn [discoveryOptions do_LinkHeaders]. apply list_elem_of_bind. exists header. split; [done|]. apply list_elem_of_filter. by split.
Qed.

(** ** What discovery attaches *)

(** The loader answered the source with [res]. *)
Definition answers {W} (d : discovery_world W) (s : PolicySource) (res : PolicySourceLoadResult) : Prop :=
  exists w w', dw_load d s w = (w', Ok res).

(** The same world, with the number of loads. *)
Definition counted {W} (d : discovery_world W) : discovery_world (W * Z) :=
  mkWorld (fun s '(w, k) => let '(w', r) := dw_load d s w in ((w', k + 1), r)) (fun '(w, _) => dw_done d w)
    (fun b '(w, k) => let '(w', done) := dw_wait d b w in ((w', k), done)).

(** The request goes on as it is, or with documents of what the loader answered. *)
Definition attached {W} (d : discovery_world W) (o : PolicyDiscoveryMiddlewareOptions) (r r' : http_Request) : Prop :=
  r' = r \/ exists sources docs, DiscoverPolicySources (discoveryOptions o r (resourceURIFromRequest r)) = Ok sources /\ r' = withPolicyDocuments r docs /\
    forall x, x ∈ docs -> exists s res n, s ∈ sources /\ answers d s res /\ normalizePolicySource (ld_Source (lr_Loaded res)) = Ok n /\
      pd_URI x = TrimSpace (ps_URI n) /\ pd_SHA256 x = sha256Hex (ld_Content (lr_Loaded res)).

Section discovered.
Context {W : Type} (d : discovery_world W) (o : PolicyDiscoveryMiddlewareOptions).

Lemma retryLoad_answers left backoff cap e s w l : snd (retryLoad d left backoff cap e s w) = Ok l -> l = emptyLoaded \/ exists res, answers d s res /\ l = lr_Loaded res.
Proof using Type.
  revert backoff e w. induction left as [|left IH]; intros backoff e w; cbn [retryLoad].
  { destruct e; cbn; [discriminate|]. intros [= <-]. by left. }
  destruct (dw_done d w); [discriminate|]. destruct (dw_load d s w) as [w1 [res|err]] eqn:El.
  - intros [= <-]. right. exists res. split; [by exists w, w1|done].
  - destruct (permanent err || _); [discriminate|]. destruct (dw_wait d backoff w1) as [w2 []]; [discriminate|apply IH].
Qed.

Lemma loadEach_answers sources w l :
  l ∈ fst (snd (loadEach d o sources w)) -> l = emptyLoaded \/ exists s res, s ∈ sources /\ answers d s res /\ l = lr_Loaded res.
Proof using Type.
  revert w. induction sources as [|s sources IH]; intros w; cbn [loadEach]; [by intros ?%not_elem_of_nil|].
  destruct (dw_done d w); [by intros ?%not_elem_of_nil|]. destruct (loadPolicySourceWithRetry d o s w) as [w1 r] eqn:Er. specialize (IH w1).
  destruct (loadEach d o sources w1) as [w2 [loaded errs]]. cbn [fst snd] in IH |- *. assert (snd (loadPolicySourceWithRetry d o s w) = r) as Hr by (by rewrite Er).
  assert (l ∈ loaded -> l = emptyLoaded \/ exists s0 res, s0 ∈ s :: sources /\ answers d s0 res /\ l = lr_Loaded res) as Hrest.
  { intros [?|(s0 & res & Hin & ?)]%IH; [by left|]. right. exists s0, res. split; [by right|done]. }
  destruct r as [l0|e]; cbn; [|done]. intros [->|Hin]%elem_of_cons; [|by apply Hrest].
  apply retryLoad_answers in Hr as [?|(res & ? & ?)]; [by left|]. right. exists s, res. split; [left|done].
Qed.

Lemma documentsOf_elem loaded docs x : documentsOf loaded = Ok docs -> x ∈ docs -> exists l, l ∈ loaded /\ documentOf l = Ok x.
Proof using Type.
  revert docs. induction loaded as [|l loaded IH]; intros docs H Hx; cbn [documentsOf] in H; [injection H as <-; by apply not_elem_of_nil in Hx|].
  destruct (documentOf l) as [x0|] eqn:Ex; cbn [result_bind] in H; [|discriminate H].
  destruct (documentsOf loaded) as [rest|]; cbn [result_bind] in H; [|discriminate H]. injection H as <-.
  apply elem_of_cons in Hx as [->|Hx]; [exists l; split; [left|done]|]. destruct (IH rest eq_refl Hx) as (l0 & ? & ?). exists l0. split; [by right|done].
Qed.

(** A document is of what was loaded. *)
Lemma documents_loaded loaded docs x :
  PolicyDocumentsFromLoadedSources loaded = Ok docs -> x ∈ docs ->
  exists l n, l ∈ loaded /\ l <> emptyLoaded /\ normalizePolicySource (ld_Source l) = Ok n /\ pd_URI x = TrimSpace (ps_URI n) /\ pd_SHA256 x = sha256Hex (ld_Content l).
Proof using Type.
  unfold PolicyDocumentsFromLoadedSources. case_bool_decide; [intros [= <-] ?%not_elem_of_nil; done|].
  destruct (documentsOf loaded) as [ds|] eqn:Ed; cbn [result_bind]; [|discriminate].
  destruct (NormalizePolicyDocuments ds) as [out|] eqn:En; cbn [lift]; [|discriminate]. intros [= <-] Hx.
  apply NormalizePolicyDocuments_spec in En as (_ & _ & Hmem). apply Hmem in Hx as (i & Hi & Hx). apply (documentsOf_elem loaded ds i Ed) in Hi as (l & Hl & Hdoc).
  pose proof (normal_document_sha i x Hx) as Hsha. assert (pd_URI x = TrimSpace (pd_URI i)) as Huri.
  { unfold normalizePolicyDocument in Hx. cbv zeta in Hx. destruct (negb (validResourceURI _)); [discriminate Hx|]. destruct (negb (validSHA256Hex _)); [discriminate Hx|].
    destruct (normalizeContentType _); [|discriminate Hx]. by injection Hx as <-. }
  exists l. unfold documentOf in Hdoc. destruct (normalizePolicySource (ld_Source l)) as [n|] eqn:Esrc; cbn [result_bind] in Hdoc; [|discriminate Hdoc].
  destruct (String.eqb (ld_Content l) "") eqn:Ec; [discriminate Hdoc|]. destruct (MaxLoadedPolicyDocumentBytes <? _); [discriminate Hdoc|].
  destruct (String.eqb (ps_ContentType n) ""); [discriminate Hdoc|]. injection Hdoc as <-. exists n. cbn [pd_URI pd_SHA256] in Huri, Hsha.
  rewrite sha256Hex_lower in Hsha. split_and!; [done|clear -Ec; intros ->; discriminate Ec|done|done|done].
Qed.

(** The loads of one source, and of all. *)
Lemma retryLoad_count left backoff cap e s w k :
  k <= snd (fst (retryLoad (counted d) left backoff cap e s (w, k))) <= k + Z.of_nat left.
Proof using Type.
  revert backoff e w k. induction left as [|left IH]; intros backoff e w k; cbn [retryLoad]; [cbn; lia|]. cbn [counted dw_done dw_load dw_wait].
  destruct (dw_done d w); [cbn; lia|]. destruct (dw_load d s w) as [w1 [res|err]]; [cbn; lia|].
  destruct (permanent err || _); [cbn; lia|]. destruct (dw_wait d backoff w1) as [w2 []]; [cbn; lia|].
  match goal with |- context [retryLoad _ left ?b ?c ?e' s (w2, _)] => specialize (IH b e' w2 (k + 1)) end. lia.
Qed.

Lemma loadEach_count sources w k :
  k <= snd (fst (loadEach (counted d) o sources (w, k))) <= k + Z.of_nat (length sources) * Z.max 0 (mo_MaxRetries o + 1).
Proof using Type.
  revert w k. induction sources as [|s sources IH]; intros w k; cbn [loadEach]; [cbn; lia|]. cbn [counted dw_done].
  destruct (dw_done d w); [cbn [fst snd]; nia|]. unfold loadPolicySourceWithRetry.
  pose proof (retryLoad_count (Z.to_nat (mo_MaxRetries o + 1)) (mo_RetryDelay o) (wrap64 (mo_RetryDelay o * mo_MaxRetries o)) None s w k) as Hr.
  fold (counted d). destruct (retryLoad _ _ _ _ _ _ _) as [[w1 k1] r]. specialize (IH w1 k1). destruct (loadEach _ _ sources _) as [[w2 k2] [loaded errs]].
  cbn [fst snd length] in *. lia.
Qed.

(** The sources that are loaded are within the bound. *)
Lemma taken_bound (sources : list PolicySource) : 0 <= mo_MaxPolicySources o ->
  let taken := if mo_MaxPolicySources o <? Z.of_nat (length sources) then take (Z.to_nat (mo_MaxPolicySources o)) sources else sources in
  Z.of_nat (length taken) <= mo_MaxPolicySources o /\ forall s, s ∈ taken -> s ∈ sources.
Proof using Type.
  intros Hmax. destruct (Z.ltb_spec (mo_MaxPolicySources o) (Z.of_nat (length sources))); cbn; [|split; [lia|done]].
  split; [rewrite length_take; lia|]. intros s Hin. rewrite <- (take_drop (Z.to_nat (mo_MaxPolicySources o)) sources). apply elem_of_app. by left.
Qed.

Lemma discover_count r u w w1 k1 r1 :
  r_URL r = Some u -> 0 <= mo_MaxPolicySources o -> discover (counted d) o r (w, 0) = Some ((w1, k1), r1) ->
  0 <= k1 <= mo_MaxPolicySources o * Z.max 0 (mo_MaxRetries o + 1).
Proof using Type.
  intros Hr Hmax. unfold discover. rewrite Hr. break_if; [intros [= _ <- _]; nia|]. break_if; [intros [= _ <- _]; nia|].
  destruct (DiscoverPolicySources _) as [sources|]; [|intros [= _ <- _]; nia]. rewrite (proj2 (Z.ltb_ge _ _) Hmax).
  destruct (taken_bound sources Hmax) as [Hlen _]. set (taken := if _ <? _ then _ else _) in *. unfold loadPolicySources.
  pose proof (loadEach_count taken w 0) as Hc. destruct (loadEach (counted d) o taken (w, 0)) as [[w2 k2] [loaded errs]]. cbn [fst snd] in Hc.
  intros Hout. assert (k1 = k2) as -> by (repeat case_match; by simplify_eq). nia.
Qed.
End discovered.

(** C17: discovery serves every request once, with at most the documents it loaded.  A request with
    a URL goes on as it is, or with documents each of which has the hash and the URI of an answer
    the loader gave for one of the discovered sources; and the loader is asked at most as often as
    the bounds on sources and retries allow. *)
Theorem discovery_attaches_loaded {W : Type} (d : discovery_world W) (o : PolicyDiscoveryMiddlewareOptions) (r : http_Request) (u : URL) (w : W) :
  r_URL r = Some u -> 0 <= mo_MaxPolicySources o ->
  exists w' r', discover d o r w = Some (w', r') /\
    attached d o r r' /\
    (forall w1 k1 r1, discover (counted d) o r (w, 0) = Some ((w1, k1), r1) -> 0 <= k1 <= mo_MaxPolicySources o * Z.max 0 (mo_MaxRetries o + 1)).
Proof.
  intros Hr Hmax.
  enough (exists w' r', discover d o r w = Some (w', r') /\ attached d o r r') as (w' & r' & H1 & H2).
  { exists w', r'. split_and!; [done|done|]. intros w1 k1 r1. by apply (discover_count d o r u). }
  unfold discover, attached. rewrite Hr. break_if; [by exists w, r; auto|]. break_if; [by exists w, r; auto|].
  destruct (DiscoverPolicySources _) as [sources|] eqn:Es; [|by exists w, r; auto]. rewrite (proj2 (Z.ltb_ge _ _) Hmax).
  destruct (taken_bound o sources Hmax) as [_ Htake]. set (taken := if _ <? _ then _ else _) in *.
  unfold loadPolicySources. pose proof (loadEach_answers d o taken w) as Ha. destruct (loadEach d o taken w) as [w' [loaded errs]]. cbn [fst snd] in Ha.
  destruct (match loaded, errs with [], e :: _ => Err e | _, _ => Ok loaded end) as [loaded'|] eqn:El; [|by exists w', r; auto].
  assert (loaded' = loaded) as -> by (repeat case_match; by simplify_eq).
  destruct (PolicyDocumentsFromLoadedSources loaded) as [docs|] eqn:Ed; [|by exists w', r; auto].
  exists w', (withPolicyDocuments r docs). split; [done|]. right. exists sources, docs. split_and!; [done|done|].
  intros x Hx. destruct (documents_loaded loaded docs x Ed Hx) as (l & n & Hl & Hne & Hn & Hu & Hs).
  destruct (Ha l Hl) as [?|(s & res & Hin & Hans & ->)]; [done|]. exists s, res, n. split_and!; try done. by apply Htake.
Qed.

(** ** Examples *)

(** A network that serves one rule from everywhere. *)
Definition sampleWorld : discovery_world unit :=
  mkWorld (fun s w => (w, Ok (mkLoadResult (mkLoaded s "everybody may read") (recordFor s "" 0 0 0)))) (fun _ => false) (fun _ w => (w, false)).
Definition sampleDiscovery : PolicyDiscoveryMiddlewareOptions := NewPolicyDiscoveryMiddleware (mkDiscoveryMiddleware [] [] "" 0 0 0 0 0).
Definition notesURL (scheme host : string) : URL := mkURL scheme "" None host "/notes" "" false false "" "".
Definition notesRequest (scheme host link : string) : http_Request :=
  mkHTTPRequest "GET" (Some (notesURL scheme host)) "pod.example" true (if String.eqb link "" then ∅ else {["Link" := [link]]}) "r1" (mkIdentity "" "" "" [] 0) [].

Lemma origin_form_skips_discovery_witness :
  discover sampleWorld sampleDiscovery (notesRequest "" "" "") tt = Some (tt, notesRequest "" "" "").
Proof. apply (origin_form_skips_discovery sampleWorld sampleDiscovery (notesRequest "" "" "") (notesURL "" "") tt); reflexivity. Defined.

Definition conflictingLink : string := "<https://pod.example/notes/.acl>; rel=acl".

Lemma link_header_suppresses_policies_witness :
  discover sampleWorld sampleDiscovery (notesRequest "https" "pod.example" conflictingLink) tt = Some (tt, notesRequest "https" "pod.example" conflictingLink).
Proof.
  apply (link_header_suppresses_policies sampleWorld sampleDiscovery (notesRequest "https" "pod.example" conflictingLink) (notesURL "https" "pod.example")
    (notesURL "https" "pod.example") conflictingLink conflictingLink ".acl"
    (mkPolicySource "https://pod.example/notes/.acl" PolicySourceLink 200 "text/turtle")
    (mkPolicySource "https://pod.example/notes/.acl" PolicySourceDerived 300 "text/turtle") tt).
  - reflexivity.
  - vm_compute. reflexivity.
  - vm_compute. apply list_elem_of_here.
  - discriminate.
  - vm_compute. apply list_elem_of_here.
  - vm_compute. reflexivity.
  - vm_compute. apply list_elem_of_here.
  - vm_compute. reflexivity.
  - reflexivity.
Defined.

(** The document the client names is among them. *)
Lemma discovery_attaches_loaded_witness :
  exists r', discover sampleWorld sampleDiscovery (notesRequest "https" "pod.example" "<https://client.example/mine>; rel=acl") tt = Some (tt, r') /\
    map pd_URI (ctx_PolicyDocuments r') = ["https://client.example/mine"; "https://pod.example/notes/.acl"; "https://pod.example/notes/.meta"; "https://pod.example/notes/.well-known/solid"] /\
    attached sampleWorld sampleDiscovery (notesRequest "https" "pod.example" "<https://client.example/mine>; rel=acl") r'.
Proof.
  destruct (discovery_attaches_loaded sampleWorld sampleDiscovery (notesRequest "https" "pod.example" "<https://client.example/mine>; rel=acl") (notesURL "https" "pod.example") tt)
    as ([] & r' & Hd & Ha & _); [reflexivity|discriminate|].
  exists r'. split; [exact Hd|]. split; [|exact Ha].
  assert (match discover sampleWorld sampleDiscovery (notesRequest "https" "pod.example" "<https://client.example/mine>; rel=acl") tt with
    | Some (_, r') => map pd_URI (ctx_PolicyDocuments r') | None => [] end =
    ["https://client.example/mine"; "https://pod.example/notes/.acl"; "https://pod.example/notes/.meta"; "https://pod.example/notes/.well-known/solid"]) as H
    by (vm_compute; reflexivity).
  rewrite Hd in H. exact H.
Defined.
