(* ===== verification/Safety.v ===== *)
(** * Request safety

    [internal/safety]: the checks on the form of a request ([request.go],
    [request_method_media_type.go]), the origin policy ([origin.go]), the response headers
    ([security_headers.go]), the redirect to a trailing slash ([container_slash.go]) and the
    storage roots ([storage_root.go]).  A middleware passes a request on, with the response
    headers it has set, or answers it. *)

From S2P Require Import Prelude GoStrings GoURL GoGlob GoPath RequestBuilder.

Module Safety.

Local Open Scope Z_scope.

(** What a middleware does with a request. *)
Inductive verdict :=
| Passes (headers : list (string * string))
| Answers (status : Z) (headers : list (string * string)).

(** ** Form of the request *)

Inductive unsafe :=
| MissingURL | AbsoluteForm | PathNotRooted | PathNotUTF8 | BadEscape | UnsafeCharacters | DotSegment
| HeaderName | HeaderValue (name : string) | DisallowedContentType (contentType : string).

Definition controls : string := String (chr 13) (String (chr 10) (String (chr 0) "")).

Definition disallowedWriteContentTypes : list string :=
  ["text/html"; "text/javascript"; "application/javascript"; "application/x-javascript"; "application/ecmascript"].

Definition IsWriteMethod (method : string) : bool :=
  existsb (String.eqb (ToUpper method)) ["PUT"; "POST"; "PATCH"; "DELETE"].

(** Every content type that is not disallowed is let through, whether it is known or not. *)
Definition ValidateWriteRequest (r : http_Request) : result unsafe unit :=
  if negb (IsWriteMethod (r_Method r)) then Ok tt
  else if String.eqb (r_Method r) "DELETE" then Ok tt
  else
    let contentType := Header_Get r "Content-Type" in
    if String.eqb contentType "" then Ok tt
    else
      let contentType := TrimSpace (default "" (head (Split contentType ";"))) in
      fail! DisallowedContentType contentType when existsb (EqualFold contentType) disallowedWriteContentTypes in
      Ok tt.

Definition header_order : Type := gmap string (list string) -> list string.

(** The headers, in the order in which the map is visited. *)
Fixpoint checkHeaders (header : gmap string (list string)) (names : list string) : result unsafe unit :=
  match names with
  | [] => Ok tt
  | name :: rest =>
      fail! HeaderName when ContainsAny name controls in
      fail! HeaderValue name when existsb (fun value => ContainsAny value controls) (default [] (header !! name)) in
      checkHeaders header rest
  end.

Definition ValidateRequest (order : header_order) (r : http_Request) : result unsafe unit :=
  match r_URL r with
  | None => Err MissingURL
  | Some u =>
      fail! AbsoluteForm when negb (String.eqb (Scheme u) "") in
      fail! PathNotRooted when String.eqb (Path u) "" || negb (HasPrefix (Path u) "/") in
      fail! PathNotUTF8 when negb (ValidString (Path u)) || negb (ValidString (RawPath u)) in
      match unescape encodePath (EscapedPath u) with
      | Err _ => Err BadEscape
      | Ok decodedPath =>
          fail! UnsafeCharacters when ContainsAny decodedPath (String (chr 0) "\") in
          fail! DotSegment when negb (dot_free decodedPath) in
          let! _ := checkHeaders (r_Header r) (order (r_Header r)) in
          ValidateWriteRequest r
      end
  end.

Definition StatusBadRequest : Z := 400.
Definition RejectUnsafeRequests (order : header_order) (r : http_Request) : verdict :=
  match ValidateRequest order r with Err _ => Answers StatusBadRequest [] | Ok _ => Passes [] end.

(** ** Response headers and origins *)

Definition SecurityHeaders : verdict :=
  Passes [("X-Content-Type-Options", "nosniff"); ("Referrer-Policy", "no-referrer"); ("X-Frame-Options", "DENY")].

Definition NewOriginPolicy (origins : list string) : gset string := list_to_set origins.

Definition OriginPolicy (allowed : gset string) (r : http_Request) : verdict :=
  if bool_decide (allowed = ∅) then Passes []
  else
    let origin := Header_Get r "Origin" in
    if String.eqb origin "" then Passes []
    else if negb (bool_decide (origin ∈ allowed)) then Answers 403 []
    else
      let cors := [("Access-Control-Allow-Origin", origin); ("Vary", "Origin")] in
      if String.eqb (r_Method r) "OPTIONS" && negb (String.eqb (Header_Get r "Access-Control-Request-Method") "") then
        Answers 204 (cors ++
          [("Access-Control-Allow-Methods", "GET, HEAD, OPTIONS, POST, PUT, PATCH, DELETE");
           ("Access-Control-Allow-Headers", "Authorization, Content-Type, DPoP, Link, Prefer, Slug, If-Match, If-None-Match");
           ("Access-Control-Max-Age", "600")])
      else Passes cors.

(** ** Trailing slashes *)

Definition fileExtensions : list string :=
  [".ttl"; ".json"; ".jsonld"; ".rdf"; ".xml"; ".n3"; ".nt"; ".acl"; ".meta"; ".html"; ".css"; ".js"; ".png"; ".jpg";
   ".jpeg"; ".gif"; ".svg"; ".webp"; ".txt"; ".md"].

Definition isLikelyFilePath (path : string) : bool := existsb (HasSuffix (ToLower path)) fileExtensions.

Definition IsContainerPath (path : string) : bool :=
  String.eqb path "/" || HasSuffix path "/" || negb (isLikelyFilePath path).

Definition NormalizeContainerPath (path : string) : string :=
  if String.eqb path "/" then "/"
  else if HasSuffix path "/" then path
  else if isLikelyFilePath path then path
  else String.append path "/".

(** The URL of the redirect; the path of the new URL is the escaped one. *)
Definition slashURL (u : URL) : string :=
  URL_String (mkURL (Scheme u) (Opaque u) (User u) (Host u) (String.append (EscapedPath u) "/")
                (String.append (RawPath u) "/") (OmitHost u) (ForceQuery u) (RawQuery u) (Fragment u)).

Definition CheckContainerSlashRedirect (method : string) (u : URL) : string :=
  if negb (String.eqb method "GET") && negb (String.eqb method "HEAD") then ""
  else
    let path := EscapedPath u in
    if String.eqb path "/" || HasSuffix path "/" then ""
    else if isLikelyFilePath path then "" else slashURL u.

(** The redirect of the handler, if any; [checker] tells the paths of containers. *)
Definition ContainerSlash (checker : option (string -> bool)) (method : string) (u : URL) : option string :=
  if negb (String.eqb method "GET") && negb (String.eqb method "HEAD") then None
  else
    let path := EscapedPath u in
    if String.eqb path "/" || HasSuffix path "/" then None
    else if match checker with Some f => negb (f path) | None => false end then None
    else if isLikelyFilePath path then None
    else Some (slashURL u).

(** ** Storage roots *)

Definition normalizeStorageRoot (root : string) : string :=
  if String.eqb root "" || String.eqb root "/" then "/"
  else String.append "/" (TrimSuffix (TrimPrefix (Clean root) "/") "/").

Record StorageRootValidator := mkStorageRootValidator { allowedRoots : list string; requireRoot : bool }.

Definition NewStorageRootValidator (roots : list string) : StorageRootValidator :=
  let normalized := map normalizeStorageRoot roots in
  mkStorageRootValidator normalized (negb (bool_decide (normalized = []))).

Definition isWithinRoot (requestPath root : string) : bool :=
  let requestPath := Clean (String.append "/" (TrimPrefix requestPath "/")) in
  let root := Clean root in
  String.eqb requestPath root || String.eqb root "/" || HasPrefix requestPath (String.append root "/").

(** [u] is the URL the server has parsed. *)
Definition Validate (v : StorageRootValidator) (u : URL) : result string unit :=
  if negb (requireRoot v) then Ok tt
  else
    let requestPath := EscapedPath u in
    fail! "missing request path" when String.eqb requestPath "" in
    fail! "request path is not within any allowed storage root" when negb (existsb (isWithinRoot requestPath) (allowedRoots v)) in
    Ok tt.

Definition StorageRoot_Middleware (v : StorageRootValidator) (u : URL) : verdict :=
  match Validate v u with Err _ => Answers 403 [] | Ok _ => Passes [] end.

(** ** Facts *)

Lemma ValidateRequest_path (order : header_order) (r : http_Request) (u : URL) :
  r_URL r = Some u -> ValidateRequest order r = Ok tt ->
  (exists p, Path u = String "/" p) /\ ContainsAny (Path u) (String (chr 0) "\") = false /\ dot_free (Path u) = true.
Proof.
  intros Hu H. unfold ValidateRequest in H. rewrite Hu, unescape_EscapedPath in H.
  destruct (negb (String.eqb (Scheme u) "")); [discriminate H|].
  destruct (String.eqb (Path u) "" || negb (HasPrefix (Path u) "/")) eqn:Hp; [discriminate H|].
  destruct (negb (ValidString (Path u)) || _); [discriminate H|].
  destruct (ContainsAny (Path u) _) eqn:Hc; [discriminate H|].
  destruct (dot_free (Path u)) eqn:Hd; [|discriminate H]. split_and!; [|done|done].
  apply orb_false_iff in Hp as [_ Hp%negb_false_iff]. unfold HasPrefix in Hp.
  apply prefix_spec in Hp as [t ->]. by exists t.
Qed.

Lemma slash_TrimPrefix (e : string) :
  exists s, String.append "/" (TrimPrefix e "/") = String "/" s /\ segments (String "/" s) = segments e /\
            (dot_free e = true -> dot_free (String "/" s) = true).
Proof.
  exists (TrimPrefix e "/"). split; [done|]. unfold TrimPrefix. destruct (HasPrefix e "/") eqn:E.
  - unfold HasPrefix in E. apply prefix_spec in E as [t ->]. rewrite sdrop_app. done.
  - rewrite segments_lead. split; [done|]. intros Hd. unfold dot_free. by rewrite Split_lead.
Qed.

Lemma normalizeStorageRoot_rooted (root : string) : exists s, normalizeStorageRoot root = String "/" s.
Proof. unfold normalizeStorageRoot. break_if; eexists; reflexivity. Qed.

(** The segments a root stands for. *)
Definition root_segments (root : string) : list string := clean_segments true (normalizeStorageRoot root).

Lemma Clean_normalizeStorageRoot (root : string) : Clean (normalizeStorageRoot root) = abs (root_segments root).
Proof. unfold root_segments. destruct (normalizeStorageRoot_rooted root) as [s ->]. apply Clean_rooted. Qed.

Lemma isWithinRoot_spec (e root : string) :
  dot_free e = true -> isWithinRoot e (normalizeStorageRoot root) = true <-> exists x, segments e = root_segments root ++ x.
Proof.
  intros He. unfold isWithinRoot. destruct (slash_TrimPrefix e) as (s & -> & Hseg & Hd). specialize (Hd He).
  rewrite Clean_dot_free, Clean_normalizeStorageRoot by done. rewrite segments_lead in Hseg. rewrite Hseg.
  pose proof (segments_ok e) as Hs. pose proof (clean_segments_ok true (normalizeStorageRoot root)) as Hr.
  fold (root_segments root) in Hr. rewrite !orb_true_iff, !String.eqb_eq. split.
  - intros [[H|H]|H].
    + apply abs_inj in H as ->; [|done|done]. exists []. by rewrite app_nil_r.
    + change "/" with (abs []) in H. apply abs_inj in H as ->; [|done|constructor]. by eexists.
    + destruct (decide (root_segments root = [])) as [Hn|Hn]; [rewrite Hn; by eexists|].
      apply abs_prefix in H as (x & _ & ->); [by eexists|done..].
  - intros [x Hx]. destruct (decide (root_segments root = [])) as [->|Hn]; [by left; right|].
    destruct (decide (x = [])) as [->|Hxn]; [left; left; by rewrite Hx, app_nil_r|].
    right. apply abs_prefix; [done..|]. by exists x.
Qed.

(** A character that occurs in no root occurs in none of its segments. *)
Lemma split_no_percent (cur s : string) :
  no_percent cur = true -> no_percent s = true -> Forall (fun x => no_percent x = true) (split_char "/" cur s).
Proof.
  revert cur. induction s as [|c s IH]; intros cur Hc Hs; cbn [split_char]; [by repeat constructor|].
  unfold no_percent in Hs. cbn in Hs. bool_prop. destruct (Ascii.eqb c "/"); [by constructor; auto|].
  apply IH; [|done]. unfold no_percent in *. rewrite string_forallb_app, Hc. cbn. by destruct (Ascii.eqb c "%").
Qed.

Lemma clean_no_percent (rooted : bool) (path : string) :
  no_percent path = true -> Forall (fun x => no_percent x = true) (clean_segments rooted path).
Proof.
  intros Hp. unfold clean_segments. apply Forall_rev.
  assert (Forall (fun x => no_percent x = true) (Split path "/")) as Hl by (by apply split_no_percent).
  revert Hl. generalize (Split path "/"). assert (Forall (fun x => no_percent x = true) []) as Hk by constructor.
  revert Hk. generalize (@nil string). intros kept Hk l Hl. revert kept Hk.
  induction Hl as [|s l Hs Hl IH]; intros kept Hk; cbn; [done|]. apply IH. unfold clean_step.
  break_if; [done|]. break_if; [|by constructor].
  destruct kept as [|k kept]; [destruct rooted; by repeat constructor|]. break_if; [by constructor|]. by inversion Hk.
Qed.

Lemma no_percent_app (s t : string) : no_percent (String.append s t) = no_percent s && no_percent t.
Proof. apply string_forallb_app. Qed.

Lemma Join_no_percent (l : list string) : Forall (fun x => no_percent x = true) l -> no_percent (Join l "/") = true.
Proof.
  induction 1 as [|s l Hs Hl IH]; [done|]. destruct l as [|t l]; [done|].
  rewrite Join_cons2, !no_percent_app, Hs, IH. done.
Qed.

Lemma sdrop_no_percent (n : nat) (s : string) : no_percent s = true -> no_percent (sdrop n s) = true.
Proof. intros Hs. rewrite <- (stake_sdrop n s), no_percent_app in Hs. by apply andb_true_iff in Hs as [_ ?]. Qed.
Lemma stake_no_percent (n : nat) (s : string) : no_percent s = true -> no_percent (stake n s) = true.
Proof. intros Hs. rewrite <- (stake_sdrop n s), no_percent_app in Hs. by apply andb_true_iff in Hs as [? _]. Qed.

Lemma Clean_no_percent (path : string) : no_percent path = true -> no_percent (Clean path) = true.
Proof.
  intros Hp. unfold Clean. break_if; [done|]. break_if.
  - unfold abs. change (no_percent (Join (clean_segments true path) "/") = true). by apply Join_no_percent, clean_no_percent.
  - pose proof (clean_no_percent false path Hp) as Hc. destruct (clean_segments false path); [done|]. by apply Join_no_percent.
Qed.

Lemma root_no_percent (root : string) : no_percent root = true -> Forall (fun x => no_percent x = true) (root_segments root).
Proof.
  intros Hr. apply clean_no_percent. unfold normalizeStorageRoot. break_if; [done|].
  rewrite no_percent_app. apply andb_true_iff. split; [done|]. unfold TrimSuffix, TrimPrefix.
  assert (no_percent (if HasPrefix (Clean root) "/" then sdrop 1 (Clean root) else Clean root) = true) as Hq.
  { break_if; [apply sdrop_no_percent|]; by apply Clean_no_percent. }
  cbn [String.length]. destruct (HasSuffix _ "/"); [by apply stake_no_percent|done].
Qed.


Definition requestTo (target : string) : http_Request :=
  mkHTTPRequest "GET" (match Parse target with Ok u => Some u | Err _ => None end) "pod.example" true ∅ "req-1"
    (mkIdentity "" "" "" [] 0) [].

End Safety.
