(* ===== verification/Middleware.v ===== *)
(** * The shadow authorization middleware

    [internal/authz/middleware.go] and [internal/authz/metrics.go].  The handler is a function on
    the state of the two evaluators and of the metrics; what it logs and the calls of the next
    handler are its trace.  Spans of the tracing library have no effect on these; the request of
    the last branch is passed on in the context of its span. *)

From S2P Require Import Prelude GoStrings GoURL AuthzTypes Evaluator RDFIndex PolicyParsers RequestBuilder.

Import Runtime (outcome, Returns, Panics).

Local Open Scope Z_scope.

Definition ShadowLogMessageDecision : string := "authz shadow decision".
Definition ShadowLogMessageRequestBuildFailed : string := "authz request build failed".
Definition ShadowLogMessageEvaluationFailed : string := "authz evaluation failed".
Definition ShadowLogMessageEvaluationBackoffActive : string := "authz evaluation skipped during backoff".
Definition ShadowLogMessageInvalidDecision : string := "authz evaluation returned invalid decision".
Definition ShadowLogMessageFallbackFailed : string := "authz fallback evaluation failed".
Definition ShadowErrorReasonRequestBuildFailed : string := "request_build_failed".
Definition ShadowErrorReasonEvaluationFailed : string := "evaluation_failed".
Definition ShadowErrorReasonBackoffActive : string := "backoff_active".
Definition ShadowErrorReasonInvalidDecision : string := "invalid_decision".
Definition ShadowErrorReasonFallbackFailed : string := "fallback_failed".

(** ** Metrics *)

Definition ShadowMetricDecision : string := "decision".
Definition ShadowMetricWarning : string := "warning".
Definition ShadowMetricFallbackDecision : string := "fallback_decision".
Definition ShadowMetricFallbackFailure : string := "fallback_failure".

Record ShadowMetricEvent := mkMetricEvent {
  me_Event : string;
  me_Decision : string;
  me_ReasonCode : string;
  me_ErrorReason : string
}.

Definition ShadowMetricKey : Type := string * string * string * string.

Definition metricKey (event : ShadowMetricEvent) : ShadowMetricKey :=
  (me_Event event, me_Decision event, me_ReasonCode event, me_ErrorReason event).

Record ShadowMetrics := mkShadowMetrics { counters : gmap ShadowMetricKey Z }.
Definition NewShadowMetrics : ShadowMetrics := mkShadowMetrics ∅.

Definition wrapU64 (z : Z) : Z := z mod 2 ^ 64.

Definition RecordShadowMetric (m : ShadowMetrics) (event : ShadowMetricEvent) : ShadowMetrics :=
  mkShadowMetrics (<[metricKey event := wrapU64 (default 0 (counters m !! metricKey event) + 1)]> (counters m)).

(** A copy of the counters, none for a nil recorder. *)
Definition Snapshot (m : option ShadowMetrics) : gmap ShadowMetricKey Z :=
  match m with Some m => counters m | None => ∅ end.

Definition recordShadowMetric (recorder : option ShadowMetrics) (event : ShadowMetricEvent) : option ShadowMetrics :=
  match recorder with Some m => Some (RecordShadowMetric m event) | None => None end.

(** ** State and trace *)

(** The handler requests are passed to. *)
Inductive handler := NotFoundHandler | NextHandler.

Inductive action :=
| Warns (message method path requestID reason : string)
| Debugs (method path : string) (decision : Decision)
| Records (event : ShadowMetricEvent)
| Serves (h : handler) (r : http_Request) (spanned : bool).

Record MiddlewareOptions (S F : Type) := mkMiddlewareOptions {
  mo_BuildOptions : BuildOptions;
  mo_Evaluator : option S;
  mo_FallbackEvaluator : option F;
  mo_Logger : bool;
  mo_Metrics : option ShadowMetrics
}.
Arguments mkMiddlewareOptions {S F} _ _ _ _ _.
Arguments mo_BuildOptions {S F} _.
Arguments mo_Evaluator {S F} _.
Arguments mo_FallbackEvaluator {S F} _.
Arguments mo_Logger {S F} _.
Arguments mo_Metrics {S F} _.

(** The handler [Middleware] returns, with the objects it holds on to. *)
Record Shadow (S F : Type) := mkShadow {
  sh_BuildOptions : BuildOptions;
  sh_evaluator : S + ShadowEvaluator;
  sh_fallback : option F;
  sh_Logger : bool;
  sh_metrics : option ShadowMetrics;
  sh_next : handler;
  sh_trace : list action
}.
Arguments mkShadow {S F} _ _ _ _ _ _ _.
Arguments sh_BuildOptions {S F} _.
Arguments sh_evaluator {S F} _.
Arguments sh_fallback {S F} _.
Arguments sh_Logger {S F} _.
Arguments sh_metrics {S F} _.
Arguments sh_next {S F} _.
Arguments sh_trace {S F} _.

#[global] Instance sum_Evaluator {S T} `{Evaluator S} `{Evaluator T} : Evaluator (S + T) := fun env e rq =>
  match e with
  | inl s => let '(s', r) := Evaluate env s rq in (inl s', r)
  | inr t => let '(t', r) := Evaluate env t rq in (inr t', r)
  end.

(** [next] tells whether there is a next handler. *)
Definition Middleware {S F} (options : MiddlewareOptions S F) (next : bool) : Shadow S F :=
  mkShadow (mo_BuildOptions options)
    (match mo_Evaluator options with Some e => inl e | None => inr NewShadowEvaluator end)
    (mo_FallbackEvaluator options) (mo_Logger options) (mo_Metrics options)
    (if next then NextHandler else NotFoundHandler) [].

(** ** The handler *)

(** [errors.Is] looks inside the errors that wrap another. *)
Fixpoint is_backoff (err : eval_error) : bool :=
  match err with
  | ErrEvaluatorBackoffActive => true
  | ErrEvaluationFailed e => is_backoff e
  | ErrContext _ | ErrExternal _ => false
  end.

Definition evaluationWarning (err : eval_error) : string * string :=
  if is_backoff err then (ShadowLogMessageEvaluationBackoffActive, ShadowErrorReasonBackoffActive)
  else (ShadowLogMessageEvaluationFailed, ShadowErrorReasonEvaluationFailed).

(** What a call reads of the outside: the time, the order of the metadata map, and what the
    evaluator and the fallback see. *)
Record call_env := mkCallEnv { ce_clock : Z; ce_order : metadata_order; ce_env : Env; ce_fallback : Env }.

Section handler.
Context {S F : Type} `{Evaluator S} `{Evaluator F}.

Notation SM := (PM (Shadow S F)).

Definition emit (a : action) : SM unit := fun s =>
  Returns (mkShadow (sh_BuildOptions s) (sh_evaluator s) (sh_fallback s) (sh_Logger s) (sh_metrics s) (sh_next s)
             (sh_trace s ++ [a]), tt).

(** A recorder that is not nil counts the event. *)
Definition record (event : ShadowMetricEvent) : SM unit := fun s =>
  Returns (mkShadow (sh_BuildOptions s) (sh_evaluator s) (sh_fallback s) (sh_Logger s)
             (recordShadowMetric (sh_metrics s) event) (sh_next s)
             (sh_trace s ++ match sh_metrics s with Some _ => [Records event] | None => [] end), tt).

Definition recordShadowWarningMetric (reason : string) : SM unit :=
  record (mkMetricEvent ShadowMetricWarning "" "" reason).
Definition recordShadowDecisionMetric (event : string) (d : Decision) : SM unit :=
  record (mkMetricEvent event (dc_Decision d) (dc_ReasonCode d) "").

(** [URL.EscapedPath] reads through the pointer. *)
Definition logShadowError (r : http_Request) (message reason : string) : SM unit := fun s =>
  if negb (sh_Logger s) then Returns (s, tt)
  else match r_URL r with
       | None => Panics
       | Some u => emit (Warns message (r_Method r) (EscapedPath u) (ctx_RequestID r) reason) s
       end.

Definition logShadowDecision (r : http_Request) (d : Decision) : SM unit := fun s =>
  if negb (sh_Logger s) then Returns (s, tt)
  else match r_URL r with
       | None => Panics
       | Some u => emit (Debugs (r_Method r) (EscapedPath u) d) s
       end.

Definition ServeNext (r : http_Request) (spanned : bool) : SM unit := fun s => emit (Serves (sh_next s) r spanned) s.

Definition callEvaluator (env : Env) (rq : Request) : SM (result eval_error Decision) := fun s =>
  let '(e, res) := Evaluate env (sh_evaluator s) rq in
  Returns (mkShadow (sh_BuildOptions s) e (sh_fallback s) (sh_Logger s) (sh_metrics s) (sh_next s) (sh_trace s), res).

Definition callFallback (env : Env) (f : F) (rq : Request) : SM (result eval_error Decision) := fun s =>
  let '(f', res) := Evaluate env f rq in
  Returns (mkShadow (sh_BuildOptions s) (sh_evaluator s) (Some f') (sh_Logger s) (sh_metrics s) (sh_next s) (sh_trace s), res).

Definition fallbackFailed (r : http_Request) : SM bool :=
  logShadowError r ShadowLogMessageFallbackFailed ShadowErrorReasonFallbackFailed ;;
  record (mkMetricEvent ShadowMetricFallbackFailure "" "" ShadowErrorReasonFallbackFailed) ;;
  mret false.

Definition evaluateFallback (env : Env) (r : http_Request) (rq : Request) (evaluator : option F) : SM bool :=
  match evaluator with
  | None => mret false
  | Some f =>
      res ← callFallback env f rq;
      match res with
      | Err _ => fallbackFailed r
      | Ok d =>
          match ValidateDecision d with
          | Err _ => fallbackFailed r
          | Ok _ =>
              logShadowDecision r d ;;
              recordShadowDecisionMetric ShadowMetricFallbackDecision d ;;
              mret true
          end
      end
  end.

(** A warning, the fallback, and the next handler whether it decided or not. *)
Definition warnAndServe (env : Env) (r : http_Request) (rq : Request) (message reason : string) : SM unit :=
  logShadowError r message reason ;;
  recordShadowWarningMetric reason ;;
  f ← (fun s => Returns (s, sh_fallback s)) : SM (option F);
  b ← evaluateFallback env r rq f;
  if b : bool then ServeNext r false else ServeNext r false.

Definition buildOptionsFor (o : BuildOptions) (r : http_Request) : BuildOptions :=
  match ctx_PolicyDocuments r with
  | [] => o
  | docs => mkBuildOptions (bo_PublicBaseURL o) (bo_Now o) docs (bo_PolicyVersion o) (bo_ResourceMetadata o) (bo_ResourceVersion o)
  end.

Definition ServeHTTP (c : call_env) (r : http_Request) : SM unit :=
  o ← (fun s => Returns (s, sh_BuildOptions s)) : SM BuildOptions;
  match BuildRequest (ce_clock c) (ce_order c) (Some r) (buildOptionsFor o r) with
  | Err _ =>
      logShadowError r ShadowLogMessageRequestBuildFailed ShadowErrorReasonRequestBuildFailed ;;
      recordShadowWarningMetric ShadowErrorReasonRequestBuildFailed ;;
      ServeNext r false
  | Ok rq =>
      res ← callEvaluator (ce_env c) rq;
      match res with
      | Err err =>
          let '(message, reason) := evaluationWarning err in warnAndServe (ce_fallback c) r rq message reason
      | Ok d =>
          match ValidateDecision d with
          | Err _ => warnAndServe (ce_fallback c) r rq ShadowLogMessageInvalidDecision ShadowErrorReasonInvalidDecision
          | Ok _ =>
              logShadowDecision r d ;;
              recordShadowDecisionMetric ShadowMetricDecision d ;;
              ServeNext r true
          end
      end
  end.

(** Requests one after the other. *)
Fixpoint serveAll (calls : list (call_env * http_Request)) : SM unit :=
  match calls with
  | [] => mret tt
  | (c, r) :: rest => ServeHTTP c r ;; serveAll rest
  end.

(** ** What a call adds *)

Definition count_action (m : option ShadowMetrics) (a : action) : option ShadowMetrics :=
  match a with Records event => recordShadowMetric m event | _ => m end.

(** The state after some actions, and with other evaluators. *)
Definition add (acts : list action) (s : Shadow S F) : Shadow S F :=
  mkShadow (sh_BuildOptions s) (sh_evaluator s) (sh_fallback s) (sh_Logger s) (foldl count_action (sh_metrics s) acts) (sh_next s)
    (sh_trace s ++ acts).
Definition with_evaluators (e : S + ShadowEvaluator) (f : option F) (s : Shadow S F) : Shadow S F :=
  mkShadow (sh_BuildOptions s) e f (sh_Logger s) (sh_metrics s) (sh_next s) (sh_trace s).

(** The lines of the log can be written. *)
Definition loggable (s : Shadow S F) (r : http_Request) : Prop := sh_Logger s = false \/ is_Some (r_URL r).
Definition counting (s : Shadow S F) : bool := bool_decide (is_Some (sh_metrics s)).

Definition served (acts : list action) : list (handler * http_Request) :=
  omap (fun a => match a with Serves h r _ => Some (h, r) | _ => None end) acts.
Definition recorded (acts : list action) : list ShadowMetricEvent :=
  omap (fun a => match a with Records e => Some e | _ => None end) acts.

Lemma served_app l1 l2 : served (l1 ++ l2) = served l1 ++ served l2.
Proof. apply omap_app. Qed.
Lemma recorded_app l1 l2 : recorded (l1 ++ l2) = recorded l1 ++ recorded l2.
Proof. apply omap_app. Qed.

Lemma count_actions_some (m : option ShadowMetrics) (acts : list action) :
  is_Some (foldl count_action m acts) <-> is_Some m.
Proof.
  revert m. induction acts as [|a acts IH]; intros m; cbn; [done|]. rewrite IH. destruct a, m; cbn; by rewrite ?is_Some_alt.
Qed.

Lemma add_add l1 l2 s : add l2 (add l1 s) = add (l1 ++ l2) s.
Proof. unfold add. cbn. by rewrite foldl_app, (assoc_L (++)). Qed.
Lemma add_nil s : add [] s = s.
Proof. unfold add. cbn. rewrite app_nil_r. by destruct s. Qed.
Lemma counting_add acts s : counting (add acts s) = counting s.
Proof. apply bool_decide_ext, count_actions_some. Qed.

(** Lines of the log. *)
Definition quiet (acts : list action) : Prop := served acts = [] /\ recorded acts = [].

(** *** The parts of a call *)

Lemma logShadowError_run r message reason s :
  loggable s r -> exists l, logShadowError r message reason s = Returns (add l s, tt) /\ quiet l.
Proof.
  intros Hr. unfold logShadowError. destruct (sh_Logger s) eqn:El; cbn [negb].
  - destruct Hr as [Hr|[u ->]]; [congruence|]. by exists [Warns message (r_Method r) (EscapedPath u) (ctx_RequestID r) reason].
  - exists []. by rewrite add_nil.
Qed.

Lemma logShadowDecision_run r d s : loggable s r -> exists l, logShadowDecision r d s = Returns (add l s, tt) /\ quiet l.
Proof.
  intros Hr. unfold logShadowDecision. destruct (sh_Logger s) eqn:El; cbn [negb].
  - destruct Hr as [Hr|[u ->]]; [congruence|]. by exists [Debugs (r_Method r) (EscapedPath u) d].
  - exists []. by rewrite add_nil.
Qed.

Lemma record_run event s : exists l, record event s = Returns (add l s, tt) /\ served l = [] /\ recorded l = if counting s then [event] else [].
Proof.
  unfold record, counting, add. destruct (sh_metrics s) as [m|].
  - by exists [Records event].
  - by exists [].
Qed.

(** A line of the log and an event. *)
Lemma report_run {A} (log : SM unit) event (k : SM A) s :
  (exists l, log s = Returns (add l s, tt) /\ quiet l) ->
  exists l, (log ;; record event ;; k) s = k (add l s) /\ served l = [] /\ recorded l = if counting s then [event] else [].
Proof.
  intros (l1 & E1 & Q1 & Q2). destruct (record_run event (add l1 s)) as (l2 & E2 & R1 & R2). rewrite counting_add in R2.
  exists (l1 ++ l2). unfold mbind, PM_bind. rewrite E1, E2, add_add, served_app, recorded_app, Q1, Q2, R1. done.
Qed.

(** *** What the metrics should count *)

(** An answer that is a valid decision. *)
Definition validAnswer (res : result eval_error Decision) : option Decision :=
  match res with Ok d => if is_ok (ValidateDecision d) then Some d else None | Err _ => None end.

(** Why an answer of the evaluator is not one. *)
Definition warningReason (res : result eval_error Decision) : string :=
  match res with
  | Ok _ => ShadowErrorReasonInvalidDecision
  | Err err => if is_backoff err then ShadowErrorReasonBackoffActive else ShadowErrorReasonEvaluationFailed
  end.

Definition warning (reason : string) : ShadowMetricEvent := mkMetricEvent ShadowMetricWarning "" "" reason.
Definition decided (event : string) (d : Decision) : ShadowMetricEvent := mkMetricEvent event (dc_Decision d) (dc_ReasonCode d) "".

(** The fallback that is asked, and what is counted for its answer. *)
Definition fallbackOutcome (env : Env) (rq : Request) (f : option F) : option F * list ShadowMetricEvent :=
  match f with
  | None => (None, [])
  | Some f =>
      let '(f', res) := Evaluate env f rq in
      (Some f', [match validAnswer res with
                 | Some d => decided ShadowMetricFallbackDecision d
                 | None => mkMetricEvent ShadowMetricFallbackFailure "" "" ShadowErrorReasonFallbackFailed
                 end])
  end.

(** A request that can not be built counts as a warning; a valid decision of the evaluator counts
    as this decision; any other answer as a warning with its reason, and the fallback is asked. *)
Definition callOutcome (o : BuildOptions) (c : call_env) (r : http_Request) (e : S + ShadowEvaluator) (f : option F)
  : (S + ShadowEvaluator) * option F * list ShadowMetricEvent :=
  match BuildRequest (ce_clock c) (ce_order c) (Some r) (buildOptionsFor o r) with
  | Err _ => (e, f, [warning ShadowErrorReasonRequestBuildFailed])
  | Ok rq =>
      let '(e', res) := Evaluate (ce_env c) e rq in
      match validAnswer res with
      | Some d => (e', f, [decided ShadowMetricDecision d])
      | None => let '(f', evs) := fallbackOutcome (ce_fallback c) rq f in (e', f', warning (warningReason res) :: evs)
      end
  end.

Fixpoint callOutcomes (o : BuildOptions) (calls : list (call_env * http_Request)) (e : S + ShadowEvaluator) (f : option F)
  : list ShadowMetricEvent :=
  match calls with
  | [] => []
  | (c, r) :: rest => let '(e', f', evs) := callOutcome o c r e f in evs ++ callOutcomes o rest e' f'
  end.

(** *** The whole call *)

(** A computation that ends in [s] with other evaluators, after actions that serve and record. *)
Definition ends_with (res : outcome (Shadow S F * unit)) (s : Shadow S F) (e : S + ShadowEvaluator) (f : option F)
    (out : list (handler * http_Request)) (evs : list ShadowMetricEvent) : Prop :=
  exists acts, res = Returns (add acts (with_evaluators e f s), tt) /\ served acts = out /\ recorded acts = if counting s then evs else [].

Lemma ServeNext_run r b l s : ServeNext r b (add l s) = Returns (add (l ++ [Serves (sh_next s) r b]) s, tt).
Proof. rewrite <- add_add. done. Qed.

Lemma served_last l h r b : served l = [] -> served (l ++ [Serves h r b]) = [(h, r)].
Proof. intros Hl. by rewrite served_app, Hl. Qed.
Lemma recorded_last l h r b : recorded (l ++ [Serves h r b]) = recorded l.
Proof. rewrite recorded_app. cbn. by rewrite app_nil_r. Qed.

(** The fallback, which serves nothing. *)
Lemma evaluateFallback_run env r rq f s : loggable s r -> sh_fallback s = f ->
  exists b l, evaluateFallback env r rq f s = Returns (add l (with_evaluators (sh_evaluator s) (fallbackOutcome env rq f).1 s), b) /\
    served l = [] /\ recorded l = if counting s then (fallbackOutcome env rq f).2 else [].
Proof.
  intros Hr Hf. destruct f as [f|]; cbn [evaluateFallback fallbackOutcome fst snd].
  2: { exists false, []. rewrite add_nil. split; [|by destruct (counting s)]. unfold with_evaluators. rewrite <- Hf. by destruct s. }
  unfold mbind at 1, PM_bind at 1, callFallback. destruct (Evaluate env f rq) as [f' res]. cbn [fst snd].
  fold (with_evaluators (sh_evaluator s) (Some f') s). set (s1 := with_evaluators _ _ s).
  assert (exists l, fallbackFailed r s1 = Returns (add l s1, false) /\ served l = [] /\
    recorded l = if counting s then [mkMetricEvent ShadowMetricFallbackFailure "" "" ShadowErrorReasonFallbackFailed] else []) as (lf & Ef & Hf1 & Hf2).
  { destruct (report_run (logShadowError r ShadowLogMessageFallbackFailed ShadowErrorReasonFallbackFailed)
      (mkMetricEvent ShadowMetricFallbackFailure "" "" ShadowErrorReasonFallbackFailed) (mret false : SM bool) s1) as (l & E & Hq);
      [by apply logShadowError_run|]. by exists l. }
  unfold validAnswer. destruct res as [d|]; [|by exists false, lf]. destruct (ValidateDecision d) as [[]|]; cbn [is_ok]; [|by exists false, lf].
  destruct (report_run (logShadowDecision r d) (decided ShadowMetricFallbackDecision d) (mret true : SM bool) s1) as (l & El & H1 & H2);
    [by apply logShadowDecision_run|]. by exists true, l.
Qed.

Lemma warnAndServe_run env r rq message reason s : loggable s r ->
  let '(f', evs) := fallbackOutcome env rq (sh_fallback s) in
  ends_with (warnAndServe env r rq message reason s) s (sh_evaluator s) f' [(sh_next s, r)] (warning reason :: evs).
Proof.
  intros Hr. destruct (fallbackOutcome env rq (sh_fallback s)) as [f' evs] eqn:Eo.
  destruct (report_run (logShadowError r message reason) (warning reason)
    (f ← ((fun s => Returns (s, sh_fallback s)) : SM (option F)); b ← evaluateFallback env r rq f; if b : bool then ServeNext r false else ServeNext r false) s)
    as (l1 & E1 & H1 & H2); [by apply logShadowError_run|].
  unfold warnAndServe, recordShadowWarningMetric. fold (warning reason). rewrite E1. unfold mbind, PM_bind.
  destruct (evaluateFallback_run env r rq (sh_fallback s) (add l1 s)) as (b & l2 & E2 & H3 & H4); [done|done|].
  change (sh_fallback (add l1 s)) with (sh_fallback s). rewrite E2, Eo. cbn [fst]. rewrite Eo in H4. cbn [snd] in H4. rewrite counting_add in H4.
  change (add l2 (with_evaluators (sh_evaluator (add l1 s)) f' (add l1 s))) with (add l2 (add l1 (with_evaluators (sh_evaluator s) f' s))).
  rewrite add_add. exists ((l1 ++ l2) ++ [Serves (sh_next s) r false]). split; [destruct b; exact (ServeNext_run r false (l1 ++ l2) (with_evaluators (sh_evaluator s) f' s))|].
  rewrite recorded_last, served_last by (by rewrite served_app, H1, H3). rewrite recorded_app, H2, H4. by destruct (counting s).
Qed.

Lemma ServeHTTP_run c r s : loggable s r ->
  let '(e', f', evs) := callOutcome (sh_BuildOptions s) c r (sh_evaluator s) (sh_fallback s) in
  ends_with (ServeHTTP c r s) s e' f' [(sh_next s, r)] evs.
Proof.
  intros Hr. unfold ServeHTTP, callOutcome. unfold mbind at 1, PM_bind at 1. destruct (BuildRequest _ _ _ _) as [rq|].
  - unfold mbind at 1, PM_bind at 1, callEvaluator. destruct (Evaluate (ce_env c) (sh_evaluator s) rq) as [e' res].
    fold (with_evaluators e' (sh_fallback s) s). set (s1 := with_evaluators e' (sh_fallback s) s).
    assert (forall m reason, let '(f', evs) := fallbackOutcome (ce_fallback c) rq (sh_fallback s) in
      ends_with (warnAndServe (ce_fallback c) r rq m reason s1) s e' f' [(sh_next s, r)] (warning reason :: evs)) as Hw
      by (intros m reason; exact (warnAndServe_run (ce_fallback c) r rq m reason s1 Hr)).
    destruct (fallbackOutcome (ce_fallback c) rq (sh_fallback s)) as [f' evs]. unfold validAnswer, warningReason.
    destruct res as [d|err]; [|unfold evaluationWarning; destruct (is_backoff err); apply Hw].
    destruct (ValidateDecision d) as [[]|]; cbn [is_ok]; [|apply Hw].
    destruct (report_run (logShadowDecision r d) (decided ShadowMetricDecision d) (ServeNext r true) s1) as (l & E & H1 & H2);
      [by apply logShadowDecision_run|].
    unfold recordShadowDecisionMetric. fold (decided ShadowMetricDecision d). rewrite E, ServeNext_run.
    exists (l ++ [Serves (sh_next s) r true]). by rewrite recorded_last, served_last.
  - destruct (report_run (logShadowError r ShadowLogMessageRequestBuildFailed ShadowErrorReasonRequestBuildFailed)
      (warning ShadowErrorReasonRequestBuildFailed) (ServeNext r false) s) as (l & E & H1 & H2); [by apply logShadowError_run|].
    unfold recordShadowWarningMetric. fold (warning ShadowErrorReasonRequestBuildFailed). rewrite E, ServeNext_run.
    exists (l ++ [Serves (sh_next s) r false]). rewrite recorded_last, served_last by done. split; [by destruct s|done].
Qed.

Lemma serveAll_run calls s : Forall (fun cr => loggable s cr.2) calls ->
  exists e f acts, serveAll calls s = Returns (add acts (with_evaluators e f s), tt) /\
    served acts = map (fun cr => (sh_next s, cr.2)) calls /\
    recorded acts = if counting s then callOutcomes (sh_BuildOptions s) calls (sh_evaluator s) (sh_fallback s) else [].
Proof.
  revert s. induction calls as [|[c r] calls IH]; intros s Hall; cbn [serveAll callOutcomes].
  { exists (sh_evaluator s), (sh_fallback s), []. rewrite add_nil. split; [by destruct s|]. by destruct (counting s). }
  apply Forall_cons in Hall as [Hr Hall]. pose proof (ServeHTTP_run c r s Hr) as H1.
  destruct (callOutcome (sh_BuildOptions s) c r (sh_evaluator s) (sh_fallback s)) as [[e' f'] evs]. destruct H1 as (l1 & E1 & Hs1 & Hr1).
  destruct (IH (add l1 (with_evaluators e' f' s))) as (e & f & l2 & E2 & Hs2 & Hr2); [done|].
  exists e, f, (l1 ++ l2). unfold mbind, PM_bind. rewrite E1, E2, served_app, recorded_app, Hs1, Hs2, Hr1, Hr2, counting_add.
  split; [by rewrite <- add_add|]. split; [done|]. change (counting (with_evaluators e' f' s)) with (counting s). by destruct (counting s).
Qed.
End handler.

(** ** The counters *)

Definition occurrences (k : ShadowMetricKey) (acts : list action) : nat :=
  length (filter (fun e => metricKey e = k) (recorded acts)).

Lemma wrapU64_add (a b : Z) : wrapU64 (wrapU64 a + b) = wrapU64 (a + b).
Proof. unfold wrapU64. by rewrite Zplus_mod_idemp_l. Qed.

Lemma counters_spec (m : ShadowMetrics) (acts : list action) (k : ShadowMetricKey) :
  (forall k, 0 <= default 0 (counters m !! k) < 2 ^ 64) ->
  default 0 (Snapshot (foldl count_action (Some m) acts) !! k) =
  wrapU64 (default 0 (counters m !! k) + Z.of_nat (occurrences k acts)).
Proof.
  revert m. induction acts as [|a acts IH]; intros m Hm; cbn [foldl].
  { cbn. rewrite Z.add_0_r. unfold wrapU64. by rewrite Z.mod_small. }
  destruct a as [| |event|]; cbn [count_action]; [by rewrite IH..| |by rewrite IH].
  cbn [recordShadowMetric]. unfold RecordShadowMetric. rewrite IH; cbn [counters].
  - unfold occurrences. cbn [recorded omap list_omap]. rewrite filter_cons. fold (recorded acts).
    destruct (decide (metricKey event = k)) as [<-|Hne].
    + rewrite lookup_insert_eq. cbn [from_option length id]. rewrite wrapU64_add. f_equal. lia.
    + by rewrite lookup_insert_ne.
  - intros k'. destruct (decide (metricKey event = k')) as [<-|Hne].
    + rewrite lookup_insert_eq. cbn [from_option id]. apply Z.mod_pos_bound. lia.
    + by rewrite lookup_insert_ne.
Qed.

(** C29: shadow mode never stands in the way: whatever the evaluators answer, every request that
    can be logged is passed on to the next handler exactly once, in order and unchanged.  The
    metrics record what the answers were: for a request that can not be built, a warning; for a
    valid decision of the evaluator, this decision; for any other answer of it, a warning with the
    reason, followed by the decision of the fallback if that is valid, or by its failure, if there
    is a fallback; and the counters are the numbers of these events modulo 2^64.  With a logger, a
    request without a URL makes the handler panic. *)
Theorem shadow_passes_requests {S F} `{Evaluator S} `{Evaluator F} (o : MiddlewareOptions S F) (next : bool)
  (calls : list (call_env * http_Request)) :
  Forall (fun cr => mo_Logger o = false \/ is_Some (r_URL cr.2)) calls ->
  (exists s, serveAll calls (Middleware o next) = Returns (s, tt) /\
    served (sh_trace s) = map (fun cr => (if next then NextHandler else NotFoundHandler, cr.2)) calls /\
    (mo_Metrics o = Some NewShadowMetrics ->
      recorded (sh_trace s) = callOutcomes (mo_BuildOptions o) calls
        (match mo_Evaluator o with Some e => inl e | None => inr NewShadowEvaluator end) (mo_FallbackEvaluator o) /\
      forall k, default 0 (Snapshot (sh_metrics s) !! k) = wrapU64 (Z.of_nat (occurrences k (sh_trace s))))) /\
  (forall c r, mo_Logger o = true -> r_URL r = None -> ServeHTTP c r (Middleware o next) = Panics).
Proof.
  intros Hall. split.
  - destruct (serveAll_run calls (Middleware o next)) as (e & f & acts & E & Hs & Hr); [done|]. cbn in Hs, Hr. eexists. split; [exact E|].
    cbn [sh_trace sh_metrics add with_evaluators Middleware app]. split; [exact Hs|]. intros Hn. split.
    + rewrite Hr. unfold counting. cbn. rewrite Hn. by rewrite bool_decide_true.
    + intros k. rewrite Hn, counters_spec; cbn [counters NewShadowMetrics].
      * by rewrite lookup_empty.
      * intros k'. by rewrite lookup_empty.
  - intros c r Hl Hu. unfold ServeHTTP, mbind, PM_bind. cbn [sh_BuildOptions Middleware].
    unfold BuildRequest, resourceURIForRequest. rewrite Hu. cbv zeta. cbn [result_bind].
    destruct (String.eqb _ ""); unfold logShadowError; cbn [sh_Logger Middleware]; by rewrite Hl, Hu.
Qed.

Definition sampleMiddleware : MiddlewareOptions ShadowEvaluator ShadowEvaluator :=
  mkMiddlewareOptions sampleBuildOptions None (Some NewShadowEvaluator) true (Some NewShadowMetrics).
Definition sampleCall : call_env := mkCallEnv 0 (fun m => (map_to_list m).*1) sampleEnv sampleEnv.

(** A decision, and a request that can not be built. *)
Lemma shadow_passes_requests_witness :
  exists s, serveAll [(sampleCall, sampleHTTPRequest "PUT" "pod.example"); (sampleCall, sampleHTTPRequest "TRACE" "pod.example")]
              (Middleware sampleMiddleware true) = Returns (s, tt) /\
    length (served (sh_trace s)) = 2%nat /\
    recorded (sh_trace s) = [mkMetricEvent ShadowMetricDecision DecisionAbstain ReasonKernelAbstainShadowMode "";
                             warning ShadowErrorReasonRequestBuildFailed].
Proof.
  destruct (shadow_passes_requests sampleMiddleware true
    [(sampleCall, sampleHTTPRequest "PUT" "pod.example"); (sampleCall, sampleHTTPRequest "TRACE" "pod.example")])
    as [(s & E & Hs & Hc) _].
  { apply Forall_cons; split; [right; vm_compute; eexists; reflexivity|].
    apply Forall_cons; split; [right; vm_compute; eexists; reflexivity|constructor]. }
  exists s. split; [exact E|]. rewrite Hs. split; [reflexivity|]. destruct (Hc eq_refl) as [Hr _]. rewrite Hr. vm_compute. reflexivity.
Defined.
