(* ===== verification/Backoff.v ===== *)
(** * The backoff evaluator

    [internal/authz/backoff_evaluator.go]: a wrapper that stops calling a failing
    evaluator for an exponentially growing delay.  It is modelled over any inner
    evaluator, through the [Evaluator] interface. *)

From S2P Require Import Prelude GoStrings GoURL GoHash AuthzTypes Evaluator WacEvaluator.

Local Open Scope Z_scope.

Definition DefaultBackoffEvaluatorBaseDelay : Z := 500 * millisecond.
Definition DefaultBackoffEvaluatorMaxDelay : Z := 30 * second.

Record BackoffEvaluator (S : Type) := mkBackoffEvaluator {
  evaluator : S;
  baseDelay : Z;
  maxDelay : Z;
  failures : Z;
  nextAllowed : Z
}.
Arguments mkBackoffEvaluator {S}.
Arguments evaluator {S}.
Arguments baseDelay {S}.
Arguments maxDelay {S}.
Arguments failures {S}.
Arguments nextAllowed {S}.

(** [NewBackoffEvaluator]; [None] is its error. *)
Definition NewBackoffEvaluator {S} (inner : option S) (BaseDelay MaxDelay : Z)
  : option (BackoffEvaluator S) :=
  match inner with
  | None => None
  | Some ev =>
      let base := if BaseDelay =? 0 then DefaultBackoffEvaluatorBaseDelay else BaseDelay in
      let max := if MaxDelay =? 0 then DefaultBackoffEvaluatorMaxDelay else MaxDelay in
      if (base <=? 0) || (max <=? 0) || (max <? base) then None
      else Some (mkBackoffEvaluator ev base max 0 0)
  end.

Definition allowAttempt {S} (e : BackoffEvaluator S) (now : Z) : bool :=
  time_IsZero (nextAllowed e) || negb (time_Before now (nextAllowed e)).

Definition recordSuccess {S} (e : BackoffEvaluator S) : BackoffEvaluator S :=
  mkBackoffEvaluator (evaluator e) (baseDelay e) (maxDelay e) 0 0.

(** The doubling loop: [n] rounds left. *)
Fixpoint delayLoop (n : nat) (delay max : Z) : Z :=
  match n with
  | O => if max <? delay then max else delay
  | S n' => if Z.quot max 2 <=? delay then max else delayLoop n' (wrap64 (delay * 2)) max
  end.

Definition delayForFailuresLocked {S} (e : BackoffEvaluator S) : Z :=
  let shift := wrap64 (failures e - 1) in
  if 30 <? shift then maxDelay e
  else delayLoop (Z.to_nat shift) (baseDelay e) (maxDelay e).

Definition recordFailure {S} (e : BackoffEvaluator S) (now : Z) : BackoffEvaluator S :=
  let e1 := mkBackoffEvaluator (evaluator e) (baseDelay e) (maxDelay e)
              (wrap64 (failures e + 1)) (nextAllowed e) in
  mkBackoffEvaluator (evaluator e1) (baseDelay e1) (maxDelay e1) (failures e1)
    (now + delayForFailuresLocked e1).

Definition withInner {S} (e : BackoffEvaluator S) (s : S) : BackoffEvaluator S :=
  mkBackoffEvaluator s (baseDelay e) (maxDelay e) (failures e) (nextAllowed e).

(** [Evaluate].  The wrapper's [now] function is read at most twice: reading 0 admits the
    attempt, reading 1 dates a failure; the inner evaluator is given the others. *)
Definition BackoffEvaluator_Evaluate {S} `{Evaluator S} (env : Env) (e : BackoffEvaluator S)
    (rq : Request) : BackoffEvaluator S * result eval_error Decision :=
  match env_ctx env with
  | Some err => (e, Err (ErrContext err))
  | None =>
      if negb (allowAttempt e (env_clock env 0)) then (e, Err ErrEvaluatorBackoffActive)
      else
        let '(s, r) := Evaluate (env_after 2 env) (evaluator e) rq in
        match r with
        | Err err => (recordFailure (withInner e s) (env_clock env 1), Err err)
        | Ok d => (recordSuccess (withInner e s), Ok d)
        end
  end.

#[export] Instance BackoffEvaluator_Evaluator {S} `{Evaluator S} :
  Evaluator (BackoffEvaluator S) := BackoffEvaluator_Evaluate.

(** ** Lemmas *)

Definition delays_ok {S} (e : BackoffEvaluator S) : Prop :=
  0 < baseDelay e <= maxDelay e /\ maxDelay e <= int64_max.

(** [n] doublings of [delay], capped at [max]; the loop gives the cap one nanosecond
    early when [max] is odd. *)
Lemma delayLoop_bounds (n : nat) (delay max : Z) :
  0 < delay -> 0 < max <= int64_max -> delay <= int64_max ->
  Z.min (delay * 2 ^ Z.of_nat n) max <= delayLoop n delay max <=
  Z.min (delay * 2 ^ Z.of_nat n + 1) max.
Proof.
  revert delay. induction n as [|n IH]; intros delay Hd Hm Hmax; cbn [delayLoop].
  { rewrite Z.pow_0_r, Z.mul_1_r. destruct (max <? delay) eqn:E; bool_prop; lia. }
  rewrite Nat2Z.inj_succ, Z.pow_succ_r, Z.mul_assoc by lia.
  assert (0 < 2 ^ Z.of_nat n) by (apply Z.pow_pos_nonneg; lia).
  rewrite Z.quot_div_nonneg by lia.
  assert (2 * (max / 2) <= max < 2 * (max / 2) + 2) by (pose proof (Z.div_mod max 2); pose proof (Z.mod_pos_bound max 2); lia).
  destruct (max / 2 <=? delay) eqn:E; bool_prop; [nia|].
  assert (wrap64 (delay * 2) = delay * 2) as -> by (apply wrap64_id; unfold in_int64, int64_max, int64_min in *; lia).
  apply IH; unfold int64_max in *; lia.
Qed.

Section Delay.
Context {S : Type} (e : BackoffEvaluator S) (Hok : delays_ok e).

Lemma delay_range : 1 <= failures e <= int64_max ->
  baseDelay e <= delayForFailuresLocked e <= maxDelay e.
Proof.
  intros Hf. unfold delayForFailuresLocked. destruct Hok as [Hb Hm].
  rewrite wrap64_id by (unfold in_int64, int64_min in *; lia).
  destruct (30 <? failures e - 1); [lia|].
  pose proof (delayLoop_bounds (Z.to_nat (failures e - 1)) (baseDelay e) (maxDelay e)) as Hl.
  assert (0 < 2 ^ Z.of_nat (Z.to_nat (failures e - 1))) by (apply Z.pow_pos_nonneg; lia). nia.
Qed.

Lemma delay_exponential : 1 <= failures e <= 31 ->
  let ideal := baseDelay e * 2 ^ (failures e - 1) in
  Z.min ideal (maxDelay e) <= delayForFailuresLocked e <= Z.min (ideal + 1) (maxDelay e).
Proof.
  intros Hf. unfold delayForFailuresLocked. destruct Hok as [Hb Hm].
  rewrite wrap64_id by (unfold in_int64, int64_min, int64_max in *; lia).
  destruct (30 <? failures e - 1) eqn:E; bool_prop; [lia|].
  pose proof (delayLoop_bounds (Z.to_nat (failures e - 1)) (baseDelay e) (maxDelay e)) as Hl.
  rewrite Z2Nat.id in Hl by lia. apply Hl; lia.
Qed.
End Delay.

Lemma BackoffEvaluator_valid {S} `{EvaluatorSound S} (env : Env) (e : BackoffEvaluator S)
    (rq : Request) e' d :
  Evaluate env e rq = (e', Ok d) -> ValidateDecision d = Ok tt.
Proof.
  unfold Evaluate at 1, BackoffEvaluator_Evaluator, BackoffEvaluator_Evaluate.
  destruct (env_ctx env); [discriminate|]. break_if; [discriminate|].
  destruct (Evaluate _ (evaluator e) rq) as [s [d'|]] eqn:He; [|discriminate].
  intros [= _ <-]. by eapply evaluate_valid.
Qed.

#[export] Instance BackoffEvaluator_Sound {S} `{EvaluatorSound S} :
  EvaluatorSound (BackoffEvaluator S) := BackoffEvaluator_valid.

(** ** Runs

    A sequence of calls, and the log of the attempts on the inner evaluator it makes,
    newest first: when each was admitted and, for a failed one, when it failed. *)
Record Attempt := mkAttempt { at_admitted : Z; at_failed : option Z }.

Definition attempted {S} (env : Env) (e : BackoffEvaluator S) : bool :=
  bool_decide (env_ctx env = None) && allowAttempt e (env_clock env 0).

Fixpoint run {S} `{Evaluator S} (calls : list (Env * Request)) (e : BackoffEvaluator S)
    (log : list Attempt) : BackoffEvaluator S * list Attempt :=
  match calls with
  | [] => (e, log)
  | (env, rq) :: cs =>
      let '(e', r) := Evaluate env e rq in
      run cs e'
        (if attempted env e
         then mkAttempt (env_clock env 0) (if is_ok r then None else Some (env_clock env 1)) :: log
         else log)
  end.

(** The failures since the last success. *)
Fixpoint streak (log : list Attempt) : Z :=
  match log with
  | mkAttempt _ (Some _) :: rest => streak rest + 1
  | _ => 0
  end.

(** The least pause a [k]-th consecutive failure imposes. *)
Definition pause (base max k : Z) : Z :=
  if 31 <? k then max else Z.min (base * 2 ^ (k - 1)) max.

Fixpoint spaced (base max : Z) (log : list Attempt) : Prop :=
  match log with
  | [] => True
  | a :: rest =>
      match rest with
      | mkAttempt _ (Some t) :: _ => t + pause base max (streak rest) <= at_admitted a
      | _ => True
      end /\ spaced base max rest
  end.

(** What a state says of the log that led to it. *)
Definition backoff_inv {S} (base max : Z) (e : BackoffEvaluator S) (log : list Attempt) : Prop :=
  baseDelay e = base /\ maxDelay e = max /\ failures e = streak log /\ spaced base max log /\
  match log with
  | mkAttempt _ (Some t) :: _ =>
      0 < nextAllowed e /\ t + pause base max (streak log) <= nextAllowed e <= t + max
  | _ => nextAllowed e = 0
  end.

Lemma streak_bounds (log : list Attempt) : 0 <= streak log <= Z.of_nat (length log).
Proof. induction log as [|[? [t|]] log IH]; cbn [streak length]; lia. Qed.

Lemma pause_delay {S} (e : BackoffEvaluator S) :
  delays_ok e -> 1 <= failures e <= int64_max ->
  pause (baseDelay e) (maxDelay e) (failures e) <= delayForFailuresLocked e <= maxDelay e /\
  0 < delayForFailuresLocked e.
Proof.
  intros Hok Hf. pose proof (delay_range e Hok Hf) as Hr. destruct Hok as [Hb Hm].
  split; [|lia]. split; [|lia]. unfold pause. destruct (31 <? failures e) eqn:E; bool_prop.
  - unfold delayForFailuresLocked. rewrite wrap64_id by (unfold in_int64, int64_min in *; lia).
    destruct (30 <? _) eqn:E'; bool_prop; lia.
  - apply (delay_exponential e); [done|lia].
Qed.

Lemma backoff_step {S} `{Evaluator S} base max (env : Env) (e : BackoffEvaluator S) rq log e' r :
  0 < base <= max -> max <= int64_max -> Z.of_nat (length log) < int64_max ->
  0 <= env_clock env 1 ->
  backoff_inv base max e log -> Evaluate env e rq = (e', r) ->
  backoff_inv base max e'
    (if attempted env e
     then mkAttempt (env_clock env 0) (if is_ok r then None else Some (env_clock env 1)) :: log
     else log).
Proof.
  intros Hbm Hmax Hlen Hclk (Hb & Hm & Hf & Hsp & Hlast).
  unfold Evaluate at 1, BackoffEvaluator_Evaluator, BackoffEvaluator_Evaluate, attempted.
  destruct (env_ctx env) as [c|]; cbn.
  { intros [= <- <-]. by split_and!. }
  destruct (allowAttempt e (env_clock env 0)) eqn:Ha; cbn [negb]; [|intros [= <- <-]; by split_and!].
  destruct (Evaluate _ (evaluator e) rq) as [s [d|err]]; intros [= <- <-].
  all: unfold backoff_inv; cbn [recordSuccess recordFailure withInner baseDelay maxDelay failures
    nextAllowed evaluator streak spaced at_admitted is_ok].
  all: assert (match log with
      | mkAttempt _ (Some t) :: _ => t + pause base max (streak log) <= env_clock env 0
      | _ => True end) as Hadm.
  1, 3: (destruct log as [|[? [t|]] log']; [done| |done];
    unfold allowAttempt in Ha; time_unfold;
    apply orb_true_iff in Ha as [Ha|Ha]; bool_prop; lia).
  { by split_and!. }
  pose proof (streak_bounds log) as Hs.
  rewrite Hf, Hb, Hm, wrap64_id by (unfold in_int64, int64_min; lia).
  set (e1 := mkBackoffEvaluator s base max (streak log + 1) (nextAllowed e)).
  destruct (pause_delay e1) as [Hp Hpos]; [unfold delays_ok; cbn; lia|cbn; lia|].
  change (baseDelay e1) with base in Hp. change (maxDelay e1) with max in Hp.
  change (failures e1) with (streak log + 1) in Hp.
  split_and!; try done; lia.
Qed.

Lemma backoff_run {S} `{Evaluator S} base max (calls : list (Env * Request))
    (e : BackoffEvaluator S) log :
  0 < base <= max -> max <= int64_max -> Z.of_nat (length log + length calls) <= int64_max ->
  (forall env rq, (env, rq) ∈ calls -> 0 <= env_clock env 1) ->
  backoff_inv base max e log ->
  let '(e', log') := run calls e log in backoff_inv base max e' log'.
Proof.
  intros Hbm Hmax. revert e log.
  induction calls as [|[env rq] cs IH]; intros e log Hlen Hclk Hinv; [done|].
  cbn [run]. destruct (Evaluate env e rq) as [e' r] eqn:He.
  apply IH.
  - break_if; cbn [length] in *; lia.
  - intros env' rq' Hin. apply (Hclk env' rq'). apply elem_of_cons. by right.
  - eapply backoff_step; eauto; [cbn [length] in Hlen; lia|].
    apply (Hclk env rq). apply elem_of_cons. by left.
Qed.

(** ** Properties *)

(** C33: Backoff protects the inner evaluator and never locks it out.  Over any sequence of
    calls on a fresh evaluator, the attempt that follows a [k]-th consecutive failure at
    time [t] is admitted no earlier than [t + min (base * 2^(k-1)) max] (than [t + max]
    for [k > 31]); and a call with a live context is admitted whenever the last attempt
    succeeded, or failed at least [max] ago. *)
Theorem backoff_spacing {S} `{Evaluator S} (inner : S) (b m : Z) (e0 : BackoffEvaluator S)
    (calls : list (Env * Request)) (env : Env) (e : BackoffEvaluator S) (log : list Attempt) :
  NewBackoffEvaluator (Some inner) b m = Some e0 -> maxDelay e0 <= int64_max ->
  Z.of_nat (length calls) <= int64_max ->
  (forall env rq, (env, rq) ∈ calls -> 0 <= env_clock env 1) ->
  run calls e0 [] = (e, log) ->
  spaced (baseDelay e0) (maxDelay e0) log /\
  (env_ctx env = None ->
   (forall t, (at_failed <$> head log) = Some (Some t) -> t + maxDelay e0 <= env_clock env 0) ->
   attempted env e = true).
Proof.
  intros Hnew Hmax Hlen Hclk Hr. unfold NewBackoffEvaluator in Hnew.
  destruct (_ || _) eqn:Hb in Hnew; [discriminate|]. injection Hnew as <-.
  cbn [baseDelay maxDelay] in *. set (base := if b =? 0 then _ else _) in *.
  set (max := if m =? 0 then _ else _) in *.
  apply orb_false_iff in Hb as [[Hb1 Hb2]%orb_false_iff Hb3]. bool_prop.
  pose proof (backoff_run base max calls (mkBackoffEvaluator inner base max 0 0) []) as Hrun.
  rewrite Hr in Hrun. destruct Hrun as (Hb & Hm & Hf & Hsp & Hlast);
    [lia|lia|cbn; lia|done|by split_and!|].
  split; [done|]. intros Hctx Ht. unfold attempted, allowAttempt.
  rewrite bool_decide_true by done. cbn [andb]. time_unfold.
  destruct log as [|[? [t|]] log']; [by rewrite Hlast| |by rewrite Hlast].
  specialize (Ht t eq_refl). apply orb_true_iff. right.
  apply negb_true_iff, Z.ltb_ge. lia.
Qed.

Definition failingEnv (t : Z) : Env := mkEnv None (fun _ => t).

(** An inner evaluator that always fails, called every 300 ms. *)
Definition downEvaluator : Evaluator unit := fun _ s _ => (s, Err (ErrExternal "down")).

Lemma backoff_spacing_witness :
  let calls := map (fun i => (failingEnv (Z.of_nat i * 300 * millisecond),
                              sampleRequest "" [AccessModeRead] [])) (seq 1 12) in
  let e0 := mkBackoffEvaluator tt (500 * millisecond) (2 * second) 0 0 in
  exists e log, run (H := downEvaluator) calls e0 [] = (e, log) /\
    length log = 3%nat /\ spaced (500 * millisecond) (2 * second) log.
Proof.
  intros calls e0. eexists _, _. split; [vm_compute; reflexivity|]. split; [reflexivity|].
  eapply (backoff_spacing (H := downEvaluator) tt (500 * millisecond) (2 * second) e0 calls
            (failingEnv 0)); [reflexivity|vm_compute; discriminate|vm_compute; discriminate| |].
  - intros env rq Hin. apply list_elem_of_fmap in Hin as (i & [= -> ->] & Hi).
    cbn [failingEnv env_clock]. unfold millisecond. lia.
  - vm_compute. reflexivity.
Defined.
