(* ===== verification/DecisionCache.v ===== *)
(** * The decision cache

    [internal/authz/cache/cache.go]: configuration checks, the hashed key, [Get] with
    lazy expiry, [Put] with its poisoning checks, TTL choice and eviction, the three
    invalidations and [Clear].  [range] over the entries visits them in an order given by
    an oracle; [time.Now] readings are arguments. *)

From S2P Require Import Prelude GoStrings GoHash.

Local Open Scope Z_scope.

Module Cache.

(** ** Data *)

Record Decision := mkDecision {
  Allow : bool;
  Reason : string;
  Stale : bool;
  EvaluatorVersion : string;
  PolicyVersion : string;
  ParserVersion : string;
  CreatedAt : Z;
  ExpiresAt : Z
}.

Record CacheKey := mkCacheKey {
  k_Agent : string;
  k_DID : string;
  k_Client : string;
  k_Method : string;
  k_Mode : string;
  k_Resource : string;
  k_PolicyVersion : string;
  k_ParserVersion : string;
  k_EvaluatorVersion : string
}.

(** [CacheKey.String]: the hash of the components, separated by bars. *)
Definition key_preimage (k : CacheKey) : string :=
  Join [k_Agent k; k_DID k; k_Client k; k_Method k; k_Mode k; k_Resource k;
        k_PolicyVersion k; k_ParserVersion k; k_EvaluatorVersion k] "|".
Definition key_String (k : CacheKey) : string := sha256Hex (key_preimage k).

Inductive cache_error :=
| ErrCacheKeyRequired
| ErrDecisionRequired
| ErrInvalidDecision (what : string)
| ErrCachePoisoning.

Record Config := mkConfig {
  TTL : Z;
  MaxTTL : Z;
  StaleTTL : Z;
  MaxSize : Z;
  EnableNegativeCache : bool;
  NegativeCacheTTL : Z
}.

Definition DefaultConfig : Config :=
  mkConfig (5 * minute) (1 * hour) (30 * second) 10000 false (1 * minute).

Definition Validate (cfg : Config) : result string unit :=
  fail! "TTL must be positive" when TTL cfg <=? 0 in
  fail! "MaxTTL must be positive" when MaxTTL cfg <=? 0 in
  fail! "StaleTTL must be non-negative" when StaleTTL cfg <? 0 in
  fail! "StaleTTL cannot exceed TTL" when TTL cfg <? StaleTTL cfg in
  fail! "MaxSize must be positive" when MaxSize cfg <=? 0 in
  fail! "NegativeCacheTTL must be positive when negative cache is enabled"
    when EnableNegativeCache cfg && (NegativeCacheTTL cfg <=? 0) in
  fail! "NegativeCacheTTL cannot exceed TTL"
    when EnableNegativeCache cfg && (TTL cfg <? NegativeCacheTTL cfg) in
  Ok tt.

Record MetricsSnapshot := mkMetrics {
  Hits : Z;
  Misses : Z;
  StaleHits : Z;
  Puts : Z;
  PutErrors : Z;
  Invalidations : Z;
  Evictions : Z;
  CurrentSize : Z
}.

Definition zeroMetrics : MetricsSnapshot := mkMetrics 0 0 0 0 0 0 0 0.

Record cacheEntry := mkEntry {
  ce_key : CacheKey;
  ce_decision : Decision;
  ce_expiresAt : Z
}.

Record MemoryCache := mkCache {
  entries : gmap string cacheEntry;
  config : Config;
  metrics : MetricsSnapshot
}.

Definition NewMemoryCache (cfg : Config) : result string MemoryCache :=
  let! _ := Validate cfg in Ok (mkCache ∅ cfg zeroMetrics).

Definition with_entries (c : MemoryCache) (es : gmap string cacheEntry) : MemoryCache :=
  mkCache es (config c) (metrics c).
Definition upd_metrics (f : MetricsSnapshot -> MetricsSnapshot) (c : MemoryCache) : MemoryCache :=
  mkCache (entries c) (config c) (f (metrics c)).

Definition incHits (m : MetricsSnapshot) : MetricsSnapshot :=
  mkMetrics (wrap64 (Hits m + 1)) (Misses m) (StaleHits m) (Puts m) (PutErrors m)
    (Invalidations m) (Evictions m) (CurrentSize m).
Definition incMisses (m : MetricsSnapshot) : MetricsSnapshot :=
  mkMetrics (Hits m) (wrap64 (Misses m + 1)) (StaleHits m) (Puts m) (PutErrors m)
    (Invalidations m) (Evictions m) (CurrentSize m).
Definition incStaleHits (m : MetricsSnapshot) : MetricsSnapshot :=
  mkMetrics (Hits m) (Misses m) (wrap64 (StaleHits m + 1)) (Puts m) (PutErrors m)
    (Invalidations m) (Evictions m) (CurrentSize m).
Definition incPuts (m : MetricsSnapshot) : MetricsSnapshot :=
  mkMetrics (Hits m) (Misses m) (StaleHits m) (wrap64 (Puts m + 1)) (PutErrors m)
    (Invalidations m) (Evictions m) (CurrentSize m).
Definition incPutErrors (m : MetricsSnapshot) : MetricsSnapshot :=
  mkMetrics (Hits m) (Misses m) (StaleHits m) (Puts m) (wrap64 (PutErrors m + 1))
    (Invalidations m) (Evictions m) (CurrentSize m).
Definition addInvalidations (n : Z) (m : MetricsSnapshot) : MetricsSnapshot :=
  mkMetrics (Hits m) (Misses m) (StaleHits m) (Puts m) (PutErrors m)
    (wrap64 (Invalidations m + n)) (Evictions m) (CurrentSize m).
Definition incEvictions (m : MetricsSnapshot) : MetricsSnapshot :=
  mkMetrics (Hits m) (Misses m) (StaleHits m) (Puts m) (PutErrors m)
    (Invalidations m) (wrap64 (Evictions m + 1)) (CurrentSize m).

(** ** Operations *)

(** [Get]; a [None] key is the nil pointer.  The entry's staleness only chooses the
    counter: the copy returned carries the [Stale] flag the decision was stored with. *)
Definition Get (now : Z) (c : MemoryCache) (key : option CacheKey)
  : MemoryCache * option Decision :=
  match key with
  | None => (upd_metrics incMisses c, None)
  | Some k =>
      let keyStr := key_String k in
      match entries c !! keyStr with
      | None => (upd_metrics incMisses c, None)
      | Some entry =>
          if time_After now (ce_expiresAt entry) then
            (upd_metrics incMisses (with_entries c (delete keyStr (entries c))), None)
          else
            let stale := time_After now (ExpiresAt (ce_decision entry)) ||
                         time_After now (ce_expiresAt entry - StaleTTL (config c)) in
            (upd_metrics (if stale then incStaleHits else incHits) c, Some (ce_decision entry))
      end
  end.

Definition validateDecision (d : Decision) : result string unit :=
  fail! "decision must have a creation timestamp" when time_IsZero (CreatedAt d) in
  fail! "expiration cannot be before creation"
    when negb (time_IsZero (ExpiresAt d)) && time_Before (ExpiresAt d) (CreatedAt d) in
  fail! "decision reason is too long" when 1024 <? len (Reason d) in
  Ok tt.

Definition isCachePoisoningAttempt (k : CacheKey) (d : Decision) : bool :=
  if String.eqb (k_Agent k) "" && String.eqb (k_DID k) "" && String.eqb (k_Client k) "" then true
  else if String.eqb (k_Resource k) "" then true
  else if String.eqb (k_Method k) "" then true
  else if 24 * hour <? time_Sub (ExpiresAt d) (CreatedAt d) then true
  else false.

(** One scan of [evictOldest]: the key with the earliest expiry, the first visited of
    those that share it; [""] when there is none. *)
Fixpoint findOldest (ks : list string) (m : gmap string cacheEntry) (best : option (string * Z))
  : string :=
  match ks with
  | [] => match best with Some (k, _) => k | None => "" end
  | k :: ks' =>
      match m !! k with
      | None => findOldest ks' m best
      | Some e =>
          let better := match best with
                        | None => true
                        | Some (_, t) => time_Before (ce_expiresAt e) t
                        end in
          findOldest ks' m (if better then Some (k, ce_expiresAt e) else best)
      end
  end.

(** The loop of [evictOldest].  Each round removes an entry, so as many rounds as there
    are entries are enough; a round that found no key would repeat for ever, which is the
    [None] result. *)
Fixpoint evictLoop (order : gmap string cacheEntry -> list string) (fuel : nat) (max : Z)
    (m : gmap string cacheEntry) : option (gmap string cacheEntry) :=
  if Z.of_nat (size m) <? max then Some m
  else match fuel with
       | O => None
       | S fuel' =>
           let oldestKey := findOldest (order m) m None in
           let m' := if negb (String.eqb oldestKey "") then delete oldestKey m else m in
           evictLoop order fuel' max m'
       end.

Definition evictOldest (order : gmap string cacheEntry -> list string) (c : MemoryCache)
  : option MemoryCache :=
  match evictLoop order (size (entries c)) (MaxSize (config c)) (entries c) with
  | Some m => Some (with_entries c m)
  | None => None
  end.

(** The TTL a decision is stored with; [None] when it is not stored. *)
Definition ttlFor (cfg : Config) (d : Decision) : option Z :=
  if negb (Allow d) && negb (EnableNegativeCache cfg) then None
  else
    let ttl := if negb (Allow d) then NegativeCacheTTL cfg else TTL cfg in
    Some (if MaxTTL cfg <? ttl then MaxTTL cfg else ttl).

Definition set_ExpiresAt (d : Decision) (t : Z) : Decision :=
  mkDecision (Allow d) (Reason d) (Stale d) (EvaluatorVersion d) (PolicyVersion d)
    (ParserVersion d) (CreatedAt d) t.

(** [Put].  The outer option is [None] when the eviction loop does not end; the decision's
    [ExpiresAt] is overwritten in place, and the entry shares the caller's decision. *)
Definition Put (order : gmap string cacheEntry -> list string) (now : Z) (c : MemoryCache)
    (key : option CacheKey) (decision : option Decision)
  : option (MemoryCache * result cache_error unit) :=
  match key, decision with
  | None, _ => Some (upd_metrics incPutErrors c, Err ErrCacheKeyRequired)
  | _, None => Some (upd_metrics incPutErrors c, Err ErrDecisionRequired)
  | Some k, Some d =>
      match validateDecision d with
      | Err e => Some (upd_metrics incPutErrors c, Err (ErrInvalidDecision e))
      | Ok _ =>
          if isCachePoisoningAttempt k d then
            Some (upd_metrics incPutErrors c, Err ErrCachePoisoning)
          else
            match ttlFor (config c) d with
            | None => Some (c, Ok tt)
            | Some ttl =>
                let expiresAt := now + ttl in
                let entry := mkEntry k (set_ExpiresAt d expiresAt) expiresAt in
                let evicted :=
                  if MaxSize (config c) <=? Z.of_nat (size (entries c))
                  then option_map (upd_metrics incEvictions) (evictOldest order c)
                  else Some c in
                match evicted with
                | None => None
                | Some c1 =>
                    Some (upd_metrics incPuts
                            (with_entries c1 (<[key_String k := entry]> (entries c1))), Ok tt)
                end
            end
      end
  end.

(** The three invalidations delete, in any order, the entries whose key has a field. *)
Definition invalidateWhere (p : CacheKey -> bool) (c : MemoryCache) : MemoryCache :=
  let hit := fun kv : string * cacheEntry => p (ce_key kv.2) = true in
  let count := size (filter hit (entries c)) in
  upd_metrics (addInvalidations (Z.of_nat count))
    (with_entries c (filter (fun kv : string * cacheEntry => p (ce_key kv.2) = false) (entries c))).

Definition InvalidatePolicy (c : MemoryCache) (policyVersion : string) : MemoryCache :=
  invalidateWhere (fun k => String.eqb (k_PolicyVersion k) policyVersion) c.
Definition InvalidateResource (c : MemoryCache) (resource : string) : MemoryCache :=
  invalidateWhere (fun k => String.eqb (k_Resource k) resource) c.
Definition InvalidateAgent (c : MemoryCache) (agent : string) : MemoryCache :=
  invalidateWhere (fun k => String.eqb (k_Agent k) agent) c.

Definition Clear (c : MemoryCache) : MemoryCache := with_entries c ∅.

Definition Metrics (c : MemoryCache) : MetricsSnapshot :=
  let m := metrics c in
  mkMetrics (Hits m) (Misses m) (StaleHits m) (Puts m) (PutErrors m) (Invalidations m)
    (Evictions m) (Z.of_nat (size (entries c))).

(** ** [StaleDecisionChecker] *)

Definition IsStale (cfg : Config) (now : Z) (d : option Decision) : bool :=
  match d with
  | None => true
  | Some d => time_After now (ExpiresAt d) || time_After now (CreatedAt d + StaleTTL cfg)
  end.

Definition CanUseStale (cfg : Config) (now : Z) (d : option Decision) : bool :=
  match d with
  | None => false
  | Some d => time_Before now (ExpiresAt d + StaleTTL cfg)
  end.

(** ** Histories

    A history is the sequence of calls made on a fresh cache. *)
Inductive cache_op :=
| OGet (now : Z) (key : option CacheKey)
| OPut (order : gmap string cacheEntry -> list string) (now : Z)
    (key : option CacheKey) (decision : option Decision)
| OInvalidatePolicy (version : string)
| OInvalidateResource (resource : string)
| OInvalidateAgent (agent : string)
| OClear.

Definition step (c : MemoryCache) (op : cache_op) : option MemoryCache :=
  match op with
  | OGet now k => Some (Get now c k).1
  | OPut order now k d => option_map fst (Put order now c k d)
  | OInvalidatePolicy v => Some (InvalidatePolicy c v)
  | OInvalidateResource r => Some (InvalidateResource c r)
  | OInvalidateAgent a => Some (InvalidateAgent c a)
  | OClear => Some (Clear c)
  end.

Definition runFrom (c : MemoryCache) (ops : list cache_op) : option MemoryCache :=
  foldl (fun acc op => match acc with Some c => step c op | None => None end) (Some c) ops.

(** Every [range] visits each entry once. *)
Definition orders_ok (ops : list cache_op) : Prop :=
  forall order now k d, OPut order now k d ∈ ops -> forall m, iter_order (order m) m.

(** When a [Put] stores its decision, and for how long. *)
Definition stores (cfg : Config) (k : CacheKey) (d : Decision) : option Z :=
  if is_ok (validateDecision d) && negb (isCachePoisoningAttempt k d) then ttlFor cfg d else None.

(** The calls after which an entry under [k] is no longer the current one. *)
Definition drops (cfg : Config) (k : CacheKey) (op : cache_op) : Prop :=
  match op with
  | OGet _ _ => False
  | OPut _ _ (Some k') (Some d') => key_String k' = key_String k /\ stores cfg k' d' <> None
  | OPut _ _ _ _ => False
  | OInvalidatePolicy v => k_PolicyVersion k = v
  | OInvalidateResource r => k_Resource k = r
  | OInvalidateAgent a => k_Agent k = a
  | OClear => True
  end.

(** An entry is justified by the history: it was stored by a [Put] of the history, under
    its key, with the TTL of the configuration, and nothing dropped it since. *)
Definition justified (cfg : Config) (ops : list cache_op) (keyStr : string) (e : cacheEntry)
  : Prop :=
  exists pre post order now d ttl,
    ops = pre ++ OPut order now (Some (ce_key e)) (Some d) :: post /\
    keyStr = key_String (ce_key e) /\
    stores cfg (ce_key e) d = Some ttl /\
    ce_decision e = set_ExpiresAt d (now + ttl) /\ ce_expiresAt e = now + ttl /\
    Forall (fun op => ~ drops cfg (ce_key e) op) post.

(** ** Lemmas *)

Lemma key_String_nonempty (k : CacheKey) : key_String k <> "".
Proof.
  intros H. pose proof (sha256Hex_length (key_preimage k)) as Hl.
  unfold key_String in H. rewrite H in Hl. discriminate Hl.
Qed.

Lemma findOldest_spec (m : gmap string cacheEntry) (ks : list string) (best : option (string * Z)) :
  (forall k, k ∈ ks -> is_Some (m !! k)) ->
  (forall k t, best = Some (k, t) -> exists e, m !! k = Some e /\ ce_expiresAt e = t) ->
  (best <> None \/ ks <> []) ->
  exists e, m !! findOldest ks m best = Some e /\
    (forall k t, best = Some (k, t) -> ce_expiresAt e <= t) /\
    (forall k e', k ∈ ks -> m !! k = Some e' -> ce_expiresAt e <= ce_expiresAt e').
Proof.
  revert best. induction ks as [|k ks IH]; intros best Hks Hbest Hne; cbn [findOldest].
  { destruct best as [[k t]|]; [|naive_solver].
    destruct (Hbest k t eq_refl) as (e & He & Ht). exists e. split; [done|].
    split; [intros ?? [= <- <-]; lia|intros ?? H; by apply elem_of_nil in H]. }
  destruct (Hks k) as [ek Hk]; [apply elem_of_cons; by left|]. rewrite Hk.
  set (better := match best with None => true | Some (_, t) => _ end).
  destruct (IH (if better then Some (k, ce_expiresAt ek) else best)) as (e & He & Hb & Hall).
  { intros k' Hk'. apply Hks, elem_of_cons. by right. }
  { intros k' t'. destruct better; [intros [= <- <-]; eauto|apply Hbest]. }
  { left. destruct better eqn:Eb; [done|]. destruct best; [done|discriminate Eb]. }
  exists e. split; [done|]. unfold better in *. time_unfold.
  assert (ce_expiresAt e <= ce_expiresAt ek /\ forall k t, best = Some (k, t) -> ce_expiresAt e <= t)
    as [Hek Hbt].
  { destruct best as [[k0 t0]|]; [|split; [by eapply Hb|done]].
    destruct (ce_expiresAt ek <? t0) eqn:E; bool_prop; specialize (Hb _ _ eq_refl);
      (split; [lia|intros ?? [= <- <-]; lia]). }
  split; [done|]. intros k' e' [->|Hk']%elem_of_cons Hm'; [congruence|eauto].
Qed.

(** What one round of the eviction loop removes. *)
Lemma findOldest_order (m : gmap string cacheEntry) (ks : list string) :
  iter_order ks m -> m <> ∅ ->
  exists e, m !! findOldest ks m None = Some e /\
    forall k e', m !! k = Some e' -> ce_expiresAt e <= ce_expiresAt e'.
Proof.
  intros [Hnd Hks] Hne. destruct (findOldest_spec m ks None) as (e & He & _ & Hall).
  - intros k Hk. by apply Hks.
  - done.
  - right. intros ->. apply Hne, map_empty. intros k. destruct (m !! k) eqn:E; [|done].
    exfalso. apply (not_elem_of_nil k), Hks. eauto.
  - exists e. split; [done|]. intros k e' Hk. apply (Hall k e'); [|done]. apply Hks. eauto.
Qed.

Definition keys_ok (m : gmap string cacheEntry) : Prop :=
  forall k e, m !! k = Some e -> k = key_String (ce_key e).

Lemma evictLoop_spec order (fuel : nat) (max : Z) (m : gmap string cacheEntry) :
  (forall m, iter_order (order m) m) -> keys_ok m -> 0 < max -> (size m <= fuel)%nat ->
  exists m', evictLoop order fuel max m = Some m' /\ m' ⊆ m /\ Z.of_nat (size m') < max.
Proof.
  intros Hord. revert m. induction fuel as [|fuel IH]; intros m Hk Hmax Hf; cbn [evictLoop];
    (destruct (Z.of_nat (size m) <? max) eqn:E; bool_prop; [by exists m|]); [lia|].
  destruct (findOldest_order m (order m)) as (e & He & _); [done|..].
  { intros ->. rewrite map_size_empty in E. lia. }
  assert (findOldest (order m) m None <> "") as Hne.
  { rewrite (Hk _ _ He). apply key_String_nonempty. }
  apply String.eqb_neq in Hne as ->. cbn [negb].
  destruct (IH (delete (findOldest (order m) m None) m)) as (m' & Hm' & Hsub & Hsz).
  - intros k e' [_ Hke]%lookup_delete_Some. by apply Hk.
  - done.
  - rewrite map_size_delete_Some by eauto. lia.
  - exists m'. split_and!; [done| |done]. etrans; [done|]. apply delete_subseteq.
Qed.

Lemma evictOldest_spec order (c : MemoryCache) :
  (forall m, iter_order (order m) m) -> keys_ok (entries c) -> 0 < MaxSize (config c) ->
  exists m', evictOldest order c = Some (with_entries c m') /\ m' ⊆ entries c /\
             Z.of_nat (size m') < MaxSize (config c).
Proof.
  intros Hord Hk Hmax. unfold evictOldest.
  destruct (evictLoop_spec order (size (entries c)) (MaxSize (config c)) (entries c))
    as (m' & -> & Hsub & Hsz); eauto.
Qed.

Lemma justified_keys cfg ops (m : gmap string cacheEntry) :
  (forall k e, m !! k = Some e -> justified cfg ops k e) -> keys_ok m.
Proof. intros H k e Hk. by destruct (H k e Hk) as (? & ? & ? & ? & ? & ? & ? & ? & _). Qed.

Lemma justified_snoc cfg ops op keyStr e :
  justified cfg ops keyStr e -> ~ drops cfg (ce_key e) op -> justified cfg (ops ++ [op]) keyStr e.
Proof.
  intros (pre & post & order & now & d & ttl & -> & Hk & Hs & Hd & He & Hpost) Hop.
  exists pre, (post ++ [op]), order, now, d, ttl. split_and!; try done.
  - by rewrite <- app_assoc.
  - apply Forall_app. by split; [|constructor].
Qed.

(** What a [Put] does to the entries. *)
Lemma Put_spec order now (c : MemoryCache) (k : option CacheKey) (d : option Decision) :
  (forall m, iter_order (order m) m) -> keys_ok (entries c) -> 0 < MaxSize (config c) ->
  exists c' r, Put order now c k d = Some (c', r) /\ config c' = config c /\
    ((entries c' = entries c /\
      forall k0 d0, k = Some k0 -> d = Some d0 -> stores (config c) k0 d0 = None) \/
     (exists k0 d0 ttl m, k = Some k0 /\ d = Some d0 /\ stores (config c) k0 d0 = Some ttl /\
        m ⊆ entries c /\
        (Z.of_nat (size m) < MaxSize (config c)) /\
        entries c' = <[key_String k0 := mkEntry k0 (set_ExpiresAt d0 (now + ttl)) (now + ttl)]> m)).
Proof.
  intros Hord Hk Hmax. unfold Put, stores. destruct k as [k|]; [|naive_solver].
  destruct d as [d|]; [|naive_solver].
  destruct (validateDecision d) as [u|e] eqn:Hv; [|eexists _, _; split_and!; [done|done|]; left;
    split; [done|]; intros ?? [= <-] [= <-]; by rewrite Hv].
  destruct (isCachePoisoningAttempt k d) eqn:Hp; [eexists _, _; split_and!; [done|done|]; left;
    split; [done|]; intros ?? [= <-] [= <-]; by rewrite Hv, Hp|].
  destruct (ttlFor (config c) d) as [ttl|] eqn:Ht; [|eexists _, _; split_and!; [done|done|]; left;
    split; [done|]; intros ?? [= <-] [= <-]; by rewrite Hv, Hp].
  assert (exists m', (if MaxSize (config c) <=? Z.of_nat (size (entries c))
     then option_map (upd_metrics incEvictions) (evictOldest order c) else Some c) =
     Some (mkCache m' (config c) (if MaxSize (config c) <=? Z.of_nat (size (entries c))
             then incEvictions (metrics c) else metrics c)) /\
     m' ⊆ entries c /\ Z.of_nat (size m') < MaxSize (config c)) as (m' & -> & Hsub & Hsz).
  { destruct (MaxSize (config c) <=? _) eqn:E; bool_prop.
    - destruct (evictOldest_spec order c Hord Hk Hmax) as (m' & -> & Hsub & Hsz). by exists m'.
    - exists (entries c). by destruct c. }
  eexists _, _. split; [reflexivity|]. split; [done|]. right.
  exists k, d, ttl, m'. split_and!; try done. by rewrite Hv, Hp.
Qed.

Definition cache_inv (cfg : Config) (ops : list cache_op) (c : MemoryCache) : Prop :=
  config c = cfg /\ Z.of_nat (size (entries c)) <= MaxSize cfg /\
  forall k e, entries c !! k = Some e -> justified cfg ops k e.

(** Calls that only remove entries. *)
Lemma cache_inv_shrink cfg ops op (c c' : MemoryCache) :
  cache_inv cfg ops c -> config c' = config c -> entries c' ⊆ entries c ->
  (forall k e, entries c' !! k = Some e -> ~ drops cfg (ce_key e) op) ->
  cache_inv cfg (ops ++ [op]) c'.
Proof.
  intros (Hcfg & Hsz & Hj) Hc Hsub Hd. split_and!; [congruence| |].
  - pose proof (map_subseteq_size _ _ Hsub). lia.
  - intros k e He. apply justified_snoc; [apply Hj; by eapply lookup_weaken|eauto].
Qed.

Lemma invalidate_inv cfg ops op (p : CacheKey -> bool) (c : MemoryCache) :
  cache_inv cfg ops c -> (forall k, drops cfg k op -> p k = true) ->
  cache_inv cfg (ops ++ [op]) (invalidateWhere p c).
Proof.
  intros Hinv Hp. eapply cache_inv_shrink; [exact Hinv|done| |].
  - apply map_filter_subseteq.
  - intros k e [_ He]%map_lookup_filter_Some Hd. apply Hp in Hd. cbn in He. congruence.
Qed.

Lemma stores_none_put cfg ops order now k d (c c' : MemoryCache) :
  cache_inv cfg ops c -> config c' = config c -> entries c' = entries c ->
  (forall k0 d0, k = Some k0 -> d = Some d0 -> stores (config c) k0 d0 = None) ->
  cache_inv cfg (ops ++ [OPut order now k d]) c'.
Proof.
  intros Hinv Hc He Hno. pose proof Hinv as (Hcfg & _). eapply cache_inv_shrink; [exact Hinv|done|by rewrite He|].
  intros k1 e1 _ Hd. destruct k as [k0|], d as [d0|]; try done.
  destruct Hd as [_ Hs]. apply Hs. rewrite <- Hcfg. by apply Hno.
Qed.

Lemma step_inv cfg ops op (c : MemoryCache) :
  0 < MaxSize cfg -> (forall order now k d, op = OPut order now k d -> forall m, iter_order (order m) m) ->
  cache_inv cfg ops c -> exists c', step c op = Some c' /\ cache_inv cfg (ops ++ [op]) c'.
Proof.
  intros Hmax Hord Hinv. pose proof Hinv as (Hcfg & Hsz & Hj).
  destruct op as [now k|order now k d|v|r|a|]; cbn [step];
    try (eexists; split; [reflexivity|]; apply invalidate_inv; [done|];
         intros k <-; apply String.eqb_refl).
  - eexists. split; [reflexivity|].
    apply (cache_inv_shrink cfg ops _ c); [done| | |intros ??? []]; unfold Get;
      destruct k as [k|]; try done; destruct (entries c !! key_String k); try done;
      break_if; try done. apply delete_subseteq.
  - destruct (Put_spec order now c k d) as (c' & r & -> & Hc' & Hcase);
      [by eapply Hord|by eapply justified_keys|by rewrite Hcfg|].
    exists c'. split; [done|].
    destruct Hcase as [[He Hno]|(k0 & d0 & ttl & m & -> & -> & Hs & Hsub & Hm & He)];
      [by eapply stores_none_put|].
    rewrite Hcfg in *. split_and!; [done| |].
    + rewrite He, map_size_insert. destruct (m !! key_String k0); unfold id; lia.
    + intros k e. rewrite He. intros [[<- <-]|[Hne Hke]]%lookup_insert_Some.
      * exists ops, [], order, now, d0, ttl. by split_and!.
      * apply justified_snoc; [apply Hj; by eapply lookup_weaken|].
        intros [Heq _]. apply Hne. destruct (Hj k e) as (? & ? & ? & ? & ? & ? & _ & -> & _);
          [by eapply lookup_weaken|done].
  - eexists. split; [reflexivity|]. split_and!; [done|cbn [entries Clear with_entries]; rewrite map_size_empty; lia|].
    intros k e Hk. cbn [entries Clear with_entries] in Hk. by rewrite lookup_empty in Hk.
Qed.

Lemma runFrom_snoc (c : MemoryCache) (ops : list cache_op) (op : cache_op) :
  runFrom c (ops ++ [op]) = match runFrom c ops with Some c => step c op | None => None end.
Proof. unfold runFrom. by rewrite foldl_app. Qed.

Lemma Validate_MaxSize (cfg : Config) : Validate cfg = Ok tt -> 0 < MaxSize cfg.
Proof. unfold Validate. repeat (break_if; [discriminate|]). bool_prop. lia. Qed.

Lemma run_inv (cfg : Config) (c0 : MemoryCache) (ops : list cache_op) :
  NewMemoryCache cfg = Ok c0 -> orders_ok ops ->
  exists c, runFrom c0 ops = Some c /\ cache_inv cfg ops c.
Proof.
  unfold NewMemoryCache. destruct (Validate cfg) as [[]|] eqn:Hv; [|discriminate]. intros [= <-].
  apply Validate_MaxSize in Hv as Hmax.
  induction ops as [|op ops IH] using rev_ind; intros Hord.
  { eexists. split; [reflexivity|]. split_and!; [done|cbn [entries Clear with_entries]; rewrite map_size_empty; lia|].
    intros k e Hk. cbn [entries Clear with_entries] in Hk. by rewrite lookup_empty in Hk. }
  destruct IH as (c & Hc & Hinv).
  { intros order now k d Hin. eapply Hord, elem_of_app. left. exact Hin. }
  rewrite runFrom_snoc, Hc. apply step_inv; [done| |done].
  intros order now k d ->. eapply Hord, elem_of_app. right. by apply list_elem_of_singleton.
Qed.

(** The TTL never exceeds the maximum, and a denial has one only with the negative cache. *)
Lemma ttlFor_bounds (cfg : Config) (d : Decision) (ttl : Z) :
  ttlFor cfg d = Some ttl ->
  ttl <= MaxTTL cfg /\ (Allow d = true \/ EnableNegativeCache cfg = true).
Proof.
  unfold ttlFor. destruct (Allow d), (EnableNegativeCache cfg); cbn; intros [= <-];
    (split; [|auto]); break_if; bool_prop; lia.
Qed.

(** An accepted [Put] with room left. *)
Lemma Put_room order now (c : MemoryCache) (k : CacheKey) (d : Decision) (ttl : Z) :
  stores (config c) k d = Some ttl -> Z.of_nat (size (entries c)) < MaxSize (config c) ->
  Put order now c (Some k) (Some d) =
  Some (upd_metrics incPuts (with_entries c
    (<[key_String k := mkEntry k (set_ExpiresAt d (now + ttl)) (now + ttl)]> (entries c))), Ok tt).
Proof.
  intros Hs Hsz. unfold stores in Hs. unfold Put.
  destruct (validateDecision d); [|discriminate Hs].
  destruct (isCachePoisoningAttempt k d); [discriminate Hs|]. cbn [is_ok negb andb] in Hs. rewrite Hs.
  destruct (_ <=? _) eqn:E; bool_prop; [lia|done].
Qed.

Lemma Get_fresh now (c : MemoryCache) (k : CacheKey) (e : cacheEntry) :
  entries c !! key_String k = Some e -> now <= ce_expiresAt e ->
  exists c', Get now c (Some k) = (c', Some (ce_decision e)).
Proof.
  intros He Ht. unfold Get. rewrite He. time_unfold.
  destruct (_ <? now) eqn:E; bool_prop; [lia|]. eauto.
Qed.

(** ** Properties *)

(** C23: A cache hit is justified by the history.  After any sequence of calls on a fresh
    cache, in any map-iteration order, no call diverges, the size bound holds, and every
    decision [Get] returns was stored by an earlier, accepted [Put] under a key with the
    same hash, at most [MaxTTL] before the time of the call; it is a denial only when the
    negative cache is enabled; and since then no [Put] replaced it and no [Clear], policy,
    resource or agent invalidation covering its key was made. *)
Theorem cache_hit_justified (cfg : Config) (c0 : MemoryCache) (ops : list cache_op) :
  NewMemoryCache cfg = Ok c0 -> orders_ok ops ->
  exists c, runFrom c0 ops = Some c /\ Z.of_nat (size (entries c)) <= MaxSize cfg /\
    forall now k c' d, Get now c (Some k) = (c', Some d) ->
      exists pre post order t k0 d0 ttl,
        ops = pre ++ OPut order t (Some k0) (Some d0) :: post /\
        key_String k = key_String k0 /\ stores cfg k0 d0 = Some ttl /\
        d = set_ExpiresAt d0 (t + ttl) /\ now <= t + ttl /\ ttl <= MaxTTL cfg /\
        (Allow d = true \/ EnableNegativeCache cfg = true) /\
        Forall (fun op => ~ drops cfg k0 op) post.
Proof.
  intros Hnew Hord. destruct (run_inv cfg c0 ops Hnew Hord) as (c & Hc & Hcfg & Hsz & Hj).
  exists c. split_and!; [done|done|]. intros now k c' d. unfold Get.
  destruct (entries c !! key_String k) as [e|] eqn:He; [|discriminate].
  time_unfold. destruct (ce_expiresAt e <? now) eqn:E; [discriminate|]. intros [= _ <-]. bool_prop.
  destruct (Hj _ _ He) as (pre & post & order & t & d0 & ttl & -> & Hk & Hs & Hd & Hx & Hpost).
  exists pre, post, order, t, (ce_key e), d0, ttl.
  assert (ttlFor cfg d0 = Some ttl) as [Hm Hn]%ttlFor_bounds.
  { unfold stores in Hs. by destruct (is_ok _ && _). }
  rewrite Hd. split_and!; try done. lia.
Qed.

Definition sampleKey : CacheKey :=
  mkCacheKey "https://alice.example/#me" "" "" "GET" "read" "https://pod.example/notes/1" "v1" "" "".
Definition sampleDecision : Decision :=
  mkDecision true "policy_allow" false "authz.v1" "v1" "" (time_Unix 1700000000) 0.
Definition someOrder (m : gmap string cacheEntry) : list string := (map_to_list m).*1.

Lemma someOrder_ok (m : gmap string cacheEntry) : iter_order (someOrder m) m.
Proof.
  split; [apply NoDup_fst_map_to_list|]. intros k. unfold someOrder. rewrite list_elem_of_fmap.
  setoid_rewrite elem_of_map_to_list'. split.
  - intros ([k' e] & -> & He). eauto.
  - intros [e He]. by exists (k, e).
Qed.

Lemma cache_hit_justified_witness :
  let ops := [OPut someOrder (time_Unix 1700000000) (Some sampleKey) (Some sampleDecision);
              OInvalidateAgent "https://bob.example/#me"] in
  (exists c, runFrom (mkCache ∅ DefaultConfig zeroMetrics) ops = Some c /\
     Z.of_nat (size (entries c)) <= 10000) /\
  option_map (fun c => (Get (time_Unix 1700000060) c (Some sampleKey)).2)
    (runFrom (mkCache ∅ DefaultConfig zeroMetrics) ops) =
  Some (Some (set_ExpiresAt sampleDecision (time_Unix 1700000300))).
Proof.
  intros ops. split; [|vm_compute; reflexivity].
  destruct (cache_hit_justified DefaultConfig (mkCache ∅ DefaultConfig zeroMetrics) ops)
    as (c & Hc & Hsz & _).
  - reflexivity.
  - intros order now k d Hin m. repeat apply elem_of_cons in Hin as [Hin|Hin]; try discriminate.
    + injection Hin as -> _ _ _. apply someOrder_ok.
    + by apply elem_of_nil in Hin.
  - exists c. split; [exact Hc|exact Hsz].
Defined.

Lemma evictLoop_full order (fuel : nat) (max : Z) (m : gmap string cacheEntry) :
  (forall m, iter_order (order m) m) -> keys_ok m -> 0 < max -> Z.of_nat (size m) = max ->
  fuel = size m ->
  exists k e, m !! k = Some e /\ evictLoop order fuel max m = Some (delete k m) /\
    forall k' e', m !! k' = Some e' -> ce_expiresAt e <= ce_expiresAt e'.
Proof.
  intros Hord Hk Hmax Hsz ->. destruct (findOldest_order m (order m)) as (e & He & Hall); [done|..].
  { intros ->. rewrite map_size_empty in Hsz. lia. }
  exists (findOldest (order m) m None), e. split_and!; [done| |done].
  destruct (size m) as [|n] eqn:En; [lia|]. cbn [evictLoop]. rewrite En.
  destruct (_ <? max) eqn:E1; bool_prop; [lia|].
  assert (findOldest (order m) m None <> "") as Hne.
  { rewrite (Hk _ _ He). apply key_String_nonempty. }
  apply String.eqb_neq in Hne as ->. cbn [negb].
  destruct n; cbn [evictLoop]; rewrite map_size_delete_Some, En by eauto; cbn [Init.Nat.pred];
    (destruct (_ <? max) eqn:E2; bool_prop; [done|lia]).
Qed.

(** At capacity a [Put] makes room by removing exactly one entry, one that expires
    first, whatever order the entries are visited in; all others stay. *)
Theorem cache_put_evicts_oldest order now (c c' : MemoryCache) (k : CacheKey) (d : Decision) (ttl : Z) :
  (forall m, iter_order (order m) m) -> keys_ok (entries c) ->
  0 < MaxSize (config c) -> Z.of_nat (size (entries c)) = MaxSize (config c) ->
  stores (config c) k d = Some ttl ->
  Put order now c (Some k) (Some d) = Some (c', Ok tt) ->
  exists kold eold, entries c !! kold = Some eold /\
    (forall k' e', entries c !! k' = Some e' -> ce_expiresAt eold <= ce_expiresAt e') /\
    entries c' = <[key_String k := mkEntry k (set_ExpiresAt d (now + ttl)) (now + ttl)]>
                   (delete kold (entries c)).
Proof.
  intros Hord Hk Hmax Hsz Hs. unfold stores in Hs. unfold Put.
  destruct (validateDecision d); [|discriminate Hs].
  destruct (isCachePoisoningAttempt k d); [discriminate Hs|]. cbn [is_ok negb andb] in Hs. rewrite Hs.
  destruct (evictLoop_full order _ (MaxSize (config c)) (entries c) Hord Hk Hmax Hsz eq_refl)
    as (kold & eold & Hold & Hev & Hall).
  unfold evictOldest. rewrite Hev. destruct (_ <=? _) eqn:E; bool_prop; [|lia].
  intros [= <-]. by exists kold, eold.
Qed.

Definition tinyConfig : Config := mkConfig (5 * minute) (1 * hour) (30 * second) 1 false (1 * minute).

Lemma keys_ok_singleton (k : CacheKey) (d : Decision) (t : Z) :
  keys_ok {[ key_String k := mkEntry k d t ]}.
Proof. intros k0 e0 [<- <-]%lookup_singleton_Some. done. Qed.

Lemma cache_put_evicts_oldest_witness :
  let e := mkEntry sampleKey (set_ExpiresAt sampleDecision (time_Unix 1700000300))
             (time_Unix 1700000300) in
  let c := mkCache {[ key_String sampleKey := e ]} tinyConfig zeroMetrics in
  let k2 := mkCacheKey "https://bob.example/#me" "" "" "GET" "read" "https://pod.example/2" "" "" "" in
  exists kold eold, entries c !! kold = Some eold /\
    (forall k' e', entries c !! k' = Some e' -> ce_expiresAt eold <= ce_expiresAt e').
Proof.
  intros e c k2.
  destruct (cache_put_evicts_oldest someOrder (time_Unix 1700000010) c
    (upd_metrics incPuts (mkCache
       (<[key_String k2 := mkEntry k2 (set_ExpiresAt sampleDecision (time_Unix 1700000010 + 5 * minute))
                             (time_Unix 1700000010 + 5 * minute)]> ∅)
       tinyConfig (incEvictions zeroMetrics))) k2 sampleDecision (5 * minute))
    as (kold & eold & H1 & H2 & _).
  - apply someOrder_ok.
  - apply keys_ok_singleton.
  - vm_compute. reflexivity.
  - vm_compute. reflexivity.
  - vm_compute. reflexivity.
  - vm_compute. reflexivity.
  - exists kold, eold. split; [exact H1|exact H2].
Defined.

End Cache.
