(* ===== verification/CachingEvaluator.v ===== *)
(** * The caching evaluator

    [internal/authz/caching_evaluator.go]: an evaluator behind the decision cache, over
    any inner evaluator, with its policy-change handling.  Logging is left out; the
    background refresh is the operation [refreshCacheInBackground]. *)

From S2P Require Import Prelude GoStrings GoFloat GoURL GoHash AuthzTypes Evaluator WacEvaluator DecisionCache.

Local Open Scope Z_scope.

Record CachingEvaluatorOptions := mkCachingOptions {
  co_CacheConfig : Cache.Config;
  co_EnableCaching : bool;
  co_CacheTTL : Z;
  co_MaxCacheTTL : Z;
  co_EnableNegativeCache : bool;
  co_NegativeCacheTTL : Z;
  co_SmartInvalidationEnabled : bool;
  co_BackgroundInvalidationInterval : Z
}.

Definition DefaultCachingEvaluatorOptions : CachingEvaluatorOptions :=
  mkCachingOptions Cache.DefaultConfig true 0 0 false (1 * minute) true (1 * minute).

Record CachingEvaluator (S : Type) := mkCachingEvaluator {
  ce_evaluator : S;
  ce_decisionCache : Cache.MemoryCache;
  ce_options : CachingEvaluatorOptions
}.
Arguments mkCachingEvaluator {S}.
Arguments ce_evaluator {S}.
Arguments ce_decisionCache {S}.
Arguments ce_options {S}.

(** The configuration after the overrides of [NewCachingEvaluator]. *)
Definition overrideConfig (o : CachingEvaluatorOptions) : Cache.Config :=
  let cfg := co_CacheConfig o in
  Cache.mkConfig
    (if 0 <? co_CacheTTL o then co_CacheTTL o else Cache.TTL cfg)
    (if 0 <? co_MaxCacheTTL o then co_MaxCacheTTL o else Cache.MaxTTL cfg)
    (Cache.StaleTTL cfg) (Cache.MaxSize cfg)
    (co_EnableNegativeCache o) (co_NegativeCacheTTL o).

Definition with_config (o : CachingEvaluatorOptions) (cfg : Cache.Config) : CachingEvaluatorOptions :=
  mkCachingOptions cfg (co_EnableCaching o) (co_CacheTTL o) (co_MaxCacheTTL o)
    (co_EnableNegativeCache o) (co_NegativeCacheTTL o) (co_SmartInvalidationEnabled o)
    (co_BackgroundInvalidationInterval o).

(** [NewCachingEvaluator]: the cache is built twice, before and after the overrides. *)
Definition NewCachingEvaluator {S} (inner : option S) (o : CachingEvaluatorOptions)
  : result string (CachingEvaluator S) :=
  match inner with
  | None => Err "evaluator is required"
  | Some ev =>
      let! _ := Cache.NewMemoryCache (co_CacheConfig o) in
      let o' := with_config o (overrideConfig o) in
      let! c := Cache.NewMemoryCache (co_CacheConfig o') in
      Ok (mkCachingEvaluator ev c o')
  end.

Definition createCacheKey (rq : Request) : Cache.CacheKey :=
  let primaryMode := match rq_RequestedModes rq with [] => AccessModeRead | m :: _ => m end in
  Cache.mkCacheKey (rq_AgentWebID rq) (rq_Issuer rq) (rq_ClientID rq) (rq_Method rq) primaryMode
    (rq_ResourceURI rq) (rq_PolicyVersion rq) (rq_ParserVersion rq) (rq_EvaluatorVersion rq).

Definition convertFromCacheDecision (cd : Cache.Decision) (rq : Request) : Decision :=
  let audit := AuditForRequest rq in
  {| dc_SchemaVersion := SchemaVersion;
     dc_RequestID := rq_RequestID rq;
     dc_Decision := if Cache.Allow cd then DecisionAllow else DecisionDeny;
     dc_ReasonCode := ReasonCachedDecision;
     dc_StatusHint := 0;
     dc_CacheTTLSeconds := f64_to_int (duration_Seconds (time_Sub (Cache.ExpiresAt cd) (Cache.CreatedAt cd)));
     dc_PolicyVersion := Cache.PolicyVersion cd;
     dc_ResourceVersion := rq_ResourceVersion rq;
     dc_Audit := audit;
     dc_TraceID := ""; dc_AuthorityMode := ""; dc_EnforcementMode := "";
     dc_StrictMode := false; dc_FallbackToCSS := false |}.

Definition convertToCacheDecision (o : CachingEvaluatorOptions) (now : Z) (d : Decision)
  : Cache.Decision :=
  let ttl := wrap64 (dc_CacheTTLSeconds d * second) in
  let ttl := if ttl =? 0 then Cache.TTL (co_CacheConfig o) else ttl in
  Cache.mkDecision (String.eqb (dc_Decision d) DecisionAllow) (dc_ReasonCode d) false
    SchemaVersion (dc_PolicyVersion d) "" now (now + ttl).

(** The order oracle of [range] over the cache. *)
Definition MapOrder : Type := gmap string Cache.cacheEntry -> list string.

Definition with_cache {S} (e : CachingEvaluator S) (c : Cache.MemoryCache) : CachingEvaluator S :=
  mkCachingEvaluator (ce_evaluator e) c (ce_options e).
Definition with_evaluator {S} (e : CachingEvaluator S) (s : S) : CachingEvaluator S :=
  mkCachingEvaluator s (ce_decisionCache e) (ce_options e).

(** [cacheDecision]: the conversion reads the clock, then [Put] reads it again. *)
Definition cacheDecision {S} (order : MapOrder) (t1 t2 : Z) (e : CachingEvaluator S)
    (key : Cache.CacheKey) (d : Decision)
  : option (CachingEvaluator S * result Cache.cache_error unit) :=
  match Cache.Put order t2 (ce_decisionCache e) (Some key)
          (Some (convertToCacheDecision (ce_options e) t1 d)) with
  | None => None
  | Some (c, r) => Some (with_cache e c, r)
  end.

Section operations.
Context {S : Type} `{Evaluator S}.

(** [Evaluate]; the third result says whether a background refresh was started.  Readings
    of the clock: 0 by [Get], 1 by the conversion, 2 by [Put]; the inner evaluator is
    given the rest.  [None]: the call does not return. *)
Definition CachingEvaluator_Evaluate (order : MapOrder) (env : Env) (e : CachingEvaluator S)
    (rq : Request) : option (CachingEvaluator S * result eval_error Decision * bool) :=
  if negb (co_EnableCaching (ce_options e)) then
    let '(s, r) := Evaluate (env_after 3 env) (ce_evaluator e) rq in
    Some (with_evaluator e s, r, false)
  else
    let cacheKey := createCacheKey rq in
    let '(c, cached) := Cache.Get (env_clock env 0) (ce_decisionCache e) (Some cacheKey) in
    let e1 := with_cache e c in
    match cached with
    | Some cd =>
        let decision := convertFromCacheDecision cd rq in
        if negb (Cache.Stale cd) then Some (e1, Ok decision, false)
        else Some (e1, Ok decision, true)
    | None =>
        let '(s, r) := Evaluate (env_after 3 env) (ce_evaluator e1) rq in
        let e2 := with_evaluator e1 s in
        match r with
        | Err err => Some (e2, Err (ErrEvaluationFailed err), false)
        | Ok d =>
            match cacheDecision order (env_clock env 1) (env_clock env 2) e2 cacheKey d with
            | None => None
            | Some (e3, _) => Some (e3, Ok d, false)
            end
        end
    end.

(** [refreshCacheInBackground]. *)
Definition refreshCacheInBackground (order : MapOrder) (env : Env) (e : CachingEvaluator S)
    (rq : Request) (key : Cache.CacheKey) : option (CachingEvaluator S) :=
  let '(s, r) := Evaluate (env_after 3 env) (ce_evaluator e) rq in
  let e1 := with_evaluator e s in
  match r with
  | Err _ => Some e1
  | Ok d => option_map fst (cacheDecision order (env_clock env 1) (env_clock env 2) e1 key d)
  end.
End operations.

Definition ce_InvalidatePolicy {S} (e : CachingEvaluator S) (v : string) : CachingEvaluator S :=
  with_cache e (Cache.InvalidatePolicy (ce_decisionCache e) v).
Definition ce_InvalidateResource {S} (e : CachingEvaluator S) (r : string) : CachingEvaluator S :=
  with_cache e (Cache.InvalidateResource (ce_decisionCache e) r).
Definition ce_InvalidateAgent {S} (e : CachingEvaluator S) (a : string) : CachingEvaluator S :=
  with_cache e (Cache.InvalidateAgent (ce_decisionCache e) a).
Definition ClearCache {S} (e : CachingEvaluator S) : CachingEvaluator S :=
  with_cache e (Cache.Clear (ce_decisionCache e)).
Definition GetCacheMetrics {S} (e : CachingEvaluator S) : Cache.MetricsSnapshot :=
  Cache.Metrics (ce_decisionCache e).
Definition IsCachingEnabled {S} (e : CachingEvaluator S) : bool := co_EnableCaching (ce_options e).
Definition EnableCaching {S} (e : CachingEvaluator S) (enabled : bool) : CachingEvaluator S :=
  let o := ce_options e in
  mkCachingEvaluator (ce_evaluator e) (ce_decisionCache e)
    (mkCachingOptions (co_CacheConfig o) enabled (co_CacheTTL o) (co_MaxCacheTTL o)
       (co_EnableNegativeCache o) (co_NegativeCacheTTL o) (co_SmartInvalidationEnabled o)
       (co_BackgroundInvalidationInterval o)).

(** ** Policy changes *)

Definition PolicyChangeTypeCreate : string := "create".
Definition PolicyChangeTypeUpdate : string := "update".
Definition PolicyChangeTypeDelete : string := "delete".

Record PolicyChangeEvent := mkPolicyChange {
  pc_ResourceURI : string;
  pc_PolicyURI : string;
  pc_PolicyVersion : string;
  pc_OldPolicyVersion : string;
  pc_ChangeType : string;
  pc_Timestamp : Z
}.

(** The loop body of [listenForPolicyChanges]. *)
Definition handlePolicyChange {S} (e : CachingEvaluator S) (event : PolicyChangeEvent)
  : CachingEvaluator S :=
  let byVersion v e := if negb (String.eqb v "") then ce_InvalidatePolicy e v else e in
  let byResource e := if negb (String.eqb (pc_ResourceURI event) "")
                      then ce_InvalidateResource e (pc_ResourceURI event) else e in
  if String.eqb (pc_ChangeType event) PolicyChangeTypeCreate ||
     String.eqb (pc_ChangeType event) PolicyChangeTypeUpdate
  then byResource (byVersion (pc_OldPolicyVersion event) e)
  else if String.eqb (pc_ChangeType event) PolicyChangeTypeDelete
  then byResource (byVersion (pc_PolicyVersion event) e)
  else e.

(** ** Histories *)

Inductive ce_call :=
| CEvaluate (order : MapOrder) (env : Env) (rq : Request)
| CRefresh (order : MapOrder) (env : Env) (rq : Request)
| CPolicyChange (event : PolicyChangeEvent)
| CInvalidatePolicy (version : string)
| CInvalidateResource (resource : string)
| CInvalidateAgent (agent : string)
| CClear
| CEnableCaching (enabled : bool).

Definition ce_step {S} `{Evaluator S} (e : CachingEvaluator S) (call : ce_call)
  : option (CachingEvaluator S) :=
  match call with
  | CEvaluate order env rq =>
      option_map (fun r => fst (fst r)) (CachingEvaluator_Evaluate order env e rq)
  | CRefresh order env rq => refreshCacheInBackground order env e rq (createCacheKey rq)
  | CPolicyChange event => Some (handlePolicyChange e event)
  | CInvalidatePolicy v => Some (ce_InvalidatePolicy e v)
  | CInvalidateResource r => Some (ce_InvalidateResource e r)
  | CInvalidateAgent a => Some (ce_InvalidateAgent e a)
  | CClear => Some (ClearCache e)
  | CEnableCaching b => Some (EnableCaching e b)
  end.

Definition ce_run {S} `{Evaluator S} (e : CachingEvaluator S) (calls : list ce_call)
  : option (CachingEvaluator S) :=
  foldl (fun acc call => match acc with Some e => ce_step e call | None => None end)
    (Some e) calls.

(** The evaluations a call makes, if it makes one. *)
Definition evaluation_of (call : ce_call) : option (MapOrder * Env * Request) :=
  match call with
  | CEvaluate order env rq | CRefresh order env rq => Some (order, env, rq)
  | _ => None
  end.

Definition ce_orders_ok (calls : list ce_call) : Prop :=
  forall call order env rq, call ∈ calls -> evaluation_of call = Some (order, env, rq) ->
  forall m, iter_order (order m) m.

(** The calls that must remove every decision cached under [k]. *)
Definition invalidates (k : Cache.CacheKey) (call : ce_call) : Prop :=
  match call with
  | CEvaluate _ _ _ | CRefresh _ _ _ | CEnableCaching _ => False
  | CPolicyChange ev =>
      (pc_ChangeType ev ∈ [PolicyChangeTypeCreate; PolicyChangeTypeUpdate; PolicyChangeTypeDelete] /\
       pc_ResourceURI ev <> "" /\ Cache.k_Resource k = pc_ResourceURI ev) \/
      (pc_ChangeType ev ∈ [PolicyChangeTypeCreate; PolicyChangeTypeUpdate] /\
       pc_OldPolicyVersion ev <> "" /\ Cache.k_PolicyVersion k = pc_OldPolicyVersion ev) \/
      (pc_ChangeType ev = PolicyChangeTypeDelete /\
       pc_PolicyVersion ev <> "" /\ Cache.k_PolicyVersion k = pc_PolicyVersion ev)
  | CInvalidatePolicy v => Cache.k_PolicyVersion k = v
  | CInvalidateResource r => Cache.k_Resource k = r
  | CInvalidateAgent a => Cache.k_Agent k = a
  | CClear => True
  end.

(** An entry is justified by the calls so far: it is the answer the inner evaluator gave
    to a request with the entry's key, and no call since had to remove it. *)
Definition ce_justified {S} `{Evaluator S} (cfg : Cache.Config) (calls : list ce_call)
    (keyStr : string) (en : Cache.cacheEntry) : Prop :=
  exists pre call0 post order env rq s s' d,
    calls = pre ++ call0 :: post /\ evaluation_of call0 = Some (order, env, rq) /\
    Evaluate (env_after 3 env) s rq = (s', Ok d) /\
    Cache.ce_key en = createCacheKey rq /\ keyStr = Cache.key_String (createCacheKey rq) /\
    Cache.Allow (Cache.ce_decision en) = String.eqb (dc_Decision d) DecisionAllow /\
    Cache.ce_expiresAt en <= env_clock env 2 + Cache.MaxTTL cfg /\
    Forall (fun call => ~ invalidates (createCacheKey rq) call) post.

Definition ce_inv {S} `{Evaluator S} (cfg : Cache.Config) (calls : list ce_call)
    (e : CachingEvaluator S) : Prop :=
  Cache.config (ce_decisionCache e) = cfg /\
  forall k en, Cache.entries (ce_decisionCache e) !! k = Some en ->
    ce_justified cfg calls k en /\ Cache.Stale (Cache.ce_decision en) = false.

(** ** Lemmas *)

Section lemmas.
Context {S : Type} `{Evaluator S}.
Implicit Types (e : CachingEvaluator S) (calls : list ce_call).

Lemma ce_justified_snoc cfg calls call k en :
  ce_justified cfg calls k en -> ~ invalidates (Cache.ce_key en) call ->
  ce_justified cfg (calls ++ [call]) k en.
Proof.
  intros (pre & call0 & post & order & env & rq & s & s' & d & -> & He & Hev & Hk & Hks & Ha & Hx & Hp) Hc.
  exists pre, call0, (post ++ [call]), order, env, rq, s, s', d. split_and!; try done.
  - by rewrite <- app_assoc.
  - apply Forall_app. split; [done|]. constructor; [by rewrite <- Hk|done].
Qed.

Lemma ce_inv_shrink cfg calls call e e' :
  ce_inv cfg calls e -> Cache.config (ce_decisionCache e') = Cache.config (ce_decisionCache e) ->
  Cache.entries (ce_decisionCache e') ⊆ Cache.entries (ce_decisionCache e) ->
  (forall k en, Cache.entries (ce_decisionCache e') !! k = Some en ->
     ~ invalidates (Cache.ce_key en) call) ->
  ce_inv cfg (calls ++ [call]) e'.
Proof.
  intros [Hc Hj] Hc' Hsub Hno. split; [congruence|]. intros k en Hk.
  destruct (Hj k en) as [Hj' Hs]; [by eapply lookup_weaken|].
  split; [|done]. apply ce_justified_snoc; eauto.
Qed.

Lemma ce_inv_keys cfg calls e :
  ce_inv cfg calls e -> Cache.keys_ok (Cache.entries (ce_decisionCache e)).
Proof.
  intros [_ Hj] k en Hk.
  destruct (Hj k en Hk) as [(? & ? & ? & ? & ? & ? & ? & ? & ? & _ & _ & _ & -> & -> & _) _]. done.
Qed.

Lemma invalidateWhere_sub p (c : Cache.MemoryCache) :
  Cache.entries (Cache.invalidateWhere p c) ⊆ Cache.entries c.
Proof. apply map_filter_subseteq. Qed.

Lemma invalidateWhere_removed p (c : Cache.MemoryCache) k en :
  Cache.entries (Cache.invalidateWhere p c) !! k = Some en -> p (Cache.ce_key en) = false.
Proof. by intros [_ Hp]%map_lookup_filter_Some. Qed.

Lemma Get_sub now (c : Cache.MemoryCache) k :
  Cache.config (Cache.Get now c k).1 = Cache.config c /\
  Cache.entries (Cache.Get now c k).1 ⊆ Cache.entries c.
Proof.
  unfold Cache.Get. destruct k as [k|]; [|done].
  destruct (Cache.entries c !! _); [|done]. break_if; [|done].
  split; [done|apply delete_subseteq].
Qed.

(** Storing the inner evaluator's answer. *)
Lemma cacheDecision_inv cfg calls call order env rq e s s' d :
  0 < Cache.MaxSize cfg -> (forall m, iter_order (order m) m) ->
  evaluation_of call = Some (order, env, rq) ->
  Evaluate (env_after 3 env) s rq = (s', Ok d) ->
  ce_inv cfg calls e ->
  exists e' r,
    cacheDecision order (env_clock env 1) (env_clock env 2) e (createCacheKey rq) d = Some (e', r) /\
    ce_inv cfg (calls ++ [call]) e'.
Proof.
  intros Hmax Hord Hcall Hev Hinv. pose proof Hinv as [Hcfg Hj].
  assert (forall k, ~ invalidates k call) as Hno by (intros k; destruct call; cbn in *; naive_solver).
  unfold cacheDecision. set (cd := convertToCacheDecision _ _ _).
  destruct (Cache.Put_spec order (env_clock env 2) (ce_decisionCache e) (Some (createCacheKey rq))
    (Some cd)) as (c' & r & -> & Hc' & Hcase); [done|by eapply ce_inv_keys|by rewrite Hcfg|].
  eexists _, _. split; [reflexivity|].
  destruct Hcase as [[He _]|(k0 & d0 & ttl & m & [= <-] & [= <-] & Hs & Hsub & _ & He)].
  - eapply ce_inv_shrink; [exact Hinv|done|cbn; by rewrite He|intros; apply Hno].
  - split; [cbn; congruence|]. intros k en. cbn [with_cache ce_decisionCache]. rewrite He.
    intros [[<- <-]|[Hne Hk]]%lookup_insert_Some.
    + split; [|done]. exists calls, call, [], order, env, rq, s, s', d.
      cbn [Cache.ce_key Cache.ce_decision Cache.ce_expiresAt Cache.set_ExpiresAt Cache.Allow].
      assert (Cache.ttlFor cfg cd = Some ttl) as [? _]%Cache.ttlFor_bounds.
      { rewrite Hcfg in Hs. unfold Cache.stores in Hs. by destruct (is_ok _ && _). }
      split_and!; try done. lia.
    + destruct (Hj k en) as [Hj' Hst]; [by eapply lookup_weaken|].
      split; [apply ce_justified_snoc; [done|apply Hno]|done].
Qed.

(** Removing by version and by resource, as the policy-change handler does. *)
Lemma invalidatePolicy_if_spec e v :
  let e' := if negb (String.eqb v "") then ce_InvalidatePolicy e v else e in
  Cache.config (ce_decisionCache e') = Cache.config (ce_decisionCache e) /\
  Cache.entries (ce_decisionCache e') ⊆ Cache.entries (ce_decisionCache e) /\
  forall k en, Cache.entries (ce_decisionCache e') !! k = Some en -> v <> "" ->
    Cache.k_PolicyVersion (Cache.ce_key en) <> v.
Proof.
  destruct (String.eqb_spec v ""); cbn [negb]; [done|].
  split_and!; [done|apply invalidateWhere_sub|].
  intros k en Hk _. apply invalidateWhere_removed in Hk. by apply String.eqb_neq in Hk.
Qed.

Lemma invalidateResource_if_spec e v :
  let e' := if negb (String.eqb v "") then ce_InvalidateResource e v else e in
  Cache.config (ce_decisionCache e') = Cache.config (ce_decisionCache e) /\
  Cache.entries (ce_decisionCache e') ⊆ Cache.entries (ce_decisionCache e) /\
  forall k en, Cache.entries (ce_decisionCache e') !! k = Some en -> v <> "" ->
    Cache.k_Resource (Cache.ce_key en) <> v.
Proof.
  destruct (String.eqb_spec v ""); cbn [negb]; [done|].
  split_and!; [done|apply invalidateWhere_sub|].
  intros k en Hk _. apply invalidateWhere_removed in Hk. by apply String.eqb_neq in Hk.
Qed.

Lemma handlePolicyChange_inv cfg calls e ev :
  ce_inv cfg calls e -> ce_inv cfg (calls ++ [CPolicyChange ev]) (handlePolicyChange e ev).
Proof.
  intros Hinv. unfold handlePolicyChange.
  destruct (String.eqb_spec (pc_ChangeType ev) PolicyChangeTypeCreate) as [Hc|Hc];
  destruct (String.eqb_spec (pc_ChangeType ev) PolicyChangeTypeUpdate) as [Hu|Hu];
  destruct (String.eqb_spec (pc_ChangeType ev) PolicyChangeTypeDelete) as [Hd|Hd]; cbn [orb];
    try (rewrite Hc in Hu; discriminate Hu); try (rewrite Hc in Hd; discriminate Hd);
    try (rewrite Hu in Hd; discriminate Hd).
  4: { eapply ce_inv_shrink; [exact Hinv|done|done|]. intros k en _. cbn [invalidates].
       rewrite !elem_of_cons, elem_of_nil. tauto. }
  all: destruct (invalidatePolicy_if_spec e (pc_OldPolicyVersion ev)) as (Hc1 & Hs1 & Hr1);
    destruct (invalidatePolicy_if_spec e (pc_PolicyVersion ev)) as (Hc2 & Hs2 & Hr2);
    set (e1 := if negb (String.eqb (pc_OldPolicyVersion ev) "") then _ else e) in *;
    set (e2 := if negb (String.eqb (pc_PolicyVersion ev) "") then _ else e) in *.
  1, 2: destruct (invalidateResource_if_spec e1 (pc_ResourceURI ev)) as (Hc3 & Hs3 & Hr3).
  3: destruct (invalidateResource_if_spec e2 (pc_ResourceURI ev)) as (Hc3 & Hs3 & Hr3).
  all: eapply ce_inv_shrink; [exact Hinv|congruence|by etrans|].
  all: intros k en Hk [(_ & Hne & Heq)|[(Hty & Hne & Heq)|(Hty & Hne & Heq)]];
    [by apply (Hr3 k en)| |]; try congruence.
  1, 2: apply (Hr1 k en); [by eapply lookup_weaken|done|done].
  - exfalso. rewrite Hd, !elem_of_cons, elem_of_nil in Hty. by destruct Hty as [|[|[]]].
  - apply (Hr2 k en); [by eapply lookup_weaken|done|done].
Qed.

Lemma ce_step_inv cfg calls call e :
  0 < Cache.MaxSize cfg ->
  (forall order env rq, evaluation_of call = Some (order, env, rq) ->
     forall m, iter_order (order m) m) ->
  ce_inv cfg calls e -> exists e', ce_step e call = Some e' /\ ce_inv cfg (calls ++ [call]) e'.
Proof.
  intros Hmax Hord Hinv. pose proof Hinv as [Hcfg Hj].
  destruct call as [order env rq|order env rq|ev|v|r|a| |b]; cbn [ce_step].
  - unfold CachingEvaluator_Evaluate.
    destruct (negb _).
    { destruct (Evaluate _ _ rq) as [s r]. eexists. split; [reflexivity|].
      eapply ce_inv_shrink; [exact Hinv|done|done|intros ??? []]. }
    destruct (Get_sub (env_clock env 0) (ce_decisionCache e) (Some (createCacheKey rq))) as [Hgc Hgs].
    destruct (Cache.Get _ _ _) as [c cached]. cbn [fst] in Hgc, Hgs.
    destruct cached as [cd|].
    { destruct (negb _); eexists; (split; [reflexivity|]);
        (eapply ce_inv_shrink; [exact Hinv|done|done|intros ??? []]). }
    destruct (Evaluate _ _ rq) as [s [d|err]] eqn:Hev.
    2: { eexists; split; [reflexivity|]. eapply ce_inv_shrink; [exact Hinv|done|done|intros ??? []]. }
    assert (ce_inv cfg calls (with_evaluator (with_cache e c) s)) as Hinv'.
    { split; [by rewrite <- Hcfg|]. intros k en Hk. apply Hj. by eapply lookup_weaken. }
    destruct (cacheDecision_inv cfg calls (CEvaluate order env rq) order env rq _ _ s d Hmax
      (Hord _ _ _ eq_refl) eq_refl Hev Hinv') as (e' & r & -> & He').
    exists e'. done.
  - unfold refreshCacheInBackground.
    destruct (Evaluate _ _ rq) as [s [d|err]] eqn:Hev.
    2: { eexists; split; [reflexivity|]. eapply ce_inv_shrink; [exact Hinv|done|done|intros ??? []]. }
    destruct (cacheDecision_inv cfg calls (CRefresh order env rq) order env rq
      (with_evaluator e s) _ s d Hmax (Hord _ _ _ eq_refl) eq_refl Hev) as (e' & r & -> & He'); [done|].
    exists e'. done.
  - eexists. split; [reflexivity|]. by apply handlePolicyChange_inv.
  - eexists. split; [reflexivity|].
    eapply ce_inv_shrink; [exact Hinv|done|apply invalidateWhere_sub|].
    intros k en Hk Hv. apply invalidateWhere_removed in Hk. by apply String.eqb_neq in Hk.
  - eexists. split; [reflexivity|].
    eapply ce_inv_shrink; [exact Hinv|done|apply invalidateWhere_sub|].
    intros k en Hk Hv. apply invalidateWhere_removed in Hk. by apply String.eqb_neq in Hk.
  - eexists. split; [reflexivity|].
    eapply ce_inv_shrink; [exact Hinv|done|apply invalidateWhere_sub|].
    intros k en Hk Hv. apply invalidateWhere_removed in Hk. by apply String.eqb_neq in Hk.
  - eexists. split; [reflexivity|].
    eapply ce_inv_shrink; [exact Hinv|done|apply map_empty_subseteq|].
    intros k en Hk. cbn in Hk. by rewrite lookup_empty in Hk.
  - eexists. split; [reflexivity|]. eapply ce_inv_shrink; [exact Hinv|done|done|intros ??? []].
Qed.

Lemma NewCachingEvaluator_inv (inner : S) o e0 :
  NewCachingEvaluator (Some inner) o = Ok e0 ->
  ce_inv (overrideConfig o) [] e0 /\ 0 < Cache.MaxSize (overrideConfig o).
Proof.
  unfold NewCachingEvaluator, Cache.NewMemoryCache.
  destruct (Cache.Validate (co_CacheConfig o)); [|discriminate]. cbn [result_bind].
  cbn [with_config co_CacheConfig].
  destruct (Cache.Validate (overrideConfig o)) as [[]|] eqn:Hv; [|discriminate]. cbn. intros [= <-].
  split; [split; [done|]; intros k en Hk; cbn in Hk; by rewrite lookup_empty in Hk|].
  exact (Cache.Validate_MaxSize _ Hv).
Qed.

Lemma ce_run_inv (inner : S) o e0 calls :
  NewCachingEvaluator (Some inner) o = Ok e0 -> ce_orders_ok calls ->
  exists e, ce_run e0 calls = Some e /\ ce_inv (overrideConfig o) calls e.
Proof.
  intros [Hinv Hmax]%NewCachingEvaluator_inv.
  induction calls as [|call calls IH] using rev_ind; intros Hord; [by exists e0|].
  destruct IH as (e & He & Hinv').
  { intros c order env rq Hin. apply (Hord c). apply elem_of_app. by left. }
  unfold ce_run in *. rewrite foldl_app, He. apply ce_step_inv; [done| |done].
  intros order env rq. apply (Hord call). apply elem_of_app. right. by apply list_elem_of_singleton.
Qed.

End lemmas.

(** ** Properties *)

(** C24: A caching evaluator answers from its inner evaluator.  After any sequence of
    evaluations, background refreshes, policy changes, invalidations and switches, no call
    diverges, and a decision returned by [Evaluate] is either the inner evaluator's answer
    to this very call, or was cached: then it allows exactly when the inner evaluator
    allowed an earlier request with the same key hash, at most [MaxTTL] before, and
    no policy change, invalidation or clear covering that key happened in between.  A
    background refresh is never started. *)
Theorem caching_answer_justified {S} `{Evaluator S} (inner : S) (o : CachingEvaluatorOptions)
    (e0 : CachingEvaluator S) (calls : list ce_call) :
  NewCachingEvaluator (Some inner) o = Ok e0 -> ce_orders_ok calls ->
  exists e, ce_run e0 calls = Some e /\
    forall order env rq e' d refresh,
      CachingEvaluator_Evaluate order env e rq = Some (e', Ok d, refresh) ->
      refresh = false /\
      ((exists s, Evaluate (env_after 3 env) (ce_evaluator e) rq = (s, Ok d)) \/
       (exists pre call0 post order0 env0 rq0 s s' d0,
          calls = pre ++ call0 :: post /\ evaluation_of call0 = Some (order0, env0, rq0) /\
          Evaluate (env_after 3 env0) s rq0 = (s', Ok d0) /\
          Cache.key_String (createCacheKey rq) = Cache.key_String (createCacheKey rq0) /\
          dc_Decision d = (if String.eqb (dc_Decision d0) DecisionAllow
                           then DecisionAllow else DecisionDeny) /\
          env_clock env 0 <= env_clock env0 2 + Cache.MaxTTL (overrideConfig o) /\
          Forall (fun call => ~ invalidates (createCacheKey rq0) call) post)).
Proof.
  intros Hnew Hord. destruct (ce_run_inv inner o e0 calls Hnew Hord) as (e & He & _ & Hj).
  exists e. split; [done|]. intros order env rq e' d refresh. unfold CachingEvaluator_Evaluate.
  destruct (negb _).
  { destruct (Evaluate _ _ rq) as [s r] eqn:Hev. intros [= _ -> <-]. split; [done|]. left. by exists s. }
  unfold Cache.Get.
  destruct (Cache.entries (ce_decisionCache e) !! _) as [en|] eqn:Hen;
    [time_unfold; destruct (Cache.ce_expiresAt en <? env_clock env 0) eqn:Hx|].
  2: { destruct (Hj _ _ Hen) as [(pre & call0 & post & order0 & env0 & rq0 & s & s' & d0 & -> & Hc0 &
         Hev & Hk & Hks & Ha & Ht & Hpost) Hst].
       rewrite Hst. intros [= _ <- <-]. split; [done|]. right. bool_prop.
       exists pre, call0, post, order0, env0, rq0, s, s', d0. cbn [convertFromCacheDecision dc_Decision].
       rewrite Ha. split_and!; try done. lia. }
  all: destruct (Evaluate _ _ rq) as [s [d'|err]] eqn:Hev; [|discriminate];
    destruct (cacheDecision _ _ _ _ _ _) as [[e3 r3]|]; [|discriminate];
    intros [= _ <- <-]; (split; [done|]); left; by exists s.
Qed.

Definition negativeOptions : CachingEvaluatorOptions :=
  mkCachingOptions Cache.DefaultConfig true 0 0 true (1 * minute) true (1 * minute).

Definition negativeEvaluator (inner : WACEvaluator) : CachingEvaluator WACEvaluator :=
  mkCachingEvaluator inner
    (Cache.mkCache ∅ (overrideConfig negativeOptions) Cache.zeroMetrics)
    (with_config negativeOptions (overrideConfig negativeOptions)).

Definition laterEnv : Env := mkEnv None (fun i => time_Unix 1700000030 + Z.of_nat i).

Lemma caching_answer_justified_witness :
  let rq := sampleRequest ownerWebID [AccessModeWrite] sampleDocs in
  let calls := [CEvaluate Cache.someOrder sampleEnv rq; CInvalidateAgent publicAgent] in
  (exists e, ce_run (negativeEvaluator enforcingWAC) calls = Some e) /\
  option_map (fun r => option_map dc_Decision (result_ok (snd (fst r))))
    (match ce_run (negativeEvaluator enforcingWAC) calls with
     | Some e => CachingEvaluator_Evaluate Cache.someOrder laterEnv e rq
     | None => None
     end) = Some (Some DecisionAllow).
Proof.
  intros rq calls. split; [|vm_compute; reflexivity].
  destruct (caching_answer_justified enforcingWAC negativeOptions (negativeEvaluator enforcingWAC)
              calls) as (e & He & _).
  - reflexivity.
  - intros call order env rq0 Hin Hc m. repeat apply elem_of_cons in Hin as [->|Hin].
    + injection Hc as <- _ _. apply Cache.someOrder_ok.
    + discriminate Hc.
    + by apply elem_of_nil in Hin.
  - exists e. exact He.
Defined.

Lemma NewCachingEvaluator_Ok {S} (inner : S) o e0 :
  NewCachingEvaluator (Some inner) o = Ok e0 ->
  e0 = mkCachingEvaluator inner (Cache.mkCache ∅ (overrideConfig o) Cache.zeroMetrics)
         (with_config o (overrideConfig o)) /\ 0 < Cache.MaxSize (overrideConfig o).
Proof.
  unfold NewCachingEvaluator, Cache.NewMemoryCache.
  destruct (Cache.Validate (co_CacheConfig o)); [|discriminate]. cbn [result_bind].
  cbn [with_config co_CacheConfig].
  destruct (Cache.Validate (overrideConfig o)) as [[]|] eqn:Hv; [|discriminate]. cbn. intros [= <-].
  split; [done|]. exact (Cache.Validate_MaxSize _ Hv).
Qed.

Lemma cached_decision_rejected (cd : Cache.Decision) (rq : Request) :
  ValidateDecision (convertFromCacheDecision cd rq) <> Ok tt.
Proof.
  unfold ValidateDecision. cbn [convertFromCacheDecision dc_SchemaVersion dc_RequestID dc_Decision
    dc_ReasonCode]. rewrite String.eqb_refl. cbn [negb].
  destruct (negb (validToken _ _)); [done|].
  change (validReasonCode ReasonCachedDecision) with false. by destruct (Cache.Allow cd).
Qed.

(** What a repeated request gets.  When the answer to the first request was cached, the
    same request within the TTL is answered from the cache with a deny unless the first
    answer was an allow: an abstention, which lets the request continue to CSS, comes
    back as a denial.  In either case the cached decision carries a reason code that
    [ValidateDecision] rejects. *)
Theorem cached_abstain_becomes_deny {S} `{Evaluator S} (inner : S) (o : CachingEvaluatorOptions)
    (e0 : CachingEvaluator S) (order : MapOrder) (env1 env2 : Env) (rq : Request) (s : S)
    (d : Decision) (ttl : Z) :
  NewCachingEvaluator (Some inner) o = Ok e0 -> co_EnableCaching o = true ->
  Evaluate (env_after 3 env1) inner rq = (s, Ok d) ->
  Cache.stores (overrideConfig o) (createCacheKey rq)
    (convertToCacheDecision (ce_options e0) (env_clock env1 1) d) = Some ttl ->
  env_clock env2 0 <= env_clock env1 2 + ttl ->
  exists e1 e2 d2,
    CachingEvaluator_Evaluate order env1 e0 rq = Some (e1, Ok d, false) /\
    CachingEvaluator_Evaluate order env2 e1 rq = Some (e2, Ok d2, false) /\
    (dc_Decision d2 = DecisionAllow <-> dc_Decision d = DecisionAllow) /\
    (dc_Decision d = DecisionAbstain -> ShouldContinueToCSS d = true /\ dc_Decision d2 = DecisionDeny) /\
    ValidateDecision d2 <> Ok tt.
Proof.
  intros [-> Hmax]%NewCachingEvaluator_Ok Hen Hev Hs Ht.
  cbn [ce_options] in Hs.
  set (e0 := mkCachingEvaluator _ _ _). set (cd := convertToCacheDecision _ _ _) in *.
  set (c1 := Cache.upd_metrics Cache.incMisses (ce_decisionCache e0)).
  assert (Cache.Get (env_clock env1 0) (ce_decisionCache e0) (Some (createCacheKey rq)) = (c1, None))
    as Hget by (unfold Cache.Get; cbn; by rewrite lookup_empty).
  pose proof (Cache.Put_room order (env_clock env1 2) c1 (createCacheKey rq) cd ttl Hs) as Hput.
  cbn [c1 e0 Cache.upd_metrics ce_decisionCache Cache.entries Cache.config] in Hput.
  rewrite map_size_empty in Hput. specialize (Hput Hmax).
  match type of Hput with _ = Some (?c, _) =>
    set (e1 := with_cache (with_evaluator (with_cache e0 c1) s) c) end.
  assert (CachingEvaluator_Evaluate order env1 e0 rq = Some (e1, Ok d, false)) as Hfirst.
  { unfold CachingEvaluator_Evaluate. change (co_EnableCaching (ce_options e0)) with (co_EnableCaching o).
    rewrite Hen, Hget. cbn [negb with_cache ce_evaluator e0]. rewrite Hev. unfold cacheDecision.
    cbn [with_evaluator with_cache ce_decisionCache ce_options e0]. fold cd. rewrite Hput. reflexivity. }
  destruct (Cache.Get_fresh (env_clock env2 0) (ce_decisionCache e1) (createCacheKey rq)
    (Cache.mkEntry (createCacheKey rq) (Cache.set_ExpiresAt cd (env_clock env1 2 + ttl))
       (env_clock env1 2 + ttl))) as (c2 & Hget2); [apply lookup_insert_eq|done|].
  eexists _, _, _. split; [exact Hfirst|]. split.
  { unfold CachingEvaluator_Evaluate. change (co_EnableCaching (ce_options e1)) with (co_EnableCaching o).
    rewrite Hen, Hget2. reflexivity. }
  cbn [convertFromCacheDecision dc_Decision Cache.ce_decision].
  change (Cache.Allow (Cache.set_ExpiresAt cd _)) with (String.eqb (dc_Decision d) DecisionAllow).
  split; [|split; [|apply cached_decision_rejected]].
  - destruct (String.eqb_spec (dc_Decision d) DecisionAllow); [tauto|]. by split.
  - intros Ha. unfold ShouldContinueToCSS. by rewrite Ha.
Qed.

Lemma cached_abstain_becomes_deny_witness :
  let rq := sampleRequest "https://alice.example/#me" [AccessModeWrite] [] in
  exists e1 e2 d2,
    CachingEvaluator_Evaluate Cache.someOrder sampleEnv (negativeEvaluator enforcingWAC) rq =
      Some (e1, Ok (shadowDecision rq (AuditForRequest rq) DecisionAbstain ReasonPolicyNotLoaded 0),
            false) /\
    CachingEvaluator_Evaluate Cache.someOrder laterEnv e1 rq = Some (e2, Ok d2, false) /\
    dc_Decision d2 = DecisionDeny.
Proof.
  intros rq.
  destruct (cached_abstain_becomes_deny enforcingWAC negativeOptions (negativeEvaluator enforcingWAC)
    Cache.someOrder sampleEnv laterEnv rq enforcingWAC
    (shadowDecision rq (AuditForRequest rq) DecisionAbstain ReasonPolicyNotLoaded 0) (1 * minute))
    as (e1 & e2 & d2 & H1 & H2 & _ & H3 & _).
  - reflexivity.
  - reflexivity.
  - vm_compute. reflexivity.
  - vm_compute. reflexivity.
  - vm_compute. discriminate.
  - exists e1, e2, d2. split; [exact H1|]. split; [exact H2|]. apply H3. reflexivity.
Defined.
