(* ===== verification/EnforcementGate.v ===== *)
(** * The enforcement gate

    [internal/authz/enforcement_gate.go]: the switch between shadow and enforcing modes,
    with its guardrails (allow flag, comparison thresholds, emergency bypass, auto-disable,
    closing), the canary selection and the allowlists.  The gate is a record; a method is a
    function on it, and takes the clock reading it makes as an argument.  What the loggers
    print is left out; whether there is a logger is kept, since the audit counter depends
    on it.  The counters are [int64]s. *)

From Stdlib Require Import SpecFloat.
From S2P Require Import Prelude GoStrings GoFloat GoURL GoHash AuthzTypes GoGlob.

Local Open Scope Z_scope.

Module Gate.

(** ** Modes and options *)

Definition EnforcementModeShadow : string := "shadow".
Definition EnforcementModeEnforce : string := "enforce".
Definition EnforcementModeDryRun : string := "dry-run".
Definition EnforcementModeCanary : string := "enforce_canary".

Definition CanaryModePercentage : string := "percentage".
Definition CanaryModeHeader : string := "header".
Definition CanaryModePath : string := "path".

Inductive gate_error :=
| ErrEnforcementNotAllowed
| ErrEnforcementGateClosed (reason : string)
| ErrThresholdNotMet
| ErrInvalidAllowlistPattern
| ErrGateConfig (what : string).

Record CanaryConfigT := mkCanary {
  cc_Enabled : bool;
  cc_Mode : string;
  cc_Percentage : Z;
  cc_HeaderName : string;
  cc_HeaderValue : string;
  cc_PathPatterns : list string
}.

(** [EnforcementGateOptions]; of the two loggers, whether the operational one is set. *)
Record GateOptions := mkOptions {
  go_InitialMode : string;
  go_AllowEnforcement : bool;
  go_EmergencyBypassEnabled : bool;
  go_EmergencyBypassToken : string;
  go_MaxEnforcementDuration : Z;
  go_ResourceAllowlist : list string;
  go_StorageAllowlist : list string;
  go_MethodAllowlist : list string;
  go_AutoDisableOnMismatchThreshold : Z;
  go_CanaryConfig : CanaryConfigT;
  go_RequireMultipleAuthors : bool;
  go_RequireComparisonThreshold : bool;
  go_ComparisonThresholdPercentage : Z;
  go_ComparisonThresholdCount : Z;
  go_HasLogger : bool
}.

(** ** Metrics *)

Record GateMetrics := mkGateMetrics {
  mt_ModeChanges : Z;
  mt_DecisionsEnforced : Z;
  mt_DecisionsShadowed : Z;
  mt_DecisionsAllow : Z;
  mt_DecisionsDeny : Z;
  mt_AllowlistHits : Z;
  mt_AllowlistMisses : Z;
  mt_CanaryRequestsEnforced : Z;
  mt_CanaryRequestsShadowed : Z;
  mt_MismatchCount : Z;
  mt_MismatchLastTime : Z;
  mt_AutoDisableEvents : Z;
  mt_EmergencyBypassActivated : Z;
  mt_AuditEvents : Z
}.

Definition zeroMetrics : GateMetrics := mkGateMetrics 0 0 0 0 0 0 0 0 0 0 0 0 0 0.

Definition setm_ModeChanges (x : Z) (m : GateMetrics) : GateMetrics :=
  mkGateMetrics x (mt_DecisionsEnforced m) (mt_DecisionsShadowed m) (mt_DecisionsAllow m)
    (mt_DecisionsDeny m) (mt_AllowlistHits m) (mt_AllowlistMisses m) (mt_CanaryRequestsEnforced m)
    (mt_CanaryRequestsShadowed m) (mt_MismatchCount m) (mt_MismatchLastTime m)
    (mt_AutoDisableEvents m) (mt_EmergencyBypassActivated m) (mt_AuditEvents m).
Definition setm_DecisionsEnforced (x : Z) (m : GateMetrics) : GateMetrics :=
  mkGateMetrics (mt_ModeChanges m) x (mt_DecisionsShadowed m) (mt_DecisionsAllow m)
    (mt_DecisionsDeny m) (mt_AllowlistHits m) (mt_AllowlistMisses m) (mt_CanaryRequestsEnforced m)
    (mt_CanaryRequestsShadowed m) (mt_MismatchCount m) (mt_MismatchLastTime m)
    (mt_AutoDisableEvents m) (mt_EmergencyBypassActivated m) (mt_AuditEvents m).
Definition setm_DecisionsShadowed (x : Z) (m : GateMetrics) : GateMetrics :=
  mkGateMetrics (mt_ModeChanges m) (mt_DecisionsEnforced m) x (mt_DecisionsAllow m)
    (mt_DecisionsDeny m) (mt_AllowlistHits m) (mt_AllowlistMisses m) (mt_CanaryRequestsEnforced m)
    (mt_CanaryRequestsShadowed m) (mt_MismatchCount m) (mt_MismatchLastTime m)
    (mt_AutoDisableEvents m) (mt_EmergencyBypassActivated m) (mt_AuditEvents m).
Definition setm_DecisionsAllow (x : Z) (m : GateMetrics) : GateMetrics :=
  mkGateMetrics (mt_ModeChanges m) (mt_DecisionsEnforced m) (mt_DecisionsShadowed m) x
    (mt_DecisionsDeny m) (mt_AllowlistHits m) (mt_AllowlistMisses m) (mt_CanaryRequestsEnforced m)
    (mt_CanaryRequestsShadowed m) (mt_MismatchCount m) (mt_MismatchLastTime m)
    (mt_AutoDisableEvents m) (mt_EmergencyBypassActivated m) (mt_AuditEvents m).
Definition setm_DecisionsDeny (x : Z) (m : GateMetrics) : GateMetrics :=
  mkGateMetrics (mt_ModeChanges m) (mt_DecisionsEnforced m) (mt_DecisionsShadowed m)
    (mt_DecisionsAllow m) x (mt_AllowlistHits m) (mt_AllowlistMisses m)
    (mt_CanaryRequestsEnforced m) (mt_CanaryRequestsShadowed m) (mt_MismatchCount m)
    (mt_MismatchLastTime m) (mt_AutoDisableEvents m) (mt_EmergencyBypassActivated m)
    (mt_AuditEvents m).
Definition setm_AllowlistHits (x : Z) (m : GateMetrics) : GateMetrics :=
  mkGateMetrics (mt_ModeChanges m) (mt_DecisionsEnforced m) (mt_DecisionsShadowed m)
    (mt_DecisionsAllow m) (mt_DecisionsDeny m) x (mt_AllowlistMisses m)
    (mt_CanaryRequestsEnforced m) (mt_CanaryRequestsShadowed m) (mt_MismatchCount m)
    (mt_MismatchLastTime m) (mt_AutoDisableEvents m) (mt_EmergencyBypassActivated m)
    (mt_AuditEvents m).
Definition setm_AllowlistMisses (x : Z) (m : GateMetrics) : GateMetrics :=
  mkGateMetrics (mt_ModeChanges m) (mt_DecisionsEnforced m) (mt_DecisionsShadowed m)
    (mt_DecisionsAllow m) (mt_DecisionsDeny m) (mt_AllowlistHits m) x
    (mt_CanaryRequestsEnforced m) (mt_CanaryRequestsShadowed m) (mt_MismatchCount m)
    (mt_MismatchLastTime m) (mt_AutoDisableEvents m) (mt_EmergencyBypassActivated m)
    (mt_AuditEvents m).
Definition setm_CanaryRequestsEnforced (x : Z) (m : GateMetrics) : GateMetrics :=
  mkGateMetrics (mt_ModeChanges m) (mt_DecisionsEnforced m) (mt_DecisionsShadowed m)
    (mt_DecisionsAllow m) (mt_DecisionsDeny m) (mt_AllowlistHits m) (mt_AllowlistMisses m) x
    (mt_CanaryRequestsShadowed m) (mt_MismatchCount m) (mt_MismatchLastTime m)
    (mt_AutoDisableEvents m) (mt_EmergencyBypassActivated m) (mt_AuditEvents m).
Definition setm_CanaryRequestsShadowed (x : Z) (m : GateMetrics) : GateMetrics :=
  mkGateMetrics (mt_ModeChanges m) (mt_DecisionsEnforced m) (mt_DecisionsShadowed m)
    (mt_DecisionsAllow m) (mt_DecisionsDeny m) (mt_AllowlistHits m) (mt_AllowlistMisses m)
    (mt_CanaryRequestsEnforced m) x (mt_MismatchCount m) (mt_MismatchLastTime m)
    (mt_AutoDisableEvents m) (mt_EmergencyBypassActivated m) (mt_AuditEvents m).
Definition setm_MismatchCount (x : Z) (m : GateMetrics) : GateMetrics :=
  mkGateMetrics (mt_ModeChanges m) (mt_DecisionsEnforced m) (mt_DecisionsShadowed m)
    (mt_DecisionsAllow m) (mt_DecisionsDeny m) (mt_AllowlistHits m) (mt_AllowlistMisses m)
    (mt_CanaryRequestsEnforced m) (mt_CanaryRequestsShadowed m) x (mt_MismatchLastTime m)
    (mt_AutoDisableEvents m) (mt_EmergencyBypassActivated m) (mt_AuditEvents m).
Definition setm_MismatchLastTime (x : Z) (m : GateMetrics) : GateMetrics :=
  mkGateMetrics (mt_ModeChanges m) (mt_DecisionsEnforced m) (mt_DecisionsShadowed m)
    (mt_DecisionsAllow m) (mt_DecisionsDeny m) (mt_AllowlistHits m) (mt_AllowlistMisses m)
    (mt_CanaryRequestsEnforced m) (mt_CanaryRequestsShadowed m) (mt_MismatchCount m) x
    (mt_AutoDisableEvents m) (mt_EmergencyBypassActivated m) (mt_AuditEvents m).
Definition setm_AutoDisableEvents (x : Z) (m : GateMetrics) : GateMetrics :=
  mkGateMetrics (mt_ModeChanges m) (mt_DecisionsEnforced m) (mt_DecisionsShadowed m)
    (mt_DecisionsAllow m) (mt_DecisionsDeny m) (mt_AllowlistHits m) (mt_AllowlistMisses m)
    (mt_CanaryRequestsEnforced m) (mt_CanaryRequestsShadowed m) (mt_MismatchCount m)
    (mt_MismatchLastTime m) x (mt_EmergencyBypassActivated m) (mt_AuditEvents m).
Definition setm_EmergencyBypassActivated (x : Z) (m : GateMetrics) : GateMetrics :=
  mkGateMetrics (mt_ModeChanges m) (mt_DecisionsEnforced m) (mt_DecisionsShadowed m)
    (mt_DecisionsAllow m) (mt_DecisionsDeny m) (mt_AllowlistHits m) (mt_AllowlistMisses m)
    (mt_CanaryRequestsEnforced m) (mt_CanaryRequestsShadowed m) (mt_MismatchCount m)
    (mt_MismatchLastTime m) (mt_AutoDisableEvents m) x (mt_AuditEvents m).
Definition setm_AuditEvents (x : Z) (m : GateMetrics) : GateMetrics :=
  mkGateMetrics (mt_ModeChanges m) (mt_DecisionsEnforced m) (mt_DecisionsShadowed m)
    (mt_DecisionsAllow m) (mt_DecisionsDeny m) (mt_AllowlistHits m) (mt_AllowlistMisses m)
    (mt_CanaryRequestsEnforced m) (mt_CanaryRequestsShadowed m) (mt_MismatchCount m)
    (mt_MismatchLastTime m) (mt_AutoDisableEvents m) (mt_EmergencyBypassActivated m) x.

(** The counters' methods. *)
Definition RecordModeChange (m : GateMetrics) : GateMetrics :=
  setm_ModeChanges (wrap64 (mt_ModeChanges m + 1)) m.
Definition RecordDecisionEnforced (allowed : bool) (m : GateMetrics) : GateMetrics :=
  let m1 := setm_DecisionsEnforced (wrap64 (mt_DecisionsEnforced m + 1)) m in
  if allowed then setm_DecisionsAllow (wrap64 (mt_DecisionsAllow m1 + 1)) m1
  else setm_DecisionsDeny (wrap64 (mt_DecisionsDeny m1 + 1)) m1.
Definition RecordDecisionShadowed (m : GateMetrics) : GateMetrics :=
  setm_DecisionsShadowed (wrap64 (mt_DecisionsShadowed m + 1)) m.
Definition RecordAllowlistHit (m : GateMetrics) : GateMetrics :=
  setm_AllowlistHits (wrap64 (mt_AllowlistHits m + 1)) m.
Definition RecordAllowlistMiss (m : GateMetrics) : GateMetrics :=
  setm_AllowlistMisses (wrap64 (mt_AllowlistMisses m + 1)) m.
Definition RecordCanaryEnforced (m : GateMetrics) : GateMetrics :=
  setm_CanaryRequestsEnforced (wrap64 (mt_CanaryRequestsEnforced m + 1)) m.
Definition RecordCanaryShadowed (m : GateMetrics) : GateMetrics :=
  setm_CanaryRequestsShadowed (wrap64 (mt_CanaryRequestsShadowed m + 1)) m.
Definition metrics_RecordMismatch (now : Z) (m : GateMetrics) : GateMetrics :=
  setm_MismatchLastTime now (setm_MismatchCount (wrap64 (mt_MismatchCount m + 1)) m).
Definition RecordAutoDisable (m : GateMetrics) : GateMetrics :=
  setm_AutoDisableEvents (wrap64 (mt_AutoDisableEvents m + 1)) m.
Definition RecordEmergencyBypass (m : GateMetrics) : GateMetrics :=
  setm_EmergencyBypassActivated (wrap64 (mt_EmergencyBypassActivated m + 1)) m.
Definition RecordAuditEvent (m : GateMetrics) : GateMetrics :=
  setm_AuditEvents (wrap64 (mt_AuditEvents m + 1)) m.

(** [a / b * 100] in float64, the percentage the gate compares with its thresholds. *)
Definition percentage (a b : Z) : float64 :=
  f64_mul (f64_div (f64_of_Z a) (f64_of_Z b)) (f64_of_Z 100).

Definition GetMismatchRate (m : GateMetrics) : float64 :=
  let total := wrap64 (mt_DecisionsEnforced m + mt_DecisionsShadowed m) in
  if total =? 0 then f64_of_Z 0 else percentage (mt_MismatchCount m) total.

(** ** The gate *)

Record EnforcementGate := mkGate {
  g_options : GateOptions;
  g_mode : string;
  g_enabledAt : Z;
  g_bypassSet : gset string;
  g_closed : bool;
  g_closeReason : string;
  g_mismatchCount : Z;
  g_mismatchThreshold : Z;
  g_lastMismatchTime : Z;
  g_autoDisabled : bool;
  g_autoDisableReason : string;
  g_canaryRequestCount : Z;
  g_comparisonTotalCount : Z;
  g_comparisonMatchCount : Z;
  g_consecutiveMatchCount : Z;
  g_thresholdMet : bool;
  g_thresholdMetAt : Z;
  g_metrics : GateMetrics
}.

Definition set_options (x : GateOptions) (g : EnforcementGate) : EnforcementGate :=
  mkGate x (g_mode g) (g_enabledAt g) (g_bypassSet g) (g_closed g) (g_closeReason g)
    (g_mismatchCount g) (g_mismatchThreshold g) (g_lastMismatchTime g) (g_autoDisabled g)
    (g_autoDisableReason g) (g_canaryRequestCount g) (g_comparisonTotalCount g)
    (g_comparisonMatchCount g) (g_consecutiveMatchCount g) (g_thresholdMet g) (g_thresholdMetAt g)
    (g_metrics g).
Definition set_mode (x : string) (g : EnforcementGate) : EnforcementGate :=
  mkGate (g_options g) x (g_enabledAt g) (g_bypassSet g) (g_closed g) (g_closeReason g)
    (g_mismatchCount g) (g_mismatchThreshold g) (g_lastMismatchTime g) (g_autoDisabled g)
    (g_autoDisableReason g) (g_canaryRequestCount g) (g_comparisonTotalCount g)
    (g_comparisonMatchCount g) (g_consecutiveMatchCount g) (g_thresholdMet g) (g_thresholdMetAt g)
    (g_metrics g).
Definition set_enabledAt (x : Z) (g : EnforcementGate) : EnforcementGate :=
  mkGate (g_options g) (g_mode g) x (g_bypassSet g) (g_closed g) (g_closeReason g)
    (g_mismatchCount g) (g_mismatchThreshold g) (g_lastMismatchTime g) (g_autoDisabled g)
    (g_autoDisableReason g) (g_canaryRequestCount g) (g_comparisonTotalCount g)
    (g_comparisonMatchCount g) (g_consecutiveMatchCount g) (g_thresholdMet g) (g_thresholdMetAt g)
    (g_metrics g).
Definition set_bypassSet (x : gset string) (g : EnforcementGate) : EnforcementGate :=
  mkGate (g_options g) (g_mode g) (g_enabledAt g) x (g_closed g) (g_closeReason g)
    (g_mismatchCount g) (g_mismatchThreshold g) (g_lastMismatchTime g) (g_autoDisabled g)
    (g_autoDisableReason g) (g_canaryRequestCount g) (g_comparisonTotalCount g)
    (g_comparisonMatchCount g) (g_consecutiveMatchCount g) (g_thresholdMet g) (g_thresholdMetAt g)
    (g_metrics g).
Definition set_closed (x : bool) (g : EnforcementGate) : EnforcementGate :=
  mkGate (g_options g) (g_mode g) (g_enabledAt g) (g_bypassSet g) x (g_closeReason g)
    (g_mismatchCount g) (g_mismatchThreshold g) (g_lastMismatchTime g) (g_autoDisabled g)
    (g_autoDisableReason g) (g_canaryRequestCount g) (g_comparisonTotalCount g)
    (g_comparisonMatchCount g) (g_consecutiveMatchCount g) (g_thresholdMet g) (g_thresholdMetAt g)
    (g_metrics g).
Definition set_closeReason (x : string) (g : EnforcementGate) : EnforcementGate :=
  mkGate (g_options g) (g_mode g) (g_enabledAt g) (g_bypassSet g) (g_closed g) x
    (g_mismatchCount g) (g_mismatchThreshold g) (g_lastMismatchTime g) (g_autoDisabled g)
    (g_autoDisableReason g) (g_canaryRequestCount g) (g_comparisonTotalCount g)
    (g_comparisonMatchCount g) (g_consecutiveMatchCount g) (g_thresholdMet g) (g_thresholdMetAt g)
    (g_metrics g).
Definition set_mismatchCount (x : Z) (g : EnforcementGate) : EnforcementGate :=
  mkGate (g_options g) (g_mode g) (g_enabledAt g) (g_bypassSet g) (g_closed g) (g_closeReason g) x
    (g_mismatchThreshold g) (g_lastMismatchTime g) (g_autoDisabled g) (g_autoDisableReason g)
    (g_canaryRequestCount g) (g_comparisonTotalCount g) (g_comparisonMatchCount g)
    (g_consecutiveMatchCount g) (g_thresholdMet g) (g_thresholdMetAt g) (g_metrics g).
Definition set_mismatchThreshold (x : Z) (g : EnforcementGate) : EnforcementGate :=
  mkGate (g_options g) (g_mode g) (g_enabledAt g) (g_bypassSet g) (g_closed g) (g_closeReason g)
    (g_mismatchCount g) x (g_lastMismatchTime g) (g_autoDisabled g) (g_autoDisableReason g)
    (g_canaryRequestCount g) (g_comparisonTotalCount g) (g_comparisonMatchCount g)
    (g_consecutiveMatchCount g) (g_thresholdMet g) (g_thresholdMetAt g) (g_metrics g).
Definition set_lastMismatchTime (x : Z) (g : EnforcementGate) : EnforcementGate :=
  mkGate (g_options g) (g_mode g) (g_enabledAt g) (g_bypassSet g) (g_closed g) (g_closeReason g)
    (g_mismatchCount g) (g_mismatchThreshold g) x (g_autoDisabled g) (g_autoDisableReason g)
    (g_canaryRequestCount g) (g_comparisonTotalCount g) (g_comparisonMatchCount g)
    (g_consecutiveMatchCount g) (g_thresholdMet g) (g_thresholdMetAt g) (g_metrics g).
Definition set_autoDisabled (x : bool) (g : EnforcementGate) : EnforcementGate :=
  mkGate (g_options g) (g_mode g) (g_enabledAt g) (g_bypassSet g) (g_closed g) (g_closeReason g)
    (g_mismatchCount g) (g_mismatchThreshold g) (g_lastMismatchTime g) x (g_autoDisableReason g)
    (g_canaryRequestCount g) (g_comparisonTotalCount g) (g_comparisonMatchCount g)
    (g_consecutiveMatchCount g) (g_thresholdMet g) (g_thresholdMetAt g) (g_metrics g).
Definition set_autoDisableReason (x : string) (g : EnforcementGate) : EnforcementGate :=
  mkGate (g_options g) (g_mode g) (g_enabledAt g) (g_bypassSet g) (g_closed g) (g_closeReason g)
    (g_mismatchCount g) (g_mismatchThreshold g) (g_lastMismatchTime g) (g_autoDisabled g) x
    (g_canaryRequestCount g) (g_comparisonTotalCount g) (g_comparisonMatchCount g)
    (g_consecutiveMatchCount g) (g_thresholdMet g) (g_thresholdMetAt g) (g_metrics g).
Definition set_canaryRequestCount (x : Z) (g : EnforcementGate) : EnforcementGate :=
  mkGate (g_options g) (g_mode g) (g_enabledAt g) (g_bypassSet g) (g_closed g) (g_closeReason g)
    (g_mismatchCount g) (g_mismatchThreshold g) (g_lastMismatchTime g) (g_autoDisabled g)
    (g_autoDisableReason g) x (g_comparisonTotalCount g) (g_comparisonMatchCount g)
    (g_consecutiveMatchCount g) (g_thresholdMet g) (g_thresholdMetAt g) (g_metrics g).
Definition set_comparisonTotalCount (x : Z) (g : EnforcementGate) : EnforcementGate :=
  mkGate (g_options g) (g_mode g) (g_enabledAt g) (g_bypassSet g) (g_closed g) (g_closeReason g)
    (g_mismatchCount g) (g_mismatchThreshold g) (g_lastMismatchTime g) (g_autoDisabled g)
    (g_autoDisableReason g) (g_canaryRequestCount g) x (g_comparisonMatchCount g)
    (g_consecutiveMatchCount g) (g_thresholdMet g) (g_thresholdMetAt g) (g_metrics g).
Definition set_comparisonMatchCount (x : Z) (g : EnforcementGate) : EnforcementGate :=
  mkGate (g_options g) (g_mode g) (g_enabledAt g) (g_bypassSet g) (g_closed g) (g_closeReason g)
    (g_mismatchCount g) (g_mismatchThreshold g) (g_lastMismatchTime g) (g_autoDisabled g)
    (g_autoDisableReason g) (g_canaryRequestCount g) (g_comparisonTotalCount g) x
    (g_consecutiveMatchCount g) (g_thresholdMet g) (g_thresholdMetAt g) (g_metrics g).
Definition set_consecutiveMatchCount (x : Z) (g : EnforcementGate) : EnforcementGate :=
  mkGate (g_options g) (g_mode g) (g_enabledAt g) (g_bypassSet g) (g_closed g) (g_closeReason g)
    (g_mismatchCount g) (g_mismatchThreshold g) (g_lastMismatchTime g) (g_autoDisabled g)
    (g_autoDisableReason g) (g_canaryRequestCount g) (g_comparisonTotalCount g)
    (g_comparisonMatchCount g) x (g_thresholdMet g) (g_thresholdMetAt g) (g_metrics g).
Definition set_thresholdMet (x : bool) (g : EnforcementGate) : EnforcementGate :=
  mkGate (g_options g) (g_mode g) (g_enabledAt g) (g_bypassSet g) (g_closed g) (g_closeReason g)
    (g_mismatchCount g) (g_mismatchThreshold g) (g_lastMismatchTime g) (g_autoDisabled g)
    (g_autoDisableReason g) (g_canaryRequestCount g) (g_comparisonTotalCount g)
    (g_comparisonMatchCount g) (g_consecutiveMatchCount g) x (g_thresholdMetAt g) (g_metrics g).
Definition set_thresholdMetAt (x : Z) (g : EnforcementGate) : EnforcementGate :=
  mkGate (g_options g) (g_mode g) (g_enabledAt g) (g_bypassSet g) (g_closed g) (g_closeReason g)
    (g_mismatchCount g) (g_mismatchThreshold g) (g_lastMismatchTime g) (g_autoDisabled g)
    (g_autoDisableReason g) (g_canaryRequestCount g) (g_comparisonTotalCount g)
    (g_comparisonMatchCount g) (g_consecutiveMatchCount g) (g_thresholdMet g) x (g_metrics g).
Definition set_metrics (x : GateMetrics) (g : EnforcementGate) : EnforcementGate :=
  mkGate (g_options g) (g_mode g) (g_enabledAt g) (g_bypassSet g) (g_closed g) (g_closeReason g)
    (g_mismatchCount g) (g_mismatchThreshold g) (g_lastMismatchTime g) (g_autoDisabled g)
    (g_autoDisableReason g) (g_canaryRequestCount g) (g_comparisonTotalCount g)
    (g_comparisonMatchCount g) (g_consecutiveMatchCount g) (g_thresholdMet g) (g_thresholdMetAt g)
    x.

Definition Snapshot (m : GateMetrics) : GateMetrics :=
  mkGateMetrics (mt_ModeChanges m) (mt_DecisionsEnforced m) (mt_DecisionsShadowed m)
    (mt_DecisionsAllow m) (mt_DecisionsDeny m) (mt_AllowlistHits m) (mt_AllowlistMisses m)
    (mt_CanaryRequestsEnforced m) (mt_CanaryRequestsShadowed m) (mt_MismatchCount m)
    (mt_MismatchLastTime m) (mt_AutoDisableEvents m) (mt_EmergencyBypassActivated m)
    (mt_AuditEvents m).

Definition upd_metrics (f : GateMetrics -> GateMetrics) (g : EnforcementGate) : EnforcementGate :=
  set_metrics (f (g_metrics g)) g.

(** The log helpers count an audit event when there is a logger. *)
Definition logAudit (g : EnforcementGate) : EnforcementGate :=
  if go_HasLogger (g_options g) then upd_metrics RecordAuditEvent g else g.

(** [generateEmergencyBypassToken]: half of a SHA-256 of the clock, in hexadecimal. *)
Definition generateEmergencyBypassToken (now : Z) : string :=
  stake 32 (sha256Hex (String.append "emergency-bypass-"
                         (FormatInt (now - unix_epoch_seconds * second)))).

Definition DefaultEnforcementGateOptions (now : Z) : GateOptions :=
  mkOptions EnforcementModeShadow false true (generateEmergencyBypassToken now) 0 [] []
    ["GET"; "HEAD"] 0 (mkCanary false CanaryModePercentage 1 "" "" []) true false 100 0 false.

Definition with_start (o : GateOptions) (initial token : string) : GateOptions :=
  mkOptions initial (go_AllowEnforcement o) (go_EmergencyBypassEnabled o) token
    (go_MaxEnforcementDuration o) (go_ResourceAllowlist o) (go_StorageAllowlist o)
    (go_MethodAllowlist o) (go_AutoDisableOnMismatchThreshold o) (go_CanaryConfig o)
    (go_RequireMultipleAuthors o) (go_RequireComparisonThreshold o)
    (go_ComparisonThresholdPercentage o) (go_ComparisonThresholdCount o) (go_HasLogger o).

Definition NewEnforcementGate (now : Z) (o : GateOptions) : result gate_error EnforcementGate :=
  let cc := go_CanaryConfig o in
  fail! ErrInvalidAllowlistPattern
    when negb (forallb validatePattern (go_ResourceAllowlist o)) in
  fail! ErrInvalidAllowlistPattern
    when negb (forallb validatePattern (go_StorageAllowlist o)) in
  fail! ErrInvalidAllowlistPattern when negb (forallb validatePattern (cc_PathPatterns cc)) in
  fail! ErrGateConfig "canary percentage must be between 0 and 100"
    when cc_Enabled cc && ((cc_Percentage cc <? 0) || (100 <? cc_Percentage cc)) in
  fail! ErrGateConfig "canary header name is required for header mode"
    when cc_Enabled cc && String.eqb (cc_Mode cc) CanaryModeHeader &&
         String.eqb (cc_HeaderName cc) "" in
  fail! ErrGateConfig "auto-disable mismatch threshold must be between 0 and 100"
    when (go_AutoDisableOnMismatchThreshold o <? 0) ||
         (100 <? go_AutoDisableOnMismatchThreshold o) in
  fail! ErrGateConfig "comparison threshold percentage must be between 0 and 100"
    when (go_ComparisonThresholdPercentage o <? 0) ||
         (100 <? go_ComparisonThresholdPercentage o) in
  fail! ErrGateConfig "comparison threshold count must be non-negative"
    when go_ComparisonThresholdCount o <? 0 in
  let initial := if String.eqb (go_InitialMode o) "" then EnforcementModeShadow
                 else go_InitialMode o in
  let token := if String.eqb (go_EmergencyBypassToken o) ""
               then generateEmergencyBypassToken now else go_EmergencyBypassToken o in
  let o' := with_start o initial token in
  Ok (mkGate o' initial 0 ∅ false "" 0 (go_AutoDisableOnMismatchThreshold o') 0 false "" 0 0 0 0
        false 0 zeroMetrics).

(** ** Readers *)

Definition is_mode (g : EnforcementGate) (m : string) : bool := String.eqb (g_mode g) m.
Definition enforcing (m : string) : bool :=
  String.eqb m EnforcementModeEnforce || String.eqb m EnforcementModeDryRun ||
  String.eqb m EnforcementModeCanary.

Definition IsEnforcementAllowed (g : EnforcementGate) : bool := go_AllowEnforcement (g_options g).
Definition IsShadowMode (g : EnforcementGate) : bool := is_mode g EnforcementModeShadow.
Definition IsEnforceMode (g : EnforcementGate) : bool := enforcing (g_mode g).
Definition IsEmergencyBypassActive (g : EnforcementGate) : bool :=
  bool_decide (0 < size (g_bypassSet g))%nat.
Definition ShouldAddDryRunHeader (g : EnforcementGate) : bool :=
  is_mode g EnforcementModeDryRun && negb (g_closed g).
Definition ShouldAddCanaryHeader (g : EnforcementGate) : bool :=
  is_mode g EnforcementModeCanary && negb (g_closed g).
Definition GetMatchPercentage (g : EnforcementGate) : float64 :=
  if g_comparisonTotalCount g =? 0 then f64_of_Z 0
  else percentage (g_comparisonMatchCount g) (g_comparisonTotalCount g).
Definition GetComparisonStats (g : EnforcementGate) : Z * Z * Z * bool :=
  (g_comparisonTotalCount g, g_comparisonMatchCount g, g_consecutiveMatchCount g, g_thresholdMet g).

(** ** Mode changes *)

Definition clearAutoDisable (g : EnforcementGate) : EnforcementGate :=
  set_autoDisableReason "" (set_autoDisabled false g).

Definition SetMode (now : Z) (mode : string) (g : EnforcementGate)
  : EnforcementGate * result gate_error unit :=
  if g_closed g then (g, Err (ErrEnforcementGateClosed (g_closeReason g)))
  else if enforcing mode && negb (go_AllowEnforcement (g_options g)) then
    (g, Err ErrEnforcementNotAllowed)
  else if enforcing mode && go_RequireComparisonThreshold (g_options g) && negb (g_thresholdMet g)
  then (g, Err ErrThresholdNotMet)
  else
    let g1 := if enforcing mode
              then upd_metrics RecordModeChange (clearAutoDisable (logAudit (set_enabledAt now g)))
              else g in
    let g2 := if String.eqb mode EnforcementModeShadow
              then upd_metrics RecordModeChange (logAudit (clearAutoDisable g1))
              else g1 in
    (set_mode mode g2, Ok tt).

Definition EnableEnforcement (now : Z) := SetMode now EnforcementModeEnforce.
Definition EnableDryRun (now : Z) := SetMode now EnforcementModeDryRun.
Definition EnableCanary (now : Z) := SetMode now EnforcementModeCanary.

Definition DisableEnforcement (g : EnforcementGate) : EnforcementGate :=
  upd_metrics RecordModeChange
    (logAudit (clearAutoDisable (set_mode EnforcementModeShadow g))).

Definition EmergencyBypass (token : string) (g : EnforcementGate) : EnforcementGate * bool :=
  if negb (go_EmergencyBypassEnabled (g_options g)) then (g, false)
  else if String.eqb token (go_EmergencyBypassToken (g_options g)) then
    (upd_metrics RecordEmergencyBypass
       (logAudit (set_bypassSet ({[token]} ∪ g_bypassSet g) g)), true)
  else (g, false).

Definition ClearEmergencyBypass (token : string) (g : EnforcementGate) : EnforcementGate :=
  set_bypassSet (g_bypassSet g ∖ {[token]}) g.

Definition Close (reason : string) (g : EnforcementGate) : EnforcementGate :=
  logAudit (set_closeReason reason (set_closed true g)).

Definition Reopen (g : EnforcementGate) : EnforcementGate :=
  logAudit (set_closeReason "" (set_closed false g)).

Definition CheckEnforcementDuration (now : Z) (g : EnforcementGate) : bool :=
  if go_MaxEnforcementDuration (g_options g) =? 0 then false
  else if negb (enforcing (g_mode g)) then false
  else go_MaxEnforcementDuration (g_options g) <? time_Sub now (g_enabledAt g).

Definition AutoRevertIfNeeded (now : Z) (g : EnforcementGate) : EnforcementGate :=
  if go_MaxEnforcementDuration (g_options g) =? 0 then g
  else if negb (enforcing (g_mode g)) then g
  else if go_MaxEnforcementDuration (g_options g) <? time_Sub now (g_enabledAt g) then
    upd_metrics RecordModeChange (logAudit (set_mode EnforcementModeShadow g))
  else g.

(** ** Which requests are enforced *)

(** What the gate reads of a request: [req.Method], [req.URL.String()], [req.URL.Host],
    [req.URL.Path] and [req.Header.Get]. *)
Record GateRequest := mkGateRequest {
  gr_Method : string;
  gr_URL : string;
  gr_Host : string;
  gr_Path : string;
  gr_Header : string -> string
}.

Definition ShouldEnforce (g : EnforcementGate) : bool :=
  if g_closed g then false
  else if g_autoDisabled g then false
  else if IsEmergencyBypassActive g then false
  else enforcing (g_mode g).

Definition isCanaryRequest (req : GateRequest) (g : EnforcementGate) : EnforcementGate * bool :=
  let cc := go_CanaryConfig (g_options g) in
  if negb (cc_Enabled cc) then (g, false)
  else if String.eqb (cc_Mode cc) CanaryModePercentage then
    let count := wrap64 (g_canaryRequestCount g + 1) in
    let g1 := set_canaryRequestCount count g in
    if Z.rem count 100 <? cc_Percentage cc then (upd_metrics RecordCanaryEnforced g1, true)
    else (upd_metrics RecordCanaryShadowed g1, false)
  else if String.eqb (cc_Mode cc) CanaryModeHeader then
    if String.eqb (cc_HeaderName cc) "" then (g, false)
    else (g, String.eqb (gr_Header req (cc_HeaderName cc)) (cc_HeaderValue cc))
  else if String.eqb (cc_Mode cc) CanaryModePath then
    (g, existsb (fun pattern => matchPattern pattern (gr_Path req)) (cc_PathPatterns cc))
  else (g, false).

Definition isMethodAllowlisted (g : EnforcementGate) (method : string) : bool :=
  match go_MethodAllowlist (g_options g) with
  | [] => true
  | l => existsb (fun allowed => String.eqb (ToUpper allowed) (ToUpper method)) l
  end.

Definition isResourceAllowlisted (g : EnforcementGate) (resource : string) : bool :=
  match go_ResourceAllowlist (g_options g) with
  | [] => true
  | l => match Parse resource with
         | Err _ => false
         | Ok u => existsb (fun pattern => matchPattern pattern (Path u)) l
         end
  end.

Definition isStorageAllowlisted (g : EnforcementGate) (host : string) : bool :=
  match go_StorageAllowlist (g_options g) with
  | [] => true
  | l => existsb (fun pattern => matchPattern pattern host) l
  end.

Definition ShouldEnforceForRequest (req : GateRequest) (g : EnforcementGate)
  : EnforcementGate * bool :=
  if negb (ShouldEnforce g) then (g, false)
  else if is_mode g EnforcementModeCanary then isCanaryRequest req g
  else if negb (isMethodAllowlisted g (gr_Method req)) then
    (upd_metrics RecordAllowlistMiss g, false)
  else if negb (isResourceAllowlisted g (gr_URL req)) then
    (upd_metrics RecordAllowlistMiss g, false)
  else if negb (isStorageAllowlisted g (gr_Host req)) then
    (upd_metrics RecordAllowlistMiss g, false)
  else (upd_metrics RecordAllowlistHit g, true).

(** ** Mismatches and comparison thresholds *)

(** [fmt.Sprintf] of the auto-disable reason. *)
Definition autoDisableMessage (rate : float64) (threshold : Z) : string :=
  String.append "mismatch rate " (String.append (FormatFloat2 rate)
    (String.append "% exceeded threshold " (String.append (FormatInt threshold) "%"))).

Definition RecordMismatch (now : Z) (g : EnforcementGate) : EnforcementGate :=
  let g1 := upd_metrics (metrics_RecordMismatch now)
              (set_lastMismatchTime now (set_mismatchCount (wrap64 (g_mismatchCount g + 1)) g)) in
  let threshold := go_AutoDisableOnMismatchThreshold (g_options g1) in
  if 0 <? threshold then
    let total := wrap64 (mt_DecisionsEnforced (g_metrics g1) + mt_DecisionsShadowed (g_metrics g1)) in
    if 0 <? total then
      let rate := percentage (g_mismatchCount g1) total in
      if f64_lt (f64_of_Z threshold) rate then
        logAudit (upd_metrics RecordAutoDisable
          (set_autoDisableReason (autoDisableMessage rate threshold) (set_autoDisabled true g1)))
      else g1
    else g1
  else g1.

Definition ClearMismatches (g : EnforcementGate) : EnforcementGate :=
  let g1 := set_lastMismatchTime 0 (set_mismatchCount 0 g) in
  if g_autoDisabled g1 then logAudit (clearAutoDisable g1) else g1.

Definition DecorateDecision (g : EnforcementGate) (d : Decision) : Decision := d.

Definition setThresholdMet (now : Z) (g : EnforcementGate) : EnforcementGate :=
  if negb (g_thresholdMet g) then
    upd_metrics RecordAuditEvent (set_thresholdMetAt now (set_thresholdMet true g))
  else g.

(** Whether the counters satisfy the configured thresholds. *)
Definition consecutiveMet (g : EnforcementGate) : bool :=
  if 0 <? go_ComparisonThresholdCount (g_options g)
  then go_ComparisonThresholdCount (g_options g) <=? g_consecutiveMatchCount g
  else true.

Definition percentageMet (g : EnforcementGate) : bool :=
  if (0 <? go_ComparisonThresholdPercentage (g_options g)) && (0 <? g_comparisonTotalCount g)
  then f64_le (f64_of_Z (go_ComparisonThresholdPercentage (g_options g)))
              (percentage (g_comparisonMatchCount g) (g_comparisonTotalCount g))
  else true.

Definition RecordComparisonResult (now : Z) (matched : bool) (g : EnforcementGate)
  : EnforcementGate :=
  let g1 := set_comparisonTotalCount (wrap64 (g_comparisonTotalCount g + 1)) g in
  if matched then
    let g2 := set_consecutiveMatchCount (wrap64 (g_consecutiveMatchCount g1 + 1))
                (set_comparisonMatchCount (wrap64 (g_comparisonMatchCount g1 + 1)) g1) in
    if consecutiveMet g2 && percentageMet g2 then setThresholdMet now g2 else g2
  else
    let g2 := set_consecutiveMatchCount 0 g1 in
    if g_thresholdMet g2 then set_thresholdMetAt 0 (set_thresholdMet false g2) else g2.

Definition ResetComparisonResults (g : EnforcementGate) : EnforcementGate :=
  set_thresholdMetAt 0 (set_thresholdMet false (set_consecutiveMatchCount 0
    (set_comparisonMatchCount 0 (set_comparisonTotalCount 0 g)))).

(** [EnforcementGateMiddleware]: the response headers it sets, and the gate the next handler
    sees. *)
Definition EnforcementGateMiddleware (now : Z) (g : EnforcementGate)
  : EnforcementGate * list (string * string) :=
  (AutoRevertIfNeeded now g,
   [("X-Authz-Enforcement-Mode", g_mode g)] ++
   (if ShouldAddDryRunHeader g then [("X-Authz-Mode", "dry-run")] else []) ++
   (if ShouldAddCanaryHeader g then [("X-Authz-Canary", "true")] else [])).

(** ** Histories of a gate *)

Inductive gate_op :=
| OpSetMode (now : Z) (mode : string)
| OpDisableEnforcement
| OpEmergencyBypass (token : string)
| OpClearEmergencyBypass (token : string)
| OpClose (reason : string)
| OpReopen
| OpMiddleware (now : Z)
| OpRequest (req : GateRequest)
| OpRecordMismatch (now : Z)
| OpClearMismatches
| OpRecordComparison (now : Z) (matched : bool)
| OpResetComparison.

Definition gate_step (g : EnforcementGate) (op : gate_op) : EnforcementGate :=
  match op with
  | OpSetMode now mode => (SetMode now mode g).1
  | OpDisableEnforcement => DisableEnforcement g
  | OpEmergencyBypass token => (EmergencyBypass token g).1
  | OpClearEmergencyBypass token => ClearEmergencyBypass token g
  | OpClose reason => Close reason g
  | OpReopen => Reopen g
  | OpMiddleware now => (EnforcementGateMiddleware now g).1
  | OpRequest req => (ShouldEnforceForRequest req g).1
  | OpRecordMismatch now => RecordMismatch now g
  | OpClearMismatches => ClearMismatches g
  | OpRecordComparison now m => RecordComparisonResult now m g
  | OpResetComparison => ResetComparisonResults g
  end.

(** The states a gate can be in. *)
Inductive reachable (g0 : EnforcementGate) : EnforcementGate -> Prop :=
| reach_start : reachable g0 g0
| reach_step g op : reachable g0 g -> reachable g0 (gate_step g op).

(** The gate after some operations. *)
Definition run (g0 : EnforcementGate) (ops : list gate_op) : EnforcementGate := foldl gate_step g0 ops.

(** The operations that take a met threshold back. *)
Definition takes_back (op : gate_op) : bool :=
  match op with
  | OpRecordComparison _ false | OpResetComparison => true
  | _ => false
  end.

(** ** Lemmas *)

(** Unfolds the operations down to the fields of the record. *)
Ltac gate_unfold :=
  unfold gate_step, SetMode, DisableEnforcement, EmergencyBypass, ClearEmergencyBypass, Close,
    Reopen, EnforcementGateMiddleware, AutoRevertIfNeeded, ShouldEnforceForRequest,
    isCanaryRequest, RecordMismatch, ClearMismatches, RecordComparisonResult, setThresholdMet,
    ResetComparisonResults, clearAutoDisable, logAudit, upd_metrics.

Lemma step_options (g : EnforcementGate) (op : gate_op) : g_options (gate_step g op) = g_options g.
Proof. destruct op; gate_unfold; repeat break_if; reflexivity. Qed.

Lemma run_snoc (g0 : EnforcementGate) (ops : list gate_op) (op : gate_op) : run g0 (ops ++ [op]) = gate_step (run g0 ops) op.
Proof. unfold run. by rewrite foldl_app. Qed.

Lemma run_options (g0 : EnforcementGate) (ops : list gate_op) : g_options (run g0 ops) = g_options g0.
Proof. induction ops as [|op ops IH] using rev_ind; [done|]. by rewrite run_snoc, step_options. Qed.

Lemma reachable_options (g0 g : EnforcementGate) : reachable g0 g -> g_options g = g_options g0.
Proof. induction 1 as [|g op _ IH]; [done|]. by rewrite step_options. Qed.

(** Only a successful [SetMode] brings the gate into an enforcing mode. *)
Lemma step_enforcing (g : EnforcementGate) (op : gate_op) :
  enforcing (g_mode (gate_step g op)) = true ->
  enforcing (g_mode g) = true \/
  exists now mode, op = OpSetMode now mode /\ enforcing mode = true /\ (SetMode now mode g).2 = Ok tt /\
    go_AllowEnforcement (g_options g) = true /\ (go_RequireComparisonThreshold (g_options g) = true -> g_thresholdMet g = true).
Proof.
  destruct op as [now mode| | | | | | | | | | |]; try (gate_unfold; repeat break_if; intros He; by left).
  unfold gate_step, SetMode. destruct (g_closed g); [by left|].
  destruct (enforcing mode) eqn:Hm; cbn [andb]; [|cbn; congruence].
  destruct (go_AllowEnforcement (g_options g)); cbn [negb]; [|by left].
  destruct (go_RequireComparisonThreshold (g_options g)), (g_thresholdMet g); cbn [negb andb]; intros He; try (by left); right; exists now, mode; rewrite Hm; by split_and!.
Qed.

(** A threshold is met only in a state whose counters satisfy the configuration. *)
Lemma step_thresholdMet (g : EnforcementGate) (op : gate_op) :
  g_thresholdMet (gate_step g op) = true ->
  g_thresholdMet g = true \/
  (consecutiveMet (gate_step g op) = true /\ percentageMet (gate_step g op) = true).
Proof.
  destruct op as [| | | | | | | | | |now m|]; try (gate_unfold; repeat break_if; intros He; by left).
  - unfold gate_step, RecordComparisonResult. cbv zeta. destruct m.
    + match goal with |- context [consecutiveMet ?x && _] => set (g2 := x) end.
      destruct (consecutiveMet g2) eqn:H1, (percentageMet g2) eqn:H2; cbn [andb]; try (by left).
      unfold setThresholdMet. break_if; [right|by left].
      unfold consecutiveMet, percentageMet in *. by cbn in *.
    + break_if; [done|]. by left.
Qed.

Lemma takes_back_unmet (g : EnforcementGate) (op : gate_op) : takes_back op = true -> g_thresholdMet (gate_step g op) = false.
Proof. destruct op as [| | | | | | | | | |now []|]; try done. intros _. gate_unfold. cbv zeta. by break_if. Qed.

(** A met threshold goes back to a state with satisfied counters, and nothing has taken it back
    since. *)
Lemma run_thresholdMet (g0 : EnforcementGate) (ops : list gate_op) :
  g_thresholdMet g0 = false -> g_thresholdMet (run g0 ops) = true ->
  exists pre since, ops = pre ++ since /\ consecutiveMet (run g0 pre) = true /\ percentageMet (run g0 pre) = true /\
    forallb (fun op => negb (takes_back op)) since = true.
Proof.
  intros H0. induction ops as [|op ops IH] using rev_ind; [cbn; congruence|]. rewrite run_snoc. intros Hm.
  assert (takes_back op = false) as Ht by (destruct (takes_back op) eqn:E; [by rewrite takes_back_unmet in Hm|done]).
  destruct (step_thresholdMet _ op Hm) as [Hm'|[H1 H2]].
  - destruct (IH Hm') as (pre & since & -> & H1 & H2 & H3). exists pre, (since ++ [op]). rewrite app_assoc. split_and!; [done..|].
    by rewrite forallb_app, H3; cbn; rewrite Ht.
  - exists (ops ++ [op]), []. rewrite run_snoc, app_nil_r. done.
Qed.

(** A gate that enforces has done so since a successful [SetMode]. *)
Lemma run_enforcing (g0 : EnforcementGate) (ops : list gate_op) :
  enforcing (g_mode g0) = false -> enforcing (g_mode (run g0 ops)) = true ->
  exists pre now mode post, ops = pre ++ OpSetMode now mode :: post /\ enforcing mode = true /\ (SetMode now mode (run g0 pre)).2 = Ok tt /\
    go_AllowEnforcement (g_options g0) = true /\
    (go_RequireComparisonThreshold (g_options g0) = true -> g_thresholdMet (run g0 pre) = true) /\
    (forall mid, mid `prefix_of` post -> enforcing (g_mode (run g0 (pre ++ OpSetMode now mode :: mid))) = true).
Proof.
  intros H0. induction ops as [|op ops IH] using rev_ind; [cbn; congruence|]. intros He. pose proof He as He0. rewrite run_snoc in He.
  destruct (step_enforcing _ op He) as [He'|(now & mode & -> & Hm & Hok & Ha & Ht)].
  - destruct (IH He') as (pre & now & mode & post & -> & Hm & Hok & Ha & Ht & Hall).
    exists pre, now, mode, (post ++ [op]). rewrite <- app_assoc in *. split_and!; [done..|].
    intros mid [k Hk]. destruct k as [|x k _] using rev_ind; [rewrite app_nil_r in Hk; by subst|].
    rewrite app_assoc in Hk. apply app_inj_tail in Hk as [-> _]. apply Hall. by eexists.
  - exists ops, now, mode, []. rewrite run_options in Ha, Ht. split_and!; try done.
    intros mid ->%prefix_nil_inv. done.
Qed.

Lemma NewEnforcementGate_Ok (now : Z) (o : GateOptions) (g0 : EnforcementGate) :
  NewEnforcementGate now o = Ok g0 ->
  g0 = mkGate (g_options g0) (g_mode g0) 0 ∅ false "" 0 (go_AutoDisableOnMismatchThreshold o) 0
         false "" 0 0 0 0 false 0 zeroMetrics /\
  go_AllowEnforcement (g_options g0) = go_AllowEnforcement o /\
  go_RequireComparisonThreshold (g_options g0) = go_RequireComparisonThreshold o /\
  go_MaxEnforcementDuration (g_options g0) = go_MaxEnforcementDuration o /\
  go_InitialMode (g_options g0) = g_mode g0 /\
  g_mode g0 = (if String.eqb (go_InitialMode o) "" then EnforcementModeShadow else go_InitialMode o).
Proof.
  unfold NewEnforcementGate. cbv zeta.
  repeat (match goal with |- context [if ?b then Err _ else _] => destruct b end; [discriminate|]).
  intros [= <-]. by split_and!.
Qed.

Lemma ShouldEnforce_mode (g : EnforcementGate) :
  enforcing (g_mode g) = false ->
  ShouldEnforce g = false /\ forall req, (ShouldEnforceForRequest req g).2 = false.
Proof.
  intros Hm. assert (ShouldEnforce g = false) as Hs.
  { unfold ShouldEnforce. by repeat break_if. }
  split; [done|]. intros req. unfold ShouldEnforceForRequest. by rewrite Hs.
Qed.

(** ** Properties *)


Definition sampleOptions (initial : string) (allow : bool) : GateOptions :=
  mkOptions initial allow true "token" (1 * hour) [] [] ["GET"; "HEAD"] 10
    (mkCanary true CanaryModePercentage 25 "" "" []) true true 100 3 false.

Definition sampleGate (initial : string) (allow : bool) : EnforcementGate :=
  mkGate (sampleOptions initial allow) initial 0 ∅ false "" 0 10 0 false "" 0 0 0 0 false 0
    zeroMetrics.

Definition sampleGateRequest (method : string) : GateRequest :=
  mkGateRequest method "/notes/1" "" "/notes/1" (fun _ => "").

(** Three matching comparisons, then enforcement is switched on. *)
Definition sampleOps : list gate_op :=
  [OpRecordComparison 1 true; OpRecordComparison 2 true; OpRecordComparison 3 true; OpSetMode 4 EnforcementModeEnforce].


(** The start mode is not subject to the guardrails: a gate that may not enforce, and has
    recorded no comparison, enforces from its creation when its initial mode says so. *)
Theorem initial_mode_skips_guardrail (now : Z) (o : GateOptions) (g0 : EnforcementGate) :
  NewEnforcementGate now o = Ok g0 -> enforcing (go_InitialMode o) = true ->
  ShouldEnforce g0 = true /\
  (go_AllowEnforcement o = false -> IsEnforcementAllowed g0 = false /\
     forall t, (SetMode t (go_InitialMode o) g0).2 = Err ErrEnforcementNotAllowed).
Proof.
  intros Hnew Hi. destruct (NewEnforcementGate_Ok now o g0 Hnew) as (Hg0 & Ha & _ & _ & _ & Hm).
  assert (g_mode g0 = go_InitialMode o) as Hm'.
  { rewrite Hm. destruct (String.eqb_spec (go_InitialMode o) "") as [He|]; [|done].
    rewrite He in Hi. discriminate Hi. }
  unfold ShouldEnforce, IsEnforcementAllowed, IsEmergencyBypassActive, SetMode.
  assert (g_closed g0 = false /\ g_autoDisabled g0 = false /\ g_bypassSet g0 = ∅) as (-> & -> & ->)
    by (by rewrite Hg0).
  rewrite size_empty, Hm', Hi, Ha. split; [done|]. intros Hno. by rewrite Hno.
Qed.

Lemma initial_mode_skips_guardrail_witness :
  ShouldEnforce (sampleGate EnforcementModeEnforce false) = true.
Proof.
  apply (initial_mode_skips_guardrail 0 (sampleOptions EnforcementModeEnforce false)); reflexivity.
Defined.

(** A gate that starts in an enforcing mode and limits the duration of enforcement falls
    back to shadow mode with the first request that reaches the middleware, at any date
    after 1970: the start of the enforcement was never recorded. *)
Theorem initial_enforcement_reverts_at_once (now t : Z) (o : GateOptions) (g0 : EnforcementGate) :
  NewEnforcementGate now o = Ok g0 -> enforcing (go_InitialMode o) = true ->
  0 < go_MaxEnforcementDuration o < int64_max -> time_Unix 0 <= t ->
  g_mode (EnforcementGateMiddleware t g0).1 = EnforcementModeShadow.
Proof.
  intros Hnew Hi Hd Ht.
  destruct (NewEnforcementGate_Ok now o g0 Hnew) as (Hg0 & _ & _ & Hdur & _ & Hm).
  assert (g_mode g0 = go_InitialMode o) as Hm'.
  { rewrite Hm. destruct (String.eqb_spec (go_InitialMode o) "") as [He|]; [|done].
    rewrite He in Hi. discriminate Hi. }
  assert (g_enabledAt g0 = 0) as Hen by (by rewrite Hg0).
  unfold EnforcementGateMiddleware, AutoRevertIfNeeded. cbn [fst].
  rewrite Hdur, Hm', Hi, Hen. cbn [negb]. unfold time_Sub, time_Unix, unix_epoch_seconds in *.
  unfold second, millisecond, int64_max, int64_min in *.
  destruct (_ =? 0) eqn:E; bool_prop; [lia|]. destruct (_ <? _) eqn:E2; bool_prop; [|lia].
  unfold upd_metrics, logAudit. by break_if.
Qed.

Lemma initial_enforcement_reverts_at_once_witness :
  g_mode (EnforcementGateMiddleware (time_Unix 1700000000)
            (sampleGate EnforcementModeEnforce true)).1 = EnforcementModeShadow.
Proof.
  apply (initial_enforcement_reverts_at_once 0 _ (sampleOptions EnforcementModeEnforce true));
    try reflexivity; vm_compute; try split; try reflexivity; discriminate.
Defined.

Lemma step_decision_counters (g : EnforcementGate) (op : gate_op) :
  mt_DecisionsEnforced (g_metrics (gate_step g op)) = mt_DecisionsEnforced (g_metrics g) /\
  mt_DecisionsShadowed (g_metrics (gate_step g op)) = mt_DecisionsShadowed (g_metrics g).
Proof. destruct op; gate_unfold; repeat break_if; split; reflexivity. Qed.

Lemma step_autoDisabled (g : EnforcementGate) (op : gate_op) :
  mt_DecisionsEnforced (g_metrics g) = 0 -> mt_DecisionsShadowed (g_metrics g) = 0 ->
  g_autoDisabled g = false -> g_autoDisabled (gate_step g op) = false.
Proof.
  intros H1 H2 H3. destruct op; try (gate_unfold; repeat break_if; done).
  gate_unfold. cbv zeta. cbn [g_metrics set_metrics metrics_RecordMismatch mt_DecisionsEnforced
    mt_DecisionsShadowed setm_MismatchLastTime setm_MismatchCount set_lastMismatchTime
    set_mismatchCount g_options]. rewrite H1, H2. change (0 <? wrap64 (0 + 0)) with false.
  cbv iota. by break_if.
Qed.

(** The automatic switch-off never fires: the decision counters it divides by are not
    advanced by any operation of the gate, so in every reachable state they are 0 and
    enforcement is not auto-disabled, whatever mismatches were recorded and whatever the
    configured threshold. *)
Theorem auto_disable_never_fires (now : Z) (o : GateOptions) (g0 g : EnforcementGate) :
  NewEnforcementGate now o = Ok g0 -> reachable g0 g ->
  mt_DecisionsEnforced (g_metrics g) + mt_DecisionsShadowed (g_metrics g) = 0 /\
  g_autoDisabled g = false.
Proof.
  intros Hnew Hr. destruct (NewEnforcementGate_Ok now o g0 Hnew) as (Hg0 & _).
  assert (mt_DecisionsEnforced (g_metrics g) = 0 /\ mt_DecisionsShadowed (g_metrics g) = 0 /\
          g_autoDisabled g = false) as (H1 & H2 & H3); [|by rewrite H1, H2].
  induction Hr as [|g op _ (H1 & H2 & H3)]; [by rewrite Hg0|].
  destruct (step_decision_counters g op) as [-> ->]. split_and!; [done|done|].
  by apply step_autoDisabled.
Qed.

Lemma auto_disable_never_fires_witness :
  g_autoDisabled (foldl gate_step (sampleGate EnforcementModeEnforce true)
    [OpRequest (sampleGateRequest "GET"); OpRecordMismatch 1; OpRecordMismatch 2;
     OpRecordMismatch 3]) = false.
Proof.
  apply (auto_disable_never_fires 0 (sampleOptions EnforcementModeEnforce true)
           (sampleGate EnforcementModeEnforce true)); [reflexivity|].
  unfold foldl. repeat apply reach_step. apply reach_start.
Defined.

Lemma step_bypass (g : EnforcementGate) (op : gate_op) (token : string) :
  token ∈ g_bypassSet g -> op <> OpClearEmergencyBypass token ->
  token ∈ g_bypassSet (gate_step g op).
Proof.
  intros Hin Hne. destruct op; try (gate_unfold; repeat break_if; exact Hin).
  - gate_unfold. repeat break_if; try exact Hin; cbn; set_solver.
  - cbn. apply elem_of_difference. split; [done|]. intros <-%elem_of_singleton. done.
Qed.

(** An emergency bypass holds: once accepted, no request is enforced after any sequence
    of operations, mode changes included, until the same token is cleared. *)
Theorem emergency_bypass_holds (g g1 : EnforcementGate) (token : string) (ops : list gate_op) :
  EmergencyBypass token g = (g1, true) -> OpClearEmergencyBypass token ∉ ops ->
  let g2 := foldl gate_step g1 ops in
  ShouldEnforce g2 = false /\ forall req, (ShouldEnforceForRequest req g2).2 = false.
Proof.
  intros Hb Hops g2.
  assert (token ∈ g_bypassSet g1) as H1.
  { revert Hb. unfold EmergencyBypass. repeat break_if; intros [= <-].
    unfold upd_metrics, logAudit. break_if; cbn; set_solver. }
  assert (token ∈ g_bypassSet g2) as H2.
  { unfold g2. clear g2 Hb. revert g1 H1 Hops.
    induction ops as [|op ops IH]; intros g1 H1 Hops; [done|]. cbn [foldl].
    apply not_elem_of_cons in Hops as [Hne Hops]. apply IH; [|done].
    apply step_bypass; [done|congruence]. }
  assert (ShouldEnforce g2 = false) as Hs.
  { unfold ShouldEnforce, IsEmergencyBypassActive. repeat break_if; try done. bool_prop.
    exfalso. apply Hb2. destruct (size (g_bypassSet g2)) eqn:E; [|lia].
    apply size_empty_inv in E. set_solver. }
  split; [done|]. intros req. unfold ShouldEnforceForRequest. by rewrite Hs.
Qed.

Lemma emergency_bypass_holds_witness :
  let g1 := (EmergencyBypass "token" (sampleGate EnforcementModeEnforce true)).1 in
  ShouldEnforce (sampleGate EnforcementModeEnforce true) = true /\
  ShouldEnforce (foldl gate_step g1 [OpSetMode 5 EnforcementModeEnforce; OpReopen]) = false.
Proof.
  intros g1. split; [reflexivity|].
  apply (emergency_bypass_holds (sampleGate EnforcementModeEnforce true) g1 "token"); [reflexivity|].
  intros H. repeat apply elem_of_cons in H as [H|H]; try discriminate H.
  by apply elem_of_nil in H.
Defined.

(** ** The canary share *)

(** Runs [n] canary decisions and counts the enforced ones. *)
Fixpoint canaryRun (reqs : list GateRequest) (g : EnforcementGate) : EnforcementGate * Z :=
  match reqs with
  | [] => (g, 0)
  | req :: reqs' =>
      let '(g1, b) := ShouldEnforceForRequest req g in
      let '(g2, n) := canaryRun reqs' g1 in
      (g2, (if b then 1 else 0) + n)
  end.

Definition canaryReady (p : Z) (g : EnforcementGate) : Prop :=
  ShouldEnforce g = true /\ g_mode g = EnforcementModeCanary /\
  cc_Enabled (go_CanaryConfig (g_options g)) = true /\
  cc_Mode (go_CanaryConfig (g_options g)) = CanaryModePercentage /\
  cc_Percentage (go_CanaryConfig (g_options g)) = p.

Lemma canary_step (p : Z) (g : EnforcementGate) (req : GateRequest) :
  canaryReady p g -> 0 <= g_canaryRequestCount g < int64_max ->
  exists g1, ShouldEnforceForRequest req g = (g1, (g_canaryRequestCount g + 1) mod 100 <? p) /\
    canaryReady p g1 /\ g_canaryRequestCount g1 = g_canaryRequestCount g + 1.
Proof.
  intros (Hs & Hm & He & Hcm & Hp) Hc. unfold ShouldEnforceForRequest, is_mode, isCanaryRequest.
  rewrite Hs, Hm, He, Hcm, Hp, !String.eqb_refl. cbn [negb].
  rewrite wrap64_id by (unfold in_int64, int64_min in *; lia).
  rewrite Z.rem_mod_nonneg by lia.
  break_if; eexists; (split; [reflexivity|]); (split; [|reflexivity]); by split_and!.
Qed.

(** The residues below [p] among [n] consecutive counts from [c] on. *)
Fixpoint shareFrom (c : Z) (n : nat) (p : Z) : Z :=
  match n with
  | O => 0
  | S n' => (if c mod 100 <? p then 1 else 0) + shareFrom (c + 1) n' p
  end.

Lemma shareFrom_snoc (n : nat) (c p : Z) :
  shareFrom c (S n) p = shareFrom c n p + (if (c + Z.of_nat n) mod 100 <? p then 1 else 0).
Proof.
  revert c. induction n as [|n IH]; intros c.
  - cbn [shareFrom]. replace (c + Z.of_nat 0) with c by lia. lia.
  - change (shareFrom c (S (S n)) p) with
      ((if c mod 100 <? p then 1 else 0) + shareFrom (c + 1) (S n) p).
    rewrite IH. cbn [shareFrom]. replace (c + 1 + Z.of_nat n) with (c + Z.of_nat (S n)) by lia. lia.
Qed.

(** Sliding a window of 100 counts does not change its share. *)
Lemma shareFrom_slide (c p : Z) : shareFrom (c + 1) 100 p = shareFrom c 100 p.
Proof.
  pose proof (shareFrom_snoc 100 c p) as H.
  change (shareFrom c 101 p) with ((if c mod 100 <? p then 1 else 0) + shareFrom (c + 1) 100 p) in H.
  replace ((c + Z.of_nat 100) mod 100) with (c mod 100) in H; [lia|].
  change (Z.of_nat 100) with (1 * 100). by rewrite Z.mod_add by lia.
Qed.

Lemma shareFrom_window (c p : Z) : 0 <= c -> 0 <= p <= 100 -> shareFrom c 100 p = p.
Proof.
  intros Hc Hp. pattern c. apply natlike_ind; [|intros x _ Hx|done].
  - assert (forallb (fun i => shareFrom 0 100 (Z.of_nat i) =? Z.of_nat i) (seq 0 101) = true) as Hall
      by (vm_compute; reflexivity).
    rewrite forallb_forall in Hall. specialize (Hall (Z.to_nat p)).
    rewrite Z2Nat.id in Hall by lia. apply Z.eqb_eq, Hall, in_seq. lia.
  - unfold Z.succ. by rewrite shareFrom_slide.
Qed.

Lemma canaryRun_share (p : Z) (reqs : list GateRequest) (g : EnforcementGate) :
  canaryReady p g -> 0 <= g_canaryRequestCount g ->
  g_canaryRequestCount g + Z.of_nat (length reqs) <= int64_max ->
  (canaryRun reqs g).2 = shareFrom (g_canaryRequestCount g + 1) (length reqs) p.
Proof.
  revert g. induction reqs as [|req reqs IH]; intros g Hr Hc Hn; [done|].
  cbn [length] in Hn. destruct (canary_step p g req Hr) as (g1 & He & Hr1 & Hc1); [lia|].
  cbn [canaryRun length shareFrom]. rewrite He.
  specialize (IH g1 Hr1). destruct (canaryRun reqs g1) as [g2 n].
  cbn [snd] in *. rewrite IH by lia. by rewrite Hc1.
Qed.

(** Percentage canaries are exact: of any 100 consecutive requests that reach an
    enforcing canary gate, exactly [Percentage] are enforced. *)
Theorem canary_percentage_exact (p : Z) (reqs : list GateRequest) (g : EnforcementGate) :
  canaryReady p g -> 0 <= p <= 100 -> length reqs = 100%nat ->
  0 <= g_canaryRequestCount g <= int64_max - 100 -> (canaryRun reqs g).2 = p.
Proof.
  intros Hr Hp Hlen Hc. rewrite (canaryRun_share p) by (rewrite ?Hlen; done || lia).
  rewrite Hlen. apply shareFrom_window; lia.
Qed.

Lemma canary_percentage_exact_witness :
  (canaryRun (repeat (sampleGateRequest "GET") 100) (sampleGate EnforcementModeCanary true)).2 = 25.
Proof.
  apply canary_percentage_exact; [|lia|reflexivity|vm_compute; split; discriminate].
  split_and!; reflexivity.
Defined.

End Gate.
