(* ===== verification/GateLocks.v ===== *)
(** * Locking in the enforcement gate

    Every method of the gate takes its [sync.RWMutex]; [ShouldEnforce] calls
    [IsEmergencyBypassActive] while it holds the read lock.  This file runs the methods'
    lock operations, interleaved, on a model of the mutex in which, as documented, a
    writer that waits for the lock keeps new readers out. *)

From S2P Require Import Prelude.

(** ** The mutex and its threads *)

Inductive lock_op := RLock | RUnlock | Lock | Unlock.

#[export] Instance lock_op_eq_dec : EqDecision lock_op.
Proof. solve_decision. Defined.

(** A thread is what is left of its lock operations; [waiting] is the thread that announced
    a [Lock], [writer] tells whether it was granted. *)
Record LockState := mkLockState {
  readers : nat;
  writer : bool;
  waiting : option nat;
  threads : list (list lock_op)
}.

(** One step of thread [i], [None] when it is blocked or finished.  [Lock] takes two steps:
    announcing, which needs that no other writer is announced, and the acquisition, which
    waits for the readers to leave. *)
Definition lock_step (i : nat) (st : LockState) : option LockState :=
  match threads st !! i with
  | Some (RLock :: rest) =>
      if bool_decide (waiting st = None)
      then Some (mkLockState (S (readers st)) (writer st) (waiting st) (<[i := rest]> (threads st)))
      else None
  | Some (RUnlock :: rest) =>
      Some (mkLockState (pred (readers st)) (writer st) (waiting st) (<[i := rest]> (threads st)))
  | Some (Lock :: rest) =>
      if bool_decide (waiting st = None)
      then Some (mkLockState (readers st) (writer st) (Some i) (threads st))
      else if bool_decide (waiting st = Some i) && bool_decide (readers st = 0) && negb (writer st)
      then Some (mkLockState (readers st) true (waiting st) (<[i := rest]> (threads st)))
      else None
  | Some (Unlock :: rest) =>
      Some (mkLockState (readers st) false None (<[i := rest]> (threads st)))
  | _ => None
  end.

Definition lock_start (progs : list (list lock_op)) : LockState := mkLockState 0 false None progs.

Inductive lock_reachable (progs : list (list lock_op)) : LockState -> Prop :=
| lr_start : lock_reachable progs (lock_start progs)
| lr_step st i st' :
    lock_reachable progs st -> lock_step i st = Some st' -> lock_reachable progs st'.

(** A deadlock: some thread is not finished and none can move. *)
Definition deadlocked (st : LockState) : Prop :=
  (exists i op rest, threads st !! i = Some (op :: rest)) /\ forall i, lock_step i st = None.

(** ** The methods *)

(** A method that takes the lock once: the readers ([Mode], [IsClosed], ...) and the writers
    ([SetMode], [RecordMismatch], [Close], ...). *)
Definition reader_locks : list lock_op := [RLock; RUnlock].
Definition writer_locks : list lock_op := [Lock; Unlock].

Definition IsEmergencyBypassActive_locks : list lock_op := reader_locks.

(** On a gate that is neither closed nor auto-disabled. *)
Definition ShouldEnforce_locks : list lock_op :=
  [RLock] ++ IsEmergencyBypassActive_locks ++ [RUnlock].

(** After [ShouldEnforce] returned true. *)
Definition ShouldEnforceForRequest_locks : list lock_op :=
  ShouldEnforce_locks ++ [RLock] ++ [RUnlock].

Fixpoint lock_run (schedule : list nat) (st : LockState) : option LockState :=
  match schedule with
  | [] => Some st
  | i :: rest => match lock_step i st with Some st' => lock_run rest st' | None => None end
  end.

Lemma lock_run_reachable progs schedule st st' :
  lock_reachable progs st -> lock_run schedule st = Some st' -> lock_reachable progs st'.
Proof.
  revert st. induction schedule as [|i rest IH]; intros st Hr; cbn [lock_run]; [by intros [= <-]|].
  destruct (lock_step i st) as [st1|] eqn:Hs; [|done]. apply IH. by eapply lr_step.
Qed.

(** ** Flat programs *)

(** A program that never takes the lock while it holds it. *)
Inductive flat : list lock_op -> Prop :=
| flat_nil : flat []
| flat_reader p : flat p -> flat (RLock :: RUnlock :: p)
| flat_writer p : flat p -> flat (Lock :: Unlock :: p).

(** What is left of a flat program at any time. *)
Definition flat_tail (p : list lock_op) : Prop :=
  flat p \/ (exists q, p = RUnlock :: q /\ flat q) \/ (exists q, p = Unlock :: q /\ flat q).

Definition heads (op : lock_op) (p : list lock_op) : bool :=
  match p, op with
  | RLock :: _, RLock | RUnlock :: _, RUnlock | Lock :: _, Lock | Unlock :: _, Unlock => true
  | _, _ => false
  end.

Definition holders (op : lock_op) (ts : list (list lock_op)) : nat :=
  length (filter (fun p => heads op p = true) ts).

Definition lock_inv (st : LockState) : Prop :=
  Forall flat_tail (threads st) /\
  readers st = holders RUnlock (threads st) /\
  match waiting st with
  | Some i => if writer st then holders Unlock (threads st) = 1 /\ readers st = 0
              else holders Unlock (threads st) = 0 /\
                   exists rest, threads st !! i = Some (Lock :: rest)
  | None => writer st = false /\ holders Unlock (threads st) = 0
  end.

Lemma holders_insert (op : lock_op) (ts : list (list lock_op)) i p p' :
  ts !! i = Some p ->
  holders op (<[i := p']> ts) + (if heads op p then 1 else 0) =
  holders op ts + (if heads op p' then 1 else 0).
Proof.
  intros Hi. unfold holders. rewrite insert_take_drop by (by eapply lookup_lt_Some).
  pose proof (take_drop_middle ts i p Hi) as E. revert E.
  generalize (take i ts) (drop (S i) ts). intros t1 t2 <-.
  rewrite !filter_app, !filter_cons, !length_app.
  destruct (heads op p), (heads op p'); repeat case_decide; try congruence; cbn; lia.
Qed.

Lemma holders_pos (op : lock_op) (ts : list (list lock_op)) :
  (0 < holders op ts) -> exists i rest, ts !! i = Some (op :: rest).
Proof.
  unfold holders. intros H.
  destruct (filter _ ts) as [|p l] eqn:E; [cbn in H; lia|].
  assert (p ∈ filter (fun p => heads op p = true) ts) as Hp by (rewrite E; apply elem_of_cons; by left).
  apply list_elem_of_filter in Hp as [Hh Hp]. apply list_elem_of_lookup in Hp as [i Hi].
  exists i. destruct p as [|[] rest], op; try discriminate Hh; eauto.
Qed.

Lemma flat_head (p : list lock_op) :
  flat p -> heads RUnlock p = false /\ heads Unlock p = false.
Proof. by destruct 1. Qed.

(** The tails a thread of a flat program leaves when it steps. *)
Lemma flat_tail_inv (op : lock_op) (rest : list lock_op) :
  flat_tail (op :: rest) ->
  match op with
  | RLock => exists q, rest = RUnlock :: q /\ flat q
  | Lock => exists q, rest = Unlock :: q /\ flat q
  | RUnlock | Unlock => flat rest
  end.
Proof.
  intros [H|[(q & [= -> ->] & H)|(q & [= -> ->] & H)]]; [|done|done].
  inversion H; subst; eauto.
Qed.

Lemma lock_step_inv (i : nat) (st st' : LockState) :
  lock_inv st -> lock_step i st = Some st' -> lock_inv st'.
Proof.
  intros (Hf & Hr & Hw). unfold lock_step.
  destruct (threads st !! i) as [[|op rest]|] eqn:Hi; [done| |done].
  assert (flat_tail (op :: rest)) as Ht by (by eapply Forall_lookup_1).
  pose proof (flat_tail_inv op rest Ht) as Hrest.
  pose proof (fun o => holders_insert o (threads st) i (op :: rest) rest Hi) as Hh.
  pose proof (Hh RUnlock) as HhR. pose proof (Hh Unlock) as HhU. clear Hh.
  assert (forall r w k, flat_tail rest ->
    Forall flat_tail (threads (mkLockState r w k (<[i := rest]> (threads st))))) as Hins
    by (intros; by apply Forall_insert).
  destruct op.
  - destruct Hrest as (q & -> & Hq). case_bool_decide as Hwn; [|done]. intros [= <-].
    rewrite Hwn in Hw. destruct Hw as [Hw1 Hw2]. cbn [heads] in HhR, HhU.
    split_and!; [apply Hins; right; left; eauto|cbn [readers threads]; lia|]. cbn [waiting writer threads readers]. rewrite Hwn. split; [done|lia].
  - intros [= <-]. destruct (flat_head rest Hrest) as [H1 H2]. rewrite H1 in HhR. rewrite H2 in HhU.
    cbn [heads] in HhR, HhU. split_and!; [apply Hins; by left|cbn [readers threads]; lia|]. cbn [waiting writer threads readers].
    destruct (waiting st) as [k|]; [|split; [tauto|lia]].
    destruct (writer st); [lia|]. destruct Hw as (HU & rest' & Hk). split; [lia|].
    exists rest'. rewrite list_lookup_insert_ne; [done|]. intros ->. congruence.
  - destruct Hrest as (q & -> & Hq). case_bool_decide as Hwn.
    + intros [= <-]. rewrite Hwn in Hw. destruct Hw as [Hw1 Hw2].
      split_and!; [done|done|]. cbn [waiting writer threads readers]. rewrite Hw1. eauto.
    + destruct (bool_decide (waiting st = Some i)) eqn:E1; [|done].
      destruct (bool_decide (readers st = 0)) eqn:E2; [|done].
      destruct (writer st) eqn:E3; [done|]. intros [= <-]. bool_prop. rewrite E1 in Hw.
      destruct Hw as (HU & _). cbn [heads] in HhR, HhU.
      split_and!; [apply Hins; right; right; eauto|cbn [readers threads]; lia|]. cbn [waiting writer threads readers]. rewrite E1. lia.
  - intros [= <-]. destruct (flat_head rest Hrest) as [H1 H2]. rewrite H1 in HhR. rewrite H2 in HhU.
    cbn [heads] in HhR, HhU. split_and!; [apply Hins; by left|cbn [readers threads]; lia|]. cbn [waiting writer threads readers].
    split; [done|]. destruct (waiting st), (writer st); lia.
Qed.

Lemma lock_start_inv (progs : list (list lock_op)) : Forall flat progs -> lock_inv (lock_start progs).
Proof.
  intros Hp.
  assert (forall o, (o = RUnlock \/ o = Unlock) -> holders o progs = 0) as Hz.
  { intros o Ho. destruct (holders o progs) eqn:E; [done|].
    destruct (holders_pos o progs) as (i & rest & Hi); [lia|].
    assert (flat (o :: rest)) as Hf by (by eapply Forall_lookup_1).
    apply flat_head in Hf as [H1 H2]. destruct Ho as [-> | ->]; discriminate. }
  unfold lock_inv, lock_start. cbn [threads readers writer waiting]. rewrite !Hz by auto.
  split_and!; try done. eapply Forall_impl; [exact Hp|]. by left.
Qed.

(** ** Properties *)

(** [ShouldEnforce] can deadlock the gate: a request that holds the read lock, a writer
    (a mode change, a recorded mismatch, ...) that announces itself, and the second read
    lock of the same request, wait for each other for ever. *)
Theorem should_enforce_deadlock :
  exists st, lock_reachable [ShouldEnforce_locks; writer_locks] st /\ deadlocked st.
Proof.
  exists (mkLockState 1 false (Some 1) [[RLock; RUnlock; RUnlock]; [Lock; Unlock]]).
  split; [apply (lock_run_reachable _ [0; 1] _ _ (lr_start _)); reflexivity|].
  split; [by exists 0, RLock, [RUnlock; RUnlock]|].
  intros [|[|i]]; reflexivity.
Qed.

(** The locking is otherwise safe: any number of threads that run the other methods,
    each of which takes the lock once, never deadlock, and never does a writer hold the lock
    together with a reader or another writer. *)
Theorem flat_methods_never_deadlock (progs : list (list lock_op)) (st : LockState) :
  Forall flat progs -> lock_reachable progs st ->
  ~ deadlocked st /\
  holders Unlock (threads st) <= 1 /\
  (holders Unlock (threads st) = 1 -> holders RUnlock (threads st) = 0).
Proof.
  intros Hp Hr. assert (lock_inv st) as (Hf & Hrd & Hw).
  { induction Hr as [|st i st' _ IH Hs]; [by apply lock_start_inv|by eapply lock_step_inv]. }
  split; [|destruct (waiting st), (writer st); lia].
  intros [(i & op & rest & Hi) Hstuck].
  assert (forall o, o = RUnlock \/ o = Unlock -> holders o (threads st) = 0) as Hnone.
  { intros o Ho. destruct (holders o (threads st)) eqn:E; [done|].
    destruct (holders_pos o (threads st)) as (j & r & Hj); [lia|].
    specialize (Hstuck j). unfold lock_step in Hstuck. rewrite Hj in Hstuck.
    by destruct Ho as [-> | ->]. }
  rewrite (Hnone RUnlock) in Hrd by auto. rewrite (Hnone Unlock) in Hw by auto.
  destruct (waiting st) as [k|] eqn:Hk.
  - destruct (writer st) eqn:Hwr; [lia|]. destruct Hw as (_ & r & Hkr).
    specialize (Hstuck k). unfold lock_step in Hstuck.
    rewrite Hkr, Hk, Hrd, Hwr, bool_decide_false, bool_decide_true in Hstuck by done. done.
  - specialize (Hstuck i). unfold lock_step in Hstuck. rewrite Hi, Hk in Hstuck. by destruct op.
Qed.

Lemma flat_methods_never_deadlock_witness :
  let progs := [reader_locks; writer_locks ++ reader_locks; writer_locks] in
  ~ deadlocked (lock_start progs) /\ holders Unlock progs <= 1.
Proof.
  intros progs. destruct (flat_methods_never_deadlock progs (lock_start progs)) as (H1 & H2 & _).
  - repeat constructor.
  - apply lr_start.
  - split; [exact H1|exact H2].
Defined.
