(* ===== verification/RateLimit.v ===== *)
(** * The rate limiter

    [internal/ratelimit/limiter.go] and the client address of [internal/audit/audit.go]:
    a fixed-window counter per client, and the middleware that answers 429. *)

From S2P Require Import Prelude GoStrings GoFloat.

Local Open Scope Z_scope.

(** ** [net.SplitHostPort] *)

Inductive addr_error := MissingPort | TooManyColons | MissingBracket | UnexpectedBracket.

Definition SplitHostPort (hostport : string) : result addr_error (string * string) :=
  match LastIndex hostport ":" with
  | None => Err MissingPort
  | Some i =>
      let port := sdrop (i + 1) hostport in
      if HasPrefix hostport "[" then
        match Index hostport "]" with
        | None => Err MissingBracket
        | Some close =>
            if bool_decide (close + 1 = String.length hostport)%nat then Err MissingPort
            else if bool_decide (close + 1 = i)%nat then
              let host := stake (close - 1) (sdrop 1 hostport) in
              if Contains (sdrop 1 hostport) "[" then Err UnexpectedBracket
              else if Contains (sdrop (close + 1) hostport) "]" then Err UnexpectedBracket
              else Ok (host, port)
            else if HasPrefix (sdrop (close + 1) hostport) ":" then Err TooManyColons
            else Err MissingPort
        end
      else
        let host := stake i hostport in
        if Contains host ":" then Err TooManyColons
        else if Contains hostport "[" then Err UnexpectedBracket
        else if Contains hostport "]" then Err UnexpectedBracket
        else Ok (host, port)
  end.

(** [audit.RemoteIP]. *)
Definition RemoteIP (remoteAddr : string) : string :=
  match SplitHostPort remoteAddr with
  | Ok (host, _) =>
      if negb (String.eqb host "") then host
      else if negb (String.eqb remoteAddr "") then remoteAddr else "unknown"
  | Err _ => if negb (String.eqb remoteAddr "") then remoteAddr else "unknown"
  end.

Example remote_ip_v4 : RemoteIP "192.0.2.10:12345" = "192.0.2.10".
Proof. reflexivity. Qed.
Example remote_ip_v6 : RemoteIP "[2001:db8::1]:443" = "2001:db8::1".
Proof. reflexivity. Qed.

(** ** The limiter *)

Record entry := mkEntry { count : Z; reset : Z }.

Record Limiter := mkLimiter {
  entries : gmap string entry;
  max : Z;
  window : Z
}.

Definition New (m w : Z) : Limiter := mkLimiter ∅ m w.

Definition normalKey (key : string) : string := if String.eqb key "" then "unknown" else key.

(** [Allow]: whether the call is allowed, how many remain, when the window ends. *)
Definition Allow (now : Z) (key : string) (l : Limiter) : Limiter * (bool * Z * Z) :=
  let key := normalKey key in
  let current := default (mkEntry 0 0) (entries l !! key) in
  let current := if time_IsZero (reset current) || negb (time_Before now (reset current))
                 then mkEntry 0 (now + window l) else current in
  if max l <=? count current then
    (mkLimiter (<[key := current]> (entries l)) (max l) (window l), (false, 0, reset current))
  else
    let current := mkEntry (wrap64 (count current + 1)) (reset current) in
    (mkLimiter (<[key := current]> (entries l)) (max l) (window l),
     (true, wrap64 (max l - count current), reset current)).

(** ** The middleware *)

Inductive limiter_response :=
| PassThrough
| Served (headers : list (string * string))
| TooManyRequests (headers : list (string * string)).

(** [t.Unix()]. *)
Definition time_to_Unix (t : Z) : Z := t / second - unix_epoch_seconds.

Definition maxInt64 (a b : Z) : Z := if b <? a then a else b.

(** [Middleware]; the second clock reading is the one of [time.Until]. *)
Definition Middleware (now until : Z) (path remoteAddr : string) (limiter : option Limiter)
  : option Limiter * limiter_response :=
  match limiter with
  | None => (None, PassThrough)
  | Some l =>
      if String.eqb path "/healthz" || String.eqb path "/readyz" then (Some l, PassThrough)
      else
        let '(l', (allowed, remaining, rst)) := Allow now (RemoteIP remoteAddr) l in
        let headers := [("RateLimit-Limit", FormatInt (max l));
                        ("RateLimit-Remaining", FormatInt remaining);
                        ("RateLimit-Reset", FormatInt (time_to_Unix rst))] in
        if negb allowed then
          (Some l', TooManyRequests (headers ++
             [("Retry-After",
               FormatInt (maxInt64 1 (f64_to_int (duration_Seconds (time_Sub rst until)))))]))
        else (Some l', Served headers)
  end.

(** ** Runs *)

(** The calls of a run, oldest first, and how many calls for [key] were allowed. *)
Fixpoint allowedFor (key : string) (calls : list (Z * string)) (l : Limiter) : Z :=
  match calls with
  | [] => 0
  | (now, k) :: rest =>
      let '(l', (allowed, _, _)) := Allow now k l in
      (if allowed && String.eqb (normalKey k) key then 1 else 0) + allowedFor key rest l'
  end.

Definition runCalls (calls : list (Z * string)) (l : Limiter) : Limiter :=
  foldl (fun l c => (Allow c.1 c.2 l).1) l calls.

(** ** Lemmas *)

Definition entryOf (key : string) (l : Limiter) : entry := default (mkEntry 0 0) (entries l !! key).

Lemma entryOf_insert (key : string) (e : entry) (m w : Z) (es : gmap string entry) :
  entryOf key (mkLimiter (<[key := e]> es) m w) = e.
Proof. unfold entryOf. cbn. by rewrite lookup_insert_eq. Qed.

(** What a call does to the entry of its own key, and that it leaves the others alone. *)
Lemma Allow_spec (now : Z) (k : string) (l : Limiter) :
  0 <= max l < int64_max -> 0 <= count (entryOf (normalKey k) l) ->
  exists l' b r, Allow now k l = (l', (b, r, reset (entryOf (normalKey k) l'))) /\
    max l' = max l /\ window l' = window l /\
    (forall key, key <> normalKey k -> entries l' !! key = entries l !! key) /\
    let cur := entryOf (normalKey k) l in
    let start := if time_IsZero (reset cur) || negb (time_Before now (reset cur))
                 then mkEntry 0 (now + window l) else cur in
    entryOf (normalKey k) l' = mkEntry (count start + (if b then 1 else 0)) (reset start) /\
    (b = true <-> count start < max l) /\ (b = true -> r = max l - (count start + 1)).
Proof.
  intros Hmax Hc. unfold Allow. fold (entryOf (normalKey k) l).
  set (cur := entryOf (normalKey k) l). cbv zeta.
  set (start := if _ || _ then mkEntry 0 (now + window l) else cur).
  assert (0 <= count start) as Hs by (unfold start; break_if; [done|exact Hc]).
  destruct (max l <=? count start) eqn:E; bool_prop.
  - exists (mkLimiter (<[normalKey k := start]> (entries l)) (max l) (window l)), false, 0.
    rewrite entryOf_insert. split_and!; try done.
    + intros key Hne. cbn. by rewrite lookup_insert_ne.
    + rewrite Z.add_0_r. by destruct start.
    + lia.
  - set (next := mkEntry (wrap64 (count start + 1)) (reset start)).
    exists (mkLimiter (<[normalKey k := next]> (entries l)) (max l) (window l)), true,
      (wrap64 (max l - count next)).
    assert (wrap64 (count start + 1) = count start + 1) as Hn
      by (apply wrap64_id; unfold in_int64, int64_min, int64_max in *; lia).
    rewrite entryOf_insert. split_and!; try done.
    + intros key Hne. cbn. by rewrite lookup_insert_ne.
    + unfold next. by rewrite Hn.
    + intros _. unfold next. cbn [count]. rewrite Hn. apply wrap64_id.
      unfold in_int64, int64_min, int64_max in *. lia.
Qed.

(** How many calls for [key] can still be allowed before [stop], when no window can start
    before [a]. *)
Definition budget (key : string) (stop : Z) (l : Limiter) : Z :=
  let cur := entryOf key l in
  if stop <=? reset cur then max l - count cur
  else if time_IsZero (reset cur) then max l
  else (max l - count cur) + max l.

Definition limiter_ok (l : Limiter) : Prop :=
  0 <= max l < int64_max /\
  forall key, 0 <= count (entryOf key l) <= max l /\
              (reset (entryOf key l) = 0 -> count (entryOf key l) = 0).

Lemma Allow_ok (now : Z) (k : string) (l : Limiter) :
  0 < now + window l -> limiter_ok l -> limiter_ok (Allow now k l).1.
Proof.
  intros Hw [Hm Hok].
  destruct (Allow_spec now k l Hm) as (l' & b & r & -> & Hm' & _ & Hother & Hcur & Hb & _);
    [apply Hok|].
  cbn [fst]. split; [by rewrite Hm'|]. intros key. rewrite Hm'.
  destruct (decide (key = normalKey k)) as [->|Hne].
  - rewrite Hcur. specialize (Hok (normalKey k)). cbn [count reset].
    destruct (time_IsZero _ || _) eqn:E.
    + cbn [count reset] in *. destruct b; destruct Hb; split; lia.
    + apply orb_false_iff in E as [E _]. time_unfold. bool_prop. destruct b; destruct Hb; split; lia.
  - unfold entryOf in *. rewrite Hother by done. apply Hok.
Qed.

(** One call uses up the budget it is allowed from. *)
Lemma budget_step (key : string) (a now : Z) (k : string) (l : Limiter) :
  limiter_ok l -> 0 < now + window l -> a <= now < a + window l ->
  let '(l', (b, _, _)) := Allow now k l in
  (if b && String.eqb (normalKey k) key then 1 else 0) + budget key (a + window l) l' <=
  budget key (a + window l) l.
Proof.
  intros [Hm Hok] Hw Hnow.
  destruct (Allow_spec now k l Hm) as (l' & b & r & -> & Hm' & _ & Hother & Hcur & Hb & _);
    [apply Hok|]. cbv zeta in Hcur, Hb. unfold budget. rewrite Hm'.
  destruct (String.eqb_spec (normalKey k) key) as [<-|Hne].
  - rewrite Hcur. specialize (Hok (normalKey k)). set (cur := entryOf (normalKey k) l) in *.
    cbn [count reset]. time_unfold.
    destruct (Z.eqb_spec (reset cur) 0); cbn [orb] in *; [|destruct (Z.ltb_spec now (reset cur))];
      cbn [negb count reset] in *; repeat (break_if; bool_prop); destruct b; destruct Hb; cbn [andb];
      try lia.
  - rewrite andb_false_r. unfold entryOf. rewrite Hother by done. lia.
Qed.

Lemma allowedFor_budget (key : string) (a : Z) (calls : list (Z * string)) (l : Limiter) :
  limiter_ok l -> 0 < window l -> 0 <= a ->
  Forall (fun c => a <= c.1 < a + window l) calls ->
  allowedFor key calls l <= budget key (a + window l) l.
Proof.
  revert l. induction calls as [|[now k] calls IH]; intros l Hok Hw Ha Hall.
  { cbn [allowedFor]. destruct Hok as [Hm Hok]. specialize (Hok key). unfold budget.
    repeat break_if; lia. }
  apply Forall_cons in Hall as [Hnow Hall]. cbn [fst] in Hnow. cbn [allowedFor].
  pose proof (budget_step key a now k l Hok) as Hstep.
  pose proof (Allow_ok now k l) as Hok'.
  destruct (Allow_spec now k l) as (l' & b & r & He & Hm' & Hw' & _); [apply Hok|apply Hok|].
  rewrite He in *. cbn [fst] in Hok'.
  specialize (IH l'). rewrite Hw' in IH. specialize (Hstep ltac:(lia) ltac:(lia)).
  specialize (IH (Hok' ltac:(lia) Hok) ltac:(lia) ltac:(lia) Hall). lia.
Qed.

Lemma runCalls_ok (calls : list (Z * string)) (l : Limiter) :
  limiter_ok l -> 0 < window l -> Forall (fun c => 0 <= c.1) calls ->
  limiter_ok (runCalls calls l) /\ window (runCalls calls l) = window l /\
  max (runCalls calls l) = max l.
Proof.
  revert l. induction calls as [|[now k] calls IH]; intros l Hok Hw Hall; [done|].
  apply Forall_cons in Hall as [Hnow Hall]. cbn [runCalls foldl fst snd] in *.
  destruct (Allow_spec now k l) as (l' & b & r & He & Hm' & Hw' & _); [apply Hok|apply Hok|].
  pose proof (Allow_ok now k l ltac:(lia) Hok) as Hok'. unfold runCalls in IH |- *.
  cbn [foldl fst snd]. rewrite He in *. cbn [fst] in *. rewrite <- Hw', <- Hm'.
  apply IH; [done|lia|done].
Qed.

Lemma New_ok (m w : Z) : 0 <= m < int64_max -> limiter_ok (New m w).
Proof. intros Hm. split; [done|]. intros key. unfold entryOf. cbn. rewrite lookup_empty. cbn. lia. Qed.

(** ** Properties *)

(** C36: The limiter bounds every client.  Whatever calls were made before, by whichever
    clients, and whatever other clients do meanwhile, at most [2 * max] calls of a client
    are allowed in any interval shorter than the window (a window may end in its middle),
    and at most [max] when the client's current window outlasts it. *)
Theorem limiter_bounds_clients (m w a : Z) (key : string) (pre seg : list (Z * string)) :
  0 <= m < int64_max -> 0 < w -> 0 <= a ->
  Forall (fun c => 0 <= c.1) pre -> Forall (fun c => a <= c.1 < a + w) seg ->
  let l := runCalls pre (New m w) in
  allowedFor key seg l <= 2 * m /\
  (a + w <= reset (entryOf key l) -> allowedFor key seg l <= m - count (entryOf key l)).
Proof.
  intros Hm Hw Ha Hpre Hseg l.
  destruct (runCalls_ok pre (New m w) (New_ok m w Hm) Hw Hpre) as (Hok & Hwin & Hmax).
  fold l in Hok, Hwin, Hmax. cbn [New window max] in Hwin, Hmax.
  pose proof (allowedFor_budget key a seg l Hok) as Hb. rewrite Hwin in Hb.
  specialize (Hb Hw Ha Hseg). unfold budget in Hb. rewrite Hmax in Hb.
  destruct Hok as [_ Hok]. specialize (Hok key). rewrite Hmax in Hok.
  split; [|intros Hr; apply Z.leb_le in Hr; by rewrite Hr in Hb].
  repeat break_if; lia.
Qed.

(** A burst across the end of a window lets more than [max] calls through. *)
Lemma limiter_bounds_clients_witness :
  let pre := [(1, "192.0.2.1")] in
  let seg := [(9, "192.0.2.1"); (10, "192.0.2.1"); (11, "192.0.2.1"); (12, "192.0.2.1");
              (12, "192.0.2.7"); (13, "192.0.2.1")] in
  allowedFor "192.0.2.1" seg (runCalls pre (New 2 10)) = 3 /\
  allowedFor "192.0.2.1" seg (runCalls pre (New 2 10)) <= 4.
Proof.
  intros pre seg. split; [vm_compute; reflexivity|].
  apply (limiter_bounds_clients 2 10 9 "192.0.2.1" pre seg).
  - split; [lia|reflexivity].
  - lia.
  - lia.
  - repeat constructor; cbn; lia.
  - repeat constructor; cbn; lia.
Defined.

(** The limiter never forgets a client: its table holds an entry for every key that was
    ever seen, also long after its window ended. *)
Theorem limiter_entries_grow (m w : Z) (calls : list (Z * string)) :
  dom (entries (runCalls calls (New m w))) =@{gset string}
  list_to_set (map (fun c => normalKey c.2) calls).
Proof.
  assert (forall l, dom (entries (runCalls calls l)) =@{gset string}
            dom (entries l) ∪ list_to_set (map (fun c => normalKey c.2) calls)) as Hg.
  { induction calls as [|[now k] calls IH]; intros l; cbn; [set_solver|].
    unfold runCalls in IH. cbn in IH. rewrite IH.
    assert (dom (entries (Allow now k l).1) =@{gset string} {[normalKey k]} ∪ dom (entries l)) as ->; [|set_solver].
    unfold Allow. cbv zeta. repeat break_if; cbn [fst entries]; apply dom_insert_L. }
  rewrite Hg. cbn. set_solver.
Qed.
