(* ===== verification/ReplayCache.v ===== *)
(** * The DPoP replay cache

    [internal/authn/replay_cache.go]: keys with their expiry, purged on every [Store], and
    evicted in map order when the cache is full.  [range] visits the entries in the order
    of an oracle. *)

From S2P Require Import Prelude GoStrings.

Local Open Scope Z_scope.

Definition DefaultReplayCacheMaxEntries : Z := 10000.

Record ReplayCache := mkReplayCache {
  rc_entries : gmap string Z;
  rc_MaxEntries : Z
}.

Definition NewReplayCacheWithConfig (maxEntries : Z) : ReplayCache :=
  mkReplayCache ∅ (if maxEntries <=? 0 then DefaultReplayCacheMaxEntries else maxEntries).
Definition NewReplayCache : ReplayCache := NewReplayCacheWithConfig DefaultReplayCacheMaxEntries.

(** The entries that have not expired. *)
Definition live (now : Z) (m : gmap string Z) : gmap string Z :=
  filter (fun kv : string * Z => time_After kv.2 now = true) m.

(** The eviction of [Store]: the expired entries if there are any, then, when there is still
    no room, the first [numToEvict] entries [range] comes to. *)
Definition evict (order : gmap string Z -> list string) (now maxEntries : Z) (m : gmap string Z)
  : gmap string Z :=
  let numToEvict := Z.quot (maxEntries + 9) 10 in
  let numToEvict := if numToEvict <? 1 then 1 else numToEvict in
  let expired := filter (fun kv : string * Z => time_After kv.2 now = false) m in
  let '(m1, numToEvict) :=
    if (0 <? Z.of_nat (size expired)) then
      let m1 := live now m in
      if Z.of_nat (size m1) <? maxEntries then (m1, numToEvict)
      else let n := maxEntries - Z.of_nat (size m1) in (m1, if n <? 1 then 1 else n)
    else (m, numToEvict) in
  if maxEntries <=? Z.of_nat (size m1)
  then delete_keys (take (Z.to_nat numToEvict) (order m1)) m1
  else m1.

(** [Store]: [true] when the key is new. *)
Definition Store (order : gmap string Z -> list string) (now : Z) (c : ReplayCache)
    (key : string) (expiresAt : Z) : ReplayCache * bool :=
  if String.eqb key "" then (c, false)
  else
    let m := live now (rc_entries c) in
    if match m !! key with Some expires => time_After expires now | None => false end
    then (mkReplayCache m (rc_MaxEntries c), false)
    else
      let expiresAt := if negb (time_After expiresAt now) then now + minute else expiresAt in
      let max := rc_MaxEntries c in
      let m1 := if (0 <? max) && (max <=? Z.of_nat (size m)) then evict order now max m else m in
      (mkReplayCache (<[key := expiresAt]> m1) max, true).

Definition Size (c : ReplayCache) : Z := Z.of_nat (size (rc_entries c)).

Definition Cleanup (now : Z) (c : ReplayCache) : ReplayCache * Z :=
  let m := live now (rc_entries c) in
  (mkReplayCache m (rc_MaxEntries c), Z.of_nat (size (rc_entries c)) - Z.of_nat (size m)).

(** ** Lemmas *)

Lemma live_lookup (now : Z) (m : gmap string Z) (k : string) (t : Z) :
  live now m !! k = Some t <-> m !! k = Some t /\ now < t.
Proof.
  unfold live. rewrite map_lookup_filter_Some. time_unfold. cbn. rewrite Z.ltb_lt. done.
Qed.

Lemma live_no_expired (now : Z) (m : gmap string Z) :
  filter (fun kv : string * Z => time_After kv.2 now = false) (live now m) = ∅.
Proof.
  apply map_empty. intros k. apply map_lookup_filter_None. right.
  intros t [_ Ht]%live_lookup. cbn. time_unfold. apply Z.ltb_lt in Ht. congruence.
Qed.

(** The entries are purged before the eviction, so it always takes live ones. *)
Lemma evict_live order (now max : Z) (m : gmap string Z) :
  max <= Z.of_nat (size (live now m)) ->
  evict order now max (live now m) =
  delete_keys (take (Z.to_nat (if Z.quot (max + 9) 10 <? 1 then 1 else Z.quot (max + 9) 10))
                 (order (live now m))) (live now m).
Proof.
  intros Hmax. unfold evict. rewrite live_no_expired, map_size_empty.
  change (0 <? Z.of_nat 0) with false. cbv iota zeta. apply Z.leb_le in Hmax as ->. done.
Qed.

(** What [Store] answers. *)
Definition present (now : Z) (c : ReplayCache) (key : string) : bool :=
  match live now (rc_entries c) !! key with
  | Some expires => time_After expires now
  | None => false
  end.

Lemma present_spec now c key :
  present now c key = true <-> exists t, rc_entries c !! key = Some t /\ now < t.
Proof.
  unfold present. destruct (live now (rc_entries c) !! key) as [t|] eqn:E.
  - apply live_lookup in E as [E Ht]. time_unfold. rewrite Z.ltb_lt. naive_solver.
  - split; [done|]. intros (t & Ht & Hlt).
    assert (live now (rc_entries c) !! key = Some t) by (by apply live_lookup). congruence.
Qed.

Lemma Store_result order now c key expiresAt :
  (Store order now c key expiresAt).2 = negb (String.eqb key "") && negb (present now c key).
Proof.
  unfold Store. destruct (String.eqb key ""); [done|]. fold (present now c key).
  by destruct (present now c key).
Qed.

(** The expiry a stored key gets. *)
Definition effectiveExpiry (now expiresAt : Z) : Z :=
  if negb (time_After expiresAt now) then now + minute else expiresAt.

(** Whether a [Store] finds the cache full of live entries. *)
Definition full (now : Z) (c : ReplayCache) : Prop :=
  rc_MaxEntries c <= Z.of_nat (size (live now (rc_entries c))).

Lemma Store_accepts order now c key expiresAt :
  (Store order now c key expiresAt).2 = true ->
  rc_entries (Store order now c key expiresAt).1 !! key = Some (effectiveExpiry now expiresAt).
Proof.
  rewrite Store_result. unfold Store. destruct (String.eqb key ""); [done|].
  fold (present now c key). destruct (present now c key); [done|].
  intros _. cbn. apply lookup_insert_eq.
Qed.

(** A live key survives a [Store] that finds room or refuses. *)
Lemma Store_keeps order now c key expiresAt k t :
  ~ full now c -> rc_entries c !! k = Some t -> now < t ->
  rc_entries (Store order now c key expiresAt).1 !! k = Some t.
Proof.
  intros Hfull Hk Ht. assert (live now (rc_entries c) !! k = Some t) as Hl by (by apply live_lookup).
  unfold Store. destruct (String.eqb_spec key ""); [done|]. fold (present now c key).
  destruct (present now c key) eqn:Hp; [done|]. unfold full in Hfull.
  destruct (rc_MaxEntries c <=? _) eqn:E2; bool_prop; [lia|]. rewrite andb_false_r. cbn.
  rewrite lookup_insert_ne; [done|]. intros ->.
  assert (present now c k = true) by (apply present_spec; eauto). congruence.
Qed.

Lemma Store_max order now c key expiresAt :
  rc_MaxEntries (Store order now c key expiresAt).1 = rc_MaxEntries c.
Proof. unfold Store. by repeat break_if. Qed.

Definition anyOrder (m : gmap string Z) : list string := (map_to_list m).*1.

(** ** Properties *)

(** At capacity the protection is lost: when the cache is full of unexpired keys, the
    next new key evicts the keys [range] visits first, and each of them is accepted again
    at once, before it expired. *)
Theorem replay_accepted_after_eviction order now c key expiresAt victim order' expiresAt' :
  rc_MaxEntries c = Z.of_nat (size (live now (rc_entries c))) -> 0 < rc_MaxEntries c ->
  key <> "" -> present now c key = false ->
  head (order (live now (rc_entries c))) = Some victim -> victim <> "" -> victim <> key ->
  let c1 := (Store order now c key expiresAt).1 in
  (Store order now c key expiresAt).2 = true /\ (Store order' now c1 victim expiresAt').2 = true.
Proof.
  intros Hmax Hpos Hkey Hp Hhead Hv Hne c1.
  rewrite !Store_result. apply String.eqb_neq in Hkey as Hk, Hv as Hvb. rewrite Hk, Hvb, Hp.
  split; [done|]. cbn [negb andb].
  assert (rc_entries c1 !! victim = None) as Hnone.
  { unfold c1, Store. rewrite Hk. fold (present now c key). rewrite Hp.
    assert (((0 <? rc_MaxEntries c) && (rc_MaxEntries c <=? Z.of_nat (size (live now (rc_entries c)))))
      = true) as -> by (apply andb_true_iff; rewrite Z.ltb_lt, Z.leb_le; lia).
    rewrite evict_live by lia. cbn [fst rc_entries]. rewrite lookup_insert_ne by done.
    rewrite delete_keys_lookup. rewrite decide_True; [done|].
    destruct (order (live now (rc_entries c))) as [|k0 ks]; [done|]. cbn in Hhead. injection Hhead as ->.
    set (n := if _ <? 1 then 1 else _). assert (1 <= n) as Hn by (unfold n; break_if; bool_prop; lia).
    destruct (Z.to_nat n) as [|n'] eqn:E; [lia|]. cbn. apply elem_of_cons. by left. }
  destruct (present now c1 victim) eqn:E; [|done].
  apply present_spec in E as (t & Ht & _). congruence.
Qed.

Lemma replay_accepted_after_eviction_witness :
  let c := mkReplayCache {[ "jti-1" := 500 ]} 1 in
  let c1 := (Store anyOrder 100 c "jti-2" 500).1 in
  (Store anyOrder 100 c1 "jti-1" 500).2 = true.
Proof.
  intros c c1.
  apply (replay_accepted_after_eviction anyOrder 100 c "jti-2" 500 "jti-1"); try reflexivity;
    discriminate.
Defined.
