(* ===== verification/DPoP.v ===== *)
(** * DPoP proof verification

    [internal/authn/dpop.go] and [internal/authn/dpop_binding.go]: parsing a proof, its
    signature, the method, target and time checks, the access-token hash and the [cnf.jkt]
    binding, and the replay cache. *)

From S2P Require Import Prelude GoStrings GoURL GoHash GoGlob GoJSON GoCrypto ReplayCache.

Local Open Scope Z_scope.

(** ** Data *)

(** [config.AuthConfig]. *)
Record AuthConfig := mkAuthConfig {
  cfg_PreflightEnabled : bool;
  cfg_RequireDPoPForDPoPAuthorization : bool;
  cfg_ValidateDPoPSignature : bool;
  cfg_MaxClockSkew : Z;
  cfg_ReplayWindow : Z;
  cfg_PublicBaseURL : string;
  cfg_IdentityValidationEnabled : bool;
  cfg_AllowedIdentityIssuers : list string;
  cfg_ExpectedIdentityAudience : string;
  cfg_VerifyWebIDOwnership : bool
}.

Record DPoPVerifier := mkDPoPVerifier {
  dv_cfg : AuthConfig;
  dv_cache : ReplayCache
}.

Definition NewDPoPVerifier (cfg : AuthConfig) (cache : option ReplayCache) : DPoPVerifier :=
  mkDPoPVerifier cfg (default NewReplayCache cache).

Record ProofClaims := mkProofClaims {
  pcl_HTM : string;
  pcl_HTU : string;
  pcl_JTI : string;
  pcl_IAT : Z;
  pcl_ATH : string
}.

Record proofHeader := mkProofHeader {
  ph_Typ : string;
  ph_Alg : string;
  ph_JWK : string
}.

Record jwk := mkJwk {
  j_KTY : string;
  j_CRV : string;
  j_X : string;
  j_Y : string;
  j_N : string;
  j_E : string
}.

(** What the verifier reads of the request. *)
Record HTTPRequest := mkHTTPRequest {
  hr_Method : string;
  hr_URL : URL;
  hr_Host : string;
  hr_TLS : bool
}.

(** ** Field setters of the JSON structs *)

Definition set_header (k : string) (v : JValue) (raw : string) (h : proofHeader)
  : option proofHeader :=
  if names_field "typ" k then
    option_map (fun x => mkProofHeader x (ph_Alg h) (ph_JWK h)) (set_string v (ph_Typ h))
  else if names_field "alg" k then
    option_map (fun x => mkProofHeader (ph_Typ h) x (ph_JWK h)) (set_string v (ph_Alg h))
  else if names_field "jwk" k then Some (mkProofHeader (ph_Typ h) (ph_Alg h) raw)
  else Some h.

Definition set_claims (k : string) (v : JValue) (raw : string) (c : ProofClaims)
  : option ProofClaims :=
  let 'mkProofClaims htm htu jti iat ath := c in
  if names_field "htm" k then option_map (fun x => mkProofClaims x htu jti iat ath) (set_string v htm)
  else if names_field "htu" k then
    option_map (fun x => mkProofClaims htm x jti iat ath) (set_string v htu)
  else if names_field "jti" k then
    option_map (fun x => mkProofClaims htm htu x iat ath) (set_string v jti)
  else if names_field "iat" k then
    option_map (fun x => mkProofClaims htm htu jti x ath) (set_int64 v iat)
  else if names_field "ath" k then
    option_map (fun x => mkProofClaims htm htu jti iat x) (set_string v ath)
  else Some c.

Definition set_jwk (k : string) (v : JValue) (raw : string) (j : jwk) : option jwk :=
  let 'mkJwk kty crv x y n e := j in
  if names_field "kty" k then option_map (fun s => mkJwk s crv x y n e) (set_string v kty)
  else if names_field "crv" k then option_map (fun s => mkJwk kty s x y n e) (set_string v crv)
  else if names_field "x" k then option_map (fun s => mkJwk kty crv s y n e) (set_string v x)
  else if names_field "y" k then option_map (fun s => mkJwk kty crv x s n e) (set_string v y)
  else if names_field "n" k then option_map (fun s => mkJwk kty crv x y s e) (set_string v n)
  else if names_field "e" k then option_map (fun s => mkJwk kty crv x y n s) (set_string v e)
  else Some j.

Definition zeroJwk : jwk := mkJwk "" "" "" "" "" "".

(** ** Parsing *)

Definition decode_part (s : string) : option string :=
  option_map bytes_to_string (base64_RawURL_DecodeString s).

Definition parseProof (proof : string)
  : result string (proofHeader * ProofClaims * string * list Z) :=
  match Split proof "." with
  | [p0; p1; p2] =>
      match decode_part p0 with
      | None => Err "DPoP header is not valid base64url"
      | Some headerBytes =>
      match decode_part p1 with
      | None => Err "DPoP claims are not valid base64url"
      | Some claimsBytes =>
      match base64_RawURL_DecodeString p2 with
      | None => Err "DPoP signature is not valid base64url"
      | Some signature =>
      match Unmarshal set_header (mkProofHeader "" "" "") headerBytes with
      | None => Err "DPoP header is not valid JSON"
      | Some header =>
      match Unmarshal set_claims (mkProofClaims "" "" "" 0 "") claimsBytes with
      | None => Err "DPoP claims are not valid JSON"
      | Some claims =>
          Ok (header, claims, String.append p0 (String.append "." p1), signature)
      end end end end end
  | _ => Err "DPoP proof must be a compact JWT"
  end.

(** ** Keys and signatures *)

Definition ecdsaPublicKey (key : jwk) : result string (Z * Z) :=
  fail! "ES256 DPoP jwk must be EC P-256"
    when negb (String.eqb (j_KTY key) "EC") || negb (String.eqb (j_CRV key) "P-256") in
  match base64_RawURL_DecodeString (j_X key) with
  | None => Err "EC jwk x is invalid"
  | Some xBytes =>
      match base64_RawURL_DecodeString (j_Y key) with
      | None => Err "EC jwk y is invalid"
      | Some yBytes =>
          let x := SetBytes xBytes in
          let y := SetBytes yBytes in
          fail! "EC jwk point is not on P-256" when negb (P256.IsOnCurve x y) in
          Ok (x, y)
      end
  end.

(** [Int64] of a big integer keeps its low 64 bits. *)
Definition rsaPublicKey (key : jwk) : result string (Z * Z) :=
  fail! "RS256 DPoP jwk must be RSA" when negb (String.eqb (j_KTY key) "RSA") in
  match base64_RawURL_DecodeString (j_N key) with
  | None => Err "RSA jwk n is invalid"
  | Some nBytes =>
      match base64_RawURL_DecodeString (j_E key) with
      | None => Err "RSA jwk e is invalid"
      | Some eBytes =>
          let n := SetBytes nBytes in
          let e := wrap64 (SetBytes eBytes) in
          fail! "RSA jwk parameters are invalid"
            when (n <=? 0) || (e <? 3) || (2 ^ 31 - 1 <? e) in
          Ok (n, e)
      end
  end.

Definition verifySignature (header : proofHeader) (signingInput : string) (signature : list Z)
  : result string unit :=
  fail! "DPoP proof header must include jwk" when String.eqb (ph_JWK header) "" in
  match Unmarshal set_jwk zeroJwk (ph_JWK header) with
  | None => Err "DPoP jwk is not valid JSON"
  | Some key =>
      let digest := Sum256 signingInput in
      if String.eqb (ph_Alg header) "ES256" then
        let! (x, y) := ecdsaPublicKey key in
        fail! "ES256 DPoP signature must be 64 bytes"
          when negb (Z.of_nat (length signature) =? 64) in
        fail! "ES256 DPoP signature verification failed"
          when negb (P256.Verify x y digest (SetBytes (take 32 signature))
                       (SetBytes (drop 32 signature))) in
        Ok tt
      else if String.eqb (ph_Alg header) "RS256" then
        let! (n, e) := rsaPublicKey key in
        fail! "RS256 DPoP signature verification failed"
          when negb (RSA.VerifyPKCS1v15 n e digest signature) in
        Ok tt
      else Err "unsupported DPoP alg"
  end.

Definition accessTokenHash (accessToken : string) : string :=
  base64_RawURL_EncodeToString (Sum256 accessToken).

Definition replayKey (header : proofHeader) (claims : ProofClaims) : string :=
  String.append (base64_RawURL_EncodeToString (Sum256 (ph_JWK header)))
    (String.append ":" (pcl_JTI claims)).

(** ** The request target *)

Definition with_path (u : URL) (path : string) : URL :=
  mkURL (Scheme u) (Opaque u) (User u) (Host u) path (RawPath u) (OmitHost u) (ForceQuery u)
    (RawQuery u) (Fragment u).
Definition without_query (u : URL) : URL :=
  mkURL (Scheme u) (Opaque u) (User u) (Host u) (Path u) (RawPath u) (OmitHost u) (ForceQuery u)
    "" "".

Definition expectedHTU (r : HTTPRequest) (publicBaseURL : string) : string :=
  let path := EscapedPath (hr_URL r) in
  let path := if String.eqb path "" then "/" else path in
  let direct := String.append (if hr_TLS r then "https" else "http")
                  (String.append "://" (String.append (hr_Host r) path)) in
  if negb (String.eqb publicBaseURL "") then
    match Parse publicBaseURL with
    | Ok base =>
        URL_String (without_query (with_path base
          (String.append (TrimRight (Path base) "/") path)))
    | Err _ => direct
    end
  else direct.

Definition normalizeHTU (value : string) : string :=
  match Parse value with
  | Err _ => value
  | Ok parsed => URL_String (without_query parsed)
  end.

(** ** The token binding *)

Definition maxDPoPThumbprintLength : Z := 128.

Definition has_line_break (s : string) : bool :=
  string_existsb (fun c => (byte_of c =? 13) || (byte_of c =? 10) || (byte_of c =? 0)) s.

Definition looksLikeJWTHeader (encodedHeader : string) : bool :=
  match decode_part encodedHeader with
  | None => false
  | Some headerBytes =>
      match Unmarshal (fun k v _ typ => if names_field "typ" k then set_string v typ else Some typ)
              "" headerBytes with
      | None => false
      | Some typ => EqualFold (TrimSpace typ) "JWT"
      end
  end.

(** [DPoPConfirmationThumbprint]: [Ok None] when the token carries no binding. *)
Definition DPoPConfirmationThumbprint (accessToken : string) : result string (option string) :=
  let accessToken := TrimSpace accessToken in
  if String.eqb accessToken "" then Ok None
  else if (32768 <? len accessToken) || has_line_break accessToken
  then Err "invalid DPoP token binding: token size or characters invalid"
  else match Split accessToken "." with
  | [p0; p1; _] =>
      if negb (looksLikeJWTHeader p0) then Ok None
      else match decode_part p1 with
      | None => Err "invalid DPoP token binding: token claims are not base64url"
      | Some claimsBytes =>
          let set_jkt k v (_ : string) jkt :=
            if names_field "jkt" k then set_string v jkt else Some jkt in
          let set_cnf k v (_ : string) jkt :=
            if names_field "cnf" k then set_struct set_jkt v jkt else Some jkt in
          match Unmarshal set_cnf "" claimsBytes with
          | None => Err "invalid DPoP token binding: token claims are not valid JSON"
          | Some j =>
              let jkt := TrimSpace j in
              if String.eqb jkt "" then Ok None
              else if (maxDPoPThumbprintLength <? len jkt) || has_line_break jkt
              then Err "invalid DPoP token binding: cnf.jkt is invalid"
              else Ok (Some jkt)
          end
      end
  | _ => Ok None
  end.

Definition proofJWKThumbprint (raw : string) : result string string :=
  fail! "invalid DPoP token binding: DPoP proof header must include bounded jwk"
    when String.eqb raw "" || (16384 <? len raw) in
  match Unmarshal set_jwk zeroJwk raw with
  | None => Err "invalid DPoP token binding: DPoP jwk is not valid JSON"
  | Some key =>
      let hash kvs := Ok (base64_RawURL_EncodeToString (Sum256 (Marshal_sorted kvs))) in
      if String.eqb (j_KTY key) "EC" then
        fail! "invalid DPoP token binding: EC jwk is missing public members"
          when String.eqb (j_CRV key) "" || String.eqb (j_X key) "" || String.eqb (j_Y key) "" in
        hash [("crv", j_CRV key); ("kty", j_KTY key); ("x", j_X key); ("y", j_Y key)]
      else if String.eqb (j_KTY key) "RSA" then
        fail! "invalid DPoP token binding: RSA jwk is missing public members"
          when String.eqb (j_N key) "" || String.eqb (j_E key) "" in
        hash [("e", j_E key); ("kty", j_KTY key); ("n", j_N key)]
      else Err "invalid DPoP token binding: unsupported DPoP jwk type"
  end.

Definition confirmDPoPTokenBinding (header : proofHeader) (expected : string)
  : result string unit :=
  let! actual := proofJWKThumbprint (ph_JWK header) in
  fail! "invalid DPoP token binding: cnf.jkt does not match DPoP proof key"
    when negb (String.eqb expected actual) in
  Ok tt.

Definition ConfirmDPoPTokenBinding (accessToken proof : string) : result string unit :=
  let! expected := DPoPConfirmationThumbprint accessToken in
  match expected with
  | None => Ok tt
  | Some jkt =>
      let! (header, _, _, _) := parseProof proof in
      confirmDPoPTokenBinding header jkt
  end.

(** ** [VerifyRequest] *)

(** [time.Unix(iat, 0)]: the seconds are counted in an [int64]. *)
Definition issuedAt (iat : Z) : Z := wrap64 (iat + unix_epoch_seconds) * second.

(** Everything up to the replay cache: the key and the expiry to store. *)
Definition checkProof (cfg : AuthConfig) (now : Z) (r : HTTPRequest) (accessToken proof : string)
  : result string (string * Z) :=
  let! (header, claims, signingInput, signature) := parseProof proof in
  fail! "DPoP proof typ must be dpop+jwt"
    when negb (EqualFold (TrimSpace (ph_Typ header)) "dpop+jwt") in
  let! _ := if cfg_ValidateDPoPSignature cfg
            then verifySignature header signingInput signature else Ok tt in
  fail! "DPoP htm does not match request method"
    when negb (String.eqb (ToUpper (pcl_HTM claims)) (hr_Method r)) in
  fail! "DPoP htu does not match request target"
    when negb (String.eqb (normalizeHTU (pcl_HTU claims))
                 (normalizeHTU (expectedHTU r (cfg_PublicBaseURL cfg)))) in
  fail! "DPoP jti is required and must be bounded"
    when String.eqb (pcl_JTI claims) "" || (512 <? len (pcl_JTI claims)) in
  let issued := issuedAt (pcl_IAT claims) in
  fail! "DPoP iat is in the future" when time_After issued (now + cfg_MaxClockSkew cfg) in
  fail! "DPoP proof is too old"
    when time_Before issued (now + wrap64 (- cfg_ReplayWindow cfg - cfg_MaxClockSkew cfg)) in
  let! _ :=
    if negb (String.eqb accessToken "") then
      fail! "DPoP ath is required when an access token is present"
        when String.eqb (pcl_ATH claims) "" in
      fail! "DPoP ath does not match access token"
        when negb (String.eqb (pcl_ATH claims) (accessTokenHash accessToken)) in
      let! expected := DPoPConfirmationThumbprint accessToken in
      match expected with
      | Some jkt => confirmDPoPTokenBinding header jkt
      | None => Ok tt
      end
    else Ok tt in
  Ok (replayKey header claims, issued + cfg_ReplayWindow cfg).

(** [VerifyRequest]; [now] is the verifier's clock, [cacheNow] the replay cache's. *)
Definition VerifyRequest (order : gmap string Z -> list string) (now cacheNow : Z)
    (v : DPoPVerifier) (r : HTTPRequest) (accessToken proof : string)
  : DPoPVerifier * result string unit :=
  match checkProof (dv_cfg v) now r accessToken proof with
  | Err e => (v, Err e)
  | Ok (cacheKey, expiresAt) =>
      let '(c, ok) := Store order cacheNow (dv_cache v) cacheKey expiresAt in
      (mkDPoPVerifier (dv_cfg v) c,
       if ok then Ok tt else Err "DPoP proof replay detected")
  end.

(** ** Lemmas *)

Lemma result_bind_Ok {E A B} (m : result E A) (k : A -> result E B) (b : B) :
  result_bind m k = Ok b -> exists a, m = Ok a /\ k a = Ok b.
Proof. destruct m; [eauto|discriminate]. Qed.

(** The parts of a proof the checks are about. *)
Definition accepted (cfg : AuthConfig) (r : HTTPRequest) (accessToken : string)
    (header : proofHeader) (claims : ProofClaims) (signingInput : string) (signature : list Z)
  : Prop :=
  EqualFold (TrimSpace (ph_Typ header)) "dpop+jwt" = true /\
  (cfg_ValidateDPoPSignature cfg = true -> verifySignature header signingInput signature = Ok tt) /\
  ToUpper (pcl_HTM claims) = hr_Method r /\
  normalizeHTU (pcl_HTU claims) = normalizeHTU (expectedHTU r (cfg_PublicBaseURL cfg)) /\
  (pcl_JTI claims <> "" /\ len (pcl_JTI claims) <= 512) /\
  (accessToken <> "" ->
     pcl_ATH claims = accessTokenHash accessToken /\
     exists expected, DPoPConfirmationThumbprint accessToken = Ok expected /\
       forall jkt, expected = Some jkt -> proofJWKThumbprint (ph_JWK header) = Ok jkt).

Definition in_time (cfg : AuthConfig) (now : Z) (claims : ProofClaims) : Prop :=
  issuedAt (pcl_IAT claims) <= now + cfg_MaxClockSkew cfg /\
  now + wrap64 (- cfg_ReplayWindow cfg - cfg_MaxClockSkew cfg) <= issuedAt (pcl_IAT claims).

Lemma confirm_Ok header jkt :
  confirmDPoPTokenBinding header jkt = Ok tt <-> proofJWKThumbprint (ph_JWK header) = Ok jkt.
Proof.
  unfold confirmDPoPTokenBinding. destruct (proofJWKThumbprint _) as [a|e]; cbn [result_bind];
    [|split; discriminate].
  destruct (String.eqb_spec jkt a) as [->|Hne]; cbn [negb]; split; congruence.
Qed.

(** The access-token checks, as one condition. *)
Lemma token_checks_Ok (accessToken : string) header claims :
  (if negb (String.eqb accessToken "") then
      fail! "DPoP ath is required when an access token is present"
        when String.eqb (pcl_ATH claims) "" in
      fail! "DPoP ath does not match access token"
        when negb (String.eqb (pcl_ATH claims) (accessTokenHash accessToken)) in
      let! expected := DPoPConfirmationThumbprint accessToken in
      match expected with
      | Some jkt => confirmDPoPTokenBinding header jkt
      | None => Ok tt
      end
    else Ok tt) = Ok tt ->
  accessToken <> "" ->
  pcl_ATH claims = accessTokenHash accessToken /\
  exists expected, DPoPConfirmationThumbprint accessToken = Ok expected /\
    forall jkt, expected = Some jkt -> proofJWKThumbprint (ph_JWK header) = Ok jkt.
Proof.
  intros H Hne. apply String.eqb_neq in Hne. rewrite Hne in H. cbn [negb] in H.
  break_if; [discriminate|].
  destruct (String.eqb_spec (pcl_ATH claims) (accessTokenHash accessToken)); [|discriminate].
  cbn [negb] in H. split; [done|]. apply result_bind_Ok in H as (expected & He & H).
  exists expected. split; [done|]. intros jkt ->. by apply confirm_Ok.
Qed.

(** What [checkProof] accepts. *)
Lemma checkProof_Ok cfg now r accessToken proof key expiresAt :
  checkProof cfg now r accessToken proof = Ok (key, expiresAt) ->
  exists header claims signingInput signature,
    parseProof proof = Ok (header, claims, signingInput, signature) /\
    accepted cfg r accessToken header claims signingInput signature /\
    in_time cfg now claims /\
    key = replayKey header claims /\
    expiresAt = issuedAt (pcl_IAT claims) + cfg_ReplayWindow cfg.
Proof.
  unfold checkProof. intros H.
  apply result_bind_Ok in H as ([[[header claims] si] sg] & Hp & H).
  destruct (EqualFold _ _) eqn:Ht in H; [|discriminate H]. cbn [negb] in H.
  apply result_bind_Ok in H as ([] & Hsig & H).
  destruct (String.eqb_spec (ToUpper (pcl_HTM claims)) (hr_Method r)) as [Hm|]; [|discriminate H].
  cbn [negb] in H.
  destruct (String.eqb_spec (normalizeHTU (pcl_HTU claims))
    (normalizeHTU (expectedHTU r (cfg_PublicBaseURL cfg)))) as [Hu|]; [|discriminate H].
  cbn [negb] in H.
  destruct (String.eqb_spec (pcl_JTI claims) "") as [|Hj]; [discriminate H|]. cbn [orb] in H.
  destruct (Z.ltb_spec 512 (len (pcl_JTI claims))) as [|Hl]; [discriminate H|].
  time_unfold. destruct (Z.ltb_spec (now + cfg_MaxClockSkew cfg) (issuedAt (pcl_IAT claims)));
    [discriminate H|].
  destruct (Z.ltb_spec (issuedAt (pcl_IAT claims))
    (now + wrap64 (- cfg_ReplayWindow cfg - cfg_MaxClockSkew cfg))); [discriminate H|].
  apply result_bind_Ok in H as ([] & Htok & H). injection H as <- <-.
  exists header, claims, si, sg. split; [done|]. split; [|by split_and!].
  split_and!; try done.
  - intros Hv. by rewrite Hv in Hsig.
  - by eapply token_checks_Ok.
Qed.

(** The clock only matters for the time window. *)
Lemma checkProof_later cfg now now' r accessToken proof key expiresAt :
  checkProof cfg now r accessToken proof = Ok (key, expiresAt) ->
  now <= now' ->
  now' + wrap64 (- cfg_ReplayWindow cfg - cfg_MaxClockSkew cfg) + cfg_ReplayWindow cfg <= expiresAt ->
  checkProof cfg now' r accessToken proof = Ok (key, expiresAt).
Proof.
  unfold checkProof. intros H Hle Hexp.
  apply result_bind_Ok in H as ([[[header claims] si] sg] & Hp & H). rewrite Hp. cbn [result_bind].
  destruct (negb (EqualFold _ _)); [discriminate H|].
  apply result_bind_Ok in H as ([] & Hsig & H). rewrite Hsig. cbn [result_bind].
  destruct (negb (String.eqb (ToUpper _) _)); [discriminate H|].
  destruct (negb (String.eqb (normalizeHTU _) _)); [discriminate H|].
  destruct (String.eqb (pcl_JTI claims) "" || _); [discriminate H|].
  time_unfold. destruct (Z.ltb_spec (now + cfg_MaxClockSkew cfg) (issuedAt (pcl_IAT claims)));
    [discriminate H|].
  destruct (Z.ltb_spec (now' + cfg_MaxClockSkew cfg) (issuedAt (pcl_IAT claims))); [lia|].
  set (back := wrap64 _) in *.
  destruct (Z.ltb_spec (issuedAt (pcl_IAT claims)) (now + back)); [discriminate H|].
  apply result_bind_Ok in H as ([] & Htok & H). injection H as Hk He.
  destruct (Z.ltb_spec (issuedAt (pcl_IAT claims)) (now' + back)); [lia|].
  rewrite Htok. cbn [result_bind]. by rewrite Hk, He.
Qed.

(** ** Histories of a verifier *)

Record dpop_call := mkDpopCall {
  dp_order : gmap string Z -> list string;
  dp_now : Z;
  dp_cacheNow : Z;
  dp_request : HTTPRequest;
  dp_token : string;
  dp_proof : string
}.

Definition verify_call (v : DPoPVerifier) (c : dpop_call) : DPoPVerifier * result string unit :=
  VerifyRequest (dp_order c) (dp_now c) (dp_cacheNow c) v (dp_request c) (dp_token c) (dp_proof c).

Definition verify_step (v : DPoPVerifier) (c : dpop_call) : DPoPVerifier := (verify_call v c).1.

(** No call finds the replay cache full of unexpired keys. *)
Fixpoint never_full (v : DPoPVerifier) (calls : list dpop_call) : Prop :=
  match calls with
  | [] => True
  | c :: rest => ~ full (dp_cacheNow c) (dv_cache v) /\ never_full (verify_step v c) rest
  end.

Lemma verify_keeps (v : DPoPVerifier) (c : dpop_call) (k : string) (t : Z) :
  ~ full (dp_cacheNow c) (dv_cache v) -> rc_entries (dv_cache v) !! k = Some t ->
  dp_cacheNow c < t -> rc_entries (dv_cache (verify_step v c)) !! k = Some t.
Proof.
  intros Hf Hk Ht. unfold verify_step, verify_call, VerifyRequest.
  destruct (checkProof _ _ _ _ _) as [[key e]|]; [|done].
  pose proof (Store_keeps (dp_order c) (dp_cacheNow c) (dv_cache v) key e k t Hf Hk Ht) as H.
  by destruct (Store _ _ _ _ _).
Qed.

Lemma verify_cfg (v : DPoPVerifier) (c : dpop_call) : dv_cfg (verify_step v c) = dv_cfg v.
Proof.
  unfold verify_step, verify_call, VerifyRequest. destruct (checkProof _ _ _ _ _) as [[key e]|]; [|done].
  by destruct (Store _ _ _ _ _).
Qed.

(** ** Properties *)

(** C4: What an accepted request proves: the proof parses, is of the DPoP type, carries a
    valid signature if the configuration has signatures checked, names the method and the
    target of the request and a non-empty, bounded token identifier, was issued within the
    window around the verifier's clock, and its key and identifier are not in the replay
    cache.  If the request has an access token, the proof holds its hash, and if the token
    is bound to a key, the proof's key is that one. *)
Theorem dpop_accept_sound order now cacheNow (v v' : DPoPVerifier) (r : HTTPRequest)
    (accessToken proof : string) :
  VerifyRequest order now cacheNow v r accessToken proof = (v', Ok tt) ->
  exists header claims signingInput signature,
    parseProof proof = Ok (header, claims, signingInput, signature) /\
    accepted (dv_cfg v) r accessToken header claims signingInput signature /\
    in_time (dv_cfg v) now claims /\
    present cacheNow (dv_cache v) (replayKey header claims) = false.
Proof.
  unfold VerifyRequest. destruct (checkProof _ _ _ _ _) as [[key e]|] eqn:Hc; [|discriminate].
  destruct (checkProof_Ok _ _ _ _ _ _ _ Hc) as (header & claims & si & sg & Hp & Ha & Ht & -> & ->).
  destruct (Store _ _ _ _ _) as [c ok] eqn:Hs. destruct ok; [|discriminate]. intros _.
  exists header, claims, si, sg. split_and!; try done.
  pose proof (Store_result order cacheNow (dv_cache v) (replayKey header claims)
    (issuedAt (pcl_IAT claims) + cfg_ReplayWindow (dv_cfg v))) as Hr.
  rewrite Hs in Hr. symmetry in Hr. apply andb_true_iff in Hr as [_ Hr]. by apply negb_true_iff.
Qed.

(** C35: A proof is good for one use: once a proof was accepted, every later proof with the
    same key and token identifier is refused until the stored expiry, whatever requests
    are verified meanwhile, as long as the replay cache is not full of unexpired keys. *)
Theorem dpop_proof_single_use (v v1 : DPoPVerifier) (first again : dpop_call)
    (calls : list dpop_call) (key key' : string) (e e' : Z) :
  verify_call v first = (v1, Ok tt) ->
  checkProof (dv_cfg v) (dp_now first) (dp_request first) (dp_token first) (dp_proof first)
    = Ok (key, e) ->
  let v2 := foldl verify_step v1 calls in
  checkProof (dv_cfg v) (dp_now again) (dp_request again) (dp_token again) (dp_proof again)
    = Ok (key', e') -> key = key' ->
  never_full v1 calls ->
  Forall (fun c => dp_cacheNow c < effectiveExpiry (dp_cacheNow first) e) (calls ++ [again]) ->
  (verify_call v2 again).2 = Err "DPoP proof replay detected".
Proof.
  intros H1 Hc1 v2 Hc2 <- Hfull Hlate. apply Forall_app in Hlate as [Hlate Hag].
  apply Forall_cons in Hag as [Hag _].
  set (expiry := effectiveExpiry (dp_cacheNow first) e) in *.
  revert H1. unfold verify_call, VerifyRequest. rewrite Hc1.
  pose proof (Store_accepts (dp_order first) (dp_cacheNow first) (dv_cache v) key e) as Hacc.
  destruct (Store _ _ _ _ _) as [c0 ok]. destruct ok; [|discriminate].
  intros [= <-]. specialize (Hacc eq_refl). cbn [fst] in Hacc.
  assert (rc_entries (dv_cache v2) !! key = Some expiry /\ dv_cfg v2 = dv_cfg v) as [Hent Hcfg].
  { unfold v2. revert Hfull Hlate Hacc. clear. generalize (dv_cfg v). intros cfg.
    assert (forall v0, never_full v0 calls -> Forall (fun c => dp_cacheNow c < expiry) calls ->
      rc_entries (dv_cache v0) !! key = Some expiry ->
      rc_entries (dv_cache (foldl verify_step v0 calls)) !! key = Some expiry /\
      dv_cfg (foldl verify_step v0 calls) = dv_cfg v0) as Hgen.
    { induction calls as [|c calls IH]; intros v0 Hf Hl He; [done|].
      destruct Hf as [Hf Hfull]. apply Forall_cons in Hl as [Hc Hl]. cbn [foldl].
      destruct (IH (verify_step v0 c)) as [I1 I2]; [done|done|by apply verify_keeps|].
      split; [done|]. by rewrite I2, verify_cfg. }
    intros Hf Hl He. by apply Hgen. }
  rewrite Hcfg, Hc2.
  pose proof (Store_result (dp_order again) (dp_cacheNow again) (dv_cache v2) key e') as Hr.
  assert (present (dp_cacheNow again) (dv_cache v2) key = true) as Hp by (apply present_spec; eauto).
  rewrite Hp, andb_false_r in Hr. destruct (Store _ _ _ _ _) as [c2 ok2]. cbn [snd] in Hr. by subst.
Qed.

(** The clock-skew allowance reopens the window: a proof that was accepted while it was
    younger than the replay window is accepted a second time, by the same verifier, at any
    time between its expiry from the replay cache and the end of the skew allowance. *)
Theorem dpop_replay_in_skew_window order order' (t0 t1 : Z) (v v1 : DPoPVerifier)
    (r : HTTPRequest) (accessToken proof key : string) (e : Z) :
  VerifyRequest order t0 t0 v r accessToken proof = (v1, Ok tt) ->
  checkProof (dv_cfg v) t0 r accessToken proof = Ok (key, e) ->
  in_int64 (- cfg_ReplayWindow (dv_cfg v) - cfg_MaxClockSkew (dv_cfg v)) ->
  t0 < e -> e <= t1 <= e + cfg_MaxClockSkew (dv_cfg v) ->
  (VerifyRequest order' t1 t1 v1 r accessToken proof).2 = Ok tt.
Proof.
  intros H1 Hc Hw Ht0 Ht1. revert H1. unfold VerifyRequest. rewrite Hc.
  pose proof (Store_accepts order t0 (dv_cache v) key e) as Hacc.
  pose proof (Store_result order t0 (dv_cache v) key e) as Hres.
  destruct (Store order t0 _ _ _) as [c0 ok]. destruct ok; [|discriminate].
  intros [= <-]. specialize (Hacc eq_refl). cbn [fst snd dv_cfg dv_cache] in *.
  rewrite (checkProof_later _ t0 t1 _ _ _ key e Hc) by (rewrite ?wrap64_id by done; lia).
  pose proof (Store_result order' t1 c0 key e) as Hr.
  assert (present t1 c0 key = false) as Hp.
  { destruct (present t1 c0 key) eqn:E; [|done]. apply present_spec in E as (t & Ht & Hlt).
    rewrite Hacc in Ht. injection Ht as <-. unfold effectiveExpiry in Hlt. time_unfold.
    assert (t0 <? e = true) as Hb by (by apply Z.ltb_lt). rewrite Hb in Hlt. cbn in Hlt. lia. }
  rewrite Hp in Hr. symmetry in Hres. apply andb_true_iff in Hres as [Hk _]. rewrite Hk in Hr.
  destruct (Store order' t1 _ _ _) as [c2 ok2]. cbn [snd] in *. by subst.
Qed.

(** ** Witnesses *)

Definition sampleProof : string :=
  Join ["eyJ0eXAiOiJkcG9wK2p3dCIsImFsZyI6IkVTMjU2IiwiandrIjp7Imt0eSI6IkVDIn19";
        "eyJodG0iOiJHRVQiLCJodHUiOiJodHRwczovL3BvZC5leGFtcGxlL25vdGVzLzEiLCJqdGkiOiJqMSIsImlhdCI6MTcwMDAwMDAwMH0";
        "AA"] ".".

Definition sampleTarget : HTTPRequest :=
  mkHTTPRequest "GET" (mkURL "" "" None "" "/notes/1" "" false false "" "") "pod.example" true.

Definition sampleVerifier : DPoPVerifier :=
  NewDPoPVerifier (mkAuthConfig true true false (60 * second) (300 * second) "" false [] "" false) None.

Definition proofTime : Z := time_Unix 1700000000.

Definition sampleCall (t : Z) : dpop_call :=
  mkDpopCall anyOrder t t sampleTarget "" sampleProof.

Definition sampleKey : string := "y3Y6my14C8GZHY14SCQm1UHRpXUzBv1GRLN6nSYtxx8:j1".

(** An access token that is bound to an RSA key, and a proof that this key has signed. *)
Definition boundToken : string :=
  Join ["eyJ0eXAiOiJKV1QiLCJhbGciOiJSUzI1NiJ9";
    "eyJjbmYiOnsiamt0IjoiSkFZXzhpaE45NV9iMGl5OURtSDZ3Q0ctMFdGWjhsQklVTG41LVN3N0ZPQSJ9fQ";
    "AA"] ".".
Definition signedProof : string :=
  Join [Join ["eyJ0eXAiOiJkcG9wK2p3dCIsImFsZyI6IlJTMjU2IiwiandrIjp7Imt0eSI6IlJTQSIsIm4iOiJxNGZnMzhZeXE4STRuRVItQXdm";
     "b3lGZ3hmVVhkV2hCRzJ4Ul9qTGd1M2lYeHhOSHFyMGFfa3Q0aURVWmF4SXpMaUI3Tk0ybi03VDdHSE16eDZkaXlVNlU3NFhndE9z";
     "UGxQVS1jV0tqUlNYcXVXTF9TcVNIemFOd29uRXdoQmpmMU45MXNNbndxbGZzaXhqVG5wRU5vM2VVUzVxT21qNDF0aEFHODJqbDhE";
     "eU0iLCJlIjoiQXcifX0"] "";
    Join ["eyJodG0iOiJHRVQiLCJodHUiOiJodHRwczovL3BvZC5leGFtcGxlL25vdGVzLzEiLCJqdGkiOiJqMSIsImlhdCI6MTcwMDAwMDAw";
     "MCwiYXRoIjoicFBYYm9ROVFOS08tNlBYVkF2bUcyandMMTVreDg1M0xWMU9IQVlyVy13ayJ9"] "";
    Join ["i-hlThK1UcT4ju6Jx3ULilj380UC214nf2lPiGLG1VhJr2KtZ4AEwB9T1aT4zMtuD5IzY93-oIPtpdQ2xjPKCJTg4wt-mJg-vrhy";
     "DtjgSKxBcAEEqn2Gxj7eVOrn8PyYuWv004_YixoHCW-YeWqa0ce1sGEcNmD16puOG3-Mxck"] ""] ".".
Definition signatureVerifier : DPoPVerifier :=
  NewDPoPVerifier (mkAuthConfig true true true (60 * second) (300 * second) "" false [] "" false) None.

Lemma dpop_accept_sound_witness :
  exists header claims signingInput signature,
    parseProof signedProof = Ok (header, claims, signingInput, signature) /\
    verifySignature header signingInput signature = Ok tt /\
    pcl_ATH claims = accessTokenHash boundToken /\
    proofJWKThumbprint (ph_JWK header) = Ok "JAY_8ihN95_b0iy9DmH6wCG-0WFZ8lBIULn5-Sw7FOA" /\
    present proofTime (dv_cache signatureVerifier) (replayKey header claims) = false.
Proof.
  destruct (dpop_accept_sound anyOrder proofTime proofTime signatureVerifier
    (VerifyRequest anyOrder proofTime proofTime signatureVerifier sampleTarget boundToken signedProof).1 sampleTarget boundToken signedProof)
    as (h & c & si & sg & Hp & (_ & Hsig & _ & _ & _ & Hbind) & _ & Hr).
  - assert ((VerifyRequest anyOrder proofTime proofTime signatureVerifier sampleTarget boundToken signedProof).2 = Ok tt) as Ho
      by (vm_compute; reflexivity).
    destruct (VerifyRequest anyOrder proofTime proofTime signatureVerifier sampleTarget boundToken signedProof) as [v' r]. cbn in Ho |- *.
    by rewrite Ho.
  - destruct Hbind as (Hath & expected & He & Hkey); [discriminate|].
    exists h, c, si, sg. split; [exact Hp|]. split; [by apply Hsig|]. split; [exact Hath|]. split; [|exact Hr].
    apply Hkey. assert (DPoPConfirmationThumbprint boundToken = Ok (Some "JAY_8ihN95_b0iy9DmH6wCG-0WFZ8lBIULn5-Sw7FOA")) as Ht
      by (vm_compute; reflexivity). rewrite He in Ht. by injection Ht.
Defined.

Lemma dpop_proof_single_use_witness :
  let v1 := verify_step sampleVerifier (sampleCall proofTime) in
  (verify_call v1 (sampleCall (proofTime + 299 * second))).2 = Err "DPoP proof replay detected".
Proof.
  intros v1.
  apply (dpop_proof_single_use sampleVerifier v1 (sampleCall proofTime)
    (sampleCall (proofTime + 299 * second)) [] sampleKey sampleKey
    (proofTime + 300 * second) (proofTime + 300 * second)).
  - vm_compute. reflexivity.
  - vm_compute. reflexivity.
  - vm_compute. reflexivity.
  - reflexivity.
  - exact I.
  - constructor; [vm_compute; reflexivity|constructor].
Defined.

Lemma dpop_replay_in_skew_window_witness :
  let v1 := verify_step sampleVerifier (sampleCall proofTime) in
  (VerifyRequest anyOrder (proofTime + 330 * second) (proofTime + 330 * second) v1 sampleTarget ""
     sampleProof).2 = Ok tt.
Proof.
  intros v1.
  apply (dpop_replay_in_skew_window anyOrder anyOrder proofTime _ sampleVerifier v1 sampleTarget ""
    sampleProof sampleKey (proofTime + 300 * second)).
  - vm_compute. reflexivity.
  - vm_compute. reflexivity.
  - vm_compute. split; discriminate.
  - vm_compute. reflexivity.
  - vm_compute. split; discriminate.
Defined.

(** ** Targets under a public base URL *)

Lemma escape_percent (p : string) :
  string_existsb (Ascii.eqb "%") p = true -> escape encodePath p <> p.
Proof.
  intros H Heq. assert (String.length p < String.length (escape encodePath p))%nat as Hl; [|rewrite Heq in Hl; lia].
  clear Heq. induction p as [|c p IH]; [discriminate|].
  assert (String.length p <= String.length (escape encodePath p))%nat as Hle.
  { clear. induction p as [|c p IH]; [done|]. cbn [escape]. break_if; cbn [String.length]; lia. }
  rewrite string_existsb_cons in H. cbn [escape]. apply orb_true_iff in H as [H|H].
  - apply Ascii.eqb_eq in H as <-. change (shouldEscape encodePath "%") with true. cbn [String.length]. lia.
  - specialize (IH H). break_if; cbn [String.length]; lia.
Qed.

Lemma slash_cut (s : string) : Cut (String "/" s) "/" = ("", s, true).
Proof. unfold Cut. cbn. by destruct s. Qed.

Lemma slash_prefix (s : string) : HasPrefix (String "/" s) "/" = true.
Proof. unfold HasPrefix. cbn. by destruct s. Qed.

(** With a public base URL the path of the request is escaped twice: the target the
    verifier expects is the base followed by the escaped form of the already escaped path,
    so it is not the URL of a request whose path holds a percent escape. *)
Theorem expected_htu_double_escapes (r : HTTPRequest) (p : string) :
  EscapedPath (hr_URL r) = String "/" p ->
  expectedHTU r "https://pod.example" =
    String.append "https://pod.example" (escape encodePath (EscapedPath (hr_URL r))) /\
  (string_existsb (Ascii.eqb "%") p = true ->
   expectedHTU r "https://pod.example" <>
     String.append "https://pod.example" (EscapedPath (hr_URL r))).
Proof.
  intros Hp.
  assert (expectedHTU r "https://pod.example" =
    String.append "https://pod.example" (escape encodePath (EscapedPath (hr_URL r)))) as He.
  { unfold expectedHTU. rewrite Hp. change (String.eqb (String "/" p) "") with false. cbv iota zeta.
    change (negb (String.eqb "https://pod.example" "")) with true. cbv iota.
    change (Parse "https://pod.example") with
      (@Ok url_error URL (mkURL "https" "" None "pod.example" "" "" false false "" "")).
    cbv iota. change (TrimRight (Path (mkURL "https" "" None "pod.example" "" "" false false "" "")) "/")
      with "". rewrite str_app_nil_l. unfold URL_String, with_path, without_query, EscapedPath.
    cbn [Scheme Opaque User Host Path RawPath OmitHost ForceQuery RawQuery Fragment].
    change (String.eqb "" "") with true. cbn [negb andb orb].
    assert (String.eqb (String "/" p) "*" = false) as -> by reflexivity.
    change (escape encodePath (String "/" p)) with (String "/" (escape encodePath p)).
    rewrite slash_cut, slash_prefix. change (String.append "" "") with "".
    rewrite str_app_nil_r. reflexivity. }
  split; [done|]. intros Hpc Habs. rewrite He in Habs. apply str_app_inj_l in Habs.
  rewrite Hp in Habs. change (escape encodePath (String "/" p)) with (String "/" (escape encodePath p)) in Habs.
  injection Habs as Habs. by eapply escape_percent.
Qed.

Lemma expected_htu_double_escapes_witness :
  let r := mkHTTPRequest "GET" (mkURL "" "" None "" "/a b" "" false false "" "") "pod.example" true in
  expectedHTU r "https://pod.example" = "https://pod.example/a%2520b" /\
  normalizeHTU (expectedHTU r "https://pod.example") <> normalizeHTU "https://pod.example/a%20b" /\
  expectedHTU r "" = "https://pod.example/a%20b".
Proof.
  intros r. split.
  - rewrite (proj1 (expected_htu_double_escapes r "a%20b" eq_refl)). vm_compute. reflexivity.
  - split; vm_compute; [discriminate|reflexivity].
Defined.
