(* ===== verification/Identity.v ===== *)
(** * Identity tokens

    [internal/authn/identity.go]: the claims of an identity token and their validation, and
    [internal/authn/jwt.go]: compact tokens, the choice of the RSA key in a key set, and the
    verification of a signed token. *)

From S2P Require Import Prelude GoStrings GoURL GoHash GoGlob GoJSON GoCrypto GoMime RequestBuilder ReplayCache DPoP.

Local Open Scope Z_scope.

Definition maxIdentityIssuerLength : Z := 2048.
Definition maxIdentitySubjectLength : Z := 2048.
Definition maxIdentityClientIDLength : Z := 512.
Definition maxCompactJWTLength : Z := 32768.

(** The errors the code tells apart with [errors.Is]. *)
Inductive identity_error :=
| ErrInvalidIdentityToken (detail : string)
| ErrInvalidJWT (detail : string)
| ErrInvalidIssuerMetadata (detail : string)
| ErrInvalidOIDCDiscovery (detail : string).

(** ** Claims *)

Record IdentityClaims := mkIdentityClaims {
  ic_Issuer : string;
  ic_Subject : string;
  ic_Audience : list string;
  ic_ClientID : string;
  ic_IssuedAt : Z;
  ic_ExpiresAt : Z
}.

Record IdentityValidationOptions := mkIdentityOptions {
  io_AllowedIssuers : list string;
  io_ExpectedAudience : string;
  io_Now : Z;
  io_ClockSkew : Z
}.

(** [aud] is decoded into an [any]: nothing, a string or a list of strings. *)
Definition normalizeAudienceClaim (value : JValue) : result identity_error (list string) :=
  match value with
  | JNull => Ok []
  | JString v => Ok [TrimSpace v]
  | JArray items =>
      match mapM (fun item => match item with JString text => Some (TrimSpace text) | _ => None end) items with
      | Some out => Ok out
      | None => Err (ErrInvalidIdentityToken "invalid audience")
      end
  | _ => Err (ErrInvalidIdentityToken "invalid audience")
  end.

Record rawClaims := mkRawClaims {
  raw_Issuer : string;
  raw_Subject : string;
  raw_Audience : JValue;
  raw_ClientID : string;
  raw_IssuedAt : Z;
  raw_ExpiresAt : Z
}.

Definition set_rawClaims (k : string) (v : JValue) (_ : string) (c : rawClaims) : option rawClaims :=
  let 'mkRawClaims iss sub aud client iat exp := c in
  if names_field "iss" k then option_map (fun x => mkRawClaims x sub aud client iat exp) (set_string v iss)
  else if names_field "sub" k then option_map (fun x => mkRawClaims iss x aud client iat exp) (set_string v sub)
  else if names_field "aud" k then Some (mkRawClaims iss sub v client iat exp)
  else if names_field "client_id" k then option_map (fun x => mkRawClaims iss sub aud x iat exp) (set_string v client)
  else if names_field "iat" k then option_map (fun x => mkRawClaims iss sub aud client x exp) (set_int64 v iat)
  else if names_field "exp" k then option_map (fun x => mkRawClaims iss sub aud client iat x) (set_int64 v exp)
  else Some c.

Definition ParseIdentityClaimsJSON (input : string) : result identity_error IdentityClaims :=
  fail! ErrInvalidIdentityToken "claims size out of bounds" when String.eqb input "" || (32768 <? len input) in
  match Unmarshal set_rawClaims (mkRawClaims "" "" JNull "" 0 0) input with
  | None => Err (ErrInvalidIdentityToken "claims are not valid JSON")
  | Some raw =>
      let! audience := normalizeAudienceClaim (raw_Audience raw) in
      Ok (mkIdentityClaims (raw_Issuer raw) (raw_Subject raw) audience (raw_ClientID raw) (raw_IssuedAt raw) (raw_ExpiresAt raw))
  end.

(** ** Identity URIs *)

Definition parseHTTPSIdentityURI (value : string) (maxLen : Z) : option URL :=
  let value := TrimSpace value in
  if String.eqb value "" || (maxLen <? len value) || has_line_break value then None
  else match Parse value with
       | Err _ => None
       | Ok parsed =>
           if negb (String.eqb (Scheme parsed) "https") || String.eqb (Host parsed) ""
              || match User parsed with Some _ => true | None => false end
           then None else Some parsed
       end.

Definition without_RawQuery (u : URL) : URL :=
  mkURL (Scheme u) (Opaque u) (User u) (Host u) (Path u) (RawPath u) (OmitHost u) (ForceQuery u) "" (Fragment u).

Definition canonicalIssuerURI (value : string) : option string :=
  match parseHTTPSIdentityURI value maxIdentityIssuerLength with
  | Some parsed => if negb (String.eqb (Fragment parsed) "") then None else Some (URL_String (without_RawQuery parsed))
  | None => None
  end.

Definition canonicalWebIDURI (value : string) : option string :=
  match parseHTTPSIdentityURI value maxIdentitySubjectLength with
  | Some parsed => Some (URL_String (without_RawQuery parsed))
  | None => None
  end.

Definition issuerAllowed (issuer : string) (allowed : list string) : bool :=
  existsb (fun item => match canonicalIssuerURI item with Some candidate => String.eqb candidate issuer | None => false end) allowed.

Definition audienceContains (audience : list string) (expected : string) : bool :=
  let expected := TrimSpace expected in
  String.eqb expected "" || existsb (fun item => String.eqb (TrimSpace item) expected) audience.

(** ** Validation *)

(** [wall] is the time, for options without one. *)
Definition ValidateIdentityClaims (wall : Z) (claims : IdentityClaims) (opts : IdentityValidationOptions)
  : result identity_error TrustedIdentity :=
  let now := if time_IsZero (io_Now opts) then wall else io_Now opts in
  let skew := if io_ClockSkew opts <=? 0 then 2 * minute else io_ClockSkew opts in
  match canonicalIssuerURI (ic_Issuer claims) with
  | None => Err (ErrInvalidIdentityToken "invalid issuer")
  | Some issuer =>
  match canonicalWebIDURI (ic_Subject claims) with
  | None => Err (ErrInvalidIdentityToken "invalid subject")
  | Some webID =>
      fail! ErrInvalidIdentityToken "issuer is not allowed"
        when negb (bool_decide (io_AllowedIssuers opts = [])) && negb (issuerAllowed issuer (io_AllowedIssuers opts)) in
      fail! ErrInvalidIdentityToken "audience mismatch"
        when negb (String.eqb (io_ExpectedAudience opts) "")
          && negb (audienceContains (ic_Audience claims) (io_ExpectedAudience opts)) in
      fail! ErrInvalidIdentityToken "expiration is required" when ic_ExpiresAt claims <=? 0 in
      let expiresAt := issuedAt (ic_ExpiresAt claims) in
      fail! ErrInvalidIdentityToken "token expired" when time_After now (expiresAt + skew) in
      fail! ErrInvalidIdentityToken "issued-at is in the future"
        when (0 <? ic_IssuedAt claims) && time_After (issuedAt (ic_IssuedAt claims)) (now + skew) in
      let clientID := TrimSpace (ic_ClientID claims) in
      fail! ErrInvalidIdentityToken "invalid client id"
        when has_line_break clientID || (maxIdentityClientIDLength <? len clientID) in
      Ok (mkIdentity issuer webID clientID (ic_Audience claims) expiresAt)
  end
  end.

(** ** Compact tokens *)

Record jwtHeader := mkJwtHeader { jh_Algorithm : string; jh_KeyID : string; jh_Type : string }.

Definition set_jwtHeader (k : string) (v : JValue) (_ : string) (h : jwtHeader) : option jwtHeader :=
  let 'mkJwtHeader alg kid typ := h in
  if names_field "alg" k then option_map (fun x => mkJwtHeader x kid typ) (set_string v alg)
  else if names_field "kid" k then option_map (fun x => mkJwtHeader alg x typ) (set_string v kid)
  else if names_field "typ" k then option_map (fun x => mkJwtHeader alg kid x) (set_string v typ)
  else Some h.

Definition bounded_part (s : string) (max : Z) : option (list Z) :=
  match base64_RawURL_DecodeString s with
  | Some b => if bool_decide (b = []) || (max <? Z.of_nat (length b)) then None else Some b
  | None => None
  end.

Definition parseCompactJWT (token : string) : result identity_error (jwtHeader * string * string * list Z) :=
  let token := TrimSpace token in
  fail! ErrInvalidJWT "invalid token length"
    when String.eqb token "" || (maxCompactJWTLength <? len token) || has_line_break token in
  match Split token "." with
  | [p0; p1; p2] =>
      fail! ErrInvalidJWT "compact token must have three parts"
        when String.eqb p0 "" || String.eqb p1 "" || String.eqb p2 "" in
      match bounded_part p0 4096 with
      | None => Err (ErrInvalidJWT "invalid header")
      | Some headerBytes =>
      match bounded_part p1 32768 with
      | None => Err (ErrInvalidJWT "invalid payload")
      | Some payload =>
      match bounded_part p2 8192 with
      | None => Err (ErrInvalidJWT "invalid signature")
      | Some signature =>
      match Unmarshal set_jwtHeader (mkJwtHeader "" "" "") (bytes_to_string headerBytes) with
      | None => Err (ErrInvalidJWT "invalid header json")
      | Some header =>
          Ok (header, bytes_to_string payload, String.append p0 (String.append "." p1), signature)
      end end end end
  | _ => Err (ErrInvalidJWT "compact token must have three parts")
  end.

(** ** Keys *)

Record rsaJWK := mkRsaJWK {
  rk_KeyType : string;
  rk_KeyID : string;
  rk_Algorithm : string;
  rk_Use : string;
  rk_N : string;
  rk_E : string
}.

Definition set_rsaJWK (k : string) (v : JValue) (_ : string) (j : rsaJWK) : option rsaJWK :=
  let 'mkRsaJWK kty kid alg use n e := j in
  if names_field "kty" k then option_map (fun s => mkRsaJWK s kid alg use n e) (set_string v kty)
  else if names_field "kid" k then option_map (fun s => mkRsaJWK kty s alg use n e) (set_string v kid)
  else if names_field "alg" k then option_map (fun s => mkRsaJWK kty kid s use n e) (set_string v alg)
  else if names_field "use" k then option_map (fun s => mkRsaJWK kty kid alg s n e) (set_string v use)
  else if names_field "n" k then option_map (fun s => mkRsaJWK kty kid alg use s e) (set_string v n)
  else if names_field "e" k then option_map (fun s => mkRsaJWK kty kid alg use n s) (set_string v e)
  else Some j.

Definition decodeRsaJWK (raw : string) : option rsaJWK := Unmarshal set_rsaJWK (mkRsaJWK "" "" "" "" "" "") raw.

Definition rsaPublicKeyFromJWK (key : rsaJWK) : result identity_error (Z * Z) :=
  match bounded_part (rk_N key) 8192 with
  | None => Err (ErrInvalidJWT "invalid rsa modulus")
  | Some nBytes =>
  match bounded_part (rk_E key) 8 with
  | None => Err (ErrInvalidJWT "invalid rsa exponent")
  | Some eBytes =>
      let exponent := SetBytes eBytes in
      fail! ErrInvalidJWT "invalid rsa exponent"
        when (int64_max <? exponent) || (exponent <=? 0) || (2 ^ 31 - 1 <? exponent) in
      let modulus := SetBytes nBytes in
      fail! ErrInvalidJWT "rsa key too small" when RSA.bitlen modulus <? 2048 in
      Ok (modulus, exponent)
  end
  end.

(** A key set, with the time it was fetched at and the time it expires at. *)
Record JWKS := mkJWKS { ks_Keys : list string; ks_FetchedAt : Z; ks_ExpiresAt : Z }.

(** The first key with the identifier decides. *)
Fixpoint findKey (keys : list string) (kid alg : string) : result identity_error (Z * Z) :=
  match keys with
  | [] => Err (ErrInvalidJWT "key not found")
  | raw :: rest =>
      match decodeRsaJWK raw with
      | None => Err (ErrInvalidJWT "invalid jwk")
      | Some key =>
          if negb (String.eqb (rk_KeyID key) kid) then findKey rest kid alg
          else
            fail! ErrInvalidJWT "invalid rsa jwk"
              when negb (String.eqb (rk_KeyType key) "RSA") || String.eqb (rk_N key) "" || String.eqb (rk_E key) "" in
            fail! ErrInvalidJWT "jwk algorithm mismatch"
              when negb (String.eqb (rk_Algorithm key) "") && negb (String.eqb (rk_Algorithm key) alg) in
            fail! ErrInvalidJWT "jwk use mismatch"
              when negb (String.eqb (rk_Use key) "") && negb (String.eqb (rk_Use key) "sig") in
            rsaPublicKeyFromJWK key
      end
  end.

Definition rsaPublicKeyForJWT (jwks : JWKS) (kid alg : string) : result identity_error (Z * Z) :=
  fail! ErrInvalidJWT "invalid key selector" when String.eqb kid "" || negb (String.eqb alg "RS256") in
  fail! ErrInvalidJWT "invalid jwks" when bool_decide (ks_Keys jwks = []) || (32 <? Z.of_nat (length (ks_Keys jwks))) in
  findKey (ks_Keys jwks) kid alg.

Definition VerifyIdentityJWT (wall : Z) (token : string) (jwks : JWKS) (opts : IdentityValidationOptions)
  : result identity_error TrustedIdentity :=
  let! (header, payload, signingInput, signature) := parseCompactJWT token in
  fail! ErrInvalidJWT "unsupported algorithm" when negb (String.eqb (jh_Algorithm header) "RS256") in
  fail! ErrInvalidJWT "missing key id" when String.eqb (jh_KeyID header) "" in
  let! (n, e) := rsaPublicKeyForJWT jwks (jh_KeyID header) (jh_Algorithm header) in
  fail! ErrInvalidJWT "signature verification failed"
    when negb (RSA.VerifyPKCS1v15 n e (Sum256 signingInput) signature) in
  let! claims := ParseIdentityClaimsJSON payload in
  ValidateIdentityClaims wall claims opts.

(** ** Accepted tokens *)

(** The options accept the claims at [now], and the identity is theirs. *)
Record claims_accepted (opts : IdentityValidationOptions) (now : Z) (claims : IdentityClaims) (id : TrustedIdentity) : Prop := {
  ca_issuer : canonicalIssuerURI (ic_Issuer claims) = Some (id_Issuer id);
  ca_webid : canonicalWebIDURI (ic_Subject claims) = Some (id_WebID id);
  ca_allowed : io_AllowedIssuers opts <> [] -> issuerAllowed (id_Issuer id) (io_AllowedIssuers opts) = true;
  ca_audience : id_Audience id = ic_Audience claims /\
    (io_ExpectedAudience opts <> "" -> audienceContains (id_Audience id) (io_ExpectedAudience opts) = true);
  ca_expires : id_ExpiresAt id = issuedAt (ic_ExpiresAt claims) /\ 0 < ic_ExpiresAt claims;
  ca_time : let skew := if io_ClockSkew opts <=? 0 then 2 * minute else io_ClockSkew opts in
    now <= id_ExpiresAt id + skew /\ (0 < ic_IssuedAt claims -> issuedAt (ic_IssuedAt claims) <= now + skew);
  ca_client : id_ClientID id = TrimSpace (ic_ClientID claims)
}.

Definition effectiveNow (wall : Z) (opts : IdentityValidationOptions) : Z :=
  if time_IsZero (io_Now opts) then wall else io_Now opts.

Lemma ValidateIdentityClaims_inv (wall : Z) claims opts id :
  ValidateIdentityClaims wall claims opts = Ok id -> claims_accepted opts (effectiveNow wall opts) claims id.
Proof.
  unfold ValidateIdentityClaims, effectiveNow. cbv zeta. intros H.
  destruct (canonicalIssuerURI (ic_Issuer claims)) as [issuer|] eqn:Ei; [|discriminate H].
  destruct (canonicalWebIDURI (ic_Subject claims)) as [webID|] eqn:Ew; [|discriminate H].
  destruct (_ && negb (issuerAllowed _ _)) eqn:Ea; [discriminate H|].
  destruct (_ && negb (audienceContains _ _)) eqn:Eu; [discriminate H|].
  destruct (ic_ExpiresAt claims <=? 0) eqn:Ee; [discriminate H|].
  destruct (time_After _ (issuedAt (ic_ExpiresAt claims) + _)) eqn:Et; [discriminate H|].
  destruct (_ && time_After _ _) eqn:Eia; [discriminate H|]. destruct (has_line_break _ || _); [discriminate H|].
  injection H as <-. unfold time_After in Et, Eia.
  split; cbn [id_Issuer id_WebID id_Audience id_ExpiresAt id_ClientID]; [done|done| | | | |done].
  - intros Hne. rewrite bool_decide_false in Ea by done. cbn in Ea. by apply negb_false_iff.
  - split; [done|]. intros Hne. apply String.eqb_neq in Hne. rewrite Hne in Eu. cbn in Eu. by apply negb_false_iff.
  - split; [done|]. lia.
  - cbv zeta. split; [lia|]. intros Hp. apply Z.ltb_lt in Hp. rewrite Hp in Eia. cbn in Eia. lia.
Qed.

(** A token whose RS256 signature verifies under the key of its identifier in the set. *)
Definition token_signed (token : string) (keys : list string) (payload : string) : Prop :=
  exists header signingInput signature raw key n e,
    parseCompactJWT token = Ok (header, payload, signingInput, signature) /\
    jh_Algorithm header = "RS256" /\ jh_KeyID header <> "" /\
    raw ∈ keys /\ decodeRsaJWK raw = Some key /\ rk_KeyID key = jh_KeyID header /\ rk_KeyType key = "RSA" /\
    rsaPublicKeyFromJWK key = Ok (n, e) /\ 2048 <= RSA.bitlen n /\
    RSA.VerifyPKCS1v15 n e (Sum256 signingInput) signature = true.

Lemma findKey_inv (keys : list string) (kid alg : string) (n e : Z) :
  findKey keys kid alg = Ok (n, e) ->
  exists raw key, raw ∈ keys /\ decodeRsaJWK raw = Some key /\ rk_KeyID key = kid /\ rk_KeyType key = "RSA" /\
    rsaPublicKeyFromJWK key = Ok (n, e).
Proof.
  induction keys as [|raw keys IH]; cbn [findKey]; [discriminate|].
  destruct (decodeRsaJWK raw) as [key|] eqn:Ed; [|discriminate]. destruct (String.eqb_spec (rk_KeyID key) kid) as [Hk|]; cbn [negb].
  - intros H. destruct (negb (String.eqb (rk_KeyType key) "RSA") || _ || _) eqn:Ek; [discriminate H|].
    destruct (_ && _) in H; [discriminate H|]. destruct (_ && _) in H; [discriminate H|].
    exists raw, key. split_and!; [set_solver|done|done| |done].
    apply orb_false_iff in Ek as [[Ek _]%orb_false_iff _]. by apply negb_false_iff, String.eqb_eq in Ek.
  - intros (r & k & Hr & Hx)%IH. exists r, k. split; [set_solver|done].
Qed.

Lemma rsaPublicKeyFromJWK_size (key : rsaJWK) (n e : Z) : rsaPublicKeyFromJWK key = Ok (n, e) -> 2048 <= RSA.bitlen n.
Proof.
  unfold rsaPublicKeyFromJWK. destruct (bounded_part (rk_N key) 8192) as [nb|]; [|discriminate].
  destruct (bounded_part (rk_E key) 8) as [eb|]; [|discriminate]. cbv zeta.
  destruct (_ || _ || _); [discriminate|]. destruct (Z.ltb_spec (RSA.bitlen (SetBytes nb)) 2048); [discriminate|].
  intros H'. injection H' as <- _. done.
Qed.

Lemma VerifyIdentityJWT_inv (wall : Z) token jwks opts id :
  VerifyIdentityJWT wall token jwks opts = Ok id ->
  exists payload claims, token_signed token (ks_Keys jwks) payload /\
    ParseIdentityClaimsJSON payload = Ok claims /\ claims_accepted opts (effectiveNow wall opts) claims id.
Proof.
  unfold VerifyIdentityJWT. destruct (parseCompactJWT token) as [[[[header payload] signingInput] signature]|] eqn:Ep;
    cbn [result_bind]; [|discriminate].
  destruct (String.eqb_spec (jh_Algorithm header) "RS256") as [Ha|]; cbn [negb]; [|discriminate].
  destruct (String.eqb_spec (jh_KeyID header) "") as [|Hk]; [discriminate|].
  destruct (rsaPublicKeyForJWT jwks _ _) as [[n e]|] eqn:Er; cbn [result_bind]; [|discriminate].
  destruct (RSA.VerifyPKCS1v15 n e _ _) eqn:Ev; cbn [negb]; [|discriminate].
  destruct (ParseIdentityClaimsJSON payload) as [claims|] eqn:Ec; cbn [result_bind]; [|discriminate].
  intros Hv%ValidateIdentityClaims_inv. exists payload, claims. split_and!; [|done|done].
  unfold rsaPublicKeyForJWT in Er. destruct (_ || _) in Er; [discriminate Er|]. destruct (_ || _) in Er; [discriminate Er|].
  apply findKey_inv in Er as (raw & key & Hr & Hd & Hid & Ht & Hp).
  exists header, signingInput, signature, raw, key, n, e. split_and!; try done. by eapply rsaPublicKeyFromJWK_size.
Qed.
