(* ===== verification/Issuer.v ===== *)
(** * Issuer discovery and the identity verifier

    [internal/authn/issuer.go] (metadata and key sets of issuers, with their cache),
    [internal/authn/webid.go] (profiles of WebIDs) and [internal/authn/verifier.go].  The
    network is a parameter: a world, and the answer of a GET request in it. *)

From S2P Require Import Prelude GoStrings GoURL GoPath GoHash GoGlob GoJSON GoCrypto AuthzTypes RequestBuilder ReplayCache DPoP Identity.

Local Open Scope Z_scope.

Definition defaultIssuerMaxBodyBytes : Z := 1048576.
Definition defaultIssuerCacheTTL : Z := 10 * minute.
Definition defaultJWKSRefreshCooldown : Z := 30 * second.
Definition MaxWebIDProfileSize : Z := 65536.

Record IssuerMetadata := mkIssuerMetadata { im_Issuer : string; im_JWKSURI : string; im_FetchedAt : Z; im_ExpiresAt : Z }.

Record IssuerMetadataCache := mkIssuerCache {
  ch_entries : gmap string IssuerMetadata;
  ch_sets : gmap string JWKS;
  ch_refreshes : gmap string Z
}.
Definition NewIssuerMetadataCache : IssuerMetadataCache := mkIssuerCache ∅ ∅ ∅.

Record IssuerDiscoveryClient := mkDiscovery {
  di_MaxBodyBytes : Z;
  di_CacheTTL : Z;
  di_JWKSRefreshCooldown : Z;
  di_cache : option IssuerMetadataCache
}.
Definition NewIssuerDiscoveryClient : IssuerDiscoveryClient :=
  mkDiscovery defaultIssuerMaxBodyBytes defaultIssuerCacheTTL defaultJWKSRefreshCooldown (Some NewIssuerMetadataCache).

Definition cacheTTL (c : IssuerDiscoveryClient) : Z :=
  if (di_CacheTTL c <=? 0) || (hour <? di_CacheTTL c) then defaultIssuerCacheTTL else di_CacheTTL c.
Definition refreshCooldown (c : IssuerDiscoveryClient) : Z :=
  if (di_JWKSRefreshCooldown c <=? 0) || (hour <? di_JWKSRefreshCooldown c) then defaultJWKSRefreshCooldown
  else di_JWKSRefreshCooldown c.

(** ** URIs *)

Definition issuerDiscoveryURL (issuer : string) : result identity_error string :=
  match Parse issuer with
  | Err _ => Err (ErrInvalidIssuerMetadata "invalid issuer")
  | Ok parsed =>
      fail! ErrInvalidIssuerMetadata "invalid issuer"
        when negb (String.eqb (Scheme parsed) "https") || String.eqb (Host parsed) "" in
      let path := path_Join [Path parsed; ".well-known"; "openid-configuration"] in
      let path := if String.eqb path ".well-known/openid-configuration" then String.append "/" path else path in
      Ok (URL_String (without_query (with_path parsed path)))
  end.

Definition canonicalJWKSURI (value : string) : result identity_error string :=
  match parseHTTPSIdentityURI value 2048 with
  | Some parsed =>
      fail! ErrInvalidIssuerMetadata "invalid jwks uri"
        when negb (String.eqb (Fragment parsed) "") || negb (String.eqb (RawQuery parsed) "") in
      Ok (URL_String parsed)
  | None => Err (ErrInvalidIssuerMetadata "invalid jwks uri")
  end.

Definition sameOrigin (left right : string) : bool :=
  match Parse left, Parse right with
  | Ok l, Ok r => EqualFold (Scheme l) (Scheme r) && EqualFold (Host l) (Host r)
  | _, _ => false
  end.

Definition validatedJWKSURIForIssuer (m : IssuerMetadata) : result identity_error string :=
  match canonicalIssuerURI (im_Issuer m) with
  | None => Err (ErrInvalidIssuerMetadata "invalid issuer")
  | Some issuer =>
      let! jwksURI := canonicalJWKSURI (im_JWKSURI m) in
      fail! ErrInvalidIssuerMetadata "jwks uri must be same-origin with issuer" when negb (sameOrigin issuer jwksURI) in
      Ok jwksURI
  end.

(** ** The cache *)

Definition GetIssuer (c : IssuerMetadataCache) (issuer : string) (now : Z) : option IssuerMetadata :=
  entry ← ch_entries c !! issuer; if time_Before now (im_ExpiresAt entry) then Some entry else None.

Definition StoreIssuer (c : IssuerMetadataCache) (m : IssuerMetadata) : IssuerMetadataCache :=
  mkIssuerCache (<[im_Issuer m := m]> (ch_entries c)) (ch_sets c) (ch_refreshes c).

Definition GetJWKS (c : IssuerMetadataCache) (uri : string) (now : Z) : option JWKS :=
  set ← ch_sets c !! uri; if time_Before now (ks_ExpiresAt set) then Some set else None.

Definition StoreJWKS (c : IssuerMetadataCache) (uri : string) (set : JWKS) : IssuerMetadataCache :=
  mkIssuerCache (ch_entries c) (<[uri := set]> (ch_sets c)) (ch_refreshes c).

Definition BeginJWKSRefresh (c : IssuerMetadataCache) (uri : string) (now cooldown : Z) : IssuerMetadataCache * bool :=
  if match ch_refreshes c !! uri with Some next => time_Before now next | None => false end then (c, false)
  else (mkIssuerCache (ch_entries c) (ch_sets c) (<[uri := now + cooldown]> (ch_refreshes c)), true).

Definition with_cache (c : IssuerDiscoveryClient) (f : IssuerMetadataCache -> IssuerMetadataCache) : IssuerDiscoveryClient :=
  mkDiscovery (di_MaxBodyBytes c) (di_CacheTTL c) (di_JWKSRefreshCooldown c) (option_map f (di_cache c)).

(** ** The client *)

(** An answer of the network; [rs_ReadFails] when reading its body fails within the limit. *)
Record http_response := mkResponse { rs_Status : Z; rs_ContentType : string; rs_Body : string; rs_ReadFails : bool }.

Definition set_metadata (k : string) (v : JValue) (_ : string) (m : string * string) : option (string * string) :=
  if names_field "issuer" k then option_map (fun x => (x, m.2)) (set_string v m.1)
  else if names_field "jwks_uri" k then option_map (fun x => (m.1, x)) (set_string v m.2)
  else Some m.
Definition decodeMetadata (body : string) : option (string * string) := Unmarshal set_metadata ("", "") body.

Definition set_keys (k : string) (v : JValue) (raw : string) (keys : list string) : option (list string) :=
  if names_field "keys" k then set_raw_list v raw keys else Some keys.
Definition decodeKeys (body : string) : option (list string) := Unmarshal set_keys [] body.

Definition normalizeMetadata (c : IssuerDiscoveryClient) (expectedIssuer : string) (metadata : string * string) (now : Z)
  : result identity_error IssuerMetadata :=
  match canonicalIssuerURI metadata.1 with
  | None => Err (ErrInvalidIssuerMetadata "metadata issuer is invalid")
  | Some issuer =>
      fail! ErrInvalidIssuerMetadata "metadata issuer mismatch" when negb (String.eqb issuer expectedIssuer) in
      let! jwksURI := canonicalJWKSURI metadata.2 in
      fail! ErrInvalidIssuerMetadata "jwks uri must be same-origin with issuer" when negb (sameOrigin issuer jwksURI) in
      Ok (mkIssuerMetadata issuer jwksURI now (now + cacheTTL c))
  end.

(** ** WebID profiles *)

Record WebIDProfile := mkProfile { wp_Subject : string; wp_Type : list string; wp_SolidOIDCIssuer : string }.

Definition set_string_list (v : JValue) (old : list string) : option (list string) :=
  match v with
  | JArray items => mapM (fun item => set_string item "") items
  | JNull => Some []
  | _ => None
  end.

Definition set_profile (k : string) (v : JValue) (_ : string) (p : WebIDProfile) : option WebIDProfile :=
  let 'mkProfile subject type issuer := p in
  if names_field "@id" k then option_map (fun x => mkProfile x type issuer) (set_string v subject)
  else if names_field "type" k then option_map (fun x => mkProfile subject x issuer) (set_string_list v type)
  else if names_field "http://www.w3.org/ns/solid/terms#oidcIssuer" k then option_map (fun x => mkProfile subject type x) (set_string v issuer)
  else Some p.
Definition decodeProfile (body : string) : option WebIDProfile := Unmarshal set_profile (mkProfile "" [] "") body.

(** The document of a WebID: what stands before its fragment. *)
Definition profileURL (webID : string) : string :=
  match Index webID "#" with Some i => stake i webID | None => webID end.

(** ** The verifier *)

Record IdentityVerifier := mkIdentityVerifier {
  iv_Options : IdentityValidationOptions;
  iv_WebID : option (list string);
  iv_VerifyWebIDOwnership : bool
}.
Definition NewIdentityVerifierWithWebID (opts : IdentityValidationOptions) (verifyWebID : bool) : IdentityVerifier :=
  mkIdentityVerifier opts (Some (io_AllowedIssuers opts)) verifyWebID.
Definition NewIdentityVerifier (opts : IdentityValidationOptions) : IdentityVerifier := NewIdentityVerifierWithWebID opts false.

(** The readings of the clock: by the discovery, the key set, its refresh, and the claims. *)
Record verify_clock := mkClock { vc_discover : Z; vc_jwks : Z; vc_refresh : Z; vc_wall : Z; vc_rewall : Z }.

Section client.
Context {W : Type} (Do : W -> string -> W * option http_response).

(** A call on the world and the client. *)
Definition IM (A : Type) : Type := W * IssuerDiscoveryClient -> (W * IssuerDiscoveryClient) * result identity_error A.
#[global] Instance IM_ret : MRet IM := fun A a s => (s, Ok a).
#[global] Instance IM_bind : MBind IM := fun A B k m s =>
  match m s with
  | (s', Ok a) => k a s'
  | (s', Err e) => (s', Err e)
  end.
Definition lift {A} (r : result identity_error A) : IM A := fun s => (s, r).
Definition client : IM IssuerDiscoveryClient := fun s => (s, Ok s.2).
Definition update (f : IssuerMetadataCache -> IssuerMetadataCache) : IM unit := fun '(w, c) => ((w, with_cache c f), Ok tt).

(** A GET request: one that can not be made, one that fails, or an answer. *)
Definition get (invalid : identity_error) (target : string) : IM (option http_response) := fun '(w, c) =>
  match Parse target with
  | Err _ => ((w, c), Err invalid)
  | Ok _ => let '(w', res) := Do w target in ((w', c), Ok res)
  end.

Definition getBounded (target : string) : IM string :=
  c ← client;
  res ← get (ErrInvalidIssuerMetadata "invalid request") target;
  lift match res with
  | None => Err (ErrInvalidIssuerMetadata "request failed")
  | Some res =>
      fail! ErrInvalidIssuerMetadata "unexpected status" when negb (rs_Status res =? 200) in
      let contentType := ToLower (rs_ContentType res) in
      fail! ErrInvalidIssuerMetadata "unexpected content type"
        when negb (String.eqb contentType "") && negb (Contains contentType "application/json") in
      let limit := if (di_MaxBodyBytes c <=? 0) || (defaultIssuerMaxBodyBytes <? di_MaxBodyBytes c)
                   then defaultIssuerMaxBodyBytes else di_MaxBodyBytes c in
      fail! ErrInvalidIssuerMetadata "read failed" when rs_ReadFails res in
      fail! ErrInvalidIssuerMetadata "response too large" when limit <? len (rs_Body res) in
      Ok (rs_Body res)
  end.

Definition Discover (now : Z) (issuer : string) : IM IssuerMetadata :=
  match canonicalIssuerURI issuer with
  | None => lift (Err (ErrInvalidIssuerMetadata "invalid issuer"))
  | Some canonicalIssuer =>
      c ← client;
      match (cache ← di_cache c; GetIssuer cache canonicalIssuer now) with
      | Some cached => mret cached
      | None =>
          discoveryURL ← lift (issuerDiscoveryURL canonicalIssuer);
          body ← getBounded discoveryURL;
          raw ← lift (match decodeMetadata body with
                      | Some raw => Ok raw
                      | None => Err (ErrInvalidIssuerMetadata "discovery JSON is invalid")
                      end);
          metadata ← lift (normalizeMetadata c canonicalIssuer raw now);
          update (fun cache => StoreIssuer cache metadata) ;;
          mret metadata
      end
  end.

Definition fetchAndStoreJWKS (now : Z) (jwksURI : string) : IM JWKS :=
  c ← client;
  body ← getBounded jwksURI;
  keys ← lift (match decodeKeys body with
               | Some keys => Ok keys
               | None => Err (ErrInvalidIssuerMetadata "jwks JSON is invalid")
               end);
  if bool_decide (keys = []) || (32 <? Z.of_nat (length keys))
  then lift (Err (ErrInvalidIssuerMetadata "jwks key count is invalid"))
  else
    let set := mkJWKS keys now (now + cacheTTL c) in
    update (fun cache => StoreJWKS cache jwksURI set) ;;
    mret set.

Definition FetchJWKS (now : Z) (metadata : IssuerMetadata) : IM JWKS :=
  c ← client;
  match (cache ← di_cache c; GetJWKS cache (im_JWKSURI metadata) now) with
  | Some cached => mret cached
  | None =>
      jwksURI ← lift (validatedJWKSURIForIssuer metadata);
      fetchAndStoreJWKS now jwksURI
  end.

(** The key set, and whether it was fetched by this call. *)
Definition RefreshJWKS (now : Z) (metadata : IssuerMetadata) : IM (JWKS * bool) :=
  jwksURI ← lift (validatedJWKSURIForIssuer metadata);
  c ← client;
  let begun := match di_cache c with
               | Some cache => (BeginJWKSRefresh cache jwksURI now (refreshCooldown c)).2
               | None => true
               end in
  if negb begun then
    lift (match (cache ← di_cache c; GetJWKS cache jwksURI now) with
          | Some cached => Ok (cached, false)
          | None => Err (ErrInvalidIssuerMetadata "jwks refresh cooldown active")
          end)
  else
    update (fun cache => (BeginJWKSRefresh cache jwksURI now (refreshCooldown c)).1) ;;
    set ← fetchAndStoreJWKS now jwksURI;
    mret (set, true).

(** ** Verification *)

Definition ownership (e : string) : identity_error := ErrInvalidIdentityToken (String.append "WebID ownership verification failed: " e).

Definition fetchWebIDProfile (webID : string) : IM WebIDProfile :=
  res ← get (ownership "invalid request") (profileURL webID);
  lift match res with
  | None => Err (ownership "request failed")
  | Some res =>
      fail! ownership "status" when negb (rs_Status res =? 200) in
      fail! ownership "read failed" when rs_ReadFails res in
      fail! ownership "WebID profile exceeds maximum size" when MaxWebIDProfileSize <? len (rs_Body res) in
      match decodeProfile (rs_Body res) with
      | Some profile => Ok profile
      | None => Err (ownership "failed to parse WebID profile")
      end
  end.

Definition VerifyWebIDOwnership (allowedIssuers : list string) (webID : string) : IM WebIDProfile :=
  if String.eqb webID "" then lift (Err (ownership "WebID is required"))
  else match Parse webID with
  | Err _ => lift (Err (ownership "invalid WebID URI"))
  | Ok parsed =>
      if negb (String.eqb (Scheme parsed) "https") || String.eqb (Host parsed) ""
      then lift (Err (ownership "WebID must be an HTTPS URI"))
      else
        profile ← fetchWebIDProfile webID;
        lift (fail! ownership "subject" when negb (String.eqb (wp_Subject profile) webID) in
              fail! ownership "issuer is not trusted"
                when negb (String.eqb (wp_SolidOIDCIssuer profile) "")
                  && negb (existsb (EqualFold (wp_SolidOIDCIssuer profile)) allowedIssuers) in
              Ok profile)
  end.

(** The check of the profile, for a token whose subject can be read. *)
Definition checkOwnership (v : IdentityVerifier) (token : string) : IM unit :=
  match iv_WebID v with
  | Some allowed =>
      if negb (iv_VerifyWebIDOwnership v) then mret tt
      else match (let! (_, payload, _, _) := parseCompactJWT token in ParseIdentityClaimsJSON payload) with
           | Ok claims =>
               if String.eqb (ic_Subject claims) "" then mret tt
               else VerifyWebIDOwnership allowed (ic_Subject claims) ;; mret tt
           | Err _ => mret tt
           end
  | None => mret tt
  end.

Definition is_ErrInvalidJWT (e : identity_error) : bool := match e with ErrInvalidJWT _ => true | _ => false end.

Definition Verify (k : verify_clock) (v : IdentityVerifier) (token : string) : IM TrustedIdentity :=
  if bool_decide (io_AllowedIssuers (iv_Options v) = []) then lift (Err (ErrInvalidIdentityToken "allowed issuers are required"))
  else
    issuer ← lift (let! (_, payload, _, _) := parseCompactJWT token in
                   let! claims := ParseIdentityClaimsJSON payload in
                   match canonicalIssuerURI (ic_Issuer claims) with
                   | None => Err (ErrInvalidIdentityToken "invalid issuer")
                   | Some issuer =>
                       fail! ErrInvalidIdentityToken "issuer is not allowed"
                         when negb (issuerAllowed issuer (io_AllowedIssuers (iv_Options v))) in
                       Ok issuer
                   end);
    metadata ← Discover (vc_discover k) issuer;
    jwks ← FetchJWKS (vc_jwks k) metadata;
    match VerifyIdentityJWT (vc_wall k) token jwks (iv_Options v) with
    | Ok identity => checkOwnership v token ;; mret identity
    | Err err =>
        if negb (is_ErrInvalidJWT err) then lift (Err err)
        else fun s =>
          match RefreshJWKS (vc_refresh k) metadata s with
          | (s', Ok (refreshedJWKS, true)) => (s', VerifyIdentityJWT (vc_rewall k) token refreshedJWKS (iv_Options v))
          | (s', _) => (s', Err err)
          end
    end.

(** ** Where the keys come from *)

(** The world after some requests. *)
Definition reaches : relation W := rtc (fun w w' => exists target, w' = (Do w target).1).

(** Between two worlds, the network has answered a request for [target] with [body]. *)
Definition answered (w0 w1 : W) (target body : string) : Prop :=
  exists w w' res, reaches w0 w /\ Do w target = (w', Some res) /\ rs_Status res = 200 /\ rs_Body res = body /\ reaches w' w1.

(** A call of the verifier, as the network sees it: the readings of the clock, and the worlds
    before and after it. *)
Definition episode : Type := verify_clock * (W * W).
Definition readings (k : verify_clock) : list Z := [vc_discover k; vc_jwks k; vc_refresh k].

(** [body] was fetched from [target] at time [t]: the clock of one of the calls has read [t], and
    the network has answered during this call. *)
Definition fetched (L : list episode) (t : Z) (target body : string) : Prop :=
  exists k w0 w1, (k, (w0, w1)) ∈ L /\ t ∈ readings k /\ answered w0 w1 target body.

Lemma fetched_mono L L' t target body : L ⊆ L' -> fetched L t target body -> fetched L' t target body.
Proof. intros HL (k & w0 & w1 & Hin & H). exists k, w0, w1. split; [by apply HL|done]. Qed.

(** The metadata was fetched for the issuer at its well-known address, at the time it records and
    within an hour of its expiry; and its keys are on the issuer's origin. *)
Definition metadata_genuine (L : list episode) (m : IssuerMetadata) : Prop :=
  sameOrigin (im_Issuer m) (im_JWKSURI m) = true /\
  im_FetchedAt m < im_ExpiresAt m <= im_FetchedAt m + hour /\
  exists url body raw, issuerDiscoveryURL (im_Issuer m) = Ok url /\ fetched L (im_FetchedAt m) url body /\ decodeMetadata body = Some raw /\
    canonicalIssuerURI raw.1 = Some (im_Issuer m) /\ canonicalJWKSURI raw.2 = Ok (im_JWKSURI m).

(** The set was fetched from [uri] at the time it records, and within an hour of its expiry. *)
Definition keys_genuine (L : list episode) (uri : string) (set : JWKS) : Prop :=
  (exists body, fetched L (ks_FetchedAt set) uri body /\ decodeKeys body = Some (ks_Keys set)) /\
  ks_FetchedAt set < ks_ExpiresAt set <= ks_FetchedAt set + hour.

Definition caches_genuine (L : list episode) (cache : IssuerMetadataCache) : Prop :=
  map_Forall (fun issuer m => im_Issuer m = issuer /\ metadata_genuine L m) (ch_entries cache) /\
  map_Forall (keys_genuine L) (ch_sets cache).

Definition cache_genuine (L : list episode) (c : IssuerDiscoveryClient) : Prop :=
  forall cache, di_cache c = Some cache -> caches_genuine L cache.

Lemma cache_genuine_mono L L' c : L ⊆ L' -> cache_genuine L c -> cache_genuine L' c.
Proof.
  intros HL Hc cache Hd. destruct (Hc cache Hd) as [H1 H2]. split.
  - intros issuer m Hm. destruct (H1 issuer m Hm) as (He & Ho & Ht & url & body & raw & Hu & Hf & Hrest).
    split; [done|]. split; [done|]. split; [done|]. exists url, body, raw. split; [done|]. split; [by eapply fetched_mono|done].
  - intros uri set Hs. destruct (H2 uri set Hs) as [(body & Hf & Hk) Ht]. split; [|done]. exists body. split; [by eapply fetched_mono|done].
Qed.

Lemma cache_genuine_new c : di_cache c = Some NewIssuerMetadataCache -> cache_genuine [] c.
Proof. intros Hc cache Hd. rewrite Hc in Hd. injection Hd as <-. split; apply map_Forall_empty. Qed.

(** Every part of a call only adds requests. *)
Definition moves {A} (m : IM A) : Prop := forall s, reaches s.1 (m s).1.1.

Lemma moves_bind {A B} (m : IM A) (f : A -> IM B) : moves m -> (forall a, moves (f a)) -> moves (mbind (M := IM) f m).
Proof.
  intros Hm Hf s. unfold mbind, IM_bind. specialize (Hm s). destruct (m s) as [s1 [a|e]]; [|done].
  etransitivity; [exact Hm|apply Hf].
Qed.
Lemma moves_lift {A} (r : result identity_error A) : moves (lift r).
Proof. intros s. apply rtc_refl. Qed.
Lemma moves_ret {A} (a : A) : moves (mret (M := IM) a).
Proof. intros s. apply rtc_refl. Qed.
Lemma moves_client : moves client.
Proof. intros s. apply rtc_refl. Qed.
Lemma moves_update f : moves (update f).
Proof. intros [w c]. apply rtc_refl. Qed.
Lemma moves_get e target : moves (get e target).
Proof.
  intros [w c]. unfold get. destruct (Parse target); [|apply rtc_refl]. destruct (Do w target) as [w' res] eqn:E.
  apply rtc_once. exists target. cbn. by rewrite E.
Qed.

Ltac solve_moves :=
  repeat first [apply moves_lift | apply moves_ret | apply moves_client | apply moves_update | apply moves_get
               | apply moves_bind; [|intros ?] | progress cbv zeta | case_match].

Lemma moves_getBounded target : moves (getBounded target).
Proof. unfold getBounded. solve_moves. Qed.
Lemma moves_Discover now issuer : moves (Discover now issuer).
Proof. unfold Discover, getBounded. solve_moves. Qed.
Lemma moves_fetchAndStoreJWKS now uri : moves (fetchAndStoreJWKS now uri).
Proof. unfold fetchAndStoreJWKS, getBounded. solve_moves. Qed.
Lemma moves_FetchJWKS now m : moves (FetchJWKS now m).
Proof. unfold FetchJWKS, fetchAndStoreJWKS, getBounded. solve_moves. Qed.
Lemma moves_RefreshJWKS now m : moves (RefreshJWKS now m).
Proof. unfold RefreshJWKS, fetchAndStoreJWKS, getBounded. solve_moves. Qed.
Lemma moves_VerifyWebIDOwnership allowed webID : moves (VerifyWebIDOwnership allowed webID).
Proof. unfold VerifyWebIDOwnership, fetchWebIDProfile. solve_moves. Qed.
Lemma moves_checkOwnership v token : moves (checkOwnership v token).
Proof. unfold checkOwnership, VerifyWebIDOwnership, fetchWebIDProfile. solve_moves. Qed.

Lemma moves_retry clock v token m err : moves (fun s =>
  match RefreshJWKS (vc_refresh clock) m s with
  | (s', Ok (refreshedJWKS, true)) => (s', VerifyIdentityJWT (vc_rewall clock) token refreshedJWKS (iv_Options v))
  | (s', _) => (s', Err err)
  end).
Proof.
  intros s. pose proof (moves_RefreshJWKS (vc_refresh clock) m s) as Hr.
  by destruct (RefreshJWKS (vc_refresh clock) m s) as [s' [[set' []]|]].
Qed.

(** One call [k], between the worlds [w0] and [w1], which is among [L]. *)
Section call.
Context (L : list episode) (k : verify_clock) (w0 w1 : W) (HL : (k, (w0, w1)) ∈ L).

Lemma fetched_now t target body : t ∈ readings k -> answered w0 w1 target body -> fetched L t target body.
Proof. intros Ht Ha. by exists k, w0, w1. Qed.

(** A part of the call keeps the cache genuine, and its result satisfies [Q]. *)
Definition yields {A} (m : IM A) (Q : A -> Prop) : Prop :=
  forall s s' r, m s = (s', r) -> reaches w0 s.1 -> reaches s'.1 w1 -> cache_genuine L s.2 ->
    cache_genuine L s'.2 /\ forall a, r = Ok a -> Q a.

Lemma yields_bind {A B} (m : IM A) (f : A -> IM B) (Q : A -> Prop) (R : B -> Prop) :
  yields m Q -> moves m -> (forall a, moves (f a)) -> (forall a, Q a -> yields (f a) R) -> yields (mbind (M := IM) f m) R.
Proof.
  intros Hm Mm Mf Hf s s' r H H0 H1 Hs. unfold mbind, IM_bind in H. specialize (Mm s). destruct (m s) as [s1 [a|e]] eqn:E; cbn in Mm.
  - specialize (Mf a s1). rewrite H in Mf. cbn in Mf. destruct (Hm s s1 _ E H0 (transitivity Mf H1) Hs) as [Hg HQ].
    by apply (Hf a (HQ a eq_refl) s1 s' r H (transitivity H0 Mm) H1).
  - injection H as <- <-. destruct (Hm s s1 _ E H0 H1 Hs) as [Hg _]. split; [done|discriminate].
Qed.

Lemma yields_lift {A} (r : result identity_error A) (Q : A -> Prop) : (forall a, r = Ok a -> Q a) -> yields (lift r) Q.
Proof. intros HQ s s' r' H _ _ Hs. unfold lift in H. injection H as <- <-. auto. Qed.

Lemma yields_lift_bind {A B} (r : result identity_error A) (f : A -> IM B) (R : B -> Prop) :
  (forall a, moves (f a)) -> (forall a, r = Ok a -> yields (f a) R) -> yields (mbind (M := IM) f (lift r)) R.
Proof. intros Mf Hf. eapply yields_bind; [apply yields_lift; intros a Ha; exact Ha|apply moves_lift|done|done]. Qed.

Lemma yields_ret {A} (a : A) (Q : A -> Prop) : Q a -> yields (mret (M := IM) a) Q.
Proof. intros HQ. apply (yields_lift (Ok a)). intros a' Ha. injection Ha as <-. done. Qed.

Lemma yields_client_bind {B} (f : IssuerDiscoveryClient -> IM B) (R : B -> Prop) :
  (forall c, cache_genuine L c -> yields (f c) R) -> yields (mbind (M := IM) f client) R.
Proof. intros Hf s s' r H H0 H1 Hs. by apply (Hf s.2 Hs s s' r). Qed.

Lemma yields_update_bind {B} (f : IssuerMetadataCache -> IssuerMetadataCache) (m : IM B) (R : B -> Prop) :
  (forall cache, caches_genuine L cache -> caches_genuine L (f cache)) -> yields m R -> yields (update f ;; m) R.
Proof.
  intros Hf Hm [w c] s' r H H0 H1 Hs. apply (Hm (w, with_cache c f) s' r H H0 H1). intros cache Hc. cbn in Hc.
  destruct (di_cache c) as [cache0|] eqn:E; [|discriminate Hc]. injection Hc as <-. eauto.
Qed.

Lemma yields_get (e : identity_error) (target : string) :
  yields (get e target) (fun res => forall x, res = Some x -> rs_Status x = 200 -> answered w0 w1 target (rs_Body x)).
Proof.
  intros [w c] s' r H H0 H1 Hs. unfold get in H. destruct (Parse target); [|injection H as <- <-; split; [done|discriminate]].
  destruct (Do w target) as [w' res] eqn:E. injection H as <- <-. split; [done|].
  intros o Ho x -> Hx. injection Ho as ->. by exists w, w', x.
Qed.

Lemma yields_getBounded (target : string) : yields (getBounded target) (answered w0 w1 target).
Proof.
  apply yields_client_bind. intros c _. eapply yields_bind; [apply yields_get|apply moves_get|intros; apply moves_lift|]. intros res Hres.
  apply yields_lift. intros body Hb. destruct res as [res|]; [|discriminate Hb]. cbv zeta in Hb.
  destruct (Z.eqb_spec (rs_Status res) 200) as [Hs|]; cbn [negb] in Hb; [|discriminate Hb].
  destruct (_ && _) in Hb; [discriminate Hb|]. destruct (rs_ReadFails res); [discriminate Hb|].
  destruct (_ <? len _) in Hb; [discriminate Hb|]. injection Hb as <-. by apply Hres.
Qed.

Lemma cacheTTL_bounds (c : IssuerDiscoveryClient) : 0 < cacheTTL c <= hour.
Proof.
  unfold cacheTTL. destruct (_ || _) eqn:E.
  - unfold defaultIssuerCacheTTL, hour, minute, second, millisecond. lia.
  - bool_prop. lia.
Qed.

Lemma normalizeMetadata_inv (c : IssuerDiscoveryClient) (issuer : string) (raw : string * string) (now : Z) (m : IssuerMetadata) :
  normalizeMetadata c issuer raw now = Ok m ->
  im_Issuer m = issuer /\ canonicalIssuerURI raw.1 = Some (im_Issuer m) /\ canonicalJWKSURI raw.2 = Ok (im_JWKSURI m) /\
  sameOrigin (im_Issuer m) (im_JWKSURI m) = true /\ im_FetchedAt m = now /\ im_ExpiresAt m = now + cacheTTL c.
Proof.
  unfold normalizeMetadata. intros H. destruct (canonicalIssuerURI raw.1) as [i|] eqn:Ei; [|discriminate H].
  destruct (String.eqb_spec i issuer) as [->|]; cbn [negb] in H; [|discriminate H].
  destruct (canonicalJWKSURI raw.2) as [uri|] eqn:Eu; cbn [result_bind] in H; [|discriminate H].
  destruct (sameOrigin issuer uri) eqn:Es; [|discriminate H]. by injection H as <-.
Qed.

Lemma GetIssuer_Some (cache : IssuerMetadataCache) (issuer : string) (now : Z) (m : IssuerMetadata) :
  GetIssuer cache issuer now = Some m -> ch_entries cache !! issuer = Some m /\ now < im_ExpiresAt m.
Proof.
  unfold GetIssuer. intros (e & He & Hm)%bind_Some. destruct (time_Before now (im_ExpiresAt e)) eqn:Et; [|discriminate Hm].
  unfold time_Before in Et. injection Hm as ->. split; [done|lia].
Qed.
Lemma GetJWKS_Some (cache : IssuerMetadataCache) (uri : string) (now : Z) (set : JWKS) :
  GetJWKS cache uri now = Some set -> ch_sets cache !! uri = Some set /\ now < ks_ExpiresAt set.
Proof.
  unfold GetJWKS. intros (e & He & Hm)%bind_Some. destruct (time_Before now (ks_ExpiresAt e)) eqn:Et; [|discriminate Hm].
  unfold time_Before in Et. injection Hm as ->. split; [done|lia].
Qed.

Lemma yields_Discover (now : Z) (issuer : string) : now ∈ readings k ->
  yields (Discover now issuer) (fun m => canonicalIssuerURI issuer = Some (im_Issuer m) /\ metadata_genuine L m /\ now < im_ExpiresAt m).
Proof.
  intros Hnow. unfold Discover. destruct (canonicalIssuerURI issuer) as [ci|]; [|apply yields_lift; discriminate].
  apply yields_client_bind. intros c Hc. destruct (_ ≫= _) as [m|] eqn:E.
  - apply yields_ret. apply bind_Some in E as (cache & Hd & [Hg Ht]%GetIssuer_Some).
    destruct (Hc cache Hd) as [He _]. destruct (He _ _ Hg) as [-> ?]. done.
  - apply yields_lift_bind; [unfold getBounded; intros; solve_moves|]. intros url Hurl.
    eapply yields_bind; [apply yields_getBounded|apply moves_getBounded|intros; solve_moves|]. intros body Hb.
    apply yields_lift_bind; [intros; solve_moves|]. intros raw Hraw.
    apply yields_lift_bind; [intros; solve_moves|]. intros m (<- & Hi & Hu & Ho & Hf & Hx)%normalizeMetadata_inv.
    pose proof (cacheTTL_bounds c) as Ht.
    assert (metadata_genuine L m) as Hm.
    { split; [done|]. split; [lia|]. exists url, body, raw. destruct (decodeMetadata body); [|discriminate Hraw]. injection Hraw as ->.
      rewrite Hf. split_and!; try done. by apply fetched_now. }
    apply yields_update_bind; [|apply yields_ret; split_and!; [done..|lia]].
    intros cache [H1 H2]. split; [|done]. cbn. by apply map_Forall_insert_2.
Qed.

Lemma yields_fetchAndStoreJWKS (now : Z) (uri : string) : now ∈ readings k ->
  yields (fetchAndStoreJWKS now uri) (fun set => keys_genuine L uri set /\ now < ks_ExpiresAt set).
Proof.
  intros Hnow. apply yields_client_bind. intros c _.
  eapply yields_bind; [apply yields_getBounded|apply moves_getBounded|intros; solve_moves|]. intros body Hb.
  apply yields_lift_bind; [intros; solve_moves|]. intros keys Hk.
  destruct (_ || _); [apply yields_lift; discriminate|]. cbv zeta. pose proof (cacheTTL_bounds c) as Ht.
  assert (keys_genuine L uri (mkJWKS keys now (now + cacheTTL c))) as Hg.
  { split; [|cbn; lia]. exists body. split; [by apply fetched_now|]. destruct (decodeKeys body); [|discriminate Hk]. by injection Hk as ->. }
  apply yields_update_bind; [|apply yields_ret; split; [done|cbn; lia]].
  intros cache [H1 H2]. split; [done|]. cbn. by apply map_Forall_insert_2.
Qed.

(** The keys of an issuer: fetched on its origin, and not expired. *)
Definition issuer_keys (issuer : string) (now : Z) (set : JWKS) : Prop :=
  exists uri site, sameOrigin site uri = true /\ (site = issuer \/ canonicalIssuerURI issuer = Some site) /\
    keys_genuine L uri set /\ now < ks_ExpiresAt set.

Lemma validatedJWKSURI_inv (m : IssuerMetadata) (uri : string) :
  validatedJWKSURIForIssuer m = Ok uri -> exists site, canonicalIssuerURI (im_Issuer m) = Some site /\ sameOrigin site uri = true.
Proof.
  unfold validatedJWKSURIForIssuer. intros H. destruct (canonicalIssuerURI (im_Issuer m)) as [site|]; [|discriminate H].
  destruct (canonicalJWKSURI (im_JWKSURI m)) as [u|]; cbn [result_bind] in H; [|discriminate H].
  destruct (sameOrigin site u) eqn:Es; [|discriminate H]. injection H as <-. by exists site.
Qed.

Lemma yields_FetchJWKS (now : Z) (m : IssuerMetadata) : now ∈ readings k ->
  metadata_genuine L m -> yields (FetchJWKS now m) (issuer_keys (im_Issuer m) now).
Proof.
  intros Hnow [Ho _]. apply yields_client_bind. intros c Hc. destruct (_ ≫= _) as [set|] eqn:E.
  - apply yields_ret. apply bind_Some in E as (cache & Hd & [Hg Ht]%GetJWKS_Some). destruct (Hc cache Hd) as [_ He].
    exists (im_JWKSURI m), (im_Issuer m). split_and!; [done|by left|by apply He|done].
  - apply yields_lift_bind; [intros; apply moves_fetchAndStoreJWKS|].
    intros uri (site & Hs & Hso)%validatedJWKSURI_inv. intros s s' r H H0 H1 Hs'.
    destruct (yields_fetchAndStoreJWKS now uri Hnow s s' r H H0 H1 Hs') as [H2 H3]. split; [done|].
    intros set Hset. destruct (H3 set Hset) as [Hg Ht]. exists uri, site. auto.
Qed.

Lemma yields_RefreshJWKS (now : Z) (m : IssuerMetadata) : now ∈ readings k ->
  yields (RefreshJWKS now m) (fun res => issuer_keys (im_Issuer m) now res.1).
Proof.
  intros Hnow. apply yields_lift_bind; [unfold fetchAndStoreJWKS, getBounded; intros; solve_moves|].
  intros uri (site & Hs & Hso)%validatedJWKSURI_inv. apply yields_client_bind. intros c Hc. cbv zeta. destruct (negb _).
  - apply yields_lift. intros a Ha. destruct (_ ≫= _) as [set|] eqn:E; [|discriminate Ha]. injection Ha as <-.
    apply bind_Some in E as (cache & Hd & [Hg Ht]%GetJWKS_Some). destruct (Hc cache Hd) as [_ He].
    exists uri, site. split_and!; [done|auto|by apply He|done].
  - apply yields_update_bind; [intros cache Hg; unfold BeginJWKSRefresh; by destruct (match _ with Some _ => _ | None => _ end)|].
    eapply yields_bind; [by apply yields_fetchAndStoreJWKS|apply moves_fetchAndStoreJWKS|intros; apply moves_ret|].
    intros set [Hg Ht]. apply yields_ret. exists uri, site. auto.
Qed.

(** The profile of the WebID, read during the call, names it, and an issuer that is allowed if it
    names one. *)
Definition profile_owned (allowed : list string) (webID : string) : Prop :=
  exists body profile, answered w0 w1 (profileURL webID) body /\ decodeProfile body = Some profile /\ wp_Subject profile = webID /\
    (wp_SolidOIDCIssuer profile <> "" -> existsb (EqualFold (wp_SolidOIDCIssuer profile)) allowed = true).

Lemma yields_fetchWebIDProfile (webID : string) :
  yields (fetchWebIDProfile webID) (fun p => exists body, answered w0 w1 (profileURL webID) body /\ decodeProfile body = Some p).
Proof.
  eapply yields_bind; [apply yields_get|apply moves_get|intros; apply moves_lift|]. intros res Hres. apply yields_lift. intros p Hp.
  destruct res as [res|]; [|discriminate Hp]. destruct (Z.eqb_spec (rs_Status res) 200) as [Hs|]; cbn [negb] in Hp; [|discriminate Hp].
  destruct (rs_ReadFails res); [discriminate Hp|]. destruct (_ <? _) in Hp; [discriminate Hp|].
  destruct (decodeProfile (rs_Body res)) as [p'|] eqn:Ed; [|discriminate Hp]. injection Hp as <-. exists (rs_Body res). auto.
Qed.

Lemma yields_VerifyWebIDOwnership (allowed : list string) (webID : string) :
  yields (VerifyWebIDOwnership allowed webID) (fun _ => profile_owned allowed webID).
Proof.
  unfold VerifyWebIDOwnership. destruct (String.eqb webID ""); [apply yields_lift; discriminate|].
  destruct (Parse webID) as [parsed|]; [|apply yields_lift; discriminate].
  destruct (_ || _); [apply yields_lift; discriminate|].
  eapply yields_bind; [apply yields_fetchWebIDProfile|unfold fetchWebIDProfile; solve_moves|intros; apply moves_lift|].
  intros p (body & Hb & Hd). apply yields_lift. intros p' Hp.
  destruct (String.eqb_spec (wp_Subject p) webID) as [Hsub|]; cbn [negb] in Hp; [|discriminate Hp].
  destruct (_ && _) eqn:Ei in Hp; [discriminate Hp|]. exists body, p. split_and!; [done..|].
  intros Hne%String.eqb_neq. rewrite Hne in Ei. cbn in Ei. by apply negb_false_iff in Ei.
Qed.

(** What stands behind a verified identity. *)
Record genuine_identity (v : IdentityVerifier) (token : string) (id : TrustedIdentity) : Prop := {
  vf_allowed : issuerAllowed (id_Issuer id) (io_AllowedIssuers (iv_Options v)) = true;
  vf_token : exists m set now wall payload claims,
    (* the metadata of the issuer and its keys *)
    canonicalIssuerURI (id_Issuer id) = Some (im_Issuer m) /\ metadata_genuine L m /\ vc_discover k < im_ExpiresAt m /\
    issuer_keys (im_Issuer m) now set /\
    (* the signature and the claims *)
    token_signed token (ks_Keys set) payload /\ ParseIdentityClaimsJSON payload = Ok claims /\
    claims_accepted (iv_Options v) (effectiveNow wall (iv_Options v)) claims id /\
    (* the profile, unless the keys were refreshed *)
    ((now, wall) = (vc_refresh k, vc_rewall k) \/
     ((now, wall) = (vc_jwks k, vc_wall k) /\
      (iv_VerifyWebIDOwnership v = true -> ic_Subject claims <> "" -> forall allowed, iv_WebID v = Some allowed ->
       profile_owned allowed (ic_Subject claims))))
}.

Lemma yields_checkOwnership (v : IdentityVerifier) (token : string) :
  yields (checkOwnership v token) (fun _ =>
    forall keys payload claims, token_signed token keys payload -> ParseIdentityClaimsJSON payload = Ok claims ->
      iv_VerifyWebIDOwnership v = true -> ic_Subject claims <> "" -> forall allowed, iv_WebID v = Some allowed ->
      profile_owned allowed (ic_Subject claims)).
Proof.
  unfold checkOwnership. destruct (iv_WebID v) as [allowed|]; [|by apply yields_ret].
  destruct (iv_VerifyWebIDOwnership v); cbn [negb]; [|by apply yields_ret].
  assert (forall keys payload claims, token_signed token keys payload -> ParseIdentityClaimsJSON payload = Ok claims ->
    (let! (_, p, _, _) := parseCompactJWT token in ParseIdentityClaimsJSON p) = Ok claims) as Hread.
  { intros keys payload claims (h & si & sg & raw & key & n & e & Hp & _) Hc. rewrite Hp. exact Hc. }
  destruct (result_bind _ _) as [c|] eqn:E.
  - destruct (String.eqb_spec (ic_Subject c) "") as [He|Hne].
    + apply yields_ret. intros keys payload claims Ht Hc. specialize (Hread _ _ _ Ht Hc). congruence.
    + eapply yields_bind; [apply yields_VerifyWebIDOwnership|apply moves_VerifyWebIDOwnership|intros; apply moves_ret|]. intros p Hp. apply yields_ret.
      intros keys payload claims Ht Hc _ _ a Ha. specialize (Hread _ _ _ Ht Hc). congruence.
  - apply yields_ret. intros keys payload claims Ht Hc. specialize (Hread _ _ _ Ht Hc). congruence.
Qed.

(** The first reading of the token and the verification agree on its issuer. *)
Lemma same_issuer (token issuer : string) (allowed keys : list string) (payload : string) (claims : IdentityClaims)
    (opts : IdentityValidationOptions) (now : Z) (id : TrustedIdentity) :
  (let! (_, p, _, _) := parseCompactJWT token in
   let! c := ParseIdentityClaimsJSON p in
   match canonicalIssuerURI (ic_Issuer c) with
   | None => Err (ErrInvalidIdentityToken "invalid issuer")
   | Some i => fail! ErrInvalidIdentityToken "issuer is not allowed" when negb (issuerAllowed i allowed) in Ok i
   end) = Ok issuer ->
  token_signed token keys payload -> ParseIdentityClaimsJSON payload = Ok claims -> claims_accepted opts now claims id ->
  issuer = id_Issuer id /\ issuerAllowed issuer allowed = true.
Proof.
  intros H (h & si & sg & raw & key & n & e & Hp & _) Hc Ha. rewrite Hp in H. cbn [result_bind] in H.
  rewrite Hc in H. cbn [result_bind] in H. rewrite (ca_issuer _ _ _ _ Ha) in H.
  destruct (issuerAllowed (id_Issuer id) allowed) eqn:E; [|discriminate H]. by injection H as <-.
Qed.

Ltac solve_Verify_moves :=
  intros; repeat first [apply moves_retry | apply moves_Discover | apply moves_FetchJWKS | apply moves_checkOwnership | progress solve_moves].

Lemma yields_Verify (v : IdentityVerifier) (token : string) : yields (Verify k v token) (genuine_identity v token).
Proof.
  unfold Verify. case_bool_decide as Hne; [apply yields_lift; discriminate|].
  apply yields_lift_bind; [solve_Verify_moves|]. intros issuer Hissuer.
  eapply yields_bind; [apply yields_Discover; left|apply moves_Discover|solve_Verify_moves|]. intros m (Hm & Hgen & Hmx).
  eapply yields_bind; [apply yields_FetchJWKS; [right; left|done]|apply moves_FetchJWKS|solve_Verify_moves|]. intros set Hset.
  destruct (VerifyIdentityJWT (vc_wall k) token set (iv_Options v)) as [id|err] eqn:Ev.
  - apply VerifyIdentityJWT_inv in Ev as (payload & claims & Ht & Hc & Hacc).
    destruct (same_issuer _ _ _ _ _ _ _ _ _ Hissuer Ht Hc Hacc) as [-> Hal].
    eapply yields_bind; [apply yields_checkOwnership|apply moves_checkOwnership|intros; apply moves_ret|]. intros [] Hown. apply yields_ret. split; [done|].
    exists m, set, (vc_jwks k), (vc_wall k), payload, claims. split_and!; try done. right. split; [done|]. eauto.
  - destruct (is_ErrInvalidJWT err); cbn [negb]; [|apply yields_lift; discriminate].
    intros s s' r H H0 H1 Hs. destruct (RefreshJWKS (vc_refresh k) m s) as [s1 res] eqn:Er.
    assert (s' = s1) as -> by (destruct res as [[? []]|]; by injection H).
    destruct (yields_RefreshJWKS (vc_refresh k) m ltac:(do 2 right; left) s s1 res Er H0 H1 Hs) as [Hs1 HQ].
    destruct res as [[set' []]|]; injection H as <-; (split; [done|]); [|discriminate..].
    intros id Hid. apply VerifyIdentityJWT_inv in Hid as (payload & claims & Ht & Hc & Hacc).
    destruct (same_issuer _ _ _ _ _ _ _ _ _ Hissuer Ht Hc Hacc) as [-> Hal]. split; [done|].
    exists m, set', (vc_refresh k), (vc_rewall k), payload, claims. specialize (HQ _ eq_refl). split_and!; try done. by left.
Qed.
End call.

(** What stands behind an identity that a call returned after the calls [L]. *)
Definition verified (L : list episode) (call : episode) (v : IdentityVerifier) (token : string) (id : TrustedIdentity) : Prop :=
  genuine_identity (L ++ [call]) call.1 call.2.1 call.2.2 v token id.

(** A call adds itself to those the cache comes from. *)
Lemma Verify_genuine (L : list episode) (k : verify_clock) (v : IdentityVerifier) (token : string) s s' r :
  Verify k v token s = (s', r) -> cache_genuine L s.2 ->
  cache_genuine (L ++ [(k, (s.1, s'.1))]) s'.2 /\ forall id, r = Ok id -> verified L (k, (s.1, s'.1)) v token id.
Proof.
  intros H Hs. assert ((k, (s.1, s'.1)) ∈ L ++ [(k, (s.1, s'.1))]) as Hin by set_solver.
  apply (yields_Verify _ k s.1 s'.1 Hin v token s s' r H); [apply rtc_refl..|]. eapply cache_genuine_mono; [|done]. set_solver.
Qed.
End client.

(** Calls of the verifier, one after the other. *)
Definition verify_all {W} (Do : W -> string -> W * option http_response) (v : IdentityVerifier)
    (calls : list (verify_clock * string)) (s : W * IssuerDiscoveryClient) : W * IssuerDiscoveryClient :=
  fold_left (fun s call => (Verify Do call.1 v call.2 s).1) calls s.

(** The steps of a component that calls the verifier at most once in each, as the network sees
    them. *)
Section episodes.
Context {W S C : Type} (world : S -> W) (clock : C -> verify_clock) (step : S -> C -> S).
Fixpoint episodes (calls : list C) (s : S) : list (episode (W := W)) :=
  match calls with
  | [] => []
  | c :: calls => (clock c, (world s, world (step s c))) :: episodes calls (step s c)
  end.

(** An invariant of the calls so far holds after all of them. *)
Lemma episodes_invariant (I : list (episode (W := W)) -> S -> Prop) :
  (forall L s c, I L s -> I (L ++ [(clock c, (world s, world (step s c)))]) (step s c)) ->
  forall calls L s, I L s -> I (L ++ episodes calls s) (fold_left step calls s).
Proof.
  intros HI. induction calls as [|c calls IH]; intros L s Hs; cbn; [by rewrite app_nil_r|].
  rewrite cons_middle, app_assoc. by apply IH, HI.
Qed.
End episodes.

(** C2: an identity the verifier returns is genuine.  Its issuer is on the allowed list.  Its
    metadata comes from the issuer's well-known address and its key set from the issuer's own
    origin: the network has answered with them during this call or an earlier one of the history,
    at a reading of that call's clock which is less than an hour before the reading at which they
    are used.  A key of the set with at least 2048 bits verifies the RS256 signature of the token;
    the claims are accepted at the time the options fix, or at the time of the call when they fix
    none; and, when asked for, the profile of the WebID, read during this call, confirms it,
    unless the key set had to be refreshed.  This holds after any calls, from an empty cache,
    whatever the network answers. *)
Theorem verified_identity_genuine {W} (Do : W -> string -> W * option http_response) (w : W) (c : IssuerDiscoveryClient)
    (v : IdentityVerifier) (calls : list (verify_clock * string)) (k : verify_clock) (token : string) s id :
  di_cache c = Some NewIssuerMetadataCache ->
  let before := verify_all Do v calls (w, c) in
  Verify Do k v token before = (s, Ok id) ->
  verified Do (episodes fst fst (fun s call => (Verify Do call.1 v call.2 s).1) calls (w, c)) (k, (before.1, s.1)) v token id.
Proof.
  intros Hc before H. apply (Verify_genuine Do) with (L := episodes fst fst (fun s call => (Verify Do call.1 v call.2 s).1) calls (w, c)) in H
    as [_ H]; [by apply H|].
  apply (episodes_invariant fst fst (fun s call => (Verify Do call.1 v call.2 s).1) (fun L s => cache_genuine Do L s.2)) with (L := []).
  - intros L s1 [k' t] Hg. cbn. destruct (Verify Do k' v t s1) as [s2 r] eqn:E. by apply (Verify_genuine Do L k' v t s1 s2 r E Hg).
  - by apply cache_genuine_new.
Qed.

(** Text with double quotes for single ones. *)
Definition json_text (s : string) : string := string_map (fun c => if Ascii.eqb c "'" then chr 34 else c) s.

Definition sampleModulus : string :=
  concat_str ["q_Ll-UY8j58u977tmLNZEPzL7lINHnPHbTXdYx9ZkUrd-q2qYsj6vV_o8DfeKQ_Xw9LZtG7pIERD80M_odf3_p5_WhpNfrpxC_Ka";
     "XIcRDTKCHsyp-GoyUIexkRoEiSF0p9tJsSeEgBqEAo5ETm1gHC3XOexZJFzw2kPcGt4CYDO3ok03A45sU15HtKRtBwiW7IMkvFfP";
     "ZbfJm5OSS1kz-lLH1GIhPxyFQQtpm98xtSHMDiaIp8cxfVk5giU8wa5ByF12xq8pA5eisXfDQS3RNa6AlgG6s_bv5Ok4_dNfx08W";
     "gvywFVI9lwRH0GQBILBwk7JI2U4RhBW8iue9HDwtnw"].
Definition sampleToken : string :=
  Join ["eyJhbGciOiJSUzI1NiIsImtpZCI6ImsxIn0";
    concat_str ["eyJpc3MiOiJodHRwczovL2lkcC5leGFtcGxlIiwic3ViIjoiaHR0cHM6Ly9hbGljZS5leGFtcGxlL2NhcmQjbWUiLCJhdWQiOiJw";
     "b2QiLCJleHAiOjE3MDAwMDA2MDB9"];
    concat_str ["RJDyFNEVtVak96U8U-WkSoBb56boJS8Mf7mjWG6Jwiu-RXDbvmBZfRKpm-dd96mxB6UV7qOrYBKlDe5Nyb_vCBTJIuy7ZvxWlJ9S";
     "9ohbm0fp-efa00jzYe7iP-iwei1fIVwSZojRAXnjcH3ff5TuhIWZV-CGqTWK3g4k2V-ODbOTrAj7OPw7XjrzNf5NZ3T0gfl0fhLI";
     "qaMFngVSMFfn8lu6ZB1t7kteuF2dNqxVd_Lw-i546S0Z0cLOfQj9V26apyyGiujDFspNLVkkB4k2A15Ouzhc1ptUC7SfpI1ULKhq";
     "7DnWUBhek_H9QYNABVAiRNUL-VzZhbJJdv5khprFqw"]] ".".

(** A network with one issuer. *)
Definition sampleNetwork (_ : unit) (target : string) : unit * option http_response :=
  (tt,
   if String.eqb target "https://idp.example/.well-known/openid-configuration"
   then Some (mkResponse 200 "application/json" (json_text "{'issuer':'https://idp.example','jwks_uri':'https://idp.example/jwks'}") false)
   else if String.eqb target "https://idp.example/jwks"
   then Some (mkResponse 200 "application/json"
                (concat_str [json_text "{'keys':[{'kty':'RSA','kid':'k1','e':'Aw','n':'"; sampleModulus; json_text "'}]}"]) false)
   else None).

Definition sampleIdentityOptions : IdentityValidationOptions :=
  mkIdentityOptions ["https://idp.example"] "pod" (time_Unix 1700000000) (60 * second).
Definition sampleClock : verify_clock := let t := time_Unix 1700000000 in mkClock t t t t t.

Lemma verified_identity_genuine_witness :
  exists s id, Verify sampleNetwork sampleClock (NewIdentityVerifier sampleIdentityOptions) sampleToken (tt, NewIssuerDiscoveryClient) = (s, Ok id) /\
    id_WebID id = "https://alice.example/card#me" /\
    issuerAllowed (id_Issuer id) ["https://idp.example"] = true.
Proof.
  assert (match (Verify sampleNetwork sampleClock (NewIdentityVerifier sampleIdentityOptions) sampleToken (tt, NewIssuerDiscoveryClient)).2
          with Ok id => Some (id_WebID id) | Err _ => None end = Some "https://alice.example/card#me") as Hr by (vm_compute; reflexivity).
  destruct (Verify sampleNetwork sampleClock (NewIdentityVerifier sampleIdentityOptions) sampleToken (tt, NewIssuerDiscoveryClient))
    as [s [id|]] eqn:E; cbn [snd] in Hr; [|discriminate Hr].
  exists s, id. split; [reflexivity|]. split; [by injection Hr|].
  destruct (verified_identity_genuine sampleNetwork tt NewIssuerDiscoveryClient (NewIdentityVerifier sampleIdentityOptions) []
    sampleClock sampleToken s id eq_refl E) as [Ha _]. exact Ha.
Defined.
