(* ===== verification/Authn.v ===== *)
(** * The authentication middleware

    [internal/authn/middleware.go]: the preflight of a request, which verifies a DPoP proof or
    the identity token of a bearer, and puts the identity into the context of the request. *)

From S2P Require Import Prelude GoStrings GoURL GoHash GoGlob GoJSON GoCrypto AuthzTypes RequestBuilder ReplayCache DPoP Identity Issuer.

Local Open Scope Z_scope.

(** ** Headers *)

Definition Header_Values (r : http_Request) (key : string) : list string := default [] (r_Header r !! key).

Definition parseAuthorization (value : string) : result string (string * string) :=
  match Fields (TrimSpace value) with
  | [scheme; token] =>
      fail! "Authorization contains control characters" when has_line_break scheme || has_line_break token in
      fail! "Authorization token is too large" when 8192 <? len token in
      Ok (scheme, token)
  | _ => Err "Authorization must contain exactly scheme and token"
  end.

(** The proof, if there is one; [Dpop] is the canonical name of the header. *)
Definition dpopProofHeader (r : http_Request) : result string (option string) :=
  match Header_Values r "Dpop" with
  | [] => Ok None
  | [v] =>
      let value := TrimSpace v in
      fail! "DPoP header is empty" when String.eqb value "" in
      fail! "DPoP header contains invalid characters" when has_line_break value || string_existsb (Ascii.eqb ",") value in
      fail! "DPoP proof is too large" when 16384 <? len value in
      Ok (Some value)
  | _ => Err "multiple DPoP headers are not allowed"
  end.

(** ** The preflight *)

Definition error_text (e : identity_error) : string :=
  match e with
  | ErrInvalidIdentityToken d => String.append "invalid identity token: " d
  | ErrInvalidJWT d => String.append "invalid jwt: " d
  | ErrInvalidIssuerMetadata d => String.append "invalid issuer metadata: " d
  | ErrInvalidOIDCDiscovery d => String.append "invalid oidc discovery: " d
  end.

(** The objects of the middleware: the verifier of proofs with its replay cache, the verifier
    of identities, and the world with the discovery client. *)
Record AuthnState (W : Type) := mkAuthn {
  an_dpop : DPoPVerifier;
  an_identity : option IdentityVerifier;
  an_discovery : W * IssuerDiscoveryClient
}.
Arguments mkAuthn {W} _ _ _.
Arguments an_dpop {W} _.
Arguments an_identity {W} _.
Arguments an_discovery {W} _.

(** What a call reads of the outside. *)
Record authn_env := mkAuthnEnv {
  ae_order : gmap string Z -> list string;
  ae_now : Z;
  ae_cacheNow : Z;
  ae_clock : verify_clock
}.

Definition with_identity (r : http_Request) (id : TrustedIdentity) : http_Request :=
  RequestBuilder.mkHTTPRequest (r_Method r) (r_URL r) (r_Host r) (r_TLS r) (r_Header r) (ctx_RequestID r) id (ctx_PolicyDocuments r).

Definition identityConfigured (cfg : AuthConfig) : bool :=
  cfg_IdentityValidationEnabled cfg && negb (bool_decide (cfg_AllowedIdentityIssuers cfg = [])).

Section middleware.
Context {W : Type} (Do : W -> string -> W * option http_response).

Definition preflightRequest (e : authn_env) (cfg : AuthConfig) (u : URL) (r : http_Request) (s : AuthnState W)
  : AuthnState W * result string http_Request :=
  match Header_Values r "Authorization" with
  | [] => (s, Ok r)
  | [value] =>
      match parseAuthorization value with
      | Err e => (s, Err e)
      | Ok (scheme, token) =>
      match dpopProofHeader r with
      | Err e => (s, Err e)
      | Ok proof =>
          if String.eqb (ToLower scheme) "dpop" then
            match proof with
            | None =>
                (s, if cfg_RequireDPoPForDPoPAuthorization (dv_cfg (an_dpop s))
                    then Err "DPoP authorization requires DPoP proof header" else Ok r)
            | Some dpopProof =>
                let '(v, res) := VerifyRequest (ae_order e) (ae_now e) (ae_cacheNow e) (an_dpop s)
                                   (DPoP.mkHTTPRequest (r_Method r) u (r_Host r) (r_TLS r)) token dpopProof in
                (mkAuthn v (an_identity s) (an_discovery s), match res with Ok _ => Ok r | Err e => Err e end)
            end
          else if String.eqb (ToLower scheme) "bearer" then
            match proof with
            | Some _ => (s, Err "Bearer authorization must not include DPoP proof")
            | None =>
                match an_identity s with
                | Some v =>
                    if identityConfigured cfg then
                      let '(d, res) := Verify Do (ae_clock e) v token (an_discovery s) in
                      (mkAuthn (an_dpop s) (an_identity s) d,
                       match res with
                       | Ok identity => Ok (with_identity r identity)
                       | Err e => Err (String.append "Bearer token validation failed: " (error_text e))
                       end)
                    else (s, Ok r)
                | None => (s, Ok r)
                end
            end
          else (s, Err "unsupported Authorization scheme")
      end
      end
  | _ => (s, Err "multiple Authorization headers are not allowed")
  end.

(** The answer to a request. *)
Inductive authn_verdict :=
| Proceeds (r : http_Request)
| Unauthorized (reason : string)
| Crashes.

(** The handler reads the path of the URL first. *)
Definition Authn_ServeHTTP (e : authn_env) (cfg : AuthConfig) (r : http_Request) (s : AuthnState W)
  : AuthnState W * authn_verdict :=
  if negb (cfg_PreflightEnabled cfg) then (s, Proceeds r)
  else match r_URL r with
  | None => (s, Crashes)
  | Some u =>
      if String.eqb (Path u) "/healthz" || String.eqb (Path u) "/readyz" then (s, Proceeds r)
      else
        let '(s', res) := preflightRequest e cfg u r s in
        (s', match res with Ok r' => Proceeds r' | Err reason => Unauthorized reason end)
  end.

(** The verifier of [MiddlewareWithVerifier] for a configuration; its time is the time of the
    construction. *)
Definition MiddlewareWithVerifier (cfg : AuthConfig) (cache : option ReplayCache) (verifier : option IdentityVerifier)
    (started : Z) (w : W) (d : IssuerDiscoveryClient) : AuthnState W :=
  mkAuthn (NewDPoPVerifier cfg cache)
    (match verifier with
     | Some v => Some v
     | None =>
         if identityConfigured cfg
         then Some (NewIdentityVerifier (mkIdentityOptions (cfg_AllowedIdentityIssuers cfg) (cfg_ExpectedIdentityAudience cfg)
                                           started (cfg_MaxClockSkew cfg)))
         else None
     end) (w, d).
Definition Authn_Middleware (cfg : AuthConfig) (cache : option ReplayCache) (started : Z) (w : W) : AuthnState W :=
  MiddlewareWithVerifier cfg cache None started w NewIssuerDiscoveryClient.
End middleware.

(** ** What the preflight lets through *)

(** The proof of possession of a request: accepted under the configuration, in time, and not in
    the replay cache. *)
Definition proof_accepted (e : authn_env) (cfg : AuthConfig) (cache : ReplayCache) (u : URL) (r : http_Request) (token proof : string) : Prop :=
  exists header claims signingInput signature,
    parseProof proof = Ok (header, claims, signingInput, signature) /\
    accepted cfg (DPoP.mkHTTPRequest (r_Method r) u (r_Host r) (r_TLS r)) token header claims signingInput signature /\
    in_time cfg (ae_now e) claims /\ present (ae_cacheNow e) cache (replayKey header claims) = false.

Lemma VerifyRequest_accepts e (v v' : DPoPVerifier) u r token proof :
  VerifyRequest (ae_order e) (ae_now e) (ae_cacheNow e) v (DPoP.mkHTTPRequest (r_Method r) u (r_Host r) (r_TLS r)) token proof = (v', Ok tt) ->
  proof_accepted e (dv_cfg v) (dv_cache v) u r token proof.
Proof.
  unfold VerifyRequest. intros H. destruct (checkProof _ _ _ _ _) as [[key expiresAt]|] eqn:E; [|discriminate H].
  destruct (Store _ _ _ _ _) as [c ok] eqn:Es. injection H as <- Hok. destruct ok; [|discriminate Hok].
  apply checkProof_Ok in E as (h & cl & si & sg & Hp & Ha & Ht & -> & _). exists h, cl, si, sg. split_and!; try done.
  pose proof (Store_result (ae_order e) (ae_cacheNow e) (dv_cache v) (replayKey h cl) expiresAt) as Hr. rewrite Es in Hr.
  cbn [snd] in Hr. symmetry in Hr. by apply andb_true_iff in Hr as [_ Hr%negb_true_iff].
Qed.

Section passed.
Context {W : Type} (Do : W -> string -> W * option http_response).

(** The verifier of identities that a configuration asks for: one for its issuers and audience,
    with the time of the start. *)
Definition verifierOptions (cfg : AuthConfig) (started : Z) : IdentityValidationOptions :=
  mkIdentityOptions (cfg_AllowedIdentityIssuers cfg) (cfg_ExpectedIdentityAudience cfg) started (cfg_MaxClockSkew cfg).

(** The ways a request gets through, by the configuration and the replay cache; [L] are the
    earlier calls as the network sees them, and [ws] the worlds before and after this one. *)
Inductive passed (L : list (episode (W := W))) (ws : W * W) (e : authn_env) (cfg : AuthConfig) (started : Z) (cache : ReplayCache) (u : URL)
    (r : http_Request) : http_Request -> Prop :=
| passed_health : Path u = "/healthz" \/ Path u = "/readyz" -> passed L ws e cfg started cache u r r
| passed_anonymous : Header_Values r "Authorization" = [] -> passed L ws e cfg started cache u r r
| passed_proof value scheme token proof :
    Header_Values r "Authorization" = [value] -> parseAuthorization value = Ok (scheme, token) -> ToLower scheme = "dpop" ->
    dpopProofHeader r = Ok (Some proof) -> proof_accepted e cfg cache u r token proof -> passed L ws e cfg started cache u r r
| passed_proofless value scheme token :
    Header_Values r "Authorization" = [value] -> parseAuthorization value = Ok (scheme, token) -> ToLower scheme = "dpop" ->
    dpopProofHeader r = Ok None -> cfg_RequireDPoPForDPoPAuthorization cfg = false -> passed L ws e cfg started cache u r r
| passed_identity value scheme token id :
    Header_Values r "Authorization" = [value] -> parseAuthorization value = Ok (scheme, token) -> ToLower scheme = "bearer" ->
    dpopProofHeader r = Ok None -> identityConfigured cfg = true ->
    verified Do L (ae_clock e, ws) (NewIdentityVerifier (verifierOptions cfg started)) token id ->
    passed L ws e cfg started cache u r (with_identity r id)
| passed_bearer value scheme token :
    Header_Values r "Authorization" = [value] -> parseAuthorization value = Ok (scheme, token) -> ToLower scheme = "bearer" ->
    dpopProofHeader r = Ok None -> identityConfigured cfg = false -> passed L ws e cfg started cache u r r.

(** Every call keeps the caches of the issuers genuine, the configuration of the proofs, and the
    verifier: there is one exactly when the configuration asks for it. *)
Definition authn_genuine (L : list (episode (W := W))) (s : AuthnState W) : Prop := cache_genuine Do L (an_discovery s).2.

(** The world of the middleware. *)
Definition an_world (s : AuthnState W) : W := (an_discovery s).1.

Record authn_ok (L : list (episode (W := W))) (cfg : AuthConfig) (started : Z) (s : AuthnState W) : Prop := {
  ao_genuine : authn_genuine L s;
  ao_cfg : dv_cfg (an_dpop s) = cfg;
  ao_identity : an_identity s = if identityConfigured cfg then Some (NewIdentityVerifier (verifierOptions cfg started)) else None
}.

Lemma preflight_passed L e cfg started u r s s' r' :
  authn_ok L cfg started s -> preflightRequest Do e cfg u r s = (s', Ok r') ->
  passed L (an_world s, an_world s') e cfg started (dv_cache (an_dpop s)) u r r'.
Proof.
  intros [Hs Hcfg Hid] H. unfold preflightRequest in H. destruct (Header_Values r "Authorization") as [|value [|]] eqn:Ea; [|..|discriminate H].
  { injection H as <- <-. by apply passed_anonymous. }
  destruct (parseAuthorization value) as [[scheme token]|] eqn:Ep; [|discriminate H].
  destruct (dpopProofHeader r) as [proof|] eqn:Ed; [|discriminate H].
  destruct (String.eqb_spec (ToLower scheme) "dpop") as [Hd|_].
  - destruct proof as [proof|].
    + destruct (VerifyRequest _ _ _ _ _ _ _) as [v res] eqn:Ev. injection H as _ H. destruct res as [[]|]; [|discriminate H].
      injection H as <-. apply VerifyRequest_accepts in Ev. rewrite Hcfg in Ev. by eapply passed_proof.
    + injection H as _ H. rewrite Hcfg in H. destruct (cfg_RequireDPoPForDPoPAuthorization cfg) eqn:Er; [discriminate H|].
      injection H as <-. by eapply passed_proofless.
  - destruct (String.eqb_spec (ToLower scheme) "bearer") as [Hb|]; [|discriminate H].
    destruct proof; [discriminate H|]. rewrite Hid in H. destruct (identityConfigured cfg) eqn:Ec.
    + destruct (Verify Do (ae_clock e) _ token (an_discovery s)) as [d res] eqn:Ev. injection H as <- H.
      destruct res as [id|]; [|discriminate H]. injection H as <-.
      destruct (Verify_genuine Do L (ae_clock e) _ token _ _ _ Ev Hs) as [_ HQ]. eapply passed_identity; [done..|by apply HQ].
    + injection H as _ <-. eapply passed_bearer; eauto.
Qed.

Lemma preflight_genuine L e cfg u r s : authn_genuine L s ->
  let s' := (preflightRequest Do e cfg u r s).1 in authn_genuine (L ++ [(ae_clock e, (an_world s, an_world s'))]) s'.
Proof.
  intros Hs s'. assert (forall w, cache_genuine Do (L ++ [w]) (an_discovery s).2) as Hmore
    by (intros w; eapply cache_genuine_mono; [|exact Hs]; set_solver).
  subst s'. unfold preflightRequest, authn_genuine, an_world. destruct (Header_Values r "Authorization") as [|value []]; [apply Hmore| |apply Hmore].
  destruct (parseAuthorization value) as [[scheme token]|]; [|apply Hmore]. destruct (dpopProofHeader r) as [proof|]; [|apply Hmore].
  break_if.
  - destruct proof; [|apply Hmore]. destruct (VerifyRequest _ _ _ _ _ _ _). apply Hmore.
  - break_if; [|apply Hmore]. destruct proof; [apply Hmore|]. destruct (an_identity s) as [v|]; [|apply Hmore].
    destruct (identityConfigured cfg); [|apply Hmore].
    destruct (Verify Do (ae_clock e) v token (an_discovery s)) as [d res] eqn:Ev.
    by apply (Verify_genuine Do L (ae_clock e) v token _ _ _ Ev Hs).
Qed.

Lemma Authn_genuine L e cfg r s : authn_genuine L s ->
  let s' := (Authn_ServeHTTP Do e cfg r s).1 in authn_genuine (L ++ [(ae_clock e, (an_world s, an_world s'))]) s'.
Proof.
  intros Hs s'. assert (forall w, cache_genuine Do (L ++ [w]) (an_discovery s).2) as Hmore
    by (intros w; eapply cache_genuine_mono; [|exact Hs]; set_solver).
  subst s'. unfold Authn_ServeHTTP. break_if; [apply Hmore|]. destruct (r_URL r) as [u|]; [|apply Hmore]. break_if; [apply Hmore|].
  pose proof (preflight_genuine L e cfg u r s Hs) as Hg. by destruct (preflightRequest Do e cfg u r s).
Qed.

Lemma Authn_passed L e cfg started r s s' r' u :
  r_URL r = Some u -> cfg_PreflightEnabled cfg = true -> authn_ok L cfg started s ->
  Authn_ServeHTTP Do e cfg r s = (s', Proceeds r') -> passed L (an_world s, an_world s') e cfg started (dv_cache (an_dpop s)) u r r'.
Proof.
  intros Hu Hc Hs H. unfold Authn_ServeHTTP in H. rewrite Hc, Hu in H. cbn [negb] in H.
  destruct (_ || _) eqn:Eh.
  - injection H as <- <-. apply passed_health. apply orb_true_iff in Eh as [->%String.eqb_eq| ->%String.eqb_eq]; auto.
  - destruct (preflightRequest Do e cfg u r s) as [s1 res] eqn:E. injection H as <- H. destruct res as [r1|]; [|discriminate H].
    injection H as <-. by eapply preflight_passed.
Qed.

(** The parts of the middleware that do not change. *)
Lemma Authn_fixed e cfg r (a : AuthnState W) :
  dv_cfg (an_dpop (Authn_ServeHTTP Do e cfg r a).1) = dv_cfg (an_dpop a) /\ an_identity (Authn_ServeHTTP Do e cfg r a).1 = an_identity a.
Proof.
  unfold Authn_ServeHTTP. break_if; [done|]. destruct (r_URL r) as [u|]; [|done]. break_if; [done|].
  assert (dv_cfg (an_dpop (preflightRequest Do e cfg u r a).1) = dv_cfg (an_dpop a) /\
    an_identity (preflightRequest Do e cfg u r a).1 = an_identity a) as Hp; [|by destruct (preflightRequest Do e cfg u r a)].
  unfold preflightRequest. destruct (Header_Values r "Authorization") as [|value []]; [done| |done].
  destruct (parseAuthorization value) as [[scheme token]|]; [|done]. destruct (dpopProofHeader r) as [proof|]; [|done]. break_if.
  - destruct proof as [proof|]; [|done]. unfold VerifyRequest. destruct (checkProof _ _ _ _ _) as [[]|]; [|done]. by destruct (Store _ _ _ _ _).
  - break_if; [|done]. destruct proof; [done|]. destruct (an_identity a) eqn:Ei; [|done]. break_if; [|done]. by destruct (Verify _ _ _ _ _).
Qed.

Lemma Authn_keeps L e cfg started r s : authn_ok L cfg started s ->
  let s' := (Authn_ServeHTTP Do e cfg r s).1 in authn_ok (L ++ [(ae_clock e, (an_world s, an_world s'))]) cfg started s'.
Proof.
  intros [Hg Hc Hi] s'. destruct (Authn_fixed e cfg r s) as [H1 H2]. subst s'. split; [by apply Authn_genuine|congruence|congruence].
Qed.

Lemma authn_ok_mono L L' cfg started s : L ⊆ L' -> authn_ok L cfg started s -> authn_ok L' cfg started s.
Proof. intros HL [Hg Hc Hi]. split; [|done..]. by eapply cache_genuine_mono. Qed.

Lemma Authn_start cfg cache started (w : W) : authn_ok [] cfg started (Authn_Middleware cfg cache started w).
Proof. split; [|done|done]. by apply cache_genuine_new. Qed.
End passed.
