(* ===== verification/Gateway.v ===== *)
(** * The gateway

    [internal/gateway/server.go]: the chain of handlers in front of the backend, composed of the
    models of its parts, and the request identifiers of [internal/observability/logging.go].
    The configuration is one without compression, which is the default; spans and log lines
    have no effect on the requests. *)

From S2P Require Import Prelude GoStrings GoURL GoPath AuthzTypes Evaluator RDFIndex PolicyParsers RequestBuilder.
From S2P Require Import Safety Middleware EnforcementGate RateLimit ReplayCache DPoP Identity Issuer Authn.

Import Runtime (outcome, Returns, Panics, Blocks).

Local Open Scope Z_scope.

(** ** Request identifiers *)

Definition sanitizeRequestID (value : string) : string :=
  let value := TrimSpace value in
  if 128 <? len value then "" else if has_line_break value then "" else value.

Definition with_request_id (r : http_Request) (id : string) : http_Request :=
  RequestBuilder.mkHTTPRequest (r_Method r) (r_URL r) (r_Host r) (r_TLS r) (r_Header r) id (ctx_Identity r) (ctx_PolicyDocuments r).

(** [fresh] is the identifier [newRequestID] draws. *)
Definition RequestID (fresh : string) (r : http_Request) : http_Request :=
  let requestID := sanitizeRequestID (Header_Get r "X-Request-Id") in
  with_request_id r (if String.eqb requestID "" then fresh else requestID).

(** ** Configuration *)

Record Config := mkConfig {
  cf_Auth : AuthConfig;
  cf_ShadowEnabled : bool;
  cf_PublicBaseURL : string;
  cf_RateLimitEnabled : bool;
  cf_RequestsPerWindow : Z;
  cf_Window : Z;
  cf_AllowedOrigins : list string
}.

(** The options [New] gives to the enforcement gate. *)
Definition gateOptions : Gate.GateOptions :=
  Gate.mkOptions Gate.EnforcementModeShadow false true "" 0 [] [] ["GET"; "HEAD"] 0
    (Gate.mkCanary false "" 0 "" "" []) false false 0 0 true.

Record Server (W S F : Type) := mkServer {
  sv_cfg : Config;
  sv_limiter : option Limiter;
  sv_gate : Gate.EnforcementGate;
  sv_shadow : option (Shadow S F);
  sv_authn : AuthnState W
}.
Arguments mkServer {W S F} _ _ _ _ _.
Arguments sv_cfg {W S F} _.
Arguments sv_limiter {W S F} _.
Arguments sv_gate {W S F} _.
Arguments sv_shadow {W S F} _.
Arguments sv_authn {W S F} _.

(** [New]; the evaluators are those of [newAuthzEvaluator] and [newAuthzFallbackEvaluator]. *)
Definition New {W S F} (cfg : Config) (evaluator : S) (fallback : option F) (started : Z) (w : W) : result Gate.gate_error (Server W S F) :=
  let! gate := Gate.NewEnforcementGate started gateOptions in
  Ok (mkServer cfg
        (if cf_RateLimitEnabled cfg then Some (RateLimit.New (cf_RequestsPerWindow cfg) (cf_Window cfg)) else None)
        gate
        (if cf_ShadowEnabled cfg
         then Some (Middleware.Middleware
                      (mkMiddlewareOptions (mkBuildOptions (cf_PublicBaseURL cfg) None [] "" ∅ "") (Some evaluator) fallback true
                         (Some NewShadowMetrics)) true)
         else None)
        (Authn_Middleware (cf_Auth cfg) (Some NewReplayCache) started w)).

(** ** The chain *)

(** What a request reads of the outside. *)
Record gateway_env := mkGatewayEnv {
  ge_fresh : string;
  ge_headers : Safety.header_order;
  ge_now : Z;
  ge_until : Z;
  ge_remoteAddr : string;
  ge_call : call_env;
  ge_authn : authn_env
}.

(** The end of a request: answered by a handler of the chain, passed to the backend's routes, or
    a panic of a handler. *)
Inductive reply :=
| Answered (status : Z)
| Forwarded (r : http_Request)
| Crashed.

Section chain.
Context {W S F : Type} `{Evaluator S} `{Evaluator F} (Do : W -> string -> W * option http_response).

Definition serveAuthn (e : gateway_env) (r : http_Request) (s : Server W S F) : Server W S F * reply :=
  let '(a, v) := Authn_ServeHTTP Do (ge_authn e) (cf_Auth (sv_cfg s)) r (sv_authn s) in
  (mkServer (sv_cfg s) (sv_limiter s) (sv_gate s) (sv_shadow s) a,
   match v with Proceeds r' => Forwarded r' | Unauthorized _ => Answered 401 | Crashes => Crashed end).

(** The request the shadow middleware hands to its next handler. *)
Definition handed (sh : Shadow S F) : option http_Request := snd <$> last (Middleware.served (sh_trace sh)).

Definition serveAuthz (e : gateway_env) (r : http_Request) (s : Server W S F) : Server W S F * reply :=
  match sv_shadow s with
  | None => serveAuthn e r s
  | Some sh =>
      match ServeHTTP (ge_call e) r sh with
      | Returns (sh', _) =>
          let s' := mkServer (sv_cfg s) (sv_limiter s) (sv_gate s) (Some sh') (sv_authn s) in
          match handed sh' with
          | Some r' => serveAuthn e r' s'
          | None => (s', Crashed)
          end
      | Panics | Blocks => (s, Crashed)
      end
  end.

Definition serveGate (e : gateway_env) (r : http_Request) (s : Server W S F) : Server W S F * reply :=
  let '(g, _) := Gate.EnforcementGateMiddleware (ge_now e) (sv_gate s) in
  serveAuthz e r (mkServer (sv_cfg s) (sv_limiter s) g (sv_shadow s) (sv_authn s)).

Definition serveRateLimit (e : gateway_env) (r : http_Request) (u : URL) (s : Server W S F) : Server W S F * reply :=
  let '(l, res) := RateLimit.Middleware (ge_now e) (ge_until e) (Path u) (ge_remoteAddr e) (sv_limiter s) in
  let s' := mkServer (sv_cfg s) l (sv_gate s) (sv_shadow s) (sv_authn s) in
  match res with
  | TooManyRequests _ => (s', Answered 429)
  | PassThrough | Served _ => serveGate e r s'
  end.

(** The handler of the server: identifier, safety, origin, rate, gate, shadow, authentication.
    The access log reads the path of the URL at the end. *)
Definition serve (e : gateway_env) (r0 : http_Request) (s : Server W S F) : Server W S F * reply :=
  let r := RequestID (ge_fresh e) r0 in
  match r_URL r with
  | None => (s, Crashed)
  | Some u =>
      match Safety.RejectUnsafeRequests (ge_headers e) r with
      | Safety.Answers status _ => (s, Answered status)
      | Safety.Passes _ =>
          match Safety.OriginPolicy (Safety.NewOriginPolicy (cf_AllowedOrigins (sv_cfg s))) r with
          | Safety.Answers status _ => (s, Answered status)
          | Safety.Passes _ => serveRateLimit e r u s
          end
      end
  end.

Definition serve_all (calls : list (gateway_env * http_Request)) (s : Server W S F) : Server W S F :=
  fold_left (fun s call => (serve call.1 call.2 s).1) calls s.
End chain.

(** ** What reaches the backend *)

Section admitted.
Context {W S F : Type} `{Evaluator S} `{Evaluator F} (Do : W -> string -> W * option http_response).

(** The call of the limiter that a request makes: none when an earlier handler answers it, or on
    the health paths. *)
Definition limitedCall (cfg : Config) (call : gateway_env * http_Request) : option (Z * string) :=
  let '(e, r0) := call in
  match r_URL r0 with
  | None => None
  | Some u =>
      match Safety.ValidateRequest (ge_headers e) r0, Safety.OriginPolicy (Safety.NewOriginPolicy (cf_AllowedOrigins cfg)) r0 with
      | Ok _, Safety.Passes _ =>
          if String.eqb (Path u) "/healthz" || String.eqb (Path u) "/readyz" then None
          else Some (ge_now e, RemoteIP (ge_remoteAddr e))
      | _, _ => None
      end
  end.

(** The limiter after some requests. *)
Definition limiterAfter (cfg : Config) (calls : list (gateway_env * http_Request)) : option Limiter :=
  if cf_RateLimitEnabled cfg
  then Some (runCalls (omap (limitedCall cfg) calls) (RateLimit.New (cf_RequestsPerWindow cfg) (cf_Window cfg)))
  else None.

(** The world of the server, and a step between two states as the network sees it. *)
Definition sv_world (s : Server W S F) : W := an_world (sv_authn s).
Definition networkStep (e : gateway_env) (s s' : Server W S F) : episode := (ae_clock (ge_authn e), (sv_world s, sv_world s')).
Definition networkSteps (calls : list (gateway_env * http_Request)) (s : Server W S F) : list (episode (W := W)) :=
  episodes sv_world (fun call => ae_clock (ge_authn call.1)) (fun s call => (serve Do call.1 call.2 s).1) calls s.

(** The invariant of the server after some requests, which the network saw as [L]: its
    configuration, the authentication of this configuration, a gate that stays in shadow mode, and
    the limiter. *)
Record server_ok (cfg : Config) (started : Z) (calls : list (gateway_env * http_Request)) (L : list (episode (W := W))) (s : Server W S F) : Prop := {
  so_cfg : sv_cfg s = cfg;
  so_authn : authn_ok Do L (cf_Auth cfg) started (sv_authn s);
  so_gate : Gate.g_mode (sv_gate s) = Gate.EnforcementModeShadow;
  so_limiter : sv_limiter s = limiterAfter cfg calls
}.

Lemma New_server_ok cfg (evaluator : S) (fallback : option F) started (w : W) (s : Server W S F) :
  New cfg evaluator fallback started w = Ok s -> server_ok cfg started [] [] s.
Proof.
  unfold New. destruct (Gate.NewEnforcementGate started gateOptions) as [g|] eqn:E; [|discriminate]. intros Hs. injection Hs as <-.
  unfold Gate.NewEnforcementGate in E. cbn in E. injection E as <-. split; cbn; [done|apply Authn_start|done|done].
Qed.

(** A request the authentication lets through is the one it got, but for its identity. *)
Lemma passed_same L ws e cfg started cache u r r' : passed Do L ws e cfg started cache u r r' -> r' = r \/ exists id, r' = with_identity r id.
Proof. destruct 1; eauto. Qed.

Lemma gate_stays_shadow now (g : Gate.EnforcementGate) :
  Gate.g_mode g = Gate.EnforcementModeShadow -> Gate.g_mode (Gate.EnforcementGateMiddleware now g).1 = Gate.EnforcementModeShadow.
Proof.
  intros Hg. unfold Gate.EnforcementGateMiddleware, Gate.AutoRevertIfNeeded. cbn [fst]. break_if; [done|]. by rewrite Hg.
Qed.

Lemma server_ok_more cfg started calls L x s : server_ok cfg started calls L s -> server_ok cfg started calls (L ++ [x]) s.
Proof. intros [Hc Ha Hg Hl]. split; [done| |done..]. eapply authn_ok_mono; [|done]. set_solver. Qed.

Lemma serveAuthn_ok cfg started calls L e r s : server_ok cfg started calls L s ->
  let s' := (serveAuthn Do e r s).1 in server_ok cfg started calls (L ++ [networkStep e s s']) s'.
Proof.
  intros [Hc Ha Hg Hl]. unfold serveAuthn. rewrite Hc.
  pose proof (Authn_keeps Do L (ge_authn e) (cf_Auth cfg) started r (sv_authn s) Ha) as H1.
  destruct (Authn_ServeHTTP Do (ge_authn e) (cf_Auth cfg) r (sv_authn s)) as [a v]. by split.
Qed.

Lemma serveGate_ok cfg started calls L e r s : server_ok cfg started calls L s ->
  let s' := (serveGate Do e r s).1 in server_ok cfg started calls (L ++ [networkStep e s s']) s'.
Proof.
  intros Hs. unfold serveGate. pose proof (gate_stays_shadow (ge_now e) (sv_gate s) (so_gate _ _ _ _ _ Hs)) as Hm.
  destruct (Gate.EnforcementGateMiddleware (ge_now e) (sv_gate s)) as [g hs]. unfold serveAuthz. cbn [sv_shadow sv_cfg sv_limiter sv_authn fst] in *.
  assert (forall sh, server_ok cfg started calls L (mkServer (sv_cfg s) (sv_limiter s) g sh (sv_authn s))) as Hx by (intros sh; destruct Hs; by split).
  destruct (sv_shadow s) as [sh|]; [|exact (serveAuthn_ok _ _ _ L e _ _ (Hx _))].
  destruct (ServeHTTP (ge_call e) _ sh) as [[sh' []]| |]; [|apply server_ok_more, Hx..]. cbn [sv_gate].
  destruct (handed sh'); [exact (serveAuthn_ok _ _ _ L e _ _ (Hx _))|apply server_ok_more, Hx].
Qed.

(** One more request, which makes no call of the limiter, or one. *)
Lemma limiterAfter_none cfg calls call : limitedCall cfg call = None -> limiterAfter cfg (calls ++ [call]) = limiterAfter cfg calls.
Proof. intros Hn. unfold limiterAfter. rewrite omap_app. cbn. by rewrite Hn, app_nil_r. Qed.

Lemma limiterAfter_some cfg calls call c l : limitedCall cfg call = Some c -> limiterAfter cfg calls = Some l ->
  limiterAfter cfg (calls ++ [call]) = Some (Allow c.1 c.2 l).1.
Proof.
  unfold limiterAfter. destruct (cf_RateLimitEnabled cfg); [|done]. intros Hc [= <-]. rewrite omap_app. cbn. rewrite Hc.
  unfold runCalls. by rewrite foldl_app.
Qed.

Lemma limiterAfter_off cfg calls calls' : limiterAfter cfg calls = None -> limiterAfter cfg calls' = None.
Proof. unfold limiterAfter. by destruct (cf_RateLimitEnabled cfg). Qed.

(** The limiter's middleware makes the call of the request. *)
Lemma Middleware_limiter cfg calls e r0 u hs :
  r_URL r0 = Some u -> Safety.ValidateRequest (ge_headers e) r0 = Ok tt ->
  Safety.OriginPolicy (Safety.NewOriginPolicy (cf_AllowedOrigins cfg)) r0 = Safety.Passes hs ->
  (RateLimit.Middleware (ge_now e) (ge_until e) (Path u) (ge_remoteAddr e) (limiterAfter cfg calls)).1 = limiterAfter cfg (calls ++ [(e, r0)]).
Proof.
  intros Hu Hv Ho. assert (limitedCall cfg (e, r0) = if String.eqb (Path u) "/healthz" || String.eqb (Path u) "/readyz" then None
    else Some (ge_now e, RemoteIP (ge_remoteAddr e))) as Hc by (unfold limitedCall; by rewrite Hu, Hv, Ho).
  destruct (limiterAfter cfg calls) as [l|] eqn:El; cbn [RateLimit.Middleware fst].
  - destruct (_ || _); [by rewrite limiterAfter_none, El|]. rewrite (limiterAfter_some cfg calls _ _ l Hc El). cbn [fst snd].
    destruct (Allow _ _ l) as [l' [[allowed remaining] rst]]. by destruct (negb allowed).
  - symmetry. by eapply limiterAfter_off.
Qed.

Lemma OriginPolicy_id allowed fresh r : Safety.OriginPolicy allowed (RequestID fresh r) = Safety.OriginPolicy allowed r.
Proof. done. Qed.

Lemma RequestID_URL fresh r : r_URL (RequestID fresh r) = r_URL r.
Proof. done. Qed.

Lemma ValidateRequest_id order fresh r : Safety.ValidateRequest order (RequestID fresh r) = Safety.ValidateRequest order r.
Proof. done. Qed.

Lemma server_ok_none cfg started calls L call x s :
  server_ok cfg started calls L s -> limitedCall cfg call = None -> server_ok cfg started (calls ++ [call]) (L ++ [x]) s.
Proof. intros Hs Hn. apply (server_ok_more _ _ _ _ x) in Hs as [Hc Ha Hg Hl]. split; [done..|]. by rewrite limiterAfter_none. Qed.

(** The server with the limiter after the request. *)
Lemma server_ok_limited cfg started calls L e r0 u hs s :
  server_ok cfg started calls L s -> r_URL r0 = Some u -> Safety.ValidateRequest (ge_headers e) r0 = Ok tt ->
  Safety.OriginPolicy (Safety.NewOriginPolicy (cf_AllowedOrigins cfg)) r0 = Safety.Passes hs ->
  server_ok cfg started (calls ++ [(e, r0)]) L
    (mkServer (sv_cfg s) (RateLimit.Middleware (ge_now e) (ge_until e) (Path u) (ge_remoteAddr e) (sv_limiter s)).1
       (sv_gate s) (sv_shadow s) (sv_authn s)).
Proof. intros [Hc Ha Hg Hl] Hu Hv Ho. split; [done..|]. cbn [sv_limiter]. rewrite Hl. by eapply Middleware_limiter. Qed.

Lemma serve_ok cfg started calls L e r s : server_ok cfg started calls L s ->
  let s' := (serve Do e r s).1 in server_ok cfg started (calls ++ [(e, r)]) (L ++ [networkStep e s s']) s'.
Proof.
  intros Hs. unfold serve. cbv zeta. rewrite RequestID_URL. unfold Safety.RejectUnsafeRequests. rewrite ValidateRequest_id, OriginPolicy_id, (so_cfg _ _ _ _ _ Hs).
  destruct (r_URL r) as [u|] eqn:Hu; [|apply server_ok_none; [done|]; unfold limitedCall; by rewrite Hu].
  destruct (Safety.ValidateRequest (ge_headers e) r) as [[]|] eqn:Ev; [|apply server_ok_none; [done|]; unfold limitedCall; by rewrite Hu, Ev].
  destruct (Safety.OriginPolicy _ r) as [hs|] eqn:Eo; [|apply server_ok_none; [done|]; unfold limitedCall; by rewrite Hu, Ev, Eo].
  pose proof (server_ok_limited _ _ _ _ e r u hs s Hs Hu Ev Eo) as Hl. unfold serveRateLimit.
  destruct (RateLimit.Middleware _ _ _ _ _) as [l res]. cbn [fst] in Hl.
  destruct res; [exact (serveGate_ok _ _ _ L e _ _ Hl)..|by apply server_ok_more].
Qed.

Lemma serve_all_ok cfg started pre L calls s : server_ok cfg started pre L s ->
  server_ok cfg started (pre ++ calls) (L ++ networkSteps calls s) (serve_all Do calls s).
Proof.
  unfold serve_all, networkSteps. revert pre L s.
  induction calls as [|[e r] calls IH]; intros pre L s Hs; cbn [fold_left episodes]; [by rewrite !app_nil_r|].
  apply (serve_ok _ _ _ L e r), IH in Hs. by rewrite <- !app_assoc in Hs.
Qed.

(** The conditions under which a request reaches the backend as [r'], after the requests [calls] on
    a server started at [started], which the network saw as [L]; [ws] are the worlds before and
    after the request, and [cache] is the replay cache. *)
Record admitted (cfg : Config) (started : Z) (calls : list (gateway_env * http_Request)) (L : list (episode (W := W))) (ws : W * W) (cache : ReplayCache) (e : gateway_env)
    (r0 r' : http_Request) (u : URL) : Prop := {
  ad_safe : Safety.ValidateRequest (ge_headers e) r0 = Ok tt /\ dot_free (Path u) = true;
  ad_origin : cf_AllowedOrigins cfg = [] \/ Header_Get r0 "Origin" = "" \/ Header_Get r0 "Origin" ∈ cf_AllowedOrigins cfg;
  ad_rate : cf_RateLimitEnabled cfg = true -> Path u = "/healthz" \/ Path u = "/readyz" \/
    (Allow (ge_now e) (RemoteIP (ge_remoteAddr e))
       (runCalls (omap (limitedCall cfg) calls) (RateLimit.New (cf_RequestsPerWindow cfg) (cf_Window cfg)))).2.1.1 = true;
  ad_authn : cfg_PreflightEnabled (cf_Auth cfg) = true ->
    passed Do L ws (ge_authn e) (cf_Auth cfg) started cache u (RequestID (ge_fresh e) r0) r';
  ad_same : r' = RequestID (ge_fresh e) r0 \/ exists id, r' = with_identity (RequestID (ge_fresh e) r0) id
}.

Lemma serveAuthn_inv cfg started calls L e r s s' r' u :
  server_ok cfg started calls L s -> r_URL r = Some u -> serveAuthn Do e r s = (s', Forwarded r') ->
  (cfg_PreflightEnabled (cf_Auth cfg) = true ->
   passed Do L (sv_world s, sv_world s') (ge_authn e) (cf_Auth cfg) started (dv_cache (an_dpop (sv_authn s))) u r r') /\
  (r' = r \/ exists id, r' = with_identity r id).
Proof.
  intros Hs Hu Hf. unfold serveAuthn in Hf.
  destruct (Authn_ServeHTTP Do (ge_authn e) (cf_Auth (sv_cfg s)) r (sv_authn s)) as [a v] eqn:E. injection Hf as <- Hv.
  destruct v as [r1| |]; [|discriminate Hv..]. injection Hv as <-. rewrite (so_cfg _ _ _ _ _ Hs) in E.
  destruct (cfg_PreflightEnabled (cf_Auth cfg)) eqn:Hp.
  - pose proof (Authn_passed Do L _ _ started _ _ _ _ _ Hu Hp (so_authn _ _ _ _ _ Hs) E) as Hpass. split; [done|]. by eapply passed_same.
  - split; [done|]. unfold Authn_ServeHTTP in E. rewrite Hp in E. injection E as _ <-. by left.
Qed.

(** The shadow middleware hands the request on. *)
Lemma shadow_hands c r (sh sh' : Shadow S F) x : is_Some (r_URL r) -> ServeHTTP c r sh = Returns (sh', x) -> handed sh' = Some r.
Proof.
  intros Hu Hs. pose proof (ServeHTTP_run c r sh (or_intror Hu)) as Hr. destruct (callOutcome _ _ _ _ _) as [[e' f'] evs].
  destruct Hr as (acts & E & Hserved & _). rewrite Hs in E. injection E as -> _.
  unfold handed. cbn [sh_trace add with_evaluators]. by rewrite served_app, Hserved, last_snoc.
Qed.

Lemma serveGate_inv cfg started calls L e r s s' r' u :
  server_ok cfg started calls L s -> r_URL r = Some u -> serveGate Do e r s = (s', Forwarded r') ->
  (cfg_PreflightEnabled (cf_Auth cfg) = true ->
   passed Do L (sv_world s, sv_world s') (ge_authn e) (cf_Auth cfg) started (dv_cache (an_dpop (sv_authn s))) u r r') /\
  (r' = r \/ exists id, r' = with_identity r id).
Proof.
  intros Hs Hu Hf. unfold serveGate in Hf. pose proof (gate_stays_shadow (ge_now e) (sv_gate s) (so_gate _ _ _ _ _ Hs)) as Hm.
  destruct (Gate.EnforcementGateMiddleware (ge_now e) (sv_gate s)) as [g hs].
  assert (forall sh, server_ok cfg started calls L (mkServer (sv_cfg s) (sv_limiter s) g sh (sv_authn s))) as Hx by (intros sh; destruct Hs; by split).
  unfold serveAuthz in Hf. cbn [sv_shadow sv_cfg sv_limiter sv_gate sv_authn] in Hf.
  destruct (sv_shadow s) as [sh|].
  - destruct (ServeHTTP (ge_call e) r sh) as [[sh' []]| |] eqn:E; [|discriminate Hf..].
    rewrite (shadow_hands _ _ _ _ _ (mk_is_Some _ _ Hu) E) in Hf. by apply (serveAuthn_inv cfg started calls L _ _ _ _ _ u) in Hf.
  - by apply (serveAuthn_inv cfg started calls L _ _ _ _ _ u) in Hf.
Qed.

Lemma origin_admits cfg r hs : Safety.OriginPolicy (Safety.NewOriginPolicy (cf_AllowedOrigins cfg)) r = Safety.Passes hs ->
  cf_AllowedOrigins cfg = [] \/ Header_Get r "Origin" = "" \/ Header_Get r "Origin" ∈ cf_AllowedOrigins cfg.
Proof.
  unfold Safety.OriginPolicy, Safety.NewOriginPolicy. intros Eo.
  case_bool_decide as Hempty; [left; destruct (cf_AllowedOrigins cfg); [done|set_solver]|].
  destruct (String.eqb_spec (Header_Get r "Origin") "") as [|_]; [by right; left|].
  case_bool_decide as Hin; [|discriminate Eo]. right; right. by apply elem_of_list_to_set in Hin.
Qed.

Lemma serve_inv cfg started calls L e r0 s s' r' :
  server_ok cfg started calls L s -> serve Do e r0 s = (s', Forwarded r') ->
  exists u, r_URL r0 = Some u /\ admitted cfg started calls L (sv_world s, sv_world s') (dv_cache (an_dpop (sv_authn s))) e r0 r' u.
Proof.
  intros Hs Hf. unfold serve in Hf. cbv zeta in Hf. rewrite RequestID_URL in Hf.
  destruct (r_URL r0) as [u|] eqn:Hu; [|discriminate Hf]. exists u. split; [done|].
  unfold Safety.RejectUnsafeRequests in Hf. rewrite ValidateRequest_id, OriginPolicy_id, (so_cfg _ _ _ _ _ Hs) in Hf.
  destruct (Safety.ValidateRequest (ge_headers e) r0) as [[]|] eqn:Ev; [|discriminate Hf].
  destruct (Safety.OriginPolicy _ _) as [hs|] eqn:Eo; [|discriminate Hf].
  pose proof (server_ok_limited _ _ _ _ e r0 u hs s Hs Hu Ev Eo) as Hl.
  unfold serveRateLimit in Hf. destruct (RateLimit.Middleware _ _ _ _ _) as [l res] eqn:Er. cbn [fst] in Hl.
  assert (serveGate Do e (RequestID (ge_fresh e) r0) (mkServer (sv_cfg s) l (sv_gate s) (sv_shadow s) (sv_authn s)) = (s', Forwarded r')) as Hg
    by (by destruct res).
  apply (serveGate_inv cfg started (calls ++ [(e, r0)]) L) with (u := u) in Hg as [Ha Hsame]; [|done|done]. split.
  - split; [done|]. by destruct (Safety.ValidateRequest_path _ _ _ Hu Ev) as (_ & _ & ?).
  - by eapply origin_admits.
  - intros Hen. rewrite (so_limiter _ _ _ _ _ Hs) in Er. unfold limiterAfter in Er. rewrite Hen in Er. unfold RateLimit.Middleware in Er. destruct (_ || _) eqn:Eh.
    + apply orb_true_iff in Eh as [->%String.eqb_eq| ->%String.eqb_eq]; auto.
    + right; right. destruct (Allow _ _ _) as [l' [[allowed remaining] rst]]. cbn. destruct allowed; [done|].
      cbn [negb] in Er. injection Er as <- <-. discriminate Hf.
  - exact Ha.
  - exact Hsame.
Qed.
End admitted.

(** C1: end to end, a request that the gateway forwards to the backend has passed every guard.
    Its target has the safe form and no dot segments, and its origin is allowed.  With the rate
    limit enabled, it is a health check, or the limiter of the configuration allows its client one
    more call, after the calls of all earlier requests that came so far.  With the preflight
    enabled, it is a health check or anonymous; or it carries a DPoP proof that is accepted under
    the configuration, in time and not in the replay cache; or a DPoP authorization without a
    proof, where the configuration does not require one; or a bearer token whose identity the
    configured verifier has verified; or an unverified bearer token, where identity validation is
    not configured.  It arrives unchanged, but for the request identifier and the identity.  This
    holds after any requests, for every evaluator and whatever the network answers. *)
Theorem gateway_admits_only {W S F} `{Evaluator S} `{Evaluator F} (Do : W -> string -> W * option http_response)
    (cfg : Config) (evaluator : S) (fallback : option F) (started : Z) (w : W) (s0 : Server W S F)
    (calls : list (gateway_env * http_Request)) (e : gateway_env) (r0 r' : http_Request) s' :
  New cfg evaluator fallback started w = Ok s0 ->
  let s := serve_all Do calls s0 in
  serve Do e r0 s = (s', Forwarded r') ->
  exists u, r_URL r0 = Some u /\ admitted Do cfg started calls (networkSteps Do calls s0) (sv_world s, sv_world s') (dv_cache (an_dpop (sv_authn s))) e r0 r' u.
Proof. intros Hn s Hf. eapply serve_inv; [|exact Hf]. eapply (serve_all_ok Do cfg started [] []), New_server_ok; exact Hn. Qed.

Definition sampleConfig : Config :=
  mkConfig (mkAuthConfig true true true (60 * second) (300 * second) "" true ["https://idp.example"] "pod" false)
    true "https://pod.example" true 10 minute ["https://app.example"].

(** A request of Alice's application, with a bearer token. *)
Definition sampleBearer : http_Request :=
  RequestBuilder.mkHTTPRequest "GET" (match Parse "/notes/1" with Ok u => Some u | Err _ => None end) "pod.example" true
    {[ "Authorization" := [String.append "Bearer " sampleToken]; "Origin" := ["https://app.example"] ]} ""
    (mkIdentity "" "" "" [] 0) [].

Definition sampleGatewayEnv : gateway_env :=
  let t := time_Unix 1700000000 in
  mkGatewayEnv "00112233445566778899aabbccddeeff" (fun m => (map_to_list m).*1) t t "10.0.0.1:4711"
    (mkCallEnv 1700000000 (fun m => (map_to_list m).*1) sampleEnv sampleEnv) (mkAuthnEnv (fun m => (map_to_list m).*1) t t sampleClock).

Lemma gateway_admits_only_witness :
  exists s0 s' r', New sampleConfig NewShadowEvaluator (None : option ShadowEvaluator) (time_Unix 1700000000) tt = Ok s0 /\
    serve sampleNetwork sampleGatewayEnv sampleBearer s0 = (s', Forwarded r') /\
    id_WebID (ctx_Identity r') = "https://alice.example/card#me" /\
    (Header_Get sampleBearer "Origin" ∈ cf_AllowedOrigins sampleConfig).
Proof.
  destruct (New sampleConfig NewShadowEvaluator (None : option ShadowEvaluator) (time_Unix 1700000000) tt) as [s0|] eqn:E0; [|discriminate E0].
  assert (match (match New sampleConfig NewShadowEvaluator (None : option ShadowEvaluator) (time_Unix 1700000000) tt with
                 | Ok s => (serve sampleNetwork sampleGatewayEnv sampleBearer s).2 | Err _ => Crashed end)
          with Forwarded r => Some (id_WebID (ctx_Identity r)) | _ => None end = Some "https://alice.example/card#me") as Hr
    by (vm_compute; reflexivity).
  rewrite E0 in Hr. destruct (serve sampleNetwork sampleGatewayEnv sampleBearer s0) as [s' [st|r'|]] eqn:E; cbn [snd] in Hr; try discriminate Hr.
  exists s0, s', r'. split; [reflexivity|]. split; [exact E|]. split; [by injection Hr|].
  destruct (gateway_admits_only sampleNetwork sampleConfig NewShadowEvaluator (None : option ShadowEvaluator) (time_Unix 1700000000) tt s0 []
    sampleGatewayEnv sampleBearer r' s' E0 E) as (u & _ & Had).
  destruct (ad_origin _ _ _ _ _ _ _ _ _ _ _ Had) as [Hn|[Hn|Hn]]; [discriminate Hn|vm_compute in Hn; discriminate Hn|exact Hn].
Defined.

(** ** What the evaluator sees *)

(** Two evaluators that answer the same for requests without an agent. *)
Definition agree_anonymous {S} (E1 E2 : Evaluator S) : Prop :=
  forall env s rq, rq_AgentWebID rq = "" -> @Evaluate S E1 env s rq = @Evaluate S E2 env s rq.

Section anonymous.
Context {W S F : Type} (E1 E2 : Evaluator S) (F1 F2 : Evaluator F) (Do : W -> string -> W * option http_response).
Context (HE : agree_anonymous E1 E2) (HF : agree_anonymous F1 F2).

Lemma evaluateFallback_anonymous env r rq (f : option F) (sh : Shadow S F) :
  rq_AgentWebID rq = "" -> evaluateFallback (H0 := F1) env r rq f sh = evaluateFallback (H0 := F2) env r rq f sh.
Proof. intros Hrq. destruct f as [f|]; [|done]. unfold evaluateFallback, mbind, PM_bind, callFallback. by rewrite (HF env f rq Hrq). Qed.

Lemma ServeHTTP_anonymous c r (sh : Shadow S F) :
  id_WebID (ctx_Identity r) = "" -> ServeHTTP (H := E1) (H0 := F1) c r sh = ServeHTTP (H := E2) (H0 := F2) c r sh.
Proof.
  intros Hid. unfold ServeHTTP, mbind, PM_bind.
  destruct (BuildRequest _ _ _ _) as [rq|] eqn:Eb; [|done]. apply BuildRequest_inv in Eb.
  assert (rq_AgentWebID rq = "") as Hrq by (destruct (built_agent _ _ _ _ Eb) as [-> _]; done).
  assert (callEvaluator (H := E1) (F := F) (ce_env c) rq sh = callEvaluator (H := E2) (ce_env c) rq sh) as ->.
  { unfold callEvaluator, Evaluate, sum_Evaluator. destruct (sh_evaluator sh) as [s|]; [|done]. by rewrite (HE (ce_env c) s rq Hrq). }
  destruct (callEvaluator _ _ _) as [[sh1 res]| |]; [|done..].
  assert (forall m reason, warnAndServe (H0 := F1) (ce_fallback c) r rq m reason sh1 = warnAndServe (H0 := F2) (ce_fallback c) r rq m reason sh1) as Hw.
  { intros m reason. unfold warnAndServe, mbind, PM_bind. destruct (logShadowError _ _ _ _) as [[sh2 []]| |]; [|done..].
    destruct (recordShadowWarningMetric _ _) as [[sh3 []]| |]; [|done..]. by rewrite (evaluateFallback_anonymous _ r rq _ _ Hrq). }
  destruct res as [d|err]; [destruct (ValidateDecision d); [done|apply Hw]|]. destruct (evaluationWarning err). apply Hw.
Qed.

Lemma serve_anonymous e r0 (s : Server W S F) :
  id_WebID (ctx_Identity r0) = "" -> serve (H := E1) (H0 := F1) Do e r0 s = serve (H := E2) (H0 := F2) Do e r0 s.
Proof.
  intros Hid. unfold serve. destruct (r_URL _) as [u|]; [|done]. destruct (Safety.RejectUnsafeRequests _ _); [|done].
  destruct (Safety.OriginPolicy _ _); [|done]. unfold serveRateLimit. destruct (RateLimit.Middleware _ _ _ _ _) as [l []]; [| |done].
  all: unfold serveGate; destruct (Gate.EnforcementGateMiddleware _ _); unfold serveAuthz;
    cbn [sv_shadow]; destruct (sv_shadow s); [|done]; by rewrite ServeHTTP_anonymous.
Qed.
End anonymous.

(** the authorization of the gateway never sees who sends a request: its middleware stands
    before the authentication, so the evaluators are asked about requests without an agent only,
    and evaluators that agree on these make the same gateway, bearer tokens or not. *)
Theorem gateway_evaluates_anonymously {W S F} (E1 E2 : Evaluator S) (F1 F2 : Evaluator F)
    (Do : W -> string -> W * option http_response) (calls : list (gateway_env * http_Request)) (s : Server W S F) :
  agree_anonymous E1 E2 -> agree_anonymous F1 F2 ->
  Forall (fun call => id_WebID (ctx_Identity call.2) = "") calls ->
  serve_all (H := E1) (H0 := F1) Do calls s = serve_all (H := E2) (H0 := F2) Do calls s.
Proof.
  intros HE HF Hcalls. unfold serve_all. revert s. induction Hcalls as [|[e r] calls Hr _ IH]; intros s; cbn [fold_left]; [done|].
  cbn [fst snd] in *. by rewrite (serve_anonymous E1 E2 F1 F2 Do HE HF e r s Hr), IH.
Qed.

(** An evaluator that fails for every agent. *)
Definition anonymousOnly : Evaluator ShadowEvaluator := fun env s rq =>
  if String.eqb (rq_AgentWebID rq) "" then ShadowEvaluator_Evaluate env s rq else (s, Err (ErrExternal "agent")).

Lemma gateway_evaluates_anonymously_witness :
  exists s : Server unit ShadowEvaluator ShadowEvaluator,
    New sampleConfig NewShadowEvaluator (Some NewShadowEvaluator) (time_Unix 1700000000) tt = Ok s /\
    serve_all sampleNetwork [(sampleGatewayEnv, sampleBearer)] s =
    serve_all (H := anonymousOnly) (H0 := anonymousOnly) sampleNetwork [(sampleGatewayEnv, sampleBearer)] s.
Proof.
  destruct (New sampleConfig NewShadowEvaluator (Some NewShadowEvaluator) (time_Unix 1700000000) tt) as [s|] eqn:E; [|discriminate E].
  exists s. split; [reflexivity|].
  assert (agree_anonymous ShadowEvaluator_Evaluator anonymousOnly) as Ha.
  { intros env t rq Hrq. unfold Evaluate, anonymousOnly. by rewrite Hrq. }
  apply (gateway_evaluates_anonymously ShadowEvaluator_Evaluator anonymousOnly ShadowEvaluator_Evaluator anonymousOnly sampleNetwork
    [(sampleGatewayEnv, sampleBearer)] s Ha Ha).
  constructor; [reflexivity|constructor].
Defined.
