(* ===== verification/StorageTypes.v ===== *)
(** * Storage types and utilities

    [internal/storage/interface.go] and [internal/storage/utils.go]: the records that the
    storage engine and its backends exchange, the package's error values, and the checks
    and digests they share.

    A byte slice is [option string], [None] being [nil]; a [map[string]string] is
    [option (gmap string string)], [None] being [nil].  Times are instants. *)

From S2P Require Import Prelude GoStrings GoGlob GoHash GoJSON.

Local Open Scope Z_scope.

(** ** Errors

    An error is its message and the package-level errors its chain of wrapped errors
    holds, each by its own message. *)
Record error := mkError { err_Error : string; err_chain : list string }.

(** A package-level [errors.New]. *)
Definition sentinel (msg : string) : error := mkError msg [msg].
(** [fmt.Errorf] without and with [%w]. *)
Definition Errorf (msg : string) : error := mkError msg [].
Definition Errorf_w (prefix : string) (e : error) (suffix : string) : error :=
  mkError (String.append prefix (String.append (err_Error e) suffix)) (err_chain e).
(** [errors.Is] against a package-level error. *)
Definition errors_Is (e target : error) : bool :=
  existsb (String.eqb (err_Error target)) (err_chain e).

#[export] Instance error_eq_dec : EqDecision error.
Proof. solve_decision. Defined.

Definition ErrNotFound : error := sentinel "resource not found".
Definition ErrAlreadyExists : error := sentinel "resource already exists".
Definition ErrPreconditionFailed : error := sentinel "precondition failed".
Definition ErrConflict : error := sentinel "conflict".
Definition ErrQuotaExceeded : error := sentinel "quota exceeded".
Definition ErrStorageClosed : error := sentinel "storage is closed".
Definition ErrInvalidURI : error := sentinel "invalid URI".
Definition ErrInvalidContentType : error := sentinel "invalid content type".
Definition ErrBackendUnavailable : error := sentinel "backend unavailable".
Definition ErrIntegrityViolation : error := sentinel "integrity violation".
Definition ErrURITooLong : error := sentinel "URI exceeds maximum length".
Definition ErrBodyTooLarge : error := sentinel "body exceeds maximum size".
Definition ErrMetadataTooLarge : error := sentinel "metadata exceeds maximum size".
Definition ErrEmptyURI : error := sentinel "URI cannot be empty".
Definition ErrNilTombstone : error := sentinel "tombstone cannot be nil".
Definition ErrNilContext : error := sentinel "context cannot be nil".

(** ** Records *)

Definition ResourceTypeUnknown : string := "Unknown".
Definition ResourceTypeResource : string := "Resource".
Definition ResourceTypeContainer : string := "Container".
Definition ResourceTypeACL : string := "ACL".
Definition ResourceTypeACP : string := "ACP".

Definition CurrentStorageLayoutVersion : Z := 1.
Definition MinSupportedStorageLayoutVersion : Z := 1.

Definition Bytes : Type := option string.
Definition GoMap : Type := option (gmap string string).

(** [len] of a byte slice, and the bytes it holds. *)
Definition content (b : Bytes) : string := default EmptyString b.
Definition blen (b : Bytes) : Z := len (content b).
(** Reading a Go map: a [nil] map has no keys. *)
Definition gomap (m : GoMap) : gmap string string := default ∅ m.

Record Tombstone := mkTombstone {
  ts_URI : string;
  ts_DeletedAt : Z;
  ts_DeletedBy : string;
  ts_Reason : string;
  ts_RestoreToken : string
}.

Record QuotaInfo := mkQuotaInfo {
  qi_StorageRoot : string;
  qi_Tenant : string;
  qi_UsedBytes : Z;
  qi_MaxBytes : Z;
  qi_UsedResources : Z;
  qi_MaxResources : Z
}.

Record CompareAndSwapPrecondition := mkCAS {
  cas_Key : string;
  cas_ExpectedValue : string;
  cas_NewValue : string
}.

Record WritePrecondition := mkPrecondition {
  IfMatch : string;
  IfNoneMatch : string;
  CompareAndSwap : option CompareAndSwapPrecondition
}.

Record Metadata := mkMetadata {
  md_URI : string;
  md_ResourceType : string;
  md_ContentType : string;
  md_Size : Z;
  md_Digest : string;
  md_LastModified : Z;
  md_Created : Z;
  md_ETag : string;
  md_Owner : string;
  md_StorageRoot : string;
  md_Tenant : string;
  md_AuxiliaryLinks : GoMap;
  md_PolicyReferences : option (list string);
  md_ValidatorState : GoMap;
  md_ContentAddress : string;
  md_LayoutVersion : Z;
  md_Custom : GoMap
}.

Definition set_md_URI (v : string) (m : Metadata) : Metadata :=
  mkMetadata v (md_ResourceType m) (md_ContentType m) (md_Size m) (md_Digest m)
    (md_LastModified m) (md_Created m) (md_ETag m) (md_Owner m) (md_StorageRoot m) (md_Tenant m)
    (md_AuxiliaryLinks m) (md_PolicyReferences m) (md_ValidatorState m) (md_ContentAddress m)
    (md_LayoutVersion m) (md_Custom m).
Definition set_md_ResourceType (v : string) (m : Metadata) : Metadata :=
  mkMetadata (md_URI m) v (md_ContentType m) (md_Size m) (md_Digest m) (md_LastModified m)
    (md_Created m) (md_ETag m) (md_Owner m) (md_StorageRoot m) (md_Tenant m)
    (md_AuxiliaryLinks m) (md_PolicyReferences m) (md_ValidatorState m) (md_ContentAddress m)
    (md_LayoutVersion m) (md_Custom m).
Definition set_md_ContentType (v : string) (m : Metadata) : Metadata :=
  mkMetadata (md_URI m) (md_ResourceType m) v (md_Size m) (md_Digest m) (md_LastModified m)
    (md_Created m) (md_ETag m) (md_Owner m) (md_StorageRoot m) (md_Tenant m)
    (md_AuxiliaryLinks m) (md_PolicyReferences m) (md_ValidatorState m) (md_ContentAddress m)
    (md_LayoutVersion m) (md_Custom m).
Definition set_md_Size (v : Z) (m : Metadata) : Metadata :=
  mkMetadata (md_URI m) (md_ResourceType m) (md_ContentType m) v (md_Digest m)
    (md_LastModified m) (md_Created m) (md_ETag m) (md_Owner m) (md_StorageRoot m) (md_Tenant m)
    (md_AuxiliaryLinks m) (md_PolicyReferences m) (md_ValidatorState m) (md_ContentAddress m)
    (md_LayoutVersion m) (md_Custom m).
Definition set_md_Digest (v : string) (m : Metadata) : Metadata :=
  mkMetadata (md_URI m) (md_ResourceType m) (md_ContentType m) (md_Size m) v (md_LastModified m)
    (md_Created m) (md_ETag m) (md_Owner m) (md_StorageRoot m) (md_Tenant m)
    (md_AuxiliaryLinks m) (md_PolicyReferences m) (md_ValidatorState m) (md_ContentAddress m)
    (md_LayoutVersion m) (md_Custom m).
Definition set_md_LastModified (v : Z) (m : Metadata) : Metadata :=
  mkMetadata (md_URI m) (md_ResourceType m) (md_ContentType m) (md_Size m) (md_Digest m) v
    (md_Created m) (md_ETag m) (md_Owner m) (md_StorageRoot m) (md_Tenant m)
    (md_AuxiliaryLinks m) (md_PolicyReferences m) (md_ValidatorState m) (md_ContentAddress m)
    (md_LayoutVersion m) (md_Custom m).
Definition set_md_ETag (v : string) (m : Metadata) : Metadata :=
  mkMetadata (md_URI m) (md_ResourceType m) (md_ContentType m) (md_Size m) (md_Digest m)
    (md_LastModified m) (md_Created m) v (md_Owner m) (md_StorageRoot m) (md_Tenant m)
    (md_AuxiliaryLinks m) (md_PolicyReferences m) (md_ValidatorState m) (md_ContentAddress m)
    (md_LayoutVersion m) (md_Custom m).
Definition set_md_StorageRoot (v : string) (m : Metadata) : Metadata :=
  mkMetadata (md_URI m) (md_ResourceType m) (md_ContentType m) (md_Size m) (md_Digest m)
    (md_LastModified m) (md_Created m) (md_ETag m) (md_Owner m) v (md_Tenant m)
    (md_AuxiliaryLinks m) (md_PolicyReferences m) (md_ValidatorState m) (md_ContentAddress m)
    (md_LayoutVersion m) (md_Custom m).
Definition set_md_ContentAddress (v : string) (m : Metadata) : Metadata :=
  mkMetadata (md_URI m) (md_ResourceType m) (md_ContentType m) (md_Size m) (md_Digest m)
    (md_LastModified m) (md_Created m) (md_ETag m) (md_Owner m) (md_StorageRoot m) (md_Tenant m)
    (md_AuxiliaryLinks m) (md_PolicyReferences m) (md_ValidatorState m) v (md_LayoutVersion m)
    (md_Custom m).
Definition set_md_LayoutVersion (v : Z) (m : Metadata) : Metadata :=
  mkMetadata (md_URI m) (md_ResourceType m) (md_ContentType m) (md_Size m) (md_Digest m)
    (md_LastModified m) (md_Created m) (md_ETag m) (md_Owner m) (md_StorageRoot m) (md_Tenant m)
    (md_AuxiliaryLinks m) (md_PolicyReferences m) (md_ValidatorState m) (md_ContentAddress m) v
    (md_Custom m).

Record quotaUsageInfo := mkQuotaUsage {
  qu_UsedBytes : Z;
  qu_UsedResources : Z;
  qu_MaxBytes : Z;
  qu_MaxResources : Z
}.

(** An [io.Reader]: what it will still deliver, and the error that ends it, if it does not
    end with [io.EOF]. *)
Record Reader := mkReader { rd_rest : string; rd_error : option error }.

(** [io.ReadAll], with the reader as it leaves it. *)
Definition ReadAll (r : Reader) : Reader * result error string :=
  (mkReader EmptyString (rd_error r),
   match rd_error r with None => Ok (rd_rest r) | Some e => Err e end).

Record Resource := mkResource {
  rs_URI : string;
  rs_Body : Bytes;
  rs_BodyReader : option Reader;
  rs_Metadata : Metadata
}.
(** [ReadResource] has the same fields. *)
Definition ReadResource : Type := Resource.

Record WriteResource := mkWriteResource {
  wr_URI : string;
  wr_Body : Bytes;
  wr_BodyReader : option Reader;
  wr_BodySize : Z;
  wr_Metadata : Metadata;
  wr_Preconditions : WritePrecondition
}.

Record CacheInvalidationEvent := mkEvent {
  ev_ResourceURI : string;
  ev_IsPolicy : bool;
  ev_PolicyURI : string;
  ev_AgentURI : string;
  ev_Action : string;
  ev_Timestamp : Z
}.

(** A [context.Context] argument: the backends only ask whether it is [nil]. *)
Inductive Context := NilContext | Background.
Definition check_ctx (ctx : Context) : result error unit :=
  match ctx with NilContext => Err ErrNilContext | Background => Ok tt end.

(** Results of an integrity scan. *)
Record IntegrityIssue := mkIssue {
  is_Type : string;
  is_Severity : string;
  is_Description : string;
  is_Details : list (string * string)
}.

Record ResourceIntegrityReport := mkResourceReport {
  rr_URI : string;
  rr_Issues : list IntegrityIssue
}.

Record IntegrityReport := mkReport {
  ir_ScannedAt : Z;
  ir_TotalResources : Z;
  ir_ResourcesWithIssues : Z;
  ir_MetadataBodyMismatches : Z;
  ir_MissingDigests : Z;
  ir_OrphanedBlobs : Z;
  ir_ResourceReports : list ResourceIntegrityReport
}.

Definition IssueTypeMetadataBodyMismatch : string := "metadata_body_mismatch".
Definition IssueTypeMissingDigest : string := "missing_digest".
Definition IssueTypeInvalidDigest : string := "invalid_digest".
Definition IssueTypeCorruptedMetadata : string := "corrupted_metadata".
Definition IssueTypeLayoutVersionMismatch : string := "layout_version_mismatch".
Definition SeverityLow : string := "low".
Definition SeverityMedium : string := "medium".
Definition SeverityHigh : string := "high".
Definition SeverityCritical : string := "critical".

(** ** Digests and ETags *)

(** [sha256Sum]: the digest of no data is all zero. *)
Definition sha256Sum (data : Bytes) : list Z :=
  if blen data =? 0 then repeat 0 32 else Sum256 (content data).

Definition computeDigest (data : Bytes) : string := hex_EncodeToString (sha256Sum data).
Definition computeContentAddress (data : Bytes) : string := computeDigest data.

Definition quoted (s : string) : string := String.append dquote (String.append s dquote).

Definition generateETag (data : Bytes) : string :=
  if blen data =? 0 then quoted "0-0"
  else quoted (hex_EncodeToString (firstn 8 (sha256Sum data))).

(** ** Limits *)

Definition MaxURILength : Z := 8192.
Definition MaxBodySize : Z := 100 * 1024 * 1024.
Definition MaxMetadataSize : Z := 1024 * 1024.
Definition MaxContentAddressLength : Z := 128.
Definition MaxStorageRootLength : Z := 1024.
Definition MaxTenantLength : Z := 256.
Definition MaxResourceCountPerList : nat := N.to_nat 10000.

(** ** Validation *)

Definition rune_between (lo hi r : Z) : bool := (lo <=? r) && (r <=? hi).
Definition rune_alnum (r : Z) : bool :=
  rune_between 97 122 r || rune_between 65 90 r || rune_between 48 57 r.
(** A comparison of a rune with each of a set of ASCII characters. *)
Definition rune_in (cs : string) (r : Z) : bool :=
  existsb (Z.eqb r) (string_bytes cs).

Definition validURIRune (r : Z) : bool :=
  rune_alnum r || rune_in "/.-_~:?#[]!$&'()*+,;=@%" r.

Definition ValidateURI (uri : string) : result error string :=
  fail! ErrEmptyURI when String.eqb uri "" in
  fail! ErrURITooLong when MaxURILength <? len uri in
  fail! Errorf_w "" ErrInvalidURI ": invalid character in URI"
    when negb (forallb validURIRune (runes uri)) in
  let uri := if negb (HasPrefix uri "/") && negb (Contains uri ":")
             then String.append "/" uri else uri in
  let uri := ReplaceAll uri "//" "/" in
  Ok (if (1 <? len uri) && HasSuffix uri "/" then TrimSuffix uri "/" else uri).

Definition ValidateStorageRoot (storageRoot : string) : result error unit :=
  if String.eqb storageRoot "" then Ok tt
  else
    fail! ErrURITooLong when MaxStorageRootLength <? len storageRoot in
    let! _ := ValidateURI storageRoot in Ok tt.

(** The first rune of the text that is not allowed, named by the error. *)
Definition check_runes (allowed : Z -> bool) (what s : string) : result error unit :=
  match List.find (fun r => negb (allowed r)) (runes s) with
  | Some r => Err (Errorf (String.append what (encode_rune r)))
  | None => Ok tt
  end.

Definition ValidateTenant (tenant : string) : result error unit :=
  if String.eqb tenant "" then Ok tt
  else
    fail! Errorf (String.append "tenant exceeds maximum length of "
                    (String.append (FormatInt MaxTenantLength) " characters"))
      when MaxTenantLength <? len tenant in
    check_runes (fun r => rune_alnum r || rune_in "-_." r)
      "invalid character in tenant identifier: " tenant.

Definition ValidateContentType (contentType : string) : result error unit :=
  if String.eqb contentType "" then Ok tt
  else
    fail! ErrInvalidContentType
      when existsb (fun r => (r <? 32) || (r =? 127)) (runes contentType) in
    Ok tt.

Definition ValidateBodySize (body : Bytes) : result error unit :=
  match body with
  | None => Ok tt
  | Some _ => fail! ErrBodyTooLarge when MaxBodySize <? blen body in Ok tt
  end.

Definition ValidateBodyReaderSize (size : Z) : result error unit :=
  fail! Errorf "body size cannot be negative" when size <? 0 in
  fail! ErrBodyTooLarge when MaxBodySize <? size in
  Ok tt.

Definition ValidateContentAddress (address : string) : result error unit :=
  if String.eqb address "" then Ok tt
  else
    fail! Errorf "content address exceeds maximum length"
      when MaxContentAddressLength <? len address in
    check_runes (fun r => rune_alnum r || rune_in "-_./:" r)
      "invalid character in content address: " address.

Definition validateTombstone (tombstone : option Tombstone) : result error unit :=
  match tombstone with
  | None => Err ErrNilTombstone
  | Some t =>
      fail! ErrEmptyURI when String.eqb (ts_URI t) "" in
      fail! ErrURITooLong when MaxURILength <? len (ts_URI t) in
      fail! Errorf "deletedBy exceeds maximum length" when MaxTenantLength <? len (ts_DeletedBy t) in
      fail! Errorf "reason exceeds maximum length" when 1024 <? len (ts_Reason t) in
      fail! Errorf "restoreToken exceeds maximum length" when 256 <? len (ts_RestoreToken t) in
      Ok tt
  end.

(** ** Metadata sizes *)

Definition sum (l : list Z) : Z := foldr Z.add 0 l.
(** The lengths of the keys and values of a map, with [extra] for each pair. *)
Definition map_len (extra : Z) (m : GoMap) : Z :=
  map_fold (fun k v acc => len k + len v + extra + acc) 0 (gomap m).
Definition list_len (extra : Z) (l : option (list string)) : Z :=
  sum (map (fun v => len v + extra) (default [] l)).

Definition estimateMetadataSize (m : Metadata) : Z :=
  len (md_URI m) + len (md_ResourceType m) + len (md_ContentType m) + len (md_Digest m)
  + len (md_Owner m) + len (md_StorageRoot m) + len (md_Tenant m) + len (md_ContentAddress m)
  + len (md_ETag m)
  + map_len 0 (md_AuxiliaryLinks m) + list_len 0 (md_PolicyReferences m)
  + map_len 0 (md_ValidatorState m) + map_len 0 (md_Custom m) + 200.

Definition validateMetadataSize (m : Metadata) : result error unit :=
  let size :=
    len (md_URI m) + len (md_ResourceType m) + len (md_ContentType m) + len (md_Digest m)
    + len (md_Owner m) + len (md_StorageRoot m) + len (md_Tenant m) + len (md_ContentAddress m)
    + map_len 10 (md_AuxiliaryLinks m) + list_len 10 (md_PolicyReferences m)
    + map_len 10 (md_ValidatorState m) + map_len 10 (md_Custom m) + 200 in
  fail! ErrMetadataTooLarge when MaxMetadataSize <? size in
  Ok tt.

(** ** [SanitizeError] *)

Definition redactions : list (string * string) :=
  [("/Users/", ""); ("/home/", ""); ("/tmp/", ""); ("/var/", ""); ("/etc/", "");
   ("127.0.0.1", "localhost"); ("192.168.", ""); ("10.", "")].

Definition secretPatterns : list string :=
  ["password="; "token="; "secret="; "key="; "auth="; "Authorization: "; "Bearer "; "Basic "].

(** What follows the first occurrence of the pattern goes. *)
Definition redact (s pattern : string) : string :=
  match Index s pattern with
  | Some i => String.append (stake i s) (String.append pattern "REDACTED")
  | None => s
  end.

Definition sanitize (s : string) : string :=
  foldl redact (foldl (fun s r => ReplaceAll s r.1 r.2) s redactions) secretPatterns.

Definition SanitizeError (e : error) : error :=
  let sanitized := sanitize (err_Error e) in
  if String.eqb (TrimSpace sanitized) "" then Errorf "storage operation failed"
  else if negb (String.eqb sanitized (err_Error e))
  then Errorf (String.append sanitized " (sanitized)")
  else e.

(** ** Canonical URIs

    [ValidateURI] also rewrites what it accepts; a URI it leaves alone is canonical. *)
Definition canonical (uri : string) : Prop := ValidateURI uri = Ok uri.

Lemma Contains_prefix (s sub : string) : String.prefix sub s = true -> Contains s sub = true.
Proof. intros H. unfold Contains. destruct s; cbn [Index]; by rewrite H. Qed.

Lemma HasPrefix_slash (s : string) : HasPrefix s "/" = true -> exists t, s = String "/" t.
Proof. intros [t ->]%prefix_spec. by exists t. Qed.

Lemma collapse_head (s : string) : HasPrefix (ReplaceAll (String "/" s) "//" "/") "/" = true.
Proof.
  unfold ReplaceAll. cbn [replace_scan]. destruct (String.prefix "//" (String "/" s));
    by destruct (replace_scan _ _ _ s).
Qed.

Lemma trim_head (s : string) : HasPrefix s "/" = true -> 1 < len s -> HasPrefix (TrimSuffix s "/") "/" = true.
Proof.
  intros [t ->]%HasPrefix_slash Hl. unfold TrimSuffix. break_if; [|by destruct t].
  destruct t as [|c t]; [vm_compute in Hl; discriminate Hl|]. cbn [String.length].
  replace (S (S (String.length t)) - 1)%nat with (S (String.length t)) by lia.
  cbn [stake]. by destruct (stake _ _).
Qed.

Lemma TrimSuffix_length (s p : string) : HasSuffix s p = true ->
  (String.length (TrimSuffix s p) + String.length p = String.length s)%nat.
Proof.
  intros H. unfold TrimSuffix. rewrite H. apply HasSuffix_spec in H as [t ->].
  rewrite str_length_app, stake_length, str_length_app. lia.
Qed.

(** The part of [ValidateURI] that rewrites. *)
Definition normalize (uri : string) : string :=
  let uri := if negb (HasPrefix uri "/") && negb (Contains uri ":")
             then String.append "/" uri else uri in
  let uri := ReplaceAll uri "//" "/" in
  if (1 <? len uri) && HasSuffix uri "/" then TrimSuffix uri "/" else uri.

Lemma ValidateURI_Ok (uri v : string) :
  ValidateURI uri = Ok v <->
  uri <> "" /\ len uri <= MaxURILength /\ forallb validURIRune (runes uri) = true /\ v = normalize uri.
Proof.
  unfold ValidateURI, normalize. split.
  - repeat break_if; intros H; try discriminate H; injection H as <-; bool_prop; done.
  - intros (H1 & H2 & H3 & ->). apply String.eqb_neq in H1. apply Z.ltb_ge in H2. by rewrite H1, H2, H3.
Qed.

Lemma normalize_id (uri : string) :
  uri <> "" ->
  (normalize uri = uri <->
   (HasPrefix uri "/" = true \/ Contains uri ":" = true) /\ Contains uri "//" = false /\
   (uri = "/" \/ HasSuffix uri "/" = false)).
Proof.
  intros Hne. unfold normalize. destruct (negb _ && negb _) eqn:Hrel; bool_prop.
  - split; [|intros ([?|?] & _); congruence]. intros Hn. exfalso.
    pose proof (collapse_head uri) as Hh. change (String.append "/" uri) with (String "/" uri) in Hn.
    assert (HasPrefix uri "/" = true); [|congruence]. rewrite <- Hn.
    break_if; bool_prop; [|done]. by apply trim_head.
  - assert (HasPrefix uri "/" = true \/ Contains uri ":" = true) as Habs.
    { destruct (HasPrefix uri "/"); [by left|]. destruct (Contains uri ":"); [by right|done]. }
    destruct (Contains uri "//") eqn:Hc.
    + split; [|intros (_ & ? & _); congruence]. intros Hn. exfalso.
      assert (String.length (ReplaceAll uri "//" "/") < String.length uri)%nat as Hl
        by (apply ReplaceAll_shrinks; [cbn; lia|done]).
      apply (f_equal String.length) in Hn. break_if; bool_prop; [|lia].
      match goal with H : HasSuffix _ _ = true |- _ => apply TrimSuffix_length in H end. lia.
    + unfold ReplaceAll. rewrite replace_scan_absent by done. split.
      * intros Hn. split_and!; [done|done|]. destruct (HasSuffix uri "/") eqn:Hs; [left|by right].
        destruct (1 <? len uri) eqn:Hl; cbn [andb] in Hn.
        -- apply TrimSuffix_length in Hs. rewrite Hn in Hs. cbn [String.length] in Hs. lia.
        -- bool_prop. apply HasSuffix_spec in Hs as [t ->]. destruct t; [done|].
           unfold len in Hl. rewrite str_length_app in Hl. cbn [String.length] in Hl. lia.
      * intros (_ & _ & [->|Hs]); [done|]. by rewrite Hs, andb_false_r.
Qed.

Lemma canonical_spec (uri : string) :
  canonical uri <->
  uri <> "" /\ len uri <= MaxURILength /\ forallb validURIRune (runes uri) = true /\
  (HasPrefix uri "/" = true \/ Contains uri ":" = true) /\ Contains uri "//" = false /\
  (uri = "/" \/ HasSuffix uri "/" = false).
Proof.
  unfold canonical. rewrite ValidateURI_Ok. split.
  - intros (H1 & H2 & H3 & H4). by apply eq_sym, normalize_id in H4 as (? & ? & ?).
  - intros (H1 & H2 & H3 & H4). split_and!; [done..|]. symmetry. by apply normalize_id.
Qed.

(** An absolute URI with an authority is not canonical. *)
Lemma scheme_not_canonical (scheme rest : string) :
  ~ canonical (String.append scheme (String.append "//" rest)).
Proof.
  intros (_ & _ & _ & _ & Hc & _)%canonical_spec. induction scheme as [|c s IH].
  - rewrite str_app_nil_l, Contains_prefix in Hc; [done|]. apply prefix_app.
  - apply IH. rewrite str_app_cons, Contains_cons in Hc. by apply orb_false_iff in Hc as [_ Hc].
Qed.

(** ** What [SanitizeError] hides *)

Definition snoc (s : string) (c : ascii) : string := String.append s (String c EmptyString).

Lemma app_snoc (s t : string) (c : ascii) : String.append (snoc s c) t = String.append s (String c t).
Proof. unfold snoc. by rewrite str_app_assoc. Qed.

Lemma prefix_nil (s : string) : String.prefix "" s = true.
Proof. by destruct s. Qed.

Ltac app_cbn := unfold snoc; rewrite ?str_app_cons, ?str_app_nil_l; cbn [String.prefix].
Ltac dec_chars := match goal with |- context [ascii_dec ?a ?b] => destruct (ascii_dec a b) end.

(** A pattern that holds [c] at most at its end does not reach across a [c]. *)
Lemma prefix_across (q x b : string) (c e : ascii) : char_in q c = false ->
  String.prefix (snoc q e) (String.append x (String c b)) = String.prefix (snoc q e) (snoc x c).
Proof.
  revert x. induction q as [|a q IH]; intros x Hq.
  - destruct x as [|d x]; app_cbn; dec_chars; try done;
      [by destruct b|by destruct x].
  - unfold char_in in Hq. rewrite string_existsb_cons in Hq. apply orb_false_iff in Hq as [Ha Hq].
    destruct x as [|d x].
    + app_cbn. destruct (ascii_dec a c) as [->|]; [|done].
      by rewrite Ascii.eqb_refl in Ha.
    + unfold snoc in *. rewrite !str_app_cons. cbn [String.prefix].
      destruct (ascii_dec a d); [|done]. by apply IH.
Qed.

Lemma Index_across (q x b : string) (c e : ascii) : char_in q c = false ->
  Index (String.append x (String c b)) (snoc q e) =
  match Index (snoc x c) (snoc q e) with
  | Some i => Some i
  | None => (fun i => S (String.length x) + i)%nat <$> Index b (snoc q e)
  end.
Proof.
  intros Hq. induction x as [|d x IH].
  - pose proof (prefix_across q "" b c e Hq) as Hp. rewrite str_app_nil_l in Hp |- *.
    change (snoc "" c) with (String c "") in *. cbn [Index]. rewrite Hp.
    destruct (String.prefix (snoc q e) (String c "")); [done|].
    assert (String.prefix (snoc q e) "" = false) as -> by (by destruct q). cbn. done.
  - pose proof (prefix_across q (String d x) b c e Hq) as Hp. unfold snoc in *.
    rewrite !str_app_cons in *. cbn [Index]. rewrite Hp, IH.
    destruct (String.prefix (q +:+ String e "") (String d (x +:+ String c ""))); [done|].
    destruct (Index (x +:+ String c "") (q +:+ String e "")); [done|].
    cbn [String.length]. by destruct (Index b _).
Qed.

(** A pattern without [c] does not reach across a [c] either, and is replaced on both sides. *)
Lemma prefix_before (old x b : string) (c : ascii) : char_in old c = false ->
  String.prefix old (String.append x (String c b)) = String.prefix old x.
Proof.
  revert x. induction old as [|a old IH]; intros x Hq; [by destruct x|].
  unfold char_in in Hq. rewrite string_existsb_cons in Hq. apply orb_false_iff in Hq as [Ha Hq].
  destruct x as [|d x].
  - app_cbn. destruct (ascii_dec a c) as [->|]; [|done].
    by rewrite Ascii.eqb_refl in Ha.
  - rewrite str_app_cons. cbn [String.prefix]. destruct (ascii_dec a d); [|done]. by apply IH.
Qed.

Lemma replace_scan_across (old new x b : string) (c : ascii) (k : nat) :
  old <> "" -> char_in old c = false -> (k <= String.length x)%nat ->
  replace_scan old new k (String.append x (String c b)) =
  String.append (replace_scan old new k x) (String c (replace_scan old new 0 b)).
Proof.
  intros Hne Hold. revert k. induction x as [|d x IH]; intros k Hk; cbn [String.length] in Hk.
  - assert (k = 0)%nat as -> by lia. pose proof (prefix_before old "" b c Hold) as Hp.
    rewrite str_app_nil_l in Hp |- *. cbn [replace_scan]. rewrite Hp. by destruct old.
  - pose proof (prefix_before old (String d x) b c Hold) as Hp. rewrite str_app_cons in *.
    destruct k as [|k]; cbn [replace_scan]; [|rewrite IH by lia; done]. rewrite Hp.
    destruct (String.prefix old (String d x)) eqn:E.
    + apply prefix_length in E. cbn [String.length] in E. rewrite IH by lia. by rewrite str_app_assoc.
    + rewrite IH by lia. by rewrite str_app_cons.
Qed.

(** A pattern that ends in [d] does not reach into a text without [d]. *)
Lemma prefix_within (old x p : string) (d : ascii) : char_in p d = false ->
  String.prefix (snoc old d) (String.append x p) = String.prefix (snoc old d) x.
Proof.
  intros Hp. revert x. induction old as [|a old IH]; intros x.
  - destruct x as [|e x];
      [|app_cbn; dec_chars; [by rewrite !prefix_nil|done]].
    rewrite str_app_nil_l. destruct p as [|e p]; [done|].
    app_cbn. dec_chars; [|done]. subst.
    unfold char_in in Hp. rewrite string_existsb_cons, Ascii.eqb_refl in Hp. done.
  - destruct x as [|e x].
    + rewrite str_app_nil_l. destruct (String.prefix _ p) eqn:E; [|done].
      apply prefix_spec in E as [t Ht]. exfalso. revert Hp. rewrite Ht. unfold char_in, snoc.
      rewrite !string_existsb_app, (string_existsb_cons _ d), Ascii.eqb_refl. by rewrite orb_true_r.
    + unfold snoc in *. rewrite !str_app_cons. cbn [String.prefix]. destruct (ascii_dec a e); [|done].
      apply IH.
Qed.

Lemma replace_scan_within (old new x p : string) (d : ascii) (k : nat) :
  char_in p d = false -> (k <= String.length x)%nat ->
  replace_scan (snoc old d) new k (String.append x p) =
  String.append (replace_scan (snoc old d) new k x) p.
Proof.
  intros Hd. revert k. induction x as [|e x IH]; intros k Hk; cbn [String.length] in Hk.
  - assert (k = 0)%nat as -> by lia. rewrite !str_app_nil_l. apply replace_scan_absent.
    unfold Contains. induction p as [|c p IH]; [by destruct old|].
    pose proof (prefix_within old "" (String c p) d Hd) as Hp. rewrite str_app_nil_l in Hp.
    cbn [Index]. rewrite Hp. replace (String.prefix (snoc old d) "") with false by (by destruct old).
    unfold char_in in Hd. rewrite string_existsb_cons in Hd. apply orb_false_iff in Hd as [_ Hd].
    specialize (IH Hd). by destruct (Index p _).
  - pose proof (prefix_within old (String e x) p d Hd) as Hp. rewrite str_app_cons in *.
    destruct k as [|k]; cbn [replace_scan]; [|by rewrite IH by lia]. rewrite Hp.
    destruct (String.prefix (snoc old d) (String e x)) eqn:E.
    + apply prefix_length in E. cbn [String.length] in E. rewrite IH by lia. by rewrite str_app_assoc.
    + rewrite IH by lia. by rewrite str_app_cons.
Qed.

(** The shape of two error texts that differ only after a credential marker. *)
Definition same_up_to (p s1 s2 : string) : Prop :=
  s1 = s2 \/ exists a b1 b2, s1 = String.append a (String.append p b1) /\
                             s2 = String.append a (String.append p b2).

Lemma ReplaceAll_same (p s1 s2 old new : string) (c d : ascii) :
  char_in (snoc old d) c = false -> char_in (snoc p c) d = false ->
  same_up_to (snoc p c) s1 s2 ->
  same_up_to (snoc p c) (ReplaceAll s1 (snoc old d) new) (ReplaceAll s2 (snoc old d) new).
Proof.
  intros Hc Hd [->|(a & b1 & b2 & -> & ->)]; [by left|]. right.
  assert (char_in p d = false) as Hp.
  { revert Hd. unfold char_in, snoc. rewrite string_existsb_app. by intros [? _]%orb_false_iff. }
  assert (forall b, ReplaceAll (String.append a (String.append (snoc p c) b)) (snoc old d) new =
    String.append (ReplaceAll a (snoc old d) new)
      (String.append (snoc p c) (ReplaceAll b (snoc old d) new))) as Hr.
  { intros b. rewrite !app_snoc, <- !str_app_assoc. unfold ReplaceAll.
    rewrite replace_scan_across; [|by destruct old|done|lia]. by rewrite replace_scan_within by (done || lia). }
  by eexists _, _, _; split; apply Hr.
Qed.

Lemma stake_app_ge (s t : string) (i : nat) :
  stake (String.length s + i) (String.append s t) = String.append s (stake i t).
Proof. induction s as [|c s IH]; [done|]. rewrite !str_app_cons. cbn [String.length Nat.add stake]. by rewrite IH. Qed.

Lemma stake_app_le (s t : string) (i : nat) : (i <= String.length s)%nat ->
  stake i (String.append s t) = stake i s.
Proof.
  revert i. induction s as [|c s IH]; intros i Hi; cbn [String.length] in Hi.
  - assert (i = 0)%nat as -> by lia. by destruct (String.append "" t).
  - rewrite str_app_cons. destruct i as [|i]; [done|]. cbn [stake]. by rewrite IH by lia.
Qed.

Lemma Index_bound (s sub : string) (i : nat) :
  Index s sub = Some i -> (i + String.length sub <= String.length s)%nat.
Proof.
  revert i. induction s as [|c s IH]; intros i; cbn [Index].
  - destruct (String.prefix sub "") eqn:E; [|done]. apply prefix_length in E. intros [= <-]. done.
  - destruct (String.prefix sub (String c s)) eqn:E; [apply prefix_length in E; by intros [= <-]|].
    destruct (Index s sub) as [j|]; [|done]. intros [= <-]. specialize (IH j eq_refl). cbn [String.length]. lia.
Qed.

Lemma stake_before (a p q b1 b2 : string) (c e : ascii) (i : nat) :
  Index (snoc (String.append a p) c) (snoc q e) = Some i ->
  stake i (String.append (String.append a p) (String c b1)) =
  stake i (String.append (String.append a p) (String c b2)).
Proof.
  intros Hi. apply Index_bound in Hi. unfold snoc in Hi. rewrite !str_length_app in Hi.
  cbn [String.length] in Hi. pose proof (str_length_app a p).
  by rewrite (stake_app_le (String.append a p) (String c b1)),
    (stake_app_le (String.append a p) (String c b2)) by lia.
Qed.

Lemma Index_found (a sub : string) : is_Some (Index (String.append a sub) sub).
Proof.
  induction a as [|c a IH].
  - rewrite str_app_nil_l. assert (String.prefix sub sub = true) as Hp
      by (apply prefix_spec; exists EmptyString; by rewrite str_app_nil_r).
    destruct sub; cbn [Index]; rewrite Hp; eauto.
  - rewrite str_app_cons. cbn [Index]. break_if; [eauto|]. destruct IH as [i ->]. eauto.
Qed.

(** Redacting the marker itself leaves nothing of what followed it. *)
Lemma redact_marker (p s1 s2 : string) (c : ascii) :
  char_in p c = false -> same_up_to (snoc p c) s1 s2 ->
  redact s1 (snoc p c) = redact s2 (snoc p c).
Proof.
  intros Hp [->|(a & b1 & b2 & -> & ->)]; [done|]. unfold redact.
  rewrite !app_snoc, <- !str_app_assoc, !Index_across by done.
  destruct (Index_found a (snoc p c)) as [i Hi]. unfold snoc in Hi at 1.
  rewrite <- str_app_assoc in Hi. change (String.append (String.append a p) (String c ""))
    with (snoc (String.append a p) c) in Hi. rewrite Hi.
  by rewrite (stake_before a p p b1 b2 c c i Hi).
Qed.

Lemma redact_same (p q s1 s2 : string) (c e : ascii) :
  char_in q c = false -> same_up_to (snoc p c) s1 s2 ->
  same_up_to (snoc p c) (redact s1 (snoc q e)) (redact s2 (snoc q e)).
Proof.
  intros Hq [->|(a & b1 & b2 & -> & ->)]; [by left|]. unfold redact.
  rewrite !app_snoc, <- !str_app_assoc, !Index_across by done.
  destruct (Index (snoc (String.append a p) c) (snoc q e)) as [i|] eqn:Hi.
  - left. by rewrite (stake_before a p q b1 b2 c e i Hi).
  - right. set (r := String.append q (String e "REDACTED")).
    assert (forall b, exists b', match (fun i => S (String.length (String.append a p)) + i)%nat <$>
        Index b (snoc q e) with
      | Some i => String.append (stake i (String.append (String.append a p) (String c b))) r
      | None => String.append (String.append a p) (String c b)
      end = String.append a (String.append (snoc p c) b')) as Hb.
    { intros b. destruct (Index b (snoc q e)) as [i|]; cbn [fmap option_fmap option_map].
      - exists (String.append (stake i b) r).
        rewrite Nat.add_succ_l, <- Nat.add_succ_r, stake_app_ge. cbn [stake].
        by rewrite !app_snoc, !str_app_assoc, !str_app_cons.
      - exists b. by rewrite app_snoc, str_app_assoc. }
    destruct (Hb b1) as [x1 H1], (Hb b2) as [x2 H2]. exists a, x1, x2. by rewrite H1, H2.
Qed.


(** The patterns of the code, cut before their last character. *)
Definition cut_last (s : string) : string * ascii :=
  (stake (String.length s - 1) s, default (chr 0) (last_byte s)).

Definition patterns_ok : bool :=
  forallb (fun q =>
    let '(q', c) := cut_last q in
    String.eqb (snoc q' c) q &&
    forallb (fun q2 => negb (char_in (cut_last q2).1 c)) secretPatterns &&
    forallb (fun r => let '(old, d) := cut_last r.1 in
      String.eqb (snoc old d) r.1 && negb (char_in r.1 c) && negb (char_in q d)) redactions)
  secretPatterns.

Lemma patterns_are_ok : patterns_ok = true.
Proof. vm_compute. reflexivity. Qed.

Lemma replacements_same (p : string) (c : ascii) (rs : list (string * string)) (s1 s2 : string) :
  (forall r, r ∈ rs -> exists old d, r.1 = snoc old d /\ char_in r.1 c = false /\
                       char_in (snoc p c) d = false) ->
  same_up_to (snoc p c) s1 s2 ->
  same_up_to (snoc p c) (foldl (fun s r => ReplaceAll s r.1 r.2) s1 rs)
    (foldl (fun s r => ReplaceAll s r.1 r.2) s2 rs).
Proof.
  revert s1 s2. induction rs as [|r rs IH]; intros s1 s2 Hr Hs; [done|]. cbn [foldl].
  apply IH; [intros; apply Hr; by right|]. destruct (Hr r) as (old & d & -> & H1 & H2); [by left|].
  by apply ReplaceAll_same.
Qed.

Lemma redactions_equal (p : string) (c : ascii) (qs : list string) (s1 s2 : string) :
  char_in p c = false ->
  (forall q, q ∈ qs -> exists q' e, q = snoc q' e /\ char_in q' c = false) ->
  snoc p c ∈ qs -> same_up_to (snoc p c) s1 s2 -> foldl redact s1 qs = foldl redact s2 qs.
Proof.
  intros Hp. revert s1 s2. induction qs as [|q qs IH]; intros s1 s2 Hq Hin Hs;
    [by apply elem_of_nil in Hin|]. cbn [foldl].
  destruct (decide (q = snoc p c)) as [->|Hne]; [by rewrite (redact_marker p s1 s2 c Hp Hs)|].
  apply elem_of_cons in Hin as [|Hin]; [congruence|].
  apply IH; [intros; apply Hq; by right|done|]. destruct (Hq q) as (q' & e & -> & He); [by left|].
  by apply redact_same.
Qed.

(** No credential leaks through a sanitized error: whatever follows a marker such as
    [token=] or [Bearer ] in an error text has no influence on the sanitized text, wherever
    the marker stands and whatever else the text holds. *)
Theorem sanitize_hides_credentials (pattern before secret1 secret2 : string) :
  pattern ∈ secretPatterns ->
  sanitize (String.append before (String.append pattern secret1)) =
  sanitize (String.append before (String.append pattern secret2)).
Proof.
  intros Hin.
  pose proof patterns_are_ok as Hok. unfold patterns_ok in Hok. rewrite forallb_forall in Hok.
  specialize (Hok pattern). rewrite <- list_elem_of_In in Hok. specialize (Hok Hin).
  destruct (cut_last pattern) as [p c] eqn:Hcut. apply andb_true_iff in Hok as [Hok Hrep].
  apply andb_true_iff in Hok as [Hp Hpat]. apply String.eqb_eq in Hp.
  rewrite forallb_forall in Hpat, Hrep.
  assert (forall q, q ∈ secretPatterns -> exists q' e, q = snoc q' e /\ char_in q' c = false) as Hq.
  { intros q Hq. exists (cut_last q).1, (cut_last q).2. split.
    - revert q Hq. apply Forall_forall. repeat constructor.
    - apply list_elem_of_In, Hpat in Hq. by apply negb_true_iff. }
  unfold sanitize. apply (redactions_equal p c).
  - specialize (Hpat pattern). rewrite <- list_elem_of_In, Hcut in Hpat. by apply negb_true_iff, Hpat.
  - done.
  - by rewrite Hp.
  - apply replacements_same; [|right; exists before, secret1, secret2; by rewrite Hp].
    intros r Hr. apply list_elem_of_In, Hrep in Hr. destruct (cut_last r.1) as [old d].
    apply andb_true_iff in Hr as [[Ho Hc]%andb_true_iff Hd]. exists old, d.
    apply String.eqb_eq in Ho. apply negb_true_iff in Hc, Hd. rewrite Hp. split_and!; [by rewrite Ho|done|done].
Qed.

Lemma sanitize_hides_credentials_witness :
  sanitize "PUT https://10.0.0.7/tmp/x?token=s3cr3t&key=k: refused" = "PUT https://0.0.7x?token=REDACTED" /\
  sanitize "PUT https://10.0.0.7/tmp/x?token=s3cr3t&key=k: refused" =
  sanitize "PUT https://10.0.0.7/tmp/x?token=hunter2".
Proof.
  split; [vm_compute; reflexivity|].
  apply (sanitize_hides_credentials "token=" "PUT https://10.0.0.7/tmp/x?" "s3cr3t&key=k: refused" "hunter2").
  right. left.
Defined.

(** The prefixes are removed in one pass each, in order: a prefix that a later removal puts
    together stays. *)
Example sanitize_reassembles_paths :
  sanitize "open /ho/tmp/me/alice/keys: denied" = "open /home/alice/keys: denied".
Proof. vm_compute. reflexivity. Qed.

(** The package's own errors keep their identity. *)
Lemma SanitizeError_sentinels :
  Forall (fun e => SanitizeError e = e)
    [ErrStorageClosed; ErrEmptyURI; ErrURITooLong; ErrBodyTooLarge; ErrNilTombstone;
     Errorf_w "" ErrInvalidURI ": invalid character in URI"].
Proof. repeat constructor. Qed.

Lemma ValidateURI_sanitized (uri : string) :
  result_map_err SanitizeError (ValidateURI uri) = ValidateURI uri.
Proof. unfold ValidateURI. repeat break_if; done. Qed.
