(* ===== verification/MemoryBackend.v ===== *)
(** * The in-memory storage backend

    [internal/storage/memory.go]: resources, blobs, quota usage and tombstones in maps,
    one definition per method.  A method that changes the backend returns the new state;
    [Put] also returns the written resource, whose reader it may have consumed. *)

From S2P Require Import Prelude GoStrings GoGlob GoHash StorageTypes.

Local Open Scope Z_scope.

Module Memory.

(** ** State *)

Record memoryResource := mkMemoryResource {
  mr_URI : string;
  mr_Body : Bytes;
  mr_Metadata : Metadata
}.

Record memoryBackend := mkBackend {
  mb_data : gmap string memoryResource;
  mb_blobs : gmap string Bytes;
  mb_closed : bool;
  mb_quotaUsage : gmap string quotaUsageInfo;
  mb_tombstones : gmap string Tombstone;
  mb_layoutVersion : Z
}.

Definition set_data (d : gmap string memoryResource) (b : memoryBackend) : memoryBackend :=
  mkBackend d (mb_blobs b) (mb_closed b) (mb_quotaUsage b) (mb_tombstones b) (mb_layoutVersion b).
Definition set_blobs (m : gmap string Bytes) (b : memoryBackend) : memoryBackend :=
  mkBackend (mb_data b) m (mb_closed b) (mb_quotaUsage b) (mb_tombstones b) (mb_layoutVersion b).
Definition set_quotaUsage (q : gmap string quotaUsageInfo) (b : memoryBackend) : memoryBackend :=
  mkBackend (mb_data b) (mb_blobs b) (mb_closed b) q (mb_tombstones b) (mb_layoutVersion b).
Definition set_tombstones (t : gmap string Tombstone) (b : memoryBackend) : memoryBackend :=
  mkBackend (mb_data b) (mb_blobs b) (mb_closed b) (mb_quotaUsage b) t (mb_layoutVersion b).
Definition set_layoutVersion (v : Z) (b : memoryBackend) : memoryBackend :=
  mkBackend (mb_data b) (mb_blobs b) (mb_closed b) (mb_quotaUsage b) (mb_tombstones b) v.

Definition NewMemoryBackend : memoryBackend := mkBackend ∅ ∅ false ∅ ∅ CurrentStorageLayoutVersion.

Definition checkClosedNoLock (b : memoryBackend) : result error unit :=
  fail! ErrStorageClosed when mb_closed b in Ok tt.

Definition Initialize (b : memoryBackend) : result error unit := checkClosedNoLock b.
Definition HealthCheck (b : memoryBackend) : result error unit := checkClosedNoLock b.

Definition Close (b : memoryBackend) : memoryBackend :=
  if mb_closed b then b else mkBackend ∅ ∅ true ∅ ∅ (mb_layoutVersion b).

(** A check of the methods that report a closed backend through [SanitizeError]. *)
Definition check_open (b : memoryBackend) : result error unit :=
  result_map_err SanitizeError (checkClosedNoLock b).

(** ** Resources *)

Definition Get (uri : string) (b : memoryBackend) : result error Resource :=
  let! _ := checkClosedNoLock b in
  fail! SanitizeError ErrEmptyURI when String.eqb uri "" in
  match mb_tombstones b !! uri with
  | Some _ => Err ErrNotFound
  | None =>
      match mb_data b !! uri with
      | None => Err ErrNotFound
      | Some r => Ok (mkResource (mr_URI r) (mr_Body r) None (mr_Metadata r))
      end
  end.

Definition GetMetadata (uri : string) (b : memoryBackend) : result error Metadata :=
  let! _ := checkClosedNoLock b in
  match mb_tombstones b !! uri with
  | Some _ => Err ErrNotFound
  | None =>
      match mb_data b !! uri with
      | None => Err ErrNotFound
      | Some r => Ok (mr_Metadata r)
      end
  end.

(** The preconditions of a write, against the stored resource. *)
Definition checkPreconditions (p : WritePrecondition) (current : option memoryResource)
  : result error unit :=
  let etag := match current with Some r => md_ETag (mr_Metadata r) | None => EmptyString end in
  let exists_ := match current with Some _ => true | None => false end in
  fail! ErrPreconditionFailed
    when negb (String.eqb (IfMatch p) "") &&
         (if String.eqb (IfMatch p) "*" then negb exists_
          else negb exists_ || negb (String.eqb etag (IfMatch p))) in
  fail! ErrPreconditionFailed
    when negb (String.eqb (IfNoneMatch p) "") &&
         (if String.eqb (IfNoneMatch p) "*" then exists_
          else exists_ && String.eqb etag (IfNoneMatch p)) in
  Ok tt.

Definition checkAndUpdateQuota (storageRoot : string) (additionalBytes : Z)
    (q : gmap string quotaUsageInfo) : gmap string quotaUsageInfo * result error unit :=
  let usage := default (mkQuotaUsage 0 0 0 0) (q !! storageRoot) in
  let q1 := <[storageRoot := usage]> q in
  if (0 <? qu_MaxBytes usage) &&
     (qu_MaxBytes usage <? wrap64 (qu_UsedBytes usage + additionalBytes))
  then (q1, Err ErrQuotaExceeded)
  else if (0 <? qu_MaxResources usage) &&
          (qu_MaxResources usage <? wrap64 (qu_UsedResources usage + 1))
  then (q1, Err ErrQuotaExceeded)
  else (<[storageRoot := mkQuotaUsage (wrap64 (qu_UsedBytes usage + additionalBytes))
                           (wrap64 (qu_UsedResources usage + 1))
                           (qu_MaxBytes usage) (qu_MaxResources usage)]> q1, Ok tt).

Definition rollbackQuota (storageRoot : string) (bytesFreed : Z)
    (q : gmap string quotaUsageInfo) : gmap string quotaUsageInfo :=
  match q !! storageRoot with
  | None => q
  | Some usage =>
      <[storageRoot := mkQuotaUsage (Z.max 0 (wrap64 (qu_UsedBytes usage - bytesFreed)))
                         (Z.max 0 (wrap64 (qu_UsedResources usage - 1)))
                         (qu_MaxBytes usage) (qu_MaxResources usage)]> q
  end.

(** The storage root a write is charged to when it names none. *)
Definition rootOf (uri : string) : string :=
  match Index uri "/" with
  | Some (S i) => stake (S i) uri
  | _ => uri
  end.
Definition chargedRoot (storageRoot uri : string) : string :=
  if String.eqb storageRoot "" then rootOf uri else storageRoot.

(** The fields [Put] fills in when the caller left them unset, one after the other. *)
Definition has_body (body : Bytes) : bool := match body with Some _ => true | None => false end.
Definition fillURI (uri : string) (m : Metadata) : Metadata :=
  if String.eqb (md_URI m) "" then set_md_URI uri m else m.
Definition fillSize (body : Bytes) (m : Metadata) : Metadata :=
  if (md_Size m =? 0) && has_body body then set_md_Size (blen body) m else m.
Definition fillLastModified (now : Z) (m : Metadata) : Metadata :=
  if time_IsZero (md_LastModified m) then set_md_LastModified now m else m.
Definition fillETag (body : Bytes) (m : Metadata) : Metadata :=
  if String.eqb (md_ETag m) "" && has_body body then set_md_ETag (generateETag body) m else m.
Definition fillResourceType (m : Metadata) : Metadata :=
  if String.eqb (md_ResourceType m) "" then set_md_ResourceType ResourceTypeResource m else m.
Definition fillStorageRoot (storageRoot : string) (m : Metadata) : Metadata :=
  if String.eqb (md_StorageRoot m) "" then set_md_StorageRoot storageRoot m else m.
Definition fillLayoutVersion (version : Z) (m : Metadata) : Metadata :=
  if md_LayoutVersion m =? 0 then set_md_LayoutVersion version m else m.

Definition prepareMetadata (now : Z) (uri storageRoot : string) (version : Z) (body : Bytes)
    (m : Metadata) : Metadata :=
  fillLayoutVersion version (fillStorageRoot storageRoot (fillResourceType (fillETag body
    (fillLastModified now (fillSize body (fillURI uri m)))))).

(** The body of a write: the slice, or what the reader delivers. *)
Definition readBody (w : WriteResource) : WriteResource * result error Bytes :=
  match wr_Body w, wr_BodyReader w with
  | None, Some rd =>
      let '(rd', r) := ReadAll rd in
      (mkWriteResource (wr_URI w) (wr_Body w) (Some rd') (wr_BodySize w) (wr_Metadata w)
         (wr_Preconditions w),
       match r with
       | Ok s => Ok (Some s)
       | Err e => Err (SanitizeError (Errorf_w "failed to read body: " e ""))
       end)
  | body, _ => (w, Ok body)
  end.

Definition Put (now : Z) (uri : string) (resource : option WriteResource) (b : memoryBackend)
  : memoryBackend * option WriteResource * result error unit :=
  match checkClosedNoLock b with
  | Err e => (b, resource, Err e)
  | Ok _ =>
  match resource with
  | None => (b, None, Err (Errorf "resource cannot be nil"))
  | Some w =>
  if String.eqb uri "" then (b, Some w, Err (SanitizeError ErrEmptyURI))
  else
  match checkPreconditions (wr_Preconditions w) (mb_data b !! uri) with
  | Err e => (b, Some w, Err e)
  | Ok _ =>
  match readBody w with
  | (w', Err e) => (b, Some w', Err e)
  | (w', Ok body) =>
      let storageRoot := chargedRoot (md_StorageRoot (wr_Metadata w)) uri in
      let resourceSize := wrap64 (blen body + estimateMetadataSize (wr_Metadata w)) in
      let '(q, r) := if 0 <? resourceSize
                     then checkAndUpdateQuota storageRoot resourceSize (mb_quotaUsage b)
                     else (mb_quotaUsage b, Ok tt) in
      let b1 := set_quotaUsage q b in
      match r with
      | Err e => (b1, Some w', Err e)
      | Ok _ =>
          let metadata := prepareMetadata now uri storageRoot (mb_layoutVersion b) body
                            (wr_Metadata w) in
          (set_tombstones (delete uri (mb_tombstones b1))
             (set_data (<[uri := mkMemoryResource uri body metadata]> (mb_data b1)) b1),
           Some w', Ok tt)
      end
  end end end end.

Definition Delete (ctx : Context) (uri : string) (b : memoryBackend)
  : memoryBackend * result error unit :=
  match (let! _ := check_ctx ctx in
         let! validatedURI := result_map_err SanitizeError (ValidateURI uri) in
         let! _ := check_open b in
         Ok validatedURI) with
  | Err e => (b, Err e)
  | Ok validatedURI =>
      let b1 := set_data (delete validatedURI (mb_data b)) b in
      match mb_data b !! validatedURI with
      | Some r =>
          let metadata := mr_Metadata r in
          if 0 <? md_Size metadata then
            (set_quotaUsage (rollbackQuota (chargedRoot (md_StorageRoot metadata) validatedURI)
                               (md_Size metadata) (mb_quotaUsage b1)) b1, Ok tt)
          else (b1, Ok tt)
      | None => (b1, Ok tt)
      end
  end.

(** The order in which [range] visits the resources, and the tombstones. *)
Definition data_order : Type := gmap string memoryResource -> list string.
Definition tombstone_order : Type := gmap string Tombstone -> list string.

Definition List (order : data_order) (ctx : Context) (containerURI : string) (b : memoryBackend)
  : result error (list Metadata) :=
  let! _ := check_ctx ctx in
  let! validatedURI := result_map_err SanitizeError (ValidateURI containerURI) in
  let! _ := check_open b in
  let prefix := if HasSuffix validatedURI "/" then validatedURI
                else String.append validatedURI "/" in
  Ok (firstn MaxResourceCountPerList
        (omap (fun uri =>
           match mb_tombstones b !! uri, mb_data b !! uri with
           | None, Some r => if HasPrefix uri prefix then Some (mr_Metadata r) else None
           | _, _ => None
           end) (order (mb_data b)))).

Definition Exists (ctx : Context) (uri : string) (b : memoryBackend) : result error bool :=
  let! _ := check_ctx ctx in
  let! validatedURI := result_map_err SanitizeError (ValidateURI uri) in
  let! _ := check_open b in
  match mb_tombstones b !! validatedURI with
  | Some _ => Ok false
  | None => Ok (match mb_data b !! validatedURI with Some _ => true | None => false end)
  end.

(** ** Blobs *)

Definition StoreBlob (ctx : Context) (data : Bytes) (b : memoryBackend)
  : memoryBackend * result error string :=
  match (let! _ := check_ctx ctx in
         let! _ := result_map_err SanitizeError (ValidateBodySize data) in
         let! _ := result_map_err SanitizeError
                     (ValidateContentAddress (computeContentAddress data)) in
         check_open b) with
  | Err e => (b, Err e)
  | Ok _ => (set_blobs (<[computeContentAddress data := data]> (mb_blobs b)) b,
             Ok (computeContentAddress data))
  end.

(** The result is a fresh slice, never [nil]. *)
Definition GetBlob (ctx : Context) (address : string) (b : memoryBackend) : result error Bytes :=
  let! _ := check_ctx ctx in
  let! _ := result_map_err SanitizeError (ValidateContentAddress address) in
  let! _ := check_open b in
  match mb_blobs b !! address with
  | None => Err ErrNotFound
  | Some data =>
      let! _ := result_map_err SanitizeError (ValidateBodySize data) in
      Ok (Some (content data))
  end.

Definition BlobExists (ctx : Context) (address : string) (b : memoryBackend) : result error bool :=
  let! _ := check_ctx ctx in
  let! _ := result_map_err SanitizeError (ValidateContentAddress address) in
  let! _ := check_open b in
  Ok (match mb_blobs b !! address with Some _ => true | None => false end).

Definition DeleteBlob (ctx : Context) (address : string) (b : memoryBackend)
  : memoryBackend * result error unit :=
  match (let! _ := check_ctx ctx in
         let! _ := result_map_err SanitizeError (ValidateContentAddress address) in
         check_open b) with
  | Err e => (b, Err e)
  | Ok _ => (set_blobs (delete address (mb_blobs b)) b, Ok tt)
  end.

(** ** Quota *)

Definition GetQuota (ctx : Context) (storageRoot : string) (b : memoryBackend)
  : result error QuotaInfo :=
  let! _ := check_ctx ctx in
  let! _ := result_map_err SanitizeError (ValidateStorageRoot storageRoot) in
  let! _ := check_open b in
  match mb_quotaUsage b !! storageRoot with
  | None => Ok (mkQuotaInfo storageRoot "" 0 0 0 0)
  | Some usage => Ok (mkQuotaInfo storageRoot "" (qu_UsedBytes usage) (qu_MaxBytes usage)
                        (qu_UsedResources usage) (qu_MaxResources usage))
  end.

Definition CheckQuota (ctx : Context) (storageRoot : string) (additionalBytes : Z)
    (b : memoryBackend) : memoryBackend * result error unit :=
  match (let! _ := check_ctx ctx in
         fail! SanitizeError (Errorf "additional bytes cannot be negative")
           when additionalBytes <? 0 in
         let! _ := result_map_err SanitizeError (ValidateStorageRoot storageRoot) in
         check_open b) with
  | Err e => (b, Err e)
  | Ok _ =>
      let '(q, r) := checkAndUpdateQuota storageRoot additionalBytes (mb_quotaUsage b) in
      (set_quotaUsage q b, r)
  end.

(** ** Tombstones *)

Definition GetTombstone (ctx : Context) (uri : string) (b : memoryBackend)
  : result error Tombstone :=
  let! _ := check_ctx ctx in
  let! validatedURI := result_map_err SanitizeError (ValidateURI uri) in
  let! _ := check_open b in
  match mb_tombstones b !! validatedURI with
  | None => Err ErrNotFound
  | Some t => Ok t
  end.

(** The tombstone of the caller gets the time of the call when it has none. *)
Definition stampTombstone (now : Z) (t : Tombstone) : Tombstone :=
  if time_IsZero (ts_DeletedAt t)
  then mkTombstone (ts_URI t) now (ts_DeletedBy t) (ts_Reason t) (ts_RestoreToken t) else t.

Definition StoreTombstone (now : Z) (ctx : Context) (tombstone : option Tombstone)
    (b : memoryBackend) : memoryBackend * result error unit :=
  match check_ctx ctx, tombstone with
  | Err e, _ => (b, Err e)
  | Ok _, None => (b, Err (SanitizeError ErrNilTombstone))
  | Ok _, Some t =>
      match (let! _ := result_map_err SanitizeError (validateTombstone (Some t)) in
             let! validatedURI := result_map_err SanitizeError (ValidateURI (ts_URI t)) in
             let! _ := check_open b in
             Ok validatedURI) with
      | Err e => (b, Err e)
      | Ok validatedURI =>
          (set_data (delete validatedURI (mb_data b))
             (set_tombstones (<[validatedURI := stampTombstone now t]> (mb_tombstones b)) b), Ok tt)
      end
  end.

Definition DeleteTombstone (ctx : Context) (uri : string) (b : memoryBackend)
  : memoryBackend * result error unit :=
  match (let! _ := check_ctx ctx in
         let! validatedURI := result_map_err SanitizeError (ValidateURI uri) in
         let! _ := check_open b in
         Ok validatedURI) with
  | Err e => (b, Err e)
  | Ok validatedURI => (set_tombstones (delete validatedURI (mb_tombstones b)) b, Ok tt)
  end.

Definition ListTombstones (order : tombstone_order) (ctx : Context) (storageRoot : string)
    (b : memoryBackend) : result error (list Tombstone) :=
  let! _ := check_ctx ctx in
  let! _ := result_map_err SanitizeError (ValidateStorageRoot storageRoot) in
  let! _ := check_open b in
  Ok (firstn MaxResourceCountPerList
        (omap (fun uri =>
           match mb_tombstones b !! uri with
           | Some t => if String.eqb storageRoot "" || HasPrefix uri storageRoot ||
                          String.eqb uri storageRoot
                       then Some t else None
           | None => None
           end) (order (mb_tombstones b)))).

(** ** Layout version *)

Definition GetLayoutVersion (ctx : Context) (b : memoryBackend) : result error Z :=
  let! _ := check_ctx ctx in
  let! _ := check_open b in
  Ok (mb_layoutVersion b).

Definition SetLayoutVersion (ctx : Context) (version : Z) (b : memoryBackend)
  : memoryBackend * result error unit :=
  match (let! _ := check_ctx ctx in
         let! _ := check_open b in
         fail! SanitizeError (Errorf (Join ["version "; FormatInt version;
                 " is below minimum supported version ";
                 FormatInt MinSupportedStorageLayoutVersion] ""))
           when version <? MinSupportedStorageLayoutVersion in
         Ok tt) with
  | Err e => (b, Err e)
  | Ok _ => (set_layoutVersion version b, Ok tt)
  end.

(** ** Integrity *)

Definition scanResourceIntegrity (uri : string) (r : memoryResource) : ResourceIntegrityReport :=
  let m := mr_Metadata r in
  let computedDigest := computeDigest (mr_Body r) in
  let digest :=
    if negb (String.eqb (md_Digest m) "") then
      if negb (String.eqb (md_Digest m) computedDigest) then
        [mkIssue IssueTypeInvalidDigest SeverityCritical "Resource digest does not match metadata"
           [("uri", uri); ("expected", md_Digest m); ("computed", computedDigest)]]
      else []
    else [mkIssue IssueTypeMissingDigest SeverityLow "Resource is missing digest in metadata"
            [("uri", uri)]] in
  let size :=
    if negb (md_Size m =? blen (mr_Body r)) then
      [mkIssue IssueTypeMetadataBodyMismatch SeverityHigh "Resource size does not match metadata"
         [("uri", uri); ("expected", FormatInt (md_Size m)); ("actual", FormatInt (blen (mr_Body r)))]]
    else [] in
  let layout :=
    if md_LayoutVersion m =? 0 then
      [mkIssue IssueTypeLayoutVersionMismatch SeverityLow "Resource is missing layout version"
         [("uri", uri)]]
    else if md_LayoutVersion m <? MinSupportedStorageLayoutVersion then
      [mkIssue IssueTypeLayoutVersionMismatch SeverityHigh "Resource has unsupported layout version"
         [("uri", uri); ("layout_version", FormatInt (md_LayoutVersion m));
          ("min_supported", FormatInt MinSupportedStorageLayoutVersion)]]
    else [] in
  mkResourceReport uri (digest ++ size ++ layout).

Definition ScanIntegrity (now : Z) (order : data_order) (ctx : Context) (b : memoryBackend)
  : result error IntegrityReport :=
  let! _ := check_ctx ctx in
  let! _ := check_open b in
  let reports := omap (fun uri =>
      match mb_tombstones b !! uri, mb_data b !! uri with
      | None, Some r => Some (scanResourceIntegrity uri r)
      | _, _ => None
      end) (order (mb_data b)) in
  Ok (mkReport now (Z.of_nat (length (order (mb_data b))))
        (Z.of_nat (length (filter (fun r => rr_Issues r <> []) reports))) 0 0 0 reports).

(** Projections of a record that a step fills in elsewhere. *)
Ltac skip_fills :=
  repeat match goal with
  | |- context [?f (?g ?x)] =>
      lazymatch type of x with Metadata =>
      let H := fresh in
      assert (H : f (g x) = f x) by
        (unfold fillURI, fillSize, fillLastModified, fillETag, fillResourceType, fillStorageRoot,
           fillLayoutVersion;
         match goal with |- f (if ?b then _ else _) = _ => destruct b; reflexivity end);
      rewrite H; clear H end
  end.

(** ** Histories *)

Inductive mem_op :=
| MPut (now : Z) (uri : string) (resource : option WriteResource)
| MDelete (ctx : Context) (uri : string)
| MStoreBlob (ctx : Context) (data : Bytes)
| MDeleteBlob (ctx : Context) (address : string)
| MCheckQuota (ctx : Context) (storageRoot : string) (additionalBytes : Z)
| MStoreTombstone (now : Z) (ctx : Context) (tombstone : option Tombstone)
| MDeleteTombstone (ctx : Context) (uri : string)
| MSetLayoutVersion (ctx : Context) (version : Z)
| MClose.

Definition mem_step (b : memoryBackend) (op : mem_op) : memoryBackend :=
  match op with
  | MPut now uri w => (Put now uri w b).1.1
  | MDelete ctx uri => (Delete ctx uri b).1
  | MStoreBlob ctx data => (StoreBlob ctx data b).1
  | MDeleteBlob ctx a => (DeleteBlob ctx a b).1
  | MCheckQuota ctx r n => (CheckQuota ctx r n b).1
  | MStoreTombstone now ctx t => (StoreTombstone now ctx t b).1
  | MDeleteTombstone ctx uri => (DeleteTombstone ctx uri b).1
  | MSetLayoutVersion ctx v => (SetLayoutVersion ctx v b).1
  | MClose => Close b
  end.

Definition mem_run (ops : list mem_op) : memoryBackend := foldl mem_step NewMemoryBackend ops.

(** ** Specification: a store of resources

    What the clients of a backend rely on, without quotas and tombstones: a map from URIs to
    resources, that a write whose preconditions hold extends, and that a deletion shrinks. *)

Record store := mkStore {
  st_open : bool;
  st_version : Z;
  st_map : gmap string memoryResource
}.

Definition etag_of (r : option memoryResource) : option string :=
  md_ETag ∘ mr_Metadata <$> r.

(** The preconditions of a write in terms of the current ETag. *)
Definition permitted (p : WritePrecondition) (etag : option string) : Prop :=
  match etag with
  | Some t => (IfMatch p = "" \/ IfMatch p = "*" \/ t = IfMatch p) /\
              (IfNoneMatch p = "" \/ (IfNoneMatch p <> "*" /\ t <> IfNoneMatch p))
  | None => IfMatch p = ""
  end.

#[export] Instance permitted_dec p etag : Decision (permitted p etag).
Proof. unfold permitted. destruct etag; apply _. Defined.

(** The body a write stores, if it can be had. *)
Definition stored_body (w : WriteResource) : option Bytes :=
  match wr_Body w, wr_BodyReader w with
  | None, Some (mkReader s None) => Some (Some s)
  | None, Some (mkReader _ (Some _)) => None
  | body, _ => Some body
  end.

Definition spec_put (now : Z) (uri : string) (w : WriteResource) (s : store) : option memoryResource :=
  match stored_body w with
  | Some body =>
      if decide (st_open s = true /\ uri <> "" /\
                 permitted (wr_Preconditions w) (etag_of (st_map s !! uri)))
      then Some (mkMemoryResource uri body
             (prepareMetadata now uri (chargedRoot (md_StorageRoot (wr_Metadata w)) uri)
                (st_version s) body (wr_Metadata w)))
      else None
  | None => None
  end.

Definition spec_step (s : store) (op : mem_op) : store :=
  let remove uri := match ValidateURI uri with
                    | Ok v => mkStore (st_open s) (st_version s) (delete v (st_map s))
                    | Err _ => s
                    end in
  match op with
  | MPut now uri (Some w) =>
      match spec_put now uri w s with
      | Some r => mkStore (st_open s) (st_version s) (<[uri := r]> (st_map s))
      | None => s
      end
  | MDelete Background uri => remove uri
  | MStoreTombstone _ Background (Some t) =>
      if is_ok (validateTombstone (Some t)) then remove (ts_URI t) else s
  | MSetLayoutVersion Background v =>
      if st_open s && (MinSupportedStorageLayoutVersion <=? v)
      then mkStore (st_open s) v (st_map s) else s
  | MClose => mkStore false (st_version s) ∅
  | _ => s
  end.

Definition spec_run (ops : list mem_op) : store :=
  foldl spec_step (mkStore true CurrentStorageLayoutVersion ∅) ops.

(** ** Invariant

    The data map is the store, no stored resource is tombstoned, and no quota has a limit. *)
Definition mem_inv (b : memoryBackend) (s : store) : Prop :=
  mb_closed b = negb (st_open s) /\ mb_layoutVersion b = st_version s /\ mb_data b = st_map s /\
  (forall uri r, mb_data b !! uri = Some r -> mb_tombstones b !! uri = None) /\
  (forall root u, mb_quotaUsage b !! root = Some u -> qu_MaxBytes u = 0 /\ qu_MaxResources u = 0) /\
  (st_open s = false -> mb_data b = ∅).

(** ** Lemmas *)

Lemma checkPreconditions_spec (p : WritePrecondition) (cur : option memoryResource) :
  checkPreconditions p cur =
  if decide (permitted p (etag_of cur)) then Ok tt else Err ErrPreconditionFailed.
Proof.
  unfold checkPreconditions, permitted, etag_of.
  destruct cur as [r|]; cbn [fmap option_fmap option_map compose];
    destruct (String.eqb_spec (IfMatch p) "") as [Hm|Hm],
      (String.eqb_spec (IfMatch p) "*") as [Hs|Hs],
      (String.eqb_spec (IfNoneMatch p) "") as [Hn|Hn],
      (String.eqb_spec (IfNoneMatch p) "*") as [Ht|Ht]; cbn [negb andb orb];
    repeat (case_decide || break_if); bool_prop; try done; exfalso;
    intuition (congruence || eauto).
Qed.

Definition unlimited (q : gmap string quotaUsageInfo) : Prop :=
  forall root u, q !! root = Some u -> qu_MaxBytes u = 0 /\ qu_MaxResources u = 0.

Lemma unlimited_insert (q : gmap string quotaUsageInfo) (root : string) (u : quotaUsageInfo) :
  unlimited q -> qu_MaxBytes u = 0 -> qu_MaxResources u = 0 -> unlimited (<[root := u]> q).
Proof. intros Hq H1 H2 r v [[_ <-]|[_ Hv]]%lookup_insert_Some; [done|]. by apply (Hq r). Qed.

Lemma unlimited_default (q : gmap string quotaUsageInfo) (root : string) : unlimited q ->
  let u := default (mkQuotaUsage 0 0 0 0) (q !! root) in qu_MaxBytes u = 0 /\ qu_MaxResources u = 0.
Proof. intros Hq. cbn. destruct (q !! root) as [u|] eqn:E; [by apply (Hq root)|done]. Qed.

Lemma checkAndUpdateQuota_unlimited (root : string) (n : Z) (q : gmap string quotaUsageInfo) :
  unlimited q ->
  (checkAndUpdateQuota root n q).2 = Ok tt /\ unlimited (checkAndUpdateQuota root n q).1.
Proof.
  intros Hq. destruct (unlimited_default q root Hq) as [H1 H2]. unfold checkAndUpdateQuota.
  rewrite H1, H2. cbn [Z.ltb Z.compare andb fst snd]. split; [done|].
  apply unlimited_insert; [|done|done]. by apply unlimited_insert.
Qed.

Lemma rollbackQuota_unlimited (root : string) (n : Z) (q : gmap string quotaUsageInfo) :
  unlimited q -> unlimited (rollbackQuota root n q).
Proof.
  intros Hq. unfold rollbackQuota. destruct (q !! root) as [u|] eqn:E; [|done].
  destruct (Hq root u E). by apply unlimited_insert.
Qed.

Lemma readBody_spec (w : WriteResource) :
  match stored_body w with
  | Some body => (readBody w).2 = Ok body
  | None => exists e, (readBody w).2 = Err e
  end.
Proof.
  unfold stored_body, readBody, ReadAll.
  destruct (wr_Body w) as [bd|], (wr_BodyReader w) as [[s [e|]]|]; cbn; eauto.
Qed.

Ltac rejected := split_and!; try done; by intros [? ?].

(** A write succeeds exactly when the specification lets it, and then stores what it says. *)
Lemma mem_Put_spec (now : Z) (uri : string) (w : WriteResource) (b : memoryBackend) (s : store) :
  mem_inv b s ->
  let '(b', _, r) := Put now uri (Some w) b in
  (r = Ok tt <-> is_Some (spec_put now uri w s)) /\
  mb_closed b' = mb_closed b /\ mb_layoutVersion b' = mb_layoutVersion b /\ unlimited (mb_quotaUsage b') /\
  match spec_put now uri w s with
  | Some r => mb_data b' = <[uri := r]> (mb_data b) /\ mb_tombstones b' = delete uri (mb_tombstones b)
  | None => mb_data b' = mb_data b /\ mb_tombstones b' = mb_tombstones b
  end.
Proof.
  intros (Hc & Hv & Hd & _ & Hq & _). unfold Put, spec_put, checkClosedNoLock. rewrite Hc.
  pose proof (readBody_spec w) as Hb.
  destruct (st_open s); cbn [negb]; cycle 1.
  { destruct (stored_body w); [rewrite decide_False by naive_solver|]; rejected. }
  destruct (String.eqb_spec uri "") as [->|Hne].
  { destruct (stored_body w); [rewrite decide_False by naive_solver|]; rejected. }
  rewrite checkPreconditions_spec, Hd. case_decide as Hp; cycle 1.
  { destruct (stored_body w); [rewrite decide_False by naive_solver|]; rejected. }
  destruct (readBody w) as [w' rb]. destruct (stored_body w) as [body|]; cbn [snd] in Hb; cycle 1.
  { destruct Hb as [e ->]. rejected. }
  subst rb. rewrite decide_True by done.
  set (n := wrap64 (blen body + estimateMetadataSize (wr_Metadata w))).
  set (root := chargedRoot _ _).
  destruct (checkAndUpdateQuota_unlimited root n (mb_quotaUsage b) Hq) as [Hr Hu].
  destruct (checkAndUpdateQuota root n (mb_quotaUsage b)) as [q r]. cbn [fst snd] in Hr, Hu. subst r.
  destruct (0 <? n); cbn; rewrite ?Hv, ?Hd; split_and!; try done.
Qed.

Lemma removed_inv (b : memoryBackend) (s : store) (v : string) (q : gmap string quotaUsageInfo)
    (t : gmap string Tombstone) :
  mem_inv b s -> unlimited q -> (forall uri, uri <> v -> t !! uri = mb_tombstones b !! uri) ->
  mem_inv (mkBackend (delete v (mb_data b)) (mb_blobs b) (mb_closed b) q t (mb_layoutVersion b))
    (mkStore (st_open s) (st_version s) (delete v (st_map s))).
Proof.
  intros (Hc & Hv & Hd & Ht & Hq & Ho) Hq' Ht'. unfold mem_inv. cbn. rewrite Hd.
  split_and!; try done.
  - intros uri r [Hne Hr]%lookup_delete_Some. rewrite Ht' by done. rewrite <- Hd in Hr. by eapply Ht.
  - intros Hf. rewrite <- Hd, Ho by done. by rewrite delete_empty.
Qed.

Lemma check_open_eq (b : memoryBackend) :
  check_open b = if mb_closed b then Err ErrStorageClosed else Ok tt.
Proof.
  unfold check_open, checkClosedNoLock. destruct (mb_closed b); [|reflexivity].
  vm_compute. reflexivity.
Qed.

Lemma check_open_Ok (b : memoryBackend) (s : store) : mem_inv b s ->
  check_open b = if st_open s then Ok tt else Err ErrStorageClosed.
Proof. intros (Hc & _). unfold check_open, checkClosedNoLock. rewrite Hc. by destruct (st_open s). Qed.

Lemma check_open_cases (b : memoryBackend) (s : store) : mem_inv b s ->
  (st_open s = false /\ check_open b = Err ErrStorageClosed) \/
  (st_open s = true /\ check_open b = Ok tt).
Proof. intros Hi. rewrite (check_open_Ok b s Hi). destruct (st_open s); auto. Qed.

(** A store that was closed is empty. *)
Lemma closed_delete (b : memoryBackend) (s : store) (v : string) : mem_inv b s -> st_open s = false ->
  mkStore (st_open s) (st_version s) (delete v (st_map s)) = s.
Proof.
  intros (_ & _ & Hd & _ & _ & Ho) Hf. rewrite Ho in Hd by done. rewrite <- Hd, delete_empty.
  destruct s; cbn in *. by subst.
Qed.

Lemma Delete_inv (ctx : Context) (uri : string) (b : memoryBackend) (s : store) :
  mem_inv b s -> mem_inv (Delete ctx uri b).1 (spec_step s (MDelete ctx uri)).
Proof.
  intros Hi. unfold Delete. destruct ctx; [done|]. cbn [check_ctx result_bind spec_step].
  rewrite ValidateURI_sanitized. destruct (ValidateURI uri) as [v|e]; [|done]. cbn [result_bind].
  destruct (check_open_cases b s Hi) as [[Ho ->]|[Ho ->]]; cbn [result_bind fst].
  { by rewrite (closed_delete b s v Hi Ho). }
  pose proof Hi as (_ & _ & _ & _ & Hq & _).
  destruct (mb_data b !! v) as [r|]; [destruct (0 <? md_Size (mr_Metadata r))|];
    (apply (removed_inv b s v); [done|by try apply rollbackQuota_unlimited|done]).
Qed.

Lemma StoreTombstone_inv (now : Z) (ctx : Context) (t : option Tombstone) (b : memoryBackend) (s : store) :
  mem_inv b s -> mem_inv (StoreTombstone now ctx t b).1 (spec_step s (MStoreTombstone now ctx t)).
Proof.
  intros Hi. unfold StoreTombstone. destruct ctx; [by destruct t|]. cbn [check_ctx spec_step].
  destruct t as [t|]; [|done]. destruct (validateTombstone (Some t)); [|done].
  cbn [result_map_err result_bind is_ok]. rewrite ValidateURI_sanitized.
  destruct (ValidateURI (ts_URI t)) as [v|e]; [|done]. cbn [result_bind].
  destruct (check_open_cases b s Hi) as [[Ho ->]|[Ho ->]]; cbn [result_bind fst].
  { by rewrite (closed_delete b s v Hi Ho). }
  pose proof Hi as (_ & _ & _ & _ & Hq & _).
  apply (removed_inv b s v); [done|done|]. intros uri Hne. by apply lookup_insert_ne.
Qed.

Lemma mem_step_inv (b : memoryBackend) (s : store) (op : mem_op) :
  mem_inv b s -> mem_inv (mem_step b op) (spec_step s op).
Proof.
  intros Hi. pose proof Hi as (Hc & Hv & Hd & Ht & Hq & Ho). destruct op; cbn [mem_step].
  - destruct resource as [w|].
    + pose proof (mem_Put_spec now uri w b s Hi) as Hp. cbn [spec_step].
      destruct (Put now uri (Some w) b) as [[b' w'] r]. cbn [fst].
      destruct Hp as (_ & Hc' & Hv' & Hq' & Hm). unfold mem_inv.
      destruct (spec_put now uri w s) as [mr|] eqn:Hs; destruct Hm as [Hd' Ht'];
        rewrite Hc', Hv', Hd', Ht'; cbn [st_open st_version st_map]; rewrite ?Hd;
        split_and!; try done.
      * intros u r0 [[<- _]|[Hne Hr]]%lookup_insert_Some; [apply lookup_delete_eq|].
        rewrite lookup_delete_ne by done. rewrite <- Hd in Hr. by eapply Ht.
      * intros Hf. exfalso. unfold spec_put in Hs. destruct (stored_body w); [|done].
        case_decide as Hx; [|done]. destruct Hx. congruence.
      * intros u r0 Hr. rewrite <- Hd in Hr. by eapply Ht.
      * intros Hf. rewrite <- Hd. by apply Ho.
    + unfold Put. destruct (checkClosedNoLock b); done.
  - by apply Delete_inv.
  - unfold StoreBlob. by destruct (result_bind _ _).
  - unfold DeleteBlob. by destruct (result_bind _ _).
  - unfold CheckQuota. destruct (result_bind _ _); [|done].
    destruct (checkAndUpdateQuota_unlimited storageRoot additionalBytes (mb_quotaUsage b) Hq) as [_ Hu].
    destruct (checkAndUpdateQuota storageRoot additionalBytes (mb_quotaUsage b)) as [q r].
    by unfold mem_inv; cbn.
  - by apply StoreTombstone_inv.
  - unfold DeleteTombstone. destruct (result_bind _ _) as [v|]; [|done]. unfold mem_inv. cbn.
    split_and!; try done. intros u r Hr. apply lookup_delete_None. right. by eapply Ht.
  - unfold SetLayoutVersion. destruct ctx; [done|]. cbn [check_ctx result_bind spec_step].
    destruct (check_open_cases b s Hi) as [[Hos ->]|[Hos ->]]; rewrite Hos; [done|]. cbn [result_bind andb].
    destruct (version <? MinSupportedStorageLayoutVersion) eqn:E; bool_prop.
    + by rewrite (proj2 (Z.leb_gt _ _)).
    + rewrite (proj2 (Z.leb_le _ _)) by done. unfold mem_inv; cbn. by rewrite Hc, Hos.
  - unfold Close. cbn [spec_step]. destruct (mb_closed b) eqn:Ec.
    + unfold mem_inv. cbn. rewrite Hc in Ec |- *. destruct (st_open s) eqn:E; [done|].
      rewrite Ho by done. by split_and!.
    + unfold mem_inv; cbn. by split_and!.
Qed.

Lemma mem_run_inv (ops : list mem_op) : mem_inv (mem_run ops) (spec_run ops).
Proof.
  unfold mem_run, spec_run.
  assert (mem_inv NewMemoryBackend (mkStore true CurrentStorageLayoutVersion ∅)) as H0.
  { unfold mem_inv; cbn. by split_and!. }
  revert H0. generalize NewMemoryBackend, (mkStore true CurrentStorageLayoutVersion ∅).
  induction ops as [|op ops IH]; intros b s Hi; [done|]. cbn [foldl]. by apply IH, mem_step_inv.
Qed.

(** ** Properties *)

Definition resource_of (r : memoryResource) : Resource :=
  mkResource (mr_URI r) (mr_Body r) None (mr_Metadata r).

Definition container_prefix (validatedURI : string) : string :=
  if HasSuffix validatedURI "/" then validatedURI else String.append validatedURI "/".

(** Skipping tombstones makes no difference where no stored resource has one. *)
Lemma list_scan (t : gmap string Tombstone) (m : gmap string memoryResource) (prefix : string)
    (us : list string) :
  (forall u, match t !! u with Some _ => m !! u = None | None => True end) ->
  omap (fun uri => match t !! uri, m !! uri with
                   | None, Some r => if HasPrefix uri prefix then Some (mr_Metadata r) else None
                   | _, _ => None
                   end) us =
  omap (fun u => mr_Metadata <$> m !! u) (filter (fun u => HasPrefix u prefix = true) us).
Proof.
  intros Ht. induction us as [|u us IH]; [done|]. rewrite filter_cons. specialize (Ht u).
  destruct (HasPrefix u prefix) eqn:Hp; [rewrite decide_True by done|rewrite decide_False by done];
    cbn [omap list_omap]; rewrite IH, ?Hp; destruct (t !! u); rewrite ?Ht;
    destruct (m !! u); cbn; done.
Qed.

(** C5: The memory backend implements a store of resources.  After any sequence of
    operations, while the backend is open: [Get] and [GetMetadata] return what the store
    holds under the URI, [Exists] answers for the normalised URI, [List] returns the
    metadata of the stored resources below the container, each once and 10000 at most, and
    a [Put] succeeds exactly when its preconditions hold, whatever quotas and tombstones
    the history left behind. *)
Theorem memory_refines_store (ops : list mem_op) :
  let b := mem_run ops in
  let s := spec_run ops in
  st_open s = true ->
  (forall uri, uri <> "" ->
     Get uri b = match st_map s !! uri with Some r => Ok (resource_of r) | None => Err ErrNotFound end /\
     GetMetadata uri b = match st_map s !! uri with
                         | Some r => Ok (mr_Metadata r) | None => Err ErrNotFound end) /\
  (forall uri, Exists Background uri b =
     match ValidateURI uri with
     | Ok v => Ok (bool_decide (is_Some (st_map s !! v)))
     | Err e => Err e
     end) /\
  (forall order uri v, (forall m, iter_order (order m) m) -> ValidateURI uri = Ok v ->
     exists uris, NoDup uris /\
       (forall u, u ∈ uris <-> is_Some (st_map s !! u) /\ HasPrefix u (container_prefix v) = true) /\
       List order Background uri b =
         Ok (firstn MaxResourceCountPerList (omap (fun u => mr_Metadata <$> st_map s !! u) uris))) /\
  (forall now uri w, (Put now uri (Some w) b).2 = Ok tt <-> is_Some (spec_put now uri w s)).
Proof.
  intros b s Ho. pose proof (mem_run_inv ops) as Hi. fold b s in Hi.
  pose proof Hi as (Hc & _ & Hd & Ht & _). rewrite Ho in Hc.
  assert (checkClosedNoLock b = Ok tt) as Hopen by (unfold checkClosedNoLock; by rewrite Hc).
  assert (forall u, match mb_tombstones b !! u with
                    | Some _ => st_map s !! u = None | None => True end) as Htomb.
  { intros u. destruct (mb_tombstones b !! u) eqn:E; [|done]. rewrite <- Hd.
    destruct (mb_data b !! u) eqn:E2; [|done]. apply Ht in E2. congruence. }
  split_and!.
  - intros uri Hne. unfold Get, GetMetadata. rewrite Hopen. cbn [result_bind].
    rewrite (proj2 (String.eqb_neq _ _) Hne). specialize (Htomb uri). rewrite Hd.
    destruct (mb_tombstones b !! uri); [by rewrite Htomb|]. by destruct (st_map s !! uri).
  - intros uri. unfold Exists, check_open. rewrite Hopen, ValidateURI_sanitized.
    cbn [check_ctx result_bind result_map_err]. destruct (ValidateURI uri) as [v|]; [|done].
    cbn [result_bind]. specialize (Htomb v). rewrite Hd.
    destruct (mb_tombstones b !! v); [by rewrite Htomb|]. by destruct (st_map s !! v).
  - intros order uri v Hord Hv. destruct (Hord (mb_data b)) as [Hnd Hks].
    exists (filter (fun u => HasPrefix u (container_prefix v) = true) (order (mb_data b))).
    split_and!; [by apply NoDup_filter| |].
    + intros u. rewrite list_elem_of_filter, Hks, Hd. tauto.
    + unfold List, check_open. rewrite Hopen, ValidateURI_sanitized, Hv.
      cbn [check_ctx result_bind result_map_err]. fold (container_prefix v).
      by rewrite (list_scan (mb_tombstones b) (mb_data b)), Hd by (by rewrite Hd).
  - intros now uri w. pose proof (mem_Put_spec now uri w b s Hi) as Hp.
    destruct (Put now uri (Some w) b) as [[b' w'] r]. apply Hp.
Qed.

Definition noMetadata : Metadata :=
  mkMetadata "" "" "" 0 "" 0 0 "" "" "" "" None None None "" 0 None.
Definition sampleWrite (body ifMatch ifNoneMatch : string) : WriteResource :=
  mkWriteResource "" (Some body) None 0 noMetadata (mkPrecondition ifMatch ifNoneMatch None).
Definition sampleTombstone (uri : string) : Tombstone := mkTombstone uri 0 "" "" "".

Definition sampleOps : list mem_op :=
  [MPut (time_Unix 1) "/pod/a" (Some (sampleWrite "one" "" "*"));
   MPut (time_Unix 2) "/pod/a" (Some (sampleWrite "two" "" "*"));
   MStoreTombstone (time_Unix 3) Background (Some (sampleTombstone "/pod//b/"));
   MPut (time_Unix 4) "/pod/b" (Some (sampleWrite "three" "" ""))].

Lemma memory_refines_store_witness :
  rs_Body <$> result_ok (Get "/pod/a" (mem_run sampleOps)) = Some (Some "one") /\
  Exists Background "/pod/b/" (mem_run sampleOps) = Ok true.
Proof.
  destruct (memory_refines_store sampleOps) as (Hget & Hex & _); [vm_compute; reflexivity|].
  split.
  - destruct (Hget "/pod/a") as [-> _]; [discriminate|]. vm_compute. reflexivity.
  - rewrite Hex. vm_compute. reflexivity.
Defined.

(** Conditional writes prevent lost updates: of two writers that read the same version
    of a resource and write it back under [If-Match], the second one fails, unless the
    first one stored the resource under the very same ETag again; and of two writers that
    create a resource under [If-None-Match: *], the second one always fails. *)
Theorem memory_no_lost_update (ops : list mem_op) (now1 now2 : Z) (uri : string)
    (w1 w2 : WriteResource) (b1 : memoryBackend) (w1' : option WriteResource) :
  Put now1 uri (Some w1) (mem_run ops) = (b1, w1', Ok tt) ->
  (forall m1 etag, GetMetadata uri b1 = Ok m1 -> IfMatch (wr_Preconditions w1) = etag ->
     IfMatch (wr_Preconditions w2) = etag -> etag <> "" -> etag <> "*" -> md_ETag m1 <> etag ->
     (Put now2 uri (Some w2) b1).2 = Err ErrPreconditionFailed) /\
  (IfNoneMatch (wr_Preconditions w2) = "*" ->
     (Put now2 uri (Some w2) b1).2 = Err ErrPreconditionFailed).
Proof.
  intros Hput. pose proof (mem_run_inv ops) as Hi.
  pose proof (mem_Put_spec now1 uri w1 (mem_run ops) (spec_run ops) Hi) as Hs. rewrite Hput in Hs.
  destruct Hs as (Hok & Hc1 & _ & _ & Hm). destruct (proj1 Hok eq_refl) as [r Hr].
  rewrite Hr in Hm. destruct Hm as [Hd1 Ht1].
  assert (st_open (spec_run ops) = true /\ uri <> "") as [Ho Hne].
  { unfold spec_put in Hr. destruct (stored_body w1); [|done]. case_decide as Hx; [|done]. naive_solver. }
  pose proof Hi as (Hc & _). rewrite Ho in Hc.
  assert (checkClosedNoLock b1 = Ok tt) as Hopen by (unfold checkClosedNoLock; by rewrite Hc1, Hc).
  assert (mb_data b1 !! uri = Some r) as Hr1 by (rewrite Hd1; apply lookup_insert_eq).
  assert (forall w, ~ permitted (wr_Preconditions w) (Some (md_ETag (mr_Metadata r))) ->
    (Put now2 uri (Some w) b1).2 = Err ErrPreconditionFailed) as Hfail.
  { intros w Hn. unfold Put. rewrite Hopen, (proj2 (String.eqb_neq _ _) Hne), checkPreconditions_spec, Hr1.
    by rewrite decide_False by done. }
  split.
  - intros m1 etag Hm1 H1 H2 Hn1 Hn2 Hne1. apply Hfail. unfold GetMetadata in Hm1.
    rewrite Hopen, Ht1, lookup_delete_eq, Hr1 in Hm1. injection Hm1 as <-.
    unfold permitted. rewrite H2. naive_solver.
  - intros H2. apply Hfail. unfold permitted. rewrite H2. naive_solver.
Qed.

Lemma memory_no_lost_update_witness :
  let b := mem_run sampleOps in
  let etag := default "" (md_ETag <$> result_ok (GetMetadata "/pod/a" b)) in
  let b1 := (Put 5 "/pod/a" (Some (sampleWrite "mine" etag "")) b).1.1 in
  (Put 5 "/pod/a" (Some (sampleWrite "mine" etag "")) b).2 = Ok tt /\
  (Put 6 "/pod/a" (Some (sampleWrite "yours" etag "")) b1).2 = Err ErrPreconditionFailed.
Proof.
  intros b etag b1. split; [vm_compute; reflexivity|].
  destruct (memory_no_lost_update sampleOps 5 6 "/pod/a" (sampleWrite "mine" etag "")
    (sampleWrite "yours" etag "") b1 (Some (sampleWrite "mine" etag ""))) as [H _].
  - vm_compute. reflexivity.
  - apply (H (default noMetadata (result_ok (GetMetadata "/pod/a" b1))) etag);
      vm_compute; congruence.
Defined.

(** A deletion only reaches canonical URIs: [Put] and [Get] use a URI as it is, [Delete]
    and [Exists] its normalised form.  A stored resource is gone after an accepted [Delete]
    exactly when its URI is canonical; otherwise it is still served, also when [Exists]
    denies it.  No URI with a scheme and an authority is canonical. *)
Theorem memory_delete_reaches_canonical (ops : list mem_op) (uri : string) (r : Resource) :
  let b := mem_run ops in
  let b' := (Delete Background uri b).1 in
  Get uri b = Ok r -> (Delete Background uri b).2 = Ok tt ->
  (canonical uri -> Get uri b' = Err ErrNotFound) /\
  (~ canonical uri -> Get uri b' = Ok r) /\
  Exists Background uri b' = Ok false /\
  (forall scheme rest, uri = String.append scheme (String.append "//" rest) -> Get uri b' = Ok r).
Proof.
  intros b b' Hget Hdel. pose proof (mem_run_inv ops) as Hi. fold b in Hi.
  pose proof Hi as (_ & _ & _ & Ht & _).
  assert (Ht' : forall u x, mb_tombstones b !! u = Some x -> mb_data b !! u = None).
  { intros u x Hx. destruct (mb_data b !! u) eqn:E; [|done]. apply Ht in E. congruence. }
  unfold Get in Hget. destruct (checkClosedNoLock b) eqn:Hopen; [|done]. cbn [result_bind] in Hget.
  destruct (String.eqb uri "") eqn:He; [done|].
  destruct (mb_tombstones b !! uri) eqn:Htu; [done|].
  destruct (mb_data b !! uri) as [mr|] eqn:Hd; [|done]. injection Hget as <-.
  revert Hdel. unfold b', Delete, check_open. rewrite ValidateURI_sanitized, Hopen.
  cbn [check_ctx result_bind result_map_err]. destruct (ValidateURI uri) as [v|] eqn:Hv; [|done].
  cbn [result_bind]. clear b'.
  set (p := match mb_data b !! v with Some _ => _ | None => _ end). intros _.
  assert (mb_data p.1 = delete v (mb_data b) /\ mb_tombstones p.1 = mb_tombstones b /\
          checkClosedNoLock p.1 = Ok tt) as (Hpd & Hpt & Hpo).
  { destruct a. unfold p.
    destruct (mb_data b !! v) as [x|]; [destruct (0 <? md_Size (mr_Metadata x))|]; by split_and!. }
  assert (canonical uri <-> v = uri) as Hcan.
  { unfold canonical. rewrite Hv. split; congruence. }
  assert (~ canonical uri -> Get uri p.1 = Ok (resource_of mr)) as Hraw.
  { intros Hn. unfold Get. rewrite Hpo, He, Hpt, Htu, Hpd. cbn [result_bind].
    rewrite lookup_delete_ne, Hd; [done|]. intros <-. tauto. }
  split_and!; [|done| |].
  - intros Hc%Hcan. subst v. unfold Get. rewrite Hpo, He, Hpt, Htu, Hpd. cbn [result_bind].
    by rewrite lookup_delete_eq.
  - unfold Exists, check_open. rewrite ValidateURI_sanitized, Hpo, Hv. cbn [check_ctx result_bind result_map_err].
    rewrite Hpt, Hpd, lookup_delete_eq. by destruct (mb_tombstones b !! v).
  - intros scheme rest ->. by apply Hraw, scheme_not_canonical.
Qed.

Lemma memory_delete_reaches_canonical_witness :
  let uri := "https://pod.example/notes/1" in
  let b := mem_run [MPut (time_Unix 1) uri (Some (sampleWrite "private" "" ""))] in
  let b' := (Delete Background uri b).1 in
  (Delete Background uri b).2 = Ok tt /\ Exists Background uri b' = Ok false /\
  rs_Body <$> result_ok (Get uri b') = Some (Some "private").
Proof.
  intros uri b b'. split; [vm_compute; reflexivity|].
  destruct (memory_delete_reaches_canonical
    [MPut (time_Unix 1) uri (Some (sampleWrite "private" "" ""))] uri
    (default (mkResource "" None None noMetadata) (result_ok (Get uri b)))) as (_ & _ & Hex & Hget);
    [vm_compute; reflexivity|vm_compute; reflexivity|].
  split; [exact Hex|]. change b' with (Delete Background uri b).1. unfold b at 1.
  rewrite (Hget "https:" "pod.example/notes/1" eq_refl). vm_compute. reflexivity.
Defined.

(** The usage counted for a storage root. *)
Definition used (root : string) (b : memoryBackend) : quotaUsageInfo :=
  default (mkQuotaUsage 0 0 0 0) (mb_quotaUsage b !! root).

Lemma checkAndUpdateQuota_used (root : string) (n : Z) (q : gmap string quotaUsageInfo) :
  unlimited q ->
  let u := default (mkQuotaUsage 0 0 0 0) (q !! root) in
  (checkAndUpdateQuota root n q).1 !! root =
  Some (mkQuotaUsage (wrap64 (qu_UsedBytes u + n)) (wrap64 (qu_UsedResources u + 1)) 0 0).
Proof.
  intros Hq. destruct (unlimited_default q root Hq) as [H1 H2]. unfold checkAndUpdateQuota.
  cbn zeta in *. rewrite H1, H2. cbn. by rewrite lookup_insert_eq.
Qed.

Lemma estimateMetadataSize_pos (m : Metadata) : 200 <= estimateMetadataSize m.
Proof.
  assert (forall x g, 0 <= x -> 0 <= map_len x g) as Hm.
  { intros x g Hx. unfold map_len. apply (map_fold_weak_ind (fun acc _ => 0 <= acc)); [lia|]. intros k v mp acc _ Ha.
    pose proof (len_nonneg k). pose proof (len_nonneg v). lia. }
  assert (forall l, 0 <= list_len 0 l) as Hl.
  { intros l. unfold list_len. induction (default [] l) as [|v vs IH]; cbn; [lia|].
    pose proof (len_nonneg v). fold (sum (map (fun v => len v + 0) vs)). lia. }
  unfold estimateMetadataSize.
  pose proof (Hm 0 (md_AuxiliaryLinks m)). pose proof (Hm 0 (md_ValidatorState m)).
  pose proof (Hm 0 (md_Custom m)). pose proof (Hl (md_PolicyReferences m)).
  repeat match goal with |- context [len ?s] =>
    lazymatch goal with _ : 0 <= len s |- _ => fail | _ => pose proof (len_nonneg s) end end.
  lia.
Qed.

(** What a write charges, and what it stores. *)
Lemma Put_charges (now : Z) (uri : string) (w : WriteResource) (body : string) (b b1 : memoryBackend)
    (w' : option WriteResource) :
  unlimited (mb_quotaUsage b) -> Put now uri (Some w) b = (b1, w', Ok tt) -> wr_Body w = Some body ->
  let root := chargedRoot (md_StorageRoot (wr_Metadata w)) uri in
  let n := len body + estimateMetadataSize (wr_Metadata w) in
  n <= int64_max ->
  mb_closed b1 = false /\ unlimited (mb_quotaUsage b1) /\
  used root b1 = mkQuotaUsage (wrap64 (qu_UsedBytes (used root b) + n))
                   (wrap64 (qu_UsedResources (used root b) + 1)) 0 0 /\
  mb_data b1 !! uri = Some (mkMemoryResource uri (Some body)
    (prepareMetadata now uri root (mb_layoutVersion b) (Some body) (wr_Metadata w))).
Proof.
  intros Hq Hput Hb root n Hn. revert Hput. unfold Put, checkClosedNoLock.
  destruct (mb_closed b) eqn:Hc; [done|]. destruct (String.eqb uri ""); [done|].
  destruct (checkPreconditions _ _); [|done]. unfold readBody. rewrite Hb. fold root.
  change (blen (Some body)) with (len body). fold n.
  pose proof (len_nonneg body). pose proof (estimateMetadataSize_pos (wr_Metadata w)).
  rewrite (wrap64_id n) by (unfold in_int64, int64_min; lia).
  destruct (0 <? n) eqn:E; bool_prop; [|lia].
  pose proof (checkAndUpdateQuota_used root n (mb_quotaUsage b) Hq) as Hu.
  destruct (checkAndUpdateQuota_unlimited root n (mb_quotaUsage b) Hq) as [Hr Hl].
  destruct (checkAndUpdateQuota root n (mb_quotaUsage b)) as [q r]. cbn [fst snd] in *. subst r.
  intros [= <- <-]. unfold used. cbn. rewrite Hu, lookup_insert_eq. by split_and!.
Qed.

Lemma prepareMetadata_charge (now : Z) (uri : string) (version : Z) (body : string) (m : Metadata) :
  md_Size m = 0 ->
  let root := chargedRoot (md_StorageRoot m) uri in
  let md := prepareMetadata now uri root version (Some body) m in
  md_Size md = len body /\ chargedRoot (md_StorageRoot md) uri = root.
Proof.
  intros Hs root. cbn zeta. fold root. unfold prepareMetadata. skip_fills. split.
  - unfold fillSize. skip_fills. by rewrite Hs.
  - unfold fillStorageRoot. skip_fills. unfold root, chargedRoot.
    destruct (String.eqb (md_StorageRoot m) "") eqn:E; cbn; [by break_if|]. skip_fills. by rewrite E.
Qed.

Lemma rollbackQuota_used (root : string) (n : Z) (b : memoryBackend) (u : quotaUsageInfo) :
  used root b = u -> u <> mkQuotaUsage 0 0 0 0 ->
  default (mkQuotaUsage 0 0 0 0) (rollbackQuota root n (mb_quotaUsage b) !! root) =
  mkQuotaUsage (Z.max 0 (wrap64 (qu_UsedBytes u - n))) (Z.max 0 (wrap64 (qu_UsedResources u - 1)))
    (qu_MaxBytes u) (qu_MaxResources u).
Proof.
  unfold used, rollbackQuota. intros Hu Hne. destruct (mb_quotaUsage b !! root) as [u'|] eqn:E; cbn in Hu.
  - subst u'. by rewrite lookup_insert_eq.
  - by subst u.
Qed.

(** Quotas are counted but not enforced, and the count drifts.  No limit is ever set, so
    [CheckQuota] accepts any number of bytes; although a question, it charges them.  And
    what a [Put] charges, a [Delete] does not give back: writing and deleting a resource
    leaves the estimated size of its metadata charged to the storage root. *)
Theorem memory_quota_drifts (ops : list mem_op) (root : string) (n : Z) :
  let b := mem_run ops in
  mb_closed b = false ->
  (0 <= n -> ValidateStorageRoot root = Ok tt ->
   (CheckQuota Background root n b).2 = Ok tt /\
   used root (CheckQuota Background root n b).1 =
     mkQuotaUsage (wrap64 (qu_UsedBytes (used root b) + n))
       (wrap64 (qu_UsedResources (used root b) + 1)) 0 0) /\
  (forall now uri w body b1 w',
   Put now uri (Some w) b = (b1, w', Ok tt) -> canonical uri ->
   wr_Body w = Some body -> body <> "" -> md_Size (wr_Metadata w) = 0 ->
   root = chargedRoot (md_StorageRoot (wr_Metadata w)) uri ->
   let m := estimateMetadataSize (wr_Metadata w) in
   0 <= qu_UsedBytes (used root b) -> qu_UsedBytes (used root b) + len body + m <= int64_max ->
   0 <= qu_UsedResources (used root b) < int64_max ->
   used root (Delete Background uri b1).1 =
     mkQuotaUsage (qu_UsedBytes (used root b) + m) (qu_UsedResources (used root b)) 0 0).
Proof.
  intros b Hc. pose proof (mem_run_inv ops) as (_ & _ & _ & _ & Hq & _). fold b in Hq. split.
  - intros Hn Hroot. unfold CheckQuota, check_open, checkClosedNoLock.
    rewrite Hroot, Hc, (proj2 (Z.ltb_ge _ _) Hn). cbn [check_ctx result_bind result_map_err].
    pose proof (checkAndUpdateQuota_used root n (mb_quotaUsage b) Hq) as Hu.
    destruct (checkAndUpdateQuota_unlimited root n (mb_quotaUsage b) Hq) as [Hr _].
    destruct (checkAndUpdateQuota root n (mb_quotaUsage b)) as [q r]. cbn [fst snd] in *.
    split; [done|]. unfold used at 1. cbn. by rewrite Hu.
  - intros now uri w body b1 w' Hput Hcan Hb Hne Hsize Hr m H0 Hmax Hres.
    pose proof (estimateMetadataSize_pos (wr_Metadata w)) as Hm. pose proof (len_nonneg body) as Hl.
    destruct (Put_charges now uri w body b b1 w' Hq Hput Hb) as (Hc1 & Hq1 & Hu & Hd); [lia|].
    rewrite <- Hr in Hu, Hd. set (u := used root b) in *.
    assert (0 < len body) as Hpos by (destruct body; [done|unfold len; cbn [String.length]; lia]).
    rewrite (wrap64_id (qu_UsedBytes u + _)), (wrap64_id (qu_UsedResources u + 1)) in Hu
      by (unfold in_int64, int64_min; lia).
    destruct (prepareMetadata_charge now uri (mb_layoutVersion b) body (wr_Metadata w) Hsize) as [Hs Hsr].
    rewrite <- Hr in Hs, Hsr. set (md := prepareMetadata _ _ _ _ _ _) in *.
    unfold Delete, check_open, checkClosedNoLock. rewrite Hcan, Hc1.
    cbn [check_ctx result_bind result_map_err]. rewrite Hd. cbn [mr_Metadata].
    rewrite Hs, Hsr, (proj2 (Z.ltb_lt _ _) Hpos). cbn [fst]. unfold used at 1. cbn.
    rewrite (rollbackQuota_used root (len body) b1 _ Hu) by (intros [= _ ?]; lia). cbn.
    rewrite !wrap64_id by (unfold in_int64, int64_min; lia). f_equal; lia.
Qed.

Lemma memory_quota_drifts_witness :
  let b := mem_run [] in
  let w := sampleWrite "hello" "" "" in
  let b1 := (Put (time_Unix 1) "/pod/a" (Some w) b).1.1 in
  used "/pod/a" (Delete Background "/pod/a" b1).1 = mkQuotaUsage 200 0 0 0.
Proof.
  intros b w b1. destruct (memory_quota_drifts [] "/pod/a" 0 eq_refl) as [_ H].
  apply (H (time_Unix 1) "/pod/a" w "hello" b1 (Some w)); try reflexivity; try discriminate;
    vm_compute; try split; discriminate || reflexivity.
Defined.

End Memory.
