(* ===== verification/StorageBackend.v ===== *)
(** * The storage backend interface

    The [StorageBackend] interface of [internal/storage/interface.go], as far as the storage
    engine uses it, with the laws the engine relies on, and the proof that the memory
    backend obeys them. *)

From S2P Require Import Prelude GoStrings GoGlob GoHash StorageTypes MemoryBackend.

Local Open Scope Z_scope.

(** ** The backend interface *)

Class StorageBackend (B : Type) := {
  (** What decides the order in which a listing visits the resources. *)
  be_order : Type;
  be_Initialize : GoMap -> B -> B * result error unit;
  be_Get : string -> B -> result error Resource;
  be_GetMetadata : string -> B -> result error Metadata;
  be_Put : Z -> string -> WriteResource -> B -> B * result error unit;
  be_Delete : Context -> string -> B -> B * result error unit;
  be_List : be_order -> Context -> string -> B -> result error (list Metadata);
  be_Exists : Context -> string -> B -> result error bool;
  be_StoreBlob : Context -> Bytes -> B -> B * result error string;
  be_GetBlob : Context -> string -> B -> result error Bytes;
  be_BlobExists : Context -> string -> B -> result error bool;
  be_DeleteBlob : Context -> string -> B -> B * result error unit;
  be_HealthCheck : B -> result error unit;
  be_Close : B -> B
}.

(** What a backend keeps of the metadata it is given: fields that are set stay, the size and
    the ETag of a body are filled in, and the fields it does not know about are left alone. *)
Definition metadata_stored (uri : string) (body : Bytes) (given stored : Metadata) : Prop :=
  md_URI stored = (if String.eqb (md_URI given) "" then uri else md_URI given) /\
  md_Size stored = (if md_Size given =? 0 then blen body else md_Size given) /\
  md_ETag stored = (if String.eqb (md_ETag given) ""
                    then match body with Some _ => generateETag body | None => "" end
                    else md_ETag given) /\
  md_ResourceType stored = (if String.eqb (md_ResourceType given) "" then ResourceTypeResource
                            else md_ResourceType given) /\
  (md_LayoutVersion given <> 0 -> md_LayoutVersion stored = md_LayoutVersion given) /\
  md_ContentType stored = md_ContentType given /\ md_Digest stored = md_Digest given /\
  md_ContentAddress stored = md_ContentAddress given /\ md_Custom stored = md_Custom given.

(** What the engine relies on. *)
Class StorageBackendLaws (B : Type) `{StorageBackend B} := {
  be_put_get (now : Z) (uri : string) (w : WriteResource) (b b' : B) :
    be_Put now uri w b = (b', Ok tt) ->
    exists body m, Memory.stored_body w = Some body /\ metadata_stored uri body (wr_Metadata w) m /\
      be_Get uri b' = Ok (mkResource uri body None m) /\ be_GetMetadata uri b' = Ok m;
  be_put_frame (now : Z) (uri uri' : string) (w : WriteResource) (b : B) :
    uri' <> uri -> be_Get uri' (be_Put now uri w b).1 = be_Get uri' b;
  be_put_failed (now : Z) (uri : string) (w : WriteResource) (b b' : B) (e : error) :
    be_Put now uri w b = (b', Err e) -> forall u, be_Get u b' = be_Get u b;
  be_delete_get (ctx : Context) (uri : string) (b b' : B) (r : result error unit) :
    be_Delete ctx uri b = (b', r) -> canonical uri ->
    (forall e, r = Err e -> errors_Is e ErrNotFound = true) ->
    be_Get uri b' = Err ErrNotFound /\ be_GetMetadata uri b' = Err ErrNotFound;
  be_delete_failed (ctx : Context) (uri : string) (b b' : B) (e : error) :
    be_Delete ctx uri b = (b', Err e) ->
    forall u, be_Get u b' = be_Get u b /\ be_GetMetadata u b' = be_GetMetadata u b;
  be_delete_frame (ctx : Context) (uri uri' : string) (b : B) :
    ValidateURI uri <> Ok uri' -> be_Get uri' (be_Delete ctx uri b).1 = be_Get uri' b;
  be_blob_frame (ctx : Context) (data : Bytes) (uri : string) (b : B) :
    be_Get uri (be_StoreBlob ctx data b).1 = be_Get uri b;
  be_blob_address (ctx : Context) (data : Bytes) (a : string) (b : B) :
    (be_StoreBlob ctx data b).2 = Ok a -> a = computeContentAddress data
}.

(** ** The memory backend implements the interface *)

#[export] Instance memory_backend : StorageBackend Memory.memoryBackend := {
  be_order := Memory.data_order;
  be_Initialize _ b := (b, Memory.Initialize b);
  be_Get := Memory.Get;
  be_GetMetadata := Memory.GetMetadata;
  be_Put now uri w b := let '(b', _, r) := Memory.Put now uri (Some w) b in (b', r);
  be_Delete := Memory.Delete;
  be_List := Memory.List;
  be_Exists := Memory.Exists;
  be_StoreBlob := Memory.StoreBlob;
  be_GetBlob := Memory.GetBlob;
  be_BlobExists := Memory.BlobExists;
  be_DeleteBlob := Memory.DeleteBlob;
  be_HealthCheck := Memory.HealthCheck;
  be_Close := Memory.Close
}.

Lemma prepareMetadata_stored (now : Z) (uri root : string) (v : Z) (body : Bytes) (m : Metadata) :
  metadata_stored uri body m (Memory.prepareMetadata now uri root v body m).
Proof.
  unfold metadata_stored, Memory.prepareMetadata. split_and!; Memory.skip_fills; try done.
  - unfold Memory.fillURI. by break_if.
  - unfold Memory.fillSize. Memory.skip_fills. destruct (md_Size m =? 0) eqn:E, body; cbn; try done.
    + Memory.skip_fills. by bool_prop.
    + by Memory.skip_fills.
    + by Memory.skip_fills.
  - unfold Memory.fillETag. Memory.skip_fills.
    destruct (String.eqb (md_ETag m) "") eqn:E, body; cbn; Memory.skip_fills; try done. by bool_prop.
  - unfold Memory.fillResourceType. Memory.skip_fills. break_if; cbn; by Memory.skip_fills.
  - intros Hv%Z.eqb_neq. unfold Memory.fillLayoutVersion. Memory.skip_fills. rewrite Hv.
    by Memory.skip_fills.
Qed.

(** The three ways a write to the memory backend ends. *)
Lemma memory_Put_cases (now : Z) (uri : string) (w : WriteResource) (b b' : Memory.memoryBackend)
    (r : result error unit) :
  be_Put now uri w b = (b', r) ->
  Memory.mb_closed b' = Memory.mb_closed b /\
  match r with
  | Ok _ => exists body, Memory.mb_closed b = false /\ uri <> "" /\ Memory.stored_body w = Some body /\
      Memory.mb_data b' = <[uri := Memory.mkMemoryResource uri body (Memory.prepareMetadata now uri
          (Memory.chargedRoot (md_StorageRoot (wr_Metadata w)) uri) (Memory.mb_layoutVersion b) body
          (wr_Metadata w))]> (Memory.mb_data b) /\
      Memory.mb_tombstones b' = delete uri (Memory.mb_tombstones b)
  | Err _ => Memory.mb_data b' = Memory.mb_data b /\ Memory.mb_tombstones b' = Memory.mb_tombstones b
  end.
Proof.
  cbn. unfold Memory.Put, Memory.checkClosedNoLock.
  destruct (Memory.mb_closed b) eqn:Hc; [by intros [= <- <-]|].
  destruct (String.eqb_spec uri "") as [|Hne]; [by intros [= <- <-]|].
  destruct (Memory.checkPreconditions _ _); [|by intros [= <- <-]].
  pose proof (Memory.readBody_spec w) as Hb. destruct (Memory.readBody w) as [w' [body|e]];
    cbn [snd] in Hb; [|by intros [= <- <-]].
  destruct (Memory.stored_body w) as [body'|]; [injection Hb as <-|by destruct Hb].
  destruct (if 0 <? _ then _ else _) as [q [u|e]]; intros [= <- <-]; cbn; [|done].
  split; [done|]. by exists body.
Qed.

#[export] Instance memory_laws : StorageBackendLaws Memory.memoryBackend.
Proof.
  split.
  - intros now uri w b b' Hput. destruct (memory_Put_cases now uri w b b' _ Hput)
      as (Hc & body & Hc0 & Hne & Hb & Hd & Ht).
    eexists body, _. split_and!; [done|apply prepareMetadata_stored|..];
      cbn; unfold Memory.Get, Memory.GetMetadata, Memory.checkClosedNoLock;
      rewrite Hc, Hc0, Ht, lookup_delete_eq, Hd, lookup_insert_eq; [|done].
    by rewrite (proj2 (String.eqb_neq _ _) Hne).
  - intros now uri uri' w b Hne. destruct (be_Put now uri w b) as [b' r] eqn:Hput.
    destruct (memory_Put_cases now uri w b b' _ Hput) as (Hc & Hr). cbn.
    unfold Memory.Get, Memory.checkClosedNoLock. rewrite Hc. destruct r.
    + destruct Hr as (body & _ & _ & _ & -> & ->). by rewrite lookup_delete_ne, lookup_insert_ne by done.
    + by destruct Hr as [-> ->].
  - intros now uri w b b' e Hput u. destruct (memory_Put_cases now uri w b b' _ Hput) as (Hc & Hd & Ht).
    cbn. unfold Memory.Get, Memory.checkClosedNoLock. by rewrite Hc, Hd, Ht.
  - intros ctx uri b b' r Hdel Hcan Hr. cbn in *. unfold Memory.Delete in Hdel.
    destruct ctx; [injection Hdel as <- <-; discriminate (Hr _ eq_refl)|].
    cbn [check_ctx result_bind] in Hdel. rewrite ValidateURI_sanitized, Hcan in Hdel.
    cbn [result_bind] in Hdel. rewrite Memory.check_open_eq in Hdel.
    destruct (Memory.mb_closed b) eqn:Hc; [injection Hdel as <- <-; discriminate (Hr _ eq_refl)|].
    cbn [result_bind result_map_err] in Hdel.
    assert (Memory.mb_closed b' = false /\ Memory.mb_data b' = delete uri (Memory.mb_data b))
      as [Hc' Hd].
    { destruct (Memory.mb_data b !! uri); [destruct (0 <? _)|]; injection Hdel as <- _; done. }
    apply canonical_spec in Hcan as (Hne & _). apply String.eqb_neq in Hne.
    unfold Memory.Get, Memory.GetMetadata, Memory.checkClosedNoLock. rewrite Hc', Hd, lookup_delete_eq, Hne.
    cbn. by destruct (Memory.mb_tombstones b' !! uri).
  - intros ctx uri b b' e Hdel u. cbn in Hdel. unfold Memory.Delete in Hdel.
    destruct (result_bind _ _) as [v|]; [|injection Hdel as <- _; split; reflexivity].
    destruct (Memory.mb_data b !! v); [destruct (0 <? _)|]; discriminate Hdel.
  - intros ctx uri uri' b Hne. cbn. unfold Memory.Delete. rewrite ValidateURI_sanitized.
    destruct (check_ctx ctx); [|done]. cbn [result_bind]. destruct (ValidateURI uri) as [v|]; [|done].
    cbn [result_bind]. destruct (Memory.check_open b) eqn:Ho; [|done]. cbn [result_bind].
    set (p := match Memory.mb_data b !! v with Some _ => _ | None => _ end).
    assert (Memory.mb_closed p.1 = Memory.mb_closed b /\ Memory.mb_tombstones p.1 = Memory.mb_tombstones b /\
            Memory.mb_data p.1 = delete v (Memory.mb_data b)) as (H1 & H2 & H3).
    { unfold p. destruct (Memory.mb_data b !! v); [destruct (0 <? _)|]; by split_and!. }
    unfold Memory.Get, Memory.checkClosedNoLock. rewrite H1, H2, H3, lookup_delete_ne by congruence.
    reflexivity.
  - intros ctx data uri b. cbn. unfold Memory.StoreBlob. by destruct (result_bind _ _).
  - intros ctx data a b. cbn. unfold Memory.StoreBlob. destruct (result_bind _ _); [|discriminate].
    cbn [snd]. intros H. injection H as H. symmetry. exact H.
Qed.
