(* ===== verification/StorageEngine.v ===== *)
(** * The storage engine

    [internal/storage/engine.go] and [internal/storage/stores.go]: the engine in front of a
    storage backend, with its tombstone store, quota manager, blob store, metrics and cache
    invalidation.  The engine is written against the [StorageBackend] interface; its methods
    are computations that may fail with an error or end in a run-time panic.

    Not modelled: the goroutine that runs the periodic integrity scan, logging, and the
    locks (every method runs alone).  [Put] completes the record of its caller; the model
    does not hand that record back. *)

From S2P Require Import Prelude GoStrings GoGlob GoHash StorageTypes MemoryBackend StorageBackend.

Local Open Scope Z_scope.

(** ** Configuration and metrics *)

Record QuotaConfig := mkQuotaConfig { qc_MaxBytes : Z; qc_MaxResources : Z }.

Record EngineConfig := mkEngineConfig {
  ec_DefaultBackend : string;
  ec_BackendConfigs : gmap string (gmap string string);
  ec_EnableBlobStorage : bool;
  ec_BlobStorageBackend : string;
  ec_EnableQuotaManagement : bool;
  ec_QuotaConfigs : gmap string QuotaConfig;
  ec_EnableTombstones : bool;
  ec_EnableIntegrityScanning : bool;
  ec_IntegrityScanInterval : Z;
  ec_EnableBackupRestore : bool
}.

Definition DefaultEngineConfig : EngineConfig :=
  mkEngineConfig "filesystem" ∅ true "" false ∅ true false 0 true.

(** The counters of [EngineMetrics], by the name of their field. *)
Record EngineMetrics := mkEngineMetrics {
  em_counters : gmap string Z;
  em_ErrorsByType : gmap string Z
}.

Definition incr (k : string) (m : gmap string Z) : gmap string Z :=
  <[k := wrap64 (default 0 (m !! k) + 1)]> m.
Definition count (k : string) (m : EngineMetrics) : EngineMetrics :=
  mkEngineMetrics (incr k (em_counters m)) (em_ErrorsByType m).

Definition field_for (suffix : string) (requestType : string) : option string :=
  let kinds := [("get", "Get"); ("put", "Put"); ("delete", "Delete"); ("list", "List");
                ("metadata", "Metadata")] in
  (fun kv => String.append kv.2 suffix) <$>
    List.find (fun kv => String.eqb kv.1 requestType) kinds.

Definition RecordRequest (requestType : string) (m : EngineMetrics) : EngineMetrics :=
  if String.eqb requestType "blob_store" then count "BlobStoreRequests" m
  else if String.eqb requestType "blob_retrieve" then count "BlobRetrieveRequests" m
  else match field_for "Requests" requestType with Some f => count f m | None => m end.

Definition RecordSuccess (requestType : string) (m : EngineMetrics) : EngineMetrics :=
  match field_for "Successes" requestType with Some f => count f m | None => m end.

Definition classifyError (e : error) : string :=
  if errors_Is e ErrNotFound then "not_found"
  else if errors_Is e ErrAlreadyExists then "already_exists"
  else if errors_Is e ErrPreconditionFailed then "precondition_failed"
  else if errors_Is e ErrConflict then "conflict"
  else if errors_Is e ErrQuotaExceeded then "quota_exceeded"
  else if errors_Is e ErrStorageClosed then "storage_closed"
  else if errors_Is e ErrInvalidURI then "invalid_uri"
  else if errors_Is e ErrBackendUnavailable then "backend_unavailable"
  else "internal".

Definition RecordError (requestType : string) (e : error) (m : EngineMetrics) : EngineMetrics :=
  let m1 := mkEngineMetrics (em_counters m) (incr (classifyError e) (em_ErrorsByType m)) in
  match field_for "Errors" requestType with Some f => count f m1 | None => m1 end.

(** ** The default stores *)

(** [defaultTombstoneStore]. *)
Definition ts_Get (uri : string) (t : gmap string Tombstone) : result error Tombstone :=
  match t !! uri with Some x => Ok x | None => Err ErrNotFound end.
Definition ts_Store (x : Tombstone) (t : gmap string Tombstone) : gmap string Tombstone :=
  <[ts_URI x := x]> t.
Definition ts_Delete (uri : string) (t : gmap string Tombstone) : gmap string Tombstone := delete uri t.
Definition ts_List (order : Memory.tombstone_order) (t : gmap string Tombstone) : list Tombstone :=
  omap (fun uri => t !! uri) (order t).
Definition ts_Exists (uri : string) (t : gmap string Tombstone) : bool :=
  match t !! uri with Some _ => true | None => false end.

(** [defaultQuotaManager]. *)
Definition qm_GetQuota (storageRoot : string) (q : gmap string QuotaInfo) : QuotaInfo :=
  default (mkQuotaInfo storageRoot "" 0 0 0 0) (q !! storageRoot).
Definition qm_GetTenantQuota (tenant : string) (q : gmap string QuotaInfo) : QuotaInfo :=
  default (mkQuotaInfo "" tenant 0 0 0 0) (q !! tenant).
Definition qm_CheckQuota (storageRoot : string) (additionalBytes : Z) (q : gmap string QuotaInfo)
  : result error unit :=
  let quota := qm_GetQuota storageRoot q in
  if qi_MaxBytes quota =? 0 then Ok tt
  else
    fail! ErrQuotaExceeded
      when qi_MaxBytes quota <? wrap64 (qi_UsedBytes quota + additionalBytes) in
    Ok tt.
Definition set_UsedBytes (v : Z) (q : QuotaInfo) : QuotaInfo :=
  mkQuotaInfo (qi_StorageRoot q) (qi_Tenant q) v (qi_MaxBytes q) (qi_UsedResources q) (qi_MaxResources q).
Definition qm_RecordUsage (storageRoot : string) (bytesUsed : Z) (q : gmap string QuotaInfo)
  : gmap string QuotaInfo :=
  match q !! storageRoot with
  | None => <[storageRoot := mkQuotaInfo storageRoot "" bytesUsed 0 0 0]> q
  | Some quota => <[storageRoot := set_UsedBytes (wrap64 (qi_UsedBytes quota + bytesUsed)) quota]> q
  end.
Definition qm_ReleaseUsage (storageRoot : string) (bytesFreed : Z) (q : gmap string QuotaInfo)
  : gmap string QuotaInfo :=
  match q !! storageRoot with
  | None => q
  | Some quota =>
      <[storageRoot := set_UsedBytes (Z.max 0 (wrap64 (qi_UsedBytes quota - bytesFreed))) quota]> q
  end.
Definition qm_SetQuota (storageRoot : string) (quota : QuotaInfo) (q : gmap string QuotaInfo)
  : gmap string QuotaInfo := <[storageRoot := quota]> q.

(** ** Utility functions *)

Definition validateStorageURI (uri : string) : result error unit :=
  fail! ErrInvalidURI when String.eqb uri "" in
  fail! ErrInvalidURI when Contains uri ".." in
  fail! ErrInvalidURI when Contains uri (String (chr 0) "") in
  Ok tt.

Definition set_wr_Body (body : Bytes) (w : WriteResource) : WriteResource :=
  mkWriteResource (wr_URI w) body (wr_BodyReader w) (wr_BodySize w) (wr_Metadata w) (wr_Preconditions w).
Definition set_wr_Metadata (m : Metadata) (w : WriteResource) : WriteResource :=
  mkWriteResource (wr_URI w) (wr_Body w) (wr_BodyReader w) (wr_BodySize w) m (wr_Preconditions w).

(** An empty body is taken as no body. *)
Definition validateResource (w : WriteResource) : result error WriteResource :=
  fail! ErrInvalidURI when String.eqb (wr_URI w) "" in
  Ok (match wr_Body w with
      | Some s => if len s =? 0 then set_wr_Body None w else w
      | None => w
      end).

Definition isPolicyResource (resourceType : string) : bool :=
  String.eqb resourceType ResourceTypeACL || String.eqb resourceType ResourceTypeACP.

(** [filepath.Ext]: from the last dot of the last path element. *)
Definition Ext (path : string) : string :=
  let base := match LastIndex path "/" with Some i => sdrop (S i) path | None => path end in
  match LastIndex base "." with Some i => sdrop i base | None => EmptyString end.

Definition detectContentType (uri : string) (data : Bytes) : string :=
  let types :=
    [(".ttl", "text/turtle"); (".n3", "text/n3"); (".json", "application/json");
     (".jsonld", "application/ld+json"); (".rdf", "application/rdf+xml"); (".xml", "application/xml");
     (".html", "text/html"); (".htm", "text/html"); (".txt", "text/plain"); (".jpeg", "image/jpeg");
     (".jpg", "image/jpeg"); (".png", "image/png"); (".gif", "image/gif")] in
  match List.find (fun kv => String.eqb kv.1 (Ext uri)) types with
  | Some (_, t) => t
  | None =>
      if (0 <? blen data) && (HasPrefix (content data) "{" || HasPrefix (content data) "[")
      then "application/json"
      else if (0 <? blen data) && HasPrefix (content data) "@prefix" then "text/turtle"
      else "application/octet-stream"
  end.

(** ** State

    The backends by name, one of which is the default; the stores are [None] where the code
    leaves them [nil].  [eng_delivered] is the list of the cache invalidations that were
    delivered, each with the invalidator that received it. *)

Record engine (B : Type) := mkEngine {
  eng_config : EngineConfig;
  eng_backends : gmap string B;
  eng_default : string;
  eng_tombstones : option (gmap string Tombstone);
  eng_quotas : option (gmap string QuotaInfo);
  eng_blobStore : bool;
  eng_layoutVersion : Z;
  eng_metrics : EngineMetrics;
  eng_closed : bool;
  eng_invalidators : list nat;
  eng_delivered : list (nat * CacheInvalidationEvent)
}.
Arguments mkEngine {B}.
Arguments eng_config {B}.
Arguments eng_backends {B}.
Arguments eng_default {B}.
Arguments eng_tombstones {B}.
Arguments eng_quotas {B}.
Arguments eng_blobStore {B}.
Arguments eng_layoutVersion {B}.
Arguments eng_metrics {B}.
Arguments eng_closed {B}.
Arguments eng_invalidators {B}.
Arguments eng_delivered {B}.

(** ** Computations: state, errors and panics *)

Definition M (B A : Type) : Type := engine B -> option (engine B * result error A).

#[export] Instance M_ret {B} : MRet (M B) := fun A a s => Some (s, Ok a).
#[export] Instance M_bind {B} : MBind (M B) := fun A C k m s =>
  match m s with
  | Some (s', Ok a) => k a s'
  | Some (s', Err e) => Some (s', Err e)
  | None => None
  end.

Section operations.
Context {B : Type} `{StorageBackend B}.

Definition throw {A} (e : error) : M B A := fun s => Some (s, Err e).
Definition panic {A} : M B A := fun _ => None.
(** The result of a computation, errors included, as a value. *)
Definition try {A} (m : M B A) : M B (result error A) := fun s =>
  match m s with Some (s', r) => Some (s', Ok r) | None => None end.
Definition modify (f : engine B -> engine B) : M B unit := fun s => Some (f s, Ok tt).
Definition gets {A} (f : engine B -> A) : M B A := fun s => Some (s, Ok (f s)).
Definition lift {A} (r : result error A) : M B A := fun s => Some (s, r).

Definition set_metrics (f : EngineMetrics -> EngineMetrics) (s : engine B) : engine B :=
  mkEngine (eng_config s) (eng_backends s) (eng_default s) (eng_tombstones s) (eng_quotas s)
    (eng_blobStore s) (eng_layoutVersion s) (f (eng_metrics s)) (eng_closed s) (eng_invalidators s)
    (eng_delivered s).
Definition set_backends (m : gmap string B) (s : engine B) : engine B :=
  mkEngine (eng_config s) m (eng_default s) (eng_tombstones s) (eng_quotas s)
    (eng_blobStore s) (eng_layoutVersion s) (eng_metrics s) (eng_closed s) (eng_invalidators s)
    (eng_delivered s).
Definition set_eng_tombstones (t : option (gmap string Tombstone)) (s : engine B) : engine B :=
  mkEngine (eng_config s) (eng_backends s) (eng_default s) t (eng_quotas s)
    (eng_blobStore s) (eng_layoutVersion s) (eng_metrics s) (eng_closed s) (eng_invalidators s)
    (eng_delivered s).
Definition set_quotas (q : option (gmap string QuotaInfo)) (s : engine B) : engine B :=
  mkEngine (eng_config s) (eng_backends s) (eng_default s) (eng_tombstones s) q
    (eng_blobStore s) (eng_layoutVersion s) (eng_metrics s) (eng_closed s) (eng_invalidators s)
    (eng_delivered s).
Definition set_version (v : Z) (s : engine B) : engine B :=
  mkEngine (eng_config s) (eng_backends s) (eng_default s) (eng_tombstones s) (eng_quotas s)
    (eng_blobStore s) v (eng_metrics s) (eng_closed s) (eng_invalidators s) (eng_delivered s).
Definition set_invalidators (l : list nat) (s : engine B) : engine B :=
  mkEngine (eng_config s) (eng_backends s) (eng_default s) (eng_tombstones s) (eng_quotas s)
    (eng_blobStore s) (eng_layoutVersion s) (eng_metrics s) (eng_closed s) l (eng_delivered s).
Definition deliver (l : list (nat * CacheInvalidationEvent)) (s : engine B) : engine B :=
  mkEngine (eng_config s) (eng_backends s) (eng_default s) (eng_tombstones s) (eng_quotas s)
    (eng_blobStore s) (eng_layoutVersion s) (eng_metrics s) (eng_closed s) (eng_invalidators s)
    (eng_delivered s ++ l).

Definition record_request (k : string) : M B unit := modify (set_metrics (RecordRequest k)).
Definition record_success (k : string) : M B unit := modify (set_metrics (RecordSuccess k)).
Definition record_error (k : string) (e : error) : M B unit := modify (set_metrics (RecordError k e)).

(** [if err != nil { s.metrics.RecordError(k, err); return wrap(err) }] *)
Definition or_fail {A} (k : string) (wrap : error -> error) (m : M B A) : M B A :=
  r ← try m;
  match r with
  | Ok a => mret a
  | Err e => _ ← record_error k e; throw (wrap e)
  end.

(** Calls of the default backend. *)
Definition backend_read {A} (f : B -> result error A) : M B A := fun s =>
  match eng_backends s !! eng_default s with
  | Some b => Some (s, f b)
  | None => None
  end.
Definition backend_write {A} (f : B -> B * result error A) : M B A := fun s =>
  match eng_backends s !! eng_default s with
  | Some b => let '(b', r) := f b in
              Some (set_backends (<[eng_default s := b']> (eng_backends s)) s, r)
  | None => None
  end.

(** Calls of the tombstone store, the quota manager and the blob store; [nil] panics. *)
Definition tombstones {A} (f : gmap string Tombstone -> gmap string Tombstone * result error A)
  : M B A := fun s =>
  match eng_tombstones s with
  | Some t => let '(t', r) := f t in Some (set_eng_tombstones (Some t') s, r)
  | None => None
  end.
Definition quotas {A} (f : gmap string QuotaInfo -> gmap string QuotaInfo * result error A)
  : M B A := fun s =>
  match eng_quotas s with
  | Some q => let '(q', r) := f q in Some (set_quotas (Some q') s, r)
  | None => None
  end.
Definition blobs {A} (m : M B A) : M B A := fun s => if eng_blobStore s then m s else None.

(** ** Tombstones *)

Definition GetTombstone (uri : string) : M B Tombstone := tombstones (fun t => (t, ts_Get uri t)).

Definition ListTombstones (order : Memory.tombstone_order) : M B (list Tombstone) :=
  tombstones (fun t => (t, Ok (ts_List order t))).

Definition isTombstoned (uri : string) : M B bool :=
  c ← gets eng_config;
  if negb (ec_EnableTombstones c) then mret false
  else
    r ← try (GetTombstone uri);
    match r with
    | Ok _ => mret true
    | Err e => if errors_Is e ErrNotFound then mret false else throw e
    end.

Definition check_tombstone (k uri : string) : M B bool :=
  or_fail k (fun e => Errorf_w "failed to check tombstone: " e "") (isTombstoned uri).

Definition RestoreFromTombstone (uri restoreToken : string) : M B unit :=
  r ← try (GetTombstone uri);
  match r with
  | Err e => throw (Errorf_w "failed to get tombstone: " e "")
  | Ok t =>
      if negb (String.eqb (ts_RestoreToken t) "") && negb (String.eqb (ts_RestoreToken t) restoreToken)
      then throw (Errorf_w "" ErrPreconditionFailed ": invalid restore token")
      else throw (Errorf "restore not implemented")
  end.

(** ** Reading *)

(** The fields [Get] computes when the backend did not store them. *)
Definition complete (uri : string) (body : Bytes) (m : Metadata) : Metadata :=
  let m := if String.eqb (md_ETag m) "" then set_md_ETag (generateETag body) m else m in
  if String.eqb (md_ContentType m) "" then set_md_ContentType (detectContentType uri body) m else m.

Definition Get (uri : string) : M B ReadResource :=
  _ ← record_request "get";
  _ ← or_fail "get" id (lift (validateStorageURI uri));
  t ← check_tombstone "get" uri;
  if t : bool then throw ErrNotFound
  else
    r ← or_fail "get" id (backend_read (be_Get uri));
    _ ← record_success "get";
    mret (mkResource uri (rs_Body r) None (complete uri (rs_Body r) (rs_Metadata r))).

Definition tombstoneMetadata (t : Tombstone) : Metadata :=
  mkMetadata "" ResourceTypeUnknown "" 0 "" (ts_DeletedAt t) 0 "" (ts_DeletedBy t) "" "" None None None
    "" 0 (Some {["tombstoned" := "true"]}).

Definition GetMetadata (uri : string) : M B Metadata :=
  _ ← record_request "metadata";
  _ ← or_fail "metadata" id (lift (validateStorageURI uri));
  t ← check_tombstone "metadata" uri;
  if t : bool then
    r ← try (GetTombstone uri);
    match r with
    | Err _ => throw ErrNotFound
    | Ok x => mret (tombstoneMetadata x)
    end
  else
    m ← or_fail "metadata" id (backend_read (be_GetMetadata uri));
    _ ← record_success "metadata";
    mret m.

Definition Exists (ctx : Context) (uri : string) : M B bool :=
  _ ← record_request "metadata";
  _ ← or_fail "metadata" id (lift (validateStorageURI uri));
  or_fail "metadata" id (backend_read (be_Exists ctx uri)).

Definition ExistsWithTombstone (ctx : Context) (uri : string) : M B (bool * bool) :=
  _ ← record_request "metadata";
  t ← or_fail "metadata" id (isTombstoned uri);
  e ← or_fail "metadata" id (Exists ctx uri);
  mret (e, t).

(** ** Writing *)

Definition handleIfNoneMatch (ctx : Context) (w : WriteResource) : M B bool :=
  let v := IfNoneMatch (wr_Preconditions w) in
  if String.eqb v "" then mret true
  else if String.eqb v "*" then
    r ← try (Exists ctx (wr_URI w));
    match r with
    | Err e => throw (Errorf_w "failed to check existence for If-None-Match: " e "")
    | Ok true => throw ErrPreconditionFailed
    | Ok false => mret true
    end
  else
    r ← try (GetMetadata (wr_URI w));
    match r with
    | Err e => if errors_Is e ErrNotFound then mret false
               else throw (Errorf_w "failed to get metadata for If-None-Match: " e "")
    | Ok m => if String.eqb (md_ETag m) v then throw ErrPreconditionFailed else mret true
    end.

Definition handleIfMatch (ctx : Context) (w : WriteResource) : M B unit :=
  let v := IfMatch (wr_Preconditions w) in
  if String.eqb v "" then mret tt
  else if String.eqb v "*" then
    r ← try (Exists ctx (wr_URI w));
    match r with
    | Err e => throw (Errorf_w "failed to check existence for If-Match: " e "")
    | Ok true => mret tt
    | Ok false => throw ErrPreconditionFailed
    end
  else
    r ← try (GetMetadata (wr_URI w));
    match r with
    | Err e => if errors_Is e ErrNotFound then throw ErrPreconditionFailed
               else throw (Errorf_w "failed to get metadata for If-Match: " e "")
    | Ok m => if negb (String.eqb (md_ETag m) v) then throw ErrPreconditionFailed else mret tt
    end.

Definition handleCompareAndSwap (w : WriteResource) : M B unit :=
  match CompareAndSwap (wr_Preconditions w) with
  | None => mret tt
  | Some cas =>
      r ← try (GetMetadata (wr_URI w));
      match r with
      | Err e => if errors_Is e ErrNotFound then throw ErrPreconditionFailed
                 else throw (Errorf_w "failed to get metadata for CompareAndSwap: " e "")
      | Ok m =>
          let current := default "" (gomap (md_Custom m) !! cas_Key cas) in
          if negb (String.eqb current (cas_ExpectedValue cas)) then throw ErrPreconditionFailed
          else mret tt
      end
  end.

(** An absent resource satisfies [If-None-Match] with an ETag, and ends the checks. *)
Definition handlePreconditions (ctx : Context) (w : WriteResource) : M B unit :=
  go_on ← handleIfNoneMatch ctx w;
  if negb go_on then mret tt
  else
    _ ← handleIfMatch ctx w;
    handleCompareAndSwap w.

Definition triggerCacheInvalidation (event : CacheInvalidationEvent) : M B unit :=
  modify (fun s => deliver (map (fun i => (i, event)) (eng_invalidators s)) s).

(** Whether quotas are managed for this write. *)
Definition has_quota (c : EngineConfig) (w : WriteResource) : bool :=
  ec_EnableQuotaManagement c && negb (String.eqb (md_StorageRoot (wr_Metadata w)) "").

(** The quota check of [Put]: a reader of unknown size is read first. *)
Definition checkPutQuota (c : EngineConfig) (w : WriteResource) : M B WriteResource :=
  if negb (has_quota c w) then mret w
  else
    w ← match wr_BodySize w =? 0, wr_BodyReader w with
        | true, Some rd =>
            match (ReadAll rd).2 with
            | Ok data => mret (mkWriteResource (wr_URI w) (Some data) None (len data) (wr_Metadata w)
                                 (wr_Preconditions w))
            | Err e => _ ← record_error "put" e;
                       throw (SanitizeError (Errorf_w "failed to read body for quota check: " e ""))
            end
        | _, _ => mret w
        end;
    _ ← or_fail "put" id
          (quotas (fun q => (q, qm_CheckQuota (md_StorageRoot (wr_Metadata w))
                       (wrap64 (wr_BodySize w + estimateMetadataSize (wr_Metadata w))) q)));
    mret w.

(** A content-addressed body goes to the blob store, if its digest is right. *)
Definition storeContent (ctx : Context) (w : WriteResource) : M B WriteResource :=
  let m := wr_Metadata w in
  if negb (String.eqb (md_ContentAddress m) "") && negb (String.eqb (md_Digest m) "") then
    if negb (String.eqb (computeDigest (wr_Body w)) (md_Digest m)) then
      _ ← record_error "put" ErrIntegrityViolation;
      throw ErrIntegrityViolation
    else
      address ← or_fail "put" (fun e => Errorf_w "failed to store blob: " e "")
                  (blobs (backend_write (be_StoreBlob ctx (wr_Body w))));
      mret (set_wr_Metadata (set_md_ContentAddress address m) w)
  else mret w.

(** The usage, the invalidation event and the success are recorded. *)
Definition finishPut (c : EngineConfig) (later : Z) (w : WriteResource) : M B unit :=
  _ ← (if has_quota c w
       then quotas (fun q => (qm_RecordUsage (md_StorageRoot (wr_Metadata w)) (wr_BodySize w) q, Ok tt))
       else mret tt);
  _ ← triggerCacheInvalidation
        (mkEvent (wr_URI w) (isPolicyResource (md_ResourceType (wr_Metadata w))) (wr_URI w) "" "put" later);
  record_success "put".

(** [Put] at the time [now]; the invalidation event is stamped at the time [later]. *)
Definition Put (now later : Z) (ctx : Context) (resource : WriteResource) : M B unit :=
  _ ← record_request "put";
  _ ← or_fail "put" id (lift (validateStorageURI (wr_URI resource)));
  w ← or_fail "put" id (lift (validateResource resource));
  c ← gets eng_config;
  w ← checkPutQuota c w;
  _ ← or_fail "put" id (handlePreconditions ctx w);
  w ← storeContent ctx w;
  _ ← or_fail "put" id (backend_write (be_Put now (wr_URI w) w));
  finishPut c later w.

(** ** Deleting *)

(** A deletion in the backend; a missing resource is no error. *)
Definition delete_backend (ctx : Context) (uri : string) : M B unit :=
  r ← try (backend_write (be_Delete ctx uri));
  match r with
  | Ok _ => mret tt
  | Err e => if errors_Is e ErrNotFound then mret tt else throw e
  end.

(** [metadataStore.DeleteMetadata], whose errors are logged. *)
Definition delete_metadata (ctx : Context) (uri : string) : M B unit :=
  _ ← try (backend_write (be_Delete ctx uri)); mret tt.

Definition Delete (later : Z) (ctx : Context) (uri : string) : M B unit :=
  _ ← record_request "delete";
  _ ← or_fail "delete" id (lift (validateStorageURI uri));
  _ ← or_fail "delete" id (delete_backend ctx uri);
  _ ← delete_metadata ctx uri;
  m ← try (backend_read (be_GetMetadata uri));
  let isPolicy := match m with Ok m => isPolicyResource (md_ResourceType m) | Err _ => false end in
  _ ← triggerCacheInvalidation (mkEvent uri isPolicy uri "" "delete" later);
  record_success "delete".

Definition DeleteWithTombstone (now : Z) (ctx : Context) (uri : string) (t : Tombstone) : M B unit :=
  _ ← record_request "delete";
  _ ← or_fail "delete" id (lift (validateStorageURI uri));
  let t := if String.eqb (ts_URI t) ""
           then mkTombstone uri (ts_DeletedAt t) (ts_DeletedBy t) (ts_Reason t) (ts_RestoreToken t)
           else t in
  let t := Memory.stampTombstone now t in
  _ ← or_fail "delete" (fun e => Errorf_w "failed to store tombstone: " e "")
        (tombstones (fun m => (ts_Store t m, Ok tt)));
  r ← try (delete_backend ctx uri);
  match r with
  | Err e =>
      _ ← record_error "delete" e;
      _ ← tombstones (fun m => (ts_Delete uri m, Ok tt));
      throw e
  | Ok _ =>
      _ ← delete_metadata ctx uri;
      _ ← record_success "delete";
      modify (set_metrics (count "TombstoneCreations"))
  end.

(** ** Listing *)

Fixpoint filter_tombstoned (l : list Metadata) : M B (list Metadata) :=
  match l with
  | [] => mret []
  | m :: l' =>
      t ← try (isTombstoned (md_URI m));
      rest ← filter_tombstoned l';
      mret (match t with Ok false => m :: rest | _ => rest end)
  end.

Definition List (order : be_order) (ctx : Context) (containerURI : string) : M B (list Metadata) :=
  _ ← record_request "list";
  _ ← or_fail "list" id (lift (validateStorageURI containerURI));
  l ← or_fail "list" id (backend_read (be_List order ctx containerURI));
  result ← filter_tombstoned l;
  _ ← record_success "list";
  mret result.

Definition ListWithPrefix (order : be_order) (ctx : Context) (containerURI prefix : string)
  : M B (list Metadata) :=
  _ ← record_request "list";
  _ ← or_fail "list" id (lift (validateStorageURI containerURI));
  l ← List order ctx containerURI;
  mret (filter (fun m => HasPrefix (TrimPrefix (md_URI m) containerURI) prefix = true) l).

Definition getAllStorageRoots : list string := ["/"].

(** Each root is listed twice, the second time without effect on the result. *)
Definition ListAll (order order' : be_order) (torder : Memory.tombstone_order) (ctx : Context)
  : M B (list Metadata) :=
  _ ← record_request "list_all";
  all ← foldl (fun acc root =>
      l ← acc;
      r ← try (List order ctx root);
      match r with
      | Err _ => mret l
      | Ok found => _ ← try (List order' ctx root); mret (l ++ found)
      end) (mret []) getAllStorageRoots;
  _ ← try (ListTombstones torder);
  _ ← record_success "list_all";
  mret all.

(** ** Blobs *)

Definition StoreBlob (ctx : Context) (data : Bytes) : M B string :=
  _ ← record_request "blob_store";
  c ← gets eng_config;
  _ ← (if ec_EnableQuotaManagement c
       then or_fail "blob_store" id (quotas (fun q => (q, qm_CheckQuota "blobs" (blen data) q)))
       else mret tt);
  address ← or_fail "blob_store" id (blobs (backend_write (be_StoreBlob ctx data)));
  _ ← record_success "blob_store";
  mret address.

Definition GetBlob (ctx : Context) (address : string) : M B Bytes :=
  _ ← record_request "blob_retrieve";
  data ← or_fail "blob_retrieve" id (blobs (backend_read (be_GetBlob ctx address)));
  _ ← record_success "blob_retrieve";
  mret data.

Definition DeleteBlob (ctx : Context) (address : string) : M B unit :=
  _ ← record_request "delete";
  _ ← or_fail "delete" id (blobs (backend_write (be_DeleteBlob ctx address)));
  record_success "delete".

Definition BlobExists (ctx : Context) (address : string) : M B bool :=
  _ ← record_request "metadata";
  or_fail "metadata" id (blobs (backend_read (be_BlobExists ctx address))).

(** ** Quotas, layout and invalidators *)

Definition GetQuota (storageRoot : string) : M B QuotaInfo :=
  c ← gets eng_config;
  if negb (ec_EnableQuotaManagement c) then mret (mkQuotaInfo storageRoot "" 0 0 0 0)
  else quotas (fun q => (q, Ok (qm_GetQuota storageRoot q))).

Definition GetTenantQuota (tenant : string) : M B QuotaInfo :=
  c ← gets eng_config;
  if negb (ec_EnableQuotaManagement c) then mret (mkQuotaInfo "" tenant 0 0 0 0)
  else quotas (fun q => (q, Ok (qm_GetTenantQuota tenant q))).

Definition CheckQuota (storageRoot : string) (additionalBytes : Z) : M B unit :=
  c ← gets eng_config;
  if negb (ec_EnableQuotaManagement c) then mret tt
  else quotas (fun q => (q, qm_CheckQuota storageRoot additionalBytes q)).

Definition GetLayoutVersion : M B Z := gets eng_layoutVersion.

Definition SetLayoutVersion (version : Z) : M B unit :=
  if version <? MinSupportedStorageLayoutVersion
  then throw (Errorf (Join ["version "; FormatInt version; " is below minimum supported version ";
                            FormatInt MinSupportedStorageLayoutVersion] ""))
  else modify (set_version version).

Definition MigrateLayout (targetVersion : Z) : M B unit :=
  throw (Errorf "layout migration not implemented").

Definition RegisterCacheInvalidator (i : nat) : M B unit :=
  modify (fun s => set_invalidators (eng_invalidators s ++ [i]) s).

Fixpoint remove_first (i : nat) (l : list nat) : list nat :=
  match l with
  | [] => []
  | j :: l' => if bool_decide (j = i) then l' else j :: remove_first i l'
  end.

Definition UnregisterCacheInvalidator (i : nat) : M B unit :=
  modify (fun s => set_invalidators (remove_first i (eng_invalidators s)) s).

(** ** Life cycle *)

(** [%q], for names without control or non-ASCII characters. *)
Definition Quote (s : string) : string :=
  quoted (ReplaceAll (ReplaceAll s "\" "\\") dquote (String.append "\" dquote)).

Definition RegisterBackend (name : string) (b : B) : M B unit :=
  closed ← gets eng_closed;
  bs ← gets eng_backends;
  if closed : bool then throw ErrStorageClosed
  else match bs !! name with
       | Some _ => throw (Errorf (Join ["backend "; Quote name; " already registered"] ""))
       | None => modify (set_backends (<[name := b]> bs))
       end.

Definition GetBackend (name : string) : M B B :=
  closed ← gets eng_closed;
  bs ← gets eng_backends;
  if closed : bool then throw ErrStorageClosed
  else match bs !! name with
       | None => throw (Errorf_w "" ErrNotFound (String.append ": backend " (Quote name)))
       | Some b => mret b
       end.

(** The backends are asked in the order in which the map is visited. *)
Definition HealthCheck (order : gmap string B -> list string) : M B unit :=
  r ← try (backend_read be_HealthCheck);
  match r with
  | Err e => throw (Errorf_w "default backend health check failed: " e "")
  | Ok _ =>
      bs ← gets eng_backends;
      lift (foldl (fun acc name =>
        let! _ := acc in
        match bs !! name with
        | Some b => result_map_err
            (fun e => Errorf_w (Join ["backend "; Quote name; " health check failed: "] "") e "")
            (be_HealthCheck b)
        | None => Ok tt
        end) (Ok tt) (order bs))
  end.

Definition Close : M B unit :=
  closed ← gets eng_closed;
  if closed : bool then mret tt
  else modify (fun s =>
    mkEngine (eng_config s) (be_Close <$> eng_backends s) (eng_default s) (eng_tombstones s)
      (eng_quotas s) (eng_blobStore s) (eng_layoutVersion s) (eng_metrics s) true
      (eng_invalidators s) (eng_delivered s)).

(** The backends of a new engine: the two default ones and the configured ones, of which a
    memory backend is the only kind that is not a directory. *)
Definition initialBackends (NewFilesystemBackend : string -> B) (NewMemoryBackend : B)
    (config : EngineConfig) : gmap string B :=
  let make (c : gmap string string) : B :=
    if String.eqb (default "" (c !! "type")) "memory" then NewMemoryBackend
    else NewFilesystemBackend (default "" (c !! "root_path")) in
  <["filesystem" := NewFilesystemBackend "./storage"]>
    (<["memory" := NewMemoryBackend]> (make <$> ec_BackendConfigs config)).

Definition NewStorageEngine (NewFilesystemBackend : string -> B) (NewMemoryBackend : B)
    (config : EngineConfig) : result error (engine B) :=
  let backends := initialBackends NewFilesystemBackend NewMemoryBackend config in
  let name := ec_DefaultBackend config in
  let fail e := Errorf_w "failed to set default backend: " e "" in
  match backends !! name with
  | None => Err (fail (Errorf (Join ["backend "; Quote name; " not found"] "")))
  | Some b =>
      match be_Initialize (ec_BackendConfigs config !! name) b with
      | (_, Err e) =>
          Err (fail (Errorf_w (Join ["failed to initialize backend "; Quote name; ": "] "") e ""))
      | (b', Ok _) =>
          Ok (mkEngine config (<[name := b']> backends) name
                (if ec_EnableTombstones config then Some ∅ else None)
                (if ec_EnableQuotaManagement config then Some ∅ else None)
                (ec_EnableBlobStorage config) CurrentStorageLayoutVersion (mkEngineMetrics ∅ ∅)
                false [] [])
      end
  end.

(** ** Histories *)

Inductive engine_op :=
| EGet (uri : string)
| EGetMetadata (uri : string)
| EPut (now later : Z) (ctx : Context) (w : WriteResource)
| EDelete (later : Z) (ctx : Context) (uri : string)
| EDeleteWithTombstone (now : Z) (ctx : Context) (uri : string) (t : Tombstone)
| EList (order : be_order) (ctx : Context) (uri : string)
| EListAll (order order' : be_order) (torder : Memory.tombstone_order) (ctx : Context)
| EExists (ctx : Context) (uri : string)
| EStoreBlob (ctx : Context) (data : Bytes)
| EGetBlob (ctx : Context) (address : string)
| EDeleteBlob (ctx : Context) (address : string)
| ECheckQuota (root : string) (n : Z)
| ESetLayoutVersion (v : Z)
| ERegisterCacheInvalidator (i : nat)
| EUnregisterCacheInvalidator (i : nat)
| EClose.

Definition ignore {A} (m : M B A) : M B unit := _ ← try m; mret tt.

Definition engine_step (op : engine_op) : M B unit :=
  match op with
  | EGet uri => ignore (Get uri)
  | EGetMetadata uri => ignore (GetMetadata uri)
  | EPut now later ctx w => ignore (Put now later ctx w)
  | EDelete later ctx uri => ignore (Delete later ctx uri)
  | EDeleteWithTombstone now ctx uri t => ignore (DeleteWithTombstone now ctx uri t)
  | EList order ctx uri => ignore (List order ctx uri)
  | EListAll order order' torder ctx => ignore (ListAll order order' torder ctx)
  | EExists ctx uri => ignore (Exists ctx uri)
  | EStoreBlob ctx data => ignore (StoreBlob ctx data)
  | EGetBlob ctx a => ignore (GetBlob ctx a)
  | EDeleteBlob ctx a => ignore (DeleteBlob ctx a)
  | ECheckQuota root n => ignore (CheckQuota root n)
  | ESetLayoutVersion v => ignore (SetLayoutVersion v)
  | ERegisterCacheInvalidator i => ignore (RegisterCacheInvalidator i)
  | EUnregisterCacheInvalidator i => ignore (UnregisterCacheInvalidator i)
  | EClose => ignore Close
  end.

(** The state after a sequence of calls, unless one of them panics. *)
Fixpoint engine_run (ops : list engine_op) (s : engine B) : option (engine B) :=
  match ops with
  | [] => Some s
  | op :: ops' => match engine_step op s with
                  | Some (s', _) => engine_run ops' s'
                  | None => None
                  end
  end.

(** ** Reasoning about computations *)

(** A relation between the states before and after, kept by a computation however it ends. *)
Definition keeps {A} (P : engine B -> engine B -> Prop) (m : M B A) : Prop :=
  forall s s' r, m s = Some (s', r) -> P s s'.

Section keeps.
Context (P : engine B -> engine B -> Prop) {HP : PreOrder P}.

Lemma keeps_ret {A} (a : A) : keeps P (mret a).
Proof. intros s s' r [= <- _]. reflexivity. Qed.
Lemma keeps_throw {A} (e : error) : keeps P (throw (A := A) e).
Proof. intros s s' r [= <- _]. reflexivity. Qed.
Lemma keeps_gets {A} (f : engine B -> A) : keeps P (gets f).
Proof. intros s s' r [= <- _]. reflexivity. Qed.
Lemma keeps_lift {A} (x : result error A) : keeps P (lift x).
Proof. intros s s' r [= <- _]. reflexivity. Qed.
Lemma keeps_bind {A C} (m : M B A) (k : A -> M B C) :
  keeps P m -> (forall a, keeps P (k a)) -> keeps P (x ← m; k x).
Proof.
  intros Hm Hk s s' r. unfold mbind, M_bind. destruct (m s) as [[s1 [a|e]]|] eqn:E; [| |done].
  - intros H2. transitivity s1; [by eapply Hm|by eapply Hk].
  - intros [= <- <-]. by eapply Hm.
Qed.
Lemma keeps_try {A} (m : M B A) : keeps P m -> keeps P (try m).
Proof.
  intros Hm s s' r. unfold try. destruct (m s) as [[s1 x]|] eqn:E; [|done].
  intros [= <- _]. by eapply Hm.
Qed.
Lemma keeps_modify (f : engine B -> engine B) : (forall s, P s (f s)) -> keeps P (modify f).
Proof. intros Hf s s' r [= <- _]. apply Hf. Qed.
Lemma keeps_backend_read {A} (f : B -> result error A) : keeps P (backend_read f).
Proof. intros s s' r. unfold backend_read. destruct (_ !! _); [|done]. intros [= <- _]. reflexivity. Qed.
Lemma keeps_backend_write {A} (f : B -> B * result error A) :
  (forall s m, P s (set_backends m s)) -> keeps P (backend_write f).
Proof.
  intros Hw s s' r. unfold backend_write. destruct (_ !! _); [|done]. destruct (f _).
  intros [= <- _]. apply Hw.
Qed.
Lemma keeps_blobs {A} (m : M B A) : keeps P m -> keeps P (blobs m).
Proof. intros Hm s s' r. unfold blobs. destruct (eng_blobStore s); [|done]. apply Hm. Qed.
Lemma keeps_quotas {A} (f : gmap string QuotaInfo -> gmap string QuotaInfo * result error A) :
  (forall s q, eng_quotas s = Some q -> P s (set_quotas (Some (f q).1) s)) -> keeps P (quotas f).
Proof.
  intros Hq s s' r. unfold quotas. destruct (eng_quotas s) eqn:E; [|done].
  specialize (Hq s _ E). destruct (f _). intros [= <- _]. apply Hq.
Qed.
Lemma keeps_tombstones {A} (f : gmap string Tombstone -> gmap string Tombstone * result error A) :
  (forall s t, eng_tombstones s = Some t -> P s (set_eng_tombstones (Some (f t).1) s)) ->
  keeps P (tombstones f).
Proof.
  intros Hq s s' r. unfold tombstones. destruct (eng_tombstones s) eqn:E; [|done].
  specialize (Hq s _ E). destruct (f _). intros [= <- _]. apply Hq.
Qed.
End keeps.

End operations.

(** Walks through a computation; [base] settles the steps that change the state. *)
Ltac keeps_walk base :=
  repeat first
    [ progress intros
    | apply keeps_ret; [exact _] | apply keeps_throw; [exact _] | apply keeps_gets; [exact _]
    | apply keeps_lift; [exact _] | apply keeps_backend_read; [exact _]
    | apply keeps_try | apply keeps_blobs
    | apply keeps_bind; [exact _| |]
    | match goal with
      | |- keeps _ (if ?b then _ else _) => destruct b
      | |- keeps _ (match ?x with _ => _ end) => destruct x
      | |- keeps _ (let _ := _ in _) => cbv zeta
      end
    | apply keeps_backend_write; base | apply keeps_modify; base
    | apply keeps_quotas; base | apply keeps_tombstones; base ].

Ltac keeps_unfold :=
  unfold engine_step, ignore, Get, GetMetadata, Exists, Put, finishPut, checkPutQuota, storeContent,
    handlePreconditions, handleIfNoneMatch, handleIfMatch, handleCompareAndSwap,
    triggerCacheInvalidation, Delete, DeleteWithTombstone, delete_backend, delete_metadata, List, ListAll, StoreBlob,
    GetBlob, DeleteBlob, CheckQuota, SetLayoutVersion, RegisterCacheInvalidator,
    UnregisterCacheInvalidator, Close, check_tombstone, isTombstoned, GetTombstone, ListTombstones,
    record_request, record_success, record_error, or_fail, getAllStorageRoots; cbn [foldl].

Section lemmas.
Context {B : Type} `{HB : StorageBackend B}.

Lemma keeps_filter_tombstoned (P : engine B -> engine B -> Prop) `{PreOrder _ P} (l : list Metadata) :
  (forall uri, keeps P (isTombstoned uri)) -> keeps P (filter_tombstoned l).
Proof.
  intros Ht. induction l as [|m l IH]; cbn [filter_tombstoned]; [by apply keeps_ret|].
  apply keeps_bind; [done|by apply keeps_try|]. intros x. apply keeps_bind; [done|done|].
  intros y. by apply keeps_ret.
Qed.

(** *** Tombstones *)

(** The tombstone of [uri] stays. *)
Definition keeps_tombstone (uri : string) (s s' : engine B) : Prop :=
  eng_config s' = eng_config s /\
  ((exists t, eng_tombstones s = Some t /\ is_Some (t !! uri)) ->
   exists t, eng_tombstones s' = Some t /\ is_Some (t !! uri)).

#[local] Instance keeps_tombstone_preorder uri : PreOrder (keeps_tombstone uri).
Proof.
  split; [by split|]. intros s1 s2 s3 [Hc1 H1] [Hc2 H2]. split; [by rewrite Hc2|]. auto.
Qed.

Lemma keeps_tombstone_eq (uri : string) (s s' : engine B) :
  eng_config s' = eng_config s -> eng_tombstones s' = eng_tombstones s -> keeps_tombstone uri s s'.
Proof. intros Hc Ht. split; [done|]. by rewrite Ht. Qed.

Lemma isTombstoned_keeps (uri u : string) : keeps (keeps_tombstone uri) (isTombstoned u).
Proof.
  keeps_unfold. keeps_walk ltac:(intros; apply keeps_tombstone_eq; done).
Qed.

Definition same_tombstone_uri (uri : string) (op : engine_op) : bool :=
  match op with EDeleteWithTombstone _ _ u _ => String.eqb u uri | _ => false end.

Lemma engine_step_keeps_tombstone (uri : string) (op : engine_op) :
  same_tombstone_uri uri op = false -> keeps (keeps_tombstone uri) (engine_step op).
Proof.
  intros Hop. destruct op; keeps_unfold;
    keeps_walk ltac:(intros; apply keeps_tombstone_eq; done);
    try (apply keeps_filter_tombstoned; [exact _|apply isTombstoned_keeps]);
    apply keeps_tombstones; intros s m Hm; (split; [done|]); intros (m' & Hm' & Hu);
    rewrite Hm in Hm'; injection Hm' as <-; (eexists; split; [done|]); cbn [fst].
  - unfold ts_Store. destruct (decide (ts_URI (Memory.stampTombstone now
      (if String.eqb (ts_URI t) "" then mkTombstone uri0 (ts_DeletedAt t) (ts_DeletedBy t)
         (ts_Reason t) (ts_RestoreToken t) else t)) = uri)) as [->|Hne];
      [rewrite lookup_insert_eq; eauto|by rewrite lookup_insert_ne].
  - unfold ts_Delete. cbn in Hop. bool_prop. by rewrite lookup_delete_ne.
Qed.

Lemma engine_run_keeps_tombstone (uri : string) (ops : list engine_op) (s s' : engine B) :
  Forall (fun op => same_tombstone_uri uri op = false) ops -> engine_run ops s = Some s' ->
  keeps_tombstone uri s s'.
Proof.
  intros Hops. revert s. induction Hops as [|op ops Hop _ IH]; intros s; cbn [engine_run].
  - intros [= <-]. reflexivity.
  - destruct (engine_step op s) as [[s1 r]|] eqn:E; [|done]. intros Hr.
    transitivity s1; [by eapply engine_step_keeps_tombstone|by apply IH].
Qed.

(** *** Inversion *)

Lemma bind_Ok {A C} (m : M B A) (k : A -> M B C) (s s' : engine B) (c : C) :
  (x ← m; k x) s = Some (s', Ok c) -> exists s1 a, m s = Some (s1, Ok a) /\ k a s1 = Some (s', Ok c).
Proof. unfold mbind, M_bind. destruct (m s) as [[s1 [a|e]]|]; [|done|done]. eauto. Qed.

Lemma or_fail_Ok {A} (k : string) (w : error -> error) (m : M B A) (s s' : engine B) (a : A) :
  or_fail k w m s = Some (s', Ok a) <-> m s = Some (s', Ok a).
Proof.
  unfold or_fail, try, mbind, M_bind. destruct (m s) as [[s1 [x|e]]|]; cbn; by split.
Qed.

(** What an answered [Get] of a tombstoned resource is. *)
Lemma isTombstoned_true (uri : string) (s : engine B) (t : gmap string Tombstone) :
  ec_EnableTombstones (eng_config s) = true -> eng_tombstones s = Some t -> is_Some (t !! uri) ->
  exists s', isTombstoned uri s = Some (s', Ok true).
Proof.
  intros Hc Ht [x Hx]. unfold isTombstoned, GetTombstone, tombstones, gets, try, mbind, M_bind, ts_Get.
  rewrite Hc. cbn. rewrite Ht, Hx. cbn. eauto.
Qed.

Lemma Get_tombstoned (uri : string) (s : engine B) (t : gmap string Tombstone) :
  validateStorageURI uri = Ok tt -> ec_EnableTombstones (eng_config s) = true ->
  eng_tombstones s = Some t -> is_Some (t !! uri) ->
  exists s', Get uri s = Some (s', Err ErrNotFound).
Proof.
  intros Hv Hc Ht Hx.
  destruct (isTombstoned_true uri (set_metrics (RecordRequest "get") s) t) as [s1 H1]; [done..|].
  exists s1. unfold Get, record_request, modify, lift, check_tombstone, or_fail, try, mbind, M_bind.
  rewrite Hv. cbn. by rewrite H1.
Qed.

Lemma try_inv {A} (m : M B A) (s s' : engine B) (r : result error A) :
  try m s = Some (s', Ok r) -> m s = Some (s', r).
Proof. unfold try. destruct (m s) as [[s1 x]|]; [|done]. by intros [= <- <-]. Qed.

Lemma DeleteWithTombstone_stores (now : Z) (ctx : Context) (uri : string) (t : Tombstone)
    (s s' : engine B) :
  DeleteWithTombstone now ctx uri t s = Some (s', Ok tt) -> ts_URI t = "" \/ ts_URI t = uri ->
  eng_config s' = eng_config s /\ exists m, eng_tombstones s' = Some m /\ is_Some (m !! uri).
Proof.
  intros Hd Hu. unfold DeleteWithTombstone in Hd.
  apply bind_Ok in Hd as (s1 & [] & Hr & Hd). injection Hr as <-.
  apply bind_Ok in Hd as (s1 & [] & Hv & Hd). apply or_fail_Ok in Hv. injection Hv as <- _. cbv zeta in Hd.
  set (t' := Memory.stampTombstone now _) in Hd.
  assert (ts_URI t' = uri) as Ht'.
  { unfold t', Memory.stampTombstone. destruct Hu as [Hu|Hu]; rewrite Hu; repeat (break_if; cbn); done. }
  apply bind_Ok in Hd as (s2 & [] & Hs2 & Hd). apply or_fail_Ok in Hs2. unfold tombstones in Hs2.
  destruct (eng_tombstones _) as [m|] eqn:Hm; [|done]. injection Hs2 as <-.
  set (s2 := set_eng_tombstones _ _) in Hd.
  assert (eng_config s2 = eng_config s /\ exists m, eng_tombstones s2 = Some m /\ is_Some (m !! uri)) as [Hc2 H2].
  { split; [done|]. eexists. split; [done|]. unfold ts_Store. rewrite Ht', lookup_insert_eq. eauto. }
  clearbody s2. apply bind_Ok in Hd as (s3 & r & H3 & Hd).
  assert (keeps (keeps_tombstone uri) (try (delete_backend (B := B) ctx uri))) as Hk.
  { keeps_unfold. keeps_walk ltac:(intros; apply keeps_tombstone_eq; done). }
  destruct (Hk _ _ _ H3) as [Hc3 H3'].
  destruct r as [[]|e]; [|apply bind_Ok in Hd as (? & ? & ? & Hd); by apply bind_Ok in Hd as (? & ? & ? & ?)].
  assert (keeps (keeps_tombstone uri) (_ ← delete_metadata (B := B) ctx uri;
    _ ← record_success "delete"; modify (set_metrics (count "TombstoneCreations")))) as Hk2.
  { keeps_unfold. keeps_walk ltac:(intros; apply keeps_tombstone_eq; done). }
  destruct (Hk2 _ _ _ Hd) as [Hc4 H4]. split; [congruence|]. auto.
Qed.

(** *** Writes *)

(** The default backend. *)
Definition backend (s : engine B) : option B := eng_backends s !! eng_default s.

Lemma backend_write_inv {A} (f : B -> B * result error A) (s s' : engine B) (r : result error A) :
  backend_write f s = Some (s', r) ->
  exists b, backend s = Some b /\ backend s' = Some (f b).1 /\ r = (f b).2 /\ eng_default s' = eng_default s.
Proof.
  unfold backend_write, backend. destruct (_ !! _) as [b|]; [|done]. destruct (f b) as [b' r'] eqn:Ef.
  intros [= <- <-]. exists b. cbn. by rewrite lookup_insert_eq, Ef.
Qed.

(** What a write that reaches the backend still has of the caller's record. *)
Record completes (w w' : WriteResource) : Prop := {
  co_URI : wr_URI w' = wr_URI w;
  co_preconditions : wr_Preconditions w' = wr_Preconditions w;
  co_metadata : exists a, wr_Metadata w' = set_md_ContentAddress a (wr_Metadata w) /\
    (a = md_ContentAddress (wr_Metadata w) \/
     exists ctx data b, (be_StoreBlob ctx data b).2 = Ok a /\
       (wr_BodyReader w = None -> content data = content (wr_Body w)));
  co_address : md_ContentAddress (wr_Metadata w) = "" \/ md_Digest (wr_Metadata w) = "" ->
    wr_Metadata w' = wr_Metadata w;
  co_body : wr_BodyReader w = None ->
    wr_BodyReader w' = None /\ content (wr_Body w') = content (wr_Body w)
}.

Lemma set_address_id (m : Metadata) : set_md_ContentAddress (md_ContentAddress m) m = m.
Proof. by destruct m. Qed.

Lemma completes_refl (w : WriteResource) : completes w w.
Proof. split; try done. exists (md_ContentAddress (wr_Metadata w)). rewrite set_address_id. auto. Qed.

Lemma validateResource_completes (w w' : WriteResource) :
  validateResource w = Ok w' -> completes w w'.
Proof.
  unfold validateResource. break_if; [done|]. intros [= <-]. destruct (wr_Body w) as [x|] eqn:Eb.
  - destruct (len x =? 0) eqn:El; [|apply completes_refl]. split; try done.
    + exists (md_ContentAddress (wr_Metadata w)). cbn. rewrite set_address_id. auto.
    + intros Hr. split; [done|]. cbn. rewrite Eb. bool_prop. by destruct x.
  - apply completes_refl.
Qed.

Lemma completes_trans (w1 w2 w3 : WriteResource) : completes w1 w2 -> completes w2 w3 -> completes w1 w3.
Proof.
  intros [Hu1 Hp1 (a1 & Hm1 & Ho1) Ha1 Hb1] [Hu2 Hp2 (a2 & Hm2 & Ho2) Ha2 Hb2]. split.
  - congruence.
  - congruence.
  - exists a2. split; [by rewrite Hm2, Hm1|]. destruct Ho2 as [->|(ctx & data & b & Hs & Hc)].
    + rewrite Hm1. cbn. exact Ho1.
    + right. exists ctx, data, b. split; [done|]. intros Hr. destruct (Hb1 Hr) as [Hr2 Hc1].
      rewrite <- Hc1. auto.
  - intros Hn. specialize (Ha1 Hn). rewrite <- Ha1. apply Ha2. by rewrite Ha1.
  - intros Hr. destruct (Hb1 Hr) as [Hr2 Hc1]. destruct (Hb2 Hr2) as [Hr3 Hc2]. split; congruence.
Qed.

Lemma checkPutQuota_completes (c : EngineConfig) (w w' : WriteResource) (s s' : engine B) :
  checkPutQuota c w s = Some (s', Ok w') -> completes w w'.
Proof.
  unfold checkPutQuota. destruct (has_quota c w); cbn [negb]; [|intros [= _ <-]; apply completes_refl].
  intros Hq. apply bind_Ok in Hq as (s1 & w1 & H1 & Hq). apply bind_Ok in Hq as (s2 & [] & _ & Hq).
  injection Hq as _ <-. destruct (wr_BodySize w =? 0), (wr_BodyReader w) as [rd|] eqn:Erd;
    try (injection H1 as _ <-; apply completes_refl).
  destruct ((ReadAll rd).2) as [data|e]; [|by apply bind_Ok in H1 as (? & ? & ? & ?)].
  injection H1 as _ <-. split; try done; [|by rewrite Erd].
  exists (md_ContentAddress (wr_Metadata w)). cbn. rewrite set_address_id. auto.
Qed.

Lemma storeContent_completes (ctx : Context) (w w' : WriteResource) (s s' : engine B) :
  storeContent ctx w s = Some (s', Ok w') -> completes w w'.
Proof.
  unfold storeContent. destruct (negb _ && negb _) eqn:E; [|intros [= _ <-]; apply completes_refl].
  bool_prop. destruct (negb _); [by intros (? & ? & ? & ?)%bind_Ok|].
  intros (s1 & a & Hs & Hr)%bind_Ok. injection Hr as _ <-. split; try done; [|tauto].
  exists a. split; [done|]. right. apply or_fail_Ok in Hs. unfold blobs in Hs.
  destruct (eng_blobStore s); [|done]. apply backend_write_inv in Hs as (b & _ & _ & Hb & _).
  by exists ctx, (wr_Body w), b.
Qed.

(** The bytes a successful write stores: those of the body; but those of the reader if there is one
    and either the body is empty, or a quota is to be checked for a body of unknown size. *)
Definition putContent (c : EngineConfig) (w : WriteResource) : string :=
  match wr_BodyReader w with
  | Some rd => if String.eqb (content (wr_Body w)) "" || has_quota c w && (wr_BodySize w =? 0) then rd_rest rd else content (wr_Body w)
  | None => content (wr_Body w)
  end.

Lemma stored_body_content (w : WriteResource) (body : Bytes) :
  Memory.stored_body w = Some body ->
  content body = match wr_Body w, wr_BodyReader w with None, Some rd => rd_rest rd | b, _ => content b end.
Proof.
  unfold Memory.stored_body. destruct (wr_Body w) as [b|], (wr_BodyReader w) as [[rest [e|]]|]; try done; by intros [= <-].
Qed.

Lemma validateResource_body (w w' : WriteResource) :
  validateResource w = Ok w' ->
  wr_Body w' = (if String.eqb (content (wr_Body w)) "" then None else wr_Body w) /\
  wr_BodyReader w' = wr_BodyReader w /\ wr_BodySize w' = wr_BodySize w /\ wr_Metadata w' = wr_Metadata w.
Proof.
  unfold validateResource. break_if; [done|]. intros [= <-]. destruct w as [u [[|c x]|] rd sz m pr]; done.
Qed.

Lemma checkPutQuota_body (c : EngineConfig) (w w' : WriteResource) (s s' : engine B) (body : Bytes) :
  checkPutQuota c w s = Some (s', Ok w') -> wr_Body w <> Some "" -> Memory.stored_body w' = Some body -> content body = putContent c w.
Proof.
  intros Hq Hne Hb. apply stored_body_content in Hb. rewrite Hb. clear Hb. unfold checkPutQuota in Hq. unfold putContent.
  assert (content (wr_Body w) = "" -> wr_Body w = None) as Hnone by (destruct (wr_Body w); cbn; [congruence|done]).
  destruct (has_quota c w); cbn [negb andb] in *.
  - apply bind_Ok in Hq as (s1 & w1 & H1 & Hq). apply bind_Ok in Hq as (s2 & [] & _ & Hq). injection Hq as _ <-.
    destruct (wr_BodySize w =? 0), (wr_BodyReader w) as [rd|] eqn:Erd.
    + unfold ReadAll in H1. destruct (rd_error rd); [by apply bind_Ok in H1 as (? & ? & ? & ?)|]. injection H1 as _ <-.
      cbn. by rewrite orb_true_r.
    + injection H1 as _ <-. rewrite Erd. by destruct (wr_Body w).
    + injection H1 as _ <-. rewrite Erd, orb_false_r. destruct (String.eqb_spec (content (wr_Body w)) "") as [He|He];
        [by rewrite (Hnone He)|by destruct (wr_Body w)].
    + injection H1 as _ <-. rewrite Erd. by destruct (wr_Body w).
  - injection Hq as _ <-. destruct (wr_BodyReader w) as [rd|]; [|by destruct (wr_Body w)]. rewrite orb_false_r.
    destruct (String.eqb_spec (content (wr_Body w)) "") as [He|He]; [by rewrite (Hnone He)|by destruct (wr_Body w)].
Qed.

Lemma storeContent_body (ctx : Context) (w w' : WriteResource) (s s' : engine B) :
  storeContent ctx w s = Some (s', Ok w') -> Memory.stored_body w' = Memory.stored_body w.
Proof.
  unfold storeContent. destruct (negb _ && negb _); [|by intros [= _ <-]].
  destruct (negb _); [by intros (? & ? & ? & ?)%bind_Ok|]. intros (s1 & a & _ & Hr)%bind_Ok. by injection Hr as _ <-.
Qed.

(** What the steps before the backend make of the body. *)
Lemma putContent_steps (c : EngineConfig) (ctx : Context) (w w1 w2 w3 : WriteResource) (s1 s2 s3 s4 : engine B) (body : Bytes) :
  validateResource w = Ok w1 -> checkPutQuota c w1 s1 = Some (s2, Ok w2) -> storeContent ctx w2 s3 = Some (s4, Ok w3) ->
  Memory.stored_body w3 = Some body -> content body = putContent c w.
Proof.
  intros Hv Hq Hs Hb. rewrite (storeContent_body _ _ _ _ _ Hs) in Hb. destruct (validateResource_body _ _ Hv) as (H1 & H2 & H3 & H4).
  assert (content (wr_Body w1) = content (wr_Body w)) as Hc
    by (rewrite H1; destruct (String.eqb_spec (content (wr_Body w)) "") as [He|]; [by rewrite He|done]).
  rewrite (checkPutQuota_body _ _ _ _ _ _ Hq); [|rewrite H1; destruct (wr_Body w) as [[|]|]; done|done].
  unfold putContent, has_quota. by rewrite H2, H3, H4, Hc.
Qed.

(** The parts of the state that only the backend's operations change. *)
Definition same_backend (s s' : engine B) : Prop :=
  backend s' = backend s /\ eng_default s' = eng_default s.
#[export] Instance same_backend_preorder : PreOrder same_backend.
Proof. split; [done|]. intros x y z [H1 H2] [H3 H4]. split; congruence. Qed.

Lemma isTombstoned_same (u : string) : keeps same_backend (isTombstoned (B := B) u).
Proof. keeps_unfold. keeps_walk ltac:(intros; done). Qed.

Lemma preconditions_same (ctx : Context) (w : WriteResource) :
  keeps same_backend (handlePreconditions (B := B) ctx w).
Proof. keeps_unfold. keeps_walk ltac:(intros; done). Qed.

Lemma checkPutQuota_same (c : EngineConfig) (w : WriteResource) :
  keeps same_backend (checkPutQuota (B := B) c w).
Proof. keeps_unfold. keeps_walk ltac:(intros; done). Qed.

Lemma finishPut_same (c : EngineConfig) (later : Z) (w : WriteResource) :
  keeps same_backend (finishPut (B := B) c later w).
Proof. keeps_unfold. keeps_walk ltac:(intros; done). Qed.

(** A write that succeeded went to the backend, at most after the body as a blob. *)
Lemma Put_Ok (now later : Z) (ctx : Context) (w : WriteResource) (s s' : engine B) :
  Put now later ctx w s = Some (s', Ok tt) ->
  exists w' b0 b b', completes w w' /\ backend s = Some b0 /\
    (b = b0 \/ exists data, b = (be_StoreBlob ctx data b0).1) /\
    be_Put now (wr_URI w) w' b = (b', Ok tt) /\ backend s' = Some b' /\
    forall body, Memory.stored_body w' = Some body -> content body = putContent (eng_config s) w.
Proof.
  intros Hp. unfold Put in Hp.
  apply bind_Ok in Hp as (s1 & [] & H1 & Hp). injection H1 as <-.
  apply bind_Ok in Hp as (s2 & [] & H2 & Hp). apply or_fail_Ok in H2. injection H2 as <- _.
  apply bind_Ok in Hp as (s3 & w1 & H3 & Hp). apply or_fail_Ok in H3. injection H3 as <- Hw1.
  pose proof Hw1 as Hbody. apply validateResource_completes in Hw1.
  apply bind_Ok in Hp as (s4 & c & H4 & Hp). injection H4 as <- <-.
  apply bind_Ok in Hp as (s5 & w2 & H5 & Hp).
  pose proof (checkPutQuota_completes _ _ _ _ _ H5) as Hw2. pose proof (fun w' s3 s4 x => putContent_steps _ ctx _ _ _ w' _ _ s3 s4 x Hbody H5) as Hbody'.
  apply checkPutQuota_same in H5.
  apply bind_Ok in Hp as (s6 & [] & H6 & Hp). apply or_fail_Ok in H6. apply preconditions_same in H6.
  apply bind_Ok in Hp as (s7 & w3 & H7 & Hp). pose proof (storeContent_completes _ _ _ _ _ H7) as Hw3.
  pose proof (fun x => Hbody' _ _ _ x H7) as Hstored. clear Hbody Hbody'.
  apply bind_Ok in Hp as (s8 & [] & H8 & Hp). apply or_fail_Ok in H8.
  apply backend_write_inv in H8 as (b & Hb & Hb' & Hr & _).
  destruct (finishPut_same _ _ _ _ _ _ Hp) as [Hs _].
  destruct H5 as [H5 _], H6 as [H6 _]. rewrite Hb' in Hs.
  assert (completes w w3) as Hw by eauto using completes_trans.
  assert (exists b0, backend s = Some b0 /\ (b = b0 \/ exists data, b = (be_StoreBlob ctx data b0).1))
    as (b0 & Hb0 & Hbb).
  { change (backend (set_metrics (RecordRequest "put") s)) with (backend s) in H5. rewrite H5 in H6.
    rewrite <- H6. revert H7. unfold storeContent.
    destruct (negb _ && negb _); [|intros [= -> _]; eauto].
    destruct (negb _); [by intros (? & ? & ? & ?)%bind_Ok|].
    intros (s7' & a & Hblob & Hx)%bind_Ok. injection Hx as -> _. apply or_fail_Ok in Hblob.
    unfold blobs in Hblob. destruct (eng_blobStore s6); [|done].
    apply backend_write_inv in Hblob as (b1 & Hb1 & Hb1' & _). exists b1. split; [done|]. right.
    exists (wr_Body w2). congruence. }
  exists w3, b0, b, (be_Put now (wr_URI w3) w3 b).1. split_and!; try done.
  rewrite <- (co_URI _ _ Hw). by rewrite (surjective_pairing (be_Put _ _ _ _)), <- Hr.
Qed.

(** *** The rest of the state *)

(** The tombstones, the configuration and the registered invalidators. *)
Definition same_rest (s s' : engine B) : Prop :=
  eng_tombstones s' = eng_tombstones s /\ eng_config s' = eng_config s /\
  eng_invalidators s' = eng_invalidators s.
#[export] Instance same_rest_preorder : PreOrder same_rest.
Proof. split; [done|]. intros x y z (H1 & H2 & H3) (H4 & H5 & H6). split_and!; congruence. Qed.

Lemma Put_same_rest (now later : Z) (ctx : Context) (w : WriteResource) :
  keeps same_rest (Put (B := B) now later ctx w).
Proof. keeps_unfold. keeps_walk ltac:(intros; by split_and!). Qed.

Lemma delete_backend_same_rest (ctx : Context) (uri : string) :
  keeps same_rest (delete_backend (B := B) ctx uri).
Proof. keeps_unfold. keeps_walk ltac:(intros; by split_and!). Qed.

(** Where no tombstone is found. *)
Definition untombstoned (uri : string) (s : engine B) : Prop :=
  ec_EnableTombstones (eng_config s) = false \/
  exists t, eng_tombstones s = Some t /\ t !! uri = None.

Lemma isTombstoned_false (uri : string) (s : engine B) :
  untombstoned uri s ->
  exists s', isTombstoned uri s = Some (s', Ok false) /\ backend s' = backend s.
Proof.
  intros Hu. unfold isTombstoned, GetTombstone, tombstones, gets, try, mbind, M_bind, ts_Get.
  destruct (ec_EnableTombstones (eng_config s)) eqn:Hc; cbn; [|by exists s].
  destruct Hu as [|(t & -> & Ht)]; [congruence|]. rewrite Ht. cbn. by eexists.
Qed.

(** [Get] of a resource that has no tombstone. *)
Lemma Get_untombstoned (uri : string) (s : engine B) (b : B) :
  validateStorageURI uri = Ok tt -> untombstoned uri s -> backend s = Some b ->
  exists s', Get uri s = Some (s', match be_Get uri b with
    | Ok r => Ok (mkResource uri (rs_Body r) None (complete uri (rs_Body r) (rs_Metadata r)))
    | Err e => Err e
    end).
Proof.
  intros Hv Hu Hb.
  destruct (isTombstoned_false uri (set_metrics (RecordRequest "get") s)) as (s1 & H1 & Hb1); [done|].
  unfold Get, record_request, record_success, record_error, modify, lift, check_tombstone, or_fail, try,
    mbind, M_bind.
  rewrite Hv. cbn. rewrite H1. cbn. unfold backend_read.
  change (eng_backends s1 !! eng_default s1) with (backend s1). rewrite Hb1.
  change (backend (set_metrics (RecordRequest "get") s)) with (backend s). rewrite Hb.
  destruct (be_Get uri b) as [r|e]; cbn; eauto.
Qed.

Lemma Put_uri_valid (now later : Z) (ctx : Context) (w : WriteResource) (s s' : engine B) :
  Put now later ctx w s = Some (s', Ok tt) -> validateStorageURI (wr_URI w) = Ok tt.
Proof.
  unfold Put. intros (s1 & [] & H1 & Hp)%bind_Ok. apply bind_Ok in Hp as (s2 & [] & H2 & Hp).
  apply or_fail_Ok in H2. by injection H2 as _ ->.
Qed.
End lemmas.

(** Digests and types depend on the bytes of a slice only. *)
Lemma generateETag_content (a b : Bytes) : content a = content b -> generateETag a = generateETag b.
Proof. intros Hc. unfold generateETag, sha256Sum, blen. by rewrite Hc. Qed.

Lemma detectContentType_content (uri : string) (a b : Bytes) :
  content a = content b -> detectContentType uri a = detectContentType uri b.
Proof. intros Hc. unfold detectContentType, blen. by rewrite Hc. Qed.

Lemma complete_fields (uri : string) (body : Bytes) (m : Metadata) :
  md_ETag (complete uri body m) = (if String.eqb (md_ETag m) "" then generateETag body else md_ETag m) /\
  md_ContentType (complete uri body m) =
    (if String.eqb (md_ContentType m) "" then detectContentType uri body else md_ContentType m) /\
  md_Custom (complete uri body m) = md_Custom m.
Proof.
  unfold complete. destruct (String.eqb (md_ETag m) ""); cbn [md_ContentType set_md_ETag];
    by destruct (String.eqb (md_ContentType m) "").
Qed.

(** ** Properties *)

(** C9: What was written is read back.  After a successful [Put], over any backend that obeys the
    laws and where the URI has no tombstone, [Get] returns the bytes written under their URI,
    whether they came as a body or through a reader, with the ETag and the content type the caller
    gave or else computed from them, and the custom metadata as given; every other resource of the
    backend is as before.  With both a body and a reader, the reader counts if the body is empty,
    or if a quota is to be checked for a body of unknown size. *)
Theorem engine_put_get {B} `{StorageBackendLaws B} (now later : Z) (ctx : Context)
    (w : WriteResource) (s s' : engine B) :
  Put now later ctx w s = Some (s', Ok tt) -> untombstoned (wr_URI w) s ->
  let written := putContent (eng_config s) w in
  (exists s2 r, Get (wr_URI w) s' = Some (s2, Ok r) /\ rs_URI r = wr_URI w /\
     content (rs_Body r) = written /\
     md_ETag (rs_Metadata r) = (if String.eqb (md_ETag (wr_Metadata w)) ""
                                then generateETag (Some written) else md_ETag (wr_Metadata w)) /\
     md_ContentType (rs_Metadata r) =
       (if String.eqb (md_ContentType (wr_Metadata w)) ""
        then detectContentType (wr_URI w) (Some written) else md_ContentType (wr_Metadata w)) /\
     md_Custom (rs_Metadata r) = md_Custom (wr_Metadata w)) /\
  (forall uri b b', uri <> wr_URI w -> backend s = Some b -> backend s' = Some b' ->
     be_Get uri b' = be_Get uri b).
Proof.
  intros Hput Hunt written.
  destruct (Put_Ok _ _ _ _ _ _ Hput) as (w' & b0 & b & b' & Hw & Hb0 & Hbb & Hbp & Hb' & Hst).
  destruct (Put_same_rest _ _ _ _ _ _ _ Hput) as (Ht & Hc & _).
  destruct (be_put_get now (wr_URI w) w' b b' Hbp) as (body & m & Hbody & Hm & Hget & _).
  destruct (co_metadata _ _ Hw) as (a & Ha & _).
  assert (content body = content (Some written)) as Hbc by exact (Hst body Hbody).
  split.
  - destruct (Get_untombstoned (wr_URI w) s' b') as [s2 Hg]; [by eapply Put_uri_valid| |done|].
    { unfold untombstoned in *. by rewrite Hc, Ht. }
    rewrite Hget in Hg. eexists _, _. split; [exact Hg|]. cbn [rs_URI rs_Body rs_Metadata].
    destruct Hm as (_ & _ & He & _ & _ & Hct & _ & _ & Hcu). rewrite Ha in He, Hct, Hcu. cbn in He, Hct, Hcu.
    destruct (complete_fields (wr_URI w) body m) as (-> & -> & ->). rewrite Hct, Hcu.
    rewrite (detectContentType_content (wr_URI w) body (Some written) Hbc).
    rewrite (generateETag_content body (Some written) Hbc) in *. split_and!; try done.
    rewrite He. destruct (String.eqb (md_ETag (wr_Metadata w)) "") eqn:E; [|by rewrite E].
    destruct body; [|done]. by destruct (String.eqb (generateETag (Some written)) "").
  - intros uri b1 b2 Hne Hb1 Hb2. rewrite Hb0 in Hb1. rewrite Hb' in Hb2.
    injection Hb1 as <-. injection Hb2 as <-.
    pose proof (be_put_frame now (wr_URI w) uri w' b Hne) as Hf. rewrite Hbp in Hf. cbn in Hf. rewrite Hf.
    destruct Hbb as [->|[data ->]]; [done|apply be_blob_frame].
Qed.

Definition sampleConfig (tombstones quotas : bool) : EngineConfig :=
  mkEngineConfig "memory" ∅ true "" quotas {["/pod" := mkQuotaConfig 10 1]} tombstones false 0 true.

(** An engine over the memory backend, as the constructor makes it. *)
Definition sampleEngine (tombstones quotas : bool) : engine Memory.memoryBackend :=
  mkEngine (sampleConfig tombstones quotas)
    (initialBackends (fun _ => Memory.NewMemoryBackend) Memory.NewMemoryBackend (sampleConfig tombstones quotas))
    "memory" (if tombstones then Some ∅ else None) (if quotas then Some ∅ else None) true 1
    (mkEngineMetrics ∅ ∅) false [] [].

Lemma sampleEngine_new :
  Forall (fun tq => NewStorageEngine (fun _ => Memory.NewMemoryBackend) Memory.NewMemoryBackend
                      (sampleConfig tq.1 tq.2) = Ok (sampleEngine tq.1 tq.2))
    [(true, true); (true, false); (false, true); (false, false)].
Proof. repeat constructor. Qed.

Definition sampleResource (uri body : string) : WriteResource :=
  mkWriteResource uri (Some body) None 0 Memory.noMetadata (mkPrecondition "" "" None).

(** The state a computation leaves. *)
Definition state_of {B A} (m : M B A) (s : engine B) : engine B :=
  match m s with Some (s', _) => s' | None => s end.

(** One write with a body, one with a reader. *)
Lemma engine_put_get_witness :
  let streamed := mkWriteResource "/pod/b.ttl" None (Some (mkReader "stream" None)) 0 Memory.noMetadata (mkPrecondition "" "" None) in
  let s := sampleEngine true true in
  let s1 := state_of (Put 1 2 Background (sampleResource "/pod/a.ttl" "hello")) s in
  let s2 := state_of (Put 3 4 Background streamed) s1 in
  (exists s3 r, Get "/pod/a.ttl" s1 = Some (s3, Ok r) /\ content (rs_Body r) = "hello" /\
     md_ContentType (rs_Metadata r) = "text/turtle") /\
  (exists s3 r, Get "/pod/b.ttl" s2 = Some (s3, Ok r) /\ content (rs_Body r) = "stream").
Proof.
  intros streamed s s1 s2. split.
  - destruct (engine_put_get 1 2 Background (sampleResource "/pod/a.ttl" "hello") s s1) as [(s3 & r & Hg & _ & Hb & _ & Hct & _) _].
    + vm_compute. reflexivity.
    + right. exists ∅. split; reflexivity.
    + exists s3, r. split_and!; [exact Hg|exact Hb|]. rewrite Hct. vm_compute. reflexivity.
  - destruct (engine_put_get 3 4 Background streamed s1 s2) as [(s3 & r & Hg & _ & Hb & _) _].
    + vm_compute. reflexivity.
    + right. exists ∅. split; vm_compute; reflexivity.
    + exists s3, r. split; [exact Hg|exact Hb].
Defined.

(** A tombstone is for ever: once a resource was deleted with a tombstone, [Get] does not
    find it after any sequence of calls that does not delete it with a tombstone again,
    although a write of it in between succeeds and the backend has what was written. *)
Theorem engine_tombstone_is_final {B} `{StorageBackendLaws B} (now : Z) (ctx : Context)
    (uri : string) (t : Tombstone) (ops : list engine_op) (s s1 s2 : engine B) :
  ec_EnableTombstones (eng_config s) = true ->
  DeleteWithTombstone now ctx uri t s = Some (s1, Ok tt) -> ts_URI t = "" \/ ts_URI t = uri ->
  Forall (fun op => same_tombstone_uri uri op = false) ops -> engine_run ops s1 = Some s2 ->
  (exists s3, Get uri s2 = Some (s3, Err ErrNotFound)) /\
  (forall now later ctx w s3, wr_URI w = uri -> Put now later ctx w s2 = Some (s3, Ok tt) ->
     (exists s4, Get uri s3 = Some (s4, Err ErrNotFound)) /\
     exists b r, backend s3 = Some b /\ be_Get uri b = Ok r).
Proof.
  intros Hen Hd Hu Hops Hrun.
  assert (validateStorageURI uri = Ok tt) as Hv.
  { unfold DeleteWithTombstone in Hd. apply bind_Ok in Hd as (? & [] & _ & Hd).
    apply bind_Ok in Hd as (? & [] & Hv & _). apply or_fail_Ok in Hv. by injection Hv. }
  destruct (DeleteWithTombstone_stores _ _ _ _ _ _ Hd Hu) as (Hc1 & Ht1).
  destruct (engine_run_keeps_tombstone uri ops s1 s2 Hops Hrun) as [Hc2 Ht2].
  destruct (Ht2 Ht1) as (m & Hm & Hmu). assert (ec_EnableTombstones (eng_config s2) = true) as Hen2
    by (by rewrite Hc2, Hc1).
  split; [by eapply Get_tombstoned|]. intros now' later ctx' w s3 Hw Hput.
  destruct (Put_same_rest _ _ _ _ _ _ _ Hput) as (Ht3 & Hc3 & _). split.
  - eapply Get_tombstoned; [done|by rewrite Hc3|by rewrite Ht3|done].
  - destruct (Put_Ok _ _ _ _ _ _ Hput) as (w' & b0 & b & b' & _ & _ & _ & Hbp & Hb' & _).
    destruct (be_put_get now' (wr_URI w) w' b b' Hbp) as (body & x & _ & _ & Hg & _).
    rewrite Hw in Hg. eauto.
Qed.

Lemma engine_tombstone_is_final_witness :
  let s1 := state_of (DeleteWithTombstone 1 Background "/pod/a" (Memory.sampleTombstone ""))
              (sampleEngine true false) in
  let s3 := state_of (Put 2 3 Background (sampleResource "/pod/a" "new")) s1 in
  exists s4, Get "/pod/a" s3 = Some (s4, Err ErrNotFound).
Proof.
  intros s1 s3.
  destruct (engine_tombstone_is_final 1 Background "/pod/a" (Memory.sampleTombstone "") []
    (sampleEngine true false) s1 s1) as [_ Hput].
  - reflexivity.
  - vm_compute. reflexivity.
  - left. reflexivity.
  - constructor.
  - reflexivity.
  - apply (Hput 2 3 Background (sampleResource "/pod/a" "new") s3); [reflexivity|].
    vm_compute. reflexivity.
Defined.

(** No quota has a limit. *)
Definition no_limits {B} (s : engine B) : Prop :=
  match eng_quotas s with
  | Some q => forall root i, q !! root = Some i -> qi_MaxBytes i = 0
  | None => ec_EnableQuotaManagement (eng_config s) = false
  end.
Definition keeps_no_limits {B} (s s' : engine B) : Prop := no_limits s -> no_limits s'.
#[local] Instance keeps_no_limits_preorder {B} : PreOrder (keeps_no_limits (B := B)).
Proof. split; [by intros s ?|]. intros x y z H1 H2 H3. auto. Qed.

Lemma no_limits_eq {B} (s s' : engine B) :
  eng_quotas s' = eng_quotas s -> eng_config s' = eng_config s -> keeps_no_limits s s'.
Proof. unfold keeps_no_limits, no_limits. by intros -> ->. Qed.

Lemma RecordUsage_no_limits (root : string) (n : Z) (q : gmap string QuotaInfo) :
  (forall r i, q !! r = Some i -> qi_MaxBytes i = 0) ->
  forall r i, qm_RecordUsage root n q !! r = Some i -> qi_MaxBytes i = 0.
Proof.
  intros Hq r i. unfold qm_RecordUsage. destruct (q !! root) as [j|] eqn:Ej;
    intros [[_ <-]|[_ Hi]]%lookup_insert_Some; cbn; eauto.
Qed.

Lemma engine_step_no_limits {B} `{StorageBackend B} (op : engine_op) :
  keeps keeps_no_limits (engine_step (B := B) op).
Proof.
  assert (forall u, keeps keeps_no_limits (isTombstoned (B := B) u)) as Ht.
  { intros u. keeps_unfold. keeps_walk ltac:(intros; apply no_limits_eq; done). }
  destruct op; keeps_unfold; keeps_walk ltac:(intros; apply no_limits_eq; done);
    try (apply keeps_filter_tombstoned; [exact _|exact Ht]).
  apply keeps_quotas. intros s q Hq. unfold keeps_no_limits, no_limits. rewrite Hq. cbn.
  apply RecordUsage_no_limits.
Qed.

Lemma engine_run_no_limits {B} `{StorageBackend B} (ops : list engine_op) (s s' : engine B) :
  engine_run ops s = Some s' -> no_limits s -> no_limits s'.
Proof.
  revert s. induction ops as [|op ops IH]; intros s; cbn [engine_run]; [by intros [= <-]|].
  destruct (engine_step op s) as [[s1 r]|] eqn:E; [|done]. intros Hr Hs. eapply IH; [done|].
  by eapply engine_step_no_limits.
Qed.

(** Configured quotas are not enforced: an engine made from any configuration, quota
    limits included, accepts any number of bytes for any storage root after any sequence of
    calls, and does not panic over it. *)
Theorem engine_ignores_quota_config {B} `{StorageBackend B} (fs : string -> B) (mem : B)
    (config : EngineConfig) (ops : list engine_op) (s0 s : engine B) :
  NewStorageEngine fs mem config = Ok s0 -> engine_run ops s0 = Some s ->
  forall root n, exists s', CheckQuota root n s = Some (s', Ok tt).
Proof.
  intros Hnew Hrun root n. assert (no_limits s0) as Hn0.
  { unfold NewStorageEngine in Hnew. destruct (initialBackends _ _ _ !! _) as [b|]; [|done].
    destruct (be_Initialize _ b) as [b' [[]|e]]; [|done]. injection Hnew as <-. unfold no_limits. cbn.
    by destruct (ec_EnableQuotaManagement config). }
  pose proof (engine_run_no_limits ops s0 s Hrun Hn0) as Hn.
  unfold CheckQuota, gets, quotas, mbind, M_bind. cbn.
  destruct (ec_EnableQuotaManagement (eng_config s)) eqn:Hq; cbn; [|by exists s].
  unfold no_limits in Hn. destruct (eng_quotas s) as [q|]; [|congruence].
  unfold qm_CheckQuota, qm_GetQuota. destruct (q !! root) as [i|] eqn:Ei; cbn; [|eauto].
  rewrite (Hn root i Ei). cbn. eauto.
Qed.

Lemma engine_ignores_quota_config_witness :
  exists s', CheckQuota "/pod" 1000000 (sampleEngine true true) = Some (s', Ok tt).
Proof.
  apply (engine_ignores_quota_config (fun _ => Memory.NewMemoryBackend) Memory.NewMemoryBackend
    (sampleConfig true true) [] (sampleEngine true true) (sampleEngine true true)); reflexivity.
Defined.

(** The outcome of a backend write, and what it leaves alone. *)
Lemma backend_write_rest {B A} (f : B -> B * result error A) (s s' : engine B) (r : result error A) :
  backend_write f s = Some (s', r) ->
  eng_delivered s' = eng_delivered s /\ eng_invalidators s' = eng_invalidators s.
Proof.
  unfold backend_write. destruct (_ !! _) as [b|]; [|done]. destruct (f b). by intros [= <- _].
Qed.

Lemma delete_backend_Ok {B} `{StorageBackend B} (ctx : Context) (uri : string) (s s' : engine B) :
  delete_backend ctx uri s = Some (s', Ok tt) ->
  exists b r, backend s = Some b /\ backend s' = Some (be_Delete ctx uri b).1 /\
    r = (be_Delete ctx uri b).2 /\ (forall e, r = Err e -> errors_Is e ErrNotFound = true) /\
    eng_delivered s' = eng_delivered s /\ eng_invalidators s' = eng_invalidators s.
Proof.
  unfold delete_backend. intros (s1 & r & Hw & Hr)%bind_Ok. apply try_inv in Hw.
  pose proof (backend_write_rest _ _ _ _ Hw) as [Hd Hi].
  apply backend_write_inv in Hw as (b & Hb & Hb1 & -> & _). exists b, (be_Delete ctx uri b).2.
  destruct ((be_Delete ctx uri b).2) as [[]|e].
  - injection Hr as <-. by split_and!.
  - destruct (errors_Is e ErrNotFound) eqn:He; [|done]. injection Hr as <-. split_and!; try done.
    by intros e' [= <-].
Qed.

(** Deleting a policy does not invalidate the policy caches: over a backend that obeys the
    laws, the successful deletion of a resource with a canonical URI is announced to every
    registered invalidator as the deletion of a resource that is no policy, whatever it was,
    because the type is looked up after the deletion. *)
Theorem engine_delete_announces_no_policy {B} `{StorageBackendLaws B} (later : Z) (ctx : Context)
    (uri : string) (s s' : engine B) :
  Delete later ctx uri s = Some (s', Ok tt) -> canonical uri ->
  eng_delivered s' = eng_delivered s ++
    map (fun i => (i, mkEvent uri false uri "" "delete" later)) (eng_invalidators s).
Proof.
  intros Hdel Hcan. unfold Delete in Hdel.
  apply bind_Ok in Hdel as (s1 & [] & Hr & Hdel). injection Hr as <-.
  apply bind_Ok in Hdel as (s2 & [] & Hv & Hdel). apply or_fail_Ok in Hv. injection Hv as <- _.
  apply bind_Ok in Hdel as (s3 & [] & Hd & Hdel). apply or_fail_Ok in Hd.
  apply delete_backend_Ok in Hd as (b & r & Hb & Hb3 & -> & Hnf & Hd3 & Hi3).
  apply bind_Ok in Hdel as (s4 & [] & Hm & Hdel). unfold delete_metadata in Hm.
  apply bind_Ok in Hm as (s4' & r4 & Hm & Hx). injection Hx as ->. apply try_inv in Hm.
  pose proof (backend_write_rest _ _ _ _ Hm) as [Hd4 Hi4].
  apply backend_write_inv in Hm as (b3 & Hb3' & Hb4 & -> & _). rewrite Hb3 in Hb3'. injection Hb3' as <-.
  destruct (be_delete_get ctx uri b _ _ (surjective_pairing _) Hcan Hnf) as [_ Hgone].
  set (b3 := (be_Delete ctx uri b).1) in *.
  assert (be_GetMetadata uri (be_Delete ctx uri b3).1 = Err ErrNotFound) as Hgm.
  { destruct (be_Delete ctx uri b3) as [b4 [[]|e]] eqn:E4; cbn.
    - by apply (be_delete_get ctx uri b3 b4 (Ok tt)).
    - destruct (be_delete_failed ctx uri b3 b4 e E4 uri) as [_ ->]. exact Hgone. }
  apply bind_Ok in Hdel as (s5 & m & Hg & Hdel). apply try_inv in Hg. unfold backend_read in Hg.
  unfold backend in Hb4. rewrite Hb4, Hgm in Hg. injection Hg as <- <-. cbv zeta in Hdel.
  apply bind_Ok in Hdel as (s6 & [] & Ht & Hdel). injection Ht as <-. injection Hdel as <-. cbn.
  by rewrite Hd4, Hi4, Hd3, Hi3.
Qed.

Lemma engine_delete_announces_no_policy_witness :
  let acl := mkWriteResource "/pod/.acl" (Some "rules") None 0
               (set_md_ResourceType ResourceTypeACL Memory.noMetadata) (mkPrecondition "" "" None) in
  let s := state_of (Put 1 2 Background acl) (state_of (RegisterCacheInvalidator 7) (sampleEngine true false)) in
  eng_delivered s = [(7%nat, mkEvent "/pod/.acl" true "/pod/.acl" "" "put" 2)] /\
  eng_delivered (state_of (Delete 3 Background "/pod/.acl") s) =
    eng_delivered s ++ [(7%nat, mkEvent "/pod/.acl" false "/pod/.acl" "" "delete" 3)].
Proof.
  intros acl s. split; [vm_compute; reflexivity|].
  apply (engine_delete_announces_no_policy 3 Background "/pod/.acl" s); vm_compute; reflexivity.
Defined.

(** An entity tag that must not match switches the other preconditions off: on a resource
    that does not exist, a write with [If-None-Match] and an ETag passes the checks of the
    engine whatever [If-Match] and [CompareAndSwap] demand, while [CompareAndSwap] alone
    refuses it. *)
Theorem engine_if_none_match_skips_checks {B} `{StorageBackend B} (ctx : Context) (w : WriteResource)
    (cas : CompareAndSwapPrecondition) (s s1 : engine B) :
  GetMetadata (wr_URI w) s = Some (s1, Err ErrNotFound) ->
  let pre p := mkWriteResource (wr_URI w) (wr_Body w) (wr_BodyReader w) (wr_BodySize w) (wr_Metadata w) p in
  (forall etag ifMatch, etag <> "" -> etag <> "*" ->
     handlePreconditions ctx (pre (mkPrecondition ifMatch etag (Some cas))) s = Some (s1, Ok tt)) /\
  handlePreconditions ctx (pre (mkPrecondition "" "" (Some cas))) s =
    Some (s1, Err ErrPreconditionFailed).
Proof.
  intros Hg pre. unfold handlePreconditions, handleIfNoneMatch, handleIfMatch, handleCompareAndSwap, try,
    mbind, M_bind, mret, M_ret, throw. cbn. split.
  - intros etag ifMatch H1%String.eqb_neq H2%String.eqb_neq. by rewrite H1, H2, Hg.
  - by rewrite Hg.
Qed.

Lemma engine_if_none_match_skips_checks_witness :
  let s := sampleEngine true false in
  exists s1, handlePreconditions Background (mkWriteResource "/pod/x" None None 0 Memory.noMetadata
    (mkPrecondition "" "W1" (Some (mkCAS "owner" "alice" "bob")))) s = Some (s1, Ok tt).
Proof.
  intros s. exists (state_of (GetMetadata "/pod/x") s).
  apply (engine_if_none_match_skips_checks Background (sampleResource "/pod/x" "") (mkCAS "owner" "alice" "bob")
    s (state_of (GetMetadata "/pod/x") s)); [vm_compute; reflexivity|discriminate|discriminate].
Defined.

(** *** Listing everything *)

Definition keeps_no_store {B} (s s' : engine B) : Prop :=
  eng_tombstones s = None -> eng_tombstones s' = None.
#[local] Instance keeps_no_store_preorder {B} : PreOrder (keeps_no_store (B := B)).
Proof. split; [by intros s ?|]. intros x y z H1 H2 H3. auto. Qed.

Lemma List_keeps_no_store {B} `{StorageBackend B} (order : be_order) (ctx : Context) (uri : string) :
  keeps keeps_no_store (List (B := B) order ctx uri).
Proof.
  assert (forall u, keeps keeps_no_store (isTombstoned (B := B) u)) as Ht.
  { intros u. keeps_unfold. keeps_walk ltac:(intros; intros ?; congruence). }
  keeps_unfold. keeps_walk ltac:(intros; intros ?; done).
  apply keeps_filter_tombstoned; [exact _|exact Ht].
Qed.

(** Without a tombstone store [ListAll], and with it every integrity scan and backup of the
    whole storage, ends in a panic. *)
Lemma ListAll_panics {B} `{StorageBackend B} (order order' : be_order) (torder : Memory.tombstone_order)
    (ctx : Context) (s : engine B) :
  eng_tombstones s = None -> ListAll order order' torder ctx s = None.
Proof.
  intros Hs. unfold ListAll, getAllStorageRoots, record_request, modify. cbn [foldl].
  unfold mbind at 1, M_bind at 1. set (s0 := set_metrics _ s).
  assert (eng_tombstones s0 = None) as Hs0 by done. clearbody s0.
  unfold mbind at 1, M_bind at 1.
  match goal with |- match ?m with _ => _ end = _ => destruct m as [[s1 [l|e]]|] eqn:E; [| |done] end.
  - assert (eng_tombstones s1 = None) as Hs1.
    { revert E. generalize s0 Hs0. clear s0 Hs0. intros s0 Hs0 E.
      apply bind_Ok in E as (s2 & l2 & H2 & E). injection H2 as <- <-.
      apply bind_Ok in E as (s3 & r & H3 & E). apply try_inv in H3. apply List_keeps_no_store in H3.
      destruct r as [found|e]; [|by injection E as <-; apply H3].
      apply bind_Ok in E as (s4 & r' & H4 & E). apply try_inv in H4. apply List_keeps_no_store in H4.
      injection E as <- _. auto. }
    unfold ListTombstones, tombstones, try, mbind, M_bind. by rewrite Hs1.
  - exfalso. revert E. unfold mbind, M_bind, try. cbn.
    destruct (List order ctx "/" s0) as [[s2 [l|e']]|]; [|done|done].
    by destruct (List order' ctx "/" s2) as [[s3 r]|].
Qed.
