(* ===== verification/StorageTransaction.v ===== *)
(** * Storage transactions

    [internal/storage/transaction.go]: writes and deletions collected in memory and applied
    to the default backend by [Commit], in the order in which the maps are visited.  The
    engine is shared: it is the state of the computations, the transaction is passed along. *)

From S2P Require Import Prelude GoStrings GoGlob GoHash StorageTypes MemoryBackend StorageBackend StorageEngine.

Local Open Scope Z_scope.

(** ** State *)

Record storageTransaction := mkTransaction {
  tx_pending : gmap string WriteResource;
  tx_deleted : gset string;
  tx_committed : bool;
  tx_rolledBack : bool
}.

(** The orders in which [range] visits the two maps. *)
Definition pending_order : Type := gmap string WriteResource -> list string.
Definition deleted_order : Type := gset string -> list string.

Definition completed (t : storageTransaction) : bool := tx_committed t || tx_rolledBack t.

Section operations.
Context {B : Type} `{StorageBackend B}.

Definition BeginTransaction : M B storageTransaction :=
  _ ← record_request "put";
  _ ← modify (set_metrics (count "TransactionsStarted"));
  mret (mkTransaction ∅ ∅ false false).

(** ** Operations *)

Definition tx_Get (t : storageTransaction) (uri : string) : M B Resource :=
  match tx_pending t !! uri with
  | Some w => mret (mkResource (wr_URI w) (wr_Body w) None (wr_Metadata w))
  | None =>
      if bool_decide (uri ∈ tx_deleted t) then throw ErrNotFound
      else
        r ← Get uri;
        mret (mkResource (rs_URI r) (rs_Body r) None (rs_Metadata r))
  end.

Definition tx_Put (w : WriteResource) (t : storageTransaction)
  : storageTransaction * result error unit :=
  if completed t then (t, Err (Errorf "transaction already completed"))
  else (mkTransaction (<[wr_URI w := w]> (tx_pending t)) (tx_deleted t) (tx_committed t) (tx_rolledBack t),
        Ok tt).

Definition tx_Delete (uri : string) (t : storageTransaction) : storageTransaction * result error unit :=
  if completed t then (t, Err (Errorf "transaction already completed"))
  else (mkTransaction (delete uri (tx_pending t)) ({[uri]} ∪ tx_deleted t) (tx_committed t)
          (tx_rolledBack t), Ok tt).

(** The pending writes, up to the first one that fails. *)
Fixpoint commit_puts (clock : nat -> Z) (us : list string) (p : gmap string WriteResource) : M B unit :=
  match us with
  | [] => mret tt
  | u :: us' =>
      match p !! u with
      | Some w => _ ← backend_write (be_Put (clock (length us')) u w); commit_puts clock us' p
      | None => commit_puts clock us' p
      end
  end.

Fixpoint commit_deletes (ctx : Context) (us : list string) : M B unit :=
  match us with
  | [] => mret tt
  | u :: us' => _ ← delete_backend ctx u; commit_deletes ctx us'
  end.

Definition commit_error (e : error) : error := Errorf_w "failed to commit transaction: " e "".

Definition tx_Commit (clock : nat -> Z) (porder : pending_order) (dorder : deleted_order)
    (ctx : Context) (t : storageTransaction) : M B (storageTransaction * result error unit) :=
  if tx_committed t then mret (t, Err (Errorf "transaction already committed"))
  else if tx_rolledBack t then mret (t, Err (Errorf "transaction was rolled back"))
  else
    let failed := mkTransaction (tx_pending t) (tx_deleted t) false true in
    r ← try (commit_puts clock (porder (tx_pending t)) (tx_pending t));
    match r with
    | Err e => mret (failed, Err (commit_error e))
    | Ok _ =>
        r ← try (commit_deletes ctx (dorder (tx_deleted t)));
        match r with
        | Err e => mret (failed, Err (commit_error e))
        | Ok _ =>
            _ ← modify (set_metrics (count "TransactionsCommitted"));
            mret (mkTransaction (tx_pending t) (tx_deleted t) true (tx_rolledBack t), Ok tt)
        end
    end.

Definition tx_Rollback (t : storageTransaction) : M B (storageTransaction * result error unit) :=
  if tx_rolledBack t then mret (t, Err (Errorf "transaction already rolled back"))
  else if tx_committed t then mret (t, Err (Errorf "transaction already committed"))
  else
    _ ← modify (set_metrics (count "TransactionsRolledBack"));
    mret (mkTransaction ∅ ∅ (tx_committed t) true, Ok tt).

End operations.

(** ** Histories of a transaction *)

Inductive tx_op := TPut (w : WriteResource) | TDelete (uri : string).

Definition tx_step (t : storageTransaction) (op : tx_op) : storageTransaction :=
  match op with
  | TPut w => (tx_Put w t).1
  | TDelete uri => (tx_Delete uri t).1
  end.

Definition newTransaction : storageTransaction := mkTransaction ∅ ∅ false false.
Definition tx_run (ops : list tx_op) : storageTransaction := foldl tx_step newTransaction ops.

(** What the operations say about a URI: the last one that names it decides. *)
Definition names (uri : string) (op : tx_op) : bool :=
  match op with TPut w => String.eqb (wr_URI w) uri | TDelete u => String.eqb u uri end.
Definition last_op (uri : string) (ops : list tx_op) : option tx_op :=
  last (filter (fun op => names uri op = true) ops).
Definition deletes (uri : string) (ops : list tx_op) : Prop := TDelete uri ∈ ops.

Lemma last_op_snoc (uri : string) (ops : list tx_op) (op : tx_op) :
  last_op uri (ops ++ [op]) = if names uri op then Some op else last_op uri ops.
Proof.
  unfold last_op. rewrite filter_app. destruct (names uri op) eqn:E.
  - rewrite filter_cons_True, filter_nil by done. by rewrite last_snoc.
  - by rewrite filter_cons_False, filter_nil, app_nil_r by congruence.
Qed.

(** The maps of an open transaction after a history. *)
Lemma tx_run_state (ops : list tx_op) :
  completed (tx_run ops) = false /\
  (forall uri, tx_pending (tx_run ops) !! uri =
     match last_op uri ops with Some (TPut w) => Some w | _ => None end) /\
  (forall uri, uri ∈ tx_deleted (tx_run ops) <-> deletes uri ops).
Proof.
  induction ops as [|op ops (Hc & Hp & Hd)] using rev_ind.
  { split_and!; [done|done|]. intros uri. unfold deletes. cbn. set_solver. }
  unfold tx_run in *. rewrite foldl_snoc. set (t := foldl _ _ _) in *.
  assert (forall uri, deletes uri (ops ++ [op]) <-> op = TDelete uri \/ deletes uri ops) as Hds.
  { intros uri. unfold deletes. rewrite elem_of_app, list_elem_of_singleton. naive_solver. }
  destruct op as [w|u]; cbn [tx_step]; [unfold tx_Put|unfold tx_Delete]; rewrite Hc; cbn; split_and!.
  - done.
  - intros uri. rewrite last_op_snoc. cbn. destruct (String.eqb_spec (wr_URI w) uri) as [->|Hne];
      [by rewrite lookup_insert_eq|]. by rewrite lookup_insert_ne.
  - intros uri. rewrite Hds, Hd. naive_solver.
  - done.
  - intros uri. rewrite last_op_snoc. cbn. destruct (String.eqb_spec u uri) as [->|Hne];
      [by rewrite lookup_delete_eq|]. by rewrite lookup_delete_ne.
  - intros uri. rewrite Hds, <- Hd, elem_of_union, elem_of_singleton. naive_solver.
Qed.

(** ** Committing *)

Section commit.
Context {B : Type} `{StorageBackendLaws B}.

(** The backend has what the write says. *)
Definition written (uri : string) (w : WriteResource) (b : B) : Prop :=
  exists r body, be_Get uri b = Ok r /\ Memory.stored_body w = Some body /\ rs_Body r = body /\
    metadata_stored uri body (wr_Metadata w) (rs_Metadata r).

Lemma commit_puts_Ok (clock : nat -> Z) (us : list string) (p : gmap string WriteResource)
    (s s' : engine B) (b : B) :
  NoDup us -> backend s = Some b -> commit_puts clock us p s = Some (s', Ok tt) ->
  exists b', backend s' = Some b' /\
    (forall uri w, uri ∈ us -> p !! uri = Some w -> written uri w b') /\
    (forall uri, uri ∉ us \/ p !! uri = None -> be_Get uri b' = be_Get uri b).
Proof.
  intros Hnd. revert s b. induction Hnd as [|u us Hu Hnd IH]; intros s b Hb; cbn [commit_puts].
  { intros [= <-]. exists b. split_and!; [done| |done]. by intros uri w []%elem_of_nil. }
  destruct (p !! u) as [w|] eqn:Hp.
  - intros (s1 & [] & Hw & Hrest)%bind_Ok. apply backend_write_inv in Hw as (b0 & Hb0 & Hb1 & Hr & _).
    rewrite Hb in Hb0. injection Hb0 as <-. destruct (be_Put (clock (length us)) u w b) as [b1 r1] eqn:Ep.
    cbn in Hb1, Hr. subst r1. destruct (be_put_get _ _ _ _ _ Ep) as (body & m & Hbody & Hm & Hg & _).
    destruct (IH s1 b1 Hb1 Hrest) as (b' & Hb' & Hin & Hout). exists b'. split_and!; [done| |].
    + intros uri w' [->|Hin']%elem_of_cons Hp'; [|by apply Hin]. rewrite Hp in Hp'. injection Hp' as <-.
      exists (mkResource u body None m), body. rewrite (Hout u) by auto. by split_and!.
    + intros uri Hno. rewrite Hout by set_solver. 
      pose proof (be_put_frame (clock (length us)) u uri w b) as Hf. rewrite Ep in Hf. apply Hf.
      intros ->. destruct Hno as [Hno|Hno]; [set_solver|congruence].
  - intros Hrest. destruct (IH s b Hb Hrest) as (b' & Hb' & Hin & Hout). exists b'. split_and!; [done| |].
    + intros uri w' [->|Hin']%elem_of_cons Hp'; [congruence|by apply Hin].
    + intros uri Hno. destruct (decide (uri = u)) as [->|]; [apply Hout; auto|apply Hout; set_solver].
Qed.

Lemma commit_deletes_Ok (ctx : Context) (us : list string) (s s' : engine B) (b : B) :
  Forall canonical us -> backend s = Some b -> commit_deletes ctx us s = Some (s', Ok tt) ->
  exists b', backend s' = Some b' /\
    (forall uri, uri ∈ us -> be_Get uri b' = Err ErrNotFound) /\
    (forall uri, uri ∉ us -> be_Get uri b' = be_Get uri b).
Proof.
  intros Hcan. revert s b. induction Hcan as [|u us Hu Hcan IH]; intros s b Hb; cbn [commit_deletes].
  { intros [= <-]. exists b. split_and!; [done| |done]. by intros uri []%elem_of_nil. }
  intros (s1 & [] & Hd & Hrest)%bind_Ok.
  apply delete_backend_Ok in Hd as (b0 & r & Hb0 & Hb1 & -> & Hnf & _). rewrite Hb in Hb0. injection Hb0 as <-.
  destruct (be_delete_get ctx u b _ _ (surjective_pairing _) Hu Hnf) as [Hgone _].
  destruct (IH s1 _ Hb1 Hrest) as (b' & Hb' & Hin & Hout). exists b'. split_and!; [done| |].
  - intros uri [->|Hi]%elem_of_cons; [|by apply Hin].
    destruct (decide (u ∈ us)); [by apply Hin|by rewrite Hout].
  - intros uri Hno. rewrite Hout by set_solver. apply be_delete_frame. rewrite Hu. intros [= ->]. set_solver.
Qed.

(** A commit of an open transaction that succeeded: the writes, then the deletions. *)
Lemma tx_Commit_Ok (clock : nat -> Z) (porder : pending_order) (dorder : deleted_order) (ctx : Context)
    (t t' : storageTransaction) (s s' : engine B) (b : B) :
  iter_order (porder (tx_pending t)) (tx_pending t) ->
  (forall uri, uri ∈ dorder (tx_deleted t) <-> uri ∈ tx_deleted t) ->
  (forall uri, uri ∈ tx_deleted t -> canonical uri) ->
  backend s = Some b -> tx_Commit clock porder dorder ctx t s = Some (s', Ok (t', Ok tt)) ->
  tx_committed t' = true /\
  exists b', backend s' = Some b' /\
    (forall uri, uri ∈ tx_deleted t -> be_Get uri b' = Err ErrNotFound) /\
    (forall uri w, uri ∉ tx_deleted t -> tx_pending t !! uri = Some w -> written uri w b') /\
    (forall uri, uri ∉ tx_deleted t -> tx_pending t !! uri = None -> be_Get uri b' = be_Get uri b).
Proof.
  intros [Hnd Hks] Hdo Hcan Hb. unfold tx_Commit.
  destruct (tx_committed t); [done|]. destruct (tx_rolledBack t); [done|].
  intros (s1 & r1 & H1 & Hc)%bind_Ok. apply try_inv in H1. destruct r1 as [[]|e]; [|done].
  apply bind_Ok in Hc as (s2 & r2 & H2 & Hc). apply try_inv in H2. destruct r2 as [[]|e]; [|done].
  apply bind_Ok in Hc as (s3 & [] & H3 & Hc). injection H3 as <-. injection Hc as <- <-.
  split; [done|].
  destruct (commit_puts_Ok _ _ _ _ _ _ Hnd Hb H1) as (b1 & Hb1 & Hin1 & Hout1).
  destruct (commit_deletes_Ok ctx _ s1 s2 b1 (proj2 (Forall_forall _ _) (fun u Hu => Hcan u (proj1 (Hdo u) Hu)))
    Hb1 H2) as (b2 & Hb2 & Hin2 & Hout2).
  exists b2. split_and!.
  - done.
  - intros uri Hu. apply Hin2. by apply Hdo.
  - intros uri w Hu Hp. destruct (Hin1 uri w) as (r & body & Hg & Hw); [by apply Hks; eauto|done|].
    exists r, body. rewrite Hout2; [done|]. by rewrite Hdo.
  - intros uri Hu Hp. rewrite Hout2 by (by rewrite Hdo). apply Hout1. by right.
Qed.
End commit.

(** ** Properties *)

Definition orders_ok (porder : pending_order) (dorder : deleted_order) : Prop :=
  (forall p, iter_order (porder p) p) /\ (forall d uri, uri ∈ dorder d <-> uri ∈ d).

Lemma tx_Get_view {B} `{StorageBackend B} (ops : list tx_op) (uri : string) (s : engine B) :
  match last_op uri ops with
  | Some (TPut w) =>
      tx_Get (tx_run ops) uri s = Some (s, Ok (mkResource (wr_URI w) (wr_Body w) None (wr_Metadata w)))
  | Some (TDelete _) => tx_Get (tx_run ops) uri s = Some (s, Err ErrNotFound)
  | None => ~ deletes uri ops /\ tx_Get (tx_run ops) uri s =
      (r ← Get uri; mret (mkResource (rs_URI r) (rs_Body r) None (rs_Metadata r))) s
  end.
Proof.
  destruct (tx_run_state ops) as (_ & Hp & Hd). unfold tx_Get. rewrite Hp.
  assert (deletes uri ops -> is_Some (last_op uri ops)) as Hlast.
  { intros Hin. unfold last_op. apply last_is_Some. intros Hnil.
    assert (TDelete uri ∈ filter (fun op => names uri op = true) ops) as Hf.
    { apply list_elem_of_filter. split; [apply String.eqb_refl|done]. }
    rewrite Hnil in Hf. by apply elem_of_nil in Hf. }
  destruct (last_op uri ops) as [[w|u]|] eqn:Hl; [done| |].
  - rewrite bool_decide_true; [done|]. apply Hd. unfold last_op in Hl.
    apply last_Some_elem_of, list_elem_of_filter in Hl as [Hn Hin]. cbn in Hn.
    apply String.eqb_eq in Hn. by subst.
  - assert (~ deletes uri ops) as Hnd by (intros Hx; destruct (Hlast Hx); done).
    split; [done|]. rewrite bool_decide_false; [done|]. by rewrite Hd.
Qed.

(** C32: A transaction shows its own writes, and [Commit] applies them.  Over a backend that obeys
    the laws, take any history of writes and deletions in which no URI is written after it was
    deleted, and whose deletions have canonical URIs.  Inside the transaction every read sees the
    last operation on its URI, or else the engine: the body and the metadata of the write, where a
    write through a reader shows no body, or no resource after a deletion.  When [Commit] succeeds,
    in any order of the maps, the backend has for each URI the outcome of its last operation: the
    body of the write, or what its reader delivers, with its metadata, or no resource; and it is
    unchanged elsewhere. *)
Theorem transaction_commit_applies {B} `{StorageBackendLaws B} (ops : list tx_op) (clock : nat -> Z)
    (porder : pending_order) (dorder : deleted_order) (ctx : Context) (s s' : engine B)
    (t' : storageTransaction) (b : B) :
  orders_ok porder dorder -> (forall uri, deletes uri ops -> canonical uri) ->
  (forall uri w, last_op uri ops = Some (TPut w) -> ~ deletes uri ops) ->
  backend s = Some b -> tx_Commit clock porder dorder ctx (tx_run ops) s = Some (s', Ok (t', Ok tt)) ->
  exists b', backend s' = Some b' /\
    forall uri, match last_op uri ops with
    | Some (TPut w) =>
        tx_Get (tx_run ops) uri s = Some (s, Ok (mkResource (wr_URI w) (wr_Body w) None (wr_Metadata w))) /\
        written uri w b'
    | Some (TDelete _) =>
        tx_Get (tx_run ops) uri s = Some (s, Err ErrNotFound) /\ be_Get uri b' = Err ErrNotFound
    | None =>
        tx_Get (tx_run ops) uri s =
          (r ← Get uri; mret (mkResource (rs_URI r) (rs_Body r) None (rs_Metadata r))) s /\
        be_Get uri b' = be_Get uri b
    end.
Proof.
  intros [Hpo Hdo] Hcan Hno Hb Hc. destruct (tx_run_state ops) as (_ & Hp & Hd).
  destruct (tx_Commit_Ok clock porder dorder ctx (tx_run ops) t' s s' b) as (_ & b' & Hb' & H1 & H2 & H3);
    [done|done|by intros uri ?%Hd; auto|done|done|].
  exists b'. split; [done|]. intros uri. pose proof (tx_Get_view ops uri s) as Hv. specialize (Hp uri).
  destruct (last_op uri ops) as [[w|u]|] eqn:Hl.
  - split; [done|]. apply H2; [|done]. rewrite Hd. by eapply Hno.
  - split; [done|]. apply H1, Hd. unfold last_op in Hl.
    apply last_Some_elem_of, list_elem_of_filter in Hl as [Hn Hin]. cbn in Hn.
    apply String.eqb_eq in Hn. by subst.
  - destruct Hv as [Hnd Hv]. split; [done|]. apply H3; [by rewrite Hd|done].
Qed.

(** Some order of the maps. *)
Definition someOrders : pending_order * deleted_order :=
  (fun p => (map_to_list p).*1, fun d => elements d).

Lemma someOrders_ok : orders_ok someOrders.1 someOrders.2.
Proof. split; [intros p; apply iter_order_keys|]. intros d uri. apply elem_of_elements. Qed.

Definition sampleTx : list tx_op :=
  [TPut (sampleResource "/pod/a" "one"); TDelete "/pod/b"; TPut (sampleResource "/pod/a" "two")].

Lemma sampleTx_deletes uri : deletes uri sampleTx -> uri = "/pod/b".
Proof.
  unfold deletes, sampleTx. intros Hd. repeat apply elem_of_cons in Hd as [Hd|Hd]; try discriminate Hd; [by injection Hd|].
  by apply elem_of_nil in Hd.
Qed.

Definition committed : engine Memory.memoryBackend :=
  state_of (tx_Commit (fun _ => 5) someOrders.1 someOrders.2 Background (tx_run sampleTx)) (sampleEngine true false).

Lemma transaction_commit_applies_witness :
  tx_Commit (fun _ => 5) someOrders.1 someOrders.2 Background (tx_run sampleTx) (sampleEngine true false) =
    Some (committed, Ok (mkTransaction (tx_pending (tx_run sampleTx)) (tx_deleted (tx_run sampleTx)) true false, Ok tt)) /\
  exists b' r, backend committed = Some b' /\
    tx_Get (tx_run sampleTx) "/pod/a" (sampleEngine true false) =
      Some (sampleEngine true false, Ok (mkResource "/pod/a" (Some "two") None Memory.noMetadata)) /\
    be_Get "/pod/a" b' = Ok r /\ rs_Body r = Some "two" /\
    tx_Get (tx_run sampleTx) "/pod/b" (sampleEngine true false) = Some (sampleEngine true false, Err ErrNotFound) /\
    be_Get "/pod/b" b' = Err ErrNotFound.
Proof.
  assert (tx_Commit (fun _ => 5) someOrders.1 someOrders.2 Background (tx_run sampleTx) (sampleEngine true false) =
    Some (committed, Ok (mkTransaction (tx_pending (tx_run sampleTx)) (tx_deleted (tx_run sampleTx)) true false, Ok tt))) as Hc
    by (vm_compute; reflexivity).
  split; [exact Hc|].
  destruct (transaction_commit_applies sampleTx (fun _ => 5) someOrders.1 someOrders.2 Background (sampleEngine true false)
    committed (mkTransaction (tx_pending (tx_run sampleTx)) (tx_deleted (tx_run sampleTx)) true false) Memory.NewMemoryBackend someOrders_ok)
    as (b' & Hb' & Hv).
  - intros uri ->%sampleTx_deletes. vm_compute. reflexivity.
  - intros uri w Hl ->%sampleTx_deletes. discriminate Hl.
  - reflexivity.
  - exact Hc.
  - destruct (Hv "/pod/a") as (Hga & r & body & Hg & Hbody & Hr & _). destruct (Hv "/pod/b") as [Hgb Hb].
    exists b', r. split_and!; [exact Hb'|exact Hga|exact Hg| |exact Hgb|exact Hb]. rewrite Hr. injection Hbody as <-. reflexivity.
Defined.

(** A write after a deletion is lost: when a transaction deletes a URI and then writes it,
    its own reads return the write, but after a successful [Commit] the backend does not
    have the resource, in whatever order the maps are visited. *)
Theorem transaction_loses_rewrite {B} `{StorageBackendLaws B} (ops : list tx_op) (clock : nat -> Z)
    (porder : pending_order) (dorder : deleted_order) (ctx : Context) (s s' : engine B)
    (t' : storageTransaction) (b : B) (uri : string) (w : WriteResource) :
  orders_ok porder dorder -> (forall u, deletes u ops -> canonical u) ->
  last_op uri ops = Some (TPut w) -> deletes uri ops -> backend s = Some b ->
  tx_Commit clock porder dorder ctx (tx_run ops) s = Some (s', Ok (t', Ok tt)) ->
  tx_Get (tx_run ops) uri s = Some (s, Ok (mkResource (wr_URI w) (wr_Body w) None (wr_Metadata w))) /\
  exists b', backend s' = Some b' /\ be_Get uri b' = Err ErrNotFound.
Proof.
  intros [Hpo Hdo] Hcan Hl Hd Hb Hc. destruct (tx_run_state ops) as (_ & _ & Hds).
  pose proof (tx_Get_view ops uri s) as Hv. rewrite Hl in Hv. split; [done|].
  destruct (tx_Commit_Ok clock porder dorder ctx (tx_run ops) t' s s' b) as (_ & b' & Hb' & H1 & _);
    [done|done|by intros u ?%Hds; auto|done|done|].
  exists b'. split; [done|]. by apply H1, Hds.
Qed.

Lemma transaction_loses_rewrite_witness :
  let ops := [TDelete "/pod/a"; TPut (sampleResource "/pod/a" "new")] in
  let s := sampleEngine true false in
  exists s' b', backend s' = Some b' /\ be_Get "/pod/a" b' = Err ErrNotFound.
Proof.
  intros ops s.
  set (out := tx_Commit (fun _ => 5) someOrders.1 someOrders.2 Background (tx_run ops) s).
  exists (match out with Some (s', _) => s' | None => s end).
  apply (transaction_loses_rewrite ops (fun _ => 5) someOrders.1 someOrders.2 Background s
    (match out with Some (s', _) => s' | None => s end)
    (mkTransaction (tx_pending (tx_run ops)) (tx_deleted (tx_run ops)) true false)
    Memory.NewMemoryBackend "/pod/a" (sampleResource "/pod/a" "new")).
  - apply someOrders_ok.
  - intros u Hd. unfold deletes, ops in Hd. repeat apply elem_of_cons in Hd as [Hd|Hd];
      try discriminate Hd; [|by apply elem_of_nil in Hd]. injection Hd as ->. vm_compute. reflexivity.
  - reflexivity.
  - left.
  - reflexivity.
  - vm_compute. reflexivity.
Defined.

Lemma commit_puts_Err {B} `{StorageBackendLaws B} (clock : nat -> Z) (us : list string)
    (p : gmap string WriteResource) (s s' : engine B) (b : B) (e : error) :
  NoDup us -> backend s = Some b -> commit_puts clock us p s = Some (s', Err e) ->
  exists pre u post b', us = pre ++ u :: post /\ backend s' = Some b' /\
    (forall uri w, uri ∈ pre -> p !! uri = Some w -> written uri w b') /\
    (forall uri, uri ∉ pre -> be_Get uri b' = be_Get uri b).
Proof.
  intros Hnd. revert s b. induction Hnd as [|u us Hu Hnd IH]; intros s b Hb; cbn [commit_puts]; [done|].
  assert (forall s1 b1, backend s1 = Some b1 -> commit_puts clock us p s1 = Some (s', Err e) ->
    (forall w, p !! u = Some w -> written u w b1) ->
    (forall uri, uri <> u -> be_Get uri b1 = be_Get uri b) ->
    exists pre u0 post b', u :: us = pre ++ u0 :: post /\ backend s' = Some b' /\
      (forall uri w, uri ∈ pre -> p !! uri = Some w -> written uri w b') /\
      (forall uri, uri ∉ pre -> be_Get uri b' = be_Get uri b)) as Hgo.
  { intros s1 b1 Hb1 Hrest Hwr Hfr. destruct (IH s1 b1 Hb1 Hrest) as (pre & v & post & b' & -> & Hb' & Hin & Hout).
    exists (u :: pre), v, post, b'. split_and!; [done|done| |].
    - intros uri w [->|Hi]%elem_of_cons Hpw; [|by apply Hin].
      destruct (Hwr w Hpw) as (r & body & Hg & Hx). exists r, body.
      rewrite Hout; [done|]. set_solver.
    - intros uri Hno. rewrite Hout by set_solver. apply Hfr. set_solver. }
  destruct (p !! u) as [w|] eqn:Hp.
  - unfold mbind at 1, M_bind at 1.
    destruct (backend_write _ s) as [[s1 [[]|e1]]|] eqn:Ew; [| |done].
    + intros Hrest. apply backend_write_inv in Ew as (b0 & Hb0 & Hb1 & Hr & _).
      rewrite Hb in Hb0. injection Hb0 as <-. destruct (be_Put _ u w b) as [b1 r1] eqn:Ep.
      cbn in Hb1, Hr. subst r1. destruct (be_put_get _ _ _ _ _ Ep) as (body & m & Hbody & Hm & Hg & _).
      apply (Hgo s1 b1 Hb1 Hrest).
      * intros w' [= <-]. by exists (mkResource u body None m), body.
      * intros uri Hne. pose proof (be_put_frame (clock (length us)) u uri w b Hne) as Hf. by rewrite Ep in Hf.
    + intros [= <- <-]. apply backend_write_inv in Ew as (b0 & Hb0 & Hb1 & Hr & _).
      rewrite Hb in Hb0. injection Hb0 as <-. destruct (be_Put _ u w b) as [b1 r1] eqn:Ep.
      cbn in Hb1, Hr. subst r1. exists [], u, us, b1. split_and!; try done.
      * by intros uri w' []%elem_of_nil.
      * intros uri _. by apply (be_put_failed _ _ _ _ _ _ Ep).
  - intros Hrest. by apply (Hgo s b).
Qed.

(** [Commit] is not atomic: when a transaction of writes fails, the writes visited
    before the failing one stay in the backend while the others are not applied, the
    transaction counts as rolled back, and it can be neither committed nor rolled back
    again. *)
Theorem transaction_failed_commit {B} `{StorageBackendLaws B} (clock clock' : nat -> Z)
    (porder : pending_order) (dorder : deleted_order) (ctx : Context) (t t' : storageTransaction)
    (s s' : engine B) (b : B) (e : error) :
  orders_ok porder dorder -> completed t = false -> tx_deleted t = ∅ -> backend s = Some b ->
  tx_Commit clock porder dorder ctx t s = Some (s', Ok (t', Err e)) ->
  exists pre u post b', porder (tx_pending t) = pre ++ u :: post /\ backend s' = Some b' /\
    (forall uri w, uri ∈ pre -> tx_pending t !! uri = Some w -> written uri w b') /\
    (forall uri, uri ∉ pre -> be_Get uri b' = be_Get uri b) /\
    tx_Commit clock' porder dorder ctx t' s' =
      Some (s', Ok (t', Err (Errorf "transaction was rolled back"))) /\
    tx_Rollback t' s' = Some (s', Ok (t', Err (Errorf "transaction already rolled back"))).
Proof.
  intros [Hpo Hdo] Hopen Hdel Hb. unfold tx_Commit at 1. unfold completed in Hopen.
  apply orb_false_iff in Hopen as [-> ->]. destruct (Hpo (tx_pending t)) as [Hnd _].
  assert (dorder (tx_deleted t) = []) as Hd0.
  { destruct (dorder (tx_deleted t)) as [|u us] eqn:E; [done|]. exfalso.
    assert (u ∈ tx_deleted t) as Hu by (apply Hdo; rewrite E; left). set_solver. }
  rewrite Hd0. cbn [commit_deletes].
  intros (s1 & r1 & H1 & Hc)%bind_Ok. apply try_inv in H1. destruct r1 as [[]|e1].
  { apply bind_Ok in Hc as (s2 & r2 & H2 & Hc). injection H2 as <- <-.
    by apply bind_Ok in Hc as (s3 & [] & _ & Hc). }
  injection Hc as <- <- <-.
  destruct (commit_puts_Err _ _ _ _ _ _ _ Hnd Hb H1) as (pre & u & post & b' & Hsplit & Hb' & Hin & Hout).
  exists pre, u, post, b'. by split_and!.
Qed.

(** A write under [If-Match] that fails after another one was applied. *)
Lemma transaction_failed_commit_witness :
  let bad := mkWriteResource "/pod/b" (Some "x") None 0 Memory.noMetadata (mkPrecondition "*" "" None) in
  let t := tx_run [TPut (sampleResource "/pod/a" "one"); TPut bad] in
  let order : pending_order := fun p => reverse (map_to_list p).*1 in
  let s := sampleEngine true false in
  let out := tx_Commit (fun _ => 5) order someOrders.2 Background t s in
  exists s' t' e, out = Some (s', Ok (t', Err e)) /\
    tx_Rollback t' s' = Some (s', Ok (t', Err (Errorf "transaction already rolled back"))).
Proof.
  intros bad t order s out.
  exists (match out with Some (s', _) => s' | None => s end),
    (mkTransaction (tx_pending t) (tx_deleted t) false true), (commit_error ErrPreconditionFailed).
  assert (out = Some (match out with Some (s', _) => s' | None => s end,
    Ok (mkTransaction (tx_pending t) (tx_deleted t) false true, Err (commit_error ErrPreconditionFailed))))
    as Hout by (vm_compute; reflexivity).
  split; [exact Hout|].
  destruct (transaction_failed_commit (fun _ => 5) (fun _ => 6) order someOrders.2 Background t
    (mkTransaction (tx_pending t) (tx_deleted t) false true) s
    (match out with Some (s', _) => s' | None => s end) Memory.NewMemoryBackend
    (commit_error ErrPreconditionFailed)) as (pre & u & post & b' & _ & _ & _ & _ & _ & Hr).
  - split; [|apply someOrders_ok]. intros p. destruct (iter_order_keys p) as [H1 H2]. split.
    + unfold order. rewrite reverse_Permutation. exact H1.
    + intros k. unfold order. rewrite elem_of_reverse. apply H2.
  - reflexivity.
  - vm_compute. reflexivity.
  - reflexivity.
  - exact Hout.
  - exact Hr.
Defined.
