(* ===== verification/StorageIntegrity.v ===== *)
(** * The integrity scanner

    [internal/storage/integrity.go]: [ScanResource], [Scan], [repairResource], [Repair],
    [QuickIntegrityCheck] and [CheckResourceIntegrity] on top of the engine.  [Scan] checks
    the resources concurrently and appends their reports under a lock, so the order of the
    reports is an argument. *)

From S2P Require Import Prelude GoStrings GoGlob GoHash StorageTypes MemoryBackend StorageBackend StorageEngine.

Local Open Scope Z_scope.

(** ** Scanning *)

(** What [ScanResource] finds in a resource. *)
Definition scanIssues (r : ReadResource) : list IntegrityIssue :=
  let m := rs_Metadata r in
  let computedDigest := computeDigest (rs_Body r) in
  let computedAddress := computeContentAddress (rs_Body r) in
  let size := blen (rs_Body r) in
  (if negb (String.eqb (md_Digest m) "") then
     if negb (String.eqb computedDigest (md_Digest m)) then
       [mkIssue IssueTypeMetadataBodyMismatch SeverityHigh "Metadata digest does not match body content"
          [("expected_digest", md_Digest m); ("computed_digest", computedDigest)]]
     else []
   else if negb (String.eqb (md_ContentAddress m) "") then
     [mkIssue IssueTypeMissingDigest SeverityMedium "Missing digest for content-addressed resource"
        [("content_address", md_ContentAddress m)]]
   else [])
  ++ (if negb (String.eqb (md_ContentAddress m) "") && negb (String.eqb computedAddress (md_ContentAddress m)) then
        [mkIssue IssueTypeMetadataBodyMismatch SeverityHigh "Content address does not match body content"
           [("expected_address", md_ContentAddress m); ("computed_address", computedAddress)]]
      else [])
  ++ (if (md_LayoutVersion m <? MinSupportedStorageLayoutVersion)
         || (CurrentStorageLayoutVersion <? md_LayoutVersion m) then
        [mkIssue IssueTypeLayoutVersionMismatch SeverityCritical "Resource uses unsupported storage layout version"
           [("current_version", FormatInt (md_LayoutVersion m));
            ("min_supported", FormatInt MinSupportedStorageLayoutVersion);
            ("max_supported", FormatInt CurrentStorageLayoutVersion)]]
      else [])
  ++ (if String.eqb (md_URI m) "" then
        [mkIssue IssueTypeCorruptedMetadata SeverityCritical "Resource metadata has empty URI" []]
      else [])
  ++ (if md_Size m <? 0 then
        [mkIssue IssueTypeCorruptedMetadata SeverityHigh "Resource metadata has negative size"
           [("size", FormatInt (md_Size m))]]
      else [])
  ++ (if negb (md_Size m =? size) then
        [mkIssue IssueTypeMetadataBodyMismatch SeverityHigh "Resource size does not match body length"
           [("metadata_size", FormatInt (md_Size m)); ("actual_body_size", FormatInt size)]]
      else [])
  ++ (if String.eqb (md_ETag m) "" then
        [mkIssue IssueTypeCorruptedMetadata SeverityLow "Resource is missing ETag" []]
      else []).

Section scanner.
Context {B : Type} `{StorageBackend B}.

Definition ScanResource (uri : string) : M B ResourceIntegrityReport :=
  r ← try (Get uri);
  match r with
  | Ok resource => mret (mkResourceReport uri (scanIssues resource))
  | Err e =>
      if bool_decide (e = ErrNotFound) then
        mret (mkResourceReport uri
          [mkIssue IssueTypeMetadataBodyMismatch SeverityHigh "Resource not found" []])
      else throw (Errorf_w "failed to get resource: " e "")
  end.

(** Adds a resource's report to the counters of the scan. *)
Definition count_issues (ty : string) (issues : list IntegrityIssue) : Z :=
  Z.of_nat (length (filter (fun i => is_Type i = ty) issues)).

Definition addReport (rep : ResourceIntegrityReport) (r : IntegrityReport) : IntegrityReport :=
  mkReport (ir_ScannedAt r) (ir_TotalResources r)
    (if bool_decide (rr_Issues rep = []) then ir_ResourcesWithIssues r else ir_ResourcesWithIssues r + 1)
    (ir_MetadataBodyMismatches r + count_issues IssueTypeMetadataBodyMismatch (rr_Issues rep))
    (ir_MissingDigests r + count_issues IssueTypeMissingDigest (rr_Issues rep))
    (ir_OrphanedBlobs r) (ir_ResourceReports r ++ [rep]).

(** The resources in the order in which their scans finish; a failed one is skipped. *)
Fixpoint scanAll (uris : list string) (r : IntegrityReport) : M B IntegrityReport :=
  match uris with
  | [] => mret r
  | uri :: rest =>
      rep ← try (ScanResource uri);
      scanAll rest (match rep with Ok rep => addReport rep r | Err _ => r end)
  end.

(** [ctx.Done()] on a nil context panics; [done] is the context's error once it is cancelled. *)
Definition check_done {A} (ctx : Context) (done : option error) (cancelled : error -> M B A) (k : M B A) : M B A :=
  match ctx with
  | NilContext => fun _ => None
  | Background => match done with Some e => cancelled e | None => k end
  end.

(** [schedule] gives the resources whose scans run, in the order in which they finish: all of
    them, unless the context is cancelled. *)
Definition Scan (now : Z) (order order' : be_order) (torder : Memory.tombstone_order)
    (schedule : list string -> list string) (done : option error) (ctx : Context) : M B IntegrityReport :=
  all ← try (ListAll order order' torder ctx);
  match all with
  | Err e => throw (Errorf_w "failed to list all resources: " e "")
  | Ok metadata =>
      report ← scanAll (schedule (map md_URI metadata))
        (mkReport now (Z.of_nat (length metadata)) 0 0 0 0 []);
      check_done ctx done (fun e => throw (Errorf_w "integrity scan cancelled: " e "")) (mret report)
  end.

Fixpoint checkAll (uris : list string) : M B unit :=
  match uris with
  | [] => mret tt
  | uri :: rest => _ ← ScanResource uri; checkAll rest
  end.

Definition QuickIntegrityCheck (order order' : be_order) (torder : Memory.tombstone_order) (ctx : Context)
  : M B bool :=
  metadata ← ListAll order order' torder ctx;
  _ ← checkAll (firstn 10 (map md_URI metadata));
  mret true.

Definition CheckResourceIntegrity (uri : string) : M B (bool * list IntegrityIssue) :=
  rep ← ScanResource uri;
  mret (bool_decide (rr_Issues rep = []), rr_Issues rep).

(** ** Repair *)

(** The treatment of one issue: [m0] is the metadata as it was read. *)
Definition fixIssue (uri : string) (body : Bytes) (m0 : Metadata) (acc : bool * Metadata) (i : IntegrityIssue)
  : bool * Metadata :=
  let '(fixed, m) := acc in
  if String.eqb (is_Type i) IssueTypeMetadataBodyMismatch then
    let m := set_md_Digest (computeDigest body) m in
    let m := if negb (String.eqb (md_ContentAddress m0) "")
             then set_md_ContentAddress (computeContentAddress body) m else m in
    (true, set_md_Size (blen body) m)
  else if String.eqb (is_Type i) IssueTypeMissingDigest || String.eqb (is_Type i) IssueTypeInvalidDigest then
    (true, set_md_Digest (computeDigest body) m)
  else if String.eqb (is_Type i) IssueTypeCorruptedMetadata then
    let '(fixed, m) := if String.eqb (md_URI m0) "" then (true, set_md_URI uri m) else (fixed, m) in
    if md_Size m0 <? 0 then (true, set_md_Size (blen body) m) else (fixed, m)
  else if String.eqb (is_Type i) IssueTypeLayoutVersionMismatch then
    (true, set_md_LayoutVersion CurrentStorageLayoutVersion m)
  else (fixed, m).

Definition repairResource (now later : Z) (ctx : Context) (rep : ResourceIntegrityReport) : M B bool :=
  r ← try (Get (rr_URI rep));
  match r with
  | Err e => throw (Errorf_w "failed to get resource for repair: " e "")
  | Ok resource =>
      let '(fixed, newMetadata) :=
        foldl (fixIssue (rr_URI rep) (rs_Body resource) (rs_Metadata resource)) (false, rs_Metadata resource)
          (rr_Issues rep) in
      if fixed : bool then
        p ← try (Put now later ctx
              (mkWriteResource (rs_URI resource) (rs_Body resource) None 0 newMetadata (mkPrecondition "" "" None)));
        match p with
        | Err e => throw (Errorf_w "failed to update resource during repair: " e "")
        | Ok _ => mret true
        end
      else mret false
  end.

Record IntegrityRepairReport := mkRepairReport {
  rp_RepairedAt : Z;
  rp_TotalIssues : Z;
  rp_IssuesRepaired : Z;
  rp_IssuesUnrepaired : Z;
  rp_Errors : list error
}.

(** What a resource's repair adds to the report. *)
Definition addRepair (res : result error bool) (r : IntegrityRepairReport) : IntegrityRepairReport :=
  match res with
  | Err e => mkRepairReport (rp_RepairedAt r) (rp_TotalIssues r) (rp_IssuesRepaired r)
               (rp_IssuesUnrepaired r) (rp_Errors r ++ [e])
  | Ok true => mkRepairReport (rp_RepairedAt r) (rp_TotalIssues r) (rp_IssuesRepaired r + 1)
                 (rp_IssuesUnrepaired r - 1) (rp_Errors r)
  | Ok false => r
  end.

(** The loop over the resources, at its [i]th iteration: [clock i] is the time, [done i] the
    error of a context that is cancelled by then. *)
Fixpoint repairAll (clock : nat -> Z * Z) (done : nat -> option error) (ctx : Context) (i : nat)
    (reps : list ResourceIntegrityReport) (r : IntegrityRepairReport)
  : M B (IntegrityRepairReport * option error) :=
  match reps with
  | [] => mret (r, None)
  | rep :: rest =>
      if bool_decide (rr_Issues rep = []) then repairAll clock done ctx (S i) rest r
      else
        check_done ctx (done i) (fun e => mret (r, Some (Errorf_w "repair cancelled: " e ""))) (
          res ← try (repairResource (clock i).1 (clock i).2 ctx rep);
          repairAll clock done ctx (S i) rest (addRepair res r))
  end.

Definition Repair (now : Z) (clock : nat -> Z * Z) (done : nat -> option error) (ctx : Context)
    (report : IntegrityReport) : M B (IntegrityRepairReport * option error) :=
  repairAll clock done ctx 0 (ir_ResourceReports report)
    (mkRepairReport now (ir_ResourcesWithIssues report) 0 (ir_ResourcesWithIssues report) []).
End scanner.

(** ** Lemmas *)

(** Some issue is of the type. *)
Definition has (ty : string) (issues : list IntegrityIssue) : bool :=
  existsb (fun i => String.eqb (is_Type i) ty) issues.

Lemma has_app (ty : string) (l k : list IntegrityIssue) : has ty (l ++ k) = has ty l || has ty k.
Proof. apply existsb_app. Qed.

Lemma has_cons (ty : string) (t sev desc : string) (det : list (string * string)) (l : list IntegrityIssue) :
  has ty (mkIssue t sev desc det :: l) = String.eqb t ty || has ty l.
Proof. reflexivity. Qed.

(** The metadata a repair writes, from the types of the issues only. *)
Lemma fold_fixIssue (uri : string) (body : Bytes) (m0 m : Metadata) (f : bool) (issues : list IntegrityIssue) :
  let p := foldl (fixIssue uri body m0) (f, m) issues in
  md_Digest p.2 =
    (if has IssueTypeMetadataBodyMismatch issues || has IssueTypeMissingDigest issues
        || has IssueTypeInvalidDigest issues then computeDigest body else md_Digest m) /\
  md_ContentAddress p.2 =
    (if has IssueTypeMetadataBodyMismatch issues && negb (String.eqb (md_ContentAddress m0) "")
     then computeContentAddress body else md_ContentAddress m) /\
  md_Size p.2 =
    (if has IssueTypeMetadataBodyMismatch issues || (has IssueTypeCorruptedMetadata issues && (md_Size m0 <? 0))
     then blen body else md_Size m) /\
  md_LayoutVersion p.2 =
    (if has IssueTypeLayoutVersionMismatch issues then CurrentStorageLayoutVersion else md_LayoutVersion m) /\
  p.1 = f || (has IssueTypeMetadataBodyMismatch issues || has IssueTypeMissingDigest issues
              || has IssueTypeInvalidDigest issues || has IssueTypeLayoutVersionMismatch issues
              || (has IssueTypeCorruptedMetadata issues
                  && (String.eqb (md_URI m0) "" || (md_Size m0 <? 0)))).
Proof.
  revert f m. induction issues as [|[ty sev desc det] issues IH]; intros f m.
  { cbn. by rewrite orb_false_r. }
  cbn [foldl]. destruct (fixIssue uri body m0 (f, m) _) as [f1 m1] eqn:E.
  specialize (IH f1 m1). cbv zeta in IH |- *. destruct IH as (-> & -> & -> & -> & ->).
  rewrite !has_cons. unfold fixIssue in E. cbn [is_Type] in E.
  revert E. generalize (String.eqb (md_ContentAddress m0) "") as ba.
  generalize (String.eqb (md_URI m0) "") as bu. generalize (md_Size m0 <? 0) as bs. intros bs bu ba E.
  destruct (String.eqb_spec ty IssueTypeMetadataBodyMismatch) as [->|?];
    [|destruct (String.eqb_spec ty IssueTypeMissingDigest) as [->|?];
    [|destruct (String.eqb_spec ty IssueTypeInvalidDigest) as [->|?];
    [|destruct (String.eqb_spec ty IssueTypeCorruptedMetadata) as [->|?];
    [|destruct (String.eqb_spec ty IssueTypeLayoutVersionMismatch) as [->|?]]]]];
  cbn -[has] in E |- *; cbn [negb orb andb] in E |- *;
  destruct ba, bu, bs; injection E as <- <-; split_and!;
  repeat match goal with |- context [has ?t issues] => destruct (has t issues) end; destruct f; reflexivity.
Qed.

Lemma computeDigest_not_empty (body : Bytes) : computeDigest body <> "".
Proof.
  unfold computeDigest. assert (length (sha256Sum body) = 32%nat) as Hl.
  { unfold sha256Sum. destruct (blen body =? 0); [reflexivity|apply Sum256_length]. }
  destruct (sha256Sum body) as [|x l]; [discriminate Hl|]. cbn. discriminate.
Qed.

Lemma computeDigest_content (a b : Bytes) : content a = content b -> computeDigest a = computeDigest b.
Proof. intros Hc. unfold computeDigest, sha256Sum, blen. rewrite Hc. reflexivity. Qed.

Lemma generateETag_not_empty (body : Bytes) : generateETag body <> "".
Proof. unfold generateETag, quoted. break_if; unfold dquote; rewrite str_app_cons; discriminate. Qed.

(** Metadata that agree with the body, but for the URI and the ETag. *)
Definition agrees (body : Bytes) (m : Metadata) : Prop :=
  (md_Digest m <> "" -> md_Digest m = computeDigest body) /\
  (md_ContentAddress m <> "" -> md_Digest m <> "" /\ md_ContentAddress m = computeContentAddress body) /\
  MinSupportedStorageLayoutVersion <= md_LayoutVersion m <= CurrentStorageLayoutVersion /\
  md_Size m = blen body.

(** A scan without issues. *)
Lemma scanIssues_nil (r : ReadResource) :
  agrees (rs_Body r) (rs_Metadata r) -> md_URI (rs_Metadata r) <> "" -> md_ETag (rs_Metadata r) <> "" ->
  scanIssues r = [].
Proof.
  intros (Hd & Ha & Hl & Hs) Hu He. unfold scanIssues. cbv zeta.
  apply String.eqb_neq in Hu, He. rewrite Hu, He, Hs, Z.eqb_refl.
  destruct (Z.ltb_spec (blen (rs_Body r)) 0) as [?|_]; [unfold blen, len in *; lia|].
  destruct (Z.ltb_spec (md_LayoutVersion (rs_Metadata r)) MinSupportedStorageLayoutVersion); [lia|].
  destruct (Z.ltb_spec CurrentStorageLayoutVersion (md_LayoutVersion (rs_Metadata r))); [lia|].
  destruct (String.eqb_spec (md_ContentAddress (rs_Metadata r)) "") as [Hn|Hn]; cbn [negb andb orb app].
  - destruct (String.eqb_spec (md_Digest (rs_Metadata r)) "") as [|Hx]; [reflexivity|].
    rewrite (Hd Hx), String.eqb_refl. reflexivity.
  - destruct (Ha Hn) as [Hx Hc]. rewrite (Hd Hx), Hc, !String.eqb_refl.
    apply String.eqb_neq in Hx. rewrite (Hd (proj1 (Ha Hn))) in Hx. rewrite Hx. reflexivity.
Qed.

Lemma has_nil (ty : string) : has ty [] = false.
Proof. reflexivity. Qed.

Lemma has_nested (ty : string) (b : bool) (l k : list IntegrityIssue) :
  has ty (if b then l else k) = (b && has ty l) || (negb b && has ty k).
Proof. destruct b; cbn; [symmetry; apply orb_false_r|reflexivity]. Qed.

(** The types of the issues of a scan. *)
Lemma has_scanIssues (r : ReadResource) :
  let m := rs_Metadata r in
  has IssueTypeMetadataBodyMismatch (scanIssues r) =
    (negb (String.eqb (md_Digest m) "") && negb (String.eqb (computeDigest (rs_Body r)) (md_Digest m)))
    || (negb (String.eqb (md_ContentAddress m) "")
        && negb (String.eqb (computeContentAddress (rs_Body r)) (md_ContentAddress m)))
    || negb (md_Size m =? blen (rs_Body r)) /\
  has IssueTypeMissingDigest (scanIssues r) =
    String.eqb (md_Digest m) "" && negb (String.eqb (md_ContentAddress m) "") /\
  has IssueTypeInvalidDigest (scanIssues r) = false /\
  has IssueTypeLayoutVersionMismatch (scanIssues r) =
    (md_LayoutVersion m <? MinSupportedStorageLayoutVersion) || (CurrentStorageLayoutVersion <? md_LayoutVersion m) /\
  has IssueTypeCorruptedMetadata (scanIssues r) =
    String.eqb (md_URI m) "" || (md_Size m <? 0) || String.eqb (md_ETag m) "".
Proof.
  cbv zeta. unfold scanIssues. cbv zeta. rewrite !has_app, !has_nested, !has_cons, !has_nil. cbn [String.eqb Ascii.eqb Bool.eqb
    IssueTypeMetadataBodyMismatch IssueTypeMissingDigest IssueTypeInvalidDigest IssueTypeLayoutVersionMismatch
    IssueTypeCorruptedMetadata].
  generalize (String.eqb (md_Digest (rs_Metadata r)) "") as b1.
  generalize (String.eqb (computeDigest (rs_Body r)) (md_Digest (rs_Metadata r))) as b2.
  generalize (String.eqb (md_ContentAddress (rs_Metadata r)) "") as b3.
  generalize (String.eqb (computeContentAddress (rs_Body r)) (md_ContentAddress (rs_Metadata r))) as b4.
  intros. rewrite ?andb_true_r, ?andb_false_r, ?orb_false_r, ?orb_false_l.
  split_and!; try reflexivity; destruct b1, b2, b3, b4; try reflexivity; cbn [negb andb orb];
    rewrite ?orb_assoc; reflexivity.
Qed.

(** What a repair writes after a scan agrees with the body. *)
Lemma repaired_agrees (uri : string) (r : ReadResource) :
  let p := foldl (fixIssue uri (rs_Body r) (rs_Metadata r)) (false, rs_Metadata r) (scanIssues r) in
  agrees (rs_Body r) p.2 /\ (md_ETag (rs_Metadata r) <> "" -> scanIssues r <> [] -> p.1 = true).
Proof.
  cbv zeta. destruct (fold_fixIssue uri (rs_Body r) (rs_Metadata r) (rs_Metadata r) false (scanIssues r))
    as (Hd & Ha & Hs & Hl & Hf).
  destruct (has_scanIssues r) as (Hmm & Hmd & Hi & Hlv & Hcm).
  rewrite Hmm, Hmd, Hi in Hd. rewrite Hmm in Ha. rewrite Hmm, Hcm in Hs. rewrite Hlv in Hl.
  rewrite Hmm, Hmd, Hi, Hlv, Hcm in Hf. pose proof (computeDigest_not_empty (rs_Body r)) as Hne.
  set (p := foldl _ _ _) in *. clearbody p. unfold agrees. rewrite Hd, Ha, Hs, Hl.
  clear Hd Ha Hs Hl Hmm Hmd Hi Hlv Hcm. unfold computeContentAddress in *.
  assert (0 <= blen (rs_Body r)) by (unfold blen, len; lia).
  pose proof (scanIssues_nil r) as Hnil. unfold agrees, computeContentAddress in Hnil.
  revert Hf Hnil Hne H. generalize (scanIssues r) as issues, (computeDigest (rs_Body r)) as d, (blen (rs_Body r)) as n.
  unfold MinSupportedStorageLayoutVersion, CurrentStorageLayoutVersion.
  destruct (rs_Metadata r) as [muri ? ? msize mdigest ? ? metag ? ? ? ? ? ? maddress mlayout ?].
  cbn [md_URI md_Size md_Digest md_ContentAddress md_LayoutVersion md_ETag]. intros issues d n Hf Hnil Hne H.
  destruct (String.eqb_spec d mdigest), (String.eqb_spec d maddress), (String.eqb_spec mdigest ""),
    (String.eqb_spec maddress ""), (Z.eqb_spec msize n), (Z.ltb_spec mlayout 1), (Z.ltb_spec 1 mlayout),
    (String.eqb_spec muri "");
  cbn [negb andb orb] in Hf |- *; rewrite ?andb_false_r, ?orb_true_r in *;
  (split; [split_and!; intros; split_and?; solve [congruence|lia|break_if; lia]|intros He Hi]); try exact Hf.
  all: exfalso; apply Hi, Hnil; try assumption; split_and!; intros; split_and?; solve [congruence|lia].
Qed.

Lemma Get_keeps_state {B} `{StorageBackend B} (uri : string) :
  keeps same_backend (Get (B := B) uri) /\ keeps same_rest (Get (B := B) uri).
Proof. split; keeps_unfold; keeps_walk ltac:(intros; by split_and!). Qed.

(** A read that succeeded. *)
Lemma Get_Ok {B} `{StorageBackend B} (uri : string) (s s' : engine B) (r : ReadResource) :
  Get uri s = Some (s', Ok r) ->
  validateStorageURI uri = Ok tt /\ exists b r', backend s = Some b /\ be_Get uri b = Ok r' /\
    r = mkResource uri (rs_Body r') None (complete uri (rs_Body r') (rs_Metadata r')).
Proof.
  unfold Get. intros (s1 & [] & H1 & Hg)%bind_Ok. injection H1 as <-.
  apply bind_Ok in Hg as (s2 & [] & H2 & Hg). apply or_fail_Ok in H2. injection H2 as <- Hv.
  apply bind_Ok in Hg as (s3 & t & H3 & Hg). apply or_fail_Ok in H3. apply isTombstoned_same in H3 as [Hb _].
  destruct t; [discriminate Hg|]. apply bind_Ok in Hg as (s4 & r' & H4 & Hg). apply or_fail_Ok in H4.
  apply bind_Ok in Hg as (s5 & [] & H5 & Hg). injection Hg as _ <-. split; [exact Hv|].
  unfold backend_read in H4. change (eng_backends s3 !! eng_default s3) with (backend s3) in H4.
  rewrite Hb in H4. change (backend (set_metrics (RecordRequest "get") s)) with (backend s) in H4.
  destruct (backend s) as [b|]; [|discriminate H4]. injection H4 as _ Hr. eauto.
Qed.

Lemma agrees_content (a b : Bytes) (m : Metadata) : content a = content b -> agrees a m -> agrees b m.
Proof.
  intros Hc. unfold agrees, computeContentAddress, blen. rewrite (computeDigest_content a b Hc), Hc. exact id.
Qed.

(** The record that reaches the backend agrees with the body as the caller's does. *)
Lemma completes_agrees {B} `{StorageBackendLaws B} (w w' : WriteResource) :
  completes (B := B) w w' -> wr_BodyReader w = None -> agrees (wr_Body w) (wr_Metadata w) ->
  agrees (wr_Body w) (wr_Metadata w').
Proof.
  intros Hw Hr Hag.
  destruct (String.eqb_spec (md_ContentAddress (wr_Metadata w)) "") as [Hn|Hn];
    [rewrite (co_address _ _ Hw); auto|].
  pose proof Hag as (Hd & Ha & Hl & Hs). destruct (Ha Hn) as [Hdn Hc].
  destruct (co_metadata _ _ Hw) as (a & -> & Ho). assert (a = computeContentAddress (wr_Body w)) as ->.
  { destruct Ho as [->|(ctx & data & b & Hb & Hcc)]; [exact Hc|].
    rewrite (be_blob_address _ _ _ _ Hb). unfold computeContentAddress. auto using computeDigest_content. }
  rewrite <- Hc, set_address_id. exact Hag.
Qed.

Lemma stored_agrees (uri : string) (body : Bytes) (given m : Metadata) :
  metadata_stored uri body given m -> agrees body given -> agrees body m.
Proof.
  intros (_ & Hs & _ & _ & Hl & _ & Hd & Ha & _) (Had & Haa & Hal & Has).
  unfold agrees, MinSupportedStorageLayoutVersion, CurrentStorageLayoutVersion in *.
  rewrite Hs, Hl, Hd, Ha by lia. split_and!; try assumption; try lia. break_if; [reflexivity|exact Has].
Qed.

(** The fields [Get] computes are not those that are checked, but for the ETag. *)
Lemma complete_agrees (uri : string) (body : Bytes) (m : Metadata) :
  md_URI (complete uri body m) = md_URI m /\ md_ETag (complete uri body m) <> "" /\
  (agrees body m -> agrees body (complete uri body m)).
Proof.
  split_and!.
  - unfold complete. repeat break_if; reflexivity.
  - destruct (complete_fields uri body m) as (-> & _).
    destruct (String.eqb_spec (md_ETag m) ""); [apply generateETag_not_empty|assumption].
  - unfold complete. repeat break_if; exact id.
Qed.

(** A write whose metadata agree with its body is read back without issues. *)
Lemma Put_scans_clean {B} `{StorageBackendLaws B} (now later : Z) (ctx : Context) (w : WriteResource)
    (s s' : engine B) :
  Put now later ctx w s = Some (s', Ok tt) -> wr_BodyReader w = None -> untombstoned (wr_URI w) s ->
  agrees (wr_Body w) (wr_Metadata w) ->
  exists s2 r, Get (wr_URI w) s' = Some (s2, Ok r) /\ content (rs_Body r) = content (wr_Body w) /\
    scanIssues r = [].
Proof.
  intros Hput Hrd Hunt Hag. pose proof (Put_uri_valid _ _ _ _ _ _ Hput) as Hv.
  destruct (Put_Ok _ _ _ _ _ _ Hput) as (w' & b0 & b & b' & Hw & _ & _ & Hbp & Hb' & _).
  destruct (Put_same_rest _ _ _ _ _ _ _ Hput) as (Ht & Hc & _).
  destruct (be_put_get now (wr_URI w) w' b b' Hbp) as (body & m & Hbody & Hm & Hget & _).
  destruct (co_body _ _ Hw Hrd) as [Hrd' Hcont].
  assert (content body = content (wr_Body w)) as Hbc.
  { unfold Memory.stored_body in Hbody. rewrite Hrd' in Hbody.
    destruct (wr_Body w'); injection Hbody as <-; exact Hcont. }
  destruct (Get_untombstoned (wr_URI w) s' b') as [s2 Hg]; [exact Hv| |exact Hb'|].
  { unfold untombstoned in *. rewrite Hc, Ht. exact Hunt. }
  rewrite Hget in Hg. eexists _, _. split; [exact Hg|]. cbn [rs_Body]. split; [exact Hbc|].
  apply (completes_agrees _ w' Hw Hrd), (agrees_content _ body) in Hag; [|symmetry; exact Hbc].
  destruct (complete_agrees (wr_URI w) body m) as (Hu & He & Hca).
  apply scanIssues_nil; cbn [rs_Metadata rs_Body]; [|rewrite Hu|exact He].
  - exact (Hca (stored_agrees _ _ _ _ Hm Hag)).
  - destruct Hm as (-> & _). intros Hx. destruct (String.eqb_spec (md_URI (wr_Metadata w')) ""); [|done].
    rewrite Hx in Hv. discriminate Hv.
Qed.

(** The two ways a scan of a resource succeeds. *)
Lemma ScanResource_Ok {B} `{StorageBackend B} (uri : string) (s s' : engine B) (rep : ResourceIntegrityReport) :
  ScanResource uri s = Some (s', Ok rep) ->
  rr_URI rep = uri /\
  ((exists r, Get uri s = Some (s', Ok r) /\ rep = mkResourceReport uri (scanIssues r)) \/
   Get uri s = Some (s', Err ErrNotFound)).
Proof.
  unfold ScanResource. intros (s1 & x & Hx & Hr)%bind_Ok. apply try_inv in Hx. destruct x as [r|e].
  - injection Hr as <- <-. eauto.
  - case_bool_decide; [|discriminate Hr]. injection Hr as <- <-. subst e. auto.
Qed.

Lemma repairResource_Ok {B} `{StorageBackend B} (now later : Z) (ctx : Context) (rep : ResourceIntegrityReport)
    (s s' : engine B) (fixed : bool) :
  repairResource now later ctx rep s = Some (s', Ok fixed) ->
  exists s1 r m, Get (rr_URI rep) s = Some (s1, Ok r) /\
    foldl (fixIssue (rr_URI rep) (rs_Body r) (rs_Metadata r)) (false, rs_Metadata r) (rr_Issues rep) = (fixed, m) /\
    (fixed = true ->
     Put now later ctx (mkWriteResource (rs_URI r) (rs_Body r) None 0 m (mkPrecondition "" "" None)) s1 = Some (s', Ok tt)).
Proof.
  unfold repairResource. intros (s1 & x & Hx & Hr)%bind_Ok. apply try_inv in Hx.
  destruct x as [r|e]; [|discriminate Hr]. destruct (foldl _ _ _) as [f m] eqn:Ef. exists s1, r, m.
  split; [exact Hx|]. destruct f.
  - apply bind_Ok in Hr as (s2 & y & Hy & Hr). apply try_inv in Hy. destruct y as [[]|]; [|discriminate Hr].
    injection Hr as <- <-. auto.
  - injection Hr as _ <-. split; [exact Ef|discriminate].
Qed.

(** ** Properties *)

(** C26: A repair repairs.  When a scan of a resource finds issues and [repairResource] of its
    report returns without an error, over any backend that obeys the laws, then it reports the
    resource repaired, a second scan finds no issue, and the body is the one that was there. *)
Theorem repair_clears_issues {B} `{StorageBackendLaws B} (now later : Z) (ctx : Context) (uri : string)
    (rep : ResourceIntegrityReport) (s s1 s2 : engine B) (fixed : bool) :
  ScanResource uri s = Some (s1, Ok rep) -> rr_Issues rep <> [] -> untombstoned uri s ->
  repairResource now later ctx rep s1 = Some (s2, Ok fixed) ->
  fixed = true /\
  (exists s3, ScanResource uri s2 = Some (s3, Ok (mkResourceReport uri []))) /\
  exists s0 r s3 r', Get uri s = Some (s0, Ok r) /\ Get uri s2 = Some (s3, Ok r') /\
    content (rs_Body r') = content (rs_Body r).
Proof.
  intros Hscan Hi Hunt (s1' & r & m & Hg & Hf & Hput)%repairResource_Ok.
  apply ScanResource_Ok in Hscan as [Hru Hscan]. rewrite Hru in *.
  pose proof (Get_Ok _ _ _ _ Hg) as (Hv & b & r' & Hb & Hbg & Hr).
  assert (same_backend s s1 /\ same_rest s s1) as [[Hs1 _] (Ht1 & Hc1 & _)].
  { destruct Hscan as [(? & Hx & _)|Hx]; split; by eapply Get_keeps_state. }
  assert (same_rest s1 s1') as (Ht2 & Hc2 & _) by (by eapply Get_keeps_state).
  rewrite Hs1 in Hb. destruct (Get_untombstoned uri s b Hv Hunt Hb) as [s0 Hg0]. rewrite Hbg, <- Hr in Hg0.
  destruct Hscan as [(x & Hx & ->)|Hx]; rewrite Hg0 in Hx; [|discriminate Hx].
  injection Hx as _ <-. cbn [rr_Issues] in *.
  destruct (repaired_agrees uri r) as [Hag Hfix]. rewrite Hf in Hag, Hfix. cbn [fst snd] in Hag, Hfix.
  assert (rs_URI r = uri /\ md_ETag (rs_Metadata r) <> "") as [Hu He].
  { rewrite Hr. split; [reflexivity|]. apply complete_agrees. }
  specialize (Hfix He Hi). specialize (Hput Hfix). rewrite Hu in Hput.
  destruct (Put_scans_clean _ _ _ _ _ _ Hput) as (s3 & r2 & Hg2 & Hc & Hn); [reflexivity| |exact Hag|].
  { unfold untombstoned in *. cbn [wr_URI]. rewrite Ht2, Ht1, Hc2, Hc1. exact Hunt. }
  cbn [wr_URI wr_Body] in *. split; [exact Hfix|]. split.
  - exists s3. unfold ScanResource, try, mbind, M_bind. rewrite Hg2, Hn. reflexivity.
  - eauto 10.
Qed.

(** A resource stored with a digest and a size that are not its body's. *)
Definition damaged : WriteResource :=
  mkWriteResource "/pod/a" (Some "abc") None 0
    (set_md_Digest "00" (set_md_Size 7 Memory.noMetadata)) (mkPrecondition "" "" None).

Lemma repair_clears_issues_witness :
  let s := state_of (Put 5 6 Background damaged) (sampleEngine true false) in
  let s1 := state_of (ScanResource "/pod/a") s in
  exists rep s2, ScanResource "/pod/a" s = Some (s1, Ok rep) /\ length (rr_Issues rep) = 2%nat /\
    repairResource 8 9 Background rep s1 = Some (s2, Ok true) /\
    exists s3, ScanResource "/pod/a" s2 = Some (s3, Ok (mkResourceReport "/pod/a" [])).
Proof.
  cbv zeta. eexists _, _. split; [vm_compute; reflexivity|]. split; [reflexivity|]. split; [vm_compute; reflexivity|].
  eapply (repair_clears_issues 8 9 Background "/pod/a"
    _ (state_of (Put 5 6 Background damaged) (sampleEngine true false))).
  - vm_compute. reflexivity.
  - discriminate.
  - right. eexists. split; vm_compute; reflexivity.
  - vm_compute. reflexivity.
Defined.
