(* ===== verification/CacheInvalidator.v ===== *)
(** * Invalidation of the authorization caches

    [internal/storage/cache_invalidator.go]: [AuthzCacheInvalidator] turns the events of the
    storage engine into invalidations of the policy cache and of the decision cache.  Both
    are functions the constructor receives; they act on a state of their own, of type [St]. *)

From S2P Require Import Prelude GoStrings GoGlob GoHash StorageTypes MemoryBackend StorageBackend StorageEngine.

Local Open Scope Z_scope.

(** ** State and operations *)

Record CacheInvalidatorMetrics := mkInvalidatorMetrics {
  im_InvalidationEvents : Z;
  im_PolicyInvalidations : Z;
  im_ResourceInvalidations : Z;
  im_Errors : Z;
  im_LastInvalidation : Z
}.

Section invalidator.
Context {St : Type}.

Record AuthzCacheInvalidator := mkInvalidator {
  policyCacheInvalidator : option (string -> St -> St * result error unit);
  decisionCacheInvalidator : option (string -> bool -> St -> St * result error unit);
  ai_metrics : CacheInvalidatorMetrics
}.

Definition NewAuthzCacheInvalidator (policyInvalidator : option (string -> St -> St * result error unit))
    (decisionInvalidator : option (string -> bool -> St -> St * result error unit)) : AuthzCacheInvalidator :=
  mkInvalidator policyInvalidator decisionInvalidator (mkInvalidatorMetrics 0 0 0 0 0).

Definition NewNoOpCacheInvalidator : AuthzCacheInvalidator :=
  mkInvalidator (Some (fun _ st => (st, Ok tt))) (Some (fun _ _ st => (st, Ok tt)))
    (mkInvalidatorMetrics 0 0 0 0 0).

(** Counters are [int64]s. *)
Definition incEvents (now : Z) (m : CacheInvalidatorMetrics) : CacheInvalidatorMetrics :=
  mkInvalidatorMetrics (wrap64 (im_InvalidationEvents m + 1)) (im_PolicyInvalidations m)
    (im_ResourceInvalidations m) (im_Errors m) now.
Definition countPolicy (r : result error unit) (m : CacheInvalidatorMetrics) : CacheInvalidatorMetrics :=
  match r with
  | Err _ => mkInvalidatorMetrics (im_InvalidationEvents m) (im_PolicyInvalidations m)
               (im_ResourceInvalidations m) (wrap64 (im_Errors m + 1)) (im_LastInvalidation m)
  | Ok _ => mkInvalidatorMetrics (im_InvalidationEvents m) (wrap64 (im_PolicyInvalidations m + 1))
              (im_ResourceInvalidations m) (im_Errors m) (im_LastInvalidation m)
  end.
Definition countResource (r : result error unit) (m : CacheInvalidatorMetrics) : CacheInvalidatorMetrics :=
  match r with
  | Err _ => mkInvalidatorMetrics (im_InvalidationEvents m) (im_PolicyInvalidations m)
               (im_ResourceInvalidations m) (wrap64 (im_Errors m + 1)) (im_LastInvalidation m)
  | Ok _ => mkInvalidatorMetrics (im_InvalidationEvents m) (im_PolicyInvalidations m)
              (wrap64 (im_ResourceInvalidations m + 1)) (im_Errors m) (im_LastInvalidation m)
  end.

Definition invalidateResources (f : string -> bool -> St -> St * result error unit) (isPolicy : bool)
    (x : CacheInvalidatorMetrics * St) (uris : list string) : CacheInvalidatorMetrics * St :=
  foldl (fun '(m, st) uri => let '(st, r) := f uri isPolicy st in (countResource r m, st)) x uris.

(** The callback never fails; errors of the two functions are counted. *)
Definition OnCacheInvalidation (now : Z) (event : CacheInvalidationEvent) (x : AuthzCacheInvalidator * St)
  : AuthzCacheInvalidator * St :=
  let '(a, st) := x in
  let m := incEvents now (ai_metrics a) in
  let '(m, st) :=
    match policyCacheInvalidator a with
    | Some f => if ev_IsPolicy event && negb (String.eqb (ev_PolicyURI event) "")
                then let '(st, r) := f (ev_PolicyURI event) st in (countPolicy r m, st) else (m, st)
    | None => (m, st)
    end in
  let '(m, st) :=
    match decisionCacheInvalidator a with
    | Some f => invalidateResources f (ev_IsPolicy event) (m, st)
                  (ev_ResourceURI event :: if ev_IsPolicy event then [ev_PolicyURI event] else [])
    | None => (m, st)
    end in
  (mkInvalidator (policyCacheInvalidator a) (decisionCacheInvalidator a) m, st).

(** Reading the metrics moves the time of the last invalidation. *)
Definition GetMetrics (now : Z) (a : AuthzCacheInvalidator) : AuthzCacheInvalidator * CacheInvalidatorMetrics :=
  let m := ai_metrics a in
  let m := mkInvalidatorMetrics (im_InvalidationEvents m) (im_PolicyInvalidations m)
             (im_ResourceInvalidations m) (im_Errors m) now in
  (mkInvalidator (policyCacheInvalidator a) (decisionCacheInvalidator a) m, m).

End invalidator.
Arguments AuthzCacheInvalidator : clear implicits.

(** ** What a write announces *)

Definition same_delivered {B} (s s' : engine B) : Prop :=
  eng_delivered s' = eng_delivered s /\ eng_invalidators s' = eng_invalidators s.
#[local] Instance same_delivered_preorder {B} : PreOrder (same_delivered (B := B)).
Proof. split; [done|]. intros x y z [H1 H2] [H3 H4]. split; congruence. Qed.

Section announce.
Context {B : Type} `{HB : StorageBackend B}.

Lemma put_parts_same_delivered (c : EngineConfig) (ctx : Context) (w : WriteResource) :
  keeps same_delivered (checkPutQuota (B := B) c w) /\ keeps same_delivered (handlePreconditions (B := B) ctx w) /\
  keeps same_delivered (storeContent (B := B) ctx w).
Proof. split_and!; keeps_unfold; keeps_walk ltac:(intros; done). Qed.

(** The end of a write announces it to every registered invalidator. *)
Lemma finishPut_delivers (c : EngineConfig) (later : Z) (w : WriteResource) (s s' : engine B) :
  finishPut c later w s = Some (s', Ok tt) ->
  eng_delivered s' = eng_delivered s ++ map (fun i => (i, mkEvent (wr_URI w)
    (isPolicyResource (md_ResourceType (wr_Metadata w))) (wr_URI w) "" "put" later)) (eng_invalidators s).
Proof.
  unfold finishPut. intros (s1 & [] & H1 & Hp)%bind_Ok.
  assert (same_delivered s s1) as [Hd Hi].
  { destruct (has_quota c w); [|by injection H1 as <-]. revert H1. unfold quotas.
    destruct (eng_quotas s); [|done]. by intros [= <-]. }
  apply bind_Ok in Hp as (s2 & [] & H2 & Hp). injection H2 as <-. injection Hp as <-.
  cbn. by rewrite Hd, Hi.
Qed.

Lemma Put_delivers (now later : Z) (ctx : Context) (w : WriteResource) (s s' : engine B) :
  Put now later ctx w s = Some (s', Ok tt) ->
  eng_delivered s' = eng_delivered s ++ map (fun i => (i, mkEvent (wr_URI w)
    (isPolicyResource (md_ResourceType (wr_Metadata w))) (wr_URI w) "" "put" later)) (eng_invalidators s).
Proof.
  intros Hp. unfold Put in Hp.
  apply bind_Ok in Hp as (s1 & [] & H1 & Hp). injection H1 as <-.
  apply bind_Ok in Hp as (s2 & [] & H2 & Hp). apply or_fail_Ok in H2. injection H2 as <- _.
  apply bind_Ok in Hp as (s3 & w1 & H3 & Hp). apply or_fail_Ok in H3. injection H3 as <- Hw1.
  apply validateResource_completes in Hw1.
  apply bind_Ok in Hp as (s4 & c & H4 & Hp). injection H4 as <- <-.
  apply bind_Ok in Hp as (s5 & w2 & H5 & Hp). pose proof (checkPutQuota_completes _ _ _ _ _ H5) as Hw2.
  apply put_parts_same_delivered in H5 as [Hd5 Hi5]; [|exact ctx].
  apply bind_Ok in Hp as (s6 & [] & H6 & Hp). apply or_fail_Ok in H6.
  apply put_parts_same_delivered in H6 as [Hd6 Hi6]; [|exact (eng_config s)].
  apply bind_Ok in Hp as (s7 & w3 & H7 & Hp). pose proof (storeContent_completes _ _ _ _ _ H7) as Hw3.
  apply put_parts_same_delivered in H7 as [Hd7 Hi7]; [|exact (eng_config s)].
  apply bind_Ok in Hp as (s8 & [] & H8 & Hp). apply or_fail_Ok in H8. apply backend_write_rest in H8 as [Hd8 Hi8].
  apply finishPut_delivers in Hp. rewrite Hd8, Hi8, Hd7, Hi7, Hd6, Hi6, Hd5, Hi5 in Hp. rewrite Hp.
  assert (completes w w3) as Hw by eauto using completes_trans.
  destruct (co_metadata _ _ Hw) as (a & -> & _). rewrite (co_URI _ _ Hw). reflexivity.
Qed.
End announce.

(** ** What an invalidator does with an event *)

(** The calls of the two functions. *)
Inductive invalidation :=
| PolicyCall (policyURI : string)
| DecisionCall (resourceURI : string) (isPolicy : bool).

Section calls.
Context {St : Type} (policy : option (string -> St -> St * result error unit))
  (decision : option (string -> bool -> St -> St * result error unit)).

Definition call (c : invalidation) : option (St -> St * result error unit) :=
  match c with PolicyCall uri => (fun f => f uri) <$> policy | DecisionCall uri b => (fun f => f uri b) <$> decision end.

(** Calls in order, those of a missing function left out, each with whether it succeeded. *)
Fixpoint outcomes (calls : list invalidation) (st : St) : St * list (invalidation * bool) :=
  match calls with
  | [] => (st, [])
  | c :: rest =>
      match call c with
      | None => outcomes rest st
      | Some f => let '(st, r) := f st in let '(st, l) := outcomes rest st in (st, (c, is_ok r) :: l)
      end
  end.
End calls.

Definition is_policy_call (c : invalidation) : bool := match c with PolicyCall _ => true | DecisionCall _ _ => false end.

(** How many of the calls satisfy a test of the call and its success. *)
Definition tally (test : invalidation -> bool -> bool) (l : list (invalidation * bool)) : Z :=
  foldr (fun '(c, ok) n => (if test c ok then 1 else 0) + n) 0 l.
Definition counters_in_range (m : CacheInvalidatorMetrics) : Prop :=
  in_int64 (im_PolicyInvalidations m) /\ in_int64 (im_ResourceInvalidations m) /\ in_int64 (im_Errors m).

(** The counters, each an [int64], after calls. *)
Definition counted (now : Z) (l : list (invalidation * bool)) (m : CacheInvalidatorMetrics) : CacheInvalidatorMetrics :=
  mkInvalidatorMetrics (wrap64 (im_InvalidationEvents m + 1))
    (wrap64 (im_PolicyInvalidations m + tally (fun c ok => is_policy_call c && ok) l))
    (wrap64 (im_ResourceInvalidations m + tally (fun c ok => negb (is_policy_call c) && ok) l))
    (wrap64 (im_Errors m + tally (fun _ ok => negb ok) l)) now.

(** An invalidator, whatever functions it holds, answers [event] with [calls], and counts them. *)
Definition answers (now : Z) (event : CacheInvalidationEvent) (calls : list invalidation) : Prop :=
  forall St policy decision (m : CacheInvalidatorMetrics) (st : St), counters_in_range m ->
    let '(st', l) := outcomes policy decision calls st in
    OnCacheInvalidation now event (mkInvalidator policy decision m, st) = (mkInvalidator policy decision (counted now l m), st').

(** The calls for a resource that is its own policy, or none. *)
Definition invalidations (uri : string) (isPolicy : bool) : list invalidation :=
  if isPolicy then [PolicyCall uri; DecisionCall uri true; DecisionCall uri true] else [DecisionCall uri false].

(** One call counted. *)
Definition count_call (m : CacheInvalidatorMetrics) (x : invalidation * bool) : CacheInvalidatorMetrics :=
  let r : result error unit := if x.2 then Ok tt else Err ErrNotFound in
  if is_policy_call x.1 then countPolicy r m else countResource r m.

Lemma count_calls (l : list (invalidation * bool)) (m : CacheInvalidatorMetrics) : counters_in_range m ->
  foldl count_call m l =
    mkInvalidatorMetrics (im_InvalidationEvents m)
      (wrap64 (im_PolicyInvalidations m + tally (fun c ok => is_policy_call c && ok) l))
      (wrap64 (im_ResourceInvalidations m + tally (fun c ok => negb (is_policy_call c) && ok) l))
      (wrap64 (im_Errors m + tally (fun _ ok => negb ok) l)) (im_LastInvalidation m).
Proof.
  revert m. induction l as [|[c ok] l IH]; intros m (H1 & H2 & H3); cbn [foldl tally foldr].
  - rewrite !Z.add_0_r, !wrap64_id by done. by destruct m.
  - rewrite IH by (destruct c, ok; split_and!; cbn; auto using wrap64_range).
    destruct c, ok; cbn -[wrap64 Z.add]; by rewrite ?wrap64_add_l, ?Z.add_0_l, <- ?Z.add_assoc.
Qed.

Lemma countPolicy_call uri r m : countPolicy r m = count_call m (PolicyCall uri, is_ok r).
Proof. by destruct r as [[]|]. Qed.
Lemma countResource_call uri b r m : countResource r m = count_call m (DecisionCall uri b, is_ok r).
Proof. by destruct r as [[]|]. Qed.

Lemma OnCacheInvalidation_answers (now : Z) (event : CacheInvalidationEvent) :
  ev_ResourceURI event <> "" -> ev_PolicyURI event = ev_ResourceURI event ->
  answers now event (invalidations (ev_ResourceURI event) (ev_IsPolicy event)).
Proof.
  intros Hu He St policy decision m st Hm. set (u := ev_ResourceURI event) in *.
  assert (forall l, foldl count_call (incEvents now m) l = counted now l m) as Hc by (intros l; by rewrite count_calls).
  unfold OnCacheInvalidation, invalidations. cbn [policyCacheInvalidator decisionCacheInvalidator ai_metrics]. fold u.
  rewrite He, (proj2 (String.eqb_neq _ _) Hu). unfold invalidateResources.
  destruct (ev_IsPolicy event), policy as [f|], decision as [g|]; cbn [andb negb outcomes call fmap option_fmap option_map foldl];
    repeat match goal with
      | f : string -> St -> _ |- context [?f u ?x] => destruct (f u x) as [? ?]
      | g : string -> bool -> St -> _ |- context [?g u ?b ?x] => destruct (g u b x) as [? ?]
      end; rewrite <- ?Hc; cbn [foldl]; rewrite ?(countPolicy_call u);
    first [reflexivity | by rewrite ?(countResource_call u true) | by rewrite ?(countResource_call u false)].
Qed.

(** ** Changes of the storage *)

Lemma Put_URI {B} `{StorageBackend B} (now later : Z) (ctx : Context) (w : WriteResource) (s s' : engine B) :
  Put now later ctx w s = Some (s', Ok tt) -> wr_URI w <> "".
Proof.
  intros Hp Hu. unfold Put in Hp.
  apply bind_Ok in Hp as (s1 & [] & H1 & Hp). injection H1 as <-.
  apply bind_Ok in Hp as (s2 & [] & H2 & Hp). apply or_fail_Ok in H2. by rewrite Hu in H2.
Qed.

Lemma Delete_URI {B} `{StorageBackend B} (later : Z) (ctx : Context) (uri : string) (s s' : engine B) :
  Delete later ctx uri s = Some (s', Ok tt) -> uri <> "".
Proof.
  intros Hp Hu. unfold Delete in Hp.
  apply bind_Ok in Hp as (s1 & [] & H1 & Hp). injection H1 as <-.
  apply bind_Ok in Hp as (s2 & [] & H2 & Hp). apply or_fail_Ok in H2. by rewrite Hu in H2.
Qed.

(** Every registered invalidator is handed the same new event. *)
Definition announces {B} (s s' : engine B) (event : CacheInvalidationEvent) : Prop :=
  eng_delivered s' = eng_delivered s ++ map (fun i => (i, event)) (eng_invalidators s).

(** C34: Changes of the storage reach the authorization caches.  A successful [Put] hands every
    registered invalidator one event, and an [AuthzCacheInvalidator], whatever functions it holds
    and whether they succeed, answers it as follows: for an ACL or ACP resource, it invalidates
    the policy of the resource's URI, and twice the decisions about the URI; for any other
    resource, it invalidates the decisions about the URI.  A successful [Delete] of a canonical URI
    over a backend that obeys the laws does the same, but always as for a resource that is no
    policy.  Functions that are missing are left out, and the counters, if they were in the
    range of an [int64], gain the numbers of the calls that succeeded and failed modulo 2^64. *)
Theorem changes_reach_caches {B} `{StorageBackendLaws B} (now later clock : Z) (ctx : Context) (w : WriteResource) (uri : string)
    (s s' : engine B) :
  (Put now later ctx w s = Some (s', Ok tt) ->
   let isPolicy := isPolicyResource (md_ResourceType (wr_Metadata w)) in
   let event := mkEvent (wr_URI w) isPolicy (wr_URI w) "" "put" later in
   announces s s' event /\ answers clock event (invalidations (wr_URI w) isPolicy)) /\
  (Delete later ctx uri s = Some (s', Ok tt) -> canonical uri ->
   let event := mkEvent uri false uri "" "delete" later in
   announces s s' event /\ answers clock event (invalidations uri false)).
Proof.
  split; [intros Hp|intros Hd Hc]; cbv zeta.
  - split; [exact (Put_delivers _ _ _ _ _ _ Hp)|]. apply Put_URI in Hp. by apply (OnCacheInvalidation_answers clock (mkEvent _ _ _ _ _ _)).
  - split; [exact (engine_delete_announces_no_policy _ _ _ _ _ Hd Hc)|]. apply Delete_URI in Hd.
    by apply (OnCacheInvalidation_answers clock (mkEvent _ false _ _ _ _)).
Qed.

(** An ACL resource that is written and then deleted, and an invalidator over a list of the calls
    whose decision function fails. *)
Definition sampleACL : WriteResource :=
  mkWriteResource "/pod/.acl" (Some "rules") None 0 (set_md_ResourceType ResourceTypeACL Memory.noMetadata) (mkPrecondition "" "" None).
Definition sampleInvalidator : AuthzCacheInvalidator (list string) :=
  NewAuthzCacheInvalidator (Some (fun uri l => ("policy" :: uri :: l, Ok tt)))
    (Some (fun uri _ l => ("decision" :: uri :: l, Err ErrNotFound))).

Lemma changes_reach_caches_witness :
  let s0 := state_of (RegisterCacheInvalidator 7) (sampleEngine true false) in
  let s1 := state_of (Put 1 2 Background sampleACL) s0 in
  let s2 := state_of (Delete 3 Background "/pod/.acl") s1 in
  announces s0 s1 (mkEvent "/pod/.acl" true "/pod/.acl" "" "put" 2) /\
  announces s1 s2 (mkEvent "/pod/.acl" false "/pod/.acl" "" "delete" 3) /\
  OnCacheInvalidation 4 (mkEvent "/pod/.acl" true "/pod/.acl" "" "put" 2) (sampleInvalidator, []) =
    (mkInvalidator (policyCacheInvalidator sampleInvalidator) (decisionCacheInvalidator sampleInvalidator)
       (mkInvalidatorMetrics 1 1 0 2 4), ["decision"; "/pod/.acl"; "decision"; "/pod/.acl"; "policy"; "/pod/.acl"]).
Proof.
  cbv zeta. set (s0 := state_of _ (sampleEngine true false)). set (s1 := state_of _ s0). set (s2 := state_of _ s1).
  assert (Put 1 2 Background sampleACL s0 = Some (s1, Ok tt)) as Hput by (vm_compute; reflexivity).
  assert (Delete 3 Background "/pod/.acl" s1 = Some (s2, Ok tt)) as Hdel by (vm_compute; reflexivity).
  destruct (proj1 (changes_reach_caches 1 2 4 Background sampleACL "" s0 s1) Hput) as [H1 Ha].
  destruct (proj2 (changes_reach_caches 1 3 4 Background sampleACL "/pod/.acl" s1 s2) Hdel) as [H2 _]; [vm_compute; reflexivity|].
  clearbody s0 s1 s2. split; [exact H1|split; [exact H2|]].
  specialize (Ha _ (policyCacheInvalidator sampleInvalidator) (decisionCacheInvalidator sampleInvalidator) (ai_metrics sampleInvalidator) []).
  apply Ha. repeat split; vm_compute; discriminate.
Defined.
