(* ===== verification/GoTime.v ===== *)
(** * Dates and the layout RFC 3339

    [time.Time.Format] with the layout [time.RFC3339Nano], which identifiers are made of: the
    date in the proleptic Gregorian calendar, the time of day, the fraction of the second without
    trailing zeros, and the offset of the zone.  A time is the number of nanoseconds since the
    first of January of the year 1, an offset is in seconds. *)

From S2P Require Import Prelude GoStrings.

Local Open Scope Z_scope.

(** ** Dates *)

Definition isLeap (year : Z) : bool := (year mod 4 =? 0) && (negb (year mod 100 =? 0) || (year mod 400 =? 0)).

(** The year and the day in the year, of a number of days since the first of January of the
    year 1: cycles of 400 years, centuries, cycles of 4 years and years are cut off in turn; the
    last century of 400 years and the last year of 4 have a day more. *)
Definition yearDay (days : Z) : Z * Z :=
  let n400 := days / 146097 in
  let d := days mod 146097 in
  let n100 := Z.min 3 (d / 36524) in
  let d := d - 36524 * n100 in
  let n4 := d / 1461 in
  let d := d - 1461 * n4 in
  let n1 := Z.min 3 (d / 365) in
  (400 * n400 + 100 * n100 + 4 * n4 + n1 + 1, d - 365 * n1).

Definition monthLengths (year : Z) : list Z :=
  [31; (if isLeap year then 29 else 28); 31; 30; 31; 30; 31; 31; 30; 31; 30; 31].

(** The month and the day in it; the last month takes what is left. *)
Fixpoint monthDay (lengths : list Z) (month d : Z) : Z * Z :=
  match lengths with
  | n :: lengths' => if (d <? n) || bool_decide (lengths' = []) then (month, d + 1) else monthDay lengths' (month + 1) (d - n)
  | [] => (month, d + 1)
  end.

Definition civil (days : Z) : Z * Z * Z :=
  let '(year, yday) := yearDay days in
  let '(month, day) := monthDay (monthLengths year) 1 yday in
  (year, month, day).

(** ** Text *)

(** Decimal digits, with zeros in front up to the width. *)
Definition appendInt (x : Z) (width : nat) : string :=
  let digits := FormatInt (Z.abs x) in
  let zeros := String.string_of_list_ascii (replicate (width - String.length digits) (chr 48)) in
  String.append (if x <? 0 then "-" else "") (String.append zeros digits).

(** The fraction of a second: a point and nine digits, without the zeros at the end. *)
Definition appendNano (nanosec : Z) : string := TrimRight (TrimRight (String.append "." (appendInt nanosec 9)) "0") ".".

Definition zone_text (offset : Z) : string :=
  if offset =? 0 then "Z"
  else
    let zone := Z.quot offset 60 in
    String.append (if zone <? 0 then "-" else "+")
      (String.append (appendInt (Z.abs zone / 60) 2) (String.append ":" (appendInt (Z.abs zone mod 60) 2))).

Definition Format_RFC3339Nano (offset t : Z) : string :=
  let local := t + offset * second in
  let '(year, month, day) := civil (local / (24 * hour)) in
  let clock := local mod (24 * hour) in
  String.append (Join [appendInt year 4; appendInt month 2; appendInt day 2] "-")
    (String.append "T"
       (String.append (Join [appendInt (clock / hour) 2; appendInt (clock mod hour / minute) 2; appendInt (clock mod minute / second) 2] ":")
          (String.append (appendNano (clock mod second)) (zone_text offset)))).

Example rfc3339_epoch : Format_RFC3339Nano 0 (time_Unix 0) = "1970-01-01T00:00:00Z".
Proof. reflexivity. Qed.
Example rfc3339_leap_day : Format_RFC3339Nano 0 (time_Unix 1709164800 + 120 * millisecond) = "2024-02-29T00:00:00.12Z".
Proof. reflexivity. Qed.
Example rfc3339_zone : Format_RFC3339Nano (-12600) (time_Unix 1700000000 + 1) = "2023-11-14T18:43:20.000000001-03:30".
Proof. reflexivity. Qed.
Example rfc3339_new_year : Format_RFC3339Nano 3600 (time_Unix 1735685999) = "2024-12-31T23:59:59+01:00".
Proof. reflexivity. Qed.

(** ** Dates determine days *)

(** A day is its year's first day and its number in the year. *)
Lemma yearDay_bounds days : 0 <= (yearDay days).2 < (if isLeap (yearDay days).1 then 366 else 365).
Proof.
  unfold yearDay. cbv zeta. cbn [fst snd].
  pose proof (Z.mod_pos_bound days 146097 ltac:(lia)) as Hd. set (d := days mod 146097) in *. set (n400 := days / 146097).
  set (n100 := Z.min 3 (d / 36524)). assert (0 <= d - 36524 * n100 < (if n100 =? 3 then 36525 else 36524) /\ 0 <= n100 <= 3) as [H100 Hn100].
  { subst n100. pose proof (Z.div_mod d 36524 ltac:(lia)). pose proof (Z.mod_pos_bound d 36524 ltac:(lia)).
    assert (0 <= d / 36524) by (apply Z.div_pos; lia). destruct (Z.eqb_spec (Z.min 3 (d / 36524)) 3); lia. }
  set (e := d - 36524 * n100) in *. set (n4 := e / 1461).
  pose proof (Z.div_mod e 1461 ltac:(lia)) as He. pose proof (Z.mod_pos_bound e 1461 ltac:(lia)) as He'. fold n4 in He.
  assert (0 <= n4) as Hn4 by (apply Z.div_pos; lia).
  set (f := e - 1461 * n4) in *. set (n1 := Z.min 3 (f / 365)).
  pose proof (Z.div_mod f 365 ltac:(lia)) as Hf. pose proof (Z.mod_pos_bound f 365 ltac:(lia)) as Hf'.
  assert (0 <= f / 365) as Hn1 by (apply Z.div_pos; lia).
  destruct (isLeap _) eqn:El; [lia|]. split; [lia|].
  destruct (Z.eq_dec n1 3) as [E3|]; [|lia]. (* the fourth year of a cycle is a leap year, but for the last of a century *)
  assert (f < 1460 \/ f = 1460) as [?|E] by lia; [lia|]. exfalso.
  unfold isLeap in El. rewrite E3 in El.
  replace (400 * n400 + 100 * n100 + 4 * n4 + 3 + 1) with (4 * (100 * n400 + 25 * n100 + n4 + 1)) in El by lia.
  rewrite Z.mul_comm, Z.mod_mul in El by lia. cbn [Z.eqb andb] in El.
  assert (n4 <= 24) by (destruct (n100 =? 3); lia).
  destruct (Z.eq_dec n4 24) as [E4|].
  - assert (n100 = 3) as E100 by (destruct (Z.eqb_spec n100 3); lia). rewrite E4, E100 in El.
    replace ((100 * n400 + 25 * 3 + 24 + 1) * 4) with ((n400 + 1) * 400) in El by lia. rewrite Z.mod_mul in El by lia.
    by rewrite orb_true_r in El.
  - replace ((100 * n400 + 25 * n100 + n4 + 1) * 4) with (4 * (n4 + 1) + (4 * n400 + n100) * 100) in El by lia.
    rewrite Z.mod_add, Z.mod_small in El by lia. destruct (Z.eqb_spec (4 * (n4 + 1)) 0); [lia|done].
Qed.
