(* ===== verification/SaiTypes.v ===== *)
(** * Application interoperability: data and validation

    [internal/sai/types.go] and [internal/sai/validation.go]: applications with the access they
    need, registrations, grants, shape trees, and the checks on each.  A pointer is an [option],
    an error keeps the texts the code puts in front of its cause. *)

From S2P Require Import Prelude GoStrings GoURL GoGlob.

Local Open Scope Z_scope.

(** ** Data *)

Record AccessNeed := mkAccessNeed {
  an_ID : string;
  an_RegisteredShapeTree : string;
  an_AccessMode : list string;
  an_AccessNecessity : string;
  an_InheritsFromNeed : string
}.

Record AccessNeedGroup := mkAccessNeedGroup {
  ang_ID : string;
  ang_AccessNecessity : string;
  ang_AccessScenario : string;
  ang_AuthenticatesAs : string;
  ang_HasAccessNeed : list AccessNeed;
  ang_HasAccessDecoratorIndex : string
}.

Record Application := mkApplication {
  app_ID : string;
  app_ApplicationName : string;
  app_ApplicationDescription : string;
  app_ApplicationAuthor : string;
  app_ApplicationThumbnail : string;
  app_HasAccessNeedGroup : list AccessNeedGroup;
  app_HasAuthorizationCallbackEndpoint : string;
  app_AuthenticatesAs : string
}.

Record ApplicationRegistration := mkApplicationRegistration {
  ar_ID : string;
  ar_RegisteredBy : string;
  ar_RegisteredWith : string;
  ar_RegisteredAt : Z;
  ar_UpdatedAt : Z;
  ar_RegisteredAgent : string;
  ar_HasAccessGrant : string
}.

Record AccessGrantSubject := mkAccessGrantSubject {
  ags_ID : string;
  ags_AccessByAgent : string;
  ags_AccessByApplication : string
}.

Record AccessGrant := mkAccessGrant {
  ag_ID : string;
  ag_GrantedBy : string;
  ag_GrantedWith : string;
  ag_GrantedAt : Z;
  ag_ProvidedAt : Z;
  ag_UpdatedAt : Z;
  ag_FromAgent : string;
  ag_ViaAgent : string;
  ag_HasAccessGrantSubject : AccessGrantSubject;
  ag_HasAccessNeedGroup : list string;
  ag_HasDataGrant : list string
}.

Record DataGrant := mkDataGrant {
  dg_ID : string;
  dg_DataOwner : string;
  dg_GrantedBy : string;
  dg_RegisteredShapeTree : string;
  dg_HasDataRegistration : string;
  dg_AccessMode : list string;
  dg_ScopeOfGrant : string;
  dg_HasDataInstance : list string;
  dg_InheritsFromGrant : string;
  dg_DelegationOfGrant : string
}.

Record DataRegistration := mkDataRegistration {
  dr_ID : string;
  dr_RegisteredShapeTree : string;
  dr_RegisteredAt : Z;
  dr_RegisteredBy : string;
  dr_RegisteredWith : string;
  dr_IRIPrefix : string;
  dr_Contains : list string
}.

Record AuthorizationAgent := mkAuthorizationAgent { aa_ID : string; aa_AgentRegistrySet : list string }.

(** The data of an instance are bytes. *)
Record DataInstance := mkDataInstance {
  di_ID : string;
  di_Type : string;
  di_ShapeTree : string;
  di_Data : string;
  di_ContentType : string
}.

Record ShapeTreeReference := mkShapeTreeReference { str_HasShapeTree : string; str_ViaShapePath : string }.

Record ShapeTree := mkShapeTree {
  st_ID : string;
  st_ExpectsType : string;
  st_Shape : string;
  st_References : list ShapeTreeReference
}.

Definition interop (term : string) : string := String.append "http://www.w3.org/ns/solid/interop#" term.
Definition acl (term : string) : string := String.append "http://www.w3.org/ns/auth/acl#" term.

Definition AccessNecessities : list string := map interop ["accessRequired"; "accessOptional"; "accessProhibited"].
Definition AccessScenarios : list string :=
  map interop ["PersonalAccess"; "CollaborativeAccess"; "PublicAccess"; "EmergencyAccess"].
Definition ACLModes : list string := map acl ["Read"; "Write"; "Append"; "Control"].
Definition ScopesOfGrant : list string := map interop ["AllFromRegistry"; "SelectedFromRegistry"; "Inherited"].

Definition SAIMaxApplicationNameLength : Z := 256.
Definition SAIMaxDescriptionLength : Z := 1024.
Definition SAIMaxIRILength : Z := 2048.
Definition SAIMaxInputSize : Z := 1024 * 1024.

(** ** Errors *)

Inductive sai_base := ErrSAIValidation | ErrSAIStorage | ErrSAINotFound | ErrSAIService.

Inductive ctx_error := Canceled | DeadlineExceeded.

(** A text; a text and a cause, printed with [%v]; a text with an index and a cause; and a
    sentinel wrapped with [%w]. *)
Inductive sai_error :=
| Errorf (text : string)
| ParseFailed (text : string) (cause : url_error)
| CtxFailed (text : string) (cause : ctx_error)
| At (text : string) (cause : sai_error)
| AtIndex (text : string) (i : nat) (cause : sai_error)
| Wraps (base : sai_base) (cause : sai_error).

Definition base_text (b : sai_base) : string :=
  match b with
  | ErrSAIValidation => "SAI validation failed"
  | ErrSAIStorage => "SAI storage failed"
  | ErrSAINotFound => "SAI resource not found"
  | ErrSAIService => "SAI service failed"
  end.

Definition colon (a b : string) : string := String.append a (String.append ": " b).

(** [err.Error()]; [url_text] has the words of [net/url] for a failed parse. *)
Fixpoint Error (url_text : url_error -> string) (e : sai_error) : string :=
  match e with
  | Errorf text => text
  | ParseFailed text c => colon text (url_text c)
  | CtxFailed text c =>
      colon text (match c with Canceled => "context canceled" | DeadlineExceeded => "context deadline exceeded" end)
  | At text c => colon text (Error url_text c)
  | AtIndex text i c =>
      colon (String.append text (String.append " at index " (FormatInt (Z.of_nat i)))) (Error url_text c)
  | Wraps base c => colon (base_text base) (Error url_text c)
  end.

(** A check inside another one, and a check of every element of a list. *)
Definition within (text : string) (m : result sai_error unit) : result sai_error unit := result_map_err (At text) m.

Fixpoint each {A} (text : string) (f : A -> result sai_error unit) (i : nat) (l : list A) : result sai_error unit :=
  match l with
  | [] => Ok tt
  | x :: l' =>
      let! _ := result_map_err (AtIndex text i) (f x) in
      each text f (S i) l'
  end.

(** A check of a field that may be empty. *)
Definition optionally (value : string) (m : result sai_error unit) : result sai_error unit :=
  if String.eqb value "" then Ok tt else m.

(** ** Strings *)

(** [for _, r := range s] with the test of the bounds. *)
Definition runes_within (lo hi : Z) (s : string) : bool :=
  forallb (fun r => negb ((r <? lo) || (hi <? r))) (runes s).

Definition ValidateApplicationName (name : string) : result sai_error unit :=
  fail! Errorf "application name cannot be empty" when String.eqb name "" in
  fail! Errorf "application name exceeds maximum length of 256 characters"
    when SAIMaxApplicationNameLength <? len name in
  fail! Errorf "application name contains invalid characters" when negb (runes_within 32 126 name) in
  Ok tt.

Definition ValidateDescription (desc : string) : result sai_error unit :=
  fail! Errorf "description exceeds maximum length of 1024 characters" when SAIMaxDescriptionLength <? len desc in
  fail! Errorf "description contains invalid characters" when negb (runes_within 32 126 desc) in
  Ok tt.

Definition isValidWebIDFragment (fragment : string) : bool :=
  negb (String.eqb fragment "") && runes_within 33 126 fragment.

Definition web_scheme (scheme : string) : bool := String.eqb scheme "https" || String.eqb scheme "http".

Definition ValidateWebID (webID : string) : result sai_error unit :=
  fail! Errorf "WebID cannot be empty" when String.eqb webID "" in
  fail! Errorf "WebID exceeds maximum length of 2048 characters" when SAIMaxIRILength <? len webID in
  let! parsed := result_map_err (ParseFailed "invalid WebID URL") (Parse webID) in
  fail! Errorf "WebID must use http or https scheme" when negb (web_scheme (Scheme parsed)) in
  fail! Errorf "WebID must have a fragment identifier" when String.eqb (Fragment parsed) "" in
  fail! Errorf (String.append "invalid WebID fragment: " (Fragment parsed))
    when negb (isValidWebIDFragment (Fragment parsed)) in
  Ok tt.

Definition ValidateURL (u : string) : result sai_error unit :=
  if String.eqb u "" then Ok tt
  else
    fail! Errorf "URL exceeds maximum length of 2048 characters" when SAIMaxIRILength <? len u in
    let! parsed := result_map_err (ParseFailed "invalid URL") (Parse u) in
    fail! Errorf "URL must use http or https scheme" when negb (web_scheme (Scheme parsed)) in
    fail! Errorf "URL must have a host" when String.eqb (Host parsed) "" in
    fail! Errorf "URL contains invalid characters"
      when Contains (Host parsed) (String (chr 10) "") || Contains (Host parsed) (String (chr 13) "") in
    Ok tt.

Definition isValidIRIScheme (scheme : string) : bool :=
  existsb (String.eqb scheme)
    ["http"; "https"; "urn"; ""; "pm"; "solid"; "interop"; "shapetrees"; "solidshapes"; "shape"; "uuid"; "ldp"; "acl";
     "foaf"; "rdf"; "rdfs"; "xsd"; "solidtrees"; "projectron"].

(** A text that does not parse is accepted. *)
Definition ValidateIRI (iri : string) : result sai_error unit :=
  fail! Errorf "IRI cannot be empty" when String.eqb iri "" in
  fail! Errorf "IRI exceeds maximum length of 2048 characters" when SAIMaxIRILength <? len iri in
  fail! Errorf "IRI contains invalid characters" when negb (runes_within 32 126 iri) in
  match Parse iri with
  | Ok parsed =>
      fail! Errorf (String.append "invalid IRI scheme: " (Scheme parsed))
        when negb (String.eqb (Scheme parsed) "") && negb (String.eqb (Scheme parsed) "http")
          && negb (String.eqb (Scheme parsed) "https") && negb (isValidIRIScheme (Scheme parsed)) in
      Ok tt
  | Err _ => Ok tt
  end.

Definition one_of (what : string) (values : list string) (v : string) : result sai_error unit :=
  fail! Errorf (String.append what v) when negb (existsb (String.eqb v) values) in Ok tt.

Definition ValidateAccessNecessity : string -> result sai_error unit := one_of "invalid access necessity: " AccessNecessities.
Definition ValidateAccessScenario : string -> result sai_error unit := one_of "invalid access scenario: " AccessScenarios.
Definition ValidateACLMode : string -> result sai_error unit := one_of "invalid ACL mode: " ACLModes.
Definition ValidateScopeOfGrant : string -> result sai_error unit := one_of "invalid scope of grant: " ScopesOfGrant.

(** The character class of the regular expression: angle brackets, quotes, braces, the bar, the
    backslash, the caret and the control characters. *)
Definition shape_path_rune (r : Z) : bool :=
  existsb (Z.eqb r) [60; 62; 34; 39; 123; 125; 124; 92; 94; 127] || ((0 <=? r) && (r <=? 31)).

Definition ValidateShapePath (path : string) : result sai_error unit :=
  if String.eqb path "" then Ok tt
  else
    fail! Errorf "shape path exceeds maximum length" when SAIMaxIRILength <? len path in
    fail! Errorf "shape path contains invalid characters" when existsb shape_path_rune (runes path) in
    Ok tt.

(** ** Structures *)

Definition ValidateAccessNeed (need : option AccessNeed) : result sai_error unit :=
  match need with
  | None => Err (Errorf "access need cannot be nil")
  | Some need =>
      let! _ := within "invalid access need ID" (ValidateIRI (an_ID need)) in
      let! _ := within "invalid registered shape tree" (ValidateIRI (an_RegisteredShapeTree need)) in
      let! _ := each "invalid access mode" ValidateACLMode 0 (an_AccessMode need) in
      let! _ := within "invalid access necessity" (ValidateAccessNecessity (an_AccessNecessity need)) in
      let! _ := optionally (an_InheritsFromNeed need)
                  (within "invalid inherits from need" (ValidateIRI (an_InheritsFromNeed need))) in
      Ok tt
  end.

Definition ValidateAccessNeedGroup (group : option AccessNeedGroup) : result sai_error unit :=
  match group with
  | None => Err (Errorf "access need group cannot be nil")
  | Some group =>
      let! _ := within "invalid access need group ID" (ValidateIRI (ang_ID group)) in
      let! _ := within "invalid access necessity" (ValidateAccessNecessity (ang_AccessNecessity group)) in
      let! _ := within "invalid access scenario" (ValidateAccessScenario (ang_AccessScenario group)) in
      let! _ := each "invalid access need" (fun need => ValidateAccessNeed (Some need)) 0 (ang_HasAccessNeed group) in
      Ok tt
  end.

Definition ValidateApplication (app : option Application) : result sai_error unit :=
  result_map_err (Wraps ErrSAIValidation)
    (match app with
     | None => Err (Errorf "application cannot be nil")
     | Some app =>
         let! _ := within "invalid application ID" (ValidateWebID (app_ID app)) in
         let! _ := within "invalid application name" (ValidateApplicationName (app_ApplicationName app)) in
         let! _ := within "invalid application description" (ValidateDescription (app_ApplicationDescription app)) in
         let! _ := optionally (app_ApplicationAuthor app)
                     (within "invalid application author" (ValidateWebID (app_ApplicationAuthor app))) in
         let! _ := optionally (app_ApplicationThumbnail app)
                     (within "invalid application thumbnail" (ValidateURL (app_ApplicationThumbnail app))) in
         let! _ := each "invalid access need group" (fun group => ValidateAccessNeedGroup (Some group)) 0
                     (app_HasAccessNeedGroup app) in
         let! _ := optionally (app_HasAuthorizationCallbackEndpoint app)
                     (within "invalid callback endpoint" (ValidateURL (app_HasAuthorizationCallbackEndpoint app))) in
         Ok tt
     end).

Definition ValidateApplicationRegistration (reg : option ApplicationRegistration) : result sai_error unit :=
  match reg with
  | None => Err (Errorf "application registration cannot be nil")
  | Some reg =>
      let! _ := within "invalid registration ID" (ValidateIRI (ar_ID reg)) in
      let! _ := within "invalid registered by" (ValidateWebID (ar_RegisteredBy reg)) in
      let! _ := within "invalid registered with" (ValidateURL (ar_RegisteredWith reg)) in
      let! _ := within "invalid registered agent" (ValidateWebID (ar_RegisteredAgent reg)) in
      fail! Errorf "registered at timestamp cannot be zero" when time_IsZero (ar_RegisteredAt reg) in
      let! _ := optionally (ar_HasAccessGrant reg) (within "invalid has access grant" (ValidateIRI (ar_HasAccessGrant reg))) in
      Ok tt
  end.

Definition ValidateAccessGrantSubject (subject : option AccessGrantSubject) : result sai_error unit :=
  match subject with
  | None => Err (Errorf "access grant subject cannot be nil")
  | Some subject =>
      let! _ := within "invalid subject ID" (ValidateIRI (ags_ID subject)) in
      let! _ := within "invalid access by agent" (ValidateWebID (ags_AccessByAgent subject)) in
      let! _ := within "invalid access by application" (ValidateWebID (ags_AccessByApplication subject)) in
      Ok tt
  end.

Definition ValidateAccessGrant (grant : option AccessGrant) : result sai_error unit :=
  match grant with
  | None => Err (Errorf "access grant cannot be nil")
  | Some grant =>
      let! _ := within "invalid grant ID" (ValidateIRI (ag_ID grant)) in
      let! _ := within "invalid granted by" (ValidateWebID (ag_GrantedBy grant)) in
      let! _ := within "invalid granted with" (ValidateURL (ag_GrantedWith grant)) in
      let! _ := within "invalid from agent" (ValidateWebID (ag_FromAgent grant)) in
      fail! Errorf "granted at timestamp cannot be zero" when time_IsZero (ag_GrantedAt grant) in
      fail! Errorf "provided at timestamp cannot be zero" when time_IsZero (ag_ProvidedAt grant) in
      let! _ := within "invalid access grant subject" (ValidateAccessGrantSubject (Some (ag_HasAccessGrantSubject grant))) in
      let! _ := each "invalid access need group" ValidateIRI 0 (ag_HasAccessNeedGroup grant) in
      let! _ := each "invalid data grant" ValidateIRI 0 (ag_HasDataGrant grant) in
      Ok tt
  end.

Definition ValidateDataGrant (grant : option DataGrant) : result sai_error unit :=
  match grant with
  | None => Err (Errorf "data grant cannot be nil")
  | Some grant =>
      let! _ := within "invalid data grant ID" (ValidateIRI (dg_ID grant)) in
      let! _ := within "invalid data owner" (ValidateWebID (dg_DataOwner grant)) in
      let! _ := within "invalid granted by" (ValidateWebID (dg_GrantedBy grant)) in
      let! _ := within "invalid registered shape tree" (ValidateIRI (dg_RegisteredShapeTree grant)) in
      let! _ := within "invalid has data registration" (ValidateIRI (dg_HasDataRegistration grant)) in
      let! _ := each "invalid access mode" ValidateACLMode 0 (dg_AccessMode grant) in
      let! _ := within "invalid scope of grant" (ValidateScopeOfGrant (dg_ScopeOfGrant grant)) in
      let! _ := each "invalid data instance" ValidateIRI 0 (dg_HasDataInstance grant) in
      let! _ := optionally (dg_InheritsFromGrant grant)
                  (within "invalid inherits from grant" (ValidateIRI (dg_InheritsFromGrant grant))) in
      let! _ := optionally (dg_DelegationOfGrant grant)
                  (within "invalid delegation of grant" (ValidateIRI (dg_DelegationOfGrant grant))) in
      Ok tt
  end.

Definition ValidateDataRegistration (reg : option DataRegistration) : result sai_error unit :=
  match reg with
  | None => Err (Errorf "data registration cannot be nil")
  | Some reg =>
      let! _ := within "invalid registration ID" (ValidateIRI (dr_ID reg)) in
      let! _ := within "invalid registered shape tree" (ValidateIRI (dr_RegisteredShapeTree reg)) in
      let! _ := within "invalid registered by" (ValidateWebID (dr_RegisteredBy reg)) in
      let! _ := within "invalid registered with" (ValidateWebID (dr_RegisteredWith reg)) in
      fail! Errorf "registered at timestamp cannot be zero" when time_IsZero (dr_RegisteredAt reg) in
      let! _ := within "invalid IRI prefix" (ValidateURL (dr_IRIPrefix reg)) in
      let! _ := each "invalid contains entry" ValidateIRI 0 (dr_Contains reg) in
      Ok tt
  end.

Definition ValidateDataInstance (instance : option DataInstance) : result sai_error unit :=
  match instance with
  | None => Err (Errorf "data instance cannot be nil")
  | Some instance =>
      let! _ := within "invalid instance ID" (ValidateIRI (di_ID instance)) in
      let! _ := optionally (di_Type instance) (within "invalid type" (ValidateIRI (di_Type instance))) in
      let! _ := optionally (di_ShapeTree instance) (within "invalid shape tree" (ValidateIRI (di_ShapeTree instance))) in
      fail! Errorf "data exceeds maximum size of 1048576 bytes" when SAIMaxInputSize <? len (di_Data instance) in
      fail! Errorf "content type cannot be empty" when String.eqb (di_ContentType instance) "" in
      Ok tt
  end.

Definition ValidateShapeTreeReference (ref : option ShapeTreeReference) : result sai_error unit :=
  match ref with
  | None => Err (Errorf "shape tree reference cannot be nil")
  | Some ref =>
      let! _ := within "invalid has shape tree" (ValidateIRI (str_HasShapeTree ref)) in
      let! _ := optionally (str_ViaShapePath ref) (within "invalid via shape path" (ValidateShapePath (str_ViaShapePath ref))) in
      Ok tt
  end.

Definition ValidateShapeTree (tree : option ShapeTree) : result sai_error unit :=
  match tree with
  | None => Err (Errorf "shape tree cannot be nil")
  | Some tree =>
      let! _ := within "invalid shape tree ID" (ValidateIRI (st_ID tree)) in
      let! _ := within "invalid expects type" (ValidateIRI (st_ExpectsType tree)) in
      let! _ := within "invalid shape" (ValidateIRI (st_Shape tree)) in
      let! _ := each "invalid reference" (fun ref => ValidateShapeTreeReference (Some ref)) 0 (st_References tree) in
      Ok tt
  end.

Definition ValidateAuthorizationAgent (agent : option AuthorizationAgent) : result sai_error unit :=
  match agent with
  | None => Err (Errorf "authorization agent cannot be nil")
  | Some agent =>
      fail! Errorf "authorization agent ID cannot be empty" when String.eqb (aa_ID agent) "" in
      let! _ := within "invalid authorization agent ID" (ValidateURL (aa_ID agent)) in
      let! _ := each "invalid agent registry set" ValidateIRI 0 (aa_AgentRegistrySet agent) in
      Ok tt
  end.

(** Five minutes ahead of the clock, or a year of 365 days behind it, at most. *)
Definition ValidateTimestamp (now t : Z) : result sai_error unit :=
  fail! Errorf "timestamp cannot be zero" when time_IsZero t in
  fail! Errorf "timestamp is too far in the future" when time_After t (now + 5 * minute) in
  fail! Errorf "timestamp is too far in the past" when time_Before t (now - 24 * hour * 365) in
  Ok tt.

(** ** What the checks accept *)

Lemma within_ok text m : within text m = Ok tt <-> m = Ok tt.
Proof. destruct m as [[]|]; cbn; split; congruence. Qed.

Lemma each_ok {A} text (f : A -> result sai_error unit) i l : each text f i l = Ok tt <-> Forall (fun x => f x = Ok tt) l.
Proof.
  revert i. induction l as [|x l IH]; intros i; cbn [each]; [done|]. rewrite Forall_cons, <- (IH (S i)).
  destruct (f x) as [[]|]; cbn; [tauto|]. split; [discriminate|]. by intros [? _].
Qed.

Lemma optionally_ok value m : optionally value m = Ok tt <-> (value <> "" -> m = Ok tt).
Proof. unfold optionally. destruct (String.eqb_spec value ""); split; intros; try done; try (by subst); auto. Qed.

Lemma one_of_ok what values v : one_of what values v = Ok tt <-> v ∈ values.
Proof.
  unfold one_of. destruct (existsb (String.eqb v) values) eqn:E; cbn; (split; [|]); try done.
  - intros _. apply existsb_exists in E as (x & Hx & ->%String.eqb_eq). by apply list_elem_of_In.
  - intros Hv%list_elem_of_In. exfalso. assert (existsb (String.eqb v) values = true); [|congruence].
    apply existsb_exists. exists v. by rewrite String.eqb_refl.
Qed.

Lemma bind_ok {E} (m : result E unit) k : (let! _ := m in k) = Ok tt <-> m = Ok tt /\ k = Ok tt.
Proof. destruct m as [[]|]; cbn; [tauto|]. split; [discriminate|by intros [? _]]. Qed.

Lemma fail_ok {E} (e : E) (b : bool) (k : result E unit) : (fail! e when b in k) = Ok tt <-> b = false /\ k = Ok tt.
Proof. destruct b; split; try done; by intros []. Qed.

Create HintDb sai.
#[export] Hint Rewrite @bind_ok @fail_ok within_ok @each_ok optionally_ok one_of_ok : sai.

(** The conditions behind an accepted structure. *)
Ltac sai_inv H := autorewrite with sai in H; destruct_and? H.

(** ** Runes and bytes *)

Lemma byte_of_bounds c : 0 <= byte_of c < 256.
Proof.
  unfold byte_of. pose proof (N_ascii_bounded c). lia.
Qed.

(** A byte from 128 on starts a rune from 128 on. *)
Lemma DecodeRune_wide b l : 128 <= b -> 128 <= (DecodeRune (b :: l)).1.1.
Proof.
  intros Hb. unfold DecodeRune, cont, RuneError. destruct (Z.ltb_spec b 128); [lia|].
  destruct l as [|b1 [|b2 [|b3 l]]]; repeat break_if; cbn; bool_prop; lia.
Qed.

Lemma DecodeRune_narrow b l : b < 128 -> DecodeRune (b :: l) = (b, 1%nat, true).
Proof. intros Hb. unfold DecodeRune. by destruct (Z.ltb_spec b 128); [|lia]. Qed.

Lemma decode_within lo hi l fuel : hi < 128 -> (length l <= fuel)%nat ->
  forallb (fun r => negb ((r <? lo) || (hi <? r))) (decode_fuel fuel l).*1 = forallb (fun b => (lo <=? b) && (b <=? hi)) l.
Proof.
  intros Hhi. revert l. induction fuel as [|fuel IH]; intros [|b l] Hl; cbn [length] in Hl; try done; [lia|]. cbn [decode_fuel].
  destruct (Z.ltb_spec b 128) as [Hb|Hb].
  - rewrite DecodeRune_narrow by done. cbn. rewrite drop_0, IH by lia. f_equal.
    destruct (Z.ltb_spec b lo), (Z.ltb_spec hi b), (Z.leb_spec lo b), (Z.leb_spec b hi); cbn; try done; lia.
  - pose proof (DecodeRune_wide b l Hb) as Hw. destruct (DecodeRune (b :: l)) as [[r w] ok]. cbn in *.
    replace (hi <? r) with true by lia. replace (b <=? hi) with false by lia. rewrite orb_true_r, andb_false_r. done.
Qed.

Lemma runes_within_bytes lo hi s : hi < 128 -> runes_within lo hi s = string_forallb (in_range lo hi) s.
Proof.
  intros Hhi. unfold runes_within, runes, decode. rewrite decode_within by done.
  unfold string_bytes, in_range. induction s as [|c s IH]; cbn; [done|]. by rewrite IH.
Qed.

(** ** WebIDs *)

(** An accepted WebID: the URL it parses to, with a web scheme and a printable fragment.  The
    host is not looked at. *)
Lemma ValidateWebID_ok webID : ValidateWebID webID = Ok tt <->
  webID <> "" /\ len webID <= 2048 /\
  exists u, Parse webID = Ok u /\ (Scheme u = "https" \/ Scheme u = "http") /\ word (Fragment u).
Proof.
  unfold ValidateWebID, isValidWebIDFragment, web_scheme, word. split.
  - intros H. apply fail_ok in H as [Hne H]. apply fail_ok in H as [Hlen H]. bool_prop.
    destruct (Parse webID) as [u|]; cbn in H; [|discriminate H]. autorewrite with sai in H.
    destruct H as (Hs & Hf & Hw & _). bool_prop. split_and!; [done|unfold SAIMaxIRILength in *; lia|]. exists u. split_and!; try done.
    + apply orb_true_iff in Hs as [?%String.eqb_eq|?%String.eqb_eq]; auto.
    + by rewrite runes_within_bytes in *.
  - intros (Hne & Hlen & u & Hp & Hs & Hf & Hw). apply fail_ok. split; [by apply String.eqb_neq|].
    apply fail_ok. split; [apply Z.ltb_ge; exact Hlen|]. rewrite Hp. cbn.
    rewrite runes_within_bytes by lia. apply String.eqb_neq in Hf. change (string_forallb (in_range 33 126) (Fragment u) = true) in Hw. rewrite Hf, Hw. cbn.
    by destruct Hs as [-> | ->].
Qed.
