(* ===== verification/SaiStorage.v ===== *)
(** * Application interoperability: the memory storage

    [internal/sai/storage.go]: applications, registrations, grants, instances, shape trees and
    agents in maps by identifier, with an index of identifiers per user for three of them, and
    the interface [SAIStorage] of [service.go] that it implements.  A stored value is not written
    to after it is stored, so that the maps hold values where the code has pointers; the lists it
    returns have [None] for a nil pointer.  The copies are written out, because some of them are
    not copies. *)

From S2P Require Import Prelude GoStrings SaiTypes.

(** ** State *)

Record InMemorySAIStorage := mkSAIStorage {
  applications : gmap string Application;
  applicationRegistrations : gmap string ApplicationRegistration;
  applicationRegistrationsByUser : gmap string (list string);
  accessGrants : gmap string AccessGrant;
  accessGrantsByUser : gmap string (list string);
  dataRegistrations : gmap string DataRegistration;
  dataRegistrationsByUser : gmap string (list string);
  dataGrants : gmap string DataGrant;
  dataGrantsByAccessGrant : gmap string (list string);
  dataInstances : gmap string DataInstance;
  dataInstancesByRegistration : gmap string (list string);
  shapeTrees : gmap string ShapeTree;
  authorizationAgents : gmap string AuthorizationAgent
}.

Definition NewInMemorySAIStorage : InMemorySAIStorage :=
  mkSAIStorage ∅ ∅ ∅ ∅ ∅ ∅ ∅ ∅ ∅ ∅ ∅ ∅ ∅.

(** Updates of one field. *)
Definition upd_applications (f : gmap string Application -> gmap string Application) (s : InMemorySAIStorage) : InMemorySAIStorage :=
  mkSAIStorage (f (applications s)) (applicationRegistrations s) (applicationRegistrationsByUser s)
    (accessGrants s) (accessGrantsByUser s) (dataRegistrations s) (dataRegistrationsByUser s) (dataGrants s)
    (dataGrantsByAccessGrant s) (dataInstances s) (dataInstancesByRegistration s) (shapeTrees s)
    (authorizationAgents s).
Definition upd_applicationRegistrations (f : gmap string ApplicationRegistration -> gmap string ApplicationRegistration) (s : InMemorySAIStorage) : InMemorySAIStorage :=
  mkSAIStorage (applications s) (f (applicationRegistrations s)) (applicationRegistrationsByUser s)
    (accessGrants s) (accessGrantsByUser s) (dataRegistrations s) (dataRegistrationsByUser s) (dataGrants s)
    (dataGrantsByAccessGrant s) (dataInstances s) (dataInstancesByRegistration s) (shapeTrees s)
    (authorizationAgents s).
Definition upd_applicationRegistrationsByUser (f : gmap string (list string) -> gmap string (list string)) (s : InMemorySAIStorage) : InMemorySAIStorage :=
  mkSAIStorage (applications s) (applicationRegistrations s) (f (applicationRegistrationsByUser s))
    (accessGrants s) (accessGrantsByUser s) (dataRegistrations s) (dataRegistrationsByUser s) (dataGrants s)
    (dataGrantsByAccessGrant s) (dataInstances s) (dataInstancesByRegistration s) (shapeTrees s)
    (authorizationAgents s).
Definition upd_accessGrants (f : gmap string AccessGrant -> gmap string AccessGrant) (s : InMemorySAIStorage) : InMemorySAIStorage :=
  mkSAIStorage (applications s) (applicationRegistrations s) (applicationRegistrationsByUser s)
    (f (accessGrants s)) (accessGrantsByUser s) (dataRegistrations s) (dataRegistrationsByUser s) (dataGrants s)
    (dataGrantsByAccessGrant s) (dataInstances s) (dataInstancesByRegistration s) (shapeTrees s)
    (authorizationAgents s).
Definition upd_accessGrantsByUser (f : gmap string (list string) -> gmap string (list string)) (s : InMemorySAIStorage) : InMemorySAIStorage :=
  mkSAIStorage (applications s) (applicationRegistrations s) (applicationRegistrationsByUser s) (accessGrants s)
    (f (accessGrantsByUser s)) (dataRegistrations s) (dataRegistrationsByUser s) (dataGrants s)
    (dataGrantsByAccessGrant s) (dataInstances s) (dataInstancesByRegistration s) (shapeTrees s)
    (authorizationAgents s).
Definition upd_dataRegistrations (f : gmap string DataRegistration -> gmap string DataRegistration) (s : InMemorySAIStorage) : InMemorySAIStorage :=
  mkSAIStorage (applications s) (applicationRegistrations s) (applicationRegistrationsByUser s) (accessGrants s)
    (accessGrantsByUser s) (f (dataRegistrations s)) (dataRegistrationsByUser s) (dataGrants s)
    (dataGrantsByAccessGrant s) (dataInstances s) (dataInstancesByRegistration s) (shapeTrees s)
    (authorizationAgents s).
Definition upd_dataRegistrationsByUser (f : gmap string (list string) -> gmap string (list string)) (s : InMemorySAIStorage) : InMemorySAIStorage :=
  mkSAIStorage (applications s) (applicationRegistrations s) (applicationRegistrationsByUser s) (accessGrants s)
    (accessGrantsByUser s) (dataRegistrations s) (f (dataRegistrationsByUser s)) (dataGrants s)
    (dataGrantsByAccessGrant s) (dataInstances s) (dataInstancesByRegistration s) (shapeTrees s)
    (authorizationAgents s).
Definition upd_dataGrants (f : gmap string DataGrant -> gmap string DataGrant) (s : InMemorySAIStorage) : InMemorySAIStorage :=
  mkSAIStorage (applications s) (applicationRegistrations s) (applicationRegistrationsByUser s) (accessGrants s)
    (accessGrantsByUser s) (dataRegistrations s) (dataRegistrationsByUser s) (f (dataGrants s))
    (dataGrantsByAccessGrant s) (dataInstances s) (dataInstancesByRegistration s) (shapeTrees s)
    (authorizationAgents s).
Definition upd_dataGrantsByAccessGrant (f : gmap string (list string) -> gmap string (list string)) (s : InMemorySAIStorage) : InMemorySAIStorage :=
  mkSAIStorage (applications s) (applicationRegistrations s) (applicationRegistrationsByUser s) (accessGrants s)
    (accessGrantsByUser s) (dataRegistrations s) (dataRegistrationsByUser s) (dataGrants s)
    (f (dataGrantsByAccessGrant s)) (dataInstances s) (dataInstancesByRegistration s) (shapeTrees s)
    (authorizationAgents s).
Definition upd_dataInstances (f : gmap string DataInstance -> gmap string DataInstance) (s : InMemorySAIStorage) : InMemorySAIStorage :=
  mkSAIStorage (applications s) (applicationRegistrations s) (applicationRegistrationsByUser s) (accessGrants s)
    (accessGrantsByUser s) (dataRegistrations s) (dataRegistrationsByUser s) (dataGrants s)
    (dataGrantsByAccessGrant s) (f (dataInstances s)) (dataInstancesByRegistration s) (shapeTrees s)
    (authorizationAgents s).
Definition upd_dataInstancesByRegistration (f : gmap string (list string) -> gmap string (list string)) (s : InMemorySAIStorage) : InMemorySAIStorage :=
  mkSAIStorage (applications s) (applicationRegistrations s) (applicationRegistrationsByUser s) (accessGrants s)
    (accessGrantsByUser s) (dataRegistrations s) (dataRegistrationsByUser s) (dataGrants s)
    (dataGrantsByAccessGrant s) (dataInstances s) (f (dataInstancesByRegistration s)) (shapeTrees s)
    (authorizationAgents s).
Definition upd_shapeTrees (f : gmap string ShapeTree -> gmap string ShapeTree) (s : InMemorySAIStorage) : InMemorySAIStorage :=
  mkSAIStorage (applications s) (applicationRegistrations s) (applicationRegistrationsByUser s) (accessGrants s)
    (accessGrantsByUser s) (dataRegistrations s) (dataRegistrationsByUser s) (dataGrants s)
    (dataGrantsByAccessGrant s) (dataInstances s) (dataInstancesByRegistration s) (f (shapeTrees s))
    (authorizationAgents s).
Definition upd_authorizationAgents (f : gmap string AuthorizationAgent -> gmap string AuthorizationAgent) (s : InMemorySAIStorage) : InMemorySAIStorage :=
  mkSAIStorage (applications s) (applicationRegistrations s) (applicationRegistrationsByUser s) (accessGrants s)
    (accessGrantsByUser s) (dataRegistrations s) (dataRegistrationsByUser s) (dataGrants s)
    (dataGrantsByAccessGrant s) (dataInstances s) (dataInstancesByRegistration s) (shapeTrees s)
    (f (authorizationAgents s)).

(** ** Copies *)

(** [make([]T, len(l))] followed by [append(_, l...)]: the zero values stay in front. *)
Definition padded (l : list string) : list string := replicate (length l) "" ++ l.

Definition copyAccessNeed (need : AccessNeed) : AccessNeed := need.

Definition copyAccessNeedGroup (group : AccessNeedGroup) : AccessNeedGroup :=
  mkAccessNeedGroup (ang_ID group) (ang_AccessNecessity group) (ang_AccessScenario group) (ang_AuthenticatesAs group)
    (map copyAccessNeed (ang_HasAccessNeed group)) (ang_HasAccessDecoratorIndex group).

Definition copyApplication (app : Application) : Application :=
  mkApplication (app_ID app) (app_ApplicationName app) (app_ApplicationDescription app) (app_ApplicationAuthor app)
    (app_ApplicationThumbnail app) (map copyAccessNeedGroup (app_HasAccessNeedGroup app))
    (app_HasAuthorizationCallbackEndpoint app) (app_AuthenticatesAs app).

Definition copyApplicationRegistration (reg : ApplicationRegistration) : ApplicationRegistration := reg.

Definition copyAccessGrantSubject (subject : AccessGrantSubject) : AccessGrantSubject := subject.

Definition copyAccessGrant (grant : AccessGrant) : AccessGrant :=
  mkAccessGrant (ag_ID grant) (ag_GrantedBy grant) (ag_GrantedWith grant) (ag_GrantedAt grant) (ag_ProvidedAt grant)
    (ag_UpdatedAt grant) (ag_FromAgent grant) (ag_ViaAgent grant) (copyAccessGrantSubject (ag_HasAccessGrantSubject grant))
    (padded (ag_HasAccessNeedGroup grant)) (padded (ag_HasDataGrant grant)).

Definition copyDataGrant (grant : DataGrant) : DataGrant :=
  mkDataGrant (dg_ID grant) (dg_DataOwner grant) (dg_GrantedBy grant) (dg_RegisteredShapeTree grant)
    (dg_HasDataRegistration grant) (padded (dg_AccessMode grant)) (dg_ScopeOfGrant grant) (padded (dg_HasDataInstance grant))
    (dg_InheritsFromGrant grant) (dg_DelegationOfGrant grant).

Definition copyDataRegistration (reg : DataRegistration) : DataRegistration :=
  mkDataRegistration (dr_ID reg) (dr_RegisteredShapeTree reg) (dr_RegisteredAt reg) (dr_RegisteredBy reg)
    (dr_RegisteredWith reg) (dr_IRIPrefix reg) (padded (dr_Contains reg)).

Definition copyDataInstance (instance : DataInstance) : DataInstance :=
  mkDataInstance (di_ID instance) (di_Type instance) (di_ShapeTree instance) (String.append "" (di_Data instance))
    (di_ContentType instance).

Definition copyShapeTreeReference (ref : ShapeTreeReference) : ShapeTreeReference := ref.

Definition copyShapeTree (tree : ShapeTree) : ShapeTree :=
  mkShapeTree (st_ID tree) (st_ExpectsType tree) (st_Shape tree) (map copyShapeTreeReference (st_References tree)).

Definition copyAuthorizationAgent (agent : AuthorizationAgent) : AuthorizationAgent :=
  mkAuthorizationAgent (aa_ID agent) ([] ++ aa_AgentRegistrySet agent).

(** ** Operations *)

Definition storage_error (text : string) : sai_error := Wraps ErrSAIStorage (Errorf text).
Definition not_found (what id : string) : sai_error :=
  Wraps ErrSAINotFound (Errorf (String.append what (String.append " not found: " id))).

(** An operation: the new state, and a value or an error. *)
Definition op (S A : Type) : Type := S -> S * result sai_error A.

(** [range] over a map visits it in this order. *)
Definition map_order : Type := forall V : Type, gmap string V -> list string.
Definition visit {V} (order : map_order) (m : gmap string V) : list V := omap (fun k => m !! k) (order V m).

(** The index of identifiers by user: an identifier is appended, whether it is there or not, and
    its first occurrence removed. *)
Definition add_to_index (user id : string) (ix : gmap string (list string)) : gmap string (list string) :=
  let ix := match ix !! user with Some _ => ix | None => <[user := []]> ix end in
  <[user := default [] (ix !! user) ++ [id]]> ix.

Fixpoint remove_first (id : string) (ids : list string) : list string :=
  match ids with
  | [] => []
  | x :: ids' => if String.eqb x id then ids' else x :: remove_first id ids'
  end.

Definition remove_from_index (user id : string) (ix : gmap string (list string)) : gmap string (list string) :=
  match ix !! user with Some ids => <[user := remove_first id ids]> ix | None => ix end.

Definition list_index {V} (copy : V -> V) (m : gmap string V) (ix : gmap string (list string)) (user : string)
  : list (option V) :=
  match ix !! user with Some ids => map (fun id => copy <$> m !! id) ids | None => [] end.

Definition fetch {V} (what : string) (copy : V -> V) (m : gmap string V) (id : string) : result sai_error V :=
  match m !! id with Some v => Ok (copy v) | None => Err (not_found what id) end.

(** *** Applications *)

Definition StoreApplication (app : option Application) : op InMemorySAIStorage unit := fun s =>
  match app with
  | None => (s, Err (storage_error "application cannot be nil"))
  | Some app =>
      if String.eqb (app_ID app) "" then (s, Err (storage_error "application ID cannot be empty"))
      else (upd_applications (insert (app_ID app) app) s, Ok tt)
  end.

Definition GetApplication (id : string) : op InMemorySAIStorage Application := fun s =>
  (s, fetch "application" copyApplication (applications s) id).

(** The owner does not matter. *)
Definition ListApplications (order : map_order) (owner : string) : op InMemorySAIStorage (list Application) := fun s =>
  (s, Ok (map copyApplication (visit order (applications s)))).

Definition DeleteApplication (id : string) : op InMemorySAIStorage unit := fun s =>
  match applications s !! id with
  | None => (s, Err (not_found "application" id))
  | Some _ => (upd_applications (delete id) s, Ok tt)
  end.

(** *** Application registrations *)

Definition StoreApplicationRegistration (reg : option ApplicationRegistration) : op InMemorySAIStorage unit := fun s =>
  match reg with
  | None => (s, Err (storage_error "application registration cannot be nil"))
  | Some reg =>
      if String.eqb (ar_ID reg) "" then (s, Err (storage_error "application registration ID cannot be empty"))
      else
        let s := upd_applicationRegistrations (insert (ar_ID reg) reg) s in
        (upd_applicationRegistrationsByUser (add_to_index (ar_RegisteredBy reg) (ar_ID reg)) s, Ok tt)
  end.

Definition GetApplicationRegistration (id : string) : op InMemorySAIStorage ApplicationRegistration := fun s =>
  (s, fetch "application registration" copyApplicationRegistration (applicationRegistrations s) id).

Definition ListApplicationRegistrations (userID : string) : op InMemorySAIStorage (list (option ApplicationRegistration)) := fun s =>
  (s, Ok (list_index copyApplicationRegistration (applicationRegistrations s) (applicationRegistrationsByUser s) userID)).

Definition DeleteApplicationRegistration (id : string) : op InMemorySAIStorage unit := fun s =>
  match applicationRegistrations s !! id with
  | None => (s, Err (not_found "application registration" id))
  | Some reg =>
      let s := upd_applicationRegistrationsByUser (remove_from_index (ar_RegisteredBy reg) id) s in
      (upd_applicationRegistrations (delete id) s, Ok tt)
  end.

(** *** Access grants *)

Definition StoreAccessGrant (grant : option AccessGrant) : op InMemorySAIStorage unit := fun s =>
  match grant with
  | None => (s, Err (storage_error "access grant cannot be nil"))
  | Some grant =>
      if String.eqb (ag_ID grant) "" then (s, Err (storage_error "access grant ID cannot be empty"))
      else
        let s := upd_accessGrants (insert (ag_ID grant) grant) s in
        (upd_accessGrantsByUser (add_to_index (ag_FromAgent grant) (ag_ID grant)) s, Ok tt)
  end.

Definition GetAccessGrant (id : string) : op InMemorySAIStorage AccessGrant := fun s =>
  (s, fetch "access grant" copyAccessGrant (accessGrants s) id).

Definition ListAccessGrants (userID : string) : op InMemorySAIStorage (list (option AccessGrant)) := fun s =>
  (s, Ok (list_index copyAccessGrant (accessGrants s) (accessGrantsByUser s) userID)).

Definition DeleteAccessGrant (id : string) : op InMemorySAIStorage unit := fun s =>
  match accessGrants s !! id with
  | None => (s, Err (not_found "access grant" id))
  | Some grant =>
      let s := upd_accessGrantsByUser (remove_from_index (ag_FromAgent grant) id) s in
      (upd_accessGrants (delete id) s, Ok tt)
  end.

(** *** Data registrations *)

Definition StoreDataRegistration (reg : option DataRegistration) : op InMemorySAIStorage unit := fun s =>
  match reg with
  | None => (s, Err (storage_error "data registration cannot be nil"))
  | Some reg =>
      if String.eqb (dr_ID reg) "" then (s, Err (storage_error "data registration ID cannot be empty"))
      else
        let s := upd_dataRegistrations (insert (dr_ID reg) reg) s in
        (upd_dataRegistrationsByUser (add_to_index (dr_RegisteredBy reg) (dr_ID reg)) s, Ok tt)
  end.

Definition GetDataRegistration (id : string) : op InMemorySAIStorage DataRegistration := fun s =>
  (s, fetch "data registration" copyDataRegistration (dataRegistrations s) id).

Definition ListDataRegistrations (userID : string) : op InMemorySAIStorage (list (option DataRegistration)) := fun s =>
  (s, Ok (list_index copyDataRegistration (dataRegistrations s) (dataRegistrationsByUser s) userID)).

Definition DeleteDataRegistration (id : string) : op InMemorySAIStorage unit := fun s =>
  match dataRegistrations s !! id with
  | None => (s, Err (not_found "data registration" id))
  | Some reg =>
      let s := upd_dataRegistrationsByUser (remove_from_index (dr_RegisteredBy reg) id) s in
      (upd_dataRegistrations (delete id) s, Ok tt)
  end.

(** *** Data grants *)

Definition StoreDataGrant (grant : option DataGrant) : op InMemorySAIStorage unit := fun s =>
  match grant with
  | None => (s, Err (storage_error "data grant cannot be nil"))
  | Some grant =>
      if String.eqb (dg_ID grant) "" then (s, Err (storage_error "data grant ID cannot be empty"))
      else 
        let s := upd_dataGrants (insert (dg_ID grant) grant) s in
        (match dataGrantsByAccessGrant s !! dg_ID grant with
         | Some _ => s
         | None => upd_dataGrantsByAccessGrant (insert (dg_ID grant) []) s
         end, Ok tt)
  end.

Definition GetDataGrant (id : string) : op InMemorySAIStorage DataGrant := fun s =>
  (s, fetch "data grant" copyDataGrant (dataGrants s) id).

(** All of them, whatever the access grant. *)
Definition ListDataGrants (order : map_order) (accessGrantID : string) : op InMemorySAIStorage (list DataGrant) := fun s =>
  (s, Ok (map copyDataGrant (visit order (dataGrants s)))).

Definition DeleteDataGrant (id : string) : op InMemorySAIStorage unit := fun s =>
  match dataGrants s !! id with
  | None => (s, Err (not_found "data grant" id))
  | Some _ => (upd_dataGrants (delete id) s, Ok tt)
  end.

(** *** Data instances *)

Definition StoreDataInstance (instance : option DataInstance) : op InMemorySAIStorage unit := fun s =>
  match instance with
  | None => (s, Err (storage_error "data instance cannot be nil"))
  | Some instance =>
      if String.eqb (di_ID instance) "" then (s, Err (storage_error "data instance ID cannot be empty"))
      else (upd_dataInstances (insert (di_ID instance) instance) s, Ok tt)
  end.

Definition GetDataInstance (id : string) : op InMemorySAIStorage DataInstance := fun s =>
  (s, fetch "data instance" copyDataInstance (dataInstances s) id).

(** All of them, whatever the registration. *)
Definition ListDataInstances (order : map_order) (registrationID : string) : op InMemorySAIStorage (list DataInstance) := fun s =>
  (s, Ok (map copyDataInstance (visit order (dataInstances s)))).

Definition DeleteDataInstance (id : string) : op InMemorySAIStorage unit := fun s =>
  match dataInstances s !! id with
  | None => (s, Err (not_found "data instance" id))
  | Some _ => (upd_dataInstances (delete id) s, Ok tt)
  end.

(** *** Shape trees *)

Definition StoreShapeTree (tree : option ShapeTree) : op InMemorySAIStorage unit := fun s =>
  match tree with
  | None => (s, Err (storage_error "shape tree cannot be nil"))
  | Some tree =>
      if String.eqb (st_ID tree) "" then (s, Err (storage_error "shape tree ID cannot be empty"))
      else (upd_shapeTrees (insert (st_ID tree) tree) s, Ok tt)
  end.

Definition GetShapeTree (id : string) : op InMemorySAIStorage ShapeTree := fun s =>
  (s, fetch "shape tree" copyShapeTree (shapeTrees s) id).

Definition ListShapeTrees (order : map_order) : op InMemorySAIStorage (list ShapeTree) := fun s =>
  (s, Ok (map copyShapeTree (visit order (shapeTrees s)))).

Definition DeleteShapeTree (id : string) : op InMemorySAIStorage unit := fun s =>
  match shapeTrees s !! id with
  | None => (s, Err (not_found "shape tree" id))
  | Some _ => (upd_shapeTrees (delete id) s, Ok tt)
  end.

(** *** Authorization agents *)

Definition StoreAuthorizationAgent (agent : option AuthorizationAgent) : op InMemorySAIStorage unit := fun s =>
  match agent with
  | None => (s, Err (storage_error "authorization agent cannot be nil"))
  | Some agent =>
      if String.eqb (aa_ID agent) "" then (s, Err (storage_error "authorization agent ID cannot be empty"))
      else (upd_authorizationAgents (insert (aa_ID agent) agent) s, Ok tt)
  end.

Definition GetAuthorizationAgent (id : string) : op InMemorySAIStorage AuthorizationAgent := fun s =>
  (s, fetch "authorization agent" copyAuthorizationAgent (authorizationAgents s) id).

Definition ListAuthorizationAgents (order : map_order) : op InMemorySAIStorage (list AuthorizationAgent) := fun s =>
  (s, Ok (map copyAuthorizationAgent (visit order (authorizationAgents s)))).

Definition DeleteAuthorizationAgent (id : string) : op InMemorySAIStorage unit := fun s =>
  match authorizationAgents s !! id with
  | None => (s, Err (not_found "authorization agent" id))
  | Some _ => (upd_authorizationAgents (delete id) s, Ok tt)
  end.

(** ** The interface *)

(** [SAIStorage] of [service.go], over the states of a storage. *)
Class SAIStorage (S : Type) := {
  db_StoreApplication : option Application -> op S unit;
  db_GetApplication : string -> op S Application;
  db_ListApplications : map_order -> string -> op S (list Application);
  db_DeleteApplication : string -> op S unit;
  db_StoreApplicationRegistration : option ApplicationRegistration -> op S unit;
  db_GetApplicationRegistration : string -> op S ApplicationRegistration;
  db_ListApplicationRegistrations : string -> op S (list (option ApplicationRegistration));
  db_DeleteApplicationRegistration : string -> op S unit;
  db_StoreAccessGrant : option AccessGrant -> op S unit;
  db_GetAccessGrant : string -> op S AccessGrant;
  db_ListAccessGrants : string -> op S (list (option AccessGrant));
  db_DeleteAccessGrant : string -> op S unit;
  db_StoreDataRegistration : option DataRegistration -> op S unit;
  db_GetDataRegistration : string -> op S DataRegistration;
  db_ListDataRegistrations : string -> op S (list (option DataRegistration));
  db_DeleteDataRegistration : string -> op S unit;
  db_StoreDataGrant : option DataGrant -> op S unit;
  db_GetDataGrant : string -> op S DataGrant;
  db_ListDataGrants : map_order -> string -> op S (list DataGrant);
  db_DeleteDataGrant : string -> op S unit;
  db_StoreDataInstance : option DataInstance -> op S unit;
  db_GetDataInstance : string -> op S DataInstance;
  db_ListDataInstances : map_order -> string -> op S (list DataInstance);
  db_DeleteDataInstance : string -> op S unit;
  db_StoreShapeTree : option ShapeTree -> op S unit;
  db_GetShapeTree : string -> op S ShapeTree;
  db_ListShapeTrees : map_order -> op S (list ShapeTree);
  db_DeleteShapeTree : string -> op S unit;
  db_StoreAuthorizationAgent : option AuthorizationAgent -> op S unit;
  db_GetAuthorizationAgent : string -> op S AuthorizationAgent;
  db_ListAuthorizationAgents : map_order -> op S (list AuthorizationAgent);
  db_DeleteAuthorizationAgent : string -> op S unit
}.

#[export] Instance memory_storage : SAIStorage InMemorySAIStorage := {
  db_StoreApplication := StoreApplication;
  db_GetApplication := GetApplication;
  db_ListApplications := ListApplications;
  db_DeleteApplication := DeleteApplication;
  db_StoreApplicationRegistration := StoreApplicationRegistration;
  db_GetApplicationRegistration := GetApplicationRegistration;
  db_ListApplicationRegistrations := ListApplicationRegistrations;
  db_DeleteApplicationRegistration := DeleteApplicationRegistration;
  db_StoreAccessGrant := StoreAccessGrant;
  db_GetAccessGrant := GetAccessGrant;
  db_ListAccessGrants := ListAccessGrants;
  db_DeleteAccessGrant := DeleteAccessGrant;
  db_StoreDataRegistration := StoreDataRegistration;
  db_GetDataRegistration := GetDataRegistration;
  db_ListDataRegistrations := ListDataRegistrations;
  db_DeleteDataRegistration := DeleteDataRegistration;
  db_StoreDataGrant := StoreDataGrant;
  db_GetDataGrant := GetDataGrant;
  db_ListDataGrants := ListDataGrants;
  db_DeleteDataGrant := DeleteDataGrant;
  db_StoreDataInstance := StoreDataInstance;
  db_GetDataInstance := GetDataInstance;
  db_ListDataInstances := ListDataInstances;
  db_DeleteDataInstance := DeleteDataInstance;
  db_StoreShapeTree := StoreShapeTree;
  db_GetShapeTree := GetShapeTree;
  db_ListShapeTrees := ListShapeTrees;
  db_DeleteShapeTree := DeleteShapeTree;
  db_StoreAuthorizationAgent := StoreAuthorizationAgent;
  db_GetAuthorizationAgent := GetAuthorizationAgent;
  db_ListAuthorizationAgents := ListAuthorizationAgents;
  db_DeleteAuthorizationAgent := DeleteAuthorizationAgent
}.

(** ** Reading back *)

Lemma map_identity {A} (f : A -> A) l : (forall x, f x = x) -> map f l = l.
Proof. intros Hf. induction l as [|x l IH]; cbn; [done|]. by rewrite Hf, IH. Qed.

Lemma copyApplication_id app : copyApplication app = app.
Proof.
  destruct app. unfold copyApplication. cbn. f_equal. apply map_identity. intros []. unfold copyAccessNeedGroup. cbn. f_equal.
  by apply map_identity.
Qed.

Lemma copyShapeTree_id tree : copyShapeTree tree = tree.
Proof. destruct tree. unfold copyShapeTree. cbn. f_equal. by apply map_identity. Qed.

Lemma copyDataInstance_id instance : copyDataInstance instance = instance.
Proof. by destruct instance. Qed.

Lemma copyAuthorizationAgent_id agent : copyAuthorizationAgent agent = agent.
Proof. by destruct agent. Qed.

Lemma padded_nil l : padded l = l <-> l = [].
Proof.
  split; [|by intros ->]. unfold padded. intros H%(f_equal length). rewrite length_app, length_replicate in H. by destruct l; cbn in *; [|lia].
Qed.

(** An empty string comes first where the list is not empty. *)
Lemma padded_head l : l <> [] -> "" ∈ padded l.
Proof. destruct l as [|x l]; [done|]. intros _. unfold padded. cbn. left. Qed.

Lemma ValidateIRI_empty : ValidateIRI "" <> Ok tt.
Proof. discriminate. Qed.

(** A check of every element fails on a list with an empty string in front. *)
Lemma padded_invalid text f l : f "" <> Ok tt -> l <> [] -> each text f 0 (padded l) <> Ok tt.
Proof. intros Hf Hl H. apply each_ok in H. rewrite Forall_forall in H. by apply Hf, H, padded_head. Qed.

Lemma copyAccessGrant_id g : copyAccessGrant g = g <-> ag_HasDataGrant g = [] /\ ag_HasAccessNeedGroup g = [].
Proof.
  destruct g. cbn. split; [|by intros [-> ->]]. unfold copyAccessGrant. cbn. intros H. injection H as H1 H2. by rewrite <- !padded_nil.
Qed.

Lemma copyDataGrant_id g : copyDataGrant g = g <-> dg_AccessMode g = [] /\ dg_HasDataInstance g = [].
Proof.
  destruct g. cbn. split; [|by intros [-> ->]]. unfold copyDataGrant. cbn. intros H. injection H as H1 H2. by rewrite <- !padded_nil.
Qed.

Lemma copyDataRegistration_id r : copyDataRegistration r = r <-> dr_Contains r = [].
Proof.
  destruct r. cbn. split; [|by intros ->]. unfold copyDataRegistration. cbn. intros H. injection H as H1. by rewrite <- !padded_nil.
Qed.

Lemma copyAccessGrant_invalid g :
  ag_HasDataGrant g <> [] \/ ag_HasAccessNeedGroup g <> [] -> ValidateAccessGrant (Some (copyAccessGrant g)) <> Ok tt.
Proof.
  intros Hne H. unfold ValidateAccessGrant in H. repeat (apply bind_ok in H as [? H] || apply fail_ok in H as [? H]).
  destruct Hne as [Hne|Hne]; by eapply padded_invalid; [exact ValidateIRI_empty|exact Hne|eassumption].
Qed.

Lemma copyDataGrant_invalid g :
  dg_AccessMode g <> [] \/ dg_HasDataInstance g <> [] -> ValidateDataGrant (Some (copyDataGrant g)) <> Ok tt.
Proof.
  intros Hne H. unfold ValidateDataGrant in H. repeat (apply bind_ok in H as [? H] || apply fail_ok in H as [? H]).
  destruct Hne as [Hne|Hne]; (eapply padded_invalid; [|exact Hne|eassumption]); discriminate.
Qed.

Lemma copyDataRegistration_invalid r : dr_Contains r <> [] -> ValidateDataRegistration (Some (copyDataRegistration r)) <> Ok tt.
Proof.
  intros Hne H. unfold ValidateDataRegistration in H. repeat (apply bind_ok in H as [? H] || apply fail_ok in H as [? H]).
  by eapply padded_invalid; [exact ValidateIRI_empty|exact Hne|eassumption].
Qed.

Lemma fetch_stored {V} what (copy : V -> V) (m : gmap string V) id v : fetch what copy (<[id := v]> m) id = Ok (copy v).
Proof. unfold fetch. by rewrite lookup_insert_eq. Qed.

(** C22: what the storage stores is found under its identifier.  Applications, registrations of
    applications, data instances, shape trees and authorization agents come back as they were
    stored.  The lists of access grants, data grants and data registrations come back with as many
    empty strings in front as they have elements, so that a valid one with a non-empty list does
    not validate any more. *)
Theorem sai_storage_round_trip (s : InMemorySAIStorage) :
  (forall app, app_ID app <> "" -> (GetApplication (app_ID app) (StoreApplication (Some app) s).1).2 = Ok app) /\
  (forall reg, ar_ID reg <> "" -> (GetApplicationRegistration (ar_ID reg) (StoreApplicationRegistration (Some reg) s).1).2 = Ok reg) /\
  (forall i, di_ID i <> "" -> (GetDataInstance (di_ID i) (StoreDataInstance (Some i) s).1).2 = Ok i) /\
  (forall t, st_ID t <> "" -> (GetShapeTree (st_ID t) (StoreShapeTree (Some t) s).1).2 = Ok t) /\
  (forall a, aa_ID a <> "" -> (GetAuthorizationAgent (aa_ID a) (StoreAuthorizationAgent (Some a) s).1).2 = Ok a) /\
  (forall g, ag_ID g <> "" -> exists g', (GetAccessGrant (ag_ID g) (StoreAccessGrant (Some g) s).1).2 = Ok g' /\
     ag_HasDataGrant g' = padded (ag_HasDataGrant g) /\ ag_HasAccessNeedGroup g' = padded (ag_HasAccessNeedGroup g) /\
     (g' = g <-> ag_HasDataGrant g = [] /\ ag_HasAccessNeedGroup g = []) /\
     (ag_HasDataGrant g <> [] \/ ag_HasAccessNeedGroup g <> [] -> ValidateAccessGrant (Some g') <> Ok tt)) /\
  (forall g, dg_ID g <> "" -> exists g', (GetDataGrant (dg_ID g) (StoreDataGrant (Some g) s).1).2 = Ok g' /\
     dg_AccessMode g' = padded (dg_AccessMode g) /\ dg_HasDataInstance g' = padded (dg_HasDataInstance g) /\
     (g' = g <-> dg_AccessMode g = [] /\ dg_HasDataInstance g = []) /\
     (dg_AccessMode g <> [] \/ dg_HasDataInstance g <> [] -> ValidateDataGrant (Some g') <> Ok tt)) /\
  (forall r, dr_ID r <> "" -> exists r', (GetDataRegistration (dr_ID r) (StoreDataRegistration (Some r) s).1).2 = Ok r' /\
     dr_Contains r' = padded (dr_Contains r) /\ (r' = r <-> dr_Contains r = []) /\
     (dr_Contains r <> [] -> ValidateDataRegistration (Some r') <> Ok tt)).
Proof.
  split_and!; intros x Hx%String.eqb_neq; unfold StoreApplication, StoreApplicationRegistration, StoreDataInstance, StoreShapeTree,
    StoreAuthorizationAgent, StoreAccessGrant, StoreDataGrant, StoreDataRegistration; rewrite Hx; cbn.
  - unfold GetApplication. cbn. by rewrite fetch_stored, copyApplication_id.
  - unfold GetApplicationRegistration. cbn. by rewrite fetch_stored.
  - unfold GetDataInstance. cbn. by rewrite fetch_stored, copyDataInstance_id.
  - unfold GetShapeTree. cbn. by rewrite fetch_stored, copyShapeTree_id.
  - unfold GetAuthorizationAgent. cbn. by rewrite fetch_stored, copyAuthorizationAgent_id.
  - exists (copyAccessGrant x). unfold GetAccessGrant. cbn. rewrite fetch_stored.
    split_and!; [done..|apply copyAccessGrant_id|apply copyAccessGrant_invalid].
  - exists (copyDataGrant x). split_and!; [|done..|apply copyDataGrant_id|apply copyDataGrant_invalid].
    unfold GetDataGrant. by destruct (dataGrantsByAccessGrant s !! dg_ID x); cbn; rewrite fetch_stored.
  - exists (copyDataRegistration x). unfold GetDataRegistration. cbn. rewrite fetch_stored.
    split_and!; [done..|apply copyDataRegistration_id|apply copyDataRegistration_invalid].
Qed.

Lemma sai_storage_round_trip_witness :
  let g := mkDataGrant "urn:data-grant:1" "" "" "" "" [acl "Read"] "" [] "" "" in
  exists g', (GetDataGrant "urn:data-grant:1" (StoreDataGrant (Some g) NewInMemorySAIStorage).1).2 = Ok g' /\
    dg_AccessMode g' = [""; acl "Read"] /\ ValidateDataGrant (Some g') <> Ok tt.
Proof.
  set (g := mkDataGrant _ _ _ _ _ _ _ _ _ _).
  destruct (sai_storage_round_trip NewInMemorySAIStorage) as (_ & _ & _ & _ & _ & _ & Hg & _).
  destruct (Hg g) as (g' & Hget & Hmode & _ & _ & Hinv); [discriminate|]. exists g'. split; [exact Hget|]. split; [exact Hmode|].
  apply Hinv. left. discriminate.
Defined.
