(* ===== verification/SaiService.v ===== *)
(** * Application interoperability: the service

    [internal/sai/service.go]: registration of applications, discovery of the authorization agent,
    authorization flows, access grants and data registrations, over any storage.  An operation
    returns a value or an error, or it panics at a nil pointer. *)

From S2P Require Import Prelude GoStrings GoURL GoHash GoTime AuthzTypes SaiTypes SaiStorage.

Local Open Scope Z_scope.

(** ** Effects *)

Inductive flow (A : Type) :=
| Value (a : A)
| Failed (e : sai_error)
| Panicked.
Arguments Value {A} a.
Arguments Failed {A} e.
Arguments Panicked {A}.

Definition M (S A : Type) : Type := S -> S * flow A.

Definition ret {S A} (a : A) : M S A := fun s => (s, Value a).

Definition bind {S A B} (m : M S A) (k : A -> M S B) : M S B := fun s =>
  let '(s', r) := m s in
  match r with
  | Value a => k a s'
  | Failed e => (s', Failed e)
  | Panicked => (s', Panicked)
  end.

Notation "'do!' x ':=' m 'in' k" := (bind m (fun x => k))
  (at level 10, x pattern, m at level 100, k at level 200) : sidecar_scope.

(** A computation without effects, and an operation of the storage, with what becomes of errors. *)
Definition checked {S A} (err : sai_error -> sai_error) (r : result sai_error A) : M S A := fun s =>
  (s, match r with Ok a => Value a | Err e => Failed (err e) end).

Definition stored {S A} (err : sai_error -> sai_error) (m : op S A) : M S A := fun s =>
  let '(s', r) := m s in (s', match r with Ok a => Value a | Err e => Failed (err e) end).

Definition of_flow {S A} (r : flow A) : M S A := fun s => (s, r).

(** What a call reads of the outside: the readings of the clock and of the context's error, by the
    place in the code, the offset of the local zone, and the order of maps. *)
Record sai_env := mkSaiEnv {
  env_now : nat -> Z;
  env_zone : Z -> Z;
  env_ctx : nat -> option ctx_error;
  env_order : map_order
}.

Definition service_error (e : sai_error) : sai_error := Wraps ErrSAIService e.
Definition service_error_at (text : string) (e : sai_error) : sai_error := Wraps ErrSAIService (At text e).

Definition context_live {S} (e : sai_env) (k : nat) : M S unit := fun s =>
  (s, match env_ctx e k with
      | None => Value tt
      | Some c => Failed (service_error (CtxFailed "context cancelled" c))
      end).

(** ** Options *)

Record SAIServiceOptions := mkSAIServiceOptions {
  so_Timeout : Z;
  so_MaxRetries : Z;
  so_BaseURL : string;
  so_AuthorizationAgentURL : string
}.

Definition SAIDefaultTimeout : Z := 30 * second.

(** [NewSAIService]; the storage is the state of the operations. *)
Definition NewSAIService (o : SAIServiceOptions) : SAIServiceOptions :=
  mkSAIServiceOptions (if so_Timeout o <=? 0 then SAIDefaultTimeout else so_Timeout o)
    (if so_MaxRetries o <=? 0 then 3 else so_MaxRetries o) (so_BaseURL o) (so_AuthorizationAgentURL o).

(** ** Identifiers *)

Definition digest_text (e : sai_env) (k : nat) (prefix : string) : string :=
  sha256Hex (String.append prefix (Format_RFC3339Nano (env_zone e (env_now e k)) (env_now e k))).

Definition generateSAIID (e : sai_env) (k : nat) (prefix : string) : string :=
  String.append "urn:sai:" (String.append prefix (String.append ":" (stake 24 (digest_text e k prefix)))).

Definition generateDataInstanceID (e : sai_env) (k : nat) (prefix : string) : string :=
  String.append prefix (stake 16 (digest_text e k prefix)).

(** ** Queries *)

(** [url.QueryEscape]. *)
Fixpoint QueryEscape (s : string) : string :=
  match s with
  | EmptyString => EmptyString
  | String c s' =>
      if is_alnum c || char_in "-_.~" c then String c (QueryEscape s')
      else if Ascii.eqb c " " then String "+" (QueryEscape s')
      else String "%" (String (upper_hex (byte_of c / 16)) (String (upper_hex (byte_of c mod 16)) (QueryEscape s')))
  end.

(** [url.Values], and [Encode]: the keys in order, every value of a key in turn. *)
Definition Values : Type := gmap string (list string).
Definition Values_Set (k v : string) (m : Values) : Values := <[k := [v]]> m.
Definition Values_Add (k v : string) (m : Values) : Values := <[k := default [] (m !! k) ++ [v]]> m.

Definition Values_Encode (m : Values) : string :=
  Join (mjoin (map (fun k => map (fun v => String.append (QueryEscape k) (String.append "=" (QueryEscape v))) (default [] (m !! k)))
                 (sort_by String.ltb (map_to_list m).*1))) "&".

Section service.
Context {S : Type} `{SAIStorage S} (options : SAIServiceOptions).

(** ** Applications *)

Record RegisterApplicationRequest := mkRegisterApplicationRequest {
  rar_Application : Application;
  rar_UserID : string;
  rar_AuthorizationAgentURL : string
}.

Definition validateRegisterApplicationRequest (req : RegisterApplicationRequest) : result sai_error unit :=
  let! _ := within "invalid user ID" (ValidateWebID (rar_UserID req)) in
  let! _ := within "invalid authorization agent URL" (ValidateURL (rar_AuthorizationAgentURL req)) in
  let! _ := within "invalid application" (ValidateApplication (Some (rar_Application req))) in
  Ok tt.

Definition newRegistration (e : sai_env) (k : nat) (userID agentURL applicationID grantID : string) : ApplicationRegistration :=
  mkApplicationRegistration (generateSAIID e k "registration") userID agentURL (env_now e 0) (env_now e 0) applicationID grantID.

(** The registration and the application. *)
Definition RegisterApplication (e : sai_env) (req : RegisterApplicationRequest) : M S (ApplicationRegistration * Application) :=
  do! _ := context_live e 0 in
  do! _ := checked service_error (validateRegisterApplicationRequest req) in
  do! _ := stored (service_error_at "failed to store application") (db_StoreApplication (Some (rar_Application req))) in
  let registration := newRegistration e 1 (rar_UserID req) (rar_AuthorizationAgentURL req) (app_ID (rar_Application req)) "" in
  do! _ := stored (service_error_at "failed to store application registration")
             (db_StoreApplicationRegistration (Some registration)) in
  ret (registration, rar_Application req).

(** ** Discovery *)

Record DiscoverAuthorizationAgentResponse := mkDiscoverResponse {
  dar_AuthorizationAgent : AuthorizationAgent;
  dar_ApplicationRegistrationID : string;
  dar_HasExistingGrant : bool
}.

Definition DiscoverAuthorizationAgent (e : sai_env) (k : nat) (userID : string) : M S DiscoverAuthorizationAgentResponse :=
  do! _ := context_live e k in
  do! _ := checked (service_error_at "invalid user ID") (ValidateWebID userID) in
  do! registrations := stored (service_error_at "failed to list application registrations")
                         (db_ListApplicationRegistrations userID) in
  do! grants := stored (service_error_at "failed to list access grants") (db_ListAccessGrants userID) in
  do! first := of_flow (match registrations with
                        | [] => Value ""
                        | None :: _ => Panicked
                        | Some reg :: _ => Value (ar_ID reg)
                        end) in
  ret (mkDiscoverResponse (mkAuthorizationAgent (so_AuthorizationAgentURL options) []) first
         (negb (bool_decide (grants = [])))).

(** ** Authorization flows *)

Record InitiateAuthorizationFlowRequest := mkInitiateRequest {
  iaf_ApplicationID : string;
  iaf_UserID : string;
  iaf_CallbackURL : string;
  iaf_AccessNeedGroupIDs : list string;
  iaf_ResourceIndication : string
}.

Record InitiateAuthorizationFlowResponse := mkInitiateResponse {
  iar_AuthorizationURL : string;
  iar_FlowID : string;
  iar_State : string
}.

Definition validateInitiateAuthorizationFlowRequest (req : InitiateAuthorizationFlowRequest) : result sai_error unit :=
  let! _ := within "invalid application ID" (ValidateWebID (iaf_ApplicationID req)) in
  let! _ := within "invalid user ID" (ValidateWebID (iaf_UserID req)) in
  let! _ := within "invalid callback URL" (ValidateURL (iaf_CallbackURL req)) in
  let! _ := each "invalid access need group ID" ValidateIRI 0 (iaf_AccessNeedGroupIDs req) in
  Ok tt.

Definition flowParameters (req : InitiateAuthorizationFlowRequest) (flowID state : string) : Values :=
  let params := Values_Set "state" state (Values_Set "flow_id" flowID (Values_Set "callback_url" (iaf_CallbackURL req)
                  (Values_Set "user_id" (iaf_UserID req) (Values_Set "application_id" (iaf_ApplicationID req) ∅)))) in
  let params := foldl (fun m groupID => Values_Add "access_need_group" groupID m) params (iaf_AccessNeedGroupIDs req) in
  if negb (String.eqb (iaf_ResourceIndication req) "")
  then Values_Set "resource_indication" (iaf_ResourceIndication req) params else params.

Definition createAuthorizationURL (agentURL : string) (req : InitiateAuthorizationFlowRequest) (flowID state : string)
  : result sai_error string :=
  let! u := result_map_err (ParseFailed "invalid authorization agent URL") (Parse agentURL) in
  Ok (URL_String (mkURL (Scheme u) (Opaque u) (User u) (Host u) "/authorize" (RawPath u) (OmitHost u) (ForceQuery u)
                    (Values_Encode (flowParameters req flowID state)) (Fragment u))).

Definition InitiateAuthorizationFlow (e : sai_env) (req : InitiateAuthorizationFlowRequest) : M S InitiateAuthorizationFlowResponse :=
  do! _ := context_live e 0 in
  do! _ := checked service_error (validateInitiateAuthorizationFlowRequest req) in
  do! discovery := (fun s => let '(s', r) := DiscoverAuthorizationAgent e 1 (iaf_UserID req) s in
                             (s', match r with
                                  | Failed err => Failed (service_error_at "failed to discover authorization agent" err)
                                  | r => r
                                  end)) in
  let flowID := generateSAIID e 2 "flow" in
  let state := generateSAIID e 3 "state" in
  do! authURL := checked (service_error_at "failed to create authorization URL")
                   (createAuthorizationURL (aa_ID (dar_AuthorizationAgent discovery)) req flowID state) in
  ret (mkInitiateResponse authURL flowID state).

(** ** Access grants *)

Record CreateAccessGrantRequest := mkCreateAccessGrantRequest {
  cag_UserID : string;
  cag_ApplicationID : string;
  cag_AccessNeedGroupIDs : list string;
  cag_DataGrants : list DataGrant;
  cag_AuthorizationAgentURL : string
}.

Definition validateCreateAccessGrantRequest (req : CreateAccessGrantRequest) : result sai_error unit :=
  let! _ := within "invalid user ID" (ValidateWebID (cag_UserID req)) in
  let! _ := within "invalid application ID" (ValidateWebID (cag_ApplicationID req)) in
  let! _ := within "invalid authorization agent URL" (ValidateURL (cag_AuthorizationAgentURL req)) in
  let! _ := each "invalid access need group ID" ValidateIRI 0 (cag_AccessNeedGroupIDs req) in
  let! _ := each "invalid data grant" (fun grant => ValidateDataGrant (Some grant)) 0 (cag_DataGrants req) in
  Ok tt.

Definition with_dg_ID (id : string) (g : DataGrant) : DataGrant :=
  mkDataGrant id (dg_DataOwner g) (dg_GrantedBy g) (dg_RegisteredShapeTree g) (dg_HasDataRegistration g) (dg_AccessMode g)
    (dg_ScopeOfGrant g) (dg_HasDataInstance g) (dg_InheritsFromGrant g) (dg_DelegationOfGrant g).

(** The loop over the data grants: their identifiers.  The clock is read at place [k] for the
    first of them. *)
Fixpoint storeDataGrants (e : sai_env) (k : nat) (grants : list DataGrant) : M S (list string) :=
  match grants with
  | [] => ret []
  | grant :: rest =>
      let grant := if String.eqb (dg_ID grant) "" then with_dg_ID (generateSAIID e k "data-grant") grant else grant in
      do! _ := stored (service_error_at "failed to store data grant") (db_StoreDataGrant (Some grant)) in
      do! ids := storeDataGrants e (k + 1) rest in
      ret (dg_ID grant :: ids)
  end.

(** The first registration of the application; the loop reads through every pointer on its way. *)
Fixpoint findRegistration (applicationID : string) (registrations : list (option ApplicationRegistration))
  : flow (option ApplicationRegistration) :=
  match registrations with
  | [] => Value None
  | None :: _ => Panicked
  | Some reg :: rest =>
      if String.eqb (ar_RegisteredAgent reg) applicationID then Value (Some reg) else findRegistration applicationID rest
  end.

Definition with_grant (grantID : string) (now : Z) (reg : ApplicationRegistration) : ApplicationRegistration :=
  mkApplicationRegistration (ar_ID reg) (ar_RegisteredBy reg) (ar_RegisteredWith reg) (ar_RegisteredAt reg) now
    (ar_RegisteredAgent reg) grantID.

Definition newAccessGrant (e : sai_env) (req : CreateAccessGrantRequest) (dataGrantIDs : list string) : AccessGrant :=
  let user := cag_UserID req in
  mkAccessGrant (generateSAIID e 2 "access-grant") user (cag_AuthorizationAgentURL req) (env_now e 0) (env_now e 0) (env_now e 0)
    user user (mkAccessGrantSubject (generateSAIID e 1 "grant-subject") user (cag_ApplicationID req))
    (cag_AccessNeedGroupIDs req) dataGrantIDs.

(** The grant, and the registration that points to it. *)
Definition CreateAccessGrant (e : sai_env) (req : CreateAccessGrantRequest) : M S (AccessGrant * ApplicationRegistration) :=
  do! _ := context_live e 0 in
  do! _ := checked service_error (validateCreateAccessGrantRequest req) in
  do! ids := storeDataGrants e 3 (cag_DataGrants req) in
  let accessGrant := newAccessGrant e req ids in
  do! _ := stored (service_error_at "failed to store access grant") (db_StoreAccessGrant (Some accessGrant)) in
  do! registrations := stored (service_error_at "failed to list application registrations")
                         (db_ListApplicationRegistrations (cag_UserID req)) in
  do! found := of_flow (findRegistration (cag_ApplicationID req) registrations) in
  let updatedRegistration :=
    match found with
    | Some reg => with_grant (ag_ID accessGrant) (env_now e 0) reg
    | None => newRegistration e (3 + length (cag_DataGrants req)) (cag_UserID req) (cag_AuthorizationAgentURL req)
                (cag_ApplicationID req) (ag_ID accessGrant)
    end in
  do! _ := stored (service_error_at "failed to store application registration")
             (db_StoreApplicationRegistration (Some updatedRegistration)) in
  ret (accessGrant, updatedRegistration).

(** ** Data registrations *)

Record RegisterDataRequest := mkRegisterDataRequest {
  rd_UserID : string;
  rd_ApplicationID : string;
  rd_ShapeTreeID : string;
  rd_IRIPrefix : string;
  rd_InitialDataInstances : list DataInstance
}.

Definition validateRegisterDataRequest (req : RegisterDataRequest) : result sai_error unit :=
  let! _ := within "invalid user ID" (ValidateWebID (rd_UserID req)) in
  let! _ := within "invalid application ID" (ValidateWebID (rd_ApplicationID req)) in
  let! _ := within "invalid shape tree ID" (ValidateIRI (rd_ShapeTreeID req)) in
  let! _ := within "invalid IRI prefix" (ValidateURL (rd_IRIPrefix req)) in
  let! _ := each "invalid data instance" (fun instance => ValidateDataInstance (Some instance)) 0 (rd_InitialDataInstances req) in
  Ok tt.

Definition with_di_ID (id : string) (i : DataInstance) : DataInstance :=
  mkDataInstance id (di_Type i) (di_ShapeTree i) (di_Data i) (di_ContentType i).

(** The loop over the instances: their identifiers. *)
Fixpoint storeInstances (e : sai_env) (k i : nat) (prefix : string) (instances : list DataInstance) : M S (list string) :=
  match instances with
  | [] => ret []
  | instance :: rest =>
      let instance := if String.eqb (di_ID instance) "" then with_di_ID (generateDataInstanceID e k prefix) instance else instance in
      do! _ := checked (fun err => service_error (AtIndex "invalid data instance" i err)) (ValidateDataInstance (Some instance)) in
      do! _ := stored (service_error_at "failed to store data instance") (db_StoreDataInstance (Some instance)) in
      do! ids := storeInstances e (k + 1) (i + 1) prefix rest in
      ret (di_ID instance :: ids)
  end.

(** The instances of the answer: one that is not found is left out, as the zero value. *)
Fixpoint readInstances (ids : list string) : M S (list DataInstance) :=
  match ids with
  | [] => ret []
  | id :: rest =>
      do! instance := (fun s => let '(s', r) := db_GetDataInstance id s in
                                (s', Value (match r with Ok i => i | Err _ => mkDataInstance "" "" "" "" "" end))) in
      do! instances := readInstances rest in
      ret (instance :: instances)
  end.

Definition RegisterData (e : sai_env) (req : RegisterDataRequest) : M S (DataRegistration * list DataInstance) :=
  do! _ := context_live e 0 in
  do! _ := checked service_error (validateRegisterDataRequest req) in
  let id := generateSAIID e 1 "data-registration" in
  do! ids := storeInstances e 2 0 (rd_IRIPrefix req) (rd_InitialDataInstances req) in
  let registration := mkDataRegistration id (rd_ShapeTreeID req) (env_now e 0) (rd_UserID req) (rd_ApplicationID req)
                        (rd_IRIPrefix req) ids in
  do! _ := stored (service_error_at "failed to store data registration") (db_StoreDataRegistration (Some registration)) in
  do! instances := readInstances ids in
  ret (registration, instances).

(** ** Reading *)

Definition ParseAuthorizationAgentFromWebID (webID : string) : result sai_error string :=
  if negb (String.eqb (so_AuthorizationAgentURL options) "") then Ok (so_AuthorizationAgentURL options)
  else Err (Errorf "authorization agent URL not configured").

(** The errors of the storage are passed on as they are. *)
Definition svc_GetApplicationRegistration (id : string) : M S ApplicationRegistration :=
  do! _ := checked (service_error_at "invalid registration ID") (ValidateIRI id) in
  stored (fun e => e) (db_GetApplicationRegistration id).

Definition svc_GetAccessGrant (id : string) : M S AccessGrant :=
  do! _ := checked (service_error_at "invalid grant ID") (ValidateIRI id) in
  stored (fun e => e) (db_GetAccessGrant id).

Definition svc_ListAccessGrantsForUser (userID : string) : M S (list (option AccessGrant)) :=
  do! _ := checked (service_error_at "invalid user ID") (ValidateWebID userID) in
  stored (fun e => e) (db_ListAccessGrants userID).

Definition svc_ListDataRegistrationsForUser (userID : string) : M S (list (option DataRegistration)) :=
  do! _ := checked (service_error_at "invalid user ID") (ValidateWebID userID) in
  stored (fun e => e) (db_ListDataRegistrations userID).

Definition svc_GetApplication (e : sai_env) (id : string) : M S Application :=
  do! _ := context_live e 0 in
  do! _ := checked (service_error_at "invalid application ID") (ValidateIRI id) in
  stored (fun e => e) (db_GetApplication id).

Definition svc_ListApplications (e : sai_env) (owner : string) : M S (list Application) :=
  do! _ := context_live e 0 in
  do! _ := checked (service_error_at "invalid owner ID") (ValidateWebID owner) in
  stored (fun e => e) (db_ListApplications (env_order e) owner).

(** The identifier of the tree is all that is checked. *)
Definition svc_StoreShapeTree (e : sai_env) (tree : option ShapeTree) : M S unit :=
  do! _ := context_live e 0 in
  match tree with
  | None => of_flow (Failed (service_error (Errorf "shape tree cannot be nil")))
  | Some t =>
      do! _ := checked (service_error_at "invalid shape tree ID") (ValidateIRI (st_ID t)) in
      stored (fun e => e) (db_StoreShapeTree tree)
  end.

Definition svc_GetShapeTree (e : sai_env) (id : string) : M S ShapeTree :=
  do! _ := context_live e 0 in
  do! _ := checked (service_error_at "invalid shape tree ID") (ValidateIRI id) in
  stored (fun e => e) (db_GetShapeTree id).

Definition svc_ListShapeTrees (e : sai_env) : M S (list ShapeTree) :=
  do! _ := context_live e 0 in
  stored (fun e => e) (db_ListShapeTrees (env_order e)).

Definition svc_GetDataRegistration (e : sai_env) (id : string) : M S DataRegistration :=
  do! _ := context_live e 0 in
  do! _ := checked (service_error_at "invalid data registration ID") (ValidateIRI id) in
  stored (fun e => e) (db_GetDataRegistration id).
End service.

(** ** Generated identifiers are identifiers *)

Definition id_byte (c : ascii) : bool := is_alnum c || char_in "-:" c.

Lemma Index_absent c s : string_forallb (fun x => negb (Ascii.eqb x c)) s = true -> Index s (String c "") = None.
Proof.
  induction s as [|x s IH]; [done|]. intros H. cbn [string_forallb] in H. apply andb_true_iff in H as [Hx Hs].
  rewrite Index_cons; [by rewrite IH|]. cbn. apply negb_true_iff in Hx. by destruct (ascii_dec c x) as [->|]; [rewrite Ascii.eqb_refl in Hx|].
Qed.

Lemma Cut_absent c s : string_forallb (fun x => negb (Ascii.eqb x c)) s = true -> Cut s (String c "") = (s, "", false).
Proof. intros H. unfold Cut. by rewrite Index_absent. Qed.

Lemma id_byte_cases c : id_byte c = true ->
  in_range 32 126 c = true /\ is_ctl c = false /\ Ascii.eqb c "#" = false /\ Ascii.eqb c "?" = false.
Proof. destruct c as [[] [] [] [] [] [] [] []]; vm_compute; intuition congruence. Qed.

Lemma id_bytes_without c s : (forall x, id_byte x = true -> Ascii.eqb x c = false) ->
  string_forallb id_byte s = true -> string_forallb (fun x => negb (Ascii.eqb x c)) s = true.
Proof. intros Hc. apply string_forallb_weaken. intros x Hx. by rewrite Hc. Qed.

(** The parser reads [urn] as the scheme, if it does not fail. *)
Lemma Parse_urn_scheme t u : string_forallb id_byte t = true -> Parse (String.append "urn:" t) = Ok u -> Scheme u = "urn".
Proof.
  intros Ht. assert (string_forallb id_byte (String.append "urn:" t) = true) as Hall by exact Ht.
  unfold Parse. rewrite (Cut_absent "#") by (apply id_bytes_without; [intros x Hx; by apply id_byte_cases in Hx as (_ & _ & ? & ?)|done]).
  unfold parse. destruct (string_existsb is_ctl _); [discriminate|]. cbn [String.append String.eqb Ascii.eqb Bool.eqb].
  change (getScheme _) with (Ok (E := url_error) ("urn", t)). cbn [result_bind].
  unfold cut_query. rewrite (Cut_absent "?") by (apply id_bytes_without; [intros x Hx; by apply id_byte_cases in Hx as (_ & _ & ? & ?)|done]).
  destruct (HasPrefix t "/") eqn:Hs.
  { unfold HasPrefix in Hs. apply prefix_spec in Hs as [t' ->]. discriminate Ht. }
  cbn. intros H. by injection H as <-.
Qed.

Lemma ValidateIRI_urn t : string_forallb id_byte t = true -> len t <= 2000 -> ValidateIRI (String.append "urn:" t) = Ok tt.
Proof.
  intros Ht Hl. unfold ValidateIRI. apply fail_ok. split; [done|]. apply fail_ok. split.
  { unfold SAIMaxIRILength, len in *. rewrite str_length_app. cbn [String.length]. apply Z.ltb_ge. lia. }
  apply fail_ok. split.
  { rewrite runes_within_bytes by lia. apply negb_false_iff.
    apply (string_forallb_weaken id_byte); [|exact Ht].
    intros c Hc. by apply id_byte_cases in Hc as [? _]. }
  destruct (Parse (String.append "urn:" t)) as [u|] eqn:E; [|done]. by rewrite (Parse_urn_scheme t u Ht E).
Qed.

Lemma stake_forallb p n s : string_forallb p s = true -> string_forallb p (stake n s) = true.
Proof.
  revert s. induction n as [|n IH]; intros [|c s]; cbn; try done. intros [-> Hs]%andb_true_iff. by rewrite IH.
Qed.

Lemma stake_le n s : len (stake n s) <= Z.of_nat n.
Proof. revert s. induction n as [|n IH]; intros [|c s]; cbn; unfold len in *; cbn; try lia. specialize (IH s). lia. Qed.

Lemma generateSAIID_IRI e k prefix : string_forallb id_byte prefix = true -> len prefix <= 100 ->
  ValidateIRI (generateSAIID e k prefix) = Ok tt.
Proof.
  intros Hp Hl. set (h := stake 24 (digest_text e k prefix)).
  assert (string_forallb id_byte h = true) as Hh.
  { apply stake_forallb. eapply string_forallb_weaken; [|apply sha256Hex_is_hex].
    intros c. by destruct c as [[] [] [] [] [] [] [] []]. }
  pose proof (stake_le 24 (digest_text e k prefix)) as Hn. fold h in Hn.
  change (generateSAIID e k prefix) with (String.append "urn:" (String.append "sai:" (String.append prefix (String.append ":" h)))).
  apply ValidateIRI_urn.
  - by rewrite !string_forallb_app, Hp, Hh.
  - unfold len in *. rewrite !str_length_app. cbn [String.length]. lia.
Qed.

Lemma ValidateIRI_nonempty iri : ValidateIRI iri = Ok tt -> iri <> "".
Proof. by intros H ->. Qed.

(** ** Well-formed storages *)

(** Every value is filed under its identifier and is valid; every identifier of an index is that
    of a value. *)
Definition filed {V} (ID : V -> string) (validate : option V -> result sai_error unit) (m : gmap string V) : Prop :=
  map_Forall (fun id v => ID v = id /\ validate (Some v) = Ok tt) m.

Definition indexed {V} (m : gmap string V) (ix : gmap string (list string)) : Prop :=
  forall user ids id, ix !! user = Some ids -> id ∈ ids -> is_Some (m !! id).

Definition tree_identified (tree : option ShapeTree) : result sai_error unit :=
  match tree with Some t => ValidateIRI (st_ID t) | None => Ok tt end.

Record sai_ok (s : InMemorySAIStorage) : Prop := {
  ok_applications : filed app_ID ValidateApplication (applications s);
  ok_registrations : filed ar_ID ValidateApplicationRegistration (applicationRegistrations s);
  ok_grants : filed ag_ID ValidateAccessGrant (accessGrants s);
  ok_data : filed dr_ID ValidateDataRegistration (dataRegistrations s);
  ok_data_grants : filed dg_ID ValidateDataGrant (dataGrants s);
  ok_instances : filed di_ID ValidateDataInstance (dataInstances s);
  ok_trees : filed st_ID tree_identified (shapeTrees s);
  ok_registrations_ix : indexed (applicationRegistrations s) (applicationRegistrationsByUser s);
  ok_grants_ix : indexed (accessGrants s) (accessGrantsByUser s);
  ok_data_ix : indexed (dataRegistrations s) (dataRegistrationsByUser s)
}.

Lemma filed_insert {V} (ID : V -> string) validate (m : gmap string V) v :
  filed ID validate m -> validate (Some v) = Ok tt -> filed ID validate (<[ID v := v]> m).
Proof. intros Hm Hv. by apply map_Forall_insert_2. Qed.

Lemma add_to_index_lookup user id ix k :
  add_to_index user id ix !! k = if decide (k = user) then Some (default [] (ix !! user) ++ [id]) else ix !! k.
Proof.
  unfold add_to_index. case_decide as E.
  - subst k. rewrite lookup_insert_eq. destruct (ix !! user) as [ids|] eqn:Ei; [by rewrite Ei|by rewrite lookup_insert_eq].
  - rewrite lookup_insert_ne by done. destruct (ix !! user); [done|by rewrite lookup_insert_ne].
Qed.

Lemma indexed_insert {V} (ID user : V -> string) (m : gmap string V) ix v :
  indexed m ix -> indexed (<[ID v := v]> m) (add_to_index (user v) (ID v) ix).
Proof.
  intros Hi u ids id. rewrite add_to_index_lookup. intros Hu Hin. destruct (decide (ID v = id)) as [<-|Hne]; [rewrite lookup_insert_eq; eauto|].
  rewrite lookup_insert_ne by done. case_decide as E; [|eauto]. injection Hu as <-.
  apply elem_of_app in Hin as [Hin|Hin%list_elem_of_singleton]; [|congruence].
  destruct (ix !! user v) as [ids|] eqn:Ei; [eauto|by apply not_elem_of_nil in Hin].
Qed.

Lemma sai_ok_new : sai_ok NewInMemorySAIStorage.
Proof.
  split; try apply map_Forall_empty; intros ? ? ? H; unfold NewInMemorySAIStorage in H;
    cbn [applicationRegistrationsByUser accessGrantsByUser dataRegistrationsByUser] in H; by rewrite lookup_empty in H.
Qed.

(** The listing of an index without dangling identifiers has no nil pointers. *)
Lemma list_index_full {V} (copy : V -> V) (m : gmap string V) ix user :
  indexed m ix -> Forall is_Some (list_index copy m ix user).
Proof.
  intros Hi. unfold list_index. destruct (ix !! user) as [ids|] eqn:E; [|done]. apply Forall_fmap, Forall_forall. intros id Hid.
  destruct (Hi user ids id E Hid) as [v Hv]. cbn. rewrite Hv. eauto.
Qed.

(** ** Storing valid values *)

Definition put {V} (store : option V -> op InMemorySAIStorage unit) (s : InMemorySAIStorage) (v : V) : InMemorySAIStorage :=
  (store (Some v) s).1.

(** A valid value has an identifier, is stored, and keeps the storage well formed. *)
Ltac put_valid Hid :=
  apply String.eqb_neq in Hid; unfold put, StoreApplication, StoreApplicationRegistration, StoreAccessGrant, StoreDataRegistration,
    StoreDataGrant, StoreDataInstance, StoreShapeTree; rewrite Hid; split; [done|]; cbn;
  match goal with Hs : sai_ok _ |- _ => destruct Hs end; repeat case_match; split; cbn; try done;
  first [by apply filed_insert|by apply indexed_insert].

Lemma put_application s app : sai_ok s -> ValidateApplication (Some app) = Ok tt ->
  StoreApplication (Some app) s = (put StoreApplication s app, Ok tt) /\ sai_ok (put StoreApplication s app).
Proof.
  intros Hs Hv. assert (app_ID app <> "") as Hid; [|put_valid Hid].
  unfold ValidateApplication, within in Hv. destruct (ValidateWebID (app_ID app)) as [[]|] eqn:E; [|discriminate Hv].
  apply ValidateWebID_ok in E. tauto.
Qed.

Lemma put_registration s reg : sai_ok s -> ValidateApplicationRegistration (Some reg) = Ok tt ->
  StoreApplicationRegistration (Some reg) s = (put StoreApplicationRegistration s reg, Ok tt) /\ sai_ok (put StoreApplicationRegistration s reg).
Proof. intros Hs Hv. pose proof Hv as Hid. apply bind_ok in Hid as [Hid%within_ok%ValidateIRI_nonempty _]. put_valid Hid. Qed.

Lemma put_grant s g : sai_ok s -> ValidateAccessGrant (Some g) = Ok tt ->
  StoreAccessGrant (Some g) s = (put StoreAccessGrant s g, Ok tt) /\ sai_ok (put StoreAccessGrant s g).
Proof. intros Hs Hv. pose proof Hv as Hid. apply bind_ok in Hid as [Hid%within_ok%ValidateIRI_nonempty _]. put_valid Hid. Qed.

Lemma put_data s r : sai_ok s -> ValidateDataRegistration (Some r) = Ok tt ->
  StoreDataRegistration (Some r) s = (put StoreDataRegistration s r, Ok tt) /\ sai_ok (put StoreDataRegistration s r).
Proof. intros Hs Hv. pose proof Hv as Hid. apply bind_ok in Hid as [Hid%within_ok%ValidateIRI_nonempty _]. put_valid Hid. Qed.

Lemma put_data_grant s g : sai_ok s -> ValidateDataGrant (Some g) = Ok tt ->
  StoreDataGrant (Some g) s = (put StoreDataGrant s g, Ok tt) /\ sai_ok (put StoreDataGrant s g).
Proof. intros Hs Hv. pose proof Hv as Hid. apply bind_ok in Hid as [Hid%within_ok%ValidateIRI_nonempty _]. put_valid Hid. Qed.

Lemma put_instance s i : sai_ok s -> ValidateDataInstance (Some i) = Ok tt ->
  StoreDataInstance (Some i) s = (put StoreDataInstance s i, Ok tt) /\ sai_ok (put StoreDataInstance s i).
Proof. intros Hs Hv. pose proof Hv as Hid. apply bind_ok in Hid as [Hid%within_ok%ValidateIRI_nonempty _]. put_valid Hid. Qed.

Lemma put_tree s t : sai_ok s -> ValidateIRI (st_ID t) = Ok tt ->
  StoreShapeTree (Some t) s = (put StoreShapeTree s t, Ok tt) /\ sai_ok (put StoreShapeTree s t).
Proof. intros Hs Hv. pose proof Hv as Hid%ValidateIRI_nonempty. put_valid Hid. Qed.

(** ** Valid requests *)

Lemma storeDataGrants_valid e k grants s : sai_ok s -> Forall (fun g => ValidateDataGrant (Some g) = Ok tt) grants ->
  storeDataGrants e k grants s = (foldl (put StoreDataGrant) s grants, Value (map dg_ID grants)) /\
  sai_ok (foldl (put StoreDataGrant) s grants).
Proof.
  intros Hs Hg. revert s k Hs. induction Hg as [|g grants Hg _ IH]; intros s k Hs; cbn [foldl map storeDataGrants]; [done|].
  destruct (put_data_grant s g Hs Hg) as [Hp Hs']. assert (String.eqb (dg_ID g) "" = false) as ->.
  { apply bind_ok in Hg as [Hid%within_ok%ValidateIRI_nonempty _]. by apply String.eqb_neq. }
  destruct (IH (put StoreDataGrant s g) (k + 1)%nat Hs') as [Hrest Hok]. split; [|done].
  unfold bind, stored. cbn [db_StoreDataGrant memory_storage]. rewrite Hp, Hrest. done.
Qed.

Lemma storeInstances_valid e k i prefix instances s :
  sai_ok s -> Forall (fun x => ValidateDataInstance (Some x) = Ok tt) instances ->
  storeInstances e k i prefix instances s = (foldl (put StoreDataInstance) s instances, Value (map di_ID instances)) /\
  sai_ok (foldl (put StoreDataInstance) s instances).
Proof.
  intros Hs Hg. revert s k i Hs. induction Hg as [|x instances Hx _ IH]; intros s k i Hs; cbn [foldl map storeInstances]; [done|].
  destruct (put_instance s x Hs Hx) as [Hp Hs']. pose proof Hx as Hid. apply bind_ok in Hid as [Hid%within_ok%ValidateIRI_nonempty _].
  apply String.eqb_neq in Hid. rewrite Hid. destruct (IH (put StoreDataInstance s x) (k + 1)%nat (i + 1)%nat Hs') as [Hrest Hok]. split; [|done].
  unfold bind, stored, checked. cbn [db_StoreDataInstance memory_storage]. rewrite Hx, Hp, Hrest. done.
Qed.

(** The instances of the answer are those of the storage. *)
Definition instances_of (s : InMemorySAIStorage) (ids : list string) : list DataInstance :=
  map (fun id => default (mkDataInstance "" "" "" "" "") (dataInstances s !! id)) ids.

Lemma readInstances_reads ids s : readInstances ids s = (s, Value (instances_of s ids)).
Proof.
  induction ids as [|id ids IH]; cbn [readInstances instances_of map]; [done|].
  unfold bind at 1. cbn [db_GetDataInstance memory_storage]. unfold GetDataInstance, fetch. unfold bind. rewrite IH.
  unfold ret. destruct (dataInstances s !! id) as [i|]; cbn; [by rewrite copyDataInstance_id|done].
Qed.

Lemma newRegistration_valid e k user agent app grant : 0 < env_now e 0 ->
  ValidateWebID user = Ok tt -> ValidateURL agent = Ok tt -> ValidateWebID app = Ok tt -> (grant <> "" -> ValidateIRI grant = Ok tt) ->
  ValidateApplicationRegistration (Some (newRegistration e k user agent app grant)) = Ok tt.
Proof.
  intros Hnow Hu Ha Happ Hg. unfold ValidateApplicationRegistration, newRegistration.
  cbn [ar_ID ar_RegisteredBy ar_RegisteredWith ar_RegisteredAt ar_RegisteredAgent ar_HasAccessGrant].
  rewrite generateSAIID_IRI, Hu, Ha, Happ by done. cbn. unfold time_IsZero. replace (env_now e 0 =? 0) with false by lia.
  apply bind_ok. split; [|done]. apply optionally_ok. intros Hne. by apply within_ok, Hg.
Qed.

Lemma with_grant_valid reg grant now : ValidateApplicationRegistration (Some reg) = Ok tt -> ValidateIRI grant = Ok tt ->
  ValidateApplicationRegistration (Some (with_grant grant now reg)) = Ok tt.
Proof.
  intros Hr Hg. unfold ValidateApplicationRegistration, with_grant in *.
  cbn [ar_ID ar_RegisteredBy ar_RegisteredWith ar_RegisteredAt ar_RegisteredAgent ar_HasAccessGrant].
  autorewrite with sai in *. tauto.
Qed.

Lemma newAccessGrant_valid e req : 0 < env_now e 0 -> validateCreateAccessGrantRequest req = Ok tt ->
  ValidateAccessGrant (Some (newAccessGrant e req (map dg_ID (cag_DataGrants req)))) = Ok tt.
Proof.
  intros Hnow Hv. unfold validateCreateAccessGrantRequest in Hv. autorewrite with sai in Hv. destruct Hv as (Hu & Ha & Hurl & Hg & Hd & _).
  unfold ValidateAccessGrant, ValidateAccessGrantSubject, newAccessGrant, time_IsZero. cbn [ag_ID ag_GrantedBy ag_GrantedWith ag_FromAgent ag_GrantedAt
    ag_ProvidedAt ag_HasAccessGrantSubject ag_HasAccessNeedGroup ag_HasDataGrant ags_ID ags_AccessByAgent ags_AccessByApplication].
  replace (env_now e 0 =? 0) with false by lia. rewrite !generateSAIID_IRI by done. autorewrite with sai. split_and!; try done.
  apply Forall_fmap. eapply Forall_impl; [exact Hd|]. intros g H'. cbn in *. apply bind_ok in H' as [H' _]. by apply within_ok in H'.
Qed.

(** ** Every operation settles *)

(** It fails and nothing has changed, or it returns and the storage is well formed. *)
Definition settles {A} (m : M InMemorySAIStorage A) (s : InMemorySAIStorage) : Prop :=
  (exists err, m s = (s, Failed err)) \/ (exists s' a, m s = (s', Value a) /\ sai_ok s').

Lemma settles_context {A} e k (m : M InMemorySAIStorage A) s :
  (env_ctx e k = None -> settles m s) -> settles (do! _ := context_live e k in m) s.
Proof.
  intros Hm. unfold settles, bind, context_live in *. destruct (env_ctx e k); [left; eauto|]. by apply Hm.
Qed.

Lemma settles_checked {A B} err (r : result sai_error A) (k : A -> M InMemorySAIStorage B) s :
  (forall a, r = Ok a -> settles (k a) s) -> settles (do! a := checked err r in k a) s.
Proof. intros Hk. unfold settles, bind, checked in *. destruct r as [a|]; [|left; eauto]. by apply Hk. Qed.

(** A read of the storage. *)
Lemma settles_read {A B} err (m : op InMemorySAIStorage A) (k : A -> M InMemorySAIStorage B) s r :
  m s = (s, r) -> (forall a, r = Ok a -> settles (k a) s) -> settles (do! a := stored err m in k a) s.
Proof. intros Hm Hk. unfold settles, bind, stored in *. rewrite Hm. destruct r as [a|]; [|left; eauto]. by apply Hk. Qed.

Lemma settles_last_read {A} err (m : op InMemorySAIStorage A) s r : sai_ok s -> m s = (s, r) -> settles (stored err m) s.
Proof. intros Hs Hm. unfold settles, stored. rewrite Hm. destruct r as [a|]; [right|left]; eauto. Qed.

Lemma settles_flow {A B} (r : flow A) (k : A -> M InMemorySAIStorage B) s :
  (exists a, r = Value a /\ settles (k a) s) -> settles (do! a := of_flow r in k a) s.
Proof. by intros (a & -> & Hk). Qed.

Lemma settles_ret {A} (a : A) s : sai_ok s -> settles (ret a) s.
Proof. right. exists s, a. done. Qed.

(** A valid registration of an application, on a well-formed storage. *)
Lemma RegisterApplication_valid e req s : sai_ok s -> 0 < env_now e 0 -> env_ctx e 0 = None ->
  validateRegisterApplicationRequest req = Ok tt ->
  let reg := newRegistration e 1 (rar_UserID req) (rar_AuthorizationAgentURL req) (app_ID (rar_Application req)) "" in
  let s' := put StoreApplicationRegistration (put StoreApplication s (rar_Application req)) reg in
  RegisterApplication e req s = (s', Value (reg, rar_Application req)) /\ sai_ok s'.
Proof.
  intros Hs Hnow Hctx Hv. cbv zeta. pose proof Hv as Hparts. unfold validateRegisterApplicationRequest in Hparts.
  autorewrite with sai in Hparts. destruct Hparts as (Hu & Hurl & Happ & _).
  destruct (put_application s _ Hs Happ) as [Hp Hs1].
  assert (ValidateWebID (app_ID (rar_Application req)) = Ok tt) as Hid.
  { unfold ValidateApplication, within in Happ. by destruct (ValidateWebID (app_ID (rar_Application req))) as [[]|]. }
  destruct (put_registration _ _ Hs1 (newRegistration_valid e 1 _ _ _ "" Hnow Hu Hurl Hid ltac:(done))) as [Hr Hs2].
  split; [|done]. unfold RegisterApplication, bind, context_live, checked, stored. rewrite Hctx, Hv.
  cbn [db_StoreApplication db_StoreApplicationRegistration memory_storage]. rewrite Hp. by rewrite Hr.
Qed.

(** The registration a grant ends up in. *)
Definition grantedRegistration (e : sai_env) (req : CreateAccessGrantRequest) (found : option ApplicationRegistration) : ApplicationRegistration :=
  match found with
  | Some reg => with_grant (generateSAIID e 2 "access-grant") (env_now e 0) reg
  | None => newRegistration e (3 + length (cag_DataGrants req)) (cag_UserID req) (cag_AuthorizationAgentURL req)
              (cag_ApplicationID req) (generateSAIID e 2 "access-grant")
  end.

(** The registration the loop finds: one of the listing, for the application. *)
Lemma findRegistration_full app regs : Forall is_Some regs -> exists found, findRegistration app regs = Value found /\
  (forall reg, found = Some reg -> Some reg ∈ regs /\ ar_RegisteredAgent reg = app) /\
  (found = None -> forall reg, Some reg ∈ regs -> ar_RegisteredAgent reg <> app).
Proof.
  induction 1 as [|x regs [reg ->] _ IH]; cbn [findRegistration].
  - exists None. split_and!; [done..|]. intros _ reg []%not_elem_of_nil.
  - destruct (String.eqb_spec (ar_RegisteredAgent reg) app) as [E|Hne].
    + exists (Some reg). split_and!; [done| |done]. intros ? [= <-]. split; [left|done].
    + destruct IH as (found & Hf & Hin & Hnone). exists found. split_and!; [done| |].
      * intros r Hr. destruct (Hin r Hr). split; [by right|done].
      * intros Hn r [[= ->]|Hr]%elem_of_cons; [done|eauto].
Qed.

Lemma list_index_elem {V} (copy : V -> V) (m : gmap string V) ix user v :
  Some v ∈ list_index copy m ix user -> exists id w, m !! id = Some w /\ v = copy w.
Proof.
  unfold list_index. destruct (ix !! user) as [ids|]; [|by intros ?%not_elem_of_nil].
  intros (id & Hid & _)%list_elem_of_fmap. cbn in Hid. destruct (m !! id) as [w|] eqn:E; [|done]. injection Hid as ->. eauto.
Qed.

(** A valid grant, on a well-formed storage. *)
Lemma CreateAccessGrant_valid e req s : sai_ok s -> 0 < env_now e 0 -> env_ctx e 0 = None ->
  validateCreateAccessGrantRequest req = Ok tt ->
  let grant := newAccessGrant e req (map dg_ID (cag_DataGrants req)) in
  let s1 := put StoreAccessGrant (foldl (put StoreDataGrant) s (cag_DataGrants req)) grant in
  exists found, findRegistration (cag_ApplicationID req)
      (list_index copyApplicationRegistration (applicationRegistrations s1) (applicationRegistrationsByUser s1) (cag_UserID req)) = Value found /\
    let s' := put StoreApplicationRegistration s1 (grantedRegistration e req found) in
    CreateAccessGrant e req s = (s', Value (grant, grantedRegistration e req found)) /\ sai_ok s'.
Proof.
  intros Hs Hnow Hctx Hv. cbv zeta. pose proof Hv as Hparts. unfold validateCreateAccessGrantRequest in Hparts.
  autorewrite with sai in Hparts. destruct Hparts as (Hu & Ha & Hurl & _ & Hd & _).
  destruct (storeDataGrants_valid e 3 _ s Hs Hd) as [Hst Hs0]. destruct (put_grant _ _ Hs0 (newAccessGrant_valid e req Hnow Hv)) as [Hg Hs1].
  set (grant := newAccessGrant e req (map dg_ID (cag_DataGrants req))) in *.
  set (s1 := put StoreAccessGrant (foldl (put StoreDataGrant) s (cag_DataGrants req)) grant) in *.
  destruct (findRegistration_full (cag_ApplicationID req) _ (list_index_full copyApplicationRegistration _ _ (cag_UserID req) (ok_registrations_ix _ Hs1)))
    as (found & Hf & Hin & _). exists found. split; [done|].
  assert (ValidateApplicationRegistration (Some (grantedRegistration e req found)) = Ok tt) as Hreg.
  { unfold grantedRegistration. destruct found as [reg|].
    - apply with_grant_valid; [|by apply generateSAIID_IRI]. destruct (Hin reg eq_refl) as [Hr _].
      apply list_index_elem in Hr as (id & w & Hw & ->). by apply (ok_registrations _ Hs1 id w Hw).
    - apply newRegistration_valid; try done. intros _. by apply generateSAIID_IRI. }
  destruct (put_registration _ _ Hs1 Hreg) as [Hr Hs2]. split; [|done].
  unfold CreateAccessGrant, bind, context_live, checked. rewrite Hctx, Hv, Hst. cbv zeta. unfold stored.
  cbn [db_StoreAccessGrant db_ListApplicationRegistrations db_StoreApplicationRegistration memory_storage].
  fold grant. rewrite Hg. unfold ListApplicationRegistrations, of_flow. rewrite Hf.
  change (match found with Some reg => _ | None => _ end) with (grantedRegistration e req found). by rewrite Hr.
Qed.

Lemma RegisterData_valid e req s : sai_ok s -> 0 < env_now e 0 -> env_ctx e 0 = None ->
  validateRegisterDataRequest req = Ok tt ->
  let ids := map di_ID (rd_InitialDataInstances req) in
  let reg := mkDataRegistration (generateSAIID e 1 "data-registration") (rd_ShapeTreeID req) (env_now e 0) (rd_UserID req)
               (rd_ApplicationID req) (rd_IRIPrefix req) ids in
  let s' := put StoreDataRegistration (foldl (put StoreDataInstance) s (rd_InitialDataInstances req)) reg in
  RegisterData e req s = (s', Value (reg, instances_of s' ids)) /\ sai_ok s'.
Proof.
  intros Hs Hnow Hctx Hv. cbv zeta. pose proof Hv as Hparts. unfold validateRegisterDataRequest in Hparts.
  autorewrite with sai in Hparts. destruct Hparts as (Hu & Ha & Ht & Hp & Hi & _).
  destruct (storeInstances_valid e 2 0 (rd_IRIPrefix req) _ s Hs Hi) as [Hst Hs0].
  set (reg := mkDataRegistration _ _ _ _ _ _ _). assert (ValidateDataRegistration (Some reg) = Ok tt) as Hreg.
  { unfold ValidateDataRegistration, reg, time_IsZero. cbn [dr_ID dr_RegisteredShapeTree dr_RegisteredBy dr_RegisteredWith dr_RegisteredAt dr_IRIPrefix dr_Contains].
    replace (env_now e 0 =? 0) with false by lia. rewrite generateSAIID_IRI by done. autorewrite with sai. split_and!; try done.
    apply Forall_fmap. eapply Forall_impl; [exact Hi|]. intros x Hx. cbn in *. apply bind_ok in Hx as [Hx _]. by apply within_ok in Hx. }
  destruct (put_data _ _ Hs0 Hreg) as [Hr Hs1]. split; [|done].
  unfold RegisterData, bind, context_live, checked. rewrite Hctx, Hv, Hst. cbv zeta. unfold stored.
  cbn [db_StoreDataRegistration memory_storage]. fold reg. rewrite Hr. by rewrite readInstances_reads.
Qed.

(** ** Sequences of operations *)

Inductive sai_request :=
| RegisterApplicationOf (req : RegisterApplicationRequest)
| DiscoverFor (userID : string)
| InitiateOf (req : InitiateAuthorizationFlowRequest)
| GrantOf (req : CreateAccessGrantRequest)
| DataOf (req : RegisterDataRequest)
| TreeOf (tree : option ShapeTree)
| ReadApplication (id : string)
| ReadApplications (owner : string)
| ReadRegistration (id : string)
| ReadGrant (id : string)
| ReadGrants (userID : string)
| ReadData (id : string)
| ReadDataOf (userID : string)
| ReadTree (id : string)
| ReadTrees.

Inductive sai_reply :=
| RegisteredApplication (reg : ApplicationRegistration) (app : Application)
| Discovered (d : DiscoverAuthorizationAgentResponse)
| Initiated (f : InitiateAuthorizationFlowResponse)
| Granted (g : AccessGrant) (reg : ApplicationRegistration)
| RegisteredData (reg : DataRegistration) (instances : list DataInstance)
| TreeStored
| GotApplication (app : Application)
| GotApplications (apps : list Application)
| GotRegistration (reg : ApplicationRegistration)
| GotGrant (g : AccessGrant)
| GotGrants (gs : list (option AccessGrant))
| GotData (reg : DataRegistration)
| GotDataOf (regs : list (option DataRegistration))
| GotTree (tree : ShapeTree)
| GotTrees (trees : list ShapeTree).

Definition replying {S A} (f : A -> sai_reply) (m : M S A) : M S sai_reply := do! a := m in ret (f a).

Definition perform {S} `{SAIStorage S} (options : SAIServiceOptions) (e : sai_env) (r : sai_request) : M S sai_reply :=
  match r with
  | RegisterApplicationOf req => replying (fun x => RegisteredApplication x.1 x.2) (RegisterApplication e req)
  | DiscoverFor userID => replying Discovered (DiscoverAuthorizationAgent options e 0 userID)
  | InitiateOf req => replying Initiated (InitiateAuthorizationFlow options e req)
  | GrantOf req => replying (fun x => Granted x.1 x.2) (CreateAccessGrant e req)
  | DataOf req => replying (fun x => RegisteredData x.1 x.2) (RegisterData e req)
  | TreeOf tree => replying (fun _ => TreeStored) (svc_StoreShapeTree e tree)
  | ReadApplication id => replying GotApplication (svc_GetApplication e id)
  | ReadApplications owner => replying GotApplications (svc_ListApplications e owner)
  | ReadRegistration id => replying GotRegistration (svc_GetApplicationRegistration id)
  | ReadGrant id => replying GotGrant (svc_GetAccessGrant id)
  | ReadGrants userID => replying GotGrants (svc_ListAccessGrantsForUser userID)
  | ReadData id => replying GotData (svc_GetDataRegistration e id)
  | ReadDataOf userID => replying GotDataOf (svc_ListDataRegistrationsForUser userID)
  | ReadTree id => replying GotTree (svc_GetShapeTree e id)
  | ReadTrees => replying GotTrees (svc_ListShapeTrees e)
  end.

Definition perform_all (options : SAIServiceOptions) (calls : list (sai_env * sai_request)) (s : InMemorySAIStorage) : InMemorySAIStorage :=
  foldl (fun s call => (perform options call.1 call.2 s).1) s calls.

(** The clock is past the zero time. *)
Definition timely (e : sai_env) : Prop := 0 < env_now e 0.

Lemma settles_replying {A} (f : A -> sai_reply) (m : M InMemorySAIStorage A) s : settles m s -> settles (replying f m) s.
Proof.
  unfold settles, replying, bind, ret. intros [(err & ->)|(s' & a & -> & Hs)]; [left; eauto|right; eauto].
Qed.

Lemma settles_Discover options e k userID s : sai_ok s -> settles (DiscoverAuthorizationAgent options e k userID) s.
Proof.
  intros Hs. apply settles_context. intros _. apply settles_checked. intros _ _. eapply settles_read; [done|]. intros regs [= <-].
  eapply settles_read; [done|]. intros grants _. apply settles_flow.
  pose proof (list_index_full copyApplicationRegistration _ _ userID (ok_registrations_ix _ Hs)) as Hfull.
  destruct Hfull as [|x regs [reg ->] _]; (eexists; split; [reflexivity|by apply settles_ret]).
Qed.

Lemma Discover_reads options e k userID (s : InMemorySAIStorage) : (DiscoverAuthorizationAgent options e k userID s).1 = s.
Proof.
  unfold DiscoverAuthorizationAgent, bind, context_live, checked, stored, of_flow. cbn. destruct (env_ctx e k); [done|].
  destruct (ValidateWebID userID); [|done]. by destruct (list_index _ _ _ _) as [|[] ?].
Qed.

Lemma settles_Initiate options e req s : sai_ok s -> settles (InitiateAuthorizationFlow options e req) s.
Proof.
  intros Hs. apply settles_context. intros _. apply settles_checked. intros _ _.
  destruct (settles_Discover options e 1 (iaf_UserID req) s Hs) as [(err & Hd)|(s' & d & Hd & Hs')];
    unfold settles, bind; rewrite Hd; [left; eauto|]. assert (s' = s) as -> by (rewrite <- (Discover_reads options e 1 (iaf_UserID req) s); by rewrite Hd).
  unfold checked, ret. destruct (createAuthorizationURL _ _ _ _); [right; do 2 eexists; done|left; eauto].
Qed.

Lemma perform_settles options e r s : sai_ok s -> timely e -> settles (perform options e r) s.
Proof.
  intros Hs Ht. destruct r; apply settles_replying.
  - apply settles_context. intros Hc. apply settles_checked. intros [] Hv. right.
    destruct (RegisterApplication_valid e req s Hs Ht Hc Hv) as [Hr Hok]. do 2 eexists. split; [|exact Hok].
    unfold RegisterApplication in Hr. unfold bind in Hr at 1 2. unfold context_live, checked in Hr. rewrite Hc, Hv in Hr. exact Hr.
  - by apply settles_Discover.
  - by apply settles_Initiate.
  - apply settles_context. intros Hc. apply settles_checked. intros [] Hv. right.
    destruct (CreateAccessGrant_valid e req s Hs Ht Hc Hv) as (found & _ & Hr & Hok). do 2 eexists. split; [|exact Hok].
    unfold CreateAccessGrant in Hr. unfold bind in Hr at 1 2. unfold context_live, checked in Hr. rewrite Hc, Hv in Hr. exact Hr.
  - apply settles_context. intros Hc. apply settles_checked. intros [] Hv. right.
    destruct (RegisterData_valid e req s Hs Ht Hc Hv) as [Hr Hok]. do 2 eexists. split; [|exact Hok].
    unfold RegisterData in Hr. unfold bind in Hr at 1 2. unfold context_live, checked in Hr. rewrite Hc, Hv in Hr. exact Hr.
  - apply settles_context. intros Hc. destruct tree as [t|]; [|left; eexists; reflexivity]. apply settles_checked. intros [] Hv. right.
    destruct (put_tree s t Hs Hv) as [Hp Hok]. unfold stored. cbn [db_StoreShapeTree memory_storage]. rewrite Hp. eauto.
  - apply settles_context. intros _. apply settles_checked. intros _ _. by eapply settles_last_read.
  - apply settles_context. intros _. apply settles_checked. intros _ _. by eapply settles_last_read.
  - apply settles_checked. intros _ _. by eapply settles_last_read.
  - apply settles_checked. intros _ _. by eapply settles_last_read.
  - apply settles_checked. intros _ _. by eapply settles_last_read.
  - apply settles_context. intros _. apply settles_checked. intros _ _. by eapply settles_last_read.
  - apply settles_checked. intros _ _. by eapply settles_last_read.
  - apply settles_context. intros _. apply settles_checked. intros _ _. by eapply settles_last_read.
  - apply settles_context. intros _. by eapply settles_last_read.
Qed.

Lemma perform_all_ok options calls s : sai_ok s -> Forall (fun c => timely c.1) calls -> sai_ok (perform_all options calls s).
Proof.
  intros Hs Hc. revert s Hs. induction Hc as [|[e r] calls He _ IH]; intros s Hs; cbn [perform_all foldl]; [done|]. apply IH. cbn.
  destruct (perform_settles options e r s Hs He) as [(err & ->)|(s' & a & -> & Hok)]; done.
Qed.

(** ** Examples *)

Definition sampleSaiEnv : sai_env :=
  mkSaiEnv (fun k => time_Unix 1700000000 + Z.of_nat k) (fun _ => 0) (fun _ => None) (fun V m => (map_to_list m).*1).
Definition sampleServiceOptions : SAIServiceOptions := mkSAIServiceOptions 0 0 "https://pod.example" "https://agent.example".

Definition alice : string := "https://alice.example/card#me".
Definition bob : string := "https://bob.example/card#me".
Definition notesApp : string := "https://notes.example/#id".

Definition sampleApplication : Application := mkApplication notesApp "Notes" "" "" "" [] "" "".
Definition sampleDataGrant (user : string) : DataGrant :=
  mkDataGrant "urn:data-grant:1" user user "urn:tree:notes" "urn:registration:notes" [acl "Read"] (interop "AllFromRegistry") [] "" "".
Definition sampleGrantRequest (user : string) : CreateAccessGrantRequest :=
  mkCreateAccessGrantRequest user notesApp ["urn:need-group:1"] [sampleDataGrant user] "https://agent.example".
Definition sampleRegistration : ApplicationRegistration :=
  mkApplicationRegistration "urn:registration:1" alice "" (time_Unix 1700000000) (time_Unix 1700000000) notesApp "".

Lemma sampleSaiEnv_timely : timely sampleSaiEnv.
Proof. reflexivity. Qed.

Lemma sampleGrantRequest_valid user : user ∈ [alice; bob] -> validateCreateAccessGrantRequest (sampleGrantRequest user) = Ok tt.
Proof. intros [->|[->|[]%not_elem_of_nil]%elem_of_cons]%elem_of_cons; vm_compute; reflexivity. Qed.

(** after any requests, the storage of the service holds valid values only, each under its
    identifier, and its indexes have no dangling identifiers; the next request either fails and
    changes nothing, or it succeeds and keeps this.  It does not panic, though the code reads
    through the pointers of a listing unchecked, and stores are never rolled back. *)
Theorem sai_service_settles (options : SAIServiceOptions) (calls : list (sai_env * sai_request)) (e : sai_env) (r : sai_request) :
  Forall (fun c => timely c.1) calls -> timely e ->
  let s := perform_all options calls NewInMemorySAIStorage in
  sai_ok s /\
  ((exists err, perform options e r s = (s, Failed err)) \/
   (exists s' a, perform options e r s = (s', Value a) /\ sai_ok s')).
Proof.
  intros Hc He s. assert (sai_ok s) as Hs by by apply perform_all_ok, Hc; apply sai_ok_new. split; [done|].
  by apply perform_settles.
Qed.

Lemma sai_service_settles_witness :
  exists s a, perform sampleServiceOptions sampleSaiEnv (GrantOf (sampleGrantRequest alice))
      (perform_all sampleServiceOptions [(sampleSaiEnv, RegisterApplicationOf (mkRegisterApplicationRequest sampleApplication alice ""))] NewInMemorySAIStorage)
    = (s, Value a) /\ sai_ok s.
Proof.
  set (calls := [(sampleSaiEnv, RegisterApplicationOf (mkRegisterApplicationRequest sampleApplication alice ""))]).
  assert (Forall (fun c => timely c.1) calls) as Hc by (apply Forall_singleton; exact sampleSaiEnv_timely).
  destruct (sai_service_settles sampleServiceOptions calls sampleSaiEnv (GrantOf (sampleGrantRequest alice)) Hc sampleSaiEnv_timely)
    as [Hs [(err & Herr)|(s & a & Hr & Hok)]]; [|exists s, a; split; [exact Hr|exact Hok]].
  exfalso. revert Herr. cbn [perform]. unfold replying, bind at 1.
  destruct (CreateAccessGrant_valid sampleSaiEnv (sampleGrantRequest alice) _ Hs sampleSaiEnv_timely eq_refl
    (sampleGrantRequest_valid alice ltac:(left))) as (found & _ & Hr & _). rewrite Hr. intros H. discriminate H.
Defined.

(** ** Repeated grants *)

(** The registrations a user's index lists. *)
Definition listing (s : InMemorySAIStorage) (user : string) : list (option ApplicationRegistration) :=
  list_index copyApplicationRegistration (applicationRegistrations s) (applicationRegistrationsByUser s) user.

(** Grants and data grants leave the registrations alone. *)
Lemma put_data_grants_registrations grants s :
  applicationRegistrations (foldl (put StoreDataGrant) s grants) = applicationRegistrations s /\
  applicationRegistrationsByUser (foldl (put StoreDataGrant) s grants) = applicationRegistrationsByUser s.
Proof.
  revert s. induction grants as [|g grants IH]; intros s; cbn [foldl]; [done|]. destruct (IH (put StoreDataGrant s g)) as [-> ->].
  unfold put, StoreDataGrant. destruct (String.eqb _ _); [done|]. cbn. by destruct (dataGrantsByAccessGrant s !! dg_ID g).
Qed.

Lemma put_grant_registrations g s :
  applicationRegistrations (put StoreAccessGrant s g) = applicationRegistrations s /\
  applicationRegistrationsByUser (put StoreAccessGrant s g) = applicationRegistrationsByUser s.
Proof. unfold put, StoreAccessGrant. by destruct (String.eqb _ _). Qed.

(** The registrations with the identifiers [ids]. *)
Definition registrationsOf (s : InMemorySAIStorage) (ids : list string) : list (option ApplicationRegistration) :=
  map (fun id => applicationRegistrations s !! id) ids.

(** A registration that is not for [app]. *)
Definition for_another (s : InMemorySAIStorage) (app id : string) : Prop :=
  exists reg, applicationRegistrations s !! id = Some reg /\ ar_RegisteredAgent reg <> app.

(** The index of the user holds the identifier of the registration for [app] between [before] and
    [after], which are registrations for other applications, and [n] times more at the end. *)
Record lists (s : InMemorySAIStorage) (user app id : string) (before after : list string) (n : nat) : Prop := {
  li_index : applicationRegistrationsByUser s !! user = Some (before ++ id :: after ++ replicate n id);
  li_reg : exists reg, applicationRegistrations s !! id = Some reg /\ ar_ID reg = id /\ ar_RegisteredBy reg = user /\ ar_RegisteredAgent reg = app;
  li_others : Forall (for_another s app) (before ++ after)
}.

Lemma findRegistration_past s app ids rest : Forall (for_another s app) ids ->
  findRegistration app (registrationsOf s ids ++ rest) = findRegistration app rest.
Proof.
  induction 1 as [|id ids (reg & Hreg & Hne) _ IH]; [done|]. unfold registrationsOf. cbn [map]. rewrite Hreg, <- app_comm_cons. cbn [findRegistration].
  by rewrite (proj2 (String.eqb_neq _ _) Hne).
Qed.

Lemma registrationsOf_agree s s' (P : string -> Prop) ids :
  (forall x, P x -> applicationRegistrations s' !! x = applicationRegistrations s !! x) -> Forall P ids ->
  registrationsOf s' ids = registrationsOf s ids.
Proof. intros Hs. induction 1 as [|x ids Hx _ IH]; [done|]. unfold registrationsOf in *. cbn. by rewrite (Hs x Hx), IH. Qed.

Lemma for_another_ne s user app id before after n : lists s user app id before after n -> Forall (fun x => x <> id) (before ++ after).
Proof.
  intros [_ (reg & Hreg & _ & _ & Hag) Ho]. eapply Forall_impl; [exact Ho|]. intros x (reg' & Hr & Hne) ->. congruence.
Qed.

Lemma listing_registrationsOf s user ids : applicationRegistrationsByUser s !! user = Some ids -> listing s user = registrationsOf s ids.
Proof.
  intros Hi. unfold listing, list_index, registrationsOf. rewrite Hi. apply map_ext. intros x. by destruct (_ !! x).
Qed.

(** A grant lists the registration once more, and changes no other registration. *)
Lemma regrant_step e req s id before after n : sai_ok s -> timely e -> env_ctx e 0 = None -> validateCreateAccessGrantRequest req = Ok tt ->
  lists s (cag_UserID req) (cag_ApplicationID req) id before after n ->
  let s' := (CreateAccessGrant e req s).1 in
  sai_ok s' /\ lists s' (cag_UserID req) (cag_ApplicationID req) id before after (S n) /\
  (forall x, x <> id -> applicationRegistrations s' !! x = applicationRegistrations s !! x).
Proof.
  intros Hs Ht Hc Hv Hl. pose proof (for_another_ne _ _ _ _ _ _ _ Hl) as Hne'. destruct Hl as [Hix (reg & Hreg & Hid & Hby & Hag) Ho]. cbv zeta.
  destruct (CreateAccessGrant_valid e req s Hs Ht Hc Hv) as (found & Hf & Hr & Hok). rewrite Hr. cbn [fst]. split; [done|].
  set (s1 := put StoreAccessGrant _ _) in *. assert (applicationRegistrations s1 = applicationRegistrations s /\
    applicationRegistrationsByUser s1 = applicationRegistrationsByUser s) as [E1 E2].
  { unfold s1. destruct (put_grant_registrations (newAccessGrant e req (map dg_ID (cag_DataGrants req)))
      (foldl (put StoreDataGrant) s (cag_DataGrants req))) as [-> ->]. apply put_data_grants_registrations. }
  clearbody s1. assert (found = Some reg) as ->.
  { rewrite E1, E2 in Hf. fold (listing s (cag_UserID req)) in Hf. rewrite (listing_registrationsOf _ _ _ Hix) in Hf.
    unfold registrationsOf in Hf. rewrite map_app in Hf. fold (registrationsOf s before) in Hf.
    apply Forall_app in Ho as [Hb _]. rewrite findRegistration_past in Hf by done. cbn [map] in Hf. rewrite Hreg in Hf. cbn in Hf.
    rewrite Hag, String.eqb_refl in Hf. by injection Hf as <-. }
  assert (String.eqb id "" = false) as Hne.
  { destruct (ok_registrations _ Hs id reg Hreg) as [_ Hval]. apply bind_ok in Hval as [Hval%within_ok%ValidateIRI_nonempty _].
    rewrite Hid in Hval. by apply String.eqb_neq. }
  unfold grantedRegistration, put, StoreApplicationRegistration. cbn [ar_ID with_grant]. rewrite Hid, Hne. cbn.
  assert (forall x r, x <> id -> <[id := r]> (applicationRegistrations s1) !! x = applicationRegistrations s !! x) as Hx
    by (intros x r Hx; by rewrite lookup_insert_ne, E1).
  split; [split; cbn|intros x; apply Hx].
  - rewrite E2, Hby, add_to_index_lookup, decide_True, Hix by done. unfold default, from_option, Datatypes.id.
    by rewrite <- app_assoc, <- app_comm_cons, <- app_assoc, replicate_cons_app.
  - eexists. rewrite lookup_insert_eq. split_and!; [done|done|done|done].
  - apply Forall_forall. intros x Hin. rewrite Forall_forall in Ho, Hne'. unfold for_another. cbn. rewrite Hx by auto. by apply Ho.
Qed.

Lemma regrants e_reqs s user app id before after n : sai_ok s -> lists s user app id before after n ->
  Forall (fun c => timely c.1 /\ env_ctx c.1 0 = None /\ validateCreateAccessGrantRequest c.2 = Ok tt /\
                   cag_UserID c.2 = user /\ cag_ApplicationID c.2 = app) e_reqs ->
  let s' := foldl (fun s c => (CreateAccessGrant c.1 c.2 s).1) s e_reqs in
  lists s' user app id before after (n + length e_reqs) /\
  (forall x, x <> id -> applicationRegistrations s' !! x = applicationRegistrations s !! x).
Proof.
  intros Hs Hl Hall. revert s n Hs Hl. induction Hall as [|[e req] rest (Ht & Hc & Hv & Hu & Ha) _ IH]; intros s n Hs Hl; cbn [foldl length].
  - by rewrite Nat.add_0_r.
  - cbn [fst snd] in *. subst user app. destruct (regrant_step e req s id before after n Hs Ht Hc Hv Hl) as (Hs1 & Hl1 & Hd1).
    destruct (IH _ (S n) Hs1 Hl1) as (Hl2 & Hd2). rewrite Nat.add_succ_r. split; [done|]. intros x Hx. by rewrite Hd2, Hd1.
Qed.

(** Storing data grants that have identifiers succeeds, and leaves the registrations alone. *)
Lemma storeDataGrants_runs e k grants s : Forall (fun g => ValidateDataGrant (Some g) = Ok tt) grants ->
  storeDataGrants e k grants s = (foldl (put StoreDataGrant) s grants, Value (map dg_ID grants)).
Proof.
  intros Hg. revert s k. induction Hg as [|g grants Hg _ IH]; intros s k; cbn [foldl map storeDataGrants]; [done|].
  apply bind_ok in Hg as [Hid%within_ok%ValidateIRI_nonempty _]. apply String.eqb_neq in Hid. rewrite Hid.
  unfold bind, stored. cbn [db_StoreDataGrant memory_storage]. unfold put at 2, StoreDataGrant at 1 3. rewrite Hid. cbn [fst]. by rewrite IH.
Qed.

(** A grant reads through the nil pointers before the registration it looks for. *)
Lemma CreateAccessGrant_panics e req s : env_ctx e 0 = None -> validateCreateAccessGrantRequest req = Ok tt ->
  findRegistration (cag_ApplicationID req) (listing s (cag_UserID req)) = Panicked ->
  exists s', CreateAccessGrant e req s = (s', Panicked).
Proof.
  intros Hctx Hv Hf. pose proof Hv as Hparts. unfold validateCreateAccessGrantRequest in Hparts.
  autorewrite with sai in Hparts. destruct Hparts as (_ & _ & _ & _ & Hd & _).
  set (grant := newAccessGrant e req (map dg_ID (cag_DataGrants req))).
  set (s0 := foldl (put StoreDataGrant) s (cag_DataGrants req)).
  exists (put StoreAccessGrant s0 grant). unfold CreateAccessGrant, bind, context_live, checked.
  rewrite Hctx, Hv, storeDataGrants_runs by done. cbv zeta. fold grant s0. unfold stored.
  cbn [db_StoreAccessGrant db_ListApplicationRegistrations memory_storage].
  assert (StoreAccessGrant (Some grant) s0 = (put StoreAccessGrant s0 grant, Ok tt)) as -> by done.
  unfold ListApplicationRegistrations, of_flow. fold (listing (put StoreAccessGrant s0 grant) (cag_UserID req)).
  assert (listing (put StoreAccessGrant s0 grant) (cag_UserID req) = listing s (cag_UserID req)) as ->.
  { unfold listing. destruct (put_grant_registrations grant s0) as [-> ->]. unfold s0. by destruct (put_data_grants_registrations (cag_DataGrants req) s) as [-> ->]. }
  by rewrite Hf.
Qed.

Lemma remove_first_past id ids rest : Forall (fun x => x <> id) ids -> remove_first id (ids ++ id :: rest) = ids ++ rest.
Proof.
  induction 1 as [|x ids Hx _ IH]; cbn; [by rewrite String.eqb_refl|]. by rewrite (proj2 (String.eqb_neq _ _) Hx), IH.
Qed.

(** The listings once the registration is listed [n] times more, and once it is deleted. *)
Section listings.
Context (s s1 : InMemorySAIStorage) (user app id : string) (before after : list string) (n : nat).
Hypotheses (Hl : lists s user app id before after 0) (Hl1 : lists s1 user app id before after n)
  (Hx : forall x, x <> id -> applicationRegistrations s1 !! x = applicationRegistrations s !! x).

Lemma relisted_dom : dom (applicationRegistrations s1) = dom (applicationRegistrations s).
Proof.
  destruct Hl as [_ (r & Hr & _) _], Hl1 as [_ (r1 & Hr1 & _) _]. apply set_eq. intros x. rewrite !elem_of_dom.
  destruct (decide (x = id)) as [->|Hne]; [by rewrite Hr, Hr1|by rewrite Hx].
Qed.

Lemma relisted_others : registrationsOf s1 before = registrationsOf s before /\ registrationsOf s1 after = registrationsOf s after.
Proof.
  pose proof (for_another_ne _ _ _ _ _ _ _ Hl) as Hne. apply Forall_app in Hne as [Hb Ha]. split; by apply (registrationsOf_agree s s1 (fun x => x <> id)).
Qed.

Lemma relisted_listing : exists reg,
  listing s1 user = registrationsOf s before ++ Some reg :: registrationsOf s after ++ replicate n (Some reg).
Proof.
  destruct Hl1 as [Hix (reg & Hreg & _) _]. exists reg. rewrite (listing_registrationsOf _ _ _ Hix). destruct relisted_others as [<- <-].
  unfold registrationsOf. rewrite map_app. cbn [map]. rewrite map_app. change (map ?f (replicate ?k ?x)) with (f <$> replicate k x).
  by rewrite fmap_replicate, Hreg.
Qed.

Lemma deleted_listing :
  listing (DeleteApplicationRegistration id s1).1 user = registrationsOf s before ++ registrationsOf s after ++ replicate n None.
Proof.
  destruct Hl1 as [Hix (reg & Hreg & _ & Hby & _) _]. pose proof (for_another_ne _ _ _ _ _ _ _ Hl) as Hne.
  unfold DeleteApplicationRegistration. rewrite Hreg. cbn [fst]. set (s2 := upd_applicationRegistrations _ _).
  assert (applicationRegistrationsByUser s2 !! user = Some (before ++ after ++ replicate n id)) as Hi2.
  { unfold s2. cbn. unfold remove_from_index. apply Forall_app in Hne as [Hb _]. by rewrite Hby, Hix, lookup_insert_eq, remove_first_past. }
  rewrite (listing_registrationsOf _ _ _ Hi2). unfold registrationsOf at 1. rewrite !map_app.
  apply Forall_app in Hne as [Hb Ha]. assert (forall x, x <> id -> applicationRegistrations s2 !! x = applicationRegistrations s !! x) as Hx2.
  { intros x Hn. unfold s2. cbn. by rewrite lookup_delete_ne, Hx. }
  f_equal; [by apply (registrationsOf_agree s s2 (fun x => x <> id))|]. f_equal; [by apply (registrationsOf_agree s s2 (fun x => x <> id))|].
  change (map ?f (replicate ?k ?x)) with (f <$> replicate k x). rewrite fmap_replicate. unfold s2. cbn. by rewrite lookup_delete_eq.
Qed.
End listings.

(** C39: every grant to an application that is registered lists its registration once more.  Let
    the user's index hold the registration for the application once, among registrations for other
    applications.  After [n] valid grants to the application, with live contexts and a clock past
    the zero time, the listing has the registration [n] times more at its end, though there are no
    more registrations than before.  When it is deleted, one entry goes and [n] nil pointers stay.
    So if there was a grant at all, and the context is live, the next valid grant of the user to
    any application for which none of the others is registered, this one included, panics, and
    when there are no others, so does the next discovery for the user. *)
Theorem regrants_leave_nil (options : SAIServiceOptions) (s : InMemorySAIStorage) (user app id : string) (before after : list string)
    (grants : list (sai_env * CreateAccessGrantRequest)) (e : sai_env) :
  sai_ok s -> lists s user app id before after 0 ->
  Forall (fun c => timely c.1 /\ env_ctx c.1 0 = None /\ validateCreateAccessGrantRequest c.2 = Ok tt /\
                   cag_UserID c.2 = user /\ cag_ApplicationID c.2 = app) grants ->
  let s1 := foldl (fun s c => (CreateAccessGrant c.1 c.2 s).1) s grants in
  let s2 := (DeleteApplicationRegistration id s1).1 in
  dom (applicationRegistrations s1) = dom (applicationRegistrations s) /\
  (exists reg, listing s1 user =
     registrationsOf s before ++ Some reg :: registrationsOf s after ++ replicate (length grants) (Some reg)) /\
  listing s2 user = registrationsOf s before ++ registrationsOf s after ++ replicate (length grants) None /\
  (grants <> [] -> env_ctx e 0 = None ->
   (forall req, validateCreateAccessGrantRequest req = Ok tt -> cag_UserID req = user ->
      Forall (for_another s (cag_ApplicationID req)) (before ++ after) -> exists s3, CreateAccessGrant e req s2 = (s3, Panicked)) /\
   (before = [] -> after = [] -> ValidateWebID user = Ok tt -> DiscoverAuthorizationAgent options e 0 user s2 = (s2, Panicked))).
Proof.
  intros Hs Hl Hall. cbv zeta. destruct (regrants grants s user app id before after 0 Hs Hl Hall) as [Hl1 Hx].
  set (s1 := foldl _ s grants) in *. pose proof (deleted_listing s s1 user app id before after _ Hl Hl1 Hx) as Hnil.
  split; [by eapply relisted_dom|]. split; [by eapply relisted_listing|]. split; [done|]. intros Hg Hc.
  destruct grants as [|g grants]; [done|]. split.
  - intros req Hv <- Ho. apply CreateAccessGrant_panics; [done..|]. rewrite Hnil. apply Forall_app in Ho as [Hb Ha].
    by rewrite !findRegistration_past.
  - intros -> -> Hu. unfold DiscoverAuthorizationAgent, bind, context_live, checked, stored. rewrite Hc, Hu.
    cbn [db_ListApplicationRegistrations db_ListAccessGrants memory_storage]. unfold ListApplicationRegistrations, ListAccessGrants.
    change (list_index copyApplicationRegistration (applicationRegistrations ?x) (applicationRegistrationsByUser ?x) user) with (listing x user).
    by rewrite Hnil.
Qed.

(** Alice has two registrations, grants access to the second application, and deletes its
    registration: the next grant to it panics. *)
Definition calendarRegistration : ApplicationRegistration :=
  mkApplicationRegistration "urn:registration:0" alice "" (time_Unix 1700000000) (time_Unix 1700000000) "https://calendar.example/#app" "".

Lemma regrants_leave_nil_witness :
  let s := put StoreApplicationRegistration (put StoreApplicationRegistration NewInMemorySAIStorage calendarRegistration) sampleRegistration in
  let s1 := foldl (fun s c => (CreateAccessGrant c.1 c.2 s).1) s [(sampleSaiEnv, sampleGrantRequest alice)] in
  let s2 := (DeleteApplicationRegistration "urn:registration:1" s1).1 in
  (exists reg, listing s1 alice = [Some calendarRegistration; Some reg; Some reg]) /\
  listing s2 alice = [Some calendarRegistration; None] /\
  exists s3, CreateAccessGrant sampleSaiEnv (sampleGrantRequest alice) s2 = (s3, Panicked).
Proof.
  cbv zeta. set (s := put StoreApplicationRegistration _ sampleRegistration).
  assert (sai_ok s) as Hs by (apply put_registration; [apply put_registration; [exact sai_ok_new|reflexivity]|reflexivity]).
  assert (Forall (for_another s notesApp) ["urn:registration:0"]) as Ho
    by (apply Forall_singleton; exists calendarRegistration; split; [reflexivity|discriminate]).
  assert (lists s alice notesApp "urn:registration:1" ["urn:registration:0"] [] 0) as Hl.
  { split; [reflexivity| |exact Ho]. exists sampleRegistration. split_and!; reflexivity. }
  destruct (regrants_leave_nil sampleServiceOptions s alice notesApp "urn:registration:1" ["urn:registration:0"] []
    [(sampleSaiEnv, sampleGrantRequest alice)] sampleSaiEnv Hs Hl) as (_ & Hlist & Hnil & Hpanic).
  { apply Forall_singleton. split_and!; [exact sampleSaiEnv_timely|reflexivity|apply sampleGrantRequest_valid; left|reflexivity|reflexivity]. }
  split; [exact Hlist|]. split; [exact Hnil|].
  destruct Hpanic as [Hpanic _]; [discriminate|reflexivity|]. apply Hpanic; [apply sampleGrantRequest_valid; left|reflexivity|exact Ho].
Defined.

(** ** Identifiers from the clock *)

Lemma put_data_grants_grants grants s :
  accessGrants (foldl (put StoreDataGrant) s grants) = accessGrants s /\
  accessGrantsByUser (foldl (put StoreDataGrant) s grants) = accessGrantsByUser s.
Proof.
  revert s. induction grants as [|g grants IH]; intros s; cbn [foldl]; [done|]. destruct (IH (put StoreDataGrant s g)) as [-> ->].
  unfold put, StoreDataGrant. destruct (String.eqb _ _); [done|]. cbn. by destruct (dataGrantsByAccessGrant s !! dg_ID g).
Qed.

Lemma put_registration_grants reg s :
  accessGrants (put StoreApplicationRegistration s reg) = accessGrants s /\
  accessGrantsByUser (put StoreApplicationRegistration s reg) = accessGrantsByUser s.
Proof. unfold put, StoreApplicationRegistration. by destruct (String.eqb _ _). Qed.

Lemma put_grant_grants g s : ag_ID g <> "" ->
  accessGrants (put StoreAccessGrant s g) = <[ag_ID g := g]> (accessGrants s) /\
  accessGrantsByUser (put StoreAccessGrant s g) = add_to_index (ag_FromAgent g) (ag_ID g) (accessGrantsByUser s).
Proof. intros Hg%String.eqb_neq. unfold put, StoreAccessGrant. by rewrite Hg. Qed.

(** The grants after a valid request. *)
Lemma CreateAccessGrant_grants e req s : sai_ok s -> timely e -> env_ctx e 0 = None -> validateCreateAccessGrantRequest req = Ok tt ->
  let grant := newAccessGrant e req (map dg_ID (cag_DataGrants req)) in
  let s' := (CreateAccessGrant e req s).1 in
  sai_ok s' /\ accessGrants s' = <[ag_ID grant := grant]> (accessGrants s) /\
  accessGrantsByUser s' = add_to_index (cag_UserID req) (ag_ID grant) (accessGrantsByUser s).
Proof.
  intros Hs Ht Hc Hv. cbv zeta. destruct (CreateAccessGrant_valid e req s Hs Ht Hc Hv) as (found & _ & Hr & Hok). rewrite Hr. cbn [fst].
  split; [done|]. set (grant := newAccessGrant _ _ _). destruct (put_registration_grants (grantedRegistration e req found)
    (put StoreAccessGrant (foldl (put StoreDataGrant) s (cag_DataGrants req)) grant)) as [-> ->].
  destruct (put_grant_grants grant (foldl (put StoreDataGrant) s (cag_DataGrants req))) as [-> ->]; [done|].
  by destruct (put_data_grants_grants (cag_DataGrants req) s) as [-> ->].
Qed.

(** What an index lists stays listed. *)
Lemma add_to_index_adds user id ix : id ∈ default [] (add_to_index user id ix !! user).
Proof. rewrite add_to_index_lookup, decide_True by done. cbn. apply elem_of_app. right. by apply list_elem_of_singleton. Qed.

Lemma add_to_index_keeps user id ix k x : x ∈ default [] (ix !! k) -> x ∈ default [] (add_to_index user id ix !! k).
Proof. intros Hx. rewrite add_to_index_lookup. case_decide; [subst k; cbn; apply elem_of_app; by left|done]. Qed.

Lemma list_index_listed {V} (copy : V -> V) (m : gmap string V) ix user id v :
  id ∈ default [] (ix !! user) -> m !! id = Some v -> Some (copy v) ∈ list_index copy m ix user.
Proof.
  intros Hid Hv. unfold list_index. destruct (ix !! user) as [ids|]; cbn in Hid; [|by apply not_elem_of_nil in Hid].
  apply list_elem_of_fmap. exists id. by rewrite Hv.
Qed.

(** an identifier is a function of the clock, so two grants at one reading of it have the
    same.  The second replaces the first, whoever the users are: the first user's listing shows
    the grant of the second. *)
Theorem same_instant_grants_mix (s : InMemorySAIStorage) (e1 e2 : sai_env) (req1 req2 : CreateAccessGrantRequest) :
  sai_ok s -> timely e1 -> timely e2 -> env_ctx e1 0 = None -> env_ctx e2 0 = None ->
  validateCreateAccessGrantRequest req1 = Ok tt -> validateCreateAccessGrantRequest req2 = Ok tt ->
  env_now e1 2 = env_now e2 2 -> env_zone e1 (env_now e1 2) = env_zone e2 (env_now e2 2) ->
  let s2 := (CreateAccessGrant e2 req2 (CreateAccessGrant e1 req1 s).1).1 in
  exists grant, ag_GrantedBy grant = cag_UserID req2 /\
    accessGrants s2 !! generateSAIID e1 2 "access-grant" = Some grant /\
    exists listed, (ListAccessGrants (cag_UserID req1) s2).2 = Ok listed /\ Some (copyAccessGrant grant) ∈ listed.
Proof.
  intros Hs Ht1 Ht2 Hc1 Hc2 Hv1 Hv2 Hnow Hzone. cbv zeta.
  destruct (CreateAccessGrant_grants e1 req1 s Hs Ht1 Hc1 Hv1) as (Hs1 & Hg1 & Hi1).
  destruct (CreateAccessGrant_grants e2 req2 _ Hs1 Ht2 Hc2 Hv2) as (_ & Hg2 & Hi2).
  set (s2 := (CreateAccessGrant e2 req2 _).1) in *. set (grant := newAccessGrant e2 req2 _) in *.
  set (id := generateSAIID e1 2 "access-grant"). assert (ag_ID grant = id) as Hid.
  { unfold id, grant, newAccessGrant, generateSAIID, digest_text. cbn [ag_ID]. by rewrite Hzone, Hnow. }
  assert (accessGrants s2 !! id = Some grant) as Hl by (rewrite Hg2, Hid; apply lookup_insert_eq).
  exists grant. split_and!; [done|done|]. eexists. split; [done|].
  apply (list_index_listed _ _ _ _ id); [|done]. rewrite Hi2. apply add_to_index_keeps. rewrite Hi1. apply add_to_index_adds.
Qed.

Lemma same_instant_grants_mix_witness :
  let s2 := (CreateAccessGrant sampleSaiEnv (sampleGrantRequest bob)
               (CreateAccessGrant sampleSaiEnv (sampleGrantRequest alice) NewInMemorySAIStorage).1).1 in
  exists grant, ag_GrantedBy grant = bob /\
    exists listed, (ListAccessGrants alice s2).2 = Ok listed /\ Some (copyAccessGrant grant) ∈ listed.
Proof.
  destruct (same_instant_grants_mix NewInMemorySAIStorage sampleSaiEnv sampleSaiEnv (sampleGrantRequest alice) (sampleGrantRequest bob)
    sai_ok_new sampleSaiEnv_timely sampleSaiEnv_timely eq_refl eq_refl (sampleGrantRequest_valid alice ltac:(left))
    (sampleGrantRequest_valid bob ltac:(right; left)) eq_refl eq_refl) as (grant & Hby & _ & Hlist).
  exists grant. split; [exact Hby|exact Hlist].
Defined.
