(* ===== verification/SaiHandler.v ===== *)
(** * Application interoperability: the HTTP endpoints

    [internal/sai/handler.go] and [internal/sai/middleware.go], the routes of Go's multiplexer that
    lead to them, and their construction in [internal/gateway/server.go].  The handlers receive
    what the decoder makes of the body for each type of request; an answer has the value that is
    encoded. *)

From S2P Require Import Prelude GoStrings GoURL GoPath AuthzTypes RequestBuilder ReplayCache DPoP Identity Issuer Authn.
From S2P Require Import SaiTypes SaiStorage SaiService.

Local Open Scope Z_scope.

(** ** Rate limiting *)

(** One limiter for all clients. *)
Record RateLimiter := mkRateLimiter {
  rl_maxRequests : Z;
  rl_window : Z;
  rl_lastRequest : Z;
  rl_requests : Z
}.

Definition NewRateLimiter (now maxRequests window : Z) : RateLimiter := mkRateLimiter maxRequests window now 0.

Definition Allow (now : Z) (rl : RateLimiter) : RateLimiter * bool :=
  let '(requests, lastRequest) :=
    if rl_window rl <? time_Sub now (rl_lastRequest rl) then (0, now) else (rl_requests rl, rl_lastRequest rl) in
  let requests := wrap64 (requests + 1) in
  (mkRateLimiter (rl_maxRequests rl) (rl_window rl) lastRequest requests, requests <=? rl_maxRequests rl).

Definition Reset (now : Z) (rl : RateLimiter) : RateLimiter := mkRateLimiter (rl_maxRequests rl) (rl_window rl) now 0.

Definition DefaultSAIRateLimitRequestsPerWindow : Z := 100.
Definition DefaultSAIRateLimitWindow : Z := minute.
Definition DefaultMaxSAIRequestBodySize : Z := 2 ^ 20.

(** ** Answers *)

Definition securityHeaders : gmap string string :=
  {[ "X-Content-Type-Options" := "nosniff"; "X-Frame-Options" := "DENY"; "X-XSS-Protection" := "1; mode=block";
     "Strict-Transport-Security" := "max-age=63072000; includeSubDomains; preload";
     "Content-Security-Policy" := "default-src 'self'; frame-ancestors 'none'";
     "Referrer-Policy" := "strict-origin-when-cross-origin"; "Permissions-Policy" := "geolocation=(), microphone=(), camera=()" ]}.

Definition ContentTypeSAIApplicationJSON : string := "application/sai+json".

(** A structured error, a line of text with its cause, a value, or the end of the connection by a
    panic. *)
Inductive sai_content :=
| SAIError (code message : string)
| TextLine (text : string) (cause : option sai_error)
| Encoded (reply : sai_reply)
| Aborted.

Record sai_response := mkSaiResponse { rsp_Status : Z; rsp_Header : gmap string string; rsp_Content : sai_content }.

Definition writeSAIError (status : Z) (code message : string) : sai_response :=
  mkSaiResponse status (securityHeaders ∪ {[ "Content-Type" := ContentTypeSAIApplicationJSON ]}) (SAIError code message).

(** [http.Error] after the security headers. *)
Definition http_Error (status : Z) (text : string) (cause : option sai_error) : sai_response :=
  mkSaiResponse status (<["Content-Type" := "text/plain; charset=utf-8"]> (<["X-Content-Type-Options" := "nosniff"]> securityHeaders))
    (TextLine text cause).

Definition writeJSON (status : Z) (reply : sai_reply) : sai_response :=
  mkSaiResponse status (<["Content-Type" := ContentTypeSAIApplicationJSON]> securityHeaders) (Encoded reply).

Definition aborted : sai_response := mkSaiResponse 0 ∅ Aborted.

(** ** Checks of the middleware *)

Definition validateContentType (r : http_Request) : result sai_error unit :=
  let contentType := Header_Get r "Content-Type" in
  fail! Errorf "Content-Type header is required" when String.eqb contentType "" in
  fail! Errorf (String.append "unsupported Content-Type: " contentType)
    when negb (HasPrefix contentType "application/json") && negb (HasPrefix contentType "application/ld+json") in
  Ok tt.

Definition checkBodySizeNotExceeded (n maxBytes : Z) : result sai_error unit :=
  fail! Errorf (String.append "request body too large: "
                  (String.append (FormatInt n) (String.append " bytes (max: " (String.append (FormatInt maxBytes) ")"))))
    when maxBytes <? n in
  Ok tt.

Definition sanitizeID (id : string) : result sai_error unit :=
  fail! Errorf "ID cannot be empty" when String.eqb id "" in
  fail! Errorf "ID contains invalid characters" when Contains id ".." || Contains id "\" in
  fail! Errorf "ID too long" when 2048 <? len id in
  within "invalid ID format" (ValidateIRI id).

Definition sanitizeWebID (webID : string) : result sai_error unit :=
  fail! Errorf "WebID cannot be empty" when String.eqb webID "" in
  fail! Errorf "WebID too long" when 2048 <? len webID in
  within "invalid WebID format" (ValidateWebID webID).

(** ** Authentication *)

Inductive auth_error :=
| MissingAuthorization
| InvalidAuthorization
| NotConfigured
| TokenRejected (e : identity_error)
| NoWebID.

(** [DefaultAuthenticator.Authenticate]: a header of exactly the scheme [Bearer]. *)
Definition Authenticate {W} (Do : W -> string -> W * option http_response) (verifier : option IdentityVerifier)
    (k : verify_clock) (r : http_Request) (d : W * IssuerDiscoveryClient) : (W * IssuerDiscoveryClient) * result auth_error string :=
  let authHeader := Header_Get r "Authorization" in
  if String.eqb authHeader "" then (d, Err MissingAuthorization)
  else
    let '(scheme, token, found) := Cut authHeader " " in
    if negb found || negb (String.eqb scheme "Bearer") then (d, Err InvalidAuthorization)
    else match verifier with
    | None => (d, Err NotConfigured)
    | Some v =>
        let '(d', res) := Verify Do k v token d in
        (d', match res with
             | Err e => Err (TokenRejected e)
             | Ok identity => if String.eqb (id_WebID identity) "" then Err NoWebID else Ok (id_WebID identity)
             end)
    end.

(** [DefaultAuthenticator.Authorize] denies; no handler calls it. *)
Definition Authorize (userID resourceID action : string) : result string unit :=
  Err "SAI authorization access denied (fail-secure mode)".

(** ** Handlers *)

(** What the JSON decoder makes of the body, for each type it is decoded into. *)
Record decoded_body := mkDecoded {
  as_RegisterApplication : option RegisterApplicationRequest;
  as_Discover : option string;
  as_Initiate : option InitiateAuthorizationFlowRequest;
  as_CreateAccessGrant : option CreateAccessGrantRequest;
  as_RegisterData : option RegisterDataRequest;
  as_ShapeTree : option ShapeTree
}.

(** A request at an endpoint: the values of its path, its body, and the readings of the outside. *)
Record sai_call := mkSaiCall {
  sc_Request : http_Request;
  sc_id : string;
  sc_userId : string;
  sc_Body : decoded_body;
  sc_env : sai_env;
  sc_now : Z;
  sc_clock : verify_clock
}.

Section handlers.
Context {S : Type} `{SAIStorage S} (options : SAIServiceOptions) (url_text : url_error -> string).

(** The answer of the service, encoded, or an internal error. *)
Definition answer {A} (status : Z) (failure : string) (f : A -> sai_reply) (m : M S A) : S -> S * sai_response := fun s =>
  let '(s', r) := m s in
  (s', match r with
       | Value a => writeJSON status (f a)
       | Failed err => http_Error 500 failure (Some err)
       | Panicked => aborted
       end).

Definition methodNotAllowed : sai_response := http_Error 405 "Method not allowed" None.

(** A handler of [POST]: the method, the body, the service. *)
Definition posting {B} (c : sai_call) (body : option B) (k : B -> S -> S * sai_response) : S -> S * sai_response := fun s =>
  if negb (String.eqb (r_Method (sc_Request c)) "POST") then (s, methodNotAllowed)
  else match body with
       | None => (s, http_Error 400 "Invalid request body: " None)
       | Some b => k b s
       end.

(** A handler of [GET] with a value of the path. *)
Definition getting (c : sai_call) (value missing : string) (k : S -> S * sai_response) : S -> S * sai_response := fun s =>
  if negb (String.eqb (r_Method (sc_Request c)) "GET") then (s, methodNotAllowed)
  else if String.eqb value "" then (s, http_Error 400 missing None) else k s.

(** The user of the context is there for every handler; none of them reads it. *)
Definition handleRegisterApplication (user : option string) (c : sai_call) : S -> S * sai_response :=
  posting c (as_RegisterApplication (sc_Body c)) (fun req =>
    answer 200 "Failed to register application: " (fun x => RegisteredApplication x.1 x.2) (RegisterApplication (sc_env c) req)).

(** The text of the error is compared with a text no error has. *)
Definition ErrSAIApplicationNotFound : string := "sai: application not found".

Definition handleGetApplication (user : option string) (c : sai_call) : S -> S * sai_response :=
  getting c (sc_id c) "Application ID is required" (fun s =>
    let '(s', r) := svc_GetApplication (sc_env c) (sc_id c) s in
    (s', match r with
         | Value app => writeJSON 200 (GotApplication app)
         | Failed err =>
             if String.eqb (Error url_text err) ErrSAIApplicationNotFound then http_Error 404 "Application not found" None
             else http_Error 500 "Failed to get application: " (Some err)
         | Panicked => aborted
         end)).

Definition handleListUserApplications (user : option string) (c : sai_call) : S -> S * sai_response :=
  getting c (sc_userId c) "User ID is required"
    (answer 200 "Failed to list applications: " GotApplications (svc_ListApplications (sc_env c) (sc_userId c))).

Definition handleDiscoverAuthorizationAgent (user : option string) (c : sai_call) : S -> S * sai_response :=
  posting c (as_Discover (sc_Body c)) (fun userID =>
    answer 200 "Failed to discover authorization agent: " Discovered (DiscoverAuthorizationAgent options (sc_env c) 0 userID)).

Definition handleInitiateAuthorizationFlow (user : option string) (c : sai_call) : S -> S * sai_response :=
  posting c (as_Initiate (sc_Body c)) (fun req =>
    answer 200 "Failed to initiate authorization flow: " Initiated (InitiateAuthorizationFlow options (sc_env c) req)).

Definition handleCreateAccessGrant (user : option string) (c : sai_call) : S -> S * sai_response :=
  posting c (as_CreateAccessGrant (sc_Body c)) (fun req =>
    answer 200 "Failed to create access grant: " (fun x => Granted x.1 x.2) (CreateAccessGrant (sc_env c) req)).

Definition handleGetAccessGrant (user : option string) (c : sai_call) : S -> S * sai_response :=
  getting c (sc_id c) "Grant ID is required" (answer 200 "Failed to get access grant: " GotGrant (svc_GetAccessGrant (sc_id c))).

Definition handleRegisterData (user : option string) (c : sai_call) : S -> S * sai_response :=
  posting c (as_RegisterData (sc_Body c)) (fun req =>
    answer 200 "Failed to register data: " (fun x => RegisteredData x.1 x.2) (RegisterData (sc_env c) req)).

Definition handleGetDataRegistration (user : option string) (c : sai_call) : S -> S * sai_response :=
  getting c (sc_id c) "Registration ID is required"
    (answer 200 "Failed to get data registration: " GotData (svc_GetDataRegistration (sc_env c) (sc_id c))).

Definition handleStoreShapeTree (user : option string) (c : sai_call) : S -> S * sai_response :=
  posting c (as_ShapeTree (sc_Body c)) (fun tree =>
    answer 201 "Failed to store shape tree: " (fun _ => GotTree tree) (svc_StoreShapeTree (sc_env c) (Some tree))).

Definition handleGetShapeTree (user : option string) (c : sai_call) : S -> S * sai_response :=
  getting c (sc_id c) "Shape Tree ID is required" (answer 200 "Failed to get shape tree: " GotTree (svc_GetShapeTree (sc_env c) (sc_id c))).

Definition handleListShapeTrees (user : option string) (c : sai_call) : S -> S * sai_response := fun s =>
  if negb (String.eqb (r_Method (sc_Request c)) "GET") then (s, methodNotAllowed)
  else answer 200 "Failed to list shape trees: " GotTrees (svc_ListShapeTrees (sc_env c)) s.

(** ** Routes *)

Inductive endpoint :=
| PostApplications | GetApplicationByID | GetUserApplications | PostDiscover | PostAuthorize | PostGrants | GetGrantByID
| PostDataRegistrations | GetDataRegistrationByID | PostShapeTrees | GetShapeTreeByID | GetShapeTrees.

Definition handlerOf (ep : endpoint) : option string -> sai_call -> S -> S * sai_response :=
  match ep with
  | PostApplications => handleRegisterApplication
  | GetApplicationByID => handleGetApplication
  | GetUserApplications => handleListUserApplications
  | PostDiscover => handleDiscoverAuthorizationAgent
  | PostAuthorize => handleInitiateAuthorizationFlow
  | PostGrants => handleCreateAccessGrant
  | GetGrantByID => handleGetAccessGrant
  | PostDataRegistrations => handleRegisterData
  | GetDataRegistrationByID => handleGetDataRegistration
  | PostShapeTrees => handleStoreShapeTree
  | GetShapeTreeByID => handleGetShapeTree
  | GetShapeTrees => handleListShapeTrees
  end.
End handlers.

(** A segment of a pattern: a word, or a wildcard with its name. *)
Inductive segment_pattern := Lit (s : string) | Wild (name : string).

Definition RegisterRoutes : list (string * list segment_pattern * endpoint) :=
  [("POST", [Lit "sai"; Lit "applications"], PostApplications);
   ("GET", [Lit "sai"; Lit "applications"; Wild "id"], GetApplicationByID);
   ("GET", [Lit "sai"; Lit "users"; Wild "userId"; Lit "applications"], GetUserApplications);
   ("POST", [Lit "sai"; Lit "discover"], PostDiscover);
   ("POST", [Lit "sai"; Lit "authorize"], PostAuthorize);
   ("POST", [Lit "sai"; Lit "grants"], PostGrants);
   ("GET", [Lit "sai"; Lit "grants"; Wild "id"], GetGrantByID);
   ("POST", [Lit "sai"; Lit "data-registrations"], PostDataRegistrations);
   ("GET", [Lit "sai"; Lit "data-registrations"; Wild "id"], GetDataRegistrationByID);
   ("POST", [Lit "sai"; Lit "shape-trees"], PostShapeTrees);
   ("GET", [Lit "sai"; Lit "shape-trees"; Wild "id"], GetShapeTreeByID);
   ("GET", [Lit "sai"; Lit "shape-trees"], GetShapeTrees)].

(** The segments of an escaped path, unescaped where that is possible; a slash at the end is a
    segment of its own. *)
Definition path_segments (path : string) : list string :=
  let parts := Split (sdrop 1 path) "/" in
  let plain := map (fun seg => match unescape encodePath seg with Ok s => s | Err _ => seg end) parts in
  match last parts with
  | Some "" => removelast plain ++ ["/"]
  | _ => plain
  end.

(** The values of the wildcards, where the segments fit the pattern. *)
Fixpoint match_segments (pattern : list segment_pattern) (segs : list string) : option (gmap string string) :=
  match pattern, segs with
  | [], [] => Some ∅
  | Lit s :: pattern', seg :: segs' => if String.eqb s seg then match_segments pattern' segs' else None
  | Wild name :: pattern', seg :: segs' =>
      if String.eqb seg "/" then None else insert name seg <$> match_segments pattern' segs'
  | _, _ => None
  end.

(** The endpoint of a request and its values; a pattern of [GET] serves [HEAD] too.  The patterns
    that fit a path differ in their methods. *)
Definition route (method path : string) : option (endpoint * gmap string string) :=
  let fits '(m, pattern, ep) :=
    if String.eqb m method || (String.eqb method "HEAD" && String.eqb m "GET")
    then (fun values => (ep, values)) <$> match_segments pattern (path_segments path) else None in
  head (omap fits RegisterRoutes).

(** [cleanPath] of [net/http]. *)
Definition cleanPath (p : string) : string :=
  if String.eqb p "" then "/"
  else
    let p := if HasPrefix p "/" then p else String.append "/" p in
    let np := Clean p in
    if HasSuffix p "/" && negb (String.eqb np "/") then
      if String.eqb p (String.append np "/") then p else String.append np "/"
    else np.

Example route_grant : route "GET" "/sai/grants/urn:sai:access-grant:0a" = Some (GetGrantByID, {[ "id" := "urn:sai:access-grant:0a" ]}).
Proof. reflexivity. Qed.
Example route_escaped : route "GET" "/sai/applications/https:%2F%2Fapp.example%2F%23id" = Some (GetApplicationByID, {[ "id" := "https://app.example/#id" ]}).
Proof. reflexivity. Qed.
Example route_delete : route "DELETE" "/sai/grants/urn:sai:access-grant:0a" = None.
Proof. reflexivity. Qed.

(** ** The handler object *)

Record Handler (S W : Type) := mkHandler {
  h_service : SAIServiceOptions;
  h_storage : S;
  h_rateLimiter : RateLimiter;
  h_verifier : option IdentityVerifier;
  h_discovery : W * IssuerDiscoveryClient;
  h_maxBodySize : Z
}.
Arguments mkHandler {S W} _ _ _ _ _ _.
Arguments h_service {S W} _.
Arguments h_storage {S W} _.
Arguments h_rateLimiter {S W} _.
Arguments h_verifier {S W} _.
Arguments h_discovery {S W} _.
Arguments h_maxBodySize {S W} _.

(** [NewHandler]: the limiter and the bound of the body have defaults; without an authenticator
    there is one without a verifier. *)
Definition NewHandler {S W} (now : Z) (service : SAIServiceOptions) (storage : S) (limiter : option RateLimiter)
    (verifier : option IdentityVerifier) (d : W * IssuerDiscoveryClient) (maxBodySize : Z) : Handler S W :=
  mkHandler service storage
    (match limiter with
     | Some l => l
     | None => NewRateLimiter now DefaultSAIRateLimitRequestsPerWindow DefaultSAIRateLimitWindow
     end) verifier d (if maxBodySize <=? 0 then DefaultMaxSAIRequestBodySize else maxBodySize).

Section middleware.
Context {S W : Type} `{SAIStorage S} (Do : W -> string -> W * option http_response) (url_text : url_error -> string).

Definition invalidRequest (message : string) : sai_response := writeSAIError 400 "sai_invalid_request" message.
Definition tooManyRequests : sai_response :=
  writeSAIError 429 "sai_rate_limit_exceeded" "Rate limit exceeded. Please try again later.".
Definition unauthorized : sai_response := writeSAIError 401 "sai_unauthorized" "Authentication required".

Definition with_limiter (l : RateLimiter) (h : Handler S W) : Handler S W :=
  mkHandler (h_service h) (h_storage h) l (h_verifier h) (h_discovery h) (h_maxBodySize h).
Definition with_discovery (d : W * IssuerDiscoveryClient) (h : Handler S W) : Handler S W :=
  mkHandler (h_service h) (h_storage h) (h_rateLimiter h) (h_verifier h) d (h_maxBodySize h).
Definition with_storage (s : S) (h : Handler S W) : Handler S W :=
  mkHandler (h_service h) s (h_rateLimiter h) (h_verifier h) (h_discovery h) (h_maxBodySize h).

Definition invalid_value (check : string -> result sai_error unit) (v : string) : bool :=
  negb (String.eqb v "") && negb (is_ok (check v)).

Definition withSAISecurityMiddleware (ep : endpoint) (c : sai_call) (h : Handler S W) : Handler S W * sai_response :=
  let '(limiter, allowed) := Allow (sc_now c) (h_rateLimiter h) in
  let h := with_limiter limiter h in
  if negb allowed then (h, tooManyRequests)
  else if invalid_value sanitizeID (sc_id c) then (h, invalidRequest "Invalid resource ID")
  else if invalid_value sanitizeWebID (sc_userId c) then (h, invalidRequest "Invalid user ID")
  else
    let next (user : option string) (h : Handler S W) :=
      let '(s, response) := handlerOf (h_service h) url_text ep user c (h_storage h) in (with_storage s h, response) in
    if String.eqb (r_Method (sc_Request c)) "OPTIONS" then next None h
    else
      let '(d, res) := Authenticate Do (h_verifier h) (sc_clock c) (sc_Request c) (h_discovery h) in
      let h := with_discovery d h in
      match res with
      | Err _ => (h, unauthorized)
      | Ok authUserID => next (Some authUserID) h
      end.

(** What the multiplexer of the gateway does with a request: a redirect to the clean path, an
    endpoint, or a route of the other handlers. *)
Inductive mux_reply :=
| Redirected (path : string)
| ServedBySAI (response : sai_response)
| PassedOn.

(** A request as it arrives, with what its body decodes to and the readings of the outside. *)
Record arrival := mkArrival {
  av_Request : http_Request;
  av_Body : decoded_body;
  av_env : sai_env;
  av_now : Z;
  av_clock : verify_clock
}.

Definition av_Path (a : arrival) : string := match r_URL (av_Request a) with Some u => EscapedPath u | None => "" end.

Definition muxServe (a : arrival) (h : Handler S W) : Handler S W * mux_reply :=
  if negb (String.eqb (cleanPath (av_Path a)) (av_Path a)) then (h, Redirected (cleanPath (av_Path a)))
  else match route (r_Method (av_Request a)) (av_Path a) with
       | Some (ep, values) =>
           let c := mkSaiCall (av_Request a) (default "" (values !! "id")) (default "" (values !! "userId")) (av_Body a)
                      (av_env a) (av_now a) (av_clock a) in
           let '(h', response) := withSAISecurityMiddleware ep c h in (h', ServedBySAI response)
       | None => (h, PassedOn)
       end.

Definition muxServe_all (arrivals : list arrival) (h : Handler S W) : Handler S W :=
  foldl (fun h a => (muxServe a h).1) h arrivals.
End middleware.

(** ** Construction in the gateway *)

Record SAIConfig := mkSAIConfig {
  sai_AuthorizationAgentURL : string;
  sai_Timeout : Z;
  sai_MaxRetries : Z;
  sai_RateLimitEnabled : bool;
  sai_RequestsPerWindow : Z;
  sai_Window : Z;
  sai_MaxRequestBodySize : Z;
  sai_RequireAuthentication : bool
}.

Definition createSAIService (cfg : SAIConfig) (backendURL : string) : SAIServiceOptions :=
  NewSAIService (mkSAIServiceOptions (sai_Timeout cfg) (sai_MaxRetries cfg) backendURL (sai_AuthorizationAgentURL cfg)).

(** The verifier has the time of the start in its options. *)
Definition saiIdentityVerifier (auth : AuthConfig) (started : Z) : option IdentityVerifier :=
  if identityConfigured auth
  then Some (NewIdentityVerifierWithWebID
               (mkIdentityOptions (cfg_AllowedIdentityIssuers auth) (cfg_ExpectedIdentityAudience auth) started (cfg_MaxClockSkew auth))
               (cfg_VerifyWebIDOwnership auth))
  else None.

(** The part of [New] for an enabled SAI. *)
Definition newSAIHandler {W} (cfg : SAIConfig) (auth : AuthConfig) (backendURL : string) (started : Z) (w : W)
  : result string (Handler InMemorySAIStorage W) :=
  let verifier := saiIdentityVerifier auth started in
  fail! "SAI requires authentication but identity validation is not configured"
    when sai_RequireAuthentication cfg && negb (bool_decide (is_Some verifier)) in
  let limiter :=
    if sai_RateLimitEnabled cfg
    then NewRateLimiter started (if sai_RequestsPerWindow cfg <=? 0 then 100 else sai_RequestsPerWindow cfg)
           (if sai_Window cfg <=? 0 then minute else sai_Window cfg)
    else NewRateLimiter started DefaultSAIRateLimitRequestsPerWindow DefaultSAIRateLimitWindow in
  let maxBodySize := if sai_MaxRequestBodySize cfg <=? 0 then DefaultMaxSAIRequestBodySize else sai_MaxRequestBodySize cfg in
  Ok (NewHandler started (createSAIService cfg backendURL) NewInMemorySAIStorage (Some limiter) verifier
        (w, NewIssuerDiscoveryClient) maxBodySize).

(** ** Who is served *)

Lemma route_method method path ep values : route method path = Some (ep, values) -> method ∈ ["POST"; "GET"; "HEAD"].
Proof.
  unfold route. intros Hr. apply head_Some_elem_of, list_elem_of_omap in Hr as ([[m pattern] ep'] & Hin & Hfit).
  destruct (String.eqb m method || _) eqn:E; [|done]. apply orb_true_iff in E as [E%String.eqb_eq|E].
  - assert (m ∈ ["POST"; "GET"]) by (repeat (apply elem_of_cons in Hin as [[= -> -> ->]|Hin]; [set_solver|]); by apply not_elem_of_nil in Hin).
    set_solver.
  - bool_prop. subst. set_solver.
Qed.

Lemma Index_splits s sub i : Index s sub = Some i -> exists p t, s = String.append p (String.append sub t) /\ String.length p = i.
Proof.
  revert i. induction s as [|c s IH]; intros i; cbn [Index].
  - destruct (String.prefix sub "") eqn:E; [|done]. intros [= <-]. apply prefix_spec in E as [t Ht]. by exists "", t.
  - destruct (String.prefix sub (String c s)) eqn:E.
    + intros [= <-]. apply prefix_spec in E as [t Ht]. by exists "", t.
    + destruct (Index s sub) as [j|]; [|done]. intros [= <-]. destruct (IH j eq_refl) as (p & t & -> & <-). by exists (String c p), t.
Qed.

Lemma Cut_found s sep a b : Cut s sep = (a, b, true) -> s = String.append a (String.append sep b).
Proof.
  unfold Cut. destruct (Index s sep) as [i|] eqn:E; [|done]. destruct (Index_splits s sep i E) as (p & t & -> & <-).
  intros [= <- <-]. by rewrite stake_app, <- str_length_app, <- str_app_assoc, sdrop_app, str_app_assoc.
Qed.

Section genuine.
Context {W : Type} (Do : W -> string -> W * option http_response) (url_text : url_error -> string).

Lemma Authenticate_inv L verifier k r d d' res : cache_genuine Do L d.2 -> Authenticate Do verifier k r d = (d', res) ->
  cache_genuine Do (L ++ [(k, (d.1, d'.1))]) d'.2 /\
  (forall user, res = Ok user -> user <> "" /\ exists v token id, verifier = Some v /\
     Header_Get r "Authorization" = String.append "Bearer " token /\ verified Do L (k, (d.1, d'.1)) v token id /\ id_WebID id = user).
Proof.
  intros Hd H. assert (forall x, cache_genuine Do (L ++ [x]) d.2) as Hmore by (intros x; eapply cache_genuine_mono; [|exact Hd]; set_solver).
  unfold Authenticate in H. destruct (String.eqb _ ""); [by injection H as <- <-|].
  destruct (Cut (Header_Get r "Authorization") " ") as [[scheme token] found] eqn:Ec.
  destruct (negb found || _) eqn:Ef; [by injection H as <- <-|]. destruct verifier as [v|]; [|by injection H as <- <-].
  destruct (Verify Do k v token d) as [d1 r1] eqn:Ev. destruct (Verify_genuine Do L k v token d d1 r1 Ev Hd) as [Hd1 Hver].
  injection H as <- <-. split; [done|]. intros user Hu. destruct r1 as [id|]; [|done].
  destruct (String.eqb_spec (id_WebID id) "") as [|Hne]; [done|]. injection Hu as <-. split; [done|].
  exists v, token, id. split_and!; [done| |by apply Hver|done]. bool_prop. subst. by apply Cut_found in Ec.
Qed.

(** The answers of the middleware itself. *)
Definition refusals : list sai_response :=
  [tooManyRequests; invalidRequest "Invalid resource ID"; invalidRequest "Invalid user ID"; unauthorized].

(** The handler after requests that the network saw as [L]. *)
Record handler_ok (L : list (episode (W := W))) (v : option IdentityVerifier) (h : Handler InMemorySAIStorage W) : Prop := {
  ho_verifier : h_verifier h = v;
  ho_genuine : cache_genuine Do L (h_discovery h).2
}.

Lemma handler_ok_more L x v h : handler_ok L v h -> handler_ok (L ++ [x]) v h.
Proof. intros [Hv Hg]. split; [done|]. eapply cache_genuine_mono; [|done]. set_solver. Qed.

(** The world of the handler, and its requests as the network sees them. *)
Definition h_world (h : Handler InMemorySAIStorage W) : W := (h_discovery h).1.
Definition saiSteps (arrivals : list arrival) (h : Handler InMemorySAIStorage W) : list (episode (W := W)) :=
  episodes h_world av_clock (fun h a => (muxServe Do url_text a h).1) arrivals h.

(** The identity behind a request that reached its handler. *)
Definition authenticated (L : list (episode (W := W))) (call : episode) (v : option IdentityVerifier) (r : http_Request) (user : string) : Prop :=
  user <> "" /\ exists verifier token id, v = Some verifier /\ Header_Get r "Authorization" = String.append "Bearer " token /\
    verified Do L call verifier token id /\ id_WebID id = user.

Lemma middleware_inv L v ep c h h' rsp : handler_ok L v h -> r_Method (sc_Request c) <> "OPTIONS" ->
  withSAISecurityMiddleware Do url_text ep c h = (h', rsp) ->
  let call := (sc_clock c, (h_world h, h_world h')) in
  handler_ok (L ++ [call]) v h' /\
  (rsp ∈ refusals /\ h_storage h' = h_storage h \/
   exists user, authenticated L call v (sc_Request c) user /\
     handlerOf (h_service h) url_text ep (Some user) c (h_storage h) = (h_storage h', rsp)).
Proof.
  intros Hh Hm H. pose proof (fun x => handler_ok_more L x v h Hh) as Hmore. destruct Hh as [Hv Hg].
  unfold withSAISecurityMiddleware in H. destruct (Allow _ _) as [limiter allowed].
  assert (forall x, handler_ok (L ++ [x]) v (with_limiter limiter h)) as Hlim by (intros x; by destruct (Hmore x)).
  destruct (negb allowed). { injection H as <- <-. split; [apply Hlim|]. left. split; [left|done]. }
  destruct (invalid_value sanitizeID _). { injection H as <- <-. split; [apply Hlim|]. left. split; [right; left|done]. }
  destruct (invalid_value sanitizeWebID _). { injection H as <- <-. split; [apply Hlim|]. left. split; [right; right; left|done]. }
  apply String.eqb_neq in Hm. rewrite Hm in H.
  destruct (Authenticate Do _ _ _ _) as [d res] eqn:Ea. cbn in Ea. destruct (Authenticate_inv L _ _ _ _ _ _ Hg Ea) as [Hd Hok].
  destruct res as [user|]; [|injection H as <- <-; split; [by split|]; left; split; [do 3 right; left|done]].
  cbn [h_service h_storage with_discovery with_limiter] in H.
  destruct (handlerOf _ _ _ _ _ _) as [s r] eqn:Eh. injection H as <- <-. split; [by split|]. right. exists user. split; [|done].
  destruct (Hok user eq_refl) as (Hu & verifier & token & id & Hver & Hrest). split; [done|]. exists verifier, token, id. rewrite <- Hv. done.
Qed.

Lemma muxServe_inv L v a h h' reply : handler_ok L v h -> muxServe Do url_text a h = (h', reply) ->
  let call := (av_clock a, (h_world h, h_world h')) in
  handler_ok (L ++ [call]) v h' /\
  match reply with
  | ServedBySAI rsp =>
      rsp ∈ refusals /\ h_storage h' = h_storage h \/
      exists user ep c, authenticated L call v (av_Request a) user /\ sc_env c = av_env a /\
        handlerOf (h_service h) url_text ep (Some user) c (h_storage h) = (h_storage h', rsp)
  | _ => h' = h
  end.
Proof.
  intros Hh H. unfold muxServe in H. destruct (negb _). { injection H as <- <-. split; [by apply handler_ok_more|done]. }
  destruct (route _ _) as [[ep values]|] eqn:Er; [|injection H as <- <-; split; [by apply handler_ok_more|done]].
  destruct (withSAISecurityMiddleware _ _ _ _ _) as [h1 rsp] eqn:Em. injection H as <- <-.
  apply (middleware_inv L v) in Em as [Hh1 Hcases]; [|done|].
  - split; [done|]. destruct Hcases as [?|(user & Ha & Hx)]; [by left|right].
    by exists user, ep, (mkSaiCall (av_Request a) (default "" (values !! "id")) (default "" (values !! "userId")) (av_Body a)
                      (av_env a) (av_now a) (av_clock a)).
  - cbn. apply route_method in Er. intros Ho. rewrite Ho in Er. set_solver.
Qed.

Lemma muxServe_all_ok L v arrivals h : handler_ok L v h -> handler_ok (L ++ saiSteps arrivals h) v (muxServe_all Do url_text arrivals h).
Proof.
  unfold saiSteps. revert L h. induction arrivals as [|a arrivals IH]; intros L h Hh; cbn [muxServe_all foldl episodes]; [by rewrite app_nil_r|].
  destruct (muxServe Do url_text a h) as [h1 reply] eqn:E. apply (muxServe_inv L v a h h1 reply) in E as [Hh1 _]; [|done].
  apply IH in Hh1. by rewrite <- app_assoc in Hh1.
Qed.

Lemma newSAIHandler_ok cfg auth backendURL started (w : W) h :
  newSAIHandler cfg auth backendURL started w = Ok h ->
  handler_ok [] (saiIdentityVerifier auth started) h /\ h_storage h = NewInMemorySAIStorage.
Proof.
  unfold newSAIHandler. destruct (_ && _); [done|]. intros [= <-]. split; [|done]. split; [done|]. by apply cache_genuine_new.
Qed.
End genuine.

(** *** Examples *)

Definition sampleSAIConfig : SAIConfig := mkSAIConfig "https://agent.example" 0 0 true 2 minute 0 true.
Definition sampleAuth : AuthConfig :=
  mkAuthConfig true true true (60 * second) (300 * second) "" true ["https://idp.example"] "pod" false.
Definition sampleStart : Z := time_Unix 1700000000.

(** The token is Alice's, the grant is for the user of the argument. *)
Definition sampleArrival (authorization user : string) : arrival :=
  mkArrival (RequestBuilder.mkHTTPRequest "POST" (match Parse "/sai/grants" with Ok u => Some u | Err _ => None end) "pod.example" true
               {[ "Authorization" := [authorization] ]} "" (mkIdentity "" "" "" [] 0) [])
    (mkDecoded None None None (Some (sampleGrantRequest user)) None None) sampleSaiEnv sampleStart sampleClock.
Definition aliceBearer : string := String.append "Bearer " sampleToken.

Definition sampleHandler : Handler InMemorySAIStorage unit :=
  NewHandler sampleStart (createSAIService sampleSAIConfig "https://pod.example") NewInMemorySAIStorage
    (Some (NewRateLimiter sampleStart 2 minute)) (saiIdentityVerifier sampleAuth sampleStart) (tt, NewIssuerDiscoveryClient)
    DefaultMaxSAIRequestBodySize.

Lemma sampleHandler_new : newSAIHandler sampleSAIConfig sampleAuth "https://pod.example" sampleStart tt = Ok sampleHandler.
Proof. reflexivity. Qed.

Definition url_words (e : url_error) : string := "invalid URL".

Lemma sampleArrival_authenticates user :
  (Authenticate sampleNetwork (h_verifier sampleHandler) (av_clock (sampleArrival aliceBearer user)) (av_Request (sampleArrival aliceBearer user))
     (h_discovery sampleHandler)).2 = Ok alice.
Proof.
  assert (match (Authenticate sampleNetwork (h_verifier sampleHandler) sampleClock (av_Request (sampleArrival aliceBearer bob))
                  (h_discovery sampleHandler)).2 with Ok u => Some u | Err _ => None end = Some alice) as Hr by (vm_compute; reflexivity).
  change (av_Request (sampleArrival aliceBearer user)) with (av_Request (sampleArrival aliceBearer bob)).
  change (av_clock (sampleArrival aliceBearer user)) with sampleClock.
  destruct (Authenticate sampleNetwork (h_verifier sampleHandler) sampleClock (av_Request (sampleArrival aliceBearer bob)) (h_discovery sampleHandler))
    as [d [u|]]; cbn [snd] in *; [|discriminate Hr]. by injection Hr as ->.
Qed.

(** C11: the endpoints of the gateway act for authenticated requests only.  After any requests, a
    request that SAI serves is refused without effect, by the limiter, for a malformed value in its
    path, or as unauthorized; or it carries a bearer token whose identity is verified: signed by a
    key an allowed issuer published, with claims accepted at the time of the start.  Without
    configured issuers every request is refused. *)
Theorem sai_requires_verified_token {W} (Do : W -> string -> W * option http_response) (url_text : url_error -> string)
    (cfg : SAIConfig) (auth : AuthConfig) (backendURL : string) (started : Z) (w : W) (h0 h' : Handler InMemorySAIStorage W)
    (arrivals : list arrival) (a : arrival) (rsp : sai_response) :
  newSAIHandler cfg auth backendURL started w = Ok h0 ->
  let h := muxServe_all Do url_text arrivals h0 in
  muxServe Do url_text a h = (h', ServedBySAI rsp) ->
  rsp ∈ refusals /\ h_storage h' = h_storage h \/
  identityConfigured auth = true /\ exists user,
    authenticated Do (saiSteps Do url_text arrivals h0) (av_clock a, (h_world h, h_world h')) (saiIdentityVerifier auth started) (av_Request a) user.
Proof.
  intros Hn h Hs. destruct (newSAIHandler_ok Do cfg auth backendURL started w h0 Hn) as [Hok _].
  apply (muxServe_all_ok Do url_text _ _ arrivals) in Hok. fold h in Hok.
  destruct (muxServe_inv Do url_text _ _ a h h' (ServedBySAI rsp) Hok Hs) as (_ & [Hr|(user & ep & c & Ha & _)]).
  - by left.
  - right. split; [|by exists user]. destruct Ha as (_ & v & token & id & Hv & _). unfold saiIdentityVerifier in Hv.
    by destruct (identityConfigured auth).
Qed.

Lemma sai_requires_verified_token_witness :
  exists h' rsp, muxServe sampleNetwork url_words (sampleArrival "Basic YWxpY2U=" bob) sampleHandler = (h', ServedBySAI rsp) /\
    h_storage h' = h_storage sampleHandler.
Proof.
  destruct (muxServe sampleNetwork url_words (sampleArrival "Basic YWxpY2U=" bob) sampleHandler) as [h' reply] eqn:E.
  assert (match (muxServe sampleNetwork url_words (sampleArrival "Basic YWxpY2U=" bob) sampleHandler).2 with
          | ServedBySAI rsp => Some (rsp_Status rsp) | _ => None end = Some 401) as Hr by (vm_compute; reflexivity).
  rewrite E in Hr. destruct reply as [|rsp|]; [discriminate Hr| |discriminate Hr]. exists h', rsp. split; [reflexivity|].
  destruct (sai_requires_verified_token sampleNetwork url_words sampleSAIConfig sampleAuth "https://pod.example" sampleStart tt sampleHandler h' []
    (sampleArrival "Basic YWxpY2U=" bob) rsp sampleHandler_new E) as [[_ Hs]|(_ & user & _ & v & token & id & _ & Ha & _)]; [exact Hs|].
  exfalso. vm_compute in Ha. discriminate Ha.
Defined.

(** ** What is answered *)

(** An answer with the security headers that is not cut off; one with an error status has changed
    nothing. *)
Definition well_answered (s : InMemorySAIStorage) (res : InMemorySAIStorage * sai_response) : Prop :=
  sai_ok res.1 /\ securityHeaders ⊆ rsp_Header res.2 /\ rsp_Content res.2 <> Aborted /\ (400 <= rsp_Status res.2 -> res.1 = s).

Lemma http_Error_headers status text cause : securityHeaders ⊆ rsp_Header (http_Error status text cause).
Proof.
  unfold http_Error. cbn [rsp_Header].
  replace (<["X-Content-Type-Options" := "nosniff"]> securityHeaders) with securityHeaders by (symmetry; by apply insert_id).
  by apply insert_subseteq.
Qed.

Lemma writeJSON_headers status reply : securityHeaders ⊆ rsp_Header (writeJSON status reply).
Proof. by apply insert_subseteq. Qed.

Lemma http_Error_answered s status text cause : sai_ok s -> well_answered s (s, http_Error status text cause).
Proof. intros Hs. split_and!; [done|apply http_Error_headers|done|done]. Qed.

Lemma unreplying {A} (f : A -> sai_reply) (m : M InMemorySAIStorage A) s : settles (replying f m) s -> settles m s.
Proof.
  unfold settles, replying, bind, ret. destruct (m s) as [s1 []]; intros [(err & [= -> ?])|(s' & b & [= -> ?] & Hs)]; eauto.
Qed.

Lemma answer_answered {A} status failure (f : A -> sai_reply) (m : M InMemorySAIStorage A) s :
  sai_ok s -> status < 400 -> settles m s -> well_answered s (answer status failure f m s).
Proof.
  intros Hs Hst [(err & Hm)|(s' & x & Hm & Hs')]; unfold answer; rewrite Hm; [by apply http_Error_answered|].
  split_and!; [done|apply writeJSON_headers|done|cbn; lia].
Qed.

Lemma posting_answered {B} c (body : option B) k s : sai_ok s -> (forall b, body = Some b -> well_answered s (k b s)) ->
  well_answered s (posting c body k s).
Proof. intros Hs Hk. unfold posting. destruct (negb _); [by apply http_Error_answered|]. destruct body; [by apply Hk|by apply http_Error_answered]. Qed.

Lemma getting_answered c value missing k s : sai_ok s -> well_answered s (k s) -> well_answered s (getting c value missing k s).
Proof. intros Hs Hk. unfold getting. destruct (negb _); [by apply http_Error_answered|]. destruct (String.eqb _ _); [by apply http_Error_answered|done]. Qed.

Lemma handlerOf_answered options url_text ep user c s : sai_ok s -> timely (sc_env c) ->
  well_answered s (handlerOf options url_text ep user c s).
Proof.
  intros Hs Ht. pose proof (fun r => perform_settles options (sc_env c) r s Hs Ht) as Hp. destruct ep; cbn [handlerOf].
  - apply posting_answered; [done|]. intros req _. apply answer_answered; [done..|]. exact (unreplying _ _ _ (Hp (RegisterApplicationOf req))).
  - apply getting_answered; [done|]. destruct (unreplying _ _ _ (Hp (ReadApplication (sc_id c)))) as [(err & Hm)|(s' & x & Hm & Hs')]; rewrite Hm.
    + destruct (String.eqb _ _); by apply http_Error_answered.
    + split_and!; [done|apply writeJSON_headers|done|cbn; lia].
  - apply getting_answered, answer_answered; [done..|]. exact (unreplying _ _ _ (Hp (ReadApplications (sc_userId c)))).
  - apply posting_answered; [done|]. intros userID _. apply answer_answered; [done..|]. exact (unreplying _ _ _ (Hp (DiscoverFor userID))).
  - apply posting_answered; [done|]. intros req _. apply answer_answered; [done..|]. exact (unreplying _ _ _ (Hp (InitiateOf req))).
  - apply posting_answered; [done|]. intros req _. apply answer_answered; [done..|]. exact (unreplying _ _ _ (Hp (GrantOf req))).
  - apply getting_answered, answer_answered; [done..|]. exact (unreplying _ _ _ (Hp (ReadGrant (sc_id c)))).
  - apply posting_answered; [done|]. intros req _. apply answer_answered; [done..|]. exact (unreplying _ _ _ (Hp (DataOf req))).
  - apply getting_answered, answer_answered; [done..|]. exact (unreplying _ _ _ (Hp (ReadData (sc_id c)))).
  - apply posting_answered; [done|]. intros tree _. apply answer_answered; [done..|]. exact (unreplying _ _ _ (Hp (TreeOf (Some tree)))).
  - apply getting_answered, answer_answered; [done..|]. exact (unreplying _ _ _ (Hp (ReadTree (sc_id c)))).
  - unfold handleListShapeTrees. destruct (negb _); [by apply http_Error_answered|]. apply answer_answered; [done..|].
    exact (unreplying _ _ _ (Hp ReadTrees)).
Qed.

(** What the loops of requests keep. *)
Lemma refusals_answered s rsp : rsp ∈ refusals -> sai_ok s -> well_answered s (s, rsp).
Proof.
  intros Hr Hs. split; [done|]. cbn [fst snd]. unfold refusals in Hr.
  assert (forall status code message, securityHeaders ⊆ rsp_Header (writeSAIError status code message)) as Hh by (intros; apply map_union_subseteq_l).
  repeat (apply elem_of_cons in Hr as [->|Hr]; [split_and!; [apply Hh|done|done]|]). by apply not_elem_of_nil in Hr.
Qed.

Lemma muxServe_answered {W} (Do : W -> string -> W * option http_response) url_text v a h h' reply :
  (exists L, handler_ok Do L v h) -> sai_ok (h_storage h) -> timely (av_env a) -> muxServe Do url_text a h = (h', reply) ->
  (exists L, handler_ok Do L v h') /\ sai_ok (h_storage h') /\
  (forall rsp, reply = ServedBySAI rsp -> well_answered (h_storage h) (h_storage h', rsp)).
Proof.
  intros [L Hh] Hs Ht Hm. destruct (muxServe_inv Do url_text L v a h h' reply Hh Hm) as [Hh' Hc]. split; [by eexists|].
  destruct reply as [path|rsp|]; [by rewrite Hc| |by rewrite Hc].
  assert (well_answered (h_storage h) (h_storage h', rsp)) as Hw.
  { destruct Hc as [[Hr ->]|(user & ep & c & _ & Henv & Hx)]; [by apply refusals_answered|].
    rewrite <- Hx. apply handlerOf_answered; [done|]. by rewrite Henv. }
  split; [apply Hw|]. by intros ? [= <-].
Qed.

Lemma muxServe_all_answered {W} (Do : W -> string -> W * option http_response) url_text v arrivals h :
  (exists L, handler_ok Do L v h) -> sai_ok (h_storage h) -> Forall (fun a => timely (av_env a)) arrivals ->
  (exists L, handler_ok Do L v (muxServe_all Do url_text arrivals h)) /\ sai_ok (h_storage (muxServe_all Do url_text arrivals h)).
Proof.
  intros Hh Hs Hall. revert h Hh Hs. induction Hall as [|a arrivals Ha _ IH]; intros h Hh Hs; cbn [muxServe_all foldl]; [done|].
  destruct (muxServe Do url_text a h) as [h1 reply] eqn:E. destruct (muxServe_answered Do url_text v a h h1 reply Hh Hs Ha E) as (? & ? & _).
  by apply IH.
Qed.

(** C12: after any requests to the gateway, SAI answers the next one without a panic and with all
    security headers, and a request that is answered with an error has changed nothing. *)
Theorem sai_answers_hardened {W} (Do : W -> string -> W * option http_response) (url_text : url_error -> string)
    (cfg : SAIConfig) (auth : AuthConfig) (backendURL : string) (started : Z) (w : W) (h0 h' : Handler InMemorySAIStorage W)
    (arrivals : list arrival) (a : arrival) (rsp : sai_response) :
  newSAIHandler cfg auth backendURL started w = Ok h0 ->
  Forall (fun a => timely (av_env a)) arrivals -> timely (av_env a) ->
  let h := muxServe_all Do url_text arrivals h0 in
  muxServe Do url_text a h = (h', ServedBySAI rsp) ->
  securityHeaders ⊆ rsp_Header rsp /\ rsp_Content rsp <> Aborted /\ (400 <= rsp_Status rsp -> h_storage h' = h_storage h) /\
  sai_ok (h_storage h').
Proof.
  intros Hn Hall Ha h Hs. destruct (newSAIHandler_ok Do cfg auth backendURL started w h0 Hn) as [Hok Hst].
  destruct (muxServe_all_answered Do url_text _ arrivals h0 (ex_intro _ [] Hok)) as [Hok' Hs']; [rewrite Hst; apply sai_ok_new|done|].
  destruct (muxServe_answered Do url_text _ a h h' _ Hok' Hs' Ha Hs) as (_ & Hfin & Hw).
  destruct (Hw rsp eq_refl) as (_ & H1 & H2 & H3). done.
Qed.

Lemma sai_answers_hardened_witness :
  exists h' rsp, muxServe sampleNetwork url_words (sampleArrival "Basic YWxpY2U=" bob) sampleHandler = (h', ServedBySAI rsp) /\
    rsp_Header rsp !! "X-Frame-Options" = Some "DENY" /\ sai_ok (h_storage h').
Proof.
  destruct (muxServe sampleNetwork url_words (sampleArrival "Basic YWxpY2U=" bob) sampleHandler) as [h' reply] eqn:E.
  assert (match (muxServe sampleNetwork url_words (sampleArrival "Basic YWxpY2U=" bob) sampleHandler).2 with
          | ServedBySAI rsp => Some (rsp_Status rsp) | _ => None end = Some 401) as Hr by (vm_compute; reflexivity).
  rewrite E in Hr. destruct reply as [|rsp|]; [discriminate Hr| |discriminate Hr]. exists h', rsp. split; [reflexivity|].
  destruct (sai_answers_hardened sampleNetwork url_words sampleSAIConfig sampleAuth "https://pod.example" sampleStart tt sampleHandler h' []
    (sampleArrival "Basic YWxpY2U=" bob) rsp sampleHandler_new (Forall_nil_2 _) sampleSaiEnv_timely E) as (Hh & _ & _ & Hok).
  split; [|exact Hok]. eapply lookup_weaken; [|exact Hh]. vm_compute. reflexivity.
Defined.

(** ** For whom *)

(** The data grants of a request replace those with their identifiers; the last of several with
    one identifier stays. *)
Lemma put_data_grant_lookup s g k : dg_ID g <> "" ->
  dataGrants (put StoreDataGrant s g) !! k = if decide (k = dg_ID g) then Some g else dataGrants s !! k.
Proof.
  intros Hg%String.eqb_neq. unfold put, StoreDataGrant. rewrite Hg. cbn.
  assert (<[dg_ID g := g]> (dataGrants s) !! k = if decide (k = dg_ID g) then Some g else dataGrants s !! k) as <-.
  { case_decide; [subst; apply lookup_insert_eq|by apply lookup_insert_ne]. }
  by destruct (dataGrantsByAccessGrant s !! dg_ID g).
Qed.

Lemma put_data_grants_lookup grants s k : Forall (fun g => dg_ID g <> "") grants ->
  (forall g, g ∈ grants -> dg_ID g = k -> exists g', g' ∈ grants /\ dg_ID g' = k /\ dataGrants (foldl (put StoreDataGrant) s grants) !! k = Some g') /\
  ((forall g, g ∈ grants -> dg_ID g <> k) -> dataGrants (foldl (put StoreDataGrant) s grants) !! k = dataGrants s !! k).
Proof.
  intros Hall. revert s. induction Hall as [|g grants Hg _ IH]; intros s; cbn [foldl].
  - split; [by intros g ?%not_elem_of_nil|done].
  - destruct (IH (put StoreDataGrant s g)) as [Hin Hout]. split.
    + intros g' Hg' Hk. destruct (decide (Exists (fun x => dg_ID x = k) grants)) as [(x & Hx & Hxk)%Exists_exists|Hno].
      * destruct (Hin x Hx Hxk) as (y & Hy & Hyk & Hl). exists y. split_and!; [by right|done|done].
      * rewrite <- Forall_Exists_neg, Forall_forall in Hno. apply elem_of_cons in Hg' as [->|Hg']; [|by apply Hno in Hg'].
        exists g. split_and!; [left|done|]. rewrite Hout by done. by rewrite put_data_grant_lookup, decide_True.
    + intros Hno. rewrite Hout by (intros x Hx; apply Hno; by right). rewrite put_data_grant_lookup by done.
      rewrite decide_False; [done|]. intros ->. by apply (Hno g); [left|].
Qed.

Lemma CreateAccessGrant_data e req s : sai_ok s -> timely e -> env_ctx e 0 = None -> validateCreateAccessGrantRequest req = Ok tt ->
  dataGrants (CreateAccessGrant e req s).1 = dataGrants (foldl (put StoreDataGrant) s (cag_DataGrants req)).
Proof.
  intros Hs Ht Hc Hv. destruct (CreateAccessGrant_valid e req s Hs Ht Hc Hv) as (found & _ & Hr & _). rewrite Hr. cbn [fst].
  unfold put at 1. unfold StoreApplicationRegistration. set (s1 := put StoreAccessGrant _ _).
  assert (dataGrants s1 = dataGrants (foldl (put StoreDataGrant) s (cag_DataGrants req))) as <-.
  { unfold s1, put at 1, StoreAccessGrant. by destruct (String.eqb _ _). }
  by destruct (String.eqb _ _).
Qed.

(** C21: a grant is made for the user the body names, whoever asks.  A request to make a valid
    grant that passes the limiter and authenticates, as any caller at all, is answered with a grant
    by the user of its body; the grant is stored, and its data grants replace those with the same
    identifiers, whoever owns the data. *)
Theorem sai_grants_for_anyone {W} (Do : W -> string -> W * option http_response) (url_text : url_error -> string)
    (h : Handler InMemorySAIStorage W) (a : arrival) (req : CreateAccessGrantRequest) (caller : string) :
  sai_ok (h_storage h) -> timely (av_env a) -> env_ctx (av_env a) 0 = None ->
  r_Method (av_Request a) = "POST" -> av_Path a = "/sai/grants" ->
  as_CreateAccessGrant (av_Body a) = Some req -> validateCreateAccessGrantRequest req = Ok tt ->
  (Allow (av_now a) (h_rateLimiter h)).2 = true ->
  (Authenticate Do (h_verifier h) (av_clock a) (av_Request a) (h_discovery h)).2 = Ok caller ->
  exists h' g reg, muxServe Do url_text a h = (h', ServedBySAI (writeJSON 200 (Granted g reg))) /\
    ag_GrantedBy g = cag_UserID req /\ accessGrants (h_storage h') !! ag_ID g = Some g /\
    forall dg, dg ∈ cag_DataGrants req ->
      exists dg', dg' ∈ cag_DataGrants req /\ dg_ID dg' = dg_ID dg /\ dataGrants (h_storage h') !! dg_ID dg = Some dg'.
Proof.
  intros Hs Ht Hc Hm Hp Hb Hv Hl Ha. unfold muxServe. rewrite Hp, Hm. cbn [String.eqb].
  change (route "POST" "/sai/grants") with (Some (PostGrants, ∅ : gmap string string)).
  change (negb (String.eqb (cleanPath "/sai/grants") "/sai/grants")) with false. cbn [lookup default].
  unfold withSAISecurityMiddleware. cbn [sc_now sc_id sc_userId sc_Request sc_clock].
  destruct (Allow (av_now a) (h_rateLimiter h)) as [limiter allowed]. cbn [snd] in Hl. subst allowed. cbn [negb].
  rewrite !lookup_empty. cbn [default]. change (invalid_value sanitizeID "") with false. change (invalid_value sanitizeWebID "") with false.
  rewrite Hm. change (String.eqb "POST" "OPTIONS") with false. cbn [h_verifier h_discovery with_limiter].
  destruct (Authenticate Do _ _ _ _) as [d res]. cbn [snd] in Ha. subst res.
  cbn [h_service h_storage with_discovery with_limiter handlerOf]. unfold handleCreateAccessGrant, posting. cbn [sc_Request sc_Body sc_env].
  rewrite Hm, Hb. cbn [String.eqb Ascii.eqb Bool.eqb negb]. unfold answer.
  destruct (CreateAccessGrant_valid (av_env a) req _ Hs Ht Hc Hv) as (found & _ & Hr & _).
  destruct (CreateAccessGrant_grants (av_env a) req _ Hs Ht Hc Hv) as (_ & Hg & _).
  pose proof (CreateAccessGrant_data (av_env a) req _ Hs Ht Hc Hv) as Hd. rewrite Hr in Hg, Hd |- *. cbn [fst] in Hg, Hd.
  do 3 eexists. split; [reflexivity|]. split; [done|]. cbn [h_storage with_storage fst]. split; [rewrite Hg; apply lookup_insert_eq|].
  intros dg Hdg. rewrite Hd. destruct (put_data_grants_lookup (cag_DataGrants req) (h_storage h) (dg_ID dg)) as [Hin _]; [|by apply (Hin dg)].
  unfold validateCreateAccessGrantRequest in Hv. autorewrite with sai in Hv. destruct Hv as (_ & _ & _ & _ & Hgs & _).
  eapply Forall_impl; [exact Hgs|]. intros x Hx. apply bind_ok in Hx as [Hx%within_ok _]. by apply ValidateIRI_nonempty.
Qed.

(** Alice makes a grant for Bob. *)
Lemma sai_grants_for_anyone_witness :
  exists h' g reg, muxServe sampleNetwork url_words (sampleArrival aliceBearer bob) sampleHandler = (h', ServedBySAI (writeJSON 200 (Granted g reg))) /\
    ag_GrantedBy g = bob /\ bob <> alice.
Proof.
  destruct (sai_grants_for_anyone sampleNetwork url_words sampleHandler (sampleArrival aliceBearer bob) (sampleGrantRequest bob) alice)
    as (h' & g & reg & Hm & Hby & _); [exact sai_ok_new|exact sampleSaiEnv_timely|reflexivity|reflexivity|reflexivity|reflexivity| |reflexivity| |].
  - apply sampleGrantRequest_valid. right; left.
  - apply sampleArrival_authenticates.
  - exists h', g, reg. split; [exact Hm|]. split; [exact Hby|discriminate].
Defined.

(** ** The shared limit *)

Definition within_window (rl : RateLimiter) (now : Z) : Prop := now - rl_lastRequest rl <= rl_window rl.

Lemma Allow_within now rl : within_window rl now -> in_int64 (rl_window rl) -> 0 <= rl_requests rl < int64_max ->
  Allow now rl = (mkRateLimiter (rl_maxRequests rl) (rl_window rl) (rl_lastRequest rl) (rl_requests rl + 1), rl_requests rl + 1 <=? rl_maxRequests rl).
Proof.
  unfold within_window, in_int64, Allow, time_Sub. intros Hw Hi Hr. replace (rl_window rl <? _) with false by lia.
  rewrite wrap64_id by (unfold in_int64, int64_min in *; lia). done.
Qed.

Section limit.
Context {W : Type} (Do : W -> string -> W * option http_response) (url_text : url_error -> string).

Definition call_all (calls : list (endpoint * sai_call)) (h : Handler InMemorySAIStorage W) : Handler InMemorySAIStorage W :=
  foldl (fun h x => (withSAISecurityMiddleware Do url_text x.1 x.2 h).1) h calls.

Lemma middleware_limiter ep c h : h_rateLimiter (withSAISecurityMiddleware Do url_text ep c h).1 = (Allow (sc_now c) (h_rateLimiter h)).1.
Proof.
  unfold withSAISecurityMiddleware. destruct (Allow _ _) as [limiter allowed]. destruct (negb allowed); [done|].
  destruct (invalid_value sanitizeID _); [done|]. destruct (invalid_value sanitizeWebID _); [done|].
  destruct (String.eqb _ _); [by destruct (handlerOf _ _ _ _ _ _)|]. destruct (Authenticate _ _ _ _ _) as [d []]; [|done].
  by destruct (handlerOf _ _ _ _ _ _).
Qed.

Lemma call_all_limiter calls h : in_int64 (rl_window (h_rateLimiter h)) -> 0 <= rl_requests (h_rateLimiter h) ->
  rl_requests (h_rateLimiter h) + Z.of_nat (length calls) <= int64_max ->
  Forall (fun x => within_window (h_rateLimiter h) (sc_now x.2)) calls ->
  h_rateLimiter (call_all calls h) = mkRateLimiter (rl_maxRequests (h_rateLimiter h)) (rl_window (h_rateLimiter h))
    (rl_lastRequest (h_rateLimiter h)) (rl_requests (h_rateLimiter h) + Z.of_nat (length calls)).
Proof.
  intros Hw Hr Hn Hall. remember (h_rateLimiter h) as rl eqn:E. revert h rl E Hw Hr Hn Hall.
  induction calls as [|[ep c] calls IH]; intros h rl E Hw Hr Hn Hall; cbn [call_all foldl length].
  - rewrite <- E, Z.add_0_r. by destruct rl.
  - apply Forall_cons in Hall as [Hc Hall]. cbn [fst snd length] in *.
    assert (h_rateLimiter (withSAISecurityMiddleware Do url_text ep c h).1 =
      mkRateLimiter (rl_maxRequests rl) (rl_window rl) (rl_lastRequest rl) (rl_requests rl + 1)) as Hl
      by (rewrite middleware_limiter, <- E, Allow_within by (done || lia); done).
    unfold call_all in IH. erewrite IH; [|symmetry; exact Hl|..]; cbn [rl_maxRequests rl_window rl_lastRequest rl_requests]; [f_equal; lia|done|lia|lia|exact Hall].
Qed.
End limit.

(** C40: the limit of SAI is one for all clients, and counts requests before it looks at who sends
    them.  From a fresh limiter, after any requests within the window, the next one passes the
    limiter exactly when there were fewer than the limit; once they are as many, authenticated or
    not, every request within the window is refused without effect. *)
Theorem sai_limit_shared {W} (Do : W -> string -> W * option http_response) (url_text : url_error -> string)
    (h : Handler InMemorySAIStorage W) (calls : list (endpoint * sai_call)) (ep : endpoint) (c : sai_call) :
  in_int64 (rl_window (h_rateLimiter h)) -> rl_requests (h_rateLimiter h) = 0 -> Z.of_nat (length calls) < int64_max ->
  Forall (fun x => within_window (h_rateLimiter h) (sc_now x.2)) calls -> within_window (h_rateLimiter h) (sc_now c) ->
  let h1 := call_all Do url_text calls h in
  (Allow (sc_now c) (h_rateLimiter h1)).2 = (Z.of_nat (length calls) <? rl_maxRequests (h_rateLimiter h)) /\
  (rl_maxRequests (h_rateLimiter h) <= Z.of_nat (length calls) ->
   let '(h2, rsp) := withSAISecurityMiddleware Do url_text ep c h1 in rsp = tooManyRequests /\ h_storage h2 = h_storage h1).
Proof.
  intros Hw H0 Hn Hall Hc h1. assert (h_rateLimiter h1 = mkRateLimiter (rl_maxRequests (h_rateLimiter h)) (rl_window (h_rateLimiter h))
    (rl_lastRequest (h_rateLimiter h)) (Z.of_nat (length calls))) as Hl
    by (unfold h1; rewrite call_all_limiter, H0 by (done || lia); done).
  rewrite Hl, Allow_within by (done || (cbn; lia)). cbn [snd rl_maxRequests rl_requests]. split; [lia|]. intros Hmax.
  unfold withSAISecurityMiddleware. rewrite Hl, Allow_within by (done || (cbn; lia)). cbn [rl_maxRequests rl_requests].
  by replace (Z.of_nat (length calls) + 1 <=? rl_maxRequests (h_rateLimiter h)) with false by lia.
Qed.

(** Two anonymous requests, and Alice is refused. *)
Lemma sai_limit_shared_witness :
  let anonymous := mkSaiCall (av_Request (sampleArrival "" bob)) "" "" (av_Body (sampleArrival "" bob)) sampleSaiEnv sampleStart sampleClock in
  let c := mkSaiCall (av_Request (sampleArrival aliceBearer alice)) "" "" (av_Body (sampleArrival aliceBearer alice)) sampleSaiEnv sampleStart sampleClock in
  let h1 := call_all sampleNetwork url_words [(PostGrants, anonymous); (PostGrants, anonymous)] sampleHandler in
  let '(h2, rsp) := withSAISecurityMiddleware sampleNetwork url_words PostGrants c h1 in rsp = tooManyRequests /\ h_storage h2 = h_storage h1.
Proof.
  set (anonymous := mkSaiCall _ _ _ _ _ _ _). set (c := mkSaiCall _ _ _ _ _ _ _).
  apply (sai_limit_shared sampleNetwork url_words sampleHandler [(PostGrants, anonymous); (PostGrants, anonymous)] PostGrants c).
  - split; vm_compute; discriminate.
  - reflexivity.
  - reflexivity.
  - repeat constructor; vm_compute; discriminate.
  - vm_compute. discriminate.
  - vm_compute. discriminate.
Defined.

(** ** Applications that are not there *)

(** no request for an application is answered with 404: the handler looks for a text that no
    error of the service has, so that an application which is not stored is an internal error. *)
Theorem missing_application_is_500 (options : SAIServiceOptions) (url_text : url_error -> string) (user : option string) (c : sai_call)
    (s : InMemorySAIStorage) :
  rsp_Status (handlerOf options url_text GetApplicationByID user c s).2 <> 404 /\
  (r_Method (sc_Request c) = "GET" -> env_ctx (sc_env c) 0 = None -> ValidateIRI (sc_id c) = Ok tt ->
   applications s !! sc_id c = None ->
   handlerOf options url_text GetApplicationByID user c s =
   (s, http_Error 500 "Failed to get application: " (Some (not_found "application" (sc_id c))))).
Proof.
  cbn [handlerOf]. unfold handleGetApplication, getting, svc_GetApplication, bind, context_live, checked, stored.
  cbn [db_GetApplication memory_storage]. unfold GetApplication, fetch. split.
  - destruct (negb _); [done|]. destruct (String.eqb _ ""); [done|]. destruct (env_ctx _ _); [done|].
    destruct (ValidateIRI _); [|done]. by destruct (applications s !! sc_id c).
  - intros Hm Hc Hv Hn. rewrite Hm, Hc, Hv, Hn. cbn [String.eqb Ascii.eqb Bool.eqb negb].
    apply ValidateIRI_nonempty, String.eqb_neq in Hv. by rewrite Hv.
Qed.
